(* ===== verification/_CoqProject ===== *)
-Q . S2P
Prelude.v
KSem.v
Platform.v
Sx12xx.v
Air.v
TimeOnAir.v
CLib.v
Plan.v
Messages.v
Runs.v
Lses.v
LsesSweep.v
LsesControl.v
LsesExperiment.v
Lres.v
LresEval.v
LresWindow.v
LresSweep.v
Experiment.v
LresControl.v
LresExperiment.v
Java.v
Database.v
Phone.v
Customize.v
StartScreen.v
PhoneSettings.v
Settings.v
Recording.v
Graphs.v
Evaluation.v
Collect.v
System.v
Losses.v
Pitfalls.v
PhoneScreens.v
PhoneFlow.v
LoopCommand.v
Explore.v
Crc.v
ByteOrder.v
Uuid.v
Att.v
AttRead.v
AttServer.v
AttDiscovery.v
Commands.v
Notify.v
Link.v
Strtol.v
Shell.v
Timeout.v
DList.v
LinkedQueues.v
TimeUnits.v
Sched.v
SchedInv.v
SchedEvents.v
Timer.v
Hal.v
HalKernel.v
RingBuffer.v
Sx127x.v
Sx126x.v
Printf.v
PrintfText.v
PrintfFloat.v
Printk.v
UuidText.v
Hex.v
Addr.v
Board.v
Scanning.v
Sensors.v
