(* ===== verification/Prelude.v ===== *)
(** * LoRa evaluation: verification development

    The repository is a Zephyr tree with two firmwares for measuring LoRa
    links. A sender (samples/lora_eval_send) transmits a planned series of
    messages with every combination of frequency, power, spreading factor,
    bandwidth and coding rate; a receiver (samples/lora_eval_rcv) listens
    on the same plan, compares what arrives with what was sent and reports to
    a phone. Phone and devices talk Bluetooth: each firmware is a GATT service
    (subsys/bluetooth/services/lses.c and lres.c) above the attribute protocol
    (subsys/bluetooth/host), and drives the radio through drivers/lora and the
    kernel. The phone's app (LoRaVisual, in Java) defines experiments, starts
    them, records what the receiver reports and writes two files per
    experiment, from which a script (LoRaVisualGraphs/main.py) computes the
    figures of the evaluation.

    ** Files

    Foundations:
    - [Prelude]: machine integers, the outcome and state monad in which all
      firmware code is written, its loops, lemmas and tactics.
    - [Platform]: the state all code shares (clock, events to come, driver
      data, threads, trace) and [PlatState], the interface to states that
      contain it; C arrays with accesses outside them recorded.
    - [CLib]: [atoi] and [memcmp] as the services use them.
    - [Runs]: the calculus in which runs of the services are verified.

    Kernel and libraries:
    - [KSem]: kernel/sem.c with the wait queue of kernel/sched.c.
    - [Timeout], [Timer]: kernel/timeout.c and kernel/timer.c; [TimeUnits]:
      the conversions of include/sys/time_units.h.
    - [DList]: the linked lists of include/sys/dlist.h on a heap of nodes;
      [LinkedQueues]: timeouts and wait queues on these lists.
    - [Sched]: kernel/sched.c, the creation of threads in kernel/thread.c and
      the context switch of arch/arm as the choice of a thread; [SchedInv],
      [SchedEvents]: its invariant, and runs of calls and interrupts.
    - [Printf]: cbvprintf (lib/os/cbprintf_complete.c); [PrintfText]: the text
      of integers and strings; [PrintfFloat]: the conversion of doubles;
      [Printk]: printk and snprintk of lib/os/printk.c. [Hex]: lib/os/hex.c and
      dec.c.
    - [RingBuffer]: lib/os/ring_buffer.c. [Crc]: lib/os/crc*.c.
      [ByteOrder]: include/sys/byteorder.h. [Strtol]: the number parsing of
      lib/libc/minimal (the samples are built with newlib; the shell is
      verified against this one).

    LoRa driver:
    - [Sx12xx]: drivers/lora/sx12xx_common.c and the API of
      include/drivers/lora.h; [Air]: the packets that complete at a radio.
    - [Sx127x], [Sx126x]: the board code drivers/lora/sx127x.c and sx126x.c.
    - [Hal], [HalKernel]: drivers/lora/hal_common.c, the radio library's clock
      and alarm, and its delay and critical sections.
    - [Shell]: drivers/lora/shell.c.

    Experiments:
    - [Plan], [Messages]: what an experiment is, independent of the code.
    - [TimeOnAir]: the single-precision air time of lses.c.
    - [Lses], [Lres]: every callback and thread function of the services.
    - [LsesSweep], [LsesControl], [LsesExperiment]: the sender against the plan.
    - [LresEval], [LresWindow], [LresSweep], [LresControl], [LresExperiment]:
      the receiver against the plan.
    - [Experiment]: both devices together.

    Bluetooth:
    - [Uuid], [UuidText]: host/uuid.c. [Addr]: include/bluetooth/addr.h and
      host/addr.c. [Board]: main.c of both samples. [Att]: dispatch, writes, permissions and client
      configuration of host/att.c and gatt.c; [AttRead]: discovery and reads.
    - [AttServer], [AttDiscovery]: theorems on the server as a whole.
    - [Commands]: the attribute tables of the two services.
    - [Notify]: notifications of gatt.c and their queues in att.c; [Link]: from
      the app's subscription to the values it receives.

    App and script (Java files by their names):
    - [Java]: integers, texts, parsing and exceptions of Java and Python, and
      the state monad in which the app is written.
    - [Database]: DatabaseHandler, over an interface to the database engine.
    - [Phone]: the state the screens share, ConfigSetter, Encoder, LVUtil and
      the callbacks of Central.
    - [Scanning]: Scanner, BLEHandler and the connection of Central. [Sensors]:
      LocationHandler and AccelerometerHandler.
    - [Customize], [StartScreen]: CustomizeExperimentsScreen and
      StartExperimentScreen; [PhoneScreens]: PrepareSenderScreen,
      ExperimentOverviewScreen, SenderExploreScreen, ReceiverExploreScreen and
      GUICountDownTimer, a module each.
    - [PhoneSettings], [Recording]: from the form to the settings' bytes, from
      notifications to rows. [PhoneFlow], [LoopCommand], [Explore]: the other
      screens, alone and with the devices.
    - [Graphs]: [process_data] of main.py up to the figures; [Evaluation]: the
      files the app writes, read by it; [Collect]: the figures over several
      experiments and what is plotted.

    The system:
    - [Settings]: form, app and receiver. [System]: from the form to the
      figures. [Losses]: what a lost notification does. [Pitfalls]: settings
      that are accepted and do not work.

    ** How code is modelled

    A function of the source is a definition of the same name. Static
    variables and structures are records; code that blocks, stops or touches
    shared state is in the monad [M S] over them, and [Stop] tells how code
    can fail to return. A thread of the services runs until it blocks;
    interrupts (completed packets, connections) are the list of events to
    come, served while a thread sleeps or waits. What can be seen from outside
    is a time-stamped trace. Integers are [Z], with the conversions of the
    source written out. Accesses outside an array are recorded in the trace
    and go on, reading memory nobody initialised.

    A method of the app is a definition in the monad [J S] over the fields of
    its object; [Throw] is an exception nobody catches. What a user or another
    device can notice of the app (toasts, texts, writes to the device, files,
    screens opened) is the list [acts]. An exception of the script is [None].

    Code outside the repository is a parameter with named hypotheses: the
    radio library and its register header, the results of sending a packet,
    the bus and pin drivers, device tree values, the app's database engine
    (the class [Sqlite] with [SqliteLaws], which [tables] satisfies),
    Android's computations on locations and its reading of advertising data.
    The random numbers for addresses and, for [main], the results of the
    Bluetooth stack are parameters too. For the services the result of a
    notification is a parameter too; [Notify] shows what it is.

    ** What is shown

    - System: a form accepted by the app gives both devices the plan and the
      times it shows, and over a clean channel the script finds every message
      of the first 128 iterations, without losses and bit errors, and none of
      the later ones. One lost signal notification shifts all later rows, one
      lost message notification makes the script fail. Some accepted forms
      crash the app on start or are taken for a ping.
    - App: whatever is tapped while preparing the sender keeps the form;
      deleting an experiment deletes just that one; spinners and loops of the
      explore screens reach the devices as shown; countdowns show the time
      left. The app keeps at most one connection, to a board of the kind its
      screen is for, and scans when it has none; with Bluetooth off it crashes.
      The screens read the last location reported. Script: samples in order are counted where they belong, a late one
      stops the counting; bars are computed from the same iteration of every
      experiment chosen; the air time of its plot is too short with the
      optimisation for low data rates.
    - Experiments: the loops of the sender transmit exactly the planned
      messages, in order and at the computed times; the loops of the receiver
      end whatever arrives, tune to the same combinations at times that depend
      on the settings only, and report each message with the right verdict,
      bit errors and number; on a clean channel the two together report every
      message of every combination. Whole experiments, with handshake and
      hand-over to the next thread, return.
    - Driver: receiving returns the first packet in time, cut to the buffer, or
      times out at the deadline; packets not fetched in time overwrite each
      other. On the SX127x board no sequence of calls connects two antenna
      paths at once, and the power registers give the power asked for; for
      negative powers the wrong path is connected. The SX126x code sends
      commands only to a chip that is awake and not busy. The alarm of the
      radio library goes off once, not early by its own clock; its delays are
      not short, and its critical sections nest.
    - Scheduler: its well-formedness is kept by every call and interrupt that
      keeps to the stated contracts; no ready thread has a higher priority than
      a running preemptible one; cooperative threads run until they give up the
      processor; sleeps end on time. Sequences outside these contracts that
      break it are shown on examples.
    - Kernel: operations on linked lists do on pointers what they do on
      sequences, and so do the timeouts on them; the semaphore's invariant in every reachable state and its
      balance of gives and takes; the queue of timeouts refines a queue of
      deadlines, an announcement runs what is due and nothing else, and timers
      expire on time; all conversions of time units round exactly; a ring buffer
      is a bounded queue in both its modes.
    - Bluetooth: every request gets exactly one answer that fits the packet;
      writes reach the callback once; a discovery request is answered by as
      many services as fit, at least one; a phone that connects before the
      callbacks are registered is not noticed; client configuration is kept; a
      command of either service is carried out and then refused, since the
      callbacks return 0; notifications leave in order, once per subscription,
      whatever the link refuses for a while, and a phone that subscribed as the
      app does receives every value that fits.
    - Formatted output: it ends for all formats and arguments and keeps to its
      buffers; snprintk leaves the text as far as it fits; printed integers,
      addresses, UUIDs and hexadecimal digits are read back as they were.
    - Libraries: optimised checksums are the division they stand for, integers
      survive storing in either byte order, UUID comparison is equality of the
      128-bit values, numbers are parsed with saturation; the shell keeps its
      settings in range and cannot select two of its bandwidths.

    ** Fuel

    Loops that are not over a list take a bound. Theorems say how much is
    enough and that the code then returns: one more than the packets still to
    complete for the loops that receive (each round takes one or ends by
    timeout), the number of rounds without an answer for the receiver's
    handshake, the sum of the firings for an announcement ([Timeout.work]),
    the number of bytes for copying loops, the length of the format for
    cbvprintf, bounds on exponents and digits for doubles, the length of the
    queue for the loops that wake waiting threads, the longest time the SX126x chip is
    busy for waiting on it. The loops that run for good in the
    source (waiting for a ping, receiving in explore mode) have no such
    theorem.

    ** Not modelled

    - The radio library (LoRaMac-node), which is not in the repository.
    - In the kernel: several processors, deadline scheduling, meta-interrupts,
      the other two implementations of queues, stacks and registers, all but
      the last two off in the samples. The services are not put on the
      scheduler: in their model a thread runs between its blocking calls.
    - In formatted output: the conversion a, which is off, and output for
      threads in user mode.
    - In the Bluetooth host: the client role, enhanced channels, signed and
      prepared writes, the dynamic database and storage, all off in the
      samples; the link layer, L2CAP and connection management, which the
      attribute server calls.
    - What the firmwares log.
    - In the app: the weather client and the upload, which are calls into a web
      service and Firebase; layout, colours and the lookup of views.
    - In the script: downloads, widgets, drawing, and the table of the last mode.
    - The rest of the Zephyr tree, which these firmwares do not build. *)
From stdpp Require Import prelude list numbers sorting.
From Stdlib Require Import ZArith Lia.

#[export] Set Default Goal Selector "1".
Open Scope Z_scope.

(** ** Machine integers

    C integers are kept in [Z]; the conversions to a fixed width are written
    out. *)

Definition u8 (x : Z) : Z := x mod 2 ^ 8.
Definition u16 (x : Z) : Z := x mod 2 ^ 16.
Definition u32 (x : Z) : Z := x mod 2 ^ 32.
Definition s8 (x : Z) : Z := (x + 2 ^ 7) mod 2 ^ 8 - 2 ^ 7.
Definition s16 (x : Z) : Z := (x + 2 ^ 15) mod 2 ^ 16 - 2 ^ 15.

(** A byte of the code's [uint8_t] buffers. *)
Definition byte_ok (b : Z) : Prop := 0 <= b < 2 ^ 8.

(** Test of one bit, the source's [((x >> i) & 0x01) == 1]. *)
Definition bit_set (x i : Z) : bool := Z.land (Z.shiftr x i) 1 =? 1.

(** ** Error numbers (errno.h) *)

Definition EIO : Z := 5.
Definition EAGAIN : Z := 11.
Definition EBUSY : Z := 16.
Definition EINVAL : Z := 22.
Definition ENOTCONN : Z := 57.
Definition ENOSYS : Z := 71.

(** ** Outcomes and the state monad

    A piece of firmware either returns a value or stops for good: the calling
    thread aborted itself, blocks with nothing left to wake it, or followed a
    pointer that leads nowhere (null, of a node in no list, outside an array or
    behind the end of a string). [OutOfFuel] is the bound of the model's loops. *)

Inductive stop : Type :=
| SelfAborted
| BlockedForever
| NullDeref
| OutOfFuel.

Inductive outcome (A : Type) : Type :=
| Done (a : A)
| Stop (r : stop).
Arguments Done {A} a.
Arguments Stop {A} r.

Definition M (S A : Type) : Type := S -> outcome A * S.

#[export] Instance M_ret S : MRet (M S) := fun A a s => (Done a, s).
#[export] Instance M_bind S : MBind (M S) := fun A B f m s =>
  match m s with
  | (Done a, s') => f a s'
  | (Stop r, s') => (Stop r, s')
  end.

Definition stop_with {S A} (r : stop) : M S A := fun s => (Stop r, s).
Definition get {S} : M S S := fun s => (Done s, s).
Definition gets {S A} (f : S -> A) : M S A := fun s => (Done (f s), s).
Definition modify {S} (f : S -> S) : M S unit := fun s => (Done tt, f s).
Definition when {S} (b : bool) (m : M S unit) : M S unit :=
  if b then m else mret tt.

(** [for_st l st body] runs [body x st] for every [x] of [l], threading the
    loop's local variables [st]: the source's counted [for] loops. *)
Fixpoint for_st {S T X} (l : list X) (st : T) (body : X -> T -> M S T) : M S T :=
  match l with
  | [] => mret st
  | x :: l' => st' ← body x st; for_st l' st' body
  end.

(** [loop fuel body st]: the source's [while] loops. [body] answers [inl st'] to go round
    again and [inr r] to leave. *)
Fixpoint loop {S T R} (fuel : nat) (body : T -> M S (T + R)) (st : T) : M S R :=
  match fuel with
  | O => stop_with OutOfFuel
  | Datatypes.S fuel' =>
      x ← body st;
      match x with
      | inl st' => loop fuel' body st'
      | inr r => mret r
      end
  end.

(** [range n] is [0; 1; ...; n-1]: the values of [for (i = 0; i < n; i++)]. *)
Definition range (n : Z) : list Z := seqZ 0 n.

(** ** Lemmas on the monad *)

Section monad.
Context {S : Type}.

Lemma bind_ret {A B} (a : A) (f : A -> M S B) s : mbind f (mret a) s = f a s.
Proof. reflexivity. Qed.

Lemma bind_modify {B} (g : S -> S) (f : unit -> M S B) s : mbind f (modify g) s = f tt (g s).
Proof. reflexivity. Qed.

Lemma bind_gets {A B} (g : S -> A) (f : A -> M S B) s : mbind f (gets g) s = f (g s) s.
Proof. reflexivity. Qed.

Lemma bind_done {A B} (m : M S A) (f : A -> M S B) s a s' :
  m s = (Done a, s') -> mbind f m s = f a s'.
Proof. unfold mbind, M_bind; now intros ->. Qed.

Lemma bind_stop {A B} (m : M S A) (f : A -> M S B) s r s' :
  m s = (Stop r, s') -> mbind f m s = (Stop r, s').
Proof. unfold mbind, M_bind; now intros ->. Qed.

Lemma bind_inv {A B} (m : M S A) (f : A -> M S B) s b s' :
  mbind f m s = (Done b, s') ->
  exists a s1, m s = (Done a, s1) /\ f a s1 = (Done b, s').
Proof.
  unfold mbind, M_bind. destruct (m s) as [[a|r] s1]; [|done]. eauto.
Qed.

Lemma bind_assoc {A B C} (m : M S A) (f : A -> M S B) (g : B -> M S C) s :
  mbind g (mbind f m) s = mbind (fun x => mbind g (f x)) m s.
Proof. unfold mbind, M_bind. now destruct (m s) as [[a|r] s1]. Qed.

Lemma for_st_ext {T X} (l : list X) (body body' : X -> T -> M S T) st s :
  (forall x st s, In x l -> body x st s = body' x st s) -> for_st l st body s = for_st l st body' s.
Proof.
  revert st s. induction l as [|x l IH]; intros st s E; [done|]. cbn. unfold mbind, M_bind.
  rewrite E by (by left). destruct (body' x st s) as [[st'|r] s']; [|done].
  apply IH. intros y st1 s1 Hy. apply E. by right.
Qed.

(** A relation between states that every step respects is respected by loops. *)
Lemma for_st_rel {T X} (R : S -> S -> Prop) (l : list X) (body : X -> T -> M S T) :
  (forall s, R s s) -> (forall a b c, R a b -> R b c -> R a c) ->
  (forall x st s o s', In x l -> body x st s = (o, s') -> R s s') ->
  forall st s o s', for_st l st body s = (o, s') -> R s s'.
Proof.
  intros Hr Ht. induction l as [|x l IH]; intros Hb st s o s'; cbn.
  - intros [= <- <-]; auto.
  - unfold mbind, M_bind. destruct (body x st s) as [[st1|r] s1] eqn:E.
    + intros H. eapply Ht; [eapply Hb; [now left|exact E]|].
      eapply IH; [|exact H]. intros; eapply Hb; [right|]; eauto.
    + intros [= <- <-]. eapply Hb; [now left|exact E].
Qed.

End monad.

Lemma range_spec n i : In i (range n) <-> 0 <= i < n.
Proof.
  unfold range. rewrite <- list_elem_of_In, elem_of_seqZ. lia.
Qed.

(** ** Integer lemmas *)

Lemma u8_byte x : byte_ok (u8 x).
Proof. unfold byte_ok, u8. apply Z.mod_pos_bound. lia. Qed.

Lemma u8_id x : byte_ok x -> u8 x = x.
Proof. unfold byte_ok, u8. apply Z.mod_small. Qed.

Lemma bit_set_spec x i : 0 <= i -> bit_set x i = Z.testbit x i.
Proof.
  intros Hi. unfold bit_set. change 1 with (Z.ones 1) at 1.
  rewrite Z.land_ones by lia. change (2 ^ 1) with 2.
  pose proof (Z.testbit_spec' x i Hi) as H.
  rewrite Z.shiftr_div_pow2, <- H by lia.
  now destruct (Z.testbit x i).
Qed.

Create HintDb ints.
Create Rewrite HintDb ints.
#[export] Hint Resolve u8_byte : ints.
#[export] Hint Rewrite bit_set_spec using lia : ints.

(** ** List lemmas *)

Lemma filter_all {A} (P : A -> Prop) `{!forall x, Decision (P x)} (l : list A) :
  Forall P l -> filter P l = l.
Proof.
  induction 1 as [|x l Hx Hl IH]; [done|]. by rewrite filter_cons_True, IH.
Qed.

Lemma sublist_Forall {A} (P : A -> Prop) (l k : list A) :
  sublist l k -> Forall P k -> Forall P l.
Proof.
  induction 1 as [|x l k Hs IH|x l k Hs IH]; intros Hk; [done| |];
    apply Forall_cons in Hk as [Hx Hk]; auto.
Qed.

Lemma sublist_StronglySorted {A} (R : A -> A -> Prop) (l k : list A) :
  sublist l k -> StronglySorted R k -> StronglySorted R l.
Proof.
  induction 1 as [|x l k Hs IH|x l k Hs IH]; intros Hk; [constructor| |];
    apply StronglySorted_inv in Hk as [Hk Hf]; [|by apply IH].
  constructor; [by apply IH|]. by eapply sublist_Forall.
Qed.

Lemma Forall2_impl_in {A B} (P Q : A -> B -> Prop) (l : list A) (k : list B) :
  Forall2 P l k -> (forall x y, In x l -> P x y -> Q x y) -> Forall2 Q l k.
Proof.
  induction 1 as [|x y l k Hp Hf IH]; intros HQ; constructor; [by apply HQ; [left|]|].
  apply IH. intros ? ? ?. apply HQ. by right.
Qed.

Lemma Forall2_map_inv {A B C} (f : A -> B) (P : B -> C -> Prop) (l : list A) (k : list C) :
  Forall2 P (map f l) k -> Forall2 (fun x y => P (f x) y) l k.
Proof. apply Forall2_fmap_l. Qed.

(** ** Tactics *)

(** Take the matches of a hypothesis or the goal apart. *)
Ltac split_match :=
  match goal with
  | |- context [match ?x with _ => _ end] => destruct x eqn:?
  end.

(** Break [mbind] hypotheses into their two runs. *)
Ltac inv_bind :=
  repeat match goal with
  | H : mbind _ _ _ = (Done _, _) |- _ =>
      let a := fresh "a" in let s := fresh "s" in
      let H1 := fresh "Hrun" in
      apply bind_inv in H as (a & s & H1 & H)
  | H : mret _ _ = (_, _) |- _ => injection H as ?; subst
  end.
