(* ===== verification/KSem.v ===== *)
(** * Kernel semaphores

    [kernel/sem.c] with the wait queue it pends threads on (the priority list
    of [kernel/sched.c], CONFIG_WAITQ_DUMB as the firmware is built).
    [WaitQ] is the queue, [Sem] the semaphore, and the theorems show that the
    queue is a stable priority queue, that the semaphore's invariant holds in
    every reachable state and that no give is lost: every accepted give is
    either still in the count or was taken by exactly one thread. *)
From S2P Require Import Prelude.
From stdpp Require Import prelude list numbers sorting.
From Stdlib Require Import ZArith Lia.
Open Scope Z_scope.

(** ** Wait queues (kernel/sched.c) *)
Module WaitQ.

(** The fields of [struct k_thread] a wait queue reads: its identity and its
    priority (a smaller number is a higher priority). *)
Record k_thread := mk_thread { tid : nat; prio : Z }.

#[export] Instance k_thread_eq_dec : EqDecision k_thread.
Proof. solve_decision. Defined.

(** [z_sched_prio_cmp]: positive when the first thread has the higher
    priority. *)
Definition z_sched_prio_cmp (t1 t2 : k_thread) : Z :=
  if prio t1 =? prio t2 then 0 else prio t2 - prio t1.

(** [z_priq_dumb_add]: in front of the first thread of lower priority. *)
Fixpoint z_priq_dumb_add (pq : list k_thread) (t : k_thread) : list k_thread :=
  match pq with
  | [] => [t]
  | t' :: pq' =>
      if 0 <? z_sched_prio_cmp t t' then t :: t' :: pq'
      else t' :: z_priq_dumb_add pq' t
  end.

(** [z_priq_dumb_remove]: unlink the thread's own node. *)
Definition z_priq_dumb_remove (pq : list k_thread) (i : nat) : list k_thread :=
  filter (fun t => tid t <> i) pq.

(** [z_priq_dumb_best]: the head. *)
Definition z_priq_dumb_best (pq : list k_thread) : option k_thread := head pq.

(** [z_unpend_first_thread]: take the best thread off the queue. *)
Definition z_unpend_first_thread (pq : list k_thread) : option (k_thread * list k_thread) :=
  match z_priq_dumb_best pq with
  | Some t => Some (t, z_priq_dumb_remove pq (tid t))
  | None => None
  end.

(** A queue is well formed when priorities do not improve along it and no
    thread is linked twice. *)
Definition higher_or_eq (a b : k_thread) : Prop := prio a <= prio b.
Definition wf (pq : list k_thread) : Prop :=
  StronglySorted higher_or_eq pq /\ NoDup (tid <$> pq).

Lemma cmp_pos t1 t2 : (0 <? z_sched_prio_cmp t1 t2) = (prio t1 <? prio t2).
Proof. unfold z_sched_prio_cmp. destruct (Z.eqb_spec (prio t1) (prio t2)); lia. Qed.

Lemma add_perm pq t : z_priq_dumb_add pq t ≡ₚ t :: pq.
Proof.
  induction pq as [|t' pq IH]; cbn; [done|].
  destruct (0 <? _); [done|]. rewrite IH. apply Permutation_swap.
Qed.

Lemma add_sorted pq t :
  StronglySorted higher_or_eq pq -> StronglySorted higher_or_eq (z_priq_dumb_add pq t).
Proof.
  induction 1 as [|t' pq Hs IH Hf]; cbn; [repeat constructor|].
  rewrite cmp_pos. destruct (Z.ltb_spec (prio t) (prio t')).
  - constructor; [by constructor|]. constructor; [unfold higher_or_eq; lia|].
    eapply Forall_impl; [exact Hf|]. unfold higher_or_eq; lia.
  - constructor; [done|]. rewrite add_perm.
    constructor; [unfold higher_or_eq; lia|done].
Qed.

Lemma add_wf pq t : wf pq -> tid t ∉ (tid <$> pq) -> wf (z_priq_dumb_add pq t).
Proof.
  intros [Hs Hn] Hf. split; [by apply add_sorted|].
  rewrite add_perm. cbn. by constructor.
Qed.

(** Threads of one priority leave in the order they came. *)
Lemma add_fifo pq t p :
  StronglySorted higher_or_eq pq ->
  filter (fun x => prio x = p) (z_priq_dumb_add pq t) =
  filter (fun x => prio x = p) pq ++ (if decide (prio t = p) then [t] else []).
Proof.
  induction 1 as [|t' pq Hs IH Hf]; cbn [z_priq_dumb_add].
  - rewrite filter_cons, filter_nil. by case_decide.
  - rewrite cmp_pos. destruct (Z.ltb_spec (prio t) (prio t')).
    + assert (Hnil : prio t = p -> filter (fun x => prio x = p) (t' :: pq) = []).
      { intros Hp. apply elem_of_nil_inv. intros x Hx%list_elem_of_filter.
        destruct Hx as [Hx Hin]. rewrite Forall_forall in Hf.
        apply elem_of_cons in Hin as [->|Hin]; [lia|].
        apply Hf in Hin. unfold higher_or_eq in Hin. lia. }
      destruct (decide (prio t = p)) as [Hp|Hp].
      * by rewrite filter_cons_True, Hnil.
      * by rewrite filter_cons_False, app_nil_r.
    + destruct (decide (prio t' = p)) as [Hp|Hp].
      * by rewrite !(filter_cons_True _ t'), IH.
      * by rewrite !(filter_cons_False _ t'), IH.
Qed.

Lemma remove_sublist pq i : z_priq_dumb_remove pq i `sublist_of` pq.
Proof. apply sublist_filter. Qed.

Lemma remove_wf pq i : wf pq -> wf (z_priq_dumb_remove pq i).
Proof.
  intros [Hs Hn]. split.
  - eapply sublist_StronglySorted; [apply remove_sublist|done].
  - eapply sublist_NoDup; [done|]. by apply fmap_sublist, remove_sublist.
Qed.

(** On a well-formed queue unpending takes exactly the head. *)
Lemma unpend_head t pq :
  wf (t :: pq) -> z_unpend_first_thread (t :: pq) = Some (t, pq).
Proof.
  intros [_ Hn]. rewrite fmap_cons in Hn. apply NoDup_cons in Hn as [Hni _].
  unfold z_unpend_first_thread, z_priq_dumb_best, z_priq_dumb_remove.
  cbn [head]. rewrite filter_cons_False by (by intros []).
  rewrite filter_all; [done|]. apply Forall_forall. intros x Hx Heq.
  apply Hni. rewrite <- Heq. by apply list_elem_of_fmap_2.
Qed.

End WaitQ.

(** ** Semaphores (kernel/sem.c) *)
Module Sem.
Import WaitQ.

Definition K_SEM_MAX_LIMIT : Z := 2 ^ 32 - 1.

(** [k_timeout_t]: forever, or a number of milliseconds. *)
Inductive k_timeout : Type := K_FOREVER | K_TICKS (ms : Z).

Definition K_NO_WAIT : k_timeout := K_TICKS 0.
(** [Z_TIMEOUT_MS(t)] clamps negative values: [MAX(t, 0)]. *)
Definition K_MSEC (ms : Z) : k_timeout := K_TICKS (Z.max ms 0).
Definition K_SECONDS (s : Z) : k_timeout := K_MSEC (s * 1000).

Definition is_no_wait (t : k_timeout) : bool :=
  match t with K_TICKS ms => ms =? 0 | K_FOREVER => false end.

Record k_sem := mk_sem { count : Z; limit : Z; wait_q : list k_thread }.

(** [z_impl_k_sem_init]. *)
Definition k_sem_init (s : k_sem) (initial_count lim : Z) : Z * k_sem :=
  if (lim =? 0) || (K_SEM_MAX_LIMIT <? lim) || (lim <? initial_count)
  then (- EINVAL, s)
  else (0, mk_sem initial_count lim []).

(** [z_impl_k_sem_give]: the thread it readies, if any (whose take then
    returns 0), and the semaphore after. *)
Definition k_sem_give (s : k_sem) : option k_thread * k_sem :=
  match z_unpend_first_thread (wait_q s) with
  | Some (t, q) => (Some t, mk_sem (count s) (limit s) q)
  | None =>
      (None, mk_sem (count s + (if count s =? limit s then 0 else 1)) (limit s) (wait_q s))
  end.

Inductive take_result : Type := Returned (ret : Z) | Pended.

(** [z_impl_k_sem_take] by thread [t] up to the point where it returns or
    swaps out. *)
Definition k_sem_take (s : k_sem) (t : k_thread) (timeout : k_timeout) : take_result * k_sem :=
  if 0 <? count s then (Returned 0, mk_sem (count s - 1) (limit s) (wait_q s))
  else if is_no_wait timeout then (Returned (- EBUSY), s)
  else (Pended, mk_sem (count s) (limit s) (z_priq_dumb_add (wait_q s) t)).

(** [z_thread_timeout] on a thread pended here: its take returns [-EAGAIN],
    the value the swap leaves when nobody sets another. *)
Definition k_sem_timeout (s : k_sem) (i : nat) : Z * k_sem :=
  (- EAGAIN, mk_sem (count s) (limit s) (z_priq_dumb_remove (wait_q s) i)).

(** [z_impl_k_sem_reset]: wakes every waiter with [-EAGAIN] and zeroes the
    count; the loop runs while a thread can be unpended. *)
Fixpoint unpend_all (fuel : nat) (q : list k_thread) : list (k_thread * Z) * list k_thread :=
  match fuel with
  | O => ([], q)
  | Datatypes.S fuel' =>
      match z_unpend_first_thread q with
      | None => ([], q)
      | Some (t, q') =>
          let (ws, q'') := unpend_all fuel' q' in ((t, - EAGAIN) :: ws, q'')
      end
  end.

Definition k_sem_reset (s : k_sem) : list (k_thread * Z) * k_sem :=
  let (ws, q) := unpend_all (length (wait_q s)) (wait_q s) in
  (ws, mk_sem 0 (limit s) q).

(** [z_impl_k_sem_count_get]. *)
Definition k_sem_count_get (s : k_sem) : Z := count s.

(** *** Invariant *)

Record inv (s : k_sem) : Prop := {
  inv_limit : 0 < limit s <= K_SEM_MAX_LIMIT;
  inv_count : 0 <= count s <= limit s;
  inv_wait : wait_q s <> [] -> count s = 0;
  inv_queue : wf (wait_q s) }.

Lemma inv_init s c l s' :
  0 <= c -> 0 <= l -> k_sem_init s c l = (0, s') -> inv s'.
Proof.
  unfold k_sem_init. intros Hc Hl.
  destruct (Z.eqb_spec l 0); cbn; [done|].
  destruct (Z.ltb_spec K_SEM_MAX_LIMIT l); cbn; [done|].
  destruct (Z.ltb_spec l c); [done|]. intros [= <-].
  split; cbn; try lia; try done. split; [constructor|by constructor].
Qed.

Lemma give_unpend s t q :
  inv s -> wait_q s = t :: q -> k_sem_give s = (Some t, mk_sem (count s) (limit s) q).
Proof.
  intros Hi Hq. unfold k_sem_give. rewrite Hq.
  rewrite unpend_head; [done|]. rewrite <- Hq. apply Hi.
Qed.

Lemma give_empty s :
  wait_q s = [] ->
  k_sem_give s = (None, mk_sem (count s + (if count s =? limit s then 0 else 1)) (limit s) []).
Proof. unfold k_sem_give. by intros ->. Qed.

Lemma inv_give s : inv s -> inv (k_sem_give s).2.
Proof.
  intros Hi. destruct (wait_q s) as [|t q] eqn:Hq.
  - rewrite give_empty by done. destruct Hi as [Hl Hc Hw _]. split; cbn; try done.
    + destruct (Z.eqb_spec (count s) (limit s)); lia.
    + split; [constructor|by constructor].
  - rewrite (give_unpend s t q) by done. destruct Hi as [Hl Hc Hw Hwf].
    rewrite Hq in *. split; cbn; try done; [intros _; by apply Hw|].
    destruct Hwf as [Hs Hn]. cbn in Hn. apply StronglySorted_inv in Hs as [Hs _].
    apply NoDup_cons in Hn as [_ Hn]. by split.
Qed.

Lemma inv_take s t to :
  inv s -> tid t ∉ (tid <$> wait_q s) -> inv (k_sem_take s t to).2.
Proof.
  intros Hi Hf. unfold k_sem_take.
  destruct (Z.ltb_spec 0 (count s)); cbn; [|destruct (is_no_wait to); cbn; [done|]].
  - destruct Hi as [Hl Hc Hw Hwf]. split; cbn; try done; [lia|].
    intros Hne. specialize (Hw Hne). lia.
  - destruct Hi as [Hl Hc Hw Hwf]. split; cbn; try done; [intros; lia|].
    by apply add_wf.
Qed.

Lemma inv_timeout s i : inv s -> inv (k_sem_timeout s i).2.
Proof.
  intros [Hl Hc Hw Hwf]. split; cbn; try done; [|by apply remove_wf].
  intros Hne. apply Hw. intros He. apply Hne. by rewrite He.
Qed.

Lemma unpend_all_spec q :
  wf q -> unpend_all (length q) q = ((fun t => (t, - EAGAIN)) <$> q, []).
Proof.
  induction q as [|t q IH]; intros Hwf; [done|]. cbn [length unpend_all].
  rewrite unpend_head by done. destruct Hwf as [Hs Hn]. cbn in Hn.
  apply StronglySorted_inv in Hs as [Hs _]. apply NoDup_cons in Hn as [_ Hn].
  rewrite IH; [done|by split].
Qed.

Lemma reset_spec s :
  inv s ->
  k_sem_reset s = ((fun t => (t, - EAGAIN)) <$> wait_q s, mk_sem 0 (limit s) []).
Proof. intros Hi. unfold k_sem_reset. rewrite unpend_all_spec; [done|]. apply Hi. Qed.

Lemma inv_reset s : inv s -> inv (k_sem_reset s).2.
Proof.
  intros Hi. rewrite reset_spec by done. destruct Hi as [Hl Hc _ _].
  split; cbn; try done; [lia|]. split; [constructor|by constructor].
Qed.

(** *** The semaphore under any interleaving of its operations

    [sys] adds to the semaphore the number of gives it accepted, of takes
    that succeeded (at once or by a later give) and of units a reset threw
    away. *)
Record sys := mk_sys { sem : k_sem; accepted : Z; acquired : Z; discarded : Z }.

Definition give_sys (x : sys) : sys :=
  match k_sem_give (sem x) with
  | (Some _, s') => mk_sys s' (accepted x + 1) (acquired x + 1) (discarded x)
  | (None, s') => mk_sys s' (accepted x + (count s' - count (sem x))) (acquired x) (discarded x)
  end.

Definition take_sys (x : sys) (t : k_thread) (to : k_timeout) : sys :=
  match k_sem_take (sem x) t to with
  | (Returned 0, s') => mk_sys s' (accepted x) (acquired x + 1) (discarded x)
  | (_, s') => mk_sys s' (accepted x) (acquired x) (discarded x)
  end.

Inductive step : sys -> sys -> Prop :=
| step_give x : step x (give_sys x)
| step_take x t to :
    tid t ∉ (tid <$> wait_q (sem x)) -> step x (take_sys x t to)
| step_timeout x i :
    i ∈ (tid <$> wait_q (sem x)) ->
    step x (mk_sys (k_sem_timeout (sem x) i).2 (accepted x) (acquired x) (discarded x))
| step_reset x :
    step x (mk_sys (k_sem_reset (sem x)).2 (accepted x) (acquired x)
              (discarded x + count (sem x))).

Definition balanced (c0 : Z) (x : sys) : Prop :=
  c0 + accepted x = count (sem x) + acquired x + discarded x.

Definition good (c0 : Z) (x : sys) : Prop := inv (sem x) /\ balanced c0 x.

Lemma step_good c0 x y : step x y -> good c0 x -> good c0 y.
Proof.
  unfold good, balanced. destruct 1 as [x|x t to Hf|x i Hi|x]; intros [Hinv Hb].
  - unfold give_sys. pose proof (inv_give _ Hinv) as Hg.
    destruct (wait_q (sem x)) as [|t q] eqn:Hq.
    + rewrite give_empty in * by done. cbn in *. split; [done|lia].
    + rewrite (give_unpend _ t q) in * by done. cbn in *. split; [done|lia].
  - unfold take_sys. pose proof (inv_take _ t to Hinv Hf) as Ht. revert Ht.
    unfold k_sem_take. destruct (0 <? count (sem x)); [cbn; intros; split; [done|lia]|].
    destruct (is_no_wait to); cbn; intros; by split.
  - cbn. split; [by apply inv_timeout|done].
  - split; [by apply inv_reset|]. cbn. rewrite reset_spec by done. cbn. lia.
Qed.

Lemma steps_good c0 x y : rtc step x y -> good c0 x -> good c0 y.
Proof. induction 1; eauto using step_good. Qed.

End Sem.

Import WaitQ Sem.



(** A give with threads waiting readies one of them and leaves the count
    alone: a thread of the highest waiting priority and, among those of its
    priority, the one that pended first; the other waiters keep their order. *)
Theorem give_wakes_best s t s' :
  inv s -> k_sem_give s = (Some t, s') ->
  wait_q s = t :: wait_q s' /\ count s' = count s /\
  (forall t', t' ∈ wait_q s' -> prio t <= prio t').
Proof.
  intros Hi Hg. destruct (wait_q s) as [|t0 q] eqn:Hq.
  - rewrite give_empty in Hg by done. done.
  - rewrite (give_unpend _ t0 q) in Hg by done. injection Hg as <- <-. cbn.
    split; [done|]. split; [done|]. intros t' Ht'.
    destruct (inv_queue _ Hi) as [Hs _]. rewrite Hq in Hs.
    apply StronglySorted_inv in Hs as [_ Hf]. rewrite Forall_forall in Hf. by apply Hf.
Qed.

Lemma give_wakes_best_witness :
  let a := mk_thread 1 5 in let b := mk_thread 2 3 in let c := mk_thread 3 3 in
  let s := mk_sem 0 1 (z_priq_dumb_add (z_priq_dumb_add (z_priq_dumb_add [] a) b) c) in
  wait_q s = b :: [c; a].
Proof.
  cbn zeta.
  apply (give_wakes_best _ (mk_thread 2 3) (mk_sem 0 1 [mk_thread 3 3; mk_thread 1 5]));
    [|reflexivity].
  split; cbn; [unfold K_SEM_MAX_LIMIT; lia|lia|done|split].
  - repeat (constructor; unfold higher_or_eq; cbn; try lia).
  - by apply (bool_decide_unpack _).
Defined.
