(* ===== verification/Platform.v ===== *)
(** * The platform the firmware runs on

    The state every piece of firmware shares: the clock, the asynchronous
    events still to come, the LoRa driver's data, the threads, and a
    time-stamped trace of what the firmware did that can be seen from outside
    (radio calls, notifications, sleeps, thread operations) or that C leaves
    undefined (accesses outside an array). [PlatState] is the interface through
    which the services, which add static variables of their own, use it. *)
From S2P Require Import Prelude KSem.
From stdpp Require Import prelude list numbers strings gmap.
From Stdlib Require Import ZArith Lia.
Import WaitQ Sem.
Open Scope Z_scope.

(** ** Radio calls

    The radio driver proper ([struct Radio_s] of LoRaMac-node) is not part of
    the repository. Its operations used here return nothing, so a call is
    recorded with the arguments the code passes. *)
Inductive radio_call : Type :=
| SetChannel (freq : Z)
| SetTxConfig (power fdev bandwidth datarate coderate preamble_len : Z)
    (fix_len crc_on : bool) (freq_hop_on hop_period : Z) (iq_inverted : bool) (timeout : Z)
| SetRxConfig (bandwidth datarate coderate bandwidth_afc preamble_len symb_timeout : Z)
    (fix_len : bool) (payload_len : Z) (crc_on : bool) (freq_hop_on hop_period : Z)
    (iq_inverted rx_continuous : bool)
| SetMaxPayloadLength (max : Z)
| Send (data : list Z) (size : Z)
| Rx (timeout : Z)
| Sleep
| Init
| SetTxContinuousWave (freq power time : Z).

(** ** Asynchronous events

    Radio completions, run through the driver's callbacks, and the Bluetooth
    connection callbacks of [main.c]. *)
Inductive irq : Type :=
| IrqRxDone (payload : list Z) (rssi snr : Z)
| IrqTxDone
| IrqConnected (err : Z)
| IrqDisconnected (reason : Z).

(** ** Trace events *)
Inductive access : Type := ARead | AWrite.

Inductive event : Type :=
| EvRadio (c : radio_call)
| EvNotify (data : list Z)
| EvSleep (ms : Z)
| EvCreate (t : nat)
| EvAbort (t : nat)
| EvReinitLive (t : nat)          (** [k_thread_create] on a live thread object *)
| EvOob (a : access) (obj : string) (index : Z)
| EvBadVla (size : Z)             (** array of non-positive length *)
| EvDivZero.

(** Thread entry points of the two services. *)
Inductive entry : Type :=
| E_exec_loop | E_wait_for_ping_return | E_exec_experiment | E_receive_lora.

(** [struct lora_modem_config] (drivers/lora.h). *)
Record lora_modem_config := mk_config {
  frequency : Z; bandwidth : Z; datarate : Z; coding_rate : Z;
  preamble_len : Z; tx_power : Z; tx : bool }.

(** [config.frequency = ...] and the like. *)
Definition with_frequency (x : Z) (c : lora_modem_config) :=
  mk_config x (bandwidth c) (datarate c) (coding_rate c) (preamble_len c) (tx_power c) (tx c).
Definition with_bandwidth (x : Z) (c : lora_modem_config) :=
  mk_config (frequency c) x (datarate c) (coding_rate c) (preamble_len c) (tx_power c) (tx c).
Definition with_datarate (x : Z) (c : lora_modem_config) :=
  mk_config (frequency c) (bandwidth c) x (coding_rate c) (preamble_len c) (tx_power c) (tx c).
Definition with_coding_rate (x : Z) (c : lora_modem_config) :=
  mk_config (frequency c) (bandwidth c) (datarate c) x (preamble_len c) (tx_power c) (tx c).
Definition with_preamble_len (x : Z) (c : lora_modem_config) :=
  mk_config (frequency c) (bandwidth c) (datarate c) (coding_rate c) x (tx_power c) (tx c).
Definition with_tx_power (x : Z) (c : lora_modem_config) :=
  mk_config (frequency c) (bandwidth c) (datarate c) (coding_rate c) (preamble_len c) x (tx c).
Definition with_tx (x : bool) (c : lora_modem_config) :=
  mk_config (frequency c) (bandwidth c) (datarate c) (coding_rate c) (preamble_len c) (tx_power c) x.

(** [struct sx12xx_data] (sx12xx_common.c); [events] says whether the
    callbacks are registered with the radio. *)
Record sx12xx_data := mk_dev {
  data_sem : k_sem; events : bool; rx_buf : list Z; rx_len : Z; snr : Z; rssi : Z }.

(** The transceiver behind the [lora0] alias, [None] when the driver's
    initialisation failed and [device_get_binding] answers [NULL]. *)
Inductive lora_chip : Type := SX127X | SX126X.

Record plat := mk_plat {
  now : Z;                        (** [k_uptime_get()], milliseconds *)
  pending : list (Z * irq);       (** events to come, with their times *)
  dev : sx12xx_data;
  chip : option lora_chip;
  cur : nat;                      (** the running thread *)
  threads : gmap nat entry;       (** live threads *)
  bt_connected : bool;            (** [bt_lses_connected] / [bt_lres_connected] *)
  stale : nat -> Z;               (** memory nobody initialised *)
  send_ms : Z -> Z;               (** how long [Radio.Send] keeps its caller *)
  notify_rc : list Z -> Z;        (** result of [bt_gatt_notify] *)
  trace : list (Z * event) }.

Definition set_now (x : Z) (p : plat) : plat :=
  mk_plat x (pending p) (dev p) (chip p) (cur p) (threads p) (bt_connected p)
    (stale p) (send_ms p) (notify_rc p) (trace p).
Definition set_pending (x : list (Z * irq)) (p : plat) : plat :=
  mk_plat (now p) x (dev p) (chip p) (cur p) (threads p) (bt_connected p)
    (stale p) (send_ms p) (notify_rc p) (trace p).
Definition set_dev (x : sx12xx_data) (p : plat) : plat :=
  mk_plat (now p) (pending p) x (chip p) (cur p) (threads p) (bt_connected p)
    (stale p) (send_ms p) (notify_rc p) (trace p).
Definition set_cur (x : nat) (p : plat) : plat :=
  mk_plat (now p) (pending p) (dev p) (chip p) x (threads p) (bt_connected p)
    (stale p) (send_ms p) (notify_rc p) (trace p).
Definition set_threads (x : gmap nat entry) (p : plat) : plat :=
  mk_plat (now p) (pending p) (dev p) (chip p) (cur p) x (bt_connected p)
    (stale p) (send_ms p) (notify_rc p) (trace p).
Definition set_bt_connected (x : bool) (p : plat) : plat :=
  mk_plat (now p) (pending p) (dev p) (chip p) (cur p) (threads p) x
    (stale p) (send_ms p) (notify_rc p) (trace p).
Definition emit (e : event) (p : plat) : plat :=
  mk_plat (now p) (pending p) (dev p) (chip p) (cur p) (threads p) (bt_connected p)
    (stale p) (send_ms p) (notify_rc p) (trace p ++ [(now p, e)]).

(** ** The interface to states that contain a platform *)
Class PlatState (S : Type) := {
  plat_of : S -> plat;
  set_plat : plat -> S -> S;
  plat_set : forall p s, plat_of (set_plat p s) = p;
  set_plat_of : forall s, set_plat (plat_of s) s = s;
  set_plat_set : forall p q s, set_plat p (set_plat q s) = set_plat p s }.

#[export] Instance plat_self : PlatState plat.
Proof. refine {| plat_of := id; set_plat := fun p _ => p |}; done. Defined.

Definition liftp {S} `{PlatState S} {A} (m : M plat A) : M S A := fun s =>
  let '(o, p) := m (plat_of s) in (o, set_plat p s).

(** ** Threads *)

Definition log (e : event) : M plat unit := modify (emit e).

(** [k_thread_create]: the object is set up and scheduled. Setting up an
    object that is still running is the kernel's undefined case. *)
Definition k_thread_create (t : nat) (e : entry) : M plat nat := fun p =>
  let p' := match threads p !! t with Some _ => emit (EvReinitLive t) p | None => p end in
  (Done t, emit (EvCreate t) (set_threads (<[t := e]> (threads p')) p')).

(** [k_thread_abort] ([z_thread_abort]): nothing on a dead thread; aborting the
    running thread does not return. *)
Definition k_thread_abort (t : nat) : M plat unit := fun p =>
  match threads p !! t with
  | None => (Done tt, p)
  | Some _ =>
      let p' := emit (EvAbort t) (set_threads (delete t (threads p)) p) in
      if decide (t = cur p) then (Stop SelfAborted, p') else (Done tt, p')
  end.

(** [z_thread_entry]: run the entry function as thread [t], then abort it. *)
Definition z_thread_entry {S} `{PlatState S} (t : nat) (body : M S unit) : M S unit :=
  liftp (modify (set_cur t));; body;; liftp (k_thread_abort t).

(** ** C arrays

    [csize] is the declared length; [cmem] the memory from the array's start,
    which for arrays on the stack extends past its end (what an overrun
    really reads and writes there). Accesses outside the declared length are
    recorded. *)
Record cbuf := mk_buf { csize : Z; cmem : list Z }.

(** How far past the end of a stack array the model follows an overrun. *)
Definition stack_slack : nat := 32.

Definition slack_bytes (n : nat) (p : plat) : list Z :=
  (fun i => u8 (stale p i)) <$> seq n stack_slack.

(** [T a[n];]: uninitialised, possibly of variable length. *)
Definition vla (n : Z) : M plat cbuf := fun p =>
  let m := ((fun i => u8 (stale p i)) <$> seq 0 (Z.to_nat n)) ++ slack_bytes (Z.to_nat n) p in
  (Done (mk_buf n m), if n <=? 0 then emit (EvBadVla n) p else p).

(** [T a[n] = {0};] *)
Definition zeroed (n : Z) : M plat cbuf := fun p =>
  (Done (mk_buf n (replicate (Z.to_nat n) 0 ++ slack_bytes (Z.to_nat n) p)), p).

(** A static array: nothing past its end is followed. *)
Definition static_buf (l : list Z) : cbuf := mk_buf (Z.of_nat (length l)) l.

Definition in_bounds (b : cbuf) (i : Z) : bool := (0 <=? i) && (i <? csize b).

Definition peek (b : cbuf) (i : Z) : Z :=
  if i <? 0 then 0 else default 0 (cmem b !! Z.to_nat i).
Definition poke (b : cbuf) (i v : Z) : cbuf :=
  if i <? 0 then b else mk_buf (csize b) (<[Z.to_nat i := v]> (cmem b)).

(** [a[i]] as a value. *)
Definition rd (o : string) (b : cbuf) (i : Z) : M plat Z := fun p =>
  (Done (peek b i), if in_bounds b i then p else emit (EvOob ARead o i) p).

(** [a[i] = v]. *)
Definition wr (o : string) (b : cbuf) (i v : Z) : M plat cbuf := fun p =>
  (Done (poke b i v), if in_bounds b i then p else emit (EvOob AWrite o i) p).

(** Copy [l] to [a[off]], [a[off+1]], ...: [memcpy] and the copying loops. *)
Fixpoint copy_in (o : string) (b : cbuf) (off : Z) (l : list Z) : M plat cbuf :=
  match l with
  | [] => mret b
  | v :: l' => b' ← wr o b off v; copy_in o b' (off + 1) l'
  end.

(** The bytes [a[off]], ..., [a[off+n-1]]. *)
Fixpoint copy_out (o : string) (b : cbuf) (off : Z) (n : nat) : M plat (list Z) :=
  match n with
  | O => mret []
  | Datatypes.S n' => v ← rd o b off; l ← copy_out o b (off + 1) n'; mret (v :: l)
  end.
