(* ===== verification/Sx12xx.v ===== *)
(** * The SX12xx LoRa driver

    [drivers/lora/sx12xx_common.c] and the API of [include/drivers/lora.h]:
    the radio callbacks, which run as asynchronous events, blocking and
    sleeping (during which those events are served), and the driver's
    operations as the services call them. *)
From S2P Require Import Prelude KSem Platform.
From stdpp Require Import prelude list numbers strings gmap.
From Stdlib Require Import ZArith Lia.
Import WaitQ Sem.
Open Scope Z_scope.

(** ** Callbacks *)

Definition radio (c : radio_call) : M plat unit := log (EvRadio c).

Definition set_sem (s : k_sem) (d : sx12xx_data) : sx12xx_data :=
  mk_dev s (events d) (rx_buf d) (rx_len d) (snr d) (rssi d).

Definition sem_give_dev (p : plat) : plat :=
  set_dev (set_sem (k_sem_give (data_sem (dev p))).2 (dev p)) p.

(** [sx12xx_ev_rx_done]. *)
Definition sx12xx_ev_rx_done (payload : list Z) (size rssi snr : Z) (p : plat) : plat :=
  let p := emit (EvRadio Sleep) p in
  let p := set_dev (mk_dev (data_sem (dev p)) (events (dev p)) payload (u8 size)
                      (s8 snr) (s16 rssi)) p in
  sem_give_dev p.

(** [sx12xx_ev_tx_done]. *)
Definition sx12xx_ev_tx_done (p : plat) : plat := emit (EvRadio Sleep) p.

(** [connected] and [disconnected] of [main.c], through [set_connected]. *)
Definition set_connected (b : bool) (p : plat) : plat := set_bt_connected b p.
Definition connected (err : Z) (p : plat) : plat :=
  if err =? 0 then set_connected true p else p.
Definition disconnected (reason : Z) (p : plat) : plat := set_connected false p.

(** Delivery of one asynchronous event. *)
Definition isr (i : irq) (p : plat) : plat :=
  match i with
  | IrqRxDone payload rssi snr =>
      if events (dev p)
      then sx12xx_ev_rx_done payload (Z.of_nat (length payload)) rssi snr p else p
  | IrqTxDone => if events (dev p) then sx12xx_ev_tx_done p else p
  | IrqConnected err => connected err p
  | IrqDisconnected reason => disconnected reason p
  end.

(** ** Sleeping and waiting *)

(** Serve the events due by [d]. *)
Fixpoint serve_until (d : Z) (l : list (Z * irq)) (p : plat) : plat :=
  match l with
  | [] => set_pending [] p
  | (t, i) :: l' =>
      if t <=? d then serve_until d l' (isr i (set_now (Z.max (now p) t) p))
      else set_pending l p
  end.

(** Let [ms] milliseconds pass. *)
Definition elapse (ms : Z) (p : plat) : plat :=
  set_now (now p + ms) (serve_until (now p + ms) (pending p) p).

(** [k_sleep]; [k_sleep(K_FOREVER)] is not used by this firmware. *)
Definition k_sleep (t : k_timeout) : M plat unit := fun p =>
  match t with
  | K_TICKS ms => (Done tt, elapse ms (emit (EvSleep ms) p))
  | K_FOREVER => (Stop BlockedForever, p)
  end.

(** [k_uptime_get] and [k_uptime_delta]: the difference to the reference time
    and the new reference time. *)
Definition k_uptime_get : M plat Z := gets now.
Definition k_uptime_delta (reftime : Z) : M plat (Z * Z) := fun p =>
  (Done (now p - reftime, now p), p).

(** The priority all LoRa threads run at. *)
Definition TT_PRIORITY : Z := 5.

Definition cur_thread (p : plat) : k_thread := mk_thread (cur p) TT_PRIORITY.

(** A thread pended on the driver's semaphore until a give or the deadline. *)
Definition sem_timed_out (d : Z) (p : plat) : outcome Z * plat :=
  let (r, s) := k_sem_timeout (data_sem (dev p)) (cur p) in
  (Done r, set_now (Z.max (now p) d) (set_dev (set_sem s (dev p)) p)).

Fixpoint sem_wait (deadline : option Z) (l : list (Z * irq)) (p : plat) : outcome Z * plat :=
  match l with
  | [] =>
      let p := set_pending [] p in
      match deadline with
      | None => (Stop BlockedForever, p)
      | Some d => sem_timed_out d p
      end
  | (t, i) :: l' =>
      if match deadline with Some d => d <? t | None => false end
      then match deadline with
           | None => (Stop BlockedForever, p)
           | Some d => sem_timed_out d (set_pending l p)
           end
      else
        let p := isr i (set_now (Z.max (now p) t) p) in
        if decide (cur p ∈ (tid <$> wait_q (data_sem (dev p))))
        then sem_wait deadline l' p
        else (Done 0, set_pending l' p)
  end.

(** [k_sem_take(&dev_data.data_sem, timeout)]. *)
Definition data_sem_take (timeout : k_timeout) : M plat Z := fun p =>
  match k_sem_take (data_sem (dev p)) (cur_thread p) timeout with
  | (Returned r, s) => (Done r, set_dev (set_sem s (dev p)) p)
  | (Pended, s) =>
      sem_wait (match timeout with K_FOREVER => None | K_TICKS ms => Some (now p + ms) end)
        (pending p) (set_dev (set_sem s (dev p)) p)
  end.

(** ** Driver operations *)

(** [sx12xx_lora_send]; [Radio.Send] may keep its caller for a while. *)
Definition sx12xx_lora_send (data : list Z) (data_len : Z) : M plat Z :=
  radio (SetMaxPayloadLength data_len);;
  radio (Send data data_len);;
  modify (fun p => elapse (send_ms p data_len) p);;
  mret 0.

(** What [lora_recv] hands back: its result and, on success, the bytes it
    copied to the caller's buffer with their RSSI and SNR. *)
Definition recv_result : Type := Z * option (list Z * Z * Z).

(** [sx12xx_lora_recv]. *)
Definition sx12xx_lora_recv (size : Z) (timeout : k_timeout) : M plat recv_result :=
  radio (SetMaxPayloadLength 255);;
  radio (Rx 0);;
  ret ← data_sem_take timeout;
  if ret <? 0 then mret (ret, None)
  else
    modify (fun p =>
      let d := dev p in
      if size <? rx_len d
      then set_dev (mk_dev (data_sem d) (events d) (rx_buf d) size (snr d) (rssi d)) p
      else p);;
    d ← gets dev;
    mret (rx_len d, Some (take (Z.to_nat (rx_len d)) (rx_buf d), rssi d, snr d)).

(** [sx12xx_lora_config]. *)
Definition sx12xx_lora_config (c : lora_modem_config) : M plat Z :=
  radio (SetChannel (frequency c));;
  (if tx c
   then radio (SetTxConfig (tx_power c) 0 (bandwidth c) (datarate c) (coding_rate c)
                 (preamble_len c) false true 0 0 false 4000)
   else radio (SetRxConfig (bandwidth c) (datarate c) (coding_rate c) 0 (preamble_len c) 10
                 false 0 false 0 0 false true));;
  mret 0.

(** [sx12xx_lora_test_cw]. *)
Definition sx12xx_lora_test_cw (freq power duration : Z) : M plat Z :=
  radio (SetTxContinuousWave freq power duration);; mret 0.

(** [sx12xx_init]. *)
Definition sx12xx_init : M plat Z :=
  modify (fun p => let d := dev p in
    set_dev (set_sem (k_sem_init (data_sem d) 0 K_SEM_MAX_LIMIT).2 d) p);;
  modify (fun p => let d := dev p in
    set_dev (mk_dev (data_sem d) true (rx_buf d) (rx_len d) (snr d) (rssi d)) p);;
  radio Init;;
  radio Sleep;;
  mret 0.

(** ** The driver API (drivers/lora.h) *)

(** [struct lora_driver_api]; an entry the driver leaves out is [NULL]. *)
Record lora_driver_api := mk_api {
  api_config : lora_modem_config -> M plat Z;
  api_send : list Z -> Z -> M plat Z;
  api_recv : Z -> k_timeout -> M plat recv_result;
  api_test_cw : option (Z -> Z -> Z -> M plat Z);
  api_init : option (M plat Z) }.

(** [sx127x_lora_api] and [sx126x_lora_api]. *)
Definition sx127x_lora_api : lora_driver_api :=
  mk_api sx12xx_lora_config sx12xx_lora_send sx12xx_lora_recv
    (Some sx12xx_lora_test_cw) (Some sx12xx_init).
Definition sx126x_lora_api : lora_driver_api :=
  mk_api sx12xx_lora_config sx12xx_lora_send sx12xx_lora_recv
    (Some sx12xx_lora_test_cw) None.

Definition api_of (c : lora_chip) : lora_driver_api :=
  match c with SX127X => sx127x_lora_api | SX126X => sx126x_lora_api end.

(** [device_get_binding(DEFAULT_RADIO)]. *)
Definition device_get_binding : M plat (option lora_chip) := gets chip.

(** Calls through a [NULL] device or a [NULL] entry do not return. *)
Definition lora_config (d : option lora_chip) (c : lora_modem_config) : M plat Z :=
  match d with Some ch => api_config (api_of ch) c | None => stop_with NullDeref end.
Definition lora_init (d : option lora_chip) : M plat Z :=
  match d with
  | Some ch => match api_init (api_of ch) with Some f => f | None => stop_with NullDeref end
  | None => stop_with NullDeref
  end.
Definition lora_send (d : option lora_chip) (data : list Z) (len : Z) : M plat Z :=
  match d with Some ch => api_send (api_of ch) data len | None => stop_with NullDeref end.
Definition lora_recv (d : option lora_chip) (size : Z) (to : k_timeout) : M plat recv_result :=
  match d with Some ch => api_recv (api_of ch) size to | None => stop_with NullDeref end.
Definition lora_test_cw (d : option lora_chip) (freq power duration : Z) : M plat Z :=
  match d with
  | Some ch =>
      match api_test_cw (api_of ch) with
      | None => mret (- ENOSYS)
      | Some f => f freq power duration
      end
  | None => stop_with NullDeref
  end.

(** ** What asynchronous events leave alone *)

(** Events only put the radio to sleep, change the driver's data and the
    connection flag, and let time pass. *)
Record quiet (p q : plat) : Prop := {
  quiet_cur : cur q = cur p;
  quiet_threads : threads q = threads p;
  quiet_chip : chip q = chip p;
  quiet_stale : stale q = stale p;
  quiet_send : send_ms q = send_ms p;
  quiet_rc : notify_rc q = notify_rc p;
  quiet_events : events (dev q) = events (dev p);
  quiet_limit : limit (data_sem (dev q)) = limit (data_sem (dev p));
  quiet_now : now p <= now q;
  quiet_trace : exists l, trace q = trace p ++ l /\ Forall (fun e => e.2 = EvRadio Sleep) l }.

Lemma quiet_refl p : quiet p p.
Proof. split; try done. exists []. by rewrite app_nil_r. Qed.

Lemma quiet_trans p q r : quiet p q -> quiet q r -> quiet p r.
Proof.
  intros [? ? ? ? ? ? ? ? ? (l1 & E1 & F1)] [? ? ? ? ? ? ? ? ? (l2 & E2 & F2)].
  split; try congruence; [lia|].
  exists (l1 ++ l2). rewrite E2, E1, app_assoc. split; [done|]. by apply Forall_app.
Qed.

Lemma give_limit s : limit (k_sem_give s).2 = limit s.
Proof. unfold k_sem_give. by repeat case_match. Qed.

Lemma isr_quiet i p : quiet p (isr i p).
Proof.
  destruct i; cbn; unfold connected; repeat case_match; try apply quiet_refl;
    (split; cbn; rewrite ?give_limit; try done);
    first [by exists []; rewrite app_nil_r | by eexists; split; [done|repeat constructor]].
Qed.

Lemma set_now_quiet p n : now p <= n -> quiet p (set_now n p).
Proof. intros. split; try done. exists []. by rewrite app_nil_r. Qed.

Lemma set_pending_quiet p l : quiet p (set_pending l p).
Proof. split; try done. exists []. by rewrite app_nil_r. Qed.

Create HintDb quiet.
#[export] Hint Resolve quiet_refl quiet_trans isr_quiet set_now_quiet set_pending_quiet : quiet.

Lemma serve_until_quiet d l p : quiet p (serve_until d l p).
Proof.
  revert p. induction l as [|[t i] l IH]; intros p; cbn; [apply set_pending_quiet|].
  case_match; [|apply set_pending_quiet].
  eapply quiet_trans; [|apply IH]. eapply quiet_trans; [|apply isr_quiet].
  apply set_now_quiet. lia.
Qed.

Lemma isr_now i p : now (isr i p) = now p.
Proof. destruct i; cbn; unfold connected; by repeat case_match. Qed.

Lemma isr_pending i p : pending (isr i p) = pending p.
Proof. destruct i; cbn; unfold connected; by repeat case_match. Qed.

Lemma serve_until_now d l p : now p <= d -> now (serve_until d l p) <= d.
Proof.
  revert p. induction l as [|[t i] l IH]; intros p Hp; cbn; [done|].
  case_match; [|done]. apply IH. rewrite isr_now. cbn. lia.
Qed.

Lemma elapse_quiet ms p : 0 <= ms -> quiet p (elapse ms p).
Proof.
  intros. unfold elapse. eapply quiet_trans; [apply serve_until_quiet|].
  apply set_now_quiet. apply serve_until_now. lia.
Qed.

Lemma elapse_now ms p : now (elapse ms p) = now p + ms.
Proof. done. Qed.

(** Events still pending after a while are among those pending before. *)
Lemma serve_until_pending d l p :
  exists k, pending (serve_until d l p) = drop k l.
Proof.
  revert p. induction l as [|[t i] l IH]; intros p; cbn; [by exists 0%nat|].
  case_match; [|by exists 0%nat].
  destruct (IH (isr i (set_now (Z.max (now p) t) p))) as [k Hk]. by exists (S k).
Qed.

(** ** What a run does

    [vis] is a trace without its times and without the [Sleep] calls that
    completion events add. [ran l p q]: code that took [p] to [q] did exactly
    [l], whatever events came in between, and changed no thread. *)
Definition hidden (e : Z * event) : bool :=
  match e.2 with EvRadio Sleep => true | _ => false end.
Definition vis (l : list (Z * event)) : list event :=
  snd <$> filter (fun e => hidden e = false) l.

Lemma vis_app l k : vis (l ++ k) = vis l ++ vis k.
Proof. unfold vis. by rewrite filter_app, fmap_app. Qed.

Lemma vis_sleeps l : Forall (fun e => e.2 = EvRadio Sleep) l -> vis l = [].
Proof.
  induction 1 as [|[t e] l He Hl IH]; [done|]. cbn in He. subst e.
  unfold vis. rewrite filter_cons_False by done. apply IH.
Qed.

Record ran (l : list event) (p q : plat) : Prop := {
  ran_cur : cur q = cur p;
  ran_threads : threads q = threads p;
  ran_chip : chip q = chip p;
  ran_stale : stale q = stale p;
  ran_send : send_ms q = send_ms p;
  ran_rc : notify_rc q = notify_rc p;
  ran_events : events (dev q) = events (dev p);
  ran_now : now p <= now q;
  ran_ext : exists k, trace q = trace p ++ k;
  ran_vis : vis (trace q) = vis (trace p) ++ l }.

Lemma quiet_ran p q : quiet p q -> ran [] p q.
Proof.
  intros [? ? ? ? ? ? ? ? ? (l & E & Hl)]. split; try done; [by exists l|].
  by rewrite E, vis_app, (vis_sleeps l).
Qed.

Lemma ran_trans l k p q r : ran l p q -> ran k q r -> ran (l ++ k) p r.
Proof.
  intros [? ? ? ? ? ? ? ? [k1 X1] E1] [? ? ? ? ? ? ? ? [k2 X2] E2]. split; try congruence; [lia| |].
  - exists (k1 ++ k2). by rewrite X2, X1, app_assoc.
  - by rewrite E2, E1, app_assoc.
Qed.

Lemma ran_refl p : ran [] p p.
Proof. apply quiet_ran, quiet_refl. Qed.

Lemma ran_emit e p : hidden (0, e) = false -> ran [e] p (emit e p).
Proof.
  intros He. split; try done; [by eexists|]. unfold emit; cbn [trace]. rewrite vis_app. f_equal.
  unfold vis. rewrite filter_cons_True by exact He. done.
Qed.

(** Commands to the radio among what a run did. *)
Definition cmd_of (e : event) : list radio_call :=
  match e with EvRadio c => [c] | _ => [] end.
Definition cmds (l : list event) : list radio_call := l ≫= cmd_of.

Lemma cmds_app l k : cmds (l ++ k) = cmds l ++ cmds k.
Proof. apply bind_app. Qed.

(** ** Driver invariant *)

(** Between two calls of the driver no thread waits on its semaphore, and the
    stored length never exceeds the stored packet. *)
Record drv_ok (p : plat) : Prop := {
  drv_sem : inv (data_sem (dev p));
  drv_idle : wait_q (data_sem (dev p)) = [];
  drv_len : 0 <= rx_len (dev p) <= Z.of_nat (length (rx_buf (dev p)));
  drv_len8 : rx_len (dev p) < 2 ^ 8 }.

Lemma u8_le n : u8 (Z.of_nat n) <= Z.of_nat n.
Proof. unfold u8. apply Z.mod_le; lia. Qed.

(** The same while thread [cur p] is pended. *)
Record drv_pended (p : plat) : Prop := {
  pd_limit : 0 < limit (data_sem (dev p)) <= K_SEM_MAX_LIMIT;
  pd_count : count (data_sem (dev p)) = 0;
  pd_wait : wait_q (data_sem (dev p)) = [cur_thread p];
  pd_len : 0 <= rx_len (dev p) <= Z.of_nat (length (rx_buf (dev p)));
  pd_len8 : rx_len (dev p) < 2 ^ 8 }.

Lemma wf_nil : wf [].
Proof. split; [constructor|by constructor]. Qed.

Lemma wf_single t : wf [t].
Proof. split; [repeat constructor|]. cbn. apply NoDup_singleton. Qed.

Definition is_rx (i : irq) : bool :=
  match i with IrqRxDone _ _ _ => true | _ => false end.

Lemma isr_other_dev i p : is_rx i = false -> dev (isr i p) = dev p.
Proof. destruct i; cbn; unfold connected; try done; intros _; by repeat case_match. Qed.

Lemma isr_cur i p : cur (isr i p) = cur p.
Proof. apply (quiet_cur _ _ (isr_quiet i p)). Qed.

Lemma drv_ok_isr i p : drv_ok p -> drv_ok (isr i p).
Proof.
  intros Hp. destruct (is_rx i) eqn:Hi.
  - destruct i as [pl r s| | |]; try done. cbn. case_match; [|done].
    destruct Hp as [Hs Hw Hl H8]. pose proof (inv_give _ Hs) as Hg.
    split; cbn; [done| |pose proof (u8_byte (Z.of_nat (length pl))) as Hb;
                       pose proof (u8_le (length pl)); unfold byte_ok in Hb; lia
                 |apply u8_byte].
    by rewrite give_empty.
  - destruct Hp. split; by rewrite isr_other_dev.
Qed.

Lemma drv_ok_dev p q : dev q = dev p -> drv_ok p -> drv_ok q.
Proof. intros E []. split; by rewrite E. Qed.

Lemma drv_ok_serve d l p : drv_ok p -> drv_ok (serve_until d l p).
Proof.
  revert p. induction l as [|[t i] l IH]; intros p Hp; cbn; [by eapply drv_ok_dev, Hp|].
  case_match; [|by eapply drv_ok_dev, Hp].
  apply IH, drv_ok_isr. by eapply drv_ok_dev, Hp.
Qed.

Lemma drv_ok_elapse ms p : drv_ok p -> drv_ok (elapse ms p).
Proof. intros Hp. eapply drv_ok_dev; [|by apply drv_ok_serve]. done. Qed.

Lemma drv_pended_dev p q : dev q = dev p -> cur q = cur p -> drv_pended p -> drv_pended q.
Proof. intros E Ec []. split; unfold cur_thread; by rewrite ?E, ?Ec. Qed.

Lemma drv_pended_other i p : is_rx i = false -> drv_pended p -> drv_pended (isr i p).
Proof.
  intros Hi Hp. eapply drv_pended_dev; [by apply isr_other_dev|apply isr_cur|done].
Qed.

(** A received packet wakes the pended thread and leaves the semaphore empty. *)
Lemma drv_pended_rx pl r s p :
  events (dev p) = true -> drv_pended p ->
  drv_ok (isr (IrqRxDone pl r s) p) /\
  count (data_sem (dev (isr (IrqRxDone pl r s) p))) = 0 /\
  rx_buf (dev (isr (IrqRxDone pl r s) p)) = pl /\
  rx_len (dev (isr (IrqRxDone pl r s) p)) = u8 (Z.of_nat (length pl)) /\
  rssi (dev (isr (IrqRxDone pl r s) p)) = s16 r /\
  snr (dev (isr (IrqRxDone pl r s) p)) = s8 s.
Proof.
  intros He [Hl Hc Hw Hn H8]. cbn. rewrite He.
  unfold sx12xx_ev_rx_done, sem_give_dev. cbn.
  unfold k_sem_give. rewrite Hw, unpend_head by apply wf_single. cbn.
  repeat (split; try done); cbn; rewrite ?Hc; try (unfold K_SEM_MAX_LIMIT in *; lia).
  - constructor.
  - constructor.
  - apply u8_byte.
  - apply u8_le.
  - apply u8_byte.
Qed.

Lemma pended_stays p :
  drv_pended p -> cur p ∈ (tid <$> wait_q (data_sem (dev p))).
Proof. intros [_ _ -> _ _]. cbn. set_solver. Qed.

Lemma ok_not_waiting p :
  drv_ok p -> cur p ∉ (tid <$> wait_q (data_sem (dev p))).
Proof. intros [_ -> _ _]. cbn. set_solver. Qed.

Lemma timed_out_ok d p :
  drv_pended p -> exists q, sem_timed_out d p = (Done (- EAGAIN), q) /\
    drv_ok q /\ now q = Z.max (now p) d /\ pending q = pending p /\ quiet p q.
Proof.
  intros [Hl Hc Hw Hn H8]. unfold sem_timed_out, k_sem_timeout. eexists. split; [done|].
  assert (Hr : z_priq_dumb_remove (wait_q (data_sem (dev p))) (cur p) = []).
  { rewrite Hw. unfold z_priq_dumb_remove. rewrite filter_cons_False; [done|].
    cbn. intros Hne. by apply Hne. }
  rewrite Hr. repeat split; cbn; try done; rewrite ?Hc; try lia; try apply wf_nil.
  exists []. by rewrite app_nil_r.
Qed.

Lemma isr_step_quiet t i p : quiet p (isr i (set_now (Z.max (now p) t) p)).
Proof. eapply quiet_trans; [|apply isr_quiet]. apply set_now_quiet. lia. Qed.

(** Every way a wait can end. *)
Lemma sem_wait_cases dl l p :
  drv_pended p ->
  exists q, quiet p q /\
    ((sem_wait dl l p = (Done 0, q) /\ drv_ok q /\
      (length (pending q) < length l)%nat /\ count (data_sem (dev q)) = 0 /\
      (forall d, dl = Some d -> now p <= d -> now q <= d)) \/
     (exists d, dl = Some d /\ sem_wait dl l p = (Done (- EAGAIN), q) /\ drv_ok q /\
      d <= now q /\ (length (pending q) <= length l)%nat /\
      (now p <= d -> now q = d) /\ count (data_sem (dev q)) = 0) \/
     (dl = None /\ sem_wait dl l p = (Stop BlockedForever, q))).
Proof.
  revert p. induction l as [|[t i] l IH]; intros p Hp; cbn [sem_wait].
  - destruct dl as [d|].
    + destruct (timed_out_ok d (set_pending [] p)) as (q & Hq & Hok & Hn & Hpe & Hqt).
      { by eapply drv_pended_dev, Hp. }
      exists q. split; [by eapply quiet_trans, Hqt; apply set_pending_quiet|].
      right; left. exists d. cbn in Hn. rewrite Hq, Hn, Hpe. split_and!; try done; try (cbn; lia).
      revert Hq. unfold sem_timed_out, k_sem_timeout. intros [= <-]. apply Hp.
    + exists (set_pending [] p). split; [apply set_pending_quiet|]. by right; right.
  - case_match eqn:Hlate.
    + destruct dl as [d|]; [|done].
      destruct (timed_out_ok d (set_pending ((t, i) :: l) p)) as (q & Hq & Hok & Hn & Hpe & Hqt).
      { by eapply drv_pended_dev, Hp. }
      exists q. split; [by eapply quiet_trans, Hqt; apply set_pending_quiet|].
      right; left. exists d. cbn in Hn. rewrite Hq, Hn, Hpe. split_and!; try done; try (cbn; lia).
      revert Hq. unfold sem_timed_out, k_sem_timeout. intros [= <-]. apply Hp.
    + pose proof (isr_step_quiet t i p) as Hs.
      set (p1 := isr i (set_now (Z.max (now p) t) p)) in *.
      assert (Hp0 : drv_pended (set_now (Z.max (now p) t) p)) by (by eapply drv_pended_dev, Hp).
      assert (Hcase : drv_pended p1 \/ (drv_ok p1 /\ count (data_sem (dev p1)) = 0)).
      { destruct (is_rx i) eqn:Hi; [|left; by apply drv_pended_other].
        destruct i as [pl r s| | |]; try done.
        destruct (events (dev p)) eqn:He.
        - right. destruct (drv_pended_rx pl r s (set_now (Z.max (now p) t) p)) as (? & ? & _);
            done.
        - left. subst p1. cbn. by rewrite He. }
      destruct Hcase as [Hp1|[Hok Hc]].
      * rewrite decide_True by (by apply pended_stays).
        destruct (IH p1 Hp1) as (q & Hq & Hres). exists q. split; [by eapply quiet_trans|].
        assert (Hn1 : now p1 = Z.max (now p) t) by (by subst p1; rewrite isr_now).
        destruct Hres as [(Hw & Ho & Hlen & Hc & Hn)|[(d & -> & Hw & Ho & Hd & Hlen & Hn & Hc)|(-> & Hw)]].
        -- left. split_and!; try done; [cbn; lia|]. intros d -> Hle. apply Hn; [done|].
           rewrite Hn1. apply Z.ltb_ge in Hlate. lia.
        -- right; left. exists d. split_and!; try done; [cbn; lia|].
           intros Hle. apply Hn. rewrite Hn1. apply Z.ltb_ge in Hlate. lia.
        -- by right; right.
      * rewrite decide_False by (by apply ok_not_waiting).
        exists (set_pending l p1). split; [by eapply quiet_trans, set_pending_quiet|].
        left. split_and!; try done; [by eapply drv_ok_dev, Hok|cbn; lia|].
        intros d -> Hle. apply Z.ltb_ge in Hlate. cbn. subst p1. rewrite isr_now. cbn. lia.
Qed.

(** The same for a whole [k_sem_take] of the driver's semaphore. *)
Lemma data_sem_take_cases to p :
  drv_ok p -> (forall ms, to = K_TICKS ms -> 0 <= ms) ->
  exists q, quiet p q /\
    ((data_sem_take to p = (Done 0, q) /\ drv_ok q /\
      (forall ms, to = K_TICKS ms -> now q <= now p + ms) /\
      ((0 < count (data_sem (dev p)) /\ q = set_dev (set_sem (mk_sem (count (data_sem (dev p)) - 1)
           (limit (data_sem (dev p))) []) (dev p)) p) \/
       (count (data_sem (dev p)) = 0 /\ (length (pending q) < length (pending p))%nat /\
        count (data_sem (dev q)) = 0))) \/
     (exists ms, to = K_TICKS ms /\ data_sem_take to p =
        (Done (if ms =? 0 then - EBUSY else - EAGAIN), q) /\ drv_ok q /\
      now q = now p + ms /\ (length (pending q) <= length (pending p))%nat /\
      count (data_sem (dev p)) = 0 /\ count (data_sem (dev q)) = 0) \/
     (to = K_FOREVER /\ data_sem_take to p = (Stop BlockedForever, q))).
Proof.
  intros Hok Hto. unfold data_sem_take, k_sem_take.
  destruct Hok as [Hs Hw Hl H8] eqn:Hok'. clear Hok'.
  destruct (Z.ltb_spec 0 (count (data_sem (dev p)))) as [Hpos|Hz].
  - eexists. split; [|left; split; [done|split; [|split; [|left; by rewrite Hw]]]].
    + split; try done. exists []. by rewrite app_nil_r.
    + destruct Hs as [H1 H2 H3 H4]. rewrite Hw.
      repeat split; cbn; try done; try lia; constructor.
    + intros ms ->. specialize (Hto ms eq_refl). cbn. lia.
  - assert (Hc : count (data_sem (dev p)) = 0) by (pose proof (inv_count _ Hs); lia).
    destruct (is_no_wait to) eqn:Hnw.
    + destruct to as [|ms]; [done|]. cbn in Hnw. apply Z.eqb_eq in Hnw as ->.
      exists (set_dev (set_sem (data_sem (dev p)) (dev p)) p).
      split; [split; try done; exists []; by rewrite app_nil_r|].
      right; left. exists 0. cbn. split_and!; try done; try lia; apply Hs.
    + destruct (sem_wait_cases
        match to with K_FOREVER => None | K_TICKS ms => Some (now p + ms) end (pending p)
        (set_dev (set_sem (mk_sem (count (data_sem (dev p))) (limit (data_sem (dev p)))
           (z_priq_dumb_add (wait_q (data_sem (dev p))) (cur_thread p))) (dev p)) p))
        as (q & Hq & Hres).
      { split; cbn; try done; [apply Hs|by rewrite Hw]. }
      exists q. split.
      { eapply quiet_trans, Hq. split; try done. exists []. by rewrite app_nil_r. }
      destruct Hres as [(-> & Ho & Hlen & Hc' & Hn)|[(d & Hd & -> & Ho & Hn & Hlen & Hn' & Hc')|(Hd & ->)]].
      * left. split; [done|]. split; [done|]. split; [|by right]. intros ms ->. cbn in Hn.
        apply Hn; [done|]. specialize (Hto ms eq_refl). lia.
      * right; left. destruct to as [|ms]; [done|]. injection Hd as <-. exists ms.
        cbn in Hnw. rewrite Hnw. split_and!; try done; try apply Ho.
        apply Hn'. cbn. specialize (Hto ms eq_refl). lia.
      * right; right. by destruct to.
Qed.

(** ** Behaviour of the operations *)

Lemma drv_ok_emit e p : drv_ok p -> drv_ok (emit e p).
Proof. by apply drv_ok_dev. Qed.

Lemma ran_emits l k e p q : hidden (0, e) = false -> ran l (emit e p) q -> k = e :: l -> ran k p q.
Proof. intros He Hr ->. change (e :: l) with ([e] ++ l). by eapply ran_trans, Hr; apply ran_emit. Qed.

(** Every way [lora_recv] can end: [n] counts the packets still to be had. *)
Definition backlog (p : plat) : Z :=
  count (data_sem (dev p)) + Z.of_nat (length (pending p)).

Definition RECV : list event := [EvRadio (SetMaxPayloadLength 255); EvRadio (Rx 0)].

Lemma recv_cases size to p :
  drv_ok p -> 0 <= size < 2 ^ 8 -> (forall ms, to = K_TICKS ms -> 0 <= ms) ->
  exists q, ran RECV p q /\
    ((exists bytes rs sn, sx12xx_lora_recv size to p =
        (Done (Z.of_nat (length bytes), Some (bytes, rs, sn)), q) /\ drv_ok q /\
        Z.of_nat (length bytes) <= size /\ backlog q < backlog p /\
        (forall ms, to = K_TICKS ms -> now q <= now p + ms)) \/
     (exists ms, to = K_TICKS ms /\ sx12xx_lora_recv size to p =
        (Done (if ms =? 0 then - EBUSY else - EAGAIN, None), q) /\ drv_ok q /\
        now q = now p + ms /\ backlog q <= backlog p) \/
     (to = K_FOREVER /\ sx12xx_lora_recv size to p = (Stop BlockedForever, q))).
Proof.
  intros Hok Hsz Hto.
  set (p2 := emit (EvRadio (Rx 0)) (emit (EvRadio (SetMaxPayloadLength 255)) p)).
  assert (Hok2 : drv_ok p2) by (by apply drv_ok_emit, drv_ok_emit).
  assert (Hp2 : ran RECV p p2).
  { apply (ran_emits [EvRadio (Rx 0)] _ (EvRadio (SetMaxPayloadLength 255)));
      [done|by apply ran_emit|done]. }
  destruct (data_sem_take_cases to p2 Hok2 Hto) as (q & Hq & Hres).
  unfold sx12xx_lora_recv, radio, log. rewrite !bind_modify. fold p2.
  destruct Hres as [(Ht & Hokq & Hms & Hw)|[(ms & -> & Ht & Hokq & Hn & Hl & Hc & Hcq)|(-> & Ht)]];
    (rewrite (bind_done _ _ _ _ _ Ht) || rewrite (bind_stop _ _ _ _ _ Ht)).
  - set (q' := if size <? rx_len (dev q)
               then set_dev (mk_dev (data_sem (dev q)) (events (dev q)) (rx_buf (dev q)) size
                               (snr (dev q)) (rssi (dev q))) q else q).
    exists q'.
    assert (Hqq : quiet q q').
    { subst q'. case_match; [|apply quiet_refl]. split; try done. exists []. by rewrite app_nil_r. }
    split.
    { rewrite <- (app_nil_r RECV). eapply ran_trans; [exact Hp2|]. apply quiet_ran.
      by eapply quiet_trans. }
    left. exists (take (Z.to_nat (rx_len (dev q'))) (rx_buf (dev q'))), (rssi (dev q')), (snr (dev q')).
    assert (Hokq' : drv_ok q').
    { subst q'. destruct (Z.ltb_spec size (rx_len (dev q))); [|done].
      destruct Hokq as [H1 H2 H3 H4]. split; cbn; try done; lia. }
    assert (Hlen : Z.of_nat (length (take (Z.to_nat (rx_len (dev q'))) (rx_buf (dev q')))) =
                   rx_len (dev q')).
    { pose proof (drv_len _ Hokq'). rewrite length_take. lia. }
    rewrite Hlen. split; [done|]. split; [done|]. split; [|split].
    + subst q'. destruct (Z.ltb_spec size (rx_len (dev q))); cbn; lia.
    + unfold backlog. assert (E : data_sem (dev q') = data_sem (dev q) /\ pending q' = pending q)
        by (subst q'; by case_match). destruct E as [-> ->].
      destruct Hw as [[Hpos ->]|(Hz & Hlt & ->)]; cbn in *; lia.
    + intros ms Hto'. subst q'. specialize (Hms ms Hto'). by case_match.
  - exists q. split.
    { rewrite <- (app_nil_r RECV). eapply ran_trans; [exact Hp2|]. by apply quiet_ran. }
    right; left. exists ms. split_and!; try done.
    + by destruct (ms =? 0).
    + unfold backlog. cbn in *. lia.
  - exists q. split; [|by right; right].
    rewrite <- (app_nil_r RECV). eapply ran_trans; [exact Hp2|]. by apply quiet_ran.
Qed.

Lemma recv_ran size to p o q :
  drv_ok p -> 0 <= size < 2 ^ 8 -> (forall ms, to = K_TICKS ms -> 0 <= ms) ->
  sx12xx_lora_recv size to p = (o, q) -> ran RECV p q.
Proof.
  intros Hok Hsz Hto E. destruct (recv_cases size to p Hok Hsz Hto) as (q' & Hr & Hc).
  rewrite E in Hc. by destruct Hc as [(? & ? & ? & [= -> ->] & _)|[(? & _ & [= -> ->] & _)|(_ & [= -> ->])]].
Qed.

Lemma recv_drv size to p a q :
  drv_ok p -> 0 <= size < 2 ^ 8 -> (forall ms, to = K_TICKS ms -> 0 <= ms) ->
  sx12xx_lora_recv size to p = (Done a, q) -> drv_ok q /\ backlog q <= backlog p.
Proof.
  intros Hok Hsz Hto E. destruct (recv_cases size to p Hok Hsz Hto) as (q' & Hr & Hc).
  rewrite E in Hc.
  destruct Hc as [(? & ? & ? & [= -> ->] & ? & ? & ? & ?)|[(? & _ & [= -> ->] & ? & ? & ?)|(_ & ?)]];
    [split; [done|lia]|done|done].
Qed.

(** A wait that a packet ends: the events before it are served first. *)
Lemma sem_wait_rx dl l1 t pl r s l2 p :
  drv_pended p -> events (dev p) = true ->
  Forall (fun e => is_rx e.2 = false) l1 ->
  Forall (fun e => e.1 <= t) l1 -> now p <= t ->
  (forall d, dl = Some d -> t <= d) ->
  exists q, sem_wait dl (l1 ++ (t, IrqRxDone pl r s) :: l2) p = (Done 0, q) /\
    drv_ok q /\ now q = t /\ pending q = l2 /\ count (data_sem (dev q)) = 0 /\
    rx_buf (dev q) = pl /\ rx_len (dev q) = u8 (Z.of_nat (length pl)) /\
    rssi (dev q) = s16 r /\ snr (dev q) = s8 s.
Proof.
  intros Hp He Hrx. revert p Hp He.
  induction Hrx as [|[t' i] l1 Hi Hrx IH]; intros p Hp He Hle Hnow Hdl; cbn [app sem_wait].
  - replace (match dl with Some d => d <? t | None => false end) with false.
    2: { destruct dl as [d|]; [|done]. specialize (Hdl d eq_refl). lia. }
    destruct (drv_pended_rx pl r s (set_now (Z.max (now p) t) p))
      as (Hok & Hc & Hb & Hl & Hr & Hs); [done|by eapply drv_pended_dev, Hp|].
    set (q := isr _ _) in *. rewrite decide_False by (by apply ok_not_waiting).
    exists (set_pending l2 q). split_and!; try done; [by eapply drv_ok_dev, Hok|].
    subst q. cbn -[isr]. rewrite isr_now. cbn. lia.
  - apply Forall_cons in Hle as [Hle' Hle]. cbn in Hi, Hle'.
    replace (match dl with Some d => d <? t' | None => false end) with false.
    2: { destruct dl as [d|]; [|done]. specialize (Hdl d eq_refl). lia. }
    set (q := isr i (set_now (Z.max (now p) t') p)).
    assert (Hq : drv_pended q) by (apply drv_pended_other; [done|by eapply drv_pended_dev, Hp]).
    rewrite decide_True by (by apply pended_stays).
    apply IH; try done.
    + subst q. rewrite (quiet_events _ _ (isr_quiet _ _)). done.
    + subst q. rewrite isr_now. cbn. lia.
Qed.

(** A packet that completes in time. *)
Lemma recv_packet size to p l1 t pl r s l2 :
  drv_ok p -> events (dev p) = true -> count (data_sem (dev p)) = 0 ->
  0 <= size < 2 ^ 8 -> (length pl < 256)%nat ->
  (forall ms, to = K_TICKS ms -> 0 < ms /\ t <= now p + ms) ->
  pending p = l1 ++ (t, IrqRxDone pl r s) :: l2 ->
  Forall (fun e => is_rx e.2 = false) l1 -> Forall (fun e => e.1 <= t) l1 -> now p <= t ->
  exists q, sx12xx_lora_recv size to p =
    (Done (Z.min (Z.of_nat (length pl)) size, Some (take (Z.to_nat size) pl, s16 r, s8 s)), q) /\
    now q = t /\ pending q = l2 /\ drv_ok q /\ count (data_sem (dev q)) = 0.
Proof.
  intros Hok He Hc Hsz Hpl Hto Hpe Hrx Hle Hnow.
  unfold sx12xx_lora_recv, radio, log. rewrite !bind_modify.
  set (p2 := emit (EvRadio (Rx 0)) (emit (EvRadio (SetMaxPayloadLength 255)) p)).
  assert (Htake : exists q, data_sem_take to p2 = (Done 0, q) /\ drv_ok q /\ now q = t /\
    pending q = l2 /\ count (data_sem (dev q)) = 0 /\ rx_buf (dev q) = pl /\
    rx_len (dev q) = u8 (Z.of_nat (length pl)) /\ rssi (dev q) = s16 r /\ snr (dev q) = s8 s).
  { unfold data_sem_take, k_sem_take. cbn. rewrite Hc. cbn.
    assert (Hnw : is_no_wait to = false).
    { destruct to as [|ms]; [done|]. destruct (Hto ms eq_refl). cbn. lia. }
    rewrite Hnw, Hpe. destruct Hok as [Hs Hw Hl H8].
    apply sem_wait_rx; try done.
    - split; cbn; try done; [apply Hs|by rewrite Hw].
    - intros d Hd. destruct to as [|ms]; [done|]. injection Hd as <-. by apply Hto. }
  destruct Htake as (q & Ht & Hokq & Hn & Hpq & Hcq & Hb & Hl & Hr & Hs).
  rewrite (bind_done _ _ _ _ _ Ht). cbn. unfold mbind, M_bind, modify, gets. cbn.
  rewrite u8_id in Hl by (unfold byte_ok; lia).
  rewrite Hl. destruct (Z.ltb_spec size (Z.of_nat (length pl))); cbn.
  - eexists. split; [rewrite Hb, Hr, Hs, Z.min_r by lia; done|].
    split_and!; try done. destruct Hokq as [H1 H2 H3 H4]. split; cbn; try done; lia.
  - exists q. split; [|done]. rewrite Hb, Hr, Hs, Hl, Z.min_l, Nat2Z.id, !take_ge by lia. done.
Qed.

(** C22. When the driver is idle with an empty semaphore and the
    first packet on the air completes before the deadline (or the wait has
    none), [lora_recv] returns at that moment with the packet cut to the
    caller's size, its RSSI and SNR, leaves the semaphore empty again and
    leaves the later events pending. *)
Theorem recv_delivers size to p l1 t pl r s l2 :
  drv_ok p -> events (dev p) = true -> count (data_sem (dev p)) = 0 ->
  0 <= size < 2 ^ 8 -> (length pl < 256)%nat ->
  (forall ms, to = K_TICKS ms -> 0 < ms /\ t <= now p + ms) ->
  pending p = l1 ++ (t, IrqRxDone pl r s) :: l2 ->
  Forall (fun e => is_rx e.2 = false) l1 -> Forall (fun e => e.1 <= t) l1 -> now p <= t ->
  exists q, sx12xx_lora_recv size to p =
    (Done (Z.min (Z.of_nat (length pl)) size, Some (take (Z.to_nat size) pl, s16 r, s8 s)), q) /\
    now q = t /\ pending q = l2 /\ drv_ok q /\ count (data_sem (dev q)) = 0.
Proof. apply recv_packet. Qed.

(** A platform for concrete runs: an SX127x that is initialised, no thread
    waiting, and the given events to come. *)
Definition demo_plat (t0 : Z) (l : list (Z * irq)) : plat :=
  mk_plat t0 l (mk_dev (mk_sem 0 K_SEM_MAX_LIMIT []) true [] 0 0 0) (Some SX127X) 9
    ∅ true (fun _ => 0) (fun _ => 0) (fun _ => 0) [].

Lemma demo_ok t0 l : drv_ok (demo_plat t0 l).
Proof.
  split; cbn; try done; try lia.
  split; cbn; [unfold K_SEM_MAX_LIMIT; lia|unfold K_SEM_MAX_LIMIT; lia|done|apply wf_nil].
Qed.

Lemma recv_delivers_witness :
  exists q, sx12xx_lora_recv 2 (K_MSEC 3000)
      (demo_plat 0 [(100, IrqTxDone); (250, IrqRxDone [33; 112; 105] (-70) 9)]) =
    (Done (2, Some ([33; 112], -70, 9)), q) /\ now q = 250 /\ pending q = [] /\ drv_ok q /\
    count (data_sem (dev q)) = 0.
Proof.
  apply (recv_delivers 2 (K_MSEC 3000) _ [(100, IrqTxDone)] 250 [33; 112; 105] (-70) 9 []);
    try reflexivity; try (cbn; lia); try apply demo_ok.
  - intros ms [= <-]. cbn. lia.
  - repeat constructor.
  - repeat constructor. cbn. lia.
Defined.

(** A wait that no packet ends. *)
Lemma sem_wait_none d l p :
  drv_pended p -> now p <= d ->
  Forall (fun e => is_rx e.2 = true -> d < e.1) l ->
  exists q, sem_wait (Some d) l p = (Done (- EAGAIN), q) /\ drv_ok q /\ now q = d /\
    dev q = set_sem (mk_sem 0 (limit (data_sem (dev p))) []) (dev p).
Proof.
  intros Hp Hnow Hl. revert p Hp Hnow.
  assert (Hto : forall p, drv_pended p -> now p <= d ->
    exists q, sem_timed_out d p = (Done (- EAGAIN), q) /\ drv_ok q /\ now q = d /\
    dev q = set_sem (mk_sem 0 (limit (data_sem (dev p))) []) (dev p)).
  { intros p Hp Hn. destruct (timed_out_ok d p Hp) as (q & Hq & Hok & Hnq & _ & _).
    exists q. split_and!; try done; [lia|]. revert Hq. unfold sem_timed_out, k_sem_timeout.
    intros [= <-]. cbn. rewrite (pd_count _ Hp), (pd_wait _ Hp).
    unfold z_priq_dumb_remove. rewrite filter_cons_False; [done|]. cbn. intros Hne. by apply Hne. }
  induction Hl as [|[t i] l Hi Hl IH]; intros p Hp Hnow; cbn [sem_wait].
  - apply (Hto (set_pending [] p)); [by eapply drv_pended_dev, Hp|done].
  - destruct (Z.ltb_spec d t); [apply (Hto (set_pending _ p)); [by eapply drv_pended_dev, Hp|done]|].
    cbn in Hi. destruct (is_rx i) eqn:Hrx; [specialize (Hi eq_refl); lia|].
    set (q := isr i (set_now (Z.max (now p) t) p)).
    assert (Hq : drv_pended q) by (apply drv_pended_other; [done|by eapply drv_pended_dev, Hp]).
    rewrite decide_True by (by apply pended_stays).
    assert (Hd : dev q = dev p) by (subst q; by rewrite isr_other_dev).
    rewrite <- Hd. apply IH; [done|]. subst q. rewrite isr_now. cbn. lia.
Qed.

(** No packet in time. *)
Lemma recv_silence size ms p :
  drv_ok p -> count (data_sem (dev p)) = 0 -> 0 < ms ->
  Forall (fun e => is_rx e.2 = true -> now p + ms < e.1) (pending p) ->
  0 <= size < 2 ^ 8 ->
  exists q, sx12xx_lora_recv size (K_MSEC ms) p = (Done (- EAGAIN, None), q) /\
    now q = now p + ms /\ drv_ok q /\
    dev q = set_sem (mk_sem 0 (limit (data_sem (dev p))) []) (dev p) /\
    vis (trace q) = vis (trace p) ++ RECV.
Proof.
  intros Hok Hc Hms Hl Hsz.
  destruct (recv_cases size (K_MSEC ms) p Hok Hsz) as (q & Hran & _).
  { intros m [= <-]. lia. }
  unfold sx12xx_lora_recv, radio, log in *. rewrite !bind_modify in *.
  set (p2 := emit (EvRadio (Rx 0)) (emit (EvRadio (SetMaxPayloadLength 255)) p)) in *.
  assert (Htake : exists q, data_sem_take (K_MSEC ms) p2 = (Done (- EAGAIN), q) /\ drv_ok q /\
    now q = now p + ms /\ dev q = set_sem (mk_sem 0 (limit (data_sem (dev p))) []) (dev p)).
  { unfold data_sem_take, k_sem_take, K_MSEC. rewrite Z.max_l by lia. cbn. rewrite Hc.
    destruct (Z.eqb_spec ms 0); [lia|]. cbn. destruct Hok as [Hs Hw Hlen H8].
    match goal with |- context [sem_wait (Some ?d) ?l ?x] =>
      destruct (sem_wait_none d l x) as (q1 & E1 & Hok1 & Hn1 & Hd1) end; cbn; [|lia|done|].
    - split; cbn; try done; [apply Hs|by rewrite Hw].
    - exists q1. split_and!; done. }
  destruct Htake as (q1 & Ht & Hokq & Hn & Hd).
  exists q1. rewrite (bind_done _ _ _ _ _ Ht). cbn. split_and!; try done.
  destruct (data_sem_take_cases (K_MSEC ms) p2) as (q2 & Hq2 & Hcases).
  { by apply drv_ok_emit, drv_ok_emit. }
  { intros m [= <-]. lia. }
  assert (E : q2 = q1).
  { change (q2 = (Done (- EAGAIN), q1).2). rewrite <- Ht.
    by destruct Hcases as [(-> & _)|[(m & _ & -> & _)|(_ & ->)]]. }
  subst q2. rewrite (ran_vis _ _ _ (quiet_ran _ _ Hq2)), app_nil_r.
  subst p2. unfold emit. cbn [trace now]. rewrite !vis_app, <- app_assoc. done.
Qed.

(** When no packet completes by the deadline, [lora_recv]
    returns [-EAGAIN] exactly at the deadline, copies nothing, and issues
    nothing to the radio after [Rx]: the radio is left receiving, and the
    driver's stored packet and semaphore are as before. *)
Theorem recv_times_out size ms p :
  drv_ok p -> count (data_sem (dev p)) = 0 -> 0 < ms ->
  Forall (fun e => is_rx e.2 = true -> now p + ms < e.1) (pending p) ->
  0 <= size < 2 ^ 8 ->
  exists q, sx12xx_lora_recv size (K_MSEC ms) p = (Done (- EAGAIN, None), q) /\
    now q = now p + ms /\ drv_ok q /\
    dev q = set_sem (mk_sem 0 (limit (data_sem (dev p))) []) (dev p) /\
    vis (trace q) = vis (trace p) ++ RECV.
Proof. apply recv_silence. Qed.

Lemma recv_times_out_witness :
  exists q, sx12xx_lora_recv 20 (K_MSEC 2000)
      (demo_plat 10 [(100, IrqTxDone); (2011, IrqRxDone [1] (-70) 9)]) = (Done (-11, None), q) /\
    now q = 2010 /\ drv_ok q /\ dev q = dev (demo_plat 0 []) /\
    vis (trace q) = RECV.
Proof.
  apply (recv_times_out 20 2000
           (demo_plat 10 [(100, IrqTxDone); (2011, IrqRxDone [1] (-70) 9)]) (demo_ok _ _));
    try reflexivity; try (cbn; lia).
  repeat constructor; cbn; try done; lia.
Defined.

(** Two packets that complete while nobody receives: the
    second overwrites the first in the driver, yet both are counted, so the
    next two calls of [lora_recv] return at once and both hand out the second
    packet; the first is lost. *)
Theorem recv_overwrites size to ms p t1 pl1 r1 s1 t2 pl2 r2 s2 rest :
  drv_ok p -> events (dev p) = true -> count (data_sem (dev p)) = 0 ->
  limit (data_sem (dev p)) = K_SEM_MAX_LIMIT ->
  pending p = (t1, IrqRxDone pl1 r1 s1) :: (t2, IrqRxDone pl2 r2 s2) :: rest ->
  now p <= t1 -> t1 <= t2 <= now p + ms ->
  Forall (fun e => now p + ms < e.1) rest ->
  (length pl2 < 256)%nat -> Z.of_nat (length pl2) <= size < 2 ^ 8 ->
  exists q q',
    (k_sleep (K_TICKS ms);; a ← sx12xx_lora_recv size to; b ← sx12xx_lora_recv size to; mret (a, b)) p
    = (Done ((Z.of_nat (length pl2), Some (pl2, s16 r2, s8 s2)),
             (Z.of_nat (length pl2), Some (pl2, s16 r2, s8 s2))), q) /\
    now q = now p + ms /\
    k_sleep (K_TICKS ms) p = (Done tt, q') /\ count (data_sem (dev q')) = 2.
Proof.
  intros Hok He Hc Hlim Hpe Hn1 Ht Hrest Hl2 Hsz.
  assert (Hu : u8 (Z.of_nat (length pl2)) = Z.of_nat (length pl2))
    by (apply u8_id; unfold byte_ok; lia).
  assert (Hsl : exists q, k_sleep (K_TICKS ms) p = (Done tt, q) /\ now q = now p + ms /\
    dev q = mk_dev (mk_sem 2 K_SEM_MAX_LIMIT []) true pl2 (Z.of_nat (length pl2)) (s8 s2) (s16 r2)).
  { eexists. split; [done|]. split; [done|].
    unfold elapse. cbn -[isr]. rewrite Hpe. cbn -[isr].
    destruct (Z.leb_spec t1 (now p + ms)); [|lia]. cbn -[isr]. rewrite !isr_now. cbn -[isr].
    destruct (Z.leb_spec t2 (now p + ms)); [|lia].
    assert (Hr : forall x, dev (serve_until (now p + ms) rest x) = dev x).
    { intros x. destruct rest as [|[t i] rest]; [done|]. cbn.
      apply Forall_cons in Hrest as [Hr _]. cbn in Hr.
      destruct (Z.leb_spec t (now p + ms)); [lia|done]. }
    rewrite Hr. cbn. rewrite He. cbn. rewrite He. unfold sx12xx_ev_rx_done, sem_give_dev. cbn.
    rewrite (give_empty (data_sem (dev p))) by apply Hok. cbn.
    rewrite Hc, Hlim, Hu, ?He. done. }
  destruct Hsl as (q & Hq & Hnq & Hdq).
  rewrite (bind_done _ _ _ _ _ Hq).
  assert (Hrec : forall x n, dev x = mk_dev (mk_sem n K_SEM_MAX_LIMIT []) true pl2
      (Z.of_nat (length pl2)) (s8 s2) (s16 r2) -> 0 < n ->
    exists y, sx12xx_lora_recv size to x = (Done (Z.of_nat (length pl2), Some (pl2, s16 r2, s8 s2)), y)
      /\ now y = now x /\ dev y = mk_dev (mk_sem (n - 1) K_SEM_MAX_LIMIT []) true pl2
      (Z.of_nat (length pl2)) (s8 s2) (s16 r2)).
  { intros x n Hd Hn. unfold sx12xx_lora_recv, radio, log. rewrite !bind_modify.
    assert (Htk : forall e, data_sem_take to (emit e (emit (EvRadio (SetMaxPayloadLength 255)) x)) =
      (Done 0, set_dev (set_sem (mk_sem (n - 1) K_SEM_MAX_LIMIT []) (dev x))
         (emit e (emit (EvRadio (SetMaxPayloadLength 255)) x)))).
    { intros e. unfold data_sem_take, k_sem_take. cbn. rewrite Hd. cbn.
      destruct (Z.ltb_spec 0 n); [done|lia]. }
    rewrite (bind_done _ _ _ _ _ (Htk _)). cbn. unfold mbind, M_bind, modify, gets. cbn.
    rewrite Hd. cbn. destruct (Z.ltb_spec size (Z.of_nat (length pl2))); [lia|].
    eexists. split; [cbn; by rewrite Nat2Z.id, take_ge by lia|]. done. }
  destruct (Hrec q 2 Hdq) as (q1 & E1 & N1 & D1); [lia|].
  rewrite (bind_done _ _ _ _ _ E1).
  destruct (Hrec q1 _ D1) as (q2 & E2 & N2 & D2); [lia|].
  rewrite (bind_done _ _ _ _ _ E2). exists q2, q. split_and!; try done; [congruence|].
  by rewrite Hdq.
Qed.

Lemma recv_overwrites_witness :
  exists q q',
    (k_sleep (K_TICKS 50);; a ← sx12xx_lora_recv 20 K_FOREVER; b ← sx12xx_lora_recv 20 K_FOREVER;
     mret (a, b)) (demo_plat 0 [(10, IrqRxDone [1] (-60) 5); (20, IrqRxDone [2; 3] (-61) 6)])
    = (Done ((2, Some ([2; 3], -61, 6)), (2, Some ([2; 3], -61, 6))), q) /\
    now q = 50 /\
    k_sleep (K_TICKS 50) (demo_plat 0 [(10, IrqRxDone [1] (-60) 5); (20, IrqRxDone [2; 3] (-61) 6)])
    = (Done tt, q') /\ count (data_sem (dev q')) = 2.
Proof.
  apply (recv_overwrites 20 K_FOREVER 50 (demo_plat 0 _) 10 [1] (-60) 5 20 [2; 3] (-61) 6 []);
    try reflexivity; try (cbn; lia); [apply demo_ok|constructor].
Defined.

(** With any finite timeout and whatever arrives meanwhile,
    [lora_recv] returns: either [-EBUSY]/[-EAGAIN] with nothing copied, or the
    number of bytes copied, never more than the caller's buffer holds. It
    leaves the driver idle with its invariant. *)
Theorem recv_total size ms p :
  drv_ok p -> 0 <= size < 2 ^ 8 ->
  exists res q, sx12xx_lora_recv size (K_MSEC ms) p = (Done res, q) /\ drv_ok q /\
    match res with
    | (r, Some (bytes, _, _)) => r = Z.of_nat (length bytes) /\ r <= size
    | (r, None) => (r = - EBUSY /\ ms <= 0 \/ r = - EAGAIN /\ 0 < ms) /\
                   now q = now p + Z.max ms 0
    end.
Proof.
  intros Hok Hsz. destruct (recv_cases size (K_MSEC ms) p Hok Hsz)
    as (q & _ & [(b & rs & sn & E & Ho & Hl & _)|[(m & [= <-] & E & Ho & Hn & _)|(E & _)]]).
  - intros m [= <-]. lia.
  - exists (Z.of_nat (length b), Some (b, rs, sn)), q. auto.
  - eexists _, q. split; [exact E|]. split; [done|]. split; [|done].
    destruct (Z.eqb_spec (Z.max ms 0) 0); [left|right]; split; try done; lia.
  - done.
Qed.

Lemma recv_total_witness :
  exists res q, sx12xx_lora_recv 20 (K_MSEC (-4)) (demo_plat 0 []) = (Done res, q) /\ drv_ok q /\
    match res with
    | (r, Some (bytes, _, _)) => r = Z.of_nat (length bytes) /\ r <= 20
    | (r, None) => (r = - EBUSY /\ -4 <= 0 \/ r = - EAGAIN /\ 0 < -4) /\ now q = 0 + 0
    end.
Proof. apply (recv_total 20 (-4) (demo_plat 0 []) (demo_ok _ _)). lia. Defined.

(** No packet completes until [d]. *)
Definition silent_until (d : Z) (p : plat) : Prop :=
  Forall (fun e => is_rx e.2 = true -> d < e.1) (pending p).

Lemma serve_silent d d' l p :
  d <= d' -> Forall (fun e => is_rx e.2 = true -> d' < e.1) l ->
  dev (serve_until d l p) = dev p /\ silent_until d' (serve_until d l p).
Proof.
  intros Hd Hl. revert p. induction Hl as [|[t i] l Hi Hl IH]; intros p; cbn.
  - split; [done|]. constructor.
  - destruct (Z.leb_spec t d).
    + destruct (is_rx i) eqn:Hrx; [specialize (Hi Hrx); cbn in Hi; lia|].
      destruct (IH (isr i (set_now (Z.max (now p) t) p))) as [-> ?].
      by rewrite isr_other_dev by done.
    + split; [done|]. by constructor.
Qed.

Lemma elapse_silent ms d p :
  now p + ms <= d -> silent_until d p -> dev (elapse ms p) = dev p /\ silent_until d (elapse ms p).
Proof. intros Hd Hs. apply (serve_silent _ d _ p Hd Hs). Qed.

Lemma isr_count i p :
  drv_ok p -> count (data_sem (dev (isr i p))) <= count (data_sem (dev p)) + 1.
Proof.
  intros Hp. destruct (is_rx i) eqn:Hi; [|rewrite isr_other_dev by done; lia].
  destruct i as [pl r s| | |]; try done. cbn. case_match; [|lia].
  unfold sx12xx_ev_rx_done, sem_give_dev. cbn. rewrite give_empty by apply Hp. cbn. case_match; lia.
Qed.

Lemma serve_backlog d l p :
  drv_ok p -> backlog (serve_until d l p) <= count (data_sem (dev p)) + Z.of_nat (length l).
Proof.
  revert p. induction l as [|[t i] l IH]; intros p Hp; cbn [serve_until].
  - unfold backlog. cbn. lia.
  - destruct (t <=? d); [|unfold backlog; cbn; lia].
    assert (Hp' : drv_ok (set_now (Z.max (now p) t) p)) by (by apply (drv_ok_dev p)).
    pose proof (IH _ (drv_ok_isr i _ Hp')). pose proof (isr_count i _ Hp'). cbn in *. lia.
Qed.

Lemma elapse_backlog ms p : drv_ok p -> backlog (elapse ms p) <= backlog p.
Proof. intros Hp. apply (serve_backlog (now p + ms) (pending p) p Hp). Qed.

(** ** Runs of the operations, for the services' proofs *)

Lemma lora_config_run ch c p :
  lora_config (Some ch) c p =
  (Done 0, emit (EvRadio
     (if tx c
      then SetTxConfig (tx_power c) 0 (bandwidth c) (datarate c) (coding_rate c)
             (preamble_len c) false true 0 0 false 4000
      else SetRxConfig (bandwidth c) (datarate c) (coding_rate c) 0 (preamble_len c) 10
             false 0 false 0 0 false true))
     (emit (EvRadio (SetChannel (frequency c))) p)).
Proof.
  destruct ch; cbn; unfold sx12xx_lora_config, mbind, M_bind; cbn; by destruct (tx c).
Qed.

Lemma lora_send_run ch data len p :
  lora_send (Some ch) data len p =
  (Done 0, let p2 := emit (EvRadio (Send data len)) (emit (EvRadio (SetMaxPayloadLength len)) p) in
           elapse (send_ms p len) p2).
Proof. by destruct ch. Qed.

Lemma lora_recv_run ch size to p : lora_recv (Some ch) size to p = sx12xx_lora_recv size to p.
Proof. by destruct ch. Qed.

Lemma k_sleep_run ms p :
  k_sleep (K_TICKS ms) p = (Done tt, elapse ms (emit (EvSleep ms) p)).
Proof. done. Qed.

