(* ===== verification/Air.v ===== *)
(** * Packets on the air

    The packets still to complete at a device, in the order of their times,
    as the driver and its waits see them: which waits leave them alone, and
    what [lora_recv] makes of the first of them. *)
From S2P Require Import Prelude KSem Platform Sx12xx.
From stdpp Require Import prelude list numbers strings gmap.
From Stdlib Require Import ZArith Lia Sorting.Sorted.
Import WaitQ Sem.
Open Scope Z_scope.

Definition earlier (a b : Z * irq) : Prop := a.1 <= b.1.
Definition rx_only (l : list (Z * irq)) : list (Z * irq) := filter (fun e => is_rx e.2 = true) l.

(** [l] are the packets to come and none is waiting to be fetched. *)
Record upcoming (l : list (Z * irq)) (p : plat) : Prop := {
  up_sorted : StronglySorted earlier (pending p);
  up_rx : rx_only (pending p) = l;
  up_count : count (data_sem (dev p)) = 0 }.

Lemma rx_only_cons t i l :
  rx_only ((t, i) :: l) = if is_rx i then (t, i) :: rx_only l else rx_only l.
Proof.
  unfold rx_only. destruct (is_rx i) eqn:E; [by rewrite filter_cons_True|].
  rewrite filter_cons_False; [done|]. cbn. by rewrite E.
Qed.

(** Letting time pass up to before the first packet. *)
Lemma serve_upcoming d l p :
  StronglySorted earlier l -> Forall (fun e => d < e.1) (rx_only l) ->
  dev (serve_until d l p) = dev p /\
  StronglySorted earlier (pending (serve_until d l p)) /\
  rx_only (pending (serve_until d l p)) = rx_only l.
Proof.
  intros Hs. revert p. induction Hs as [|[t i] l Hs IH Hl]; intros p; [intros _; split_and!; [done|constructor|done]|].
  rewrite rx_only_cons. cbn [serve_until]. intros Hf. destruct (Z.leb_spec t d).
  - destruct (is_rx i) eqn:Hi.
    + apply Forall_cons in Hf as [Hf _]. cbn in Hf. lia.
    + destruct (IH (isr i (set_now (Z.max (now p) t) p)) Hf) as (E & H1 & H2).
      rewrite isr_other_dev in E by done. done.
  - split; [done|]. cbn [pending set_pending]. split; [by constructor|by rewrite rx_only_cons].
Qed.

Lemma elapse_upcoming ms l p :
  Forall (fun e => now p + ms < e.1) l -> upcoming l p -> upcoming l (elapse ms p).
Proof.
  intros Hf [Hs <- Hc]. destruct (serve_upcoming _ _ p Hs Hf) as (E & H1 & H2).
  split; cbn; [done|done|]. by rewrite E.
Qed.

Lemma emit_upcoming e l p : upcoming l p -> upcoming l (emit e p).
Proof. intros []. by split. Qed.

(** Waiting in vain. *)
Lemma sem_wait_upcoming d l p :
  drv_pended p -> now p <= d -> StronglySorted earlier l -> Forall (fun e => d < e.1) (rx_only l) ->
  exists q, sem_wait (Some d) l p = (Done (- EAGAIN), q) /\ now q = d /\
    StronglySorted earlier (pending q) /\ rx_only (pending q) = rx_only l /\
    count (data_sem (dev q)) = 0.
Proof.
  intros Hp Hn Hs. revert p Hp Hn. induction Hs as [|[t i] l Hs IH Hl]; intros p Hp Hn Hf; cbn [sem_wait].
  - eexists. split; [done|]. cbn. split_and!; [lia|constructor|done|apply Hp].
  - rewrite rx_only_cons in Hf |- *. destruct (Z.ltb_spec d t).
    + eexists. split; [done|]. cbn [snd fst set_now set_pending now pending dev set_dev data_sem set_sem].
      split_and!; [cbn; lia|by constructor|by rewrite rx_only_cons|apply Hp].
    + destruct (is_rx i) eqn:Hi.
      { apply Forall_cons in Hf as [Hf _]. cbn in Hf. lia. }
      set (q := isr i (set_now (Z.max (now p) t) p)).
      assert (Hq : drv_pended q) by (apply drv_pended_other; [done|by eapply drv_pended_dev, Hp]).
      rewrite decide_True by (by apply pended_stays). apply IH; [done| |done].
      subst q. rewrite isr_now. cbn. lia.
Qed.

(** [lora_recv] in silence, seen from the packets still to come. *)
Lemma recv_upcoming size ms l p :
  drv_ok p -> 0 < ms -> 0 <= size < 2 ^ 8 -> upcoming l p -> Forall (fun e => now p + ms < e.1) l ->
  exists q, sx12xx_lora_recv size (K_MSEC ms) p = (Done (- EAGAIN, None), q) /\
    now q = now p + ms /\ upcoming l q.
Proof.
  intros Hok Hms Hsz [Hs Hr Hc] Hf. unfold sx12xx_lora_recv, radio, log. rewrite !bind_modify.
  set (p2 := emit (EvRadio (Rx 0)) (emit (EvRadio (SetMaxPayloadLength 255)) p)).
  assert (Htake : exists q, data_sem_take (K_MSEC ms) p2 = (Done (- EAGAIN), q) /\ now q = now p + ms /\
    upcoming l q).
  { unfold data_sem_take, k_sem_take, K_MSEC. rewrite Z.max_l by lia. cbn. rewrite Hc.
    destruct (Z.eqb_spec ms 0); [lia|]. cbn. destruct Hok as [Hi Hw Hlen H8].
    match goal with |- context [sem_wait (Some ?d) ?k ?x] =>
      destruct (sem_wait_upcoming d k x) as (q1 & E1 & Hn1 & H1 & H2 & H3) end; cbn; [|lia|done|by rewrite Hr|].
    - split; cbn; try done; [apply Hi|by rewrite Hw].
    - exists q1. split_and!; try done. split; [done|by rewrite H2|done]. }
  destruct Htake as (q & E & Hn & Hu). exists q. rewrite (bind_done _ _ _ _ _ E). done.
Qed.

(** The events before the first packet. *)
Lemma upcoming_first t i l p :
  upcoming ((t, i) :: l) p ->
  exists l1 l2, pending p = l1 ++ (t, i) :: l2 /\ Forall (fun e => is_rx e.2 = false) l1 /\
    Forall (fun e => e.1 <= t) l1 /\ is_rx i = true /\
    StronglySorted earlier l2 /\ rx_only l2 = l.
Proof.
  intros [Hs Hr _]. revert Hs Hr. generalize (pending p) as k. clear p. intros k Hs.
  induction Hs as [|[t' i'] k Hs IH Hk]; [done|]. rewrite rx_only_cons. destruct (is_rx i') eqn:Hi.
  - intros [= -> -> <-]. by exists [], k.
  - intros Hr. destruct (IH Hr) as (l1 & l2 & -> & H1 & H2 & H3 & H4 & H5).
    exists ((t', i') :: l1), l2. split_and!; try done.
    + by constructor.
    + constructor; [|done]. apply Forall_app in Hk as [_ Hk]. by apply Forall_cons in Hk as [? _].
Qed.

(** [lora_recv] fetching the first packet to come. *)
Lemma recv_next size to t b r s l p :
  drv_ok p -> events (dev p) = true -> 0 <= size < 2 ^ 8 -> (length b < 256)%nat ->
  (forall ms, to = K_TICKS ms -> 0 < ms /\ t <= now p + ms) ->
  upcoming ((t, IrqRxDone b r s) :: l) p -> now p <= t ->
  exists q, sx12xx_lora_recv size to p =
    (Done (Z.min (Z.of_nat (length b)) size, Some (take (Z.to_nat size) b, s16 r, s8 s)), q) /\
    now q = t /\ upcoming l q.
Proof.
  intros Hok He Hsz Hb Hto Hu Hn.
  destruct (upcoming_first _ _ _ _ Hu) as (l1 & l2 & Hp & H1 & H2 & _ & H4 & H5).
  destruct (recv_packet size to p l1 t b r s l2) as (q & E & Hq & Hpq & _ & Hc); try done; [apply Hu|].
  exists q. split; [done|]. split; [done|]. split; [by rewrite Hpq|by rewrite Hpq|done].
Qed.

Lemma upcoming_backlog l p : upcoming l p -> Z.of_nat (length l) <= backlog p.
Proof.
  intros [_ <- Hc]. unfold backlog. rewrite Hc. unfold rx_only.
  pose proof (length_filter (fun e : Z * irq => is_rx e.2 = true) (pending p)). lia.
Qed.
