(* ===== verification/TimeOnAir.v ===== *)
(** * Time on air

    The sender computes how long one LoRa transmission takes in C [float]
    (IEEE 754 binary32) to space its messages: [exec_experiment] of
    [subsys/bluetooth/services/lses.c]. [CFloat] is binary32 arithmetic over
    the Standard Library's executable [SpecFloat]; the theorem shows that the
    rounding never reaches the millisecond the firmware uses. *)
From S2P Require Import Prelude.
From stdpp Require Import prelude list numbers.
From Stdlib Require Import ZArith SpecFloat Lia.
Open Scope Z_scope.

(** ** binary32 *)
Module CFloat.

Definition prec : Z := 24.
Definition emax : Z := 128.
Definition float : Type := spec_float.

(** [m * 2^e] rounded to nearest: literals and conversions from integers. *)
Definition lit (m e : Z) : float := binary_normalize prec emax m e false.
Definition of_int (z : Z) : float := lit z 0.

Definition add : float -> float -> float := SFadd prec emax.
Definition sub : float -> float -> float := SFsub prec emax.
Definition mul : float -> float -> float := SFmul prec emax.
Definition div : float -> float -> float := SFdiv prec emax.
Definition ltb : float -> float -> bool := SFltb.

Definition signed_mant (s : bool) (m : positive) : Z := if s then Zneg m else Zpos m.

(** [(int) f]: towards zero. *)
Definition to_int (f : float) : Z :=
  match f with
  | S754_finite s m e =>
      if 0 <=? e then signed_mant s m * 2 ^ e else Z.quot (signed_mant s m) (2 ^ (- e))
  | _ => 0
  end.

(** [ceil(f)]; the result is an integer small enough to be a [float] again. *)
Definition ceil (f : float) : Z :=
  match f with
  | S754_finite s m e =>
      if 0 <=? e then signed_mant s m * 2 ^ e else - ((- signed_mant s m) / 2 ^ (- e))
  | _ => 0
  end.

Definition eqb (a b : float) : bool :=
  match a, b with
  | S754_zero s, S754_zero s' => Bool.eqb s s'
  | S754_infinity s, S754_infinity s' => Bool.eqb s s'
  | S754_nan, S754_nan => true
  | S754_finite s m e, S754_finite s' m' e' => Bool.eqb s s' && Pos.eqb m m' && Z.eqb e e'
  | _, _ => false
  end.

Lemma eqb_eq a b : eqb a b = true -> a = b.
Proof.
  destruct a, b; cbn; try done; rewrite ?andb_true_iff, ?Bool.eqb_true_iff, ?Pos.eqb_eq, ?Z.eqb_eq.
  - by intros ->.
  - by intros ->.
  - by intros [[-> ->] ->].
Qed.

End CFloat.
Import CFloat.

(** ** The sender's computation *)

(** [bool ldr_opt]. *)
Definition ldr_opt (datarate bandwidth : Z) : bool :=
  ((datarate =? 11) && (bandwidth =? 0)) || (datarate =? 12).

(** Payload symbols before the coding rate is applied, up to and including
    the [ceil]. *)
Definition payload_blocks (len datarate : Z) (opt : bool) : float :=
  let t := add (add (sub (mul (of_int 8) (of_int len)) (mul (of_int 4) (of_int datarate)))
                  (of_int 28)) (of_int 16) in
  let t := div t (mul (of_int 4) (if opt then sub (of_int datarate) (of_int 2)
                                  else of_int datarate)) in
  if ltb (of_int 0) t then of_int (ceil t) else of_int 0.

(** [time_on_air * (coding_rate + 4) + 8]. *)
Definition payload_symbols (blocks : float) (coding_rate : Z) : float :=
  add (mul blocks (of_int (coding_rate + 4))) (of_int 8).

(** [((float) (1 << datarate)) / (((float) (bandwidth + 1)) * 125.f)]. *)
Definition symbol_duration (datarate bandwidth : Z) : float :=
  div (of_int (Z.shiftl 1 datarate)) (mul (of_int (bandwidth + 1)) (of_int 125)).

(** The payload's and the preamble's time. *)
Definition symbols_time (symbols : float) (datarate bandwidth : Z) : float :=
  let d := symbol_duration datarate bandwidth in
  add (mul symbols d) (mul (lit 49 (-2)) d).

(** [time_on_air], milliseconds, for a message of [len] bytes. *)
Definition time_on_air (len datarate bandwidth coding_rate : Z) : float :=
  symbols_time
    (payload_symbols (payload_blocks len datarate (ldr_opt datarate bandwidth)) coding_rate)
    datarate bandwidth.

(** [K_MSEC(5000 - time_on_air)]: the milliseconds slept before a combination,
    clamped at zero and truncated by the conversion to ticks. *)
Definition gap_ms (toa : float) : Z :=
  let g := sub (of_int 5000) toa in
  if ltb (of_int 0) g then to_int g else 0.

(** ** The same formula over the integers *)

Definition exact_blocks (len datarate : Z) (opt : bool) : Z :=
  let num := 8 * len - 4 * datarate + 44 in
  let den := 4 * (if opt then datarate - 2 else datarate) in
  if 0 <? num then - ((- num) / den) else 0.

Definition exact_symbols (len datarate bandwidth coding_rate : Z) : Z :=
  exact_blocks len datarate (ldr_opt datarate bandwidth) * (coding_rate + 4) + 8.

(** Whole milliseconds of [(symbols + 12.25) * 2^datarate / (125 * (bandwidth + 1))]. *)
Definition exact_ms (len datarate bandwidth coding_rate : Z) : Z :=
  (4 * exact_symbols len datarate bandwidth coding_rate + 49) * 2 ^ datarate
  / (500 * (bandwidth + 1)).

(** Whole milliseconds of [5000] minus the same time, [0] when it is negative. *)
Definition exact_gap (len datarate bandwidth coding_rate : Z) : Z :=
  Z.max 0 ((5000 * (500 * (bandwidth + 1)) -
    (4 * exact_symbols len datarate bandwidth coding_rate + 49) * 2 ^ datarate)
  / (500 * (bandwidth + 1))).

(** ** Exhaustive checks, stage by stage *)

Definition forall_range (lo n : Z) (f : Z -> bool) : bool := forallb f (seqZ lo n).

Lemma forall_range_spec lo n f x :
  forall_range lo n f = true -> lo <= x < lo + n -> f x = true.
Proof.
  unfold forall_range. rewrite forallb_forall. intros H Hx. apply H.
  rewrite <- list_elem_of_In. apply elem_of_seqZ. lia.
Qed.

Lemma check_blocks_ok :
  forall_range 0 256 (fun len => forall_range 7 6 (fun sf =>
    forallb (fun opt => eqb (payload_blocks len sf opt) (of_int (exact_blocks len sf opt)) &&
                        (exact_blocks len sf opt <=? 104))
      (if sf <? 11 then [false] else [false; true])))
  = true.
Proof. vm_compute. reflexivity. Qed.
Lemma check_symbols_ok :
  forall_range 0 105 (fun n => forall_range 1 4 (fun cr =>
    eqb (payload_symbols (of_int n) cr) (of_int (n * (cr + 4) + 8))))
  = true.
Proof. vm_compute. reflexivity. Qed.
Definition air_ok (t : float) (s sf bw : Z) : bool :=
  let g := Z.max 0 ((5000 * (500 * (bw + 1)) - (4 * s + 49) * 2 ^ sf) / (500 * (bw + 1))) in
  (to_int t =? (4 * s + 49) * 2 ^ sf / (500 * (bw + 1))) &&
  (Z.max 0 (g - 1) <=? gap_ms t) && (gap_ms t <=? g).
Lemma air_ok_spec t s sf bw :
  air_ok t s sf bw = true ->
  let g := Z.max 0 ((5000 * (500 * (bw + 1)) - (4 * s + 49) * 2 ^ sf) / (500 * (bw + 1))) in
  to_int t = (4 * s + 49) * 2 ^ sf / (500 * (bw + 1)) /\ Z.max 0 (g - 1) <= gap_ms t <= g.
Proof. unfold air_ok. intros H. rewrite !andb_true_iff, Z.eqb_eq, !Z.leb_le in H. tauto. Qed.

Lemma check_time_ok :
  forall_range 0 105 (fun n => forall_range 1 4 (fun cr =>
    forall_range 7 6 (fun sf => forall_range 0 3 (fun bw =>
      let s := n * (cr + 4) + 8 in air_ok (symbols_time (of_int s) sf bw) s sf bw))))
  = true.
Proof. vm_compute. reflexivity. Qed.

Lemma blocks_exact len sf bw :
  0 <= len < 256 -> 7 <= sf <= 12 ->
  payload_blocks len sf (ldr_opt sf bw) = of_int (exact_blocks len sf (ldr_opt sf bw)) /\
  exact_blocks len sf (ldr_opt sf bw) <= 104.
Proof.
  intros Hl Hs. pose proof check_blocks_ok as H.
  apply (forall_range_spec _ _ _ len) in H; [|lia]; cbn beta in H.
  apply (forall_range_spec _ _ _ sf) in H; [|lia]; cbn beta in H.
  rewrite forallb_forall in H. specialize (H (ldr_opt sf bw)).
  rewrite andb_true_iff, Z.leb_le in H.
  destruct H as [H1 H2]; [|split; [by apply eqb_eq|done]].
  unfold ldr_opt. destruct (Z.ltb_spec sf 11).
  - left. destruct (Z.eqb_spec sf 11), (Z.eqb_spec sf 12); cbn; try done; lia.
  - destruct (((sf =? 11) && (bw =? 0)) || (sf =? 12)); cbn; auto.
Qed.

Lemma exact_blocks_nonneg len sf opt : 7 <= sf -> 0 <= exact_blocks len sf opt.
Proof.
  intros Hs. unfold exact_blocks. destruct (Z.ltb_spec 0 (8 * len - 4 * sf + 44)); [|lia].
  assert (0 < 4 * (if opt then sf - 2 else sf)) by (destruct opt; lia).
  set (d := 4 * _) in *. apply Z.opp_nonneg_nonpos.
  apply Z.lt_succ_r. apply Z.div_lt_upper_bound; lia.
Qed.

(** The computation reduced to the checked table of symbol times. *)
Lemma time_on_air_table (P : float -> Z -> Z -> Z -> bool) len sf bw cr :
  0 <= len < 256 -> 7 <= sf <= 12 -> 0 <= bw <= 2 -> 1 <= cr <= 4 ->
  forall_range 0 105 (fun n => forall_range 1 4 (fun cr =>
    forall_range 7 6 (fun sf => forall_range 0 3 (fun bw =>
      let s := n * (cr + 4) + 8 in P (symbols_time (of_int s) sf bw) s sf bw)))) = true ->
  P (time_on_air len sf bw cr) (exact_symbols len sf bw cr) sf bw = true.
Proof.
  intros Hl Hs Hb Hc H2. unfold time_on_air, exact_symbols.
  destruct (blocks_exact len sf bw Hl Hs) as [-> Hn].
  pose proof (exact_blocks_nonneg len sf (ldr_opt sf bw)) as Hn0.
  set (n := exact_blocks len sf (ldr_opt sf bw)) in *. assert (0 <= n) by (apply Hn0; lia).
  pose proof check_symbols_ok as H1.
  apply (forall_range_spec _ _ _ n) in H1; [|lia]; cbn beta in H1.
  apply (forall_range_spec _ _ _ cr) in H1; [|lia]; cbn beta in H1.
  apply eqb_eq in H1 as ->.
  apply (forall_range_spec _ _ _ n) in H2; [|lia]; cbn beta in H2.
  apply (forall_range_spec _ _ _ cr) in H2; [|lia]; cbn beta in H2.
  apply (forall_range_spec _ _ _ sf) in H2; [|lia]; cbn beta in H2.
  by apply (forall_range_spec _ _ _ bw) in H2; [|lia]; cbn beta in H2.
Qed.

Lemma air_exact len sf bw cr :
  0 <= len < 256 -> 7 <= sf <= 12 -> 0 <= bw <= 2 -> 1 <= cr <= 4 ->
  to_int (time_on_air len sf bw cr) = exact_ms len sf bw cr /\
  Z.max 0 (exact_gap len sf bw cr - 1) <= gap_ms (time_on_air len sf bw cr) <=
    exact_gap len sf bw cr.
Proof.
  intros Hl Hs Hb Hc. unfold exact_ms, exact_gap. apply air_ok_spec.
  exact (time_on_air_table air_ok len sf bw cr Hl Hs Hb Hc check_time_ok).
Qed.

Lemma exact_ms_pos len sf bw cr :
  7 <= sf <= 12 -> 0 <= bw <= 2 -> 1 <= cr <= 4 -> 0 < exact_ms len sf bw cr.
Proof.
  intros Hs Hb Hc. unfold exact_ms, exact_symbols.
  pose proof (exact_blocks_nonneg len sf (ldr_opt sf bw) ltac:(lia)).
  apply Z.div_str_pos. assert (2 ^ 7 <= 2 ^ sf) by (apply Z.pow_le_mono_r; lia).
  change (2 ^ 7) with 128 in *. nia.
Qed.

Lemma exact_gap_ms len sf bw cr :
  0 <= bw -> exact_ms len sf bw cr < 5000 ->
  5000 - exact_ms len sf bw cr - 1 <= exact_gap len sf bw cr <= 5000 - exact_ms len sf bw cr.
Proof.
  intros Hb. unfold exact_ms, exact_gap. set (n := (_ + 49) * _). set (d := 500 * _).
  assert (Hd : 0 < d) by lia. intros Hlt.
  pose proof (Z.div_mod n d ltac:(lia)). pose proof (Z.mod_pos_bound n d Hd).
  pose proof (Z.div_mod (5000 * d - n) d ltac:(lia)).
  pose proof (Z.mod_pos_bound (5000 * d - n) d Hd). nia.
Qed.

(** C20. For every message length and every spreading factor,
    bandwidth index and coding rate the firmware can configure, the
    single-precision computation truncates to exactly the milliseconds of
    the air-time formula evaluated over the rationals. The pause before a
    combination is [5000] minus that time, rounded down and never negative,
    or one millisecond less: rounding shows in the schedule by at most one
    millisecond. *)
Theorem time_on_air_exact len sf bw cr :
  0 <= len < 256 -> 7 <= sf <= 12 -> 0 <= bw <= 2 -> 1 <= cr <= 4 ->
  to_int (time_on_air len sf bw cr) = exact_ms len sf bw cr /\
  Z.max 0 (exact_gap len sf bw cr - 1) <= gap_ms (time_on_air len sf bw cr) <=
    exact_gap len sf bw cr.
Proof. apply air_exact. Qed.

Lemma time_on_air_exact_witness :
  to_int (time_on_air 20 7 0 1) = 56 /\ 4942 <= gap_ms (time_on_air 20 7 0 1) <= 4943.
Proof. apply (time_on_air_exact 20 7 0 1); lia. Defined.
