(* ===== verification/CLib.v ===== *)
(** * C library and shared data

    [atoi] as the services call it, on memory that need not end where the
    digits do, [memcmp]'s test for equality, and the payload bytes of
    [payloaddepot.h]. *)
From S2P Require Import Prelude KSem Platform Sx12xx.
From stdpp Require Import prelude list numbers strings gmap.
From Stdlib Require Import ZArith Lia.
Import WaitQ Sem.
Open Scope Z_scope.

(** ** atoi *)

Definition is_digit (c : Z) : bool := (48 <=? c) && (c <=? 57).
Definition is_space (c : Z) : bool := ((9 <=? c) && (c <=? 13)) || (c =? 32).

Definition INT_MAX : Z := 2 ^ 31 - 1.
Definition INT_MIN : Z := - 2 ^ 31.

(** The digits from [i] on. Bytes past the memory the model follows read as
    0, so the length of that memory bounds the scan. *)
Fixpoint scan_digits (fuel : nat) (o : string) (b : cbuf) (i acc : Z) : M plat Z :=
  match fuel with
  | O => mret acc
  | Datatypes.S fuel' =>
      c ← rd o b i;
      if is_digit c then scan_digits fuel' o b (i + 1) (acc * 10 + (c - 48)) else mret acc
  end.

Fixpoint skip_spaces (fuel : nat) (o : string) (b : cbuf) (i : Z) : M plat Z :=
  match fuel with
  | O => mret i
  | Datatypes.S fuel' =>
      c ← rd o b i;
      if is_space c then skip_spaces fuel' o b (i + 1) else mret i
  end.

(** [atoi(a + off)]: [(int) strtol(a + off, NULL, 10)]. *)
Definition atoi (o : string) (b : cbuf) (off : Z) : M plat Z :=
  let fuel := Datatypes.S (length (cmem b)) in
  i ← skip_spaces fuel o b off;
  c ← rd o b i;
  if c =? 45 then
    v ← scan_digits fuel o b (i + 1) 0; mret (Z.max INT_MIN (- v))
  else
    v ← scan_digits fuel o b (if c =? 43 then i + 1 else i) 0; mret (Z.min INT_MAX v).

(** The number a list of digit characters denotes. *)
Definition digits_value (l : list Z) : Z := foldl (fun acc c => acc * 10 + (c - 48)) 0 l.

(** ** memcmp *)

(** [memcmp(a, b, n) == 0]. *)
Definition memcmp_eq (a b : list Z) : bool := bool_decide (a = b).

(** ** payloaddepot.h *)

(** [uint8_t random_d[200]]; the initialisers are converted to bytes. *)
Definition random_d : list Z := u8 <$>
  [96; -76; 32; -69; 56; 81; -39; -44; 122; -53; -109; 61; -66; 112; 57; -101;
   -10; -55; 45; -93; 58; -16; 29; 79; -73; 112; -23; -116; 3; 37; -12; 29; 62;
   -70; -8; -104; 109; -89; 18; -56; 43; -51; 77; 85; 75; -16; -75; 64; 35; -62;
   -101; 98; 77; -23; -17; -100; 47; -109; 30; -4; 88; 15; -102; -5; 8; 27; 18;
   -31; 7; -79; -24; 5; -14; -76; -11; -16; -15; -48; 12; 45; 15; 98; 99; 70; 112;
   -110; 28; 80; 88; 103; -1; 32; -10; -88; 51; 94; -104; -81; -121; 37; 56; 85;
   -122; -76; 31; -17; -14; 5; -76; -32; 90; 0; 8; 35; -9; -117; 95; -113; 92; 2;
   67; -100; -24; -10; 122; 120; 29; -112; -53; -26; -65; 26; -25; -14; -68; 64;
   -92; -105; 9; -96; 108; 14; 49; 73; -101; -16; 41; 105; -54; 66; -46; 3; -27;
   102; -68; -58; -106; -34; 8; -6; 1; 2; -96; -3; 46; 35; 48; -80; -106; 74; -69;
   124; 68; 48; 32; -34; 28; -83; 9; -65; -42; 56; 31; -5; -108; -38; -81; -69;
   -112; -60; -19; -111; -96; 97; 58; -47; -36; 75; 71; 3].

Lemma random_d_length : length random_d = 200%nat.
Proof. reflexivity. Qed.

(** ** Frequencies, the same table in both services *)
Definition frequencies : list Z :=
  [869500000; 868100000; 868300000; 868500000; 867100000; 867300000; 867500000; 867700000].

(** ** Lemmas on arrays *)

Lemma rd_in o b i p : in_bounds b i = true -> rd o b i p = (Done (peek b i), p).
Proof. unfold rd. by intros ->. Qed.

Lemma wr_in o b i v p : in_bounds b i = true -> wr o b i v p = (Done (poke b i v), p).
Proof. unfold wr. by intros ->. Qed.

Lemma in_bounds_spec b i : in_bounds b i = true <-> 0 <= i < csize b.
Proof. unfold in_bounds. lia. Qed.

Lemma random_d_in i : 0 <= i < 200 -> in_bounds (static_buf random_d) i = true.
Proof. intros. by apply in_bounds_spec. Qed.

(** The memory the model holds covers the declared length. *)
Definition buf_wf (n : Z) (b : cbuf) : Prop :=
  csize b = n /\ n <= Z.of_nat (length (cmem b)).

Lemma peek_poke b i j v :
  0 <= i < Z.of_nat (length (cmem b)) -> 0 <= j ->
  peek (poke b i v) j = if i =? j then v else peek b j.
Proof.
  intros Hi Hj. unfold peek, poke. destruct (Z.ltb_spec i 0), (Z.ltb_spec j 0); try lia. cbn.
  destruct (Z.eqb_spec i j) as [->|Hne].
  - by rewrite list_lookup_insert_eq by lia.
  - rewrite list_lookup_insert_ne by lia. done.
Qed.

(** The same for a byte of the memory, wherever the write goes. *)
Lemma peek_poke_mem b i j v :
  0 <= i -> 0 <= j < Z.of_nat (length (cmem b)) ->
  peek (poke b i v) j = if i =? j then v else peek b j.
Proof.
  intros Hi Hj. destruct (Z.eqb_spec i j) as [->|Hne].
  - rewrite peek_poke by lia. by rewrite Z.eqb_refl.
  - unfold peek, poke. destruct (Z.ltb_spec i 0), (Z.ltb_spec j 0); try lia. cbn.
    by rewrite list_lookup_insert_ne by lia.
Qed.

Lemma length_cmem_poke b i v : length (cmem (poke b i v)) = length (cmem b).
Proof. unfold poke. destruct (i <? 0); [done|]. cbn. by rewrite length_insert. Qed.

Lemma csize_poke b i v : csize (poke b i v) = csize b.
Proof. unfold poke. by destruct (i <? 0). Qed.

Lemma poke_wf n b i v : buf_wf n b -> buf_wf n (poke b i v).
Proof.
  intros [H1 H2]. split; [by rewrite csize_poke|by rewrite length_cmem_poke].
Qed.

Lemma in_bounds_wf n b i : buf_wf n b -> 0 <= i < n -> in_bounds b i = true.
Proof. intros [<- _]. by rewrite in_bounds_spec. Qed.

Lemma buf_wf_len n b : buf_wf n b -> n <= Z.of_nat (length (cmem b)).
Proof. by intros []. Qed.

(** A memory is known by its bytes. *)
Lemma cmem_eq b (l : list Z) :
  length (cmem b) = length l ->
  (forall j, 0 <= j < Z.of_nat (length l) -> peek b j = default 0 (l !! Z.to_nat j)) -> cmem b = l.
Proof.
  intros Hl Hp. apply list_eq_same_length with (n := length l); [done|lia|].
  intros i x y Hi Hx Hy. specialize (Hp (Z.of_nat i) ltac:(lia)). unfold peek in Hp.
  destruct (Z.ltb_spec (Z.of_nat i) 0); [lia|]. rewrite Nat2Z.id, Hx, Hy in Hp. done.
Qed.

Lemma copy_out_in o b off n p :
  0 <= off -> off + Z.of_nat n <= csize b ->
  copy_out o b off n p = (Done (map (peek b) (seqZ off (Z.of_nat n))), p).
Proof.
  revert off. induction n as [|n IH]; intros off H0 H1; [done|]. cbn [copy_out].
  rewrite (bind_done _ _ _ _ _ (rd_in o b off p ltac:(apply in_bounds_spec; lia))).
  rewrite (bind_done _ _ _ _ _ (IH (off + 1) ltac:(lia) ltac:(lia))).
  rewrite (seqZ_cons off) by lia.
  by replace (Z.pred (Z.of_nat (Datatypes.S n))) with (Z.of_nat n) by lia.
Qed.

(** Copying inside an array touches nothing but the bytes copied. *)
Lemma copy_in_in o b off l p :
  0 <= off -> off + Z.of_nat (length l) <= csize b -> csize b <= Z.of_nat (length (cmem b)) ->
  exists b', copy_in o b off l p = (Done b', p) /\ csize b' = csize b /\
    length (cmem b') = length (cmem b) /\
    forall j, 0 <= j -> peek b' j =
      if (off <=? j) && (j <? off + Z.of_nat (length l))
      then default 0 (l !! Z.to_nat (j - off)) else peek b j.
Proof.
  revert b off. induction l as [|v l IH]; intros b off H0 H1 H2; cbn [copy_in].
  - exists b. split_and!; try done. intros j Hj.
    destruct ((off <=? j) && _) eqn:E; [|done].
    apply andb_true_iff in E as [E1 E2]. apply Z.leb_le in E1. apply Z.ltb_lt in E2.
    cbn [length] in E2. lia.
  - cbn [length] in H1.
    rewrite (bind_done _ _ _ _ _ (wr_in o b off v p ltac:(apply in_bounds_spec; lia))).
    pose proof (csize_poke b off v) as Hc. pose proof (length_cmem_poke b off v) as Hl.
    destruct (IH (poke b off v) (off + 1)) as (b' & E & C' & L' & P'); [lia|lia|lia|].
    exists b'. split; [done|]. split; [congruence|]. split; [congruence|].
    intros j Hj. rewrite P' by done. rewrite peek_poke by lia. cbn [length].
    destruct (Z.eqb_spec off j) as [->|Hne].
    + destruct (Z.leb_spec (j + 1) j); [lia|]. cbn.
      destruct (Z.leb_spec j j), (Z.ltb_spec j (j + Z.of_nat (Datatypes.S (length l)))); try lia.
      cbn. by rewrite Z.sub_diag.
    + destruct (Z.leb_spec (off + 1) j), (Z.leb_spec off j); try lia; cbn [andb]; try done.
      destruct (Z.ltb_spec j (off + 1 + Z.of_nat (length l))),
        (Z.ltb_spec j (off + Z.of_nat (Datatypes.S (length l)))); try lia; try done.
      replace (Z.to_nat (j - off)) with (Datatypes.S (Z.to_nat (j - (off + 1)))) by lia. done.
Qed.

(** ** atoi on a number that ends somewhere *)

(** The digits [ds] stand at [off], and something else follows. *)
Definition number_at (b : cbuf) (off : Z) (ds : list Z) : Prop :=
  0 <= off /\ off + Z.of_nat (length ds) <= csize b /\ ds <> [] /\
  Forall (fun c => is_digit c = true) ds /\ (length ds <= length (cmem b))%nat /\
  (forall i, 0 <= i < Z.of_nat (length ds) -> peek b (off + i) = default 0 (ds !! Z.to_nat i)) /\
  is_digit (peek b (off + Z.of_nat (length ds))) = false.

(** Reading the byte after the number. *)
Definition read_end (o : string) (b : cbuf) (i : Z) (p : plat) : plat :=
  if in_bounds b i then p else emit (EvOob ARead o i) p.

Lemma scan_digits_run o b ds fuel i acc p :
  (length ds < fuel)%nat -> 0 <= i -> i + Z.of_nat (length ds) <= csize b ->
  Forall (fun c => is_digit c = true) ds ->
  (forall j, 0 <= j < Z.of_nat (length ds) -> peek b (i + j) = default 0 (ds !! Z.to_nat j)) ->
  is_digit (peek b (i + Z.of_nat (length ds))) = false ->
  scan_digits fuel o b i acc p =
    (Done (foldl (fun a c => a * 10 + (c - 48)) acc ds), read_end o b (i + Z.of_nat (length ds)) p).
Proof.
  revert fuel i acc. induction ds as [|c ds IH]; intros [|fuel] i acc Hf Hi Hc Hd Hp He;
    cbn [length] in *; try lia; cbn [scan_digits].
  - rewrite Z.add_0_r in *. unfold mbind, M_bind, rd. by rewrite He.
  - apply Forall_cons in Hd as [Hd1 Hd]. assert (H0 : peek b i = c).
    { rewrite <- (Z.add_0_r i), Hp by lia. done. }
    rewrite (bind_done _ _ _ _ _ (rd_in o b i p ltac:(apply in_bounds_spec; lia))), H0, Hd1.
    rewrite (IH fuel (i + 1)); [|lia..|done| |].
    + cbn [foldl]. do 2 f_equal. lia.
    + intros j Hj. replace (i + 1 + j) with (i + (j + 1)) by lia. rewrite Hp by lia.
      by replace (Z.to_nat (j + 1)) with (Datatypes.S (Z.to_nat j)) by lia.
    + rewrite <- He. f_equal. f_equal. lia.
Qed.

Lemma atoi_digits o b off ds p :
  number_at b off ds ->
  atoi o b off p =
    (Done (Z.min INT_MAX (digits_value ds)), read_end o b (off + Z.of_nat (length ds)) p).
Proof.
  intros (H0 & Hc & Hne & Hd & Hl & Hp & He). unfold atoi.
  destruct ds as [|c ds]; [done|]. pose proof Hd as Hd'. apply Forall_cons in Hd' as [Hd1 _].
  cbn [length] in *. assert (E0 : peek b off = c).
  { rewrite <- (Z.add_0_r off), Hp by lia. done. }
  pose proof (rd_in o b off p ltac:(apply in_bounds_spec; lia)) as Er. rewrite E0 in Er.
  assert (Hb : 48 <= c <= 57) by (unfold is_digit in Hd1; lia).
  assert (Hs : skip_spaces (Datatypes.S (length (cmem b))) o b off p = (Done off, p)).
  { cbn [skip_spaces]. rewrite (bind_done _ _ _ _ _ Er). unfold is_space.
    by replace ((9 <=? c) && (c <=? 13) || (c =? 32)) with false by lia. }
  rewrite (bind_done _ _ _ _ _ Hs), (bind_done _ _ _ _ _ Er).
  destruct (Z.eqb_spec c 45); [lia|]. destruct (Z.eqb_spec c 43); [lia|].
  erewrite bind_done; [|apply (scan_digits_run o b (c :: ds)); try done; cbn [length]; lia]. done.
Qed.

Lemma digits_value_bound ds :
  Forall (fun c => is_digit c = true) ds -> 0 <= digits_value ds < 10 ^ Z.of_nat (length ds).
Proof.
  unfold digits_value. intros Hd.
  assert (G : forall acc, 0 <= acc -> 0 <= foldl (fun a c => a * 10 + (c - 48)) acc ds
    < (acc + 1) * 10 ^ Z.of_nat (length ds)).
  { induction Hd as [|c ds Hc Hd IH]; intros acc Ha; cbn [foldl length]; [lia|].
    unfold is_digit in Hc. assert (Hb : 48 <= c <= 57) by lia.
    destruct (IH (acc * 10 + (c - 48)) ltac:(lia)) as [G1 G2]. split; [done|].
    rewrite Nat2Z.inj_succ, Z.pow_succ_r by lia.
    assert (0 < 10 ^ Z.of_nat (length ds)) by (apply Z.pow_pos_nonneg; lia). nia. }
  specialize (G 0 ltac:(lia)). lia.
Qed.

(** ** Platform operations inside a service *)
Section lifted.
Context {S : Type} `{PlatState S}.

Lemma liftp_done {A} (m : M plat A) s a p :
  m (plat_of s) = (Done a, p) -> liftp m s = (Done a, set_plat p s).
Proof. unfold liftp. by intros ->. Qed.

Lemma liftp_pure {A} (m : M plat A) (s : S) a :
  m (plat_of s) = (Done a, plat_of s) -> liftp m s = (Done a, s).
Proof. unfold liftp. intros ->. by rewrite set_plat_of. Qed.

Lemma liftp_rd o b i s : in_bounds b i = true -> liftp (rd o b i) s = (Done (peek b i), s).
Proof. intros. by apply liftp_pure, rd_in. Qed.

Lemma liftp_wr o b i v s : in_bounds b i = true -> liftp (wr o b i v) s = (Done (poke b i v), s).
Proof. intros. by apply liftp_pure, wr_in. Qed.

Lemma liftp_copy_out o b off n s :
  0 <= off -> off + Z.of_nat n <= csize b ->
  liftp (copy_out o b off n) s = (Done (map (peek b) (seqZ off (Z.of_nat n))), s).
Proof. intros. by apply liftp_pure, copy_out_in. Qed.

End lifted.
