(* ===== verification/Plan.v ===== *)
(** * The experiment plan

    What an experiment is, independent of the two programs that run it: the
    settings bytes name sets of LoRa parameters, the plan is every combination
    of them in order, and for every combination a numbered series of messages
    with known content. [lses.c] and [lres.c] both run through nested loops
    over bit masks; [for_bits] is the lemma that relates such a loop to the
    plan. *)
From S2P Require Import Prelude KSem Platform Sx12xx Air CLib.
From stdpp Require Import prelude list numbers strings gmap.
From Stdlib Require Import ZArith Lia.
Open Scope Z_scope.

(** ** Combinations *)

(** Indices of a frequency, bandwidth, data rate, coding rate and power. *)
Record combo := mk_combo { c_freq : Z; c_bw : Z; c_dr : Z; c_cr : Z; c_pow : Z }.

(** The set bits of [mask] below [n], in increasing order. *)
Definition bits (n mask : Z) : list Z := List.filter (bit_set mask) (range n).

(** The plan of the settings [d4 .. d8]. *)
Definition combos (d4 d5 d6 d7 d8 : Z) : list combo :=
  flat_map (fun i => flat_map (fun j => flat_map (fun k => flat_map (fun l =>
    map (fun m => mk_combo i j k l m) (bits 8 d8))
    (bits 4 d7)) (bits 6 d6)) (bits 3 d5)) (bits 8 d4).

(** The LoRa configuration of a combination. *)
Definition combo_config (pre : Z) (tx : bool) (c : combo) : lora_modem_config :=
  mk_config (default 0 (frequencies !! Z.to_nat (c_freq c))) (c_bw c) (c_dr c + 7) (c_cr c + 1)
    pre (s8 (18 - c_pow c * 2)) tx.

(** ** Messages *)

(** The part of message [n] that is filled with payload bytes. *)
Definition filler (n d2 : Z) : list Z :=
  map (fun p => default 0 (random_d !! Z.to_nat ((n * (d2 - 9) + (p - 9)) mod 200)))
    (seqZ 9 (d2 - 10)).

(** The header: the combination and the message number as characters. *)
Definition header (c : combo) (n : Z) : list Z :=
  [c_freq c + 48; c_bw c + 48; c_dr c + 48; c_cr c + 48; c_pow c + 48; 95;
   n / 100 + 48; n / 10 + 48; n mod 10 + 48].

(** Message [n] of combination [c], [d2] bytes long. *)
Definition message (c : combo) (d2 n : Z) : list Z := header c n ++ filler n d2 ++ [46].

Lemma message_length c d2 n : 10 <= d2 -> Z.of_nat (length (message c d2 n)) = d2.
Proof.
  intros. unfold message, filler. cbn. rewrite !length_app, length_map, length_seqZ. cbn. lia.
Qed.

(** ** Loops over masks *)

Lemma flat_map_flat_map {A B C} (f : B -> list C) (g : A -> list B) l :
  flat_map f (flat_map g l) = flat_map (fun x => flat_map f (g x)) l.
Proof. induction l as [|x l IH]; [done|]. cbn. by rewrite flat_map_app, IH. Qed.

Lemma flat_map_map {A B C} (f : B -> list C) (g : A -> B) l :
  flat_map f (map g l) = flat_map (fun x => f (g x)) l.
Proof. induction l as [|x l IH]; [done|]. cbn. by rewrite IH. Qed.

(** A combination with one index changed. *)
Definition on_freq (x : Z) (c : combo) := mk_combo x (c_bw c) (c_dr c) (c_cr c) (c_pow c).
Definition on_bw (x : Z) (c : combo) := mk_combo (c_freq c) x (c_dr c) (c_cr c) (c_pow c).
Definition on_dr (x : Z) (c : combo) := mk_combo (c_freq c) (c_bw c) x (c_cr c) (c_pow c).
Definition on_cr (x : Z) (c : combo) := mk_combo (c_freq c) (c_bw c) (c_dr c) x (c_pow c).
Definition on_pow (x : Z) (c : combo) := mk_combo (c_freq c) (c_bw c) (c_dr c) (c_cr c) x.

(** The plan, as the loops run through it. *)
Lemma flat_map_combos {A} (ev : combo -> list A) d4 d5 d6 d7 d8 c :
  flat_map ev (combos d4 d5 d6 d7 d8) =
  flat_map (fun i => flat_map (fun j => flat_map (fun k => flat_map (fun l => flat_map (fun m =>
    ev (on_pow m (on_cr l (on_dr k (on_bw j (on_freq i c))))))
    (bits 8 d8)) (bits 4 d7)) (bits 6 d6)) (bits 3 d5)) (bits 8 d4).
Proof.
  unfold combos. rewrite flat_map_flat_map. apply flat_map_ext. intros i.
  rewrite flat_map_flat_map. apply flat_map_ext. intros j.
  rewrite flat_map_flat_map. apply flat_map_ext. intros k.
  rewrite flat_map_flat_map. apply flat_map_ext. intros l.
  by rewrite flat_map_map.
Qed.

Section loops.
Context {S T E : Type}.
(** What it means that a run did a list of things ([E], usually events), closed under composition:
    a relation on the loops' local variables and the state. *)
Context (R : list E -> T * S -> T * S -> Prop).
Context (R_refl : forall x, R [] x x).
Context (R_trans : forall l k x y z, R l x y -> R k y z -> R (l ++ k) x z).
(** [Inv] is kept by every iteration. *)
Context (Inv : T -> S -> Prop).

Lemma for_does {X} (evx : X -> list E) (l : list X) (body : X -> T -> M S T) :
  (forall x st s, In x l -> Inv st s -> exists st' s',
     body x st s = (Done st', s') /\ Inv st' s' /\ R (evx x) (st, s) (st', s')) ->
  forall st s, Inv st s -> exists st' s',
    for_st l st body s = (Done st', s') /\ Inv st' s' /\ R (flat_map evx l) (st, s) (st', s').
Proof.
  induction l as [|x l IH]; intros Hb st s Hi; cbn.
  - exists st, s. split; [done|]. split; [done|]. apply R_refl.
  - destruct (Hb x st s) as (st1 & s1 & E1 & I1 & D1); [by left|done|].
    rewrite (bind_done _ _ _ _ _ E1).
    destruct (IH (fun x' st' s' Hx => Hb x' st' s' (or_intror Hx)) st1 s1 I1)
      as (st2 & s2 & E2 & I2 & D2).
    exists st2, s2. split; [done|]. split; [done|]. by eapply R_trans.
Qed.

Lemma for_bits (ev : Z -> list E) n mask (body : Z -> T -> M S T) :
  (forall x st s, 0 <= x < n -> Inv st s -> exists st' s',
     body x st s = (Done st', s') /\ Inv st' s' /\ R (ev x) (st, s) (st', s')) ->
  forall st s, Inv st s -> exists st' s',
    for_st (range n) st (fun x st => if bit_set mask x then body x st else mret st) s
      = (Done st', s') /\ Inv st' s' /\ R (flat_map ev (bits n mask)) (st, s) (st', s').
Proof.
  intros Hb st s Hi.
  destruct (for_does (fun x => if bit_set mask x then ev x else []) (range n)
    (fun x st => if bit_set mask x then body x st else mret st)) with (st := st) (s := s)
    as (st' & s' & Eq & I & D); [|done|].
  - intros x st1 s1 Hx%range_spec Hi1. destruct (bit_set mask x).
    + by apply Hb.
    + exists st1, s1. split; [done|]. split; [done|]. apply R_refl.
  - exists st', s'. split; [done|]. split; [done|].
    replace (flat_map ev (bits n mask))
      with (flat_map (fun x => if bit_set mask x then ev x else []) (range n)); [done|].
    unfold bits. clear. induction (range n) as [|x l IH]; [done|]. cbn.
    destruct (bit_set mask x); cbn; by rewrite IH.
Qed.

(** A loop level: the body sets one parameter without being seen, [inner]
    does the rest of the work for it. [Inv'] is the invariant inside. *)
Lemma for_level n mask (on : Z -> combo -> combo) (Inv' : combo -> T -> S -> Prop)
    (evc : combo -> list E) (setup : Z -> T -> T)
    (inner : T -> M S T) (body : Z -> T -> M S T) c :
  (forall x st s, 0 <= x < n -> Inv st s ->
     exists s1, body x st s = inner (setup x st) s1 /\ Inv' (on x c) (setup x st) s1 /\
     R [] (st, s) (setup x st, s1)) ->
  (forall c st s, Inv' c st s -> exists st' s', inner st s = (Done st', s') /\
     Inv' c st' s' /\ R (evc c) (st, s) (st', s')) ->
  (forall x st s, Inv' (on x c) st s -> Inv st s) ->
  forall st s, Inv st s -> exists st' s',
    for_st (range n) st (fun x st => if bit_set mask x then body x st else mret st) s
      = (Done st', s') /\ Inv st' s' /\ R (flat_map (fun x => evc (on x c)) (bits n mask)) (st, s) (st', s').
Proof.
  intros Hset Hin Hweak.
  assert (Hb : forall x st s, 0 <= x < n -> Inv st s -> exists st' s',
     body x st s = (Done st', s') /\ Inv st' s' /\ R (evc (on x c)) (st, s) (st', s')).
  { intros x st s Hx Hi. destruct (Hset x st s Hx Hi) as (s1 & -> & Hi' & Hp).
    destruct (Hin _ _ _ Hi') as (st' & s' & Eq & I & D). exists st', s'.
    split; [done|]. split; [by eapply Hweak|]. exact (R_trans [] _ _ _ _ Hp D). }
  intros st s Hi. by apply (for_bits (fun x => evc (on x c)) n mask body Hb).
Qed.

End loops.

(** ** Schedules

    How long an event keeps its thread, and the times at which a list of
    events starting at [t] happens. *)
Definition dur (sm : Z -> Z) (e : event) : Z :=
  match e with
  | EvSleep ms => ms
  | EvRadio (Send _ len) => sm len
  | _ => 0
  end.

Definition duration (sm : Z -> Z) (l : list event) : Z := foldr (fun e a => dur sm e + a) 0 l.

Fixpoint stamp (sm : Z -> Z) (t : Z) (l : list event) : list (Z * event) :=
  match l with
  | [] => []
  | e :: l' => (t, e) :: stamp sm (t + dur sm e) l'
  end.

Lemma duration_app sm l k : duration sm (l ++ k) = duration sm l + duration sm k.
Proof. induction l as [|e l IH]; cbn; [done|]. unfold duration in *. cbn. lia. Qed.

Lemma stamp_app sm l k t : stamp sm t (l ++ k) = stamp sm t l ++ stamp sm (t + duration sm l) k.
Proof.
  revert t. induction l as [|e l IH]; intros t; cbn; [by rewrite Z.add_0_r|].
  rewrite IH. do 3 f_equal. unfold duration. lia.
Qed.

(** The trace with its times, without the [Sleep] calls of completion events. *)
Definition tvis (l : list (Z * event)) : list (Z * event) := filter (fun e => hidden e = false) l.

Lemma tvis_app l k : tvis (l ++ k) = tvis l ++ tvis k.
Proof. apply filter_app. Qed.

Lemma tvis_sleeps l : Forall (fun e => e.2 = EvRadio Sleep) l -> tvis l = [].
Proof.
  induction 1 as [|[t e] l He Hl IH]; [done|]. cbn in He. subst e.
  unfold tvis. rewrite filter_cons_False by done. apply IH.
Qed.

(** A run that did [l], one event right after the other, and received nothing
    unless a packet completed meanwhile. *)
Record timed (l : list event) (p q : plat) : Prop := {
  timed_ran : ran l p q;
  timed_now : now q = now p + duration (send_ms p) l;
  timed_trace : tvis (trace q) = tvis (trace p) ++ stamp (send_ms p) (now p) l;
  timed_calm : forall d, now q <= d -> silent_until d p -> dev q = dev p /\ silent_until d q;
  timed_drv : drv_ok p -> drv_ok q /\ backlog q <= backlog p;
  timed_up : forall k, Forall (fun e => now q < e.1) k -> upcoming k p -> upcoming k q }.

Lemma timed_refl p : timed [] p p.
Proof. split; [apply ran_refl|cbn; lia|by rewrite app_nil_r|done..]. Qed.

Lemma timed_trans l k p q r : timed l p q -> timed k q r -> timed (l ++ k) p r.
Proof.
  intros [R1 N1 T1 C1 D1 U1] [R2 N2 T2 C2 D2 U2]. rewrite (ran_send _ _ _ R1) in N2, T2. split.
  - by eapply ran_trans.
  - rewrite duration_app. lia.
  - by rewrite T2, T1, stamp_app, N1, <- app_assoc.
  - intros d Hd Hs. pose proof (ran_now _ _ _ R2).
    destruct (C1 d) as [E1 S1]; [lia|done|]. destruct (C2 d) as [E2 S2]; [lia|done|].
    split; [congruence|done].
  - intros Hp. destruct (D1 Hp) as [Hq ?]. destruct (D2 Hq) as [Hr ?]. split; [done|lia].
  - intros u Hu Hp. pose proof (ran_now _ _ _ R2). apply U2; [done|]. apply U1; [|done].
    eapply Forall_impl; [exact Hu|]. cbn. lia.
Qed.

(** One event, which keeps its thread for the time [dur] says. *)
Lemma timed_elapse e p :
  hidden (0, e) = false -> 0 <= dur (send_ms p) e ->
  timed [e] p (elapse (dur (send_ms p) e) (emit e p)).
Proof.
  intros He Hd. pose proof (elapse_quiet _ (emit e p) Hd) as Hq. split.
  - change [e] with ([e] ++ []). eapply ran_trans; [by apply ran_emit|by apply quiet_ran].
  - cbn. lia.
  - destruct (quiet_trace _ _ Hq) as (l & E & Hl). rewrite E. unfold emit. cbn [trace].
    rewrite !tvis_app, (tvis_sleeps l) by done. rewrite app_nil_r. f_equal.
    unfold tvis. rewrite filter_cons_True by exact He. done.
  - intros d Hn Hs. exact (elapse_silent _ d (emit e p) Hn Hs).
  - intros Hp. apply (drv_ok_emit e) in Hp. split; [by apply drv_ok_elapse|].
    exact (elapse_backlog _ (emit e p) Hp).
  - intros k Hk Hu. apply elapse_upcoming; [exact Hk|by apply emit_upcoming].
Qed.

Lemma timed_emit e p :
  hidden (0, e) = false -> dur (send_ms p) e = 0 -> timed [e] p (emit e p).
Proof.
  intros He Hd. split; [by apply ran_emit|cbn; lia| |done| |intros k _; apply emit_upcoming].
  - unfold emit. cbn [trace]. rewrite tvis_app. unfold tvis at 2.
    by rewrite filter_cons_True by exact He.
  - intros Hp. split; [by apply drv_ok_emit|done].
Qed.

(** ** Array accesses as events *)

(** What an access to [b[i]] adds to the trace: nothing inside the array. *)
Definition oob (a : access) (o : string) (b : cbuf) (i : Z) : list event :=
  if in_bounds b i then [] else [EvOob a o i].
Definition oobs (a : access) (o : string) (b : cbuf) (off n : Z) : list event :=
  flat_map (oob a o b) (seqZ off n).

Lemma oobs_nil a o b off n :
  0 <= off -> off + n <= csize b -> oobs a o b off n = [].
Proof.
  intros H0 H1. unfold oobs.
  assert (Hin : forall i, In i (seqZ off n) -> oob a o b i = []).
  { intros i Hi%list_elem_of_In%elem_of_seqZ. unfold oob.
    by rewrite (proj2 (in_bounds_spec b i)) by lia. }
  induction (seqZ off n) as [|i l IH]; [done|]. cbn. rewrite Hin by (by left).
  apply IH. intros j Hj. apply Hin. by right.
Qed.

Lemma timed_oob a o b i p :
  timed (oob a o b i) p (if in_bounds b i then p else emit (EvOob a o i) p).
Proof. unfold oob. destruct (in_bounds b i); [apply timed_refl|by apply timed_emit]. Qed.

Lemma rd_run o b i p : exists q, rd o b i p = (Done (peek b i), q) /\ timed (oob ARead o b i) p q.
Proof. eexists. split; [done|]. apply timed_oob. Qed.

Lemma wr_run o b i v p :
  exists q, wr o b i v p = (Done (poke b i v), q) /\ timed (oob AWrite o b i) p q.
Proof. eexists. split; [done|]. apply timed_oob. Qed.

Lemma copy_out_run o b off n p :
  exists q, copy_out o b off n p = (Done (map (peek b) (seqZ off (Z.of_nat n))), q) /\
    timed (oobs ARead o b off (Z.of_nat n)) p q.
Proof.
  revert off p. induction n as [|n IH]; intros off p.
  - exists p. split; [done|]. apply timed_refl.
  - destruct (rd_run o b off p) as (q1 & E1 & T1).
    destruct (IH (off + 1) q1) as (q2 & E2 & T2). exists q2.
    unfold oobs. rewrite (seqZ_cons off) by lia.
    replace (Z.pred (Z.of_nat (Datatypes.S n))) with (Z.of_nat n) by lia. cbn [copy_out flat_map map].
    rewrite (bind_done _ _ _ _ _ E1), (bind_done _ _ _ _ _ E2). split; [done|].
    by eapply timed_trans.
Qed.

Lemma copy_in_run o b off l p :
  0 <= off ->
  exists b' q, copy_in o b off l p = (Done b', q) /\
    timed (oobs AWrite o b off (Z.of_nat (length l))) p q /\
    csize b' = csize b /\ length (cmem b') = length (cmem b) /\
    (forall j, 0 <= j < Z.of_nat (length (cmem b)) -> peek b' j =
       if (off <=? j) && (j <? off + Z.of_nat (length l))
       then default 0 (l !! Z.to_nat (j - off)) else peek b j).
Proof.
  revert b off p. induction l as [|v l IH]; intros b off p H0; cbn [copy_in].
  - exists b, p. split; [done|]. split; [apply timed_refl|]. split_and!; try done. intros j Hj.
    destruct (Z.leb_spec off j), (Z.ltb_spec j (off + Z.of_nat (@length Z []))); cbn in *; done || lia.
  - destruct (wr_run o b off v p) as (q1 & E1 & T1).
    destruct (IH (poke b off v) (off + 1) q1 ltac:(lia)) as (b' & q & E & T & C & L & P).
    rewrite csize_poke in C. rewrite length_cmem_poke in L, P.
    exists b', q. rewrite (bind_done _ _ _ _ _ E1). split; [done|]. split.
    { unfold oobs. cbn [length]. rewrite (seqZ_cons off) by lia.
      replace (Z.pred (Z.of_nat (Datatypes.S (length l)))) with (Z.of_nat (length l)) by lia.
      cbn [flat_map]. eapply timed_trans; [done|].
      assert (Ho : forall i, oob AWrite o (poke b off v) i = oob AWrite o b i).
      { intros i. unfold oob, in_bounds. by rewrite csize_poke. }
      unfold oobs in T. by rewrite (flat_map_ext _ _ Ho) in T. }
    split; [done|]. split; [done|]. intros j Hj. rewrite P by done. cbn [length].
    destruct (Z.leb_spec (off + 1) j), (Z.ltb_spec j (off + 1 + Z.of_nat (length l))),
      (Z.leb_spec off j), (Z.ltb_spec j (off + Z.of_nat (Datatypes.S (length l)))); try lia; cbn [andb].
    all: rewrite ?peek_poke_mem by lia; destruct (Z.eqb_spec off j); try lia; try done.
    + replace (Z.to_nat (j - off)) with (Datatypes.S (Z.to_nat (j - (off + 1)))) by lia. done.
    + subst j. by rewrite Z.sub_diag.
Qed.

(** [atoi] always returns, having read bytes only. *)
Lemma scan_digits_total o b fuel i acc p :
  exists l v q, scan_digits fuel o b i acc p = (Done v, q) /\ timed l p q.
Proof.
  revert i acc p. induction fuel as [|fuel IH]; intros i acc p; cbn [scan_digits].
  - exists [], acc, p. split; [done|apply timed_refl].
  - destruct (rd_run o b i p) as (q & E & T). rewrite (bind_done _ _ _ _ _ E).
    destruct (is_digit (peek b i)); [|by exists (oob ARead o b i), acc, q].
    destruct (IH (i + 1) (acc * 10 + (peek b i - 48)) q) as (l & v & q' & E' & T').
    exists (oob ARead o b i ++ l), v, q'. split; [done|by eapply timed_trans].
Qed.

Lemma skip_spaces_total o b fuel i p :
  exists l v q, skip_spaces fuel o b i p = (Done v, q) /\ timed l p q.
Proof.
  revert i p. induction fuel as [|fuel IH]; intros i p; cbn [skip_spaces].
  - exists [], i, p. split; [done|apply timed_refl].
  - destruct (rd_run o b i p) as (q & E & T). rewrite (bind_done _ _ _ _ _ E).
    destruct (is_space (peek b i)); [|by exists (oob ARead o b i), i, q].
    destruct (IH (i + 1) q) as (l & v & q' & E' & T').
    exists (oob ARead o b i ++ l), v, q'. split; [done|by eapply timed_trans].
Qed.

Lemma atoi_total o b off p : exists l v q, atoi o b off p = (Done v, q) /\ timed l p q.
Proof.
  unfold atoi. destruct (skip_spaces_total o b (Datatypes.S (length (cmem b))) off p)
    as (l1 & i & q1 & E1 & T1). rewrite (bind_done _ _ _ _ _ E1).
  destruct (rd_run o b i q1) as (q2 & E2 & T2). rewrite (bind_done _ _ _ _ _ E2).
  destruct (peek b i =? 45).
  - destruct (scan_digits_total o b (Datatypes.S (length (cmem b))) (i + 1) 0 q2)
      as (l3 & v & q3 & E3 & T3). rewrite (bind_done _ _ _ _ _ E3).
    eexists _, _, q3. split; [done|]. eapply timed_trans; [done|]. by eapply timed_trans.
  - destruct (scan_digits_total o b (Datatypes.S (length (cmem b)))
      (if peek b i =? 43 then i + 1 else i) 0 q2) as (l3 & v & q3 & E3 & T3).
    rewrite (bind_done _ _ _ _ _ E3).
    eexists _, _, q3. split; [done|]. eapply timed_trans; [done|]. by eapply timed_trans.
Qed.
