(* ===== verification/Messages.v ===== *)
(** * Messages in memory

    How both services build a message byte by byte in a buffer: the header the
    loops have written so far, the payload loop, and the bytes that result. *)
From S2P Require Import Prelude KSem Platform Sx12xx CLib Plan.
From stdpp Require Import prelude list numbers strings gmap.
From Stdlib Require Import ZArith Lia.
Open Scope Z_scope.

(** The bytes of the message buffer the loops around have set. *)
Definition prefix_ok (c : combo) (td : cbuf) : Prop :=
  peek td 0 = c_freq c + 48 /\ peek td 1 = c_bw c + 48 /\ peek td 2 = c_dr c + 48 /\
  peek td 3 = c_cr c + 48 /\ peek td 4 = c_pow c + 48 /\ peek td 5 = 95.

Lemma prefix_ok_poke c td i v :
  5 < i < Z.of_nat (length (cmem td)) -> prefix_ok c td -> prefix_ok c (poke td i v).
Proof.
  intros Hi (H0 & H1 & H2 & H3 & H4 & H5). unfold prefix_ok.
  rewrite !peek_poke by lia.
  repeat match goal with |- context [?a =? ?b] => destruct (Z.eqb_spec a b); [lia|] end. done.
Qed.

Lemma prefix_ok_ext c td td' :
  (forall j, 0 <= j <= 5 -> peek td' j = peek td j) -> prefix_ok c td -> prefix_ok c td'.
Proof. intros E H. unfold prefix_ok. by rewrite !E by lia. Qed.

Definition payload_byte (n d2 p : Z) : Z :=
  default 0 (random_d !! Z.to_nat ((n * (d2 - 9) + (p - 9)) mod 200)).

Section building.
Context {S : Type} `{PlatState S}.
Implicit Types (s : S).

(** The payload loop. *)
Lemma fill_spec o n d2 N (l : list Z) td s :
  0 <= n -> buf_wf N td -> d2 <= N -> Forall (fun p => 9 <= p < d2) l ->
  exists td', for_st l td (fun p td =>
    v ← liftp (rd "random_d" (static_buf random_d) ((n * (d2 - 9) + (p - 9)) `rem` 200));
    liftp (wr o td p v)) s = (Done td', s) /\ buf_wf N td' /\
    forall j, 0 <= j -> peek td' j = if decide (j ∈ l) then payload_byte n d2 j else peek td j.
Proof.
  intros Hn Hwf0 HN. revert td Hwf0. induction l as [|p l IH]; intros td Hwf Hl; cbn [for_st].
  - exists td. split_and!; try apply Hwf; [done|]. intros j Hj. by rewrite decide_False by set_solver.
  - apply Forall_cons in Hl as [Hp Hl].
    assert (Hpos : 0 <= n * (d2 - 9) + (p - 9)) by nia.
    rewrite Z.rem_mod_nonneg by lia.
    pose proof (Z.mod_pos_bound (n * (d2 - 9) + (p - 9)) 200 ltac:(lia)) as Hm.
    rewrite bind_assoc.
    rewrite (bind_done _ _ _ _ _ (liftp_rd _ _ _ s (random_d_in _ Hm))).
    rewrite (bind_done _ _ _ _ _ (liftp_wr _ td p _ s (in_bounds_wf N td p Hwf ltac:(lia)))).
    set (v := peek _ _).
    destruct (IH (poke td p v)) as (td' & E & W & P); [by apply poke_wf|done|].
    exists td'. split; [done|]. split; [done|]. intros j Hj. rewrite P by done.
    pose proof (buf_wf_len _ _ Hwf). rewrite peek_poke by lia.
    destruct (decide (j ∈ l)) as [Hin|Hni]; [by rewrite decide_True by (by right)|].
    destruct (Z.eqb_spec p j) as [->|Hne].
    + rewrite decide_True by (by left). subst v. unfold peek, payload_byte.
      destruct (Z.ltb_spec ((n * (d2 - 9) + (j - 9)) mod 200) 0); [lia|done].
    + rewrite decide_False; [done|]. intros [->|Hj']%elem_of_cons; done.
Qed.

Lemma step_wr {B} o d2 td i v (f : cbuf -> M S B) s :
  buf_wf d2 td -> 0 <= i < d2 -> mbind f (liftp (wr o td i v)) s = f (poke td i v) s.
Proof.
  intros Hwf Hi. apply bind_done. apply liftp_wr. by eapply in_bounds_wf.
Qed.

Lemma step_rd {B} o b i (f : Z -> M S B) s :
  0 <= i < csize b -> mbind f (liftp (rd o b i)) s = f (peek b i) s.
Proof. intros Hi. by apply bind_done, liftp_rd, in_bounds_spec. Qed.

Lemma step_copy_out {B} o n b (f : list Z -> M S B) s :
  buf_wf n b -> 0 <= n ->
  mbind f (liftp (copy_out o b 0 (Z.to_nat n))) s = f (map (peek b) (seqZ 0 n)) s.
Proof.
  intros [Hs _] Hn. apply bind_done. rewrite liftp_copy_out by lia. by rewrite Z2Nat.id by lia.
Qed.

End building.

Lemma seqZ_message d2 : 10 <= d2 ->
  seqZ 0 d2 = [0; 1; 2; 3; 4; 5; 6; 7; 8] ++ seqZ 9 (d2 - 10) ++ [d2 - 1].
Proof.
  intros. transitivity (seqZ 0 (9 + ((d2 - 10) + 1))); [f_equal; lia|].
  rewrite !seqZ_app by lia. f_equal. f_equal. by replace (0 + 9 + (d2 - 10)) with (d2 - 1) by lia.
Qed.

(** The bytes of a finished message. *)
Lemma message_bytes c h n d2 N td0 td :
  10 <= d2 <= 255 -> d2 <= N -> 0 <= h < 256 -> buf_wf N td0 -> prefix_ok c td0 ->
  (forall j, 0 <= j -> peek td j =
     if decide (j ∈ seqZ 9 (d2 - 1 - 9)) then payload_byte n d2 j
     else peek (poke (poke (poke td0 6 (u8 (h `quot` 100 + 48))) 7 (u8 (h `quot` 10 + 48)))
                 8 (u8 (h `rem` 10 + 48))) j) ->
  buf_wf N td ->
  map (peek (poke td (d2 - 1) 46)) (seqZ 0 d2) = header c h ++ filler n d2 ++ [46].
Proof.
  intros Hd HN Hn W0 (P0 & P1 & P2 & P3 & P4 & P5) Hp W.
  pose proof (buf_wf_len _ _ W0). pose proof (buf_wf_len _ _ W).
  rewrite seqZ_message by lia. rewrite !map_app. f_equal; [|f_equal].
  - assert (Hlow : forall j, 0 <= j < 9 -> peek (poke td (d2 - 1) 46) j =
      peek (poke (poke (poke td0 6 (u8 (h `quot` 100 + 48))) 7 (u8 (h `quot` 10 + 48)))
                 8 (u8 (h `rem` 10 + 48))) j).
    { intros j Hj. rewrite peek_poke by lia. destruct (Z.eqb_spec (d2 - 1) j); [lia|].
      rewrite Hp by lia. rewrite decide_False; [done|]. rewrite elem_of_seqZ. lia. }
    cbn [map]. rewrite !Hlow by lia.
    rewrite !peek_poke by (rewrite ?length_cmem_poke; lia). cbn [Z.eqb Pos.eqb].
    rewrite P0, P1, P2, P3, P4, P5. unfold header.
    rewrite !Z.quot_div_nonneg, Z.rem_mod_nonneg by lia.
    pose proof (Z.mod_pos_bound h 10 ltac:(lia)).
    pose proof (Z.div_pos h 100 ltac:(lia) ltac:(lia)). pose proof (Z.div_pos h 10 ltac:(lia) ltac:(lia)).
    pose proof (Z.div_lt_upper_bound h 10 26 ltac:(lia) ltac:(lia)).
    pose proof (Z.div_lt_upper_bound h 100 3 ltac:(lia) ltac:(lia)).
    rewrite !u8_id by (unfold byte_ok; lia). done.
  - unfold filler. apply map_ext_in. intros j Hj%list_elem_of_In%elem_of_seqZ.
    rewrite peek_poke by lia. destruct (Z.eqb_spec (d2 - 1) j); [lia|].
    rewrite Hp by lia. rewrite decide_True; [done|]. rewrite elem_of_seqZ. lia.
  - cbn. rewrite peek_poke by lia. by rewrite Z.eqb_refl.
Qed.

(** ** How far nested loops have fixed the parameters

    The first [k] fields of [c] are in the message buffer [td] (of [n] bytes)
    and in the configuration. *)
Record aimed (n : Z) (txf : bool) (pre k : Z) (c : combo) (td : cbuf) (cfg : lora_modem_config) : Prop := {
  am_wf : buf_wf n td;
  am_under : peek td 5 = 95;
  am_tx : tx cfg = txf;
  am_pre : preamble_len cfg = pre;
  am_freq : 0 < k -> peek td 0 = c_freq c + 48 /\
    frequency cfg = default 0 (frequencies !! Z.to_nat (c_freq c));
  am_bw : 1 < k -> peek td 1 = c_bw c + 48 /\ bandwidth cfg = c_bw c;
  am_dr : 2 < k -> peek td 2 = c_dr c + 48 /\ datarate cfg = c_dr c + 7;
  am_cr : 3 < k -> peek td 3 = c_cr c + 48 /\ coding_rate cfg = c_cr c + 1;
  am_pow : 4 < k -> peek td 4 = c_pow c + 48 /\ tx_power cfg = s8 (18 - c_pow c * 2) }.

Section aim.
Context (n : Z) (txf : bool) (pre : Z) (Hn : 10 <= n).

Lemma aimed_prefix c td cfg : aimed n txf pre 5 c td cfg -> prefix_ok c td.
Proof.
  intros []. unfold prefix_ok. destruct am_freq0, am_bw0, am_dr0, am_cr0, am_pow0; lia.
Qed.

Lemma aimed_config c td cfg : aimed n txf pre 5 c td cfg -> cfg = combo_config pre txf c.
Proof.
  intros []. destruct am_freq0, am_bw0, am_dr0, am_cr0, am_pow0; try lia.
  unfold combo_config. destruct cfg. cbn in *. congruence.
Qed.

(** A buffer with the same header serves as well. *)
Lemma aimed_ext k c td td' cfg :
  aimed n txf pre k c td cfg -> buf_wf n td' ->
  (forall j, 0 <= j <= 5 -> peek td' j = peek td j) -> aimed n txf pre k c td' cfg.
Proof. intros [] W P. split; rewrite ?P by lia; done. Qed.

Lemma aimed_prefix_ok c td td' cfg :
  aimed n txf pre 5 c td cfg -> buf_wf n td' -> prefix_ok c td' -> aimed n txf pre 5 c td' cfg.
Proof.
  intros F W P'. eapply aimed_ext; try done. intros j Hj.
  pose proof (aimed_prefix _ _ _ F) as P. unfold prefix_ok in *.
  assert (j = 0 \/ j = 1 \/ j = 2 \/ j = 3 \/ j = 4 \/ j = 5) as Hc by lia.
  destruct Hc as [->|[->|[->|[->|[->| ->]]]]]; intuition congruence.
Qed.

(** One loop variable more is fixed: written to the buffer and to [config]. *)
Ltac fix_next :=
  let F := fresh in intros F; pose proof (am_wf _ _ _ _ _ _ _ F) as [_ ?]; destruct F;
  split; cbn -[u8 s8 peek poke default lookup]; try done;
  [ by apply poke_wf
  | by rewrite peek_poke by lia
  | intros _ || (intros; lia); rewrite !peek_poke by lia; cbn [Z.eqb Pos.eqb];
    rewrite ?u8_id by (unfold byte_ok; lia); auto with lia ..].

Lemma aimed_freq x c td cfg : 0 <= x < 8 -> aimed n txf pre 0 c td cfg ->
  aimed n txf pre 1 (on_freq x c) (poke td 0 (u8 (x + 48)))
    (with_frequency (default 0 (frequencies !! Z.to_nat x)) cfg).
Proof. intros Hx. fix_next. Qed.

Lemma aimed_bw x c td cfg : 0 <= x < 3 -> aimed n txf pre 1 c td cfg ->
  aimed n txf pre 2 (on_bw x c) (poke td 1 (u8 (x + 48))) (with_bandwidth x cfg).
Proof. intros Hx. fix_next. Qed.

Lemma aimed_dr x c td cfg : 0 <= x < 6 -> aimed n txf pre 2 c td cfg ->
  aimed n txf pre 3 (on_dr x c) (poke td 2 (u8 (x + 48))) (with_datarate (x + 7) cfg).
Proof. intros Hx. fix_next. Qed.

Lemma aimed_cr x c td cfg : 0 <= x < 4 -> aimed n txf pre 3 c td cfg ->
  aimed n txf pre 4 (on_cr x c) (poke td 3 (u8 (x + 48))) (with_coding_rate (x + 1) cfg).
Proof. intros Hx. fix_next. Qed.

Lemma aimed_pow x c td cfg : 0 <= x < 8 -> aimed n txf pre 4 c td cfg ->
  aimed n txf pre 5 (on_pow x c) (poke td 4 (u8 (x + 48))) (with_tx_power (s8 (18 - x * 2)) cfg).
Proof. intros Hx. fix_next. Qed.

(** What is fixed inside a loop includes what was fixed around it. *)
Lemma aimed_weaken k c c' td cfg :
  aimed n txf pre (k + 1) c' td cfg ->
  (0 < k -> c_freq c' = c_freq c) -> (1 < k -> c_bw c' = c_bw c) ->
  (2 < k -> c_dr c' = c_dr c) -> (3 < k -> c_cr c' = c_cr c) -> (4 < k -> c_pow c' = c_pow c) ->
  aimed n txf pre k c td cfg.
Proof.
  intros [] E0 E1 E2 E3 E4. split; try done; intros Hk.
  - rewrite <- E0 by done. auto with lia.
  - rewrite <- E1 by done. auto with lia.
  - rewrite <- E2 by done. auto with lia.
  - rewrite <- E3 by done. auto with lia.
  - rewrite <- E4 by done. auto with lia.
Qed.

(** Before the loops nothing is fixed but the buffer and the direction. *)
Lemma aimed_start c td cfg :
  buf_wf n td -> peek td 5 = 95 -> tx cfg = txf -> preamble_len cfg = pre ->
  aimed n txf pre 0 c td cfg.
Proof. intros. split; try done; intros; lia. Qed.

End aim.

Lemma frequencies_in i : 0 <= i < 8 -> in_bounds (static_buf frequencies) i = true.
Proof. intros. by apply in_bounds_spec. Qed.

Lemma peek_frequencies i :
  0 <= i -> peek (static_buf frequencies) i = default 0 (frequencies !! Z.to_nat i).
Proof. intros. unfold peek. by destruct (Z.ltb_spec i 0); [lia|]. Qed.
