(* ===== verification/Runs.v ===== *)
(** * A calculus for runs of the services

    [wp R m s Φ]: from [s], the piece of code [m] returns, what it did between
    is the list of events [l] in the sense of [R], and [Φ l a s'] holds of the
    events, the result and the final state. The rules below step through the
    code of the services one platform operation at a time. *)
From S2P Require Import Prelude KSem Platform Sx12xx Air CLib Plan.
From stdpp Require Import prelude list numbers strings gmap.
From Stdlib Require Import ZArith Lia.
Import WaitQ Sem.
Open Scope Z_scope.

(** ** What it means that a run did a list of events *)

(** As [ran], for code that may start and abort threads. *)
Record acted (l : list event) (p q : plat) : Prop := {
  acted_cur : cur q = cur p;
  acted_chip : chip q = chip p;
  acted_stale : stale q = stale p;
  acted_send : send_ms q = send_ms p;
  acted_rc : notify_rc q = notify_rc p;
  acted_now : now p <= now q;
  acted_vis : vis (trace q) = vis (trace p) ++ l }.

(** The relations used: [timed] when the events fix the time taken, [ran] when
    waiting for a packet takes as long as it takes, [acted] with threads. *)
Class RunRel (R : list event -> plat -> plat -> Prop) := {
  rr_refl : forall p, R [] p p;
  rr_trans : forall l k p q r, R l p q -> R k q r -> R (l ++ k) p r;
  rr_timed : forall l p q, timed l p q -> R l p q }.

#[export] Instance timed_rel : RunRel timed.
Proof. split; [apply timed_refl|apply timed_trans|done]. Qed.

#[export] Instance ran_rel : RunRel ran.
Proof. split; [apply ran_refl|apply ran_trans|by intros ? ? ? []]. Qed.

Lemma acted_ran l p q : ran l p q -> acted l p q.
Proof. intros []. by split. Qed.

#[export] Instance acted_rel : RunRel acted.
Proof.
  split.
  - intros p. by apply acted_ran, ran_refl.
  - intros l k p q r [? ? ? ? ? ? E1] [? ? ? ? ? ? E2]. split; try congruence; [lia|].
    by rewrite E2, E1, app_assoc.
  - intros l p q []. by apply acted_ran.
Qed.

(** As [ran], keeping count of the packets still to be had. *)
Definition waited (l : list event) (p q : plat) : Prop :=
  ran l p q /\ (drv_ok p -> drv_ok q /\ backlog q <= backlog p).

#[export] Instance waited_rel : RunRel waited.
Proof.
  split.
  - intros p. split; [apply ran_refl|done].
  - intros l k p q r [R1 D1] [R2 D2]. split; [by eapply ran_trans|].
    intros Hp. destruct (D1 Hp) as [Hq ?]. destruct (D2 Hq) as [Hr ?]. split; [done|lia].
  - intros l p q []. by split.
Qed.

(** Relations under which receiving can be stepped over. *)
Class RecvRel (R : list event -> plat -> plat -> Prop) :=
  rr_recv : forall l p q, ran l p q -> drv_ok q -> backlog q <= backlog p -> R l p q.
#[export] Instance ran_recv : RecvRel ran.
Proof. by intros l p q. Qed.
#[export] Instance acted_recv : RecvRel acted.
Proof. intros l p q ? _ _. by apply acted_ran. Qed.
#[export] Instance waited_recv : RecvRel waited.
Proof. by intros l p q. Qed.

(** ** The radio is there and idle *)
Record ready (ch : lora_chip) (p : plat) : Prop := {
  ready_chip : chip p = Some ch;
  ready_send : forall n, 0 <= send_ms p n;
  ready_drv : drv_ok p;
  ready_events : events (dev p) = true }.

Lemma ready_emit ch e p : ready ch p -> ready ch (emit e p).
Proof. intros []. split; try done. by apply drv_ok_emit. Qed.

Lemma ready_elapse ch ms p : 0 <= ms -> ready ch p -> ready ch (elapse ms p).
Proof.
  intros Hms []. pose proof (elapse_quiet ms p Hms) as Hq. split.
  - by rewrite (quiet_chip _ _ Hq).
  - intros n. by rewrite (quiet_send _ _ Hq).
  - by apply drv_ok_elapse.
  - by rewrite (quiet_events _ _ Hq).
Qed.

Lemma ready_ran ch l p q : ran l p q -> drv_ok q -> ready ch p -> ready ch q.
Proof.
  intros Hr Hd []. split; try done.
  - by rewrite (ran_chip _ _ _ Hr).
  - intros n. by rewrite (ran_send _ _ _ Hr).
  - by rewrite (ran_events _ _ _ Hr).
Qed.

Lemma demo_ready t l : ready SX127X (demo_plat t l).
Proof. split; [done|intros n; cbn; lia|apply demo_ok|done]. Qed.

Create HintDb runs.
#[export] Hint Resolve ready_emit ready_elapse ready_send : runs.

(** The radio calls of the driver's operations. *)
Definition SEND (data : list Z) (len : Z) : list event :=
  [EvRadio (SetMaxPayloadLength len); EvRadio (Send data len)].
Definition CONFIG (c : lora_modem_config) : list event :=
  [EvRadio (SetChannel (frequency c));
   EvRadio (if tx c
     then SetTxConfig (tx_power c) 0 (bandwidth c) (datarate c) (coding_rate c)
            (preamble_len c) false true 0 0 false 4000
     else SetRxConfig (bandwidth c) (datarate c) (coding_rate c) 0 (preamble_len c) 10
            false 0 false 0 0 false true)].

Lemma send_run ch data len p :
  chip p = Some ch -> (forall n, 0 <= send_ms p n) ->
  exists q, lora_send (Some ch) data len p = (Done 0, q) /\ timed (SEND data len) p q /\
    (ready ch p -> ready ch q).
Proof.
  intros _ Hs. eexists. split; [apply lora_send_run|]. cbn zeta. split.
  - apply (timed_trans [_] [_] _ (emit (EvRadio (SetMaxPayloadLength len)) p)).
    + by apply timed_emit.
    + apply (timed_elapse (EvRadio (Send data len))); cbn; [done|apply Hs].
  - auto with runs.
Qed.

Lemma config_run ch c p :
  exists q, lora_config (Some ch) c p = (Done 0, q) /\ timed (CONFIG c) p q /\
    (ready ch p -> ready ch q).
Proof.
  eexists. split; [apply lora_config_run|]. split; [|auto with runs].
  apply (timed_trans [_] [_] _ (emit (EvRadio (SetChannel (frequency c))) p)).
  - by apply timed_emit.
  - apply timed_emit; by destruct (tx c).
Qed.

Lemma sleep_run ch ms p :
  exists q, k_sleep (K_MSEC ms) p = (Done tt, q) /\ timed [EvSleep (Z.max ms 0)] p q /\
    (ready ch p -> ready ch q).
Proof.
  eexists. split; [done|]. split.
  - apply (timed_elapse (EvSleep _)); cbn; [done|lia].
  - intros. apply ready_elapse; [lia|]. auto with runs.
Qed.

(** The service may initialise the radio again; packets not yet read are lost. *)
Lemma init_run ch p :
  ch = SX127X -> ready ch p ->
  exists q, lora_init (Some ch) p = (Done 0, q) /\ waited [EvRadio Init] p q /\
    now q = now p /\ ready ch q /\ forall k, upcoming k p -> upcoming k q.
Proof.
  intros -> [Hc Hs Hd He]. eexists. split; [done|]. cbn [fst snd].
  match goal with |- waited _ _ ?r /\ _ => set (q := r) end.
  assert (Hq : drv_ok q /\ backlog q <= backlog p).
  { split; [split|].
    - by apply (inv_init (data_sem (dev p)) 0 K_SEM_MAX_LIMIT).
    - done.
    - apply Hd.
    - apply Hd.
    - destruct Hd as [Hi]. pose proof (inv_count _ Hi).
      change (0 + Z.of_nat (length (pending p)) <= backlog p). unfold backlog. lia. }
  destruct Hq as [Dq Bq].
  split; [split; [|done]|split; [done|split; [by split|]]].
  2: { intros k []. by split. }
  split; try done.
  - cbn. by eexists; rewrite <- app_assoc.
  - unfold q, emit. cbn [trace]. by rewrite !vis_app, app_nil_r.
Qed.

Lemma timed_threads l p q : timed l p q -> threads q = threads p.
Proof. intros [[]]. done. Qed.
Lemma timed_cur l p q : timed l p q -> cur q = cur p.
Proof. intros [[]]. done. Qed.

(** ** Stepping through code *)
Section wp.
Context (R : list event -> plat -> plat -> Prop) `{HR : RunRel R}.
Context {S : Type} `{PlatState S}.

Definition wp {A} (m : M S A) (s : S) (Φ : list event -> A -> S -> Prop) : Prop :=
  exists l a s', m s = (Done a, s') /\ R l (plat_of s) (plat_of s') /\ Φ l a s'.

Lemma wp_ret {A} (a : A) s (Φ : list event -> A -> S -> Prop) : Φ [] a s -> wp (mret a) s Φ.
Proof. intros. exists [], a, s. split; [done|]. split; [apply rr_refl|done]. Qed.

Lemma wp_bind {A B} (m : M S A) (f : A -> M S B) s Φ :
  wp m s (fun l a s1 => wp (f a) s1 (fun k => Φ (l ++ k))) -> wp (mbind f m) s Φ.
Proof.
  intros (l & a & s1 & E & Hl & k & b & s2 & E2 & Hk & HΦ). exists (l ++ k), b, s2.
  rewrite (bind_done _ _ _ _ _ E). split; [done|]. split; [by eapply rr_trans|done].
Qed.

Lemma wp_assoc {A B C} (m : M S A) (g : A -> M S B) (f : B -> M S C) s Φ :
  wp (mbind f (mbind g m)) s Φ -> wp (mbind (fun x => mbind f (g x)) m) s Φ.
Proof. unfold wp. by setoid_rewrite bind_assoc. Qed.

Lemma wp_mono {A} (m : M S A) s (Φ Ψ : list event -> A -> S -> Prop) :
  wp m s Φ -> (forall l a s', Φ l a s' -> Ψ l a s') -> wp m s Ψ.
Proof. intros (l & a & s' & E & Hl & HΦ) HM. exists l, a, s'. auto. Qed.

(** The run itself is known afterwards. *)
Lemma wp_rel {A} (m : M S A) s (Φ : list event -> A -> S -> Prop) :
  wp m s Φ -> wp m s (fun l a s' => R l (plat_of s) (plat_of s') /\ Φ l a s').
Proof. intros (l & a & s' & E & Hl & HΦ). exists l, a, s'. auto. Qed.

Lemma wp_gets {A} (f : S -> A) s (Φ : list event -> A -> S -> Prop) : Φ [] (f s) s -> wp (gets f) s Φ.
Proof. intros. exists [], (f s), s. split; [done|]. split; [apply rr_refl|done]. Qed.

Lemma wp_modify (f : S -> S) s (Φ : list event -> unit -> S -> Prop) :
  plat_of (f s) = plat_of s -> Φ [] tt (f s) -> wp (modify f) s Φ.
Proof. intros Hp HΦ. exists [], tt, (f s). split; [done|]. rewrite Hp. split; [apply rr_refl|done]. Qed.

(** A platform operation. *)
Lemma wp_lift {A} (m : M plat A) s l a q (Φ : list event -> A -> S -> Prop) :
  m (plat_of s) = (Done a, q) -> R l (plat_of s) q -> Φ l a (set_plat q s) -> wp (liftp m) s Φ.
Proof.
  intros E Hl HΦ. exists l, a, (set_plat q s). split; [by apply liftp_done|].
  rewrite plat_set. done.
Qed.

(** What is known of a run in a finer relation. *)
Lemma wp_up (R' : list event -> plat -> plat -> Prop) {A} (m : M S A) s (Ψ Φ : list event -> A -> S -> Prop) :
  (forall l p q, R' l p q -> R l p q) ->
  (exists l a s', m s = (Done a, s') /\ R' l (plat_of s) (plat_of s') /\ Ψ l a s') ->
  (forall l a s', R' l (plat_of s) (plat_of s') -> Ψ l a s' -> Φ l a s') -> wp m s Φ.
Proof. intros HRR (l & a & s' & E & Hl & HΨ) HM. exists l, a, s'. auto. Qed.

Context (ch : lora_chip).
Implicit Types (s : S).

Lemma wp_binding s (Φ : list event -> option lora_chip -> S -> Prop) :
  ready ch (plat_of s) -> Φ [] (Some ch) s -> wp (liftp device_get_binding) s Φ.
Proof.
  intros Hr HΦ. exists [], (Some ch), s. split; [|split; [apply rr_refl|done]].
  apply liftp_pure. unfold device_get_binding, gets. by rewrite (ready_chip _ _ Hr).
Qed.

Lemma wp_uptime_get s (Φ : list event -> Z -> S -> Prop) :
  Φ [] (now (plat_of s)) s -> wp (liftp k_uptime_get) s Φ.
Proof.
  intros HΦ. exists [], (now (plat_of s)), s. split; [by apply liftp_pure|]. split; [apply rr_refl|done].
Qed.

Lemma wp_uptime_delta ref s (Φ : list event -> Z * Z -> S -> Prop) :
  Φ [] (now (plat_of s) - ref, now (plat_of s)) s -> wp (liftp (k_uptime_delta ref)) s Φ.
Proof.
  intros HΦ. exists [], (now (plat_of s) - ref, now (plat_of s)), s.
  split; [by apply liftp_pure|]. split; [apply rr_refl|done].
Qed.

Lemma wp_rd o b i s (Φ : list event -> Z -> S -> Prop) :
  ready ch (plat_of s) ->
  (forall q, ready ch q -> timed (oob ARead o b i) (plat_of s) q -> Φ (oob ARead o b i) (peek b i) (set_plat q s)) ->
  wp (liftp (rd o b i)) s Φ.
Proof.
  intros Hr HΦ. destruct (rd_run o b i (plat_of s)) as (q & E & T).
  eapply wp_lift; [exact E|by apply rr_timed|]. apply HΦ; [|done].
  injection E as <-. destruct (in_bounds b i); auto with runs.
Qed.

Lemma wp_wr o b i v s (Φ : list event -> cbuf -> S -> Prop) :
  ready ch (plat_of s) ->
  (forall q, ready ch q -> timed (oob AWrite o b i) (plat_of s) q -> Φ (oob AWrite o b i) (poke b i v) (set_plat q s)) ->
  wp (liftp (wr o b i v)) s Φ.
Proof.
  intros Hr HΦ. destruct (wr_run o b i v (plat_of s)) as (q & E & T).
  eapply wp_lift; [exact E|by apply rr_timed|]. apply HΦ; [|done].
  injection E as <-. destruct (in_bounds b i); auto with runs.
Qed.

(** Accesses inside the array leave the state alone. *)
Lemma wp_rd_in o b i s (Φ : list event -> Z -> S -> Prop) :
  in_bounds b i = true -> Φ [] (peek b i) s -> wp (liftp (rd o b i)) s Φ.
Proof. intros Hi HΦ. exists [], (peek b i), s. split; [by apply liftp_rd|]. split; [apply rr_refl|done]. Qed.

Lemma wp_wr_in o b i v s (Φ : list event -> cbuf -> S -> Prop) :
  in_bounds b i = true -> Φ [] (poke b i v) s -> wp (liftp (wr o b i v)) s Φ.
Proof. intros Hi HΦ. exists [], (poke b i v), s. split; [by apply liftp_wr|]. split; [apply rr_refl|done]. Qed.

Lemma dev_copy_out o b off n p : dev (copy_out o b off n p).2 = dev p.
Proof.
  revert off p. induction n as [|n IH]; intros off p; [done|]. cbn. unfold mbind, M_bind, rd.
  specialize (IH (off + 1) (if in_bounds b off then p else emit (EvOob ARead o off) p)).
  destruct (copy_out _ _ _ _ _) as [[l|r] q]; cbn in *; rewrite IH; by destruct (in_bounds b off).
Qed.

Lemma dev_copy_in o b off l p : dev (copy_in o b off l p).2 = dev p.
Proof.
  revert b off p. induction l as [|v l IH]; intros b off p; [done|]. cbn. unfold mbind, M_bind, wr.
  rewrite IH. by destruct (in_bounds b off).
Qed.

Lemma wp_copy_out o b off n s (Φ : list event -> list Z -> S -> Prop) :
  ready ch (plat_of s) ->
  (forall q, ready ch q -> timed (oobs ARead o b off (Z.of_nat n)) (plat_of s) q ->
     Φ (oobs ARead o b off (Z.of_nat n)) (map (peek b) (seqZ off (Z.of_nat n))) (set_plat q s)) ->
  wp (liftp (copy_out o b off n)) s Φ.
Proof.
  intros Hr HΦ. destruct (copy_out_run o b off n (plat_of s)) as (q & E & T).
  eapply wp_lift; [exact E|by apply rr_timed|]. apply HΦ; [|done].
  eapply ready_ran; [apply T| |done]. eapply drv_ok_dev; [|apply Hr].
  pose proof (dev_copy_out o b off n (plat_of s)) as D. by rewrite E in D.
Qed.

Lemma wp_copy_out_in o b off n s (Φ : list event -> list Z -> S -> Prop) :
  0 <= off -> off + Z.of_nat n <= csize b -> Φ [] (map (peek b) (seqZ off (Z.of_nat n))) s ->
  wp (liftp (copy_out o b off n)) s Φ.
Proof.
  intros H1 H2 HΦ. exists [], (map (peek b) (seqZ off (Z.of_nat n))), s.
  split; [by apply liftp_copy_out|]. split; [apply rr_refl|done].
Qed.

Lemma wp_copy_in o b off l s (Φ : list event -> cbuf -> S -> Prop) :
  ready ch (plat_of s) -> 0 <= off ->
  (forall q b', ready ch q -> timed (oobs AWrite o b off (Z.of_nat (length l))) (plat_of s) q ->
     csize b' = csize b -> length (cmem b') = length (cmem b) ->
     (forall j, 0 <= j < Z.of_nat (length (cmem b)) -> peek b' j =
       if (off <=? j) && (j <? off + Z.of_nat (length l))
       then default 0 (l !! Z.to_nat (j - off)) else peek b j) ->
     Φ (oobs AWrite o b off (Z.of_nat (length l))) b' (set_plat q s)) ->
  wp (liftp (copy_in o b off l)) s Φ.
Proof.
  intros Hr H0 HΦ. destruct (copy_in_run o b off l (plat_of s) H0) as (b' & q & E & T & C & L & P).
  eapply wp_lift; [exact E|by apply rr_timed|]. apply HΦ; try done.
  eapply ready_ran; [apply T| |done]. eapply drv_ok_dev; [|apply Hr].
  pose proof (dev_copy_in o b off l (plat_of s)) as D. by rewrite E in D.
Qed.

Lemma wp_copy_in_in o b off l s (Φ : list event -> cbuf -> S -> Prop) :
  0 <= off -> off + Z.of_nat (length l) <= csize b -> csize b <= Z.of_nat (length (cmem b)) ->
  (forall b', csize b' = csize b -> length (cmem b') = length (cmem b) ->
     (forall j, 0 <= j -> peek b' j =
       if (off <=? j) && (j <? off + Z.of_nat (length l))
       then default 0 (l !! Z.to_nat (j - off)) else peek b j) -> Φ [] b' s) ->
  wp (liftp (copy_in o b off l)) s Φ.
Proof.
  intros H0 H1 H2 HΦ. destruct (copy_in_in o b off l (plat_of s) H0 H1 H2) as (b' & E & C & L & P).
  exists [], b', s. split; [by apply liftp_pure|]. split; [apply rr_refl|]. by apply HΦ.
Qed.

Lemma wp_send data len s (Φ : list event -> Z -> S -> Prop) :
  ready ch (plat_of s) ->
  (forall q, ready ch q -> timed (SEND data len) (plat_of s) q -> Φ (SEND data len) 0 (set_plat q s)) ->
  wp (liftp (lora_send (Some ch) data len)) s Φ.
Proof.
  intros Hr HΦ. destruct (send_run ch data len (plat_of s)) as (q & E & T & Hq); [apply Hr..|].
  eapply wp_lift; [exact E|by apply rr_timed|auto].
Qed.

Lemma wp_config c s (Φ : list event -> Z -> S -> Prop) :
  ready ch (plat_of s) ->
  (forall q, ready ch q -> timed (CONFIG c) (plat_of s) q -> Φ (CONFIG c) 0 (set_plat q s)) ->
  wp (liftp (lora_config (Some ch) c)) s Φ.
Proof.
  intros Hr HΦ. destruct (config_run ch c (plat_of s)) as (q & E & T & Hq).
  eapply wp_lift; [exact E|by apply rr_timed|auto].
Qed.

Lemma wp_sleep ms s (Φ : list event -> unit -> S -> Prop) :
  ready ch (plat_of s) ->
  (forall q, ready ch q -> timed [EvSleep (Z.max ms 0)] (plat_of s) q ->
     Φ [EvSleep (Z.max ms 0)] tt (set_plat q s)) ->
  wp (liftp (k_sleep (K_MSEC ms))) s Φ.
Proof.
  intros Hr HΦ. destruct (sleep_run ch ms (plat_of s)) as (q & E & T & Hq).
  eapply wp_lift; [exact E|by apply rr_timed|auto].
Qed.

Lemma wp_log_notify bytes s (Φ : list event -> unit -> S -> Prop) :
  ready ch (plat_of s) ->
  (forall q, ready ch q -> timed [EvNotify bytes] (plat_of s) q -> Φ [EvNotify bytes] tt (set_plat q s)) ->
  wp (liftp (log (EvNotify bytes))) s Φ.
Proof.
  intros Hr HΦ. eapply wp_lift; [done|by apply rr_timed, timed_emit|].
  apply HΦ; [auto with runs|by apply timed_emit].
Qed.

Lemma ready_timed l p q : timed l p q -> ready ch p -> ready ch q.
Proof. intros T Hr. eapply ready_ran; [apply T|apply T, Hr|done]. Qed.

Lemma wp_atoi o b off s (Φ : list event -> Z -> S -> Prop) :
  ready ch (plat_of s) ->
  (forall l v q, ready ch q -> timed l (plat_of s) q -> Φ l v (set_plat q s)) ->
  wp (liftp (atoi o b off)) s Φ.
Proof.
  intros Hr HΦ. destruct (atoi_total o b off (plat_of s)) as (l & v & q & E & T).
  eapply wp_lift; [exact E|by apply rr_timed|]. apply HΦ; [by eapply ready_timed|done].
Qed.

(** The memory of an uninitialised array of [n] bytes. *)
Definition raw (n : Z) (p : plat) (b : cbuf) : Prop :=
  csize b = n /\ Z.of_nat (length (cmem b)) = Z.max n 0 + Z.of_nat stack_slack /\
  forall j, 0 <= j < Z.max n 0 + Z.of_nat stack_slack -> peek b j = u8 (stale p (Z.to_nat j)).

Lemma vla_raw n p : exists b, vla n p = (Done b, if n <=? 0 then emit (EvBadVla n) p else p) /\ raw n p b.
Proof.
  eexists. split; [done|]. unfold raw, slack_bytes. cbn [csize cmem].
  rewrite <- fmap_app.
  replace (seq 0 (Z.to_nat n) ++ seq (Z.to_nat n) stack_slack)
    with (seq 0 (Z.to_nat n + stack_slack)) by (by rewrite seq_app).
  split; [done|]. split; [rewrite length_fmap, length_seq; lia|].
  intros j Hj. unfold peek. destruct (Z.ltb_spec j 0); [lia|]. cbn [cmem].
  rewrite list_lookup_fmap, lookup_seq_lt by lia. done.
Qed.

Lemma wp_vla n s (Φ : list event -> cbuf -> S -> Prop) :
  0 < n -> (forall b, raw n (plat_of s) b -> Φ [] b s) -> wp (liftp (vla n)) s Φ.
Proof.
  intros Hn HΦ. destruct (vla_raw n (plat_of s)) as (b & E & W).
  destruct (Z.leb_spec n 0); [lia|]. exists [], b, s.
  split; [by apply liftp_pure|]. split; [apply rr_refl|auto].
Qed.

Lemma wp_vla_bad n s (Φ : list event -> cbuf -> S -> Prop) :
  n <= 0 -> ready ch (plat_of s) ->
  (forall b, raw n (plat_of s) b -> Φ [EvBadVla n] b (set_plat (emit (EvBadVla n) (plat_of s)) s)) ->
  wp (liftp (vla n)) s Φ.
Proof.
  intros Hn Hr HΦ. destruct (vla_raw n (plat_of s)) as (b & E & W).
  destruct (Z.leb_spec n 0); [|lia].
  eapply wp_lift; [exact E|by apply rr_timed, timed_emit|auto].
Qed.

Lemma wp_vla_any n s (Φ : list event -> cbuf -> S -> Prop) :
  ready ch (plat_of s) ->
  (forall l b q, ready ch q -> timed l (plat_of s) q -> raw n (plat_of s) b -> Φ l b (set_plat q s)) ->
  wp (liftp (vla n)) s Φ.
Proof.
  intros Hr HΦ. destruct (Z.leb_spec n 0) as [Hn|Hn].
  - apply wp_vla_bad; [done..|]. intros b Hb. apply HΦ; [by apply ready_emit|by apply timed_emit|done].
  - apply wp_vla; [done|]. intros b Hb. rewrite <- (set_plat_of s) at 1.
    apply HΦ; [done|apply timed_refl|done].
Qed.

(** The memory of an array initialised to zero. *)
Definition blank (n : Z) (b : cbuf) : Prop :=
  buf_wf n b /\ Z.of_nat (length (cmem b)) = n + Z.of_nat stack_slack /\
  forall j, 0 <= j < n -> peek b j = 0.

Lemma wp_zeroed n s (Φ : list event -> cbuf -> S -> Prop) :
  0 <= n -> (forall b, blank n b -> Φ [] b s) -> wp (liftp (zeroed n)) s Φ.
Proof.
  intros Hn HΦ. eexists [], _, s. split; [by apply liftp_pure|]. split; [apply rr_refl|].
  apply HΦ. unfold blank, buf_wf. cbn [csize cmem].
  rewrite length_app, length_replicate. unfold slack_bytes. rewrite length_fmap, length_seq.
  split_and!; [done|lia|lia|]. intros j Hj. unfold peek. cbn [cmem].
  destruct (Z.ltb_spec j 0); [done|]. rewrite lookup_app_l by (rewrite length_replicate; lia).
  by rewrite lookup_replicate_2 by lia.
Qed.

(** Receiving with a finite timeout. *)
Lemma wp_recv `{!RecvRel R} size ms s (Φ : list event -> recv_result -> S -> Prop) :
  ready ch (plat_of s) -> 0 <= size < 2 ^ 8 ->
  (forall q bytes rs sn, ready ch q -> ran RECV (plat_of s) q ->
     Z.of_nat (length bytes) <= size -> backlog q < backlog (plat_of s) ->
     now q <= now (plat_of s) + Z.max ms 0 ->
     Φ RECV (Z.of_nat (length bytes), Some (bytes, rs, sn)) (set_plat q s)) ->
  (forall q, ready ch q -> ran RECV (plat_of s) q -> now q = now (plat_of s) + Z.max ms 0 ->
     backlog q <= backlog (plat_of s) ->
     Φ RECV (if Z.max ms 0 =? 0 then - EBUSY else - EAGAIN, None) (set_plat q s)) ->
  wp (liftp (lora_recv (Some ch) size (K_MSEC ms))) s Φ.
Proof.
  intros Hr Hsz H1 H2.
  destruct (recv_cases size (K_MSEC ms) (plat_of s)) as (q & Hran & Hc);
    [apply Hr|done|intros m [= <-]; lia|].
  destruct Hc as [(b & rs & sn & E & Hok & Hl & Hb & Hn)|[(m & [= <-] & E & Hok & Hn & Hb)|[? _]]]; [..|done].
  - eapply wp_lift; [by rewrite lora_recv_run|apply rr_recv; [done|done|lia]|]. apply H1; try done.
    + by eapply ready_ran.
    + by apply Hn.
  - eapply wp_lift; [by rewrite lora_recv_run|apply rr_recv; [done|done|lia]|]. apply H2; try done.
    by eapply ready_ran.
Qed.

(** Receiving when no packet comes. *)
Lemma wp_recv_silence `{!RecvRel R} size ms s (Φ : list event -> recv_result -> S -> Prop) :
  ready ch (plat_of s) -> 0 <= size < 2 ^ 8 -> count (data_sem (dev (plat_of s))) = 0 -> 0 < ms ->
  silent_until (now (plat_of s) + ms) (plat_of s) ->
  (forall q, ready ch q -> ran RECV (plat_of s) q -> now q = now (plat_of s) + ms ->
     Φ RECV (- EAGAIN, None) (set_plat q s)) ->
  wp (liftp (lora_recv (Some ch) size (K_MSEC ms))) s Φ.
Proof.
  intros Hr Hsz Hc Hms Hs HΦ.
  destruct (recv_silence size ms (plat_of s)) as (q & E & Hn & Hok & _); try done; try apply Hr.
  assert (Hran : ran RECV (plat_of s) q).
  { eapply recv_ran; [apply Hr|done| |exact E]. intros m [= <-]. lia. }
  assert (Hbl : backlog q <= backlog (plat_of s)).
  { eapply recv_drv; [apply Hr|done| |exact E]. intros m [= <-]. lia. }
  eapply wp_lift; [by rewrite lora_recv_run|by apply rr_recv|]. apply HΦ; try done.
  by eapply ready_ran.
Qed.

(** Receiving when the next packet is known. *)
Lemma wp_recv_packet `{!RecvRel R} size to s l1 t bytes r sn l2
    (Φ : list event -> recv_result -> S -> Prop) :
  ready ch (plat_of s) -> 0 <= size < 2 ^ 8 -> count (data_sem (dev (plat_of s))) = 0 ->
  (length bytes < 256)%nat ->
  (forall ms, to = K_TICKS ms -> 0 < ms /\ t <= now (plat_of s) + ms) ->
  pending (plat_of s) = l1 ++ (t, IrqRxDone bytes r sn) :: l2 ->
  Forall (fun e => is_rx e.2 = false) l1 -> Forall (fun e => e.1 <= t) l1 -> now (plat_of s) <= t ->
  (forall q, ready ch q -> ran RECV (plat_of s) q -> now q = t -> pending q = l2 ->
     count (data_sem (dev q)) = 0 ->
     Φ RECV (Z.min (Z.of_nat (length bytes)) size,
             Some (take (Z.to_nat size) bytes, s16 r, s8 sn)) (set_plat q s)) ->
  wp (liftp (lora_recv (Some ch) size to)) s Φ.
Proof.
  intros Hr Hsz Hc Hb Hto Hp H1 H2 Hn HΦ.
  destruct (recv_packet size to (plat_of s) l1 t bytes r sn l2) as (q & E & Hnq & Hpq & Hok & Hcq);
    try done; try apply Hr.
  assert (Hran : ran RECV (plat_of s) q).
  { eapply recv_ran; [apply Hr|done| |exact E]. intros ms Hms. destruct (Hto ms Hms). lia. }
  assert (Hbl : backlog q <= backlog (plat_of s)).
  { eapply recv_drv; [apply Hr|done| |exact E]. intros ms Hms. destruct (Hto ms Hms). lia. }
  eapply wp_lift; [by rewrite lora_recv_run|by apply rr_recv|]. apply HΦ; try done.
  by eapply ready_ran.
Qed.

(** Receiving when the packets to come are known: the first of them, or none. *)
Lemma wp_recv_next `{!RecvRel R} size to t b r sn l s (Φ : list event -> recv_result -> S -> Prop) :
  ready ch (plat_of s) -> 0 <= size < 2 ^ 8 -> (length b < 256)%nat ->
  (forall ms, to = K_TICKS ms -> 0 < ms /\ t <= now (plat_of s) + ms) ->
  upcoming ((t, IrqRxDone b r sn) :: l) (plat_of s) -> now (plat_of s) <= t ->
  (forall q, ready ch q -> ran RECV (plat_of s) q -> now q = t -> upcoming l q ->
     Φ RECV (Z.min (Z.of_nat (length b)) size,
             Some (take (Z.to_nat size) b, s16 r, s8 sn)) (set_plat q s)) ->
  wp (liftp (lora_recv (Some ch) size to)) s Φ.
Proof.
  intros Hr Hsz Hb Hto Hu Hn HΦ.
  destruct (recv_next size to t b r sn l (plat_of s)) as (q & E & Hq & Uq); try done; try apply Hr.
  assert (Hto' : forall ms, to = K_TICKS ms -> 0 <= ms) by (intros ms Hms; destruct (Hto ms Hms); lia).
  assert (Hran : ran RECV (plat_of s) q) by (eapply recv_ran; [apply Hr|exact Hsz|exact Hto'|exact E]).
  assert (Hd : drv_ok q /\ backlog q <= backlog (plat_of s)) by (eapply recv_drv; [apply Hr|exact Hsz|exact Hto'|exact E]).
  destruct Hd as [Hd Hbl]. eapply wp_lift; [by rewrite lora_recv_run|by apply rr_recv|]. apply HΦ; try done.
  by eapply ready_ran.
Qed.

Lemma wp_recv_upcoming `{!RecvRel R} size ms l s (Φ : list event -> recv_result -> S -> Prop) :
  ready ch (plat_of s) -> 0 <= size < 2 ^ 8 -> 0 < ms ->
  upcoming l (plat_of s) -> Forall (fun e => now (plat_of s) + ms < e.1) l ->
  (forall q, ready ch q -> ran RECV (plat_of s) q -> now q = now (plat_of s) + ms -> upcoming l q ->
     Φ RECV (- EAGAIN, None) (set_plat q s)) ->
  wp (liftp (lora_recv (Some ch) size (K_MSEC ms))) s Φ.
Proof.
  intros Hr Hsz Hms Hu Hl HΦ.
  destruct (recv_upcoming size ms l (plat_of s)) as (q & E & Hq & Uq); try done; try apply Hr.
  assert (Hto : forall m, K_MSEC ms = K_TICKS m -> 0 <= m) by (intros m [= <-]; lia).
  assert (Hran : ran RECV (plat_of s) q) by (eapply recv_ran; [apply Hr|exact Hsz|exact Hto|exact E]).
  assert (Hd : drv_ok q /\ backlog q <= backlog (plat_of s)) by (eapply recv_drv; [apply Hr|exact Hsz|exact Hto|exact E]).
  destruct Hd as [Hd Hbl]. eapply wp_lift; [by rewrite lora_recv_run|by apply rr_recv|]. apply HΦ; try done.
  by eapply ready_ran.
Qed.

End wp.

(** ** Threads *)
Section threads.
Context {S : Type} `{PlatState S} (ch : lora_chip).
Implicit Types (s : S).

Definition abort_events (t : nat) (p : plat) : list event :=
  match threads p !! t with Some _ => [EvAbort t] | None => [] end.

Lemma acted_threads f p :
  acted [] p (set_threads f p).
Proof. split; try done. by rewrite app_nil_r. Qed.

Lemma acted_emit_threads e f p : hidden (0, e) = false -> acted [e] p (emit e (set_threads f p)).
Proof.
  intros He. change [e] with ([] ++ [e]). eapply (rr_trans (R := acted)); [apply acted_threads|].
  by apply acted_ran, ran_emit.
Qed.

Lemma ready_threads f p : ready ch p -> ready ch (set_threads f p).
Proof. intros []. split; try done. by apply (drv_ok_dev p). Qed.

Lemma ready_cur t p : ready ch p -> ready ch (set_cur t p).
Proof. intros []. split; try done. by apply (drv_ok_dev p). Qed.

(** Aborting another thread. *)
Lemma wp_abort t s (Φ : list event -> unit -> S -> Prop) :
  ready ch (plat_of s) -> t <> cur (plat_of s) ->
  (forall q, ready ch q -> acted (abort_events t (plat_of s)) (plat_of s) q ->
     threads q = delete t (threads (plat_of s)) ->
     Φ (abort_events t (plat_of s)) tt (set_plat q s)) ->
  wp acted (liftp (k_thread_abort t)) s Φ.
Proof.
  intros Hr Hne HΦ. unfold abort_events in *. set (p := plat_of s) in *.
  destruct (threads p !! t) as [e|] eqn:Et.
  - set (q := emit (EvAbort t) (set_threads (delete t (threads p)) p)).
    assert (Ha : acted [EvAbort t] p q) by (by apply acted_emit_threads).
    eapply (wp_lift acted _ _ _ _ q); [|exact Ha|].
    + fold p. unfold k_thread_abort. rewrite Et. by rewrite decide_False.
    + apply HΦ; [by apply ready_emit, ready_threads|done|done].
  - eapply (wp_lift acted _ _ _ _ p); [|apply (rr_refl (R := acted))|].
    + fold p. unfold k_thread_abort. by rewrite Et.
    + apply HΦ; [done|apply (rr_refl (R := acted))|]. by rewrite delete_id.
Qed.

(** Starting a thread whose object is not in use. *)
Lemma wp_create t e s (Φ : list event -> nat -> S -> Prop) :
  ready ch (plat_of s) -> threads (plat_of s) !! t = None ->
  (forall q, ready ch q -> acted [EvCreate t] (plat_of s) q ->
     threads q = <[t := e]> (threads (plat_of s)) -> Φ [EvCreate t] t (set_plat q s)) ->
  wp acted (liftp (k_thread_create t e)) s Φ.
Proof.
  intros Hr Ht HΦ. set (p := plat_of s) in *.
  set (q := emit (EvCreate t) (set_threads (<[t := e]> (threads p)) p)).
  assert (Ha : acted [EvCreate t] p q) by (by apply acted_emit_threads).
  eapply (wp_lift acted _ _ _ _ q); [|exact Ha|].
  - fold p. unfold k_thread_create. by rewrite Ht.
  - apply HΦ; [by apply ready_emit, ready_threads|done|done].
Qed.

End threads.

Lemma timed_backlog ch l p q : timed l p q -> ready ch p -> backlog q <= backlog p.
Proof. intros T Hr. apply T, Hr. Qed.
Lemma waited_backlog ch l p q : waited l p q -> ready ch p -> backlog q <= backlog p.
Proof. intros [_ T] Hr. apply T, Hr. Qed.

(** What the steps taken so far mean for the packets still to be had. *)
Ltac backlogs :=
  repeat match goal with
  | T : timed _ ?p ?q, Hr : ready ?ch ?p |- _ => apply (timed_backlog ch) in T; [|exact Hr]
  | T : waited _ ?p ?q, Hr : ready ?ch ?p |- _ => apply (waited_backlog ch) in T; [|exact Hr]
  end.

(** One step: the rule for the operation at the head. *)
Ltac wp_ready :=
  match goal with
  | |- ready ?ch ?p => let p' := eval hnf in p in change (ready ch p'); assumption
  | H : ready _ _ |- _ => eexact H
  end.
Ltac wp_rule lem := eapply lem; [typeclasses eauto|..].
(** Simplification of a service's state after a step, set by the service. *)
Ltac wp_norm s := s.
Ltac wp_proj := idtac.
Ltac wp_simpl :=
  cbn beta;
  lazymatch goal with
  | |- wp ?R ?m ?s ?Φ => let s' := wp_norm s in change (wp R m s' Φ); cbn beta
  | |- _ => idtac
  end.
Ltac wp_step :=
  wp_simpl;
  try lazymatch goal with |- wp _ (let _ := _ in _) _ _ => cbv zeta end;
  lazymatch goal with
  | |- wp _ (mbind _ _) _ _ => wp_rule wp_bind
  | |- wp _ (mret _) _ _ => wp_rule wp_ret
  | |- wp _ (gets _) _ _ => wp_rule wp_gets; wp_proj
  | |- wp _ (modify _) _ _ => wp_rule wp_modify; [reflexivity|]
  | |- wp _ (liftp device_get_binding) _ _ => wp_rule wp_binding; [wp_ready|]
  | |- wp _ (liftp k_uptime_get) _ _ => wp_rule wp_uptime_get; wp_proj
  | |- wp _ (liftp (k_uptime_delta _)) _ _ => wp_rule wp_uptime_delta; wp_proj
  | |- wp _ (liftp (rd _ _ _)) _ _ => wp_rule wp_rd; [wp_ready|intros ? ? ?]
  | |- wp _ (liftp (wr _ _ _ _)) _ _ => wp_rule wp_wr; [wp_ready|intros ? ? ?]
  | |- wp _ (liftp (atoi _ _ _)) _ _ => wp_rule wp_atoi; [wp_ready|intros ? ? ? ? ?]
  | |- wp _ (liftp (copy_out _ _ _ _)) _ _ => wp_rule wp_copy_out; [wp_ready|intros ? ? ?]
  | |- wp _ (liftp (lora_send _ _ _)) _ _ => wp_rule wp_send; [wp_ready|intros ? ? ?]
  | |- wp _ (liftp (lora_config _ _)) _ _ => wp_rule wp_config; [wp_ready|intros ? ? ?]
  | |- wp _ (liftp (k_sleep (K_MSEC _))) _ _ => wp_rule wp_sleep; [wp_ready|intros ? ? ?]
  | |- wp _ (liftp (log (EvNotify _))) _ _ => wp_rule wp_log_notify; [wp_ready|intros ? ? ?]
  end.
