(* ===== verification/Lses.v ===== *)
(** * The sender service

    [subsys/bluetooth/services/lses.c]: the Bluetooth callbacks and thread
    functions of the device that transmits. The static variables are the
    record [lses]; every callback and thread function is one definition, the
    experiment thread cut at its loops. Printing and logging are left out. *)
From S2P Require Import Prelude KSem Platform Sx12xx TimeOnAir CLib.
From stdpp Require Import prelude list numbers strings gmap.
From Stdlib Require Import ZArith Lia.
Import WaitQ Sem CFloat.
Open Scope Z_scope.

Definition MAX_DATA_LEN : Z := 20.

(** ** State *)

(** The thread objects [thread_data0] .. [thread_data3]. *)
Definition thread_data0 : nat := 0.
Definition thread_data1 : nat := 1.
Definition thread_data2 : nat := 2.
Definition thread_data3 : nat := 3.

Record lses := mk_lses {
  config : lora_modem_config;
  thread0_tid : option nat;
  thread1_tid : option nat;
  thread2_tid : option nat;
  thread3_tid : option nat;
  ping_content : list Z;
  ping_len : Z;
  loop_data : list Z;
  loop_data_length : Z;
  number_of_messages : Z;
  time_between_msgs : Z;
  config_vals : list Z;
  stack_number : Z;
  lses_blsc : Z;
  pl : plat }.

Definition set_config (x : lora_modem_config) (s : lses) : lses :=
  mk_lses x (thread0_tid s) (thread1_tid s) (thread2_tid s) (thread3_tid s) (ping_content s)
    (ping_len s) (loop_data s) (loop_data_length s) (number_of_messages s) (time_between_msgs s)
    (config_vals s) (stack_number s) (lses_blsc s) (pl s).
Definition set_thread0_tid (x : option nat) (s : lses) : lses :=
  mk_lses (config s) x (thread1_tid s) (thread2_tid s) (thread3_tid s) (ping_content s)
    (ping_len s) (loop_data s) (loop_data_length s) (number_of_messages s) (time_between_msgs s)
    (config_vals s) (stack_number s) (lses_blsc s) (pl s).
Definition set_thread1_tid (x : option nat) (s : lses) : lses :=
  mk_lses (config s) (thread0_tid s) x (thread2_tid s) (thread3_tid s) (ping_content s)
    (ping_len s) (loop_data s) (loop_data_length s) (number_of_messages s) (time_between_msgs s)
    (config_vals s) (stack_number s) (lses_blsc s) (pl s).
Definition set_thread2_tid (x : option nat) (s : lses) : lses :=
  mk_lses (config s) (thread0_tid s) (thread1_tid s) x (thread3_tid s) (ping_content s)
    (ping_len s) (loop_data s) (loop_data_length s) (number_of_messages s) (time_between_msgs s)
    (config_vals s) (stack_number s) (lses_blsc s) (pl s).
Definition set_thread3_tid (x : option nat) (s : lses) : lses :=
  mk_lses (config s) (thread0_tid s) (thread1_tid s) (thread2_tid s) x (ping_content s)
    (ping_len s) (loop_data s) (loop_data_length s) (number_of_messages s) (time_between_msgs s)
    (config_vals s) (stack_number s) (lses_blsc s) (pl s).
Definition set_ping (c : list Z) (n : Z) (s : lses) : lses :=
  mk_lses (config s) (thread0_tid s) (thread1_tid s) (thread2_tid s) (thread3_tid s) c
    n (loop_data s) (loop_data_length s) (number_of_messages s) (time_between_msgs s)
    (config_vals s) (stack_number s) (lses_blsc s) (pl s).
Definition set_loop_data (d : list Z) (n : Z) (s : lses) : lses :=
  mk_lses (config s) (thread0_tid s) (thread1_tid s) (thread2_tid s) (thread3_tid s)
    (ping_content s) (ping_len s) d n (number_of_messages s) (time_between_msgs s)
    (config_vals s) (stack_number s) (lses_blsc s) (pl s).
Definition set_number_of_messages (n : Z) (s : lses) : lses :=
  mk_lses (config s) (thread0_tid s) (thread1_tid s) (thread2_tid s) (thread3_tid s)
    (ping_content s) (ping_len s) (loop_data s) (loop_data_length s) n (time_between_msgs s)
    (config_vals s) (stack_number s) (lses_blsc s) (pl s).
Definition set_time_between_msgs (n : Z) (s : lses) : lses :=
  mk_lses (config s) (thread0_tid s) (thread1_tid s) (thread2_tid s) (thread3_tid s)
    (ping_content s) (ping_len s) (loop_data s) (loop_data_length s) (number_of_messages s) n
    (config_vals s) (stack_number s) (lses_blsc s) (pl s).
Definition set_config_vals (v : list Z) (s : lses) : lses :=
  mk_lses (config s) (thread0_tid s) (thread1_tid s) (thread2_tid s) (thread3_tid s)
    (ping_content s) (ping_len s) (loop_data s) (loop_data_length s) (number_of_messages s)
    (time_between_msgs s) v (stack_number s) (lses_blsc s) (pl s).
Definition set_stack_number (n : Z) (s : lses) : lses :=
  mk_lses (config s) (thread0_tid s) (thread1_tid s) (thread2_tid s) (thread3_tid s)
    (ping_content s) (ping_len s) (loop_data s) (loop_data_length s) (number_of_messages s)
    (time_between_msgs s) (config_vals s) n (lses_blsc s) (pl s).
Definition set_lses_blsc (n : Z) (s : lses) : lses :=
  mk_lses (config s) (thread0_tid s) (thread1_tid s) (thread2_tid s) (thread3_tid s)
    (ping_content s) (ping_len s) (loop_data s) (loop_data_length s) (number_of_messages s)
    (time_between_msgs s) (config_vals s) (stack_number s) n (pl s).
Definition set_pl (p : plat) (s : lses) : lses :=
  mk_lses (config s) (thread0_tid s) (thread1_tid s) (thread2_tid s) (thread3_tid s)
    (ping_content s) (ping_len s) (loop_data s) (loop_data_length s) (number_of_messages s)
    (time_between_msgs s) (config_vals s) (stack_number s) (lses_blsc s) p.

#[export] Instance lses_plat : PlatState lses.
Proof. refine {| plat_of := pl; set_plat := set_pl |}; [done|by intros []|done]. Defined.

Abbreviation io m := (liftp m).

(** ** Configuration and notification *)

(** [change_config]: five bytes from the phone (or [config_vals]) select the
    LoRa parameters. *)
Definition change_config (o : string) (pu : cbuf) (tx : bool) : M lses unit :=
  a ← io (rd o pu 0);
  f ← io (rd "frequencies" (static_buf frequencies) a);
  modify (fun s => set_config (with_frequency f (config s)) s);;
  b ← io (rd o pu 1);
  modify (fun s => set_config (with_bandwidth b (config s)) s);;
  c ← io (rd o pu 2);
  modify (fun s => set_config (with_datarate (c + 7) (config s)) s);;
  modify (fun s => set_config (with_preamble_len 8 (config s)) s);;
  d ← io (rd o pu 3);
  modify (fun s => set_config (with_coding_rate (d + 1) (config s)) s);;
  e ← io (rd o pu 4);
  modify (fun s => set_config (with_tx_power (s8 (18 - e * 2)) (config s)) s);;
  modify (fun s => set_config (with_tx tx (config s)) s);;
  lora_dev ← io device_get_binding;
  cfg ← gets config;
  io (lora_config lora_dev cfg);;
  mret tt.

(** [bt_lses_notify]. *)
Definition bt_lses_notify (type_of_notification : Z) : M lses Z :=
  let notifier := [u8 type_of_notification] in
  io (log (EvNotify notifier));;
  rc ← gets (fun s => notify_rc (pl s) notifier);
  mret (if rc =? - ENOTCONN then 0 else rc).

(** [change_config_cb]. *)
Definition change_config_cb (buf : cbuf) (len : Z) : M lses Z :=
  change_config "buf" buf true;;
  bt_lses_notify (-2);;
  mret 0.

(** [config.tx = b; lora_config(lora_dev, &config);] *)
Definition switch_tx (lora_dev : option lora_chip) (b : bool) : M lses unit :=
  modify (fun s => set_config (with_tx b (config s)) s);;
  cfg ← gets config;
  io (lora_config lora_dev cfg);;
  mret tt.

(** [while(!bt_lses_connected) k_sleep(K_MSEC(300));] *)
Definition await_connection (fuel : nat) : M lses unit :=
  loop fuel (fun _ : unit =>
    b ← gets (fun s => bt_connected (pl s));
    if b : bool then mret (inr tt) else io (k_sleep (K_MSEC 300));; mret (inl tt)) tt.

(** ** Explore mode *)

(** [wait_for_ping_return]. *)
Definition wait_for_ping_return (fuel : nat) : M lses unit :=
  lora_dev ← io device_get_binding;
  switch_tx lora_dev false;;
  resp ← io (zeroed MAX_DATA_LEN);
  res ← io (lora_recv lora_dev MAX_DATA_LEN (K_SECONDS 3));
  resp ← match res.2 with
         | Some (bytes, _, _) => io (copy_in "resp" resp 0 bytes)
         | None => mret resp
         end;
  power ← gets (fun s => tx_power (config s));
  (if 10 <? power then
     io (k_sleep (K_MSEC 5000));;
     await_connection fuel;;
     io (k_sleep (K_MSEC 5000))
   else mret tt);;
  (if res.1 <? 0 then bt_lses_notify (-5);; mret tt
   else
     n ← gets ping_len;
     pc ← gets ping_content;
     sent ← io (copy_out "ping_content" (static_buf pc) 0 (Z.to_nat n));
     got ← io (copy_out "resp" resp 0 (Z.to_nat n));
     if memcmp_eq sent got then bt_lses_notify (-3);; mret tt
     else bt_lses_notify (-4);; mret tt);;
  switch_tx lora_dev true.

(** [if(t != NULL) k_thread_abort(t);] *)
Definition abort_tid (t : option nat) : M lses unit :=
  match t with Some t => io (k_thread_abort t) | None => mret tt end.

(** [send_command_cb]. *)
Definition send_command_cb (buf : cbuf) (len : Z) : M lses Z :=
  data ← io (vla len);
  c ← io (rd "buf" buf 0);
  let isPing := c =? 38 in
  msg ← io (copy_out "buf" buf 0 (Z.to_nat len));
  data ← io (copy_in "data" data 0 msg);
  data ← io (wr "data" data len 46);
  lora_dev ← io device_get_binding;
  bytes ← io (copy_out "data" data 0 (Z.to_nat MAX_DATA_LEN));
  io (lora_send lora_dev bytes MAX_DATA_LEN);;
  (if isPing then
     pc ← gets ping_content;
     src ← io (copy_out "data" data 0 (Z.to_nat len));
     pc' ← io (copy_in "ping_content" (static_buf pc) 0 src);
     modify (set_ping (cmem pc') len);;
     t ← gets thread2_tid;
     abort_tid t;;
     t' ← io (k_thread_create thread_data2 E_wait_for_ping_return);
     modify (set_thread2_tid (Some t'))
   else mret tt);;
  mret 0.

(** [exec_loop]. *)
Definition exec_loop : M lses unit :=
  len ← gets loop_data_length;
  data ← io (vla len);
  ld ← gets loop_data;
  src ← io (copy_out "loop_data" (static_buf ld) 0 (Z.to_nat len));
  data ← io (copy_in "data" data 0 src);
  data ← io (wr "data" data len 46);
  lora_dev ← io device_get_binding;
  n ← gets number_of_messages;
  loop (Datatypes.S (Z.to_nat n)) (fun i =>
    k ← gets number_of_messages;
    if i <? k then
      bytes ← io (copy_out "data" data 0 (Z.to_nat MAX_DATA_LEN));
      io (lora_send lora_dev bytes MAX_DATA_LEN);;
      t ← gets time_between_msgs;
      io (k_sleep (K_SECONDS t));;
      mret (inl (u16 (i + 1)))
    else mret (inr tt)) 0.

(** [loop_command_cb]. *)
Definition loop_command_cb (buf : cbuf) (len : Z) : M lses Z :=
  c ← io (rd "buf" buf 0);
  (if c =? 33 then
     i ← io (atoi "buf" buf 1);
     modify (set_number_of_messages (u16 i))
   else if c =? 35 then
     i ← io (atoi "buf" buf 1);
     modify (set_time_between_msgs (u8 (u16 i)))
   else if c =? 36 then
     t ← gets thread0_tid; abort_tid t
   else
     ld ← gets loop_data;
     msg ← io (copy_out "buf" buf 0 (Z.to_nat len));
     ld' ← io (copy_in "loop_data" (static_buf ld) 0 msg);
     modify (set_loop_data (cmem ld') len);;
     t ← gets thread0_tid;
     abort_tid t;;
     t' ← io (k_thread_create thread_data0 E_exec_loop);
     modify (set_thread0_tid (Some t')));;
  mret 0.

(** ** Experiment mode *)

(** The first loop of [exec_experiment]: answer pings until the experiment
    settings arrive. *)
Definition exec_wait_start (fuel : nat) (lora_dev : option lora_chip) (data : cbuf)
  : M lses (cbuf * Z) :=
  loop fuel (fun data =>
    res ← io (lora_recv lora_dev MAX_DATA_LEN K_FOREVER);
    data ← match res.2 with
           | Some (bytes, _, _) => io (copy_in "data" data 0 bytes)
           | None => mret data
           end;
    c ← io (rd "data" data 0);
    if c =? 33 then
      switch_tx lora_dev true;;
      bytes ← io (copy_out "data" data 0 5);
      io (lora_send lora_dev bytes 5);;
      data ← io (wr "data" data 0 (u8 (-1)));
      switch_tx lora_dev false;;
      mret (inl data)
    else mret (inr (data, res.1))) data.

(** [char delay[l-9]] filled from [data[9]] on, and [atoi(delay)]. *)
Definition read_delay (data : cbuf) (l : Z) : M lses Z :=
  delay ← io (vla (l - 9));
  src ← io (copy_out "data" data 9 (Z.to_nat (l - 9)));
  delay ← io (copy_in "delay" delay 0 src);
  d ← io (atoi "delay" delay 0);
  mret (u16 d).

(** The second loop: echo the settings as acknowledgement and listen for a
    retransmission until the start delay has passed. *)
Definition exec_handshake (fuel : nat) (lora_dev : option lora_chip) (data : cbuf) (l : Z)
  : M lses cbuf :=
  loop fuel (fun '(data, l) =>
    d ← read_delay data l;
    switch_tx lora_dev true;;
    io (k_sleep (K_MSEC 200));;
    bytes ← io (copy_out "data" data 0 (Z.to_nat MAX_DATA_LEN));
    io (lora_send lora_dev bytes MAX_DATA_LEN);;
    switch_tx lora_dev false;;
    res ← io (lora_recv lora_dev MAX_DATA_LEN (K_SECONDS d));
    data ← match res.2 with
           | Some (bytes, _, _) => io (copy_in "data" data 0 bytes)
           | None => mret data
           end;
    if res.1 <? 0 then mret (inr data) else mret (inl (data, res.1))) (data, l).

(** The payload bytes [9 .. data[2]-2] of message [n]. *)
Definition fill_payload (n d2 : Z) (td : cbuf) : M lses cbuf :=
  for_st (seqZ 9 (d2 - 1 - 9)) td (fun p td =>
    v ← io (rd "random_d" (static_buf random_d) ((n * (d2 - 9) + (p - 9)) `rem` 200));
    io (wr "transmission_data" td p v)).

(** One transmission and the pause after it. *)
Definition send_one (lora_dev : option lora_chip) (data : cbuf) (toa : float) (n : Z) (td : cbuf)
  : M lses cbuf :=
  let d0 := peek data 0 in
  let d1 := peek data 1 in
  let d2 := peek data 2 in
  td ← io (wr "transmission_data" td 6 (u8 (n `quot` 100 + 48)));
  td ← io (wr "transmission_data" td 7 (u8 (n `quot` 10 + 48)));
  td ← io (wr "transmission_data" td 8 (u8 (n `rem` 10 + 48)));
  td ← fill_payload n d2 td;
  td ← io (wr "transmission_data" td (d2 - 1) 46);
  bytes ← io (copy_out "transmission_data" td 0 (Z.to_nat d2));
  io (lora_send lora_dev bytes d2);;
  io (k_sleep (K_MSEC (d1 * 1000 - (if n <? d0 - 1 then to_int toa else 0) - 2)));;
  mret td.

(** One combination of parameters: configure, wait, send [data[0]] messages. *)
Definition exec_combination (lora_dev : option lora_chip) (data : cbuf) (td : cbuf) : M lses cbuf :=
  c ← gets config;
  io (lora_config lora_dev c);;
  let toa := time_on_air (peek data 2) (datarate c) (bandwidth c) (coding_rate c) in
  io (k_sleep (K_MSEC (gap_ms toa)));;
  for_st (range (peek data 0)) td (fun n td => send_one lora_dev data toa n td).

(** The nested loops over the parameter masks [data[4]] .. [data[8]]. *)
Definition sweep_power (lora_dev : option lora_chip) (data td : cbuf) : M lses cbuf :=
  for_st (range 8) td (fun m td =>
    if bit_set (peek data 8) m then
      modify (fun s => set_config (with_tx_power (s8 (18 - m * 2)) (config s)) s);;
      td ← io (wr "transmission_data" td 4 (u8 (m + 48)));
      exec_combination lora_dev data td
    else mret td).

Definition sweep_coding (lora_dev : option lora_chip) (data td : cbuf) : M lses cbuf :=
  for_st (range 4) td (fun l td =>
    if bit_set (peek data 7) l then
      modify (fun s => set_config (with_coding_rate (l + 1) (config s)) s);;
      td ← io (wr "transmission_data" td 3 (u8 (l + 48)));
      sweep_power lora_dev data td
    else mret td).

Definition sweep_datarate (lora_dev : option lora_chip) (data td : cbuf) : M lses cbuf :=
  for_st (range 6) td (fun k td =>
    if bit_set (peek data 6) k then
      modify (fun s => set_config (with_datarate (k + 7) (config s)) s);;
      td ← io (wr "transmission_data" td 2 (u8 (k + 48)));
      sweep_coding lora_dev data td
    else mret td).

Definition sweep_bandwidth (lora_dev : option lora_chip) (data td : cbuf) : M lses cbuf :=
  for_st (range 3) td (fun j td =>
    if bit_set (peek data 5) j then
      modify (fun s => set_config (with_bandwidth j (config s)) s);;
      td ← io (wr "transmission_data" td 1 (u8 (j + 48)));
      sweep_datarate lora_dev data td
    else mret td).

Definition sweep_frequency (lora_dev : option lora_chip) (data td : cbuf) : M lses cbuf :=
  for_st (range 8) td (fun i td =>
    if bit_set (peek data 4) i then
      f ← io (rd "frequencies" (static_buf frequencies) i);
      modify (fun s => set_config (with_frequency f (config s)) s);;
      td ← io (wr "transmission_data" td 0 (u8 (i + 48)));
      sweep_bandwidth lora_dev data td
    else mret td).

Definition exec_sweep (lora_dev : option lora_chip) (data : cbuf) : M lses unit :=
  td ← io (vla (peek data 2));
  td ← io (wr "transmission_data" td 5 95);
  modify (fun s => set_config (with_tx true (config s)) s);;
  sweep_frequency lora_dev data td;;
  mret tt.

(** The end of [exec_experiment]: prepare for another experiment on the other
    stack. *)
Definition exec_reprepare : M lses unit :=
  v ← gets config_vals;
  change_config "config_vals" (static_buf v) false;;
  n ← gets stack_number;
  if n =? 0 then
    modify (set_stack_number 1);;
    t ← gets thread3_tid;
    abort_tid t;;
    t' ← io (k_thread_create thread_data3 E_exec_experiment);
    modify (set_thread3_tid (Some t'))
  else
    modify (set_stack_number 0);;
    t ← gets thread1_tid;
    abort_tid t;;
    t' ← io (k_thread_create thread_data1 E_exec_experiment);
    modify (set_thread1_tid (Some t')).

(** [exec_experiment]. *)
Definition exec_experiment (fuel : nat) : M lses unit :=
  lora_dev ← io device_get_binding;
  data ← io (zeroed MAX_DATA_LEN);
  '(data, l) ← exec_wait_start fuel lora_dev data;
  data ← exec_handshake fuel lora_dev data l;
  exec_sweep lora_dev data;;
  exec_reprepare.

(** [prepare_sender_cb]. *)
Definition prepare_sender_cb (buf : cbuf) (len : Z) : M lses Z :=
  t3 ← gets thread3_tid; abort_tid t3;;
  t1 ← gets thread1_tid; abort_tid t1;;
  lora_dev ← io device_get_binding;
  if len =? 1 then
    switch_tx lora_dev true;;
    t1 ← gets thread1_tid; abort_tid t1;;
    mret 0
  else
    v ← gets config_vals;
    src ← io (copy_out "buf" buf 0 (Z.to_nat len));
    v' ← io (copy_in "config_vals" (static_buf v) 0 src);
    modify (set_config_vals (cmem v'));;
    v ← gets config_vals;
    change_config "config_vals" (static_buf v) false;;
    bt_lses_notify (-2);;
    t' ← io (k_thread_create thread_data1 E_exec_experiment);
    modify (set_thread1_tid (Some t'));;
    mret 0.

(** [lses_init] and [set_connected]. *)
Definition lses_init : M lses Z := modify (set_lses_blsc 1);; mret 0.
Definition set_connected (b : bool) : M lses unit :=
  modify (fun s => set_pl (Sx12xx.set_connected b (pl s)) s).
