(* ===== verification/LsesSweep.v ===== *)
(** * What the sender transmits

    The nested loops of [exec_experiment] (lses.c) against the experiment
    plan: which radio commands, messages and pauses they produce, in which
    order, for any settings and whatever completion events arrive meanwhile. *)
From S2P Require Import Prelude KSem Platform Sx12xx TimeOnAir CLib Plan Messages Runs Lses.
From stdpp Require Import prelude list numbers strings gmap.
From Stdlib Require Import ZArith Lia.
Import WaitQ Sem CFloat.
Open Scope Z_scope.

(** ** Runs of driver calls inside the service *)

Lemma io_done {A} (m : M plat A) s a q :
  m (pl s) = (Done a, q) -> liftp m s = (Done a, set_pl q s).
Proof. intros E. unfold liftp. cbn. by rewrite E. Qed.

Lemma io_sleep ch ms s :
  ready ch (pl s) ->
  exists q, liftp (k_sleep (K_MSEC ms)) s = (Done tt, set_pl q s) /\
    timed [EvSleep (Z.max ms 0)] (pl s) q /\ ready ch q.
Proof.
  intros Hr. destruct (sleep_run ch ms (pl s)) as (q & E & T & Hq). exists q.
  split; [by apply io_done|auto].
Qed.

Lemma io_send ch data len s :
  ready ch (pl s) ->
  exists q, liftp (lora_send (Some ch) data len) s = (Done 0, set_pl q s) /\
    timed (SEND data len) (pl s) q /\ ready ch q.
Proof.
  intros Hr. destruct (send_run ch data len (pl s)) as (q & E & T & Hq); [apply Hr..|].
  exists q. split; [by apply io_done|auto].
Qed.

Lemma io_config ch c s :
  ready ch (pl s) ->
  exists q, liftp (lora_config (Some ch) c) s = (Done 0, set_pl q s) /\
    timed (CONFIG c) (pl s) q /\ ready ch q.
Proof.
  intros Hr. destruct (config_run ch c (pl s)) as (q & E & T & Hq). exists q.
  split; [by apply io_done|auto].
Qed.

(** ** One message *)

Section experiment.
Context (ch : lora_chip) (data : cbuf).
Abbreviation d0 := (peek data 0).
Abbreviation d1 := (peek data 1).
Abbreviation d2 := (peek data 2).
Context (Hd0 : byte_ok d0) (Hd2 : 10 <= d2 <= 255).

(** What message [n] of a combination does: [toa] is the time on air. *)
Definition message_events (c : combo) (toa : Z) (n : Z) : list event :=
  SEND (message c d2 n) d2 ++
  [EvSleep (Z.max (d1 * 1000 - (if n <? d0 - 1 then toa else 0) - 2) 0)].

Lemma send_one_spec c toa n td s :
  0 <= n < d0 -> buf_wf d2 td -> prefix_ok c td -> ready ch (pl s) ->
  exists td' q, send_one (Some ch) data toa n td s = (Done td', set_pl q s) /\
    buf_wf d2 td' /\ prefix_ok c td' /\ ready ch q /\ timed (message_events c (to_int toa) n) (pl s) q.
Proof.
  intros Hn Hwf Hpre Henv. unfold byte_ok in Hd0. unfold send_one. pose proof (buf_wf_len _ _ Hwf).
  rewrite !(step_wr _ d2) by (repeat apply poke_wf; try done; lia).
  set (td1 := poke _ 8 _).
  destruct (fill_spec "transmission_data" n d2 d2 (seqZ 9 (d2 - 1 - 9)) td1 s) as (td2 & E2 & W2 & P2).
  { lia. } { by repeat apply poke_wf. } { lia. }
  { apply Forall_forall. intros j Hj%elem_of_seqZ. lia. }
  rewrite (bind_done _ _ _ _ _ E2), (step_wr _ d2) by (done || lia).
  rewrite step_copy_out by (by apply poke_wf || lia).
  rewrite (message_bytes c n n d2 d2 td td2) by (done || lia). fold (message c d2 n).
  destruct (io_send ch (message c d2 n) d2 s Henv) as (q & E & T & Rq).
  rewrite (bind_done _ _ _ _ _ E).
  destruct (io_sleep ch (d1 * 1000 - (if n <? d0 - 1 then to_int toa else 0) - 2) (set_pl q s) Rq)
    as (q' & E' & T' & Rq').
  rewrite (bind_done _ _ _ _ _ E'). eexists _, q'. split; [done|]. split_and!.
  - by apply poke_wf.
  - destruct W2 as [_ Hl2]. apply prefix_ok_poke; [lia|].
    apply (prefix_ok_ext c td1); [|by repeat apply prefix_ok_poke; rewrite ?length_cmem_poke; try lia].
    intros j Hj. rewrite P2 by lia. apply decide_False. rewrite elem_of_seqZ. lia.
  - done.
  - by eapply timed_trans.
Qed.

(** ** One combination *)

(** The loops' work, as a relation on buffer and state. *)
Definition did (l : list event) (x y : cbuf * lses) : Prop := timed l (pl x.2) (pl y.2).
Lemma did_refl x : did [] x x.
Proof. apply timed_refl. Qed.
Lemma did_trans l k x y z : did l x y -> did k y z -> did (l ++ k) x z.
Proof. apply timed_trans. Qed.

(** How far the loops have fixed the parameters. The loops change nothing of
    the service's state but [config] and the platform. *)
Record fixed (s0 : lses) (pre : Z) (k : Z) (c : combo) (td : cbuf) (s : lses) : Prop := {
  fx_aim : aimed d2 true pre k c td (config s);
  fx_env : ready ch (pl s);
  fx_rest : exists cfg q, s = set_pl q (set_config cfg s0) }.

Lemma fx_wf s0 pre k c td s : fixed s0 pre k c td s -> buf_wf d2 td.
Proof. intros F. apply F. Qed.

Abbreviation toa_of c := (time_on_air d2 (c_dr c + 7) (c_bw c) (c_cr c + 1)).

Definition combo_events (pre : Z) (c : combo) : list event :=
  CONFIG (combo_config pre true c) ++
  [EvSleep (Z.max (gap_ms (toa_of c)) 0)] ++
  flat_map (message_events c (to_int (toa_of c))) (range d0).

(** Radio work and a buffer with the same header keep what is fixed. *)
Lemma fixed_step s0 pre k c td td' s q :
  fixed s0 pre k c td s -> ready ch q -> aimed d2 true pre k c td' (config s) ->
  fixed s0 pre k c td' (set_pl q s).
Proof. intros [? ? (cfg & q' & ->)] T W. split; [done|done|]. by exists cfg, q. Qed.

Lemma exec_combination_spec s0 pre c td s :
  fixed s0 pre 5 c td s ->
  exists td' s', exec_combination (Some ch) data td s = (Done td', s') /\
    fixed s0 pre 5 c td' s' /\ timed (combo_events pre c) (pl s) (pl s').
Proof.
  intros F. unfold exec_combination. rewrite bind_gets, (aimed_config _ _ _ _ _ _ (fx_aim _ _ _ _ _ _ F)).
  destruct (io_config ch (combo_config pre true c) s) as (q1 & E1 & T1 & R1); [apply F|].
  rewrite (bind_done _ _ _ _ _ E1). cbn [datarate bandwidth coding_rate combo_config].
  destruct (io_sleep ch (gap_ms (toa_of c)) (set_pl q1 s) R1) as (q2 & E2 & T2 & R2).
  rewrite (bind_done _ _ _ _ _ E2). cbn [pl set_pl] in T2.
  assert (F2 : fixed s0 pre 5 c td (set_pl q2 s)).
  { eapply fixed_step; [done..|apply F]. }
  destruct (for_does did did_refl did_trans (fixed s0 pre 5 c)
    (message_events c (to_int (toa_of c))) (range d0)
    (fun n td => send_one (Some ch) data (toa_of c) n td)) with (st := td) (s := set_pl q2 s)
    as (td3 & s3 & E3 & F3 & T3); [|done|].
  - intros n td1 s1 Hn%range_spec F1.
    destruct (send_one_spec c (toa_of c) n td1 s1) as (td' & q & E & W & P & Rq & T);
      [done|apply F1|eapply aimed_prefix, F1|apply F1|].
    exists td', (set_pl q s1). split; [done|]. split; [|done].
    eapply fixed_step; [done..|]. by eapply aimed_prefix_ok; [apply F1|..].
  - exists td3, s3. split; [done|]. split; [done|].
    eapply timed_trans; [done|]. by eapply timed_trans.
Qed.

(** ** The nested loops *)

(** A loop variable is fixed by a lemma on [aimed]. *)
Lemma fixed_set s0 pre k k' c c' td td' f s :
  fixed s0 pre k c td s -> aimed d2 true pre k' c' td' (f (config s)) ->
  fixed s0 pre k' c' td' (set_config (f (config s)) s).
Proof. intros [? ? (cfg & q & ->)] A. split; [done..|]. by do 2 eexists. Qed.

(** One level of the loops, given the lemma that fixes its parameter. *)
Ltac level_step fix_lemma :=
  intros ? ? ? ? F1; eexists; rewrite ?bind_modify; rewrite (step_wr _ d2) by (apply F1 || lia);
  split; [done|]; split; [|apply timed_refl];
  eapply (fixed_set _ _ _ _ _ _ _ _ (fun _ => _)); [exact F1|apply fix_lemma; [lia|done|apply F1]].
Ltac level_weaken := intros ? ? ? []; split; [by eapply aimed_weaken|done..].

Definition power_events (pre : Z) (c : combo) : list event :=
  flat_map (fun m => combo_events pre (on_pow m c)) (bits 8 (peek data 8)).
Definition coding_events (pre : Z) (c : combo) : list event :=
  flat_map (fun l => power_events pre (on_cr l c)) (bits 4 (peek data 7)).
Definition datarate_events (pre : Z) (c : combo) : list event :=
  flat_map (fun k => coding_events pre (on_dr k c)) (bits 6 (peek data 6)).
Definition bandwidth_events (pre : Z) (c : combo) : list event :=
  flat_map (fun j => datarate_events pre (on_bw j c)) (bits 3 (peek data 5)).

Lemma sweep_power_spec s0 pre c td s :
  fixed s0 pre 4 c td s ->
  exists td' s', sweep_power (Some ch) data td s = (Done td', s') /\ fixed s0 pre 4 c td' s' /\
    did (power_events pre c) (td, s) (td', s').
Proof.
  intros F. unfold sweep_power. apply (for_level did did_refl did_trans (fixed s0 pre 4 c) 8 (peek data 8) on_pow
    (fixed s0 pre 5) (combo_events pre) (fun m td => poke td 4 (u8 (m + 48)))
    (exec_combination (Some ch) data)).
  - level_step aimed_pow.
  - apply exec_combination_spec.
  - level_weaken.
  - done.
Qed.

Lemma sweep_coding_spec s0 pre c td s :
  fixed s0 pre 3 c td s ->
  exists td' s', sweep_coding (Some ch) data td s = (Done td', s') /\ fixed s0 pre 3 c td' s' /\
    did (coding_events pre c) (td, s) (td', s').
Proof.
  intros F. unfold sweep_coding. apply (for_level did did_refl did_trans (fixed s0 pre 3 c) 4 (peek data 7) on_cr
    (fixed s0 pre 4) (power_events pre) (fun l td => poke td 3 (u8 (l + 48)))
    (sweep_power (Some ch) data)).
  - level_step aimed_cr.
  - apply sweep_power_spec.
  - level_weaken.
  - done.
Qed.

Lemma sweep_datarate_spec s0 pre c td s :
  fixed s0 pre 2 c td s ->
  exists td' s', sweep_datarate (Some ch) data td s = (Done td', s') /\ fixed s0 pre 2 c td' s' /\
    did (datarate_events pre c) (td, s) (td', s').
Proof.
  intros F. unfold sweep_datarate. apply (for_level did did_refl did_trans (fixed s0 pre 2 c) 6 (peek data 6) on_dr
    (fixed s0 pre 3) (coding_events pre) (fun k td => poke td 2 (u8 (k + 48)))
    (sweep_coding (Some ch) data)).
  - level_step aimed_dr.
  - apply sweep_coding_spec.
  - level_weaken.
  - done.
Qed.

Lemma sweep_bandwidth_spec s0 pre c td s :
  fixed s0 pre 1 c td s ->
  exists td' s', sweep_bandwidth (Some ch) data td s = (Done td', s') /\ fixed s0 pre 1 c td' s' /\
    did (bandwidth_events pre c) (td, s) (td', s').
Proof.
  intros F. unfold sweep_bandwidth. apply (for_level did did_refl did_trans (fixed s0 pre 1 c) 3 (peek data 5) on_bw
    (fixed s0 pre 2) (datarate_events pre) (fun j td => poke td 1 (u8 (j + 48)))
    (sweep_datarate (Some ch) data)).
  - level_step aimed_bw.
  - apply sweep_datarate_spec.
  - level_weaken.
  - done.
Qed.

Lemma sweep_frequency_spec s0 pre c td s :
  fixed s0 pre 0 c td s ->
  exists td' s', sweep_frequency (Some ch) data td s = (Done td', s') /\ fixed s0 pre 0 c td' s' /\
    did (flat_map (combo_events pre) (combos (peek data 4) (peek data 5) (peek data 6)
           (peek data 7) (peek data 8))) (td, s) (td', s').
Proof.
  intros F. unfold sweep_frequency. rewrite (flat_map_combos _ _ _ _ _ _ c).
  apply (for_level did did_refl did_trans (fixed s0 pre 0 c) 8 (peek data 4) on_freq
    (fixed s0 pre 1) (bandwidth_events pre) (fun i td => poke td 0 (u8 (i + 48)))
    (sweep_bandwidth (Some ch) data)).
  - intros x td1 s1 Hx F1. eexists.
    rewrite (bind_done _ _ _ _ _ (liftp_rd _ _ _ s1 (frequencies_in _ Hx))).
    rewrite peek_frequencies, bind_modify by lia. rewrite (step_wr _ d2) by (apply F1 || lia).
    split; [done|]. split; [|apply timed_refl].
    eapply (fixed_set _ _ _ _ _ _ _ _ (fun _ => _)); [exact F1|apply aimed_freq; [lia|done|apply F1]].
  - apply sweep_bandwidth_spec.
  - level_weaken.
  - done.
Qed.

End experiment.

Lemma sweep_run ch data s :
  byte_ok (peek data 0) -> 10 <= peek data 2 <= 255 -> ready ch (pl s) ->
  exists s', exec_sweep (Some ch) data s = (Done tt, s') /\
    timed (flat_map (combo_events data (preamble_len (config s)))
             (combos (peek data 4) (peek data 5) (peek data 6) (peek data 7) (peek data 8)))
      (pl s) (pl s') /\
    ready ch (pl s') /\ exists cfg q, s' = set_pl q (set_config cfg s).
Proof.
  intros H0 H2 Henv. unfold exec_sweep.
  assert (Hv : exists td, buf_wf (peek data 2) td /\
    liftp (vla (peek data 2)) s = (Done td, s)).
  { eexists. split; [|apply liftp_pure; unfold vla; by destruct (Z.leb_spec (peek data 2) 0); [lia|]].
    split; [done|]. cbn. rewrite length_app, length_fmap, length_seq. lia. }
  destruct Hv as (td & Wtd & Ev). rewrite (bind_done _ _ _ _ _ Ev).
  rewrite (step_wr _ (peek data 2)) by (done || lia). rewrite bind_modify.
  set (s1 := set_config _ s).
  destruct (sweep_frequency_spec ch data H0 H2 s (preamble_len (config s)) (mk_combo 0 0 0 0 0)
    (poke td 5 95) s1) as (td' & s' & E & F & T).
  { pose proof (buf_wf_len _ _ Wtd). split; [|done|by exists (config s1), (pl s)].
    apply aimed_start; [by apply poke_wf|by rewrite peek_poke by lia|done|done]. }
  rewrite (bind_done _ _ _ _ _ E). exists s'. split; [done|]. split; [exact T|].
  split; apply F.
Qed.

(** C4. The measurement part of an experiment. For any
    settings with messages of at least 10 bytes, with the radio present and
    whatever completion and connection events arrive, [exec_experiment]'s
    loops terminate and do exactly this, each event right after the other:
    for every combination of the plan, in order, configure the radio for it,
    pause, and for every message number send that message and pause. Nothing
    else happens, in particular no array is left, and of the service's
    variables only [config] changes. *)
Theorem sweep_transmits ch data s :
  byte_ok (peek data 0) -> 10 <= peek data 2 <= 255 -> ready ch (pl s) ->
  exists s', exec_sweep (Some ch) data s = (Done tt, s') /\
    timed (flat_map (combo_events data (preamble_len (config s)))
             (combos (peek data 4) (peek data 5) (peek data 6) (peek data 7) (peek data 8)))
      (pl s) (pl s') /\
    exists cfg q, s' = set_pl q (set_config cfg s).
Proof.
  intros H0 H2 Hr. destruct (sweep_run ch data s H0 H2 Hr) as (s' & E & T & _ & Hs). by exists s'.
Qed.

(** A sender for concrete runs. *)
Definition demo_lses (p : plat) : lses :=
  mk_lses (mk_config 869500000 0 7 1 8 4 false) None (Some thread_data1) None None
    (replicate 20 0) 0 (replicate 255 0) 0 0 0 [0; 0; 0; 0; 7] 0 1 p.

(** Two messages of 12 bytes, 1 s apart, on two frequencies at 4 dBm. *)
Definition demo_settings : cbuf :=
  mk_buf 20 [2; 1; 12; 0; 3; 1; 1; 1; 128; 49; 48; 0; 0; 0; 0; 0; 0; 0; 0; 0].

Lemma sweep_transmits_witness :
  exists s', exec_sweep (Some SX127X) demo_settings (demo_lses (demo_plat 0 [(77, IrqTxDone)])) =
      (Done tt, s') /\
    timed (flat_map (combo_events demo_settings 8) [mk_combo 0 0 0 0 7; mk_combo 1 0 0 0 7])
      (demo_plat 0 [(77, IrqTxDone)]) (pl s') /\
    exists cfg q, s' = set_pl q (set_config cfg (demo_lses (demo_plat 0 [(77, IrqTxDone)]))).
Proof.
  apply (sweep_transmits SX127X demo_settings (demo_lses (demo_plat 0 [(77, IrqTxDone)]))).
  - by vm_compute.
  - by vm_compute.
  - apply demo_ready.
Defined.

(** ** The schedule of a combination *)

(** The transmissions among timed events, with their start times. *)
Definition send_of (e : Z * event) : option (Z * list Z) :=
  match e with (t, EvRadio (Send bytes _)) => Some (t, bytes) | _ => None end.
Definition sends (l : list (Z * event)) : list (Z * list Z) := omap send_of l.

Lemma sends_app l k : sends (l ++ k) = sends l ++ sends k.
Proof. apply omap_app. Qed.

Section schedule.
Context (sm : Z -> Z) (data : cbuf) (c : combo) (toa : Z).
Abbreviation d0 := (peek data 0).
Abbreviation d1 := (peek data 1).
Abbreviation d2 := (peek data 2).

(** From one transmission to the next. *)
Definition period : Z := sm d2 + Z.max (d1 * 1000 - toa - 2) 0.

Lemma message_stamp n t :
  sends (stamp sm t (message_events data c toa n)) = [(t, message c d2 n)].
Proof. cbn. by rewrite Z.add_0_r. Qed.

Lemma message_total n :
  n < d0 - 1 -> duration sm (message_events data c toa n) = period.
Proof.
  intros Hn. unfold message_events, SEND, duration, period. cbn [app foldr dur].
  destruct (Z.ltb_spec n (d0 - 1)); lia.
Qed.

Lemma series_sends (m : nat) k t :
  k + Z.of_nat m = d0 ->
  sends (stamp sm t (flat_map (message_events data c toa) (seqZ k (Z.of_nat m)))) =
  map (fun n => (t + (n - k) * period, message c d2 n)) (seqZ k (Z.of_nat m)).
Proof.
  revert k t. induction m as [|m IH]; intros k t Hk; [done|].
  rewrite (seqZ_cons k) by lia. cbn [flat_map map].
  replace (Z.pred (Z.of_nat (S m))) with (Z.of_nat m) by lia.
  rewrite stamp_app, sends_app, message_stamp. cbn [app]. f_equal; [f_equal; lia|].
  destruct m as [|m]; [done|]. rewrite message_total, IH by lia.
  apply map_ext. intros n. f_equal. lia.
Qed.

Lemma series_total (m : nat) k :
  k + Z.of_nat m = d0 ->
  duration sm (flat_map (message_events data c toa) (seqZ k (Z.of_nat m))) =
  if (m =? 0)%nat then 0 else (Z.of_nat m - 1) * period + sm d2 + Z.max (d1 * 1000 - 2) 0.
Proof.
  revert k. induction m as [|m IH]; intros k Hk; [done|].
  rewrite (seqZ_cons k) by lia. cbn [flat_map].
  replace (Z.pred (Z.of_nat (S m))) with (Z.of_nat m) by lia.
  rewrite duration_app, IH by lia. destruct m as [|m]; cbn [Nat.eqb].
  - unfold message_events, SEND, duration. cbn [app foldr dur].
    destruct (Z.ltb_spec k (d0 - 1)); lia.
  - rewrite message_total by lia. lia.
Qed.

End schedule.

(** When the messages of a combination go out and how long it takes. *)
Lemma combo_times sm data pre c t :
  let d0 := peek data 0 in let d1 := peek data 1 in let d2 := peek data 2 in
  let toa := exact_ms d2 (c_dr c + 7) (c_bw c) (c_cr c + 1) in
  let gap := Z.max (gap_ms (time_on_air d2 (c_dr c + 7) (c_bw c) (c_cr c + 1))) 0 in
  0 < d0 -> 0 <= d2 < 256 -> 0 <= c_dr c < 6 -> 0 <= c_bw c < 3 -> 0 <= c_cr c < 4 ->
  let l := combo_events data pre c in
  sends (stamp sm t l) =
    map (fun n => (t + gap + n * (sm d2 + Z.max (d1 * 1000 - toa - 2) 0), message c d2 n))
      (range d0) /\
  (toa < 5000 -> toa + 2 <= d1 * 1000 ->
   -2 <= duration sm l - (d0 * d1 * 1000 + 5000 + d0 * (sm d2 - (toa + 2))) <= 0).
Proof.
  intros d0 d1 d2 toa gap H0 H2 Hdr Hbw Hcr l.
  destruct (air_exact d2 (c_dr c + 7) (c_bw c) (c_cr c + 1)) as [Ht Hg]; try lia.
  fold toa in Ht. subst l. unfold combo_events. fold d0 d2. rewrite Ht.
  rewrite !stamp_app, !sends_app, !duration_app.
  assert (Hs : forall x, duration sm [EvSleep x] = x) by (intros x; cbn; lia).
  assert (Hc : duration sm (CONFIG (combo_config pre true c)) = 0) by done.
  replace (range d0) with (seqZ 0 (Z.of_nat (Z.to_nat d0))) by (unfold range; f_equal; lia).
  split.
  - rewrite series_sends by lia. rewrite Hc, Hs. cbn [app sends CONFIG stamp omap list_omap send_of].
    apply map_ext. intros n. f_equal. unfold period. fold d1 d2 gap. lia.
  - intros Hlt Hpos. rewrite series_total by lia. rewrite Hc, Hs.
    destruct (Nat.eqb_spec (Z.to_nat d0) 0); [lia|].
    pose proof (exact_gap_ms d2 (c_dr c + 7) (c_bw c) (c_cr c + 1) ltac:(lia) Hlt).
    unfold period. fold d1 d2 gap. rewrite Z2Nat.id by lia.
    assert (5000 - toa - 2 <= gap <= 5000 - toa) by lia.
    pose proof (exact_ms_pos d2 (c_dr c + 7) (c_bw c) (c_cr c + 1)) as Htp. fold toa in Htp.
    rewrite (Z.max_l (d1 * 1000 - toa - 2)), (Z.max_l (d1 * 1000 - 2)) by lia.
    clearbody gap toa d0 d1. nia.
Qed.

(** Timing of one combination that starts at [t], for a
    [Radio.Send] that keeps the sender [send_ms] milliseconds: message [n]
    goes out [gap + n * period] later, where [gap] is the pause of 5 s minus
    the air time and the period is [send_ms] plus the pause of [d1] seconds
    minus air time and 2 ms; and when no pause is cut off at zero, the
    combination lasts the 5 s and [d0 * d1] seconds for which the receiver
    stays on it plus [d0] times the difference of [send_ms] and the air time
    plus 2 ms, to within 2 ms of rounding. *)
Theorem combo_schedule sm data pre c t :
  let d0 := peek data 0 in let d1 := peek data 1 in let d2 := peek data 2 in
  let toa := exact_ms d2 (c_dr c + 7) (c_bw c) (c_cr c + 1) in
  let gap := Z.max (gap_ms (time_on_air d2 (c_dr c + 7) (c_bw c) (c_cr c + 1))) 0 in
  0 < d0 -> 0 <= d2 < 256 -> 0 <= c_dr c < 6 -> 0 <= c_bw c < 3 -> 0 <= c_cr c < 4 ->
  let l := combo_events data pre c in
  sends (stamp sm t l) =
    map (fun n => (t + gap + n * (sm d2 + Z.max (d1 * 1000 - toa - 2) 0), message c d2 n))
      (range d0) /\
  (toa < 5000 -> toa + 2 <= d1 * 1000 ->
   -2 <= duration sm l - (d0 * d1 * 1000 + 5000 + d0 * (sm d2 - (toa + 2))) <= 0).
Proof. apply combo_times. Qed.

Lemma combo_schedule_witness :
  let toa := exact_ms 12 7 0 1 in
  sends (stamp (fun _ => 44) 100 (combo_events demo_settings 8 (mk_combo 1 0 0 0 7))) =
    map (fun n => (100 + Z.max (gap_ms (time_on_air 12 7 0 1)) 0 + n * (44 + Z.max (1 * 1000 - toa - 2) 0),
                   message (mk_combo 1 0 0 0 7) 12 n)) (range 2) /\
  (toa < 5000 -> toa + 2 <= 1 * 1000 ->
   -2 <= duration (fun _ => 44) (combo_events demo_settings 8 (mk_combo 1 0 0 0 7)) -
     (2 * 1 * 1000 + 5000 + 2 * (44 - (toa + 2))) <= 0).
Proof.
  apply (combo_schedule (fun _ => 44) demo_settings 8 (mk_combo 1 0 0 0 7) 100); by vm_compute.
Defined.
