(* ===== verification/LsesControl.v ===== *)
(** * The sender's callbacks and threads

    Configuration, the explore-mode commands, the handshake that starts an
    experiment and the hand-over from one experiment thread to the next
    (lses.c). *)
From S2P Require Import Prelude KSem Platform Sx12xx TimeOnAir CLib Plan Messages Runs Lses LsesSweep.
From stdpp Require Import prelude list numbers strings gmap.
From Stdlib Require Import ZArith Lia.
Import WaitQ Sem.
Open Scope Z_scope.

(** ** Configuration *)

(** The configuration that five bytes select. *)
Definition selected (pu : cbuf) (tx : bool) : lora_modem_config :=
  combo_config 8 tx (mk_combo (peek pu 0) (peek pu 1) (peek pu 2) (peek pu 3) (peek pu 4)).

(** What reading them adds to the trace. *)
Definition config_oobs (o : string) (pu : cbuf) : list event :=
  oob ARead o pu 0 ++ oob ARead "frequencies" (static_buf frequencies) (peek pu 0) ++
  oob ARead o pu 1 ++ oob ARead o pu 2 ++ oob ARead o pu 3 ++ oob ARead o pu 4.

Lemma peek_frequencies_any i :
  peek (static_buf frequencies) i = if i <? 0 then 0 else default 0 (frequencies !! Z.to_nat i).
Proof. done. Qed.

Ltac wp_norm s ::=
  eval lazy beta iota delta [plat_of set_plat lses_plat pl config set_pl set_config set_thread0_tid
    set_thread1_tid set_thread2_tid set_thread3_tid thread0_tid thread1_tid thread2_tid thread3_tid
    ping_content ping_len set_ping loop_data loop_data_length set_loop_data
    number_of_messages set_number_of_messages time_between_msgs set_time_between_msgs
    config_vals set_config_vals stack_number set_stack_number lses_blsc
    with_frequency with_bandwidth with_datarate with_coding_rate with_preamble_len
    with_tx_power with_tx frequency bandwidth datarate coding_rate preamble_len tx_power tx] in s.

Ltac wp_proj ::=
  cbn [pl config thread0_tid thread1_tid thread2_tid thread3_tid ping_content ping_len loop_data
    loop_data_length number_of_messages time_between_msgs config_vals stack_number lses_blsc].

Ltac lses_simpl :=
  cbn [pl config thread0_tid thread1_tid thread2_tid thread3_tid ping_content ping_len loop_data
    loop_data_length number_of_messages time_between_msgs config_vals stack_number lses_blsc
    set_pl plat_of lses_plat] in *.

Lemma change_config_timed ch o pu b s :
  ready ch (pl s) -> 0 <= peek pu 0 ->
  wp timed (change_config o pu b) s (fun l _ s' => l = config_oobs o pu ++ CONFIG (selected pu b) /\
    ready ch (pl s') /\ exists q, s' = set_pl q (set_config (selected pu b) s)).
Proof.
  intros Hr H0. destruct s as [[]]. unfold change_config. repeat wp_step.
  rewrite peek_frequencies by done. unfold config_oobs. rewrite <- !app_assoc.
  split; [done|]. split; [done|]. by eexists.
Qed.

Section runs.
Context (R : list event -> plat -> plat -> Prop) `{HR : RunRel R} (ch : lora_chip).

Lemma wp_change_config o pu b s (Φ : list event -> unit -> lses -> Prop) :
  ready ch (pl s) -> 0 <= peek pu 0 ->
  (forall q, ready ch q -> timed (config_oobs o pu ++ CONFIG (selected pu b)) (pl s) q ->
     Φ (config_oobs o pu ++ CONFIG (selected pu b)) tt (set_pl q (set_config (selected pu b) s))) ->
  wp R (change_config o pu b) s Φ.
Proof.
  intros Hr H0 HΦ. eapply (wp_up R timed); [apply rr_timed|by apply (change_config_timed ch)|].
  intros l [] s' T (-> & Hr' & q & ->). by apply HΦ.
Qed.

Lemma wp_notify t s (Φ : list event -> Z -> lses -> Prop) :
  ready ch (pl s) ->
  (forall q, ready ch q -> timed [EvNotify [u8 t]] (pl s) q ->
     Φ [EvNotify [u8 t]] (if notify_rc (pl s) [u8 t] =? - ENOTCONN then 0
                          else notify_rc (pl s) [u8 t]) (set_pl q s)) ->
  wp R (bt_lses_notify t) s Φ.
Proof.
  intros Hr HΦ. destruct s. unfold bt_lses_notify. wp_step. wp_step. wp_step. wp_step. wp_step.
  assert (E : notify_rc q = notify_rc pl) by apply (ran_rc _ _ _ (timed_ran _ _ _ H0)).
  cbn. rewrite E. by apply HΦ.
Qed.

Lemma wp_switch_tx b s (Φ : list event -> unit -> lses -> Prop) :
  ready ch (pl s) ->
  (forall q, ready ch q -> timed (CONFIG (with_tx b (config s))) (pl s) q ->
     Φ (CONFIG (with_tx b (config s))) tt (set_pl q (set_config (with_tx b (config s)) s))) ->
  wp R (switch_tx (Some ch) b) s Φ.
Proof.
  intros Hr HΦ. destruct s as [[]]. unfold switch_tx. repeat wp_step. rewrite app_nil_r.
  cbn [app]. by apply HΦ.
Qed.

End runs.

(** Five bytes written to the configuration
    characteristic: the callback returns 0, [config] becomes exactly the
    configuration the bytes select, switched to sending, the radio gets it,
    and the phone is notified of -2. Nothing else happens except that every
    byte the buffer does not have, and a frequency index past the table of
    eight, is read outside its array. *)
Lemma change_config_cb_applies ch buf len s :
  ready ch (pl s) -> 0 <= peek buf 0 ->
  exists s', change_config_cb buf len s = (Done 0, s') /\
    timed (config_oobs "buf" buf ++ CONFIG (selected buf true) ++ [EvNotify [254]]) (pl s) (pl s') /\
    (exists q, s' = set_pl q (set_config (selected buf true) s)) /\
    (5 <= csize buf -> peek buf 0 < 8 -> config_oobs "buf" buf = []) /\
    (8 <= peek buf 0 -> EvOob ARead "frequencies" (peek buf 0) ∈ config_oobs "buf" buf).
Proof.
  intros Hr H0.
  assert (W : wp timed (change_config_cb buf len) s (fun l a s' => a = 0 /\
    l = config_oobs "buf" buf ++ CONFIG (selected buf true) ++ [EvNotify [254]] /\
    exists q, s' = set_pl q (set_config (selected buf true) s))).
  { destruct s as [[]]. unfold change_config_cb. wp_step. wp_rule wp_change_config; [done|done|]. intros q Rq Tq.
    wp_step. wp_rule wp_notify; [done|]. intros q' Rq' Tq'. wp_step.
    split; [done|]. rewrite app_nil_r, <- app_assoc. split; [done|]. by exists q'. }
  destruct W as (l & a & s' & E & T & -> & -> & Hs'). exists s'. split_and!; try done.
  - intros H5 H8. unfold config_oobs, oob.
    assert (Hi : forall i, 0 <= i < 5 -> in_bounds buf i = true)
      by (intros; apply in_bounds_spec; lia).
    by rewrite frequencies_in, !Hi by lia.
  - intros H8. unfold config_oobs. rewrite !elem_of_app. right; left. unfold oob.
    destruct (in_bounds _ _) eqn:E8; [|by left]. apply in_bounds_spec in E8.
    change (csize (static_buf frequencies)) with 8 in E8. lia.
Qed.

(** ** Explore mode *)

(** The 20 bytes [send_command_cb] puts on the air for a command of [len]
    bytes: the command, the delimiter, and whatever follows on the stack. *)
Definition command_bytes (cmd : Z -> Z) (len : Z) (p : plat) : list Z :=
  map (fun i => if i <? len then cmd i else if i =? len then 46 else u8 (stale p (Z.to_nat i)))
    (seqZ 0 MAX_DATA_LEN).

(** What it does to arrays meanwhile: the delimiter is always written one past
    the end, and a command shorter than 20 bytes is read past its end. *)
Definition command_oobs (len : Z) : list event :=
  EvOob AWrite "data" len :: map (EvOob ARead "data") (seqZ len (MAX_DATA_LEN - len)).

Lemma oobs_past a o b n m :
  csize b = n -> 0 <= n <= m -> oobs a o b 0 m = map (EvOob a o) (seqZ n (m - n)).
Proof.
  intros Hc Hn. unfold oobs. replace m with (n + (m - n)) at 1 by lia.
  rewrite seqZ_app, flat_map_app by lia.
  pose proof (oobs_nil a o b 0 n ltac:(lia) ltac:(lia)) as E. unfold oobs in E. rewrite E.
  cbn [app]. rewrite Z.add_0_l.
  assert (Hout : forall i, In i (seqZ n (m - n)) -> oob a o b i = [EvOob a o i]).
  { intros i Hi%list_elem_of_In%elem_of_seqZ. unfold oob.
    destruct (in_bounds b i) eqn:Eb; [|done]. apply in_bounds_spec in Eb. lia. }
  induction (seqZ n (m - n)) as [|i l IH]; [done|]. cbn. rewrite Hout by (by left). cbn.
  f_equal. apply IH. intros j Hj. apply Hout. by right.
Qed.

(** The buffer the message is sent from: an uninitialised array of [len] bytes
    after the copy of [src] and the delimiter. *)
Definition message_buffer (src : list Z) (len : Z) (p : plat) (b : cbuf) : Prop :=
  csize b = len /\ Z.of_nat (length (cmem b)) = len + 32 /\
  forall i, 0 <= i < len + 32 -> peek b i =
    if i <? len then default 0 (src !! Z.to_nat i)
    else if i =? len then 46 else u8 (stale p (Z.to_nat i)).

Lemma wp_message_buffer R `{RunRel R} ch src len p b (s : lses) (Φ : list event -> cbuf -> lses -> Prop) :
  ready ch (pl s) -> 0 < len -> Z.of_nat (length src) = len -> raw len p b ->
  (forall q b', ready ch q -> timed [EvOob AWrite "data" len] (pl s) q -> message_buffer src len p b' ->
     Φ [EvOob AWrite "data" len] b' (set_pl q s)) ->
  wp R (data ← io (copy_in "data" b 0 src); io (wr "data" data len 46)) s Φ.
Proof.
  intros Hr Hl Hsrc (Cb & Lb & Pb) HΦ. rewrite Z.max_l in Lb, Pb by lia.
  change (Z.of_nat stack_slack) with 32 in *.
  wp_step. wp_rule wp_copy_in; [wp_ready|lia|]. intros q b' Rq Tq Cb' Lb' Pb'.
  rewrite oobs_nil in * by lia. wp_step.
  assert (Eo : oob AWrite "data" b' len = [EvOob AWrite "data" len]).
  { unfold oob. destruct (in_bounds b' len) eqn:E; [|done]. apply in_bounds_spec in E. lia. }
  rewrite Eo in *. cbn [app]. apply HΦ; [done|by apply (timed_trans [] _ _ q)|].
  unfold message_buffer. rewrite csize_poke, length_cmem_poke, Lb'. split_and!; [lia|lia|].
  intros i Hi. rewrite peek_poke by lia. rewrite Pb' by lia. rewrite Z.sub_0_r.
  destruct (Z.eqb_spec len i) as [->|Hne].
  + destruct (Z.ltb_spec i i); [lia|]. by rewrite Z.eqb_refl.
  + destruct (Z.leb_spec 0 i), (Z.ltb_spec i (0 + Z.of_nat (length src))), (Z.ltb_spec i len);
      try lia; cbn [andb]; [done|]. destruct (Z.eqb_spec i len); [lia|]. apply Pb. lia.
Qed.

(** The 20 bytes sent from it. *)
Lemma message_buffer_bytes src len p b :
  0 < len <= MAX_DATA_LEN -> message_buffer src len p b ->
  map (peek b) (seqZ 0 (Z.of_nat (Z.to_nat MAX_DATA_LEN))) =
  command_bytes (fun i => default 0 (src !! Z.to_nat i)) len p.
Proof.
  intros Hl (_ & _ & Pb). apply map_ext_in. unfold MAX_DATA_LEN in *.
  intros i Hi%list_elem_of_In%elem_of_seqZ. apply Pb. lia.
Qed.

Lemma copied_bytes f n i : 0 <= i < n -> default 0 (map f (seqZ 0 n) !! Z.to_nat i) = f i.
Proof.
  intros Hi. change (map f (seqZ 0 n)) with (f <$> seqZ 0 n).
  rewrite list_lookup_fmap, lookup_seqZ_lt by lia. cbn. f_equal. lia.
Qed.

(** The bytes of a command copied from the phone's buffer. *)
Lemma command_bytes_copied f len p :
  command_bytes (fun i => default 0 (map f (seqZ 0 len) !! Z.to_nat i)) len p = command_bytes f len p.
Proof.
  apply map_ext_in. intros i Hi%list_elem_of_In%elem_of_seqZ.
  destruct (Z.ltb_spec i len); [|done]. apply copied_bytes. lia.
Qed.

(** A command of [len] (1 to 20) bytes that is not a
    ping goes out as a message of 20 bytes that starts with the command and,
    if it is shorter, the delimiter; the rest is uninitialised stack. The
    callback changes no variable and returns 0, but always writes the
    delimiter past the end of its array, and reads past the end for commands
    shorter than 20 bytes. *)
Theorem send_command_sends ch buf len s :
  ready ch (pl s) -> 0 < len <= MAX_DATA_LEN -> csize buf = len -> peek buf 0 <> 38 ->
  exists s', send_command_cb buf len s = (Done 0, s') /\ (exists q, s' = set_pl q s) /\
    timed (command_oobs len ++ SEND (command_bytes (peek buf) len (pl s)) MAX_DATA_LEN)
      (pl s) (pl s').
Proof.
  intros Hr Hl Hb Hp.
  assert (W : wp timed (send_command_cb buf len) s (fun l a s' => a = 0 /\
    l = command_oobs len ++ SEND (command_bytes (peek buf) len (pl s)) MAX_DATA_LEN /\
    exists q, s' = set_pl q s)).
  { destruct s as [[]]. unfold send_command_cb.
    wp_step. wp_rule wp_vla; [lia|]. intros b Rb.
    wp_step. wp_rule wp_rd_in; [apply in_bounds_spec; lia|].
    wp_step. wp_rule wp_copy_out_in; [lia|lia|]. rewrite Z2Nat.id by lia.
    apply wp_assoc. wp_step. wp_rule wp_message_buffer; [done|lia|rewrite length_map, length_seqZ; lia|done|].
    intros q b' Rq Tq Mb. wp_step. wp_step. wp_step. wp_step.
    wp_step. wp_step. destruct (Z.eqb_spec (peek buf 0) 38); [done|]. wp_step. wp_step. wp_step.
    rewrite (oobs_past _ _ b' len) by (apply Mb || (unfold MAX_DATA_LEN in *; lia)).
    rewrite (message_buffer_bytes _ _ _ _ Hl Mb), command_bytes_copied.
    split; [done|]. rewrite !app_nil_r. split; [done|]. by eexists. }
  destruct W as (l & a & s' & E & T & -> & -> & Hs'). by exists s'.
Qed.

Lemma send_command_sends_witness :
  let s := demo_lses (demo_plat 0 []) in
  let buf := static_buf [104; 105] in
  exists s', send_command_cb buf 2 s = (Done 0, s') /\ (exists q, s' = set_pl q s) /\
    timed (command_oobs 2 ++ SEND (command_bytes (peek buf) 2 (pl s)) MAX_DATA_LEN) (pl s) (pl s').
Proof.
  apply (send_command_sends SX127X (static_buf [104; 105]) 2 (demo_lses (demo_plat 0 []))
    (demo_ready _ _)); by vm_compute.
Defined.

Lemma wp_loop_n R `{RunRel R} (body : Z -> M lses (Z + unit)) (ev : list event)
    (Inv : lses -> Prop) n :
  (forall i s, 0 <= i < n -> Inv s ->
     wp R (body i) s (fun l x s' => l = ev /\ x = inl (i + 1) /\ Inv s')) ->
  (forall s, Inv s -> wp R (body n) s (fun l x s' => l = [] /\ x = inr tt /\ Inv s')) ->
  forall (m : nat) i s, i + Z.of_nat m = n -> 0 <= i -> Inv s ->
  wp R (loop (S m) body i) s (fun l _ s' => l = concat (replicate m ev) /\ Inv s').
Proof.
  intros Hb He. induction m as [|m IH]; intros i s Hi H0 Hs; cbn [loop].
  - replace i with n by lia. wp_rule wp_bind. eapply wp_mono; [by apply He|].
    intros l x s' (-> & -> & Hs'). by wp_rule wp_ret.
  - wp_rule wp_bind. eapply wp_mono; [apply Hb; [lia|done]|].
    intros l x s' (-> & -> & Hs'). eapply wp_mono; [by apply IH; try lia|].
    intros l [] s'' [-> Hs'']. split; done.
Qed.

(** The sending loop of explore mode: [number_of_messages]
    times the stored text as a message of 20 bytes, each followed by a pause
    of [time_between_msgs] seconds, and then the thread ends. Each message
    reads past the end of the text's array when the text is shorter. *)
Theorem exec_loop_sends ch s :
  let len := loop_data_length s in
  ready ch (pl s) -> 0 < len <= MAX_DATA_LEN -> len <= Z.of_nat (length (loop_data s)) ->
  0 <= number_of_messages s < 2 ^ 16 -> 0 <= time_between_msgs s ->
  exists s', exec_loop s = (Done tt, s') /\ (exists q, s' = set_pl q s) /\
    timed (EvOob AWrite "data" len ::
      concat (replicate (Z.to_nat (number_of_messages s))
        (map (EvOob ARead "data") (seqZ len (MAX_DATA_LEN - len)) ++
         SEND (command_bytes (peek (static_buf (loop_data s))) len (pl s)) MAX_DATA_LEN ++
         [EvSleep (time_between_msgs s * 1000)])))
      (pl s) (pl s').
Proof.
  intros len Hr Hl Hld Hn Ht.
  match goal with |- exists s', _ /\ _ /\ timed ?k _ _ => set (evs := k) end.
  assert (W : wp timed exec_loop s (fun l a s' => a = tt /\ l = evs /\ exists q, s' = set_pl q s)).
  { subst evs len. destruct s as [[]]. cbn in Hr, Hl, Hld, Hn, Ht. unfold exec_loop.
    wp_step. wp_step. wp_step. wp_rule wp_vla; [lia|]. intros b Rb.
    wp_step. wp_step. wp_step. wp_rule wp_copy_out_in; [lia|cbn; lia|].
    rewrite Z2Nat.id by lia. apply wp_assoc. wp_step.
    wp_rule wp_message_buffer; [done|lia|rewrite length_map, length_seqZ; lia|done|].
    intros q b' Rq Tq Mb. wp_step. wp_step. wp_step. wp_step. wp_simpl.
    match goal with |- wp _ _ (mk_lses ?c ?t0 ?t1 ?t2 ?t3 ?pc ?pn ?ld ?ll ?nm ?tb ?cv ?sn ?bl _) _ =>
      set (st := mk_lses c t0 t1 t2 t3 pc pn ld ll nm tb cv sn bl) end.
    eapply wp_mono; [apply (wp_loop_n timed _ (map (EvOob ARead "data")
        (seqZ loop_data_length (MAX_DATA_LEN - loop_data_length)) ++
        SEND (command_bytes (peek (static_buf loop_data)) loop_data_length pl) MAX_DATA_LEN ++
        [EvSleep (time_between_msgs * 1000)])
      (fun s' => exists q, ready ch q /\ s' = st q) number_of_messages)|].
    - intros i ? Hi (q' & Rq' & ->). subst st. wp_step. wp_step.
      destruct (Z.ltb_spec i number_of_messages); [|lia].
      wp_step. wp_step. wp_step. wp_step. wp_step. wp_step. wp_step.
      change (K_SECONDS time_between_msgs) with (K_MSEC (time_between_msgs * 1000)).
      wp_step. wp_step.
      rewrite (oobs_past _ _ b' loop_data_length) by (apply Mb || (unfold MAX_DATA_LEN in *; lia)).
      rewrite (message_buffer_bytes _ _ _ _ Hl Mb), command_bytes_copied, Z.max_l by lia.
      split; [done|]. split; [|by eexists]. unfold u16. by rewrite Z.mod_small by lia.
    - intros ? (q' & Rq' & ->). subst st. wp_step. wp_step. rewrite Z.ltb_irrefl. wp_step.
      split; [done|]. split; [done|]. by eexists.
    - lia.
    - lia.
    - by exists q.
    - intros l [] s' (-> & q' & _ & ->). split; [done|]. split; [done|]. by exists q'. }
  destruct W as (l & [] & s' & E & T & _ & -> & Hs'). by exists s'.
Qed.

Lemma exec_loop_sends_witness :
  let s := set_time_between_msgs 2 (set_number_of_messages 3
    (set_loop_data (104 :: 105 :: replicate 253 0) 2 (demo_lses (demo_plat 0 [])))) in
  exists s', exec_loop s = (Done tt, s') /\ (exists q, s' = set_pl q s) /\
    timed (EvOob AWrite "data" 2 ::
      concat (replicate 3 (map (EvOob ARead "data") (seqZ 2 (MAX_DATA_LEN - 2)) ++
         SEND (command_bytes (peek (static_buf (loop_data s))) 2 (pl s)) MAX_DATA_LEN ++
         [EvSleep (2 * 1000)]))) (pl s) (pl s').
Proof.
  apply (exec_loop_sends SX127X (set_time_between_msgs 2 (set_number_of_messages 3
    (set_loop_data (104 :: 105 :: replicate 253 0) 2 (demo_lses (demo_plat 0 [])))))
    (demo_ready _ _)); by vm_compute.
Defined.

(** ** Experiment threads

    Experiments run alternately on two stacks. [slot n] is the thread of
    stack [n]. *)
Definition slot (n : Z) : nat := if n =? 0 then thread_data1 else thread_data3.

(** The thread variables name the thread objects, and a live thread has its
    variable set. *)
Record tids_ok (s : lses) : Prop := {
  tid1 : thread1_tid s = Some thread_data1 \/
         thread1_tid s = None /\ threads (pl s) !! thread_data1 = None;
  tid3 : thread3_tid s = Some thread_data3 \/
         thread3_tid s = None /\ threads (pl s) !! thread_data3 = None }.

(** The initial configuration fits the tables. *)
Definition vals_ok (v : list Z) : Prop := length v = 5%nat /\ 0 <= peek (static_buf v) 0 < 8.

Lemma vals_oobs v : vals_ok v -> config_oobs "config_vals" (static_buf v) = [].
Proof.
  intros [Hl H8]. unfold config_oobs, oob.
  assert (Hi : forall i, 0 <= i < 5 -> in_bounds (static_buf v) i = true).
  { intros i Hi. apply in_bounds_spec. cbn. lia. }
  by rewrite frequencies_in, !Hi by lia.
Qed.

(** Aborting a thread through its variable. *)
Lemma wp_abort_tid ch (o : option nat) t s (Φ : list event -> unit -> lses -> Prop) :
  ready ch (pl s) -> t <> cur (pl s) -> o = Some t \/ o = None /\ threads (pl s) !! t = None ->
  (forall q, ready ch q -> acted (abort_events t (pl s)) (pl s) q ->
     threads q = delete t (threads (pl s)) -> Φ (abort_events t (pl s)) tt (set_pl q s)) ->
  wp acted (abort_tid o) s Φ.
Proof.
  intros Hr Hne Ho HΦ. unfold abort_tid. destruct Ho as [->|[-> Hn]]; [by apply (wp_abort ch)|].
  wp_rule wp_ret. assert (E : abort_events t (pl s) = []) by (unfold abort_events; by rewrite Hn).
  rewrite E in HΦ. replace s with (set_pl (pl s) s) by (by destruct s).
  apply HΦ; [done|apply (rr_refl (R := acted))|]. by rewrite delete_id.
Qed.

(** Starting the thread of the other stack. *)
Lemma wp_restart ch o t s (Φ : list event -> nat -> lses -> Prop) :
  ready ch (pl s) -> t <> cur (pl s) -> o = Some t \/ o = None /\ threads (pl s) !! t = None ->
  (forall q, ready ch q -> acted (abort_events t (pl s) ++ [EvCreate t]) (pl s) q ->
     threads q = <[t := E_exec_experiment]> (threads (pl s)) ->
     Φ (abort_events t (pl s) ++ [EvCreate t]) t (set_pl q s)) ->
  wp acted (abort_tid o;; io (k_thread_create t E_exec_experiment)) s Φ.
Proof.
  intros Hr Hne Ho HΦ. wp_rule wp_bind. eapply (wp_abort_tid ch _ t); [done..|].
  intros q Rq Aq Tq. eapply (wp_create ch); [done|cbn; rewrite Tq; by simplify_map_eq|].
  intros q' Rq' Aq' Tq'. cbn. apply (HΦ q'); [done|by eapply (rr_trans (R := acted))|].
  rewrite Tq'. cbn. by rewrite Tq, insert_delete_eq.
Qed.

(** The end of an experiment on the thread of the current stack number. *)
Lemma reprepare_run ch s :
  ready ch (pl s) -> tids_ok s -> vals_ok (config_vals s) ->
  stack_number s = 0 \/ stack_number s = 1 -> cur (pl s) = slot (stack_number s) ->
  let next := slot (1 - stack_number s) in
  let cfg := selected (static_buf (config_vals s)) false in
  exists s', exec_reprepare s = (Done tt, s') /\
    stack_number s' = 1 - stack_number s /\ config s' = cfg /\
    threads (pl s') = <[next := E_exec_experiment]> (threads (pl s)) /\
    cur (pl s') = cur (pl s) /\ tids_ok s' /\
    acted (CONFIG cfg ++ abort_events next (pl s) ++ [EvCreate next]) (pl s) (pl s').
Proof.
  intros Hr [H1 H3] Hv Hsn Hcur next cfg. pose proof (vals_oobs _ Hv) as Ho.
  assert (W : wp acted exec_reprepare s (fun l _ s' => stack_number s' = 1 - stack_number s /\
    config s' = cfg /\ threads (pl s') = <[next := E_exec_experiment]> (threads (pl s)) /\
    tids_ok s' /\ l = CONFIG cfg ++ abort_events next (pl s) ++ [EvCreate next])).
  { subst cfg next. destruct s as [[]].
    lses_simpl.
    unfold exec_reprepare. wp_step. wp_step. wp_step.
    eapply (wp_change_config acted); [done|apply Hv|]. rewrite Ho. intros q Rq Tq.
    pose proof (timed_threads _ _ _ Tq) as Hth. pose proof (timed_cur _ _ _ Tq) as Hc.
    lses_simpl. wp_step. wp_step.
    destruct Hsn as [-> | ->]; cbn [Z.eqb]; wp_step; wp_step; wp_step; wp_step; apply wp_assoc; wp_step.
    - eapply (wp_restart ch _ thread_data3); [wp_ready|lses_simpl; by rewrite Hc, Hcur|lses_simpl; by rewrite Hth|].
      intros q2 R2 A2 T2. wp_step. unfold abort_events in *. lses_simpl. rewrite Hth in *.
      cbn [app]. rewrite app_nil_r. split_and!; try done. split; cbn; [|by left].
      rewrite T2. destruct H1 as [H1|[? H1]]; [by left|right]. split; [done|]. by simplify_map_eq.
    - eapply (wp_restart ch _ thread_data1); [wp_ready|lses_simpl; by rewrite Hc, Hcur|lses_simpl; by rewrite Hth|].
      intros q2 R2 A2 T2. wp_step. unfold abort_events in *. lses_simpl. rewrite Hth in *.
      cbn [app]. rewrite app_nil_r. split_and!; try done. split; cbn; [by left|].
      rewrite T2. destruct H3 as [H3|[? H3]]; [by left|right]. split; [done|]. by simplify_map_eq. }
  destruct W as (l & [] & s' & E & A & Hsn' & Hc' & Ht' & Hi' & ->). exists s'.
  split_and!; try done. apply (acted_cur _ _ _ A).
Qed.

(** The end of an experiment that runs on the thread
    of the current stack number: the radio is set back to the initial
    configuration for receiving, the stack number changes, and the thread of
    the other stack is started to wait for the next experiment, an old
    thread there being aborted first. The running thread is left to finish. *)
Theorem reprepare_hands_over ch s :
  ready ch (pl s) -> tids_ok s -> vals_ok (config_vals s) ->
  stack_number s = 0 \/ stack_number s = 1 -> cur (pl s) = slot (stack_number s) ->
  let next := slot (1 - stack_number s) in
  let cfg := selected (static_buf (config_vals s)) false in
  exists s', exec_reprepare s = (Done tt, s') /\
    stack_number s' = 1 - stack_number s /\ config s' = cfg /\
    threads (pl s') = <[next := E_exec_experiment]> (threads (pl s)) /\
    cur (pl s') = cur (pl s) /\ tids_ok s' /\
    acted (CONFIG cfg ++ abort_events next (pl s) ++ [EvCreate next]) (pl s) (pl s').
Proof. apply reprepare_run. Qed.

(** A sender whose first experiment thread is running. *)
Definition demo_running (t : nat) : lses :=
  demo_lses (set_cur t (set_threads {[ t := E_exec_experiment ]} (demo_plat 0 []))).

Lemma reprepare_hands_over_witness :
  let s := demo_running thread_data1 in
  let cfg := selected (static_buf [0; 0; 0; 0; 7]) false in
  exists s', exec_reprepare s = (Done tt, s') /\
    stack_number s' = 1 - 0 /\ config s' = cfg /\
    threads (pl s') = <[thread_data3 := E_exec_experiment]> (threads (pl s)) /\
    cur (pl s') = thread_data1 /\ tids_ok s' /\
    acted (CONFIG cfg ++ abort_events thread_data3 (pl s) ++ [EvCreate thread_data3]) (pl s) (pl s').
Proof.
  apply (reprepare_hands_over SX127X (demo_running thread_data1)).
  - apply ready_cur, ready_threads, demo_ready.
  - split; [by left|]. right. split; [done|]. by vm_compute.
  - split; by vm_compute.
  - by left.
  - done.
Defined.

(** [prepare_sender_cb] with an initial configuration of five bytes. *)
Lemma prepare_run ch buf s :
  ready ch (pl s) -> tids_ok s -> csize buf = 5 -> length (config_vals s) = 5%nat ->
  0 <= peek buf 0 < 8 -> cur (pl s) <> thread_data1 -> cur (pl s) <> thread_data3 ->
  let v := map (peek buf) (seqZ 0 5) in
  exists s', prepare_sender_cb buf 5 s = (Done 0, s') /\
    threads (pl s') = <[thread_data1 := E_exec_experiment]>
      (delete thread_data1 (delete thread_data3 (threads (pl s)))) /\
    config_vals s' = v /\ config s' = selected (static_buf v) false /\
    stack_number s' = stack_number s /\ thread1_tid s' = Some thread_data1 /\
    thread3_tid s' = thread3_tid s /\ ready ch (pl s') /\
    acted (abort_events thread_data3 (pl s) ++ abort_events thread_data1 (pl s) ++
      CONFIG (selected (static_buf v) false) ++ [EvNotify [254]; EvCreate thread_data1]) (pl s) (pl s').
Proof.
  intros Hr [H1 H3] Hb Hl H8 Hc1 Hc3 v.
  match goal with |- exists s', _ /\ _ /\ _ /\ _ /\ _ /\ _ /\ _ /\ _ /\ acted ?k _ _ => set (evs := k) end.
  assert (W : wp acted (prepare_sender_cb buf 5) s (fun l a s' => a = 0 /\ l = evs /\
    threads (pl s') = <[thread_data1 := E_exec_experiment]>
      (delete thread_data1 (delete thread_data3 (threads (pl s)))) /\
    config_vals s' = v /\ config s' = selected (static_buf v) false /\
    stack_number s' = stack_number s /\ thread1_tid s' = Some thread_data1 /\
    thread3_tid s' = thread3_tid s /\ ready ch (pl s'))).
  { subst evs. destruct s as [[]]. lses_simpl. unfold prepare_sender_cb. wp_step. wp_step. wp_step.
    eapply (wp_abort_tid ch _ thread_data3); [wp_ready|done|done|]. intros q1 R1 A1 T1. lses_simpl.
    wp_step. wp_step. wp_step.
    eapply (wp_abort_tid ch _ thread_data1); [wp_ready|by lses_simpl; rewrite (acted_cur _ _ _ A1)| |].
    { lses_simpl. rewrite T1. destruct H1 as [?|[? ?]]; [by left|right]. by simplify_map_eq. }
    intros q2 R2 A2 T2. lses_simpl. wp_step. wp_step. destruct (Z.eqb_spec 5 1); [lia|]. wp_step. wp_step. wp_step.
    wp_rule wp_copy_out_in; [lia|cbn; lia|]. wp_step.
    wp_rule wp_copy_in; [wp_ready|lia|]. intros q3 b Rq3 Tq3 Cb Lb Pb.
    assert (Hlen : length (map (peek buf) (seqZ 0 (Z.of_nat (Z.to_nat 5)))) = 5%nat) by done.
    rewrite Hlen in *. rewrite oobs_nil in * by (cbn; lia).
    assert (Hv : cmem b = v).
    { apply cmem_eq; [cbn in Lb; by rewrite Lb, Hl|]. intros j Hj.
      rewrite Pb by (cbn; rewrite Hl; apply Hj). rewrite Z.sub_0_r.
      destruct (Z.leb_spec 0 j), (Z.ltb_spec j (0 + Z.of_nat 5)); try done;
        change (length v) with 5%nat in Hj; lia. }
    rewrite Hv. wp_step. wp_step. wp_step. wp_step. wp_step.
    eapply (wp_change_config acted); [wp_ready|apply H8|]. intros q4 R4 T4.
    rewrite (vals_oobs v) in * by (split; [done|apply H8]).
    wp_step. eapply (wp_notify acted); [wp_ready|]. intros q5 R5 T5. wp_step.
    pose proof (timed_threads _ _ _ Tq3). pose proof (timed_threads _ _ _ T4).
    pose proof (timed_threads _ _ _ T5). lses_simpl.
    assert (Ht : threads q5 = delete thread_data1 (delete thread_data3 (threads pl))) by congruence.
    eapply (wp_create ch); [wp_ready|lses_simpl; rewrite Ht; by simplify_map_eq|].
    intros q6 R6 A6 T6. wp_step. wp_step. wp_step. lses_simpl.
    assert (Ha : abort_events thread_data1 q1 = abort_events thread_data1 pl)
      by (unfold abort_events; rewrite T1; by simplify_map_eq).
    rewrite Ha. cbn [app]. split_and!; try done. by rewrite T6, Ht. }
  destruct W as (l & a & s' & E & A & -> & -> & HW). exists s'. destruct_and! HW. by split_and!.
Qed.

(** Preparing the sender does not reset the stack
    number. When it is 1, because an odd number of experiments has run, the
    prepared thread ends its experiment by aborting itself: it never starts
    a thread for the next experiment, and none is left running. *)
Theorem prepared_again_is_lost ch buf s :
  ready ch (pl s) -> tids_ok s -> csize buf = 5 -> length (config_vals s) = 5%nat ->
  0 <= peek buf 0 < 8 -> cur (pl s) <> thread_data1 -> cur (pl s) <> thread_data3 ->
  stack_number s = 1 ->
  exists s1 s2, prepare_sender_cb buf 5 s = (Done 0, s1) /\
    z_thread_entry thread_data1 exec_reprepare s1 = (Stop SelfAborted, s2) /\
    threads (pl s2) !! thread_data1 = None /\ threads (pl s2) !! thread_data3 = None.
Proof.
  intros Hr Ht Hb Hl H8 Hc1 Hc3 Hsn.
  destruct (prepare_run ch buf s Hr Ht Hb Hl H8 Hc1 Hc3)
    as (s1 & E1 & T1 & V1 & C1 & N1 & I1 & _ & R1 & _).
  exists s1. unfold z_thread_entry.
  set (s1' := set_pl (set_cur thread_data1 (pl s1)) s1).
  destruct (change_config_timed ch "config_vals" (static_buf (config_vals s1)) false s1')
    as (l & [] & s2 & E2 & T2 & _ & _ & q & ->).
  { by apply ready_cur. } { rewrite V1. apply H8. }
  pose proof (timed_threads _ _ _ T2) as Hth. pose proof (timed_cur _ _ _ T2) as Hcu.
  cbn in Hth, Hcu.
  eexists. split; [done|]. split.
  - rewrite (bind_done _ _ _ tt s1') by done. apply bind_stop.
    unfold exec_reprepare. rewrite bind_gets. change (config_vals s1') with (config_vals s1).
    rewrite (bind_done _ _ _ _ _ E2), bind_gets.
    change (stack_number (set_pl q _)) with (stack_number s1). rewrite N1, Hsn. cbn [Z.eqb Pos.eqb].
    rewrite bind_modify, bind_gets. cbn [thread1_tid set_stack_number set_pl set_config].
    change (thread1_tid s1') with (thread1_tid s1). rewrite I1. cbn [abort_tid].
    apply bind_stop. unfold liftp, k_thread_abort. cbn -[lookup delete]. rewrite Hth, T1.
    rewrite lookup_insert_eq, Hcu, decide_True by done. reflexivity.
  - cbn -[lookup delete]. split; by simplify_map_eq.
Qed.

Lemma prepared_again_is_lost_witness :
  exists s1 s2, prepare_sender_cb (static_buf [0; 0; 0; 0; 7]) 5
      (set_stack_number 1 (demo_lses (set_threads {[ thread_data1 := E_exec_experiment ]} (demo_plat 0 []))))
      = (Done 0, s1) /\
    z_thread_entry thread_data1 exec_reprepare s1 = (Stop SelfAborted, s2) /\
    threads (pl s2) !! thread_data1 = None /\ threads (pl s2) !! thread_data3 = None.
Proof.
  apply (prepared_again_is_lost SX127X (static_buf [0; 0; 0; 0; 7]) (set_stack_number 1
    (demo_lses (set_threads {[ thread_data1 := E_exec_experiment ]} (demo_plat 0 []))))).
  - apply ready_threads, demo_ready.
  - split; [by left|]. right. split; [done|]. by vm_compute.
  - done.
  - done.
  - by vm_compute.
  - done.
  - done.
  - done.
Defined.
