(* ===== verification/LsesExperiment.v ===== *)
(** * A whole experiment on the sender

    From the settings packet to the hand-over to the next experiment: the
    waiting loop, the acknowledgement and the start delay of
    [exec_experiment] (lses.c), then the measurement proper. *)
From S2P Require Import Prelude KSem Platform Sx12xx TimeOnAir CLib Plan Messages Runs Lses LsesSweep LsesControl.
From stdpp Require Import prelude list numbers strings gmap.
From Stdlib Require Import ZArith Lia.
Import WaitQ Sem.
Open Scope Z_scope.

(** ** The settings packet *)

(** Nine bytes of settings and the start delay as decimal digits, as the phone
    composes them. *)
Record settings_packet (hdr ds : list Z) : Prop := {
  sp_hdr : length hdr = 9%nat;
  sp_ds : (1 <= length ds <= 5)%nat;
  sp_digits : Forall (fun c => is_digit c = true) ds }.

(** The buffer [data] after the packet arrived: packet, then zeros. *)
Definition holds_packet (pkt : list Z) (data : cbuf) : Prop :=
  buf_wf MAX_DATA_LEN data /\ (length pkt <= 20)%nat /\
  forall i, 0 <= i < MAX_DATA_LEN -> peek data i = default 0 (pkt !! Z.to_nat i).

(** The bytes sent back as acknowledgement. *)
Definition ack (pkt : list Z) : list Z := pkt ++ replicate (20 - length pkt) 0.

Lemma holds_packet_bytes pkt data :
  holds_packet pkt data -> map (peek data) (seqZ 0 MAX_DATA_LEN) = ack pkt.
Proof.
  intros (_ & Hl & Hp). apply list_eq_same_length with (n := 20%nat).
  - unfold ack. rewrite length_app, length_replicate. lia.
  - done.
  - intros i x y Hi Hx Hy. change (map (peek data) (seqZ 0 MAX_DATA_LEN)) with (peek data <$> seqZ 0 MAX_DATA_LEN) in Hx.
    rewrite list_lookup_fmap, lookup_seqZ_lt in Hx by (unfold MAX_DATA_LEN; lia).
    injection Hx as <-. rewrite Hp by (unfold MAX_DATA_LEN; lia).
    replace (Z.to_nat (0 + Z.of_nat i)) with i by lia. unfold ack in Hy.
    destruct (decide (i < length pkt)%nat) as [Hlt|Hge].
    + rewrite lookup_app_l in Hy by done. by rewrite Hy.
    + rewrite lookup_app_r in Hy by lia. rewrite lookup_ge_None_2 by lia.
      apply lookup_replicate in Hy as [-> _]. done.
Qed.

(** ** The start delay *)

Definition delay_of (ds : list Z) : Z := u16 (digits_value ds).

Section run.
Context (ch : lora_chip) (hdr ds : list Z).
Context (Hsp : settings_packet hdr ds).
Abbreviation pkt := (hdr ++ ds).
Abbreviation l := (9 + Z.of_nat (length ds)).

Lemma pkt_digit i : 0 <= i < Z.of_nat (length ds) -> pkt !! Z.to_nat (9 + i) = ds !! Z.to_nat i.
Proof.
  intros Hi. rewrite lookup_app_r by (rewrite (sp_hdr _ _ Hsp); lia).
  rewrite (sp_hdr _ _ Hsp). f_equal. lia.
Qed.

(** The digits end where the array ends; the byte after it decides whether
    [atoi] stops there. *)
Lemma wp_read_delay R `{RunRel R} data s (Φ : list event -> Z -> lses -> Prop) :
  ready ch (pl s) -> holds_packet pkt data ->
  is_digit (u8 (stale (pl s) (length ds))) = false ->
  (forall q, ready ch q -> timed [EvOob ARead "delay" (l - 9)] (pl s) q ->
     Φ [EvOob ARead "delay" (l - 9)] (delay_of ds) (set_pl q s)) ->
  wp R (read_delay data l) s Φ.
Proof.
  intros Hr (Wd & Hl & Pd) Hst HΦ. destruct (sp_ds _ _ Hsp) as [Hd1 Hd5].
  destruct s as [[]]. unfold read_delay. wp_step. wp_rule wp_vla; [lia|]. intros b (Cb & Lb & Pb).
  rewrite Z.max_l in Lb, Pb by lia. change (Z.of_nat stack_slack) with 32 in *.
  wp_step. wp_rule wp_copy_out_in; [lia|destruct Wd as [-> _]; unfold MAX_DATA_LEN; lia|].
  rewrite Z2Nat.id by lia. wp_step. wp_rule wp_copy_in; [wp_ready|lia|].
  intros q b' Rq Tq Cb' Lb' Pb'. rewrite length_map, length_seqZ in *.
  rewrite oobs_nil in * by lia. wp_step.
  assert (Hna : number_at b' 0 ds).
  { unfold number_at. split_and!; try lia; [intros E; rewrite E in Hd1; cbn in Hd1; lia|apply Hsp| |].
    - intros i Hi. rewrite Pb' by lia. rewrite Z.add_0_l, Z.sub_0_r.
      destruct (Z.leb_spec 0 i), (Z.ltb_spec i (0 + Z.of_nat (Z.to_nat (l - 9)))); try lia. cbn [andb].
      change (map (peek data) (seqZ 9 (l - 9))) with (peek data <$> seqZ 9 (l - 9)).
      rewrite list_lookup_fmap, lookup_seqZ_lt by lia. cbn [fmap option_fmap option_map default].
      rewrite Z2Nat.id by lia. cbn. rewrite Pd by (unfold MAX_DATA_LEN; lia). by rewrite pkt_digit by lia.
    - rewrite Pb' by lia. destruct (Z.ltb_spec (0 + Z.of_nat (length ds)) (0 + Z.of_nat (Z.to_nat (l - 9)))); [lia|].
      rewrite andb_false_r, Pb by lia. by rewrite Z.add_0_l, Nat2Z.id. }
  pose proof (digits_value_bound ds (sp_digits _ _ Hsp)) as Hv.
  assert (Hv5 : 10 ^ Z.of_nat (length ds) <= 10 ^ 5) by (apply Z.pow_le_mono_r; lia).
  assert (Hend : in_bounds b' (0 + Z.of_nat (length ds)) = false).
  { destruct (in_bounds _ _) eqn:E; [|done]. apply in_bounds_spec in E. lia. }
  eapply wp_lift; [by apply atoi_digits| |].
  { apply rr_timed. unfold read_end. rewrite Hend. by apply timed_emit. }
  unfold read_end. rewrite Hend. wp_step. rewrite Z.min_r by (unfold INT_MAX; lia).
  cbn [app]. replace (0 + Z.of_nat (length ds)) with (l - 9) by lia.
  apply HΦ; [by apply ready_emit|].
  apply (timed_trans [] [_] _ q); [done|by apply timed_emit].
Qed.

(** ** Waiting for the settings *)

Lemma wp_wait_start R `{RunRel R} `{!RecvRel R} fuel s l1 t rs sn l2 data
    (Φ : list event -> cbuf * Z -> lses -> Prop) :
  ready ch (pl s) -> count (data_sem (dev (pl s))) = 0 -> blank MAX_DATA_LEN data ->
  peek (static_buf pkt) 0 <> 33 ->
  pending (pl s) = l1 ++ (t, IrqRxDone pkt rs sn) :: l2 ->
  Forall (fun e => is_rx e.2 = false) l1 -> Forall (fun e => e.1 <= t) l1 -> now (pl s) <= t ->
  (forall q data', ready ch q -> ran RECV (pl s) q -> now q = t -> pending q = l2 ->
     count (data_sem (dev q)) = 0 -> holds_packet pkt data' -> Φ RECV (data', l) (set_pl q s)) ->
  wp R (exec_wait_start (S fuel) (Some ch) data) s Φ.
Proof.
  intros Hr Hc (Wd & Ld & Pd) H33 Hp Hl1 Ht1 Hn HΦ. destruct (sp_ds _ _ Hsp) as [Hd1 Hd5].
  pose proof (sp_hdr _ _ Hsp) as Hh. assert (Hlen : length pkt = (9 + length ds)%nat).
  { rewrite length_app. lia. }
  destruct s as [[]]. unfold exec_wait_start. cbn [loop]. wp_step. wp_step.
  eapply (wp_recv_packet R ch MAX_DATA_LEN K_FOREVER _ l1 t pkt rs sn l2);
    [wp_ready|unfold MAX_DATA_LEN; lia|done|rewrite Hlen; lia|by intros ms [=]|done..|].
  intros q Rq Tq Nq Pq Cq. wp_step. cbn [snd fst].
  rewrite (take_ge pkt) by (unfold MAX_DATA_LEN; lia).
  destruct Wd as [Wd1 Wd2]. unfold MAX_DATA_LEN in *.
  wp_rule wp_copy_in_in; [lia|lia|lia|]. intros data' Cd' Ld' Pd'.
  assert (Hd' : holds_packet pkt data').
  { unfold holds_packet, buf_wf, MAX_DATA_LEN. split; [lia|]. split; [lia|]. intros i Hi. rewrite Pd' by lia. rewrite Z.sub_0_r.
    destruct (Z.leb_spec 0 i), (Z.ltb_spec i (0 + Z.of_nat (length pkt))); try lia; cbn [andb]; [done|].
    rewrite Pd by (unfold MAX_DATA_LEN in *; lia). by rewrite lookup_ge_None_2 by lia. }
  wp_step. wp_rule wp_rd_in; [apply in_bounds_spec; lia|].
  assert (H0 : peek data' 0 <> 33).
  { destruct Hd' as (_ & _ & Hp'). rewrite Hp' by (unfold MAX_DATA_LEN; lia). done. }
  destruct (Z.eqb_spec (peek data' 0) 33); [done|]. wp_step. wp_step.
  replace (Z.min (Z.of_nat (length pkt)) 20) with l by lia. by apply HΦ.
Qed.

(** ** Acknowledgement and start delay *)

(** One round: parse the delay, acknowledge, and listen for the delay. *)
Definition handshake_events (cfg : lora_modem_config) : list event :=
  [EvOob ARead "delay" (l - 9)] ++ CONFIG (with_tx true cfg) ++ [EvSleep 200] ++
  SEND (ack pkt) MAX_DATA_LEN ++ CONFIG (with_tx false cfg).

Lemma handshake_duration sm cfg : duration sm (handshake_events cfg) = 200 + sm MAX_DATA_LEN.
Proof. cbn. lia. Qed.

Lemma wp_handshake R `{RunRel R} `{!RecvRel R} fuel data s (Φ : list event -> cbuf -> lses -> Prop) :
  ready ch (pl s) -> count (data_sem (dev (pl s))) = 0 -> holds_packet pkt data ->
  is_digit (u8 (stale (pl s) (length ds))) = false -> 0 < delay_of ds ->
  silent_until (now (pl s) + 200 + send_ms (pl s) MAX_DATA_LEN + delay_of ds * 1000) (pl s) ->
  (forall q, ready ch q ->
     now q = now (pl s) + 200 + send_ms (pl s) MAX_DATA_LEN + delay_of ds * 1000 ->
     ran (handshake_events (config s) ++ RECV) (pl s) q ->
     Φ (handshake_events (config s) ++ RECV) data (set_pl q (set_config (with_tx false (config s)) s))) ->
  wp R (exec_handshake (S fuel) (Some ch) data l) s Φ.
Proof.
  intros Hr Hc Hd Hst Hdel Hsil HΦ. destruct s as [[]]. lses_simpl.
  unfold exec_handshake. cbn [loop]. wp_step. wp_step. eapply (wp_read_delay R); [wp_ready|done|done|].
  intros q1 R1 T1. wp_step. eapply (wp_switch_tx R); [wp_ready|]. intros q2 R2 T2. wp_step. wp_step.
  wp_step. pose proof Hd as (Wd & _ & _). wp_rule wp_copy_out_in; [lia|destruct Wd as [-> _]; done|].
  rewrite Z2Nat.id by (unfold MAX_DATA_LEN; lia). rewrite (holds_packet_bytes _ _ Hd).
  wp_step. wp_step. wp_step. eapply (wp_switch_tx R); [wp_ready|]. intros q5 R5 T5. wp_step.
  lses_simpl.
  match goal with
  | Ha : timed [EvSleep _] _ ?qa, Hb : timed (SEND _ _) _ ?qb |- _ => rename Ha into T3, Hb into T4 end.
  lses_simpl. change (Z.max 200 0) with 200 in *.
  assert (T : timed (handshake_events (mk_config frequency bandwidth datarate coding_rate preamble_len tx_power tx)) pl q5).
  { eapply timed_trans; [exact T1|]. eapply timed_trans; [exact T2|]. eapply timed_trans; [exact T3|].
    by eapply timed_trans. }
  pose proof (timed_now _ _ _ T) as Hn. rewrite handshake_duration in Hn.
  destruct (timed_calm _ _ _ T (now q5 + delay_of ds * 1000)) as [Hdev Hs5]; [lia| |].
  { by rewrite Hn, !Z.add_assoc. }
  change (K_SECONDS (delay_of ds)) with (K_MSEC (delay_of ds * 1000)).
  wp_rule wp_recv_silence; [wp_ready|unfold MAX_DATA_LEN; lia|by cbn; rewrite Hdev|lia|done|].
  intros q6 R6 T6 N6. wp_step. cbn [snd fst]. wp_step.
  change (- EAGAIN <? 0) with true. cbn iota. wp_step. wp_step.
  lses_simpl. rewrite !app_nil_r. cbn [app]. apply HΦ; [done|lia|].
  eapply ran_trans; [apply T|done].
Qed.

End run.

Lemma combo_events_ext data data' pre c :
  (forall i, 0 <= i <= 2 -> peek data i = peek data' i) ->
  combo_events data pre c = combo_events data' pre c.
Proof.
  intros E. unfold combo_events, message_events. by rewrite (E 0), (E 1), (E 2) by lia.
Qed.

(** The measurement of the settings in a packet. *)
Definition measurement (pkt : list Z) (pre : Z) : list event :=
  let b := static_buf pkt in
  flat_map (combo_events b pre) (combos (peek b 4) (peek b 5) (peek b 6) (peek b 7) (peek b 8)).

Lemma measurement_data pkt data pre :
  holds_packet pkt data ->
  flat_map (combo_events data pre)
    (combos (peek data 4) (peek data 5) (peek data 6) (peek data 7) (peek data 8)) =
  measurement pkt pre.
Proof.
  intros (_ & _ & Hp). assert (E : forall i, 0 <= i < 20 -> peek data i = peek (static_buf pkt) i).
  { intros i Hi. rewrite Hp by done. unfold peek. by destruct (Z.ltb_spec i 0); [lia|]. }
  unfold measurement. rewrite !E by lia. apply flat_map_ext. intros c.
  apply combo_events_ext. intros i Hi. apply E. lia.
Qed.

Lemma wp_sweep R `{RunRel R} ch pkt data s (Φ : list event -> unit -> lses -> Prop) :
  holds_packet pkt data -> byte_ok (peek (static_buf pkt) 0) ->
  10 <= peek (static_buf pkt) 2 <= 255 -> ready ch (pl s) ->
  (forall q cfg, ready ch q -> timed (measurement pkt (preamble_len (config s))) (pl s) q ->
     Φ (measurement pkt (preamble_len (config s))) tt (set_pl q (set_config cfg s))) ->
  wp R (exec_sweep (Some ch) data) s Φ.
Proof.
  intros Hd H0 H2 Hr HΦ. pose proof Hd as (_ & _ & Hp).
  destruct (sweep_run ch data s) as (s' & E & T & R' & cfg & q & ->); [..|done|].
  - by rewrite Hp by (unfold MAX_DATA_LEN; lia).
  - by rewrite Hp by (unfold MAX_DATA_LEN; lia).
  - rewrite (measurement_data _ _ _ Hd) in T. eexists _, tt, _. split; [exact E|].
    split; [by apply rr_timed|]. by apply HΦ.
Qed.

Lemma wp_reprepare ch s (Φ : list event -> unit -> lses -> Prop) :
  ready ch (pl s) -> tids_ok s -> vals_ok (config_vals s) ->
  stack_number s = 0 \/ stack_number s = 1 -> cur (pl s) = slot (stack_number s) ->
  let next := slot (1 - stack_number s) in
  (forall s', stack_number s' = 1 - stack_number s ->
     threads (pl s') = <[next := E_exec_experiment]> (threads (pl s)) -> tids_ok s' ->
     Φ (CONFIG (selected (static_buf (config_vals s)) false) ++ abort_events next (pl s) ++
        [EvCreate next]) tt s') ->
  wp acted exec_reprepare s Φ.
Proof.
  intros Hr Ht Hv Hs Hc next HΦ.
  destruct (reprepare_run ch s Hr Ht Hv Hs Hc) as (s' & E & H1 & H2 & H3 & H4 & H5 & A).
  eexists _, tt, s'. split; [exact E|]. split; [exact A|]. by apply HΦ.
Qed.



(** ** Retransmissions *)

(** Any packet length: the delay is read somehow. *)
Lemma read_delay_total ch data l s :
  ready ch (pl s) ->
  wp waited (read_delay data l) s (fun _ d s' => 0 <= d /\ exists q, ready ch q /\ s' = set_pl q s).
Proof.
  intros Hr. destruct s as [[]]. unfold read_delay. wp_step. wp_rule wp_vla_any; [wp_ready|].
  intros ? b q1 R1 T1 _. wp_step. wp_step. wp_step. wp_rule wp_copy_in; [wp_ready|lia|].
  intros q3 b' R3 T3 _ _ _. wp_step. wp_step. wp_step.
  split; [apply Z.mod_pos_bound; lia|]. by eexists.
Qed.

(** Whatever packets arrive while the sender counts
    down the start delay, retransmitted settings or anything else of any
    length, the acknowledgement loop ends after at most one round per packet
    and one more: [fuel] rounds are enough as soon as fewer events are
    pending. The radio is left idle and [data] a buffer of 20 bytes. *)
Theorem handshake_terminates ch fuel data l s :
  ready ch (pl s) -> buf_wf MAX_DATA_LEN data -> backlog (pl s) < Z.of_nat fuel ->
  exists data' s', exec_handshake fuel (Some ch) data l s = (Done data', s') /\
    ready ch (pl s') /\ buf_wf MAX_DATA_LEN data'.
Proof.
  revert data l s. induction fuel as [|fuel IH]; intros data l s Hr Wd Hf.
  { unfold backlog in Hf. pose proof (inv_count _ (drv_sem _ (ready_drv _ _ Hr))). lia. }
  unfold exec_handshake. cbn [loop].
  match goal with |- context [mbind ?f ?m] => set (k := f); set (round := m) end.
  assert (W : wp waited round s (fun _ x s' => ready ch (pl s') /\
    match x with
    | inl (data', _) => buf_wf MAX_DATA_LEN data' /\ backlog (pl s') < backlog (pl s)
    | inr data' => buf_wf MAX_DATA_LEN data'
    end)).
  { subst round k. clear IH. destruct s as [[]]. wp_step.
    eapply wp_mono; [apply (wp_rel waited), (read_delay_total ch data l); wp_ready|].
    intros ev d ? [T1 (Hd & q1 & R1 & ->)]. wp_step. eapply (wp_switch_tx waited); [wp_ready|].
    intros q2 R2 T2. wp_step. wp_step. wp_step.
    wp_rule wp_copy_out_in; [lia|destruct Wd as [-> _]; unfold MAX_DATA_LEN; lia|].
    wp_step. wp_step. wp_step. eapply (wp_switch_tx waited); [wp_ready|]. intros q5 R5 T5.
    wp_step. change (K_SECONDS d) with (K_MSEC (d * 1000)).
    wp_rule wp_recv; [wp_ready|unfold MAX_DATA_LEN; lia| |].
    - intros q6 bytes rs sn R6 A6 L6 B6 _. wp_step. cbn [snd fst].
      destruct Wd as [Wd1 Wd2]. wp_rule wp_copy_in_in; [lia|lia|lia|]. intros data' C' L' _.
      destruct (Z.ltb_spec (Z.of_nat (length bytes)) 0); [lia|]. wp_step. split; [done|].
      split; [split; lia|]. lses_simpl. backlogs. lia.
    - intros q6 R6 A6 N6 B6. wp_step. cbn [snd fst]. wp_step.
      replace ((if Z.max (d * 1000) 0 =? 0 then - EBUSY else - EAGAIN) <? 0) with true
        by (by destruct (Z.max (d * 1000) 0 =? 0)).
      wp_step. done. }
  destruct W as (ev & x & s' & E & T & Hr' & Hx). rewrite (bind_done _ _ _ _ _ E). subst k. cbn beta.
  destruct x as [[data' l']|data']; [|by exists data', s'].
  destruct Hx as [Wd' Hb]. apply IH; [done|done|lia].
Qed.

Lemma handshake_terminates_witness :
  exists data' s', exec_handshake 3 (Some SX127X) demo_settings 11
      (demo_lses (demo_plat 0 [(250, IrqRxDone [1; 2; 3] (-70) 9)])) = (Done data', s') /\
    ready SX127X (pl s') /\ buf_wf MAX_DATA_LEN data'.
Proof.
  apply (handshake_terminates SX127X 3 demo_settings 11).
  - apply demo_ready.
  - split; by vm_compute.
  - by vm_compute.
Defined.
