(* ===== verification/Lres.v ===== *)
(** * The receiver service

    [subsys/bluetooth/services/lres.c]: the Bluetooth callbacks and thread
    functions of the device that receives. The static variables are the
    record [lres]; the experiment thread is cut at its loops, whose local
    variables are the record [locals]. Printing and logging are left out. *)
From S2P Require Import Prelude KSem Platform Sx12xx CLib.
From stdpp Require Import prelude list numbers strings gmap.
From Stdlib Require Import ZArith Lia.
Import WaitQ Sem.
Open Scope Z_scope.

Definition MAX_DATA_LEN : Z := 20.
Definition MAX_TRANSM_LEN : Z := 255.

(** ** State *)

(** The thread objects [thread_data0] .. [thread_data2]. *)
Definition thread_data0 : nat := 0.
Definition thread_data1 : nat := 1.
Definition thread_data2 : nat := 2.

Record lres := mk_lres {
  config : lora_modem_config;
  thread0_tid : option nat;
  thread1_tid : option nat;
  thread2_tid : option nat;
  experiment_data : list Z;
  exp_data_length : Z;
  reconnect : bool;
  lres_blsc : Z;
  pl : plat }.

Definition set_config (x : lora_modem_config) (s : lres) : lres :=
  mk_lres x (thread0_tid s) (thread1_tid s) (thread2_tid s) (experiment_data s)
    (exp_data_length s) (reconnect s) (lres_blsc s) (pl s).
Definition set_thread0_tid (x : option nat) (s : lres) : lres :=
  mk_lres (config s) x (thread1_tid s) (thread2_tid s) (experiment_data s)
    (exp_data_length s) (reconnect s) (lres_blsc s) (pl s).
Definition set_thread1_tid (x : option nat) (s : lres) : lres :=
  mk_lres (config s) (thread0_tid s) x (thread2_tid s) (experiment_data s)
    (exp_data_length s) (reconnect s) (lres_blsc s) (pl s).
Definition set_thread2_tid (x : option nat) (s : lres) : lres :=
  mk_lres (config s) (thread0_tid s) (thread1_tid s) x (experiment_data s)
    (exp_data_length s) (reconnect s) (lres_blsc s) (pl s).
Definition set_experiment_data (x : list Z) (s : lres) : lres :=
  mk_lres (config s) (thread0_tid s) (thread1_tid s) (thread2_tid s) x
    (exp_data_length s) (reconnect s) (lres_blsc s) (pl s).
Definition set_exp_data_length (x : Z) (s : lres) : lres :=
  mk_lres (config s) (thread0_tid s) (thread1_tid s) (thread2_tid s) (experiment_data s)
    x (reconnect s) (lres_blsc s) (pl s).
Definition set_reconnect (x : bool) (s : lres) : lres :=
  mk_lres (config s) (thread0_tid s) (thread1_tid s) (thread2_tid s) (experiment_data s)
    (exp_data_length s) x (lres_blsc s) (pl s).
Definition set_lres_blsc (x : Z) (s : lres) : lres :=
  mk_lres (config s) (thread0_tid s) (thread1_tid s) (thread2_tid s) (experiment_data s)
    (exp_data_length s) (reconnect s) x (pl s).
Definition set_pl (x : plat) (s : lres) : lres :=
  mk_lres (config s) (thread0_tid s) (thread1_tid s) (thread2_tid s) (experiment_data s)
    (exp_data_length s) (reconnect s) (lres_blsc s) x.

#[export] Instance lres_plat : PlatState lres.
Proof. refine {| plat_of := pl; set_plat := set_pl |}; [done|by intros []|done]. Defined.

Abbreviation io m := (liftp m).

(** ** Configuration and notification *)

(** [change_config]: as on the sender, with [lora_init] first. *)
Definition change_config (o : string) (pu : cbuf) (tx : bool) : M lres unit :=
  a ← io (rd o pu 0);
  f ← io (rd "frequencies" (static_buf frequencies) a);
  modify (fun s => set_config (with_frequency f (config s)) s);;
  b ← io (rd o pu 1);
  modify (fun s => set_config (with_bandwidth b (config s)) s);;
  c ← io (rd o pu 2);
  modify (fun s => set_config (with_datarate (c + 7) (config s)) s);;
  modify (fun s => set_config (with_preamble_len 8 (config s)) s);;
  d ← io (rd o pu 3);
  modify (fun s => set_config (with_coding_rate (d + 1) (config s)) s);;
  e ← io (rd o pu 4);
  modify (fun s => set_config (with_tx_power (s8 (18 - e * 2)) (config s)) s);;
  modify (fun s => set_config (with_tx tx (config s)) s);;
  lora_dev ← io device_get_binding;
  io (lora_init lora_dev);;
  cfg ← gets config;
  io (lora_config lora_dev cfg);;
  mret tt.

(** [bt_lres_notify]: RSSI, SNR and bit errors (0), a message (1), a status (2). *)
Definition bt_lres_notify (o : string) (data : cbuf) (type_of_notification : Z) : M lres Z :=
  bytes ← (if type_of_notification =? 0 then
             l ← io (copy_out o data 0 3); mret (u8 (-1) :: l)
           else if type_of_notification =? 1 then
             io (copy_out o data 0 (Z.to_nat MAX_DATA_LEN))
           else io (copy_out o data 0 1));
  io (log (EvNotify bytes));;
  rc ← gets (fun s => notify_rc (pl s) bytes);
  mret (if rc =? - ENOTCONN then 0 else rc).

(** [int8_t bt_data[1] = {v}; bt_lres_notify(bt_data, 2);] *)
Definition notify_status (v : Z) : M lres unit :=
  bt_lres_notify "bt_data" (static_buf [u8 v]) 2;; mret tt.

(** [config.tx = b; lora_config(lora_dev, &config);] *)
Definition switch_tx (lora_dev : option lora_chip) (b : bool) : M lres unit :=
  modify (fun s => set_config (with_tx b (config s)) s);;
  cfg ← gets config;
  io (lora_config lora_dev cfg);;
  mret tt.

(** [uint8_t ndata[3]] for a packet: the RSSI negated into a byte, SNR, bit errors. *)
Definition ndata (rssi snr errors : Z) : cbuf := static_buf [u8 (- rssi); u8 snr; u8 errors].

(** ** Explore mode *)

(** One round of [receive_lora]'s loop. *)
Definition receive_round (lora_dev : option lora_chip) (data : cbuf) : M lres cbuf :=
  res ← io (lora_recv lora_dev MAX_DATA_LEN K_FOREVER);
  '(data, rssi, snr) ←
    match res.2 with
    | Some (bytes, rssi, snr) => d ← io (copy_in "data" data 0 bytes); mret (d, rssi, snr)
    | None => mret (data, 0, 0)
    end;
  c ← io (rd "data" data 0);
  if c =? 38 then
    switch_tx lora_dev true;;
    bytes ← io (copy_out "data" data 0 (Z.to_nat res.1));
    io (lora_send lora_dev bytes res.1);;
    switch_tx lora_dev false;;
    mret data
  else
    bt_lres_notify "ndata" (ndata rssi snr (-1)) 0;;
    bt_lres_notify "data" data 1;;
    mret data.

(** [receive_lora]: [while (1)]. *)
Definition receive_lora (fuel : nat) : M lres unit :=
  lora_dev ← io device_get_binding;
  data ← io (zeroed MAX_DATA_LEN);
  loop fuel (fun data => d ← receive_round lora_dev data; mret (inl d)) data.

(** [if(t != NULL) k_thread_abort(t);] *)
Definition abort_tid (t : option nat) : M lres unit :=
  match t with Some t => io (k_thread_abort t) | None => mret tt end.

(** [change_config_cb]. *)
Definition change_config_cb (buf : cbuf) (len : Z) : M lres Z :=
  t ← gets thread0_tid; abort_tid t;;
  change_config "buf" buf false;;
  notify_status (-2);;
  t ← gets thread0_tid; abort_tid t;;
  t' ← io (k_thread_create thread_data0 E_receive_lora);
  modify (set_thread0_tid (Some t'));;
  mret 0.

(** ** Experiment mode *)

(** [exp_data] filled from [experiment_data]. *)
Definition load_settings : M lres cbuf :=
  len ← gets exp_data_length;
  exp_data ← io (vla len);
  ed ← gets experiment_data;
  for_st (range len) exp_data (fun i exp_data =>
    v ← io (rd "experiment_data" (static_buf ed) i);
    io (wr "exp_data" exp_data i v)).

(** Send the settings and wait for the acknowledgement: go on with what was
    received, or the acknowledgement's length. *)
Definition handshake_round (lora_dev : option lora_chip) (exp_data : cbuf) (len : Z) (data : cbuf)
  : M lres (cbuf + Z) :=
  bytes ← io (copy_out "exp_data" exp_data 0 (Z.to_nat len));
  io (lora_send lora_dev bytes len);;
  switch_tx lora_dev false;;
  res ← io (lora_recv lora_dev MAX_DATA_LEN (K_SECONDS 2));
  data ← match res.2 with
         | Some (bytes, _, _) => io (copy_in "data" data 0 bytes)
         | None => mret data
         end;
  if res.1 <? 0 then notify_status (-5);; mret (inl data)
  else
    sent ← io (copy_out "exp_data" exp_data 0 (Z.to_nat len));
    got ← io (copy_out "data" data 0 (Z.to_nat len));
    if memcmp_eq sent got then notify_status (-6);; mret (inr res.1)
    else mret (inl data).

Definition exec_handshake (fuel : nat) (lora_dev : option lora_chip) (exp_data data : cbuf) (len : Z)
  : M lres Z :=
  loop fuel (handshake_round lora_dev exp_data len) data.

(** [char delay[5]] filled from [exp_data[9]] on, and [atoi(delay)]. *)
Definition read_delay (exp_data : cbuf) (l : Z) : M lres Z :=
  delay ← io (vla 5);
  delay ← for_st (seqZ 9 (l - 9)) delay (fun i delay =>
            v ← io (rd "exp_data" exp_data i);
            io (wr "delay" delay (i - 9) v));
  d ← io (atoi "delay" delay 0);
  mret (u16 d).

(** The local variables that live across iterations. *)
Record locals := mk_locals {
  transmission_data : cbuf;
  compare_data : cbuf;
  first_iteration : bool;
  iteration : Z }.

Definition set_trans (b : cbuf) (x : locals) : locals :=
  mk_locals b (compare_data x) (first_iteration x) (iteration x).
Definition set_comp (b : cbuf) (x : locals) : locals :=
  mk_locals (transmission_data x) b (first_iteration x) (iteration x).

(** What message [msg_number] should contain, from the seventh byte on. *)
Definition expect (exp_data : cbuf) (msg_number : Z) (comp : cbuf) : M lres cbuf :=
  comp ← io (wr "compare_data" comp 6 (u8 (u8 msg_number `quot` 100 + 48)));
  comp ← io (wr "compare_data" comp 7 (u8 (u8 msg_number `quot` 10 + 48)));
  comp ← io (wr "compare_data" comp 8 (u8 (u8 msg_number `rem` 10 + 48)));
  d2 ← io (rd "exp_data" exp_data 2);
  comp ← for_st (seqZ 9 (d2 - 1 - 9)) comp (fun p comp =>
    v ← io (rd "random_d" (static_buf random_d) ((msg_number * (d2 - 9) + (p - 9)) `rem` 200));
    io (wr "compare_data" comp p v));
  io (wr "compare_data" comp (d2 - 1) 46).

(** Differing bits of two bytes, added to [bit_error_count]. *)
Definition count_bits (a b count : Z) : Z :=
  foldl (fun c i =>
    if Z.land (Z.shiftr a i) 1 =? Z.land (Z.shiftr b i) 1 then c else u8 (c + 1)) count (range 8).

(** Compare the first [n] bytes: [same_content] and [bit_error_count]. *)
Definition compare (comp trans : cbuf) (n : Z) : M lres (bool * Z) :=
  for_st (range n) (true, 0) (fun z '(same, count) =>
    a ← io (rd "compare_data" comp z);
    b ← io (rd "transmission_data" trans z);
    mret (if a =? b then (same, count) else (false, count_bits a b count))).

(** [x / (exp_data[1] * 1000)]. *)
Definition div_ms (x y : Z) : M lres Z :=
  if y =? 0 then io (log EvDivZero);; mret 0 else mret (x `quot` y).

(** A message was received: number it by the time, compare it, notify. *)
Definition evaluate (exp_data : cbuf) (d millis_total rssi snr : Z) (x : locals) : M lres locals :=
  d1 ← io (rd "exp_data" exp_data 1);
  q ← div_ms (if first_iteration x then millis_total - 1000 * d - 5000 else millis_total - 5000)
        (d1 * 1000);
  let msg_number := u16 q in
  comp ← expect exp_data msg_number (compare_data x);
  d2 ← io (rd "exp_data" exp_data 2);
  '(same_content, bit_error_count) ← compare comp (transmission_data x) d2;
  bt_lres_notify "ndata" (ndata rssi snr bit_error_count) 0;;
  t ← io (wr "transmission_data" (transmission_data x) 9 (if same_content : bool then 116 else 102));
  t ← io (wr "transmission_data" t 10 (iteration x));
  t ← io (wr "transmission_data" t 11 (u8 msg_number));
  t ← io (wr "transmission_data" t 12 46);
  bt_lres_notify "transmission_data" t 1;;
  mret (mk_locals t comp (first_iteration x) (iteration x)).

(** The body of the receive loop: wait for a message, account for the time it
    took, evaluate it. *)
Definition receive_one (lora_dev : option lora_chip) (exp_data : cbuf) (d : Z)
    (x : locals) (iteration_time time_stamp millis_total : Z) : M lres (locals * Z * Z * Z) :=
  res ← io (lora_recv lora_dev MAX_TRANSM_LEN (K_MSEC iteration_time));
  '(x, rssi, snr) ←
    match res.2 with
    | Some (bytes, rssi, snr) =>
        t ← io (copy_in "transmission_data" (transmission_data x) 0 bytes);
        mret (set_trans t x, rssi, snr)
    | None => mret (x, 0, 0)
    end;
  '(milliseconds_spent, _) ← io (k_uptime_delta time_stamp);
  time_stamp ← io k_uptime_get;
  let iteration_time := iteration_time - milliseconds_spent in
  let millis_total := millis_total + milliseconds_spent in
  x ← (if 0 <=? res.1 then evaluate exp_data d millis_total rssi snr x else mret x);
  mret (x, iteration_time, time_stamp, millis_total).

(** The receive loop of one iteration. Its state: local variables, remaining
    time, time stamp and total. *)
Definition receive_loop (fuel : nat) (lora_dev : option lora_chip) (exp_data : cbuf) (d : Z)
    (x : locals) (iteration_time time_stamp : Z) : M lres locals :=
  loop fuel (fun '(x, iteration_time, time_stamp, millis_total) =>
    if 0 <? iteration_time then
      y ← receive_one lora_dev exp_data d x iteration_time time_stamp millis_total;
      mret (inl y)
    else mret (inr x)) (x, iteration_time, time_stamp, 1000).

(** One combination of parameters. *)
Definition exec_combination (fuel : nat) (lora_dev : option lora_chip) (exp_data : cbuf) (d : Z)
    (x : locals) : M lres locals :=
  c ← gets config;
  io (lora_config lora_dev c);;
  time_stamp ← io k_uptime_get;
  d0 ← io (rd "exp_data" exp_data 0);
  d1 ← io (rd "exp_data" exp_data 1);
  let iteration_time := d0 * d1 * 1000 in
  let iteration_time := if first_iteration x then iteration_time + 1000 * d else iteration_time in
  let iteration_time := iteration_time + 5000 in
  x ← receive_loop fuel lora_dev exp_data d x iteration_time time_stamp;
  mret (mk_locals (transmission_data x) (compare_data x) false (u8 (iteration x + 1))).

(** The nested loops over the parameter masks [exp_data[4]] .. [exp_data[8]]. *)
Definition sweep_power (fuel : nat) (lora_dev : option lora_chip) (exp_data : cbuf) (d : Z)
    (x : locals) : M lres locals :=
  for_st (range 8) x (fun p x =>
    mask ← io (rd "exp_data" exp_data 8);
    if bit_set mask p then
      modify (fun s => set_config (with_tx_power (s8 (18 - p * 2)) (config s)) s);;
      c ← io (wr "compare_data" (compare_data x) 4 (u8 (p + 48)));
      exec_combination fuel lora_dev exp_data d (set_comp c x)
    else mret x).

Definition sweep_coding (fuel : nat) (lora_dev : option lora_chip) (exp_data : cbuf) (d : Z)
    (x : locals) : M lres locals :=
  for_st (range 4) x (fun m x =>
    mask ← io (rd "exp_data" exp_data 7);
    if bit_set mask m then
      modify (fun s => set_config (with_coding_rate (m + 1) (config s)) s);;
      c ← io (wr "compare_data" (compare_data x) 3 (u8 (m + 48)));
      sweep_power fuel lora_dev exp_data d (set_comp c x)
    else mret x).

Definition sweep_datarate (fuel : nat) (lora_dev : option lora_chip) (exp_data : cbuf) (d : Z)
    (x : locals) : M lres locals :=
  for_st (range 6) x (fun k x =>
    mask ← io (rd "exp_data" exp_data 6);
    if bit_set mask k then
      modify (fun s => set_config (with_datarate (k + 7) (config s)) s);;
      c ← io (wr "compare_data" (compare_data x) 2 (u8 (k + 48)));
      sweep_coding fuel lora_dev exp_data d (set_comp c x)
    else mret x).

Definition sweep_bandwidth (fuel : nat) (lora_dev : option lora_chip) (exp_data : cbuf) (d : Z)
    (x : locals) : M lres locals :=
  for_st (range 3) x (fun j x =>
    mask ← io (rd "exp_data" exp_data 5);
    if bit_set mask j then
      modify (fun s => set_config (with_bandwidth j (config s)) s);;
      c ← io (wr "compare_data" (compare_data x) 1 (u8 (j + 48)));
      sweep_datarate fuel lora_dev exp_data d (set_comp c x)
    else mret x).

Definition sweep_frequency (fuel : nat) (lora_dev : option lora_chip) (exp_data : cbuf) (d : Z)
    (x : locals) : M lres locals :=
  for_st (range 8) x (fun i x =>
    mask ← io (rd "exp_data" exp_data 4);
    if bit_set mask i then
      io (lora_init lora_dev);;
      f ← io (rd "frequencies" (static_buf frequencies) i);
      modify (fun s => set_config (with_frequency f (config s)) s);;
      c ← io (wr "compare_data" (compare_data x) 0 (u8 (i + 48)));
      sweep_bandwidth fuel lora_dev exp_data d (set_comp c x)
    else mret x).

(** From the acknowledgement on: wait out the reconnection at high power, then
    the measurement. *)
Definition exec_sweep (fuel : nat) (lora_dev : option lora_chip) (exp_data : cbuf) (d : Z)
  : M lres unit :=
  trans ← io (zeroed MAX_TRANSM_LEN);
  comp ← io (zeroed MAX_TRANSM_LEN);
  modify (fun s => set_config (with_tx false (config s)) s);;
  comp ← io (wr "compare_data" comp 5 95);
  sweep_frequency fuel lora_dev exp_data d (mk_locals trans comp true 0);;
  modify (set_reconnect false).

(** [exec_experiment]. *)
Definition exec_experiment (fuel : nat) : M lres unit :=
  len ← gets exp_data_length;
  exp_data ← load_settings;
  lora_dev ← io device_get_binding;
  data ← io (zeroed MAX_DATA_LEN);
  l ← exec_handshake fuel lora_dev exp_data data len;
  d ← read_delay exp_data l;
  power ← gets (fun s => tx_power (config s));
  d ← (if 10 <? power then
         io (k_sleep (K_MSEC 17000));;
         notify_status (-6);;
         mret (u16 (d - 17))
       else mret d);
  exec_sweep fuel lora_dev exp_data d.

(** [while(!bt_lres_connected) k_sleep(K_MSEC(300));] *)
Definition await_connection (fuel : nat) : M lres unit :=
  loop fuel (fun _ : unit =>
    b ← gets (fun s => bt_connected (pl s));
    if b : bool then mret (inr tt) else io (k_sleep (K_MSEC 300));; mret (inl tt)) tt.

(** [char ping[5] = {'!', 'p', 'i', 'n', 'g'};] *)
Definition ping : cbuf := static_buf [33; 112; 105; 110; 103].

(** [wait_for_ping_return]. *)
Definition wait_for_ping_return (fuel : nat) : M lres unit :=
  lora_dev ← io device_get_binding;
  bytes ← io (copy_out "ping" ping 0 5);
  io (lora_send lora_dev bytes 5);;
  switch_tx lora_dev false;;
  resp ← io (zeroed 5);
  res ← io (lora_recv lora_dev MAX_DATA_LEN (K_SECONDS 3));
  resp ← match res.2 with
         | Some (bytes, _, _) => io (copy_in "resp" resp 0 bytes)
         | None => mret resp
         end;
  power ← gets (fun s => tx_power (config s));
  (if 10 <? power then
     io (k_sleep (K_MSEC 5000));;
     await_connection fuel;;
     io (k_sleep (K_MSEC 5000))
   else mret tt);;
  (if res.1 <? 0 then notify_status (-7)
   else
     a ← io (copy_out "ping" ping 0 5);
     b ← io (copy_out "resp" resp 0 5);
     if memcmp_eq a b then notify_status (-3) else notify_status (-4));;
  switch_tx lora_dev true.

(** [experiment_settings_cb]. *)
Definition experiment_settings_cb (buf : cbuf) (len : Z) : M lres Z :=
  t ← gets thread0_tid; abort_tid t;;
  if len =? 5 then
    rec ← gets reconnect;
    (if rec : bool then mret tt else change_config "buf" buf true);;
    modify (set_reconnect true);;
    notify_status (-2);;
    mret 0
  else if len =? 1 then
    t ← gets thread2_tid; abort_tid t;;
    t' ← io (k_thread_create thread_data2 E_wait_for_ping_return);
    modify (set_thread2_tid (Some t'));;
    mret 0
  else
    modify (set_exp_data_length len);;
    ed ← gets experiment_data;
    ed ← for_st (range len) (static_buf ed) (fun i ed =>
           v ← io (rd "buf" buf i);
           io (wr "experiment_data" ed i v));
    modify (set_experiment_data (cmem ed));;
    t ← gets thread1_tid; abort_tid t;;
    t' ← io (k_thread_create thread_data1 E_exec_experiment);
    modify (set_thread1_tid (Some t'));;
    mret 0.

(** [lres_init] and [set_connected]. *)
Definition lres_init : M lres Z := modify (set_lres_blsc 1);; mret 0.
Definition set_connected (b : bool) : M lres unit :=
  modify (fun s => set_pl (Sx12xx.set_connected b (pl s)) s).
