(* ===== verification/LresEval.v ===== *)
(** * Evaluation of a received message

    What the receiver expects, how it counts bit errors, which number it gives
    a message, and what it reports to the phone (lres.c, [exec_experiment]). *)
From S2P Require Import Prelude KSem Platform Sx12xx CLib Plan Messages Runs Lres.
From stdpp Require Import prelude list numbers strings gmap.
From Stdlib Require Import ZArith Lia.
Import WaitQ Sem.
Open Scope Z_scope.

(** ** Bit errors *)

(** Bits in which two bytes differ. *)
Definition differ (a b i : Z) : bool := negb (Bool.eqb (Z.testbit a i) (Z.testbit b i)).
Definition hamming (a b : Z) : Z := Z.of_nat (length (List.filter (differ a b) (range 8))).

(** Bits in which the first [n] bytes of two memories differ. *)
Definition bit_errors (f g : Z -> Z) (n : Z) : Z :=
  foldr (fun z acc => hamming (f z) (g z) + acc) 0 (range n).

Lemma low_bit x i : 0 <= i -> Z.land (Z.shiftr x i) 1 = Z.b2z (Z.testbit x i).
Proof.
  intros Hi. change 1 with (Z.ones 1) at 1. rewrite Z.land_ones by lia.
  rewrite Z.shiftr_div_pow2 by lia. symmetry. by apply Z.testbit_spec'.
Qed.

Lemma u8_add x y : u8 (u8 x + y) = u8 (x + y).
Proof. unfold u8. by rewrite Zplus_mod_idemp_l. Qed.

Lemma count_bits_spec a b c : byte_ok c -> count_bits a b c = u8 (c + hamming a b).
Proof.
  unfold count_bits, hamming.
  assert (Hr : Forall (fun i => 0 <= i) (range 8)).
  { apply Forall_forall. intros i Hi%list_elem_of_In%range_spec. lia. }
  revert c. induction Hr as [|i l Hi Hr IH]; intros c Hc; cbn [foldl List.filter].
  - cbn. by rewrite Z.add_0_r, u8_id.
  - rewrite !low_bit by done. unfold differ at 1.
    destruct (Z.testbit a i), (Z.testbit b i); cbn -[u8]; rewrite IH by (done || apply u8_byte); [done| | |done].
    all: rewrite u8_add; f_equal; lia.
Qed.

Lemma hamming_same a : hamming a a = 0.
Proof.
  unfold hamming. assert (E : List.filter (differ a a) (range 8) = []); [|by rewrite E].
  induction (range 8) as [|i l IH]; [done|]. cbn. unfold differ at 1. by rewrite eqb_reflx.
Qed.

Lemma hamming_nonneg a b : 0 <= hamming a b.
Proof. unfold hamming. lia. Qed.

Lemma hamming_zero a b : byte_ok a -> byte_ok b -> hamming a b = 0 -> a = b.
Proof.
  intros Ha Hb Hh. apply Z.bits_inj'. intros i Hi. destruct (Z.ltb_spec i 8).
  - destruct (Bool.eqb_spec (Z.testbit a i) (Z.testbit b i)) as [|Hne]; [done|].
    assert (Hin : In i (List.filter (differ a b) (range 8))).
    { apply filter_In. split; [apply range_spec; lia|]. unfold differ.
      by destruct (Z.testbit a i), (Z.testbit b i). }
    unfold hamming in Hh. destruct (List.filter _ _); [done|]. cbn in Hh. lia.
  - unfold byte_ok in *. rewrite !Z.bits_above_log2; [done|lia| |lia|].
    + destruct (Z.eq_dec b 0) as [->|]; [cbn; lia|]. apply Z.log2_lt_pow2; [lia|].
      assert (2 ^ 8 <= 2 ^ i) by (apply Z.pow_le_mono_r; lia). lia.
    + destruct (Z.eq_dec a 0) as [->|]; [cbn; lia|]. apply Z.log2_lt_pow2; [lia|].
      assert (2 ^ 8 <= 2 ^ i) by (apply Z.pow_le_mono_r; lia). lia.
Qed.

(** ** Comparing a message with what was expected *)

Lemma compare_run comp trans n (s : lres) :
  n <= csize comp -> n <= csize trans ->
  compare comp trans n s =
    (Done (forallb (fun z => peek comp z =? peek trans z) (range n),
           u8 (bit_errors (peek comp) (peek trans) n)), s).
Proof.
  intros Hc Ht. unfold compare, bit_errors.
  assert (Hr : Forall (fun z => 0 <= z < n) (range n)).
  { apply Forall_forall. intros z Hz%list_elem_of_In%range_spec. lia. }
  assert (G : forall same c, byte_ok c ->
    for_st (range n) (same, c) (fun z '(same, count) =>
      a ← io (rd "compare_data" comp z); b ← io (rd "transmission_data" trans z);
      mret (if a =? b then (same, count) else (false, count_bits a b count))) s =
    (Done (same && forallb (fun z => peek comp z =? peek trans z) (range n),
           u8 (c + foldr (fun z acc => hamming (peek comp z) (peek trans z) + acc) 0 (range n))), s)).
  { induction Hr as [|z l Hz Hr IH]; intros same c Hcb; cbn [for_st forallb foldr].
    - by rewrite andb_true_r, Z.add_0_r, u8_id.
    - rewrite bind_assoc.
      rewrite (bind_done _ _ _ _ _ (liftp_rd _ comp z s ltac:(apply in_bounds_spec; lia))).
      rewrite bind_assoc.
      rewrite (bind_done _ _ _ _ _ (liftp_rd _ trans z s ltac:(apply in_bounds_spec; lia))).
      rewrite bind_ret. destruct (Z.eqb_spec (peek comp z) (peek trans z)) as [E|Hne].
      + rewrite IH by done. rewrite E, hamming_same. cbn [andb]. by rewrite Z.add_0_l.
      + rewrite count_bits_spec by done. rewrite IH by apply u8_byte. rewrite u8_add.
        cbn [andb]. rewrite andb_false_r. by rewrite Z.add_assoc. }
  rewrite (G true 0) by (unfold byte_ok; lia). by rewrite Z.add_0_l.
Qed.

Lemma bit_errors_same f g n : (forall z, 0 <= z < n -> f z = g z) -> bit_errors f g n = 0.
Proof.
  intros E. unfold bit_errors.
  assert (Hr : Forall (fun z => f z = g z) (range n)).
  { apply Forall_forall. intros z Hz%list_elem_of_In%range_spec. auto. }
  induction Hr as [|z l Hz Hr IH]; [done|]. cbn. by rewrite Hz, hamming_same, IH.
Qed.

Lemma bit_errors_ext f f' g n :
  (forall z, 0 <= z < n -> f z = f' z) -> bit_errors f g n = bit_errors f' g n.
Proof.
  intros E. unfold bit_errors.
  assert (Hr : Forall (fun z => f z = f' z) (range n)).
  { apply Forall_forall. intros z Hz%list_elem_of_In%range_spec. auto. }
  induction Hr as [|z l Hz Hr IH]; [done|]. cbn. by rewrite Hz, IH.
Qed.

Lemma bit_errors_zero f g n :
  (forall z, 0 <= z < n -> byte_ok (f z) /\ byte_ok (g z)) ->
  0 <= bit_errors f g n /\ (bit_errors f g n = 0 -> forall z, 0 <= z < n -> f z = g z).
Proof.
  intros Hb. unfold bit_errors.
  assert (Hr : Forall (fun z => byte_ok (f z) /\ byte_ok (g z)) (range n)).
  { apply Forall_forall. intros z Hz%list_elem_of_In%range_spec. auto. }
  assert (G : 0 <= foldr (fun z acc => hamming (f z) (g z) + acc) 0 (range n) /\
    (foldr (fun z acc => hamming (f z) (g z) + acc) 0 (range n) = 0 ->
     Forall (fun z => f z = g z) (range n))).
  { induction Hr as [|z l [Hf Hg] Hr [IH1 IH2]]; [done|]. cbn.
    pose proof (hamming_nonneg (f z) (g z)). split; [lia|]. intros E.
    constructor; [apply hamming_zero; [done..|lia]|apply IH2; lia]. }
  destruct G as [G1 G2]. split; [done|]. intros E z Hz. specialize (G2 E).
  rewrite Forall_forall in G2. apply G2. apply list_elem_of_In. by apply range_spec.
Qed.

(** The comparison of the first [n] bytes reports
    "same content" exactly when they are equal, and as bit errors exactly
    the number of differing bits modulo 256 (the counter is a byte). In
    particular, for messages of bytes, 0 errors with the same content, and a
    count of 0 for different content only when the true count is a positive
    multiple of 256. *)
Theorem compare_counts_errors comp trans n s :
  n <= csize comp -> n <= csize trans ->
  exists same errors, compare comp trans n s = (Done (same, errors), s) /\
    (same = true <-> forall z, 0 <= z < n -> peek comp z = peek trans z) /\
    errors = bit_errors (peek comp) (peek trans) n mod 256 /\
    (same = true -> errors = 0) /\
    ((forall z, 0 <= z < n -> byte_ok (peek comp z) /\ byte_ok (peek trans z)) ->
     same = false -> 0 < bit_errors (peek comp) (peek trans) n).
Proof.
  intros Hc Ht. eexists _, _. split; [by apply compare_run|].
  assert (Hs : forallb (fun z => peek comp z =? peek trans z) (range n) = true <->
    forall z, 0 <= z < n -> peek comp z = peek trans z).
  { rewrite forallb_forall. split.
    - intros H z Hz. apply Z.eqb_eq, H. by apply range_spec.
    - intros H z Hz. apply Z.eqb_eq, H. by apply range_spec. }
  split; [done|]. split; [done|]. split.
  - intros Hsame. by rewrite (bit_errors_same _ _ _ (proj1 Hs Hsame)).
  - intros Hb Hsame. destruct (bit_errors_zero _ _ _ Hb) as [H0 H1].
    destruct (Z.eq_dec (bit_errors (peek comp) (peek trans) n) 0) as [E|]; [|lia].
    rewrite (proj2 Hs (H1 E)) in Hsame. done.
Qed.

Lemma compare_counts_errors_witness :
  exists same errors, compare (static_buf [65; 66]) (static_buf [65; 64]) 2
      (mk_lres (mk_config 0 0 7 1 8 4 false) None None None [] 0 false 1 (demo_plat 0 [])) =
      (Done (same, errors), mk_lres (mk_config 0 0 7 1 8 4 false) None None None [] 0 false 1 (demo_plat 0 [])) /\
    same = false /\ errors = 1.
Proof.
  destruct (compare_counts_errors (static_buf [65; 66]) (static_buf [65; 64]) 2
    (mk_lres (mk_config 0 0 7 1 8 4 false) None None None [] 0 false 1 (demo_plat 0 [])))
    as (same & errors & E & Hs & He & _ & _); [by vm_compute..|].
  exists same, errors. split; [exact E|]. split; [|by rewrite He].
  destruct same; [|done]. by pose proof (proj1 Hs eq_refl 1 ltac:(lia)).
Defined.

(** ** What is expected *)

(** The expected content of message number [mn] of combination [c]: the number
    shows in the header as a byte. For a number below 256 this is the
    sender's message. *)
Definition expected (c : combo) (d2 mn : Z) : list Z := header c (u8 mn) ++ filler mn d2 ++ [46].

Lemma expected_message c d2 mn : 0 <= mn < 256 -> expected c d2 mn = message c d2 mn.
Proof. intros. unfold expected, message. by rewrite u8_id. Qed.

Lemma expect_run exp_data c mn comp (s : lres) :
  2 < csize exp_data -> 10 <= peek exp_data 2 <= 255 -> buf_wf MAX_TRANSM_LEN comp ->
  prefix_ok c comp -> 0 <= mn < 2 ^ 16 ->
  exists comp', expect exp_data mn comp s = (Done comp', s) /\ buf_wf MAX_TRANSM_LEN comp' /\
    prefix_ok c comp' /\
    map (peek comp') (seqZ 0 (peek exp_data 2)) = expected c (peek exp_data 2) mn.
Proof.
  intros He Hd Wc Pc Hm. unfold expect. set (d2 := peek exp_data 2) in *.
  pose proof (buf_wf_len _ _ Wc). unfold MAX_TRANSM_LEN in *.
  rewrite !(step_wr _ 255) by (repeat apply poke_wf; try done; lia).
  rewrite (bind_done _ _ _ _ _ (liftp_rd _ exp_data 2 s ltac:(apply in_bounds_spec; lia))). fold d2.
  set (c1 := poke _ 8 _).
  destruct (fill_spec "compare_data" mn d2 255 (seqZ 9 (d2 - 1 - 9)) c1 s) as (c2 & E2 & W2 & P2).
  { lia. } { by repeat apply poke_wf. } { lia. }
  { apply Forall_forall. intros j Hj%elem_of_seqZ. lia. }
  rewrite (bind_done _ _ _ _ _ E2).
  rewrite (liftp_wr _ c2 (d2 - 1) 46 s (in_bounds_wf 255 c2 (d2 - 1) W2 ltac:(lia))).
  exists (poke c2 (d2 - 1) 46). split; [done|]. split; [by apply poke_wf|]. split.
  - pose proof (buf_wf_len _ _ W2). apply prefix_ok_poke; [lia|].
    apply (prefix_ok_ext c c1); [|by repeat apply prefix_ok_poke; rewrite ?length_cmem_poke; try lia].
    intros j Hj. rewrite P2 by lia. apply decide_False. rewrite elem_of_seqZ. lia.
  - pose proof (u8_byte mn) as Hu. unfold byte_ok in Hu.
    by rewrite (message_bytes c (u8 mn) mn d2 255 comp c2) by (done || lia).
Qed.

(** ** The message number *)

(** The number the time of arrival gives a message. *)
Definition number_of (first : bool) (d d1 total : Z) : Z :=
  u16 ((if first then total - 1000 * d - 5000 else total - 5000) `quot` (d1 * 1000)).

Lemma number_of_range first d d1 total : 0 <= number_of first d d1 total < 2 ^ 16.
Proof. apply Z.mod_pos_bound. lia. Qed.

(** The receiver numbers a message by its time of
    arrival. If message [n] arrives [n * d1] seconds and [jitter] milliseconds
    after the five seconds (and, in the first combination, the start delay)
    of its combination, it gets its number [n] exactly when the jitter lies
    between 1 s early and [d1 - 1] seconds late: the counter starts one
    second ahead. *)
Theorem message_number_correct (first : bool) d d1 n jitter :
  0 < d1 -> 0 <= n < 256 -> -1000 <= jitter + n * d1 * 1000 -> jitter + n * d1 * 1000 < 255 * d1 * 1000 ->
  number_of first d d1 (1000 + ((if first then 1000 * d else 0) + 5000 + n * d1 * 1000 + jitter)) = n
  <-> -1000 <= jitter < (d1 - 1) * 1000.
Proof.
  intros Hd Hn Hj Hj2. unfold number_of.
  replace (if first then _ else _) with (1000 + (n * d1 * 1000 + jitter)) by (destruct first; lia).
  rewrite Z.quot_div_nonneg by nia. set (y := d1 * 1000).
  assert (Hy : 0 < y) by lia.
  pose proof (Z.div_mod (1000 + (n * d1 * 1000 + jitter)) y ltac:(lia)) as Hdm.
  pose proof (Z.mod_pos_bound (1000 + (n * d1 * 1000 + jitter)) y Hy) as Hmb.
  set (k := _ / y) in *. set (r := _ mod y) in *.
  assert (Hk : 0 <= k < 2 ^ 16) by (change (2 ^ 16) with 65536; nia).
  unfold u16. rewrite Z.mod_small by done. subst y. split; intros; nia.
Qed.

Lemma message_number_correct_witness :
  number_of true 10 2 (1000 + (1000 * 10 + 5000 + 3 * 2 * 1000 + -40)) = 3 <-> -1000 <= -40 < (2 - 1) * 1000.
Proof. apply (message_number_correct true 10 2 3 (-40)); lia. Defined.

(** ** The report *)

Ltac wp_norm s ::=
  eval lazy beta iota delta [plat_of set_plat lres_plat pl config set_pl set_config set_thread0_tid
    set_thread1_tid set_thread2_tid thread0_tid thread1_tid thread2_tid experiment_data
    set_experiment_data exp_data_length set_exp_data_length reconnect set_reconnect lres_blsc
    with_frequency with_bandwidth with_datarate with_coding_rate with_preamble_len
    with_tx_power with_tx frequency bandwidth datarate coding_rate preamble_len tx_power tx] in s.

Ltac wp_proj ::=
  cbn [pl config thread0_tid thread1_tid thread2_tid experiment_data exp_data_length reconnect
    lres_blsc].

Ltac lres_simpl :=
  cbn [pl config thread0_tid thread1_tid thread2_tid experiment_data exp_data_length reconnect
    lres_blsc set_pl plat_of lres_plat] in *.

(** The three kinds of notification, for a buffer that is long enough. *)
Lemma wp_lres_notify R `{RunRel R} ch o b t (s : lres) (Φ : list event -> Z -> lres -> Prop) :
  let n := if t =? 0 then 3 else if t =? 1 then 20 else 1 in
  let bytes := (if t =? 0 then [255] else []) ++ map (peek b) (seqZ 0 n) in
  ready ch (pl s) -> n <= csize b ->
  (forall q r, ready ch q -> timed [EvNotify bytes] (pl s) q -> Φ [EvNotify bytes] r (set_pl q s)) ->
  wp R (bt_lres_notify o b t) s Φ.
Proof.
  intros n bytes Hr Hn HΦ. destruct s as [[]]. unfold bt_lres_notify, bytes, n in *.
  destruct (t =? 0); [|destruct (t =? 1)]; cbv iota in Hn; wp_step.
  - wp_step. wp_rule wp_copy_out_in; [lia|cbn; lia|]. wp_step. wp_step. wp_step. wp_step. wp_step. wp_step.
    by apply HΦ.
  - wp_rule wp_copy_out_in; [lia|unfold MAX_DATA_LEN; lia|]. wp_step. wp_step. wp_step. wp_step. wp_step. by apply HΦ.
  - wp_rule wp_copy_out_in; [lia|cbn; lia|]. wp_step. wp_step. wp_step. wp_step. wp_step. by apply HΦ.
Qed.

(** The first 20 bytes of the message with the verdict, the number of the
    combination and of the message written over the header's end. *)
Definition report (same : bool) (it mn : Z) (trans : cbuf) : list Z :=
  map (peek trans) (seqZ 0 9) ++ [if same then 116 else 102; it; u8 mn; 46] ++
  map (peek trans) (seqZ 13 7).

Definition stamped (same : bool) (it mn : Z) (trans : cbuf) : cbuf :=
  poke (poke (poke (poke trans 9 (if same then 116 else 102)) 10 it) 11 (u8 mn)) 12 46.

Lemma stamped_report same it mn trans :
  buf_wf MAX_TRANSM_LEN trans -> map (peek (stamped same it mn trans)) (seqZ 0 20) = report same it mn trans.
Proof.
  intros W. pose proof (buf_wf_len _ _ W). unfold MAX_TRANSM_LEN, report, stamped in *.
  change (seqZ 0 20) with (seqZ 0 9 ++ [9; 10; 11; 12] ++ seqZ 13 7). rewrite !map_app.
  f_equal; [|f_equal].
  - apply map_ext_in. intros i Hi%list_elem_of_In%elem_of_seqZ.
    rewrite !peek_poke by (rewrite ?length_cmem_poke; lia).
    repeat match goal with |- context [?a =? i] => destruct (Z.eqb_spec a i); [lia|] end. done.
  - cbn [map]. rewrite !peek_poke by (rewrite ?length_cmem_poke; lia). done.
  - apply map_ext_in. intros i Hi%list_elem_of_In%elem_of_seqZ.
    rewrite !peek_poke by (rewrite ?length_cmem_poke; lia).
    repeat match goal with |- context [?a =? i] => destruct (Z.eqb_spec a i); [lia|] end. done.
Qed.

(** The buffers of the measurement, with the combination's header set. *)
Record locals_ok (c : combo) (x : locals) : Prop := {
  lo_trans : buf_wf MAX_TRANSM_LEN (transmission_data x);
  lo_comp : buf_wf MAX_TRANSM_LEN (compare_data x);
  lo_prefix : prefix_ok c (compare_data x) }.

(** Whether the message is the expected one, and its bit errors as reported. *)
Definition is_same (c : combo) (d2 mn : Z) (trans : cbuf) : bool :=
  bool_decide (map (peek trans) (seqZ 0 d2) = expected c d2 mn).
Definition errors_of (c : combo) (d2 mn : Z) (trans : cbuf) : Z :=
  u8 (bit_errors (fun z => default 0 (expected c d2 mn !! Z.to_nat z)) (peek trans) d2).

Definition report_events (c : combo) (d2 mn rssi snr it : Z) (trans : cbuf) : list event :=
  [EvNotify [255; u8 (- rssi); u8 snr; errors_of c d2 mn trans];
   EvNotify (report (is_same c d2 mn trans) it mn trans)].

Lemma compare_expected c d2 mn comp trans :
  0 <= d2 -> map (peek comp) (seqZ 0 d2) = expected c d2 mn ->
  forallb (fun z => peek comp z =? peek trans z) (range d2) = is_same c d2 mn trans /\
  u8 (bit_errors (peek comp) (peek trans) d2) = errors_of c d2 mn trans.
Proof.
  intros H2 Hm. assert (Hp : forall z, 0 <= z < d2 -> peek comp z = default 0 (expected c d2 mn !! Z.to_nat z)).
  { intros z Hz. rewrite <- Hm. change (map (peek comp) (seqZ 0 d2)) with (peek comp <$> seqZ 0 d2).
    rewrite list_lookup_fmap, lookup_seqZ_lt by lia. cbn. f_equal. lia. }
  split.
  - unfold is_same. rewrite <- Hm. apply eq_true_iff_eq. rewrite bool_decide_eq_true, forallb_forall.
    split; intros Ha.
    + apply map_ext_in. intros z Hz. symmetry. by apply Z.eqb_eq, Ha.
    + intros z Hz. apply Z.eqb_eq. symmetry. exact (ext_in_map Ha z Hz).
  - unfold errors_of. f_equal. by apply bit_errors_ext.
Qed.

(** After a message the buffers are ready for the next one. *)
Lemma stamped_wf same it mn trans :
  buf_wf MAX_TRANSM_LEN trans -> buf_wf MAX_TRANSM_LEN (stamped same it mn trans).
Proof. intros. by repeat apply poke_wf. Qed.

Lemma ndata_bytes rssi snr e :
  byte_ok e -> map (peek (ndata rssi snr e)) (seqZ 0 3) = [u8 (- rssi); u8 snr; e].
Proof. intros He. change (seqZ 0 3) with [0; 1; 2]. cbn -[u8]. by rewrite (u8_id e). Qed.

Lemma wp_div_ms R `{RunRel R} x y (s : lres) (Φ : list event -> Z -> lres -> Prop) :
  y <> 0 -> Φ [] (Z.quot x y) s -> wp R (div_ms x y) s Φ.
Proof. intros Hy HΦ. unfold div_ms. destruct (Z.eqb_spec y 0); [done|]. by wp_step. Qed.

Lemma wp_evaluate R `{RunRel R} ch exp_data c d total rssi snr x (s : lres)
    (Φ : list event -> locals -> lres -> Prop) :
  let d1 := peek exp_data 1 in let d2 := peek exp_data 2 in
  let mn := number_of (first_iteration x) d d1 total in
  let evs := report_events c d2 mn rssi snr (iteration x) (transmission_data x) in
  ready ch (pl s) -> 2 < csize exp_data -> d1 <> 0 -> 10 <= d2 <= 255 -> locals_ok c x ->
  (forall q x', ready ch q -> timed evs (pl s) q -> locals_ok c x' ->
     first_iteration x' = first_iteration x -> iteration x' = iteration x -> Φ evs x' (set_pl q s)) ->
  wp R (evaluate exp_data d total rssi snr x) s Φ.
Proof.
  intros d1 d2 mn evs Hr He H1 H2 [Wt Wc Pc] HΦ. destruct s as [[]].
  match goal with |- wp _ _ ?st _ => set (s := st) in * end.
  destruct (expect_run exp_data c mn (compare_data x) s) as (comp & Ec & Wc' & Pc' & Mc);
    [done|done|done|done|apply number_of_range|].
  destruct (compare_expected c d2 mn comp (transmission_data x) ltac:(lia) Mc) as [Es Ee].
  unfold evaluate. wp_step. wp_rule wp_rd_in; [apply in_bounds_spec; lia|]. fold d1. wp_step.
  wp_rule wp_div_ms; [lia|]. wp_step. fold (number_of (first_iteration x) d d1 total). fold mn.
  exists [], comp, s. split; [done|]. split; [apply rr_refl|].
  wp_step. wp_rule wp_rd_in; [apply in_bounds_spec; lia|]. fold d2. wp_step.
  assert (Ecmp : compare comp (transmission_data x) d2 s =
    (Done (is_same c d2 mn (transmission_data x), errors_of c d2 mn (transmission_data x)), s)).
  { rewrite compare_run; [by rewrite Es, Ee|..].
    - destruct Wc' as [-> _]. unfold MAX_TRANSM_LEN. lia.
    - destruct Wt as [-> _]. unfold MAX_TRANSM_LEN. lia. }
  eexists [], _, s. split; [exact Ecmp|]. split; [apply rr_refl|].
  wp_step. eapply (wp_lres_notify R ch); [done|by vm_compute|]. intros q r Rq Tq. subst s. lres_simpl.
  wp_step. wp_rule wp_wr_in; [by apply (in_bounds_wf MAX_TRANSM_LEN)|].
  wp_step. wp_rule wp_wr_in; [apply (in_bounds_wf MAX_TRANSM_LEN); [by apply poke_wf|done]|].
  wp_step. wp_rule wp_wr_in; [apply (in_bounds_wf MAX_TRANSM_LEN); [by repeat apply poke_wf|done]|].
  wp_step. wp_rule wp_wr_in; [apply (in_bounds_wf MAX_TRANSM_LEN); [by repeat apply poke_wf|done]|].
  fold (stamped (is_same c d2 mn (transmission_data x)) (iteration x) mn (transmission_data x)).
  pose proof (stamped_wf (is_same c d2 mn (transmission_data x)) (iteration x) mn _ Wt) as Ws.
  wp_step. eapply (wp_lres_notify R ch); [wp_ready|destruct Ws as [-> _]; done|]. intros q' r' Rq' Tq'.
  wp_step. cbn [Z.eqb Pos.eqb app] in *. rewrite stamped_report in * by done.
  assert (En : map (peek (ndata rssi snr (errors_of c d2 mn (transmission_data x)))) (seqZ 0 3) =
    [u8 (- rssi); u8 snr; errors_of c d2 mn (transmission_data x)]).
  { apply ndata_bytes, u8_byte. }
  rewrite En in *. apply HΦ; [done| |by split|done|done].
  by apply (timed_trans [_] [_] _ q).
Qed.

(** A received message of the combination [c] leads to
    exactly two notifications: RSSI and SNR with the bit errors against the
    message expected at this time, then the message's first 20 bytes with
    the verdict 't' or 'f', the combination's and the message's number in
    place of bytes 9 to 12. The verdict is 't' exactly when the message is
    the expected one; then the errors are 0. When the number is below 256,
    the expected message is the one the sender builds for it. *)
Theorem evaluate_reports ch exp_data c d total rssi snr x s :
  let d1 := peek exp_data 1 in let d2 := peek exp_data 2 in
  let mn := number_of (first_iteration x) d d1 total in
  let trans := transmission_data x in
  ready ch (pl s) -> 2 < csize exp_data -> d1 <> 0 -> 10 <= d2 <= 255 -> locals_ok c x ->
  exists x' s', evaluate exp_data d total rssi snr x s = (Done x', s') /\
    timed (report_events c d2 mn rssi snr (iteration x) trans) (pl s) (pl s') /\ locals_ok c x' /\
    (is_same c d2 mn trans = true <-> map (peek trans) (seqZ 0 d2) = expected c d2 mn) /\
    (is_same c d2 mn trans = true -> errors_of c d2 mn trans = 0) /\
    (mn < 256 -> expected c d2 mn = message c d2 mn).
Proof.
  intros d1 d2 mn trans Hr He H1 H2 Hx.
  assert (W : wp timed (evaluate exp_data d total rssi snr x) s (fun l x' _ =>
    l = report_events c d2 mn rssi snr (iteration x) trans /\ locals_ok c x')).
  { eapply (wp_evaluate timed ch); [done..|]. intros. by split. }
  destruct W as (l & x' & s' & E & T & -> & Hx'). exists x', s'. split_and!; try done.
  - apply bool_decide_eq_true.
  - intros Hs. apply bool_decide_eq_true in Hs. unfold errors_of. rewrite bit_errors_same; [done|].
    intros z Hz. rewrite <- Hs. change (map (peek trans) (seqZ 0 d2)) with (peek trans <$> seqZ 0 d2).
    rewrite list_lookup_fmap, lookup_seqZ_lt by lia. cbn. f_equal. lia.
  - intros Hm. apply expected_message. pose proof (number_of_range (first_iteration x) d d1 total).
    fold mn in H. lia.
Qed.

(** A receiver for concrete runs. *)
Definition demo_lres (p : plat) : lres :=
  mk_lres (mk_config 869500000 0 7 1 8 4 false) None (Some thread_data1) None
    (replicate 18 0) 0 true 1 p.

(** Its buffers when message 1 of the second combination has arrived. *)
Definition demo_locals : locals :=
  let c := mk_combo 1 0 0 0 7 in
  let pad l := mk_buf 255 (l ++ replicate (255 - length l) 0) in
  mk_locals (pad (message c 12 1)) (pad (header c 0)) false 1.

Lemma demo_locals_ok : locals_ok (mk_combo 1 0 0 0 7) demo_locals.
Proof. split; by vm_compute. Qed.

Lemma evaluate_reports_witness :
  let exp_data := static_buf [2; 1; 12; 0; 3; 1; 1; 1; 128; 49] in
  let s := demo_lres (demo_plat 0 []) in
  exists x' s', evaluate exp_data 1 6020 (-80) 7 demo_locals s = (Done x', s') /\
    timed (report_events (mk_combo 1 0 0 0 7) 12 1 (-80) 7 1 (transmission_data demo_locals)) (pl s) (pl s') /\
    is_same (mk_combo 1 0 0 0 7) 12 1 (transmission_data demo_locals) = true.
Proof.
  intros exp_data s.
  destruct (evaluate_reports SX127X exp_data (mk_combo 1 0 0 0 7) 1 6020 (-80) 7 demo_locals s)
    as (x' & s' & E & T & _ & Hs & _).
  - apply demo_ready.
  - by vm_compute.
  - by vm_compute.
  - by vm_compute.
  - apply demo_locals_ok.
  - exists x', s'. split; [exact E|]. split; [exact T|]. apply Hs. by vm_compute.
Defined.
