(* ===== verification/LresWindow.v ===== *)
(** * One window of the receiver

    What the receiver does while it stays on one combination (lres.c, the
    receive loop of [exec_experiment]): it listens and reports until its time
    is over, whatever arrives; and when the packets that will complete at its
    radio are known, which of them leads to which notifications. *)
From S2P Require Import Prelude KSem Platform Sx12xx Air CLib Plan Messages Runs Lres LresEval.
From stdpp Require Import prelude list numbers strings gmap.
From Stdlib Require Import ZArith Lia.
Import WaitQ Sem.
Open Scope Z_scope.

(** ** Tuning *)

(** Commands that choose what the radio listens to. *)
Definition is_tune (e : event) : bool :=
  match e with
  | EvRadio (SetChannel _) | EvRadio (SetRxConfig _ _ _ _ _ _ _ _ _ _ _ _ _)
  | EvRadio (SetTxConfig _ _ _ _ _ _ _ _ _ _ _ _) => true
  | _ => false
  end.
Definition tuned (l : list (Z * event)) : list (Z * event) := filter (fun e => is_tune e.2 = true) l.

Lemma tuned_app l k : tuned (l ++ k) = tuned l ++ tuned k.
Proof. apply filter_app. Qed.

Lemma tuned_tvis l : tuned (tvis l) = tuned l.
Proof.
  unfold tuned, tvis. induction l as [|[t e] l IH]; [done|].
  destruct (hidden (t, e)) eqn:Hh.
  - rewrite (filter_cons_False (fun e => hidden e = false)) by (by rewrite Hh). rewrite IH.
    rewrite filter_cons_False; [done|]. cbn. destruct e; try done. by destruct c.
  - rewrite (filter_cons_True (fun e => hidden e = false)) by done.
    destruct (is_tune e) eqn:Ht.
    + by rewrite !filter_cons_True, IH.
    + by rewrite !filter_cons_False, IH by (cbn; by rewrite Ht).
Qed.

Lemma tuned_timed l p q :
  timed l p q -> tuned (trace q) = tuned (trace p) ++ tuned (stamp (send_ms p) (now p) l).
Proof.
  intros T. rewrite <- (tuned_tvis (trace q)), (timed_trace _ _ _ T), tuned_app. by rewrite tuned_tvis.
Qed.

Lemma tuned_none k : Forall (fun e => is_tune e = false) (vis k) -> tuned k = [].
Proof.
  unfold vis, tuned. induction k as [|[t e] k IH]; [done|]. intros Hf.
  destruct (hidden (t, e)) eqn:Hh.
  - rewrite filter_cons_False in Hf by (by rewrite Hh). rewrite filter_cons_False; [by apply IH|].
    cbn. destruct e; try done. by destruct c.
  - rewrite filter_cons_True in Hf by done. apply Forall_cons in Hf as [He Hf].
    cbn in He. rewrite filter_cons_False by (cbn; by rewrite He). by apply IH.
Qed.

Lemma tuned_ran l p q :
  ran l p q -> Forall (fun e => is_tune e = false) l -> tuned (trace q) = tuned (trace p).
Proof.
  intros Hr Hl. destruct (ran_ext _ _ _ Hr) as [k Hk]. pose proof (ran_vis _ _ _ Hr) as Hv.
  rewrite Hk, vis_app in Hv. apply app_inv_head in Hv. rewrite Hk, tuned_app, (tuned_none k).
  - by rewrite app_nil_r.
  - by rewrite Hv.
Qed.

Lemma tuned_config sm t c : tuned (stamp sm t (CONFIG c)) = map (pair t) (CONFIG c).
Proof. destruct c as [f b r cr pre pow []]; cbn; by rewrite Z.add_0_r. Qed.

(** ** One combination's receive loop *)

(** What the receiver does while it stays on a combination. *)
Definition listening (e : event) : bool :=
  match e with
  | EvRadio (SetMaxPayloadLength _) | EvRadio (Rx _) | EvNotify _ => true
  | _ => false
  end.

Lemma listening_untuned l :
  Forall (fun e => listening e = true) l -> Forall (fun e => is_tune e = false) l.
Proof. intros F. eapply Forall_impl; [exact F|]. intros e. destruct e; try done. by destruct c. Qed.

Section window.
Context (ch : lora_chip) (exp_data : cbuf) (d : Z).
Context (He : 9 <= csize exp_data) (Hd1 : 0 < peek exp_data 1) (Hd2 : 10 <= peek exp_data 2 <= 255).

(** Time has passed, the service has listened and reported, and nothing else
    of its state has changed. *)
Record stayed (T : Z) (c : combo) (xs ys : locals * lres) : Prop := {
  st_now : now (pl ys.2) = now (pl xs.2) + T;
  st_ran : exists l, waited l (pl xs.2) (pl ys.2) /\ Forall (fun e => listening e = true) l;
  st_ready : ready ch (pl ys.2);
  st_rest : exists q, ys.2 = set_pl q xs.2;
  st_ok : locals_ok c ys.1;
  st_first : first_iteration ys.1 = first_iteration xs.1;
  st_iter : iteration ys.1 = iteration xs.1 }.

Lemma stayed_refl c x s : ready ch (pl s) -> locals_ok c x -> stayed 0 c (x, s) (x, s).
Proof.
  intros. split; try done; cbn.
  - lia.
  - exists []. split; [apply (rr_refl (R := waited))|done].
  - exists (pl s). by destruct s.
Qed.

Lemma stayed_trans T U c a b e : stayed T c a b -> stayed U c b e -> stayed (T + U) c a e.
Proof.
  intros [N1 (l1 & W1 & F1) _ (q1 & E1) _ ? ?] [N2 (l2 & W2 & F2) ? (q2 & E2) ? ? ?].
  split; try done; try congruence.
  - lia.
  - exists (l1 ++ l2). split; [by eapply (rr_trans (R := waited))|by apply Forall_app].
  - exists q2. by rewrite E2, E1.
Qed.

Lemma stayed_tuned T c a b :
  stayed T c a b -> tuned (trace (pl b.2)) = tuned (trace (pl a.2)).
Proof.
  intros [_ (l & [W _] & F) _ _ _ _ _]. eapply tuned_ran; [exact W|by apply listening_untuned].
Qed.

Lemma stayed_backlog T c a b :
  stayed T c a b -> ready ch (pl a.2) -> backlog (pl b.2) <= backlog (pl a.2).
Proof. intros [_ (l & W & _) _ _ _ _ _] Hr. by eapply waited_backlog. Qed.

(** One round of the loop with [T] milliseconds left. *)
Lemma receive_one_spec c x T total s :
  ready ch (pl s) -> locals_ok c x -> 0 < T ->
  exists x' T' total' s', receive_one (Some ch) exp_data d x T (now (pl s)) total s = (Done (x', T', now (pl s'), total'), s') /\
    stayed (T - T') c (x, s) (x', s') /\ 0 <= T' /\
    (T' = 0 \/ backlog (pl s') < backlog (pl s)).
Proof.
  intros Hr Hx HT.
  cut (wp waited (receive_one (Some ch) exp_data d x T (now (pl s)) total) s (fun l '(x', T', ts, total') s' =>
    ts = now (pl s') /\ stayed (T - T') c (x, s) (x', s') /\ 0 <= T' /\
    (T' = 0 \/ backlog (pl s') < backlog (pl s)))).
  { intros (l & [[[x' T'] ts] total'] & s' & E & W & -> & H). by exists x', T', total', s'. }
  enough (W : wp waited (receive_one (Some ch) exp_data d x T (now (pl s)) total) s (fun l '(x', T', ts, total') s' =>
    Forall (fun e => listening e = true) l /\ ready ch (pl s') /\ (exists q, s' = set_pl q s) /\
    locals_ok c x' /\ first_iteration x' = first_iteration x /\ iteration x' = iteration x /\
    ts = now (pl s') /\ T' = T - (now (pl s') - now (pl s)) /\ 0 <= T' /\
    (T' = 0 \/ backlog (pl s') < backlog (pl s)))).
  { apply wp_rel in W. eapply wp_mono; [exact W|].
    intros l [[[x' T'] ts] total'] s' (Wl & F & Rs & Es & Hx' & Hf & Hi & Hts & HT' & Hp & Hb).
    split_and!; try done. split; try done; cbn; [lia|by exists l]. }
  destruct s as [[]]. unfold receive_one. lres_simpl. wp_step.
  wp_rule wp_recv; [wp_ready|unfold MAX_TRANSM_LEN; lia| |].
  - intros q bytes rs sn Rq Aq Lq Bq Nq. lres_simpl. rewrite Z.max_l in Nq by lia.
    wp_step. cbn [snd fst]. wp_step. destruct Hx as [[Wt1 Wt2] Wc Pc].
    wp_rule wp_copy_in_in; [lia|lia|lia|]. intros b Cb Lb _. wp_step. wp_step. wp_step. wp_step.
    wp_step. wp_step. destruct (Z.leb_spec 0 (Z.of_nat (length bytes))); [|lia].
    eapply (wp_evaluate waited ch _ c); [wp_ready|lia|lia|done| |].
    { split; [split; cbn; lia|done|done]. }
    intros q' x' Rq' Tq' Hx' Hf Hi. wp_step. lres_simpl.
    assert (Hn : now q' = now q).
    { rewrite (timed_now _ _ _ Tq'). cbn. lia. }
    pose proof (timed_backlog ch _ _ _ Tq' Rq). pose proof (ran_now _ _ _ Aq).
    split; [by repeat constructor|]. split; [done|]. split; [by eexists|].
    split_and!; try done; try lia.
  - intros q Rq Aq Nq Bq. lres_simpl. rewrite Z.max_l in Nq by lia.
    wp_step. cbn [snd fst]. wp_step. wp_step. wp_step. wp_step. wp_step. wp_step.
    destruct (Z.leb_spec 0 (if Z.max T 0 =? 0 then - EBUSY else - EAGAIN)) as [Hc|_].
    { destruct (Z.max T 0 =? 0); by vm_compute in Hc. }
    wp_step. wp_step. lres_simpl.
    split; [by repeat constructor|]. split; [done|]. split; [by eexists|].
    split_and!; try done; try lia.
Qed.

Lemma backlog_pos p : ready ch p -> 0 <= backlog p.
Proof.
  intros Hr. destruct (ready_drv _ _ Hr) as [Hi]. pose proof (inv_count _ Hi). unfold backlog. lia.
Qed.

(** The loop ends, and exactly when its time is over. *)
Lemma receive_loop_spec fuel c x T s :
  ready ch (pl s) -> locals_ok c x -> 0 <= T -> backlog (pl s) + 1 < Z.of_nat fuel ->
  exists x' s', receive_loop fuel (Some ch) exp_data d x T (now (pl s)) s = (Done x', s') /\
    stayed T c (x, s) (x', s').
Proof.
  intros Hr Hx HT Hf. assert (Hf' : (T = 0 /\ 0 < Z.of_nat fuel) \/ backlog (pl s) + 1 < Z.of_nat fuel) by lia.
  clear Hf. revert x T s Hr Hx HT Hf'. unfold receive_loop. generalize 1000 as total.
  induction fuel as [|fuel IH]; intros total x T s Hr Hx HT Hf; pose proof (backlog_pos _ Hr); [lia|].
  destruct (Z.ltb_spec 0 T) as [Hp|Hp].
  - destruct (receive_one_spec c x T total s) as (x1 & T1 & total1 & s1 & E1 & S1 & Hp1 & Hb); [done..|].
    pose proof (stayed_backlog _ _ _ _ S1 Hr) as Hb1. cbn [snd] in Hb1.
    destruct (IH total1 x1 T1 s1) as (x' & s' & E & S');
      [apply S1|apply S1|done|lia|].
    exists x', s'. split; [|by replace T with (T - T1 + T1) by lia; eapply stayed_trans].
    cbn [loop]. destruct (Z.ltb_spec 0 T); [|lia].
    rewrite bind_assoc, (bind_done _ _ _ _ _ E1). exact E.
  - exists x, s. replace T with 0 by lia. split; [done|by apply stayed_refl].
Qed.

End window.

(** ** Packets and reports *)

Record packet := mk_packet { p_time : Z; p_bytes : list Z; p_rssi : Z; p_snr : Z }.
Definition rx (k : packet) : Z * irq := (p_time k, IrqRxDone (p_bytes k) (p_rssi k) (p_snr k)).

Definition is_note (e : event) : bool := match e with EvNotify _ => true | _ => false end.
(** The notifications of a trace. *)
Definition notes (l : list (Z * event)) : list event := filter (fun e => is_note e = true) (vis l).

Lemma notes_ran l p q :
  ran l p q -> notes (trace q) = notes (trace p) ++ filter (fun e => is_note e = true) l.
Proof. intros H. unfold notes. by rewrite (ran_vis _ _ _ H), filter_app. Qed.

(** A buffer that starts with the bytes of a packet. *)
Definition holds (bytes : list Z) (b : cbuf) : Prop :=
  forall i, 0 <= i < Z.of_nat (length bytes) -> peek b i = default 0 (bytes !! Z.to_nat i).

Lemma holds_bytes bytes b n :
  holds bytes b -> 0 <= n <= Z.of_nat (length bytes) ->
  map (peek b) (seqZ 0 n) = take (Z.to_nat n) bytes.
Proof.
  intros Hh Hn. apply list_eq_same_length with (n := Z.to_nat n).
  - rewrite length_take. lia.
  - rewrite length_map, length_seqZ. lia.
  - intros i x y Hi Hx Hy. change (map (peek b) (seqZ 0 n)) with (peek b <$> seqZ 0 n) in Hx.
    rewrite list_lookup_fmap, lookup_seqZ_lt in Hx by lia. injection Hx as <-.
    rewrite lookup_take_lt in Hy by lia. rewrite Hh by lia.
    replace (Z.to_nat (0 + Z.of_nat i)) with i by lia. by rewrite Hy.
Qed.

Section reports.
Context (exp_data : cbuf) (d : Z).
Abbreviation d1 := (peek exp_data 1).
Abbreviation d2 := (peek exp_data 2).

(** The notifications the packets of a window lead to; [t0] is when the
    window began. *)
Fixpoint reports (c : combo) (first : bool) (it t0 : Z) (ks : list packet) (evs : list event) : Prop :=
  match ks with
  | [] => evs = []
  | k :: ks' => exists trans evs',
      holds (p_bytes k) trans /\
      evs = report_events c d2 (number_of first d d1 (1000 + (p_time k - t0)))
              (s16 (p_rssi k)) (s8 (p_snr k)) it trans ++ evs' /\
      reports c first it t0 ks' evs'
  end.

(** Packets that complete one after the other between two times. *)
Fixpoint during (a b : Z) (ks : list packet) : Prop :=
  match ks with
  | [] => a < b
  | k :: ks' => a < p_time k /\ (length (p_bytes k) < 256)%nat /\ during (p_time k) b ks'
  end.

Lemma during_lt a b ks : during a b ks -> a < b.
Proof. revert a. induction ks as [|k ks IH]; intros a; cbn; [done|]. intros (? & _ & ?%IH). lia. Qed.

Lemma during_after a b ks : during a b ks -> Forall (fun e => a < e.1) (map rx ks).
Proof.
  revert a. induction ks as [|k ks IH]; intros a; cbn; [constructor|]. intros (H & _ & Hk).
  constructor; [done|]. eapply Forall_impl; [by apply IH|]. cbn. lia.
Qed.

End reports.

(** ** One window *)
Section hearing.
Context (ch : lora_chip) (exp_data : cbuf) (d : Z).
Context (He : 9 <= csize exp_data) (Hd1 : 0 < peek exp_data 1) (Hd2 : 10 <= peek exp_data 2 <= 255).

Lemma hear_one c x T total s k l :
  ready ch (pl s) -> locals_ok c x -> upcoming (rx k :: l) (pl s) ->
  now (pl s) < p_time k < now (pl s) + T -> (length (p_bytes k) < 256)%nat ->
  Forall (fun e => p_time k < e.1) l ->
  exists x' s' trans,
    receive_one (Some ch) exp_data d x T (now (pl s)) total s =
      (Done (x', T - (p_time k - now (pl s)), p_time k, total + (p_time k - now (pl s))), s') /\
    stayed ch (p_time k - now (pl s)) c (x, s) (x', s') /\ upcoming l (pl s') /\
    holds (p_bytes k) trans /\
    notes (trace (pl s')) = notes (trace (pl s)) ++
      report_events c (peek exp_data 2)
        (number_of (first_iteration x) d (peek exp_data 1) (total + (p_time k - now (pl s))))
        (s16 (p_rssi k)) (s8 (p_snr k)) (iteration x) trans.
Proof.
  intros Hr Hx Hu Ht Hb Hl.
  cut (wp waited (receive_one (Some ch) exp_data d x T (now (pl s)) total) s (fun l0 y s' => exists x' trans,
    y = (x', T - (p_time k - now (pl s)), p_time k, total + (p_time k - now (pl s))) /\
    now (pl s') = p_time k /\ upcoming l (pl s') /\ ready ch (pl s') /\ (exists q, s' = set_pl q s) /\
    locals_ok c x' /\ first_iteration x' = first_iteration x /\ iteration x' = iteration x /\
    holds (p_bytes k) trans /\
    l0 = RECV ++ report_events c (peek exp_data 2)
        (number_of (first_iteration x) d (peek exp_data 1) (total + (p_time k - now (pl s))))
        (s16 (p_rssi k)) (s8 (p_snr k)) (iteration x) trans)).
  { intros (l0 & y & s' & E & W & x' & trans & -> & Hn & Hu' & Hr' & Hq & Hx' & Hf & Hi & Hh & ->).
    exists x', s', trans. split_and!; try done.
    - split; try done; cbn; [lia|]. eexists. split; [exact W|]. by repeat constructor.
    - exact (notes_ran _ _ _ (proj1 W)). }
  destruct s as [[]]. unfold receive_one. lres_simpl. wp_step. unfold rx in Hu.
  wp_rule wp_recv_next; [wp_ready|unfold MAX_TRANSM_LEN; lia|done| |exact Hu|lres_simpl; lia|].
  { intros ms [= <-]. lres_simpl. lia. }
  intros q Rq Aq Nq Uq. lres_simpl. rewrite take_ge by (unfold MAX_TRANSM_LEN; lia).
  wp_step. cbn [snd fst]. wp_step. destruct Hx as [[Wt1 Wt2] Wc Pc]. unfold MAX_TRANSM_LEN in *.
  wp_rule wp_copy_in_in; [lia|lia|lia|]. intros b Cb Lb Pb. wp_step. wp_step. wp_step. wp_step.
  wp_step. wp_step. destruct (Z.leb_spec 0 (Z.min (Z.of_nat (length (p_bytes k))) 255)); [|lia].
  eapply (wp_evaluate waited ch _ c); [wp_ready|lia|lia|done| |].
  { split; [split; cbn; unfold MAX_TRANSM_LEN; lia|done|done]. }
  intros q' x' Rq' Tq' Hx' Hf Hi. wp_step. lres_simpl.
  assert (Hn : now q' = now q).
  { rewrite (timed_now _ _ _ Tq'). cbn. lia. }
  exists x', b. rewrite Nq. split_and!; try done; try lia.
  - apply (timed_up _ _ _ Tq'); [|done]. by rewrite Hn, Nq.
  - by eexists.
  - intros i Hi'. rewrite Pb by lia. destruct (Z.leb_spec 0 i), (Z.ltb_spec i (0 + Z.of_nat (length (p_bytes k)))); try lia.
    cbn. by rewrite Z.sub_0_r.
Qed.

(** The last round of a window: nothing more comes. *)
Lemma hear_silence c x T total s l :
  ready ch (pl s) -> locals_ok c x -> 0 < T -> upcoming l (pl s) ->
  Forall (fun e => now (pl s) + T < e.1) l ->
  exists s', receive_one (Some ch) exp_data d x T (now (pl s)) total s =
      (Done (x, 0, now (pl s) + T, total + T), s') /\
    stayed ch T c (x, s) (x, s') /\ upcoming l (pl s') /\ notes (trace (pl s')) = notes (trace (pl s)).
Proof.
  intros Hr Hx HT Hu Hl.
  cut (wp waited (receive_one (Some ch) exp_data d x T (now (pl s)) total) s (fun l0 y s' =>
    y = (x, 0, now (pl s) + T, total + T) /\ now (pl s') = now (pl s) + T /\ upcoming l (pl s') /\
    ready ch (pl s') /\ (exists q, s' = set_pl q s) /\ l0 = RECV)).
  { intros (l0 & y & s' & E & W & -> & Hn & Hu' & Hr' & Hq & ->). exists s'. split_and!; try done.
    - split; try done. exists RECV. split; [exact W|by repeat constructor].
    - pose proof (notes_ran _ _ _ (proj1 W)) as N. by rewrite app_nil_r in N. }
  destruct s as [[]]. unfold receive_one. lres_simpl. wp_step.
  wp_rule wp_recv_upcoming; [wp_ready|unfold MAX_TRANSM_LEN; lia|done|exact Hu|exact Hl|].
  intros q Rq Aq Nq Uq. lres_simpl.
  wp_step. cbn [snd fst]. wp_step. wp_step. wp_step. wp_step. wp_step. wp_step.
  destruct (Z.leb_spec 0 (- EAGAIN)) as [Hc|_]; [by vm_compute in Hc|]. wp_step. wp_step. lres_simpl.
  split_and!; try done; [|by eexists]. rewrite Nq. repeat f_equal; lia.
Qed.

Lemma hear_loop fuel c x total t0 b s ks l :
  ready ch (pl s) -> locals_ok c x -> upcoming (map rx ks ++ l) (pl s) ->
  during (now (pl s)) b ks -> Forall (fun e => b < e.1) l ->
  total = 1000 + (now (pl s) - t0) -> (length ks + 1 < fuel)%nat ->
  exists x' s' evs,
    loop fuel (fun '(x, iteration_time, time_stamp, millis_total) =>
      if 0 <? iteration_time then
        y ← receive_one (Some ch) exp_data d x iteration_time time_stamp millis_total;
        mret (inl y)
      else mret (inr x)) (x, b - now (pl s), now (pl s), total) s = (Done x', s') /\
    stayed ch (b - now (pl s)) c (x, s) (x', s') /\ upcoming l (pl s') /\
    notes (trace (pl s')) = notes (trace (pl s)) ++ evs /\
    reports exp_data d c (first_iteration x) (iteration x) t0 ks evs.
Proof.
  revert fuel x total s. induction ks as [|k ks IH]; intros fuel x total s Hr Hx Hu Hb Hl Ht Hf.
  - destruct fuel as [|[|fuel]]; cbn in Hf; [lia..|].
    pose proof (during_lt _ _ _ Hb) as Hlt.
    destruct (hear_silence c x (b - now (pl s)) total s l) as (s' & E & S' & U' & N'); try done; [lia| |].
    { by replace (now (pl s) + (b - now (pl s))) with b by lia. }
    exists x, s', []. rewrite app_nil_r. split_and!; try done.
    cbn [loop]. destruct (Z.ltb_spec 0 (b - now (pl s))); [|lia].
    by rewrite bind_assoc, (bind_done _ _ _ _ _ E).
  - destruct fuel as [|fuel]; cbn in Hf; [lia|]. destruct Hb as (Hk1 & Hk2 & Hb). cbn [map app] in Hu.
    pose proof (during_lt _ _ _ Hb) as Hlt.
    assert (Hafter : Forall (fun e => p_time k < e.1) (map rx ks ++ l)).
    { apply Forall_app. split; [by eapply during_after|]. eapply Forall_impl; [exact Hl|]. cbn. lia. }
    destruct (hear_one c x (b - now (pl s)) total s k (map rx ks ++ l))
      as (x1 & s1 & trans & E1 & S1 & U1 & Hh & N1); try done; [lia|].
    assert (Hn1 : now (pl s1) = p_time k) by (pose proof (st_now _ _ _ _ _ S1) as N; cbn in N; lia).
    rewrite <- Hn1 in Hb.
    destruct (IH fuel x1 (total + (p_time k - now (pl s))) s1) as (x' & s' & evs & E & S' & U' & N' & Rp);
      try done; [apply S1|apply S1|lia|lia|].
    exists x', s'. eexists. split_and!; [| |done|rewrite N', N1, <- app_assoc; done|].
    + cbn [loop]. destruct (Z.ltb_spec 0 (b - now (pl s))); [|lia].
      rewrite bind_assoc, (bind_done _ _ _ _ _ E1). rewrite <- E. rewrite Hn1.
      by replace (b - now (pl s) - (p_time k - now (pl s))) with (b - p_time k) by lia.
    + replace (b - now (pl s)) with (p_time k - now (pl s) + (b - now (pl s1))) by lia.
      by eapply stayed_trans.
    + exists trans, evs. split; [done|].
      pose proof (st_first _ _ _ _ _ S1) as F1. pose proof (st_iter _ _ _ _ _ S1) as I1.
      cbn [fst] in F1, I1. rewrite F1, I1 in Rp.
      split; [|done]. by replace (1000 + (p_time k - t0)) with (total + (p_time k - now (pl s))) by lia.
Qed.

Lemma window_heard fuel c x T s x' s' g rest :
  receive_loop fuel (Some ch) exp_data d x T (now (pl s)) s = (Done x', s') ->
  ready ch (pl s) -> locals_ok c x -> upcoming (map rx g ++ rest) (pl s) ->
  during (now (pl s)) (now (pl s) + T) g -> Forall (fun e => now (pl s) + T < e.1) rest ->
  backlog (pl s) + 1 < Z.of_nat fuel ->
  upcoming rest (pl s') /\ exists evs, notes (trace (pl s')) = notes (trace (pl s)) ++ evs /\
    reports exp_data d c (first_iteration x) (iteration x) (now (pl s)) g evs.
Proof.
  intros E Hr Hx Hu Hg Hrest Hf. pose proof (upcoming_backlog _ _ Hu) as Hb.
  rewrite length_app, length_map in Hb.
  destruct (hear_loop fuel c x 1000 (now (pl s)) (now (pl s) + T) s g rest)
    as (x1 & s1 & evs & E1 & _ & U & N & Rp); try done; [lia|lia|].
  rewrite Z.add_simpl_l in E1. unfold receive_loop in E. rewrite E in E1. injection E1 as -> ->.
  split; [done|]. by exists evs.
Qed.

End hearing.
