(* ===== verification/LresSweep.v ===== *)
(** * When the receiver listens to what, and what it reports

    The receiver's nested loops against the experiment plan: they go through
    the same combinations in the same order as the sender, and each one is
    left exactly when its time is over, whatever was received meanwhile; the
    packets that complete in a window are reported against its combination
    (lres.c, [exec_experiment]). *)
From S2P Require Import Prelude KSem Platform Sx12xx Air CLib Plan Messages Runs Lres LresEval LresWindow.
From stdpp Require Import prelude list numbers strings gmap.
From Stdlib Require Import ZArith Lia.
Import WaitQ Sem.
Open Scope Z_scope.

Section window.
Context (ch : lora_chip) (exp_data : cbuf) (d : Z).
Context (He : 9 <= csize exp_data) (Hd1 : 0 < peek exp_data 1) (Hd2 : 10 <= peek exp_data 2 <= 255).

(** ** The nested loops *)

(** How long the receiver stays on a combination. *)
Definition window (first : bool) : Z :=
  peek exp_data 0 * peek exp_data 1 * 1000 + (if first then 1000 * d else 0) + 5000.

(** When it tunes to the combinations of a list, and when it is done. *)
Fixpoint tunings (pre : Z) (first : bool) (t : Z) (l : list combo) : list (Z * event) :=
  match l with
  | [] => []
  | c :: l' => map (pair t) (CONFIG (combo_config pre false c)) ++ tunings pre false (t + window first) l'
  end.
Definition spent (first : bool) (l : list combo) : Z :=
  match l with [] => 0 | _ :: _ => window first + window false * (Z.of_nat (length l) - 1) end.

Definition after (first : bool) (l : list combo) : bool :=
  match l with [] => first | _ :: _ => false end.

Lemma spent_app first l k : spent first (l ++ k) = spent first l + spent (after first l) k.
Proof.
  destruct l as [|c l]; [done|]. destruct k as [|c' k]; cbn; rewrite ?app_nil_r; [lia|].
  rewrite length_app. cbn. lia.
Qed.

Lemma tunings_app pre first t l k :
  tunings pre first t (l ++ k) =
  tunings pre first t l ++ tunings pre (after first l) (t + spent first l) k.
Proof.
  revert first t. induction l as [|c l IH]; intros first t; cbn [app tunings]; [by rewrite Z.add_0_r|].
  rewrite IH, <- app_assoc. do 2 f_equal. destruct l; cbn; f_equal; lia.
Qed.

(** Groups of packets, each of which completes within its window. *)
Fixpoint in_windows (first : bool) (t : Z) (gs : list (list packet)) : Prop :=
  match gs with
  | [] => True
  | g :: gs' => during t (t + window first) g /\ in_windows false (t + window first) gs'
  end.

(** The notifications they lead to when the receiver goes through [l]. *)
Fixpoint all_reports (first : bool) (it t : Z) (l : list combo) (gs : list (list packet))
    (evs : list event) : Prop :=
  match l, gs with
  | c :: l', g :: gs' => exists e1 e2, evs = e1 ++ e2 /\ reports exp_data d c first it t g e1 /\
      all_reports false (u8 (it + 1)) (t + window first) l' gs' e2
  | _, _ => evs = []
  end.

Definition count_up (it : Z) (l : list combo) : Z := foldl (fun i _ => u8 (i + 1)) it l.

Lemma in_windows_app first t l gs hs :
  length gs = length l -> in_windows first t (gs ++ hs) ->
  in_windows first t gs /\ in_windows (after first l) (t + spent first l) hs.
Proof.
  revert first t l. induction gs as [|g gs IH]; intros first t l Hl; cbn [app in_windows].
  - destruct l; [|done]. cbn. rewrite Z.add_0_r. done.
  - destruct l as [|c l]; [done|]. intros [Hb Hi]. destruct (IH _ _ l ltac:(cbn in Hl; lia) Hi) as [H1 H2].
    split; [done|]. cbn [after].
    replace (t + spent first (c :: l)) with (t + window first + spent false l).
    + by destruct l.
    + rewrite (spent_app first [c] l : spent first (c :: l) = _). cbn. lia.
Qed.

Lemma all_reports_app first it t l k gs hs e1 e2 :
  length gs = length l ->
  all_reports first it t l gs e1 ->
  all_reports (after first l) (count_up it l) (t + spent first l) k hs e2 ->
  all_reports first it t (l ++ k) (gs ++ hs) (e1 ++ e2).
Proof.
  revert first it t l e1. induction gs as [|g gs IH]; intros first it t l e1 Hl.
  - destruct l; [|done]. cbn [app]. intros ->. cbn. by rewrite Z.add_0_r.
  - destruct l as [|c l]; [done|]. cbn [app all_reports].
    intros (e11 & e12 & -> & Hr & Ha) H2. exists e11, (e12 ++ e2). rewrite app_assoc.
    split; [done|]. split; [done|]. apply IH; [cbn in Hl; lia|done|]. cbn [after] in H2.
    replace (t + window first + spent false l) with (t + spent first (c :: l)); [by destruct l|].
    rewrite (spent_app first [c] l : spent first (c :: l) = _). cbn. lia.
Qed.

Lemma window_pos first : 0 <= peek exp_data 0 -> 0 <= d -> 0 < window first.
Proof. intros H0 Hd. unfold window. destruct first; nia. Qed.

Lemma in_windows_after first t gs :
  0 <= peek exp_data 0 -> 0 <= d -> in_windows first t gs -> Forall (fun e => t < e.1) (map rx (concat gs)).
Proof.
  intros H0 Hd. revert first t. induction gs as [|g gs IH]; intros first t; [constructor|].
  cbn [in_windows concat]. intros [Hb Hi]. rewrite map_app. apply Forall_app. split.
  - by eapply during_after.
  - eapply Forall_impl; [by eapply IH|]. pose proof (window_pos first H0 Hd). cbn. lia.
Qed.

(** When the packets to come are known, so are the notifications. *)
Definition heard (l : list combo) (xs ys : locals * lres) : Prop :=
  forall gs rest, length gs = length l ->
    in_windows (first_iteration xs.1) (now (pl xs.2)) gs ->
    upcoming (map rx (concat gs) ++ rest) (pl xs.2) ->
    Forall (fun e => now (pl ys.2) < e.1) rest ->
    upcoming rest (pl ys.2) /\ exists evs,
      notes (trace (pl ys.2)) = notes (trace (pl xs.2)) ++ evs /\
      all_reports (first_iteration xs.1) (iteration xs.1) (now (pl xs.2)) l gs evs.

(** The loops went through the combinations [l]. *)
Definition doing (e : event) : bool :=
  listening e || is_tune e || match e with EvRadio Init => true | _ => false end.

Record surveyed (pre : Z) (l : list combo) (xs ys : locals * lres) : Prop := {
  sv_now : now (pl ys.2) = now (pl xs.2) + spent (first_iteration xs.1) l;
  sv_tuned : tuned (trace (pl ys.2)) =
    tuned (trace (pl xs.2)) ++ tunings pre (first_iteration xs.1) (now (pl xs.2)) l;
  sv_ran : exists k, waited k (pl xs.2) (pl ys.2) /\ Forall (fun e => doing e = true) k;
  sv_first : first_iteration ys.1 = after (first_iteration xs.1) l;
  sv_iter : iteration ys.1 = count_up (iteration xs.1) l;
  sv_heard : heard l xs ys }.

Lemma surveyed_quiet pre l x y s s' :
  waited l (pl s) (pl s') -> now (pl s') = now (pl s) ->
  Forall (fun e => doing e = true /\ is_tune e = false /\ is_note e = false) l ->
  (forall k, upcoming k (pl s) -> upcoming k (pl s')) ->
  first_iteration y = first_iteration x -> iteration y = iteration x -> surveyed pre [] (x, s) (y, s').
Proof.
  intros W Hn F Hu Ef Ei. apply Forall_and in F as [F1 F]. apply Forall_and in F as [F2 F3].
  destruct W as [Wr Wd].
  split; cbn; [lia| |by exists l|done|done|].
  - rewrite app_nil_r. by eapply tuned_ran.
  - intros [|] rest; [|done]. cbn. intros _ _ Hup _. split; [by apply Hu|]. exists [].
    rewrite app_nil_r. split; [|done]. rewrite (notes_ran _ _ _ Wr).
    assert (Hf : filter (fun e => is_note e = true) l = []).
    { clear -F3. induction F3 as [|e l He F IH]; [done|]. by rewrite filter_cons_False; [|rewrite He]. }
    by rewrite Hf, app_nil_r.
Qed.

Lemma surveyed_same pre x y s s' :
  pl s' = pl s -> first_iteration y = first_iteration x -> iteration y = iteration x ->
  surveyed pre [] (x, s) (y, s').
Proof.
  intros E Ef Ei. apply (surveyed_quiet _ []); rewrite ?E; try done. apply (rr_refl (R := waited)).
Qed.

Lemma surveyed_refl pre xs : surveyed pre [] xs xs.
Proof. destruct xs as [x s]. by apply surveyed_same. Qed.

Lemma surveyed_trans (H0 : 0 <= peek exp_data 0) (Hd : 0 <= d) pre l k a b e :
  surveyed pre l a b -> surveyed pre k b e -> surveyed pre (l ++ k) a e.
Proof.
  intros [N1 T1 (k1 & W1 & F1) A1 I1 H1] [N2 T2 (k2 & W2 & F2) A2 I2 H2].
  unfold heard in H2. rewrite A1 in N2, T2, A2, H2. rewrite I1 in H2. split.
  - rewrite N2, N1, spent_app. lia.
  - by rewrite T2, T1, N1, tunings_app, app_assoc.
  - exists (k1 ++ k2). split; [by eapply (rr_trans (R := waited))|by apply Forall_app].
  - rewrite A2. by destruct l, k.
  - rewrite I2, I1. unfold count_up. by rewrite foldl_app.
  - intros gs rest Hl Hw Hu Hr. rewrite length_app in Hl.
    assert (L1 : length (take (length l) gs) = length l) by (rewrite length_take; lia).
    assert (L2 : length (drop (length l) gs) = length k) by (rewrite length_drop; lia).
    rewrite <- (take_drop (length l) gs) in Hw, Hu |- *.
    set (g1 := take (length l) gs) in *. set (g2 := drop (length l) gs) in *.
    destruct (in_windows_app _ _ l _ _ L1 Hw) as [Hw1 Hw2].
    rewrite concat_app, map_app, <- app_assoc in Hu. rewrite <- N1 in Hw2.
    destruct (H1 g1 (map rx (concat g2) ++ rest) L1 Hw1 Hu) as (U1 & e1 & E1 & R1).
    { apply Forall_app. split; [by eapply in_windows_after|]. eapply Forall_impl; [exact Hr|].
      pose proof (ran_now _ _ _ (proj1 W2)). cbn. lia. }
    destruct (H2 g2 rest L2 Hw2 U1 Hr) as (U2 & e2 & E2 & R2).
    split; [done|]. exists (e1 ++ e2). rewrite E2, E1, app_assoc. split; [done|].
    apply all_reports_app; [done|done|]. by rewrite N1 in R2.
Qed.

(** What holds around the loops, with the first [k] parameters fixed. *)
Record aiming (fuel : nat) (s0 : lres) (pre k : Z) (c : combo) (x : locals) (s : lres) : Prop := {
  ag_aim : aimed MAX_TRANSM_LEN false pre k c (compare_data x) (config s);
  ag_trans : buf_wf MAX_TRANSM_LEN (transmission_data x);
  ag_ready : ready ch (pl s);
  ag_fuel : backlog (pl s) + 1 < Z.of_nat fuel;
  ag_rest : exists cfg q, s = set_pl q (set_config cfg s0) }.

Lemma aiming_locals fuel s0 pre c x s : aiming fuel s0 pre 5 c x s -> locals_ok c x.
Proof. intros []. split; [done|apply ag_aim0|]. eapply aimed_prefix, ag_aim0. Qed.

Context (fuel : nat) (s0 : lres) (pre : Z) (Hd0 : 0 <= peek exp_data 0) (Hd : 0 <= d).
Abbreviation inv k := (aiming fuel s0 pre k).

Lemma survey_combination c x s :
  inv 5 c x s ->
  exists x' s', exec_combination fuel (Some ch) exp_data d x s = (Done x', s') /\
    inv 5 c x' s' /\ surveyed pre [c] (x, s) (x', s').
Proof.
  intros F. pose proof (aiming_locals _ _ _ _ _ _ F) as Hx. destruct F as [A W Hr Hf (cfg & p & Es)].
  unfold exec_combination. rewrite bind_gets, (aimed_config _ _ _ _ _ _ A).
  destruct (config_run ch (combo_config pre false c) (pl s)) as (q & Eq & Tq & Rq). specialize (Rq Hr).
  pose proof (timed_backlog ch _ _ _ Tq Hr) as Bq.
  set (s1 := set_pl q s). assert (E1 : liftp (lora_config (Some ch) (combo_config pre false c)) s = (Done 0, s1)).
  { unfold liftp. cbn [plat_of lres_plat]. by rewrite Eq. }
  rewrite (bind_done _ _ _ _ _ E1).
  assert (E1' : liftp k_uptime_get s1 = (Done (now (pl s1)), s1)) by (by apply liftp_pure).
  rewrite (bind_done _ _ _ _ _ E1').
  rewrite !step_rd by lia.
  match goal with |- context [receive_loop _ _ _ _ _ ?t _] => replace t with (window (first_iteration x)) end.
  2: { unfold window. destruct (first_iteration x); lia. }
  destruct (receive_loop_spec ch exp_data d He Hd1 Hd2 fuel c x (window (first_iteration x)) s1) as (x2 & s2 & E2 & S2).
  { done. } { done. } { unfold window. destruct (first_iteration x); nia. } { cbn. lia. }
  rewrite (bind_done _ _ _ _ _ E2). eexists _, s2. split; [done|].
  pose proof (stayed_backlog _ _ _ _ _ S2 Rq) as B2. destruct (st_rest _ _ _ _ _ S2) as (q2 & E2').
  cbn [fst snd] in *. destruct (st_ran _ _ _ _ _ S2) as (l & Wl & Fl).
  split; [split|split]; cbn [fst snd].
  - eapply (aimed_prefix_ok _ _ _ _ (compare_data x)); [by subst s2 s1|apply S2|apply S2].
  - apply S2.
  - apply S2.
  - cbn in B2. lia.
  - exists cfg, q2. by rewrite E2'; unfold s1; rewrite Es.
  - pose proof (st_now _ _ _ _ _ S2) as N2. pose proof (timed_now _ _ _ Tq) as Nq. cbn in N2, Nq |- *. lia.
  - pose proof (stayed_tuned _ _ _ _ _ S2) as T2. cbn [snd s1 pl set_pl] in T2. rewrite T2.
    rewrite (tuned_timed _ _ _ Tq), tuned_config. cbn [tunings]. by rewrite app_nil_r.
  - exists (CONFIG (combo_config pre false c) ++ l). split.
    + eapply (rr_trans (R := waited)); [by apply rr_timed|done].
    + apply Forall_app. split; [repeat constructor|]. eapply Forall_impl; [exact Fl|].
      intros e He'. unfold doing. by rewrite He'.
  - done.
  - pose proof (st_iter _ _ _ _ _ S2) as I2. cbn in I2 |- *. by rewrite I2.
  - intros [|g [|]] rest Hlen; try done. cbn [in_windows concat fst snd]. rewrite app_nil_r.
    intros [Hg _] Hu Hrest. pose proof (timed_now _ _ _ Tq) as Nq. cbn in Nq. rewrite Z.add_0_r in Nq.
    pose proof (st_now _ _ _ _ _ S2) as N2. cbn in N2. rewrite <- Nq in Hg |- *. rewrite N2 in Hrest.
    destruct (window_heard ch exp_data d He Hd1 Hd2 _ c x _ s1 _ _ g rest E2) as (U2 & evs & Ev & Rp); try done.
    { apply (timed_up _ _ _ Tq); [|done]. apply Forall_app. split; [by eapply during_after|].
      eapply Forall_impl; [exact Hrest|]. pose proof (window_pos (first_iteration x) Hd0 Hd). cbn. lia. }
    { cbn. lia. }
    split; [done|]. exists evs. split.
    + rewrite Ev. f_equal. pose proof (notes_ran _ _ _ (timed_ran _ _ _ Tq)) as Nn.
      cbn in Nn |- *. rewrite Nn. by rewrite app_nil_r.
    + exists evs, []. rewrite app_nil_r. done.
Qed.

(** One level of the loops, given the lemma that fixes its parameter. *)
Lemma aiming_set k k' c c' x td f s :
  inv k c x s -> aimed MAX_TRANSM_LEN false pre k' c' td (f (config s)) ->
  inv k' c' (set_comp td x) (set_config (f (config s)) s).
Proof. intros [? ? ? ? (cfg & q & ->)] A. split; try done. by do 2 eexists. Qed.

Ltac level_step fix_lemma :=
  intros ? ? ? ? F1; eexists; rewrite bind_modify;
  rewrite (step_wr _ MAX_TRANSM_LEN) by (apply F1 || (unfold MAX_TRANSM_LEN; lia));
  split; [done|]; split;
    [|by apply surveyed_same];
  eapply (aiming_set _ _ _ _ _ _ (fun _ => _)); [exact F1|];
  apply fix_lemma; [unfold MAX_TRANSM_LEN; lia|done|apply F1].
Ltac level_weaken := intros ? ? ? []; split; [by eapply aimed_weaken|done..].
(** The masks are in the array, so reading them is pure. *)
Ltac level_mask i :=
  rewrite (for_st_ext _ _ _ _ _ (fun x st s _ => step_rd _ exp_data i _ s ltac:(lia))); cbn beta.

Definition power_combos (c : combo) : list combo :=
  flat_map (fun m => [on_pow m c]) (bits 8 (peek exp_data 8)).
Definition coding_combos (c : combo) : list combo :=
  flat_map (fun l => power_combos (on_cr l c)) (bits 4 (peek exp_data 7)).
Definition datarate_combos (c : combo) : list combo :=
  flat_map (fun k => coding_combos (on_dr k c)) (bits 6 (peek exp_data 6)).
Definition bandwidth_combos (c : combo) : list combo :=
  flat_map (fun j => datarate_combos (on_bw j c)) (bits 3 (peek exp_data 5)).

Lemma survey_power c x s :
  inv 4 c x s ->
  exists x' s', sweep_power fuel (Some ch) exp_data d x s = (Done x', s') /\ inv 4 c x' s' /\
    surveyed pre (power_combos c) (x, s) (x', s').
Proof.
  intros F. unfold sweep_power, power_combos. level_mask 8.
  apply (for_level (surveyed pre) (surveyed_refl pre) (surveyed_trans Hd0 Hd pre) (inv 4 c) 8 (peek exp_data 8)
    on_pow (inv 5) (fun c => [c]) (fun m x => set_comp (poke (compare_data x) 4 (u8 (m + 48))) x)
    (exec_combination fuel (Some ch) exp_data d)).
  - level_step aimed_pow.
  - apply survey_combination.
  - level_weaken.
  - done.
Qed.

Lemma survey_coding c x s :
  inv 3 c x s ->
  exists x' s', sweep_coding fuel (Some ch) exp_data d x s = (Done x', s') /\ inv 3 c x' s' /\
    surveyed pre (coding_combos c) (x, s) (x', s').
Proof.
  intros F. unfold sweep_coding, coding_combos. level_mask 7.
  apply (for_level (surveyed pre) (surveyed_refl pre) (surveyed_trans Hd0 Hd pre) (inv 3 c) 4 (peek exp_data 7)
    on_cr (inv 4) power_combos (fun m x => set_comp (poke (compare_data x) 3 (u8 (m + 48))) x)
    (sweep_power fuel (Some ch) exp_data d)).
  - level_step aimed_cr.
  - apply survey_power.
  - level_weaken.
  - done.
Qed.

Lemma survey_datarate c x s :
  inv 2 c x s ->
  exists x' s', sweep_datarate fuel (Some ch) exp_data d x s = (Done x', s') /\ inv 2 c x' s' /\
    surveyed pre (datarate_combos c) (x, s) (x', s').
Proof.
  intros F. unfold sweep_datarate, datarate_combos. level_mask 6.
  apply (for_level (surveyed pre) (surveyed_refl pre) (surveyed_trans Hd0 Hd pre) (inv 2 c) 6 (peek exp_data 6)
    on_dr (inv 3) coding_combos (fun k x => set_comp (poke (compare_data x) 2 (u8 (k + 48))) x)
    (sweep_coding fuel (Some ch) exp_data d)).
  - level_step aimed_dr.
  - apply survey_coding.
  - level_weaken.
  - done.
Qed.

Lemma survey_bandwidth c x s :
  inv 1 c x s ->
  exists x' s', sweep_bandwidth fuel (Some ch) exp_data d x s = (Done x', s') /\ inv 1 c x' s' /\
    surveyed pre (bandwidth_combos c) (x, s) (x', s').
Proof.
  intros F. unfold sweep_bandwidth, bandwidth_combos. level_mask 5.
  apply (for_level (surveyed pre) (surveyed_refl pre) (surveyed_trans Hd0 Hd pre) (inv 1 c) 3 (peek exp_data 5)
    on_bw (inv 2) datarate_combos (fun j x => set_comp (poke (compare_data x) 1 (u8 (j + 48))) x)
    (sweep_datarate fuel (Some ch) exp_data d)).
  - level_step aimed_bw.
  - exact survey_datarate.
  - level_weaken.
  - done.
Qed.

(** The outermost loop, which initialises the radio for every frequency. *)
Lemma survey_frequency c x s :
  ch = SX127X -> inv 0 c x s ->
  exists x' s', sweep_frequency fuel (Some ch) exp_data d x s = (Done x', s') /\ inv 0 c x' s' /\
    surveyed pre (combos (peek exp_data 4) (peek exp_data 5) (peek exp_data 6)
      (peek exp_data 7) (peek exp_data 8)) (x, s) (x', s').
Proof.
  intros Hch F. unfold sweep_frequency. level_mask 4.
  assert (Ec : combos (peek exp_data 4) (peek exp_data 5) (peek exp_data 6) (peek exp_data 7) (peek exp_data 8)
    = flat_map (fun i => bandwidth_combos (on_freq i c)) (bits 8 (peek exp_data 4))).
  { pose proof (flat_map_combos (fun c => [c]) (peek exp_data 4) (peek exp_data 5) (peek exp_data 6)
      (peek exp_data 7) (peek exp_data 8) c) as E.
    unfold bandwidth_combos, datarate_combos, coding_combos, power_combos. etrans; [|exact E]. clear.
    induction (combos _ _ _ _ _) as [|a l IH]; [done|]. cbn. by f_equal. }
  rewrite Ec.
  apply (for_level (surveyed pre) (surveyed_refl pre) (surveyed_trans Hd0 Hd pre) (inv 0 c) 8 (peek exp_data 4)
    on_freq (inv 1) bandwidth_combos (fun i x => set_comp (poke (compare_data x) 0 (u8 (i + 48))) x)
    (sweep_bandwidth fuel (Some ch) exp_data d)).
  - intros i x1 s1 Hi F1. destruct (init_run ch (pl s1) Hch) as (q & Eq & Wq & Nq & Rq & Uq); [apply F1|].
    pose proof (waited_backlog ch _ _ _ Wq (ag_ready _ _ _ _ _ _ _ F1)) as Bq.
    assert (E1 : liftp (lora_init (Some ch)) s1 = (Done 0, set_pl q s1)).
    { unfold liftp. cbn [plat_of lres_plat]. by rewrite Eq. }
    eexists. rewrite (bind_done _ _ _ _ _ E1), step_rd by (cbn; lia).
    rewrite peek_frequencies, bind_modify by lia.
    rewrite (step_wr _ MAX_TRANSM_LEN) by (apply F1 || (unfold MAX_TRANSM_LEN; lia)).
    split; [done|]. split.
    + eapply (aiming_set _ _ _ _ _ _ (fun _ => _)).
      * destruct F1 as [? ? ? ? (cfg & q' & ->)]. split; [done..|cbn in *; lia|by do 2 eexists].
      * apply aimed_freq; [unfold MAX_TRANSM_LEN; lia|done|apply F1].
    + eapply surveyed_quiet; [exact Wq|done|by repeat constructor| |done|done].
      intros k Hk. by apply Uq.
  - exact survey_bandwidth.
  - level_weaken.
  - done.
Qed.

End window.

(** Usable settings: the arrays reach to the last mask, the pause and the
    length of the messages are as the app allows them. *)
Record usable (exp_data : cbuf) : Prop := {
  us_size : 9 <= csize exp_data;
  us_count : 0 <= peek exp_data 0;
  us_pause : 0 < peek exp_data 1;
  us_length : 10 <= peek exp_data 2 <= 255 }.

Definition plan (data : cbuf) : list combo :=
  combos (peek data 4) (peek data 5) (peek data 6) (peek data 7) (peek data 8).

Lemma exec_sweep_run ch fuel exp_data d s :
  ch = SX127X -> usable exp_data -> 0 <= d ->
  ready ch (pl s) -> backlog (pl s) + 1 < Z.of_nat fuel ->
  exists s' k, exec_sweep fuel (Some ch) exp_data d s = (Done tt, s') /\
    now (pl s') = now (pl s) + spent exp_data d true (plan exp_data) /\
    tuned (trace (pl s')) = tuned (trace (pl s)) ++
      tunings exp_data d (preamble_len (config s)) true (now (pl s)) (plan exp_data) /\
    waited k (pl s) (pl s') /\ Forall (fun e => doing e = true) k /\ ready ch (pl s') /\
    (exists cfg q, s' = set_pl q (set_reconnect false (set_config cfg s))) /\
    forall gs rest, length gs = length (plan exp_data) -> in_windows exp_data d true (now (pl s)) gs ->
      upcoming (map rx (concat gs) ++ rest) (pl s) -> Forall (fun e => now (pl s') < e.1) rest ->
      exists evs, notes (trace (pl s')) = notes (trace (pl s)) ++ evs /\
        all_reports exp_data d true 0 (now (pl s)) (plan exp_data) gs evs.
Proof.
  intros Hch [He Hd0 Hd1 Hd2] Hd Hr Hf.
  cut (wp waited (exec_sweep fuel (Some ch) exp_data d) s (fun k _ s' =>
    now (pl s') = now (pl s) + spent exp_data d true (plan exp_data) /\
    tuned (trace (pl s')) = tuned (trace (pl s)) ++ tunings exp_data d (preamble_len (config s)) true (now (pl s)) (plan exp_data) /\
    Forall (fun e => doing e = true) k /\ ready ch (pl s') /\
    (exists cfg q, s' = set_pl q (set_reconnect false (set_config cfg s))) /\
    forall gs rest, length gs = length (plan exp_data) -> in_windows exp_data d true (now (pl s)) gs ->
      upcoming (map rx (concat gs) ++ rest) (pl s) -> Forall (fun e => now (pl s') < e.1) rest ->
      exists evs, notes (trace (pl s')) = notes (trace (pl s)) ++ evs /\
        all_reports exp_data d true 0 (now (pl s)) (plan exp_data) gs evs)).
  { intros (k & [] & s' & E & W & H1 & H2 & H3 & H4). by exists s', k. }
  unfold exec_sweep. wp_step. wp_rule wp_zeroed; [done|]. intros tr (Wt & Lt & _).
  wp_step. wp_rule wp_zeroed; [done|]. intros cm (Wc & Lc & _). wp_step. wp_rule wp_modify; [done|].
  wp_step. wp_rule wp_wr_in; [by apply (in_bounds_wf MAX_TRANSM_LEN)|]. wp_step.
  set (s1 := set_config (with_tx false (config s)) s). unfold MAX_TRANSM_LEN in Lc.
  destruct (survey_frequency ch exp_data d He Hd1 Hd2 fuel s (preamble_len (config s)) Hd0 Hd (mk_combo 0 0 0 0 0) (mk_locals tr (poke cm 5 95) true 0) s1 Hch)
    as (x' & s' & E & F & [Nw Tu (k & Wk & Fk) _ _ Hh]).
  { split; [apply aimed_start; [by apply poke_wf|cbn [compare_data]; by rewrite peek_poke by lia|done|done]|done..|].
    by exists (config s1), (pl s). }
  exists k, x', s'. split; [exact E|]. split; [exact Wk|]. wp_step. split_and!; try done.
  - cbn [app]. by rewrite app_nil_r.
  - apply F.
  - destruct F as [_ _ _ _ (cfg & q & ->)]. by exists cfg, q.
  - intros gs rest Hl Hw Hu Hr'. by destruct (Hh gs rest Hl Hw Hu Hr') as [_ Hev].
Qed.

(** The times in closed form: the first combination lasts the start delay
    longer than the others. *)
Definition tuning_time (exp_data : cbuf) (d t k : Z) : Z :=
  if k =? 0 then t else t + 1000 * d + k * window exp_data d false.

Lemma tunings_false exp_data d pre t l :
  tunings exp_data d pre false t l =
  concat (imap (fun k c => map (pair (t + Z.of_nat k * window exp_data d false))
    (CONFIG (combo_config pre false c))) l).
Proof.
  revert t. induction l as [|c l IH]; intros t; [done|]. rewrite imap_cons. cbn [tunings concat].
  f_equal; [by replace (t + Z.of_nat 0 * _) with t by lia|]. rewrite IH. f_equal. apply imap_ext.
  intros k c' _. cbn [compose]. do 2 f_equal. lia.
Qed.

Lemma tunings_closed exp_data d pre t l :
  tunings exp_data d pre true t l =
  concat (imap (fun k c => map (pair (tuning_time exp_data d t (Z.of_nat k)))
    (CONFIG (combo_config pre false c))) l).
Proof.
  destruct l as [|c l]; [done|]. rewrite imap_cons. cbn [tunings concat]. f_equal.
  rewrite tunings_false. f_equal. apply imap_ext. intros k c' _. cbn [compose]. do 2 f_equal.
  unfold tuning_time. destruct (Z.eqb_spec (Z.of_nat (S k)) 0); [lia|]. unfold window. lia.
Qed.

(** C5. The receiver's side of a measurement, with an
    SX127x radio and usable settings. Whatever packets arrive or do not
    arrive, its loops end; they tune to exactly the combinations of the plan,
    in the order in which the sender goes through them, the first one at the
    start and the [k]-th one [1000 * d] ms and [k] windows of [d0 * d1]
    seconds and 5 s later. Nothing else happens but listening, initialising
    the radio and reporting (no array is left, nothing is sent), and of the
    service's variables only [config] and [reconnect] change. One more round
    than there are packets is enough fuel. *)
Theorem receiver_follows_plan fuel exp_data d s :
  usable exp_data -> 0 <= d -> ready SX127X (pl s) -> backlog (pl s) + 1 < Z.of_nat fuel ->
  exists s' evs, exec_sweep fuel (Some SX127X) exp_data d s = (Done tt, s') /\
    tuned (trace (pl s')) = tuned (trace (pl s)) ++
      concat (imap (fun k c => map (pair (tuning_time exp_data d (now (pl s)) (Z.of_nat k)))
        (CONFIG (combo_config (preamble_len (config s)) false c))) (plan exp_data)) /\
    (plan exp_data <> [] ->
     now (pl s') = tuning_time exp_data d (now (pl s)) (Z.of_nat (length (plan exp_data)))) /\
    vis (trace (pl s')) = vis (trace (pl s)) ++ evs /\ Forall (fun e => doing e = true) evs /\
    exists cfg q, s' = set_pl q (set_reconnect false (set_config cfg s)).
Proof.
  intros Hu Hd Hr Hf.
  destruct (exec_sweep_run SX127X fuel exp_data d s eq_refl Hu Hd Hr Hf)
    as (s' & k & E & N & T & [W _] & F & _ & Hs & _).
  exists s', k. split_and!; try done.
  - by rewrite T, tunings_closed.
  - intros Hp. rewrite N. unfold tuning_time. destruct (plan exp_data) as [|c l]; [done|].
    destruct (Z.eqb_spec (Z.of_nat (length (c :: l))) 0) as [Hz|_]; [cbn in Hz; lia|].
    cbn [length spent]. unfold window. lia.
  - apply W.
Qed.

(** Two messages of 12 bytes, 1 s apart, on two frequencies at 4 dBm; nothing
    but noise in the first second. *)
Lemma receiver_follows_plan_witness :
  let s := demo_lres (demo_plat 0 [(700, IrqRxDone [1; 2; 3] (-90) 5); (900, IrqTxDone)]) in
  let data := static_buf [2; 1; 12; 0; 3; 1; 1; 1; 128; 49] in
  exists s' evs, exec_sweep 10 (Some SX127X) data 1 s = (Done tt, s') /\
    tuned (trace (pl s')) = tuned (trace (pl s)) ++
      concat (imap (fun k c => map (pair (tuning_time data 1 0 (Z.of_nat k)))
        (CONFIG (combo_config 8 false c))) [mk_combo 0 0 0 0 7; mk_combo 1 0 0 0 7]) /\
    (plan data <> [] -> now (pl s') = 15000) /\
    vis (trace (pl s')) = vis (trace (pl s)) ++ evs /\ Forall (fun e => doing e = true) evs /\
    exists cfg q, s' = set_pl q (set_reconnect false (set_config cfg s)).
Proof.
  intros s data. apply (receiver_follows_plan 10 data 1 s).
  - by split; vm_compute.
  - done.
  - apply demo_ready.
  - by vm_compute.
Defined.
