(* ===== verification/Experiment.v ===== *)
(** * Both devices together

    The sender's and the receiver's side of a measurement on a clean channel:
    what one transmits completes at the other after its air time. The clocks
    are not synchronised; the two sides only share the settings and the
    moment of the handshake. *)
From S2P Require Import Prelude KSem Platform Sx12xx Air TimeOnAir CLib Plan Messages Runs.
From S2P Require Import Lses LsesSweep Lres LresEval LresWindow LresSweep.
From stdpp Require Import prelude list numbers strings gmap.
From Stdlib Require Import ZArith Lia.
Import WaitQ Sem.
Open Scope Z_scope.

(** ** The sender's transmissions, by combination *)
Section sender.
Context (sm : Z -> Z).

(** The transmissions of what is done for each element of [l] in turn,
    starting at [t]. *)
Fixpoint groups_of {A} (f : A -> list event) (t : Z) (l : list A) : list (list (Z * list Z)) :=
  match l with
  | [] => []
  | c :: l' => sends (stamp sm t (f c)) :: groups_of f (t + duration sm (f c)) l'
  end.

Lemma groups_sends {A} (f : A -> list event) t l :
  sends (stamp sm t (flat_map f l)) = concat (groups_of f t l).
Proof.
  revert t. induction l as [|c l IH]; intros t; [done|]. cbn [flat_map groups_of concat].
  by rewrite stamp_app, sends_app, IH.
Qed.

Definition groups (data : cbuf) (pre t : Z) (l : list combo) : list (list (Z * list Z)) :=
  groups_of (LsesSweep.combo_events data pre) t l.

End sender.

Lemma bits_range n m x : In x (bits n m) -> 0 <= x < n.
Proof. unfold bits. intros [H _]%filter_In. by apply range_spec. Qed.

Lemma combos_range d4 d5 d6 d7 d8 c :
  In c (combos d4 d5 d6 d7 d8) -> 0 <= c_dr c < 6 /\ 0 <= c_bw c < 3 /\ 0 <= c_cr c < 4.
Proof.
  unfold combos. intros H.
  apply in_flat_map in H as (i & Hi & H). apply in_flat_map in H as (j & Hj & H).
  apply in_flat_map in H as (k & Hk & H). apply in_flat_map in H as (l & Hl & H).
  apply in_map_iff in H as (m & <- & Hm).
  apply bits_range in Hj, Hk, Hl. done.
Qed.

(** ** A clean channel *)

(** The air time of a message of a combination. *)
Definition air (d2 : Z) (c : combo) : Z := exact_ms d2 (c_dr c + 7) (c_bw c) (c_cr c + 1).

(** Transmission [x] completes as packet [k]: [off] is the difference of the
    clocks, [a] bounds how far the true air time is from the computed one. *)
Definition delivered (off a toa : Z) (x : Z * list Z) (k : packet) : Prop :=
  p_bytes k = x.2 /\ x.1 + off + toa - a <= p_time k <= x.1 + off + toa + a.

Fixpoint delivered_all (d2 off a : Z) (l : list combo) (xs : list (list (Z * list Z)))
    (gs : list (list packet)) : Prop :=
  match l, xs, gs with
  | [], [], [] => True
  | c :: l', x :: xs', g :: gs' =>
      Forall2 (delivered off a (air d2 c)) x g /\ delivered_all d2 off a l' xs' gs'
  | _, _, _ => False
  end.

(** ** Correct reports *)

(** Message [n] on of combination [c] are reported as received without error. *)
Fixpoint verdicts (c : combo) (it n : Z) (ks : list packet) (evs : list event) : Prop :=
  match ks with
  | [] => evs = []
  | k :: ks' => exists tail evs', length tail = 7%nat /\
      evs = EvNotify [255; u8 (- s16 (p_rssi k)); u8 (s8 (p_snr k)); 0] ::
            EvNotify (header c n ++ [116; it; n; 46] ++ tail) :: evs' /\
      verdicts c it (n + 1) ks' evs'
  end.

Fixpoint all_verdicts (it : Z) (l : list combo) (gs : list (list packet)) (evs : list event) : Prop :=
  match l, gs with
  | c :: l', g :: gs' => exists e1 e2, evs = e1 ++ e2 /\ verdicts c it 0 g e1 /\
      all_verdicts (u8 (it + 1)) l' gs' e2
  | _, _ => evs = []
  end.

Lemma report_clean c d2 n r s it trans :
  10 <= d2 -> 0 <= n < 256 -> holds (message c d2 n) trans ->
  report_events c d2 n r s it trans =
  [EvNotify [255; u8 (- r); u8 s; 0];
   EvNotify (header c n ++ [116; it; n; 46] ++ map (peek trans) (seqZ 13 7))].
Proof.
  intros H2 Hn Hh. unfold report_events, errors_of, is_same, report.
  rewrite !expected_message by done. pose proof (message_length c d2 n H2) as Hlen.
  assert (Hp : forall z, 0 <= z < d2 -> default 0 (message c d2 n !! Z.to_nat z) = peek trans z).
  { intros z Hz. symmetry. apply Hh. lia. }
  assert (Hm : map (peek trans) (seqZ 0 d2) = message c d2 n).
  { rewrite (holds_bytes _ _ _ Hh) by lia. apply take_ge. lia. }
  rewrite Hm, bool_decide_eq_true_2 by done.
  rewrite bit_errors_same by done. unfold u8 at 3. rewrite Zmod_0_l.
  repeat f_equal.
  - by rewrite (holds_bytes _ _ _ Hh) by lia.
  - by apply u8_id.
Qed.

(** ** Lockstep *)
Section lockstep.
Context (data rdata : cbuf) (d off a e pre : Z) (sm : Z -> Z).
Abbreviation d0 := (peek rdata 0).
Abbreviation d1 := (peek rdata 1).
Abbreviation d2 := (peek rdata 2).
Context (E0 : peek data 0 = d0) (E1 : peek data 1 = d1) (E2 : peek data 2 = d2).
Context (H0 : 0 < d0 <= 255) (H1 : 0 < d1) (H2 : 10 <= d2 <= 255) (Hd : 0 <= d) (He : 0 <= e) (Ha : 0 <= a).

(** The air times the method works for: no pause is cut off at zero, and the
    time [lora_send] takes is about the air time and 2 ms. *)
Record timely (c : combo) : Prop := {
  ty_range : 0 <= c_dr c < 6 /\ 0 <= c_bw c < 3 /\ 0 <= c_cr c < 4;
  ty_gap : air d2 c < 5000;
  ty_pause : air d2 c + 2 <= d1 * 1000;
  ty_send : - e <= sm d2 - (air d2 c + 2) <= e }.

(** Message [n] comes no more than a second before [base] and its turn, and
    less than [d1 - 1] seconds after. *)
Definition in_turn (c : combo) (base n : Z) (k : packet) : Prop :=
  p_bytes k = message c d2 n /\
  base + 5000 + n * d1 * 1000 - 1000 <= p_time k < base + 5000 + n * d1 * 1000 + (d1 - 1) * 1000.

Lemma turns_during c base m n lo hi g :
  Forall2 (in_turn c base) (seqZ n (Z.of_nat m)) g ->
  lo < base + 5000 + n * d1 * 1000 - 1000 ->
  base + 5000 + (n + Z.of_nat m) * d1 * 1000 - 1000 <= hi -> during lo hi g.
Proof.
  revert n lo g. induction m as [|m IH]; intros n lo g Hg Hlo Hhi.
  - apply Forall2_nil_inv_l in Hg as ->. cbn. nia.
  - rewrite seqZ_cons in Hg by lia. apply Forall2_cons_inv_l in Hg as (k & g' & [Hb Hk] & Hg & ->).
    replace (Z.pred (Z.of_nat (S m))) with (Z.of_nat m) in Hg by lia.
    split; [lia|]. split.
    { pose proof (message_length c d2 n ltac:(lia)). rewrite Hb. lia. }
    apply (IH (Z.succ n)); [done|nia|]. nia.
Qed.

Lemma number_in_turn (first : bool) t base n k c :
  base = t + (if first then 1000 * d else 0) -> 0 <= n < 256 -> in_turn c base n k ->
  number_of first d d1 (1000 + (p_time k - t)) = n.
Proof.
  intros -> Hn [_ Hk]. unfold number_of.
  replace (if first then _ else _) with (p_time k - (t + (if first then 1000 * d else 0)) - 4000)
    by (destruct first; lia).
  set (y := p_time k - _ - 4000). assert (Hy : n * (d1 * 1000) <= y < (n + 1) * (d1 * 1000)) by (subst y; nia).
  rewrite Z.quot_div_nonneg by nia.
  replace (y / (d1 * 1000)) with n by (apply (Z.div_unique_pos y _ n (y - n * (d1 * 1000))); nia).
  unfold u16. rewrite Z.mod_small; [done|]. change (2 ^ 16) with 65536. lia.
Qed.

Lemma turns_verdicts c (first : bool) it t base m n g evs :
  base = t + (if first then 1000 * d else 0) -> 0 <= n -> n + Z.of_nat m <= 256 ->
  Forall2 (in_turn c base) (seqZ n (Z.of_nat m)) g ->
  reports rdata d c first it t g evs -> verdicts c it n g evs.
Proof.
  intros Hbase. revert n g evs. induction m as [|m IH]; intros n g evs Hn Hm Hg.
  - by apply Forall2_nil_inv_l in Hg as ->.
  - rewrite seqZ_cons in Hg by lia. apply Forall2_cons_inv_l in Hg as (k & g' & Hk & Hg & ->).
    replace (Z.pred (Z.of_nat (S m))) with (Z.of_nat m) in Hg by lia.
    cbn [reports verdicts]. intros (trans & evs' & Hh & -> & Hr).
    rewrite (number_in_turn first t base n k c Hbase ltac:(lia) Hk). destruct Hk as [Hb _].
    rewrite Hb in Hh. rewrite report_clean by (done || lia).
    exists (map (peek trans) (seqZ 13 7)), evs'. split; [done|]. split; [done|].
    apply IH; [lia|lia|done|done].
Qed.

(** The arrivals of one combination that starts at [ts] on the sender. *)
Lemma arrivals_in_turn c ts base g :
  timely c ->
  Forall2 (delivered off a (air d2 c)) (sends (stamp sm ts (LsesSweep.combo_events data pre c))) g ->
  -1000 + d0 * e + 2 + a <= ts + off - base -> ts + off - base + d0 * e + a < (d1 - 1) * 1000 ->
  Forall2 (in_turn c base) (range d0) g.
Proof.
  intros [(Hr1 & Hr2 & Hr3) Hgap Hpause Hsend] Hg Hlo Hhi.
  destruct (combo_times sm data pre c ts) as [Es _]; rewrite ?E0, ?E2; try lia.
  rewrite Es, ?E0, ?E1, ?E2 in Hg. clear Es. fold (air d2 c) in Hg.
  assert (Hgp : 0 <= gap_ms (time_on_air d2 (c_dr c + 7) (c_bw c) (c_cr c + 1)) /\
    5000 - air d2 c - 2 <= gap_ms (time_on_air d2 (c_dr c + 7) (c_bw c) (c_cr c + 1)) <= 5000 - air d2 c).
  { destruct (air_exact d2 (c_dr c + 7) (c_bw c) (c_cr c + 1)) as [_ G]; try lia.
    pose proof (exact_gap_ms d2 (c_dr c + 7) (c_bw c) (c_cr c + 1) ltac:(lia) Hgap). unfold air in *. lia. }
  set (gap := gap_ms _) in *. set (toa := air d2 c) in *.
  apply Forall2_map_inv in Hg.
  eapply Forall2_impl_in; [exact Hg|]. intros n k Hn%range_spec [Hb Hk]. split; [done|].
  cbn [fst snd] in Hk. rewrite (Z.max_l gap), (Z.max_l (d1 * 1000 - toa - 2)) in Hk by lia.
  replace (n * (sm d2 + (d1 * 1000 - toa - 2))) with (n * d1 * 1000 + n * (sm d2 - (toa + 2))) in Hk by ring.
  assert (Hdr : - (d0 * e) <= n * (sm d2 - (toa + 2)) <= d0 * e) by (clear -Hn Hsend He; clearbody toa; nia).
  lia.
Qed.

(** The two devices stay on the same combination throughout. *)
Lemma lockstep l (first : bool) t ts gs :
  Forall timely l -> delivered_all d2 off a l (groups sm data pre ts l) gs ->
  let delta := ts + off - (t + (if first then 1000 * d else 0)) in
  -1000 + Z.of_nat (length l) * (d0 * e + 2) + a <= delta ->
  delta + Z.of_nat (length l) * (d0 * e) + a < (d1 - 1) * 1000 ->
  in_windows rdata d first t gs /\ length gs = length l /\
  (forall it evs, all_reports rdata d first it t l gs evs -> all_verdicts it l gs evs).
Proof.
  revert first t ts gs. induction l as [|c l IH]; intros first t ts gs Hl Hg; cbn zeta.
  { destruct gs; [|done]. done. }
  destruct gs as [|g gs]; [done|]. destruct Hg as [Hg Hgs]. apply Forall_cons in Hl as [Hc Hl].
  set (base := t + (if first then 1000 * d else 0)). cbn [length]. intros Hlo Hhi.
  pose proof Hc as [(Hr1 & Hr2 & Hr3) Hgap Hpause Hsend].
  destruct (combo_times sm data pre c ts) as [_ Dur]; rewrite ?E0, ?E2; try lia.
  rewrite E0, E1, E2 in Dur. specialize (Dur Hgap Hpause). fold (air d2 c) in Dur.
  set (D := duration _ _) in *.
  assert (Hdr : - (d0 * e) <= d0 * (sm d2 - (air d2 c + 2)) <= d0 * e) by nia.
  assert (Hw : t + LresSweep.window rdata d first = base + (d0 * d1 * 1000 + 5000))
    by (unfold LresSweep.window, base; lia).
  destruct (IH false (t + LresSweep.window rdata d first) (ts + D) gs Hl Hgs) as (I1 & I2 & I3).
  { rewrite Hw. lia. } { rewrite Hw. lia. }
  pose proof (arrivals_in_turn c ts base g Hc Hg ltac:(lia) ltac:(lia)) as Ht.
  unfold range in Ht. replace (seqZ 0 d0) with (seqZ 0 (Z.of_nat (Z.to_nat d0))) in Ht by (f_equal; lia).
  split; [split; [|done]|split; [by cbn; rewrite I2|]].
  - rewrite Hw. eapply turns_during; [exact Ht|unfold base; destruct first; lia|nia].
  - cbn [all_reports all_verdicts]. intros it evs (e1 & e2 & -> & Hr & Ha'). exists e1, e2.
    split; [done|]. split; [|by apply I3]. eapply turns_verdicts; [done|lia| |exact Ht|exact Hr]. lia.
Qed.

End lockstep.

(** The sender's sweep against the receiver's. *)
Lemma measurement_run ch data rdata ss sr d off a e fuel gs rest :
  let d0 := peek rdata 0 in let d1 := peek rdata 1 in let d2 := peek rdata 2 in
  let l := plan rdata in let n := Z.of_nat (length l) in
  let txs := groups (send_ms (Lses.pl ss)) data (preamble_len (Lses.config ss)) (now (Lses.pl ss)) l in
  let skew := now (Lses.pl ss) + off - (now (pl sr) + 1000 * d) in
  (forall i, 0 <= i <= 8 -> peek data i = peek rdata i) ->
  9 <= csize rdata -> 0 < d0 <= 255 -> 0 < d1 -> 10 <= d2 <= 255 -> 0 <= d -> 0 <= e ->
  ready ch (Lses.pl ss) -> ready SX127X (pl sr) -> backlog (pl sr) + 1 < Z.of_nat fuel ->
  Forall (timely rdata e (send_ms (Lses.pl ss))) l ->
  delivered_all d2 off a l txs gs ->
  upcoming (map rx (concat gs) ++ rest) (pl sr) ->
  Forall (fun k => now (pl sr) + spent rdata d true l < k.1) rest ->
  -1000 + n * (d0 * e + 2) + a <= skew -> skew + n * (d0 * e) + a < (d1 - 1) * 1000 ->
  exists ss' sr' evs,
    Lses.exec_sweep (Some ch) data ss = (Done tt, ss') /\
    sends (tvis (trace (Lses.pl ss'))) = sends (tvis (trace (Lses.pl ss))) ++ concat txs /\
    exec_sweep fuel (Some SX127X) rdata d sr = (Done tt, sr') /\
    notes (trace (pl sr')) = notes (trace (pl sr)) ++ evs /\ all_verdicts 0 l gs evs.
Proof.
  intros d0 d1 d2 l n txs skew Hs Hsz H0 H1 H2 Hd He Rs Rr Hf Hl Hdel Hup Hrest Hlo Hhi.
  assert (El : l = combos (peek data 4) (peek data 5) (peek data 6) (peek data 7) (peek data 8)).
  { subst l. unfold plan. by rewrite !Hs by lia. }
  destruct (sweep_run ch data ss) as (ss' & Es & Ts & _); [unfold byte_ok; rewrite Hs by lia; lia|rewrite Hs; lia|done|].
  rewrite <- El in Ts.
  destruct (exec_sweep_run SX127X fuel rdata d sr eq_refl) as (sr' & k & Er & Nr & _ & _ & _ & _ & _ & Hh); try done.
  { split; [done|lia|done|done]. }
  destruct (lockstep data rdata d off a e (preamble_len (Lses.config ss)) (send_ms (Lses.pl ss))
    (Hs 0 ltac:(lia)) (Hs 1 ltac:(lia)) (Hs 2 ltac:(lia)) H0 H1 H2 Hd He l true (now (pl sr)) (now (Lses.pl ss)) gs)
    as (Iw & Il & Iv); try done; [fold n; subst skew; lia..|].
  destruct (Hh gs rest Il Iw Hup) as (evs & En & Ar).
  { by rewrite Nr. }
  exists ss', sr', evs. split_and!; try done; [|by apply Iv].
  rewrite (timed_trace _ _ _ Ts), sends_app. f_equal. apply groups_sends.
Qed.

(** C2. Both measurements together, on a clean
    channel. Sender and receiver hold the same settings; every transmission
    completes at the receiver after its air time, give or take [a] ms; and
    the air times fit the pauses, [lora_send] taking the air time and 2 ms
    give or take [e]. If the sender starts within the tolerance of the
    receiver's start delay (the inequalities on [skew]: at most a second
    early, less than [d1 - 1] seconds late, minus what the clocks drift apart
    over the plan), then both programs finish, and the receiver's
    notifications report every message of every combination, in order, with
    its own number, the verdict 't' and no bit errors. *)
Theorem measurement_end_to_end ch data rdata ss sr d off a e fuel gs rest :
  let d0 := peek rdata 0 in let d1 := peek rdata 1 in let d2 := peek rdata 2 in
  let l := plan rdata in let n := Z.of_nat (length l) in
  let txs := groups (send_ms (Lses.pl ss)) data (preamble_len (Lses.config ss)) (now (Lses.pl ss)) l in
  let skew := now (Lses.pl ss) + off - (now (pl sr) + 1000 * d) in
  (forall i, 0 <= i <= 8 -> peek data i = peek rdata i) ->
  9 <= csize rdata -> 0 < d0 <= 255 -> 0 < d1 -> 10 <= d2 <= 255 -> 0 <= d -> 0 <= e ->
  ready ch (Lses.pl ss) -> ready SX127X (pl sr) -> backlog (pl sr) + 1 < Z.of_nat fuel ->
  Forall (timely rdata e (send_ms (Lses.pl ss))) l ->
  delivered_all d2 off a l txs gs ->
  upcoming (map rx (concat gs) ++ rest) (pl sr) ->
  Forall (fun k => now (pl sr) + spent rdata d true l < k.1) rest ->
  -1000 + n * (d0 * e + 2) + a <= skew -> skew + n * (d0 * e) + a < (d1 - 1) * 1000 ->
  exists ss' sr' evs,
    Lses.exec_sweep (Some ch) data ss = (Done tt, ss') /\
    sends (tvis (trace (Lses.pl ss'))) = sends (tvis (trace (Lses.pl ss))) ++ concat txs /\
    exec_sweep fuel (Some SX127X) rdata d sr = (Done tt, sr') /\
    notes (trace (pl sr')) = notes (trace (pl sr)) ++ evs /\ all_verdicts 0 l gs evs.
Proof. apply measurement_run. Qed.

(** Two messages of 12 bytes, 1 s apart, on two frequencies; a radio whose
    [Send] does not wait; the sender starts half a second early. *)
Definition demo_plan : list combo := [mk_combo 0 0 0 0 7; mk_combo 1 0 0 0 7].
Definition demo_packets : list (list packet) :=
  map (fun '(c, g) => map (fun x => mk_packet (x.1 + 500 + air 12 c) x.2 (-80) 7) g)
    (zip demo_plan (groups (fun _ => 0) demo_settings 8 0 demo_plan)).

Lemma measurement_end_to_end_witness :
  let ss := demo_lses (demo_plat 0 []) in
  let sr := demo_lres (demo_plat 0 (map rx (concat demo_packets) ++ [])) in
  exists ss' sr' evs,
    Lses.exec_sweep (Some SX127X) demo_settings ss = (Done tt, ss') /\
    sends (tvis (trace (Lses.pl ss'))) =
      sends (tvis (trace (Lses.pl ss))) ++ concat (groups (fun _ => 0) demo_settings 8 0 demo_plan) /\
    exec_sweep 9 (Some SX127X) demo_settings 1 sr = (Done tt, sr') /\
    notes (trace (pl sr')) = notes (trace (pl sr)) ++ evs /\ all_verdicts 0 demo_plan demo_packets evs.
Proof.
  intros ss sr.
  apply (measurement_end_to_end SX127X demo_settings demo_settings ss sr 1 500 0 60 9 demo_packets []);
    try done; try (by vm_compute).
  - apply demo_ready.
  - apply demo_ready.
  - repeat constructor; by vm_compute.
  - split; [repeat constructor; by vm_compute|split; [repeat constructor; by vm_compute|done]].
  - split; [|by vm_compute|done]. repeat constructor; by vm_compute.
Defined.
