(* ===== verification/LresControl.v ===== *)
(** * The receiver's handshake

    What comes before the measurement in [exec_experiment] (lres.c): the
    settings are sent until the sender returns them, and the start delay is
    read from them. *)
From S2P Require Import Prelude KSem Platform Sx12xx Air CLib Plan Messages Runs Lres LresEval LresWindow LresSweep.
From stdpp Require Import prelude list numbers strings gmap.
From Stdlib Require Import ZArith Lia.
Import WaitQ Sem.
Open Scope Z_scope.

(** ** Notifications and the direction of the radio *)

(** A notification of a status code. *)
Definition STATUS (v : Z) : list event := [EvNotify [u8 v]].

Lemma wp_status R `{RunRel R} ch v (s : lres) (Φ : list event -> unit -> lres -> Prop) :
  ready ch (pl s) ->
  (forall q, ready ch q -> timed (STATUS v) (pl s) q -> Φ (STATUS v) tt (set_pl q s)) ->
  wp R (notify_status v) s Φ.
Proof.
  intros Hr HΦ. unfold notify_status. destruct s as [[]]. wp_step.
  eapply (wp_lres_notify R ch); [wp_ready|by vm_compute|]. intros q r Rq Tq. cbn in Tq. wp_step.
  rewrite app_nil_r. by apply HΦ.
Qed.

Lemma wp_switch R `{RunRel R} ch b (s : lres) (Φ : list event -> unit -> lres -> Prop) :
  ready ch (pl s) ->
  (forall q, ready ch q -> timed (CONFIG (with_tx b (config s))) (pl s) q ->
     Φ (CONFIG (with_tx b (config s))) tt (set_pl q (set_config (with_tx b (config s)) s))) ->
  wp R (switch_tx (Some ch) b) s Φ.
Proof.
  intros Hr HΦ. unfold switch_tx. destruct s as [[]]. wp_step. wp_step. wp_step. wp_step. wp_step.
  wp_step. wp_step. cbn [app]. rewrite app_nil_r. by apply HΦ.
Qed.

(** ** The handshake *)
Section handshake.
Context (ch : lora_chip) (exp_data : cbuf) (len : Z).
Context (Hlen : 0 < len <= MAX_DATA_LEN) (Hcs : len <= csize exp_data).
Abbreviation settings := (map (peek exp_data) (seqZ 0 len)).

(** Sending the settings once and listening for the answer. *)
Definition ROUND (cfg : lora_modem_config) : list event :=
  SEND settings len ++ CONFIG (with_tx false cfg) ++ RECV.

(** The loop's body up to the answer. *)
Lemma duration_round sm cfg : duration sm (SEND settings len ++ CONFIG (with_tx false cfg)) = sm len.
Proof. unfold duration. cbn. lia. Qed.

Lemma round_silence s data l :
  ready ch (pl s) -> upcoming l (pl s) ->
  Forall (fun e => now (pl s) + send_ms (pl s) len + 2000 < e.1) l ->
  exists q, handshake_round (Some ch) exp_data len data s =
      (Done (inl data), set_pl q (set_config (with_tx false (config s)) s)) /\
    waited (ROUND (config s) ++ STATUS (-5)) (pl s) q /\ ready ch q /\ upcoming l q /\
    now q = now (pl s) + send_ms (pl s) len + 2000.
Proof.
  intros Hr Hu Hl. pose proof (ready_send _ _ Hr len) as Hsm.
  cut (wp waited (handshake_round (Some ch) exp_data len data) s (fun k y s' => y = inl data /\ exists q,
      s' = set_pl q (set_config (with_tx false (config s)) s) /\
      k = ROUND (config s) ++ STATUS (-5) /\ ready ch q /\ upcoming l q /\
      now q = now (pl s) + send_ms (pl s) len + 2000)).
  { intros (k & y & s' & E & W & -> & q & -> & -> & H). by exists q. }
  unfold handshake_round, ROUND. destruct s as [[]]. lres_simpl. wp_step.
  wp_rule wp_copy_out_in; [lia|rewrite Z2Nat.id; lia|].
  rewrite Z2Nat.id by lia. wp_step. wp_step. wp_step. eapply (wp_switch waited ch); [wp_ready|].
  intros q1 R1 T1. lres_simpl. wp_step.
  pose proof (timed_trans _ _ _ _ _ H0 T1) as T. pose proof (timed_now _ _ _ T) as N1.
  rewrite duration_round in N1. change (K_SECONDS 2) with (K_MSEC 2000).
  wp_rule wp_recv_upcoming; [wp_ready|unfold MAX_DATA_LEN; lia|lia| | |].
  { apply (timed_up _ _ _ T); [|done]. rewrite N1. eapply Forall_impl; [exact Hl|]. cbn. lia. }
  { lres_simpl. by rewrite N1. }
  intros q2 R2 A2 N2 U2. lres_simpl. wp_step. cbn [fst snd]. wp_step.
  destruct (Z.ltb_spec (- EAGAIN) 0) as [_|Hc]; [|by vm_compute in Hc].
  wp_step. eapply (wp_status waited ch); [wp_ready|]. intros q3 R3 T3. wp_step.
  pose proof (timed_now _ _ _ T3) as N3. cbn in N3. rewrite Z.add_0_r in N3. lres_simpl.
  split; [done|]. exists q3. split_and!; try done; [..|rewrite N3; lia].
  apply (timed_up _ _ _ T3); [|done]. rewrite N3, N2, N1. done.
Qed.

(** The answer arrives in time and is the settings again. *)
Lemma round_answer s data t b r sn l :
  ready ch (pl s) -> buf_wf MAX_DATA_LEN data -> upcoming ((t, IrqRxDone b r sn) :: l) (pl s) ->
  now (pl s) + send_ms (pl s) len < t <= now (pl s) + send_ms (pl s) len + 2000 ->
  Forall (fun e => t < e.1) l -> (length b < 256)%nat ->
  take (Z.to_nat len) b = settings ->
  exists q, handshake_round (Some ch) exp_data len data s =
      (Done (inr (Z.min (Z.of_nat (length b)) MAX_DATA_LEN)), set_pl q (set_config (with_tx false (config s)) s)) /\
    waited (ROUND (config s) ++ STATUS (-6)) (pl s) q /\ ready ch q /\ upcoming l q /\ now q = t.
Proof.
  intros Hr Wd Hu Ht Hl Hb Hset. pose proof (ready_send _ _ Hr len) as Hsm.
  cut (wp waited (handshake_round (Some ch) exp_data len data) s (fun k y s' =>
      y = inr (Z.min (Z.of_nat (length b)) MAX_DATA_LEN) /\ exists q,
      s' = set_pl q (set_config (with_tx false (config s)) s) /\
      k = ROUND (config s) ++ STATUS (-6) /\ ready ch q /\ upcoming l q /\ now q = t)).
  { intros (k & y & s' & E & W & -> & q & -> & -> & H). by exists q. }
  unfold handshake_round, ROUND. destruct s as [[]]. lres_simpl. wp_step.
  wp_rule wp_copy_out_in; [lia|rewrite Z2Nat.id; lia|].
  rewrite Z2Nat.id by lia. wp_step. wp_step. wp_step. eapply (wp_switch waited ch); [wp_ready|].
  intros q1 R1 T1. lres_simpl. wp_step.
  pose proof (timed_trans _ _ _ _ _ H0 T1) as T. pose proof (timed_now _ _ _ T) as N1.
  rewrite duration_round in N1. change (K_SECONDS 2) with (K_MSEC 2000). unfold MAX_DATA_LEN in *.
  eapply (wp_recv_next waited ch 20 (K_MSEC 2000) t b r sn l); [wp_ready|lia|done| | | |].
  { intros ms [= <-]. lres_simpl. lia. }
  { apply (timed_up _ _ _ T); [|exact Hu]. rewrite N1. constructor; [cbn; lia|].
    eapply Forall_impl; [exact Hl|]. cbn. lia. }
  { lres_simpl. lia. }
  intros q2 R2 A2 N2 U2. lres_simpl. wp_step. cbn [fst snd]. destruct Wd as [Wd1 Wd2].
  assert (Hbl : len <= Z.of_nat (length b)).
  { apply (f_equal (@length Z)) in Hset. rewrite length_take, length_map, length_seqZ in Hset. lia. }
  wp_rule wp_copy_in_in; [lia|rewrite length_take; lia|lia|]. intros data' Cd Ld Pd.
  change (Z.to_nat 20) with 20%nat in Pd.
  destruct (Z.ltb_spec (Z.min (Z.of_nat (length b)) 20) 0) as [Hc|_]; [lia|].
  wp_step. wp_rule wp_copy_out_in; [lia|rewrite Z2Nat.id; lia|]. rewrite Z2Nat.id by lia.
  wp_step. wp_rule wp_copy_out_in; [lia|rewrite Z2Nat.id; lia|]. rewrite Z2Nat.id by lia.
  assert (Hsame : memcmp_eq settings (map (peek data') (seqZ 0 len)) = true).
  { apply bool_decide_eq_true_2. rewrite (holds_bytes (take 20 b) data'); [|..].
    - by rewrite take_take, Nat.min_l, Hset by lia.
    - intros i Hi. rewrite Pd by lia. destruct (Z.leb_spec 0 i), (Z.ltb_spec i (0 + Z.of_nat (length (take 20 b)))); try lia.
      cbn [andb]. by rewrite Z.sub_0_r.
    - rewrite length_take. lia. }
  rewrite Hsame. wp_step. eapply (wp_status waited ch); [wp_ready|]. intros q3 R3 T3. wp_step.
  pose proof (timed_now _ _ _ T3) as N3. cbn in N3. rewrite Z.add_0_r in N3. lres_simpl.
  split; [done|]. exists q3. split_and!; try done; [..|by rewrite N3].
  apply (timed_up _ _ _ T3); [|done]. by rewrite N3, N2.
Qed.

(** [n] rounds in silence, then the answer. *)
Lemma handshake_run n fuel s data t b r sn l :
  let period := send_ms (pl s) len + 2000 in
  ready ch (pl s) -> buf_wf MAX_DATA_LEN data -> upcoming ((t, IrqRxDone b r sn) :: l) (pl s) ->
  now (pl s) + Z.of_nat n * period + send_ms (pl s) len < t <= now (pl s) + (Z.of_nat n + 1) * period ->
  Forall (fun e => t < e.1) l -> (length b < 256)%nat ->
  take (Z.to_nat len) b = settings -> (n < fuel)%nat ->
  exists q, exec_handshake fuel (Some ch) exp_data data len s =
      (Done (Z.min (Z.of_nat (length b)) MAX_DATA_LEN), set_pl q (set_config (with_tx false (config s)) s)) /\
    waited (concat (replicate n (ROUND (config s) ++ STATUS (-5))) ++ ROUND (config s) ++ STATUS (-6)) (pl s) q /\
    ready ch q /\ upcoming l q /\ now q = t.
Proof.
  revert fuel s. induction n as [|n IH]; intros fuel s period Hr Wd Hu Ht Hl Hb Hset Hf;
    (destruct fuel as [|fuel]; [lia|]).
  - destruct (round_answer s data t b r sn l) as (q & E & W & Rq & Uq & Nq); try done; [lia|].
    exists q. split; [|done]. unfold exec_handshake. cbn [loop]. by rewrite (bind_done _ _ _ _ _ E).
  - pose proof (ready_send _ _ Hr len) as Hsm. subst period.
    destruct (round_silence s data ((t, IrqRxDone b r sn) :: l)) as (q & E & W & Rq & Uq & Nq); try done.
    { constructor; [cbn; nia|]. eapply Forall_impl; [exact Hl|]. cbn. nia. }
    set (s1 := set_pl q (set_config (with_tx false (config s)) s)) in *.
    assert (Hsend : send_ms (pl s1) = send_ms (pl s)) by apply (ran_send _ _ _ (proj1 W)).
    destruct (IH fuel s1) as (q' & E' & W' & Rq' & Uq' & Nq'); try done; [|lia|].
    { rewrite Hsend. cbn [pl s1 set_pl]. lia. }
    exists q'. split; [|split; [|done]].
    + unfold exec_handshake in *. cbn [loop]. rewrite (bind_done _ _ _ _ _ E), E'. by destruct s as [[]].
    + cbn [replicate concat]. rewrite <- app_assoc. eapply (rr_trans (R := waited)); [exact W|].
      unfold ROUND in *. by destruct s as [[]].
Qed.

End handshake.

(** ** The start delay *)

(** The loop copies byte [i] of the settings to [delay[i - 9]]; accesses past
    the two arrays are in the trace. *)
Definition copy_events (exp_data : cbuf) (size i : Z) : list event :=
  oob ARead "exp_data" exp_data i ++ (if (0 <=? i - 9) && (i - 9 <? size) then [] else [EvOob AWrite "delay" (i - 9)]).

Lemma delay_loop exp_data (m : nat) k delay (s : lres) :
  0 <= k -> k + Z.of_nat m <= Z.of_nat (length (cmem delay)) ->
  exists delay' q,
    for_st (seqZ (9 + k) (Z.of_nat m)) delay (fun i delay =>
      v ← io (rd "exp_data" exp_data i); io (wr "delay" delay (i - 9) v)) s = (Done delay', set_pl q s) /\
    timed (flat_map (copy_events exp_data (csize delay)) (seqZ (9 + k) (Z.of_nat m))) (pl s) q /\
    csize delay' = csize delay /\ length (cmem delay') = length (cmem delay) /\
    forall j, 0 <= j < Z.of_nat (length (cmem delay)) ->
      peek delay' j = if (k <=? j) && (j <? k + Z.of_nat m) then peek exp_data (9 + j) else peek delay j.
Proof.
  revert k delay s. induction m as [|m IH]; intros k delay s Hk Hm.
  - exists delay, (pl s). split; [by destruct s|]. split; [apply timed_refl|]. split_and!; try done.
    intros j Hj. destruct (Z.leb_spec k j), (Z.ltb_spec j (k + Z.of_nat 0)); done || lia.
  - rewrite seqZ_cons by lia. replace (Z.pred (Z.of_nat (S m))) with (Z.of_nat m) by lia. cbn [for_st flat_map].
    destruct (rd_run "exp_data" exp_data (9 + k) (pl s)) as (q1 & E1 & T1).
    destruct (wr_run "delay" delay (9 + k - 9) (peek exp_data (9 + k)) q1) as (q2 & E2 & T2).
    set (s1 := set_pl q1 s). set (s2 := set_pl q2 s).
    assert (L1 : liftp (rd "exp_data" exp_data (9 + k)) s = (Done (peek exp_data (9 + k)), s1)).
    { unfold liftp. cbn [plat_of lres_plat]. by rewrite E1. }
    assert (L2 : liftp (wr "delay" delay (9 + k - 9) (peek exp_data (9 + k))) s1 =
      (Done (poke delay (9 + k - 9) (peek exp_data (9 + k))), s2)).
    { unfold liftp. cbn [plat_of lres_plat s1 pl set_pl]. by rewrite E2. }
    rewrite bind_assoc, (bind_done _ _ _ _ _ L1), (bind_done _ _ _ _ _ L2).
    replace (Z.succ (9 + k)) with (9 + (k + 1)) by lia.
    destruct (IH (k + 1) (poke delay (9 + k - 9) (peek exp_data (9 + k))) s2) as (d' & q & E & T & C & L & P);
      rewrite ?length_cmem_poke; [lia|lia|]. rewrite csize_poke in C, T. rewrite length_cmem_poke in L, P.
    exists d', q. split; [exact E|]. split.
    { eapply timed_trans; [|exact T]. by eapply timed_trans. }
    split; [done|]. split; [done|]. intros j Hj. rewrite P by done. rewrite peek_poke_mem by lia.
    destruct (Z.leb_spec (k + 1) j), (Z.ltb_spec j (k + 1 + Z.of_nat m)), (Z.leb_spec k j),
      (Z.ltb_spec j (k + Z.of_nat (S m))), (Z.eqb_spec (9 + k - 9) j); try lia; try done. f_equal. lia.
Qed.

(** What reading the delay does to memory, for a delay of [nd] digits. *)
Definition delay_events (exp_data : cbuf) (l : Z) (nd : nat) : list event :=
  flat_map (copy_events exp_data 5) (seqZ 9 (l - 9)) ++
  (if Z.of_nat nd <? 5 then [] else [EvOob ARead "delay" (Z.of_nat nd)]).

Lemma read_delay_run exp_data ds l (s : lres) :
  9 + Z.of_nat (length ds) < l <= 20 -> (1 <= length ds <= 5)%nat ->
  Forall (fun c => is_digit c = true) ds ->
  (forall i, 0 <= i < Z.of_nat (length ds) -> peek exp_data (9 + i) = default 0 (ds !! Z.to_nat i)) ->
  is_digit (peek exp_data (9 + Z.of_nat (length ds))) = false ->
  exists q, read_delay exp_data l s = (Done (u16 (digits_value ds)), set_pl q s) /\
    timed (delay_events exp_data l (length ds)) (pl s) q.
Proof.
  intros Hl Hn Hd Hp He. unfold read_delay.
  destruct (vla_raw 5 (pl s)) as (b & Eb & Cb & Lb & Pb). change (5 <=? 0) with false in Eb. cbv iota in Eb.
  change (Z.max 5 0 + Z.of_nat stack_slack) with 37 in Lb, Pb.
  assert (L0 : liftp (vla 5) s = (Done b, s)) by (by apply liftp_pure). rewrite (bind_done _ _ _ _ _ L0).
  destruct (delay_loop exp_data (Z.to_nat (l - 9)) 0 b s) as (b' & q & E & T & Cb' & Lb' & Pb'); [lia|lia|].
  rewrite Z2Nat.id, Z.add_0_r in E, T by lia. rewrite (bind_done _ _ _ _ _ E). rewrite Cb in T, Cb'.
  assert (Hna : number_at b' 0 ds).
  { unfold number_at. split_and!; try lia; [|done|intros i Hi|].
    - intros ->. cbn in Hn. lia.
    - rewrite Pb' by lia. destruct (Z.leb_spec 0 (0 + i)), (Z.ltb_spec (0 + i) (0 + Z.of_nat (Z.to_nat (l - 9)))); try lia.
      cbn [andb]. rewrite <- Hp by lia. f_equal.
    - rewrite Pb' by lia. destruct (Z.leb_spec 0 (0 + Z.of_nat (length ds))),
        (Z.ltb_spec (0 + Z.of_nat (length ds)) (0 + Z.of_nat (Z.to_nat (l - 9)))); try lia. done. }
  pose proof (digits_value_bound ds Hd) as Hv.
  assert (Hv5 : 10 ^ Z.of_nat (length ds) <= 10 ^ 5) by (apply Z.pow_le_mono_r; lia).
  pose proof (atoi_digits "delay" b' 0 ds q Hna) as Ea. rewrite Z.min_r in Ea by (unfold INT_MAX; lia).
  set (q' := read_end _ _ _ q) in Ea.
  assert (La : liftp (atoi "delay" b' 0) (set_pl q s) = (Done (digits_value ds), set_pl q' s)).
  { unfold liftp. cbn [plat_of lres_plat pl set_pl]. by rewrite Ea. }
  rewrite (bind_done _ _ _ _ _ La). exists q'. split; [done|]. unfold delay_events.
  eapply timed_trans; [exact T|]. unfold q', read_end, in_bounds. rewrite Cb', Z.add_0_l.
  destruct (Z.leb_spec 0 (Z.of_nat (length ds))); [|lia]. destruct (Z.ltb_spec (Z.of_nat (length ds)) 5); cbn [andb].
  - apply timed_refl.
  - by apply timed_emit.
Qed.
