(* ===== verification/LresExperiment.v ===== *)
(** * A whole experiment on the receiver

    From the settings the phone has stored to the last report: loading the
    settings, the handshake, the start delay and the measurement, as
    [exec_experiment] (lres.c) composes them. *)
From S2P Require Import Prelude KSem Platform Sx12xx Air CLib Plan Messages Runs Lres LresEval LresWindow LresSweep LresControl.
From stdpp Require Import prelude list numbers strings gmap.
From Stdlib Require Import ZArith Lia.
Import WaitQ Sem.
Open Scope Z_scope.

(** ** Loading the settings *)

Lemma load_loop o o2 ed (m : nat) k b (s : lres) :
  0 <= k -> k + Z.of_nat m <= csize b -> k + Z.of_nat m <= Z.of_nat (length ed) ->
  csize b <= Z.of_nat (length (cmem b)) ->
  exists b', for_st (seqZ k (Z.of_nat m)) b (fun i b =>
      v ← io (rd o (static_buf ed) i); io (wr o2 b i v)) s = (Done b', s) /\
    csize b' = csize b /\ length (cmem b') = length (cmem b) /\
    forall j, 0 <= j < Z.of_nat (length (cmem b)) ->
      peek b' j = if (k <=? j) && (j <? k + Z.of_nat m) then peek (static_buf ed) j else peek b j.
Proof.
  revert k b. induction m as [|m IH]; intros k b Hk Hm Hed Hb.
  - exists b. split_and!; try done. intros j Hj.
    destruct (Z.leb_spec k j), (Z.ltb_spec j (k + Z.of_nat 0)); done || lia.
  - rewrite seqZ_cons by lia. replace (Z.pred (Z.of_nat (S m))) with (Z.of_nat m) by lia. cbn [for_st].
    rewrite bind_assoc, step_rd by (cbn; lia).
    rewrite (bind_done _ _ _ _ _ (liftp_wr o2 b k _ s (proj2 (in_bounds_spec b k) ltac:(lia)))).
    destruct (IH (Z.succ k) (poke b k (peek (static_buf ed) k))) as (b' & E & C & L & P);
      rewrite ?csize_poke, ?length_cmem_poke in *; [lia..|].
    exists b'. split_and!; try done. intros j Hj. rewrite P by done. rewrite peek_poke_mem by lia.
    destruct (Z.leb_spec (Z.succ k) j), (Z.ltb_spec j (Z.succ k + Z.of_nat m)), (Z.leb_spec k j),
      (Z.ltb_spec j (k + Z.of_nat (S m))), (Z.eqb_spec k j); try lia; try done. by subst.
Qed.

(** The settings as loaded: what the phone sent, then what was on the stack. *)
Record loaded (ed : list Z) (len : Z) (p : plat) (b : cbuf) : Prop := {
  ld_size : csize b = len;
  ld_bytes : forall i, 0 <= i < len -> peek b i = peek (static_buf ed) i;
  ld_after : forall i, len <= i < len + Z.of_nat stack_slack -> peek b i = u8 (stale p (Z.to_nat i)) }.

Lemma load_settings_run (s : lres) :
  0 < exp_data_length s <= Z.of_nat (length (experiment_data s)) ->
  exists b, load_settings s = (Done b, s) /\ loaded (experiment_data s) (exp_data_length s) (pl s) b.
Proof.
  intros Hl. unfold load_settings. rewrite bind_gets.
  destruct (vla_raw (exp_data_length s) (pl s)) as (b & Eb & Cb & Lb & Pb).
  destruct (Z.leb_spec (exp_data_length s) 0); [lia|]. rewrite Z.max_l in Lb, Pb by lia.
  assert (L0 : liftp (vla (exp_data_length s)) s = (Done b, s)) by (by apply liftp_pure).
  rewrite (bind_done _ _ _ _ _ L0), bind_gets.
  destruct (load_loop "experiment_data" "exp_data" (experiment_data s) (Z.to_nat (exp_data_length s)) 0 b s) as (b' & E & C & L & P); [lia..|].
  rewrite Z2Nat.id in E, P by lia. exists b'. split; [exact E|]. split; [lia|..].
  - intros i Hi. rewrite P by lia. destruct (Z.leb_spec 0 i), (Z.ltb_spec i (0 + exp_data_length s)); done || lia.
  - intros i Hi. rewrite P by lia. destruct (Z.ltb_spec i (0 + exp_data_length s)); [lia|].
    rewrite andb_false_r. apply Pb. lia.
Qed.

(** ** What the measurement depends on *)
Section same.
Context (a b : cbuf) (H0 : peek a 0 = peek b 0) (H1 : peek a 1 = peek b 1) (H2 : peek a 2 = peek b 2) (d : Z).

Lemma window_same first : window a d first = window b d first.
Proof. unfold window. by rewrite H0, H1. Qed.

Lemma in_windows_same first t gs : in_windows a d first t gs <-> in_windows b d first t gs.
Proof.
  revert first t. induction gs as [|g gs IH]; intros first t; [done|]. cbn [in_windows]. by rewrite IH, window_same.
Qed.

Lemma reports_same c first it t ks evs : reports a d c first it t ks evs <-> reports b d c first it t ks evs.
Proof.
  revert evs. induction ks as [|k ks IH]; intros evs; [done|]. cbn [reports]. rewrite H1, H2. by setoid_rewrite IH.
Qed.

Lemma all_reports_same first it t l gs evs :
  all_reports a d first it t l gs evs <-> all_reports b d first it t l gs evs.
Proof.
  revert first it t gs evs. induction l as [|c l IH]; intros first it t gs evs; [done|].
  destruct gs as [|g gs]; [done|]. cbn [all_reports]. setoid_rewrite reports_same. setoid_rewrite IH. by rewrite window_same.
Qed.

Lemma spent_same first l : spent a d first l = spent b d first l.
Proof. destruct l; [done|]. cbn [spent]. by rewrite !window_same. Qed.

End same.

(** ** Array accesses take no time and notify nobody *)
Definition is_oob (e : event) : Prop := match e with EvOob _ _ _ => True | _ => False end.

Lemma oobs_duration sm l : Forall is_oob l -> duration sm l = 0.
Proof. unfold duration. induction 1 as [|e l He Hl IH]; [done|]. by destruct e. Qed.

Lemma oobs_notes l : Forall is_oob l -> filter (fun e => is_note e = true) l = [].
Proof. induction 1 as [|e l He Hl IH]; [done|]. by destruct e; rewrite filter_cons_False. Qed.

Lemma delay_events_oob exp_data l nd : Forall is_oob (delay_events exp_data l nd).
Proof.
  unfold delay_events. apply Forall_app. split; [|destruct (_ <? _); by repeat constructor].
  apply Forall_flat_map, Forall_forall. intros i _. unfold copy_events, oob.
  destruct (in_bounds _ _), (_ && _); by repeat constructor.
Qed.

Lemma handshake_notes exp_data len cfg n :
  filter (fun e => is_note e = true)
    (concat (replicate n (ROUND exp_data len cfg ++ STATUS (-5))) ++ ROUND exp_data len cfg ++ STATUS (-6)) =
  replicate n (EvNotify [251]) ++ [EvNotify [250]].
Proof.
  rewrite filter_app. f_equal.
  induction n as [|n IH]; [done|]. cbn [replicate concat]. by rewrite filter_app, IH.
Qed.

(** ** The experiment *)

(** Before the measurement at more than 10 dBm the receiver gives the phone 17
    seconds to connect again, and takes them off the delay. *)
Definition start_of (power t d : Z) : Z * Z :=
  if 10 <? power then (t + 17000, u16 (d - 17)) else (t, d).

Lemma reconnect_run ch power d l (s : lres) :
  ready ch (pl s) -> upcoming l (pl s) ->
  let '(t1, d1) := start_of power (now (pl s)) d in
  Forall (fun e => t1 < e.1) l ->
  exists q, (if 10 <? power
      then io (k_sleep (K_MSEC 17000));; notify_status (-6);; mret (u16 (d - 17)) else mret d) s =
      (Done d1, set_pl q s) /\
    ready ch q /\ now q = t1 /\ upcoming l q /\ backlog q <= backlog (pl s) /\
    notes (trace q) = notes (trace (pl s)) ++ (if 10 <? power then [EvNotify [250]] else []).
Proof.
  intros Hr Hu. unfold start_of. destruct (10 <? power); intros Hl.
  - cut (wp timed (io (k_sleep (K_MSEC 17000));; notify_status (-6);; mret (u16 (d - 17))) s
      (fun k y s' => y = u16 (d - 17) /\ k = [EvSleep 17000] ++ STATUS (-6) /\ exists q, s' = set_pl q s /\ ready ch q)).
    { intros (k & y & s' & E & T & -> & -> & q & -> & Rq). exists q. split; [exact E|].
      pose proof (timed_now _ _ _ T) as Hn. cbn in Hn. split_and!; try done.
      - apply (timed_up _ _ _ T); [|done]. eapply Forall_impl; [exact Hl|]. cbn. lia.
      - by eapply (timed_backlog ch).
      - exact (notes_ran _ _ _ (timed_ran _ _ _ T)). }
    destruct s as [[]]. wp_step. wp_step. wp_step. eapply (wp_status timed ch); [wp_ready|].
    intros q0 Rq Tq. wp_step. split; [done|]. split; [done|]. by eexists.
  - exists (pl s). rewrite app_nil_r. split_and!; try done. by destruct s.
Qed.

(** Three steps, then the rest. *)
Lemma bind_three {S A B C D} (a : M S A) (b : A -> M S B) (c : A -> B -> M S C) (k : C -> M S D) s v s1 :
  (x ← a; y ← b x; c x y) s = (Done v, s1) ->
  (x ← a; y ← b x; z ← c x y; k z) s = k v s1.
Proof.
  unfold mbind, M_bind. destruct (a s) as [[x|] s2]; [|done]. destruct (b x s2) as [[y|] s3]; [|done].
  intros E. by rewrite E.
Qed.

(** From the stored settings to the start of the measurement. *)
Lemma handshake_part s ds fuel n t b r sn l x :
  let len := exp_data_length s in let period := send_ms (pl s) len + 2000 in
  len = 9 + Z.of_nat (length ds) -> (1 <= length ds <= 5)%nat ->
  Forall (fun c => is_digit c = true) ds ->
  loaded (experiment_data s) len (pl s) x ->
  (forall i, 0 <= i < Z.of_nat (length ds) ->
     peek (static_buf (experiment_data s)) (9 + i) = default 0 (ds !! Z.to_nat i)) ->
  is_digit (u8 (stale (pl s) (Z.to_nat len))) = false ->
  length (experiment_data s) = 18%nat -> ready SX127X (pl s) -> (n < fuel)%nat ->
  upcoming ((t, IrqRxDone b r sn) :: l) (pl s) -> Forall (fun e => t < e.1) l ->
  now (pl s) + Z.of_nat n * period + send_ms (pl s) len < t <= now (pl s) + (Z.of_nat n + 1) * period ->
  length b = 20%nat -> take (Z.to_nat len) b = take (Z.to_nat len) (experiment_data s) ->
  exists q, (data ← io (zeroed MAX_DATA_LEN);
      l ← exec_handshake fuel (Some SX127X) x data len; read_delay x l) s =
      (Done (u16 (digits_value ds)), set_pl q (set_config (with_tx false (config s)) s)) /\
    ready SX127X q /\ now q = t /\ upcoming l q /\ backlog q <= backlog (pl s) /\
    notes (trace q) = notes (trace (pl s)) ++ replicate n (EvNotify [251]) ++ [EvNotify [250]].
Proof.
  intros len period Hlen Hnd Hds [Ls Lb La] Hdig Hst Hed Hr Hn Hu Hl Ht Hb Hset.
  assert (Hz : exists data, liftp (zeroed MAX_DATA_LEN) s = (Done data, s) /\ buf_wf MAX_DATA_LEN data).
  { eexists. split; [by apply liftp_pure|]. split; [done|].
    cbn [cmem]. rewrite length_app, length_replicate. unfold MAX_DATA_LEN. lia. }
  destruct Hz as (data & Ez & Wd). rewrite (bind_done _ _ _ _ _ Ez).
  assert (Hx : map (peek x) (seqZ 0 len) = take (Z.to_nat len) (experiment_data s)).
  { rewrite <- (holds_bytes (experiment_data s) (static_buf (experiment_data s))).
    - apply map_ext_in. intros i Hi%list_elem_of_In%elem_of_seqZ. apply Lb. lia.
    - intros i Hi. unfold peek. by destruct (Z.ltb_spec i 0); [lia|].
    - lia. }
  destruct (handshake_run SX127X x len ltac:(unfold MAX_DATA_LEN; lia) ltac:(lia) n fuel s data t b r sn l)
    as (q & E & W & Rq & Uq & Nq); try done; [lia|by rewrite Hset, Hx|].
  rewrite Hb in E. rewrite (bind_done _ _ _ _ _ E).
  set (s1 := set_pl q (set_config (with_tx false (config s)) s)).
  destruct (read_delay_run x ds 20 s1) as (q' & E' & T'); [lia|exact Hnd|exact Hds|..].
  { intros i Hi. rewrite Lb by lia. by apply Hdig. }
  { rewrite <- Hlen, La by (change (Z.of_nat stack_slack) with 32; lia). exact Hst. }
  pose proof (delay_events_oob x 20 (length ds)) as Ho.
  pose proof (timed_now _ _ _ T') as Nq'. rewrite (oobs_duration _ _ Ho), Z.add_0_r in Nq'. cbn in Nq'.
  exists q'. split; [exact E'|]. split_and!.
  - by eapply (ready_timed SX127X).
  - by rewrite Nq'.
  - apply (timed_up _ _ _ T'); [by rewrite Nq', Nq|done].
  - pose proof (timed_backlog SX127X _ _ _ T' Rq). pose proof (waited_backlog SX127X _ _ _ W Hr). cbn in *. lia.
  - pose proof (notes_ran _ _ _ (timed_ran _ _ _ T')) as Nn. rewrite (oobs_notes _ Ho), app_nil_r in Nn.
    rewrite Nn. cbn [s1 pl set_pl]. rewrite (notes_ran _ _ _ (proj1 W)). f_equal. apply handshake_notes.
Qed.

(** The measurement, with the settings as the phone wrote them. *)
Lemma sweep_part fuel s0 len x d t1 gs rest (s : lres) :
  let ed := static_buf (experiment_data s0) in
  loaded (experiment_data s0) len (pl s0) x -> 9 <= len -> usable ed -> 0 <= d ->
  ready SX127X (pl s) -> backlog (pl s) + 1 < Z.of_nat fuel -> now (pl s) = t1 ->
  upcoming (map rx (concat gs) ++ rest) (pl s) ->
  length gs = length (plan ed) -> in_windows ed d true t1 gs ->
  Forall (fun e => t1 + spent ed d true (plan ed) < e.1) rest ->
  exists s' evs, exec_sweep fuel (Some SX127X) x d s = (Done tt, s') /\
    notes (trace (pl s')) = notes (trace (pl s)) ++ evs /\
    all_reports ed d true 0 t1 (plan ed) gs evs /\ reconnect s' = false.
Proof.
  intros ed [Ls Lb _] Hlen [Us U0 U1 U2] Hd Hr Hf Ht Hu Hgl Hw Hrest.
  assert (Hx : forall i, 0 <= i < 9 -> peek x i = peek ed i) by (intros i Hi; apply Lb; lia).
  assert (Hp : plan x = plan ed) by (unfold plan; by rewrite !Hx by lia).
  assert (Hux : usable x) by (split; rewrite ?Hx by lia; lia).
  destruct (exec_sweep_run SX127X fuel x d s eq_refl Hux Hd Hr Hf)
    as (s' & k & E & N & _ & _ & _ & _ & (cfg & q & Hs') & Hh).
  rewrite Hp, (spent_same x ed) in N by (apply Hx; lia).
  destruct (Hh gs rest) as (evs & En & Ha); rewrite ?Hp; try done.
  - rewrite Ht. apply (in_windows_same x ed); [apply Hx; lia..|done].
  - by rewrite N, Ht.
  - exists s', evs. split_and!; [done..| |by rewrite Hs'].
    rewrite Ht, Hp in Ha. 
    exact (proj1 (all_reports_same x ed (Hx 0 ltac:(lia)) (Hx 1 ltac:(lia)) (Hx 2 ltac:(lia)) d _ _ _ _ _ _) Ha).
Qed.

Lemma start_bounds power t d : 0 <= d -> t <= (start_of power t d).1 /\ 0 <= (start_of power t d).2.
Proof.
  intros Hd. unfold start_of. destruct (10 <? power); cbn; [|lia]. split; [lia|]. apply Z.mod_pos_bound. lia.
Qed.


(** The phone has stored two messages of 12 bytes on two frequencies and a
    delay of 1 s; the sender misses the first announcement and answers the
    second one; one packet arrives. *)
Definition demo_stored : list Z := [2; 1; 12; 0; 3; 1; 1; 1; 128; 49; 0; 0; 0; 0; 0; 0; 0; 0].
Definition demo_heard : list (list packet) := [[mk_packet 5000 [48; 48; 48; 48; 55; 44; 49; 44; 120; 120; 120; 120] (-80) 7]; []].

