(* ===== verification/Java.v ===== *)
(** * The Java the app is written in

    What the Android app (LoRaVisual) uses of the language: integers of fixed
    width, text as UTF-16 code units, exceptions, printing and parsing of
    numbers, and the conversion between text and bytes. Python's [int] is here
    too, since the scripts read what the app prints. *)
From S2P Require Import Prelude KSem Platform Sx12xx CLib.
From stdpp Require Import prelude list numbers strings.
From Stdlib Require Import ZArith Lia.
Open Scope Z_scope.

(** ** Integers *)

(** [byte] is [s8]. *)
Definition jint (x : Z) : Z := (x + 2 ^ 31) mod 2 ^ 32 - 2 ^ 31.
Definition jlong (x : Z) : Z := (x + 2 ^ 63) mod 2 ^ 64 - 2 ^ 63.

Lemma jint_id x : - 2 ^ 31 <= x < 2 ^ 31 -> jint x = x.
Proof. intros. unfold jint. rewrite Z.mod_small; lia. Qed.

Lemma jlong_id x : - 2 ^ 63 <= x < 2 ^ 63 -> jlong x = x.
Proof. intros. unfold jlong. rewrite Z.mod_small; lia. Qed.

Lemma s8_range x : - 128 <= s8 x < 128.
Proof. unfold s8. pose proof (Z.mod_pos_bound (x + 2 ^ 7) (2 ^ 8) eq_refl). lia. Qed.

Lemma s8_id x : - 128 <= x < 128 -> s8 x = x.
Proof. intros. unfold s8. rewrite Z.mod_small; lia. Qed.

Lemma u8_s8 x : u8 (s8 x) = u8 x.
Proof. unfold u8, s8. change (2 ^ 8) with 256. change (2 ^ 7) with 128. Z.to_euclidean_division_equations. lia. Qed.

Lemma s8_u8 x : s8 (u8 x) = s8 x.
Proof. unfold u8, s8. change (2 ^ 8) with 256. change (2 ^ 7) with 128. Z.to_euclidean_division_equations. lia. Qed.

(** ** Exceptions

    Code that can throw; an exception nobody catches ends the app. *)

Inductive exn : Type :=
| NumberFormat
| IndexOutOfBounds
| NullPointer
| SqlError.

Inductive result (A : Type) : Type :=
| Ok (a : A)
| Throw (e : exn).
Arguments Ok {A} a.
Arguments Throw {A} e.

(** A method of an object with fields [S]. *)
Definition J (S A : Type) : Type := S -> result A * S.

#[export] Instance J_ret S : MRet (J S) := fun A a s => (Ok a, s).
#[export] Instance J_bind S : MBind (J S) := fun A B f m s =>
  match m s with
  | (Ok a, s') => f a s'
  | (Throw e, s') => (Throw e, s')
  end.

Definition throw {S A} (e : exn) : J S A := fun s => (Throw e, s).
Definition field {S A} (f : S -> A) : J S A := fun s => (Ok (f s), s).
Definition assign {S} (f : S -> S) : J S unit := fun s => (Ok tt, f s).
Definition orelse {S A} (e : exn) (o : option A) : J S A :=
  match o with Some a => mret a | None => throw e end.

Lemma jbind_ok {S A B} (m : J S A) (f : A -> J S B) s a s' :
  m s = (Ok a, s') -> mbind f m s = f a s'.
Proof. unfold mbind, J_bind. by intros ->. Qed.

Lemma jbind_throw {S A B} (m : J S A) (f : A -> J S B) s e s' :
  m s = (Throw e, s') -> mbind f m s = (Throw e, s').
Proof. unfold mbind, J_bind. by intros ->. Qed.

Lemma jbind_ret {S A B} (a : A) (f : A -> J S B) s : mbind f (mret a) s = f a s.
Proof. done. Qed.
Lemma jbind_field {S A B} (g : S -> A) (f : A -> J S B) s : mbind f (field g) s = f (g s) s.
Proof. done. Qed.
Lemma jbind_assign {S B} (g : S -> S) (f : unit -> J S B) s : mbind f (assign g) s = f tt (g s).
Proof. done. Qed.
Lemma jbind_orelse {S A B} e (a : A) o (f : A -> J S B) s :
  o = Some a -> mbind f (orelse e o) s = f a s.
Proof. by intros ->. Qed.
Lemma jbind_assoc {S A B C} (m : J S A) (f : A -> J S B) (g : B -> J S C) s :
  mbind g (mbind f m) s = mbind (fun x => mbind g (f x)) m s.
Proof. unfold mbind, J_bind. by destruct (m s) as [[]]. Qed.

Create Rewrite HintDb java.
#[export] Hint Rewrite @jbind_ret @jbind_field @jbind_assign @jbind_assoc : java.
#[export] Hint Rewrite @jbind_orelse using eassumption : java.

(** Run the method one statement further. *)
Ltac jstep := progress (autorewrite with java; cbn beta iota).

(** ** Text *)

Abbreviation text := (list Z).

(** A literal. *)
Definition txt (s : string) : text :=
  map (fun a => Z.of_N (Ascii.N_of_ascii a)) (String.list_ascii_of_string s).

Definition text_eqb (a b : text) : bool := bool_decide (a = b).

(** Characters below 128. *)
Definition ascii_text (t : text) : Prop := Forall (fun c => 0 <= c < 128) t.

(** ** Printing numbers *)

Fixpoint print_digits (fuel : nat) (n : Z) (acc : text) : text :=
  match fuel with
  | O => acc
  | Datatypes.S fuel' =>
      let acc := (n mod 10 + 48) :: acc in
      if n <? 10 then acc else print_digits fuel' (n / 10) acc
  end.

(** Enough rounds: one for each binary digit. *)
Definition print_fuel (n : Z) : nat := Datatypes.S (Z.to_nat (Z.log2 n)).

(** [Integer.toString], [Long.toString], [Byte.toString], and numbers in [+]. *)
Definition decimal (n : Z) : text :=
  if n <? 0 then 45 :: print_digits (print_fuel (- n)) (- n) [] else print_digits (print_fuel n) n [].

(** ** Parsing numbers *)

(** [Integer.parseInt] and [Byte.parseByte], by their range. Digits of other
    scripts than ASCII, which they also know, are not in any text of the app. *)
Definition parse (lo hi : Z) (t : text) : option Z :=
  let '(neg, ds) :=
    match t with
    | c :: r => if c =? 45 then (true, r) else if c =? 43 then (false, r) else (false, t)
    | [] => (false, [])
    end in
  match ds with
  | [] => None
  | _ :: _ =>
      if forallb is_digit ds then
        let v := if neg : bool then - digits_value ds else digits_value ds in
        if (lo <=? v) && (v <=? hi) then Some v else None
      else None
  end.
Definition parseInt : text -> option Z := parse (- 2 ^ 31) (2 ^ 31 - 1).
Definition parseByte : text -> option Z := parse (- 128) 127.

(** [Boolean.toString] and [Boolean.parseBoolean]; the latter ignores case. *)
Definition bool_text (b : bool) : text := if b then txt "true" else txt "false".
Definition lower (c : Z) : Z := if (65 <=? c) && (c <=? 90) then c + 32 else c.
Definition parseBoolean (t : text) : bool := text_eqb (map lower t) (txt "true").

(** Python's [int]: white space around, a sign, digits with single underscores
    between them. *)
Fixpoint drop_spaces (t : text) : text :=
  match t with c :: r => if is_space c then drop_spaces r else t | [] => [] end.
Definition py_strip (t : text) : text := rev (drop_spaces (rev (drop_spaces t))).
Fixpoint underscored (after_digit : bool) (t : text) : option text :=
  match t with
  | [] => if after_digit then Some [] else None
  | c :: r =>
      if is_digit c then d ← underscored true r; Some (c :: d)
      else if (c =? 95) && after_digit then underscored false r
      else None
  end.
Definition py_int (t : text) : option Z :=
  let t := py_strip t in
  let '(neg, ds) :=
    match t with
    | c :: r => if c =? 45 then (true, r) else if c =? 43 then (false, r) else (false, t)
    | [] => (false, [])
    end in
  d ← underscored false ds;
  Some (if neg : bool then - digits_value d else digits_value d).

(** ** UTF-8

    [String.getBytes] and [new String(bytes)] with Android's default character
    set. Code units that are no character are encoded as a question mark;
    bytes that are no encoding are decoded as U+FFFD, one for each longest
    part of an encoding. *)

Definition high_surrogate (c : Z) : bool := (0xD800 <=? c) && (c <=? 0xDBFF).
Definition low_surrogate (c : Z) : bool := (0xDC00 <=? c) && (c <=? 0xDFFF).
Definition sub6 (c i : Z) : Z := Z.lor 0x80 (Z.land (Z.shiftr c i) 0x3F).

Fixpoint utf8_encode (t : text) : list Z :=
  match t with
  | [] => []
  | c :: r =>
      if c <? 0x80 then c :: utf8_encode r
      else if c <? 0x800 then Z.lor 0xC0 (Z.shiftr c 6) :: sub6 c 0 :: utf8_encode r
      else if high_surrogate c then
        match r with
        | d :: r' =>
            if low_surrogate d then
              let p := 0x10000 + Z.shiftl (c - 0xD800) 10 + (d - 0xDC00) in
              Z.lor 0xF0 (Z.shiftr p 18) :: sub6 p 12 :: sub6 p 6 :: sub6 p 0 :: utf8_encode r'
            else 63 :: utf8_encode r
        | [] => [63]
        end
      else if low_surrogate c then 63 :: utf8_encode r
      else Z.lor 0xE0 (Z.shiftr c 12) :: sub6 c 6 :: sub6 c 0 :: utf8_encode r
  end.

Definition within (lo hi b : Z) : bool := (lo <=? b) && (b <=? hi).
Definition cont (b : Z) : bool := within 0x80 0xBF b.
Definition low6 (b : Z) : Z := Z.land b 0x3F.
(** The range of the second byte, for the leads that restrict it. *)
Definition second3 (b c : Z) : bool :=
  if b =? 0xE0 then within 0xA0 0xBF c else if b =? 0xED then within 0x80 0x9F c else cont c.
Definition second4 (b c : Z) : bool :=
  if b =? 0xF0 then within 0x90 0xBF c else if b =? 0xF4 then within 0x80 0x8F c else cont c.

Fixpoint utf8_decode (l : list Z) : text :=
  match l with
  | [] => []
  | b :: r =>
      if b <? 0x80 then b :: utf8_decode r
      else if within 0xC2 0xDF b then
        match r with
        | c :: r1 => if cont c then (Z.land b 0x1F * 64 + low6 c) :: utf8_decode r1 else 0xFFFD :: utf8_decode r
        | [] => [0xFFFD]
        end
      else if within 0xE0 0xEF b then
        match r with
        | c :: r1 =>
            if second3 b c then
              match r1 with
              | d :: r2 =>
                  if cont d then (Z.land b 0x0F * 4096 + low6 c * 64 + low6 d) :: utf8_decode r2
                  else 0xFFFD :: utf8_decode r1
              | [] => [0xFFFD]
              end
            else 0xFFFD :: utf8_decode r
        | [] => [0xFFFD]
        end
      else if within 0xF0 0xF4 b then
        match r with
        | c :: r1 =>
            if second4 b c then
              match r1 with
              | d :: r2 =>
                  if cont d then
                    match r2 with
                    | e :: r3 =>
                        if cont e then
                          let p := Z.land b 0x07 * 262144 + low6 c * 4096 + low6 d * 64 + low6 e - 0x10000 in
                          (0xD800 + p / 1024) :: (0xDC00 + p mod 1024) :: utf8_decode r3
                        else 0xFFFD :: utf8_decode r2
                    | [] => [0xFFFD]
                    end
                  else 0xFFFD :: utf8_decode r1
              | [] => [0xFFFD]
              end
            else 0xFFFD :: utf8_decode r
        | [] => [0xFFFD]
        end
      else 0xFFFD :: utf8_decode r
  end.

(** [byte] arrays are signed. *)
Definition getBytes (t : text) : list Z := map s8 (utf8_encode t).
Definition new_String (bytes : list Z) : text := utf8_decode (map u8 bytes).

(** ** Numbers survive printing and parsing *)

Lemma digits_value_cons acc l :
  foldl (fun a c => a * 10 + (c - 48)) acc l = acc * 10 ^ Z.of_nat (length l) + digits_value l.
Proof.
  unfold digits_value. revert acc. induction l as [|c l IH]; intros acc; [cbn; lia|].
  cbn [foldl length]. rewrite IH, (IH (0 * 10 + _)), Nat2Z.inj_succ, Z.pow_succ_r by lia. lia.
Qed.

Lemma print_digits_spec fuel n acc :
  0 <= n < 2 ^ Z.of_nat fuel ->
  exists ds, print_digits fuel n acc = ds ++ acc /\ digits_value ds = n /\
    Forall (fun c => is_digit c = true) ds /\ ((0 < fuel)%nat -> ds <> []) /\
    (forall k, 0 < k -> n < 10 ^ k -> Z.of_nat (length ds) <= k).
Proof.
  revert n acc. induction fuel as [|fuel IH]; intros n acc Hn.
  { exists []. cbn in *. split_and!; try done; lia. }
  cbn [print_digits]. assert (Hd : is_digit (n mod 10 + 48) = true).
  { unfold is_digit. pose proof (Z.mod_pos_bound n 10 eq_refl). lia. }
  destruct (Z.ltb_spec n 10) as [Hlt|Hge].
  - exists [n mod 10 + 48]. split_and!; try done; [|by constructor|intros k Hk _; cbn; lia].
    unfold digits_value. cbn. rewrite Z.mod_small; lia.
  - destruct (IH (n / 10) ((n mod 10 + 48) :: acc)) as (ds & E & V & F & _ & L).
    { rewrite Nat2Z.inj_succ, Z.pow_succ_r in Hn by lia. split; [apply Z.div_pos; lia|].
      apply Z.div_lt_upper_bound; lia. }
    exists (ds ++ [n mod 10 + 48]). split_and!.
    + rewrite E. by rewrite <- app_assoc.
    + unfold digits_value. rewrite foldl_app. fold (digits_value ds). rewrite V. cbn.
      pose proof (Z.div_mod n 10). lia.
    + apply Forall_app. split; [done|]. by constructor.
    + intros _. by destruct ds.
    + intros k Hk Hb. rewrite length_app. cbn [length]. assert (1 < k).
      { destruct (Z.leb_spec k 1); [|lia]. assert (k = 1) as -> by lia. lia. }
      enough (Z.of_nat (length ds) <= k - 1) by lia. apply L; [lia|].
      apply Z.div_lt_upper_bound; [lia|]. rewrite <- Z.pow_succ_r by lia.
      by replace (Z.succ (k - 1)) with k by lia.
Qed.

(** The digits of a number that is not negative. *)
Lemma decimal_digits n :
  0 <= n -> digits_value (decimal n) = n /\ Forall (fun c => is_digit c = true) (decimal n) /\
    decimal n <> [] /\ (forall k, 0 < k -> n < 10 ^ k -> Z.of_nat (length (decimal n)) <= k).
Proof.
  intros Hn. unfold decimal. destruct (Z.ltb_spec n 0); [lia|].
  destruct (print_digits_spec (print_fuel n) n []) as (ds & -> & V & F & N & L).
  { unfold print_fuel. rewrite Nat2Z.inj_succ, Z2Nat.id by apply Z.log2_nonneg.
    destruct (decide (n = 0)) as [->|]; [by vm_compute|]. pose proof (Z.log2_spec n). lia. }
  rewrite app_nil_r. split_and!; try done. apply N. unfold print_fuel. lia.
Qed.

Lemma decimal_neg n : n < 0 -> decimal n = 45 :: decimal (- n).
Proof. intros. unfold decimal. destruct (Z.ltb_spec n 0), (Z.ltb_spec (- n) 0); try lia. done. Qed.

Lemma forallb_Forall {A} (p : A -> bool) l : Forall (fun x => p x = true) l -> forallb p l = true.
Proof. induction 1; [done|]. cbn. by rewrite H, IHForall. Qed.

Lemma digit_range c : is_digit c = true -> 48 <= c <= 57.
Proof. unfold is_digit. lia. Qed.

(** What a printed number looks like to the parsers. *)
Lemma decimal_shape n :
  exists ds c r, ds = c :: r /\ forallb is_digit ds = true /\ digits_value ds = Z.abs n /\
    decimal n = (if n <? 0 then 45 :: ds else ds).
Proof.
  destruct (decimal_digits (Z.abs n)) as (V & F & N & _); [lia|].
  destruct (decimal (Z.abs n)) as [|c r] eqn:E; [done|]. exists (c :: r), c, r.
  split_and!; [done|by apply forallb_Forall|done|].
  destruct (Z.ltb_spec n 0).
  - rewrite decimal_neg by done. rewrite <- E. do 2 f_equal. lia.
  - rewrite <- E. f_equal. lia.
Qed.

Lemma parse_decimal lo hi n : lo <= n <= hi -> parse lo hi (decimal n) = Some n.
Proof.
  intros Hr. destruct (decimal_shape n) as (ds & c & r & -> & F & V & E). rewrite E.
  assert (Hc : 48 <= c <= 57) by (apply digit_range; cbn in F; by apply andb_prop in F as [? _]).
  unfold parse. destruct (Z.ltb_spec n 0); [cbn [Z.eqb Pos.eqb]|].
  - rewrite F, V. destruct (Z.leb_spec lo (- Z.abs n)), (Z.leb_spec (- Z.abs n) hi); try lia. cbn. f_equal. lia.
  - destruct (Z.eqb_spec c 45), (Z.eqb_spec c 43); try lia. rewrite F, V.
    destruct (Z.leb_spec lo (Z.abs n)), (Z.leb_spec (Z.abs n) hi); try lia. cbn. f_equal. lia.
Qed.

Lemma parse_range lo hi t n : parse lo hi t = Some n -> lo <= n <= hi.
Proof.
  unfold parse. destruct (match t with [] => _ | c :: r => _ end) as [neg ds].
  destruct ds; [done|]. destruct (forallb _ _); [|done].
  set (v := if neg : bool then _ else _). clearbody v.
  destruct (Z.leb_spec lo v), (Z.leb_spec v hi); try done. cbn. intros [= <-]. lia.
Qed.

Lemma underscored_digits ds b :
  forallb is_digit ds = true -> ds <> [] \/ b = true -> underscored b ds = Some ds.
Proof.
  revert b. induction ds as [|c ds IH]; intros b F Hb; cbn in *; [destruct Hb as [?| ->]; done|].
  apply andb_prop in F as [-> F]. rewrite (IH true) by auto. done.
Qed.

Lemma drop_spaces_none t : Forall (fun c => is_space c = false) t -> drop_spaces t = t.
Proof. destruct 1 as [|c t Hc _]; [done|]. cbn. by rewrite Hc. Qed.

Lemma digits_no_space ds : forallb is_digit ds = true -> Forall (fun c => is_space c = false) ds.
Proof.
  induction ds as [|c ds IH]; [constructor|]. cbn. intros [Hc F]%andb_prop. constructor; [|by apply IH].
  apply digit_range in Hc. unfold is_space. lia.
Qed.

Lemma py_int_decimal n : py_int (decimal n) = Some n.
Proof.
  destruct (decimal_shape n) as (ds & c & r & -> & F & V & E).
  assert (Hs : Forall (fun c => is_space c = false) (decimal n)).
  { rewrite E. pose proof (digits_no_space _ F). destruct (n <? 0); [by constructor|done]. }
  unfold py_int, py_strip. rewrite (drop_spaces_none _ Hs), (drop_spaces_none (rev _)), rev_involutive.
  2: { by apply Forall_rev. }
  rewrite E. assert (Hc : 48 <= c <= 57) by (apply digit_range; cbn in F; by apply andb_prop in F as [? _]).
  destruct (Z.ltb_spec n 0); [cbn [Z.eqb Pos.eqb]|].
  - rewrite underscored_digits by (try done; by left). cbn [mbind option_bind]. rewrite V. f_equal. lia.
  - destruct (Z.eqb_spec c 45), (Z.eqb_spec c 43); try lia.
    rewrite underscored_digits by (try done; by left). cbn [mbind option_bind]. rewrite V. f_equal. lia.
Qed.

(** What Java takes for a number is the same number for Python. *)
Lemma py_int_parse lo hi t n : parse lo hi t = Some n -> py_int t = Some n.
Proof.
  unfold parse, py_int. intros H.
  assert (Hs : Forall (fun c => is_space c = false) t).
  { destruct t as [|c r]; [constructor|].
    assert (P : forall l, (match l with [] => None | _ :: _ => if forallb is_digit l then Some tt else None end) = Some tt ->
      Forall (fun c => is_space c = false) l).
    { intros [|x l]; [done|]. destruct (forallb is_digit _) eqn:F; [by intros _; apply digits_no_space|done]. }
    destruct (Z.eqb_spec c 45) as [->|]; [constructor; [done|]; apply P; destruct r; [done|]; by destruct (forallb _ _)|].
    destruct (Z.eqb_spec c 43) as [->|]; [constructor; [done|]; apply P; destruct r; [done|]; by destruct (forallb _ _)|].
    destruct (forallb is_digit _) eqn:F; [by apply digits_no_space|done]. }
  unfold py_strip. rewrite (drop_spaces_none _ Hs), (drop_spaces_none (rev _)), rev_involutive by (by apply Forall_rev).
  destruct t as [|c0 t0]; [done|]. destruct (if c0 =? 45 then _ else _) as [neg ds]. destruct ds as [|c r]; [done|].
  destruct (forallb is_digit (c :: r)) eqn:F; [|done]. rewrite underscored_digits by (try done; by left).
  cbn [mbind option_bind]. set (v := if neg then _ else _) in *. destruct (_ && _); congruence.
Qed.

(** ** ASCII text is its own encoding *)

Lemma decimal_ascii n : ascii_text (decimal n).
Proof.
  destruct (decimal_shape n) as (ds & c & r & _ & F & _ & ->).
  assert (H : ascii_text ds).
  { clear -F. induction ds as [|x ds IH]; [constructor|]. cbn in F. apply andb_prop in F as [Hx%digit_range F].
    constructor; [lia|]. by apply IH. }
  destruct (n <? 0); [|done]. constructor; [lia|done].
Qed.

Lemma utf8_encode_ascii t : ascii_text t -> utf8_encode t = t.
Proof. induction 1 as [|c t Hc Ht IH]; [done|]. cbn. destruct (Z.ltb_spec c 128); [|lia]. by rewrite IH. Qed.

Lemma utf8_decode_ascii t l : ascii_text t -> utf8_decode (t ++ l) = t ++ utf8_decode l.
Proof. induction 1 as [|c t Hc Ht IH]; [done|]. cbn. destruct (Z.ltb_spec c 128); [|lia]. by rewrite IH. Qed.

Lemma map_id_Forall {A} (f : A -> A) l : Forall (fun x => f x = x) l -> map f l = l.
Proof. induction 1; [done|]. cbn. congruence. Qed.

Lemma getBytes_ascii t : ascii_text t -> getBytes t = t.
Proof.
  intros H. unfold getBytes. rewrite utf8_encode_ascii by done. apply map_id_Forall.
  eapply Forall_impl; [exact H|]. intros c Hc. cbn in Hc. apply s8_id. lia.
Qed.

Lemma txt_ascii_bool s : forallb (fun c => (0 <=? c) && (c <? 128)) (txt s) = true -> ascii_text (txt s).
Proof.
  unfold ascii_text. rewrite forallb_forall, List.Forall_forall. intros H x Hx%H. lia.
Qed.
