(* ===== verification/Database.v ===== *)
(** * The app's database

    [DatabaseHandler.java]: one table of experiments and, for each of them,
    one of received messages. The database engine is not part of the
    repository: [Sqlite] is the interface the handler uses, [SqliteLaws] what
    it relies on, and [tables] an engine that satisfies it. *)
From S2P Require Import Prelude KSem Platform Sx12xx CLib Java.
From stdpp Require Import prelude list numbers strings gmap.
From Stdlib Require Import ZArith Lia.
Open Scope Z_scope.

(** ** The engine *)

(** A row: its [_id] and its columns; a column that is missing is NULL. *)
Record row := mk_row { r_id : Z; r_cells : gmap string text }.

Class Sqlite (D : Type) := {
  (** [SELECT * FROM t]; [None] if there is no such table *)
  sql_select : D -> text -> option (list row);
  (** [CREATE TABLE IF NOT EXISTS t (_id INTEGER PRIMARY KEY AUTOINCREMENT, ...)] *)
  sql_create : text -> D -> D;
  (** [insert(t, "", values)] *)
  sql_insert : text -> gmap string text -> D -> D;
  (** [update(t, {column: value}, "_id=?", id)]; a value may be null *)
  sql_update : text -> string -> option text -> Z -> D -> D;
  (** [delete(t, where)] *)
  sql_delete : text -> (row -> bool) -> D -> D }.

(** [values.put] with a value that may be null. *)
Definition put (c : string) (v : option text) (m : gmap string text) : gmap string text :=
  match v with Some x => <[c := x]> m | None => delete c m end.

Definition update_cells (c : string) (v : option text) (id : Z) (r : row) : row :=
  if r_id r =? id then mk_row id (put c v (r_cells r)) else r.

(** Rows come in the order of their [_id], which is never used twice; an
    operation changes its own table only. *)
Class SqliteLaws (D : Type) `{Sqlite D} := {
  select_create t t' d :
    sql_select (sql_create t d) t' =
    if decide (t = t') then Some (default [] (sql_select d t)) else sql_select d t';
  select_insert t vs d rows :
    sql_select d t = Some rows ->
    exists id, Forall (fun r => r_id r < id) rows /\
      sql_select (sql_insert t vs d) t = Some (rows ++ [mk_row id vs]);
  select_insert_other t t' vs d :
    t <> t' \/ sql_select d t = None -> sql_select (sql_insert t vs d) t' = sql_select d t';
  select_update t t' c v id d :
    sql_select (sql_update t c v id d) t' =
    if decide (t = t') then map (update_cells c v id) <$> sql_select d t else sql_select d t';
  select_delete t t' w d :
    sql_select (sql_delete t w d) t' =
    if decide (t = t') then List.filter (fun r => negb (w r)) <$> sql_select d t else sql_select d t' }.

(** An engine: for each table the largest [_id] so far and the rows. *)
Record tables := mk_tables { tabs : gmap text (Z * list row) }.

#[export] Instance tables_sqlite : Sqlite tables := {
  sql_select d t := snd <$> tabs d !! t;
  sql_create t d := mk_tables (match tabs d !! t with Some _ => tabs d | None => <[t := (0, [])]> (tabs d) end);
  sql_insert t vs d :=
    mk_tables (alter (fun x : Z * list row =>
      let id := Z.max x.1 (foldr Z.max 0 (map r_id x.2)) + 1 in (id, x.2 ++ [mk_row id vs])) t (tabs d));
  sql_update t c v id d :=
    mk_tables (alter (fun x : Z * list row => (x.1, map (update_cells c v id) x.2)) t (tabs d));
  sql_delete t w d :=
    mk_tables (alter (fun x : Z * list row =>
      (Z.max x.1 (foldr Z.max 0 (map r_id x.2)), List.filter (fun r => negb (w r)) x.2)) t (tabs d)) }.

Lemma max_above l x : In x l -> x <= foldr Z.max 0 l.
Proof. induction l as [|y l IH]; [done|]. cbn. intros [->|H%IH]; lia. Qed.

#[export] Instance tables_laws : SqliteLaws tables.
Proof.
  split; cbn.
  - intros t t' d. case_decide as Heq.
    + subst t'. destruct (tabs d !! t) as [x|] eqn:E; [by rewrite E|by rewrite lookup_insert_eq].
    + destruct (tabs d !! t) as [x|] eqn:E; [done|]. by rewrite lookup_insert_ne.
  - intros t vs d rows E. rewrite lookup_alter_eq. destruct (tabs d !! t) as [[m l]|]; [|done].
    cbn in *. injection E as ->. eexists. split; [|done]. apply List.Forall_forall. intros r Hr.
    pose proof (max_above _ _ (in_map r_id _ _ Hr)). lia.
  - intros t t' vs d H. destruct (decide (t = t')) as [<-|Hne]; [|by rewrite lookup_alter_ne].
    destruct H as [|H]; [done|]. rewrite lookup_alter_eq. by destruct (tabs d !! t).
  - intros t t' c v id d. case_decide; subst; [rewrite lookup_alter_eq|by rewrite lookup_alter_ne].
    by destruct (tabs d !! t').
  - intros t t' w d. case_decide; subst; [rewrite lookup_alter_eq|by rewrite lookup_alter_ne].
    by destruct (tabs d !! t').
Qed.

(** ** DatabaseHandler *)

Definition NUMBER_OF_MESSAGES : nat := 1.
Definition TIME_BETWEEN_MSGS : nat := 2.
Definition MSG_LENGTH : nat := 3.
Definition AUTO_INCREMENT : nat := 5.
Definition DESCRIPTION : nat := 6.
Definition TARGET_DISTANCE : nat := 7.
Definition SENDER_HEIGHT : nat := 8.
Definition RECEIVER_HEIGHT : nat := 9.
Definition ENVIRONMENT : nat := 10.
Definition STATE : nat := 11.
Definition FREQUENCIES : nat := 12.
Definition BANDWIDTHS : nat := 13.
Definition SPREADING_FACTORS : nat := 14.
Definition CODING_RATES : nat := 15.
Definition POWERS : nat := 16.
Definition START_TIME : nat := 19.
Definition SENDER_LATITUDE : nat := 20.
Definition SENDER_LONGITUDE : nat := 21.
Definition SENDER_ALTITUDE : nat := 22.
Definition RECEIVER_LATITUDE : nat := 23.
Definition RECEIVER_LONGITUDE : nat := 24.
Definition RECEIVER_ALTITUDE : nat := 25.
Definition ACTUAL_DISTANCE : nat := 26.
Definition TEMPERATURE_VALUES : nat := 28.
Definition SENDER_ORIENTATION : nat := 32.
Definition RECEIVER_ORIENTATION : nat := 32.
Definition EXPERIMENT_VALUE_COUNT : nat := 34.
Definition EXPERIMENT_DATA_VALUE_COUNT : nat := 5.
Definition READY : text := txt "ready".
Definition FINISHED : text := txt "finished".

(** The tables. *)
Definition Experiments : text := txt "Experiments".
Definition Experiment (expNumber : text) : text := txt "Experiment" ++ expNumber.

Definition exp_columns : list string :=
  ["_id"; "number_of_messages"; "time_between_msgs"; "msg_length"; "payload_seed"; "auto_increment";
   "description"; "target_distance"; "sender_height"; "receiver_height"; "environment"; "state";
   "frequencies"; "bandwidths"; "spreading_factors"; "coding_rates"; "powers";
   "number_of_iterations"; "duration";
   "start_time"; "sender_latitude"; "sender_longitude"; "sender_altitude"; "receiver_latitude";
   "receiver_longitude"; "receiver_altitude"; "actual_distance"; "altitude_difference";
   "temperature_values"; "humidity_values"; "pressure_values"; "weather_descriptions";
   "sender_orientation"; "receiver_orientation"].

Definition data_columns : list string := ["_id"; "totalnumber"; "identifier"; "rssi"; "snr"; "biterrors"].

(** [cursor.getString(i)]. *)
Definition getString (columns : list string) (r : row) (i : nat) : option text :=
  match i with O => Some (decimal (r_id r)) | _ => c ← columns !! i; r_cells r !! c end.

(** A value in the concatenation of strings. *)
Definition shown (v : option text) : text := default (txt "null") v.

Section handler.
Context {D : Type} `{Sqlite D}.

(** The first access to the database creates the table of experiments. *)
Definition DatabaseHandler : J D unit := assign (sql_create Experiments).

Definition logExperiment (numberOfMessages timeBetweenMsgs msgLength payloadSeed autoIncrement
    description targetDistance senderHeight receiverHeight environment state
    frequencies bandwidths spreadingFactors codingRates powers : text) : J D unit :=
  assign (sql_insert Experiments (list_to_map [
    ("number_of_messages", numberOfMessages); ("time_between_msgs", timeBetweenMsgs);
    ("msg_length", msgLength); ("payload_seed", payloadSeed); ("auto_increment", autoIncrement);
    ("description", description); ("target_distance", targetDistance); ("sender_height", senderHeight);
    ("receiver_height", receiverHeight); ("environment", environment); ("state", state);
    ("frequencies", frequencies); ("bandwidths", bandwidths); ("spreading_factors", spreadingFactors);
    ("coding_rates", codingRates); ("powers", powers)]%string)).

(** [rawQuery("SELECT * FROM t")]. *)
Definition query (t : text) : J D (list row) :=
  d ← field id; orelse SqlError (sql_select d t).

(** [... WHERE _id = absPos; moveToFirst()]: an empty cursor throws when read. *)
Definition experiment_row (absPos : Z) : J D row :=
  rows ← query Experiments;
  orelse IndexOutOfBounds (head (List.filter (fun r => r_id r =? absPos) rows)).

Definition getExperimentInfo (absPos : Z) : J D (list (option text)) :=
  r ← experiment_row absPos;
  mret (map (getString exp_columns r) (seq 0 EXPERIMENT_VALUE_COUNT)).

Definition getSingleExperimentInfoValue (absPos : Z) (column : nat) : J D (option text) :=
  r ← experiment_row absPos;
  mret (getString exp_columns r column).

Definition setValueInExpInfo (update : option text) (column : string) (experimentID : Z) : J D unit :=
  assign (sql_update Experiments column update experimentID).

Definition getPrimaryColumn (withTitle : bool) : J D (list text) :=
  rows ← query Experiments;
  mret (map (fun r => (if withTitle then txt "Experiment " else []) ++ decimal (r_id r)) rows).

Definition getLastPos : J D Z :=
  rows ← query Experiments;
  r ← orelse IndexOutOfBounds (last rows);
  mret (r_id r).

Definition deleteExperiment (absPos : Z) : J D unit :=
  assign (sql_delete Experiments (fun r => r_id r =? absPos));;
  d ← field id;
  _ ← orelse SqlError (sql_select d (Experiment (decimal absPos)));
  assign (sql_delete (Experiment (decimal absPos)) (fun _ => true)).

Definition createTableForIterations (expNumber : text) : J D unit :=
  assign (sql_create (Experiment expNumber)).

(** [entries] is an array of five strings that may be null. *)
Definition logReceivedTransmission (expNumber : text) (entries : list (option text)) : J D unit :=
  e0 ← orelse IndexOutOfBounds (entries !! 0%nat);
  e1 ← orelse IndexOutOfBounds (entries !! 1%nat);
  e2 ← orelse IndexOutOfBounds (entries !! 2%nat);
  e3 ← orelse IndexOutOfBounds (entries !! 3%nat);
  e4 ← orelse IndexOutOfBounds (entries !! 4%nat);
  assign (sql_insert (Experiment expNumber)
    (put "biterrors" e4 (put "snr" e3 (put "rssi" e2 (put "identifier" e1 (put "totalnumber" e0 ∅)))))).

(** The lines of the text file, as bytes. *)
Definition makeExpInfoText (experimentNumber : Z) : J D (list Z) :=
  experiment ← getExperimentInfo experimentNumber;
  mret (concat (map (fun v => getBytes (shown v ++ [10])) experiment)).

(** Five columns, separated by commas, and the end of the line. *)
Definition csv_line (cells : list text) : text :=
  concat (imap (fun i c => c ++ [if (i =? EXPERIMENT_DATA_VALUE_COUNT - 1)%nat then 10 else 44]) cells).

Definition makeCSV (experimentNumber : Z) : J D (list Z) :=
  rows ← query (Experiment (decimal experimentNumber));
  mret (getBytes (csv_line (map txt (tail data_columns))) ++
        concat (map (fun r => getBytes (csv_line (map (fun j => shown (getString data_columns r j))
          (seq 1 EXPERIMENT_DATA_VALUE_COUNT)))) rows)).

End handler.

(** ** Lemmas *)

Lemma decimal_inj m n : decimal m = decimal n -> m = n.
Proof. intros E. pose proof (py_int_decimal m) as H. rewrite E, py_int_decimal in H. by injection H. Qed.

Lemma Experiment_inj m n : Experiment (decimal m) = Experiment (decimal n) -> m = n.
Proof. intros E%app_inv_head. by apply decimal_inj. Qed.

Lemma Experiment_ne n : Experiment (decimal n) <> Experiments.
Proof.
  intros E. change Experiments with (txt "Experiment" ++ [115]) in E. apply app_inv_head in E.
  destruct (decimal_shape n) as (ds & c & r & -> & F & _ & H). rewrite H in E.
  destruct (n <? 0); [done|]. injection E as -> ->. done.
Qed.

Section laws.
Context {D : Type} `{SqliteLaws D}.

Lemma query_ok {B} t rows (f : list row -> J D B) d :
  sql_select d t = Some rows -> mbind f (query t) d = f rows d.
Proof. intros E. unfold query. by rewrite jbind_assoc, jbind_field, (jbind_orelse _ rows). Qed.

(** The row just inserted is found, and it is the last one. *)
Lemma inserted_row vs d rows :
  sql_select d Experiments = Some rows ->
  let d' := sql_insert Experiments vs d in
  exists id, (forall r, In r rows -> r_id r < id) /\
    sql_select d' Experiments = Some (rows ++ [mk_row id vs]) /\
    getLastPos d' = (Ok id, d') /\ experiment_row id d' = (Ok (mk_row id vs), d').
Proof.
  intros E d'. destruct (select_insert _ vs _ _ E) as (id & Hf & Hs). fold d' in Hs. exists id.
  rewrite List.Forall_forall in Hf. split; [done|]. split; [done|]. split.
  - unfold getLastPos. rewrite (query_ok _ _ _ _ Hs), (jbind_orelse _ (mk_row id vs)); [done|]. apply last_snoc.
  - unfold experiment_row. rewrite (query_ok _ _ _ _ Hs). rewrite List.filter_app.
    rewrite (filter_ext_in _ (fun _ => false) rows), filter_false.
    + cbn. by rewrite Z.eqb_refl.
    + intros r Hr%Hf. lia.
Qed.

(** Looking at an experiment is not disturbed by other tables. *)
Lemma experiment_row_select absPos d d' r :
  sql_select d Experiments = sql_select d' Experiments ->
  experiment_row absPos d = (Ok r, d) -> experiment_row absPos d' = (Ok r, d').
Proof.
  unfold experiment_row, query. rewrite !jbind_assoc, !jbind_field. unfold id. intros <-.
  destruct (sql_select d Experiments) as [rows|]; [|done]. cbn [orelse]. rewrite !jbind_ret.
  destruct (head (List.filter (fun r => r_id r =? absPos) rows)) as [x|]; [by intros [= ->]|done].
Qed.

Lemma filter_update c v id i rows :
  List.filter (fun r => r_id r =? i) (map (update_cells c v id) rows) =
  map (update_cells c v id) (List.filter (fun r => r_id r =? i) rows).
Proof.
  induction rows as [|r rows IH]; [done|]. cbn. rewrite IH.
  assert (Hi : r_id (update_cells c v id r) = r_id r).
  { unfold update_cells. by destruct (Z.eqb_spec (r_id r) id) as [->|]. }
  rewrite Hi. by destruct (r_id r =? i).
Qed.

Lemma experiment_row_update c v id i d r :
  experiment_row i d = (Ok r, d) ->
  let d' := sql_update Experiments c v id d in experiment_row i d' = (Ok (update_cells c v id r), d').
Proof.
  unfold experiment_row, query. cbn zeta. rewrite !jbind_assoc, !jbind_field. unfold Datatypes.id.
  rewrite select_update, decide_True by done. destruct (sql_select d Experiments) as [rows|]; [|done].
  cbn [fmap option_fmap option_map orelse]. rewrite !jbind_ret, filter_update.
  destruct (List.filter (fun r => r_id r =? i) rows) as [|x l]; [done|]. cbn. by intros [= ->].
Qed.

Lemma select_other_update c v id d t :
  t <> Experiments -> sql_select (sql_update Experiments c v id d) t = sql_select d t.
Proof. intros Hne. rewrite select_update. by case_decide. Qed.

End laws.
