(* ===== verification/Phone.v ===== *)
(** * The app's side of the Bluetooth connection

    The state the app's screens share, the spinners ([ConfigSetter.java]), the
    encoding of parameters ([Encoder.java], [LVUtil.java]) and the Bluetooth
    central ([Central.java]): what it does when connections, services,
    descriptors and notifications come in, and which broadcasts it sends to
    the screen that is open. *)
From S2P Require Import Prelude KSem Platform Sx12xx CLib Java Database.
From stdpp Require Import prelude list numbers strings gmap.
From Stdlib Require Import ZArith Lia.
Open Scope Z_scope.

(** ** Encoder and LVUtil *)

(** [for (i = 0; ...) if (configs[i]) confByte = (byte) (confByte | (1 << i))]. *)
Definition encodeParamByte (configs : list bool) : Z :=
  foldl (fun confByte '(i, c) => if c : bool then s8 (Z.lor confByte (Z.shiftl 1 i)) else confByte) 0
    (zip (seqZ 0 (Z.of_nat (length configs))) configs).

Definition makeByteUnsigned (b : Z) : Z := Z.land b 0xff.

(** Two digits at least, and a time as the screens show it. *)
Definition two_digits (n : Z) : text := if n <? 10 then txt "0" ++ decimal n else decimal n.
Definition time_text (h m s : Z) : text := two_digits h ++ txt " : " ++ two_digits m ++ txt " : " ++ two_digits s.

(** ** The shared state *)

(** The devices and characteristics the app writes to. *)
Inductive device := SENDER | RECEIVER.
Inductive mode := EXPLORE | EXPERIMENT.
Inductive characteristic :=
| NotificationChar | ChangeConfigChar | SendCommandChar | LoopCommandChar | PrepareSenderChar | DescriptorChar.

#[export] Instance device_eq_dec : EqDecision device.
Proof. solve_decision. Defined.
#[export] Instance mode_eq_dec : EqDecision mode.
Proof. solve_decision. Defined.
#[export] Instance characteristic_eq_dec : EqDecision characteristic.
Proof. solve_decision. Defined.

(** What the app does that can be seen from outside a screen. *)
Inductive act :=
| Toast (msg : text)
| SetText (view : string) (t : text)
| WriteChar (c : characteristic) (bytes : list Z)
| StartActivity (screen : string) (absPos : Z)
| FinishScreen
| WriteFile (name : text) (bytes : list Z)
| CloseConnection
| GetWeather (url : text).

Section phone.
Context {D : Type}.

Record phone := mk_phone {
  db : D;
  config : list Z;
  acts : list act }.

Definition set_db (x : D) (p : phone) : phone := mk_phone x (config p) (acts p).
Definition set_config (x : list Z) (p : phone) : phone := mk_phone (db p) x (acts p).
Definition add_act (a : act) (p : phone) : phone := mk_phone (db p) (config p) (acts p ++ [a]).

(** [public static byte[] config = {0, 0, 3, 0, 0};] *)
Definition initial_phone (d : D) : phone := mk_phone d [0; 0; 3; 0; 0] [].

End phone.
Arguments phone D : clear implicits.

(** Objects that contain the shared state. *)
Class HasPhone (D S : Type) := {
  phone_of : S -> phone D;
  set_phone : phone D -> S -> S;
  phone_set p s : phone_of (set_phone p s) = p }.

#[export] Instance phone_self D : HasPhone D (phone D) :=
  {| phone_of p := p; set_phone p _ := p; phone_set _ _ := eq_refl |}.

Section lift.
Context {D S : Type} `{HasPhone D S}.

Definition on_phone {A} (m : J (phone D) A) : J S A := fun s =>
  let '(r, p) := m (phone_of s) in (r, set_phone p s).

Definition on_db {A} (m : J D A) : J S A :=
  on_phone (fun p => let '(r, d) := m (db p) in (r, set_db d p)).

Definition doing (a : act) : J S unit := on_phone (assign (add_act a)).
Definition toast (s : string) : J S unit := doing (Toast (txt s)).

(** [ConfigSetter.config[i]]. *)
Definition config_at (i : nat) : J S Z :=
  c ← on_phone (field config); orelse IndexOutOfBounds (c !! i).

(** [onItemSelected] of spinner [i]. *)
Definition onItemSelected (i : nat) (position : Z) : J S unit :=
  c ← on_phone (field config);
  _ ← orelse IndexOutOfBounds (c !! i);
  on_phone (assign (set_config (<[i := s8 position]> c))).

End lift.

(** The selections [setExploreSpinners] makes. *)
Definition selections : list Z := [0; 0; 3; 0; 7].

(** ** Central *)

Inductive broadcast :=
| ConnState (connected : bool)
| RssiSnr (bytes : list Z)
| Msg (bytes : list Z)
| General (status : Z).

(** What the callbacks of the Bluetooth stack lead to. *)
Inductive gatt_action :=
| DiscoverServices
| ReadDescriptor
| EnableNotification
| WriteDescriptor
| CloseGatt
| StartScanning
| Broadcast (b : broadcast)
| PostDelayed (ms : Z) (c : characteristic).

(** [onConnectionStateChange]. *)
Inductive conn_state := STATE_CONNECTED | STATE_DISCONNECTED | STATE_OTHER.
Definition onConnectionStateChange (reopenConnection : bool) (newState : conn_state) : list gatt_action :=
  match newState with
  | STATE_CONNECTED => [DiscoverServices; Broadcast (ConnState true)]
  | STATE_DISCONNECTED =>
      [Broadcast (ConnState false); CloseGatt] ++ (if reopenConnection then [StartScanning] else [])
  | STATE_OTHER => []
  end.

(** [onServicesDiscovered]: unless the sender is to be prepared by a button, the
    settings of the spinners follow after 400 ms. *)
Definition onServicesDiscovered (dev : device) (m : mode) : list gatt_action :=
  [ReadDescriptor] ++
  (if decide (m = EXPERIMENT /\ dev = SENDER) then []
   else [PostDelayed 400 (match m with EXPLORE => ChangeConfigChar | EXPERIMENT => SendCommandChar end)]).

(** The delayed [run]. *)
Definition delayed_run {D S} `{HasPhone D S} (dev : device) (m : mode) : J S unit :=
  match m with
  | EXPLORE => c ← on_phone (field config); doing (WriteChar ChangeConfigChar c)
  | EXPERIMENT =>
      match dev with
      | RECEIVER => c ← on_phone (field config); doing (WriteChar SendCommandChar c)
      | SENDER => mret tt
      end
  end.

Definition onDescriptorRead : list gatt_action := [EnableNotification; WriteDescriptor].

(** [filterContent]: the bytes before the last full stop; nothing without one. *)
Definition filterContent (msg : list Z) : list Z :=
  let index := foldl (fun index '(i, b) => if b =? 46 then i else index) 0
    (zip (seqZ 0 (Z.of_nat (length msg))) msg) in
  take (Z.to_nat index) msg.

(** [onCharacteristicChanged]. *)
Definition onCharacteristicChanged (dev : device) (bytes : list Z) : result (list broadcast) :=
  match bytes with
  | [] => Throw IndexOutOfBounds
  | b0 :: _ =>
      if b0 =? -2 then Ok [General (-2)]
      else if (b0 =? -3) || (b0 =? -4) || (b0 =? -5) || (b0 =? -6) then Ok [General b0]
      else
        match dev with
        | RECEIVER => if b0 =? -1 then Ok [RssiSnr bytes] else Ok [Msg (filterContent bytes)]
        | SENDER => Ok []
        end
  end.

(** ** UUIDs (strings.xml) *)

(** [UUID.fromString] of the app's strings, by their first 32 bits; they
    continue as the Bluetooth base UUID. *)
Definition service_uuid (d : device) : Z := match d with SENDER => 0x180e | RECEIVER => 0x1811 end.
Definition characteristic_uuid (d : device) (c : characteristic) : option Z :=
  match d, c with
  | SENDER, NotificationChar => Some 0x2a3a
  | SENDER, ChangeConfigChar => Some 0x2a3b
  | SENDER, SendCommandChar => Some 0x2a3c
  | SENDER, LoopCommandChar => Some 0x2a3d
  | SENDER, PrepareSenderChar => Some 0x2a3e
  | RECEIVER, NotificationChar => Some 0x2a3f
  | RECEIVER, ChangeConfigChar => Some 0x2a40
  | RECEIVER, SendCommandChar => Some 0x2a41
  | RECEIVER, (LoopCommandChar | PrepareSenderChar) => None
  | _, DescriptorChar => Some 0x2902
  end.

(** ** Lemmas on the lifted state *)

Section lemmas.
Context {D S : Type} `{HasPhone D S}.

Lemma on_phone_ok {A B} (m : J (phone D) A) (f : A -> J S B) s a p :
  m (phone_of s) = (Ok a, p) -> mbind f (on_phone m) s = f a (set_phone p s).
Proof. intros E. eapply jbind_ok. unfold on_phone. by rewrite E. Qed.

Lemma on_db_ok {A B} (m : J D A) (f : A -> J S B) s a d :
  m (db (phone_of s)) = (Ok a, d) ->
  mbind f (on_db m) s = f a (set_phone (set_db d (phone_of s)) s).
Proof. intros E. apply on_phone_ok. by rewrite E. Qed.

Lemma doing_ok {B} a (f : unit -> J S B) s :
  mbind f (doing a) s = f tt (set_phone (add_act a (phone_of s)) s).
Proof. by apply on_phone_ok. Qed.

Lemma read_phone_ok {A B} (g : phone D -> A) (f : A -> J S B) s :
  mbind f (on_phone (field g)) s = f (g (phone_of s)) (set_phone (phone_of s) s).
Proof. by apply on_phone_ok. Qed.

End lemmas.
#[export] Hint Rewrite @doing_ok @read_phone_ok : java.
