(* ===== verification/Customize.v ===== *)
(** * Creating an experiment in the app

    [CustomizeExperimentsScreen.java]: what the user fills in is checked,
    encoded and logged. *)
From S2P Require Import Prelude KSem Platform Sx12xx CLib Plan Java Database Phone.
From stdpp Require Import prelude list numbers strings gmap.
From Stdlib Require Import ZArith Lia.
Open Scope Z_scope.

(** The fields and check boxes of the screen. *)
Record form := mk_form {
  noMsgs : text; timeBetween : text; msgLength : text; autoIncrement : bool;
  description : text; distance : text; heightSender : text; heightReceiver : text; environment : text;
  frBits : list bool; bwBits : list bool; sfBits : list bool; crBits : list bool; pwBits : list bool;
  start_now : bool }.

(** The lists have the length of the arrays of resource ids. *)
Definition form_ok (f : form) : Prop :=
  length (frBits f) = 8%nat /\ length (bwBits f) = 2%nat /\ length (sfBits f) = 6%nat /\
  length (crBits f) = 4%nat /\ length (pwBits f) = 8%nat.

Definition allParametersHaveOneChecked (f : form) : bool :=
  forallb (existsb id) [frBits f; bwBits f; sfBits f; crBits f; pwBits f].

Section screen.
Context {D : Type} `{Sqlite D}.
Abbreviation M := (J (phone D)).

(** [Byte.toString(Encoder.encodeParamByte(bits))]. *)
Definition boxes_text (bits : list bool) : text := decimal (encodeParamByte bits).

(** [noMsgs.equals("") || Integer.parseInt(noMsgs) < 1 || Integer.parseInt(noMsgs) > 100]. *)
Definition noMsgs_refused (f : form) : M bool :=
  if text_eqb (noMsgs f) [] then mret true
  else v ← orelse NumberFormat (parseInt (noMsgs f)); mret ((v <? 1) || (100 <? v)).

(** [msgLength.equals("") || Integer.parseInt(msgLength) < 11 || Integer.parseInt(noMsgs) > 100]. *)
Definition msgLength_refused (f : form) : M bool :=
  if text_eqb (msgLength f) [] then mret true
  else
    v ← orelse NumberFormat (parseInt (msgLength f));
    if v <? 11 then mret true
    else w ← orelse NumberFormat (parseInt (noMsgs f)); mret (100 <? w).

Definition log_form (f : form) : M unit :=
  on_db (logExperiment (noMsgs f) (timeBetween f) (msgLength f) (txt "0") (bool_text (autoIncrement f))
    (description f) (distance f) (heightSender f) (heightReceiver f) (environment f) READY
    (boxes_text (frBits f)) (boxes_text (bwBits f)) (boxes_text (sfBits f))
    (boxes_text (crBits f)) (boxes_text (pwBits f))).

Definition experimentReady (f : form) : M unit :=
  refused ← noMsgs_refused f;
  if refused : bool then toast "Please specify the number of messages (between 1 and 100)"
  else if text_eqb (timeBetween f) [] then toast "Please specify the time between messages"
  else
    refused ← msgLength_refused f;
    if refused : bool then toast "Please specify a message length between 11 and 100"
    else if text_eqb (distance f) [] then toast "Please specify the distance"
    else if text_eqb (distance f) [] then toast "Please specify the sender height"
    else if text_eqb (distance f) [] then toast "Please specify the receiver height"
    else if text_eqb (environment f) [] then toast "Please specify the environment"
    else if negb (allParametersHaveOneChecked f) then toast "Please check at least one box in every category"
    else
      log_form f;;
      n ← on_db getLastPos;
      on_db (createTableForIterations (decimal n));;
      if start_now f then n ← on_db getLastPos; doing (StartActivity "PrepareSenderScreen" n)
      else doing FinishScreen.

End screen.

(** ** The parameter bytes *)

(** The boxes that are checked. *)
Definition checked (boxes : list bool) : list Z :=
  List.filter (fun i => default false (boxes !! Z.to_nat i)) (range (Z.of_nat (length boxes))).

Definition encode_from (i : Z) (b : Z) (configs : list bool) : Z :=
  foldl (fun confByte '(i, c) => if c : bool then s8 (Z.lor confByte (Z.shiftl 1 i)) else confByte) b
    (zip (seqZ i (Z.of_nat (length configs))) configs).

Lemma s8_testbit x j : 0 <= j < 8 -> Z.testbit (s8 x) j = Z.testbit x j.
Proof.
  intros Hj. rewrite <- (Z.mod_pow2_bits_low (s8 x) 8 j), <- (Z.mod_pow2_bits_low x 8 j) by lia.
  f_equal. exact (u8_s8 x).
Qed.

Lemma encode_from_cons i b c configs :
  encode_from i b (c :: configs) =
  encode_from (i + 1) (if c then s8 (Z.lor b (Z.shiftl 1 i)) else b) configs.
Proof.
  unfold encode_from. cbn [length]. rewrite seqZ_cons by lia.
  by replace (Z.pred _) with (Z.of_nat (length configs)) by lia.
Qed.

Lemma encode_from_bits configs i b j :
  0 <= i -> i + Z.of_nat (length configs) <= 8 -> 0 <= j < 8 ->
  Z.testbit (encode_from i b configs) j =
  Z.testbit b j || ((i <=? j) && default false (configs !! Z.to_nat (j - i))).
Proof.
  revert i b. induction configs as [|c configs IH]; intros i b Hi Hl Hj.
  { cbn. rewrite andb_false_r. by rewrite orb_false_r. }
  cbn [length] in Hl. rewrite encode_from_cons, IH by lia.
  assert (Hb : Z.testbit (if c then s8 (Z.lor b (Z.shiftl 1 i)) else b) j = Z.testbit b j || (c && (i =? j))).
  { destruct c; [|by rewrite orb_false_r]. rewrite s8_testbit, Z.lor_spec, Z.shiftl_1_l by lia.
    by rewrite Z.pow2_bits_eqb by lia. }
  rewrite Hb. destruct (Z.eqb_spec i j) as [->|Hne].
  - destruct (Z.leb_spec (j + 1) j); [lia|]. rewrite Z.leb_refl, Z.sub_diag. cbn. by rewrite andb_true_r, orb_false_r.
  - rewrite andb_false_r, orb_false_r. f_equal.
    destruct (Z.leb_spec (i + 1) j), (Z.leb_spec i j); try lia; try done.
    replace (Z.to_nat (j - i)) with (S (Z.to_nat (j - (i + 1)))) by lia. done.
Qed.

(** The byte the boxes are encoded in, and what it is on the device. *)
Lemma encode_bits boxes j :
  (length boxes <= 8)%nat -> 0 <= j < 8 ->
  Z.testbit (u8 (encodeParamByte boxes)) j = default false (boxes !! Z.to_nat j).
Proof.
  intros Hl Hj. unfold u8. rewrite Z.mod_pow2_bits_low by lia.
  change (encodeParamByte boxes) with (encode_from 0 0 boxes).
  rewrite encode_from_bits, Z.sub_0_r by lia. rewrite Z.bits_0. by destruct (Z.leb_spec 0 j); [|lia].
Qed.

Lemma encode_range boxes : (length boxes <= 8)%nat -> - 128 <= encodeParamByte boxes <= 127.
Proof.
  intros _. change (encodeParamByte boxes) with (encode_from 0 0 boxes).
  assert (H : forall i b, - 128 <= b <= 127 -> - 128 <= encode_from i b boxes <= 127); [|by apply H].
  induction boxes as [|c boxes IH]; intros i b Hb; [done|]. rewrite encode_from_cons. apply IH.
  destruct c; [|done]. pose proof (s8_range (Z.lor b (Z.shiftl 1 i))). lia.
Qed.

(** The device's loops visit exactly the checked boxes. *)
Lemma bits_encoded boxes n :
  (length boxes <= 8)%nat -> Z.of_nat (length boxes) <= n <= 8 -> bits n (u8 (encodeParamByte boxes)) = checked boxes.
Proof.
  intros Hl Hn. unfold bits, checked, range.
  replace n with (Z.of_nat (length boxes) + (n - Z.of_nat (length boxes))) by lia.
  rewrite seqZ_app by lia. rewrite List.filter_app, Z.add_0_l.
  assert (E : forall i, 0 <= i < 8 -> bit_set (u8 (encodeParamByte boxes)) i = default false (boxes !! Z.to_nat i)).
  { intros i Hi. rewrite bit_set_spec by lia. by apply encode_bits. }
  rewrite (filter_ext_in _ (fun _ => false) (seqZ (Z.of_nat _) _)), filter_false, app_nil_r.
  2: { intros i Hi%list_elem_of_In%elem_of_seqZ. rewrite E by lia. by rewrite lookup_ge_None_2 by lia. }
  apply filter_ext_in. intros i Hi%list_elem_of_In%elem_of_seqZ. apply E. lia.
Qed.

Lemma existsb_checked boxes : existsb id boxes = true -> checked boxes <> [].
Proof.
  intros (b & Hb & Hi)%existsb_exists. unfold id in Hi. subst b.
  apply list_elem_of_In, list_elem_of_lookup in Hb as (i & Hi).
  intros E. assert (Hin : In (Z.of_nat i) (checked boxes)); [|by rewrite E in Hin].
  apply filter_In. rewrite Nat2Z.id, Hi. split; [|done]. apply range_spec.
  apply lookup_lt_Some in Hi. lia.
Qed.
