(* ===== verification/StartScreen.v ===== *)
(** * Running an experiment from the app

    [StartExperimentScreen.java]: the summary of an experiment, the settings
    sent to the receiver, the countdowns, and the handlers of the broadcasts
    with which [Central] forwards what the receiver notifies. *)
From S2P Require Import Prelude KSem Platform Sx12xx CLib Java Database Phone.
From stdpp Require Import prelude list numbers strings gmap.
From Stdlib Require Import ZArith Lia.
Open Scope Z_scope.

(** ** Resources (strings.xml) *)

Definition frequency_array : list text :=
  map txt ["869.5 MHz"; "868.1 MHz"; "868.3 MHz"; "868.5 MHz"; "867.1 MHz"; "867.3 MHz"; "867.5 MHz"; "867.7 MHz"]%string.
Definition bandwidth_array : list text := map txt ["125 kHz"; "250 kHz"; "500 kHz"]%string.
Definition SF_array : list text := map txt ["7"; "8"; "9"; "10"; "11"; "12"]%string.
Definition CR_array : list text := map txt ["4/5"; "4/6"; "4/7"; "4/8"]%string.
Definition power_array : list text := map txt ["18"; "16"; "14"; "12"; "10"; "8"; "6"; "4"]%string.
Definition db_location_identifiers : list string :=
  ["sender_latitude"; "sender_longitude"; "sender_altitude"; "receiver_latitude"; "receiver_longitude"; "receiver_altitude"].

(** [arrayResourceIds]. *)
Definition arrayResourceIds : list (list text) :=
  [frequency_array; bandwidth_array; SF_array; CR_array; power_array].

(** ** The screen *)

Section screen.
Context {D : Type} `{Sqlite D}.

Record start_screen := mk_start {
  experimentNumber : Z;
  entry : list (option text);
  multipliers : list Z;
  hoursD : Z; minutesD : Z; secondsD : Z;
  duration : Z; iterations : Z; total : Z;
  connected : bool; ready : bool; connToastsDeactivated : bool; gpsLogged : bool; justShowingInfo : bool;
  dbEntries : option (list (option text));
  timer : option (Z * bool);
  screen_app : phone D }.

Definition set_entry x s := mk_start (experimentNumber s) x (multipliers s) (hoursD s) (minutesD s)
  (secondsD s) (duration s) (iterations s) (total s) (connected s) (ready s) (connToastsDeactivated s)
  (gpsLogged s) (justShowingInfo s) (dbEntries s) (timer s) (screen_app s).
Definition set_multipliers x s := mk_start (experimentNumber s) (entry s) x (hoursD s) (minutesD s)
  (secondsD s) (duration s) (iterations s) (total s) (connected s) (ready s) (connToastsDeactivated s)
  (gpsLogged s) (justShowingInfo s) (dbEntries s) (timer s) (screen_app s).
Definition set_clock h m sec s := mk_start (experimentNumber s) (entry s) (multipliers s) h m
  sec (duration s) (iterations s) (total s) (connected s) (ready s) (connToastsDeactivated s)
  (gpsLogged s) (justShowingInfo s) (dbEntries s) (timer s) (screen_app s).
Definition set_plan d i s := mk_start (experimentNumber s) (entry s) (multipliers s) (hoursD s) (minutesD s)
  (secondsD s) d i (total s) (connected s) (ready s) (connToastsDeactivated s)
  (gpsLogged s) (justShowingInfo s) (dbEntries s) (timer s) (screen_app s).
Definition set_total x s := mk_start (experimentNumber s) (entry s) (multipliers s) (hoursD s) (minutesD s)
  (secondsD s) (duration s) (iterations s) x (connected s) (ready s) (connToastsDeactivated s)
  (gpsLogged s) (justShowingInfo s) (dbEntries s) (timer s) (screen_app s).
Definition set_connected x s := mk_start (experimentNumber s) (entry s) (multipliers s) (hoursD s) (minutesD s)
  (secondsD s) (duration s) (iterations s) (total s) x (ready s) (connToastsDeactivated s)
  (gpsLogged s) (justShowingInfo s) (dbEntries s) (timer s) (screen_app s).
Definition set_ready x s := mk_start (experimentNumber s) (entry s) (multipliers s) (hoursD s) (minutesD s)
  (secondsD s) (duration s) (iterations s) (total s) (connected s) x (connToastsDeactivated s)
  (gpsLogged s) (justShowingInfo s) (dbEntries s) (timer s) (screen_app s).
Definition set_connToasts x s := mk_start (experimentNumber s) (entry s) (multipliers s) (hoursD s) (minutesD s)
  (secondsD s) (duration s) (iterations s) (total s) (connected s) (ready s) x
  (gpsLogged s) (justShowingInfo s) (dbEntries s) (timer s) (screen_app s).
Definition set_gpsLogged x s := mk_start (experimentNumber s) (entry s) (multipliers s) (hoursD s) (minutesD s)
  (secondsD s) (duration s) (iterations s) (total s) (connected s) (ready s) (connToastsDeactivated s)
  x (justShowingInfo s) (dbEntries s) (timer s) (screen_app s).
Definition set_justShowing x s := mk_start (experimentNumber s) (entry s) (multipliers s) (hoursD s) (minutesD s)
  (secondsD s) (duration s) (iterations s) (total s) (connected s) (ready s) (connToastsDeactivated s)
  (gpsLogged s) x (dbEntries s) (timer s) (screen_app s).
Definition set_dbEntries x s := mk_start (experimentNumber s) (entry s) (multipliers s) (hoursD s) (minutesD s)
  (secondsD s) (duration s) (iterations s) (total s) (connected s) (ready s) (connToastsDeactivated s)
  (gpsLogged s) (justShowingInfo s) x (timer s) (screen_app s).
Definition set_timer x s := mk_start (experimentNumber s) (entry s) (multipliers s) (hoursD s) (minutesD s)
  (secondsD s) (duration s) (iterations s) (total s) (connected s) (ready s) (connToastsDeactivated s)
  (gpsLogged s) (justShowingInfo s) (dbEntries s) x (screen_app s).
Definition set_app x s := mk_start (experimentNumber s) (entry s) (multipliers s) (hoursD s) (minutesD s)
  (secondsD s) (duration s) (iterations s) (total s) (connected s) (ready s) (connToastsDeactivated s)
  (gpsLogged s) (justShowingInfo s) (dbEntries s) (timer s) x.

#[export] Instance start_phone : HasPhone D start_screen :=
  {| phone_of := screen_app; set_phone := set_app; phone_set _ _ := eq_refl |}.

Abbreviation M := (J start_screen).

(** The object before [onCreate]. *)
Definition new_screen (absPos : Z) (p : phone D) : start_screen :=
  mk_start absPos [] (replicate 7 0) 0 0 0 0 0 0 false false false false false None None p.

(** ** The summary *)

(** [entry.get(i)] as an argument of a parser: null is no number. *)
Definition entry_parsed (parser : text -> option Z) (i : nat) : M Z :=
  e ← field entry;
  v ← orelse IndexOutOfBounds (e !! i);
  t ← orelse NumberFormat v;
  orelse NumberFormat (parser t).

Definition entry_shown (e : list (option text)) (i : nat) : text := shown (default None (e !! i)).

(** The loop of [decodeConfigByte]. *)
Fixpoint decode_loop (strings1 : list text) (param : nat) (bits : Z) (l : list Z) (summary : text) : M text :=
  match l with
  | [] => mret summary
  | i :: l' =>
      if Z.land (Z.shiftr bits i) 1 =? 1 then
        s ← orelse IndexOutOfBounds (strings1 !! Z.to_nat i);
        m ← field multipliers;
        x ← orelse IndexOutOfBounds (m !! param);
        assign (set_multipliers (<[param := jint (x + 1)]> m));;
        decode_loop strings1 param bits l' (summary ++ s ++ txt ", ")
      else decode_loop strings1 param bits l' summary
  end.

Definition decodeConfigByte (param : nat) (bits : Z) : M text :=
  strings1 ← orelse IndexOutOfBounds (arrayResourceIds !! param);
  summary ← decode_loop strings1 param bits (range 8) (txt " ");
  if (length summary <? 2)%nat then throw IndexOutOfBounds
  else mret (take (length summary - 2) summary).

(** [multipliers[i] = v]. *)
Definition set_multiplier (i : nat) (v : Z) : M unit :=
  m ← field multipliers;
  assign (set_multipliers (<[i := v]> m)).

(** The last loop: iterations, messages and, left at the last multiplier, the duration. *)
Definition plan_numbers (m : list Z) : Z * Z * Z :=
  let '(it, msgs) := foldl (fun '(it, msgs) '(i, x) =>
      (if (i <? 5)%nat then jint (it * x) else it, jint (msgs * x)))
    (1, 1) (zip (seq 0 6) (take 6 m)) in
  let d := jint (msgs * default 0 (m !! 6%nat)) in
  (it, msgs, jint (d + jint (5 * it))).

Definition initSummary : M unit :=
  n ← field experimentNumber;
  e ← on_db (getExperimentInfo n);
  assign (set_entry e);;
  doing (SetText "transmission_settings"
    (txt "Number of messages: " ++ entry_shown e NUMBER_OF_MESSAGES ++ [10] ++
     txt "Time between messages: " ++ entry_shown e TIME_BETWEEN_MSGS ++ [10] ++
     txt "Message length: " ++ entry_shown e MSG_LENGTH ++ [10] ++
     txt "Auto increment: " ++ entry_shown e AUTO_INCREMENT));;
  v ← entry_parsed parseInt NUMBER_OF_MESSAGES; set_multiplier 5 v;;
  v ← entry_parsed parseInt TIME_BETWEEN_MSGS; set_multiplier 6 v;;
  doing (SetText "environment_settings"
    (txt "Description: " ++ entry_shown e DESCRIPTION ++ [10] ++
     txt "Target Distance: " ++ entry_shown e TARGET_DISTANCE ++ txt " m" ++ [10] ++
     txt "Height of Sender: " ++ entry_shown e SENDER_HEIGHT ++ txt " m" ++ [10] ++
     txt "Height of Receiver: " ++ entry_shown e RECEIVER_HEIGHT ++ txt " m" ++ [10] ++
     txt "Environment: " ++ entry_shown e ENVIRONMENT));;
  b ← entry_parsed parseByte FREQUENCIES; fr ← decodeConfigByte 0 b;
  b ← entry_parsed parseByte BANDWIDTHS; bw ← decodeConfigByte 1 b;
  b ← entry_parsed parseByte SPREADING_FACTORS; sf ← decodeConfigByte 2 b;
  b ← entry_parsed parseByte CODING_RATES; cr ← decodeConfigByte 3 b;
  b ← entry_parsed parseByte POWERS; pw ← decodeConfigByte 4 b;
  doing (SetText "lora_settings"
    (txt "Frequencies: " ++ fr ++ [10] ++ txt "Bandwidths: " ++ bw ++ [10] ++ txt "Spreading factors: " ++ sf ++
     [10] ++ txt "Coding rates: " ++ cr ++ [10] ++ txt "Powers: " ++ pw));;
  m ← field multipliers;
  let '(it, msgs, d) := plan_numbers m in
  assign (set_plan d it);;
  on_db (setValueInExpInfo (Some (decimal it)) "number_of_iterations" n);;
  on_db (setValueInExpInfo (Some (decimal d)) "duration" n);;
  doing (SetText "exp" (txt "Total messages: " ++ decimal msgs ++ [10] ++ txt "Iterations: " ++ decimal it ++
    [10] ++ txt "Duration: " ++ decimal d ++ txt " s")).

(** [onCreate]: an experiment that is not ready is only shown. *)
Definition onCreate : M unit :=
  initSummary;;
  n ← field experimentNumber;
  st ← on_db (getSingleExperimentInfoValue n STATE);
  st ← orelse NullPointer st;
  if text_eqb st READY then mret tt else assign (set_justShowing true).

(** ** Starting *)

Definition createSettingsBytes (total : Z) : M (list Z) :=
  b0 ← entry_parsed parseByte NUMBER_OF_MESSAGES;
  b1 ← entry_parsed parseByte TIME_BETWEEN_MSGS;
  b2 ← entry_parsed parseByte MSG_LENGTH;
  e ← field entry;
  a ← orelse IndexOutOfBounds (e !! AUTO_INCREMENT);
  b4 ← entry_parsed parseByte FREQUENCIES;
  b5 ← entry_parsed parseByte BANDWIDTHS;
  b6 ← entry_parsed parseByte SPREADING_FACTORS;
  b7 ← entry_parsed parseByte CODING_RATES;
  b8 ← entry_parsed parseByte POWERS;
  mret ([b0; b1; b2; if parseBoolean (default [] a) then 1 else 0; b4; b5; b6; b7; b8] ++
        getBytes (decimal (Z.quot total 1000))).

(** [startExperiment], with the texts of the three edits. *)
Definition startExperiment (hours minutes seconds : text) : M unit :=
  h ← orelse NumberFormat (parseInt hours);
  m ← orelse NumberFormat (parseInt minutes);
  sec ← orelse NumberFormat (parseInt seconds);
  assign (set_clock h m sec);;
  if (59 <? m) || (59 <? sec) || (m <? 0) || (sec <? 0) || (h <? 0) then
    toast "Number of seconds and minutes must be smaller than 60 and positive"
  else
    let t := jint (jint (jint (jint (h * 3600) + jint (m * 60)) + sec) * 1000) in
    assign (set_total t);;
    p ← config_at 4;
    expSettings ← (if p <? 4 then createSettingsBytes (t + 17000) else createSettingsBytes t);
    r ← field ready;
    if r : bool then
      doing (WriteChar SendCommandChar expSettings);;
      toast "waiting for ACK";;
      doing (SetText "htext" (time_text h m sec));;
      assign (set_connToasts true)
    else toast "devices not ready".

(** [pingDevice]. *)
Definition pingDevice : M unit :=
  r ← field ready;
  if negb r then toast "devices not ready"
  else
    p ← config_at 4;
    (if p <? 4 then assign (set_connToasts true) else mret tt);;
    doing (WriteChar SendCommandChar (getBytes (txt "!"))).

(** [startTimers]: a running countdown is cancelled. *)
Definition startTimers (total : Z) (first : bool) : M unit := assign (set_timer (Some (total, first))).

(** ** Broadcasts *)

(** [connStateBroadcastReceiver.onReceive]. *)
Definition connStateReceived (c : bool) : M unit :=
  assign (set_connected c);;
  if c then
    q ← field connToastsDeactivated;
    if q : bool then mret tt else toast "connected to device"
  else
    assign (set_ready false);;
    q ← field connToastsDeactivated;
    if q : bool then mret tt else toast "disconnected".

(** [bytes[i]]. *)
Definition byte_at (bytes : list Z) (i : nat) : M Z := orelse IndexOutOfBounds (bytes !! i).

(** The two halves of a row: whichever comes second completes and logs it. *)
Definition fill_rssi (rssi snr errors : text) (e : list (option text)) : list (option text) :=
  <[2%nat := Some rssi]> (<[3%nat := Some snr]> (<[4%nat := Some errors]> e)).
Definition fill_msg (totalNumber msg : text) (e : list (option text)) : list (option text) :=
  <[0%nat := Some totalNumber]> (<[1%nat := Some msg]> e).

Definition half_row (fill : list (option text) -> list (option text)) : M unit :=
  e ← field dbEntries;
  match e with
  | None => assign (set_dbEntries (Some (fill (replicate 5 None))))
  | Some e =>
      n ← field experimentNumber;
      assign (set_dbEntries (Some (fill e)));;
      on_db (logReceivedTransmission (decimal n) (fill e));;
      assign (set_dbEntries None)
  end.

(** [broadcastReceiverRSSI.onReceive]. *)
Definition rssiReceived (bytes : list Z) : M unit :=
  b1 ← byte_at bytes 1;
  b3 ← byte_at bytes 3;
  b2 ← byte_at bytes 2;
  let rssi := makeByteUnsigned b1 in
  let bitErrors := makeByteUnsigned b3 in
  doing (SetText "rssi_snr_text" (txt "RSSI: -" ++ decimal rssi ++ txt "     SNR: " ++ decimal b2));;
  half_row (fill_rssi (45 :: decimal rssi) (decimal b2) (decimal bitErrors)).

(** [broadcastReceiverLoraMsg.onReceive]. *)
Definition msgReceived (bytes : list Z) : M unit :=
  b11 ← byte_at bytes 11;
  b10 ← byte_at bytes 10;
  m ← field multipliers;
  k ← orelse IndexOutOfBounds (m !! 5%nat);
  let totalNumber := decimal (jint (b11 + jint (b10 * k))) in
  let str := new_String bytes in
  if (length str <? 10)%nat then throw IndexOutOfBounds
  else
    let msg := take 10 str in
    doing (SetText "msg_content" (msg ++ txt " (" ++ totalNumber ++ txt ")"));;
    half_row (fill_msg totalNumber msg).

(** [generalBroadcastReceiver.onReceive]. *)
Definition generalReceived (status : Z) : M unit :=
  (if status =? -2 then
     q ← field connToastsDeactivated;
     (if q : bool then mret tt else toast "LoRa configuration synchronized, experiment ready");;
     assign (set_ready true)
   else if status =? -3 then toast "correct response received"
   else if status =? -4 then toast "response received but did not match"
   else if status =? -7 then toast "no response received"
   else if status =? -5 then toast "no ACK received, trying again"
   else if status =? -6 then
     toast "ACK received";;
     t ← field total;
     startTimers t true
   else mret tt);;
  if (status =? -3) || (status =? -4) || (status =? -7) then assign (set_connToasts false) else mret tt.

Definition onReceive (b : broadcast) : M unit :=
  match b with
  | ConnState c => connStateReceived c
  | RssiSnr bytes => rssiReceived bytes
  | Msg bytes => msgReceived bytes
  | General status => generalReceived status
  end.

(** ** Location, end of the experiment and upload *)

(** What the phone tells: the time in seconds, its location as text, whether
    there is an internet connection; and the computations on coordinates of
    Android's [Location], [None] when a text is not a number. *)
Record surroundings := mk_surroundings {
  time_s : Z; latitude : text; longitude : text; altitude : text; internet : bool;
  distance_text : text -> text -> text -> text -> option text;
  altitude_text : text -> text -> option text }.

Definition value_of (column : nat) : M text :=
  n ← field experimentNumber;
  v ← on_db (getSingleExperimentInfoValue n column);
  orelse NullPointer v.

Definition set_value (v : text) (column : string) : M unit :=
  n ← field experimentNumber; on_db (setValueInExpInfo (Some v) column n).

Definition writeGPSDataToDB (lat lon alt : text) : M unit :=
  set_value lat "receiver_latitude";;
  set_value lon "receiver_longitude";;
  set_value alt "receiver_altitude".

Definition logLocation (w : surroundings) (orientation : text) : M unit :=
  writeGPSDataToDB (latitude w) (longitude w) (altitude w);;
  set_value orientation "receiver_orientation";;
  toast "receivers GPS data logged";;
  assign (set_gpsLogged true).

(** [allGPSDataExists]: the loop reads the same column six times. *)
Fixpoint allGPSDataExists (k : nat) : M bool :=
  match k with
  | O => mret true
  | Datatypes.S k' =>
      v ← value_of SENDER_LATITUDE;
      if text_eqb v (txt "-1") then mret false else allGPSDataExists k'
  end.

(** The url of [getWeatherData]; the start time has ten digits. *)
Definition getWeatherData : M unit :=
  n ← field experimentNumber;
  lat ← on_db (getSingleExperimentInfoValue n SENDER_LATITUDE);
  lon ← on_db (getSingleExperimentInfoValue n SENDER_LONGITUDE);
  st ← value_of START_TIME;
  if (length st <? 10)%nat then throw IndexOutOfBounds
  else doing (GetWeather (txt "https://api.openweathermap.org/data/2.5/onecall/timemachine?lat=" ++ shown lat ++
    txt "&lon=" ++ shown lon ++ txt "&dt=" ++ take 10 st ++ txt "&appid=your openweathermap API key")).

Definition enterDiffValuesIntoDB (w : surroundings) : M unit :=
  slat ← value_of SENDER_LATITUDE;
  slon ← value_of SENDER_LONGITUDE;
  rlat ← value_of RECEIVER_LATITUDE;
  rlon ← value_of RECEIVER_LONGITUDE;
  d ← orelse NumberFormat (distance_text w slat slon rlat rlon);
  set_value d "actual_distance";;
  salt ← value_of SENDER_ALTITUDE;
  ralt ← value_of RECEIVER_ALTITUDE;
  a ← orelse NumberFormat (altitude_text w salt ralt);
  set_value a "altitude_difference";;
  getWeatherData.

(** The file [makeCSV] writes. *)
Definition write_csv : M unit :=
  n ← field experimentNumber;
  bytes ← on_db (makeCSV n);
  doing (WriteFile (txt "experiment" ++ decimal n ++ txt "/experiment_data" ++ decimal n ++ txt ".csv") bytes).

Definition automaticCsvAndUpload (w : surroundings) : M unit :=
  if negb (internet w) then toast "Not connected to the internet, upload data later"
  else
    ok ← allGPSDataExists 6;
    if negb ok then toast "Some GPS data is missing, upload data later"
    else write_csv;; enterDiffValuesIntoDB w.

(** [completeLocationValues], from the column on: the user is asked for every
    value that is missing. *)
Fixpoint completeLocationValues (w : surroundings) (answer : nat -> text) (columns : list nat) : M unit :=
  match columns with
  | [] => enterDiffValuesIntoDB w
  | column :: columns' =>
      v ← value_of column;
      if negb (text_eqb v (txt "-1")) then completeLocationValues w answer columns'
      else
        c ← orelse IndexOutOfBounds (db_location_identifiers !! (column - SENDER_LATITUDE)%nat);
        set_value (answer column) c;;
        completeLocationValues w answer columns'
  end.

Definition createCsv (w : surroundings) (answer : nat -> text) : M unit :=
  write_csv;;
  completeLocationValues w answer (seq SENDER_LATITUDE 6).

(** [onFinish] of the countdown of the delay. *)
Definition delay_over (w : surroundings) : M unit :=
  set_value (decimal (time_s w)) "start_time";;
  g ← field gpsLogged;
  (if g : bool then mret tt
   else writeGPSDataToDB (latitude w) (longitude w) (altitude w);; toast "receivers GPS data logged");;
  assign (set_connToasts false);;
  d ← field duration;
  assign (set_clock (Z.quot d 3600) (Z.quot (Z.rem d 3600) 60) (Z.rem (Z.rem d 3600) 60));;
  startTimers (jint (d * 1000)) false.

(** [experiments.indexOf(Integer.toString(n)) + 1], where [indexOf] is -1 for what is not there. *)
Definition position_after (n : Z) (experiments : list text) : nat :=
  match list_find (fun t => t = decimal n) experiments with Some (i, _) => Datatypes.S i | None => 0%nat end.

(** [onFinish] of the countdown of the experiment. *)
Definition experiment_over (w : surroundings) : M unit :=
  set_value FINISHED "state";;
  doing CloseConnection;;
  assign (set_connected false);;
  n ← field experimentNumber;
  experiments ← on_db (getPrimaryColumn false);
  (match experiments !! position_after n experiments with
   | Some t =>
       k ← orelse NumberFormat (parseInt t);
       v ← on_db (getSingleExperimentInfoValue k STATE);
       v ← orelse NullPointer v;
       if text_eqb v READY then doing (SetText "nextExpButton" []) else mret tt
   | None => mret tt
   end);;
  automaticCsvAndUpload w.

(** [startNextExperiment]: the sender stays where it was. *)
Definition startNextExperiment : M unit :=
  doing FinishScreen;;
  n ← field experimentNumber;
  experiments ← on_db (getPrimaryColumn false);
  t ← orelse IndexOutOfBounds (experiments !! position_after n experiments);
  k ← orelse NumberFormat (parseInt t);
  lat ← on_db (getSingleExperimentInfoValue n SENDER_LATITUDE);
  on_db (setValueInExpInfo lat "sender_latitude" k);;
  lon ← on_db (getSingleExperimentInfoValue n SENDER_LONGITUDE);
  on_db (setValueInExpInfo lon "sender_longitude" k);;
  alt ← on_db (getSingleExperimentInfoValue n SENDER_ALTITUDE);
  on_db (setValueInExpInfo alt "sender_altitude" k);;
  doing (StartActivity "StartExperimentScreen" k).

End screen.
Arguments start_screen D : clear implicits.
