(* ===== verification/PhoneSettings.v ===== *)
(** * From the app's form to the settings on the devices

    The user's choices go through the check boxes and text fields of one
    screen, the database, the summary of another screen and the bytes written
    to the receiver. The theorems relate the two ends: the plan the devices
    run is the product of the checked boxes, and what the app shows about it
    and counts down is what the devices do. *)
From S2P Require Import Prelude KSem Platform Sx12xx Air CLib Plan Messages Runs Lres LresEval LresWindow LresSweep.
From S2P Require Import Java Database Phone Customize StartScreen.
From stdpp Require Import prelude list numbers strings gmap.
From Stdlib Require Import ZArith Lia.
Open Scope Z_scope.

Lemma parse_other lo hi lo' hi' t n : parse lo hi t = Some n -> lo' <= n <= hi' -> parse lo' hi' t = Some n.
Proof.
  unfold parse. destruct (match t with [] => _ | c :: r => _ end) as [neg ds].
  destruct ds; [done|]. destruct (forallb _ _); [|done].
  set (v := if neg : bool then _ else _). clearbody v.
  destruct (_ && _); [|done]. intros [= ->] H.
  destruct (Z.leb_spec lo' n), (Z.leb_spec n hi'); try lia. done.
Qed.

(** ** A form the app accepts *)

Record accepted (f : form) (n g len : Z) : Prop := {
  ac_form : form_ok f;
  ac_noMsgs : parseInt (noMsgs f) = Some n;
  ac_n : 1 <= n <= 100;
  ac_time : parseInt (timeBetween f) = Some g;
  ac_length : parseInt (msgLength f) = Some len;
  ac_len : 11 <= len;
  ac_distance : distance f <> [];
  ac_environment : environment f <> [];
  ac_boxes : allParametersHaveOneChecked f = true }.

Definition form_cells (f : form) : gmap string text :=
  list_to_map [
    ("number_of_messages", noMsgs f); ("time_between_msgs", timeBetween f);
    ("msg_length", msgLength f); ("payload_seed", txt "0"); ("auto_increment", bool_text (autoIncrement f));
    ("description", description f); ("target_distance", distance f); ("sender_height", heightSender f);
    ("receiver_height", heightReceiver f); ("environment", environment f); ("state", READY);
    ("frequencies", boxes_text (frBits f)); ("bandwidths", boxes_text (bwBits f));
    ("spreading_factors", boxes_text (sfBits f));
    ("coding_rates", boxes_text (crBits f)); ("powers", boxes_text (pwBits f))]%string.

(** The columns read back: what the form holds, and NULL for what is not known yet. *)
Definition form_entry (id : Z) (f : form) : list (option text) :=
  [Some (decimal id); Some (noMsgs f); Some (timeBetween f); Some (msgLength f); Some (txt "0");
   Some (bool_text (autoIncrement f)); Some (description f); Some (distance f); Some (heightSender f);
   Some (heightReceiver f); Some (environment f); Some READY; Some (boxes_text (frBits f));
   Some (boxes_text (bwBits f)); Some (boxes_text (sfBits f)); Some (boxes_text (crBits f));
   Some (boxes_text (pwBits f))] ++ replicate 17 None.

Lemma text_eqb_nil t : t <> [] -> text_eqb t [] = false.
Proof. intros H. by apply bool_decide_eq_false_2. Qed.

Lemma parse_nonempty lo hi t n : parse lo hi t = Some n -> t <> [].
Proof. by intros H ->. Qed.

Section phone.
Context {D : Type} `{SqliteLaws D}.

(** The row [r] holds the form [f]: the columns up to [POWERS]. *)
Definition holds_form (f : form) (id : Z) (r : row) : Prop :=
  r_id r = id /\ forall i, (i <= POWERS)%nat -> Some (getString exp_columns r i) = form_entry id f !! i.

Lemma form_held f id : holds_form f id (mk_row id (form_cells f)).
Proof.
  split; [done|]. intros i Hi. unfold POWERS in Hi. do 17 (destruct i as [|i]; [reflexivity|]). lia.
Qed.

(** Columns that are filled in later do not touch the form. *)
Lemma update_held f id c v r :
  holds_form f id r -> Forall (fun x => x <> c) (take 17 exp_columns) -> holds_form f id (update_cells c v id r).
Proof.
  intros [Hi Hf] Hc. split; [unfold update_cells; by destruct (r_id r =? id)|].
  intros i Hp. rewrite <- Hf by done. f_equal. unfold update_cells. rewrite Hi, Z.eqb_refl.
  destruct i as [|i]; [cbn; by rewrite Hi|]. unfold getString. cbn [r_cells].
  destruct (exp_columns !! S i) as [x|] eqn:E; [|done]. cbn [mbind option_bind].
  assert (Hne : x <> c).
  { rewrite Forall_forall in Hc. apply Hc. apply list_elem_of_lookup. exists (S i).
    rewrite lookup_take_lt; [done|]. unfold POWERS in Hp. lia. }
  unfold put. destruct v; [by rewrite lookup_insert_ne|by rewrite lookup_delete_ne].
Qed.

Lemma form_info id d r :
  experiment_row id d = (Ok r, d) ->
  getExperimentInfo id d = (Ok (map (getString exp_columns r) (seq 0 EXPERIMENT_VALUE_COUNT)), d).
Proof. intros E. unfold getExperimentInfo. by rewrite (jbind_ok _ _ _ _ _ E). Qed.

Lemma form_entry_at f id r i :
  holds_form f id r -> (i <= POWERS)%nat ->
  map (getString exp_columns r) (seq 0 EXPERIMENT_VALUE_COUNT) !! i = form_entry id f !! i.
Proof.
  intros [_ Hf] Hi. rewrite <- Hf by done. unfold POWERS in Hi.
  change (map (getString exp_columns r) (seq 0 EXPERIMENT_VALUE_COUNT))
    with (getString exp_columns r <$> seq 0 EXPERIMENT_VALUE_COUNT).
  rewrite list_lookup_fmap, lookup_seq_lt by (unfold EXPERIMENT_VALUE_COUNT; lia). done.
Qed.

Lemma refused_no (f : form) n g len (p : phone D) :
  accepted f n g len -> noMsgs_refused f p = (Ok false, p) /\ msgLength_refused f p = (Ok false, p).
Proof.
  intros []. unfold noMsgs_refused, msgLength_refused.
  rewrite !text_eqb_nil by (by eapply parse_nonempty).
  rewrite (jbind_orelse _ n), (jbind_orelse _ len) by done.
  destruct (Z.ltb_spec n 1), (Z.ltb_spec 100 n), (Z.ltb_spec len 11); try lia.
  rewrite (jbind_orelse _ n) by done. destruct (Z.ltb_spec 100 n); [lia|]. done.
Qed.

(** The form is in the database [d], where [d0] was before, under the new number [id]. *)
Record logged (f : form) (d0 d : D) (id : Z) : Prop := {
  lg_new : forall rows r, sql_select d0 Experiments = Some rows -> In r rows -> r_id r < id;
  lg_rows : forall rows, sql_select d0 Experiments = Some rows ->
    sql_select d Experiments = Some (rows ++ [mk_row id (form_cells f)]);
  lg_row : experiment_row id d = (Ok (mk_row id (form_cells f)), d);
  lg_table : sql_select d (Experiment (decimal id)) = Some (default [] (sql_select d0 (Experiment (decimal id)))) }.

Lemma logged_insert f d0 rows :
  sql_select d0 Experiments = Some rows ->
  let d1 := sql_insert Experiments (form_cells f) d0 in
  exists id, let d2 := sql_create (Experiment (decimal id)) d1 in
    getLastPos d1 = (Ok id, d1) /\ getLastPos d2 = (Ok id, d2) /\ logged f d0 d2 id.
Proof.
  intros E d1. destruct (inserted_row (form_cells f) _ _ E) as (id & Hf & Hs & Hl & Hr). fold d1 in Hs, Hl, Hr.
  exists id. cbn zeta. set (d2 := sql_create (Experiment (decimal id)) d1).
  assert (Hs2 : sql_select d2 Experiments = sql_select d1 Experiments).
  { unfold d2. rewrite select_create. case_decide as Heq; [by apply Experiment_ne in Heq|done]. }
  split_and!; [done| |split].
  - unfold getLastPos. rewrite (query_ok _ (rows ++ [mk_row id (form_cells f)])) by (by rewrite Hs2).
    rewrite (jbind_orelse _ (mk_row id (form_cells f))); [done|]. apply last_snoc.
  - intros rows' r E'. rewrite E in E'. injection E' as <-. apply Hf.
  - intros rows' E'. rewrite E in E'. injection E' as <-. by rewrite Hs2.
  - by eapply experiment_row_select.
  - unfold d2. rewrite select_create, decide_True by done. do 2 f_equal.
    unfold d1. rewrite select_insert_other; [done|]. left. intros Heq. by apply (Experiment_ne id).
Qed.

(** An accepted form is logged under a new number, with an empty table for its results. *)
Lemma experimentReady_run f n g len (p : phone D) rows :
  accepted f n g len -> sql_select (db p) Experiments = Some rows ->
  exists id p', experimentReady f p = (Ok tt, p') /\ Phone.config p' = Phone.config p /\
    logged f (db p) (db p') id.
Proof.
  intros Ha E. destruct (refused_no f n g len p Ha) as [R1 R2]. destruct Ha.
  destruct (logged_insert f _ _ E) as (id & L1 & L2 & Hg). cbn zeta in *.
  set (d1 := sql_insert Experiments (form_cells f) (db p)) in *.
  set (d2 := sql_create (Experiment (decimal id)) d1) in *.
  exists id. unfold experimentReady.
  rewrite (jbind_ok _ _ _ _ _ R1), (text_eqb_nil (timeBetween f)) by (by eapply parse_nonempty).
  rewrite (jbind_ok _ _ _ _ _ R2), !text_eqb_nil, ac_boxes0 by done. cbn [negb].
  rewrite (jbind_ok _ _ p tt (Phone.set_db d1 p)) by done.
  rewrite (on_db_ok _ _ _ id d1), (on_db_ok _ _ _ tt d2) by done.
  destruct (start_now f); [rewrite (on_db_ok _ _ _ id d2) by done|].
  - by eexists.
  - by eexists.
Qed.

(** ** The summary *)

Lemma entry_parsed_ok {B} parser i t v (k : Z -> J (start_screen D) B) s :
  entry s !! i = Some (Some t) -> parser t = Some v -> mbind k (entry_parsed parser i) s = k v s.
Proof.
  intros E P. unfold entry_parsed. rewrite jbind_assoc, jbind_field, jbind_assoc, (jbind_orelse _ (Some t)) by done.
  by rewrite jbind_assoc, (jbind_orelse _ t), (jbind_orelse _ v).
Qed.

Lemma set_multipliers_id (s : start_screen D) m : m = multipliers s -> set_multipliers m s = s.
Proof. intros ->. by destruct s. Qed.

Definition nth_text (strings1 : list text) (i : Z) : text :=
  match strings1 !! Z.to_nat i with Some t => t | None => [] end.

(** Counting and listing the set bits. *)
Lemma decode_loop_run strings1 param b l (s : start_screen D) x summary :
  multipliers s !! param = Some x -> 0 <= x -> x + Z.of_nat (length l) < 2 ^ 31 ->
  (forall i, In i l -> bit_set b i = true -> is_Some (strings1 !! Z.to_nat i)) ->
  decode_loop strings1 param b l summary s =
  (Ok (summary ++ concat (map (fun i => nth_text strings1 i ++ txt ", ") (List.filter (bit_set b) l))),
   set_multipliers (<[param := x + Z.of_nat (length (List.filter (bit_set b) l))]> (multipliers s)) s).
Proof.
  revert s x summary. induction l as [|i l IH]; intros s x summary Hm Hx Hl Hs.
  { cbn. rewrite app_nil_r, Z.add_0_r, set_multipliers_id; [done|]. by apply list_insert_id. }
  cbn [decode_loop List.filter length] in *. fold (bit_set b i). destruct (bit_set b i) eqn:Eb.
  - destruct (Hs i (or_introl eq_refl) Eb) as [str Es].
    rewrite (jbind_orelse _ str), jbind_field, (jbind_orelse _ x), jbind_assign by done.
    rewrite (IH _ (x + 1)); cbn [set_multipliers multipliers].
    + cbn [map concat length]. assert (nth_text strings1 i = str) as -> by (unfold nth_text; by rewrite Es).
      rewrite list_insert_insert_eq, <- !app_assoc.
      rewrite Nat2Z.inj_succ, <- Z.add_1_l, Z.add_assoc. done.
    + rewrite jint_id by lia. apply list_lookup_insert_eq. by apply lookup_lt_Some in Hm.
    + lia.
    + lia.
    + intros j Hj. apply Hs. by right.
  - apply IH; [done|done|lia|]. intros j Hj. apply Hs. by right.
Qed.

(** The text for a list of boxes: the values of those that are checked. *)
Definition listing (strings1 : list text) (boxes : list bool) : text :=
  let t := txt " " ++ concat (map (fun i => nth_text strings1 i ++ txt ", ") (checked boxes)) in
  take (length t - 2) t.

Lemma filter_encoded boxes :
  (length boxes <= 8)%nat -> List.filter (bit_set (encodeParamByte boxes)) (range 8) = checked boxes.
Proof.
  intros Hl. rewrite <- (bits_encoded boxes 8) by lia. apply filter_ext_in. intros i Hi%range_spec.
  rewrite !bit_set_spec by lia. unfold u8. by rewrite Z.mod_pow2_bits_low by lia.
Qed.

Lemma checked_range boxes i : In i (checked boxes) -> 0 <= i < Z.of_nat (length boxes).
Proof. intros [H1%range_spec _]%filter_In. done. Qed.

Lemma length_checked boxes : (length (checked boxes) <= length boxes)%nat.
Proof.
  unfold checked. etrans; [apply List.filter_length_le|]. unfold range. rewrite length_seqZ. lia.
Qed.

Lemma decodeConfigByte_run {B} param strings1 boxes (s : start_screen D) (k : text -> J (start_screen D) B) :
  arrayResourceIds !! param = Some strings1 -> (length boxes <= 8)%nat -> (length boxes <= length strings1)%nat ->
  existsb id boxes = true -> multipliers s !! param = Some 0 ->
  mbind k (decodeConfigByte param (encodeParamByte boxes)) s =
  k (listing strings1 boxes) (set_multipliers (<[param := Z.of_nat (length (checked boxes))]> (multipliers s)) s).
Proof.
  intros Ha H8 Hl He Hm. unfold decodeConfigByte. rewrite jbind_assoc, (jbind_orelse _ strings1) by done.
  assert (Hr := decode_loop_run strings1 param (encodeParamByte boxes) (range 8) s 0 (txt " ") Hm).
  rewrite filter_encoded in Hr by done.
  assert (Hi : forall i, In i (range 8) -> bit_set (encodeParamByte boxes) i = true -> is_Some (strings1 !! Z.to_nat i)).
  { intros i Hi Hb. assert (Hin : In i (checked boxes)).
    { rewrite <- filter_encoded by done. by apply filter_In. }
    apply checked_range in Hin. apply lookup_lt_is_Some. lia. }
  rewrite jbind_assoc, (jbind_ok _ _ s _ _ (Hr ltac:(lia) eq_refl Hi)).
  assert (Hc : checked boxes <> []) by (by apply existsb_checked). unfold listing.
  destruct (checked boxes) as [|i l]; [done|]. cbn [map concat].
  destruct (Nat.ltb_spec (length (txt " " ++ (nth_text strings1 i ++ txt ", ") ++
    concat (map (fun i => nth_text strings1 i ++ txt ", ") l))) 2) as [Hlt|_]; [|done].
  rewrite !length_app in Hlt. cbn in Hlt. lia.
Qed.

(** ** Opening the experiment *)

Definition chosen (f : form) : list (list bool) := [frBits f; bwBits f; sfBits f; crBits f; pwBits f].
Definition counts (f : form) : list Z := map (fun b => Z.of_nat (length (checked b))) (chosen f).
Definition n_iterations (f : form) : Z := foldl Z.mul 1 (counts f).

(** The screen shows the experiment [id]; the results so far are as in [d0]. *)
Record opened (f : form) (n g : Z) (id : Z) (d0 : D) (s : start_screen D) : Prop := {
  op_number : experimentNumber s = id;
  op_entry : forall i, (i <= POWERS)%nat -> entry s !! i = form_entry id f !! i;
  op_multipliers : multipliers s = counts f ++ [n; g];
  op_iterations : iterations s = n_iterations f;
  op_duration : duration s = n_iterations f * (n * g + 5);
  op_table : sql_select (db (screen_app s)) (Experiment (decimal id)) = sql_select d0 (Experiment (decimal id)) }.

Lemma counts_bounds f n g len :
  accepted f n g len ->
  exists a b c d e, counts f = [a; b; c; d; e] /\
    1 <= a <= 8 /\ 1 <= b <= 2 /\ 1 <= c <= 6 /\ 1 <= d <= 4 /\ 1 <= e <= 8.
Proof.
  intros [(F1 & F2 & F3 & F4 & F5) _ _ _ _ _ _ _ Hb]. unfold counts, chosen. cbn [map]. do 5 eexists. split; [done|].
  cbn in Hb. rewrite !andb_true_iff in Hb. destruct Hb as (B1 & B2 & B3 & B4 & B5 & _).
  assert (P : forall boxes, existsb id boxes = true -> 1 <= Z.of_nat (length (checked boxes)) <= Z.of_nat (length boxes)).
  { intros boxes Hx%existsb_checked. pose proof (length_checked boxes). destruct (checked boxes); [done|]. cbn in *. lia. }
  apply P in B1, B2, B3, B4, B5. lia.
Qed.

Lemma plan_numbers_run a b c d e n g :
  1 <= a <= 8 -> 1 <= b <= 3 -> 1 <= c <= 6 -> 1 <= d <= 4 -> 1 <= e <= 8 -> 0 <= n <= 100 -> 0 <= g <= 127 ->
  plan_numbers [a; b; c; d; e; n; g] =
  (a * b * c * d * e, a * b * c * d * e * n, a * b * c * d * e * (n * g + 5)).
Proof.
  intros Ha Hb Hc Hd He Hn Hg. unfold plan_numbers.
  change (default 0 ([a; b; c; d; e; n; g] !! 6%nat)) with g. cbn [take zip seq foldl Nat.ltb Nat.leb].
  rewrite !Z.mul_1_l. assert (1 <= a * b <= 24) by nia. assert (1 <= a * b * c <= 144) by nia.
  assert (1 <= a * b * c * d <= 576) by nia. assert (1 <= a * b * c * d * e <= 4608) by nia.
  set (it := a * b * c * d * e) in *. assert (0 <= it * n <= 460800) by nia. assert (0 <= it * n * g <= 58521600) by nia.
  rewrite (jint_id a), (jint_id (a * b)), (jint_id (a * b * c)), (jint_id (a * b * c * d)) by lia. fold it.
  rewrite (jint_id it), (jint_id (it * n)), (jint_id (it * n * g)), (jint_id (5 * it)), jint_id by lia.
  f_equal. lia.
Qed.

Lemma boxes_parsed boxes : (length boxes <= 8)%nat -> parseByte (boxes_text boxes) = Some (encodeParamByte boxes).
Proof. intros Hl. apply parse_decimal. pose proof (encode_range boxes Hl). lia. Qed.

Lemma decode_entry {B} col param strings1 boxes (s : start_screen D) (k : text -> J (start_screen D) B) :
  entry s !! col = Some (Some (boxes_text boxes)) -> arrayResourceIds !! param = Some strings1 ->
  (length boxes <= 8)%nat -> (length boxes <= length strings1)%nat -> existsb id boxes = true ->
  multipliers s !! param = Some 0 ->
  mbind (fun b => mbind k (decodeConfigByte param b)) (entry_parsed parseByte col) s =
  k (listing strings1 boxes) (set_multipliers (<[param := Z.of_nat (length (checked boxes))]> (multipliers s)) s).
Proof.
  intros He Ha H8 Hl Hx Hm. rewrite (entry_parsed_ok _ _ _ _ _ _ He (boxes_parsed _ H8)).
  by apply decodeConfigByte_run.
Qed.

Lemma set_multiplier_ok {B} i v (k : unit -> J (start_screen D) B) s :
  mbind k (set_multiplier i v) s = k tt (set_multipliers (<[i := v]> (multipliers s)) s).
Proof. done. Qed.

Lemma set_value_ok {B} u c i (k : unit -> J (start_screen D) B) s :
  mbind k (on_db (setValueInExpInfo u c i)) s =
  k tt (set_app (set_db (sql_update Experiments c u i (db (screen_app s))) (screen_app s)) s).
Proof. done. Qed.

Ltac screen_simpl := cbn [set_entry set_multipliers set_clock set_plan set_total set_connected set_ready
  set_connToasts set_gpsLogged set_justShowing set_dbEntries set_timer set_app start_phone phone_of set_phone
  experimentNumber entry multipliers hoursD minutesD secondsD duration iterations StartScreen.total connected ready
  connToastsDeactivated gpsLogged justShowingInfo dbEntries timer screen_app db Phone.config set_db add_act
  new_screen].

(** A column of the form, from a description of the columns. *)
Ltac by_entry Hent := screen_simpl; rewrite Hent by (apply Nat.leb_le; reflexivity); reflexivity.

Lemma initSummary_run f n g len id (p : phone D) r0 :
  accepted f n g len -> 0 <= g <= 127 -> experiment_row id (db p) = (Ok r0, db p) -> holds_form f id r0 ->
  exists s', initSummary (new_screen id p) = (Ok tt, s') /\ opened f n g id (db p) s' /\
    Phone.config (screen_app s') = Phone.config p /\ ready s' = false /\ justShowingInfo s' = false /\
    dbEntries s' = None /\
    exists r, experiment_row id (db (screen_app s')) = (Ok r, db (screen_app s')) /\
      getString exp_columns r STATE = Some READY.
Proof.
  intros Ha Hg Hrow Hf. pose proof Ha as [(F1 & F2 & F3 & F4 & F5) N1 N2 T1 L1 _ _ _ Hb].
  cbn in Hb. rewrite !andb_true_iff in Hb. destruct Hb as (B1 & B2 & B3 & B4 & B5 & _).
  unfold initSummary, new_screen. rewrite jbind_field. screen_simpl.
  rewrite (on_db_ok _ _ _ (map (getString exp_columns r0) (seq 0 EXPERIMENT_VALUE_COUNT)) (db p)) by (by apply form_info).
  rewrite jbind_assign, doing_ok. screen_simpl.
  pose proof (form_entry_at f id r0) as Hent. specialize (fun i => Hent i Hf).
  set (ent := map (getString exp_columns r0) (seq 0 EXPERIMENT_VALUE_COUNT)) in *. clearbody ent.
  rewrite (entry_parsed_ok _ _ (noMsgs f) n), set_multiplier_ok by (done || by_entry Hent). screen_simpl.
  rewrite (entry_parsed_ok _ _ (timeBetween f) g), set_multiplier_ok by (done || by_entry Hent). screen_simpl.
  rewrite doing_ok. screen_simpl.
  rewrite (decode_entry _ _ frequency_array (frBits f)) by (try done; try by_entry Hent; rewrite F1; cbn; lia). screen_simpl.
  rewrite (decode_entry _ _ bandwidth_array (bwBits f)) by (try done; try by_entry Hent; rewrite F2; cbn; lia). screen_simpl.
  rewrite (decode_entry _ _ SF_array (sfBits f)) by (try done; try by_entry Hent; rewrite F3; cbn; lia). screen_simpl.
  rewrite (decode_entry _ _ CR_array (crBits f)) by (try done; try by_entry Hent; rewrite F4; cbn; lia). screen_simpl.
  rewrite (decode_entry _ _ power_array (pwBits f)) by (try done; try by_entry Hent; rewrite F5; cbn; lia). screen_simpl.
  rewrite doing_ok, jbind_field. screen_simpl. cbn [replicate insert list_insert].
  destruct (counts_bounds f n g len Ha) as (a & b & c & d & e & Ec & Ba & Bb & Bc & Bd & Be).
  pose proof Ec as Ec'. unfold counts, chosen in Ec'. cbn [map] in Ec'. injection Ec' as -> -> -> -> ->.
  rewrite plan_numbers_run by lia. rewrite jbind_assign. screen_simpl.
  rewrite !set_value_ok. screen_simpl.
  assert (Hit : n_iterations f = a * b * c * d * e) by (unfold n_iterations; rewrite Ec; cbn [foldl]; lia).
  pose proof (experiment_row_update "number_of_iterations" (Some (decimal (a * b * c * d * e))) id _ _ _ Hrow) as R1.
  pose proof (experiment_row_update "duration" (Some (decimal (a * b * c * d * e * (n * g + 5)))) id _ _ _ R1) as R2.
  eexists. split; [done|]. split; [split; screen_simpl; rewrite ?Hit, ?Ec; try done|].
  - rewrite !select_other_update; [done|apply Experiment_ne..].
  - split_and!; try done. screen_simpl. eexists. split; [exact R2|].
    assert (Hf2 : holds_form f id (update_cells "duration" (Some (decimal (a * b * c * d * e * (n * g + 5)))) id
      (update_cells "number_of_iterations" (Some (decimal (a * b * c * d * e))) id r0))).
    { apply update_held; [apply update_held; [done|]|]; by repeat constructor. }
    destruct Hf2 as [_ Hf2]. specialize (Hf2 STATE ltac:(by apply Nat.leb_le)). by injection Hf2.
Qed.

(** The screen of a form that was just logged. *)
Lemma onCreate_run f n g len id (p : phone D) r0 :
  accepted f n g len -> 0 <= g <= 127 -> experiment_row id (db p) = (Ok r0, db p) -> holds_form f id r0 ->
  exists s', onCreate (new_screen id p) = (Ok tt, s') /\ opened f n g id (db p) s' /\
    Phone.config (screen_app s') = Phone.config p /\ justShowingInfo s' = false /\ dbEntries s' = None.
Proof.
  intros Ha Hg Hrow Hf.
  destruct (initSummary_run f n g len id p r0 Ha Hg Hrow Hf) as (s' & E & Ho & Hc & _ & Hj & Hd & r & Hr & Hst).
  unfold onCreate. rewrite (jbind_ok _ _ _ _ _ E), jbind_field, (op_number _ _ _ _ _ _ Ho).
  rewrite (on_db_ok _ _ _ (Some READY) (db (screen_app s'))).
  - rewrite (jbind_orelse _ READY) by done. eexists. split; [done|]. by destruct s' as [????????????????[]].
  - cbn [phone_of start_phone]. unfold getSingleExperimentInfoValue. rewrite (jbind_ok _ _ _ _ _ Hr). by rewrite Hst.
Qed.

(** ** Starting the experiment *)

(** The bytes for the receiver: three numbers, a flag, five masks, the delay in digits. *)
Definition settings_bytes (f : form) (n g len delay : Z) : list Z :=
  [n; g; len; if autoIncrement f then 1 else 0; encodeParamByte (frBits f); encodeParamByte (bwBits f);
   encodeParamByte (sfBits f); encodeParamByte (crBits f); encodeParamByte (pwBits f)] ++ decimal delay.

Lemma createSettingsBytes_run {B} f n g len id d0 s t (k : list Z -> J (start_screen D) B) :
  accepted f n g len -> opened f n g id d0 s -> -128 <= g <= 127 -> len <= 127 ->
  mbind k (createSettingsBytes t) s = k (settings_bytes f n g len (Z.quot t 1000)) s.
Proof.
  intros [(F1 & F2 & F3 & F4 & F5) N1 N2 T1 L1 L2 _ _ _] [_ Hent _ _ _ _] Hg Hl.
  assert (P : forall parser i t v (k' : Z -> J (start_screen D) (list Z)),
    form_entry id f !! i = Some (Some t) -> (i <= POWERS)%nat -> parser t = Some v ->
    mbind k' (entry_parsed parser i) s = k' v s).
  { intros parser i t' v k' E1 E2 E3. apply (entry_parsed_ok _ _ t'); [by rewrite Hent|done]. }
  eapply jbind_ok. unfold createSettingsBytes.
  rewrite (P _ _ (noMsgs f) n), (P _ _ (timeBetween f) g), (P _ _ (msgLength f) len);
    try done; try (by apply Nat.leb_le); try (eapply parse_other; [eassumption|lia]).
  rewrite jbind_field, (jbind_orelse _ (Some (bool_text (autoIncrement f)))) by (by rewrite Hent by (by apply Nat.leb_le)).
  rewrite (P _ _ (boxes_text (frBits f)) (encodeParamByte (frBits f))),
    (P _ _ (boxes_text (bwBits f)) (encodeParamByte (bwBits f))),
    (P _ _ (boxes_text (sfBits f)) (encodeParamByte (sfBits f))),
    (P _ _ (boxes_text (crBits f)) (encodeParamByte (crBits f))),
    (P _ _ (boxes_text (pwBits f)) (encodeParamByte (pwBits f)));
    try done; try (by apply Nat.leb_le); try (apply boxes_parsed; lia).
  rewrite getBytes_ascii by apply decimal_ascii. unfold settings_bytes. by destruct (autoIncrement f).
Qed.

(** Seconds the app asks the receiver to wait: at more than 10 dBm, 17 of them
    are for connecting again. *)
Definition delay_sent (power_index T : Z) : Z := if power_index <? 4 then T + 17 else T.

Lemma startExperiment_run f n g len id d0 s ht mt st h m sec P :
  accepted f n g len -> opened f n g id d0 s -> -128 <= g <= 127 -> len <= 127 ->
  parseInt ht = Some h -> parseInt mt = Some m -> parseInt st = Some sec ->
  0 <= h -> 0 <= m <= 59 -> 0 <= sec <= 59 -> let T := 3600 * h + 60 * m + sec in T < 65536 ->
  ready s = true -> Phone.config (screen_app s) !! 4%nat = Some P ->
  exists s', startExperiment ht mt st s = (Ok tt, s') /\ opened f n g id d0 s' /\ StartScreen.total s' = 1000 * T /\
    acts (screen_app s') = acts (screen_app s) ++
      [WriteChar SendCommandChar (settings_bytes f n g len (delay_sent P T)); Toast (txt "waiting for ACK");
       SetText "htext" (time_text h m sec)] /\
    dbEntries s' = dbEntries s.
Proof.
  intros Ha Ho Hg Hl Hh Hm Hs Hh0 Hm0 Hs0 T HT Hr Hc. unfold startExperiment.
  rewrite (jbind_orelse _ h), (jbind_orelse _ m), (jbind_orelse _ sec), jbind_assign by done.
  destruct (Z.ltb_spec 59 m), (Z.ltb_spec 59 sec), (Z.ltb_spec m 0), (Z.ltb_spec sec 0), (Z.ltb_spec h 0); try lia. cbn [orb].
  assert (E : jint (jint (jint (jint (h * 3600) + jint (m * 60)) + sec) * 1000) = 1000 * T).
  { unfold T in *. rewrite (jint_id (h * 3600)), (jint_id (m * 60)), (jint_id (_ + _ * 60)), (jint_id (_ + sec)), jint_id by lia. lia. }
  rewrite E, jbind_assign. set (s1 := set_total _ _). assert (O1 : opened f n g id d0 s1) by (by destruct Ho).
  unfold config_at. rewrite jbind_assoc, read_phone_ok, (jbind_orelse _ P) by done.
  set (s2 := set_phone _ s1). assert (O2 : opened f n g id d0 s2) by (by destruct O1).
  assert (Q : forall x, Z.quot (1000 * x) 1000 = x) by (intros x; rewrite Z.mul_comm, Z.quot_mul; lia).
  exists (set_connToasts true (set_app (add_act (SetText "htext" (time_text h m sec)) (add_act (Toast (txt "waiting for ACK"))
    (add_act (WriteChar SendCommandChar (settings_bytes f n g len (delay_sent P T))) (screen_app s2)))) s2)).
  split; [|split; [by destruct O2|split_and!; [done|cbn; by rewrite <-!app_assoc|done]]].
  unfold delay_sent. destruct (P <? 4).
  - rewrite (createSettingsBytes_run f n g len id d0) by done.
    replace (1000 * T + 17000) with (1000 * (T + 17)) by lia. rewrite Q, jbind_field.
    change (ready s2) with (ready s). rewrite Hr. unfold toast. by rewrite !doing_ok.
  - rewrite (createSettingsBytes_run f n g len id d0) by done. rewrite Q, jbind_field.
    change (ready s2) with (ready s). rewrite Hr. unfold toast. by rewrite !doing_ok.
Qed.

End phone.
