(* ===== verification/Settings.v ===== *)
(** * The settings, from the app to the devices

    What the app writes to the receiver is stored by [experiment_settings_cb]
    (lres.c) and is the plan both devices run. *)
From S2P Require Import Java Database Phone Customize StartScreen PhoneSettings.
From S2P Require Import Prelude KSem Platform Sx12xx Air CLib Plan Messages Runs Lres LresEval LresWindow LresSweep.
From S2P Require Import LresControl LresExperiment.
From stdpp Require Import prelude list numbers strings gmap.
From Stdlib Require Import ZArith Lia.
Open Scope Z_scope.

(** ** Storing the settings *)

(** No thread of the service runs the callback, and each variable names its own thread. *)
Definition tid_ok (o : option nat) (t : nat) (p : plat) : Prop :=
  t <> cur p /\ (o = Some t \/ o = None /\ threads p !! t = None).

Lemma abort_run o t (s : lres) :
  tid_ok o t (pl s) ->
  exists q, abort_tid o s = (Done tt, set_pl q s) /\ threads q = delete t (threads (pl s)) /\
    cur q = cur (pl s) /\ now q = now (pl s) /\ pending q = pending (pl s) /\ dev q = dev (pl s) /\
    (forall ch, ready ch (pl s) -> ready ch q).
Proof.
  intros [Hc Ho]. unfold abort_tid. destruct Ho as [->|[-> Hn]].
  - unfold liftp, k_thread_abort. cbn [plat_of lres_plat]. destruct (threads (pl s) !! t) eqn:E.
    + rewrite decide_False by done. eexists. split; [done|]. split_and!; try done.
      intros ch Hr. by apply ready_emit, ready_threads.
    + exists (pl s). rewrite delete_id by done. done.
  - exists (pl s). rewrite delete_id by done. split; [by destruct s|done].
Qed.

(** The array with the first bytes replaced. *)
Definition stored (bytes ed : list Z) : list Z := bytes ++ drop (length bytes) ed.

Lemma store_loop bytes ed (s : lres) :
  (length bytes <= length ed)%nat ->
  exists b, for_st (range (Z.of_nat (length bytes))) (static_buf ed) (fun i ed =>
      v ← io (rd "buf" (static_buf bytes) i); io (wr "experiment_data" ed i v)) s = (Done b, s) /\
    cmem b = stored bytes ed.
Proof.
  intros Hl. destruct (load_loop "buf" "experiment_data" bytes (length bytes) 0 (static_buf ed) s)
    as (b & E & _ & Lb & P); [cbn; lia..|]. exists b. split; [exact E|].
  apply cmem_eq; [rewrite Lb; unfold stored; rewrite length_app, length_drop; cbn; lia|].
  unfold stored. rewrite length_app, length_drop. intros j Hj. rewrite P by (cbn; lia).
  unfold peek. cbn [cmem static_buf]. destruct (Z.ltb_spec j 0), (Z.leb_spec 0 j); try lia. cbn [andb].
  destruct (Z.ltb_spec j (0 + Z.of_nat (length bytes))).
  - by rewrite lookup_app_l by lia.
  - rewrite lookup_app_r, lookup_drop by lia. do 2 f_equal. lia.
Qed.

(** [experiment_settings_cb] with settings, neither five bytes nor one. *)
Lemma experiment_settings_run bytes (s : lres) :
  (9 < length bytes <= length (experiment_data s))%nat ->
  tid_ok (thread0_tid s) thread_data0 (pl s) -> tid_ok (thread1_tid s) thread_data1 (pl s) ->
  exists s', experiment_settings_cb (static_buf bytes) (Z.of_nat (length bytes)) s = (Done 0, s') /\
    experiment_data s' = stored bytes (experiment_data s) /\ exp_data_length s' = Z.of_nat (length bytes) /\
    config s' = config s /\ threads (pl s') !! thread_data1 = Some E_exec_experiment /\
    now (pl s') = now (pl s) /\ pending (pl s') = pending (pl s) /\ dev (pl s') = dev (pl s) /\
    (forall ch, ready ch (pl s) -> ready ch (pl s')).
Proof.
  intros Hl T0 T1. unfold experiment_settings_cb.
  destruct (abort_run _ _ _ T0) as (q & E0 & Th & Cu & Nw & Pe & De & Re).
  rewrite bind_gets, (bind_done _ _ _ _ _ E0).
  destruct (Z.eqb_spec (Z.of_nat (length bytes)) 5), (Z.eqb_spec (Z.of_nat (length bytes)) 1); try lia.
  rewrite bind_modify, bind_gets. set (s1 := set_exp_data_length _ _).
  destruct (store_loop bytes (experiment_data s) s1) as (b & Eb & Cb); [lia|].
  rewrite (bind_done _ _ _ _ _ Eb), bind_modify, bind_gets, Cb. set (s2 := Lres.set_experiment_data _ _).
  assert (T1' : tid_ok (thread1_tid s) thread_data1 (pl s2)).
  { destruct T1 as [H1 H2]. split; [change (cur q) with (cur q) in *; cbn; by rewrite Cu|].
    destruct H2 as [|[Hn Ht]]; [by left|right]. split; [done|]. cbn. rewrite Th. by apply lookup_delete_None; right. }
  destruct (abort_run (thread1_tid s) _ s2 T1') as (q2 & E2 & Th2 & Cu2 & Nw2 & Pe2 & De2 & Re2).
  rewrite (bind_done _ _ _ _ _ E2).
  set (q3 := emit (EvCreate thread_data1) (set_threads (<[thread_data1 := E_exec_experiment]> (threads q2)) q2)).
  assert (E3 : io (k_thread_create thread_data1 E_exec_experiment) (set_pl q2 s2) = (Done thread_data1, set_pl q3 s2)).
  { unfold liftp, k_thread_create. cbn [plat_of lres_plat set_plat pl set_pl]. by rewrite Th2, lookup_delete_eq. }
  rewrite (bind_done _ _ _ _ _ E3), bind_modify. eexists. split; [done|]. cbn [pl Lres.set_thread1_tid set_pl] in *.
  split_and!; try done.
  - cbn. by rewrite lookup_insert_eq.
  - cbn. by rewrite Nw2.
  - cbn. by rewrite Pe2.
  - cbn. by rewrite De2.
  - intros ch Hr. apply ready_emit. apply ready_threads, Re2, Re, Hr.
Qed.

(** ** The plan *)

(** Every combination of the checked boxes, in the order of the screen. *)
Definition product (f : form) : list combo :=
  flat_map (fun i => flat_map (fun j => flat_map (fun k => flat_map (fun l =>
    map (fun m => mk_combo i j k l m) (checked (pwBits f)))
    (checked (crBits f))) (checked (sfBits f))) (checked (bwBits f))) (checked (frBits f)).

Lemma length_flat_map {A B} (h : A -> list B) l c :
  (forall x, length (h x) = c) -> length (flat_map h l) = (length l * c)%nat.
Proof. intros H. induction l as [|x l IH]; [done|]. cbn. by rewrite length_app, IH, H. Qed.

Lemma length_product f : Z.of_nat (length (product f)) = n_iterations f.
Proof.
  unfold product.
  erewrite length_flat_map; [|intros; erewrite length_flat_map; [|intros; erewrite length_flat_map;
    [|intros; erewrite length_flat_map; [|intros; apply length_map]; reflexivity]; reflexivity]; reflexivity].
  unfold n_iterations, counts, chosen. cbn [map foldl]. lia.
Qed.

(** The settings the receiver holds after the app wrote them. *)
Lemma settings_plan f n g len dl old :
  form_ok f -> 0 <= n <= 100 -> 0 <= g <= 127 -> 0 <= len <= 127 ->
  let ed := static_buf (stored (map u8 (settings_bytes f n g len dl)) old) in
  peek ed 0 = n /\ peek ed 1 = g /\ peek ed 2 = len /\ plan ed = product f.
Proof.
  intros (F1 & F2 & F3 & F4 & F5) Hn Hg Hl ed.
  assert (P : peek ed 0 = u8 n /\ peek ed 1 = u8 g /\ peek ed 2 = u8 len) by done.
  destruct P as (-> & -> & ->). rewrite !u8_id by (unfold byte_ok; lia). split_and!; try done.
  unfold plan, product, combos.
  change (peek ed 4) with (u8 (encodeParamByte (frBits f))). change (peek ed 5) with (u8 (encodeParamByte (bwBits f))).
  change (peek ed 6) with (u8 (encodeParamByte (sfBits f))). change (peek ed 7) with (u8 (encodeParamByte (crBits f))).
  change (peek ed 8) with (u8 (encodeParamByte (pwBits f))).
  by rewrite !bits_encoded by lia.
Qed.

Lemma settings_digits f n g len dl old i :
  0 <= dl -> 0 <= i < Z.of_nat (length (decimal dl)) ->
  peek (static_buf (stored (map u8 (settings_bytes f n g len dl)) old)) (9 + i) = default 0 (decimal dl !! Z.to_nat i).
Proof.
  intros Hd Hi. unfold peek, stored. cbn [static_buf cmem]. destruct (Z.ltb_spec (9 + i) 0); [lia|].
  unfold settings_bytes. rewrite map_app, <- app_assoc, lookup_app_r by (cbn; lia). cbn [length map].
  rewrite lookup_app_l by (rewrite length_map; lia). replace (Z.to_nat (9 + i) - 9)%nat with (Z.to_nat i) by lia.
  change (map u8 (decimal dl)) with (u8 <$> decimal dl). rewrite list_lookup_fmap.
  destruct (decimal dl !! Z.to_nat i) as [c|] eqn:E; [|done]. cbn. apply u8_id.
  pose proof (decimal_ascii dl) as Ha. unfold ascii_text in Ha. rewrite List.Forall_forall in Ha.
  unfold byte_ok. enough (0 <= c < 128) by lia. apply Ha. apply list_elem_of_In. by eapply list_elem_of_lookup_2.
Qed.

(** ** From the form to the receiver *)

(** The database holds the form under [id], whatever else was logged since. *)
Definition kept {D} `{Sqlite D} (f : form) (id : Z) (p : phone D) : Prop :=
  exists r, experiment_row id (db p) = (Ok r, db p) /\ holds_form f id r.

(** A receiver that takes settings. *)
Definition receptive (s : lres) : Prop :=
  length (experiment_data s) = 18%nat /\
  tid_ok (thread0_tid s) thread_data0 (pl s) /\ tid_ok (thread1_tid s) thread_data1 (pl s).

Lemma delay_digits P T :
  0 <= P < 8 -> 0 <= T < 65519 ->
  let ds := decimal (delay_sent P T) in
  (1 <= length ds <= 5)%nat /\ Forall (fun c => is_digit c = true) ds /\
  forall t, start_of (18 - 2 * P) t (u16 (digits_value ds)) = (t + (if P <? 4 then 17000 else 0), T).
Proof.
  intros HP HT ds. assert (Hd : 0 <= delay_sent P T < 65536) by (unfold delay_sent; destruct (P <? 4); lia).
  destruct (decimal_digits (delay_sent P T)) as (V & F & N & L); [lia|]. fold ds in V, F, N, L.
  split; [specialize (L 5 ltac:(lia) ltac:(lia)); destruct ds; [done|cbn in *; lia]|]. split; [done|].
  intros t. rewrite V. unfold u16. rewrite Z.mod_small by lia. unfold start_of, delay_sent in *.
  destruct (Z.ltb_spec P 4), (Z.ltb_spec 10 (18 - 2 * P)); try lia.
  - f_equal. unfold u16. rewrite Z.mod_small; lia.
  - f_equal. lia.
Qed.

Section reach.
Context {D : Type} `{SqliteLaws D}.


End reach.

(** Two messages of 12 bytes, 1 s apart, on two frequencies, in 65 s. *)
Definition demo_form : form :=
  mk_form (txt "2") (txt "1") (txt "12") true (txt "test") (txt "30") (txt "1") (txt "1") (txt "field")
    [true; true; false; false; false; false; false; false] [true; false] [true; false; false; false; false; false]
    [true; false; false; false] [false; false; false; false; false; false; false; true] false.

Lemma demo_accepted : accepted demo_form 2 1 12.
Proof. by split. Qed.

