(* ===== verification/Recording.v ===== *)
(** * What the app records

    The notifications of the receiver, as [Central] forwards them to the
    screen of the experiment and the screen logs them ([Central.java],
    [StartExperimentScreen.java]): one row for each pair of a signal
    notification and a message notification, in whichever order the two
    broadcasts of a pair come in. *)
From S2P Require Import Prelude KSem Platform Sx12xx Air CLib Plan Java Database Phone StartScreen.
From stdpp Require Import prelude list numbers strings gmap.
From Stdlib Require Import ZArith Lia.
Open Scope Z_scope.

(** ** Delivery *)

Section delivery.
Context {D : Type} `{Sqlite D}.

(** Broadcasts, one after the other. *)
Fixpoint receive_all (bs : list broadcast) : J (start_screen D) unit :=
  match bs with [] => mret tt | b :: bs' => onReceive b;; receive_all bs' end.

(** The broadcasts of notifications; the device's bytes are signed in Java. *)
Fixpoint forwarded (notes : list (list Z)) : result (list broadcast) :=
  match notes with
  | [] => Ok []
  | l :: notes' =>
      match onCharacteristicChanged RECEIVER (map s8 l), forwarded notes' with
      | Ok bs, Ok bs' => Ok (bs ++ bs')
      | Throw e, _ | _, Throw e => Throw e
      end
  end.

Lemma receive_all_app bs bs' s : receive_all (bs ++ bs') s = (receive_all bs;; receive_all bs') s.
Proof. revert s. induction bs as [|b bs IH]; intros s; [done|]. cbn. unfold mbind, J_bind in *.
  destruct (onReceive b s) as [[]]; [apply IH|done]. Qed.

End delivery.

(** ** Signals and messages *)

(** What a signal notification holds. *)
Record signal := mk_signal { sg_rssi : Z; sg_snr : Z; sg_errors : Z }.
(** What a message notification holds: the text, the iteration and the number in it. *)
Record report := mk_report { rp_head : text; rp_iteration : Z; rp_number : Z; rp_tail : list Z }.

Definition signal_bytes (g : signal) : list Z := [-1; s8 (sg_rssi g); s8 (sg_snr g); s8 (sg_errors g)].
Definition report_bytes (r : report) : list Z := rp_head r ++ [rp_iteration r; rp_number r] ++ rp_tail r.

Definition report_ok (r : report) : Prop := length (rp_head r) = 10%nat /\ ascii_text (rp_head r).

(** The halves of a row. *)
Definition signal_half (g : signal) : list (option text) -> list (option text) :=
  fill_rssi (45 :: decimal (u8 (sg_rssi g))) (decimal (s8 (sg_snr g))) (decimal (u8 (sg_errors g))).
Definition report_half (N : Z) (r : report) : list (option text) -> list (option text) :=
  fill_msg (decimal (jint (rp_number r + jint (rp_iteration r * N)))) (rp_head r).

Definition cells_of (e : list (option text)) : gmap string text :=
  let at_ i := default None (e !! i) in
  put "biterrors" (at_ 4%nat) (put "snr" (at_ 3%nat) (put "rssi" (at_ 2%nat)
    (put "identifier" (at_ 1%nat) (put "totalnumber" (at_ 0%nat) ∅)))).

(** The row of a pair. *)
Definition row_cells (N : Z) (g : signal) (r : report) : gmap string text :=
  cells_of (report_half N r (signal_half g (replicate 5 None))).

Lemma makeByteUnsigned_s8 x : makeByteUnsigned (s8 x) = u8 x.
Proof. unfold makeByteUnsigned. change 255 with (Z.ones 8). rewrite Z.land_ones by lia. apply u8_s8. Qed.

(** ** One broadcast *)
Section screen.
Context {D : Type} `{SqliteLaws D} (id N : Z).
Abbreviation table := (Experiment (decimal id)).

(** The screen is on experiment [id] with [N] messages per iteration, has the
    half row [half] and has logged [rows]. *)
Record showing (half : option (list (option text))) (rows : list (gmap string text)) (s : start_screen D) : Prop := {
  sh_number : experimentNumber s = id;
  sh_messages : multipliers s !! 5%nat = Some N;
  sh_half : dbEntries s = half;
  sh_rows : map r_cells <$> sql_select (db (screen_app s)) table = Some rows }.

Lemma showing_act half rows s a :
  showing half rows s -> showing half rows (set_app (add_act a (screen_app s)) s).
Proof. by intros []. Qed.

Lemma log_cells e d rows :
  length e = 5%nat -> map r_cells <$> sql_select d table = Some rows ->
  exists d', logReceivedTransmission (decimal id) e d = (Ok tt, d') /\
    map r_cells <$> sql_select d' table = Some (rows ++ [cells_of e]).
Proof.
  intros He Hr. destruct e as [|e0 [|e1 [|e2 [|e3 [|e4 [|]]]]]]; try done.
  destruct (sql_select d table) as [rs|] eqn:E; [|done]. cbn in Hr. injection Hr as <-.
  destruct (select_insert _ (cells_of [e0; e1; e2; e3; e4]) _ _ E) as (i & _ & Hs).
  exists (sql_insert table (cells_of [e0; e1; e2; e3; e4]) d). split; [reflexivity|]. rewrite Hs.
  cbn [fmap option_fmap option_map]. by rewrite map_app.
Qed.

(** A half row waits; the other half completes it. *)
Lemma half_row_first fill rows s :
  showing None rows s ->
  exists s', half_row fill s = (Ok tt, s') /\ showing (Some (fill (replicate 5 None))) rows s'.
Proof.
  intros [H1 H2 H3 H4]. unfold half_row. rewrite jbind_field, H3. eexists. split; [done|]. by split.
Qed.

Lemma half_row_second fill e rows s :
  showing (Some e) rows s -> length (fill e) = 5%nat ->
  exists s', half_row fill s = (Ok tt, s') /\ showing None (rows ++ [cells_of (fill e)]) s'.
Proof.
  intros [H1 H2 H3 H4] Hl. unfold half_row. rewrite jbind_field, H3, jbind_field, H1, jbind_assign.
  destruct (log_cells (fill e) (db (screen_app s)) rows Hl H4) as (d' & E & Hr).
  rewrite (on_db_ok _ _ _ tt d') by done. eexists. split; [done|]. by split.
Qed.

Lemma length_signal_half g e : length (signal_half g e) = length e.
Proof. unfold signal_half, fill_rssi. by rewrite !length_insert. Qed.
Lemma length_report_half r e : length (report_half N r e) = length e.
Proof. unfold report_half, fill_msg. by rewrite !length_insert. Qed.

(** The handlers are [half_row] after a text for the screen. *)
Lemma signal_run half rows g s :
  showing half rows s -> exists s1, showing half rows s1 /\ onReceive (RssiSnr (signal_bytes g)) s = half_row (signal_half g) s1.
Proof.
  intros Hs. eexists. split; [eapply showing_act, Hs|]. cbn [onReceive]. unfold rssiReceived, signal_bytes, byte_at.
  cbn [lookup list_lookup]. unfold orelse. rewrite !jbind_ret, !makeByteUnsigned_s8, doing_ok. done.
Qed.

Lemma report_run half rows r s :
  report_ok r -> showing half rows s ->
  exists s1, showing half rows s1 /\ onReceive (Msg (report_bytes r)) s = half_row (report_half N r) s1.
Proof.
  intros [Hl Ha] Hs. pose proof Hs as [_ Hm _ _]. eexists. split; [eapply showing_act, Hs|].
  cbn [onReceive]. unfold msgReceived, byte_at, report_bytes.
  rewrite (jbind_orelse _ (rp_number r)) by (rewrite lookup_app_r, Hl by lia; done).
  rewrite (jbind_orelse _ (rp_iteration r)) by (rewrite lookup_app_r, Hl by lia; done).
  rewrite jbind_field, (jbind_orelse _ N) by done. unfold new_String.
  assert (Hu : map u8 (rp_head r) = rp_head r).
  { apply map_id_Forall. eapply Forall_impl; [exact Ha|]. intros c Hc. cbn in Hc. apply u8_id. unfold byte_ok. lia. }
  rewrite map_app, Hu, utf8_decode_ascii by done. rewrite length_app, Hl.
  destruct (Nat.ltb_spec (10 + length (utf8_decode (map u8 ([rp_iteration r; rp_number r] ++ rp_tail r)))) 10); [lia|].
  rewrite take_app_length' by done. rewrite doing_ok. done.
Qed.

(** ** All broadcasts *)

(** Broadcasts that are about neither. *)
Definition other (b : broadcast) : bool := match b with ConnState _ | General _ => true | _ => false end.

(** The broadcasts [bs] are those of the pairs, one pair after the other, the
    two of a pair in either order, with others in between. *)
Inductive arrives : list (signal * report) -> list broadcast -> Prop :=
| arr_nil : arrives [] []
| arr_other b ps bs : other b = true -> arrives ps bs -> arrives ps (b :: bs)
| arr_signal g r os ps bs : Forall (fun b => other b = true) os -> arrives ps bs ->
    arrives ((g, r) :: ps) (RssiSnr (signal_bytes g) :: os ++ Msg (report_bytes r) :: bs)
| arr_report g r os ps bs : Forall (fun b => other b = true) os -> arrives ps bs ->
    arrives ((g, r) :: ps) (Msg (report_bytes r) :: os ++ RssiSnr (signal_bytes g) :: bs).

Lemma other_run half rows b s :
  other b = true -> showing half rows s -> exists s', onReceive b s = (Ok tt, s') /\ showing half rows s'.
Proof.
  intros Hb [H1 H2 H3 H4]. destruct b as [c| | |st]; try done; cbn [onReceive].
  - unfold connStateReceived, toast. rewrite jbind_assign. destruct c; [|rewrite jbind_assign]; rewrite jbind_field;
      cbn [StartScreen.connToastsDeactivated set_connected set_ready]; destruct (connToastsDeactivated s);
      eexists; (split; [reflexivity|by split]).
  - unfold generalReceived, toast.
    destruct (st =? -2), (st =? -3), (st =? -4), (st =? -7), (st =? -5), (st =? -6); cbn [orb];
      rewrite ?jbind_assoc, ?jbind_field; try destruct (connToastsDeactivated s);
      rewrite ?jbind_assoc, ?jbind_ret, ?doing_ok, ?jbind_assign, ?doing_ok, ?jbind_assoc, ?jbind_field;
      eexists; (split; [reflexivity|by split]).
Qed.

Lemma others_run half rows os s :
  Forall (fun b => other b = true) os -> showing half rows s ->
  exists s', receive_all os s = (Ok tt, s') /\ showing half rows s'.
Proof.
  intros Ho. revert s. induction Ho as [|b os Hb Ho IH]; intros s Hs; [by exists s|].
  destruct (other_run _ _ _ _ Hb Hs) as (s1 & E & Hs1). cbn [receive_all]. rewrite (jbind_ok _ _ _ _ _ E). by apply IH.
Qed.

(** Two halves, whatever their order, with other broadcasts in between. *)
Lemma pair_run b1 b2 f1 f2 os rows s bs :
  (forall half rows s, showing half rows s -> exists s1, showing half rows s1 /\ onReceive b1 s = half_row f1 s1) ->
  (forall half rows s, showing half rows s -> exists s1, showing half rows s1 /\ onReceive b2 s = half_row f2 s1) ->
  length (f2 (f1 (replicate 5 None))) = 5%nat ->
  Forall (fun b => other b = true) os -> showing None rows s ->
  exists s', receive_all (b1 :: os ++ b2 :: bs) s = receive_all bs s' /\
    showing None (rows ++ [cells_of (f2 (f1 (replicate 5 None)))]) s'.
Proof.
  intros R1 R2 Hl Ho Hs. destruct (R1 _ _ _ Hs) as (s1 & Hs1 & E1).
  destruct (half_row_first f1 _ _ Hs1) as (s2 & E2 & Hs2).
  destruct (others_run _ _ _ _ Ho Hs2) as (s3 & E3 & Hs3).
  destruct (R2 _ _ _ Hs3) as (s4 & Hs4 & E4).
  destruct (half_row_second f2 _ _ _ Hs4 Hl) as (s5 & E5 & Hs5).
  exists s5. split; [|done]. cbn [receive_all]. rewrite <- E1 in E2. rewrite (jbind_ok _ _ _ _ _ E2).
  rewrite receive_all_app, (jbind_ok _ _ _ _ _ E3). cbn [receive_all]. rewrite <- E4 in E5. by rewrite (jbind_ok _ _ _ _ _ E5).
Qed.

Lemma arrives_run ps bs rows s :
  arrives ps bs -> Forall (fun x => report_ok x.2) ps -> showing None rows s ->
  exists s', receive_all bs s = (Ok tt, s') /\ showing None (rows ++ map (fun x => row_cells N x.1 x.2) ps) s'.
Proof.
  intros Har. revert rows s.
  induction Har as [|b ps bs Hb _ IH|g r os ps bs Ho _ IH|g r os ps bs Ho _ IH]; intros rows s Hps Hs.
  - exists s. split; [done|]. by rewrite app_nil_r.
  - destruct (other_run _ _ _ _ Hb Hs) as (s1 & E & Hs1). cbn [receive_all]. rewrite (jbind_ok _ _ _ _ _ E). by apply IH.
  - apply Forall_cons in Hps as [Hr Hps]. cbn in Hr.
    destruct (pair_run (RssiSnr (signal_bytes g)) (Msg (report_bytes r)) (signal_half g) (report_half N r) os rows s bs)
      as (s1 & E & Hs1); [intros; by apply signal_run|intros; by apply report_run| |done|done|].
    { by rewrite length_report_half, length_signal_half. }
    rewrite E. destruct (IH _ _ Hps Hs1) as (s2 & E2 & Hs2). exists s2. split; [done|].
    cbn [map]. by rewrite <- app_assoc in Hs2.
  - apply Forall_cons in Hps as [Hr Hps]. cbn in Hr.
    destruct (pair_run (Msg (report_bytes r)) (RssiSnr (signal_bytes g)) (report_half N r) (signal_half g) os rows s bs)
      as (s1 & E & Hs1); [intros; by apply report_run|intros; by apply signal_run| |done|done|].
    { by rewrite length_signal_half, length_report_half. }
    rewrite E. destruct (IH _ _ Hps Hs1) as (s2 & E2 & Hs2). exists s2. split; [done|].
    cbn [map]. by rewrite <- app_assoc in Hs2.
Qed.

(** ** A lost notification *)

(** From a half row on, every signal completes the row of the report before it. *)
Lemma shifted_run r ps rows s :
  Forall (fun x => report_ok x.2) ps -> showing (Some (report_half N r (replicate 5 None))) rows s ->
  exists s', receive_all (flat_map (fun x => [RssiSnr (signal_bytes x.1); Msg (report_bytes x.2)]) ps) s = (Ok tt, s') /\
    showing (Some (report_half N (foldl (fun _ x => x) r (map snd ps)) (replicate 5 None)))
      (rows ++ map (fun x => row_cells N x.1 x.2) (zip (map fst ps) (r :: map snd ps))) s'.
Proof.
  revert r rows s. induction ps as [|[g r'] ps IH]; intros r rows s Hps Hs.
  { exists s. split; [done|]. by rewrite app_nil_r. }
  apply Forall_cons in Hps as [Hr Hps]. cbn in Hr.
  destruct (signal_run _ _ g _ Hs) as (s1 & Hs1 & E1).
  destruct (half_row_second (signal_half g) _ _ _ Hs1) as (s2 & E2 & Hs2).
  { by rewrite length_signal_half, length_report_half. }
  destruct (report_run _ _ r' _ Hr Hs2) as (s3 & Hs3 & E3).
  destruct (half_row_first (report_half N r') _ _ Hs3) as (s4 & E4 & Hs4).
  destruct (IH r' _ _ Hps Hs4) as (s5 & E5 & Hs5).
  exists s5. split.
  - cbn [flat_map]. cbn [app receive_all fst snd]. rewrite <- E1 in E2. rewrite (jbind_ok _ _ _ _ _ E2).
    rewrite <- E3 in E4. by rewrite (jbind_ok _ _ _ _ _ E4).
  - cbn [map zip zip_with fst snd]. rewrite <- app_assoc in Hs5. exact Hs5.
Qed.

End screen.
