(* ===== verification/Graphs.v ===== *)
(** * The evaluation script

    [LoRaVisualGraphs/main.py], [process_data]: reading the rows of an
    experiment from the csv file the app wrote, sorting them into the
    iterations of the plan, and the figures computed for each iteration. An
    uncaught exception is [None]; quotients are kept as numerator and
    denominator. *)
From S2P Require Import Prelude KSem Platform Sx12xx CLib Plan TimeOnAir Java.
From stdpp Require Import prelude list numbers strings gmap sorting.
From Stdlib Require Import ZArith Lia.
Open Scope Z_scope.

(** ** Text files and csv

    Lines keep their end; [csv.reader] is the state machine of Python's
    module with its default dialect. *)

(** Universal newlines: [after_cr] when the last character was a carriage return. *)
Fixpoint newlines (after_cr : bool) (t : text) : text :=
  match t with
  | [] => []
  | c :: r =>
      if c =? 13 then 10 :: newlines true r
      else if (c =? 10) && after_cr then newlines false r
      else c :: newlines false r
  end.

Fixpoint py_lines (t : text) : list text :=
  match t with
  | [] => []
  | c :: r =>
      if c =? 10 then [c] :: py_lines r
      else match py_lines r with [] => [[c]] | l :: ls => (c :: l) :: ls end
  end.

Inductive csv_state := START_RECORD | START_FIELD | IN_FIELD | IN_QUOTED_FIELD | QUOTE_IN_QUOTED_FIELD | EAT_CRNL.

Record reader := mk_reader { state : csv_state; cur_field : text; fields : list text }.

Definition save_field (r : reader) (st : csv_state) : reader := mk_reader st [] (fields r ++ [cur_field r]).
Definition add_char (r : reader) (st : csv_state) (c : Z) : reader := mk_reader st (cur_field r ++ [c]) (fields r).
Definition in_state (r : reader) (st : csv_state) : reader := mk_reader st (cur_field r) (fields r).

(** [c = None]: the end of the line. *)
Definition at_end (c : option Z) : bool :=
  match c with None => true | Some c => (c =? 10) || (c =? 13) end.
Definition after_end (c : option Z) : csv_state := match c with None => START_RECORD | Some _ => EAT_CRNL end.

Definition start_field (r : reader) (c : option Z) : option reader :=
  if at_end c then Some (save_field r (after_end c))
  else match c with
       | Some c =>
           if c =? 34 then Some (in_state r IN_QUOTED_FIELD)
           else if c =? 44 then Some (save_field r START_FIELD)
           else Some (add_char r IN_FIELD c)
       | None => None
       end.

Definition process_char (r : reader) (c : option Z) : option reader :=
  match state r with
  | START_RECORD =>
      match c with
      | None => Some r
      | Some x => if at_end c then Some (in_state r EAT_CRNL) else start_field r c
      end
  | START_FIELD => start_field r c
  | IN_FIELD =>
      if at_end c then Some (save_field r (after_end c))
      else match c with
           | Some c => if c =? 44 then Some (save_field r START_FIELD) else Some (add_char r IN_FIELD c)
           | None => None
           end
  | IN_QUOTED_FIELD =>
      match c with
      | None => Some r
      | Some c => if c =? 34 then Some (in_state r QUOTE_IN_QUOTED_FIELD) else Some (add_char r IN_QUOTED_FIELD c)
      end
  | QUOTE_IN_QUOTED_FIELD =>
      if at_end c then Some (save_field r (after_end c))
      else match c with
           | Some c =>
               if c =? 34 then Some (add_char r IN_QUOTED_FIELD c)
               else if c =? 44 then Some (save_field r START_FIELD)
               else Some (add_char r IN_FIELD c)
           | None => None
           end
  | EAT_CRNL => match c with None => Some (in_state r START_RECORD) | Some _ => if at_end c then Some r else None end
  end.

Fixpoint process_chars (r : reader) (cs : list (option Z)) : option reader :=
  match cs with [] => Some r | c :: cs' => r' ← process_char r c; process_chars r' cs' end.

Definition new_reader : reader := mk_reader START_RECORD [] [].

(** The records of the lines; a record goes on while the state is not that of its start. *)
Fixpoint csv_records (r : reader) (lines : list text) : option (list (list text)) :=
  match lines with
  | [] =>
      match state r with
      | IN_QUOTED_FIELD => Some [fields r ++ [cur_field r]]
      | _ => Some []
      end
  | line :: lines' =>
      r' ← process_chars r (map Some line ++ [None]);
      match state r' with
      | START_RECORD => rest ← csv_records new_reader lines'; Some (fields r' :: rest)
      | _ => csv_records r' lines'
      end
  end.

(** [csv.DictReader]: the first record names the fields, empty records are
    skipped; a name without a value is [None]. *)
Definition dict : Type := list (text * option text).
Definition dict_row (names : list text) (rec : list text) : dict :=
  zip names (map Some rec ++ replicate (length names) None).
Definition get (d : dict) (k : text) : option (option text) :=
  snd <$> List.find (fun x => text_eqb x.1 k) d.

Definition dict_reader (records : list (list text)) : list dict :=
  match records with
  | [] => []
  | names :: recs => map (dict_row names) (List.filter (fun r => match r with [] => false | _ => true end) recs)
  end.

(** The rows of the file; [x.replace('\0', '')] for every line. *)
Definition read_csv (file : text) : option (list dict) :=
  recs ← csv_records new_reader (map (List.filter (fun c => negb (c =? 0))) (py_lines (newlines false file)));
  Some (dict_reader recs).

(** ** Extraction *)

(** A row as the script keeps it; the number stays text for now. *)
Record sample := mk_sample {
  total_number : option text; identifier : option text; rssi : Z; snr : Z; bit_errors : Z }.

(** [int(row[k])]: the column must be there, have a value and be a number. *)
Definition int_of (d : dict) (k : string) : option Z := v ← get d (txt k); t ← v; py_int t.

(** The loop over the rows: a row with the number of the one before is skipped. *)
Fixpoint extract (last_row : option (option text)) (rows : list dict) : option (list sample) :=
  match rows with
  | [] => Some []
  | row :: rows' =>
      n ← get row (txt "totalnumber");
      if bool_decide (last_row = Some n) then extract last_row rows'
      else
        i ← get row (txt "identifier");
        r ← int_of row "rssi";
        s ← int_of row "snr";
        e ← int_of row "biterrors";
        rest ← extract (Some n) rows';
        Some (mk_sample n i r s e :: rest)
  end.

(** ** Aggregation *)

(** The lists and sums of one iteration; the values of the noise plot are
    [rssi - snr]. *)
Record gathered := mk_gathered {
  rounds : list Z; rssi_iteration : list Z; snr_iteration : list Z; corrupted : list bool;
  rssi_sum : Z; biterror_sum : Z; corrupted_msgs_count : Z }.
Definition nothing : gathered := mk_gathered [] [] [] [] 0 0 0.

(** ['f' in identifier]. *)
Definition marked_f (i : text) : bool := existsb (fun c => c =? 102) i.

Definition gather (n : Z) (v : sample) (i : text) (a : gathered) : gathered :=
  let f := marked_f i in
  mk_gathered (rounds a ++ [n]) (rssi_iteration a ++ [rssi v]) (snr_iteration a ++ [rssi v - snr v])
    (corrupted a ++ [f]) (rssi_sum a + rssi v) (biterror_sum a + bit_errors v)
    (corrupted_msgs_count a + (if f then 1 else 0)).

(** [for n in range(number_of_transmissions)]; the samples [vs] that are left stand for [index]. *)
Fixpoint inner (base : Z) (ns : list Z) (vs : list sample) (a : gathered) : option (list sample * gathered) :=
  match ns with
  | [] => Some (vs, a)
  | n :: ns' =>
      match vs with
      | [] => Some (vs, a)
      | v :: vs' =>
          t ← total_number v;
          x ← py_int t;
          if n =? x - base then
            i ← identifier v;
            inner base ns' vs' (gather n v i a)
          else inner base ns' vs a
      end
  end.

(** The figures of an iteration. *)
Record figures := mk_figures {
  label : combo; data : gathered;
  rssi_avg : Z * Z; bit_err_rate : Z * Z; pdr : Z * Z; pdr_corr : Z * Z; pdr_uncorr : Z * Z; etx : Z * Z }.

Definition figures_of (N packet_length : Z) (c : combo) (a : gathered) : figures :=
  let k := Z.of_nat (length (rssi_iteration a)) in
  let bad := corrupted_msgs_count a in
  if 0 <? k then
    mk_figures c a (rssi_sum a, k)
      (if 0 <? bad then (biterror_sum a, bad * packet_length * 8) else (0, 1))
      (k, N) (bad, N) (k - bad, N) (if 0 <? k - bad then (N, k - bad) else (0, 1))
  else mk_figures c a (0, 1) (0, 1) (0, 1) (0, 1) (0, 1) (0, 1).

(** The variables that live across iterations. *)
Record progress := mk_progress { iteration : Z; left_over : list sample; results : list figures }.

Definition one_iteration (N packet_length : Z) (c : combo) (p : progress) : option progress :=
  '(vs, a) ← inner (iteration p * N) (range N) (left_over p) nothing;
  Some (mk_progress (iteration p + 1) vs (results p ++ [figures_of N packet_length c a])).

(** A loop over the bits of a code. *)
Fixpoint for_code (code : Z) (l : list Z) (body : Z -> progress -> option progress) (p : progress) : option progress :=
  match l with
  | [] => Some p
  | i :: l' => p' ← (if Z.land (Z.shiftr code i) 1 =? 1 then body i p else Some p); for_code code l' body p'
  end.

Definition aggregate (fr bw sf cr pw N packet_length : Z) (rows : list sample) : option (list figures) :=
  p ← for_code fr (range 8) (fun i => for_code bw (range 3) (fun j => for_code sf (range 6) (fun k =>
        for_code cr (range 4) (fun l => for_code pw (range 8) (fun m =>
          one_iteration N packet_length (mk_combo i j k l m)))))) (mk_progress 0 rows []);
  Some (results p).

(** ** The information file *)

(** [float(t)]: not a number, an infinity, or [m * 10 ^ e] up to rounding. *)
Inductive py_number := NaN | Infinite | Finite (m e : Z).

(** The digits and underscores at the start, and what follows them. *)
Fixpoint digit_part (t : text) : text * text :=
  match t with
  | c :: r => if is_digit c || (c =? 95) then let '(d, u) := digit_part r in (c :: d, u) else ([], t)
  | [] => ([], [])
  end.
Definition digitpart (d : text) : option text := match d with [] => Some [] | _ => underscored false d end.

(** A sign, if any. *)
Definition signed (t : text) : bool * text :=
  match t with
  | c :: r => if c =? 45 then (true, r) else if c =? 43 then (false, r) else (false, t)
  | [] => (false, [])
  end.

Definition exponent (t : text) : option Z :=
  match t with
  | [] => Some 0
  | c :: r =>
      if (c =? 101) || (c =? 69) then
        let '(neg, ds) := signed r in
        d ← underscored false ds; Some (if neg : bool then - digits_value d else digits_value d)
      else None
  end.

(** Magnitudes from [2 ^ 1024 - 2 ^ 970] on are rounded to infinity. *)
Definition overflows (m e : Z) : bool :=
  let limit := 2 ^ 1024 - 2 ^ 970 in
  if 0 <=? e then limit <=? Z.abs m * 10 ^ e else limit * 10 ^ (- e) <=? Z.abs m.

Definition py_float (t : text) : option py_number :=
  let '(neg, u) := signed (py_strip t) in
  if text_eqb (map lower u) (txt "nan") then Some NaN
  else if text_eqb (map lower u) (txt "inf") || text_eqb (map lower u) (txt "infinity") then Some Infinite
  else
    let '(whole, u1) := digit_part u in
    let '(point, u2) := match u1 with c :: r => if c =? 46 then (true, r) else (false, u1) | [] => (false, []) end in
    let '(frac, u3) := if point : bool then digit_part u2 else ([], u2) in
    w ← digitpart whole;
    f ← digitpart frac;
    if (length (w ++ f) =? 0)%nat then None
    else
      e ← exponent u3;
      let m := digits_value (w ++ f) in
      let e := e - Z.of_nat (length f) in
      Some (if overflows m e then Infinite else Finite (if neg : bool then - m else m) e).

(** [int(float(t))]: towards zero; infinities and NaN raise. *)
Definition int_float (t : text) : option Z :=
  match py_float t with
  | Some (Finite m e) => Some (if 0 <=? e then m * 10 ^ e else Z.quot m (10 ^ (- e)))
  | _ => None
  end.

(** [line.strip('\n')]. *)
Fixpoint drop_newlines (t : text) : text :=
  match t with c :: r => if c =? 10 then drop_newlines r else t | [] => [] end.
Definition strip_newline (t : text) : text := rev (drop_newlines (rev (drop_newlines t))).

(** [datetime.utcfromtimestamp]: the years 1 to 9999. *)
Definition utc_ok (ts : Z) : bool := (-62135596800 <=? ts) && (ts <? 253402300800).

Definition exp_param_names : nat := 34.

(** Line [i]: the start time (19) must be a time and the temperature (28) a number. *)
Definition line_ok (i : nat) (v : text) : bool :=
  if (i =? 19)%nat then match py_int v with Some ts => utc_ok ts | None => false end
  else if (i =? 28)%nat then match py_float v with Some _ => true | None => false end
  else true.

(** The loop over the lines; there are names for 34 of them. *)
Fixpoint overview (i : nat) (lines : list text) : option (list text) :=
  match lines with
  | [] => Some []
  | line :: lines' =>
      let v := strip_newline line in
      if line_ok i v && (i <? exp_param_names)%nat then
        exp_params ← overview (S i) lines'; Some (v :: exp_params)
      else None
  end.

(** ** [process_data] up to the figures *)

Definition param (exp_params : list text) (i : nat) : option Z := t ← exp_params !! i; py_int t.

Definition process_data (info file : text) : option (list figures) :=
  exp_params ← overview 0 (py_lines (newlines false info));
  rows ← read_csv file;
  samples ← extract None rows;
  fr ← param exp_params 12; bw ← param exp_params 13; sf ← param exp_params 14;
  cr ← param exp_params 15; pw ← param exp_params 16;
  N ← param exp_params 1;
  packet_length ← param exp_params 3;
  _ ← (distance ← exp_params !! 26%nat; int_float distance);
  aggregate fr bw sf cr pw N packet_length samples.

(** ** Time on air in the ETX plot *)

(** Symbols of the payload, [ceil] and [max] included; coding rate 4/6. *)
Definition graph_symbols (packet_length sf bw : Z) : Z :=
  let num := 8 * packet_length - 4 * sf + 28 + 16 in
  let ldr_opt := ((sf =? 11) && (bw =? 125)) || (sf =? 12) in
  let den := if ldr_opt then 4 * sf - 2 else 4 * sf in
  (if 0 <? num then - ((- num) / den) else 0) * (2 + 4) + 8.

(** ** The loops run through the plan *)

Fixpoint fold_opt {A P} (f : A -> P -> option P) (l : list A) (p : P) : option P :=
  match l with [] => Some p | x :: l' => p' ← f x p; fold_opt f l' p' end.

Lemma fold_opt_app {A P} (f : A -> P -> option P) l k p :
  fold_opt f (l ++ k) p = (fold_opt f l p ≫= fold_opt f k).
Proof. revert p. induction l as [|x l IH]; intros p; [done|]. cbn. destruct (f x p); [apply IH|done]. Qed.

Lemma fold_opt_flat_map {A B P} (f : B -> P -> option P) (h : A -> list B) l p :
  fold_opt f (flat_map h l) p = fold_opt (fun x => fold_opt f (h x)) l p.
Proof.
  revert p. induction l as [|x l IH]; intros p; [done|]. cbn. rewrite fold_opt_app.
  destruct (fold_opt f (h x) p); [apply IH|done].
Qed.

Lemma fold_opt_map {A B P} (f : B -> P -> option P) (h : A -> B) l p :
  fold_opt f (map h l) p = fold_opt (fun x => f (h x)) l p.
Proof. revert p. induction l as [|x l IH]; intros p; [done|]. cbn. destruct (f (h x) p); [apply IH|done]. Qed.

Lemma fold_opt_ext {A P} (f g : A -> P -> option P) l p :
  (forall x p, f x p = g x p) -> fold_opt f l p = fold_opt g l p.
Proof.
  intros E. revert p. induction l as [|x l IH]; intros p; [done|]. cbn. rewrite E. destruct (g x p); [apply IH|done].
Qed.

Lemma for_code_bits code n body p : for_code code (range n) body p = fold_opt body (bits n code) p.
Proof.
  unfold bits. revert p. induction (range n) as [|i l IH]; intros p; [done|]. cbn [for_code List.filter].
  fold (bit_set code i). destruct (bit_set code i); cbn; [destruct (body i p); [apply IH|done]|apply IH].
Qed.

Lemma aggregate_plan fr bw sf cr pw N pl rows :
  aggregate fr bw sf cr pw N pl rows =
  (results <$> fold_opt (one_iteration N pl) (combos fr bw sf cr pw) (mk_progress 0 rows [])).
Proof.
  unfold aggregate. rewrite for_code_bits. unfold combos. rewrite fold_opt_flat_map.
  match goal with |- mbind _ (fold_opt ?f _ _) = fmap _ (fold_opt ?g ?l ?p) =>
    assert (E : fold_opt f l p = fold_opt g l p); [|rewrite E; by destruct (fold_opt g l p)] end.
  apply fold_opt_ext. intros i p. rewrite for_code_bits, fold_opt_flat_map.
  apply fold_opt_ext. intros j p1. rewrite for_code_bits, fold_opt_flat_map.
  apply fold_opt_ext. intros k p2. rewrite for_code_bits, fold_opt_flat_map.
  apply fold_opt_ext. intros l p3. by rewrite for_code_bits, fold_opt_map.
Qed.

(** ** Samples with numbers *)

Definition number (v : sample) : Z := default 0 (total_number v ≫= py_int).
Definition numbered (v : sample) : Prop := total_number v ≫= py_int = Some (number v) /\ is_Some (identifier v).

(** What an iteration gathers from its samples. *)
Definition gather_all (base : Z) (vs : list sample) (a : gathered) : gathered :=
  foldl (fun a v => gather (number v - base) v (default [] (identifier v)) a) a vs.

Definition increasing (vs : list sample) : Prop := StronglySorted (fun v w => number v < number w) vs.

Definition below (hi : Z) (v : sample) : bool := number v <? hi.
Definition from (lo : Z) (v : sample) : bool := lo <=? number v.

Lemma inner_step base n ns v vs a :
  numbered v ->
  inner base (n :: ns) (v :: vs) a =
  if n =? number v - base then inner base ns vs (gather n v (default [] (identifier v)) a)
  else inner base ns (v :: vs) a.
Proof.
  intros [Hn [i Hi]]. cbn [inner]. destruct (total_number v) as [t|]; [|done]. cbn [mbind option_bind] in *.
  rewrite Hn. cbn [mbind option_bind]. destruct (_ =? _); [|done]. by rewrite Hi.
Qed.

(** ** What is gathered *)

Lemma gather_all_spec base vs a :
  let g := gather_all base vs a in let k := List.filter (fun v => marked_f (default [] (identifier v))) vs in
  rounds g = rounds a ++ map (fun v => number v - base) vs /\
  rssi_iteration g = rssi_iteration a ++ map rssi vs /\
  snr_iteration g = snr_iteration a ++ map (fun v => rssi v - snr v) vs /\
  rssi_sum g = foldl (fun s v => s + rssi v) (rssi_sum a) vs /\
  biterror_sum g = foldl (fun s v => s + bit_errors v) (biterror_sum a) vs /\
  corrupted_msgs_count g = corrupted_msgs_count a + Z.of_nat (length k).
Proof.
  revert a. induction vs as [|v vs IH]; intros a; cbn zeta.
  { cbn. rewrite !app_nil_r, Z.add_0_r. done. }
  change (gather_all base (v :: vs) a) with (gather_all base vs (gather (number v - base) v (default [] (identifier v)) a)).
  destruct (IH (gather (number v - base) v (default [] (identifier v)) a)) as (-> & -> & -> & -> & -> & ->).
  cbn [gather rounds rssi_iteration snr_iteration rssi_sum biterror_sum corrupted_msgs_count map foldl List.filter].
  rewrite <- !app_assoc. split_and!; try done. destruct (marked_f _); cbn [length]; lia.
Qed.

Lemma increasing_filter p vs : increasing vs -> increasing (List.filter p vs).
Proof.
  unfold increasing. induction 1 as [|v vs Hs IH Hf]; [constructor|]. cbn. destruct (p v); [|done].
  constructor; [done|]. rewrite List.Forall_forall in *. intros w [Hw _]%filter_In. by apply Hf.
Qed.

Lemma Forall_lfilter {A} (P : A -> Prop) p l : Forall P l -> Forall P (List.filter p l).
Proof. rewrite !List.Forall_forall. intros H x [Hx _]%filter_In. by apply H. Qed.

Lemma filter_filter {A} (p q : A -> bool) l : List.filter p (List.filter q l) = List.filter (fun x => q x && p x) l.
Proof. induction l as [|x l IH]; [done|]. cbn. destruct (q x); cbn; [destruct (p x)|]; by rewrite IH. Qed.

Lemma filter_from_all lo vs :
  Forall (fun v => lo <= number v) vs -> List.filter (from lo) vs = vs /\ List.filter (below lo) vs = [].
Proof.
  intros H. rewrite List.Forall_forall in H.
  rewrite (filter_ext_in _ (fun _ => true) vs), (filter_ext_in (below _) (fun _ => false) vs), filter_true, filter_false; [done|..];
    intros v Hv%H; unfold below, from; lia.
Qed.

Lemma last_cons_cons {A} (x y : A) l : last (x :: y :: l) = last (y :: l).
Proof. done. Qed.

Lemma last_from us hi :
  increasing us ->
  match last (List.filter (from hi) us) with
  | Some u => last us = Some u
  | None => Forall (fun u => number u < hi) us
  end.
Proof.
  induction 1 as [|u us Hs IH Hf]; [constructor|]. cbn [List.filter]. unfold from at 1.
  destruct (Z.leb_spec hi (number u)) as [Hge|Hlt].
  - destruct (filter_from_all hi us) as [-> _].
    { eapply Forall_impl; [exact Hf|]. cbn. lia. }
    destruct (last (u :: us)) eqn:E; [done|]. by apply last_None in E.
  - destruct (last (List.filter (from hi) us)) as [w|] eqn:E; [|by constructor].
    destruct us as [|x us]; [done|]. exact IH.
Qed.

(** The samples of iteration [i]. *)
Definition of_iteration (N i : Z) (vs : list sample) : list sample :=
  List.filter (fun v => (i * N <=? number v) && (number v <? (i + 1) * N)) vs.
Definition iteration_figures (N pl : Z) (vs : list sample) (i : Z) (c : combo) : figures :=
  figures_of N pl c (gather_all (i * N) (of_iteration N i vs) nothing).

(** The figures of all iterations. *)
Definition all_figures (N pl : Z) (vs : list sample) (l : list combo) : list figures :=
  map (fun x => iteration_figures N pl vs x.1 x.2) (zip (range (Z.of_nat (length l))) l).

Lemma length_all_figures N pl vs l : length (all_figures N pl vs l) = length l.
Proof. unfold all_figures, range. rewrite length_map, length_zip_with_l; rewrite length_seqZ; lia. Qed.

Lemma all_figures_at N pl vs l i c :
  l !! i = Some c -> all_figures N pl vs l !! i = Some (iteration_figures N pl vs (Z.of_nat i) c).
Proof.
  intros Hi. unfold all_figures. change (map ?f ?l) with (f <$> l). rewrite list_lookup_fmap.
  assert (Hz : zip (range (Z.of_nat (length l))) l !! i = Some (Z.of_nat i, c)); [|by rewrite Hz].
  apply lookup_zip_with_Some. exists (Z.of_nat i), c. split_and!; try done. unfold range.
  apply lookup_lt_Some in Hi. by rewrite lookup_seqZ_lt by lia.
Qed.

(** Samples in order, [us], and then possibly one that is out of order with
    whatever follows it. *)
Section tail.
Context (tail : list sample).

(** The number of the first sample of [tail] is behind what the loop has
    reached after [us]. *)
Definition behind (us : list sample) (reached : Z) : Prop :=
  match tail with
  | [] => True
  | v :: _ => numbered v /\ match last us with Some u => number v <= number u | None => number v < reached end
  end.

Lemma behind_cons u us reached reached' :
  behind (u :: us) reached -> number u < reached' -> behind us reached'.
Proof.
  unfold behind. destruct tail as [|v ws]; [done|]. intros [Hv Hb] Hlt. split; [done|].
  destruct us as [|u' us]; [cbn in *; lia|]. rewrite last_cons_cons in Hb.
  destruct (last (u' :: us)) eqn:E; [done|]. by apply last_None in E.
Qed.

Lemma behind_later us reached reached' : behind us reached -> reached <= reached' -> behind us reached'.
Proof.
  unfold behind. destruct tail as [|v ws]; [done|]. intros [Hv Hb] Hle. split; [done|]. destruct (last us); [done|lia].
Qed.

(** One iteration takes the samples of its numbers and leaves the rest. *)
Lemma inner_spec base m us a k :
  Forall numbered us -> increasing us -> Forall (fun u => base + k <= number u) us -> behind us (base + k) ->
  inner base (seqZ k (Z.of_nat m)) (us ++ tail) a =
  Some (List.filter (from (base + k + Z.of_nat m)) us ++ tail,
        gather_all base (List.filter (below (base + k + Z.of_nat m)) us) a).
Proof.
  revert us a k. induction m as [|m IH]; intros us a k Hn Hs Hk Hb.
  { cbn [seqZ inner]. rewrite Z.add_0_r. by destruct (filter_from_all _ _ Hk) as [-> ->]. }
  rewrite seqZ_cons by lia. replace (Z.pred (Z.of_nat (S m))) with (Z.of_nat m) by lia.
  replace (base + k + Z.of_nat (S m)) with (base + Z.succ k + Z.of_nat m) by lia.
  destruct us as [|u us].
  { cbn [app]. unfold behind in Hb. destruct tail as [|v ws] eqn:Et; [done|]. destruct Hb as [Hv Hb]. cbn in Hb.
    rewrite inner_step by done. destruct (Z.eqb_spec k (number v - base)); [lia|].
    apply (IH [] a (Z.succ k)); [done|done|done|]. unfold behind. rewrite Et. split; [done|cbn; lia]. }
  pose proof Hn as Hn'. apply Forall_cons in Hn as [Hu Hn]. apply Forall_cons in Hk as [Hku Hk].
  cbn [app]. rewrite inner_step by done. pose proof Hs as Hs'. apply StronglySorted_inv in Hs as [Hs Hlt].
  destruct (Z.eqb_spec k (number u - base)) as [Ek|Ek].
  - rewrite IH; [|done|done|eapply Forall_impl; [exact Hlt|cbn; lia]|eapply behind_cons; [done|lia]].
    cbn [List.filter]. unfold from at 2, below at 2.
    destruct (Z.leb_spec (base + Z.succ k + Z.of_nat m) (number u)), (Z.ltb_spec (number u) (base + Z.succ k + Z.of_nat m)); try lia.
    by rewrite Ek.
  - apply (IH (u :: us) a (Z.succ k)); [done|done| |eapply behind_later; [done|lia]].
    constructor; [lia|]. eapply Forall_impl; [exact Hlt|]. cbn. lia.
Qed.

Lemma one_iteration_run N pl c it us res :
  0 <= N -> Forall numbered us -> increasing us -> Forall (fun u => it * N <= number u) us -> behind us (it * N) ->
  one_iteration N pl c (mk_progress it (us ++ tail) res) =
  Some (mk_progress (it + 1) (List.filter (from (it * N + N)) us ++ tail) (res ++ [iteration_figures N pl us it c])).
Proof.
  intros HN Hn Hs Hk Hb. rewrite <- (Z.add_0_r (it * N)) in Hk, Hb.
  assert (Hi := inner_spec (it * N) (Z.to_nat N) us nothing 0 Hn Hs Hk Hb).
  rewrite Z2Nat.id, Z.add_0_r in Hi by done. unfold one_iteration, range. cbn [iteration left_over results].
  rewrite Hi. cbn [mbind option_bind]. unfold iteration_figures, of_iteration. do 6 f_equal.
  apply filter_ext_in. intros v Hv. rewrite List.Forall_forall in Hk. specialize (Hk v Hv). unfold below. lia.
Qed.

Lemma iterations_run N pl l it us res :
  0 <= N -> Forall numbered us -> increasing us -> Forall (fun u => it * N <= number u) us -> behind us (it * N) ->
  exists us', fold_opt (one_iteration N pl) l (mk_progress it (us ++ tail) res) =
    Some (mk_progress (it + Z.of_nat (length l)) (us' ++ tail)
      (res ++ map (fun x => iteration_figures N pl us x.1 x.2) (zip (seqZ it (Z.of_nat (length l))) l))).
Proof.
  intros HN. revert it us res. induction l as [|c l IH]; intros it us res Hn Hs Hk Hb.
  { exists us. cbn. by rewrite Z.add_0_r, app_nil_r. }
  cbn [fold_opt]. rewrite one_iteration_run by done. cbn [mbind option_bind].
  destruct (IH (it + 1) (List.filter (from (it * N + N)) us) (res ++ [iteration_figures N pl us it c])) as (us' & E);
    [by apply Forall_lfilter|by apply increasing_filter| | |].
  { apply List.Forall_forall. intros v [_ Hv]%filter_In. unfold from in Hv. nia. }
  { unfold behind in *. destruct tail as [|v ws]; [done|]. destruct Hb as [Hv Hb]. split; [done|].
    pose proof (last_from us (it * N + N) Hs) as Hl. destruct (last (List.filter _ us)); [by rewrite Hl in Hb|].
    destruct (last us) as [u|] eqn:El; [|nia]. rewrite List.Forall_forall in Hl.
    apply last_Some_elem_of, list_elem_of_In, Hl in El. nia. }
  exists us'. etrans; [exact E|]. f_equal. cbn [length]. rewrite Nat2Z.inj_succ, (seqZ_cons it) by lia. f_equal; [lia|].
  rewrite <- app_assoc. f_equal. cbn [zip zip_with map fst snd app]. rewrite Z.pred_succ. f_equal.
  apply map_ext_in. intros [i c'] Hin. cbn [fst snd]. unfold iteration_figures, of_iteration. do 2 f_equal.
  rewrite filter_filter. apply filter_ext_in. intros v Hv.
  apply list_elem_of_In, elem_of_zip_l, elem_of_seqZ in Hin. unfold from.
  destruct (Z.leb_spec (it * N + N) (number v)); [done|]. cbn [andb].
  destruct (Z.leb_spec (i * N) (number v)); [nia|done].
Qed.

(** Only the samples in order count. *)
Lemma aggregate_run fr bw sf cr pw N pl us :
  0 <= N -> Forall numbered us -> increasing us -> Forall (fun u => 0 <= number u) us -> behind us 0 ->
  aggregate fr bw sf cr pw N pl (us ++ tail) =
  Some (all_figures N pl us (combos fr bw sf cr pw)).
Proof.
  intros HN Hn Hs Hk Hb. rewrite aggregate_plan.
  destruct (iterations_run N pl (combos fr bw sf cr pw) 0 us [] HN Hn Hs) as (us' & E); [by rewrite ?Z.mul_0_l..|].
  by rewrite E.
Qed.

End tail.

(** ** A sample without a number *)
Section unreadable.
Context (v : sample) (ws : list sample) (Hv : total_number v ≫= py_int = None).

Lemma inner_unreadable base n ns a : inner base (n :: ns) (v :: ws) a = None.
Proof. cbn. destruct (total_number v) as [t|]; [|done]. cbn in *. by rewrite Hv. Qed.

(** It is looked at as soon as the samples before it are used up and a number is left. *)
Lemma inner_until base m us a k :
  Forall numbered us -> increasing us -> Forall (fun u => base + k <= number u) us ->
  inner base (seqZ k (Z.of_nat m)) (us ++ v :: ws) a =
  if decide (m <> O /\ Forall (fun u => number u < base + k + Z.of_nat m - 1) us) then None
  else Some (List.filter (from (base + k + Z.of_nat m)) us ++ v :: ws,
             gather_all base (List.filter (below (base + k + Z.of_nat m)) us) a).
Proof.
  revert us a k. induction m as [|m IH]; intros us a k Hn Hs Hk.
  { rewrite decide_False by lia. cbn [seqZ inner]. rewrite Z.add_0_r. by destruct (filter_from_all _ _ Hk) as [-> ->]. }
  rewrite seqZ_cons by lia. replace (Z.pred (Z.of_nat (S m))) with (Z.of_nat m) by lia.
  replace (base + k + Z.of_nat (S m)) with (base + Z.succ k + Z.of_nat m) by lia.
  destruct us as [|u us].
  { cbn [app]. rewrite inner_unreadable, decide_True; [done|]. split; [lia|constructor]. }
  pose proof Hn as Hn'. apply Forall_cons in Hn as [Hu Hn]. apply Forall_cons in Hk as [Hku Hk].
  cbn [app]. rewrite inner_step by done. pose proof Hs as Hs'. apply StronglySorted_inv in Hs as [Hs Hlt].
  destruct (Z.eqb_spec k (number u - base)) as [Ek|Ek].
  - rewrite IH; [|done|done|eapply Forall_impl; [exact Hlt|cbn; lia]].
    cbn [List.filter]. unfold from at 2, below at 2.
    destruct (Z.leb_spec (base + Z.succ k + Z.of_nat m) (number u)), (Z.ltb_spec (number u) (base + Z.succ k + Z.of_nat m)); try lia.
    rewrite Ek. apply decide_ext. split.
    + intros [Hm Hf]. split; [lia|]. constructor; [lia|]. eapply Forall_impl; [exact Hf|]. cbn. lia.
    + intros [_ Hf]. apply Forall_cons in Hf as [Hf1 Hf]. split; [lia|]. eapply Forall_impl; [exact Hf|]. cbn. lia.
  - etrans; [apply (IH (u :: us) a (Z.succ k)); [done|done|]|].
    + constructor; [lia|]. eapply Forall_impl; [exact Hlt|]. cbn. lia.
    + apply decide_ext. split; intros [Hm Hf]; [by split|]. split; [|done]. apply Forall_cons in Hf as [Hf1 Hf]. lia.
Qed.

Lemma iterations_unreadable N pl l it us res :
  0 < N -> Forall numbered us -> increasing us -> Forall (fun u => it * N <= number u) us ->
  l <> [] -> Forall (fun u => number u < (it + Z.of_nat (length l)) * N - 1) us ->
  fold_opt (one_iteration N pl) l (mk_progress it (us ++ v :: ws) res) = None.
Proof.
  intros HN. revert it us res. induction l as [|c l IH]; intros it us res Hn Hs Hk Hl Hu; [done|].
  rewrite <- (Z.add_0_r (it * N)) in Hk. assert (Hi := inner_until (it * N) (Z.to_nat N) us nothing 0 Hn Hs Hk).
  rewrite Z2Nat.id, Z.add_0_r in Hi by lia. cbn [fold_opt].
  case_decide as Hd.
  - assert (E1 : one_iteration N pl c (mk_progress it (us ++ v :: ws) res) = None); [|by rewrite E1].
    unfold one_iteration, range. cbn [iteration left_over results]. by rewrite Hi.
  - assert (E1 : exists r, one_iteration N pl c (mk_progress it (us ++ v :: ws) res) =
      Some (mk_progress (it + 1) (List.filter (from (it * N + N)) us ++ v :: ws) r)).
    { eexists. unfold one_iteration, range. cbn [iteration left_over results]. by rewrite Hi. }
    destruct E1 as [r ->]. cbn [mbind option_bind length] in *.
    assert (Hx : ~ Forall (fun u => number u < it * N + N - 1) us) by (intros Hx; apply Hd; split; [lia|done]).
    apply IH; [by apply Forall_lfilter|by apply increasing_filter| | |].
    + apply List.Forall_forall. intros u [_ Hf]%filter_In. unfold from in Hf. nia.
    + intros ->. apply Hx. eapply Forall_impl; [exact Hu|]. cbn. nia.
    + apply Forall_lfilter. eapply Forall_impl; [exact Hu|]. cbn. nia.
Qed.

Lemma aggregate_unreadable fr bw sf cr pw N pl us :
  0 < N -> Forall numbered us -> increasing us -> combos fr bw sf cr pw <> [] ->
  Forall (fun u => 0 <= number u < Z.of_nat (length (combos fr bw sf cr pw)) * N - 1) us ->
  aggregate fr bw sf cr pw N pl (us ++ v :: ws) = None.
Proof.
  intros HN Hn Hs Hc Hu. rewrite aggregate_plan, iterations_unreadable; try done;
    eapply Forall_impl; try exact Hu; cbn; lia.
Qed.

End unreadable.

(** C8. Samples whose numbers increase: the script sorts each into
    the iteration and the round its number belongs to, and the figures of
    every combination of the plan are those of its samples: the delivery rate
    is their number over the messages sent, the corrupted ones are those
    marked, the sums run over them. *)
Theorem evaluation_correct fr bw sf cr pw N pl vs :
  0 <= N -> Forall numbered vs -> increasing vs -> Forall (fun v => 0 <= number v) vs ->
  let plan := combos fr bw sf cr pw in
  exists figs, aggregate fr bw sf cr pw N pl vs = Some figs /\ length figs = length plan /\
  forall i c, plan !! i = Some c ->
    let mine := of_iteration N (Z.of_nat i) vs in
    let bad := List.filter (fun v => marked_f (default [] (identifier v))) mine in
    exists a, figs !! i = Some (figures_of N pl c a) /\
      rounds a = map (fun v => number v - Z.of_nat i * N) mine /\ rssi_iteration a = map rssi mine /\
      rssi_sum a = foldl (fun s v => s + rssi v) 0 mine /\
      biterror_sum a = foldl (fun s v => s + bit_errors v) 0 mine /\
      corrupted_msgs_count a = Z.of_nat (length bad) /\
      (mine <> [] -> pdr (figures_of N pl c a) = (Z.of_nat (length mine), N)).
Proof.
  intros HN Hn Hs Hk plan. pose proof (aggregate_run [] fr bw sf cr pw N pl vs HN Hn Hs Hk I) as E.
  rewrite app_nil_r in E. fold plan in E. eexists. split; [exact E|].
  split; [apply length_all_figures|].
  intros i c Hi mine bad. exists (gather_all (Z.of_nat i * N) mine nothing).
  destruct (gather_all_spec (Z.of_nat i * N) mine nothing) as (-> & Hr & _ & -> & -> & ->).
  split_and!; try done.
  - by rewrite (all_figures_at _ _ _ _ _ _ Hi).
  - intros Hm. unfold figures_of. rewrite Hr. cbn [nothing rssi_iteration app]. rewrite length_map.
    destruct mine; [done|]. done.
Qed.

(** One sample whose number is not larger than that of the one
    before it (or negative, if it is the first): the script waits for its
    number, which has passed, and neither it nor anything after it is counted. *)
Theorem late_sample_stalls fr bw sf cr pw N pl us v ws :
  0 <= N -> Forall numbered us -> increasing us -> Forall (fun u => 0 <= number u) us -> numbered v ->
  match last us with Some u => number v <= number u | None => number v < 0 end ->
  aggregate fr bw sf cr pw N pl (us ++ v :: ws) = aggregate fr bw sf cr pw N pl us.
Proof.
  intros HN Hn Hs Hk Hv Hb. rewrite (aggregate_run (v :: ws)) by done.
  pose proof (aggregate_run [] fr bw sf cr pw N pl us HN Hn Hs Hk I) as E. by rewrite app_nil_r in E.
Qed.

(** Two frequencies, two messages each; the second message of the first was lost. *)
Definition demo_sample (n : Z) (i : string) : sample :=
  mk_sample (Some (decimal n)) (Some (txt i)) (-80) 7 0.

Lemma demo_numbered n i : numbered (demo_sample n i) /\ number (demo_sample n i) = n.
Proof. unfold numbered, number. cbn. rewrite py_int_decimal. done. Qed.

Lemma evaluation_correct_witness :
  let vs := [demo_sample 0 "00000_000t"; demo_sample 2 "10000_000t"; demo_sample 3 "10000_001t"] in
  exists figs, aggregate 3 1 1 1 1 2 12 vs = Some figs /\ length figs = 2%nat.
Proof.
  intros vs. destruct (evaluation_correct 3 1 1 1 1 2 12 vs) as (figs & E & L & _); [done|..].
  - repeat (constructor; [apply demo_numbered|]). constructor.
  - repeat constructor.
  - repeat constructor; by vm_compute.
  - by exists figs.
Defined.

Lemma late_sample_stalls_witness :
  aggregate 3 1 1 1 1 2 12 ([demo_sample 1 "00000_001t"] ++ demo_sample 0 "00000_000t" :: [demo_sample 2 "10000_000t"]) =
  aggregate 3 1 1 1 1 2 12 [demo_sample 1 "00000_001t"].
Proof.
  apply late_sample_stalls; [done|..].
  - repeat (constructor; [apply demo_numbered|]). constructor.
  - repeat constructor.
  - repeat constructor; by vm_compute.
  - apply demo_numbered.
  - by vm_compute.
Defined.

(** ** Time on air *)

(** For coding rate 4/6 the script's number of symbols is the
    firmware's wherever there is no optimisation for low data rates. With it
    (spreading factor 12, and 11 at 125 kHz) the script divides by
    [4 * sf - 2] where the firmware divides by [4 * (sf - 2)]: it never finds
    more symbols, and fewer for every message of 40 bytes and more. *)
Theorem graph_time_on_air len sf bw :
  1 <= len <= 255 -> 7 <= sf <= 12 -> 0 <= bw <= 1 ->
  let here := graph_symbols len sf (125 * (bw + 1)) in
  let there := exact_symbols len sf bw 2 in
  (ldr_opt sf bw = false -> here = there) /\
  (ldr_opt sf bw = true -> here <= there /\ (40 <= len -> here < there)).
Proof.
  intros Hl Hs Hb here there.
  assert (Hc : forallb (fun x => let '(len, sf, bw) := x in
     let h := graph_symbols len sf (125 * (bw + 1)) in let t := exact_symbols len sf bw 2 in
     if ldr_opt sf bw then (h <=? t) && (implb (40 <=? len) (h <? t)) else h =? t)
     (flat_map (fun l => flat_map (fun s => map (fun b => (l, s, b)) (seqZ 0 2)) (seqZ 7 6)) (seqZ 1 255)) = true) by (by vm_compute).
  rewrite forallb_forall in Hc. specialize (Hc (len, sf, bw)).
  assert (Hin : In (len, sf, bw) (flat_map (fun l => flat_map (fun s => map (fun b => (l, s, b)) (seqZ 0 2)) (seqZ 7 6)) (seqZ 1 255))).
  { apply in_flat_map. exists len. split; [apply list_elem_of_In, elem_of_seqZ; lia|].
    apply in_flat_map. exists sf. split; [apply list_elem_of_In, elem_of_seqZ; lia|].
    apply in_map_iff. exists bw. split; [done|]. apply list_elem_of_In, elem_of_seqZ; lia. }
  specialize (Hc Hin). cbn beta iota zeta in Hc. fold here there in Hc. destruct (ldr_opt sf bw); split; try done; intros _.
  - apply andb_prop in Hc as [H1 H2]. split; [lia|]. intros H40. destruct (Z.leb_spec 40 len); [|lia]. cbn in H2. lia.
  - lia.
Qed.

Lemma graph_time_on_air_witness : graph_symbols 100 12 125 < exact_symbols 100 12 0 2.
Proof. by apply (graph_time_on_air 100 12 0). Defined.
