(* ===== verification/Evaluation.v ===== *)
(** * From the app's rows to the script's samples

    The csv file the app writes ([DatabaseHandler.makeCSV]), read back by the
    script ([csv.DictReader] in main.py): rows of plain fields come out as
    they went in, and the rows of recorded messages are the samples with the
    numbers, signal strengths and verdicts the receiver notified. *)
From S2P Require Import Prelude KSem Platform Sx12xx Air CLib Plan Java Database Phone StartScreen Recording Graphs.
From stdpp Require Import prelude list numbers strings gmap sorting.
From Stdlib Require Import ZArith Lia.
Open Scope Z_scope.

(** ** Plain fields *)

(** Characters that mean nothing to the csv reader. *)
Definition plain_char (c : Z) : bool :=
  (0 <? c) && (c <? 128) && negb (c =? 10) && negb (c =? 13) && negb (c =? 34) && negb (c =? 44).
Definition plain (t : text) : Prop := Forall (fun c => plain_char c = true) t.

Lemma plain_at_end c : plain_char c = true -> at_end (Some c) = false /\ (c =? 34) = false /\ (c =? 44) = false.
Proof. unfold plain_char, at_end. lia. Qed.

Lemma process_in_field t f fs rest :
  plain t -> process_chars (mk_reader IN_FIELD f fs) (map Some t ++ rest) = process_chars (mk_reader IN_FIELD (f ++ t) fs) rest.
Proof.
  intros Ht. revert f. induction Ht as [|c t Hc Ht IH]; intros f; [by rewrite app_nil_r|].
  apply plain_at_end in Hc as (H1 & _ & H2). cbn [map app process_chars process_char state].
  rewrite H1, H2. cbn [mbind option_bind add_char]. unfold add_char. cbn [cur_field fields]. rewrite IH. by rewrite <- app_assoc.
Qed.

(** A field and the comma after it. *)
Lemma process_cell t st fs rest :
  plain t -> st = START_RECORD \/ st = START_FIELD ->
  process_chars (mk_reader st [] fs) (map Some t ++ Some 44 :: rest) = process_chars (mk_reader START_FIELD [] (fs ++ [t])) rest.
Proof.
  intros Ht Hst. destruct Ht as [|c t Hc Ht]; [by destruct Hst as [-> | ->]|].
  apply plain_at_end in Hc as (H1 & H2 & H3).
  assert (E : process_char (mk_reader st [] fs) (Some c) = Some (mk_reader IN_FIELD [c] fs)).
  { destruct Hst as [-> | ->]; cbn [process_char state]; rewrite ?H1; unfold start_field; by rewrite H1, H2, H3. }
  cbn [map app process_chars]. rewrite E. cbn [mbind option_bind]. by rewrite process_in_field.
Qed.

(** The last field and the end of the line. *)
Lemma process_last t fs :
  plain t -> process_chars (mk_reader START_FIELD [] fs) (map Some t ++ [Some 10; None]) = Some (mk_reader START_RECORD [] (fs ++ [t])).
Proof.
  intros Ht. destruct Ht as [|c t Hc Ht]; [done|]. apply plain_at_end in Hc as (H1 & H2 & H3).
  assert (E : process_char (mk_reader START_FIELD [] fs) (Some c) = Some (mk_reader IN_FIELD [c] fs)).
  { cbn [process_char state]. unfold start_field. by rewrite H1, H2, H3. }
  cbn [map app process_chars]. rewrite E. cbn [mbind option_bind]. by rewrite process_in_field.
Qed.

(** ** Lines *)

Definition csv5 (x : text * text * text * text * text) : list text :=
  let '(a, b, c, d, e) := x in [a; b; c; d; e].
Definition plain5 (x : text * text * text * text * text) : Prop :=
  let '(a, b, c, d, e) := x in plain a /\ plain b /\ plain c /\ plain d /\ plain e.

Lemma record_read x lines rest :
  plain5 x -> csv_records new_reader lines = Some rest ->
  csv_records new_reader (csv_line (csv5 x) :: lines) = Some (csv5 x :: rest).
Proof.
  destruct x as [[[[a b] c] d] e]. intros (Ha & Hb & Hc & Hd & He) Hr. cbn [csv_records].
  change (csv_line (csv5 (a, b, c, d, e))) with ((a ++ [44]) ++ (b ++ [44]) ++ (c ++ [44]) ++ (d ++ [44]) ++ (e ++ [10]) ++ []).
  rewrite app_nil_r, <- !app_assoc. rewrite !map_app, <- !app_assoc. cbn [map app].
  change (process_chars new_reader) with (process_chars (mk_reader START_RECORD [] [])). rewrite process_cell by auto. rewrite process_cell by auto. rewrite process_cell by auto.
  rewrite process_cell by auto. rewrite process_last by done. cbn [mbind option_bind state fields]. by rewrite Hr.
Qed.

Lemma py_lines_line t rest : Forall (fun c => c <> 10) t -> py_lines ((t ++ [10]) ++ rest) = (t ++ [10]) :: py_lines rest.
Proof.
  induction 1 as [|c t Hc Ht IH]; [done|]. cbn [app py_lines]. destruct (Z.eqb_spec c 10); [done|].
  rewrite <- app_assoc in IH |- *. by rewrite IH.
Qed.

Lemma newlines_id t : Forall (fun c => c <> 13) t -> newlines false t = t.
Proof.
  induction 1 as [|c t Hc Ht IH]; [done|]. cbn. destruct (Z.eqb_spec c 13); [done|]. by rewrite andb_false_r, IH.
Qed.

(** A line of plain fields. *)
Lemma csv_line_chars x :
  plain5 x -> exists t, csv_line (csv5 x) = t ++ [10] /\ Forall (fun c => plain_char c = true \/ c = 44) t.
Proof.
  destruct x as [[[[a b] c] d] e]. intros (Ha & Hb & Hc & Hd & He).
  exists (a ++ [44] ++ b ++ [44] ++ c ++ [44] ++ d ++ [44] ++ e). split.
  - change (csv_line (csv5 (a, b, c, d, e))) with ((a ++ [44]) ++ (b ++ [44]) ++ (c ++ [44]) ++ (d ++ [44]) ++ (e ++ [10]) ++ []).
    by rewrite app_nil_r, <- !app_assoc.
  - assert (P : forall t, plain t -> Forall (fun c => plain_char c = true \/ c = 44) t).
    { intros t Ht. eapply Forall_impl; [exact Ht|]. auto. }
    repeat (apply Forall_app; split; [first [by apply P|by constructor; [right|constructor]]|]). by apply P.
Qed.

(** The text of a file of such lines. *)
Definition csv_text (xs : list (text * text * text * text * text)) : text := concat (map (fun x => csv_line (csv5 x)) xs).

Lemma csv_text_chars xs : Forall plain5 xs -> Forall (fun c => 0 < c < 128 /\ c <> 13) (csv_text xs).
Proof.
  induction 1 as [|x xs Hx Hxs IH]; [constructor|]. unfold csv_text. cbn [map concat]. apply Forall_app. split; [|done].
  destruct (csv_line_chars x Hx) as (t & -> & Ht). apply Forall_app. split; [|constructor; [lia|constructor]].
  eapply Forall_impl; [exact Ht|]. intros c [Hc| ->]; [unfold plain_char in Hc|]; lia.
Qed.

Lemma csv_text_lines xs : Forall plain5 xs -> py_lines (csv_text xs) = map (fun x => csv_line (csv5 x)) xs.
Proof.
  induction 1 as [|x xs Hx Hxs IH]; [done|]. unfold csv_text. cbn [map concat].
  destruct (csv_line_chars x Hx) as (t & -> & Ht). rewrite py_lines_line; [by f_equal|].
  eapply Forall_impl; [exact Ht|]. intros c [Hc| ->]; [unfold plain_char in Hc|]; lia.
Qed.

Lemma csv_text_records xs : Forall plain5 xs ->
  csv_records new_reader (map (List.filter (fun c => negb (c =? 0))) (py_lines (newlines false (csv_text xs)))) = Some (map csv5 xs).
Proof.
  intros Hx. rewrite newlines_id, csv_text_lines by (done || (eapply Forall_impl; [by apply csv_text_chars|]; cbn; tauto)).
  induction Hx as [|x xs Hx Hxs IH]; [done|]. cbn [map].
  assert (E : List.filter (fun c => negb (c =? 0)) (csv_line (csv5 x)) = csv_line (csv5 x)).
  { destruct (csv_line_chars x Hx) as (t & -> & Ht). apply forallb_filter_id. rewrite forallb_app. apply andb_true_intro. split; [|done].
    apply forallb_forall. rewrite List.Forall_forall in Ht. intros c Hc%Ht. destruct Hc as [Hc| ->]; [unfold plain_char in Hc|]; lia. }
  rewrite E. by apply record_read.
Qed.

(** ** Recorded rows *)

Abbreviation five := (text * text * text * text * text)%type.

Definition names5 : five := (txt "totalnumber", txt "identifier", txt "rssi", txt "snr", txt "biterrors").

(** The fields of the row of a pair. *)
Definition total_of (N : Z) (r : report) : Z := jint (rp_number r + jint (rp_iteration r * N)).
Definition fields_of (N : Z) (x : signal * report) : five :=
  (decimal (total_of N x.2), rp_head x.2, 45 :: decimal (u8 (sg_rssi x.1)), decimal (s8 (sg_snr x.1)),
   decimal (u8 (sg_errors x.1))).

Definition report_plain (r : report) : Prop := report_ok r /\ plain (rp_head r).

Lemma plain_decimal n : plain (decimal n).
Proof.
  destruct (decimal_shape n) as (ds & c & r & _ & F & _ & ->).
  assert (H : plain ds).
  { clear -F. unfold plain. induction ds as [|x ds IH]; [constructor|]. cbn in F. apply andb_prop in F as [Hx%digit_range F].
    constructor; [unfold plain_char; lia|]. by apply IH. }
  destruct (n <? 0); [|done]. by constructor.
Qed.

Lemma fields_plain N x : report_plain x.2 -> plain5 (fields_of N x).
Proof. intros [_ Hp]. unfold fields_of. split_and!; try done; try apply plain_decimal. constructor; [done|apply plain_decimal]. Qed.

(** The fields of any row. *)
Definition cell_fields (m : gmap string text) : five :=
  let at_ c := shown (m !! c) in (at_ "totalnumber", at_ "identifier", at_ "rssi", at_ "snr", at_ "biterrors")%string.

Lemma cell_fields_row N x : cell_fields (row_cells N x.1 x.2) = fields_of N x.
Proof. reflexivity. Qed.

Lemma getBytes_csv x : plain5 x -> getBytes (csv_line (csv5 x)) = csv_line (csv5 x).
Proof.
  intros Hx. apply getBytes_ascii. pose proof (csv_text_chars [x] ltac:(by constructor)) as H.
  unfold csv_text in H. cbn [map concat] in H. rewrite app_nil_r in H. eapply Forall_impl; [exact H|]. cbn. lia.
Qed.

(** The file of recorded rows. *)
Lemma makeCSV_run {D} `{Sqlite D} id ms (d : D) :
  Forall (fun m => plain5 (cell_fields m)) ms -> map r_cells <$> sql_select d (Experiment (decimal id)) = Some ms ->
  makeCSV id d = (Ok (csv_text (names5 :: map cell_fields ms)), d).
Proof.
  intros Hp Hr. destruct (sql_select d _) as [rows|] eqn:E; [|done]. cbn in Hr. injection Hr as Hr.
  unfold makeCSV. rewrite (query_ok _ _ _ _ E). unfold mret, J_ret. do 2 f_equal. unfold csv_text. cbn [map concat]. f_equal.
  f_equal. rewrite map_map. clear E. revert rows Hr. induction Hp as [|m ms Hm Hp IH]; intros [|[i c] rows] Hr; try done.
  injection Hr as Hc Hr. cbn [r_cells] in Hc. subst c.
  etrans; [exact (f_equal2 cons (getBytes_csv _ Hm) (IH rows Hr))|done].
Qed.

(** Decoding the file is reading its characters. *)
Lemma file_text xs : Forall plain5 xs -> new_String (csv_text xs) = csv_text xs.
Proof.
  intros Hx. pose proof (csv_text_chars xs Hx) as Hc. unfold new_String. rewrite map_id_Forall.
  - rewrite <- (app_nil_r (csv_text xs)) at 1. rewrite utf8_decode_ascii; [by rewrite app_nil_r|].
    eapply Forall_impl; [exact Hc|]. cbn. lia.
  - eapply Forall_impl; [exact Hc|]. cbn. intros c Hc'. apply u8_id. unfold byte_ok. lia.
Qed.

Lemma names_plain : plain5 names5.
Proof. split_and!; repeat constructor. Qed.

Lemma csv5_nonempty (x : five) : match csv5 x with [] => false | _ => true end = true.
Proof. by destruct x as [[[[]]]]. Qed.

(** The record of a row. *)
Definition record_of (x : five) : dict := dict_row (csv5 names5) (csv5 x).

Lemma read_rows xs : Forall plain5 xs -> read_csv (csv_text (names5 :: xs)) = Some (map record_of xs).
Proof.
  intros Hx. unfold read_csv. rewrite csv_text_records by (constructor; [apply names_plain|done]).
  cbn [mbind option_bind map dict_reader]. f_equal. rewrite (filter_ext_in _ (fun _ => true)), filter_true, map_map; [done|].
  intros r Hr. apply in_map_iff in Hr as (x & <- & _). apply csv5_nonempty.
Qed.

Lemma py_int_minus k : 0 <= k -> py_int (45 :: decimal k) = Some (- k).
Proof.
  intros Hk. destruct (decide (k = 0)) as [->|]; [done|].
  rewrite <- (py_int_decimal (- k)), (decimal_neg (- k)) by lia. by rewrite Z.opp_involutive.
Qed.

(** The sample of a pair. *)
Definition sample_of (N : Z) (x : signal * report) : sample :=
  mk_sample (Some (decimal (total_of N x.2))) (Some (rp_head x.2)) (- u8 (sg_rssi x.1)) (s8 (sg_snr x.1)) (u8 (sg_errors x.1)).

Lemma sample_numbered N x : numbered (sample_of N x) /\ number (sample_of N x) = total_of N x.2.
Proof. unfold numbered, number. cbn. rewrite py_int_decimal. done. Qed.

(** A row that does not repeat the number before it. *)
Lemma extract_row a b c d e r s k last_row rest :
  last_row <> Some (Some a) -> py_int c = Some r -> py_int d = Some s -> py_int e = Some k ->
  extract last_row (record_of (a, b, c, d, e) :: rest) =
  (cons (mk_sample (Some a) (Some b) r s k) <$> extract (Some (Some a)) rest).
Proof.
  intros Hl Hr Hs Hk. cbn [extract].
  change (get (record_of (a, b, c, d, e)) (txt "totalnumber")) with (Some (Some a)).
  cbn [mbind option_bind]. rewrite bool_decide_eq_false_2 by done.
  change (get (record_of (a, b, c, d, e)) (txt "identifier")) with (Some (Some b)).
  change (int_of (record_of (a, b, c, d, e)) "rssi") with (py_int c).
  change (int_of (record_of (a, b, c, d, e)) "snr") with (py_int d).
  change (int_of (record_of (a, b, c, d, e)) "biterrors") with (py_int e).
  rewrite Hr, Hs, Hk. cbn [mbind option_bind]. by destruct (extract (Some (Some a)) rest).
Qed.

Definition last_number (N : Z) (last_row : option (option text)) (ps : list (signal * report)) : option (option text) :=
  foldl (fun _ x => Some (Some (decimal (total_of N x.2)))) last_row ps.

(** No row has the number of the one before it. *)
Fixpoint changing (N : Z) (last_row : option (option text)) (ps : list (signal * report)) : Prop :=
  match ps with
  | [] => True
  | x :: ps' => last_row <> Some (Some (decimal (total_of N x.2))) /\ changing N (Some (Some (decimal (total_of N x.2)))) ps'
  end.

Lemma sorted_changing N ps last_row :
  StronglySorted (fun x y => total_of N x.2 < total_of N y.2) ps ->
  (forall x, In x ps -> last_row <> Some (Some (decimal (total_of N x.2)))) -> changing N last_row ps.
Proof.
  intros Hs. revert last_row. induction Hs as [|x ps Hs IH Hf]; intros last_row Hl; [done|]. split; [apply Hl; by left|].
  apply IH. intros y Hy [= E%decimal_inj]. rewrite List.Forall_forall in Hf. specialize (Hf y Hy). lia.
Qed.

(** Such rows are all kept. *)
Lemma extract_rows N ps last_row rest :
  changing N last_row ps ->
  extract last_row (map (fun x => record_of (fields_of N x)) ps ++ rest) =
  (app (map (sample_of N) ps) <$> extract (last_number N last_row ps) rest).
Proof.
  revert last_row. induction ps as [|x ps IH]; intros last_row Hl.
  { cbn. by destruct (extract last_row rest). }
  destruct Hl as [Hl Hc]. cbn [map app]. unfold fields_of at 1.
  erewrite extract_row; [|exact Hl|apply py_int_minus, Z.mod_pos_bound; lia|apply py_int_decimal..].
  rewrite IH by done. unfold last_number. cbn [foldl]. by destruct (extract _ rest).
Qed.

(** ** The information file *)

(** Text that is one line, and its own encoding. *)
Definition one_line (t : text) : Prop := Forall (fun c => 0 < c < 128 /\ c <> 10 /\ c <> 13) t.

Lemma strip_line t : one_line t -> strip_newline (t ++ [10]) = t.
Proof.
  intros Ht. assert (P : forall l, one_line l -> drop_newlines l = l).
  { intros l [|c l' Hc _]; [done|]. cbn. destruct (Z.eqb_spec c 10); [lia|done]. }
  assert (Hr : one_line (rev t)) by (by apply Forall_rev).
  unfold strip_newline. destruct Ht as [|c t Hc Ht]; [done|]. cbn [app drop_newlines].
  destruct (Z.eqb_spec c 10); [lia|]. change (c :: t ++ [10]) with ((c :: t) ++ [10]). rewrite rev_app_distr.
  cbn [rev app drop_newlines]. cbn [rev] in Hr. change (10 =? 10) with true. cbv iota. rewrite (P _ Hr).
  change (rev t ++ [c]) with (rev (c :: t)). apply rev_involutive.
Qed.

Lemma overview_run ts i :
  (i + length ts <= exp_param_names)%nat -> Forall one_line ts ->
  (forall j v, ts !! j = Some v -> line_ok (i + j) v = true) ->
  overview i (map (fun t => t ++ [10]) ts) = Some ts.
Proof.
  intros Hi Ht. revert i Hi. induction Ht as [|t ts Ht Hts IH]; intros i Hi Hok; [done|]. cbn [map overview length] in *.
  rewrite strip_line by done. rewrite <- (Nat.add_0_r i) at 1. rewrite (Hok 0%nat t eq_refl).
  destruct (Nat.ltb_spec i exp_param_names); [|lia]. cbn [andb]. rewrite IH; [done|lia|].
  intros j v Hj. replace (S i + j)%nat with (i + S j)%nat by lia. by apply Hok.
Qed.

Definition info_text (ts : list text) : text := concat (map (fun t => t ++ [10]) ts).

Lemma info_chars ts : Forall one_line ts -> Forall (fun c => 0 < c < 128 /\ c <> 13) (info_text ts).
Proof.
  induction 1 as [|t ts Ht Hts IH]; [constructor|]. unfold info_text. cbn [map concat]. repeat (apply Forall_app; split); [..|done].
  - eapply Forall_impl; [exact Ht|]. cbn. tauto.
  - constructor; [lia|constructor].
Qed.

Lemma info_lines ts : Forall one_line ts -> py_lines (newlines false (new_String (info_text ts))) = map (fun t => t ++ [10]) ts.
Proof.
  intros Ht. pose proof (info_chars _ Ht) as Hc. unfold new_String. rewrite map_id_Forall.
  2: { eapply Forall_impl; [exact Hc|]. cbn. intros c Hc'. apply u8_id. unfold byte_ok. lia. }
  rewrite <- (app_nil_r (info_text ts)) at 1. rewrite utf8_decode_ascii by (eapply Forall_impl; [exact Hc|]; cbn; lia).
  rewrite app_nil_r, newlines_id by (eapply Forall_impl; [exact Hc|]; cbn; tauto). clear Hc.
  induction Ht as [|t ts Ht Hts IH]; [done|]. unfold info_text. cbn [map concat].
  rewrite py_lines_line; [by f_equal|]. eapply Forall_impl; [exact Ht|]. cbn. tauto.
Qed.

(** A row with everything the script looks at. *)
Definition column (r : row) (i : nat) : text := shown (getString exp_columns r i).
Record complete (r : row) : Prop := {
  cp_lines : forall i, (i < 34)%nat -> one_line (column r i);
  cp_start : line_ok 19 (column r START_TIME) = true;
  cp_temperature : line_ok 28 (column r TEMPERATURE_VALUES) = true;
  cp_distance : is_Some (int_float (column r ACTUAL_DISTANCE)) }.

Lemma makeExpInfoText_run {D} `{Sqlite D} id r (d : D) :
  experiment_row id d = (Ok r, d) -> (forall i, (i < 34)%nat -> one_line (column r i)) ->
  makeExpInfoText id d = (Ok (info_text (map (column r) (seq 0 34))), d).
Proof.
  intros E Hl. unfold makeExpInfoText, getExperimentInfo. rewrite jbind_assoc, (jbind_ok _ _ _ _ _ E), jbind_ret.
  unfold mret, J_ret, info_text, EXPERIMENT_VALUE_COUNT. do 3 f_equal. rewrite !map_map. apply map_ext_in.
  intros i Hi%in_seq. apply getBytes_ascii. apply Forall_app. split; [|constructor; [lia|constructor]].
  eapply Forall_impl; [apply (Hl i); lia|]. cbn. lia.
Qed.

Lemma overview_row r : complete r -> overview 0 (py_lines (newlines false (new_String (info_text (map (column r) (seq 0 34)))))) =
  Some (map (column r) (seq 0 34)).
Proof.
  intros [Hl H1 H2 _]. assert (Ho : Forall one_line (map (column r) (seq 0 34))).
  { apply List.Forall_forall. intros t (i & <- & Hi%in_seq)%in_map_iff. apply Hl. lia. }
  rewrite info_lines by done. apply overview_run; [by apply Nat.leb_le|done|].
  intros j v Hj. change (map (column r) (seq 0 34)) with (column r <$> seq 0 34) in Hj.
  apply list_lookup_fmap_Some in Hj as (i & -> & Hi). apply lookup_seq in Hi as [-> Hi]. cbn [Nat.add].
  destruct (decide (j = 19)%nat) as [->|]; [done|]. destruct (decide (j = 28)%nat) as [->|]; [done|].
  unfold line_ok. by rewrite !(proj2 (Nat.eqb_neq j _)).
Qed.
