(* ===== verification/Collect.v ===== *)
(** * Collecting figures over several experiments

    [LoRaVisualGraphs/main.py]: the variables that live across calls of
    [process_data], what each mode adds to them per iteration, and the plots
    made from them. An exception leaves the variables as they are at that
    moment; what numpy and matplotlib raise for the data of a plot is a
    parameter. The table of modes[6] is not modelled. *)
From S2P Require Import Prelude KSem Platform Sx12xx CLib Plan TimeOnAir Java Graphs.
From stdpp Require Import prelude list numbers strings gmap sorting.
From Stdlib Require Import ZArith Lia.
Open Scope Z_scope.

(** ** State *)

Inductive mode := RSSI_SNR | PDR | BER | RSSI_per_scenario | CR | ETX.

(** Fractions. *)
Abbreviation frac := (Z * Z)%type.

(** What is drawn: the data the bars, lines and pies are computed from. *)
Inductive plot :=
| Scatter (label : combo) (rounds rssi snr : list Z) (corrupted : list bool) (rssi_avg pdr bit_err_rate : frac)
| BarsPDR (pdr uncorr corr : list (list frac))
| BarsBER (ber : list (list frac))
| Ranges (rssi : list (list (list frac))) (snr : list (list Z))
| Pie (iteration : Z) (vals : list (Z * Z))
| BarsETX (times : list (list frac)).

Record collection := mk_collection {
  exp_counter : Z;
  pdr_arr : list (list frac); pdr_corr_arr : list (list frac); pdr_uncorr_arr : list (list frac);
  ber_arr : list (list frac);
  rssi_arr : list (list (list frac)); rssi_arr_distances : list Z;
  snr_averaging_arr : list Z; rssi_arr_snr : list (list Z);
  etx_arr : list (list frac);
  plots : list plot }.

Definition six {A} : list (list A) := replicate 6 [].
Definition initial : collection := mk_collection 0 six six six six [] [] [] [] six [].

Definition set_counter (x : Z) (c : collection) : collection :=
  mk_collection x (pdr_arr c) (pdr_corr_arr c) (pdr_uncorr_arr c) (ber_arr c) (rssi_arr c) (rssi_arr_distances c)
    (snr_averaging_arr c) (rssi_arr_snr c) (etx_arr c) (plots c).
Definition set_pdr (x y z : list (list frac)) (c : collection) : collection :=
  mk_collection (exp_counter c) x y z (ber_arr c) (rssi_arr c) (rssi_arr_distances c)
    (snr_averaging_arr c) (rssi_arr_snr c) (etx_arr c) (plots c).
Definition set_ber (x : list (list frac)) (c : collection) : collection :=
  mk_collection (exp_counter c) (pdr_arr c) (pdr_corr_arr c) (pdr_uncorr_arr c) x (rssi_arr c) (rssi_arr_distances c)
    (snr_averaging_arr c) (rssi_arr_snr c) (etx_arr c) (plots c).
Definition set_rssi (x : list (list (list frac))) (d : list Z) (a : list Z) (s : list (list Z)) (c : collection) : collection :=
  mk_collection (exp_counter c) (pdr_arr c) (pdr_corr_arr c) (pdr_uncorr_arr c) (ber_arr c) x d a s (etx_arr c) (plots c).
Definition set_etx (x : list (list frac)) (c : collection) : collection :=
  mk_collection (exp_counter c) (pdr_arr c) (pdr_corr_arr c) (pdr_uncorr_arr c) (ber_arr c) (rssi_arr c) (rssi_arr_distances c)
    (snr_averaging_arr c) (rssi_arr_snr c) x (plots c).
Definition add_plot (x : plot) (c : collection) : collection :=
  mk_collection (exp_counter c) (pdr_arr c) (pdr_corr_arr c) (pdr_uncorr_arr c) (ber_arr c) (rssi_arr c) (rssi_arr_distances c)
    (snr_averaging_arr c) (rssi_arr_snr c) (etx_arr c) (plots c ++ [x]).

(** [arr[i].append(x)]; [None]: there is no such index. *)
Definition append_at {A} (i : nat) (x : A) (arr : list (list A)) : option (list (list A)) :=
  l ← arr !! i; Some (<[i := l ++ [x]]> arr).

Section script.
Context (plot_raises : plot -> bool).

(** *** During the loops *)

(** Also the values of the pie chart, which are local. [true]: no exception. *)
Record run := mk_run { prog : progress; coll : collection; cr_vals : list (Z * Z) }.

Definition draw (x : plot) (r : run) : bool * run :=
  if plot_raises x then (false, r) else (true, mk_run (prog r) (add_plot x (coll r)) (cr_vals r)).

Definition storing (r : run) (x : option collection) : bool * run :=
  match x with Some c => (true, mk_run (prog r) c (cr_vals r)) | None => (false, r) end.

(** One iteration has ended: [iteration] is its number from 1 on. *)
Definition collect (m : mode) (iteration : Z) (f : figures) (r : run) : bool * run :=
  let c := coll r in
  let i := Z.to_nat (iteration - 1) in
  let k := Z.of_nat (length (rssi_iteration (data f))) in
  match m with
  | RSSI_SNR =>
      draw (Scatter (label f) (rounds (data f)) (rssi_iteration (data f)) (snr_iteration (data f))
        (corrupted (data f)) (rssi_avg f) (pdr f) (bit_err_rate f)) r
  | PDR =>
      match append_at i (pdr f) (pdr_arr c) with
      | None => (false, r)
      | Some a =>
          let c := set_pdr a (pdr_corr_arr c) (pdr_uncorr_arr c) c in
          match append_at i (pdr_corr f) (pdr_corr_arr c) with
          | None => (false, mk_run (prog r) c (cr_vals r))
          | Some b =>
              let c := set_pdr a b (pdr_uncorr_arr c) c in
              storing (mk_run (prog r) c (cr_vals r))
                (d ← append_at i (pdr_uncorr f) (pdr_uncorr_arr c); Some (set_pdr a b d c))
          end
      end
  | BER => storing r (a ← append_at i (bit_err_rate f) (ber_arr c); Some (set_ber a c))
  | RSSI_per_scenario =>
      if (rssi_avg f).1 =? 0 then (true, r)
      else
        storing r
          (arr ← rssi_arr c !! (length (rssi_arr_distances c) - 1)%nat;
           a ← append_at i (rssi_avg f) arr;
           Some (set_rssi (<[(length (rssi_arr_distances c) - 1)%nat := a]> (rssi_arr c)) (rssi_arr_distances c)
             (snr_averaging_arr c ++ snr_iteration (data f)) (rssi_arr_snr c) c))
  | CR =>
      let vals := if negb (k =? 0) then cr_vals r ++ [(k - corrupted_msgs_count (data f), corrupted_msgs_count (data f))]
                  else cr_vals r in
      let r := mk_run (prog r) c vals in
      if iteration mod 4 =? 0 then
        let '(ok, r) := draw (Pie iteration vals) r in
        if ok then (true, mk_run (prog r) (coll r) []) else (false, r)
      else (true, r)
  | ETX => storing r (a ← append_at i (etx f) (etx_arr c); Some (set_etx a c))
  end.

Definition step (m : mode) (N packet_length : Z) (c : combo) (r : run) : bool * run :=
  match one_iteration N packet_length c (prog r) with
  | None => (false, r)
  | Some p =>
      match last (results p) with
      | Some f => collect m (iteration p) f (mk_run p (coll r) (cr_vals r))
      | None => (false, r)
      end
  end.

Fixpoint for_bits (code : Z) (l : list Z) (body : Z -> run -> bool * run) (r : run) : bool * run :=
  match l with
  | [] => (true, r)
  | i :: l' =>
      let '(ok, r') := if Z.land (Z.shiftr code i) 1 =? 1 then body i r else (true, r) in
      if ok then for_bits code l' body r' else (false, r')
  end.

(** *** Before and after the loops *)

(** A new distance. *)
Definition new_distance (distance : Z) (c : collection) : collection :=
  if match last (rssi_arr_distances c) with None => true | Some d => negb (d =? distance) end then
    match snr_averaging_arr c with
    | [] => set_rssi (rssi_arr c ++ [six]) (rssi_arr_distances c ++ [distance]) [] (rssi_arr_snr c) c
    | a => set_rssi (rssi_arr c ++ [six]) (rssi_arr_distances c ++ [distance]) [] (rssi_arr_snr c ++ [a]) c
    end
  else c.

(** The times of the bars of the transmission count, for the six combinations
    the plot has labels for. *)
Definition sf_s : list Z := [8; 10; 12; 8; 10; 12].
Definition bw_s : list Z := [125; 125; 125; 250; 250; 250].
Definition graph_time (packet_length sf bw : Z) : frac :=
  ((4 * graph_symbols packet_length sf bw + 49) * Z.shiftl 1 sf, 4 * bw).
Definition comb_arr (packet_length : Z) (sb : Z * Z) (arr : list frac) : list frac :=
  let t := graph_time packet_length sb.1 sb.2 in
  omap (fun x : frac => if x.1 =? 0 then None else Some (t.1 * (10 * x.1 - 9 * x.2), t.2 * x.2)) arr.

Definition drawn (x : plot) (reset : collection -> collection) (c : collection) : bool * collection :=
  if plot_raises x then (false, c) else (true, reset (add_plot x c)).

Definition afterwards (m : mode) (packet_length : Z) (c : collection) : bool * collection :=
  match m with
  | RSSI_SNR | CR => (true, c)
  | PDR =>
      let c := set_counter (exp_counter c + 1) c in
      if exp_counter c =? 3 then
        let c := set_counter 0 c in
        drawn (BarsPDR (pdr_arr c) (pdr_uncorr_arr c) (pdr_corr_arr c)) (set_pdr six six six) c
      else (true, c)
  | BER =>
      let c := set_counter (exp_counter c + 1) c in
      if exp_counter c =? 3 then
        let c := set_counter 0 c in drawn (BarsBER (ber_arr c)) (set_ber six) c
      else (true, c)
  | RSSI_per_scenario =>
      let c := set_counter (exp_counter c + 1) c in
      if exp_counter c =? 12 then
        let c := set_counter 0 c in
        let c := set_rssi (rssi_arr c) (rssi_arr_distances c) [] (rssi_arr_snr c ++ [snr_averaging_arr c]) c in
        drawn (Ranges (rssi_arr c) (rssi_arr_snr c)) (fun c => set_rssi [] [] (snr_averaging_arr c) [] c) c
      else (true, c)
  | ETX =>
      let c := set_counter (exp_counter c + 1) c in
      if exp_counter c =? 3 then
        let c := set_counter 0 c in
        drawn (BarsETX (zip_with (comb_arr packet_length) (zip sf_s bw_s) (etx_arr c))) (set_etx six) c
      else (true, c)
  end.

(** *** The whole function *)

(** What is read before anything is collected. *)
Record inputs := mk_inputs {
  in_fr : Z; in_bw : Z; in_sf : Z; in_cr : Z; in_pw : Z; in_N : Z; in_length : Z; in_distance : Z; in_samples : list sample }.

Definition read_inputs (info file : text) : option inputs :=
  exp_params ← overview 0 (py_lines (newlines false info));
  rows ← read_csv file;
  samples ← extract None rows;
  fr ← param exp_params 12; bw ← param exp_params 13; sf ← param exp_params 14;
  cr ← param exp_params 15; pw ← param exp_params 16;
  N ← param exp_params 1;
  packet_length ← param exp_params 3;
  distance ← (t ← exp_params !! 26%nat; int_float t);
  Some (mk_inputs fr bw sf cr pw N packet_length distance samples).

Definition process_experiment (m : mode) (info file : text) (c : collection) : bool * collection :=
  match read_inputs info file with
  | None => (false, c)
  | Some x =>
      let '(ok, r) := for_bits (in_fr x) (range 8) (fun i => for_bits (in_bw x) (range 3) (fun j =>
        for_bits (in_sf x) (range 6) (fun k => for_bits (in_cr x) (range 4) (fun l => for_bits (in_pw x) (range 8) (fun p =>
          step m (in_N x) (in_length x) (mk_combo i j k l p))))))
        (mk_run (mk_progress 0 (in_samples x) []) (new_distance (in_distance x) c) []) in
      if ok then afterwards m (in_length x) (coll r) else (false, coll r)
  end.

(** Experiments chosen one after the other; an exception ends a call only. *)
Definition process_all (m : mode) (l : list (text * text)) (c : collection) : collection :=
  foldl (fun c x => (process_experiment m x.1 x.2 c).2) c l.

End script.

(** ** The loops run through the plan *)

Fixpoint runs {A} (f : A -> run -> bool * run) (l : list A) (r : run) : bool * run :=
  match l with [] => (true, r) | x :: l' => let '(ok, r') := f x r in if ok then runs f l' r' else (false, r') end.

Lemma runs_app {A} (f : A -> run -> bool * run) l k r :
  runs f (l ++ k) r = let '(ok, r') := runs f l r in if ok then runs f k r' else (false, r').
Proof. revert r. induction l as [|x l IH]; intros r; [done|]. cbn. destruct (f x r) as [[] r']; [apply IH|done]. Qed.

Lemma runs_flat_map {A B} (f : B -> run -> bool * run) (h : A -> list B) l r :
  runs f (flat_map h l) r = runs (fun x => runs f (h x)) l r.
Proof.
  revert r. induction l as [|x l IH]; intros r; [done|]. cbn. rewrite runs_app.
  destruct (runs f (h x) r) as [[] r']; [apply IH|done].
Qed.

Lemma runs_map {A B} (f : B -> run -> bool * run) (h : A -> B) l r : runs f (map h l) r = runs (fun x => f (h x)) l r.
Proof. revert r. induction l as [|x l IH]; intros r; [done|]. cbn. destruct (f (h x) r) as [[] r']; [apply IH|done]. Qed.

Lemma runs_ext {A} (f g : A -> run -> bool * run) l r : (forall x r, f x r = g x r) -> runs f l r = runs g l r.
Proof. intros E. revert r. induction l as [|x l IH]; intros r; [done|]. cbn. rewrite E. destruct (g x r) as [[] r']; [apply IH|done]. Qed.

Lemma for_bits_runs code n body r : for_bits code (range n) body r = runs body (bits n code) r.
Proof.
  unfold bits. revert r. induction (range n) as [|i l IH]; intros r; [done|]. cbn [for_bits List.filter].
  fold (bit_set code i). destruct (bit_set code i); cbn [runs]; [destruct (body i r) as [[] r']; [apply IH|done]|apply IH].
Qed.

Lemma loops_plan fr bw sf cr pw (f : combo -> run -> bool * run) r :
  for_bits fr (range 8) (fun i => for_bits bw (range 3) (fun j => for_bits sf (range 6) (fun k =>
    for_bits cr (range 4) (fun l => for_bits pw (range 8) (fun p => f (mk_combo i j k l p)))))) r =
  runs f (combos fr bw sf cr pw) r.
Proof.
  rewrite for_bits_runs. unfold combos. rewrite runs_flat_map. apply runs_ext. intros i r1.
  rewrite for_bits_runs, runs_flat_map. apply runs_ext. intros j r2.
  rewrite for_bits_runs, runs_flat_map. apply runs_ext. intros k r3.
  rewrite for_bits_runs, runs_flat_map. apply runs_ext. intros l r4. by rewrite for_bits_runs, runs_map.
Qed.

Lemma process_data_inputs info file :
  process_data info file = (x ← read_inputs info file;
    aggregate (in_fr x) (in_bw x) (in_sf x) (in_cr x) (in_pw x) (in_N x) (in_length x) (in_samples x)).
Proof.
  unfold process_data, read_inputs. destruct (overview _ _) as [ps|]; [|done]. cbn [mbind option_bind].
  destruct (read_csv file) as [rows|]; [|done]. cbn [mbind option_bind]. destruct (extract None rows) as [vs|]; [|done]. cbn [mbind option_bind].
  repeat (match goal with |- context [param ps ?i] => destruct (param ps i); [|done] end; cbn [mbind option_bind]).
  destruct (ps !! 26%nat) as [t|]; [|done]. cbn [mbind option_bind]. by destruct (int_float t).
Qed.

(** ** What the loops collect *)
Section collecting.
Context (plot_raises : plot -> bool).

(** The figures one after the other, from iteration [it] on. *)
Fixpoint collects (m : mode) (it : Z) (fs : list figures) (c : collection) (v : list (Z * Z)) : bool * collection :=
  match fs with
  | [] => (true, c)
  | f :: fs' =>
      let '(ok, r) := collect plot_raises m (it + 1) f (mk_run (mk_progress 0 [] []) c v) in
      if ok then collects m (it + 1) fs' (coll r) (cr_vals r) else (false, coll r)
  end.

Lemma collect_prog m it f p p' c v :
  let x := collect plot_raises m it f (mk_run p c v) in let y := collect plot_raises m it f (mk_run p' c v) in
  x.1 = y.1 /\ coll x.2 = coll y.2 /\ cr_vals x.2 = cr_vals y.2 /\ prog x.2 = p.
Proof.
  destruct m; cbn; unfold draw, storing; cbn; repeat case_match; simplify_eq/=; try done.
Qed.

Lemma one_iteration_results N pl c p p' : one_iteration N pl c p = Some p' ->
  iteration p' = iteration p + 1 /\ exists f, results p' = results p ++ [f].
Proof.
  unfold one_iteration. destruct (inner _ _ _ _) as [[vs a]|]; [|done]. cbn. intros [= <-]. cbn. split; [done|]. by eexists.
Qed.

Lemma fold_results N pl plan p p' : fold_opt (one_iteration N pl) plan p = Some p' ->
  exists fs, results p' = results p ++ fs /\ length fs = length plan.
Proof.
  revert p. induction plan as [|c plan IH]; intros p; cbn [fold_opt].
  - intros [= <-]. exists []. by rewrite app_nil_r.
  - destruct (one_iteration N pl c p) as [p1|] eqn:E; [|done]. cbn [mbind option_bind]. intros Hp.
    destruct (one_iteration_results _ _ _ _ _ E) as (_ & f & Hf). destruct (IH p1 Hp) as (fs & R1 & R2).
    exists (f :: fs). rewrite R1, Hf, <- app_assoc. cbn [length]. by rewrite R2.
Qed.

Lemma runs_collects m N pl plan r p' fs :
  fold_opt (one_iteration N pl) plan (prog r) = Some p' -> results p' = results (prog r) ++ fs ->
  let x := runs (step plot_raises m N pl) plan r in (x.1, coll x.2) = collects m (iteration (prog r)) fs (coll r) (cr_vals r).
Proof.
  revert r fs. induction plan as [|c plan IH]; intros r fs; cbn [fold_opt].
  - intros [= <-] E. rewrite <- (app_nil_r (results (prog r))) in E at 1. apply app_inv_head in E as <-. done.
  - destruct (one_iteration N pl c (prog r)) as [p1|] eqn:E; [|done]. cbn [mbind option_bind]. intros Hp Hr.
    destruct (one_iteration_results _ _ _ _ _ E) as (Hi & f & Hf). cbn [runs]. unfold step at 1 3. rewrite E, Hf, last_snoc.
    destruct (fold_results _ _ _ _ _ Hp) as (fs' & R1 & _). rewrite Hr, Hf, <- app_assoc in R1. apply app_inv_head in R1 as ->.
    destruct (collect_prog m (iteration p1) f p1 (mk_progress 0 [] []) (coll r) (cr_vals r)) as (X1 & X2 & X3 & X4).
    cbn [collects app]. rewrite Hi in *. destruct (collect plot_raises m _ f (mk_run p1 _ _)) as [ok r1].
    destruct (collect plot_raises m _ f (mk_run (mk_progress _ _ _) _ _)) as [ok2 r2]. cbn in X1, X2, X3, X4. subst ok2 p1.
    rewrite <- X2, <- X3. destruct ok; [|done]. rewrite <- Hi. apply IH; [done|]. by rewrite Hr, Hf, <- app_assoc.
Qed.
End collecting.

(** ** Three experiments make a plot *)

(** The value [g] of iteration [i] of every experiment, for the first six iterations. *)
Definition columns (g : figures -> frac) (fss : list (list figures)) : list (list frac) :=
  map (fun i => omap (fun fs => g <$> fs !! i) fss) (seq 0 6).
#[global] Arguments columns : simpl never.

Lemma length_columns g fss : length (columns g fss) = 6%nat.
Proof. done. Qed.

Lemma columns_lookup g fss i : (i < 6)%nat -> columns g fss !! i = Some (omap (fun fs => g <$> fs !! i) fss).
Proof.
  intros Hi. unfold columns. change (map ?f ?l) with (f <$> l). rewrite list_lookup_fmap.
  by rewrite (lookup_seq_lt 0 6 i Hi).
Qed.

Lemma append_column g fss fs f :
  append_at (length fs) (g f) (columns g (fss ++ [fs])) =
  if (length fs <? 6)%nat then Some (columns g (fss ++ [fs ++ [f]])) else None.
Proof.
  unfold append_at. destruct (Nat.ltb_spec (length fs) 6) as [H|H].
  2: { rewrite (proj2 (lookup_ge_None (columns g _) _)); [done|]. by rewrite length_columns. }
  rewrite columns_lookup by done. cbn [mbind option_bind]. f_equal. apply list_eq_same_length with (n := 6%nat); [..|].
  { done. }
  { by rewrite length_insert. }
  intros j x y Hj. destruct (decide (j = length fs)) as [->|Hne].
  - rewrite list_lookup_insert_eq by (by rewrite length_columns). rewrite columns_lookup by done.
    rewrite !omap_app. cbn [omap list_omap]. rewrite (proj2 (lookup_ge_None fs _)) by done.
    rewrite list_lookup_middle by done. cbn. rewrite app_nil_r. congruence.
  - rewrite list_lookup_insert_ne by done. rewrite !columns_lookup by done. rewrite !omap_app. cbn [omap list_omap].
    assert (E : (fs ++ [f]) !! j = fs !! j).
    { destruct (Nat.lt_ge_cases j (length fs)); [by rewrite lookup_app_l|].
      rewrite !(proj2 (lookup_ge_None _ j)); [done|done|rewrite length_app; cbn; lia]. }
    rewrite E. congruence.
Qed.

(** Values beyond the sixth have no column. *)
Lemma columns_full g fss fs fs' : (6 <= length fs)%nat -> columns g (fss ++ [fs ++ fs']) = columns g (fss ++ [fs]).
Proof.
  intros H. unfold columns. apply map_ext_in. intros i Hi%in_seq. rewrite !omap_app. cbn [omap list_omap].
  by rewrite lookup_app_l by lia.
Qed.

Definition averaged (m : mode) : Prop := m = PDR \/ m = BER \/ m = ETX.

(** The arrays of the mode hold the values of the experiments [fss]. *)
Definition holds (m : mode) (fss : list (list figures)) (c : collection) : Prop :=
  match m with
  | PDR => pdr_arr c = columns pdr fss /\ pdr_corr_arr c = columns pdr_corr fss /\ pdr_uncorr_arr c = columns pdr_uncorr fss
  | BER => ber_arr c = columns bit_err_rate fss
  | ETX => etx_arr c = columns etx fss
  | _ => False
  end.

Section three.
Context (plot_raises : plot -> bool).

Lemma collect_holds m fss fs f c v : averaged m -> holds m (fss ++ [fs]) c ->
  let x := collect plot_raises m (Z.of_nat (length fs) + 1) f (mk_run (mk_progress 0 [] []) c v) in
  holds m (fss ++ [fs ++ [f]]) (coll x.2) /\ x.1 = (length fs <? 6)%nat /\
  exp_counter (coll x.2) = exp_counter c /\ plots (coll x.2) = plots c.
Proof.
  intros Hm Hh. assert (Ei : Z.to_nat (Z.of_nat (length fs) + 1 - 1) = length fs) by lia.
  assert (Hc : (length fs <? 6)%nat = false -> forall g, columns g (fss ++ [fs ++ [f]]) = columns g (fss ++ [fs])).
  { intros H g. apply columns_full. by apply Nat.ltb_ge. }
  destruct Hm as [->|[->| ->]]; cbn in Hh; unfold collect; cbn [coll]; cbv zeta; rewrite Ei.
  - destruct Hh as (H1 & H2 & H3). rewrite H1, (append_column pdr). destruct (length fs <? 6)%nat eqn:L.
    + cbn [pdr_corr_arr set_pdr]. rewrite H2, (append_column pdr_corr), L. cbn [pdr_uncorr_arr set_pdr]. by rewrite H3, (append_column pdr_uncorr), L.
    + cbn. rewrite !Hc by done. done.
  - rewrite Hh, (append_column bit_err_rate). destruct (length fs <? 6)%nat eqn:L; cbn; [done|]. by rewrite Hc.
  - rewrite Hh, (append_column etx). destruct (length fs <? 6)%nat eqn:L; cbn; [done|]. by rewrite Hc.
Qed.

Lemma collects_holds m fss fs fs0 c v : averaged m -> holds m (fss ++ [fs0]) c -> (length fs0 <= 6)%nat ->
  let x := collects plot_raises m (Z.of_nat (length fs0)) fs c v in
  holds m (fss ++ [fs0 ++ fs]) x.2 /\ x.1 = (length (fs0 ++ fs) <=? 6)%nat /\
  exp_counter x.2 = exp_counter c /\ plots x.2 = plots c.
Proof.
  intros Hm. revert fs0 c v. induction fs as [|f fs IH]; intros fs0 c v Hh Hl; cbn [collects].
  { rewrite app_nil_r. cbn. by rewrite (proj2 (Nat.leb_le _ _)). }
  destruct (collect_holds m fss fs0 f c v Hm Hh) as (H1 & H2 & H3 & H4).
  destruct (collect plot_raises m _ f _) as [ok r]. cbn [fst snd] in H1, H2, H3, H4. subst ok.
  change (f :: fs) with ([f] ++ fs). rewrite (app_assoc fs0). destruct (Nat.ltb_spec (length fs0) 6).
  - replace (Z.of_nat (length fs0) + 1) with (Z.of_nat (length (fs0 ++ [f]))) by (rewrite length_app; cbn; lia).
    rewrite <- H3, <- H4. apply IH; [done|]. rewrite length_app. cbn. lia.
  - cbn. rewrite (proj2 (Nat.leb_gt _ _)) by (rewrite !length_app; cbn; lia). split_and!; try done.
    assert (Hc : forall g, columns g (fss ++ [(fs0 ++ [f]) ++ fs]) = columns g (fss ++ [fs0 ++ [f]])).
    { intros g. apply columns_full. rewrite length_app. cbn. lia. }
    destruct Hm as [->|[->| ->]]; cbn in *; by rewrite !Hc.
Qed.

Lemma new_distance_same m d c fss : averaged m ->
  (holds m fss (new_distance d c) <-> holds m fss c) /\
  exp_counter (new_distance d c) = exp_counter c /\ plots (new_distance d c) = plots c.
Proof. intros [->|[->| ->]]; unfold new_distance; by repeat case_match. Qed.

Lemma holds_start m fss c : averaged m -> holds m fss c -> holds m (fss ++ [[]]) c.
Proof.
  assert (E : forall g, columns g (fss ++ [[]]) = columns g fss).
  { intros g. unfold columns. apply map_ext. intros i. rewrite omap_app. cbn. by rewrite app_nil_r. }
  intros [->|[->| ->]]; cbn; by rewrite !E.
Qed.

(** An experiment that was evaluated: collected as far as there are columns,
    and then, unless there were too many iterations, counted. *)
Lemma experiment_collected m info file figs fss c : averaged m -> process_data info file = Some figs -> holds m fss c ->
  exists pl c', holds m (fss ++ [figs]) c' /\ exp_counter c' = exp_counter c /\ plots c' = plots c /\
    process_experiment plot_raises m info file c =
    if (length figs <=? 6)%nat then afterwards plot_raises m pl c' else (false, c').
Proof.
  intros Hm Hp Hh. rewrite process_data_inputs in Hp. unfold process_experiment.
  destruct (read_inputs info file) as [x|]; [|done]. cbn [mbind option_bind] in Hp. rewrite loops_plan.
  rewrite aggregate_plan in Hp. apply fmap_Some in Hp as (p' & Hp & ->).
  destruct (new_distance_same m (in_distance x) c fss Hm) as (N1 & N2 & N3). apply N1 in Hh.
  set (r := mk_run _ _ _). pose proof (runs_collects plot_raises m _ _ _ r p' (results p') Hp eq_refl) as R. cbn zeta in R.
  destruct (collects_holds m fss (results p') [] (coll r) (cr_vals r) Hm (holds_start m fss _ Hm Hh) ltac:(cbn; lia)) as (C1 & C2 & C3 & C4).
  cbn [length app] in *. change (Z.of_nat 0) with (iteration (prog r)) in C1, C2, C3, C4.
  rewrite <- R in C1, C2, C3, C4. cbn [fst snd] in *.
  destruct (runs _ _ r) as [ok r']. cbn [fst snd] in *. exists (in_length x), (coll r').
  split; [done|]. split; [by rewrite C3|]. split; [by rewrite C4|]. by rewrite C2.
Qed.

(** The plot of the mode. *)
Definition bars (m : mode) (packet_length : Z) (fss : list (list figures)) : plot :=
  match m with
  | PDR => BarsPDR (columns pdr fss) (columns pdr_uncorr fss) (columns pdr_corr fss)
  | BER => BarsBER (columns bit_err_rate fss)
  | _ => BarsETX (zip_with (comb_arr packet_length) (zip sf_s bw_s) (columns etx fss))
  end.

Lemma afterwards_run m pl c fss : averaged m -> holds m fss c -> 0 <= exp_counter c < 3 ->
  if exp_counter c =? 2
  then plot_raises (bars m pl fss) = false -> exists c', afterwards plot_raises m pl c = (true, c') /\
    holds m [] c' /\ exp_counter c' = 0 /\ plots c' = plots c ++ [bars m pl fss]
  else afterwards plot_raises m pl c = (true, set_counter (exp_counter c + 1) c).
Proof.
  intros Hm Hh Hc. destruct (Z.eqb_spec (exp_counter c) 2) as [E|E].
  - intros Hp. destruct Hm as [->|[->| ->]]; cbn in Hh; cbn [bars] in Hp; unfold afterwards; cbn [exp_counter set_counter]; rewrite E;
      change (2 + 1 =? 3) with true; cbv iota zeta; unfold drawn.
    + destruct Hh as (H1 & H2 & H3). cbn [pdr_arr pdr_corr_arr pdr_uncorr_arr set_counter]. rewrite H1, H2, H3, Hp. eexists. done.
    + cbn [ber_arr set_counter]. rewrite Hh, Hp. eexists. done.
    + cbn [etx_arr set_counter]. rewrite Hh, Hp. eexists. done.
  - destruct Hm as [->|[->| ->]]; unfold afterwards; cbn [exp_counter set_counter]; by rewrite (proj2 (Z.eqb_neq _ 3)) by lia.
Qed.

(** How many of the experiments count. *)
Definition counted (fss : list (list figures)) : nat := length (filter (fun fs => (length fs <= 6)%nat) fss).

Lemma counted_app fss fs : counted (fss ++ [fs]) = (counted fss + (if length fs <=? 6 then 1 else 0))%nat.
Proof.
  unfold counted. rewrite filter_app, length_app. f_equal. destruct (Nat.leb_spec (length fs) 6).
  - by rewrite filter_cons_True.
  - by rewrite filter_cons_False by lia.
Qed.

(** The experiments so far are in the arrays, and no plot was made. *)
Lemma process_all_run m l fss fss0 c : averaged m -> Forall2 (fun x fs => process_data x.1 x.2 = Some fs) l fss ->
  holds m fss0 c -> exp_counter c = Z.of_nat (counted fss0) -> (counted (fss0 ++ fss) < 3)%nat ->
  let c' := process_all plot_raises m l c in
  holds m (fss0 ++ fss) c' /\ exp_counter c' = Z.of_nat (counted (fss0 ++ fss)) /\ plots c' = plots c.
Proof.
  intros Hm Hl. revert fss0 c. induction Hl as [|[info file] fs l fss Hp _ IH]; intros fss0 c Hh Hc Hk; cbn [process_all foldl].
  { by rewrite app_nil_r. }
  change (fs :: fss) with ([fs] ++ fss) in *. rewrite app_assoc in *.
  destruct (experiment_collected m info file fs fss0 c Hm Hp Hh) as (pl & c1 & H1 & C1 & P1 & E).
  assert (Hk1 : (counted (fss0 ++ [fs]) < 3)%nat).
  { revert Hk. unfold counted. rewrite (filter_app _ (fss0 ++ [fs])), length_app. lia. }
  assert (H2 : exists c2, (process_experiment plot_raises m info file c).2 = c2 /\ holds m (fss0 ++ [fs]) c2 /\
    exp_counter c2 = Z.of_nat (counted (fss0 ++ [fs])) /\ plots c2 = plots c1).
  { rewrite counted_app in *. cbn [fst snd] in E. rewrite E. clear E Hk. revert Hk1. destruct (length fs <=? 6)%nat; intros Hk1.
    - pose proof (afterwards_run m pl c1 _ Hm H1 ltac:(lia)) as A. rewrite (proj2 (Z.eqb_neq _ 2)) in A by lia. rewrite A.
      eexists. split; [done|]. split; [by destruct Hm as [->|[->| ->]]|]. cbn. split; [lia|done].
    - eexists. split; [done|]. split; [done|]. cbn [snd]. split; [lia|done]. }
  destruct H2 as (c2 & E2 & H2 & C2 & P2). cbn [fst snd] in *. rewrite E2, <- P1, <- P2. by apply IH.
Qed.

(** C11. The bars of delivery rates, bit error rates
    and transmission times. Starting from empty arrays, experiments are chosen
    until three of them had at most six iterations: the third makes the plot,
    and the arrays are empty again. An experiment with more than six
    iterations raises and is not counted, but the values of its first six
    iterations stay: bar [i] is computed from the values of iteration [i] of
    all experiments that were chosen, those that raised included. *)
Theorem three_experiments_plotted m l fss info file figs c :
  averaged m -> holds m [] c -> exp_counter c = 0 ->
  Forall2 (fun x fs => process_data x.1 x.2 = Some fs) l fss -> process_data info file = Some figs ->
  counted fss = 2%nat -> (length figs <= 6)%nat -> (forall pl, plot_raises (bars m pl (fss ++ [figs])) = false) ->
  exists pl, let c' := process_all plot_raises m (l ++ [(info, file)]) c in
  plots c' = plots c ++ [bars m pl (fss ++ [figs])] /\ holds m [] c' /\ exp_counter c' = 0.
Proof.
  intros Hm Hh Hc Hl Hp Hk Hf Hr. unfold process_all. rewrite foldl_app. cbn [foldl fst snd].
  destruct (process_all_run m l fss [] c Hm Hl Hh Hc ltac:(change (counted fss < 3)%nat; lia)) as (H1 & C1 & P1). cbn [app] in *.
  fold (process_all plot_raises m l c). destruct (experiment_collected m info file figs fss _ Hm Hp H1) as (pl & c2 & H2 & C2 & P2 & ->).
  rewrite (proj2 (Nat.leb_le _ _) Hf). assert (C : exp_counter c2 = 2) by (rewrite C2, C1, Hk; done).
  pose proof (afterwards_run m pl c2 _ Hm H2 ltac:(lia)) as A. rewrite (proj2 (Z.eqb_eq _ 2) C) in A. destruct (A (Hr pl)) as (c3 & -> & H3 & C3 & P3).
  exists pl. cbn [snd]. rewrite P3, P2, P1. done.
Qed.
End three.

(** Two messages per iteration, one combination or seven; one message arrived. *)
Definition demo_lines (fr : string) : list string :=
  ["1"; "2"; "1"; "12"; "0"; "true"; "test"; "30"; "1"; "1"; "field"; "finished"; fr; "1"; "1"; "1"; "1"; "1"; "7";
   "1600000000"; "48.1"; "11.5"; "500"; "48.1"; "11.6"; "500"; "100.5"; "0"; "290.15"; "40"; "1013"; "clear"; "flat"; "flat"].
Definition demo_info (fr : string) : text := flat_map (fun l => txt l ++ [10]) (demo_lines fr).
Definition demo_file : text := txt "totalnumber,identifier,rssi,snr,biterrors" ++ [10] ++ txt "1,abcdefghit,-90,7,0" ++ [10].
Definition demo_figures (fr : string) : list figures := default [] (process_data (demo_info fr) demo_file).

Lemma three_experiments_plotted_witness :
  exists pl, let c' := process_all (fun _ => false) PDR ([(demo_info "1", demo_file); (demo_info "127", demo_file);
      (demo_info "1", demo_file)] ++ [(demo_info "1", demo_file)]) initial in
  plots c' = [] ++ [bars PDR pl ([demo_figures "1"; demo_figures "127"; demo_figures "1"] ++ [demo_figures "1"])] /\
  holds PDR [] c' /\ exp_counter c' = 0.
Proof.
  apply (three_experiments_plotted (fun _ => false) PDR
    [(demo_info "1", demo_file); (demo_info "127", demo_file); (demo_info "1", demo_file)]
    [demo_figures "1"; demo_figures "127"; demo_figures "1"] (demo_info "1") demo_file (demo_figures "1") initial).
  - left. reflexivity.
  - vm_compute. split; [reflexivity|]. split; reflexivity.
  - reflexivity.
  - constructor; [vm_compute; reflexivity|]. constructor; [vm_compute; reflexivity|].
    constructor; [vm_compute; reflexivity|]. constructor.
  - vm_compute. reflexivity.
  - vm_compute. reflexivity.
  - vm_compute. lia.
  - intros pl. reflexivity.
Defined.
