(* ===== verification/System.v ===== *)
(** * The whole system

    A form in the app, the settings on the two devices, the messages in the
    air, the receiver's notifications, the app's rows and files, and the
    script's figures: what the parts show of themselves, put together. *)
From S2P Require Import Java Database Phone Customize StartScreen PhoneSettings Settings Recording Graphs Evaluation.
From S2P Require Import Prelude KSem Platform Sx12xx Air CLib Plan Messages Runs Lses LsesSweep Lres LresEval LresWindow.
From S2P Require Import LresSweep Experiment.
From stdpp Require Import prelude list numbers strings gmap sorting.
From Stdlib Require Import ZArith Lia.
Open Scope Z_scope.

(** ** Notifications and what the app makes of them *)

(** The bytes of a notification. *)
Definition noted (e : event) : list Z := match e with EvNotify l => l | _ => [] end.

(** The two broadcasts of a pair, in the order of the notifications. *)
Definition sent_pair (x : signal * Recording.report) : list broadcast :=
  [RssiSnr (signal_bytes x.1); Msg (report_bytes x.2)].

(** What the receiver reports of packet [k], message [n] of iteration [it], up to the rest of the text. *)
Definition pair_of (c : combo) (it n : Z) (k : packet) : signal * Recording.report :=
  (mk_signal (- s16 (p_rssi k)) (p_snr k) 0, mk_report (header c n ++ [116]) (s8 it) n []).
Fixpoint group_pairs (c : combo) (it n : Z) (ks : list packet) : list (signal * Recording.report) :=
  match ks with [] => [] | k :: ks' => pair_of c it n k :: group_pairs c it (n + 1) ks' end.
Fixpoint plan_pairs (it : Z) (l : list combo) (gs : list (list packet)) : list (signal * Recording.report) :=
  match l, gs with
  | c :: l', g :: gs' => group_pairs c it 0 g ++ plan_pairs (u8 (it + 1)) l' gs'
  | _, _ => []
  end.

Definition untailed (x : signal * Recording.report) : signal * Recording.report :=
  (x.1, mk_report (rp_head x.2) (rp_iteration x.2) (rp_number x.2) []).

Record in_plan (c : combo) : Prop := {
  ip_freq : 0 <= c_freq c < 8; ip_bw : 0 <= c_bw c < 3; ip_dr : 0 <= c_dr c < 6;
  ip_cr : 0 <= c_cr c < 4; ip_pow : 0 <= c_pow c < 8 }.

Lemma plan_range rdata c : In c (plan rdata) -> in_plan c.
Proof.
  unfold plan, combos. intros H.
  apply in_flat_map in H as (i & Hi & H). apply in_flat_map in H as (j & Hj & H).
  apply in_flat_map in H as (k & Hk & H). apply in_flat_map in H as (l & Hl & H).
  apply in_map_iff in H as (m & <- & Hm).
  apply bits_range in Hi, Hj, Hk, Hl, Hm. by split.
Qed.

(** The characters of a header: digits and an underscore. *)
Lemma header_chars c n : in_plan c -> 0 <= n < 100 -> Forall (fun x => 48 <= x <= 57 \/ x = 95) (header c n).
Proof.
  intros [H1 H2 H3 H4 H5] Hn. pose proof (Z.mod_pos_bound n 10 ltac:(lia)).
  assert (0 <= n / 10 < 10) by (split; [apply Z.div_pos|apply Z.div_lt_upper_bound]; lia).
  assert (n / 100 = 0) by (apply Z.div_small; lia).
  unfold header. repeat (constructor; [lia|]). constructor.
Qed.

(** Everything before a full stop passes the filter. *)
Lemma filter_index (l : list Z) i k :
  k <= i ->
  k <= foldl (fun index '(i, b) => if b =? 46 then i else index) k (zip (seqZ i (Z.of_nat (length l))) l).
Proof.
  revert i k. induction l as [|x l IH]; intros i k Hk; [done|]. cbn [length].
  rewrite seqZ_cons by lia. replace (Z.pred (Z.of_nat (S (length l)))) with (Z.of_nat (length l)) by lia.
  cbn [zip zip_with foldl]. destruct (x =? 46); [|apply IH; lia].
  etrans; [exact Hk|]. apply IH. lia.
Qed.

Lemma filterContent_keeps a b : exists t, filterContent (a ++ 46 :: b) = a ++ t.
Proof.
  unfold filterContent. set (index := foldl _ _ _).
  assert (H : Z.of_nat (length a) <= index).
  { subst index. rewrite length_app, Nat2Z.inj_add, seqZ_app, zip_with_app, foldl_app by (try lia; by rewrite length_seqZ; lia).
    cbn [length]. rewrite (seqZ_cons (0 + _)) by lia. cbn [zip zip_with foldl]. rewrite Z.eqb_refl, Nat2Z.inj_succ, Z.pred_succ.
    etrans; [|apply filter_index]; lia. }
  exists (take (Z.to_nat index - length a) (46 :: b)). rewrite take_app_ge by lia. done.
Qed.

Lemma forwarded_cons l bs ls : onCharacteristicChanged RECEIVER (map s8 l) = Ok bs ->
  forwarded (l :: ls) = match forwarded ls with Ok bs' => Ok (bs ++ bs') | Throw e => Throw e end.
Proof. intros E. cbn [forwarded]. rewrite E. done. Qed.

Lemma forwarded_app ls ls' bs bs' :
  forwarded ls = Ok bs -> forwarded ls' = Ok bs' -> forwarded (ls ++ ls') = Ok (bs ++ bs').
Proof.
  revert bs. induction ls as [|l ls IH]; intros bs E E'; [by injection E as <-|]. cbn [app forwarded] in *.
  destruct (onCharacteristicChanged _ _) as [b|]; [|done]. destruct (forwarded ls) as [b'|]; [|done].
  injection E as <-. rewrite (IH _ eq_refl E'). by rewrite app_assoc.
Qed.

Lemma signal_forwarded r n :
  onCharacteristicChanged RECEIVER (map s8 [255; u8 (- r); u8 (s8 n); 0]) = Ok [RssiSnr (signal_bytes (mk_signal (- r) n 0))].
Proof. cbn [map]. change (s8 255) with (-1). rewrite !s8_u8. unfold signal_bytes. cbn. do 4 f_equal. by rewrite (s8_id (s8 n)) by apply s8_range. Qed.

Lemma report_forwarded c it n tail :
  in_plan c -> 0 <= n < 100 ->
  exists t, onCharacteristicChanged RECEIVER (map s8 (header c n ++ [116; it; n; 46] ++ tail)) =
    Ok [Msg (report_bytes (mk_report (header c n ++ [116]) (s8 it) n t))].
Proof.
  intros Hc Hn.
  assert (E : map s8 (header c n ++ [116; it; n; 46] ++ tail) = (header c n ++ [116; s8 it; n]) ++ 46 :: map s8 tail).
  { rewrite !map_app, map_id_Forall; [|eapply Forall_impl; [by apply header_chars|]; cbn; intros x Hx; apply s8_id; lia].
    cbn [map]. rewrite (s8_id n) by lia. change (s8 116) with 116. change (s8 46) with 46. by rewrite <- !app_assoc. }
  rewrite E. destruct (filterContent_keeps (header c n ++ [116; s8 it; n]) (map s8 tail)) as [t Ht].
  exists t. unfold onCharacteristicChanged. rewrite Ht. cbn [header app].
  destruct Hc as [Hf _ _ _ _]. rewrite !(proj2 (Z.eqb_neq (c_freq c + 48) _)) by lia. cbn [orb].
  unfold report_bytes, header. cbn [rp_head rp_iteration rp_number rp_tail app]. done.
Qed.

Lemma verdicts_forwarded c it n ks evs :
  in_plan c -> 0 <= n -> n + Z.of_nat (length ks) <= 100 -> verdicts c it n ks evs ->
  exists ps, forwarded (map noted evs) = Ok (flat_map sent_pair ps) /\ map untailed ps = group_pairs c it n ks.
Proof.
  intros Hc. revert n evs. induction ks as [|k ks IH]; intros n evs Hn Hl Hv; cbn [verdicts] in Hv.
  { subst evs. by exists []. }
  destruct Hv as (tail & evs' & _ & -> & Hv). cbn [length] in Hl.
  destruct (IH (n + 1) evs' ltac:(lia) ltac:(lia) Hv) as (ps & E & Ep).
  destruct (report_forwarded c it n tail Hc ltac:(lia)) as [t Ht].
  exists ((mk_signal (- s16 (p_rssi k)) (p_snr k) 0, mk_report (header c n ++ [116]) (s8 it) n t) :: ps). split.
  - cbn [map noted]. rewrite (forwarded_cons _ _ _ (signal_forwarded _ _)), (forwarded_cons _ _ _ Ht), E. done.
  - cbn [map group_pairs]. by rewrite Ep.
Qed.

Lemma all_verdicts_forwarded it l gs evs :
  Forall in_plan l -> Forall (fun g => Z.of_nat (length g) <= 100) gs -> all_verdicts it l gs evs ->
  exists ps, forwarded (map noted evs) = Ok (flat_map sent_pair ps) /\ map untailed ps = plan_pairs it l gs.
Proof.
  intros Hl. revert it gs evs. induction Hl as [|c l Hc Hl IH]; intros it gs evs Hg Hv.
  { cbn in Hv. subst evs. by exists []. }
  destruct gs as [|g gs]; [cbn in Hv; subst evs; by exists []|]. apply Forall_cons in Hg as [Hg1 Hg].
  cbn [all_verdicts] in Hv. destruct Hv as (e1 & e2 & -> & V1 & V2).
  destruct (verdicts_forwarded c it 0 g e1 Hc ltac:(lia) ltac:(lia) V1) as (p1 & E1 & P1).
  destruct (IH _ _ _ Hg V2) as (p2 & E2 & P2). exists (p1 ++ p2). split.
  - rewrite map_app, flat_map_app. by apply forwarded_app.
  - cbn [plan_pairs]. by rewrite map_app, P1, P2.
Qed.

(** ** The numbers of the samples *)

Lemma total_pair N c it n k : 0 <= it < 128 -> 0 <= n < N -> N <= 100 -> total_of N (pair_of c it n k).2 = it * N + n.
Proof.
  intros Hi Hn HN. unfold total_of. cbn [pair_of snd rp_number rp_iteration]. rewrite s8_id by lia.
  assert (0 <= it * N <= 12700) by nia. rewrite (jint_id (it * N)), jint_id by lia. lia.
Qed.

Lemma group_numbers N c it n ks :
  0 <= it < 128 -> 0 <= n -> n + Z.of_nat (length ks) <= N -> N <= 100 ->
  map number (map (sample_of N) (group_pairs c it n ks)) = seqZ (it * N + n) (Z.of_nat (length ks)).
Proof.
  intros Hi. revert n. induction ks as [|k ks IH]; intros n Hn Hl HN; [done|]. cbn [length] in *.
  rewrite seqZ_cons by lia. cbn [group_pairs map].
  replace (Z.pred (Z.of_nat (S (length ks)))) with (Z.of_nat (length ks)) by lia.
  rewrite (proj2 (sample_numbered N _)), total_pair by lia. f_equal. rewrite IH by lia. f_equal. lia.
Qed.

Lemma u8_next it : 0 <= it < 128 -> u8 (it + 1) = it + 1.
Proof. intros. apply u8_id. unfold byte_ok. lia. Qed.

Lemma plan_numbers_seq N it l gs :
  0 <= it -> it + Z.of_nat (length l) <= 128 -> 0 <= N <= 100 -> length gs = length l ->
  Forall (fun g => Z.of_nat (length g) = N) gs ->
  map number (map (sample_of N) (plan_pairs it l gs)) = seqZ (it * N) (Z.of_nat (length l) * N).
Proof.
  revert it gs. induction l as [|c l IH]; intros it gs Hi Hl HN Eg Hg; [done|].
  destruct gs as [|g gs]; [done|]. apply Forall_cons in Hg as [Hg Hgs]. cbn [length plan_pairs] in *.
  rewrite !map_app, group_numbers, u8_next, IH by (done || lia). rewrite Hg.
  replace (Z.of_nat (S (length l)) * N) with (N + Z.of_nat (length l) * N) by lia. rewrite seqZ_app by lia.
  f_equal; f_equal; lia.
Qed.

(** Consecutive numbers increase. *)
Lemma consecutive_increasing vs a b :
  map number vs = seqZ a b -> increasing vs /\ Forall (fun v => a <= number v < a + b) vs.
Proof.
  revert a b. induction vs as [|v vs IH]; intros a b E; [split; constructor|].
  destruct (decide (0 < b)) as [Hb|Hb]; [|rewrite seqZ_nil in E by lia; done].
  rewrite seqZ_cons in E by done. cbn [map] in E. injection E as Ev E. destruct (IH _ _ E) as [Hs Hf].
  split; constructor; try done; [|lia|].
  - eapply Forall_impl; [exact Hf|]. cbn. lia.
  - eapply Forall_impl; [exact Hf|]. cbn. lia.
Qed.

Lemma of_iteration_app N i vs ws : of_iteration N i (vs ++ ws) = of_iteration N i vs ++ of_iteration N i ws.
Proof. apply List.filter_app. Qed.

Lemma of_iteration_all N i vs : Forall (fun v => i * N <= number v < i * N + N) vs -> of_iteration N i vs = vs.
Proof.
  intros H. unfold of_iteration. apply forallb_filter_id, forallb_forall. rewrite List.Forall_forall in H. intros v Hv%H. lia.
Qed.

Lemma of_iteration_none N i vs :
  Forall (fun v => number v < i * N \/ i * N + N <= number v) vs -> of_iteration N i vs = [].
Proof.
  intros H. unfold of_iteration. rewrite (filter_ext_in _ (fun _ => false)), filter_false; [done|].
  rewrite List.Forall_forall in H. intros v Hv%H. lia.
Qed.

(** Each iteration finds the messages of its combination. *)
Lemma of_iteration_plan N i it l gs c g :
  0 <= it -> it + Z.of_nat (length l) <= 128 -> 0 <= N <= 100 -> length gs = length l ->
  Forall (fun g => Z.of_nat (length g) = N) gs -> l !! i = Some c -> gs !! i = Some g ->
  of_iteration N (it + Z.of_nat i) (map (sample_of N) (plan_pairs it l gs)) =
  map (sample_of N) (group_pairs c (it + Z.of_nat i) 0 g).
Proof.
  revert i it gs. induction l as [|c' l IH]; intros i it gs Hi Hl HN Eg Hg Hc Hk; [done|].
  destruct gs as [|g' gs]; [done|]. apply Forall_cons in Hg as [Hg Hgs]. cbn [length plan_pairs] in *.
  rewrite map_app, of_iteration_app, u8_next by lia.
  destruct (consecutive_increasing _ _ _ (group_numbers N c' it 0 g' ltac:(lia) ltac:(lia) ltac:(lia) ltac:(lia))) as [_ Hf].
  destruct (consecutive_increasing _ _ _ (plan_numbers_seq N (it + 1) l gs ltac:(lia) ltac:(lia) HN ltac:(lia) Hgs)) as [_ Hr].
  destruct i as [|i].
  - injection Hc as ->. injection Hk as ->. rewrite Z.add_0_r.
    rewrite of_iteration_all, of_iteration_none, app_nil_r; [done|..].
    + eapply Forall_impl; [exact Hr|]. cbn. lia.
    + eapply Forall_impl; [exact Hf|]. cbn. lia.
  - rewrite of_iteration_none; [|eapply Forall_impl; [exact Hf|]; cbn; nia].
    replace (it + Z.of_nat (S i)) with (it + 1 + Z.of_nat i) by lia. cbn [app]. apply IH; try done; lia.
Qed.

(** ** Figures without loss *)

(** Signal values the notifications have room for. *)
Definition measurable (k : packet) : Prop := -255 <= p_rssi k <= 0 /\ -128 <= p_snr k < 128.

(** All [N] messages of the combination, none corrupted, each with its signal. *)
Record lossless (N : Z) (c : combo) (g : list packet) (x : figures) : Prop := {
  ll_label : label x = c;
  ll_pdr : pdr x = (N, N);
  ll_corr : pdr_corr x = (0, N);
  ll_uncorr : pdr_uncorr x = (N, N);
  ll_errors : bit_err_rate x = (0, 1);
  ll_etx : etx x = (N, N);
  ll_rounds : rounds (Graphs.data x) = range N;
  ll_rssi : rssi_iteration (Graphs.data x) = map p_rssi g;
  ll_noise : snr_iteration (Graphs.data x) = map (fun k => p_rssi k - p_snr k) g }.

Lemma pair_sample N c it n k :
  measurable k -> Graphs.rssi (sample_of N (pair_of c it n k)) = p_rssi k /\ Graphs.snr (sample_of N (pair_of c it n k)) = p_snr k.
Proof.
  intros [Hr Hs]. cbn [sample_of pair_of fst sg_rssi sg_snr Graphs.rssi Graphs.snr]. rewrite (s8_id (p_snr k)) by done. split; [|done].
  assert (s16 (p_rssi k) = p_rssi k) as -> by (unfold s16; rewrite Z.mod_small; lia).
  rewrite u8_id by (unfold byte_ok; lia). lia.
Qed.

Lemma group_signals N c it n ks :
  Forall measurable ks ->
  map Graphs.rssi (map (sample_of N) (group_pairs c it n ks)) = map p_rssi ks /\
  map (fun v => Graphs.rssi v - Graphs.snr v) (map (sample_of N) (group_pairs c it n ks)) = map (fun k => p_rssi k - p_snr k) ks.
Proof.
  intros H. revert n. induction H as [|k ks Hk _ IH]; intros n; [done|]. cbn [group_pairs map].
  destruct (IH (n + 1)) as [-> ->]. by destruct (pair_sample N c it n k Hk) as [-> ->].
Qed.

Lemma group_unmarked N c it n ks :
  in_plan c -> 0 <= n -> n + Z.of_nat (length ks) <= 100 ->
  List.filter (fun v => marked_f (default [] (identifier v))) (map (sample_of N) (group_pairs c it n ks)) = [].
Proof.
  intros Hc. revert n. induction ks as [|k ks IH]; intros n Hn Hl; [done|]. cbn [group_pairs map length] in *.
  assert (E : marked_f (header c n ++ [116]) = false).
  { apply not_true_iff_false. intros (x & Hx & Ex%Z.eqb_eq)%existsb_exists. subst x.
    apply in_app_or in Hx as [Hx|[Hx|[]]]; [|lia].
    pose proof (header_chars c n Hc ltac:(lia)) as Hh. rewrite List.Forall_forall in Hh. apply Hh in Hx. lia. }
  cbn [List.filter]. change (default [] (identifier (sample_of N (pair_of c it n k)))) with (header c n ++ [116]).
  rewrite E. apply IH; lia.
Qed.

Lemma group_lossless N pl c it g :
  in_plan c -> 0 <= it < 128 -> 1 <= N <= 100 -> Z.of_nat (length g) = N -> Forall measurable g ->
  lossless N c g (figures_of N pl c (gather_all (it * N) (map (sample_of N) (group_pairs c it 0 g)) nothing)).
Proof.
  intros Hc Hi HN Hg Hm. set (vs := map (sample_of N) _).
  destruct (gather_all_spec (it * N) vs nothing) as (R1 & R2 & R3 & R4 & R5 & R6).
  destruct (group_signals N c it 0 g Hm) as [S1 S2]. fold vs in S1, S2. rewrite S1 in R2. rewrite S2 in R3.
  unfold vs in R6. rewrite group_unmarked in R6 by (done || lia). fold vs in R6. cbn [nothing corrupted_msgs_count length] in R6.
  assert (R1' : rounds (gather_all (it * N) vs nothing) = range N).
  { rewrite R1. cbn [nothing rounds app]. 
    rewrite <- (map_map number (fun x => x - it * N)). unfold vs. rewrite group_numbers, Hg by lia.
    unfold range.
    apply list_eq. intros j. change (map ?f ?l) with (f <$> l). rewrite list_lookup_fmap.
    destruct (decide (Z.of_nat j < N)).
    - rewrite !lookup_seqZ_lt by lia. cbn. f_equal. lia.
    - rewrite !lookup_seqZ_ge by lia. done. }
  set (a := gather_all _ _ _) in *. clearbody a vs. unfold figures_of. rewrite R2. cbn [nothing rssi_iteration app]. rewrite length_map, Hg, R6.
  cbn [Z.add Z.of_nat]. destruct (Z.ltb_spec 0 N); [|lia]. rewrite Z.sub_0_r. destruct (Z.ltb_spec 0 N); [|lia]. by split.
Qed.

(** ** As many packets as messages *)

Lemma groups_lengths sm data pre d2 off a l t gs :
  0 < peek data 0 -> 0 <= peek data 2 < 256 -> Forall in_plan l ->
  delivered_all d2 off a l (groups sm data pre t l) gs ->
  length gs = length l /\ Forall (fun g => Z.of_nat (length g) = peek data 0) gs.
Proof.
  intros H0 H2 Hl. revert t gs. induction Hl as [|c l Hc Hl IH]; intros t gs Hd.
  { destruct gs; [|done]. done. }
  destruct gs as [|g gs]; [done|]. destruct Hd as [Hg Hd]. destruct (IH _ _ Hd) as [IL IF].
  split; [cbn; by rewrite IL|]. constructor; [|done].
  destruct Hc. destruct (combo_times sm data pre c t) as [Es _]; try done. rewrite Es in Hg.
  apply Forall2_length in Hg. rewrite <- Hg, length_map. unfold range. rewrite length_seqZ. lia.
Qed.

(** ** From the rows to the figures *)

Lemma untailed_sample N x : sample_of N (untailed x) = sample_of N x.
Proof. done. Qed.
Lemma untailed_samples N ps : map (sample_of N) (map untailed ps) = map (sample_of N) ps.
Proof. rewrite map_map. apply map_ext, untailed_sample. Qed.

Lemma group_plain c it n ks :
  in_plan c -> 0 <= n -> n + Z.of_nat (length ks) <= 100 -> Forall (fun x => report_plain x.2) (group_pairs c it n ks).
Proof.
  intros Hc. revert n. induction ks as [|k ks IH]; intros n Hn Hl; [constructor|]. cbn [group_pairs length] in *.
  constructor; [|apply IH; lia]. pose proof (header_chars c n Hc ltac:(lia)) as Hh.
  assert (P : Forall (fun x => 48 <= x <= 57 \/ x = 95 \/ x = 116) (header c n ++ [116])).
  { apply Forall_app. split; [|constructor; [lia|constructor]]. eapply Forall_impl; [exact Hh|]. cbn. lia. }
  split; [split; [done|]|]; (eapply Forall_impl; [exact P|]); cbn; intros x Hx; [lia|]. unfold plain_char. lia.
Qed.

Lemma plan_plain it l gs :
  Forall in_plan l -> Forall (fun g => Z.of_nat (length g) <= 100) gs -> Forall (fun x => report_plain x.2) (plan_pairs it l gs).
Proof.
  intros Hl. revert it gs. induction Hl as [|c l Hc Hl IH]; intros it gs Hg; [constructor|].
  destruct Hg as [|g gs Hg1 Hg]; [constructor|]. cbn [plan_pairs]. apply Forall_app. split; [|by apply IH].
  apply group_plain; [done|lia|lia].
Qed.

Lemma changing_untailed N ps last_row : changing N last_row (map untailed ps) -> changing N last_row ps.
Proof. revert last_row. induction ps as [|x ps IH]; intros last_row; [done|]. intros [H1 H2]. split; [done|by apply IH]. Qed.

Lemma untailed_plain ps : Forall (fun x => report_plain x.2) (map untailed ps) -> Forall (fun x => report_plain x.2) ps.
Proof. rewrite !List.Forall_forall. intros H x Hx. apply (H (untailed x)). by apply in_map. Qed.

(** The rows of a database, as the script reads them from the app's file. *)
Lemma file_records {D} `{Sqlite D} id ms (d : D) :
  Forall (fun m => plain5 (cell_fields m)) ms -> map r_cells <$> sql_select d (Experiment (decimal id)) = Some ms ->
  exists file, makeCSV id d = (Ok file, d) /\ read_csv (new_String file) = Some (map (fun m => record_of (cell_fields m)) ms).
Proof.
  intros Hp Hr. eexists. split; [by apply makeCSV_run|].
  assert (H5 : Forall plain5 (map cell_fields ms)) by (by apply Forall_map).
  rewrite file_text by (constructor; [apply names_plain|done]). rewrite read_rows by done. by rewrite map_map.
Qed.

Lemma pairs_plain N ps :
  Forall (fun x => report_plain x.2) ps -> Forall (fun m => plain5 (cell_fields m)) (map (fun x => row_cells N x.1 x.2) ps).
Proof. intros H. apply Forall_map. eapply Forall_impl; [exact H|]. intros x Hx. by apply (fields_plain N). Qed.

Lemma csv_samples {D} `{Sqlite D} id N ps (d : D) :
  Forall (fun x => report_plain x.2) ps -> changing N None ps ->
  map r_cells <$> sql_select d (Experiment (decimal id)) = Some (map (fun x => row_cells N x.1 x.2) ps) ->
  exists file, makeCSV id d = (Ok file, d) /\ (read_csv (new_String file) ≫= extract None) = Some (map (sample_of N) ps).
Proof.
  intros Hp Hs Hr. destruct (file_records id _ d (pairs_plain N ps Hp) Hr) as (file & Ef & Er). exists file. split; [done|].
  rewrite Er. cbn [mbind option_bind]. rewrite map_map, <- (app_nil_r (map _ ps)).
  etrans; [exact (extract_rows N ps None [] Hs)|]. cbn. by rewrite app_nil_r.
Qed.

(** A form's columns as the script's parameters. *)
Lemma form_column f id r i t :
  holds_form f id r -> (i <= POWERS)%nat -> form_entry id f !! i = Some (Some t) -> column r i = t.
Proof. intros [_ Hf] Hi E. unfold column. specialize (Hf i Hi). rewrite E in Hf. injection Hf as ->. done. Qed.

Lemma form_param f id r i t v :
  holds_form f id r -> (i <= POWERS)%nat -> form_entry id f !! i = Some (Some t) -> py_int t = Some v ->
  param (map (column r) (seq 0 34)) i = Some v.
Proof.
  intros Hf Hi E Hv. unfold param. change (map (column r) (seq 0 34)) with (column r <$> seq 0 34).
  unfold POWERS in Hi. rewrite list_lookup_fmap, lookup_seq_lt by lia. cbn. by rewrite (form_column f id r i t).
Qed.

Lemma process_data_run f n g len id r file vs :
  accepted f n g len -> holds_form f id r -> complete r -> (read_csv file ≫= extract None) = Some vs ->
  process_data (new_String (info_text (map (column r) (seq 0 34)))) file =
  aggregate (encodeParamByte (frBits f)) (encodeParamByte (bwBits f)) (encodeParamByte (sfBits f))
    (encodeParamByte (crBits f)) (encodeParamByte (pwBits f)) n len vs.
Proof.
  intros Ha Hf Hc Hv. unfold process_data. rewrite overview_row by done. cbn [mbind option_bind].
  destruct (read_csv file) as [rows|]; [|done]. cbn [mbind option_bind] in *. rewrite Hv. cbn [mbind option_bind].
  destruct Ha as [_ N1 _ T1 L1 _ _ _ _].
  rewrite (form_param f id r 12 (boxes_text (frBits f)) _ Hf) by (try done; try (by apply Nat.leb_le); apply py_int_decimal).
  rewrite (form_param f id r 13 (boxes_text (bwBits f)) _ Hf) by (try done; try (by apply Nat.leb_le); apply py_int_decimal).
  rewrite (form_param f id r 14 (boxes_text (sfBits f)) _ Hf) by (try done; try (by apply Nat.leb_le); apply py_int_decimal).
  rewrite (form_param f id r 15 (boxes_text (crBits f)) _ Hf) by (try done; try (by apply Nat.leb_le); apply py_int_decimal).
  rewrite (form_param f id r 16 (boxes_text (pwBits f)) _ Hf) by (try done; try (by apply Nat.leb_le); apply py_int_decimal).
  rewrite (form_param f id r 1 (noMsgs f) n Hf) by (try done; try (by apply Nat.leb_le); by eapply py_int_parse).
  rewrite (form_param f id r 3 (msgLength f) len Hf) by (try done; try (by apply Nat.leb_le); by eapply py_int_parse).
  cbn [mbind option_bind]. destruct (cp_distance _ Hc) as [x Hx].
  change (map (column r) (seq 0 34) !! 26%nat) with (Some (column r ACTUAL_DISTANCE)). cbn [mbind option_bind].
  by rewrite Hx.
Qed.

Lemma encoded_plan f :
  form_ok f -> combos (encodeParamByte (frBits f)) (encodeParamByte (bwBits f)) (encodeParamByte (sfBits f))
    (encodeParamByte (crBits f)) (encodeParamByte (pwBits f)) = product f.
Proof.
  intros (F1 & F2 & F3 & F4 & F5). unfold combos, product.
  assert (P : forall boxes n, (length boxes <= 8)%nat -> Z.of_nat (length boxes) <= n <= 8 -> bits n (encodeParamByte boxes) = checked boxes).
  { intros boxes n Hl Hn. rewrite <- (bits_encoded boxes n) by lia. apply filter_ext_in. intros i Hi%range_spec.
    rewrite !bit_set_spec by lia. unfold u8. by rewrite Z.mod_pow2_bits_low by lia. }
  by rewrite !P by lia.
Qed.

(** ** The first 128 iterations

    The iteration's number is a signed byte for the app: from iteration 128 on
    the numbers of the messages are negative. *)

Lemma total_pair_signed N c it n k : 0 <= n < N -> N <= 100 -> total_of N (pair_of c it n k).2 = s8 it * N + n.
Proof.
  intros Hn HN. unfold total_of. cbn [pair_of snd rp_number rp_iteration]. pose proof (s8_range it).
  assert (-12800 <= s8 it * N <= 12700) by nia. rewrite (jint_id (s8 it * N)), jint_id by lia. lia.
Qed.

Lemma group_changing N c it n ks last_row ps :
  0 <= n -> n + Z.of_nat (length ks) = N -> N <= 100 -> ks <> [] ->
  last_row <> Some (Some (decimal (s8 it * N + n))) ->
  changing N (Some (Some (decimal (s8 it * N + N - 1)))) ps -> changing N last_row (group_pairs c it n ks ++ ps).
Proof.
  revert n last_row. induction ks as [|k ks IH]; intros n last_row Hn Hl HN Hne Hlast Hps; [done|].
  cbn [length] in Hl. cbn [group_pairs app changing]. rewrite total_pair_signed by lia. split; [done|].
  destruct ks as [|k' ks].
  - cbn [group_pairs app]. cbn [length] in Hl. by replace (s8 it * N + n) with (s8 it * N + N - 1) by lia.
  - apply IH; try done; try lia. intros [= E%decimal_inj]. lia.
Qed.

Lemma plan_changing N it l gs last_row :
  1 <= N <= 100 -> Forall (fun g => Z.of_nat (length g) = N) gs -> last_row <> Some (Some (decimal (s8 it * N))) ->
  changing N last_row (plan_pairs it l gs).
Proof.
  intros HN Hg. revert it l last_row. induction Hg as [|g gs Hg Hgs IH]; intros it l last_row Hl.
  { by destruct l. }
  destruct l as [|c l]; [done|]. cbn [plan_pairs]. apply group_changing; try done; try lia.
  - intros ->. cbn in Hg. lia.
  - by rewrite Z.add_0_r.
  - apply IH. intros [= E%decimal_inj]. rewrite s8_u8 in E.
    assert (s8 (it + 1) = s8 it + 1 \/ s8 it = 127 /\ s8 (it + 1) = -128) as [Hx|[Hx Hy]].
    { unfold s8. change (2 ^ 7) with 128. change (2 ^ 8) with 256. Z.to_euclidean_division_equations. lia. }
    + rewrite Hx in E. lia.
    + rewrite Hx, Hy in E. lia.
Qed.

Lemma plan_pairs_split it l gs m :
  0 <= it -> it + Z.of_nat m <= 255 -> length gs = length l ->
  plan_pairs it l gs = plan_pairs it (take m l) (take m gs) ++ plan_pairs (it + Z.of_nat m) (drop m l) (drop m gs).
Proof.
  revert it l gs. induction m as [|m IH]; intros it l gs Hi Hm Hl; [by rewrite Z.add_0_r|].
  destruct l as [|c l], gs as [|g gs]; try done. cbn [take drop plan_pairs length] in *.
  rewrite (u8_id (it + 1)) by (unfold byte_ok; lia). rewrite (IH (it + 1)) by lia. rewrite <- app_assoc. do 3 f_equal. lia.
Qed.

Lemma nothing_counted N pl c vs i :
  Forall (fun v => number v < i * N) vs -> pdr (iteration_figures N pl vs i c) = (0, 1).
Proof.
  intros H. unfold iteration_figures. rewrite of_iteration_none; [done|]. eapply Forall_impl; [exact H|]. cbn. lia.
Qed.

(** The first message of iteration 128 comes too late for the script. *)
Lemma stalled N l gs us :
  1 <= N <= 100 -> Forall (fun g => Z.of_nat (length g) = N) gs -> Forall (fun u => 0 <= number u) us ->
  behind (map (sample_of N) (plan_pairs (0 + Z.of_nat 128) l gs)) us 0.
Proof.
  intros HN Fg Hu. destruct l as [|c' l], Fg as [|g gs Hg Fg]; try done. destruct g as [|k g]; [cbn in Hg; lia|].
  cbn [plan_pairs group_pairs app map behind]. split; [apply sample_numbered|]. rewrite (proj2 (sample_numbered N _)).
  rewrite total_pair_signed by lia. change (s8 (0 + Z.of_nat 128)) with (-128).
  destruct (last us) as [u|] eqn:E; [|lia]. rewrite List.Forall_forall in Hu.
  apply last_Some_elem_of, list_elem_of_In, Hu in E. lia.
Qed.

Lemma plan_figures fr bw sf cr pw N pl gs :
  let l := combos fr bw sf cr pw in
  1 <= N <= 100 -> length gs = length l -> Forall in_plan l ->
  Forall (fun g => Z.of_nat (length g) = N) gs -> Forall (Forall measurable) gs ->
  exists figs, aggregate fr bw sf cr pw N pl (map (sample_of N) (plan_pairs 0 l gs)) = Some figs /\ length figs = length l /\
    forall i c k, l !! i = Some c -> gs !! i = Some k -> exists x, figs !! i = Some x /\
      if (i <? 128)%nat then lossless N c k x else pdr x = (0, 1).
Proof.
  intros l HN Lg Hp Fg Hm. rewrite (plan_pairs_split 0 l gs 128), map_app by (done || lia).
  set (us := map _ (plan_pairs 0 _ _)). set (tail := map _ (plan_pairs (0 + Z.of_nat 128) _ _)).
  assert (Hl1 : Z.of_nat (length (take 128 l)) <= 128) by (rewrite length_take; lia).
  assert (Lg1 : length (take 128 gs) = length (take 128 l)) by (rewrite !length_take; lia).
  assert (Fg1 : Forall (fun g => Z.of_nat (length g) = N) (take 128 gs)) by (by apply Forall_take).
  destruct (consecutive_increasing _ _ _ (plan_numbers_seq N 0 (take 128 l) (take 128 gs) ltac:(lia) ltac:(lia) ltac:(lia) Lg1 Fg1)) as [Hi Hb].
  fold us in Hi, Hb. assert (Hpos : Forall (fun u => 0 <= number u) us) by (eapply Forall_impl; [exact Hb|]; cbn; lia).
  exists (all_figures N pl us l). split; [|split; [apply length_all_figures|]].
  - apply aggregate_run; [lia| |done|done|apply stalled; [done|by apply Forall_drop|done]].
    apply List.Forall_forall. intros v (x & <- & _)%in_map_iff. apply sample_numbered.
  - intros i c k Hc Hk. eexists. split; [by apply all_figures_at|]. destruct (Nat.ltb_spec i 128).
    + pose proof (lookup_lt_Some _ _ _ Hc). unfold iteration_figures, us.
      pose proof (of_iteration_plan N i 0 (take 128 l) (take 128 gs) c k ltac:(lia) ltac:(lia) ltac:(lia) Lg1 Fg1) as E.
      rewrite Z.add_0_l, !lookup_take_lt in E by done. rewrite (E Hc Hk).
      rewrite Forall_lookup in Hp. rewrite !Forall_lookup in Fg, Hm. apply group_lossless; try done; try lia.
      * by eapply Hp. * by eapply Fg. * by eapply Hm.
    + apply nothing_counted. eapply Forall_impl; [exact Hb|]. cbn. nia.
Qed.

(** ** The theorem *)
Section system.
Context {D : Type} `{SqliteLaws D}.

(** The app's files of logged rows, and what the script makes of them. *)
Lemma rows_evaluated f n g len id ps (d : D) r :
  accepted f n g len -> Forall (fun x => report_plain x.2) ps -> changing n None ps ->
  map r_cells <$> sql_select d (Experiment (decimal id)) = Some (map (fun x => row_cells n x.1 x.2) ps) ->
  experiment_row id d = (Ok r, d) -> holds_form f id r -> complete r ->
  exists info file, makeExpInfoText id d = (Ok info, d) /\ makeCSV id d = (Ok file, d) /\
    process_data (new_String info) (new_String file) =
    aggregate (encodeParamByte (frBits f)) (encodeParamByte (bwBits f)) (encodeParamByte (sfBits f))
      (encodeParamByte (crBits f)) (encodeParamByte (pwBits f)) n len (map (sample_of n) ps).
Proof.
  intros Ha Hp Hi Hr Hrow Hf Hc. destruct (csv_samples id n ps d Hp Hi Hr) as (file & Ef & Hv).
  exists (info_text (map (column r) (seq 0 34))), file. split; [by apply makeExpInfoText_run, Hc|]. split; [done|].
  by eapply process_data_run.
Qed.

Lemma opened_showing f n g id d0 (s : start_screen D) :
  opened f n g id d0 s -> dbEntries s = None ->
  sql_select (db (screen_app s)) (Experiment (decimal id)) = Some [] -> showing id n None [] s.
Proof. intros [O1 _ O3 _ _ _] Hd Ht. split; try done; [|by rewrite Ht]. rewrite O3. done. Qed.


End system.

(** ** An experiment *)

(** The row of the form, with what is known after the experiment. *)
Definition demo_row : row :=
  mk_row 1 (<["start_time" := txt "1640995200"]> (<["actual_distance" := txt "29.8"]>
    (<["temperature_values" := txt "280.15"]> (form_cells demo_form)))).

Lemma demo_row_complete : holds_form demo_form 1 demo_row /\ complete demo_row.
Proof.
  split; [split; [done|]; intros i Hi; unfold POWERS in Hi; do 17 (destruct i as [|i]; [reflexivity|]); lia|].
  split; [|by vm_compute|by vm_compute|vm_compute; by eexists].
  assert (H : forallb (fun i => forallb (fun c => (0 <? c) && (c <? 128) && negb (c =? 10) && negb (c =? 13)) (column demo_row i)) (seq 0 34) = true)
    by (by vm_compute).
  intros i Hi. rewrite forallb_forall in H. specialize (H i (proj2 (in_seq 34 0 i) ltac:(lia))).
  rewrite forallb_forall in H. apply List.Forall_forall. intros c Hc%H. lia.
Qed.

(** The app with the form logged. *)
Definition demo_phone : phone tables :=
  mk_phone (mk_tables (<[Experiment (decimal 1) := (0, [])]> {[Experiments := (1, [mk_row 1 (form_cells demo_form)])]})) [0; 0; 3; 0; 7] [].

(** The database afterwards: the results as they are, the row completed. *)
Definition demo_after (d : tables) : tables :=
  mk_tables (partial_alter (fun _ => tabs d !! Experiment (decimal 1)) (Experiment (decimal 1)) {[Experiments := (1, [demo_row])]}).

Lemma demo_after_row d : experiment_row 1 (demo_after d) = (Ok demo_row, demo_after d).
Proof.
  apply (experiment_row_select 1 (mk_tables {[Experiments := (1, [demo_row])]})); [|done].
  cbn [sql_select tables_sqlite tabs demo_after]. rewrite lookup_partial_alter_ne; [done|]. apply Experiment_ne.
Qed.

