(* ===== verification/Losses.v ===== *)
(** * Lost notifications, and too many iterations

    The receiver sends two notifications for a message, and nothing
    acknowledges them. The screen pairs whatever comes: what a single lost
    notification does to the rows of an experiment and to the script that
    reads them. *)
From S2P Require Import Java Database Phone Customize StartScreen PhoneSettings Settings Recording Graphs Evaluation.
From S2P Require Import Prelude KSem Platform Sx12xx Air CLib Plan Messages Runs Lres LresEval LresWindow LresSweep.
From S2P Require Import Experiment System.
From stdpp Require Import prelude list numbers strings gmap sorting.
From Stdlib Require Import ZArith Lia.
Open Scope Z_scope.

Abbreviation pair := (signal * Recording.report)%type.

(** From a lost notification on, every message has the signal of the next one. *)
Definition shifted (r : Recording.report) (ps : list pair) : list pair := zip (map fst ps) (r :: map snd ps).

Lemma sent_arrives (ps : list pair) : arrives ps (flat_map sent_pair ps).
Proof. induction ps as [|[g r] ps IH]; [constructor|]. apply (arr_signal g r []); [constructor|done]. Qed.

Lemma plain_ok (ps : list pair) : Forall (fun x => report_plain x.2) ps -> Forall (fun x => report_ok x.2) ps.
Proof. intros Hp. eapply Forall_impl; [exact Hp|]. by intros x []. Qed.

(** Samples are told apart by their reports. *)
Lemma shifted_reports r ps : map snd (shifted r ps) = take (length ps) (r :: map snd ps).
Proof.
  unfold shifted. revert r. induction ps as [|[g r'] ps IH]; intros r; [done|]. cbn [map zip zip_with length take fst snd].
  f_equal. apply IH.
Qed.

Lemma shifted_plain r ps :
  report_plain r -> Forall (fun x => report_plain x.2) ps -> Forall (fun x => report_plain x.2) (shifted r ps).
Proof.
  intros Hr Hp. rewrite <- (Forall_map snd report_plain), shifted_reports. apply Forall_take. constructor; [done|]. by apply Forall_map.
Qed.

Lemma increasing_numbers vs : increasing vs <-> StronglySorted Z.lt (map number vs).
Proof.
  unfold increasing. split.
  - induction 1 as [|v vs Hs IH Hf]; [constructor|]. cbn. constructor; [done|]. by apply Forall_map.
  - induction vs as [|v vs IH]; [constructor|]. cbn. intros [Hs Hf]%StronglySorted_inv. constructor; [by apply IH|].
    exact (proj1 (List.Forall_map _ _ _) Hf).
Qed.

Lemma numbers_reports N (ps : list pair) : map number (map (sample_of N) ps) = map (total_of N) (map snd ps).
Proof. rewrite !map_map. apply map_ext. intros x. apply sample_numbered. Qed.

Lemma sorted_app_take (l k : list Z) n : StronglySorted Z.lt (l ++ k) -> StronglySorted Z.lt (l ++ take n k).
Proof.
  intros H. rewrite <- (take_drop n k), app_assoc in H. by apply StronglySorted_app in H as (_ & H & _).
Qed.

Lemma not_null N ps : last_number N None ps <> Some (Some (txt "null")).
Proof.
  assert (P : forall l o, o <> Some (Some (txt "null")) -> last_number N o l <> Some (Some (txt "null"))).
  { induction l as [|x l IH]; intros o Hn; [done|]. apply IH. intros [= E].
    pose proof (py_int_decimal (total_of N x.2)) as Hx. by rewrite E in Hx. }
  by apply P.
Qed.

(** Two signals in one row: no number, no text, the second signal. *)
Definition null_row (g1 g2 : signal) : gmap string text := cells_of (signal_half g2 (signal_half g1 (replicate 5 None))).

Lemma null_fields g1 g2 :
  cell_fields (null_row g1 g2) = (txt "null", txt "null", 45 :: decimal (u8 (sg_rssi g2)), decimal (s8 (sg_snr g2)), decimal (u8 (sg_errors g2))).
Proof. reflexivity. Qed.

Lemma null_plain g1 g2 : plain5 (cell_fields (null_row g1 g2)).
Proof.
  rewrite null_fields. split_and!; try apply plain_decimal; [repeat constructor..|]. constructor; [done|apply plain_decimal].
Qed.

Lemma sorted_pairs N (ps : list pair) :
  StronglySorted Z.lt (map (total_of N) (map snd ps)) -> StronglySorted (fun x y => total_of N x.2 < total_of N y.2) ps.
Proof.
  induction ps as [|x ps IH]; [constructor|]. cbn [map]. intros [Hs Hf]%StronglySorted_inv. constructor; [by apply IH|].
  exact (proj1 (List.Forall_map _ _ _) (proj1 (List.Forall_map _ _ _) Hf)).
Qed.

Lemma sorted_changing_none N (ps : list pair) :
  StronglySorted Z.lt (map (total_of N) (map snd ps)) -> changing N None ps.
Proof. intros H%sorted_pairs. by apply sorted_changing. Qed.

Lemma null_row_samples N g1 g2 (ps qs : list pair) :
  StronglySorted Z.lt (map (total_of N) (map snd ps)) -> StronglySorted Z.lt (map (total_of N) (map snd qs)) ->
  exists v ws, total_number v ≫= py_int = None /\
    extract None (map (fun m => record_of (cell_fields m))
      (map (fun x => row_cells N x.1 x.2) ps ++ null_row g1 g2 :: map (fun x => row_cells N x.1 x.2) qs)) =
    Some (map (sample_of N) ps ++ v :: ws).
Proof.
  intros Hp%sorted_changing_none Hq%sorted_pairs. rewrite map_app, map_map. cbn [map]. rewrite map_map.
  eexists _, _. split; [|etrans; [exact (extract_rows N ps None _ Hp)|]].
  2: { rewrite null_fields. erewrite extract_row;
         [|apply not_null|apply py_int_minus, Z.mod_pos_bound; lia|apply py_int_decimal..].
       pose proof (extract_rows N qs (Some (Some (txt "null"))) []) as Hx. rewrite app_nil_r in Hx.
       etrans; [apply f_equal, f_equal, Hx|reflexivity]. apply sorted_changing; [done|]. intros x _ [= E]. pose proof (py_int_decimal (total_of N x.2)) as Hx'.
       by rewrite <- E in Hx'. }
  by vm_compute.
Qed.

Section losses.
Context {D : Type} `{SqliteLaws D}.
Context (f : form) (n g len id : Z) (d0 : D) (s : start_screen D).
Context (Ha : accepted f n g len) (Ho : opened f n g id d0 s) (Hd : dbEntries s = None).
Context (Ht : sql_select (db (screen_app s)) (Experiment (decimal id)) = Some []).
Context (ps1 ps2 : list pair) (sg : signal) (rp : Recording.report).
Context (Hp1 : Forall (fun x => report_plain x.2) ps1) (Hp2 : Forall (fun x => report_plain x.2) ps2) (Hrp : report_plain rp).
Context (Hi : increasing (map (sample_of n) (ps1 ++ (sg, rp) :: ps2))).

Lemma signal_lost_rows :
  exists s', receive_all (flat_map sent_pair ps1 ++ Msg (report_bytes rp) :: flat_map sent_pair ps2) s = (Ok tt, s') /\
    map r_cells <$> sql_select (db (screen_app s')) (Experiment (decimal id)) =
    Some (map (fun x => row_cells n x.1 x.2) (ps1 ++ shifted rp ps2)).
Proof.
  destruct (arrives_run id n ps1 _ [] s (sent_arrives ps1) (plain_ok _ Hp1)) as (s1 & E1 & S1); [by eapply opened_showing|].
  destruct (report_run id n _ _ rp _ (proj1 Hrp) S1) as (s2 & S2 & E2).
  destruct (half_row_first id n (report_half n rp) _ _ S2) as (s3 & E3 & S3).
  destruct (shifted_run id n rp ps2 _ _ (plain_ok _ Hp2) S3) as (s4 & E4 & [_ _ _ R4]).
  exists s4. rewrite receive_all_app, (jbind_ok _ _ _ _ _ E1). cbn [receive_all]. rewrite <- E2 in E3.
  rewrite (jbind_ok _ _ _ _ _ E3). split; [done|]. by rewrite map_app.
Qed.

Lemma report_lost_rows g2 r2 ps3 :
  ps2 = (g2, r2) :: ps3 ->
  exists s', receive_all (flat_map sent_pair ps1 ++ RssiSnr (signal_bytes sg) :: flat_map sent_pair ps2) s = (Ok tt, s') /\
    map r_cells <$> sql_select (db (screen_app s')) (Experiment (decimal id)) =
    Some (map (fun x => row_cells n x.1 x.2) ps1 ++
          null_row sg g2 ::
          map (fun x => row_cells n x.1 x.2) (shifted r2 ps3)).
Proof.
  clear Hi. intros ->. apply Forall_cons in Hp2 as [Hr2 Hp3]. cbn in Hr2.
  destruct (arrives_run id n ps1 _ [] s (sent_arrives ps1) (plain_ok _ Hp1)) as (s1 & E1 & S1); [by eapply opened_showing|].
  destruct (signal_run id n _ _ sg _ S1) as (s2 & S2 & E2).
  destruct (half_row_first id n (signal_half sg) _ _ S2) as (s3 & E3 & S3). rewrite <- E2 in E3.
  destruct (signal_run id n _ _ g2 _ S3) as (s4 & S4 & E4).
  destruct (half_row_second id n (signal_half g2) _ _ _ S4) as (s5 & E5 & S5); [by rewrite !length_signal_half|]. rewrite <- E4 in E5.
  destruct (report_run id n _ _ r2 _ (proj1 Hr2) S5) as (s6 & S6 & E6).
  destruct (half_row_first id n (report_half n r2) _ _ S6) as (s7 & E7 & S7). rewrite <- E6 in E7.
  destruct (shifted_run id n r2 ps3 _ _ (plain_ok _ Hp3) S7) as (s8 & E8 & [_ _ _ R8]).
  exists s8. rewrite receive_all_app, (jbind_ok _ _ _ _ _ E1). cbn [receive_all flat_map sent_pair app fst snd].
  rewrite (jbind_ok _ _ _ _ _ E3), (jbind_ok _ _ _ _ _ E5), (jbind_ok _ _ _ _ _ E7). split; [done|].
  rewrite R8. cbn [app]. by rewrite <- app_assoc.
Qed.

(** What is counted after a lost signal is in order. *)
Lemma shifted_increasing r ps a : StronglySorted Z.lt (map (total_of n) (a ++ r :: map snd ps)) ->
  StronglySorted Z.lt (map (total_of n) (a ++ map snd (shifted r ps))).
Proof. rewrite shifted_reports, !map_app, <- firstn_map. apply sorted_app_take. Qed.

(** Afterwards: a database with the same results, in which the experiment's row is complete. *)
Definition afterwards (s' : start_screen D) (d : D) (r : row) : Prop :=
  sql_select d (Experiment (decimal id)) = sql_select (db (screen_app s')) (Experiment (decimal id)) /\
  experiment_row id d = (Ok r, d) /\ holds_form f id r /\ complete r.

(** C21. One signal notification is lost, and all others
    arrive in order: from there on the app gives each message the signal
    values of the next one, the last message stays half a row and is never
    logged, and the script evaluates just that. *)
Theorem lost_signal_shifts :
  exists s', receive_all (flat_map sent_pair ps1 ++ Msg (report_bytes rp) :: flat_map sent_pair ps2) s = (Ok tt, s') /\
  forall d r, afterwards s' d r ->
  exists info file, makeExpInfoText id d = (Ok info, d) /\ makeCSV id d = (Ok file, d) /\
    process_data (new_String info) (new_String file) =
    aggregate (encodeParamByte (frBits f)) (encodeParamByte (bwBits f)) (encodeParamByte (sfBits f))
      (encodeParamByte (crBits f)) (encodeParamByte (pwBits f)) n len (map (sample_of n) (ps1 ++ shifted rp ps2)).
Proof.
  destruct signal_lost_rows as (s' & E & R). exists s'. split; [done|]. intros d r (Es & Er & Hf & Hc). rewrite <- Es in R.
  eapply (rows_evaluated f n g len id); try done.
  - apply Forall_app. split; [done|]. by apply shifted_plain.
  - apply sorted_changing_none. rewrite increasing_numbers, numbers_reports in Hi. rewrite map_app in *. by apply shifted_increasing.
Qed.

(** One message notification is lost, and others
    follow: the app logs a row without a number, and the script raises on it
    instead of evaluating the experiment. *)
Theorem lost_message_fatal :
  ps2 <> [] -> Forall (fun v => 0 <= number v < n_iterations f * n) (map (sample_of n) (ps1 ++ (sg, rp) :: ps2)) ->
  exists s', receive_all (flat_map sent_pair ps1 ++ RssiSnr (signal_bytes sg) :: flat_map sent_pair ps2) s = (Ok tt, s') /\
  forall d r, afterwards s' d r ->
  exists info file, makeExpInfoText id d = (Ok info, d) /\ makeCSV id d = (Ok file, d) /\
    process_data (new_String info) (new_String file) = None.
Proof.
  intros Hne Hb. assert (Hex : exists g2 r2 ps3, ps2 = (g2, r2) :: ps3) by (destruct ps2 as [|[] ?]; [done|by do 3 eexists]).
  destruct Hex as (g2 & r2 & ps3 & E2). destruct (report_lost_rows g2 r2 ps3 E2) as (s' & E & R). exists s'. split; [done|].
  intros d r (Es & Er & Hf & Hc). rewrite <- Es in R. pose proof Ha as [Hform _ Hn _ _ _ _ _ _].
  pose proof Hp2 as Hp3. rewrite E2 in Hp3. apply Forall_cons in Hp3 as [Hr2 Hp3]. cbn in Hr2.
  pose proof Hi as Hs. rewrite increasing_numbers, numbers_reports, map_app, E2 in Hs. cbn [map snd] in Hs. rewrite map_app in Hs.
  apply StronglySorted_app in Hs as (Hlt & Hs1 & Hs2). cbn [map] in Hs2.
  apply StronglySorted_inv in Hs2 as [Hs2 _]. 
  assert (Hpl : Forall (fun m => plain5 (cell_fields m)) (map (fun x => row_cells n x.1 x.2) ps1 ++ null_row sg g2 ::
    map (fun x => row_cells n x.1 x.2) (shifted r2 ps3))).
  { apply Forall_app. split; [by apply pairs_plain|]. constructor; [apply null_plain|]. by apply pairs_plain, shifted_plain. }
  destruct (file_records id _ d Hpl R) as (file & Ef & Ev).
  exists (info_text (map (column r) (seq 0 34))), file. split; [by apply makeExpInfoText_run, Hc|]. split; [done|].
  destruct (null_row_samples n sg g2 ps1 (shifted r2 ps3)) as (v & ws & Hv & Hx); [done|by apply (shifted_increasing r2 ps3 [])|].
  rewrite (process_data_run f n g len id r _ (map (sample_of n) ps1 ++ v :: ws)) by (done || by rewrite Ev).
  assert (Hrp' : 0 <= total_of n rp < n_iterations f * n).
  { apply Forall_map, Forall_app in Hb as [_ Hb]. apply Forall_cons in Hb as [Hb _]. by rewrite (proj2 (sample_numbered n _)) in Hb. }
  assert (Hlen := length_product f). apply aggregate_unreadable; rewrite ?encoded_plan, ?Hlen by done; try done; try lia.
  - apply List.Forall_forall. intros w (x & <- & _)%in_map_iff. apply sample_numbered.
  - rewrite increasing_numbers, numbers_reports. done.
  - intros Hnil. rewrite Hnil in Hlen. change (0 = n_iterations f) in Hlen. rewrite <- Hlen in Hrp'. lia.
  - rewrite map_app in Hb. apply Forall_app in Hb as [Hb _]. rewrite List.Forall_forall in *. intros w Hw.
    specialize (Hb w Hw). split; [lia|]. apply (in_map number) in Hw. rewrite numbers_reports in Hw.
    specialize (Hlt (number w) (total_of n rp) ltac:(by apply list_elem_of_In) ltac:(by left)). lia.
Qed.

End losses.

(** ** An experiment with a lost notification *)

(** Two combinations of two messages; the second message loses a notification. *)
Definition demo_pair (c : combo) (it n : Z) : pair := pair_of c it n (mk_packet 0 [] (-80) 7).
Definition demo_before : list pair := [demo_pair (mk_combo 0 0 0 0 7) 0 0].
Definition demo_lost : pair := demo_pair (mk_combo 0 0 0 0 7) 0 1.
Definition demo_later : list pair := [demo_pair (mk_combo 1 0 0 0 7) 1 0; demo_pair (mk_combo 1 0 0 0 7) 1 1].

Lemma demo_pairs :
  Forall (fun x => report_plain x.2) demo_before /\ Forall (fun x => report_plain x.2) demo_later /\ report_plain demo_lost.2 /\
  increasing (map (sample_of 2) (demo_before ++ (demo_lost.1, demo_lost.2) :: demo_later)) /\
  Forall (fun v => 0 <= number v < n_iterations demo_form * 2) (map (sample_of 2) (demo_before ++ (demo_lost.1, demo_lost.2) :: demo_later)).
Proof. split_and!; repeat constructor; by vm_compute. Qed.

Lemma demo_opened :
  exists s, opened demo_form 2 1 1 (db demo_phone) s /\ dbEntries s = None /\
    sql_select (db (screen_app s)) (Experiment (decimal 1)) = Some [].
Proof.
  destruct (onCreate_run demo_form 2 1 12 1 demo_phone (mk_row 1 (form_cells demo_form)) demo_accepted) as (s & _ & Ho & _ & _ & Hd);
    [done|done|apply form_held|]. exists s. split_and!; [done|done|]. by rewrite (op_table _ _ _ _ _ _ Ho).
Qed.

Lemma demo_afterwards s' : afterwards demo_form 1 s' (demo_after (db (screen_app s'))) demo_row.
Proof.
  split; [cbn [sql_select tables_sqlite tabs demo_after]; by rewrite lookup_partial_alter_eq|].
  split; [apply demo_after_row|apply demo_row_complete].
Qed.

Lemma lost_signal_shifts_witness :
  exists s s' info file, receive_all (flat_map sent_pair demo_before ++ Msg (report_bytes demo_lost.2) :: flat_map sent_pair demo_later) s = (Ok tt, s') /\
    makeCSV 1 (demo_after (db (screen_app s'))) = (Ok file, demo_after (db (screen_app s'))) /\
    process_data (new_String info) (new_String file) =
    aggregate 3 1 1 1 (-128) 2 12 (map (sample_of 2) (demo_before ++ shifted demo_lost.2 demo_later)).
Proof.
  destruct demo_opened as (s & Ho & Hd & Ht). destruct demo_pairs as (P1 & P2 & P3 & P4 & _).
  destruct (lost_signal_shifts demo_form 2 1 12 1 (db demo_phone) s demo_accepted Ho Hd Ht demo_before demo_later
    demo_lost.1 demo_lost.2 P1 P2 P3 P4) as (s' & E & Hall).
  destruct (Hall _ _ (demo_afterwards s')) as (info & file & _ & I2 & I3). by exists s, s', info, file.
Defined.

Lemma lost_message_fatal_witness :
  exists s s' info file, receive_all (flat_map sent_pair demo_before ++ RssiSnr (signal_bytes demo_lost.1) :: flat_map sent_pair demo_later) s = (Ok tt, s') /\
    makeCSV 1 (demo_after (db (screen_app s'))) = (Ok file, demo_after (db (screen_app s'))) /\
    process_data (new_String info) (new_String file) = None.
Proof.
  destruct demo_opened as (s & Ho & Hd & Ht). destruct demo_pairs as (P1 & P2 & P3 & P4 & P5).
  destruct (lost_message_fatal demo_form 2 1 12 1 (db demo_phone) s demo_accepted Ho Hd Ht demo_before demo_later
    demo_lost.1 demo_lost.2 P1 P2 P4) as (s' & E & Hall); [done|done|].
  destruct (Hall _ _ (demo_afterwards s')) as (info & file & _ & I2 & I3). by exists s, s', info, file.
Defined.
