(* ===== verification/Pitfalls.v ===== *)
(** * Settings the system cannot carry out

    Forms the app accepts and that never become an experiment: settings that
    start with the byte of a ping, and numbers the app itself cannot write
    into the settings. *)
From S2P Require Import Java Database Phone Customize StartScreen PhoneSettings.
From S2P Require Import Prelude KSem Platform Sx12xx Air TimeOnAir CLib Plan Messages Runs Lses LsesSweep LsesControl LsesExperiment.
From stdpp Require Import prelude list numbers strings gmap.
From Stdlib Require Import ZArith Lia.
Import WaitQ Sem.
Open Scope Z_scope.

(** What the waiting sender does with a ping. *)
Definition ping_events (cfg : lora_modem_config) (bytes : list Z) : list event :=
  RECV ++ CONFIG (with_tx true cfg) ++ SEND bytes 5 ++ CONFIG (with_tx false cfg).

Lemma wait_start_ping ch fuel s data pkt l1 t rs sn l2 :
  ready ch (pl s) -> count (data_sem (dev (pl s))) = 0 -> buf_wf MAX_DATA_LEN data ->
  (5 <= length pkt <= 20)%nat -> pkt !! 0%nat = Some 33 ->
  pending (pl s) = l1 ++ (t, IrqRxDone pkt rs sn) :: l2 ->
  Forall (fun e => is_rx e.2 = false) l1 -> Forall (fun e => e.1 <= t) l1 -> now (pl s) <= t ->
  exists data' q, exec_wait_start (S fuel) (Some ch) data s =
      exec_wait_start fuel (Some ch) data' (set_pl q (set_config (with_tx false (config s)) s)) /\
    ready ch q /\ buf_wf MAX_DATA_LEN data' /\ ran (ping_events (config s) (take 5 pkt)) (pl s) q.
Proof.
  intros Hr Hc [Wd1 Wd2] Hlen H33 Hp Hl1 Ht1 Hn. unfold exec_wait_start. cbn [loop].
  match goal with |- context [mbind ?f ?m] => set (k := f); set (round := m) end.
  assert (W : wp ran round s (fun ev x s' => exists data' q, x = inl data' /\ ev = ping_events (config s) (take 5 pkt) /\
    s' = set_pl q (set_config (with_tx false (config s)) s) /\ ready ch q /\ buf_wf MAX_DATA_LEN data')).
  { subst round k. destruct s as [[]]. lses_simpl. wp_step.
    eapply (wp_recv_packet ran ch MAX_DATA_LEN K_FOREVER _ l1 t pkt rs sn l2);
      [wp_ready|unfold MAX_DATA_LEN; lia|done|lia|by intros ms [=]|done..|].
    intros q Rq Tq Nq Pq Cq. wp_step. cbn [snd fst]. rewrite (take_ge pkt) by (unfold MAX_DATA_LEN; lia).
    unfold MAX_DATA_LEN in *. wp_rule wp_copy_in_in; [lia|lia|lia|]. intros data' Cd' Ld' Pd'.
    wp_step. wp_rule wp_rd_in; [apply in_bounds_spec; lia|].
    assert (H0 : peek data' 0 = 33).
    { rewrite Pd' by lia. destruct (Z.ltb_spec 0 (0 + Z.of_nat (length pkt))); [|lia]. cbn [Z.leb Z.compare andb].
      change (Z.to_nat (0 - 0)) with 0%nat. by rewrite H33. }
    rewrite H0. cbn [Z.eqb Pos.eqb]. wp_step. eapply (wp_switch_tx ran); [wp_ready|]. intros q2 R2 T2. wp_step.
    wp_rule wp_copy_out_in; [lia|lia|].
    assert (H5 : map (peek data') (seqZ 0 (Z.of_nat 5)) = take 5 pkt).
    { apply list_eq_same_length with (n := 5%nat); [rewrite length_take; lia|done|].
      intros i x y Hi Hx Hy. rewrite lookup_take_lt in Hy by done.
      change (map (peek data') (seqZ 0 5)) with (peek data' <$> seqZ 0 5) in Hx.
      rewrite list_lookup_fmap, lookup_seqZ_lt in Hx by lia. injection Hx as <-. rewrite Pd' by lia.
      destruct (Z.leb_spec 0 (0 + Z.of_nat i)), (Z.ltb_spec (0 + Z.of_nat i) (0 + Z.of_nat (length pkt))); try lia. cbn [andb].
      replace (Z.to_nat (0 + Z.of_nat i - 0)) with i by lia. by rewrite Hy. }
    rewrite H5. wp_step. wp_step. wp_step. wp_rule wp_wr_in; [apply in_bounds_spec; lia|].
    wp_step. eapply (wp_switch_tx ran); [wp_ready|]. intros q5 R5 T5. wp_step. lses_simpl.
    eexists _, q5. split; [done|]. split; [unfold ping_events; by rewrite ?app_nil_r|]. split; [done|]. split; [done|].
    apply poke_wf. split; unfold MAX_DATA_LEN; lia. }
  destruct W as (ev & x & s' & E & T & data' & q & -> & -> & -> & Rq & Wd').
  exists data', q. rewrite (bind_done _ _ _ _ _ E). done.
Qed.

(** A form with 33 messages per combination: the settings the
    app writes start with that number, which is the character '!' of a ping. A
    sender that receives them answers their first five bytes as it answers a
    ping, takes up none of the settings, and waits on. *)
Theorem settings_taken_for_ping ch fuel s data f g len dl l1 t rs sn l2 :
  let pkt := map u8 (settings_bytes f 33 g len dl) in
  ready ch (pl s) -> count (data_sem (dev (pl s))) = 0 -> buf_wf MAX_DATA_LEN data -> 0 <= dl < 65536 ->
  pending (pl s) = l1 ++ (t, IrqRxDone pkt rs sn) :: l2 ->
  Forall (fun e => is_rx e.2 = false) l1 -> Forall (fun e => e.1 <= t) l1 -> now (pl s) <= t ->
  exists data' q, exec_wait_start (S fuel) (Some ch) data s =
      exec_wait_start fuel (Some ch) data' (set_pl q (set_config (with_tx false (config s)) s)) /\
    ready ch q /\ buf_wf MAX_DATA_LEN data' /\
    ran (ping_events (config s) [33; u8 g; u8 len; if autoIncrement f then 1 else 0; u8 (encodeParamByte (frBits f))]) (pl s) q.
Proof.
  intros pkt Hr Hc Hd Hdl Hp Hl1 Ht1 Hn.
  destruct (wait_start_ping ch fuel s data pkt l1 t rs sn l2) as (data' & q & E & Rq & Wq & T); try done.
  { destruct (decimal_digits dl ltac:(lia)) as (_ & _ & _ & L). specialize (L 5 ltac:(lia) ltac:(lia)).
    unfold pkt, settings_bytes. rewrite length_map, length_app. cbn [length]. lia. }
  exists data', q. split_and!; try done. unfold pkt, settings_bytes in T. cbn [map app take] in T.
  by destruct (autoIncrement f).
Qed.

(** 33 messages of 12 bytes, 1 s apart. *)
Definition form33 : form :=
  mk_form (txt "33") (txt "1") (txt "12") true [] (txt "1") [] [] (txt "x") [true] [true] [true] [true] [true] false.

Lemma settings_taken_for_ping_witness :
  let s := demo_lses (demo_plat 0 [(70, IrqRxDone (map u8 (settings_bytes form33 33 1 12 10)) (-80) 7)]) in
  exists data' q, exec_wait_start 1 (Some SX127X) demo_settings s =
      exec_wait_start 0 (Some SX127X) data' (set_pl q (set_config (with_tx false (config s)) s)) /\ ready SX127X q.
Proof.
  intros s.
  destruct (settings_taken_for_ping SX127X 0 s demo_settings form33 1 12 10 [] 70 (-80) 7 []) as (data' & q & E & R & _).
  - apply demo_ready.
  - reflexivity.
  - split; by vm_compute.
  - lia.
  - reflexivity.
  - constructor.
  - constructor.
  - by vm_compute.
  - exists data', q. split; [exact E|exact R].
Defined.

(** ** Numbers that are no byte *)

Lemma parse_outside lo hi lo' hi' t n : parse lo hi t = Some n -> n < lo' \/ hi' < n -> parse lo' hi' t = None.
Proof.
  unfold parse. destruct (match t with [] => _ | c :: r => _ end) as [neg ds].
  destruct ds; [done|]. destruct (forallb _ _); [|done].
  set (v := if neg : bool then _ else _). clearbody v.
  destruct (_ && _); [|done]. intros [= ->] H.
  destruct (Z.leb_spec lo' n), (Z.leb_spec n hi'); try lia; done.
Qed.

Section crash.
Context {D : Type} `{SqliteLaws D}.

Lemma entry_parsed_throws {B} parser i t (k : Z -> J (start_screen D) B) s :
  StartScreen.entry s !! i = Some (Some t) -> parser t = None -> mbind k (entry_parsed parser i) s = (Throw NumberFormat, s).
Proof.
  intros E P. unfold entry_parsed. rewrite jbind_assoc, jbind_field, jbind_assoc, (jbind_orelse _ (Some t)) by done.
  by rewrite jbind_assoc, (jbind_orelse _ t), P.
Qed.

(** The form's check of the message length tests
    the number of messages instead of the upper bound, and the pause is not
    bounded at all: a form with a length above 127, or with a pause that is no
    signed byte, is accepted, logged and shown; starting it ends the app with
    an exception, and nothing is written to the receiver. *)
Theorem oversized_settings_crash f n g len id d0 (s : start_screen D) ht mt st h m sec P :
  PhoneSettings.accepted f n g len -> opened f n g id d0 s -> 127 < len \/ 127 < g \/ g < -128 ->
  parseInt ht = Some h -> parseInt mt = Some m -> parseInt st = Some sec ->
  0 <= h -> 0 <= m <= 59 -> 0 <= sec <= 59 -> Phone.config (screen_app s) !! 4%nat = Some P ->
  exists s', startExperiment ht mt st s = (Throw NumberFormat, s') /\ acts (screen_app s') = acts (screen_app s).
Proof.
  intros [_ N1 N2 T1 L1 _ _ _ _] [_ Hent _ _ _ _] Hbig Hh Hm Hs Hh0 Hm0 Hs0 Hc. unfold startExperiment.
  rewrite (jbind_orelse _ h), (jbind_orelse _ m), (jbind_orelse _ sec), jbind_assign by done.
  destruct (Z.ltb_spec 59 m), (Z.ltb_spec 59 sec), (Z.ltb_spec m 0), (Z.ltb_spec sec 0), (Z.ltb_spec h 0); try lia. cbn [orb].
  rewrite jbind_assign. unfold config_at. rewrite jbind_assoc, read_phone_ok, (jbind_orelse _ P) by done.
  match goal with |- context [mbind _ _ ?x] => set (s2 := x) end. exists s2. split; [|done].
  assert (Hx : forall x, createSettingsBytes x s2 = (Throw NumberFormat, s2)).
  { intros x. unfold createSettingsBytes.
    rewrite (entry_parsed_ok _ _ (noMsgs f) n); [|exact (Hent NUMBER_OF_MESSAGES ltac:(by apply Nat.leb_le))|eapply parse_other; [exact N1|lia]].
    destruct (decide (-128 <= g <= 127)).
    - rewrite (entry_parsed_ok _ _ (timeBetween f) g); [|exact (Hent TIME_BETWEEN_MSGS ltac:(by apply Nat.leb_le))|eapply parse_other; [exact T1|lia]].
      apply (entry_parsed_throws _ _ (msgLength f)); [exact (Hent MSG_LENGTH ltac:(by apply Nat.leb_le))|].
      eapply parse_outside; [exact L1|lia].
    - apply (entry_parsed_throws _ _ (timeBetween f)); [exact (Hent TIME_BETWEEN_MSGS ltac:(by apply Nat.leb_le))|].
      eapply parse_outside; [exact T1|lia]. }
  apply jbind_throw. by destruct (P <? 4).
Qed.

End crash.

(** Messages of 200 bytes. *)
Definition form200 : form :=
  mk_form (txt "2") (txt "1") (txt "200") true (txt "test") (txt "30") (txt "1") (txt "1") (txt "field")
    [true; true; false; false; false; false; false; false] [true; false] [true; false; false; false; false; false]
    [true; false; false; false] [false; false; false; false; false; false; false; true] false.

Lemma oversized_settings_crash_witness :
  let p := mk_phone (mk_tables {[Experiments := (1, [mk_row 1 (form_cells form200)])]}) [0; 0; 3; 0; 7] [] in
  exists s s', onCreate (new_screen 1 p) = (Ok tt, s) /\
    startExperiment (txt "0") (txt "1") (txt "5") s = (Throw NumberFormat, s') /\ acts (screen_app s') = acts (screen_app s).
Proof.
  intros p. assert (Ha : PhoneSettings.accepted form200 2 1 200) by (by split).
  destruct (onCreate_run form200 2 1 200 1 p (mk_row 1 (form_cells form200)) Ha) as (s & E & Ho & Hc & _); [done|done|apply form_held|].
  destruct (oversized_settings_crash form200 2 1 200 1 (db p) s (txt "0") (txt "1") (txt "5") 0 1 5 7 Ha Ho) as (s' & E' & A);
    [by left|reflexivity..|lia|lia|lia|by rewrite Hc|]. exists s, s'. split_and!; [exact E|exact E'|exact A].
Defined.
