(* ===== verification/PhoneScreens.v ===== *)
(** * The other screens of the app

    Preparing the sender for an experiment ([PrepareSenderScreen.java]), the
    overview of the experiments ([ExperimentOverviewScreen.java]), trying out
    the sender and the receiver by hand ([SenderExploreScreen.java],
    [ReceiverExploreScreen.java]), with the clock they show
    ([GUICountDownTimer.java]). *)
From S2P Require Import Prelude KSem Platform Sx12xx CLib Java Database Phone.
From stdpp Require Import prelude list numbers strings gmap.
From Stdlib Require Import ZArith Lia.
Open Scope Z_scope.

(** ** Locations *)

(** A location by its latitude, longitude and altitude as [Double.toString]
    writes them; none is known at first. *)
Definition location : Type := option (text * text * text).
Definition getLatitude (l : location) : text := match l with Some (x, _, _) => x | None => txt "-1" end.
Definition getLongitude (l : location) : text := match l with Some (_, x, _) => x | None => txt "-1" end.
Definition getAltitude (l : location) : text := match l with Some (_, _, x) => x | None => txt "-1" end.

(** ** PrepareSenderScreen *)
Module Prepare.

Record screen (D : Type) := mk_screen {
  experimentNumber : Z;
  connected : bool;
  ready : bool;
  isPrepared : bool;
  spinnersEnabled : bool;
  app : phone D }.
Arguments mk_screen {D}.
Arguments experimentNumber {D}.
Arguments connected {D}.
Arguments ready {D}.
Arguments isPrepared {D}.
Arguments spinnersEnabled {D}.
Arguments app {D}.

Section screen.
Context {D : Type} `{Sqlite D}.

Definition set_connected (c r : bool) (s : screen D) : screen D :=
  mk_screen (experimentNumber s) c r (isPrepared s) (spinnersEnabled s) (app s).
Definition set_prepared (x : bool) (s : screen D) : screen D :=
  mk_screen (experimentNumber s) (connected s) (ready s) x (spinnersEnabled s) (app s).
Definition enableSpinners (x : bool) (s : screen D) : screen D :=
  mk_screen (experimentNumber s) (connected s) (ready s) (isPrepared s) x (app s).

#[global] Instance screen_phone : HasPhone D (screen D) := {|
  phone_of := app;
  set_phone p s := mk_screen (experimentNumber s) (connected s) (ready s) (isPrepared s) (spinnersEnabled s) p;
  phone_set _ _ := eq_refl |}.

Abbreviation M A := (J (screen D) A).

Definition writeGPSDataToDB (lat lon alt : text) : M unit :=
  n ← field experimentNumber;
  on_db (setValueInExpInfo (Some lat) "sender_latitude" n);;
  on_db (setValueInExpInfo (Some lon) "sender_longitude" n);;
  on_db (setValueInExpInfo (Some alt) "sender_altitude" n).

Definition prepareSender (l : location) : M unit :=
  r ← field ready;
  if r : bool then
    c ← on_phone (field config);
    doing (WriteChar PrepareSenderChar c);;
    writeGPSDataToDB (getLatitude l) (getLongitude l) (getAltitude l);;
    toast "senders GPS data logged";;
    assign (set_prepared true);;
    assign (enableSpinners false)
  else toast "devices not ready".

Definition toStartExperiment (senderOrientation : text) : M unit :=
  p ← field isPrepared;
  (if p : bool then mret tt else writeGPSDataToDB (txt "-1") (txt "-1") (txt "-1"));;
  n ← field experimentNumber;
  on_db (setValueInExpInfo (Some senderOrientation) "sender_orientation" n);;
  doing (StartActivity "StartExperimentScreen" n).

Definition cancelPreparation : M unit :=
  r ← field ready;
  if r : bool then
    assign (set_prepared false);;
    doing (WriteChar PrepareSenderChar [-1]);;
    assign (enableSpinners true);;
    toast "sender preparation canceled"
  else toast "devices not ready".

(** The delayed [run] of the connection's broadcast receiver, and the other receiver. *)
Definition connStateRun (c : bool) : M unit :=
  if c then toast "connected to device";; assign (set_connected true true)
  else toast "disconnected";; assign (set_connected false false).

Definition generalReceived (status : Z) : M unit :=
  if status =? -2 then toast "Sender device ready" else mret tt.

End screen.
End Prepare.

(** ** ExperimentOverviewScreen *)
Module Overview.
Section overview.
Context {D : Type} `{Sqlite D}.
Abbreviation M A := (J (phone D) A).

(** The list that is shown and the numbers behind it. *)
Definition onStart : M (list text * list text) :=
  list1 ← on_db (getPrimaryColumn true);
  absoluteIds ← on_db (getPrimaryColumn false);
  mret (list1, absoluteIds).

(** The entry at position [i] tapped on. *)
Definition onItemClick (absoluteIds : list text) (i : nat) : M unit :=
  t ← orelse IndexOutOfBounds (absoluteIds !! i);
  id ← orelse NumberFormat (parseInt t);
  st ← on_db (getSingleExperimentInfoValue id STATE);
  st ← orelse NullPointer st;
  if text_eqb st READY then doing (StartActivity "PrepareSenderScreen" id)
  else doing (StartActivity "StartExperimentScreen" id).

(** The entry held down, and the dialog confirmed. *)
Definition onDelete (list1 absoluteIds : list text) (i : nat) : M unit :=
  t ← orelse IndexOutOfBounds (absoluteIds !! i);
  id ← orelse NumberFormat (parseInt t);
  on_db (deleteExperiment id);;
  name ← orelse IndexOutOfBounds (list1 !! i);
  doing (Toast (txt "Deleted experiment " ++ name ++ txt " and all associated data"));;
  doing FinishScreen;;
  doing (StartActivity "ExperimentOverviewScreen" (-1)).

End overview.
End Overview.

(** ** GUICountDownTimer *)
Module Countdown.

Record clock := mk_clock { hoursD : Z; minutesD : Z; secondsD : Z; ticks : Z }.

Definition start (hours minutes seconds : Z) : clock := mk_clock hours minutes seconds 1.


(** The text that is shown, and the clock afterwards. *)
Definition onTick (c : clock) : text * clock :=
  let remainingTime := time_text (hoursD c) (minutesD c) (secondsD c) in
  (remainingTime,
   if (secondsD c =? 0) && (minutesD c =? 0) && (0 <? hoursD c) then
     mk_clock (jint (hoursD c - 1)) 59 59 (jint (ticks c + 1))
   else if (secondsD c =? 0) && (0 <? minutesD c) then
     mk_clock (hoursD c) (jint (minutesD c - 1)) 59 (jint (ticks c + 1))
   else mk_clock (hoursD c) (minutesD c) (jint (secondsD c - 1)) (jint (ticks c + 1))).

(** A number of ticks. *)
Fixpoint tick (n : nat) (c : clock) : clock := match n with O => c | S n' => tick n' (onTick c).2 end.

(** The clock shows hours, minutes and seconds of [t]. *)
Definition at_time (t : Z) (c : clock) : Prop :=
  hoursD c = t / 3600 /\ minutesD c = t mod 3600 / 60 /\ secondsD c = t mod 60.

Lemma onTick_time t c :
  0 < t < 2 ^ 31 -> at_time t c -> at_time (t - 1) (onTick c).2.
Proof.
  intros Ht (Hh & Hm & Hs). unfold onTick. cbn [snd].
  destruct (Z.eqb_spec (secondsD c) 0), (Z.eqb_spec (minutesD c) 0), (Z.ltb_spec 0 (hoursD c)), (Z.ltb_spec 0 (minutesD c));
    cbn [andb]; unfold at_time; cbn [hoursD minutesD secondsD]; rewrite ?Hh, ?Hm, ?Hs in *; rewrite ?jint_id;
    Z.to_euclidean_division_equations; lia.
Qed.

Lemma tick_time n t c :
  Z.of_nat n <= t < 2 ^ 31 -> at_time t c -> at_time (t - Z.of_nat n) (tick n c).
Proof.
  revert t c. induction n as [|n IH]; intros t c Hn Hc; [by rewrite Z.sub_0_r|]. cbn [tick].
  replace (t - Z.of_nat (S n)) with (t - 1 - Z.of_nat n) by lia. apply IH; [lia|]. apply onTick_time; [lia|done].
Qed.

End Countdown.

(** ** SenderExploreScreen *)
Module SenderExplore.

(** [looping]: the buttons as [adjustGUIToLooping] leaves them. *)
Record screen (D : Type) := mk_screen {
  connected : bool;
  ready : bool;
  pingDisconnect : bool;
  loopSeconds : Z;
  looping : bool;
  timer : option (Z * Countdown.clock);
  app : phone D }.
Arguments mk_screen {D}.
Arguments connected {D}.
Arguments ready {D}.
Arguments pingDisconnect {D}.
Arguments loopSeconds {D}.
Arguments looping {D}.
Arguments timer {D}.
Arguments app {D}.

Section screen.
Context {D : Type}.

Definition set_connected (x : bool) (s : screen D) : screen D :=
  mk_screen x (ready s) (pingDisconnect s) (loopSeconds s) (looping s) (timer s) (app s).
Definition set_ready (x : bool) (s : screen D) : screen D :=
  mk_screen (connected s) x (pingDisconnect s) (loopSeconds s) (looping s) (timer s) (app s).
Definition set_pingDisconnect (x : bool) (s : screen D) : screen D :=
  mk_screen (connected s) (ready s) x (loopSeconds s) (looping s) (timer s) (app s).
Definition set_loopSeconds (x : Z) (s : screen D) : screen D :=
  mk_screen (connected s) (ready s) (pingDisconnect s) x (looping s) (timer s) (app s).
Definition set_timer (x : option (Z * Countdown.clock)) (s : screen D) : screen D :=
  mk_screen (connected s) (ready s) (pingDisconnect s) (loopSeconds s) (looping s) x (app s).

#[global] Instance screen_phone : HasPhone D (screen D) := {|
  phone_of := app;
  set_phone p s := mk_screen (connected s) (ready s) (pingDisconnect s) (loopSeconds s) (looping s) (timer s) p;
  phone_set _ _ := eq_refl |}.

Abbreviation M A := (J (screen D) A).

Definition not_ready : M unit := toast "devices not ready".

Definition changeConfig : M unit :=
  r ← field ready;
  if r : bool then c ← on_phone (field config); doing (WriteChar ChangeConfigChar c) else not_ready.

Definition sendOrPing (msg : text) : M unit :=
  r ← field ready;
  if r : bool then
    if (18 <? length msg)%nat then toast "maximum 18 characters"
    else doing (WriteChar SendCommandChar (getBytes msg))
  else not_ready.

(** The text of [loraMsgEdit] is an argument. *)
Definition transmitSendCommand (edit_msg : text) : M unit := sendOrPing edit_msg.

Definition onLongClick (edit_msg : text) : M unit :=
  toast "pinged receiver";; assign (set_pingDisconnect true);; sendOrPing (txt "&" ++ edit_msg).

(** [startsWith] for a single character. *)
Definition startsWith (c : Z) (t : text) : bool := match t with x :: _ => x =? c | [] => false end.
Definition hasSpecialCharacters (edit_msg : text) : bool :=
  startsWith 33 edit_msg || startsWith 35 edit_msg || startsWith 36 edit_msg.

(** Whether the first dialog opens. *)
Definition transmitSendLoopCommand (edit_msg : text) : M bool :=
  r ← field ready;
  if r : bool then
    if hasSpecialCharacters edit_msg then
      toast "message field may not start with '!', '#' or '$' for loops";; mret false
    else mret true
  else not_ready;; mret false.

Definition adjustGUIToLooping (b : bool) : M unit :=
  assign (fun s => mk_screen (connected s) (ready s) (pingDisconnect s)
    (if b then loopSeconds s else 0) b (timer s) (app s)).

Definition cancelSendLoopCommand : M unit :=
  adjustGUIToLooping false;; doing (WriteChar LoopCommandChar (getBytes (txt "$"))).

(** A running timer is replaced. *)
Definition startTimers (seconds : Z) : M unit :=
  let remainder := Z.rem seconds 3600 in
  assign (set_timer (Some (jint (seconds * 1000),
    Countdown.start (Z.quot seconds 3600) (Z.quot remainder 60) (Z.rem remainder 60)))).

(** [onFinish]. *)
Definition timer_finished : M unit :=
  doing (SetText "htext" (txt "00 : 00 : 00"));; adjustGUIToLooping false.

(** [onClick] of the first dialog, which opens the second one, and of the second one. *)
Definition confirm_number (num : text) : M unit :=
  doing (Toast (txt "Device will send " ++ num ++ txt " messages"));;
  doing (WriteChar LoopCommandChar (getBytes (txt "!" ++ num)));;
  v ← orelse NumberFormat (parseInt num);
  l ← field loopSeconds;
  assign (set_loopSeconds (jint (l + jint (v - 1)))).

Definition confirm_time (num : text) : M unit :=
  doing (Toast (txt "Time between transmissions is " ++ num ++ txt " seconds"));;
  doing (WriteChar LoopCommandChar (getBytes (txt "#" ++ num)));;
  v ← orelse NumberFormat (parseInt num);
  l ← field loopSeconds;
  assign (set_loopSeconds (jint (l * v)));;
  adjustGUIToLooping true.

(** The delayed [run], 200 ms later. *)
Definition loop_run (edit_msg : text) : M unit :=
  doing (WriteChar LoopCommandChar (getBytes edit_msg));;
  l ← field loopSeconds;
  startTimers l.

Definition connStateReceived (c : bool) : M unit :=
  assign (set_connected c);;
  p ← field pingDisconnect;
  if c then (if p : bool then mret tt else toast "connected to device")
  else (if p : bool then mret tt else toast "disconnected");; assign (set_ready false).

Definition generalReceived (status : Z) : M unit :=
  if status =? -2 then
    p ← field pingDisconnect;
    (if p : bool then mret tt else toast "LoRa parameters consistent");;
    assign (set_ready true)
  else
    (if status =? -3 then toast "correct response received"
     else if status =? -4 then toast "response received but did not match"
     else if status =? -5 then toast "no response received"
     else mret tt);;
    assign (set_pingDisconnect false).

End screen.
End SenderExplore.

(** ** ReceiverExploreScreen *)
Module ReceiverExplore.

(** [units]: seconds, minutes, hours, ticks; the timer runs when it is there. *)
Record screen (D : Type) := mk_screen {
  connected : bool;
  ready : bool;
  colorToggle : bool;
  units : option (list Z);
  time : text;
  app : phone D }.
Arguments mk_screen {D}.
Arguments connected {D}.
Arguments ready {D}.
Arguments colorToggle {D}.
Arguments units {D}.
Arguments time {D}.
Arguments app {D}.

Section screen.
Context {D : Type}.

Definition set_connected (c r : bool) (s : screen D) : screen D :=
  mk_screen c r (colorToggle s) (units s) (time s) (app s).
Definition set_units (x : option (list Z)) (s : screen D) : screen D :=
  mk_screen (connected s) (ready s) (colorToggle s) x (time s) (app s).
Definition toggle (s : screen D) : screen D :=
  mk_screen (connected s) (ready s) (negb (colorToggle s)) (units s) (time s) (app s).
Definition set_time (x : text) (s : screen D) : screen D :=
  mk_screen (connected s) (ready s) (colorToggle s) (units s) x (app s).

#[global] Instance screen_phone : HasPhone D (screen D) := {|
  phone_of := app;
  set_phone p s := mk_screen (connected s) (ready s) (colorToggle s) (units s) (time s) p;
  phone_set _ _ := eq_refl |}.

Abbreviation M A := (J (screen D) A).

Definition changeConfig : M unit :=
  r ← field ready;
  if r : bool then c ← on_phone (field config); doing (WriteChar ChangeConfigChar c)
  else toast "devices not ready".

Definition connStateReceived (c : bool) : M unit :=
  r ← field ready;
  if c then assign (set_connected true r);; toast "connected to device"
  else assign (set_connected false r);; toast "disconnected";; assign (set_connected false false).

Definition rssiReceived (bytes : list Z) : M unit :=
  b1 ← orelse IndexOutOfBounds (bytes !! 1%nat);
  doing (SetText "rssi_textview" (txt "RSSI: -" ++ decimal (makeByteUnsigned b1)));;
  b2 ← orelse IndexOutOfBounds (bytes !! 2%nat);
  doing (SetText "snr_textview" (txt "SNR: " ++ decimal b2)).

(** A message restarts the clock. *)
Definition msgReceived (bytes : list Z) : M unit :=
  assign toggle;;
  doing (SetText "msg_textview" (new_String bytes));;
  doing (SetText "time_textview" (txt "00 : 00 : 00"));;
  assign (set_units (Some [0; 0; 0; 0])).

Definition manageTimer : M unit :=
  u ← field units;
  u ← orelse NullPointer u;
  t ← orelse IndexOutOfBounds (u !! 3%nat);
  let t := jint (t + 1) in
  let s := Z.rem t 60 in let m := Z.quot (Z.rem t 3600) 60 in let h := Z.quot t 3600 in
  assign (set_units (Some [s; m; h; t]));;
  let x := time_text h m s in
  assign (set_time x);;
  doing (SetText "time_textview" x).

Definition generalReceived (status : Z) : M unit :=
  if status =? -2 then
    toast "LoRa parameters consistent";;
    assign (fun s => set_connected (connected s) true s)
  else mret tt.

End screen.
End ReceiverExplore.
