(* ===== verification/PhoneFlow.v ===== *)
(** * From screen to screen

    What the screens before an experiment leave of it: preparing the sender
    adds to the experiment's row and does not change the form in it, and the
    overview deletes the experiment that was chosen and nothing else. *)
From S2P Require Import Prelude KSem Platform Sx12xx Air CLib Plan Messages Runs Lres LresEval LresWindow LresSweep.
From S2P Require Import Java Database Phone Customize StartScreen PhoneSettings Settings PhoneScreens.
From stdpp Require Import prelude list numbers strings gmap.
From Stdlib Require Import ZArith Lia.
Open Scope Z_scope.

(** Filtering out one key. *)
Lemma filter_one i r (rows : list row) :
  rows !! i = Some r -> NoDup (map r_id rows) ->
  List.filter (fun x => negb (r_id x =? r_id r)) rows = take i rows ++ drop (S i) rows.
Proof.
  revert i. induction rows as [|x rows IH]; intros i Hi Hn; [done|]. cbn [map] in Hn. apply NoDup_cons in Hn as [Hx Hn].
  destruct i as [|i].
  - injection Hi as ->. cbn [List.filter]. rewrite Z.eqb_refl. cbn [negb take drop app]. rewrite drop_0.
    apply forallb_filter_id, forallb_forall. intros y Hy. destruct (Z.eqb_spec (r_id y) (r_id r)) as [E|]; [|done].
    exfalso. apply Hx. rewrite <- E. apply list_elem_of_In. by apply in_map.
  - cbn [lookup list_lookup] in Hi. cbn [List.filter]. destruct (Z.eqb_spec (r_id x) (r_id r)) as [E|].
    + exfalso. apply Hx. rewrite E. apply list_elem_of_In, in_map, list_elem_of_In. by eapply list_elem_of_lookup_2.
    + cbn [negb take drop app]. by rewrite (IH i).
Qed.

Section flow.
Context {D : Type} `{SqliteLaws D}.

(** ** Preparing the sender *)

(** A column that is not of the form. *)
Definition later_column (c : string) : Prop := Forall (fun x => x <> c) (take 17 exp_columns).

Lemma kept_update f id c v (p : phone D) :
  kept f id p -> later_column c -> kept f id (set_db (sql_update Experiments c v id (db p)) p).
Proof.
  intros (r & Hr & Hf) Hc. exists (update_cells c v id r). split; [|by apply update_held].
  exact (experiment_row_update c v id _ _ _ Hr).
Qed.

Lemma kept_act f id a (p : phone D) : kept f id p -> kept f id (add_act a p).
Proof. done. Qed.

(** What can happen on the screen. *)
Inductive tap := TapPrepare (l : location) | TapCancel | TapNext (orientation : text) | TapConnection (c : bool) | TapStatus (st : Z).
Definition tapped (t : tap) : J (Prepare.screen D) unit :=
  match t with
  | TapPrepare l => Prepare.prepareSender l
  | TapCancel => Prepare.cancelPreparation
  | TapNext o => Prepare.toStartExperiment o
  | TapConnection c => Prepare.connStateRun c
  | TapStatus st => Prepare.generalReceived st
  end.
Fixpoint taps (l : list tap) : J (Prepare.screen D) unit :=
  match l with [] => mret tt | t :: l' => tapped t;; taps l' end.

(** What may be written to the sender. *)
Definition prepare_write (config : list Z) (a : act) : Prop :=
  match a with WriteChar c b => c = PrepareSenderChar /\ (b = config \/ b = [-1]) | _ => True end.

Definition prepared (f : form) (id : Z) (config : list Z) (s : Prepare.screen D) : Prop :=
  Prepare.experimentNumber s = id /\ kept f id (Prepare.app s) /\ Phone.config (Prepare.app s) = config /\
  Forall (prepare_write config) (acts (Prepare.app s)).

Lemma prepared_act f id cfg a (s : Prepare.screen D) :
  prepared f id cfg s -> prepare_write cfg a -> prepared f id cfg (set_phone (add_act a (phone_of s)) s).
Proof. intros (H1 & H2 & H3 & H4) Ha. split_and!; try done. cbn. apply Forall_app. split; [done|]. by constructor. Qed.

Lemma prepared_toast f id cfg t (s : Prepare.screen D) :
  prepared f id cfg s -> prepared f id cfg (set_phone (add_act (Toast t) (phone_of s)) s).
Proof. intros Hp. by apply prepared_act. Qed.

Lemma prepared_gps f id cfg lat lon alt (s : Prepare.screen D) :
  prepared f id cfg s -> exists s', Prepare.writeGPSDataToDB lat lon alt s = (Ok tt, s') /\ prepared f id cfg s'.
Proof.
  intros (H1 & H2 & H3 & H4). unfold Prepare.writeGPSDataToDB. rewrite jbind_field, H1. eexists. split; [reflexivity|].
  split; [done|]. split; [|done]. cbn. apply (kept_update _ _ _ _ (set_db _ _)); [|by repeat constructor].
  apply (kept_update _ _ _ _ (set_db _ _)); [|by repeat constructor]. apply kept_update; [done|]. by repeat constructor.
Qed.

Lemma tapped_prepared f id cfg t (s : Prepare.screen D) :
  prepared f id cfg s -> exists s', tapped t s = (Ok tt, s') /\ prepared f id cfg s'.
Proof.
  intros Hp. pose proof Hp as (H1 & _ & H3 & _). destruct t as [l| |o|c|st]; cbn [tapped].
  - unfold Prepare.prepareSender, toast. rewrite jbind_field. destruct (Prepare.ready s).
    + rewrite read_phone_ok, doing_ok. set (s1 := set_phone _ _).
      assert (P1 : prepared f id cfg s1) by (apply prepared_act; [done|]; cbn; rewrite H3; auto).
      destruct (prepared_gps f id cfg (getLatitude l) (getLongitude l) (getAltitude l) s1 P1) as (s2 & E & P2).
      rewrite (jbind_ok _ _ _ _ _ E), doing_ok. eexists. split; [reflexivity|]. exact (prepared_toast _ _ _ _ _ P2).
    + eexists. split; [reflexivity|]. exact (prepared_toast _ _ _ _ _ Hp).
  - unfold Prepare.cancelPreparation, toast. rewrite jbind_field. destruct (Prepare.ready s).
    + rewrite jbind_assign, doing_ok, jbind_assign. eexists. split; [reflexivity|].
      refine (prepared_toast _ _ _ _ _ _).
      apply (prepared_act _ _ _ (WriteChar PrepareSenderChar [-1])) in Hp; [|cbn; auto]. by destruct Hp as (? & ? & ? & ?).
    + eexists. split; [reflexivity|]. exact (prepared_toast _ _ _ _ _ Hp).
  - unfold Prepare.toStartExperiment. rewrite jbind_field.
    assert (Hg : exists s1, (if Prepare.isPrepared s then mret tt else Prepare.writeGPSDataToDB (txt "-1") (txt "-1") (txt "-1")) s = (Ok tt, s1) /\
      prepared f id cfg s1) by (destruct (Prepare.isPrepared s); [by exists s|by apply prepared_gps]).
    destruct Hg as (s1 & E & (K1 & K2 & K3 & K4)). rewrite (jbind_ok _ _ _ _ _ E), jbind_field, K1. eexists. split; [reflexivity|].
    apply (prepared_act _ _ _ (StartActivity "StartExperimentScreen" id)); [|done].
    split; [done|]. split; [|done]. cbn. apply kept_update; [done|]. by repeat constructor.
  - unfold Prepare.connStateRun, toast. destruct c; rewrite doing_ok; (eexists; split; [reflexivity|]);
      exact (prepared_toast _ _ _ _ _ Hp).
  - unfold Prepare.generalReceived, toast. destruct (st =? -2); [|by exists s].
    eexists. split; [reflexivity|]. exact (prepared_toast _ _ _ _ _ Hp).
Qed.


(** ** Deleting an experiment *)

(** The overview shows the experiments in the order of
    their rows. Confirming the deletion of the entry at position [i] deletes
    the row behind that entry and the results of that experiment; all other
    rows, in their order, and the results of all other experiments stay. *)
Theorem deletion_exact i r rows res (p : phone D) :
  sql_select (db p) Experiments = Some rows -> rows !! i = Some r -> NoDup (map r_id rows) ->
  0 <= r_id r < 2 ^ 31 -> sql_select (db p) (Experiment (decimal (r_id r))) = Some res ->
  exists list1 ids p', Overview.onStart p = (Ok (list1, ids), p) /\
    list1 = map (fun x => txt "Experiment " ++ decimal (r_id x)) rows /\
    Overview.onDelete list1 ids i p = (Ok tt, p') /\
    sql_select (db p') Experiments = Some (take i rows ++ drop (S i) rows) /\
    sql_select (db p') (Experiment (decimal (r_id r))) = Some [] /\
    forall t, t <> Experiments -> t <> Experiment (decimal (r_id r)) -> sql_select (db p') t = sql_select (db p) t.
Proof.
  intros Hrows Hi Hnd Hid Hres. set (id := r_id r) in *. destruct p as [d c a]. cbn [db] in *.
  assert (Eq : forall w, getPrimaryColumn w d = (Ok (map (fun x => (if w then txt "Experiment " else []) ++ decimal (r_id x)) rows), d)).
  { intros w. unfold getPrimaryColumn. by rewrite (query_ok _ _ _ _ Hrows). }
  set (d1 := sql_delete Experiments (fun r => r_id r =? id) d).
  set (d2 := sql_delete (Experiment (decimal id)) (fun _ => true) d1).
  assert (S1 : forall t, sql_select d1 t = if decide (Experiments = t) then Some (take i rows ++ drop (S i) rows) else sql_select d t).
  { intros t. unfold d1. rewrite select_delete. case_decide; [|done]. rewrite Hrows. cbn [fmap option_fmap option_map]. f_equal. exact (filter_one i r rows Hi Hnd). }
  assert (S2 : forall t, sql_select d2 t = if decide (Experiment (decimal id) = t) then Some [] else sql_select d1 t).
  { intros t. unfold d2. rewrite select_delete. case_decide as E; [|done]. rewrite S1, decide_False, Hres by (intros E'; by apply (Experiment_ne id)).
    cbn. by rewrite filter_false. }
  eexists _, (map (fun x => decimal (r_id x)) rows), (add_act (StartActivity "ExperimentOverviewScreen" (-1)) (add_act FinishScreen
    (add_act (Toast (txt "Deleted experiment " ++ (txt "Experiment " ++ decimal id) ++ txt " and all associated data")) (mk_phone d2 c a)))).
  split_and!; [|reflexivity|..].
  - unfold Overview.onStart. etrans; [exact (on_db_ok _ _ (mk_phone d c a) _ _ (Eq true))|]. etrans; [exact (on_db_ok _ _ (mk_phone d c a) _ _ (Eq false))|done].
  - assert (Ei : map (fun x => decimal (r_id x)) rows !! i = Some (decimal id)).
    { change (map ?f ?l) with (f <$> l). by rewrite list_lookup_fmap, Hi. }
    assert (El : map (fun x => txt "Experiment " ++ decimal (r_id x)) rows !! i = Some (txt "Experiment " ++ decimal id)).
    { change (map ?f ?l) with (f <$> l). by rewrite list_lookup_fmap, Hi. }
    unfold Overview.onDelete. rewrite (jbind_orelse _ (decimal id)), (jbind_orelse _ id) by (done || (apply parse_decimal; lia)).
    assert (Ed : deleteExperiment id d = (Ok tt, d2)).
    { unfold deleteExperiment. rewrite jbind_assign, jbind_field, (jbind_orelse _ res); [done|].
      change (sql_select d1 (Experiment (decimal id)) = Some res). rewrite S1, decide_False; [done|]. intros E. by apply (Experiment_ne id). }
    etrans; [exact (on_db_ok _ _ (mk_phone d c a) _ _ Ed)|]. rewrite (jbind_orelse _ (txt "Experiment " ++ decimal id)) by done. done.
  - cbn [db add_act]. rewrite S2, decide_False by apply Experiment_ne. by rewrite S1, decide_True.
  - cbn [db add_act]. by rewrite S2, decide_True.
  - intros t H1 H2. cbn [db add_act]. by rewrite S2, decide_False, S1, decide_False.
Qed.

End flow.


Lemma deletion_exact_witness :
  let p := mk_phone (mk_tables (<[Experiment (decimal 2) := (0, [])]> {[Experiments := (3, [mk_row 1 ∅; mk_row 2 ∅; mk_row 3 ∅])]})) [0; 0; 3; 0; 7] [] in
  exists list1 ids p', Overview.onDelete list1 ids 1 p = (Ok tt, p') /\
    sql_select (db p') Experiments = Some [mk_row 1 ∅; mk_row 3 ∅].
Proof.
  intros p. destruct (deletion_exact 1 (mk_row 2 ∅) [mk_row 1 ∅; mk_row 2 ∅; mk_row 3 ∅] [] p) as (list1 & ids & p' & _ & _ & E & S & _);
    [reflexivity|reflexivity|by apply (bool_decide_unpack _)|cbn; lia|reflexivity|].
  exists list1, ids, p'. split; [exact E|exact S].
Defined.
