(* ===== verification/LoopCommand.v ===== *)
(** * The sender's loop command

    [loop_command_cb] (lses.c): the number of messages, the pause and the
    message of a loop come in three writes; the third starts the thread. *)
From S2P Require Import Prelude KSem Platform Sx12xx TimeOnAir CLib Plan Messages Runs Lses LsesSweep LsesControl.
From stdpp Require Import prelude list numbers strings gmap.
From Stdlib Require Import ZArith Lia.
Open Scope Z_scope.

(** A buffer that a write left: the bytes, and something after them that is no digit. *)
Definition written (bytes : list Z) (b : cbuf) : Prop :=
  csize b = Z.of_nat (length bytes) /\ (length bytes <= length (cmem b))%nat /\
  (forall i, 0 <= i < Z.of_nat (length bytes) -> peek b i = default 0 (bytes !! Z.to_nat i)) /\
  is_digit (peek b (Z.of_nat (length bytes))) = false.

Lemma written_padded w : written w (mk_buf (Z.of_nat (length w)) (w ++ [0])).
Proof.
  split; [done|]. cbn [cmem csize]. rewrite length_app. split; [lia|]. unfold peek. cbn [cmem]. split.
  - intros i Hi. destruct (Z.ltb_spec i 0); [lia|]. by rewrite lookup_app_l by lia.
  - destruct (Z.ltb_spec (Z.of_nat (length w)) 0); [lia|]. by rewrite Nat2Z.id, lookup_app_r, Nat.sub_diag by lia.
Qed.

Lemma written_number c ds b :
  written (c :: ds) b -> ds <> [] -> Forall (fun c => is_digit c = true) ds ->
  peek b 0 = c /\ 0 < csize b /\ number_at b 1 ds.
Proof.
  intros (Hs & Hl & Hp & He) Hne Hd. cbn [length] in *. split; [by rewrite Hp by lia|]. split; [lia|].
  unfold number_at. split_and!; try done; try lia.
  - intros i Hi. rewrite Hp by lia. by replace (Z.to_nat (1 + i)) with (S (Z.to_nat i)) by lia.
  - replace (1 + Z.of_nat (length ds)) with (Z.of_nat (S (length ds))) by lia. done.
Qed.

Section callbacks.
Context (ch : lora_chip).

(** What follows a run of a callback. *)
Definition kept_running (s s' : lses) : Prop :=
  ready ch (pl s') /\ threads (pl s') = threads (pl s) /\ cur (pl s') = cur (pl s).

Lemma loop_atoi b ds s :
  ready ch (pl s) -> number_at b 1 ds ->
  exists q, liftp (atoi "buf" b 1) s = (Done (Z.min INT_MAX (digits_value ds)), set_pl q s) /\ kept_running s (set_pl q s).
Proof.
  intros Hr Hn. exists (read_end "buf" b (1 + Z.of_nat (length ds)) (pl s)). split.
  - unfold liftp. cbn [plat_of lses_plat]. by rewrite (atoi_digits "buf" b 1 ds).
  - unfold kept_running, read_end. cbn. destruct (in_bounds _ _); [done|]. split; [by apply ready_emit|done].
Qed.

(** [!] and a number, [#] and a number. *)
Lemma loop_number_cb b ds len s :
  ready ch (pl s) -> written (33 :: ds) b -> ds <> [] -> Forall (fun c => is_digit c = true) ds ->
  exists q, loop_command_cb b len s =
    (Done 0, set_number_of_messages (u16 (Z.min INT_MAX (digits_value ds))) (set_pl q s)) /\ kept_running s (set_pl q s).
Proof.
  intros Hr Hw Hne Hd. destruct (written_number _ _ _ Hw Hne Hd) as (H0 & Hc & Hn).
  destruct (loop_atoi b ds s Hr Hn) as (q & E & K). exists q. split; [|done].
  unfold loop_command_cb. rewrite step_rd, H0 by lia. cbn [Z.eqb Pos.eqb].
  erewrite bind_done; [|rewrite (bind_done _ _ _ _ _ E); reflexivity]. done.
Qed.

Lemma loop_pause_cb b ds len s :
  ready ch (pl s) -> written (35 :: ds) b -> ds <> [] -> Forall (fun c => is_digit c = true) ds ->
  exists q, loop_command_cb b len s =
    (Done 0, set_time_between_msgs (u8 (u16 (Z.min INT_MAX (digits_value ds)))) (set_pl q s)) /\ kept_running s (set_pl q s).
Proof.
  intros Hr Hw Hne Hd. destruct (written_number _ _ _ Hw Hne Hd) as (H0 & Hc & Hn).
  destruct (loop_atoi b ds s Hr Hn) as (q & E & K). exists q. split; [|done].
  unfold loop_command_cb. rewrite step_rd, H0 by lia. cbn [Z.eqb Pos.eqb].
  erewrite bind_done; [|rewrite (bind_done _ _ _ _ _ E); reflexivity]. done.
Qed.

(** Any other first byte: the message, and a new thread. *)
Lemma loop_message_cb b c msg s :
  ready ch (pl s) -> written (c :: msg) b -> c <> 33 -> c <> 35 -> c <> 36 ->
  (length (c :: msg) <= length (loop_data s))%nat ->
  thread_data0 <> cur (pl s) -> thread0_tid s = Some thread_data0 \/ thread0_tid s = None /\ threads (pl s) !! thread_data0 = None ->
  exists s', loop_command_cb b (Z.of_nat (length (c :: msg))) s = (Done 0, s') /\
    take (length (c :: msg)) (loop_data s') = c :: msg /\ loop_data_length s' = Z.of_nat (length (c :: msg)) /\
    number_of_messages s' = number_of_messages s /\ time_between_msgs s' = time_between_msgs s /\
    thread0_tid s' = Some thread_data0 /\ threads (pl s') = <[thread_data0 := E_exec_loop]> (threads (pl s)).
Proof.
  intros Hr (Hs & Hl & Hp & _) H33 H35 H36 Hld Hcur Ht. set (bytes := c :: msg) in *.
  assert (H0 : peek b 0 = c) by (rewrite Hp by (cbn; lia); done).
  assert (Hb : map (peek b) (seqZ 0 (Z.of_nat (length bytes))) = bytes).
  { apply list_eq_same_length with (n := length bytes); [done|rewrite length_map, length_seqZ; lia|].
    intros i x y Hi Hx Hy. change (map (peek b) ?l) with (peek b <$> l) in Hx.
    rewrite list_lookup_fmap, lookup_seqZ_lt in Hx by lia. injection Hx as <-. rewrite Hp by lia.
    replace (Z.to_nat (0 + Z.of_nat i)) with i by lia. by rewrite Hy. }
  assert (W : wp acted (loop_command_cb b (Z.of_nat (length bytes))) s (fun _ r s' => r = 0 /\
    take (length bytes) (loop_data s') = bytes /\ loop_data_length s' = Z.of_nat (length bytes) /\
    number_of_messages s' = number_of_messages s /\ time_between_msgs s' = time_between_msgs s /\
    thread0_tid s' = Some thread_data0 /\ threads (pl s') = <[thread_data0 := E_exec_loop]> (threads (pl s)))).
  { destruct s as [[]]. unfold loop_command_cb. wp_step. wp_rule wp_rd_in; [apply in_bounds_spec; cbn in Hs; lia|].
    rewrite H0. destruct (Z.eqb_spec c 33), (Z.eqb_spec c 35), (Z.eqb_spec c 36); try done. wp_step. wp_step. wp_step. wp_step.
    wp_rule wp_copy_out_in; [lia|lia|]. rewrite Z2Nat.id by lia. rewrite Hb. wp_step.
    lses_simpl. wp_rule wp_copy_in_in; [lia|cbn [csize static_buf]; lia|cbn; lia|]. intros b' Cb' Lb' Pb'. wp_step. wp_step.
    wp_step. wp_step. wp_step. eapply (wp_abort_tid ch _ thread_data0); [wp_ready|done|done|]. intros q Rq Aq Tq. lses_simpl.
    wp_step. eapply (wp_create ch); [done|cbn; rewrite Tq; by simplify_map_eq|].
    intros q' Rq' Aq' Tq'. wp_step. wp_step. lses_simpl. cbn. split_and!; try done.
    - cbn [cmem static_buf] in Lb'. change (take (length bytes) (cmem b') = bytes). apply list_eq_same_length with (n := length bytes); [done|rewrite length_take; lia|].
      intros i x y Hi Hx Hy. rewrite lookup_take_lt in Hx by done. specialize (Pb' (Z.of_nat i) ltac:(lia)).
      destruct (Z.leb_spec 0 (Z.of_nat i)), (Z.ltb_spec (Z.of_nat i) (0 + Z.of_nat (length bytes))); try lia. cbn [andb] in Pb'.
      rewrite Z.sub_0_r, Nat2Z.id, Hy in Pb'. unfold peek in Pb'. destruct (Z.ltb_spec (Z.of_nat i) 0); [lia|].
      rewrite Nat2Z.id, Hx in Pb'. done.
    - cbn in Tq'. rewrite Tq'. cbn. by rewrite Tq, insert_delete_eq. }
  destruct W as (l & r & s' & E & _ & -> & H). by exists s'.
Qed.

End callbacks.
