(* ===== verification/Explore.v ===== *)
(** * Exploring by hand

    What the app's other screens do on the devices: the spinners' values and
    the radio's configuration, and the loop of messages. *)
From S2P Require Import Java Database Phone StartScreen PhoneScreens.
From S2P Require Import Prelude KSem Platform Sx12xx Air CLib Plan Messages Runs Lses LsesSweep LsesControl LoopCommand.
From S2P Require Import LresSweep Lres LresEval LresWindow LresControl Settings.
From stdpp Require Import prelude list numbers strings gmap.
From Stdlib Require Import ZArith Lia.
Open Scope Z_scope.

(** ** The receiver's configuration *)

Section receiver.
Context (bytes : list Z) (Hb : length bytes = 5%nat).
Abbreviation buf := (static_buf bytes).

Lemma receiver_change_config tx (s : lres) :
  ready SX127X (pl s) -> 0 <= peek buf 0 < 8 ->
  exists q, Lres.change_config "buf" buf tx s =
    (Done tt, set_pl q (set_config (combo_config 8 tx (mk_combo (peek buf 0) (peek buf 1) (peek buf 2) (peek buf 3) (peek buf 4))) s)) /\
    ready SX127X q /\ threads q = threads (pl s) /\ cur q = cur (pl s).
Proof.
  intros Hr H0. destruct (init_run SX127X (pl s) eq_refl Hr) as (q & Eq & Wq & _ & Rq & _).
  set (cfg := combo_config 8 tx _).
  destruct (config_run SX127X cfg q) as (q' & Eq' & Tq & Rq'). exists q'.
  assert (E1 : liftp (lora_init (Some SX127X)) (set_config cfg s) = (Done 0, set_pl q (set_config cfg s))).
  { unfold liftp. cbn [plat_of lres_plat]. change (pl (set_config cfg s)) with (pl s). by rewrite Eq. }
  assert (E2 : liftp (lora_config (Some SX127X) cfg) (set_pl q (set_config cfg s)) = (Done 0, set_pl q' (set_config cfg s))).
  { unfold liftp. cbn [plat_of lres_plat]. change (pl (set_pl q (set_config cfg s))) with q. by rewrite Eq'. }
  split; [|split; [by apply Rq'|]].
  - unfold Lres.change_config. rewrite !step_rd by (cbn in *; lia). rewrite peek_frequencies by lia.
    repeat (rewrite ?bind_modify; rewrite ?step_rd by (cbn in *; lia)).
    assert (Ed : forall s' : lres, chip (pl s') = Some SX127X -> liftp device_get_binding s' = (Done (Some SX127X), s')).
    { intros s' Hs'. unfold liftp, device_get_binding, gets. cbn [plat_of lres_plat]. rewrite Hs'. by destruct s'. }
    match goal with |- mbind _ _ ?x = _ => rewrite (bind_done _ _ _ _ _ (Ed x (ready_chip _ _ Hr))) end.
    etrans; [exact (bind_done _ _ _ _ _ E1)|]. rewrite bind_gets. exact (bind_done _ _ _ _ _ E2).
  - destruct Tq as [[]], Wq as [[]]. cbn in *. split; congruence.
Qed.

(** The callback starts the thread that listens. *)
Lemma receiver_config_cb len (s : lres) :
  ready SX127X (pl s) -> 0 <= peek buf 0 < 8 -> tid_ok (thread0_tid s) thread_data0 (pl s) ->
  exists s', Lres.change_config_cb buf len s = (Done 0, s') /\
    config s' = combo_config 8 false (mk_combo (peek buf 0) (peek buf 1) (peek buf 2) (peek buf 3) (peek buf 4)) /\
    threads (pl s') !! thread_data0 = Some E_receive_lora.
Proof.
  intros Hr H0 Ht. unfold Lres.change_config_cb.
  destruct (abort_run _ _ _ Ht) as (q & E0 & Th & Cu & _ & _ & _ & Re).
  destruct (receiver_change_config false (set_pl q s)) as (q1 & E1 & R1 & Th1 & Cu1); [by apply Re|done|].
  rewrite bind_gets, (bind_done _ _ _ _ _ E0), (bind_done _ _ _ _ _ E1). set (s1 := set_pl q1 _).
  destruct (wp_status waited SX127X (-2) s1 (fun l _ s' => exists q', s' = set_pl q' s1 /\ timed (STATUS (-2)) q1 q'))
    as (l & [] & s2 & E2 & _ & q2 & -> & T2); [done|intros q' _ T; by exists q'|].
  rewrite (bind_done _ _ _ _ _ E2), bind_gets.
  assert (Ht2 : tid_ok (thread0_tid (set_pl q2 s1)) thread_data0 (pl (set_pl q2 s1))).
  { destruct Ht as [Hne Ho]. pose proof (timed_threads _ _ _ T2) as H1. pose proof (timed_cur _ _ _ T2) as H2. split.
    - cbn. rewrite H2, Cu1. cbn. by rewrite Cu.
    - destruct Ho as [Ho|[Ho Hn]]; [by left|right]. split; [done|]. cbn. rewrite H1, Th1. cbn. rewrite Th. by apply lookup_delete_None; right. }
  destruct (abort_run _ _ _ Ht2) as (q3 & E3 & Th3 & _). rewrite (bind_done _ _ _ _ _ E3).
  set (q4 := emit (EvCreate thread_data0) (set_threads (<[thread_data0 := E_receive_lora]> (threads q3)) q3)).
  assert (E4 : liftp (k_thread_create thread_data0 E_receive_lora) (set_pl q3 (set_pl q2 s1)) = (Done thread_data0, set_pl q4 (set_pl q2 s1))).
  { unfold liftp, k_thread_create. cbn [plat_of lres_plat set_plat pl set_pl]. by rewrite Th3, lookup_delete_eq. }
  rewrite (bind_done _ _ _ _ _ E4), bind_modify. eexists. split; [done|]. split; [done|]. cbn. by rewrite lookup_insert_eq.
Qed.

End receiver.

(** ** The spinners *)

(** The number in a label: its digits. *)
Definition label_number (t : text) : Z := digits_value (List.filter is_digit t).

(** The configuration is what the labels at these positions say: 869.5 MHz,
    125 kHz, a spreading factor, 4/5, a power in dBm. *)
Definition labelled (i j k l m : nat) (c : lora_modem_config) : Prop :=
  (frequency c) = 100000 * label_number (nth i frequency_array []) /\
  125 * 2 ^ bandwidth c = label_number (nth j bandwidth_array []) /\
  datarate c = label_number (nth k SF_array []) /\
  10 * 4 + (4 + coding_rate c) = label_number (nth l CR_array []) /\
  tx_power c = label_number (nth m power_array []).

Lemma selected_labelled i j k l m tx :
  (i < 8)%nat -> (j < 3)%nat -> (k < 6)%nat -> (l < 4)%nat -> (m < 8)%nat ->
  labelled i j k l m (combo_config 8 tx (mk_combo (Z.of_nat i) (Z.of_nat j) (Z.of_nat k) (Z.of_nat l) (Z.of_nat m))).
Proof.
  intros Hi Hj Hk Hl Hm. split_and!.
  - do 8 (destruct i as [|i]; [by vm_compute|]). lia.
  - do 3 (destruct j as [|j]; [by vm_compute|]). lia.
  - do 6 (destruct k as [|k]; [by vm_compute|]). lia.
  - do 4 (destruct l as [|l]; [by vm_compute|]). lia.
  - do 8 (destruct m as [|m]; [by vm_compute|]). lia.
Qed.

Section spinners.
Context {D : Type}.

Definition select_all (i j k l m : nat) : J (phone D) unit :=
  onItemSelected 0 (Z.of_nat i);; onItemSelected 1 (Z.of_nat j);; onItemSelected 2 (Z.of_nat k);;
  onItemSelected 3 (Z.of_nat l);; onItemSelected 4 (Z.of_nat m).

Lemma select_all_run i j k l m (p : phone D) :
  length (Phone.config p) = 5%nat -> (i < 8)%nat -> (j < 3)%nat -> (k < 6)%nat -> (l < 4)%nat -> (m < 8)%nat ->
  select_all i j k l m p =
  (Ok tt, Phone.set_config [Z.of_nat i; Z.of_nat j; Z.of_nat k; Z.of_nat l; Z.of_nat m] p).
Proof.
  intros Hc Hi Hj Hk Hl Hm. destruct p as [d c a]. cbn in Hc. destruct c as [|c0 [|c1 [|c2 [|c3 [|c4 [|]]]]]]; try done.
  unfold select_all, onItemSelected. cbn. by rewrite !s8_id by lia.
Qed.


End spinners.


(** ** The loop of messages *)

(** What the app writes. *)
Definition write_of (a : act) : option (characteristic * list Z) := match a with WriteChar c b => Some (c, b) | _ => None end.
Definition writes (l : list act) : list (characteristic * list Z) := omap write_of l.

Section loops.
Context {D : Type}.

(** The clock as [startTimers] sets it. *)
Lemma start_at_time t :
  0 <= t -> Countdown.at_time t (Countdown.start (Z.quot t 3600) (Z.quot (Z.rem t 3600) 60) (Z.rem (Z.rem t 3600) 60)).
Proof.
  intros Ht. unfold Countdown.at_time. cbn. pose proof (Z.mod_pos_bound t 3600 ltac:(lia)).
  rewrite (Z.rem_mod_nonneg t 3600), (Z.quot_div_nonneg t 3600), Z.quot_div_nonneg, Z.rem_mod_nonneg by lia.
  split_and!; try done. Z.to_euclidean_division_equations. lia.
Qed.

(** The app's part: the button, the two dialogs and the delayed message. *)
Lemma loop_written n k c msg (s : SenderExplore.screen D) :
  0 <= n < 65536 -> 0 <= k < 256 -> 0 <= (n - 1) * k * 1000 < 2 ^ 31 -> ascii_text (c :: msg) -> c <> 33 -> c <> 35 -> c <> 36 ->
  SenderExplore.ready s = true -> SenderExplore.loopSeconds s = 0 ->
  exists s1 s2 s3, SenderExplore.transmitSendLoopCommand (c :: msg) s = (Ok true, s) /\
    SenderExplore.confirm_number (decimal n) s = (Ok tt, s1) /\ SenderExplore.confirm_time (decimal k) s1 = (Ok tt, s2) /\
    SenderExplore.loop_run (c :: msg) s2 = (Ok tt, s3) /\ SenderExplore.looping s3 = true /\
    (exists clk, SenderExplore.timer s3 = Some ((n - 1) * k * 1000, clk) /\ Countdown.at_time ((n - 1) * k) clk) /\
    writes (acts (SenderExplore.app s3)) = writes (acts (SenderExplore.app s)) ++
      [(LoopCommandChar, 33 :: decimal n); (LoopCommandChar, 35 :: decimal k); (LoopCommandChar, c :: msg)].
Proof.
  intros Hn Hk Hnk Ha H33 H35 H36 Hr Hl.
  assert (B : forall x c, 0 <= c < 128 -> getBytes (c :: decimal x) = c :: decimal x)
    by (intros x c0 Hc; apply getBytes_ascii; constructor; [done|apply decimal_ascii]).
  set (s1 := SenderExplore.set_loopSeconds (n - 1) (set_phone (add_act (WriteChar LoopCommandChar (33 :: decimal n))
    (add_act (Toast (txt "Device will send " ++ decimal n ++ txt " messages")) (SenderExplore.app s))) s)).
  set (s2 := SenderExplore.mk_screen (SenderExplore.connected s) (SenderExplore.ready s) (SenderExplore.pingDisconnect s)
    ((n - 1) * k) true (SenderExplore.timer s) (add_act (WriteChar LoopCommandChar (35 :: decimal k))
    (add_act (Toast (txt "Time between transmissions is " ++ decimal k ++ txt " seconds")) (SenderExplore.app s1)))).
  set (t := (n - 1) * k) in *.
  set (clk := Countdown.start (Z.quot t 3600) (Z.quot (Z.rem t 3600) 60) (Z.rem (Z.rem t 3600) 60)).
  exists s1, s2, (SenderExplore.set_timer (Some (t * 1000, clk)) (set_phone (add_act (WriteChar LoopCommandChar (c :: msg)) (SenderExplore.app s2)) s2)).
  split_and!.
  - unfold SenderExplore.transmitSendLoopCommand, SenderExplore.hasSpecialCharacters, SenderExplore.startsWith.
    rewrite jbind_field, Hr. by destruct (Z.eqb_spec c 33), (Z.eqb_spec c 35), (Z.eqb_spec c 36).
  - unfold SenderExplore.confirm_number. rewrite !doing_ok, (jbind_orelse _ n) by (apply parse_decimal; lia).
    rewrite jbind_field. change (txt "!" ++ decimal n) with (33 :: decimal n). rewrite B by lia.
    cbn [SenderExplore.loopSeconds set_phone SenderExplore.screen_phone]. rewrite Hl, Z.add_0_l, !(jint_id (n - 1)) by lia. done.
  - unfold SenderExplore.confirm_time. rewrite !doing_ok, (jbind_orelse _ k) by (apply parse_decimal; lia).
    rewrite jbind_field. change (txt "#" ++ decimal k) with (35 :: decimal k). rewrite B by lia.
    cbn [SenderExplore.loopSeconds set_phone SenderExplore.screen_phone]. change (SenderExplore.loopSeconds s1) with (n - 1). fold t.
    rewrite jbind_assign, jint_id by lia. done.
  - unfold SenderExplore.loop_run, SenderExplore.startTimers. rewrite doing_ok, jbind_field, getBytes_ascii by done.
    cbn [SenderExplore.loopSeconds set_phone SenderExplore.screen_phone]. change (SenderExplore.loopSeconds s2) with t. rewrite jint_id by lia. done.
  - done.
  - exists clk. split; [done|]. apply start_at_time. lia.
  - cbn. unfold writes. rewrite !omap_app. cbn. by rewrite <- !app_assoc.
Qed.


End loops.


(** ** The countdown *)

(** The clock of a countdown of [t] seconds:
    started as the screens start it, after [n] ticks it shows the hours,
    minutes and seconds of the [t - n] seconds that remain. *)
Theorem countdown_shows_remaining {D} t n (s : SenderExplore.screen D) :
  Z.of_nat n <= t -> t * 1000 < 2 ^ 31 ->
  exists s' c, SenderExplore.startTimers t s = (Ok tt, s') /\ SenderExplore.timer s' = Some (1000 * t, c) /\
    let rest := t - Z.of_nat n in
    (Countdown.onTick (Countdown.tick n c)).1 = time_text (rest / 3600) (rest mod 3600 / 60) (rest mod 60).
Proof.
  intros Hn Ht. set (clk := Countdown.start (Z.quot t 3600) (Z.quot (Z.rem t 3600) 60) (Z.rem (Z.rem t 3600) 60)).
  assert (Hat : Countdown.at_time t clk) by (by apply start_at_time; lia).
  eexists _, clk. split; [done|]. cbn [SenderExplore.timer SenderExplore.set_timer]. rewrite jint_id by lia.
  split; [do 2 f_equal; lia|]. destruct (Countdown.tick_time n t clk ltac:(lia) Hat) as (H1 & H2 & H3).
  cbn zeta. unfold Countdown.onTick. cbn [fst]. by rewrite H1, H2, H3.
Qed.

Lemma countdown_shows_remaining_witness :
  exists s' c, SenderExplore.startTimers 3725 (SenderExplore.mk_screen true true false 0 false None (initial_phone tt)) = (Ok tt, s') /\
    SenderExplore.timer s' = Some (3725000, c) /\ (Countdown.onTick (Countdown.tick 126 c)).1 = txt "00 : 59 : 59".
Proof.
  destruct (countdown_shows_remaining 3725 126 (SenderExplore.mk_screen true true false 0 false None (initial_phone tt)))
    as (s' & c & E & T & H); [lia|lia|]. exists s', c. split_and!; [exact E|exact T|]. rewrite H. by vm_compute.
Defined.
