(* ===== verification/Crc.v ===== *)
(** * Checksums (lib/os/crc*.c)

    The CRC routines of the OS library, on lists of bytes, and that every
    optimised one (a nibble table, or shifts and exclusive-ors per byte)
    computes the bit-by-bit division it stands for. *)
From S2P Require Import Prelude.
From stdpp Require Import prelude list numbers.
From Stdlib Require Import ZArith Lia.
Open Scope Z_scope.

(** ** The routines *)

(** An entry of a constant table. *)
Definition entry (table : list Z) (i : Z) : Z := default 0 (table !! Z.to_nat i).

Definition crc32_table : list Z :=
  [0x00000000; 0x1db71064; 0x3b6e20c8; 0x26d930ac;
   0x76dc4190; 0x6b6b51f4; 0x4db26158; 0x5005713c;
   0xedb88320; 0xf00f9344; 0xd6d6a3e8; 0xcb61b38c;
   0x9b64c2b0; 0x86d3d2d4; 0xa00ae278; 0xbdbdf21c].

Definition crc32_ieee_update (crc : Z) (data : list Z) : Z :=
  let crc := u32 (Z.lnot crc) in
  let crc := fold_left (fun crc byte =>
    let crc := Z.lxor (Z.shiftr crc 4) (entry crc32_table (Z.land (Z.lxor crc byte) 0x0f)) in
    Z.lxor (Z.shiftr crc 4) (entry crc32_table (Z.land (Z.lxor crc (Z.shiftr byte 4)) 0x0f))) data crc in
  u32 (Z.lnot crc).

Definition crc32_ieee (data : list Z) : Z := crc32_ieee_update 0x0 data.

Definition crc32c_table : list Z :=
  [0x00000000; 0x105EC76F; 0x20BD8EDE; 0x30E349B1;
   0x417B1DBC; 0x5125DAD3; 0x61C69362; 0x7198540D;
   0x82F63B78; 0x92A8FC17; 0xA24BB5A6; 0xB21572C9;
   0xC38D26C4; 0xD3D3E1AB; 0xE330A81A; 0xF36E6F75].
Definition CRC32C_XOR_OUT : Z := 0xFFFFFFFF.
Definition CRC32C_INIT : Z := 0xFFFFFFFF.

Definition crc32_c (crc : Z) (data : list Z) (first_pkt last_pkt : bool) : Z :=
  let crc := if first_pkt then CRC32C_INIT else crc in
  let crc := fold_left (fun crc b =>
    let crc := Z.lxor (entry crc32c_table (Z.land (Z.lxor crc b) 0x0F)) (Z.shiftr crc 4) in
    Z.lxor (entry crc32c_table (Z.land (Z.lxor crc (Z.shiftr b 4)) 0x0F)) (Z.shiftr crc 4)) data crc in
  if last_pkt then Z.lxor crc CRC32C_XOR_OUT else crc.

(** Bit [b] of the input of [crc16], or a trailing zero. *)
Definition crc16 (src : list Z) (polynomial initial_value : Z) (pad : bool) : Z :=
  let len := Z.of_nat (length src) in
  let padding := if pad then 2 else 0 in
  fold_left (fun crc i => fold_left (fun crc b =>
      let divide := Z.land crc 0x8000 in
      let crc := u16 (Z.shiftl crc 1) in
      let crc := if i <? len
        then Z.lor crc (if Z.land (entry src i) (Z.shiftr 0x80 b) =? 0 then 0 else 1) else crc in
      if divide =? 0 then crc else Z.lxor crc polynomial) (seqZ 0 8) crc)
    (seqZ 0 (len + padding)) initial_value.

Definition crc16_ansi (src : list Z) : Z := crc16 src 0x8005 0xffff true.

Definition crc16_ccitt (seed : Z) (src : list Z) : Z :=
  fold_left (fun seed b =>
    let e := u8 (Z.lxor seed b) in
    let f := u8 (Z.lxor e (Z.shiftl e 4)) in
    u16 (Z.lxor (Z.lxor (Z.lxor (Z.shiftr seed 8) (Z.shiftl f 8)) (Z.shiftl f 3)) (Z.shiftr f 4))) src seed.

Definition crc16_itu_t (seed : Z) (src : list Z) : Z :=
  fold_left (fun seed b =>
    let seed := u16 (Z.lor (Z.shiftr seed 8) (Z.shiftl seed 8)) in
    let seed := Z.lxor seed b in
    let seed := Z.lxor seed (Z.shiftr (Z.land seed 0xff) 4) in
    let seed := u16 (Z.lxor seed (Z.shiftl seed 12)) in
    u16 (Z.lxor seed (Z.shiftl (Z.land seed 0xff) 5))) src seed.

Definition crc7_be (seed : Z) (src : list Z) : Z :=
  fold_left (fun seed b =>
    let e := u8 (Z.lxor seed b) in
    let f := u8 (Z.lxor (Z.lxor e (Z.shiftr e 4)) (Z.shiftr e 7)) in
    u8 (Z.lxor (Z.shiftl f 1) (Z.shiftl f 4))) src seed.

Definition crc8_ccitt_small_table : list Z :=
  [0x00; 0x07; 0x0e; 0x09; 0x1c; 0x1b; 0x12; 0x15;
   0x38; 0x3f; 0x36; 0x31; 0x24; 0x23; 0x2a; 0x2d].

Definition crc8_ccitt (val : Z) (buf : list Z) : Z :=
  fold_left (fun val b =>
    let val := Z.lxor val b in
    let val := u8 (Z.lxor (Z.shiftl val 4) (entry crc8_ccitt_small_table (Z.shiftr val 4))) in
    u8 (Z.lxor (Z.shiftl val 4) (entry crc8_ccitt_small_table (Z.shiftr val 4)))) buf val.

Definition crc8 (src : list Z) (polynomial initial_value : Z) (reversed : bool) : Z :=
  fold_left (fun crc b =>
    let crc := Z.lxor crc b in
    fold_left (fun crc _ =>
      if reversed then
        if Z.land crc 0x01 =? 0 then Z.shiftr crc 1 else Z.lxor (Z.shiftr crc 1) polynomial
      else
        if Z.land crc 0x80 =? 0 then u8 (Z.shiftl crc 1) else u8 (Z.lxor (Z.shiftl crc 1) polynomial))
      (seqZ 0 8) crc) src initial_value.

(** ** Division bit by bit

    One step of the division: the bit that leaves the register decides whether
    the polynomial is subtracted. *)
Definition lsb_step (p x : Z) : Z :=
  if Z.testbit x 0 then Z.lxor (Z.shiftr x 1) p else Z.shiftr x 1.
Definition msb_step (w p x : Z) : Z :=
  (if Z.testbit x (w - 1) then Z.lxor (Z.shiftl x 1) p else Z.shiftl x 1) mod 2 ^ w.

(** The checksum of a message, least or most significant bit of a byte first. *)
Definition crc_lsb (p : Z) (seed : Z) (data : list Z) : Z :=
  fold_left (fun c b => Nat.iter 8 (lsb_step p) (Z.lxor c b)) data seed.
Definition crc_msb (w p : Z) (seed : Z) (data : list Z) : Z :=
  fold_left (fun c b => Nat.iter 8 (msb_step w p) (Z.lxor c (Z.shiftl b (w - 8)))) data seed.

(** ** Additive functions

    Every routine is additive for exclusive or in the register and the byte, so
    two of them agree when they agree on single bits. *)
Definition additive (f : Z -> Z) : Prop := forall x y, f (Z.lxor x y) = Z.lxor (f x) (f y).
Definition additive2 (f : Z -> Z -> Z) : Prop := forall x y x' y',
  f (Z.lxor x y) (Z.lxor x' y') = Z.lxor (f x x') (f y y').

Lemma lxor_shuffle a b c d : Z.lxor (Z.lxor a b) (Z.lxor c d) = Z.lxor (Z.lxor a c) (Z.lxor b d).
Proof. rewrite !Z.lxor_assoc. f_equal. rewrite <- !Z.lxor_assoc. f_equal. apply Z.lxor_comm. Qed.

Lemma lxor_mod a b w : 0 <= w -> Z.lxor a b mod 2 ^ w = Z.lxor (a mod 2 ^ w) (b mod 2 ^ w).
Proof.
  intros Hw. rewrite <- !Z.land_ones by done. apply Z.bits_inj'. intros n Hn.
  rewrite !Z.lxor_spec, !Z.land_spec, Z.lxor_spec. by destruct (Z.testbit a n), (Z.testbit b n), (Z.testbit _ n).
Qed.

Lemma add2_l : additive2 (fun a _ => a). Proof. done. Qed.
Lemma add2_r : additive2 (fun _ b => b). Proof. done. Qed.
Lemma add2_xor f g : additive2 f -> additive2 g -> additive2 (fun a b => Z.lxor (f a b) (g a b)).
Proof. intros Hf Hg x y x' y'. rewrite Hf, Hg. apply lxor_shuffle. Qed.
Lemma add2_comp h f : additive h -> additive2 f -> additive2 (fun a b => h (f a b)).
Proof. intros Hh Hf x y x' y'. by rewrite Hf, Hh. Qed.
Lemma add_shiftr k : additive (fun x => Z.shiftr x k). Proof. intros x y. apply Z.shiftr_lxor. Qed.
Lemma add_shiftl k : additive (fun x => Z.shiftl x k). Proof. intros x y. apply Z.shiftl_lxor. Qed.
Lemma add_land k : additive (fun x => Z.land x k).
Proof.
  intros x y. apply Z.bits_inj'. intros n Hn. rewrite !Z.land_spec, !Z.lxor_spec, !Z.land_spec.
  by destruct (Z.testbit x n), (Z.testbit y n), (Z.testbit k n).
Qed.
Lemma add_u8 : additive u8. Proof. intros x y. by apply lxor_mod. Qed.
Lemma add_u16 : additive u16. Proof. intros x y. by apply lxor_mod. Qed.
Lemma add_iter n f : additive f -> additive (Nat.iter n f).
Proof. intros Hf. induction n as [|n IH]; [done|]. intros x y. rewrite !Nat.iter_succ. by rewrite IH, Hf. Qed.

Lemma add_lsb p : additive (lsb_step p).
Proof.
  intros x y. unfold lsb_step. rewrite Z.lxor_spec, Z.shiftr_lxor.
  destruct (Z.testbit x 0), (Z.testbit y 0); cbn [xorb]; try done.
  - by rewrite lxor_shuffle, Z.lxor_nilpotent, Z.lxor_0_r.
  - rewrite !Z.lxor_assoc. f_equal. apply Z.lxor_comm.
  - by rewrite Z.lxor_assoc.
Qed.

Lemma add_msb w p : 0 <= w -> additive (msb_step w p).
Proof.
  intros Hw x y. unfold msb_step. rewrite Z.lxor_spec, Z.shiftl_lxor, <- lxor_mod by done. f_equal.
  destruct (Z.testbit x _), (Z.testbit y _); cbn [xorb]; try done.
  - by rewrite lxor_shuffle, Z.lxor_nilpotent, Z.lxor_0_r.
  - rewrite !Z.lxor_assoc. f_equal. apply Z.lxor_comm.
  - by rewrite Z.lxor_assoc.
Qed.

(** Takes a byte function apart. *)
Ltac additive :=
  cbv zeta; repeat first
  [ assumption | apply add2_l | apply add2_r | apply add2_xor
  | match goal with
    | |- additive2 (fun a b => u8 _) => apply (add2_comp u8)
    | |- additive2 (fun a b => u16 _) => apply (add2_comp u16)
    | |- additive2 (fun a b => Z.shiftr _ ?k) => apply (add2_comp (fun x => Z.shiftr x k))
    | |- additive2 (fun a b => Z.shiftl _ ?k) => apply (add2_comp (fun x => Z.shiftl x k))
    | |- additive2 (fun a b => Z.land _ ?k) => apply (add2_comp (fun x => Z.land x k))
    | |- additive2 (fun a b => Nat.iter ?n ?h _) => apply (add2_comp (Nat.iter n h))
    | |- additive2 (fun a b => ?h _) => apply (add2_comp h)
    end
  | apply add_u8 | apply add_u16 | apply add_shiftr | apply add_shiftl | apply add_land | apply add_iter
  | apply add_lsb | apply add_msb; lia ].

Lemma additive_0 f : additive f -> f 0 = 0.
Proof. intros Hf. pose proof (Hf 0 0) as H. rewrite !Z.lxor_nilpotent in H. done. Qed.

Lemma testbit_high w x l : 0 <= w -> 0 <= x < 2 ^ w -> w <= l -> Z.testbit x l = false.
Proof. intros Hw Hx Hl. apply (proj1 (Z.bounded_iff_bits_nonneg w x Hw (proj1 Hx))); lia. Qed.

(** Two additive functions that agree on the bits agree. *)
Lemma additive_ext (n : nat) f g : additive f -> additive g ->
  (forall i, (i < n)%nat -> f (2 ^ Z.of_nat i) = g (2 ^ Z.of_nat i)) ->
  forall x, 0 <= x < 2 ^ Z.of_nat n -> f x = g x.
Proof.
  intros Hf Hg. induction n as [|n IH]; intros Hb x Hx.
  - replace x with 0 by (cbn in Hx; lia). by rewrite !additive_0.
  - rewrite Nat2Z.inj_succ, Z.pow_succ_r in Hx by lia.
    destruct (Z.lt_ge_cases x (2 ^ Z.of_nat n)) as [Hlt|Hge].
    + apply IH; [|lia]. intros i Hi. apply Hb. lia.
    + assert (Hs : x = Z.lxor (2 ^ Z.of_nat n) (x - 2 ^ Z.of_nat n)).
      { rewrite Z.lxor_comm, <- Z.add_nocarry_lxor; [lia|]. apply Z.bits_inj'. intros k Hk.
        rewrite Z.land_spec, Z.pow2_bits_eqb, Z.bits_0 by lia.
        destruct (Z.eqb_spec (Z.of_nat n) k) as [<-|]; [|apply andb_false_r].
        by rewrite (testbit_high (Z.of_nat n)) by lia. }
      rewrite Hs, Hf, Hg, (Hb n) by lia. f_equal. apply IH; [|lia]. intros i Hi. apply Hb. lia.
Qed.

Lemma additive2_ext (n m : nat) f g : additive2 f -> additive2 g ->
  forallb (fun i => f (2 ^ Z.of_nat i) 0 =? g (2 ^ Z.of_nat i) 0) (seq 0 n) = true ->
  forallb (fun i => f 0 (2 ^ Z.of_nat i) =? g 0 (2 ^ Z.of_nat i)) (seq 0 m) = true ->
  forall x y, 0 <= x < 2 ^ Z.of_nat n -> 0 <= y < 2 ^ Z.of_nat m -> f x y = g x y.
Proof.
  intros Hf Hg H1 H2 x y Hx Hy. rewrite forallb_forall in H1, H2.
  rewrite <- (Z.lxor_0_r x), <- (Z.lxor_0_l y), Hf, Hg. f_equal.
  - apply (additive_ext n (fun x => f x 0) (fun x => g x 0)); [..|done].
    + intros a b. rewrite <- Hf. by rewrite Z.lxor_0_r.
    + intros a b. rewrite <- Hg. by rewrite Z.lxor_0_r.
    + intros i Hi. apply Z.eqb_eq, H1, in_seq. lia.
  - apply (additive_ext m (fun x => f 0 x) (fun x => g 0 x)); [..|done].
    + intros a b. rewrite <- Hf. by rewrite Z.lxor_0_r.
    + intros a b. rewrite <- Hg. by rewrite Z.lxor_0_r.
    + intros i Hi. apply Z.eqb_eq, H2, in_seq. lia.
Qed.

(** ** Ranges *)

Lemma lxor_range w a b : 0 <= w -> 0 <= a < 2 ^ w -> 0 <= b < 2 ^ w -> 0 <= Z.lxor a b < 2 ^ w.
Proof.
  intros Hw Ha Hb. split; [apply Z.lxor_nonneg; lia|].
  apply Z.bounded_iff_bits_nonneg; [done|apply Z.lxor_nonneg; lia|]. intros l Hl.
  by rewrite Z.lxor_spec, !(testbit_high w).
Qed.

Lemma shiftr_range w a k : 0 <= k -> 0 <= a < 2 ^ w -> 0 <= Z.shiftr a k < 2 ^ w.
Proof.
  intros Hk Ha. rewrite Z.shiftr_div_pow2 by done. pose proof (Z.pow_pos_nonneg 2 k).
  split; [apply Z.div_pos; lia|]. apply Z.le_lt_trans with a; [|lia]. apply Z.div_le_upper_bound; nia.
Qed.

Lemma lsb_range w p x : 0 <= w -> 0 <= p < 2 ^ w -> 0 <= x < 2 ^ w -> 0 <= lsb_step p x < 2 ^ w.
Proof.
  intros Hw Hp Hx. unfold lsb_step. destruct (Z.testbit x 0); [apply lxor_range; try done|]; by apply shiftr_range.
Qed.

Lemma msb_range w p x : 0 <= w -> 0 <= msb_step w p x < 2 ^ w.
Proof. intros Hw. apply Z.mod_pos_bound. lia. Qed.

Lemma iter_range w f n : (forall x, 0 <= x < w -> 0 <= f x < w) -> forall x, 0 <= x < w -> 0 <= Nat.iter n f x < w.
Proof. intros Hf. induction n as [|n IH]; intros x Hx; [done|]. rewrite Nat.iter_succ. by apply Hf, IH. Qed.

(** Two folds over the bytes of a message whose steps agree in range. *)
Lemma fold_agree w (f g : Z -> Z -> Z) data seed :
  (forall c b, 0 <= c < w -> byte_ok b -> f c b = g c b /\ 0 <= g c b < w) ->
  Forall byte_ok data -> 0 <= seed < w -> fold_left f data seed = fold_left g data seed.
Proof.
  intros Hfg Hd. revert seed. induction Hd as [|b data Hb Hd IH]; intros seed Hs; [done|].
  cbn. destruct (Hfg seed b Hs Hb) as [-> Hr]. by apply IH.
Qed.

(** A nibble table holds the result of four steps. *)
Lemma nibble_entry table f x :
  forallb (fun i => entry table (Z.of_nat i) =? f (Z.of_nat i)) (seq 0 16) = true ->
  0 <= x < 16 -> entry table x = f x.
Proof.
  intros H Hx. rewrite forallb_forall in H. rewrite <- (Z2Nat.id x) by lia. apply Z.eqb_eq, H, in_seq. lia.
Qed.

Lemma land15 x : 0 <= Z.land x 15 < 16.
Proof. change 15 with (Z.ones 4). rewrite Z.land_ones by lia. apply Z.mod_pos_bound. lia. Qed.

(** ** Tables of the reflected checksums *)

(** A byte through a nibble table [T], low nibble first. *)
Definition table_byte (T : Z -> Z) (c b : Z) : Z :=
  let c := Z.lxor (Z.shiftr c 4) (T (Z.land (Z.lxor c b) 15)) in
  Z.lxor (Z.shiftr c 4) (T (Z.land (Z.lxor c (Z.shiftr b 4)) 15)).

Lemma add_table_byte T : additive T -> additive2 (table_byte T).
Proof. intros HT. unfold table_byte. additive. Qed.

Lemma table_byte_spec table p c b :
  let T := Nat.iter 4 (lsb_step p) in
  let g c b := Nat.iter 8 (lsb_step p) (Z.lxor c b) in
  forallb (fun i => entry table (Z.of_nat i) =? T (Z.of_nat i)) (seq 0 16) = true ->
  forallb (fun i => table_byte T (2 ^ Z.of_nat i) 0 =? g (2 ^ Z.of_nat i) 0) (seq 0 32) = true ->
  forallb (fun i => table_byte T 0 (2 ^ Z.of_nat i) =? g 0 (2 ^ Z.of_nat i)) (seq 0 8) = true ->
  0 <= c < 2 ^ 32 -> byte_ok b ->
  table_byte (entry table) c b = Nat.iter 8 (lsb_step p) (Z.lxor c b).
Proof.
  intros T g H1 H2 H3 Hc Hb. transitivity (table_byte T c b).
  - unfold table_byte. cbv zeta.
    rewrite (nibble_entry _ _ (Z.land (Z.lxor c b) 15) H1), (nibble_entry _ _ (Z.land _ 15) H1) by apply land15. done.
  - apply (additive2_ext 32 8 (table_byte T) g); try done.
    + apply add_table_byte. subst T. additive.
    + subst g. additive.
Qed.

Lemma reflected_fold table p data seed : 0 <= p < 2 ^ 32 ->
  (forall c b, 0 <= c < 2 ^ 32 -> byte_ok b ->
     table_byte (entry table) c b = Nat.iter 8 (lsb_step p) (Z.lxor c b)) ->
  Forall byte_ok data -> 0 <= seed < 2 ^ 32 ->
  fold_left (table_byte (entry table)) data seed = crc_lsb p seed data.
Proof.
  intros Hp H Hd Hs. apply (fold_agree (2 ^ 32)); [|done..]. intros c b Hc Hb. split; [by apply H|].
  apply iter_range; [intros x Hx; by apply (lsb_range 32)|].
  apply (lxor_range 32); [done..|]. unfold byte_ok in Hb. lia.
Qed.

Lemma crc32_step c b : 0 <= c < 2 ^ 32 -> byte_ok b ->
  table_byte (entry crc32_table) c b = Nat.iter 8 (lsb_step 0xedb88320) (Z.lxor c b).
Proof. by apply table_byte_spec. Qed.

Lemma crc32c_step c b : 0 <= c < 2 ^ 32 -> byte_ok b ->
  table_byte (entry crc32c_table) c b = Nat.iter 8 (lsb_step 0x82f63b78) (Z.lxor c b).
Proof. by apply table_byte_spec. Qed.

Lemma u32_range x : 0 <= u32 x < 2 ^ 32.
Proof. by apply Z.mod_pos_bound. Qed.

Lemma crc32_bitwise crc data : Forall byte_ok data ->
  crc32_ieee_update crc data = u32 (Z.lnot (crc_lsb 0xedb88320 (u32 (Z.lnot crc)) data)).
Proof.
  intros Hd. rewrite <- (reflected_fold crc32_table) by (done || apply crc32_step || apply u32_range). done.
Qed.

Lemma crc32c_bitwise crc data first last : Forall byte_ok data -> 0 <= crc < 2 ^ 32 ->
  crc32_c crc data first last =
    Z.lxor (crc_lsb 0x82f63b78 (if first then 0xFFFFFFFF else crc) data) (if last then 0xFFFFFFFF else 0).
Proof.
  intros Hd Hc. rewrite <- (reflected_fold crc32c_table); [|done|apply crc32c_step|done|by destruct first].
  unfold crc32_c.
  assert (E : forall seed, fold_left (fun crc b =>
    let crc := Z.lxor (entry crc32c_table (Z.land (Z.lxor crc b) 0x0F)) (Z.shiftr crc 4) in
    Z.lxor (entry crc32c_table (Z.land (Z.lxor crc (Z.shiftr b 4)) 0x0F)) (Z.shiftr crc 4)) data seed =
    fold_left (table_byte (entry crc32c_table)) data seed).
  { clear. induction data as [|b data IH]; intros seed; [done|]. cbn [fold_left]. rewrite IH. f_equal.
    unfold table_byte. cbv zeta. rewrite (Z.lxor_comm (entry _ _) (Z.shiftr seed 4)). apply Z.lxor_comm. }
  rewrite E. destruct last; [done|]. by rewrite Z.lxor_0_r.
Qed.

(** ** The others *)

Lemma crc16_ccitt_bitwise seed data : Forall byte_ok data -> 0 <= seed < 2 ^ 16 ->
  crc16_ccitt seed data = crc_lsb 0x8408 seed data.
Proof.
  intros Hd Hs. apply (fold_agree (2 ^ 16)); [|done..]. intros c b Hc Hb. split.
  - revert c b Hc Hb. apply (additive2_ext 16 8); [additive|additive|done|done].
  - apply iter_range; [intros x Hx; by apply (lsb_range 16)|].
    apply (lxor_range 16); [done..|]. unfold byte_ok in Hb. lia.
Qed.

Lemma crc7_bitwise seed data : Forall byte_ok data -> 0 <= seed < 2 ^ 8 -> 
  crc7_be seed data = crc_msb 8 0x12 seed data.
Proof.
  intros Hd Hs. apply (fold_agree (2 ^ 8)); [|done..]. intros c b Hc Hb. split.
  - revert c b Hc Hb. apply (additive2_ext 8 8); [additive|additive|done|done].
  - apply iter_range; [intros x Hx; by apply msb_range|].
    apply (lxor_range 8); [done..|]. change (8 - 8) with 0. by rewrite Z.shiftl_0_r.
Qed.

Lemma iter_fold {A B} (f : A -> A) (l : list B) x : fold_left (fun x _ => f x) l x = Nat.iter (length l) f x.
Proof. revert x. induction l as [|y l IH]; intros x; [done|]. cbn [fold_left length]. by rewrite IH, <- Nat.iter_succ_r. Qed.

Lemma iter_ext {A} (f g : A -> A) n x : (forall x, f x = g x) -> Nat.iter n f x = Nat.iter n g x.
Proof. intros H. induction n as [|n IH]; [done|]. by rewrite !Nat.iter_succ, IH, H. Qed.

Lemma land_bit x k : 0 <= k -> (Z.land x (2 ^ k) =? 0) = negb (Z.testbit x k).
Proof.
  intros Hk. destruct (Z.testbit x k) eqn:E.
  - apply Z.eqb_neq. intros H. assert (Z.testbit (Z.land x (2 ^ k)) k = false) as H' by (rewrite H; apply Z.bits_0).
    rewrite Z.land_spec, E, Z.pow2_bits_true in H' by done. done.
  - apply Z.eqb_eq, Z.bits_inj'. intros n Hn. rewrite Z.land_spec, Z.bits_0, Z.pow2_bits_eqb by done.
    destruct (Z.eqb_spec k n) as [<-|]; [by rewrite E|apply andb_false_r].
Qed.

(** Eight rounds of the same step. *)
Lemma eight_rounds (f g : Z -> Z) x : (forall x, f x = g x) -> fold_left (fun x _ => f x) (seqZ 0 8) x = Nat.iter 8 g x.
Proof. intros H. rewrite iter_fold. by apply (iter_ext f g 8). Qed.

Lemma fold_ext {A B} (f g : A -> B -> A) l x : (forall x y, f x y = g x y) -> fold_left f l x = fold_left g l x.
Proof. intros H. revert x. induction l as [|y l IH]; intros x; [done|]. cbn [fold_left]. by rewrite H. Qed.

Lemma fold_ext_in {A B} (f g : A -> B -> A) l x :
  (forall x y, y ∈ l -> f x y = g x y) -> fold_left f l x = fold_left g l x.
Proof.
  revert x. induction l as [|y l IH]; intros x H; [done|]. cbn [fold_left]. rewrite H by left.
  apply IH. intros z w Hw. apply H. by right.
Qed.

(** Reading a list by index is reading it in order. *)
Lemma fold_entries (f : Z -> Z -> Z) src c :
  fold_left (fun c i => f c (if i <? Z.of_nat (length src) then entry src i else 0))
    (seqZ 0 (Z.of_nat (length src))) c = fold_left f src c.
Proof.
  rewrite (fold_ext_in _ (fun c i => f c (entry src i))).
  2:{ intros x i Hi%elem_of_seqZ. by destruct (Z.ltb_spec i (Z.of_nat (length src))); [|lia]. }
  induction src as [|b src IH] using rev_ind; [done|].
  rewrite length_app, Nat.add_1_r, seqZ_S, !fold_left_app. cbn [fold_left].
  rewrite <- IH. f_equal.
  - apply fold_ext_in. intros x i Hi%elem_of_seqZ. f_equal. unfold entry. by rewrite lookup_app_l by lia.
  - unfold entry. by rewrite list_lookup_middle by lia.
Qed.

Lemma iter_16 {X} (f : X -> X) x : Nat.iter (Z.to_nat 2) (Nat.iter 8 f) x = Nat.iter 16 f x.
Proof. done. Qed.
Lemma iter_8_8 {X} (f : X -> X) x : Nat.iter 8 f (Nat.iter 8 f x) = Nat.iter 16 f x.
Proof. done. Qed.

(** The two bit-by-bit modes of [crc8] are the two divisions. *)
Lemma crc8_bitwise src p seed (reversed : bool) :
  crc8 src p seed reversed = if reversed then crc_lsb p seed src else crc_msb 8 p seed src.
Proof.
  destruct reversed; apply fold_ext; intros c b; cbv zeta.
  - apply (eight_rounds _ (lsb_step p)). intros x. unfold lsb_step. change 0x01 with (2 ^ 0).
    rewrite land_bit by done. by destruct (Z.testbit x 0).
  - rewrite Z.shiftl_0_r. apply (eight_rounds _ (msb_step 8 p)). intros x. unfold msb_step. change 0x80 with (2 ^ 7).
    rewrite land_bit by done. change (8 - 1) with 7. by destruct (Z.testbit x 7).
Qed.

(** The nibble table of [crc8_ccitt]: the high nibble of the register decides. *)
Lemma crc8_ccitt_bitwise val buf : Forall byte_ok buf -> byte_ok val -> crc8_ccitt val buf = crc_msb 8 0x07 val buf.
Proof.
  intros Hd Hs. apply (fold_agree (2 ^ 8)); [|done..]. intros c b Hc Hb. split.
  - set (T := fun v => Nat.iter 4 (msb_step 8 7) (Z.shiftl v 4)).
    assert (HT : forall x, 0 <= x < 2 ^ 8 -> entry crc8_ccitt_small_table (Z.shiftr x 4) = T (Z.shiftr x 4)).
    { intros x Hx. apply nibble_entry; [done|]. rewrite Z.shiftr_div_pow2 by done.
      split; [apply Z.div_pos; lia|apply Z.div_lt_upper_bound; lia]. }
    assert (Ha : additive T).
    { intros x y. unfold T. rewrite Z.shiftl_lxor. apply add_iter, add_msb. lia. }
    transitivity (let val := Z.lxor c b in
      let val := u8 (Z.lxor (Z.shiftl val 4) (T (Z.shiftr val 4))) in
      u8 (Z.lxor (Z.shiftl val 4) (T (Z.shiftr val 4)))).
    { cbv zeta. rewrite !HT; first [done|by apply (lxor_range 8)|apply u8_byte]. }
    revert c b Hc Hb. apply (additive2_ext 8 8); [additive|additive|done|done].
  - apply iter_range; [intros x Hx; by apply msb_range|].
    apply (lxor_range 8); [done..|]. change (8 - 8) with 0. by rewrite Z.shiftl_0_r.
Qed.

Lemma shiftl8_range b : byte_ok b -> 0 <= Z.shiftl b 8 < 2 ^ 16.
Proof. unfold byte_ok. rewrite Z.shiftl_mul_pow2 by done. lia. Qed.

Lemma lor_swap x : 0 <= x < 2 ^ 16 ->
  Z.lor (Z.shiftr x 8) (Z.shiftl x 8) = Z.lxor (Z.shiftr x 8) (Z.shiftl x 8).
Proof.
  intros Hx. symmetry. apply Z.lxor_lor, Z.bits_inj'. intros n Hn.
  rewrite Z.land_spec, Z.bits_0, Z.shiftr_spec by done. destruct (Z.lt_ge_cases n 8).
  - rewrite Z.shiftl_spec_low by done. apply andb_false_r.
  - by rewrite (testbit_high 16 x) by lia.
Qed.

Lemma crc16_itu_t_bitwise seed data : Forall byte_ok data -> 0 <= seed < 2 ^ 16 ->
  crc16_itu_t seed data = crc_msb 16 0x1021 seed data.
Proof.
  intros Hd Hs. apply (fold_agree (2 ^ 16)); [|done..]. intros c b Hc Hb. split.
  - rewrite lor_swap by done. revert c b Hc Hb.
    apply (additive2_ext 16 8 (fun c b =>
      let seed := u16 (Z.lxor (Z.shiftr c 8) (Z.shiftl c 8)) in
      let seed := Z.lxor seed b in
      let seed := Z.lxor seed (Z.shiftr (Z.land seed 0xff) 4) in
      let seed := u16 (Z.lxor seed (Z.shiftl seed 12)) in
      u16 (Z.lxor seed (Z.shiftl (Z.land seed 0xff) 5)))); [additive|additive|done|done].
  - apply iter_range; [intros x Hx; by apply msb_range|]. apply (lxor_range 16); [done..|]. by apply shiftl8_range.
Qed.

(** ** The generic 16-bit routine

    [crc16] shifts the message through the register (with [pad] followed by 16
    zero bits) instead of adding its bytes at the top. *)
Section augmented.
Context (p : Z) (Hp : 0 <= p < 2 ^ 16).
Local Abbreviation A := (msb_step 16 p).

Lemma step_small x : 0 <= x < 2 ^ 15 -> A x = Z.shiftl x 1.
Proof.
  intros Hx. unfold msb_step. rewrite (testbit_high 15) by lia. rewrite Z.shiftl_mul_pow2 by done.
  apply Z.mod_small. lia.
Qed.

Lemma steps_small (n : nat) x : (n <= 16)%nat -> 0 <= x < 2 ^ (16 - Z.of_nat n) -> Nat.iter n A x = Z.shiftl x (Z.of_nat n).
Proof.
  induction n as [|n IH]; intros Hn Hx; [by rewrite Z.shiftl_0_r|].
  assert (Hd : 2 ^ (16 - Z.of_nat n) = 2 * 2 ^ (16 - Z.of_nat (S n))) by (rewrite <- Z.pow_succ_r by lia; f_equal; lia).
  rewrite Nat.iter_succ, IH by lia. rewrite step_small.
  - rewrite Z.shiftl_shiftl by lia. f_equal. lia.
  - rewrite Z.shiftl_mul_pow2 by lia.
    assert (2 ^ 15 = 2 ^ (16 - Z.of_nat (S n)) * 2 ^ Z.of_nat n) as -> by (rewrite <- Z.pow_add_r by lia; f_equal; lia).
    pose proof (Z.pow_pos_nonneg 2 (Z.of_nat n)). nia.
Qed.

(** One bit shifted in. *)
Definition shift_in (c t : Z) : Z :=
  let divide := Z.land c 0x8000 in
  let c := Z.lor (u16 (Z.shiftl c 1)) t in
  if divide =? 0 then c else Z.lxor c p.

Lemma shift_in_spec c t : 0 <= t <= 1 -> shift_in c t = Z.lxor (A c) t.
Proof.
  intros Ht. unfold shift_in, msb_step, u16. change 0x8000 with (2 ^ 15). rewrite land_bit by done.
  assert (E : Z.lor (Z.shiftl c 1 mod 2 ^ 16) t = Z.lxor (Z.shiftl c 1 mod 2 ^ 16) t).
  { symmetry. apply Z.lxor_lor, Z.bits_inj'. intros n Hn. rewrite Z.land_spec, Z.bits_0.
    destruct (Z.eq_dec n 0) as [->|].
    - rewrite Z.mod_pow2_bits_low, Z.shiftl_spec_low by lia. done.
    - rewrite (testbit_high 1 t) by lia. apply andb_false_r. }
  rewrite E. change (16 - 1) with 15. destruct (Z.testbit c 15); cbn [negb]; [|done].
  rewrite lxor_mod, (Z.mod_small p) by lia. rewrite !Z.lxor_assoc. f_equal. apply Z.lxor_comm.
Qed.

(** A byte shifted in, its first bit first. *)
Lemma shift_in_byte c b : byte_ok b ->
  fold_left (fun c j => shift_in c (Z.b2z (Z.testbit b (7 - j)))) (seqZ 0 8) c = Z.lxor (Nat.iter 8 A c) b.
Proof.
  intros Hb. cut (forall k : nat, (k <= 8)%nat ->
    fold_left (fun c j => shift_in c (Z.b2z (Z.testbit b (7 - j)))) (seqZ 0 (Z.of_nat k)) c =
    Z.lxor (Nat.iter k A c) (Z.shiftr b (8 - Z.of_nat k))).
  { intros H. etransitivity; [apply (H 8%nat); lia|]. change (8 - Z.of_nat 8) with 0. by rewrite Z.shiftr_0_r. }
  induction k as [|k IH]; intros Hk.
  - cbn [fold_left]. rewrite Z.shiftr_div_pow2, Z.div_small, Z.lxor_0_r by (unfold byte_ok in Hb; cbn; lia). done.
  - rewrite seqZ_S, fold_left_app, IH by lia. cbn [fold_left].
    rewrite shift_in_spec by (destruct (Z.testbit b _); cbn; lia).
    assert (Hr : 0 <= Z.shiftr b (8 - Z.of_nat k) < 2 ^ 15).
    { unfold byte_ok in Hb. pose proof (shiftr_range 8 b (8 - Z.of_nat k)). lia. }
    rewrite add_msb, (step_small _ Hr), Nat.iter_succ, Z.lxor_assoc by lia. f_equal.
    apply Z.bits_inj'. intros n Hn. rewrite Z.lxor_spec, Z.shiftr_spec by done.
    destruct (Z.eq_dec n 0) as [->|].
    + rewrite Z.shiftl_spec_low by lia. rewrite Z.b2z_bit0. cbn. f_equal. lia.
    + rewrite Z.shiftl_spec, Z.shiftr_spec, (testbit_high 1 (Z.b2z _)), xorb_false_r by
        (lia || (destruct (Z.testbit b _); cbn; lia)). f_equal. lia.
Qed.

(** A byte shifted in is a byte added at the top 16 bits later. *)
Lemma shift_in_top c b : byte_ok b ->
  Nat.iter 16 A (Z.lxor (Nat.iter 8 A c) b) = Nat.iter 8 A (Z.lxor (Nat.iter 16 A c) (Z.shiftl b 8)).
Proof.
  intros Hb. rewrite !(add_iter _ _ (add_msb 16 p ltac:(lia))).
  change (Z.shiftl b 8) with (Z.shiftl b (Z.of_nat 8)).
  rewrite <- (steps_small 8 b) by (unfold byte_ok in Hb; cbn; lia). by rewrite <- !Nat.iter_add.
Qed.

Definition shift_byte (c b : Z) : Z := Z.lxor (Nat.iter 8 A c) b.

Lemma fold_commute {X B} (h : X -> X) (f g : X -> B -> X) data c :
  Forall (fun b => forall c, h (f c b) = g (h c) b) data -> h (fold_left f data c) = fold_left g data (h c).
Proof. intros H. revert c. induction H as [|b data Hb Hd IH]; intros c; [done|]. cbn [fold_left]. by rewrite IH, Hb. Qed.

Lemma shift_bytes_top c data : Forall byte_ok data ->
  Nat.iter 16 A (fold_left shift_byte data c) = crc_msb 16 p (Nat.iter 16 A c) data.
Proof.
  intros Hd. apply fold_commute. eapply Forall_impl; [|exact Hd]. intros b Hb c'. by apply shift_in_top.
Qed.

(** A round of [crc16] shifts a byte in, or eight zero bits after the end. *)
Lemma crc16_round src i c : Forall byte_ok src -> 0 <= i ->
  fold_left (fun crc b =>
      let divide := Z.land crc 0x8000 in
      let crc := u16 (Z.shiftl crc 1) in
      let crc := if i <? Z.of_nat (length src)
        then Z.lor crc (if Z.land (entry src i) (Z.shiftr 0x80 b) =? 0 then 0 else 1) else crc in
      if divide =? 0 then crc else Z.lxor crc p) (seqZ 0 8) c =
  shift_byte c (if i <? Z.of_nat (length src) then entry src i else 0).
Proof.
  intros Hd Hi. unfold shift_byte. set (b := if i <? _ then entry src i else 0).
  assert (Hb : byte_ok b).
  { subst b. destruct (Z.ltb_spec i (Z.of_nat (length src))); [|done]. unfold entry.
    destruct (src !! Z.to_nat i) as [y|] eqn:E; cbn; [|done]. by eapply Forall_lookup_1. }
  rewrite <- shift_in_byte by done. apply fold_ext_in. intros x j Hj%elem_of_seqZ. unfold shift_in. cbv zeta.
  subst b. destruct (Z.ltb_spec i (Z.of_nat (length src))) as [Hl|_].
  - rewrite (Z.shiftr_div_pow2 0x80) by lia.
    replace (0x80 / 2 ^ j) with (2 ^ (7 - j)) by (change 0x80 with (2 ^ 7); rewrite Z.pow_sub_r by lia; done).
    rewrite land_bit by lia. by destruct (Z.testbit (entry src i) (7 - j)).
  - rewrite Z.bits_0. cbn [Z.b2z]. by rewrite Z.lor_0_r.
Qed.

Lemma crc16_shifts src init (pad : bool) : Forall byte_ok src ->
  crc16 src p init pad = (if pad then Nat.iter 16 A else id) (fold_left shift_byte src init).
Proof.
  intros Hd. unfold crc16. cbv zeta.
  rewrite (fold_ext_in _ (fun c i => shift_byte c (if i <? Z.of_nat (length src) then entry src i else 0))).
  2:{ intros c i Hi%elem_of_seqZ. apply crc16_round; [done|lia]. }
  rewrite seqZ_app, fold_left_app, fold_entries by (destruct pad; lia). 
  destruct pad; [|done]. rewrite (fold_ext_in _ (fun c _ => Nat.iter 8 A c)).
  2:{ intros c i Hi%elem_of_seqZ. unfold shift_byte. destruct (Z.ltb_spec i (Z.of_nat (length src))); [lia|].
      apply Z.lxor_0_r. }
  rewrite iter_fold, length_seqZ. apply iter_16.
Qed.

Lemma checksum_bytes k : 0 <= k < 2 ^ 16 -> Forall byte_ok [Z.shiftr k 8; Z.land k 0xff].
Proof.
  intros Hk. repeat constructor; unfold byte_ok.
  - apply Z.shiftr_nonneg. lia.
  - rewrite Z.shiftr_div_pow2 by done. apply Z.div_lt_upper_bound; lia.
  - apply Z.land_nonneg. lia.
  - change 0xff with (Z.ones 8). rewrite Z.land_ones by done. by apply Z.mod_pos_bound.
Qed.

(** The checksum itself shifted in takes the register back to zero. *)
Lemma shift_in_checksum c : let k := Nat.iter 16 A c in
  shift_byte (shift_byte c (Z.shiftr k 8)) (Z.land k 0xff) = 0.
Proof.
  intros k. assert (Hk : 0 <= k < 2 ^ 16) by (subst k; rewrite Nat.iter_succ; apply msb_range; lia).
  assert (Hh : 0 <= Z.shiftr k 8 < 2 ^ 8).
  { rewrite Z.shiftr_div_pow2 by done. split; [apply Z.div_pos; lia|apply Z.div_lt_upper_bound; lia]. }
  unfold shift_byte. rewrite (add_iter _ _ (add_msb 16 p ltac:(lia))), iter_8_8. fold k.
  rewrite (steps_small 8 (Z.shiftr k 8)) by (change (16 - Z.of_nat 8) with 8; lia). apply Z.bits_inj'. intros n Hn.
  rewrite !Z.lxor_spec, Z.land_spec, Z.bits_0. change 0xff with (Z.ones 8). change (Z.of_nat 8) with 8.
  destruct (Z.lt_ge_cases n 8).
  - rewrite Z.shiftl_spec_low, Z.ones_spec_low by lia. by destruct (Z.testbit k n).
  - rewrite Z.shiftl_spec, Z.shiftr_spec, Z.ones_spec_high by lia. replace (n - 8 + 8) with n by lia.
    by destruct (Z.testbit k n).
Qed.
End augmented.

(** ** The properties *)

(** C35. Every optimised checksum of the library is the division bit by bit it
    stands for, for every message and every start value of its width: the two
    nibble tables of the 32-bit sums (polynomials 0x04c11db7 and 0x1edc6f41,
    reflected) with their inversions, the shift formulas of CRC-16/CCITT
    (0x1021 reflected), CRC-16/XMODEM (0x1021) and CRC-7 (0x09, kept in the
    upper seven bits), and [crc8_ccitt], which is [crc8] with polynomial
    0x07. *)
Theorem checksums_bitwise seed data :
  Forall byte_ok data ->
  (0 <= seed < 2 ^ 32 ->
    crc32_ieee_update seed data = u32 (Z.lnot (crc_lsb 0xedb88320 (u32 (Z.lnot seed)) data)) /\
    forall first last, crc32_c seed data first last =
      Z.lxor (crc_lsb 0x82f63b78 (if first then 0xFFFFFFFF else seed) data) (if last then 0xFFFFFFFF else 0)) /\
  (0 <= seed < 2 ^ 16 ->
    crc16_ccitt seed data = crc_lsb 0x8408 seed data /\ crc16_itu_t seed data = crc_msb 16 0x1021 seed data) /\
  (0 <= seed < 2 ^ 8 ->
    crc7_be seed data = crc_msb 8 0x12 seed data /\ crc8_ccitt seed data = crc8 data 0x07 seed false).
Proof.
  intros Hd. split_and!; intros Hs; split.
  - by apply crc32_bitwise.
  - intros first last. by apply crc32c_bitwise.
  - by apply crc16_ccitt_bitwise.
  - by apply crc16_itu_t_bitwise.
  - by apply crc7_bitwise.
  - rewrite crc8_bitwise. by apply crc8_ccitt_bitwise.
Qed.

(** The check value of the digits 1 to 9. *)
Lemma checksums_bitwise_witness :
  let data := [49; 50; 51; 52; 53; 54; 55; 56; 57] in
  crc8_ccitt 0 data = crc8 data 0x07 0 false /\ crc32_ieee data = 0xcbf43926 /\
  crc16_itu_t 0 data = 0x31c3 /\ crc8_ccitt 0 data = 0xf4.
Proof.
  intros data. split; [|done]. assert (Hd : Forall byte_ok data) by by repeat constructor.
  apply (checksums_bitwise 0 data Hd); lia.
Defined.

(** The generic 16-bit routine on a padded message is the division with the
    bytes added at the top of the register, from a start value that is the
    given one after 16 empty steps; from 0 with polynomial 0x1021 it is
    [crc16_itu_t], and a message followed by its own checksum (high byte
    first) has checksum 0. *)
Theorem crc16_padded data p init :
  Forall byte_ok data -> 0 <= p < 2 ^ 16 -> 0 <= init < 2 ^ 16 ->
  crc16 data p init true = crc_msb 16 p (Nat.iter 16 (msb_step 16 p) init) data /\
  crc16 data 0x1021 0 true = crc16_itu_t 0 data /\
  (let c := crc16 data p init true in
   crc16 (data ++ [Z.shiftr c 8; Z.land c 0xff]) p init false = 0).
Proof.
  intros Hd Hp Hi. split_and!.
  - rewrite crc16_shifts by done. by apply shift_bytes_top.
  - rewrite crc16_shifts by done. rewrite (shift_bytes_top 0x1021) by done. symmetry.
    by apply crc16_itu_t_bitwise.
  - rewrite (crc16_shifts p Hp data) by done. cbv zeta. set (c := fold_left _ data init).
    assert (Hc : 0 <= Nat.iter 16 (msb_step 16 p) c < 2 ^ 16) by (rewrite Nat.iter_succ; by apply msb_range).
    rewrite crc16_shifts; [|done|apply Forall_app; split; [done|by apply checksum_bytes]].
    rewrite fold_left_app. apply shift_in_checksum.
Qed.

Lemma crc16_padded_witness :
  crc16 [49; 50; 51] 0x8005 0xffff true =
    crc_msb 16 0x8005 (Nat.iter 16 (msb_step 16 0x8005) 0xffff) [49; 50; 51] /\
  crc16 [49; 50; 51] 0x1021 0 true = crc16_itu_t 0 [49; 50; 51] /\
  (let c := crc16_ansi [49; 50; 51] in
   crc16 ([49; 50; 51] ++ [Z.shiftr c 8; Z.land c 0xff]) 0x8005 0xffff false = 0).
Proof. apply (crc16_padded [49; 50; 51] 0x8005 0xffff); [by repeat constructor|done|done]. Defined.
