(* ===== verification/ByteOrder.v ===== *)
(** * Byte order (include/sys/byteorder.h)

    Storing integers in byte arrays and reading them back, and reversing
    memory areas. [sys_put_*] answers the bytes it
    stores; [sys_get_*] reads a list of bytes. *)
From S2P Require Import Prelude.
From stdpp Require Import prelude list numbers.
From Stdlib Require Import ZArith Lia.
Open Scope Z_scope.

(** ** The operations *)

Definition u64 (x : Z) : Z := x mod 2 ^ 64.

(** [src[i]] *)
Definition at_ (src : list Z) (i : nat) : Z := default 0 (src !! i).

Definition sys_put_be16 (val : Z) : list Z := [u8 (Z.shiftr val 8); u8 val].
Definition sys_put_be24 (val : Z) : list Z := [u8 (Z.shiftr val 16)] ++ sys_put_be16 (u16 val).
Definition sys_put_be32 (val : Z) : list Z := sys_put_be16 (u16 (Z.shiftr val 16)) ++ sys_put_be16 (u16 val).
Definition sys_put_be48 (val : Z) : list Z := sys_put_be16 (u16 (Z.shiftr val 32)) ++ sys_put_be32 (u32 val).
Definition sys_put_be64 (val : Z) : list Z := sys_put_be32 (u32 (Z.shiftr val 32)) ++ sys_put_be32 (u32 val).

Definition sys_put_le16 (val : Z) : list Z := [u8 val; u8 (Z.shiftr val 8)].
Definition sys_put_le24 (val : Z) : list Z := sys_put_le16 (u16 val) ++ [u8 (Z.shiftr val 16)].
Definition sys_put_le32 (val : Z) : list Z := sys_put_le16 (u16 val) ++ sys_put_le16 (u16 (Z.shiftr val 16)).
Definition sys_put_le48 (val : Z) : list Z := sys_put_le32 (u32 val) ++ sys_put_le16 (u16 (Z.shiftr val 32)).
Definition sys_put_le64 (val : Z) : list Z := sys_put_le32 (u32 val) ++ sys_put_le32 (u32 (Z.shiftr val 32)).

Definition sys_get_be16 (src : list Z) : Z := Z.lor (Z.shiftl (at_ src 0) 8) (at_ src 1).
Definition sys_get_be24 (src : list Z) : Z := Z.lor (Z.shiftl (at_ src 0) 16) (sys_get_be16 (drop 1 src)).
Definition sys_get_be32 (src : list Z) : Z := Z.lor (Z.shiftl (sys_get_be16 src) 16) (sys_get_be16 (drop 2 src)).
Definition sys_get_be48 (src : list Z) : Z := Z.lor (Z.shiftl (sys_get_be32 src) 16) (sys_get_be16 (drop 4 src)).
Definition sys_get_be64 (src : list Z) : Z := Z.lor (Z.shiftl (sys_get_be32 src) 32) (sys_get_be32 (drop 4 src)).

Definition sys_get_le16 (src : list Z) : Z := Z.lor (Z.shiftl (at_ src 1) 8) (at_ src 0).
Definition sys_get_le24 (src : list Z) : Z := Z.lor (Z.shiftl (at_ src 2) 16) (sys_get_le16 src).
Definition sys_get_le32 (src : list Z) : Z := Z.lor (Z.shiftl (sys_get_le16 (drop 2 src)) 16) (sys_get_le16 src).
Definition sys_get_le48 (src : list Z) : Z := Z.lor (Z.shiftl (sys_get_le32 (drop 2 src)) 16) (sys_get_le16 src).
Definition sys_get_le64 (src : list Z) : Z := Z.lor (Z.shiftl (sys_get_le32 (drop 4 src)) 32) (sys_get_le32 src).

(** [psrc] walks down from the last byte while [pdst] walks up. *)
Fixpoint sys_memcpy_swap (dst src : list Z) (pdst psrc length : nat) : list Z :=
  match length with
  | O => dst
  | S length' => sys_memcpy_swap (<[pdst := at_ src psrc]> dst) src (S pdst) (pred psrc) length'
  end.

(** The bytes [i] and [length - 1 - i] change places, for every [i] below
    half the length. *)
Definition sys_mem_swap (buf : list Z) (length : nat) : list Z :=
  fold_left (fun buf i =>
    let tmp := at_ buf i in
    <[length - 1 - i := tmp]> (<[i := at_ buf (length - 1 - i)]> buf))%nat
    (seq 0 (Nat.div length 2)) buf.

(** ** The value of a byte sequence *)

Fixpoint le_value (l : list Z) : Z :=
  match l with [] => 0 | b :: l' => b + 256 * le_value l' end.
Fixpoint le_bytes (n : nat) (v : Z) : list Z :=
  match n with O => [] | S n' => v mod 256 :: le_bytes n' (v / 256) end.

Lemma le_bytes_length n v : length (le_bytes n v) = n.
Proof. revert v. induction n as [|n IH]; intros v; [done|]. cbn. by rewrite IH. Qed.

Lemma le_bytes_value n v : 0 <= v < 256 ^ Z.of_nat n -> le_value (le_bytes n v) = v.
Proof.
  revert v. induction n as [|n IH]; intros v Hv; [cbn in *; lia|]. cbn [le_bytes le_value].
  rewrite Nat2Z.inj_succ, Z.pow_succ_r in Hv by lia. rewrite IH.
  - pose proof (Z.div_mod v 256). lia.
  - split; [apply Z.div_pos; lia|apply Z.div_lt_upper_bound; lia].
Qed.

Lemma le_value_bytes l : Forall byte_ok l -> le_bytes (length l) (le_value l) = l.
Proof.
  unfold byte_ok. induction 1 as [|b l Hb Hl IH]; [done|]. cbn [length le_bytes le_value].
  replace ((b + 256 * le_value l) mod 256) with b by (rewrite Z.mul_comm, Z_mod_plus_full, Z.mod_small; lia).
  replace ((b + 256 * le_value l) / 256) with (le_value l) by (rewrite Z.mul_comm, Z_div_plus, Z.div_small; lia).
  by rewrite IH.
Qed.

Lemma le_value_range l : Forall byte_ok l -> 0 <= le_value l < 256 ^ Z.of_nat (length l).
Proof.
  unfold byte_ok. induction 1 as [|b l Hb Hl IH]; [cbn; lia|]. cbn [length le_value].
  rewrite Nat2Z.inj_succ, Z.pow_succ_r by lia. lia.
Qed.

Lemma le_value_app l k : le_value (l ++ k) = le_value l + 256 ^ Z.of_nat (length l) * le_value k.
Proof.
  induction l as [|b l IH]; [cbn [app le_value length]; change (256 ^ Z.of_nat 0) with 1; lia|].
  cbn [app le_value length]. rewrite IH, Nat2Z.inj_succ, Z.pow_succ_r by lia. lia.
Qed.

Lemma le_bytes_app n m v : le_bytes (n + m) v = le_bytes n v ++ le_bytes m (v / 256 ^ Z.of_nat n).
Proof.
  revert v. induction n as [|n IH]; intros v; [by rewrite Z.div_1_r|]. cbn [Nat.add le_bytes app].
  rewrite IH, Z.div_div, Nat2Z.inj_succ, Z.pow_succ_r by lia. done.
Qed.

Lemma le_bytes_mod n v : le_bytes n (v mod 256 ^ Z.of_nat n) = le_bytes n v.
Proof.
  revert v. induction n as [|n IH]; intros v; [done|]. cbn [le_bytes].
  rewrite Nat2Z.inj_succ, Z.pow_succ_r, Z.rem_mul_r by lia. rewrite Z.mul_comm. f_equal.
  - by rewrite Z_mod_plus_full, Z.mod_mod.
  - rewrite Z_div_plus by lia. by rewrite (Z.div_small (v mod 256)), Z.add_0_l, IH by (apply Z.mod_pos_bound; lia).
Qed.

(** ** Storing *)

Lemma put_app n m v w : 0 <= v -> w = Z.shiftr v (8 * Z.of_nat n) ->
  le_bytes n (v mod 256 ^ Z.of_nat n) ++ le_bytes m (w mod 256 ^ Z.of_nat m) = le_bytes (n + m) v.
Proof.
  intros Hv ->. rewrite le_bytes_app, !le_bytes_mod. f_equal. f_equal.
  rewrite Z.shiftr_div_pow2, Z.pow_mul_r by lia. done.
Qed.

Lemma wrap_nonneg x w : 0 < w -> 0 <= x mod w.
Proof. intros Hw. by apply Z.mod_pos_bound. Qed.
Lemma u16_nonneg x : 0 <= u16 x. Proof. by apply wrap_nonneg. Qed.
Lemma u32_nonneg x : 0 <= u32 x. Proof. by apply wrap_nonneg. Qed.
Hint Resolve u16_nonneg u32_nonneg : ints.

Lemma put_le16 v : sys_put_le16 v = le_bytes 2 v.
Proof. unfold sys_put_le16, u8. cbn [le_bytes]. by rewrite Z.shiftr_div_pow2. Qed.
Lemma put_le24 v : 0 <= v -> sys_put_le24 v = le_bytes 3 v.
Proof. intros Hv. unfold sys_put_le24. rewrite put_le16.
  change [u8 (Z.shiftr v 16)] with (le_bytes 1 (Z.shiftr v 16)). rewrite <- (le_bytes_mod 1). by apply (put_app 2 1 v). Qed.
Lemma put_le32 v : 0 <= v -> sys_put_le32 v = le_bytes 4 v.
Proof. intros Hv. unfold sys_put_le32. rewrite !put_le16. by apply (put_app 2 2 v). Qed.
Lemma put_le48 v : 0 <= v -> sys_put_le48 v = le_bytes 6 v.
Proof. intros Hv. unfold sys_put_le48. rewrite put_le16, put_le32 by auto with ints. by apply (put_app 4 2 v). Qed.
Lemma put_le64 v : 0 <= v -> sys_put_le64 v = le_bytes 8 v.
Proof. intros Hv. unfold sys_put_le64. rewrite !put_le32 by auto with ints. by apply (put_app 4 4 v). Qed.

Lemma put_be16 v : sys_put_be16 v = rev (sys_put_le16 v). Proof. done. Qed.
Lemma put_be24 v : sys_put_be24 v = rev (sys_put_le24 v). Proof. done. Qed.
Lemma put_be32 v : sys_put_be32 v = rev (sys_put_le32 v). Proof. done. Qed.
Lemma put_be48 v : sys_put_be48 v = rev (sys_put_le48 v). Proof. done. Qed.
Lemma put_be64 v : sys_put_be64 v = rev (sys_put_le64 v). Proof. done. Qed.

(** ** Reading *)

Lemma lor_low a b k : 0 <= k -> 0 <= b < 2 ^ k -> Z.lor (Z.shiftl a k) b = b + 2 ^ k * a.
Proof.
  intros Hk Hb. assert (Hd : Z.land b (Z.shiftl a k) = 0).
  { apply Z.bits_inj'. intros n Hn. rewrite Z.land_spec, Z.bits_0. destruct (Z.lt_ge_cases n k).
    - rewrite Z.shiftl_spec_low by done. apply andb_false_r.
    - by rewrite (proj1 (Z.bounded_iff_bits_nonneg k b Hk (proj1 Hb)) (proj2 Hb) n). }
  rewrite Z.lor_comm, <- Z.lxor_lor, <- Z.add_nocarry_lxor by done. rewrite Z.shiftl_mul_pow2 by done. lia.
Qed.

(** The lower part of a value and the rest. *)
Lemma get_app l k n : n = 8 * Z.of_nat (length l) -> Forall byte_ok l ->
  Z.lor (Z.shiftl (le_value k) n) (le_value l) = le_value (l ++ k).
Proof.
  intros -> Hl. pose proof (le_value_range l Hl).
  assert (E : 2 ^ (8 * Z.of_nat (length l)) = 256 ^ Z.of_nat (length l)) by (by rewrite Z.pow_mul_r by lia).
  by rewrite lor_low, le_value_app, E by (rewrite ?E; lia).
Qed.

Lemma le_value_1 a : le_value [a] = a. Proof. cbn. lia. Qed.

Ltac bytes_list l :=
  repeat (let b := fresh "b" in destruct l as [|b l]; [done|]); destruct l; [|done];
  match goal with H : Forall byte_ok _ |- _ => repeat (apply Forall_cons_1 in H; destruct H as [? H]) end.

Ltac bytes_ok := repeat first [apply Forall_nil_2 | apply Forall_cons_2; [assumption|]].

Lemma get_le16 a b l : byte_ok a -> byte_ok b -> sys_get_le16 (a :: b :: l) = le_value [a; b].
Proof.
  intros Ha Hb. etransitivity; [|apply (get_app [a] [b] 8); [done|bytes_ok]]. by rewrite !le_value_1.
Qed.
Lemma get_le24 l : length l = 3%nat -> Forall byte_ok l -> sys_get_le24 l = le_value l.
Proof.
  intros Hl Hb. bytes_list l. unfold sys_get_le24. rewrite get_le16 by done.
  etransitivity; [|apply (get_app [b; b0] [b1] 16); [done|bytes_ok]]. by rewrite le_value_1.
Qed.
Lemma get_le32 a b c d l : Forall byte_ok [a; b; c; d] -> sys_get_le32 (a :: b :: c :: d :: l) = le_value [a; b; c; d].
Proof.
  intros H. repeat (apply Forall_cons_1 in H; destruct H as [? H]). unfold sys_get_le32. cbn [drop]. rewrite !get_le16 by done.
  by apply (get_app [a; b] [c; d] 16); [|bytes_ok].
Qed.
Lemma get_le48 l : length l = 6%nat -> Forall byte_ok l -> sys_get_le48 l = le_value l.
Proof.
  intros Hl Hb. bytes_list l. unfold sys_get_le48. cbn [drop]. rewrite get_le16, get_le32 by (done || bytes_ok).
  by apply (get_app [b; b0] [b1; b2; b3; b4] 16); [|bytes_ok].
Qed.
Lemma get_le64 l : length l = 8%nat -> Forall byte_ok l -> sys_get_le64 l = le_value l.
Proof.
  intros Hl Hb. bytes_list l. unfold sys_get_le64. cbn [drop]. rewrite !get_le32 by bytes_ok.
  by apply (get_app [b; b0; b1; b2] [b3; b4; b5; b6] 32); [|bytes_ok].
Qed.

Lemma get_be16 a b l : byte_ok a -> byte_ok b -> sys_get_be16 (a :: b :: l) = le_value [b; a].
Proof. intros Ha Hb. change (sys_get_be16 (a :: b :: l)) with (sys_get_le16 (b :: a :: l)). by apply get_le16. Qed.
Lemma get_be24 l : length l = 3%nat -> Forall byte_ok l -> sys_get_be24 l = le_value (rev l).
Proof.
  intros Hl Hb. bytes_list l. unfold sys_get_be24. cbn [drop]. rewrite get_be16 by done.
  etransitivity; [|apply (get_app [b1; b0] [b] 16); [done|bytes_ok]]. by rewrite le_value_1.
Qed.
Lemma get_be32 a b c d l : Forall byte_ok [a; b; c; d] -> sys_get_be32 (a :: b :: c :: d :: l) = le_value [d; c; b; a].
Proof.
  intros H. repeat (apply Forall_cons_1 in H; destruct H as [? H]). unfold sys_get_be32. cbn [drop].
  rewrite !get_be16 by done. by apply (get_app [d; c] [b; a] 16); [|bytes_ok].
Qed.
Lemma get_be48 l : length l = 6%nat -> Forall byte_ok l -> sys_get_be48 l = le_value (rev l).
Proof.
  intros Hl Hb. bytes_list l. unfold sys_get_be48. cbn [drop]. rewrite get_be16, get_be32 by (done || bytes_ok).
  by apply (get_app [b4; b3] [b2; b1; b0; b] 16); [|bytes_ok].
Qed.
Lemma get_be64 l : length l = 8%nat -> Forall byte_ok l -> sys_get_be64 l = le_value (rev l).
Proof.
  intros Hl Hb. bytes_list l. unfold sys_get_be64. cbn [drop]. rewrite !get_be32 by bytes_ok.
  by apply (get_app [b6; b5; b4; b3] [b2; b1; b0; b] 32); [|bytes_ok].
Qed.

(** ** Reversing memory *)

Lemma memcpy_swap_loop len dst src p :
  (p + len <= length dst)%nat -> (len <= length src)%nat ->
  sys_memcpy_swap dst src p (pred len) len = take p dst ++ rev (take len src) ++ drop (p + len) dst.
Proof.
  revert dst p. induction len as [|len IH]; intros dst p Hd Hs.
  - rewrite Nat.add_0_r. symmetry. apply take_drop.
  - cbn [sys_memcpy_swap pred]. rewrite IH by (rewrite ?length_insert; lia).
    destruct (lookup_lt_is_Some_2 src len) as [x Hx]; [lia|].
    rewrite (take_S_r _ _ _ Hx), rev_app_distr. unfold at_. rewrite Hx. cbn [default rev app].
    rewrite (take_S_r (<[p:=x]> dst) p x) by (apply list_lookup_insert_eq; lia).
    rewrite take_insert_ge, drop_insert_lt by lia. rewrite <- app_assoc.
    replace (S p + len)%nat with (p + S len)%nat by lia. done.
Qed.

Lemma mem_swap_loop buf k : (2 * k <= length buf)%nat ->
  let n := length buf in
  let r := fold_left (fun buf i => <[n - 1 - i := at_ buf i]> (<[i := at_ buf (n - 1 - i)]> buf))%nat (seq 0 k) buf in
  length r = n /\
  forall j, (j < n)%nat -> r !! j = buf !! (if (j <? k) || (n - 1 - k <? j) then n - 1 - j else j)%nat.
Proof.
  induction k as [|k IH]; intros Hk; cbv zeta in *.
  - split; [done|]. intros j Hj.
    by replace (length buf - 1 - 0 <? j)%nat with false by (symmetry; apply Nat.ltb_ge; lia).
  - destruct IH as [Hl Hr]; [lia|]. rewrite seq_S, fold_left_app. cbn [fold_left Nat.add].
    set (r := fold_left _ _ _) in *. split; [by rewrite !length_insert|]. intros j Hj.
    set (n := length buf) in *.
    assert (Hat : forall i y, r !! i = Some y -> at_ r i = y) by (intros i y Hy; unfold at_; by rewrite Hy).
    destruct (lookup_lt_is_Some_2 buf k) as [x Hx]; [lia|].
    destruct (lookup_lt_is_Some_2 buf (n - 1 - k)) as [y Hy]; [lia|].
    assert (Hrk : r !! k = Some x).
    { rewrite Hr by lia. by destruct (Nat.ltb_spec k k), (Nat.ltb_spec (n - 1 - k) k); try lia. }
    assert (Hrj : r !! (n - 1 - k)%nat = Some y).
    { rewrite Hr by lia. by destruct (Nat.ltb_spec (n - 1 - k) k), (Nat.ltb_spec (n - 1 - k) (n - 1 - k)); try lia. }
    rewrite (Hat _ _ Hrk), (Hat _ _ Hrj).
    destruct (decide (j = n - 1 - k)%nat) as [->|Hne1]; [|destruct (decide (j = k)) as [->|Hne2]].
    + rewrite list_lookup_insert_eq by (rewrite length_insert; lia).
      destruct (Nat.ltb_spec (n - 1 - S k) (n - 1 - k)); [|lia]. rewrite orb_true_r.
      by replace (n - 1 - (n - 1 - k))%nat with k by lia.
    + rewrite list_lookup_insert_ne, list_lookup_insert_eq by lia. by destruct (Nat.ltb_spec k (S k)); [|lia].
    + rewrite !list_lookup_insert_ne, Hr by lia.
      destruct (Nat.ltb_spec j k), (Nat.ltb_spec j (S k)), (Nat.ltb_spec (n - 1 - k) j),
        (Nat.ltb_spec (n - 1 - S k) j); done || lia.
Qed.

Lemma mem_swap_rev buf : sys_mem_swap buf (length buf) = rev buf.
Proof.
  pose proof (Nat.div_mod (length buf) 2 ltac:(lia)) as Hd. pose proof (Nat.mod_upper_bound (length buf) 2 ltac:(lia)).
  destruct (mem_swap_loop buf (length buf / 2)) as [Hl Hr]; [lia|]. apply list_eq. intros j.
  destruct (Nat.lt_ge_cases j (length buf)) as [Hj|Hj].
  - unfold sys_mem_swap. cbv zeta. rewrite Hr by done. rewrite rev_alt. change (rev_append buf []) with (reverse buf).
    rewrite reverse_lookup by done.
    destruct (Nat.ltb_spec j (length buf / 2)), (Nat.ltb_spec (length buf - 1 - length buf / 2) j);
      cbn [orb]; f_equal; lia.
  - rewrite !lookup_ge_None_2; [done|by rewrite length_rev|]. by rewrite <- Hl in Hj.
Qed.

(** ** The property *)

(** [put] and [get] are inverse to each other on integers of [w] bytes and on
    byte sequences of length [w]. *)
Record codec (w : nat) (put : Z -> list Z) (get : list Z -> Z) : Prop := {
  put_length : forall v, 0 <= v < 256 ^ Z.of_nat w -> length (put v) = w;
  get_put : forall v, 0 <= v < 256 ^ Z.of_nat w -> get (put v) = v;
  put_get : forall l, length l = w -> Forall byte_ok l -> put (get l) = l }.

Lemma le_bytes_ok n v : Forall byte_ok (le_bytes n v).
Proof.
  revert v. induction n as [|n IH]; intros v; [apply Forall_nil_2|]. apply Forall_cons_2; [|apply IH].
  apply Z.mod_pos_bound. lia.
Qed.

Lemma codec_le w put get :
  (forall v, 0 <= v -> put v = le_bytes w v) ->
  (forall l, length l = w -> Forall byte_ok l -> get l = le_value l) -> codec w put get.
Proof.
  intros Hp Hg. split.
  - intros v Hv. rewrite Hp by lia. apply le_bytes_length.
  - intros v Hv. rewrite Hp, Hg by (lia || apply le_bytes_length || apply le_bytes_ok). by apply le_bytes_value.
  - intros l Hl Hb. pose proof (le_value_range l Hb). rewrite Hg, Hp by (done || lia). rewrite <- Hl. by apply le_value_bytes.
Qed.

Lemma codec_be w put put' get :
  (forall v, put' v = rev (put v)) -> (forall v, 0 <= v -> put v = le_bytes w v) ->
  (forall l, length l = w -> Forall byte_ok l -> get l = le_value (rev l)) -> codec w put' get.
Proof.
  intros Hr Hp Hg. assert (Hf : forall l, Forall byte_ok l -> Forall byte_ok (rev l)) by (intros l; apply Forall_rev). split.
  - intros v Hv. rewrite Hr, length_rev, Hp by lia. apply le_bytes_length.
  - intros v Hv. rewrite Hr, Hp, Hg by
      (lia || (rewrite length_rev; apply le_bytes_length) || apply Hf, le_bytes_ok).
    rewrite rev_involutive. by apply le_bytes_value.
  - intros l Hl Hb. pose proof (le_value_range (rev l) (Hf l Hb)). rewrite Hg, Hr, Hp by (done || lia).
    rewrite <- Hl, <- length_rev, le_value_bytes by by apply Hf. apply rev_involutive.
Qed.

Lemma get_le16_list l : length l = 2%nat -> Forall byte_ok l -> sys_get_le16 l = le_value l.
Proof. intros Hl Hb. bytes_list l. by apply get_le16. Qed.
Lemma get_le32_list l : length l = 4%nat -> Forall byte_ok l -> sys_get_le32 l = le_value l.
Proof. intros Hl Hb. bytes_list l. apply get_le32. bytes_ok. Qed.
Lemma get_be16_list l : length l = 2%nat -> Forall byte_ok l -> sys_get_be16 l = le_value (rev l).
Proof. intros Hl Hb. bytes_list l. by apply get_be16. Qed.
Lemma get_be32_list l : length l = 4%nat -> Forall byte_ok l -> sys_get_be32 l = le_value (rev l).
Proof. intros Hl Hb. bytes_list l. apply get_be32. bytes_ok. Qed.

(** Integers of 2, 3, 4, 6 and 8 bytes are read back as they were stored,
    in either byte order, and a byte sequence read is stored back unchanged;
    the two orders are the reversal [sys_mem_swap] and [sys_memcpy_swap]
    perform, whatever the length. *)
Theorem byteorder_roundtrip :
  codec 2 sys_put_le16 sys_get_le16 /\ codec 3 sys_put_le24 sys_get_le24 /\ codec 4 sys_put_le32 sys_get_le32 /\
  codec 6 sys_put_le48 sys_get_le48 /\ codec 8 sys_put_le64 sys_get_le64 /\
  codec 2 sys_put_be16 sys_get_be16 /\ codec 3 sys_put_be24 sys_get_be24 /\ codec 4 sys_put_be32 sys_get_be32 /\
  codec 6 sys_put_be48 sys_get_be48 /\ codec 8 sys_put_be64 sys_get_be64 /\
  (forall v, sys_put_be64 v = sys_mem_swap (sys_put_le64 v) 8) /\
  (forall buf, sys_mem_swap buf (length buf) = rev buf) /\
  (forall dst src, (length src <= length dst)%nat ->
    sys_memcpy_swap dst src 0 (pred (length src)) (length src) = rev src ++ drop (length src) dst).
Proof.
  split_and!.
  - apply codec_le; [intros; apply put_le16|apply get_le16_list].
  - apply codec_le; [apply put_le24|apply get_le24].
  - apply codec_le; [apply put_le32|apply get_le32_list].
  - apply codec_le; [apply put_le48|apply get_le48].
  - apply codec_le; [apply put_le64|apply get_le64].
  - apply (codec_be _ _ _ _ put_be16); [intros; apply put_le16|apply get_be16_list].
  - apply (codec_be _ _ _ _ put_be24); [apply put_le24|apply get_be24].
  - apply (codec_be _ _ _ _ put_be32); [apply put_le32|apply get_be32_list].
  - apply (codec_be _ _ _ _ put_be48); [apply put_le48|apply get_be48].
  - apply (codec_be _ _ _ _ put_be64); [apply put_le64|apply get_be64].
  - intros v. rewrite put_be64. symmetry. apply mem_swap_rev.
  - apply mem_swap_rev.
  - intros dst src Hl. rewrite memcpy_swap_loop by lia. by rewrite (take_ge src) by lia.
Qed.
