(* ===== verification/Uuid.v ===== *)
(** * Bluetooth UUIDs (subsys/bluetooth/host/uuid.c)

    Comparing UUIDs of the three sizes and reading them from a packet. *)
From S2P Require Import Prelude ByteOrder.
From stdpp Require Import prelude list numbers.
From Stdlib Require Import ZArith Lia.
Open Scope Z_scope.

(** ** The operations *)

Inductive bt_uuid : Type :=
| UUID_16 (val : Z)
| UUID_32 (val : Z)
| UUID_128 (val : list Z).

Definition UUID_16_BASE_OFFSET : nat := 12.

(** 0000[0000]-0000-1000-8000-00805F9B34FB, least significant byte first. *)
Definition uuid128_base : list Z :=
  [0xFB; 0x34; 0x9B; 0x5F; 0x80; 0x00; 0x00; 0x80; 0x00; 0x10; 0x00; 0x00; 0x00; 0x00; 0x00; 0x00].

(** [memcpy(&dst[off], bytes, n)] within an array. *)
Definition put_at (dst : list Z) (off : nat) (bytes : list Z) : list Z :=
  take off dst ++ bytes ++ drop (off + length bytes) dst.

Definition uuid_to_uuid128 (src : bt_uuid) : list Z :=
  match src with
  | UUID_16 v => put_at uuid128_base UUID_16_BASE_OFFSET (sys_put_le16 v)
  | UUID_32 v => put_at uuid128_base UUID_16_BASE_OFFSET (sys_put_le32 v)
  | UUID_128 val => val
  end.

(** [memcmp]: the difference of the first bytes that differ. *)
Fixpoint memcmp (a b : list Z) : Z :=
  match a, b with
  | x :: a', y :: b' => if x =? y then memcmp a' b' else x - y
  | _, _ => 0
  end.

Definition uuid128_cmp (u1 u2 : bt_uuid) : Z := memcmp (uuid_to_uuid128 u1) (uuid_to_uuid128 u2).

(** [(int)] of a 32-bit value; the difference of two wraps around (the kernel
    is built with [-fno-strict-overflow]). *)
Definition s32 (x : Z) : Z := (x + 2 ^ 31) mod 2 ^ 32 - 2 ^ 31.

Definition bt_uuid_cmp (u1 u2 : bt_uuid) : Z :=
  match u1, u2 with
  | UUID_16 a, UUID_16 b => a - b
  | UUID_32 a, UUID_32 b => s32 (s32 a - s32 b)
  | UUID_128 a, UUID_128 b => memcmp a b
  | _, _ => uuid128_cmp u1 u2
  end.

Definition bt_uuid_create (data : list Z) (data_len : Z) : option bt_uuid :=
  if data_len =? 2 then Some (UUID_16 (sys_get_le16 data))
  else if data_len =? 4 then Some (UUID_32 (sys_get_le32 data))
  else if data_len =? 16 then Some (UUID_128 (take 16 data))
  else None.

(** ** Well-formed UUIDs *)

Definition uuid_ok (u : bt_uuid) : Prop :=
  match u with
  | UUID_16 v => 0 <= v < 2 ^ 16
  | UUID_32 v => 0 <= v < 2 ^ 32
  | UUID_128 l => length l = 16%nat /\ Forall byte_ok l
  end.

Lemma memcmp_eq a b : length a = length b -> memcmp a b = 0 <-> a = b.
Proof.
  revert b. induction a as [|x a IH]; intros [|y b] Hl; cbn in *; try done.
  destruct (Z.eqb_spec x y) as [->|Hn].
  - rewrite IH by lia. split; [by intros ->|by intros [= ->]].
  - split; [lia|congruence].
Qed.

Lemma uuid128_length u : uuid_ok u -> length (uuid_to_uuid128 u) = 16%nat.
Proof. destruct u; [done|done|]. by intros [H _]. Qed.

Lemma s32_diff_0 a b : 0 <= a < 2 ^ 32 -> 0 <= b < 2 ^ 32 -> s32 (s32 a - s32 b) = 0 <-> a = b.
Proof.
  intros Ha Hb. unfold s32. split; [|intros ->; by rewrite Z.sub_diag].
  change (2 ^ 32) with 4294967296 in *. change (2 ^ 31) with 2147483648. intros H. Z.div_mod_to_equations. lia.
Qed.

Lemma put16_inj a b : 0 <= a < 2 ^ 16 -> 0 <= b < 2 ^ 16 -> sys_put_le16 a = sys_put_le16 b -> a = b.
Proof.
  intros Ha Hb H. rewrite !put_le16 in H.
  by rewrite <- (le_bytes_value 2 a), <- (le_bytes_value 2 b), H.
Qed.

Lemma put32_inj a b : 0 <= a < 2 ^ 32 -> 0 <= b < 2 ^ 32 -> sys_put_le32 a = sys_put_le32 b -> a = b.
Proof.
  intros Ha Hb H. rewrite !put_le32 in H by lia.
  by rewrite <- (le_bytes_value 4 a), <- (le_bytes_value 4 b), H.
Qed.

Lemma put_at_inj off (k l : list Z) : length k = length l ->
  put_at uuid128_base off k = put_at uuid128_base off l -> k = l.
Proof. intros Hl H. unfold put_at in H. apply app_inv_head in H. by apply app_inj_1 in H as [H _]. Qed.

(** ** The properties *)

(** Two UUIDs of whatever sizes compare equal exactly when they stand for
    the same 128-bit UUID (the short ones placed into the Bluetooth base), so
    the comparison is an equivalence although it takes a different way for
    every pair of sizes. *)
Theorem uuid_cmp_correct u1 u2 : uuid_ok u1 -> uuid_ok u2 ->
  bt_uuid_cmp u1 u2 = 0 <-> uuid_to_uuid128 u1 = uuid_to_uuid128 u2.
Proof.
  intros H1 H2.
  assert (H128 : uuid128_cmp u1 u2 = 0 <-> uuid_to_uuid128 u1 = uuid_to_uuid128 u2).
  { apply memcmp_eq. by rewrite !uuid128_length. }
  destruct u1 as [a|a|a], u2 as [b|b|b]; try exact H128; cbn [bt_uuid_cmp uuid_to_uuid128].
  - split; [intros H; by replace b with a by lia|]. intros H%put_at_inj; [|done].
    apply put16_inj in H; [lia|done..].
  - rewrite s32_diff_0 by done. split; [by intros ->|]. intros H%put_at_inj; [|done]. by apply put32_inj in H.
Qed.

Lemma uuid_cmp_correct_witness :
  bt_uuid_cmp (UUID_16 0x180e) (UUID_32 0x180e) = 0 <->
  uuid_to_uuid128 (UUID_16 0x180e) = uuid_to_uuid128 (UUID_32 0x180e).
Proof. apply (uuid_cmp_correct (UUID_16 0x180e) (UUID_32 0x180e)); done. Defined.
