(* ===== verification/Att.v ===== *)
(** * Attribute protocol (subsys/bluetooth/host/att.c, gatt.c)

    How a request of the phone reaches the callback of a characteristic and how
    it is answered: the dispatch of a packet, the write requests and commands,
    the lookup in the table of static services, the permission check, client
    configuration descriptors and the exchange of the packet size.

    The services' own state is a parameter [S]; their callbacks are functions
    of the monad over it. Handing a packet to L2CAP and getting a packet buffer
    are parameters. The configuration is the one of the samples: prepared
    writes, signed writes, enhanced bearers, the client role and the dynamic
    database are off; flow control of requests is on. *)
From S2P Require Import Prelude Platform ByteOrder Uuid.
From stdpp Require Import prelude list numbers.
From Stdlib Require Import ZArith Lia.
Open Scope Z_scope.

(** ** Constants (att_internal.h, att.h, gatt.h) *)

Definition BT_ATT_DEFAULT_LE_MTU : Z := 23.
Definition BT_ATT_OP_ERROR_RSP : Z := 0x01.
Definition BT_ATT_OP_MTU_REQ : Z := 0x02.
Definition BT_ATT_OP_MTU_RSP : Z := 0x03.
Definition BT_ATT_OP_WRITE_REQ : Z := 0x12.
Definition BT_ATT_OP_WRITE_RSP : Z := 0x13.
Definition BT_ATT_OP_PREPARE_WRITE_REQ : Z := 0x16.
Definition BT_ATT_OP_EXEC_WRITE_REQ : Z := 0x18.
Definition BT_ATT_OP_CONFIRM : Z := 0x1e.
Definition BT_ATT_OP_WRITE_CMD : Z := 0x52.
Definition BT_ATT_OP_SIGNED_WRITE_CMD : Z := 0xd2.
Definition ATT_CMD_MASK : Z := 0x40.

Definition BT_ATT_ERR_INVALID_HANDLE : Z := 0x01.
Definition BT_ATT_ERR_READ_NOT_PERMITTED : Z := 0x02.
Definition BT_ATT_ERR_WRITE_NOT_PERMITTED : Z := 0x03.
Definition BT_ATT_ERR_INVALID_PDU : Z := 0x04.
Definition BT_ATT_ERR_AUTHENTICATION : Z := 0x05.
Definition BT_ATT_ERR_NOT_SUPPORTED : Z := 0x06.
Definition BT_ATT_ERR_INVALID_OFFSET : Z := 0x07.
Definition BT_ATT_ERR_INVALID_ATTRIBUTE_LEN : Z := 0x0d.
Definition BT_ATT_ERR_UNLIKELY : Z := 0x0e.
Definition BT_ATT_ERR_INSUFFICIENT_ENCRYPTION : Z := 0x0f.
Definition BT_ATT_ERR_INSUFFICIENT_RESOURCES : Z := 0x11.
Definition BT_ATT_ERR_DB_OUT_OF_SYNC : Z := 0x12.
Definition BT_GATT_ERR (e : Z) : Z := - e.

Definition BT_GATT_PERM_NONE : Z := 0.
Definition BT_GATT_PERM_READ : Z := 1.
Definition BT_GATT_PERM_WRITE : Z := 2.
Definition BT_GATT_PERM_READ_ENCRYPT : Z := 4.
Definition BT_GATT_PERM_WRITE_ENCRYPT : Z := 8.
Definition BT_GATT_PERM_READ_AUTHEN : Z := 16.
Definition BT_GATT_PERM_WRITE_AUTHEN : Z := 32.
Definition BT_GATT_PERM_READ_MASK : Z :=
  Z.lor (Z.lor BT_GATT_PERM_READ BT_GATT_PERM_READ_ENCRYPT) BT_GATT_PERM_READ_AUTHEN.
Definition BT_GATT_PERM_WRITE_MASK : Z :=
  Z.lor (Z.lor BT_GATT_PERM_WRITE BT_GATT_PERM_WRITE_ENCRYPT) BT_GATT_PERM_WRITE_AUTHEN.
Definition BT_GATT_PERM_ENCRYPT_MASK : Z := Z.lor BT_GATT_PERM_READ_ENCRYPT BT_GATT_PERM_WRITE_ENCRYPT.
Definition BT_GATT_PERM_AUTHEN_MASK : Z := Z.lor BT_GATT_PERM_READ_AUTHEN BT_GATT_PERM_WRITE_AUTHEN.
Definition BT_GATT_WRITE_FLAG_CMD : Z := 2.
Definition BT_SECURITY_L3 : Z := 3.

(** ** State *)

(** The connection: identity, peer addresses and security. *)
Record bt_conn := mk_conn {
  conn_id : Z; dst : Z; init_addr : Z; sec_level : Z; encrypt : bool }.

Definition BT_ADDR_LE_ANY : Z := 0.

(** An entry of a client configuration descriptor, and the descriptor. *)
Record ccc_cfg := mk_ccc_cfg { cfg_id : Z; cfg_peer : Z; cfg_value : Z }.
Record gatt_ccc := mk_ccc { ccc_cfgs : list ccc_cfg; ccc_value : Z }.

(** What is known of a client's cache of the database. *)
Record cf_cfg := mk_cf { robust_caching : bool; change_aware : bool; out_of_sync : bool }.

(** The channel of the connection, the state of the services behind it, and
    the packets handed over to L2CAP, queued on the channel (responses) and
    queued on the connection (notifications). *)
Record att_env (S : Type) := mk_env {
  srv : S;
  conn : bt_conn;
  attached : bool;
  pending_rsp : bool;
  tx_mtu : Z;
  rx_mtu : Z;
  cf : option cf_cfg;
  ccc : gatt_ccc;
  out : list (list Z);
  tx_queue : list (list Z);
  att_queue : list (list Z) }.
Arguments mk_env {S}.
Arguments srv {S}. Arguments conn {S}. Arguments attached {S}. Arguments pending_rsp {S}. Arguments tx_mtu {S}.
Arguments rx_mtu {S}. Arguments cf {S}. Arguments ccc {S}. Arguments out {S}. Arguments tx_queue {S}. Arguments att_queue {S}.

Section env.
Context {S : Type}.
Implicit Types e : att_env S.

Definition set_srv (x : S) e : att_env S :=
  mk_env x (conn e) (attached e) (pending_rsp e) (tx_mtu e) (rx_mtu e) (cf e) (ccc e) (out e) (tx_queue e) (att_queue e).
Definition set_pending_rsp (x : bool) e : att_env S :=
  mk_env (srv e) (conn e) (attached e) x (tx_mtu e) (rx_mtu e) (cf e) (ccc e) (out e) (tx_queue e) (att_queue e).
Definition set_mtu (x : Z) e : att_env S :=
  mk_env (srv e) (conn e) (attached e) (pending_rsp e) x x (cf e) (ccc e) (out e) (tx_queue e) (att_queue e).
Definition set_cf (x : option cf_cfg) e : att_env S :=
  mk_env (srv e) (conn e) (attached e) (pending_rsp e) (tx_mtu e) (rx_mtu e) x (ccc e) (out e) (tx_queue e) (att_queue e).
Definition set_ccc (x : gatt_ccc) e : att_env S :=
  mk_env (srv e) (conn e) (attached e) (pending_rsp e) (tx_mtu e) (rx_mtu e) (cf e) x (out e) (tx_queue e) (att_queue e).
Definition set_out (x : list (list Z)) e : att_env S :=
  mk_env (srv e) (conn e) (attached e) (pending_rsp e) (tx_mtu e) (rx_mtu e) (cf e) (ccc e) x (tx_queue e) (att_queue e).
Definition set_tx_queue (x : list (list Z)) e : att_env S :=
  mk_env (srv e) (conn e) (attached e) (pending_rsp e) (tx_mtu e) (rx_mtu e) (cf e) (ccc e) (out e) x (att_queue e).
Definition set_att_queue (x : list (list Z)) e : att_env S :=
  mk_env (srv e) (conn e) (attached e) (pending_rsp e) (tx_mtu e) (rx_mtu e) (cf e) (ccc e) (out e) (tx_queue e) x.

(** A callback of the services. *)
Definition on_srv {A} (m : M S A) : M (att_env S) A := fun e =>
  let (r, x) := m (srv e) in (r, set_srv x e).

(** An attribute: its callbacks and its permissions. A read gets the
    attribute's handle, the room and the offset, and answers an error or the
    bytes it stored. *)
Record bt_gatt_attr := mk_attr {
  uuid : bt_uuid;
  read : option (Z -> Z -> Z -> M (att_env S) (Z + list Z));
  write : option (cbuf -> Z -> Z -> Z -> M (att_env S) Z);
  user_data : Z;
  perm : Z }.

End env.
Arguments bt_gatt_attr S : clear implicits.

(** ** Operations *)
Section operations.
Context {S : Type}.

(** [bt_l2cap_create_pdu*]: whether a packet buffer is available, and
    [bt_l2cap_send_cb]: what handing over a packet answers. *)
Context (l2cap_alloc : att_env S -> bool) (l2cap_send : att_env S -> list Z -> Z).
(** [BT_ATT_MTU], the size the stack is configured for. *)
Context (BT_ATT_MTU : Z).
(** The static services in the order of their section, and what follows the
    packet in its buffer. *)
Context (services : list (list (bt_gatt_attr S))) (tail : list Z).

(** *** Packets *)

Inductive att_type : Type :=
  ATT_COMMAND | ATT_REQUEST | ATT_RESPONSE | ATT_NOTIFICATION | ATT_CONFIRMATION | ATT_INDICATION | ATT_UNKNOWN.

Definition att_op_get_type (op : Z) : att_type :=
  if existsb (Z.eqb op) [0x02; 0x04; 0x06; 0x08; 0x0a; 0x0c; 0x0e; 0x10; 0x12; 0x16; 0x18] then ATT_REQUEST
  else if op =? BT_ATT_OP_CONFIRM then ATT_CONFIRMATION
  else if existsb (Z.eqb op) [BT_ATT_OP_WRITE_CMD; BT_ATT_OP_SIGNED_WRITE_CMD] then ATT_COMMAND
  else if existsb (Z.eqb op) [0x01; 0x03; 0x05; 0x07; 0x09; 0x0b; 0x0d; 0x0f; 0x11; 0x13; 0x17; 0x19] then ATT_RESPONSE
  else if op =? 0x1b then ATT_NOTIFICATION
  else if op =? 0x1d then ATT_INDICATION
  else if Z.land op ATT_CMD_MASK =? 0 then ATT_UNKNOWN
  else ATT_COMMAND.

Definition bt_att_chan_create_pdu (op len : Z) : M (att_env S) (option (list Z)) := fun e =>
  if tx_mtu e <? len + 1 then (Done None, e)
  else if l2cap_alloc e then (Done (Some [op]), e) else (Done None, e).

(** [chan_send] for a response: the packet is handed over, or an error code is
    answered and the packet is the caller's again. *)
Definition chan_send (buf : list Z) : M (att_env S) Z := fun e =>
  let err := l2cap_send e buf in
  (Done err, if err =? 0 then set_out (out e ++ [buf]) e else e).

Definition bt_att_chan_send_rsp (buf : list Z) : M (att_env S) unit :=
  err ← chan_send buf;
  if err =? 0 then mret tt else modify (fun e => set_tx_queue (tx_queue e ++ [buf]) e).

(** Called when the response has left: the next request may come. *)
Definition chan_rsp_sent : M (att_env S) unit := modify (set_pending_rsp false).

Definition send_err_rsp (req handle err : Z) : M (att_env S) unit :=
  if req =? 0 then mret tt
  else
    buf ← bt_att_chan_create_pdu BT_ATT_OP_ERROR_RSP 4;
    match buf with
    | None => mret tt
    | Some buf => bt_att_chan_send_rsp (buf ++ [req] ++ sys_put_le16 handle ++ [err])
    end.

Definition err_to_att (err : Z) : Z := if (err <? 0) && (-0xff <=? err) then - err else BT_ATT_ERR_UNLIKELY.

(** *** The exchange of the packet size

    [bt_att_create_pdu] takes the connection's only channel. *)

Definition att_mtu_req (data : list Z) : M (att_env S) Z :=
  let mtu_client := sys_get_le16 data in
  if mtu_client <? BT_ATT_DEFAULT_LE_MTU then mret BT_ATT_ERR_INVALID_PDU
  else
    pdu ← bt_att_chan_create_pdu BT_ATT_OP_MTU_RSP 2;
    match pdu with
    | None => mret BT_ATT_ERR_UNLIKELY
    | Some pdu =>
        let mtu_server := BT_ATT_MTU in
        bt_att_chan_send_rsp (pdu ++ sys_put_le16 mtu_server);;
        modify (set_mtu (Z.min mtu_client mtu_server));;
        mret 0
    end.

(** *** The database *)

(** [bt_gatt_change_aware]: a client that cached an older database is told
    once, unless it sends a command. *)
Definition bt_gatt_change_aware (req : bool) : M (att_env S) bool :=
  c ← gets cf;
  match c with
  | None => mret true
  | Some c =>
      if negb (robust_caching c) then mret true
      else if change_aware c then mret true
      else if negb req then mret false
      else if out_of_sync c then
        modify (set_cf (Some (mk_cf true true false)));;
        mret true
      else
        modify (set_cf (Some (mk_cf true (change_aware c) true)));;
        mret false
  end.

Definition bt_gatt_check_perm (c : bt_conn) (attr : bt_gatt_attr S) (mask : Z) : Z :=
  if negb (Z.land mask BT_GATT_PERM_READ =? 0) &&
     ((Z.land (perm attr) BT_GATT_PERM_READ_MASK =? 0) || match read attr with None => true | _ => false end)
  then BT_ATT_ERR_READ_NOT_PERMITTED
  else if negb (Z.land mask BT_GATT_PERM_WRITE =? 0) &&
     ((Z.land (perm attr) BT_GATT_PERM_WRITE_MASK =? 0) || match write attr with None => true | _ => false end)
  then BT_ATT_ERR_WRITE_NOT_PERMITTED
  else
    let mask := Z.land mask (perm attr) in
    if negb (Z.land mask BT_GATT_PERM_AUTHEN_MASK =? 0) && (sec_level c <? BT_SECURITY_L3)
    then BT_ATT_ERR_AUTHENTICATION
    else if negb (Z.land mask BT_GATT_PERM_ENCRYPT_MASK =? 0) && negb (encrypt c)
    then BT_ATT_ERR_INSUFFICIENT_ENCRYPTION
    else 0.

(** [true] is [BT_GATT_ITER_CONTINUE]; [D] is what [user_data] points to. *)
Definition gatt_foreach_iter {D} (attr : bt_gatt_attr S) (handle start_handle end_handle : Z)
    (uuid_ : option bt_uuid) (attr_data : option Z) (num_matches : Z)
    (func : bt_gatt_attr S -> Z -> D -> M (att_env S) (bool * D)) (d : D) : M (att_env S) (bool * Z * D) :=
  if end_handle <? handle then mret (false, num_matches, d)
  else if handle <? start_handle then mret (true, num_matches, d)
  else if match uuid_ with Some u => negb (bt_uuid_cmp u (uuid attr) =? 0) | None => false end
  then mret (true, num_matches, d)
  else if match attr_data with Some x => negb (x =? user_data attr) | None => false end
  then mret (true, num_matches, d)
  else
    let num_matches := u16 (num_matches - 1) in
    r ← func attr handle d;
    mret (if num_matches =? 0 then false else r.1, num_matches, r.2).

(** The attributes of one service; answers whether to go on. *)
Fixpoint foreach_attrs {D} (attrs : list (bt_gatt_attr S)) (handle start_handle end_handle : Z)
    (uuid_ : option bt_uuid) (attr_data : option Z) (num_matches : Z)
    (func : bt_gatt_attr S -> Z -> D -> M (att_env S) (bool * D)) (d : D) : M (att_env S) (bool * Z * Z * D) :=
  match attrs with
  | [] => mret (true, handle, num_matches, d)
  | a :: attrs' =>
      r ← gatt_foreach_iter a handle start_handle end_handle uuid_ attr_data num_matches func d;
      let '(go, num_matches, d) := r in
      if go : bool
      then foreach_attrs attrs' (u16 (handle + 1)) start_handle end_handle uuid_ attr_data num_matches func d
      else mret (false, handle, num_matches, d)
  end.

Fixpoint foreach_services {D} (svcs : list (list (bt_gatt_attr S))) (handle start_handle end_handle : Z)
    (uuid_ : option bt_uuid) (attr_data : option Z) (num_matches : Z)
    (func : bt_gatt_attr S -> Z -> D -> M (att_env S) (bool * D)) (d : D) : M (att_env S) D :=
  match svcs with
  | [] => mret d
  | svc :: svcs' =>
      let attr_count := Z.of_nat (length svc) in
      if handle + attr_count <? start_handle
      then foreach_services svcs' (u16 (handle + attr_count)) start_handle end_handle uuid_ attr_data num_matches func d
      else
        r ← foreach_attrs svc handle start_handle end_handle uuid_ attr_data num_matches func d;
        let '(go, handle, num_matches, d) := r in
        if go : bool then foreach_services svcs' handle start_handle end_handle uuid_ attr_data num_matches func d
        else mret d
  end.

Definition last_static_handle : Z := u16 (Z.of_nat (length (concat services))).

Definition bt_gatt_foreach_attr_type {D} (start_handle end_handle : Z) (uuid_ : option bt_uuid) (attr_data : option Z)
    (num_matches : Z) (func : bt_gatt_attr S -> Z -> D -> M (att_env S) (bool * D)) (d : D) : M (att_env S) D :=
  let num_matches := if num_matches =? 0 then 65535 else num_matches in
  if start_handle <=? last_static_handle
  then foreach_services services 1 start_handle end_handle uuid_ attr_data num_matches func d
  else mret d.

Definition bt_gatt_foreach_attr {D} (start_handle end_handle : Z)
    (func : bt_gatt_attr S -> Z -> D -> M (att_env S) (bool * D)) (d : D) : M (att_env S) D :=
  bt_gatt_foreach_attr_type start_handle end_handle None None 0 func d.

(** *** Writing *)

Record write_data := mk_write { w_req : Z; w_value : cbuf; w_len : Z; w_offset : Z; w_err : Z }.
Definition set_err (err : Z) (d : write_data) : write_data :=
  mk_write (w_req d) (w_value d) (w_len d) (w_offset d) err.

Definition write_cb (attr : bt_gatt_attr S) (handle : Z) (data : write_data) : M (att_env S) (bool * write_data) :=
  c ← gets conn;
  let err := bt_gatt_check_perm c attr BT_GATT_PERM_WRITE_MASK in
  let data := set_err err data in
  if negb (err =? 0) then mret (false, data)
  else
    let flags := if w_req data =? 0 then BT_GATT_WRITE_FLAG_CMD else 0 in
    match write attr with
    | None => stop_with NullDeref
    | Some f =>
        wr ← f (w_value data) (w_len data) (w_offset data) flags;
        if (wr <? 0) || negb (wr =? w_len data)
        then mret (false, set_err (err_to_att wr) data)
        else mret (true, set_err 0 data)
    end.

Definition att_write_rsp (req rsp handle offset : Z) (value : cbuf) (len : Z) : M (att_env S) Z :=
  aware ← bt_gatt_change_aware (negb (req =? 0));
  if negb aware then mret BT_ATT_ERR_DB_OUT_OF_SYNC
  else if handle =? 0 then mret BT_ATT_ERR_INVALID_HANDLE
  else
    buf ← (if rsp =? 0 then mret None else bt_att_chan_create_pdu rsp 0);
    if negb (rsp =? 0) && match buf with None => true | _ => false end then mret BT_ATT_ERR_UNLIKELY
    else
      data ← bt_gatt_foreach_attr handle handle write_cb (mk_write req value len offset BT_ATT_ERR_INVALID_HANDLE);
      if negb (w_err data =? 0) then
        (if rsp =? 0 then mret tt else send_err_rsp req handle (w_err data));;
        mret (if req =? BT_ATT_OP_EXEC_WRITE_REQ then w_err data else 0)
      else
        match buf with
        | Some pdu => bt_att_chan_send_rsp pdu;; mret 0
        | None => mret 0
        end.

(** The value is what is left of the packet. *)
Definition value_of (data : list Z) : cbuf := mk_buf (Z.of_nat (length data)) (data ++ tail).

Definition att_write_req (data : list Z) : M (att_env S) Z :=
  let handle := sys_get_le16 data in
  let rest := drop 2 data in
  att_write_rsp BT_ATT_OP_WRITE_REQ BT_ATT_OP_WRITE_RSP handle 0 (value_of rest) (Z.of_nat (length rest)).

Definition att_write_cmd (data : list Z) : M (att_env S) Z :=
  let handle := sys_get_le16 data in
  let rest := drop 2 data in
  att_write_rsp 0 0 handle 0 (value_of rest) (Z.of_nat (length rest)).

(** Without buffers for prepared writes. *)
Definition att_prepare_write_req (data : list Z) : M (att_env S) Z := mret BT_ATT_ERR_NOT_SUPPORTED.
Definition att_exec_write_req (data : list Z) : M (att_env S) Z := mret BT_ATT_ERR_NOT_SUPPORTED.

(** *** Client configuration descriptors *)

(** [bt_conn_is_peer_addr_le], for the peripheral. *)
Definition bt_conn_is_peer_addr_le (c : bt_conn) (id peer : Z) : bool :=
  (id =? conn_id c) && ((peer =? dst c) || (peer =? init_addr c)).

Definition find_ccc_cfg (c : option bt_conn) (k : gatt_ccc) : option nat :=
  fst <$> list_find (fun g => match c with
    | Some c => bt_conn_is_peer_addr_le c (cfg_id g) (cfg_peer g)
    | None => cfg_peer g =? BT_ADDR_LE_ANY
    end = true) (ccc_cfgs k).

(** The descriptor's own value is the greatest of the clients'; the services'
    [lec_ccc_cfg_changed] only writes to the log. *)
Definition gatt_ccc_changed : M (att_env S) unit :=
  modify (fun e => set_ccc (mk_ccc (ccc_cfgs (ccc e))
    (fold_left (fun v g => if v <? cfg_value g then cfg_value g else v) (ccc_cfgs (ccc e)) 0)) e).

Definition clear_ccc_cfg : ccc_cfg := mk_ccc_cfg 0 BT_ADDR_LE_ANY 0.

Definition set_cfg (i : nat) (g : ccc_cfg) : M (att_env S) unit :=
  modify (fun e => set_ccc (mk_ccc (<[i := g]> (ccc_cfgs (ccc e))) (ccc_value (ccc e))) e).

Definition bt_gatt_attr_write_ccc (buf : cbuf) (len offset flags : Z) : M (att_env S) Z :=
  if negb (offset =? 0) then mret (BT_GATT_ERR BT_ATT_ERR_INVALID_OFFSET)
  else if (len =? 0) || (2 <? len) then mret (BT_GATT_ERR BT_ATT_ERR_INVALID_ATTRIBUTE_LEN)
  else
    let value := if len <? 2 then peek buf 0 else sys_get_le16 (cmem buf) in
    c ← gets conn;
    k ← gets ccc;
    let store (i : nat) : M (att_env S) Z :=
      g ← gets (fun e => default clear_ccc_cfg (ccc_cfgs (ccc e) !! i));
      set_cfg i (mk_ccc_cfg (cfg_id g) (cfg_peer g) value);;
      v ← gets (fun e => ccc_value (ccc e));
      when (negb (value =? v)) gatt_ccc_changed;;
      when (value =? 0) (set_cfg i clear_ccc_cfg);;
      mret len in
    match find_ccc_cfg (Some c) k with
    | Some i => store i
    | None =>
        if value =? 0 then mret len
        else match find_ccc_cfg None k with
             | None => mret (BT_GATT_ERR BT_ATT_ERR_INSUFFICIENT_RESOURCES)
             | Some i => set_cfg i (mk_ccc_cfg (conn_id c) (dst c) 0);; store i
             end
    end.

(** [bt_gatt_attr_read] on a value of [value]. *)
Definition bt_gatt_attr_read (value : list Z) (len offset : Z) : Z + list Z :=
  if Z.of_nat (length value) <? offset then inl (BT_GATT_ERR BT_ATT_ERR_INVALID_OFFSET)
  else inr (take (Z.to_nat len) (drop (Z.to_nat offset) value)).

Definition bt_gatt_attr_read_ccc (len offset : Z) (e : att_env S) : Z + list Z :=
  let value := match find_ccc_cfg (Some (conn e)) (ccc e) with
    | Some i => cfg_value (default clear_ccc_cfg (ccc_cfgs (ccc e) !! i))
    | None => 0
    end in
  bt_gatt_attr_read (sys_put_le16 value) len offset.

(** *** Dispatch *)

Record att_handler := mk_handler {
  op : Z; expect_len : Z; type : att_type; func : list Z -> M (att_env S) Z }.

(** The handlers of discovery, reading and confirmations are a parameter. *)
Context (others : list att_handler).

Definition handlers : list att_handler :=
  [mk_handler BT_ATT_OP_MTU_REQ 2 ATT_REQUEST att_mtu_req] ++ others ++
  [mk_handler BT_ATT_OP_WRITE_REQ 2 ATT_REQUEST att_write_req;
   mk_handler BT_ATT_OP_PREPARE_WRITE_REQ 4 ATT_REQUEST att_prepare_write_req;
   mk_handler BT_ATT_OP_EXEC_WRITE_REQ 1 ATT_REQUEST att_exec_write_req;
   mk_handler BT_ATT_OP_WRITE_CMD 2 ATT_COMMAND att_write_cmd].

Definition is_request (t : att_type) : bool := match t with ATT_REQUEST => true | _ => false end.
Definition is_command (t : att_type) : bool := match t with ATT_COMMAND => true | _ => false end.

Definition bt_att_recv (pdu : list Z) : M (att_env S) unit :=
  match pdu with
  | [] => mret tt
  | code :: buf =>
      a ← gets attached;
      if negb a then mret tt
      else
        match List.find (fun h => op h =? code) handlers with
        | None =>
            if is_command (att_op_get_type code) then mret tt
            else send_err_rsp code 0 BT_ATT_ERR_NOT_SUPPORTED
        | Some h =>
            p ← gets pending_rsp;
            if is_request (type h) && p then mret tt
            else
              when (is_request (type h)) (modify (set_pending_rsp true));;
              err ← (if Z.of_nat (length buf) <? expect_len h then mret BT_ATT_ERR_INVALID_PDU else func h buf);
              when (is_request (type h) && negb (err =? 0)) (send_err_rsp code 0 err)
        end
  end.

End operations.

Arguments att_handler S : clear implicits.

(** ** Lookup of one handle

    Attributes are numbered from 1 across the services in their order. *)
Section lookup.
Context {S D : Type} (func : bt_gatt_attr S -> Z -> D -> M (att_env S) (bool * D)).

(** Calling [func] on the attribute with the handle, if there is one. *)
Definition at_handle (attrs : list (bt_gatt_attr S)) (base h : Z) (d : D) : M (att_env S) D :=
  match (if h <? base then None else attrs !! Z.to_nat (h - base)) with
  | Some a => r ← func a h d; mret r.2
  | None => mret d
  end.

Lemma iter_stop a handle h n d (e : att_env S) : h < handle ->
  gatt_foreach_iter a handle h h None None n func d e = (Done (false, n, d), e).
Proof. intros H. unfold gatt_foreach_iter. by rewrite (proj2 (Z.ltb_lt h handle) H). Qed.

Lemma iter_skip a handle h n d (e : att_env S) : handle < h ->
  gatt_foreach_iter a handle h h None None n func d e = (Done (true, n, d), e).
Proof.
  intros H. unfold gatt_foreach_iter. rewrite (proj2 (Z.ltb_ge h handle)) by lia. by rewrite (proj2 (Z.ltb_lt handle h) H).
Qed.

Lemma iter_hit a h d (e : att_env S) :
  gatt_foreach_iter a h h h None None 65535 func d e =
  (r ← func a h d; mret (r.1, 65534, r.2)) e.
Proof. unfold gatt_foreach_iter. by rewrite Z.ltb_irrefl. Qed.

(** Past the handle nothing more is called. *)
Lemma attrs_stop attrs handle h n d (e : att_env S) : h < handle -> attrs <> [] ->
  exists r, foreach_attrs attrs handle h h None None n func d e = (Done (false, r, n, d), e).
Proof. destruct attrs as [|a l]; [done|]. intros Hh _. eexists. cbn [foreach_attrs]. by rewrite (bind_done _ _ _ _ _ (iter_stop _ _ _ _ _ _ Hh)). Qed.

Lemma services_past svcs handle h n d (e : att_env S) : h < handle ->
  foreach_services svcs handle h h None None n func d e = (Done d, e).
Proof.
  induction svcs as [|svc svcs IH]; intros Hh; [done|]. cbn [foreach_services].
  rewrite (proj2 (Z.ltb_ge _ _)) by lia. destruct svc as [|a l].
  - cbn [foreach_attrs]. rewrite bind_ret. by apply IH.
  - destruct (attrs_stop (a :: l) handle h n d e Hh) as [r Hr]; [done|]. by rewrite (bind_done _ _ _ _ _ Hr).
Qed.

Lemma attrs_before attrs handle h n d (e : att_env S) :
  0 <= handle -> handle + Z.of_nat (length attrs) <= h -> h < 65535 ->
  foreach_attrs attrs handle h h None None n func d e = (Done (true, handle + Z.of_nat (length attrs), n, d), e).
Proof.
  revert handle. induction attrs as [|a l IH]; intros handle H0 Hl Hh; cbn [foreach_attrs length] in *.
  - by rewrite Z.add_0_r.
  - assert (Hs : handle < h) by lia. rewrite (bind_done _ _ _ _ _ (iter_skip _ _ _ _ _ _ Hs)). unfold u16. rewrite Z.mod_small, IH by lia.
    by replace (handle + 1 + Z.of_nat (length l)) with (handle + Z.of_nat (Datatypes.S (length l))) by lia.
Qed.

(** Reaching the attribute: afterwards the loop ends or goes on past the
    handle. *)
Lemma attrs_hit attrs handle h a d (e : att_env S) :
  0 <= handle <= h -> h < 65535 -> attrs !! Z.to_nat (h - handle) = Some a ->
  exists g, (forall b, (g b).1 = true -> (g b).2 = h + 1) /\
    foreach_attrs attrs handle h h None None 65535 func d e =
      (r ← func a h d; mret ((g r.1).1, (g r.1).2, 65534, r.2)) e.
Proof.
  revert handle. induction attrs as [|a' l IH]; intros handle Hh Hm Ha; [done|]. cbn [foreach_attrs].
  destruct (Z.eq_dec handle h) as [->|Hne].
  - rewrite Z.sub_diag in Ha. injection Ha as ->. unfold mbind, M_bind. rewrite iter_hit. unfold mbind, M_bind.
    destruct l as [|a'' l].
    + exists (fun b : bool => if b then (true, h + 1) else (false, h)). split; [by intros []|].
      destruct (func a h d e) as [[[[] d']|] e']; [|done|done]. cbn.
      unfold u16. by rewrite Z.mod_small by lia.
    + exists (fun b : bool => if b then (false, h + 1) else (false, h)). split; [by intros []|].
      destruct (func a h d e) as [[[[] d']|] e']; [|done|done]. cbn [fst snd foreach_attrs].
      unfold mret, M_ret, mbind, M_bind, u16. rewrite Z.mod_small by lia. by rewrite iter_stop by lia.
  - assert (Hs : handle < h) by lia. rewrite (bind_done _ _ _ _ _ (iter_skip _ _ _ _ _ _ Hs)). unfold u16. rewrite Z.mod_small by lia.
    apply IH; [lia|done|]. replace (Z.to_nat (h - handle)) with (1 + Z.to_nat (h - (handle + 1)))%nat in Ha by lia. done.
Qed.

Lemma services_lookup svcs base h d (e : att_env S) :
  0 <= base <= h -> h < 65535 ->
  foreach_services svcs base h h None None 65535 func d e = at_handle (concat svcs) base h d e.
Proof.
  unfold at_handle. revert base. induction svcs as [|svc svcs IH]; intros base Hb Hh.
  - by destruct (h <? base).
  - cbn [foreach_services concat]. rewrite (proj2 (Z.ltb_ge h base)) by lia.
    destruct (Z.lt_ge_cases h (base + Z.of_nat (length svc))) as [Hin|Hout].
    + rewrite (proj2 (Z.ltb_ge _ _)) by lia.
      destruct (lookup_lt_is_Some_2 svc (Z.to_nat (h - base))) as [a Ha]; [lia|].
      rewrite lookup_app_l, Ha by lia.
      destruct (attrs_hit svc base h a d e) as (g & Hg & E); [lia|done|done|].
      unfold mbind at 1, M_bind at 1. rewrite E. unfold mbind, M_bind.
      destruct (func a h d e) as [[r|] e']; [|done]. cbn. specialize (Hg r.1).
      destruct (g r.1) as [[] k]; [|done]. cbn in Hg. rewrite Hg by done. cbn [fst snd]. apply services_past. lia.
    + rewrite lookup_app_r by lia.
      assert (Hn : (h <? base + Z.of_nat (length svc)) = false) by (apply Z.ltb_ge; lia).
      assert (Hi : (Z.to_nat (h - base) - length svc)%nat = Z.to_nat (h - (base + Z.of_nat (length svc)))) by lia.
      rewrite Hi. specialize (IH (base + Z.of_nat (length svc))). rewrite Hn in IH.
      destruct (_ <? h).
      * unfold u16. rewrite Z.mod_small by lia. apply IH; lia.
      * rewrite (bind_done _ _ _ _ _ (attrs_before svc base h 65535 d e ltac:(lia) ltac:(lia) ltac:(lia))). apply IH; lia.
Qed.

Lemma foreach_attr_lookup services h d (e : att_env S) :
  0 < h -> Z.of_nat (length (concat services)) < 65535 ->
  bt_gatt_foreach_attr services h h func d e = at_handle (concat services) 1 h d e.
Proof.
  intros H0 Hl. unfold bt_gatt_foreach_attr, bt_gatt_foreach_attr_type, last_static_handle, u16.
  rewrite Z.mod_small by lia. destruct (Z.leb_spec h (Z.of_nat (length (concat services)))).
  - apply services_lookup; lia.
  - unfold at_handle. destruct (h <? 1); [done|]. by rewrite lookup_ge_None_2 by lia.
Qed.
End lookup.

(** ** How a write is answered *)
Section answers.
Context {S : Type} (l2cap_alloc : att_env S -> bool) (l2cap_send : att_env S -> list Z -> Z) (MTU : Z)
  (services : list (list (bt_gatt_attr S))) (tail : list Z) (others : list (att_handler S)).

Local Abbreviation recv := (bt_att_recv l2cap_alloc l2cap_send MTU services tail others).

(** L2CAP has buffers and takes packets. *)
Definition l2cap_fine : Prop := (forall e, l2cap_alloc e = true) /\ (forall e p, l2cap_send e p = 0).

Definition answered (p : list Z) (e : att_env S) : att_env S := set_out (out e ++ [p]) e.

Lemma create_pdu_run op len e : l2cap_fine -> len + 1 <= tx_mtu e ->
  bt_att_chan_create_pdu l2cap_alloc op len e = (Done (Some [op]), e).
Proof.
  intros [Ha _] Hm. unfold bt_att_chan_create_pdu. rewrite (proj2 (Z.ltb_ge _ _)) by lia. by rewrite Ha.
Qed.

Lemma send_rsp_run p e : l2cap_fine -> bt_att_chan_send_rsp l2cap_send p e = (Done tt, answered p e).
Proof.
  intros [_ Hs]. unfold bt_att_chan_send_rsp, chan_send, mbind, M_bind. by rewrite Hs.
Qed.

Lemma send_err_run req h err e : l2cap_fine -> 23 <= tx_mtu e -> req <> 0 ->
  send_err_rsp l2cap_alloc l2cap_send req h err e =
    (Done tt, answered (BT_ATT_OP_ERROR_RSP :: req :: sys_put_le16 h ++ [err]) e).
Proof.
  intros Hl Hm Hr. unfold send_err_rsp. rewrite (proj2 (Z.eqb_neq req 0)) by done.
  rewrite (bind_done _ _ _ _ _ (create_pdu_run BT_ATT_OP_ERROR_RSP 4 e Hl ltac:(lia))). by apply send_rsp_run.
Qed.

(** The rule for a write request: the permissions first, then the number of
    bytes the callback took decides between the response and an error. *)
Definition write_answer (h len r : Z) : list Z :=
  if r =? len then [BT_ATT_OP_WRITE_RSP]
  else BT_ATT_OP_ERROR_RSP :: BT_ATT_OP_WRITE_REQ :: sys_put_le16 h ++ [err_to_att r].

Definition write_error (h err : Z) : list Z :=
  BT_ATT_OP_ERROR_RSP :: BT_ATT_OP_WRITE_REQ :: sys_put_le16 h ++ [err].

Lemma write_err_run h err e : l2cap_fine -> 23 <= tx_mtu e ->
  send_err_rsp l2cap_alloc l2cap_send BT_ATT_OP_WRITE_REQ h err e = (Done tt, answered (write_error h err) e).
Proof. intros Hl Hm. by apply send_err_run. Qed.

Lemma err_to_att_nonzero r : err_to_att r <> 0.
Proof. unfold err_to_att. destruct (Z.ltb_spec r 0), (Z.leb_spec (-255) r); cbn; unfold BT_ATT_ERR_UNLIKELY; lia. Qed.

Lemma bind_cong {X A B} (m m' : M X A) (k : A -> M X B) x : m x = m' x -> mbind k m x = mbind k m' x.
Proof. unfold mbind, M_bind. by intros ->. Qed.

(** A request that needs no answer first; the handler's verdict. *)
Lemma write_rsp_run h value e a :
  l2cap_fine -> 23 <= tx_mtu e -> cf e = None -> 0 < h -> Z.of_nat (length (concat services)) < 65535 ->
  concat services !! Z.to_nat (h - 1) = Some a ->
  let len := Z.of_nat (length value) in
  let perr := bt_gatt_check_perm (conn e) a BT_GATT_PERM_WRITE_MASK in
  let run := att_write_rsp l2cap_alloc l2cap_send services BT_ATT_OP_WRITE_REQ BT_ATT_OP_WRITE_RSP h 0
    (value_of tail value) len e in
  if perr =? 0
  then forall f r e2, write a = Some f -> f (value_of tail value) len 0 0 e = (Done r, e2) -> 23 <= tx_mtu e2 ->
       run = (Done 0, answered (write_answer h len r) e2)
  else run = (Done 0, answered (write_error h perr) e).
Proof.
  intros Hl Hm Hcf Hh Ht Ha len perr run. subst run. unfold att_write_rsp.
  change (BT_ATT_OP_WRITE_RSP =? 0) with false. cbv iota.
  assert (Ew : bt_gatt_change_aware true e = (Done true, e)).
  { unfold bt_gatt_change_aware. rewrite bind_gets. by rewrite Hcf. }
  rewrite (bind_done _ _ _ _ _ Ew). cbn [negb]. rewrite (proj2 (Z.eqb_neq h 0)) by lia.
  rewrite (bind_done _ _ _ _ _ (create_pdu_run BT_ATT_OP_WRITE_RSP 0 e Hl ltac:(lia))). cbn [negb andb].
  rewrite (bind_cong _ _ _ _ (foreach_attr_lookup _ services h _ e Hh Ht)). unfold at_handle.
  rewrite (proj2 (Z.ltb_ge h 1)) by lia. rewrite Ha, bind_assoc. unfold write_cb. rewrite bind_assoc, bind_gets. fold perr. destruct (Z.eqb_spec perr 0) as [Hp|Hp].
  - intros f r e2 Hf Hr Hm2. rewrite Hp, Hf. cbn [negb w_req set_err w_value w_len w_offset].
    change (BT_ATT_OP_WRITE_REQ =? 0) with false. cbv iota. rewrite bind_assoc, (bind_done _ _ _ _ _ Hr).
    unfold write_answer. destruct (Z.eqb_spec r len) as [->|Hn].
    + rewrite (proj2 (Z.ltb_ge len 0)) by lia. cbn [orb negb]. rewrite !bind_ret. cbn [snd set_err w_err negb Z.eqb].
      by rewrite (bind_done _ _ _ _ _ (send_rsp_run _ e2 Hl)).
    + cbn [negb]. rewrite orb_true_r, !bind_ret. cbn [snd set_err w_err].
      rewrite (proj2 (Z.eqb_neq _ _) (err_to_att_nonzero r)). cbn [negb].
      by rewrite (bind_done _ _ _ _ _ (write_err_run h _ e2 Hl Hm2)).
  - cbn [negb]. rewrite !bind_ret. cbn [snd set_err w_err]. rewrite (proj2 (Z.eqb_neq _ _) Hp). cbn [negb].
    by rewrite (bind_done _ _ _ _ _ (write_err_run h _ e Hl Hm)).
Qed.

Lemma write_rsp_unknown h value len e :
  l2cap_fine -> 23 <= tx_mtu e -> cf e = None -> 0 < h -> Z.of_nat (length (concat services)) < 65535 ->
  concat services !! Z.to_nat (h - 1) = None ->
  att_write_rsp l2cap_alloc l2cap_send services BT_ATT_OP_WRITE_REQ BT_ATT_OP_WRITE_RSP h 0 value len e =
    (Done 0, answered (write_error h BT_ATT_ERR_INVALID_HANDLE) e).
Proof.
  intros Hl Hm Hcf Hh Ht Ha. unfold att_write_rsp.
  change (BT_ATT_OP_WRITE_RSP =? 0) with false. cbv iota.
  assert (Ew : bt_gatt_change_aware true e = (Done true, e)).
  { unfold bt_gatt_change_aware. rewrite bind_gets. by rewrite Hcf. }
  rewrite (bind_done _ _ _ _ _ Ew). cbn [negb]. rewrite (proj2 (Z.eqb_neq h 0)) by lia.
  rewrite (bind_done _ _ _ _ _ (create_pdu_run BT_ATT_OP_WRITE_RSP 0 e Hl ltac:(lia))). cbn [negb andb].
  rewrite (bind_cong _ _ _ _ (foreach_attr_lookup _ services h _ e Hh Ht)). unfold at_handle.
  rewrite (proj2 (Z.ltb_ge h 1)) by lia. rewrite Ha, bind_ret. cbn [w_err].
  change (BT_ATT_ERR_INVALID_HANDLE =? 0) with false. cbn [negb].
  by rewrite (bind_done _ _ _ _ _ (write_err_run h _ e Hl Hm)).
Qed.

(** ** Dispatch of a write request *)

Definition write_pdu (h : Z) (value : list Z) : list Z := BT_ATT_OP_WRITE_REQ :: sys_put_le16 h ++ value.

Lemma find_write : Forall (fun k => op k <> BT_ATT_OP_WRITE_REQ) others ->
  List.find (fun k => op k =? BT_ATT_OP_WRITE_REQ)
    (handlers l2cap_alloc l2cap_send MTU services tail others) =
  Some (mk_handler BT_ATT_OP_WRITE_REQ 2 ATT_REQUEST (att_write_req l2cap_alloc l2cap_send services tail)).
Proof.
  intros Ho. unfold handlers. cbn [app List.find op]. change (BT_ATT_OP_MTU_REQ =? BT_ATT_OP_WRITE_REQ) with false. cbv iota.
  induction Ho as [|k l Hk Hl IH]; [done|]. cbn [app List.find]. by rewrite (proj2 (Z.eqb_neq _ _) Hk).
Qed.

Lemma recv_write h value e x e' :
  Forall (fun k => op k <> BT_ATT_OP_WRITE_REQ) others -> attached e = true -> pending_rsp e = false ->
  0 <= h < 65536 ->
  att_write_rsp l2cap_alloc l2cap_send services BT_ATT_OP_WRITE_REQ BT_ATT_OP_WRITE_RSP h 0 (value_of tail value)
    (Z.of_nat (length value)) (set_pending_rsp true e) = (Done x, e') ->
  recv (write_pdu h value) e = if x =? 0 then (Done tt, e') else send_err_rsp l2cap_alloc l2cap_send BT_ATT_OP_WRITE_REQ 0 x e'.
Proof.
  intros Ho Hat Hp Hh E. unfold bt_att_recv, write_pdu. rewrite bind_gets, Hat. cbn [negb].
  rewrite find_write by done. rewrite bind_gets, Hp. cbn [type is_request andb when expect_len func].
  rewrite bind_modify.
  assert (Hl : (Z.of_nat (length (sys_put_le16 h ++ value)) <? 2) = false) by (apply Z.ltb_ge; cbn; lia).
  rewrite Hl. unfold att_write_req.
  assert (Hg : sys_get_le16 (sys_put_le16 h ++ value) = h).
  { rewrite put_le16. cbn [le_bytes app]. rewrite get_le16 by (apply Z.mod_pos_bound; lia).
    exact (le_bytes_value 2 h Hh). }
  rewrite Hg. change (drop 2 (sys_put_le16 h ++ value)) with value. rewrite (bind_done _ _ _ _ _ E).
  by destruct (x =? 0).
Qed.

(** A write request on an idle channel is answered by exactly one packet,
    whatever the table of services: an unknown handle by Invalid Handle, an
    attribute the connection may not write by the error of the permission
    check (and the callback is not called), and otherwise, after the callback
    has run once with the bytes of the request, by the write response if the
    callback took all the bytes and by an error if not. The channel then
    waits for the response to leave before it takes another request. *)
Theorem write_request_answered h value e :
  l2cap_fine -> Forall (fun k => op k <> BT_ATT_OP_WRITE_REQ) others ->
  attached e = true -> pending_rsp e = false -> 23 <= tx_mtu e -> cf e = None ->
  0 < h < 65536 -> Z.of_nat (length (concat services)) < 65535 ->
  let e1 := set_pending_rsp true e in
  let len := Z.of_nat (length value) in
  match concat services !! Z.to_nat (h - 1) with
  | None => recv (write_pdu h value) e = (Done tt, answered (write_error h BT_ATT_ERR_INVALID_HANDLE) e1)
  | Some a =>
      let perr := bt_gatt_check_perm (conn e) a BT_GATT_PERM_WRITE_MASK in
      if perr =? 0
      then forall f r e2, write a = Some f -> f (value_of tail value) len 0 0 e1 = (Done r, e2) -> 23 <= tx_mtu e2 ->
           recv (write_pdu h value) e = (Done tt, answered (write_answer h len r) e2) /\
           (pending_rsp e2 = true -> forall h' value', attached e2 = true ->
              recv (write_pdu h' value') (answered (write_answer h len r) e2) =
              (Done tt, answered (write_answer h len r) e2))
      else recv (write_pdu h value) e = (Done tt, answered (write_error h perr) e1)
  end.
Proof.
  intros Hl Ho Hat Hp Hm Hcf Hh Ht e1 len. assert (Hh' : 0 <= h < 65536) by lia. destruct (concat services !! Z.to_nat (h - 1)) as [a|] eqn:Ha.
  - intros perr. pose proof (write_rsp_run h value e1 a Hl Hm Hcf ltac:(lia) Ht Ha) as R. cbv zeta in R. fold len in R.
    change (conn e1) with (conn e) in R. fold perr in R. destruct (perr =? 0).
    + intros f r e2 Hf Hr Hm2. split.
      * by rewrite (recv_write h value e 0 _ Ho Hat Hp Hh' (R f r e2 Hf Hr Hm2)).
      * intros Hp2 h' value' Ha2. unfold bt_att_recv, write_pdu. rewrite bind_gets. cbn [attached answered set_out].
        rewrite Ha2. cbn [negb]. rewrite find_write by done. rewrite bind_gets. cbn [pending_rsp answered set_out]. by rewrite Hp2.
    + by rewrite (recv_write h value e 0 _ Ho Hat Hp Hh' R).
  - rewrite (recv_write h value e 0 (answered (write_error h BT_ATT_ERR_INVALID_HANDLE) e1) Ho Hat Hp Hh'); [done|].
    apply write_rsp_unknown; done || lia.
Qed.

End answers.

(** A service with a counter of writes that takes two bytes at most. *)
Definition demo_attr : bt_gatt_attr nat :=
  mk_attr (UUID_16 0x2a3b) None
    (Some (fun _ len _ _ => modify (fun e => set_srv (Datatypes.S (srv e)) e);; mret (Z.min len 2))) 0 BT_GATT_PERM_WRITE.
Definition demo_env : att_env nat :=
  mk_env 0%nat (mk_conn 0 1 1 1 false) true false 23 23 None (mk_ccc [] 0) [] [] [].

Lemma write_request_answered_witness :
  let recv := bt_att_recv (fun _ => true) (fun _ _ => 0) 65 [[demo_attr]] [] [] in
  recv (write_pdu 1 [7; 8; 9]) demo_env =
    (Done tt, set_out [[1; 0x12; 1; 0; 0x0e]] (set_srv 1%nat (set_pending_rsp true demo_env))).
Proof.
  intros recv.
  apply (write_request_answered (fun _ => true) (fun _ _ => 0) 65 [[demo_attr]] [] [] 1 [7; 8; 9] demo_env)
    with (f := fun _ len _ _ => modify (fun e => set_srv (Datatypes.S (srv e)) e);; mret (Z.min len 2)) (r := 2)
      (e2 := set_srv 1%nat (set_pending_rsp true demo_env)); try done.
Defined.

(** ** Client configuration *)
Section ccc.
Context {S : Type}.
Implicit Types e : att_env S.

Definition greatest (l : list ccc_cfg) : Z := fold_left (fun v g => if v <? cfg_value g then cfg_value g else v) l 0.

(** The descriptor's value is the greatest of the clients', so that a service
    that asks whether anybody listens gets the right answer. *)
Definition ccc_ok (k : gatt_ccc) : Prop :=
  ccc_value k = greatest (ccc_cfgs k) /\ Forall (fun g => 0 <= cfg_value g) (ccc_cfgs k).

Definition upper (m : Z) (l : list Z) : Prop := Forall (fun x => x <= m) l /\ (m = 0 \/ m ∈ l).

Lemma fold_upper l v : let m := fold_left (fun v x => if v <? x then x else v) l v in
  v <= m /\ Forall (fun x => x <= m) l /\ (m = v \/ m ∈ l).
Proof.
  revert v. induction l as [|x l IH]; intros v; cbn; [split_and!; [lia|constructor|by left]|].
  destruct (IH (if v <? x then x else v)) as (H1 & H2 & H3).
  destruct (Z.ltb_spec v x); (split_and!; [lia|constructor; [lia|done]|]);
    destruct H3 as [H3|H3]; [right; rewrite H3; left|right; by right|by left|right; by right].
Qed.

Lemma greatest_values l : greatest l = fold_left (fun v x => if v <? x then x else v) (map cfg_value l) 0.
Proof. unfold greatest. generalize 0. induction l as [|g l IH]; intros v; [done|]. cbn. apply IH. Qed.

Lemma greatest_upper l m : upper m (map cfg_value l) -> 0 <= m -> greatest l = m.
Proof.
  intros [Hm He] H0. rewrite greatest_values. destruct (fold_upper (map cfg_value l) 0) as (H1 & H2 & H3).
  set (m' := fold_left _ _ _) in *. rewrite Forall_forall in Hm, H2. apply Z.le_antisymm.
  - destruct H3 as [->|H3]; [done|by apply Hm, list_elem_of_In].
  - destruct He as [->|He]; [done|by apply H2, list_elem_of_In].
Qed.

(** What storing a value in entry [i] makes of the descriptor. *)
Definition stored (i : nat) (id peer value : Z) (k : gatt_ccc) : gatt_ccc :=
  let l := <[i := mk_ccc_cfg id peer value]> (ccc_cfgs k) in
  mk_ccc (if value =? 0 then <[i := clear_ccc_cfg]> l else l) (if value =? ccc_value k then ccc_value k else greatest l).

Lemma stored_ok i id peer value k : ccc_ok k -> 0 <= value -> (i < length (ccc_cfgs k))%nat -> ccc_ok (stored i id peer value k).
Proof.
  intros [Hv Hp] H0 Hi. unfold stored. set (l := <[i := mk_ccc_cfg id peer value]> (ccc_cfgs k)).
  assert (Hl : Forall (fun g => 0 <= cfg_value g) l) by (by apply Forall_insert).
  assert (Hvals : map cfg_value (if value =? 0 then <[i:=clear_ccc_cfg]> l else l) = map cfg_value l).
  { destruct (Z.eqb_spec value 0) as [->|]; [|done]. unfold l. by rewrite list_insert_insert_eq, !list_fmap_insert. }
  split.
  - cbn [ccc_value ccc_cfgs]. rewrite (greatest_values (if value =? 0 then _ else _)), Hvals, <- greatest_values.
    destruct (Z.eqb_spec value (ccc_value k)) as [He|_]; [|done]. symmetry. apply greatest_upper; [|lia].
    rewrite <- He. unfold l. rewrite list_fmap_insert. split.
    + apply Forall_insert; [|cbn; lia]. rewrite He, Hv, greatest_values. apply fold_upper.
    + right. apply (list_elem_of_lookup_2 _ i). apply list_lookup_insert_eq. by rewrite length_map.
  - cbn [ccc_cfgs]. destruct (value =? 0); [by apply Forall_insert|done].
Qed.

(** The entry a write goes to: the client's own, or a free one. *)
Definition ccc_entry (c : bt_conn) (k : gatt_ccc) : option (nat * Z * Z) :=
  match find_ccc_cfg (Some c) k with
  | Some i => let g := default clear_ccc_cfg (ccc_cfgs k !! i) in Some (i, cfg_id g, cfg_peer g)
  | None => match find_ccc_cfg None k with Some i => Some (i, conn_id c, dst c) | None => None end
  end.

Lemma find_ccc_bound c k i : find_ccc_cfg c k = Some i -> (i < length (ccc_cfgs k))%nat.
Proof.
  unfold find_ccc_cfg. destruct (list_find _ _) as [[j g]|] eqn:E; [|done]. intros [= <-].
  apply list_find_Some in E as [E _]. by eapply lookup_lt_Some.
Qed.

(** The whole write. *)
Definition ccc_value_of (buf : cbuf) (len : Z) : Z := if len <? 2 then peek buf 0 else sys_get_le16 (cmem buf).

Lemma ccc_write_run buf len offset flags e :
  bt_gatt_attr_write_ccc buf len offset flags e =
    if negb (offset =? 0) then (Done (BT_GATT_ERR BT_ATT_ERR_INVALID_OFFSET), e)
    else if (len =? 0) || (2 <? len) then (Done (BT_GATT_ERR BT_ATT_ERR_INVALID_ATTRIBUTE_LEN), e)
    else
      let value := ccc_value_of buf len in
      match find_ccc_cfg (Some (conn e)) (ccc e), ccc_entry (conn e) (ccc e) with
      | None, None => if value =? 0 then (Done len, e) else (Done (BT_GATT_ERR BT_ATT_ERR_INSUFFICIENT_RESOURCES), e)
      | None, Some (i, id, peer) => if value =? 0 then (Done len, e) else (Done len, set_ccc (stored i id peer value (ccc e)) e)
      | Some _, Some (i, id, peer) => (Done len, set_ccc (stored i id peer value (ccc e)) e)
      | Some _, None => (Done len, e)
      end.
Proof.
  unfold bt_gatt_attr_write_ccc. destruct (negb (offset =? 0)); [done|]. destruct ((len =? 0) || (2 <? len)); [done|].
  rewrite !bind_gets. fold (ccc_value_of buf len). cbv zeta. set (value := ccc_value_of buf len). unfold ccc_entry.
  destruct (find_ccc_cfg (Some (conn e)) (ccc e)) as [i|] eqn:Ef.
  - unfold stored. destruct (Z.eqb_spec value (ccc_value (ccc e))) as [Hv|Hv], (value =? 0) eqn:H0;
      unfold mbind, M_bind, gets, set_cfg, modify, mret, M_ret; cbn [ccc set_ccc ccc_value];
      rewrite ?(proj2 (Z.eqb_eq _ _) Hv), ?(proj2 (Z.eqb_neq _ _) Hv); cbn; by rewrite ?H0.
  - destruct (value =? 0) eqn:H0; [by destruct (find_ccc_cfg None (ccc e))|].
    destruct (find_ccc_cfg None (ccc e)) as [i|] eqn:En; [|done]. pose proof (find_ccc_bound _ _ _ En) as Hi.
    unfold stored. destruct (Z.eqb_spec value (ccc_value (ccc e))) as [Hv|Hv]; rewrite H0;
      unfold mbind, M_bind, gets, set_cfg, modify, mret, M_ret; cbn [ccc set_ccc ccc_value ccc_cfgs];
      rewrite ?(proj2 (Z.eqb_eq _ _) Hv), ?(proj2 (Z.eqb_neq _ _) Hv), list_lookup_insert_eq by done; cbn;
      by rewrite ?H0, list_insert_insert_eq.
Qed.

Lemma entry_bound c k i id peer : ccc_entry c k = Some (i, id, peer) -> (i < length (ccc_cfgs k))%nat.
Proof.
  unfold ccc_entry. destruct (find_ccc_cfg (Some c) k) as [j|] eqn:E.
  - intros [= <- _ _]. by eapply find_ccc_bound.
  - destruct (find_ccc_cfg None k) as [j|] eqn:E'; [|done]. intros [= <- _ _]. by eapply find_ccc_bound.
Qed.

(** It is the client's, and no earlier entry is. *)
Lemma entry_first c k i id peer : ccc_entry c k = Some (i, id, peer) ->
  bt_conn_is_peer_addr_le c id peer = true /\
  forall j g, ccc_cfgs k !! j = Some g -> (j < i)%nat -> bt_conn_is_peer_addr_le c (cfg_id g) (cfg_peer g) <> true.
Proof.
  unfold ccc_entry, find_ccc_cfg. destruct (list_find _ (ccc_cfgs k)) as [[i' g']|] eqn:E; cbn.
  - apply list_find_Some in E as (Hj & Hm & Hb). rewrite Hj. cbn. intros [= <- <- <-]. done.
  - apply list_find_None in E. destruct (list_find _ (ccc_cfgs k)) as [[i' g']|]; [|done]. cbn. intros [= <- <- <-]. split.
    + unfold bt_conn_is_peer_addr_le. by rewrite !Z.eqb_refl.
    + intros j g Hg _. by apply (Forall_lookup_1 _ _ _ _ E Hg).
Qed.

(** The client finds the entry again. *)
Lemma entry_found c k i id peer value : ccc_entry c k = Some (i, id, peer) -> value <> 0 ->
  find_ccc_cfg (Some c) (stored i id peer value k) = Some i /\
  ccc_cfgs (stored i id peer value k) !! i = Some (mk_ccc_cfg id peer value).
Proof.
  intros He Hv. pose proof (entry_bound _ _ _ _ _ He) as Hi. destruct (entry_first _ _ _ _ _ He) as [Hm Hb].
  unfold stored. rewrite (proj2 (Z.eqb_neq value 0) Hv). unfold find_ccc_cfg. cbn [ccc_cfgs].
  assert (Hl : <[i := mk_ccc_cfg id peer value]> (ccc_cfgs k) !! i = Some (mk_ccc_cfg id peer value))
    by by apply list_lookup_insert_eq. split; [|done].
  rewrite (proj2 (list_find_Some _ _ i (mk_ccc_cfg id peer value))); [done|]. split_and!; [done|done|].
  intros j g Hg Hj. rewrite list_lookup_insert_ne in Hg by lia. by apply (Hb j).
Qed.

Lemma set_ccc_same e : set_ccc (ccc e) e = e.
Proof. by destruct e. Qed.

(** What a write of [value] in [len] bytes, answered by [r], leaves in the
    descriptor. *)
Record ccc_written e (len value r : Z) (k' : gatt_ccc) : Prop := {
  cw_ok : ccc_ok k';
  cw_one : exists i, forall j, j <> i -> ccc_cfgs k' !! j = ccc_cfgs (ccc e) !! j;
  cw_result : r = len \/ r < 0 /\ k' = ccc e;
  cw_read : r = len -> value <> 0 -> bt_gatt_attr_read_ccc 2 0 (set_ccc k' e) = inr (sys_put_le16 value) }.

Lemma written_nothing e len value r : ccc_ok (ccc e) -> 0 <= len -> r < 0 \/ r = len /\ value = 0 ->
  ccc_written e len value r (ccc e).
Proof.
  intros Hk Hl Hr. split; [done|by exists 0%nat|destruct Hr as [Hr|[Hr _]]; [by right|by left]|].
  intros; exfalso; lia.
Qed.

Lemma written_entry e len value i id peer : ccc_ok (ccc e) -> 0 <= value ->
  ccc_entry (conn e) (ccc e) = Some (i, id, peer) -> ccc_written e len value len (stored i id peer value (ccc e)).
Proof.
  intros Hk Hv He. split.
  - apply stored_ok; [done..|]. by eapply entry_bound.
  - exists i. intros j Hj. unfold stored. cbn [ccc_cfgs].
    destruct (value =? 0); by rewrite !list_lookup_insert_ne by done.
  - by left.
  - intros _ Hn. destruct (entry_found _ _ _ _ _ value He Hn) as [Hf Hg].
    unfold bt_gatt_attr_read_ccc. cbn [conn ccc set_ccc]. by rewrite Hf, Hg.
Qed.

(** Writing a client configuration descriptor touches nothing but the
    descriptor, keeps the descriptor's own value the greatest of all clients',
    changes at most one client's entry, and either takes the bytes or answers
    an error without effect; a value other than 0 is read back by the client
    that wrote it. *)
Theorem ccc_write_keeps_value buf len offset flags e :
  ccc_ok (ccc e) -> 0 <= len -> 0 <= ccc_value_of buf len ->
  exists r k', bt_gatt_attr_write_ccc buf len offset flags e = (Done r, set_ccc k' e) /\
    ccc_written e len (ccc_value_of buf len) r k'.
Proof.
  intros Hk Hl Hv. rewrite ccc_write_run. set (value := ccc_value_of buf len) in *.
  assert (Hn : forall r, r < 0 \/ r = len /\ value = 0 ->
    exists r' k', (Done r, e) = (Done r', set_ccc k' e) /\ ccc_written e len value r' k').
  { intros r Hr. exists r, (ccc e). rewrite set_ccc_same. split; [done|by apply written_nothing]. }
  destruct (negb (offset =? 0)); [by apply Hn; left|].
  destruct ((len =? 0) || (2 <? len)); [by apply Hn; left|].
  destruct (find_ccc_cfg (Some (conn e)) (ccc e)) as [i'|] eqn:Ef.
  - destruct (ccc_entry (conn e) (ccc e)) as [[[i id] peer]|] eqn:Ee.
    + eexists len, _. split; [done|]. by apply written_entry.
    + unfold ccc_entry in Ee. by rewrite Ef in Ee.
  - destruct (ccc_entry (conn e) (ccc e)) as [[[i id] peer]|] eqn:Ee; cbv zeta;
      (destruct (Z.eqb_spec value 0); [by apply Hn; right|]).
    + eexists len, _. split; [done|]. by apply written_entry.
    + by apply Hn; left.
Qed.

End ccc.

(** A phone turns on the notifications of a descriptor with two free entries. *)
Lemma ccc_write_keeps_value_witness :
  let e := set_ccc (mk_ccc [clear_ccc_cfg; clear_ccc_cfg] 0) demo_env in
  exists r k', bt_gatt_attr_write_ccc (mk_buf 2 [1; 0]) 2 0 0 e = (Done r, set_ccc k' e) /\
    ccc_written e 2 1 r k'.
Proof.
  intros e. apply (ccc_write_keeps_value (mk_buf 2 [1; 0]) 2 0 0 e); [|done|by vm_compute].
  split; [done|]. by repeat constructor.
Defined.
