(* ===== verification/AttRead.v ===== *)
(** * Attribute protocol: discovery and reading (subsys/bluetooth/host/att.c)

    The requests a phone sends to find the services and to read attributes,
    and the read callbacks of the declarations (gatt.c).

    A packet buffer has room for the packet size of the channel: the size is
    at most [BT_ATT_MTU], which is at most the room the buffers are defined
    with. So a response is one buffer, and the loop of [att_chan_read] that
    would add further ones runs once: a read that fills the rest of the packet
    leaves no room for another. *)
From S2P Require Import Prelude Platform ByteOrder Uuid Att.
From stdpp Require Import prelude list numbers.
From Stdlib Require Import ZArith Lia.
Open Scope Z_scope.

(** ** Constants (att_internal.h, att.h, uuid.h) *)

Definition BT_ATT_OP_FIND_INFO_REQ : Z := 0x04.
Definition BT_ATT_OP_FIND_INFO_RSP : Z := 0x05.
Definition BT_ATT_OP_FIND_TYPE_REQ : Z := 0x06.
Definition BT_ATT_OP_FIND_TYPE_RSP : Z := 0x07.
Definition BT_ATT_OP_READ_TYPE_REQ : Z := 0x08.
Definition BT_ATT_OP_READ_TYPE_RSP : Z := 0x09.
Definition BT_ATT_OP_READ_REQ : Z := 0x0a.
Definition BT_ATT_OP_READ_RSP : Z := 0x0b.
Definition BT_ATT_OP_READ_BLOB_REQ : Z := 0x0c.
Definition BT_ATT_OP_READ_BLOB_RSP : Z := 0x0d.
Definition BT_ATT_OP_READ_MULT_REQ : Z := 0x0e.
Definition BT_ATT_OP_READ_MULT_RSP : Z := 0x0f.
Definition BT_ATT_OP_READ_GROUP_REQ : Z := 0x10.
Definition BT_ATT_OP_READ_GROUP_RSP : Z := 0x11.
Definition BT_ATT_READ_MULT_MIN_LEN_REQ : Z := 0x04.
Definition BT_ATT_ERR_ATTRIBUTE_NOT_FOUND : Z := 0x0a.
Definition BT_ATT_ERR_UNSUPPORTED_GROUP_TYPE : Z := 0x10.
Definition BT_ATT_INFO_16 : Z := 0x01.
Definition BT_ATT_INFO_128 : Z := 0x02.

Definition BT_UUID_GATT_PRIMARY : bt_uuid := UUID_16 0x2800.
Definition BT_UUID_GATT_SECONDARY : bt_uuid := UUID_16 0x2801.
Definition BT_UUID_GATT_CHRC : bt_uuid := UUID_16 0x2803.
Definition BT_UUID_GATT_CCC : bt_uuid := UUID_16 0x2902.

Definition zlen {A} (l : list A) : Z := Z.of_nat (length l).

(** [Some] the handle to complain about. *)
Definition range_is_valid (start end_ : Z) : option Z :=
  if (start =? 0) || (end_ =? 0) then Some 0
  else if end_ <? start then Some start
  else None.

(** ** Callbacks of the declarations (gatt.c) *)

(** Of a UUID that is not a 16-bit one, 16 bytes are taken; [behind] is what
    follows a 32-bit one in memory. *)
Definition uuid_value (behind : list Z) (u : bt_uuid) : list Z :=
  match u with
  | UUID_16 v => sys_put_le16 v
  | UUID_32 v => take 16 (sys_put_le32 v ++ behind)
  | UUID_128 v => v
  end.

Definition bt_gatt_attr_read_service (behind : list Z) (u : bt_uuid) (len offset : Z) : Z + list Z :=
  bt_gatt_attr_read (uuid_value behind u) len offset.

(** The value of a characteristic follows its declaration. *)
Definition bt_gatt_attr_value_handle (handle : Z) : Z := u16 (handle + 1).

Definition bt_gatt_attr_read_chrc (behind : list Z) (u : bt_uuid) (properties handle len offset : Z) : Z + list Z :=
  let pdu := properties :: sys_put_le16 (bt_gatt_attr_value_handle handle) ++ uuid_value behind u in
  bt_gatt_attr_read pdu len offset.

Section operations.
Context {S : Type} (l2cap_alloc : att_env S -> bool) (l2cap_send : att_env S -> list Z -> Z).
Context (services : list (list (bt_gatt_attr S))).

Local Abbreviation send_err := (send_err_rsp l2cap_alloc l2cap_send).
Local Abbreviation send_rsp := (bt_att_chan_send_rsp l2cap_send).
Local Abbreviation foreach_attr := (bt_gatt_foreach_attr services).

(** [bt_att_create_pdu] takes the connection's only channel; it looks at the
    packet size before it does. *)
Local Abbreviation create_pdu := (bt_att_chan_create_pdu l2cap_alloc).

(** ** Find information *)

(** [data->rsp] is NULL until the first attribute fixes the format. *)
Record find_info_data := mk_find_info { fi_buf : list Z; fi_format : option Z }.

Definition find_info_cb (attr : bt_gatt_attr S) (handle : Z) (data : find_info_data) : M (att_env S) (bool * find_info_data) :=
  mtu ← gets tx_mtu;
  let data := match fi_format data with
    | Some _ => data
    | None =>
        let format := match uuid attr with UUID_16 _ => BT_ATT_INFO_16 | _ => BT_ATT_INFO_128 end in
        mk_find_info (fi_buf data ++ [format]) (Some format)
    end in
  match fi_format data, uuid attr with
  | Some 1, UUID_16 v =>
      let buf := fi_buf data ++ sys_put_le16 handle ++ sys_put_le16 v in
      mret (4 <? u32 (mtu - zlen buf), mk_find_info buf (fi_format data))
  | Some 2, UUID_128 v =>
      let buf := fi_buf data ++ sys_put_le16 handle ++ v in
      mret (18 <? u32 (mtu - zlen buf), mk_find_info buf (fi_format data))
  | _, _ => mret (false, data)
  end.

Definition att_find_info_rsp (start_handle end_handle : Z) : M (att_env S) Z :=
  buf ← create_pdu BT_ATT_OP_FIND_INFO_RSP 0;
  match buf with
  | None => mret BT_ATT_ERR_UNLIKELY
  | Some buf =>
      data ← foreach_attr start_handle end_handle find_info_cb (mk_find_info buf None);
      match fi_format data with
      | None => send_err BT_ATT_OP_FIND_INFO_REQ start_handle BT_ATT_ERR_ATTRIBUTE_NOT_FOUND;; mret 0
      | Some _ => send_rsp (fi_buf data);; mret 0
      end
  end.

Definition att_find_info_req (data : list Z) : M (att_env S) Z :=
  let start_handle := sys_get_le16 data in
  let end_handle := sys_get_le16 (drop 2 data) in
  match range_is_valid start_handle end_handle with
  | Some err_handle => send_err BT_ATT_OP_FIND_INFO_REQ err_handle BT_ATT_ERR_INVALID_HANDLE;; mret 0
  | None => att_find_info_rsp start_handle end_handle
  end.

(** ** Find by type value *)

(** [data->group] is the place in the packet of the group that is extended. *)
Record find_type_data := mk_find_type {
  ft_buf : list Z; ft_group : option nat; ft_value : list Z; ft_value_len : Z; ft_err : Z }.

(** The end of a group is moved to a later handle. *)
Definition extend_group (buf : list Z) (group : option nat) (handle : Z) : list Z :=
  match group with
  | Some g => if sys_get_le16 (drop (g + 2) buf) <? handle then put_at buf (g + 2) (sys_put_le16 handle) else buf
  | None => buf
  end.

(** The value of a service against the one asked for. *)
Definition service_matches (value : list Z) (value_len : Z) (bytes : list Z) : bool :=
  if zlen bytes =? value_len then bool_decide (take (length bytes) value = bytes)
  else match bt_uuid_create value value_len, bt_uuid_create bytes (zlen bytes) with
       | Some recvd, Some ref => bt_uuid_cmp recvd ref =? 0
       | _, _ => false
       end.

Definition find_type_cb (attr : bt_gatt_attr S) (handle : Z) (data : find_type_data) : M (att_env S) (bool * find_type_data) :=
  let '(mk_find_type buf group value value_len err) := data in
  let skip := (true, mk_find_type buf None value value_len err) in
  if bt_uuid_cmp (uuid attr) BT_UUID_GATT_SECONDARY =? 0 then mret skip
  else if negb (bt_uuid_cmp (uuid attr) BT_UUID_GATT_PRIMARY =? 0)
  then mret (true, mk_find_type (extend_group buf group handle) group value value_len err)
  else
    mtu ← gets tx_mtu;
    if u32 (mtu - zlen buf) <? 4 then mret (false, data)
    else match read attr with
         | None => stop_with NullDeref
         | Some f =>
             r ← f handle 16 0;
             match r with
             | inl _ => mret skip
             | inr bytes =>
                 if service_matches value value_len bytes
                 then mret (true, mk_find_type (buf ++ sys_put_le16 handle ++ sys_put_le16 handle) (Some (length buf)) value value_len 0)
                 else mret skip
             end
         end.

Definition att_find_type_rsp (start_handle end_handle : Z) (value : list Z) (value_len : Z) : M (att_env S) Z :=
  buf ← create_pdu BT_ATT_OP_FIND_TYPE_RSP 0;
  match buf with
  | None => mret BT_ATT_ERR_UNLIKELY
  | Some buf =>
      data ← foreach_attr start_handle end_handle find_type_cb
        (mk_find_type buf None value value_len BT_ATT_ERR_ATTRIBUTE_NOT_FOUND);
      if negb (ft_err data =? 0) then send_err BT_ATT_OP_FIND_TYPE_REQ start_handle (ft_err data);; mret 0
      else send_rsp (ft_buf data);; mret 0
  end.

Definition att_find_type_req (data : list Z) : M (att_env S) Z :=
  let start_handle := sys_get_le16 data in
  let end_handle := sys_get_le16 (drop 2 data) in
  let type := sys_get_le16 (drop 4 data) in
  let value := drop 6 data in
  match range_is_valid start_handle end_handle with
  | Some err_handle => send_err BT_ATT_OP_FIND_TYPE_REQ err_handle BT_ATT_ERR_INVALID_HANDLE;; mret 0
  | None =>
      if negb (bt_uuid_cmp (UUID_16 type) BT_UUID_GATT_PRIMARY =? 0)
      then send_err BT_ATT_OP_FIND_TYPE_REQ start_handle BT_ATT_ERR_ATTRIBUTE_NOT_FOUND;; mret 0
      else att_find_type_rsp start_handle end_handle value (u8 (zlen value))
  end.

(** ** Reading into a packet *)

(** Reads behind the [used] bytes of a packet. [cb] may refuse what was read;
    otherwise [add] puts it into the packet. *)
Definition att_chan_read {D} (attr : bt_gatt_attr S) (handle : Z) (used : D -> Z) (offset : Z)
    (cb : Z -> D -> bool * D) (add : list Z -> D -> D) (data : D) : M (att_env S) (Z * D) :=
  mtu ← gets tx_mtu;
  if mtu <=? used data then mret (0, data)
  else match read attr with
       | None => stop_with NullDeref
       | Some f =>
           r ← f handle (mtu - used data) offset;
           match r with
           | inl err => mret (err, data)
           | inr bytes =>
               let (ok, data) := cb (zlen bytes) data in
               if ok : bool then mret (zlen bytes, add bytes data) else mret (0, data)
           end
       end.

(** ** Read by type *)

(** The response after its opcode: [rsp->len] and the items. *)
Record read_type_data := mk_read_type { rt_len : Z; rt_items : list Z; rt_item : bool; rt_err : Z }.

Definition rt_used (data : read_type_data) : Z := 2 + zlen (rt_items data).
Definition rt_add (bytes : list Z) (data : read_type_data) : read_type_data :=
  mk_read_type (rt_len data) (rt_items data ++ bytes) (rt_item data) (rt_err data).

(** All items have the size of the first. *)
Definition attr_read_type_cb (n : Z) (data : read_type_data) : bool * read_type_data :=
  let '(mk_read_type len items item err) := data in
  if len =? 0 then (true, mk_read_type (u8 (n + 2)) items item err)
  else if negb (len =? n + 2) then (false, mk_read_type len (take (length items - 2) items) false err)
  else (true, data).

Definition read_type_cb (u : bt_uuid) (attr : bt_gatt_attr S) (handle : Z) (data : read_type_data) :
    M (att_env S) (bool * read_type_data) :=
  if negb (bt_uuid_cmp (uuid attr) u =? 0) then mret (true, data)
  else
    c ← gets conn;
    let '(mk_read_type len items item _) := data in
    let err := bt_gatt_check_perm c attr BT_GATT_PERM_READ_MASK in
    if negb (err =? 0) then mret (false, mk_read_type len items item (if len =? 0 then err else 0))
    else
      let data := mk_read_type len (items ++ sys_put_le16 handle) true 0 in
      r ← att_chan_read attr handle rt_used 0 attr_read_type_cb rt_add data;
      let '(n, mk_read_type len items item err) := r in
      if n <? 0 then mret (false, mk_read_type len items item (err_to_att n))
      else if negb item then mret (false, mk_read_type len items item err)
      else
        mtu ← gets tx_mtu;
        mret (len <? u32 (mtu - (2 + zlen items)), mk_read_type len items item err).

Definition att_read_type_rsp (u : bt_uuid) (start_handle end_handle : Z) : M (att_env S) Z :=
  buf ← create_pdu BT_ATT_OP_READ_TYPE_RSP 1;
  match buf with
  | None => mret BT_ATT_ERR_UNLIKELY
  | Some buf =>
      data ← foreach_attr start_handle end_handle (read_type_cb u) (mk_read_type 0 [] false BT_ATT_ERR_ATTRIBUTE_NOT_FOUND);
      if negb (rt_err data =? 0) then send_err BT_ATT_OP_READ_TYPE_REQ start_handle (rt_err data);; mret 0
      else send_rsp (buf ++ rt_len data :: rt_items data);; mret 0
  end.

Definition att_read_type_req (data : list Z) : M (att_env S) Z :=
  let uuid_len := u8 (zlen data - 4) in
  if negb (uuid_len =? 2) && negb (uuid_len =? 16) then mret BT_ATT_ERR_INVALID_PDU
  else
    let start_handle := sys_get_le16 data in
    let end_handle := sys_get_le16 (drop 2 data) in
    match bt_uuid_create (drop 4 data) uuid_len with
    | None => mret BT_ATT_ERR_UNLIKELY
    | Some u =>
        match range_is_valid start_handle end_handle with
        | Some err_handle => send_err BT_ATT_OP_READ_TYPE_REQ err_handle BT_ATT_ERR_INVALID_HANDLE;; mret 0
        | None => att_read_type_rsp u start_handle end_handle
        end
    end.

(** ** Read, read blob and read multiple *)

Record read_data := mk_read { r_offset : Z; r_buf : list Z; r_err : Z }.

Definition read_cb (attr : bt_gatt_attr S) (handle : Z) (data : read_data) : M (att_env S) (bool * read_data) :=
  c ← gets conn;
  let err := bt_gatt_check_perm c attr BT_GATT_PERM_READ_MASK in
  let data := mk_read (r_offset data) (r_buf data) err in
  if negb (err =? 0) then mret (false, data)
  else
    r ← att_chan_read attr handle (fun d : read_data => zlen (r_buf d)) (r_offset data) (fun _ d => (true, d))
      (fun bytes d => mk_read (r_offset d) (r_buf d ++ bytes) (r_err d)) data;
    let '(ret, data) := r in
    if ret <? 0 then mret (false, mk_read (r_offset data) (r_buf data) (err_to_att ret))
    else mret (true, data).

Definition att_read_rsp (op rsp handle offset : Z) : M (att_env S) Z :=
  aware ← bt_gatt_change_aware true;
  if negb aware then mret BT_ATT_ERR_DB_OUT_OF_SYNC
  else if handle =? 0 then mret BT_ATT_ERR_INVALID_HANDLE
  else
    buf ← create_pdu rsp 0;
    match buf with
    | None => mret BT_ATT_ERR_UNLIKELY
    | Some buf =>
        data ← foreach_attr handle handle read_cb (mk_read offset buf BT_ATT_ERR_INVALID_HANDLE);
        if negb (r_err data =? 0) then send_err op handle (r_err data);; mret 0
        else send_rsp (r_buf data);; mret 0
    end.

Definition att_read_req (data : list Z) : M (att_env S) Z :=
  att_read_rsp BT_ATT_OP_READ_REQ BT_ATT_OP_READ_RSP (sys_get_le16 data) 0.

Definition att_read_blob_req (data : list Z) : M (att_env S) Z :=
  att_read_rsp BT_ATT_OP_READ_BLOB_REQ BT_ATT_OP_READ_BLOB_RSP (sys_get_le16 data) (sys_get_le16 (drop 2 data)).

(** The handles of the request one after the other; up to the first error. *)
Fixpoint read_mult (handles : list Z) (data : read_data) : M (att_env S) Z :=
  match handles with
  | _ :: _ :: handles' =>
      let handle := sys_get_le16 handles in
      data ← foreach_attr handle handle read_cb (mk_read (r_offset data) (r_buf data) BT_ATT_ERR_INVALID_HANDLE);
      if negb (r_err data =? 0) then send_err BT_ATT_OP_READ_MULT_REQ handle (r_err data);; mret 0
      else read_mult handles' data
  | _ => send_rsp (r_buf data);; mret 0
  end.

Definition att_read_mult_req (data : list Z) : M (att_env S) Z :=
  buf ← create_pdu BT_ATT_OP_READ_MULT_RSP 0;
  match buf with
  | None => mret BT_ATT_ERR_UNLIKELY
  | Some buf => read_mult data (mk_read 0 buf 0)
  end.

(** ** Read by group type *)

(** The response after its opcode: [rsp->len], the groups, and the place of
    the group that is extended. *)
Record read_group_data := mk_read_group { rg_len : Z; rg_items : list Z; rg_group : option nat }.

Definition rg_used (data : read_group_data) : Z := 2 + zlen (rg_items data).
Definition rg_add (bytes : list Z) (data : read_group_data) : read_group_data :=
  mk_read_group (rg_len data) (rg_items data ++ bytes) (rg_group data).

(** All groups have the size of the first. *)
Definition attr_read_group_cb (n : Z) (data : read_group_data) : bool * read_group_data :=
  let '(mk_read_group len items group) := data in
  if len =? 0 then (true, mk_read_group (u8 (n + 4)) items group)
  else if negb (len =? n + 4) then (false, mk_read_group len (take (length items - 4) items) None)
  else (true, data).

Definition read_group_cb (u : bt_uuid) (attr : bt_gatt_attr S) (handle : Z) (data : read_group_data) :
    M (att_env S) (bool * read_group_data) :=
  let '(mk_read_group len items group) := data in
  if negb (bt_uuid_cmp (uuid attr) BT_UUID_GATT_PRIMARY =? 0) && negb (bt_uuid_cmp (uuid attr) BT_UUID_GATT_SECONDARY =? 0)
  then mret (true, mk_read_group len (extend_group items group handle) group)
  else if negb (bt_uuid_cmp (uuid attr) u =? 0) then mret (true, mk_read_group len items None)
  else
    mtu ← gets tx_mtu;
    if negb (len =? 0) && (mtu - (2 + zlen items) <? len) then mret (false, data)
    else
      r ← att_chan_read attr handle rg_used 0 attr_read_group_cb rg_add
        (mk_read_group len (items ++ sys_put_le16 handle ++ sys_put_le16 handle) (Some (length items)));
      let '(n, data) := r in
      if n <? 0 then mret (false, data)
      else mret (match rg_group data with None => false | Some _ => true end, data).

Definition att_read_group_rsp (u : bt_uuid) (start_handle end_handle : Z) : M (att_env S) Z :=
  buf ← create_pdu BT_ATT_OP_READ_GROUP_RSP 1;
  match buf with
  | None => mret BT_ATT_ERR_UNLIKELY
  | Some buf =>
      data ← foreach_attr start_handle end_handle (read_group_cb u) (mk_read_group 0 [] None);
      if rg_len data =? 0 then send_err BT_ATT_OP_READ_GROUP_REQ start_handle BT_ATT_ERR_ATTRIBUTE_NOT_FOUND;; mret 0
      else send_rsp (buf ++ rg_len data :: rg_items data);; mret 0
  end.

Definition att_read_group_req (data : list Z) : M (att_env S) Z :=
  let uuid_len := u8 (zlen data - 4) in
  if negb (uuid_len =? 2) && negb (uuid_len =? 16) then mret BT_ATT_ERR_INVALID_PDU
  else
    let start_handle := sys_get_le16 data in
    let end_handle := sys_get_le16 (drop 2 data) in
    match bt_uuid_create (drop 4 data) uuid_len with
    | None => mret BT_ATT_ERR_UNLIKELY
    | Some u =>
        match range_is_valid start_handle end_handle with
        | Some err_handle => send_err BT_ATT_OP_READ_GROUP_REQ err_handle BT_ATT_ERR_INVALID_HANDLE;; mret 0
        | None =>
            if negb (bt_uuid_cmp u BT_UUID_GATT_PRIMARY =? 0) && negb (bt_uuid_cmp u BT_UUID_GATT_SECONDARY =? 0)
            then send_err BT_ATT_OP_READ_GROUP_REQ start_handle BT_ATT_ERR_UNSUPPORTED_GROUP_TYPE;; mret 0
            else att_read_group_rsp u start_handle end_handle
        end
    end.

(** ** Confirmations

    The stack sends no indications here, so there is no request a
    confirmation could belong to and none queued behind it. *)
Definition att_confirm (data : list Z) : M (att_env S) Z := mret 0.

(** ** The rows of the table of handlers *)
Definition read_handlers : list (att_handler S) :=
  [mk_handler BT_ATT_OP_FIND_INFO_REQ 4 ATT_REQUEST att_find_info_req;
   mk_handler BT_ATT_OP_FIND_TYPE_REQ 6 ATT_REQUEST att_find_type_req;
   mk_handler BT_ATT_OP_READ_TYPE_REQ 4 ATT_REQUEST att_read_type_req;
   mk_handler BT_ATT_OP_READ_REQ 2 ATT_REQUEST att_read_req;
   mk_handler BT_ATT_OP_READ_BLOB_REQ 4 ATT_REQUEST att_read_blob_req;
   mk_handler BT_ATT_OP_READ_MULT_REQ BT_ATT_READ_MULT_MIN_LEN_REQ ATT_REQUEST att_read_mult_req;
   mk_handler BT_ATT_OP_READ_GROUP_REQ 4 ATT_REQUEST att_read_group_req;
   mk_handler BT_ATT_OP_CONFIRM 0 ATT_CONFIRMATION att_confirm].

End operations.
