(* ===== verification/AttServer.v ===== *)
(** * The attribute server as a whole

    Every request is answered once, within the packet size: the invariants of
    the loops over the attribute table (subsys/bluetooth/host/att.c, gatt.c)
    and their composition in the dispatch. *)
From S2P Require Import Prelude Platform ByteOrder Uuid Att AttRead.
From stdpp Require Import prelude list numbers.
From Stdlib Require Import ZArith Lia.
Open Scope Z_scope.

(** ** Runs that return *)
Section returning.
Context {X : Type}.

(** [m] returns from [x] and [Q] holds of the result and the state. *)
Definition run {A} (m : M X A) (x : X) (Q : A -> X -> Prop) : Prop := exists a x', m x = (Done a, x') /\ Q a x'.

Lemma run_ret {A} (a : A) x (Q : A -> X -> Prop) : Q a x -> run (mret a) x Q.
Proof. intros H. by exists a, x. Qed.

Lemma run_bind {A B} (m : M X A) (k : A -> M X B) x (Q : B -> X -> Prop) :
  run m x (fun a x' => run (k a) x' Q) -> run (mbind k m) x Q.
Proof. intros (a & x' & E & b & x'' & E' & HQ). exists b, x''. by rewrite (bind_done _ _ _ _ _ E). Qed.

Lemma run_gets {A B} (g : X -> A) (k : A -> M X B) x (Q : B -> X -> Prop) : run (k (g x)) x Q -> run (mbind k (gets g)) x Q.
Proof. intros (b & x' & E & H). exists b, x'. by rewrite bind_gets. Qed.

Lemma run_modify {B} (g : X -> X) (k : unit -> M X B) x (Q : B -> X -> Prop) :
  run (k tt) (g x) Q -> run (mbind k (modify g)) x Q.
Proof. intros (b & x' & E & H). exists b, x'. by rewrite bind_modify. Qed.

Lemma run_mono {A} (m : M X A) x (P Q : A -> X -> Prop) : run m x P -> (forall a x', P a x' -> Q a x') -> run m x Q.
Proof. intros (a & x' & E & H) HPQ. exists a, x'. auto. Qed.
End returning.

(** ** The loop over the attribute table *)
Section table.
Context {S D : Type} (func : bt_gatt_attr S -> Z -> D -> M (att_env S) (bool * D)) (ok : bt_gatt_attr S -> Prop).
(** [I] holds while the loop goes on, [J] when it has ended. *)
Context (I J : D -> att_env S -> Prop).
Context (Hfunc : forall a h d e, ok a -> I d e ->
  run (func a h d) e (fun r e' => if r.1 then I r.2 e' else J r.2 e')) (HIJ : forall d e, I d e -> J d e).

Lemma iter_inv a handle s t n d e : ok a -> I d e ->
  run (gatt_foreach_iter a handle s t None None n func d) e (fun r e' => if r.1.1 then I r.2 e' else J r.2 e').
Proof.
  intros Ha Hd. unfold gatt_foreach_iter. destruct (t <? handle); [by apply run_ret, HIJ|].
  destruct (handle <? s); [by apply run_ret|]. apply run_bind. eapply run_mono; [by apply Hfunc|].
  intros [b d'] e' H. apply run_ret. cbn in *. destruct (u16 (n - 1) =? 0); [destruct b; [by apply HIJ|done]|done].
Qed.

Lemma attrs_inv attrs handle s t n d e : Forall ok attrs -> I d e ->
  run (foreach_attrs attrs handle s t None None n func d) e (fun r e' => if r.1.1.1 then I r.2 e' else J r.2 e').
Proof.
  intros Ha. revert handle n d e. induction Ha as [|a attrs Ha Hl IH]; intros handle n d e Hd; cbn [foreach_attrs]; [by apply run_ret|].
  apply run_bind. eapply run_mono; [by apply iter_inv|]. intros [[[] n'] d'] e' H; cbn in H; [by apply IH|by apply run_ret].
Qed.

Lemma services_inv svcs handle s t n d e : Forall ok (concat svcs) -> I d e ->
  run (foreach_services svcs handle s t None None n func d) e J.
Proof.
  revert handle n d e. induction svcs as [|svc svcs IH]; intros handle n d e Ha Hd; cbn [foreach_services concat] in *.
  - by apply run_ret, HIJ.
  - apply Forall_app in Ha as [Ha Hl]. destruct (_ <? s); [by apply IH|].
    apply run_bind. eapply run_mono; [by apply attrs_inv|].
    intros [[[[] h'] n'] d'] e' H; cbn in H; [by apply IH|by apply run_ret].
Qed.

Lemma foreach_attr_inv services s t d e : Forall ok (concat services) -> I d e ->
  run (bt_gatt_foreach_attr services s t func d) e J.
Proof.
  intros Ha Hd. unfold bt_gatt_foreach_attr, bt_gatt_foreach_attr_type.
  destruct (s <=? _); [by apply services_inv|by apply run_ret, HIJ].
Qed.
End table.

(** ** Frames *)
Section server.
Context {S : Type} (l2cap_alloc : att_env S -> bool) (l2cap_send : att_env S -> list Z -> Z) (MTU : Z)
  (services : list (list (bt_gatt_attr S))) (tail : list Z).
Implicit Types e : att_env S.

(** What callbacks leave alone: the channel. *)
Record frame e e' : Prop := {
  fr_attached : attached e' = attached e;
  fr_pending : pending_rsp e' = pending_rsp e;
  fr_mtu : tx_mtu e' = tx_mtu e;
  fr_out : out e' = out e }.

#[global] Instance frame_preorder : PreOrder frame.
Proof. split; [by split|]. intros a b c [H1 H2 H3 H4] [K1 K2 K3 K4]. split; congruence. Qed.

(** An attribute whose callbacks return, leave the channel alone and stay
    within the room they are given. *)
Record polite (a : bt_gatt_attr S) : Prop := {
  po_uuid : uuid_ok (uuid a);
  po_read : forall f h len off e, read a = Some f -> 0 <= len ->
    run (f h len off) e (fun r e' => frame e e' /\ match r with inl err => err < 0 | inr bytes => zlen bytes <= len end);
  po_primary : bt_uuid_cmp (uuid a) BT_UUID_GATT_PRIMARY = 0 \/ bt_uuid_cmp (uuid a) BT_UUID_GATT_SECONDARY = 0 ->
    is_Some (read a);
  po_write : forall f buf len off fl e, write a = Some f -> run (f buf len off fl) e (fun _ e' => frame e e') }.

Context (Hl : l2cap_fine l2cap_alloc l2cap_send) (Hpo : Forall polite (concat services)).

(** The answer to request [code]: an error response or the response. *)
Definition good (code mtu : Z) (p : list Z) : Prop :=
  zlen p <= mtu /\
  ((exists h err, p = BT_ATT_OP_ERROR_RSP :: code :: sys_put_le16 h ++ [err] /\ err <> 0) \/
   (exists rest, p = code + 1 :: rest)).

(** What a handler does: it answers, or leaves it to the dispatch. *)
Definition handled (code : Z) e (err : Z) e' : Prop :=
  attached e' = attached e /\ pending_rsp e' = pending_rsp e /\
  if err =? 0 then exists p, out e' = out e ++ [p] /\ good code (tx_mtu e) p
  else out e' = out e /\ tx_mtu e' = tx_mtu e.

Lemma handled_frame code e e1 err e2 : frame e e1 -> handled code e1 err e2 -> handled code e err e2.
Proof. intros [H1 H2 H3 H4] (K1 & K2 & K3). unfold handled. by rewrite H1, H2, H3, H4 in *. Qed.

Lemma handled_err code e e' err : err <> 0 -> frame e e' -> handled code e err e'.
Proof. intros He [H1 H2 H3 H4]. unfold handled. by rewrite (proj2 (Z.eqb_neq err 0) He). Qed.

Lemma zlen_le16 v : zlen (sys_put_le16 v) = 2. Proof. done. Qed.
Lemma zlen_app {A} (a b : list A) : zlen (a ++ b) = zlen a + zlen b.
Proof. unfold zlen. rewrite length_app. lia. Qed.
Lemma zlen_cons {A} (a : A) (l : list A) : zlen (a :: l) = 1 + zlen l.
Proof. unfold zlen. cbn [length]. lia. Qed.
Lemma zlen_nonneg {A} (l : list A) : 0 <= zlen l. Proof. unfold zlen. lia. Qed.

Lemma send_rsp_handled code p e e1 (k : unit -> M (att_env S) Z) :
  frame e e1 -> good code (tx_mtu e) p -> (forall u, k u = mret 0) ->
  run (mbind k (bt_att_chan_send_rsp l2cap_send p)) e1 (handled code e).
Proof.
  intros [H1 H2 H3 H4] Hg Hk. apply run_bind. exists tt, (answered p e1). split; [by eapply send_rsp_run|].
  rewrite Hk. apply run_ret. unfold handled. cbn [answered attached pending_rsp set_out out Z.eqb]. split_and!; [done..|].
  exists p. by rewrite H4.
Qed.

Lemma send_err_handled code h err e e1 (k : unit -> M (att_env S) Z) :
  frame e e1 -> 23 <= tx_mtu e -> code <> 0 -> err <> 0 -> (forall u, k u = mret 0) ->
  run (mbind k (send_err_rsp l2cap_alloc l2cap_send code h err)) e1 (handled code e).
Proof.
  intros [H1 H2 H3 H4] Hm Hc He Hk. apply run_bind.
  exists tt, (answered (BT_ATT_OP_ERROR_RSP :: code :: sys_put_le16 h ++ [err]) e1). split; [apply send_err_run; [done|by rewrite H3|done]|].
  rewrite Hk. apply run_ret. unfold handled. cbn [answered attached pending_rsp set_out out Z.eqb]. split_and!; [done..|].
  eexists. rewrite H4. split; [done|]. split; [unfold zlen; cbn; lia|]. left. by exists h, err.
Qed.

Lemma create_pdu_bind {B} op len (k : option (list Z) -> M (att_env S) B) e Q :
  len + 1 <= tx_mtu e -> run (k (Some [op])) e Q -> run (mbind k (bt_att_chan_create_pdu l2cap_alloc op len)) e Q.
Proof. intros Hm Hk. apply run_bind. exists (Some [op]), e. split; [by eapply create_pdu_run|done]. Qed.

(** A packet under construction. *)
Definition starts (op mtu : Z) (buf : list Z) : Prop := head buf = Some op /\ zlen buf <= mtu.

Lemma starts_app op mtu buf l : starts op mtu buf -> zlen buf + zlen l <= mtu -> starts op mtu (buf ++ l).
Proof. intros [Hh Hs] Hm. split; [by destruct buf|by rewrite zlen_app]. Qed.

Lemma starts_good code mtu buf : starts (code + 1) mtu buf -> good code mtu buf.
Proof. intros [Hh Hs]. split; [done|right]. destruct buf as [|b rest]; [done|]. injection Hh as ->. by exists rest. Qed.

Lemma room mtu n : 0 <= n <= mtu -> mtu < 2 ^ 16 -> u32 (mtu - n) = mtu - n.
Proof. intros Hn Hm. unfold u32. apply Z.mod_small. lia. Qed.

Lemma zlen_uuid128 v : uuid_ok (UUID_128 v) -> zlen v = 16.
Proof. intros [H _]. unfold zlen. by rewrite H. Qed.

(** Going on needs room for another entry of the chosen format. *)
Definition fi_room (format : Z) : Z := if format =? 1 then 4 else 18.
Definition fi_going e0 (d : find_info_data) e : Prop := frame e0 e /\
  match fi_format d with
  | None => fi_buf d = [BT_ATT_OP_FIND_INFO_RSP]
  | Some f => starts BT_ATT_OP_FIND_INFO_RSP (tx_mtu e0) (fi_buf d) /\ zlen (fi_buf d) + fi_room f < tx_mtu e0 /\ (f = 1 \/ f = 2)
  end.
Definition fi_done e0 (d : find_info_data) e : Prop := frame e0 e /\
  (fi_format d = None \/ starts BT_ATT_OP_FIND_INFO_RSP (tx_mtu e0) (fi_buf d)).

Lemma find_info_entry e0 e f buf entry : frame e0 e -> 23 <= tx_mtu e0 < 258 -> f = 1 \/ f = 2 ->
  starts BT_ATT_OP_FIND_INFO_RSP (tx_mtu e0) buf -> zlen buf + fi_room f <= tx_mtu e0 -> zlen entry = fi_room f ->
  let buf' := buf ++ entry in
  let r := (fi_room f <? u32 (tx_mtu e - zlen buf'), mk_find_info buf' (Some f)) in
  if r.1 then fi_going e0 r.2 e else fi_done e0 r.2 e.
Proof.
  intros He Hm Hf Hs Hr Hn buf'. assert (Hb : starts BT_ATT_OP_FIND_INFO_RSP (tx_mtu e0) buf') by (apply starts_app; [done|lia]).
  assert (Hz : zlen buf' = zlen buf + fi_room f) by (unfold buf'; rewrite zlen_app; lia).
  assert (H0 := zlen_nonneg buf). assert (0 < fi_room f) by (by destruct Hf as [->| ->]).
  rewrite (fr_mtu _ _ He), room by lia. cbn [fst snd].
  destruct (Z.ltb_spec (fi_room f) (tx_mtu e0 - zlen buf')).
  - split; [done|]. cbn. split_and!; [done|lia|done].
  - split; [done|]. by right.
Qed.

Lemma find_info_step e0 a h d e : 23 <= tx_mtu e0 < 258 -> polite a -> fi_going e0 d e ->
  run (find_info_cb a h d) e (fun r e' => if r.1 then fi_going e0 r.2 e' else fi_done e0 r.2 e').
Proof.
  intros Hm Ha [He Hd]. unfold find_info_cb. apply run_gets.
  set (d' := match fi_format d with Some _ => d | None => _ end).
  assert (Hd' : exists f, fi_format d' = Some f /\ (f = 1 \/ f = 2) /\
    starts BT_ATT_OP_FIND_INFO_RSP (tx_mtu e0) (fi_buf d') /\ zlen (fi_buf d') + fi_room f <= tx_mtu e0).
  { unfold d'. destruct (fi_format d) as [f|] eqn:Ed.
    - destruct Hd as (Hs & Hr & Hf). exists f. split_and!; [done|done|done|lia].
    - rewrite Hd. cbn. destruct (uuid a); eexists; (split; [done|]); (split; [by auto|]); split_and!; cbn; try done;
        unfold fi_room, BT_ATT_INFO_16, BT_ATT_INFO_128, zlen; cbn; first [lia|split; unfold zlen; cbn; done || lia]. }
  clearbody d'. clear Hd. destruct Hd' as (f & Ef & Hf & Hs & Hr). rewrite Ef. pose proof (po_uuid _ Ha) as Hu.
  assert (Hstop : run (mret (false, d')) e (fun r e' => if r.1 then fi_going e0 r.2 e' else fi_done e0 r.2 e')).
  { apply run_ret. split; [done|]. by right. }
  destruct Hf as [->| ->]; destruct (uuid a) as [v|v|v] eqn:Eu; try exact Hstop.
  - apply run_ret. by apply (find_info_entry e0 e 1); auto.
  - apply run_ret. apply (find_info_entry e0 e 2); auto. rewrite zlen_app. by rewrite (zlen_uuid128 v).
Qed.

Lemma find_info_handled data e : 23 <= tx_mtu e < 258 ->
  run (att_find_info_req l2cap_alloc l2cap_send services data) e (handled BT_ATT_OP_FIND_INFO_REQ e).
Proof.
  intros Hm. unfold att_find_info_req. destruct (range_is_valid _ _) as [h|].
  - by apply send_err_handled; [reflexivity|lia|..].
  - unfold att_find_info_rsp. apply create_pdu_bind; [lia|]. apply run_bind.
    eapply run_mono; [apply (foreach_attr_inv _ polite (fi_going e) (fi_done e))|].
    + intros. by apply find_info_step.
    + intros d e' [He Hd]. split; [done|]. destruct (fi_format d); [right; apply Hd|by left].
    + done.
    + by split; [reflexivity|].
    + intros d e' [He Hd]. destruct (fi_format d) as [f|] eqn:Ef.
      * destruct Hd as [Hd|Hd]; [done|]. apply send_rsp_handled; [done|by apply starts_good|done].
      * by apply send_err_handled; [done|lia|..].
Qed.

(** ** Groups of handles *)

Lemma length_put_at dst off (bytes : list Z) : (off + length bytes <= length dst)%nat -> length (put_at dst off bytes) = length dst.
Proof. intros H. unfold put_at. rewrite !length_app, length_take, length_drop. lia. Qed.

Definition group_in (buf : list Z) (group : option nat) : Prop := forall g, group = Some g -> (g + 4 <= length buf)%nat.

Lemma extend_group_length buf group h : group_in buf group -> length (extend_group buf group h) = length buf.
Proof.
  intros Hg. unfold extend_group. destruct group as [g|]; [|done]. destruct (_ <? h); [|done].
  apply length_put_at. specialize (Hg g eq_refl). cbn. lia.
Qed.

Lemma extend_group_head buf group h : group_in buf group -> head (extend_group buf group h) = head buf.
Proof.
  intros Hg. unfold extend_group. destruct group as [g|]; [|done]. destruct (_ <? h); [|done]. specialize (Hg g eq_refl).
  destruct buf as [|b buf]; [cbn in Hg; lia|]. unfold put_at. by rewrite Nat.add_comm.
Qed.

Lemma extend_group_starts op mtu buf group h : group_in buf group -> starts op mtu buf -> starts op mtu (extend_group buf group h).
Proof.
  intros Hg [Hh Hs]. split; [by rewrite extend_group_head|]. unfold zlen in *. by rewrite extend_group_length.
Qed.

Lemma extend_group_in buf group h : group_in buf group -> group_in (extend_group buf group h) group.
Proof. intros Hg g ->. rewrite extend_group_length by done. by apply Hg. Qed.

Lemma group_new buf (entry rest : list Z) : length entry = 4%nat -> group_in (buf ++ entry ++ rest) (Some (length buf)).
Proof. intros He g [= <-]. rewrite !length_app. lia. Qed.

(** ** Find by type value *)

Definition ft_going e0 (d : find_type_data) e : Prop :=
  frame e0 e /\ starts BT_ATT_OP_FIND_TYPE_RSP (tx_mtu e0) (ft_buf d) /\ group_in (ft_buf d) (ft_group d).

Lemma find_type_step e0 a h d e : 23 <= tx_mtu e0 < 258 -> polite a -> ft_going e0 d e ->
  run (find_type_cb a h d) e (fun r e' => if r.1 then ft_going e0 r.2 e' else ft_going e0 r.2 e').
Proof.
  intros Hm Ha (He & Hs & Hg). unfold find_type_cb. destruct d as [buf group value vlen err]. cbn [ft_buf ft_group] in *.
  assert (Hskip : forall e', frame e0 e' -> ft_going e0 (mk_find_type buf None value vlen err) e') by (intros; by split_and!).
  destruct (bt_uuid_cmp (uuid a) BT_UUID_GATT_SECONDARY =? 0); [by apply run_ret, Hskip|].
  destruct (bt_uuid_cmp (uuid a) BT_UUID_GATT_PRIMARY =? 0) eqn:Ep; cbn [negb].
  2:{ apply run_ret. split_and!; [done|by apply extend_group_starts|by apply extend_group_in]. }
  apply run_gets. rewrite (fr_mtu _ _ He).
  assert (Hz := zlen_nonneg buf). rewrite room by (destruct Hs; lia).
  destruct (Z.ltb_spec (tx_mtu e0 - zlen buf) 4); [by apply run_ret; split_and!|].
  destruct (po_primary _ Ha) as [f Ef]; [left; by apply Z.eqb_eq|]. rewrite Ef. apply run_bind.
  eapply run_mono; [eapply (po_read _ Ha); [done|lia]|]. intros r e' [He' _].
  assert (Hf : frame e0 e') by by etransitivity.
  destruct r as [er|bytes]; [by apply run_ret, Hskip|].
  destruct (service_matches _ _ _); [|by apply run_ret, Hskip].
  apply run_ret. split_and!; [done|apply starts_app; [done|rewrite zlen_app, !zlen_le16; lia]|].
  rewrite <- (app_nil_r (_ ++ sys_put_le16 h)). by apply group_new.
Qed.

Lemma find_type_handled data e : 23 <= tx_mtu e < 258 ->
  run (att_find_type_req l2cap_alloc l2cap_send services data) e (handled BT_ATT_OP_FIND_TYPE_REQ e).
Proof.
  intros Hm. unfold att_find_type_req. destruct (range_is_valid _ _) as [h|]; [by apply send_err_handled; [reflexivity|lia|..]|].
  destruct (negb _); [by apply send_err_handled; [reflexivity|lia|..]|].
  unfold att_find_type_rsp. apply create_pdu_bind; [lia|]. apply run_bind.
  eapply run_mono; [apply (foreach_attr_inv _ polite (ft_going e) (ft_going e))|].
  - intros. by apply find_type_step.
  - done.
  - done.
  - split_and!; [reflexivity|split; [done|unfold zlen; cbn; lia]|done].
  - intros d e' (He & Hs & _). destruct (Z.eqb_spec (ft_err d) 0) as [Ez|Ez]; cbn [negb].
    + apply send_rsp_handled; [done|by apply starts_good|done].
    + by apply send_err_handled; [done|lia|..].
Qed.

(** ** Reading *)

Lemma readable c (a : bt_gatt_attr S) : bt_gatt_check_perm c a BT_GATT_PERM_READ_MASK = 0 -> is_Some (read a).
Proof.
  unfold bt_gatt_check_perm. destruct (read a); [done|]. rewrite orb_true_r, andb_true_r.
  change (negb (Z.land BT_GATT_PERM_READ_MASK BT_GATT_PERM_READ =? 0)) with true. done.
Qed.

Lemma writable c (a : bt_gatt_attr S) : bt_gatt_check_perm c a BT_GATT_PERM_WRITE_MASK = 0 -> is_Some (write a).
Proof.
  unfold bt_gatt_check_perm. change (negb (Z.land BT_GATT_PERM_WRITE_MASK BT_GATT_PERM_READ =? 0)) with false. cbn [andb].
  destruct (write a); [done|]. rewrite orb_true_r.
  change (negb (Z.land BT_GATT_PERM_WRITE_MASK BT_GATT_PERM_WRITE =? 0)) with true. done.
Qed.

(** The three ways a read into a packet ends. *)
Inductive chan_read_result {D} (mtu : Z) (used : D -> Z) (cb : Z -> D -> bool * D) (add : list Z -> D -> D) (d : D) : Z * D -> Prop :=
| Read_full : mtu <= used d -> chan_read_result mtu used cb add d (0, d)
| Read_error err : err < 0 -> chan_read_result mtu used cb add d (err, d)
| Read_bytes bytes d' : zlen bytes <= mtu - used d -> cb (zlen bytes) d = (true, d') ->
    chan_read_result mtu used cb add d (zlen bytes, add bytes d')
| Read_refused (bytes : list Z) d' : zlen bytes <= mtu - used d -> cb (zlen bytes) d = (false, d') ->
    chan_read_result mtu used cb add d (0, d').

Lemma chan_read_run {D} a h (used : D -> Z) off cb add d e0 e : frame e0 e -> polite a -> is_Some (read a) ->
  run (att_chan_read a h used off cb add d) e
    (fun r e' => frame e0 e' /\ chan_read_result (tx_mtu e0) used cb add d r).
Proof.
  intros He Ha [f Ef]. unfold att_chan_read. apply run_gets. rewrite (fr_mtu _ _ He).
  destruct (Z.leb_spec (tx_mtu e0) (used d)); [by apply run_ret; split; [done|apply Read_full]|].
  rewrite Ef. apply run_bind. eapply run_mono; [eapply (po_read _ Ha); [done|lia]|]. intros r e' [He' Hr].
  assert (Hf : frame e0 e') by by etransitivity.
  destruct r as [err|bytes]; [by apply run_ret; split; [done|apply Read_error]|].
  destruct (cb (zlen bytes) d) as [[] d'] eqn:Ec; apply run_ret; (split; [done|]);
    [by apply Read_bytes|by eapply Read_refused].
Qed.

(** ** Read by type *)

Definition rt_fits e0 (d : read_type_data) e : Prop := frame e0 e /\ 2 + zlen (rt_items d) <= tx_mtu e0.
Definition rt_going e0 (d : read_type_data) e : Prop := rt_fits e0 d e /\
  (rt_len d = 0 /\ rt_items d = [] \/ 2 <= rt_len d <= 255 /\ 2 + zlen (rt_items d) + rt_len d < tx_mtu e0).

Lemma read_type_item len items h (cb_ok : bool) n (bytes : list Z) d' e0 : 23 <= tx_mtu e0 < 258 ->
  len = 0 /\ items = [] \/ 2 <= len <= 255 /\ 2 + zlen items + len < tx_mtu e0 ->
  n = zlen bytes -> n <= tx_mtu e0 - (2 + zlen (items ++ sys_put_le16 h)) ->
  attr_read_type_cb n (mk_read_type len (items ++ sys_put_le16 h) true 0) = (cb_ok, d') ->
  if cb_ok then rt_item d' = true /\ rt_items d' = items ++ sys_put_le16 h /\ rt_err d' = 0 /\ 2 <= rt_len d' <= 255
  else rt_item d' = false /\ zlen (rt_items d') <= zlen (items ++ sys_put_le16 h).
Proof.
  intros Hm Hi -> Hn. assert (Hb := zlen_nonneg bytes). unfold attr_read_type_cb. destruct (Z.eqb_spec len 0) as [->|Hl0].
  - destruct Hi as [[_ ->]|?]; [|lia]. intros [= <- <-]. cbn in *. unfold u8.
    rewrite Z.mod_small by (unfold zlen in *; cbn in *; lia). split_and!; try done; unfold zlen in *; cbn in *; lia.
  - destruct (Z.eqb_spec len (zlen bytes + 2)) as [E|E]; cbn [negb]; intros [= <- <-]; cbn.
    + split_and!; try done; lia.
    + split; [done|]. unfold zlen. rewrite length_take. lia.
Qed.

Lemma read_type_step u e0 a h d e : 23 <= tx_mtu e0 < 258 -> polite a -> rt_going e0 d e ->
  run (read_type_cb u a h d) e (fun r e' => if r.1 then rt_going e0 r.2 e' else rt_fits e0 r.2 e').
Proof.
  intros Hm Ha Hg. unfold read_type_cb. destruct (negb _); [by apply run_ret|]. apply run_gets.
  destruct Hg as [[He Hs] Hi]. destruct d as [len items item err]. cbn in Hs, Hi.
  destruct (Z.eqb_spec (bt_gatt_check_perm (conn e) a BT_GATT_PERM_READ_MASK) 0) as [Hp|Hp]; cbn [negb]; [|by apply run_ret; split].
  assert (Hu : 2 + zlen (items ++ sys_put_le16 h) <= tx_mtu e0).
  { rewrite zlen_app, zlen_le16. destruct Hi as [[_ ->]|Hi]; [unfold zlen; cbn|]; lia. }
  apply run_bind. eapply run_mono; [by eapply chan_read_run; [|done|eapply readable]|].
  intros r e' [He' Hr]. destruct Hr as [Hfull|er Her|bytes d' Hn Hc|bytes d' Hn Hc]; unfold rt_used in *; cbn [rt_items] in *.
  - assert (E : tx_mtu e0 = 2 + zlen (items ++ sys_put_le16 h)) by lia. cbn [Z.ltb Z.compare negb]. apply run_gets.
    rewrite (fr_mtu _ _ He'), <- E, Z.sub_diag. change (u32 0) with 0. apply run_ret.
    cbn [fst snd]. rewrite (proj2 (Z.ltb_ge len 0)) by lia. by split.
  - rewrite (proj2 (Z.ltb_lt er 0)) by done. by apply run_ret; split.
  - destruct d' as [len' items' item' err']. apply (read_type_item _ _ _ _ _ bytes _ e0) in Hc; [|done..].
    cbn in Hc. destruct Hc as (-> & -> & -> & Hlen). cbn [rt_add rt_len rt_items rt_item rt_err].
    rewrite (proj2 (Z.ltb_ge _ _)) by apply zlen_nonneg. cbn [negb]. apply run_gets. rewrite (fr_mtu _ _ He').
    assert (Hz := zlen_nonneg ((items ++ sys_put_le16 h) ++ bytes)). rewrite (zlen_app _ bytes) in *.
    assert (Hb := zlen_nonneg (items ++ sys_put_le16 h)). rewrite room by lia. apply run_ret. cbn [fst snd].
    assert (rt_fits e0 (mk_read_type len' ((items ++ sys_put_le16 h) ++ bytes) true 0) e') by (split; [done|]; cbn; rewrite zlen_app; lia).
    destruct (Z.ltb_spec len' (tx_mtu e0 - (2 + (zlen (items ++ sys_put_le16 h) + zlen bytes)))); [|done].
    split; [done|]. right. cbn. rewrite zlen_app. lia.
  - destruct d' as [len' items' item' err']. apply (read_type_item _ _ _ _ _ bytes _ e0) in Hc; [|done..].
    cbn in Hc. destruct Hc as (-> & Hlen). cbn [Z.ltb Z.compare negb]. apply run_ret. split; [done|]. cbn. lia.
Qed.

Lemma read_type_handled data e : 23 <= tx_mtu e < 258 ->
  run (att_read_type_req l2cap_alloc l2cap_send services data) e (handled BT_ATT_OP_READ_TYPE_REQ e).
Proof.
  intros Hm. unfold att_read_type_req. destruct (_ && _); [by apply run_ret, handled_err|].
  destruct (bt_uuid_create _ _) as [u|]; [|by apply run_ret, handled_err].
  destruct (range_is_valid _ _) as [h|]; [by apply send_err_handled; [reflexivity|lia|..]|].
  unfold att_read_type_rsp. apply create_pdu_bind; [lia|]. apply run_bind.
  eapply run_mono; [apply (foreach_attr_inv _ polite (rt_going e) (rt_fits e))|].
  - intros. by apply read_type_step.
  - by intros d e' [H _].
  - done.
  - split; [split; [reflexivity|unfold zlen; cbn; lia]|by left].
  - intros d e' [He Hs]. destruct (Z.eqb_spec (rt_err d) 0) as [Ez|Ez]; cbn [negb].
    + apply send_rsp_handled; [done| |done]. apply starts_good. split; [done|]. cbn [app]. rewrite !zlen_cons. lia.
    + by apply send_err_handled; [done|lia|..].
Qed.

(** ** Read, read blob and read multiple *)

Lemma change_aware_run e : run (bt_gatt_change_aware true) e (fun _ e' => frame e e').
Proof.
  unfold bt_gatt_change_aware. apply run_gets. destruct (cf e) as [c|]; [|by apply run_ret].
  destruct (robust_caching c), (change_aware c), (out_of_sync c); cbn [negb]; try (by apply run_ret);
    apply run_modify, run_ret; by split.
Qed.

Definition r_fits op e0 (d : read_data) e : Prop := frame e0 e /\ starts op (tx_mtu e0) (r_buf d).

Lemma read_step op e0 a h d e : polite a -> r_fits op e0 d e ->
  run (read_cb a h d) e (fun r e' => if r.1 then r_fits op e0 r.2 e' else r_fits op e0 r.2 e').
Proof.
  intros Ha [He Hs]. unfold read_cb. apply run_gets.
  destruct (Z.eqb_spec (bt_gatt_check_perm (conn e) a BT_GATT_PERM_READ_MASK) 0) as [Hp|Hp]; cbn [negb]; [|by apply run_ret; split].
  apply run_bind. eapply run_mono; [by eapply chan_read_run; [|done|eapply readable]|].
  intros r e' [He' Hr]. destruct Hr as [Hfull|er Her|bytes d' Hn Hc|bytes d' Hn Hc]; [| | |done].
  - by apply run_ret; split.
  - rewrite (proj2 (Z.ltb_lt er 0)) by done. by apply run_ret; split.
  - injection Hc as <-. rewrite (proj2 (Z.ltb_ge _ _)) by apply zlen_nonneg. apply run_ret.
    split; [done|]. cbn in *. apply starts_app; [done|lia].
Qed.

Lemma foreach_read op e0 s t d e : r_fits op e0 d e -> run (bt_gatt_foreach_attr services s t read_cb d) e (r_fits op e0).
Proof. intros Hd. apply (foreach_attr_inv _ polite (r_fits op e0) (r_fits op e0)); auto using read_step. Qed.

Lemma read_rsp_handled op handle offset e : 23 <= tx_mtu e < 258 -> op <> 0 ->
  run (att_read_rsp l2cap_alloc l2cap_send services op (op + 1) handle offset) e (handled op e).
Proof.
  intros Hm Ho. unfold att_read_rsp. apply run_bind. eapply run_mono; [apply change_aware_run|]. intros aware e1 He1.
  destruct aware; cbn [negb]; [|by apply run_ret, handled_err]. destruct (handle =? 0); [by apply run_ret, handled_err|].
  apply create_pdu_bind; [rewrite (fr_mtu _ _ He1); lia|]. apply run_bind.
  eapply run_mono; [apply (foreach_read (op + 1) e)|].
  - split; [done|]. split; [done|unfold zlen; cbn; lia].
  - intros d e' [He Hs]. destruct (Z.eqb_spec (r_err d) 0) as [Ez|Ez]; cbn [negb].
    + apply send_rsp_handled; [done|by apply starts_good|done].
    + by apply send_err_handled; [done|lia|..].
Qed.

Lemma read_mult_run n handles d e0 e : (length handles <= n)%nat -> 23 <= tx_mtu e0 < 258 ->
  r_fits BT_ATT_OP_READ_MULT_RSP e0 d e ->
  run (read_mult l2cap_alloc l2cap_send services handles d) e (handled BT_ATT_OP_READ_MULT_REQ e0).
Proof.
  revert handles d e. induction n as [|n IH]; intros [|a [|b handles]] d e Hn Hm [He Hs]; cbn [length] in Hn; try lia; cbn [read_mult];
    try (by apply send_rsp_handled; [done|apply starts_good|]).
  apply run_bind. eapply run_mono; [by apply (foreach_read BT_ATT_OP_READ_MULT_RSP e0)|]. intros d' e' [He' Hs'].
  destruct (Z.eqb_spec (r_err d') 0) as [Ez|Ez]; cbn [negb].
  - apply IH; [lia|done|done].
  - by apply send_err_handled; [done|lia|..].
Qed.

Lemma read_mult_handled data e : 23 <= tx_mtu e < 258 ->
  run (att_read_mult_req l2cap_alloc l2cap_send services data) e (handled BT_ATT_OP_READ_MULT_REQ e).
Proof.
  intros Hm. unfold att_read_mult_req. apply create_pdu_bind; [lia|]. eapply read_mult_run; [done|done|].
  split; [reflexivity|]. split; [done|unfold zlen; cbn; lia].
Qed.

(** ** Read by group type *)

Definition rg_fits e0 (d : read_group_data) e : Prop := frame e0 e /\ 2 + zlen (rg_items d) <= tx_mtu e0.
Definition rg_going e0 (d : read_group_data) e : Prop := rg_fits e0 d e /\ group_in (rg_items d) (rg_group d) /\
  (rg_len d = 0 /\ rg_items d = [] \/ 4 <= rg_len d <= 255).

Lemma read_group_value e0 e len items h : 23 <= tx_mtu e0 < 258 -> frame e0 e ->
  len = 0 /\ items = [] \/ 4 <= len <= 255 /\ 2 + zlen items + len <= tx_mtu e0 ->
  forall r, chan_read_result (tx_mtu e0) rg_used attr_read_group_cb rg_add
    (mk_read_group len (items ++ sys_put_le16 h ++ sys_put_le16 h) (Some (length items))) r ->
  if r.1 <? 0 then rg_fits e0 r.2 e
  else if match rg_group r.2 with Some _ => true | None => false end then rg_going e0 r.2 e else rg_fits e0 r.2 e.
Proof.
  intros Hm He Hi r Hr. set (entry := sys_put_le16 h ++ sys_put_le16 h) in *.
  assert (Hz : zlen (items ++ entry) = zlen items + 4) by by rewrite zlen_app.
  assert (Hu : 2 + zlen (items ++ entry) <= tx_mtu e0) by (destruct Hi as [[_ ->]|Hi]; [rewrite Hz; unfold zlen; cbn|]; lia).
  assert (Hg : forall l, group_in (items ++ entry ++ l) (Some (length items))) by (intros; by apply group_new).
  clearbody entry. destruct Hr as [Hfull|er Her|bytes d' Hn Hc|bytes d' Hn Hc]; unfold rg_used, attr_read_group_cb in *; cbn [rg_items rg_len fst snd] in *.
  - cbn. split; [by split|]. cbn. split; [by rewrite <- (app_nil_r entry)|].
    destruct Hi as [[_ ->]|Hi]; [rewrite Hz in *; unfold zlen in *; cbn in *; lia|right; lia].
  - rewrite (proj2 (Z.ltb_lt er 0)) by done. by split.
  - rewrite (proj2 (Z.ltb_ge _ _)) by apply zlen_nonneg. assert (Hb := zlen_nonneg bytes).
    assert (Hgo : forall len', 4 <= len' <= 255 -> rg_going e0 (rg_add bytes (mk_read_group len' (items ++ entry) (Some (length items)))) e).
    { intros len' Hl'. split; [split; [done|cbn; rewrite zlen_app; lia]|]. cbn. split; [rewrite <- app_assoc; apply Hg|by right]. }
    destruct (Z.eqb_spec len 0) as [->|Hl0].
    + injection Hc as <-. apply Hgo. assert (0 <= zlen items) by apply zlen_nonneg. unfold u8. rewrite Z.mod_small; lia.
    + destruct (Z.eqb_spec len (zlen bytes + 4)) as [E|E]; cbn [negb] in Hc; [|done]. injection Hc as <-. apply Hgo. lia.
  - destruct (len =? 0); [done|]. destruct (negb _); [|done]. injection Hc as <-. cbn. split; [done|]. cbn.
    unfold zlen in *. rewrite length_take. lia.
Qed.

Lemma read_group_step u e0 a h d e : 23 <= tx_mtu e0 < 258 -> polite a -> rg_going e0 d e ->
  run (read_group_cb u a h d) e (fun r e' => if r.1 then rg_going e0 r.2 e' else rg_fits e0 r.2 e').
Proof.
  intros Hm Ha ([He Hs] & Hg & Hi). unfold read_group_cb. destruct d as [len items group]. cbn [rg_items rg_len rg_group] in *.
  destruct (bt_uuid_cmp (uuid a) BT_UUID_GATT_PRIMARY =? 0) eqn:Ep, (bt_uuid_cmp (uuid a) BT_UUID_GATT_SECONDARY =? 0) eqn:Es;
    cbn [negb andb]; [| | |apply run_ret; split; [split; [done|]|split];
      cbn [snd rg_items rg_group rg_len]; [unfold zlen; by rewrite extend_group_length|by apply extend_group_in|]].
  4:{ destruct Hi as [[-> ->]|Hi]; [left; split; [done|]|by right]. destruct group as [g|]; [|done]. specialize (Hg g eq_refl). cbn in Hg. lia. }
  all: destruct (negb (bt_uuid_cmp (uuid a) u =? 0)); [by apply run_ret; split_and!|].
  all: apply run_gets; rewrite (fr_mtu _ _ He).
  all: destruct (negb (len =? 0) && (tx_mtu e0 - (2 + zlen items) <? len)) eqn:Er; [by apply run_ret; split|].
  all: apply run_bind; eapply run_mono; [eapply chan_read_run; [done|done|apply (po_primary _ Ha); rewrite <- !Z.eqb_eq; auto]|].
  all: intros [n d] e' [He' Hr]; apply (read_group_value e0 e') in Hr; [|done|done|].
  all: try (cbn [fst snd] in Hr; destruct (n <? 0); by apply run_ret).
  all: destruct Hi as [?|Hi]; [by left|right]; split; [done|]; apply andb_false_iff in Er as [Er|Er];
    [apply negb_false_iff, Z.eqb_eq in Er|apply Z.ltb_ge in Er]; lia.
Qed.

Lemma read_group_handled data e : 23 <= tx_mtu e < 258 ->
  run (att_read_group_req l2cap_alloc l2cap_send services data) e (handled BT_ATT_OP_READ_GROUP_REQ e).
Proof.
  intros Hm. unfold att_read_group_req. destruct (_ && _); [by apply run_ret, handled_err|].
  destruct (bt_uuid_create _ _) as [u|]; [|by apply run_ret, handled_err].
  destruct (range_is_valid _ _) as [h|]; [by apply send_err_handled; [reflexivity|lia|..]|].
  destruct (_ && _); [by apply send_err_handled; [reflexivity|lia|..]|].
  unfold att_read_group_rsp. apply create_pdu_bind; [lia|]. apply run_bind.
  eapply run_mono; [apply (foreach_attr_inv _ polite (rg_going e) (rg_fits e))|].
  - intros. by apply read_group_step.
  - by intros d e' [H _].
  - done.
  - split; [split; [reflexivity|unfold zlen; cbn; lia]|]. split; [done|by left].
  - intros d e' [He Hs]. destruct (rg_len d =? 0).
    + by apply send_err_handled; [done|lia|..].
    + apply send_rsp_handled; [done| |done]. apply starts_good. split; [done|]. cbn [app]. rewrite !zlen_cons. lia.
Qed.

(** ** Packet size and writes *)

Lemma mtu_handled data e : 23 <= tx_mtu e < 258 ->
  run (att_mtu_req l2cap_alloc l2cap_send MTU data) e (handled BT_ATT_OP_MTU_REQ e).
Proof.
  intros Hm. unfold att_mtu_req. destruct (_ <? _); [by apply run_ret, handled_err|].
  apply create_pdu_bind; [lia|]. apply run_bind. eexists tt, _. split; [by eapply send_rsp_run|].
  apply run_modify, run_ret. unfold handled. cbn [Z.eqb]. split_and!; [done..|].
  eexists. split; [done|]. apply starts_good. split; [done|unfold zlen; cbn; lia].
Qed.

Lemma write_step e0 a h d e : polite a -> frame e0 e ->
  run (write_cb a h d) e (fun r e' => if r.1 then frame e0 e' else frame e0 e').
Proof.
  intros Ha He. unfold write_cb. apply run_gets.
  destruct (Z.eqb_spec (bt_gatt_check_perm (conn e) a BT_GATT_PERM_WRITE_MASK) 0) as [Hp|Hp]; cbn [negb]; [|by apply run_ret].
  destruct (writable _ _ Hp) as [f Ef]. rewrite Ef. apply run_bind. eapply run_mono; [by eapply (po_write _ Ha)|].
  intros r e' He'. assert (Hf : frame e0 e') by by etransitivity. destruct (_ || _); by apply run_ret.
Qed.

Lemma write_handled data e : 23 <= tx_mtu e < 258 ->
  run (att_write_req l2cap_alloc l2cap_send services tail data) e (handled BT_ATT_OP_WRITE_REQ e).
Proof.
  intros Hm. unfold att_write_req, att_write_rsp. apply run_bind. eapply run_mono; [apply change_aware_run|]. intros aware e1 He1.
  destruct aware; cbn [negb]; [|by apply run_ret, handled_err]. destruct (sys_get_le16 data =? 0); [by apply run_ret, handled_err|].
  change (BT_ATT_OP_WRITE_RSP =? 0) with false. cbv iota. apply create_pdu_bind; [rewrite (fr_mtu _ _ He1); lia|]. cbn [negb andb].
  apply run_bind. eapply run_mono; [apply (foreach_attr_inv _ polite (fun _ => frame e) (fun _ => frame e))|]; try done.
  - intros. by apply write_step.
  - intros d e' He. destruct (Z.eqb_spec (w_err d) 0) as [Ez|Ez]; cbn [negb].
    + apply send_rsp_handled; [done| |done]. apply starts_good. split; [done|unfold zlen; cbn; lia].
    + by apply send_err_handled; [done|lia|..].
Qed.

(** ** Dispatch *)

Local Abbreviation table :=
  (handlers l2cap_alloc l2cap_send MTU services tail (read_handlers l2cap_alloc l2cap_send services)).
Local Abbreviation recv :=
  (bt_att_recv l2cap_alloc l2cap_send MTU services tail (read_handlers l2cap_alloc l2cap_send services)).

(** Every row handles its request, and the rows have the types of their
    opcodes. *)
Lemma table_handled : Forall (fun k => type k = att_op_get_type (op k) /\
  (type k = ATT_REQUEST -> forall data e, 23 <= tx_mtu e < 258 -> run (func k data) e (handled (op k) e))) table.
Proof.
  unfold handlers, read_handlers. cbn [app].
  repeat first [apply Forall_nil|apply Forall_cons; [split; [reflexivity|intros Ht data e Hm; cbn [func op] in *]|]].
  - by apply mtu_handled.
  - by apply find_info_handled.
  - by apply find_type_handled.
  - by apply read_type_handled.
  - by apply (read_rsp_handled BT_ATT_OP_READ_REQ).
  - by apply (read_rsp_handled BT_ATT_OP_READ_BLOB_REQ).
  - by apply read_mult_handled.
  - by apply read_group_handled.
  - done.
  - by apply write_handled.
  - by apply run_ret, handled_err.
  - by apply run_ret, handled_err.
  - done.
Qed.

Lemma request_row code : att_op_get_type code = ATT_REQUEST -> exists k, List.find (fun k => op k =? code) table = Some k.
Proof.
  unfold att_op_get_type. destruct (existsb (Z.eqb code) _) eqn:E.
  - intros _. apply existsb_exists in E as (c & Hc & ->%Z.eqb_eq).
    cbn [In] in Hc. repeat (destruct Hc as [<-|Hc]; [by eexists|]). done.
  - by repeat case_match.
Qed.

Lemma request_recv code buf e : att_op_get_type code = ATT_REQUEST -> attached e = true -> pending_rsp e = false ->
  23 <= tx_mtu e < 258 ->
  run (recv (code :: buf)) e (fun _ e' => attached e' = true /\ pending_rsp e' = true /\
    exists p, out e' = out e ++ [p] /\ good code (tx_mtu e) p).
Proof.
  intros Hc Hat Hp Hm. destruct (request_row code Hc) as [k Hk].
  destruct (List.find_some _ _ Hk) as [Hin ->%Z.eqb_eq%eq_sym].
  destruct (proj1 (List.Forall_forall _ _) table_handled k Hin) as [Hty Hh]. rewrite Hty in Hh. specialize (Hh Hc).
  assert (Hc0 : op k <> 0) by (intros E; by rewrite E in Hc).
  unfold bt_att_recv. apply run_gets. rewrite Hat. cbn [negb]. rewrite Hk. apply run_gets.
  rewrite Hty, Hc, Hp. cbn [is_request andb when]. apply run_modify, run_bind.
  set (e1 := set_pending_rsp true e). apply (run_mono _ _ (handled (op k) e1)).
  { destruct (_ <? _); [by apply run_ret, handled_err|by apply Hh]. }
  intros err e2 (Ha2 & Hp2 & H2). destruct (Z.eqb_spec err 0) as [->|He]; cbn [negb when].
  - apply run_ret. rewrite Ha2, Hp2. by split_and!.
  - destruct H2 as [Ho Ht]. change (tx_mtu e1) with (tx_mtu e) in Ht. eexists tt, _. split; [apply send_err_run; [done|rewrite Ht; lia|done]|].
    cbn [answered attached pending_rsp set_out out]. rewrite Ha2, Hp2, Ho. split_and!; [done..|]. eexists. split; [done|].
    split; [unfold zlen; cbn; lia|]. left. by exists 0, err.
Qed.

Lemma request_dropped code buf e : att_op_get_type code = ATT_REQUEST -> attached e = true -> pending_rsp e = true ->
  recv (code :: buf) e = (Done tt, e).
Proof.
  intros Hc Hat Hp. destruct (request_row code Hc) as [k Hk]. destruct (List.find_some _ _ Hk) as [Hin ->%Z.eqb_eq%eq_sym].
  destruct (proj1 (List.Forall_forall _ _) table_handled k Hin) as [Hty _].
  unfold bt_att_recv. rewrite bind_gets, Hat. cbn [negb]. rewrite Hk, bind_gets, Hty, Hc, Hp. done.
Qed.

(** C33. Whatever the bytes of a request and whatever the table of services (of
    callbacks that return, stay within their room and leave the channel
    alone), an idle channel answers with exactly one packet: the response
    that belongs to the request or an error response naming it, never longer
    than the packet size. Until that packet has left, the channel drops
    further requests. *)
Theorem requests_answered code buf e :
  att_op_get_type code = ATT_REQUEST -> attached e = true -> pending_rsp e = false -> 23 <= tx_mtu e < 258 ->
  exists p e', recv (code :: buf) e = (Done tt, e') /\ out e' = out e ++ [p] /\ good code (tx_mtu e) p /\
    forall code' buf', att_op_get_type code' = ATT_REQUEST -> recv (code' :: buf') e' = (Done tt, e').
Proof.
  intros Hc Hat Hp Hm. destruct (request_recv code buf e Hc Hat Hp Hm) as ([] & e' & E & Ha' & Hp' & p & Ho & Hg).
  exists p, e'. split_and!; [done..|]. intros code' buf' Hc'. by apply request_dropped.
Qed.
End server.

(** ** A small server: a service, a characteristic and a counter of writes *)

Definition demo_declaration (u : bt_uuid) (v : list Z) : bt_gatt_attr nat :=
  mk_attr u (Some (fun _ len off => mret (bt_gatt_attr_read v len off))) None 0 BT_GATT_PERM_READ.
Definition demo_table : list (list (bt_gatt_attr nat)) :=
  [[demo_declaration BT_UUID_GATT_PRIMARY [0x0e; 0x18]; demo_declaration BT_UUID_GATT_CHRC [8; 3; 0; 0x3b; 0x2a]; demo_attr]].

Lemma attr_read_bounds v len off : 0 <= len ->
  match bt_gatt_attr_read v len off with inl err => err < 0 | inr bytes => zlen bytes <= len end.
Proof.
  intros Hl. unfold bt_gatt_attr_read. destruct (_ <? off); [done|]. unfold zlen. rewrite length_take. lia.
Qed.

Lemma demo_declaration_polite u v : uuid_ok u -> polite (demo_declaration u v).
Proof.
  intros Hu. split; [done| |done|done]. intros f h len off e [= <-] Hl. apply run_ret. split; [reflexivity|by apply attr_read_bounds].
Qed.

Lemma demo_attr_polite : polite demo_attr.
Proof.
  split; [done|done|by intros [H|H]|]. intros f buf len off fl e [= <-]. apply run_modify, run_ret. by split.
Qed.

Lemma requests_answered_witness :
  let recv := bt_att_recv (fun _ => true) (fun _ _ => 0) 65 demo_table [] (read_handlers (fun _ => true) (fun _ _ => 0) demo_table) in
  exists p e', recv [0x10; 1; 0; 0xff; 0xff; 0x00; 0x28] demo_env = (Done tt, e') /\ out e' = [] ++ [p] /\
    good 0x10 23 p /\ forall code' buf', att_op_get_type code' = ATT_REQUEST -> recv (code' :: buf') e' = (Done tt, e').
Proof.
  apply (requests_answered (fun _ => true) (fun _ _ => 0) 65 demo_table []); [done| |done..].
  repeat apply Forall_cons; [by apply demo_declaration_polite..|apply demo_attr_polite|apply Forall_nil].
Defined.
