(* ===== verification/AttDiscovery.v ===== *)
(** * Finding the services

    What a phone learns from Read By Group Type requests
    (subsys/bluetooth/host/att.c): the services with their handles, as many as
    the packet holds. *)
From S2P Require Import Prelude Platform ByteOrder Uuid Att AttRead AttServer.
From stdpp Require Import prelude list numbers.
From Stdlib Require Import ZArith Lia.
Open Scope Z_scope.

Section discovery.
Context {S : Type}.
Implicit Types e : att_env S.

(** A declaration of a primary service with value [v], and attributes that
    are no declarations of services. *)
Definition declares (a : bt_gatt_attr S) (v : list Z) : Prop :=
  uuid a = BT_UUID_GATT_PRIMARY /\
  exists f, read a = Some f /\ forall h len off e, f h len off e = (Done (bt_gatt_attr_read v len off), e).
Definition plain (a : bt_gatt_attr S) : Prop :=
  bt_uuid_cmp (uuid a) BT_UUID_GATT_PRIMARY <> 0 /\ bt_uuid_cmp (uuid a) BT_UUID_GATT_SECONDARY <> 0.
Definition service (svc : list (bt_gatt_attr S)) (v : list Z) : Prop :=
  exists a rest, svc = a :: rest /\ declares a v /\ Forall plain rest.

(** An entry of the response: the handles of the service and its value. *)
Definition group_entry (s t : Z) (v : list Z) : list Z := sys_put_le16 s ++ sys_put_le16 t ++ v.

Fixpoint group_entries (h : Z) (svcs : list (list (bt_gatt_attr S))) (vs : list (list Z)) : list (list Z) :=
  match svcs, vs with
  | svc :: svcs', v :: vs' => group_entry h (h + zlen svc - 1) v :: group_entries (h + zlen svc) svcs' vs'
  | _, _ => []
  end.

Lemma put_get_le16 x l : 0 <= x < 65536 -> sys_get_le16 (sys_put_le16 x ++ l) = x.
Proof.
  intros Hx. rewrite put_le16. cbn [le_bytes app]. rewrite get_le16 by (apply Z.mod_pos_bound; lia). exact (le_bytes_value 2 x Hx).
Qed.

Lemma extend_entry pre s t v h : 0 <= t < h -> h < 65536 ->
  extend_group (pre ++ group_entry s t v) (Some (length pre)) h = pre ++ group_entry s h v.
Proof.
  intros Ht Hh. unfold extend_group, put_at. set (l := pre ++ group_entry s t v).
  assert (E : forall n, drop (length pre + n) l = drop n (group_entry s t v)).
  { intros n. unfold l. by rewrite <- (drop_drop _ n (length pre)), drop_app_length. }
  assert (E2 : take (length pre + 2) l = pre ++ sys_put_le16 s) by (unfold l; by rewrite take_app_add).
  rewrite E, E2, <- Nat.add_assoc, E. change (drop 2 (group_entry s t v)) with (sys_put_le16 t ++ v).
  rewrite put_get_le16, (proj2 (Z.ltb_lt t h)) by lia. by rewrite <- app_assoc.
Qed.

(** ** One attribute *)

Local Abbreviation cb := (read_group_cb (S := S) BT_UUID_GATT_PRIMARY).

Lemma plain_step a h d e : plain a ->
  cb a h d e = (Done (true, mk_read_group (rg_len d) (extend_group (rg_items d) (rg_group d) h) (rg_group d)), e).
Proof.
  intros [H1 H2]. unfold read_group_cb. destruct d. by rewrite (proj2 (Z.eqb_neq _ _) H1), (proj2 (Z.eqb_neq _ _) H2).
Qed.

Lemma attr_read_all v len : zlen v <= len -> bt_gatt_attr_read v len 0 = inr v.
Proof.
  intros Hv. unfold bt_gatt_attr_read. rewrite (proj2 (Z.ltb_ge _ _)) by lia. unfold zlen in *. by rewrite drop_0, take_ge by lia.
Qed.

(** A declaration is added if there is room. *)
Lemma declares_step a v h len items group e : declares a v ->
  0 < zlen v <= 251 -> len = 0 /\ items = [] \/ len = zlen v + 4 ->
  2 + zlen items + (zlen v + 4) <= tx_mtu e ->
  cb a h (mk_read_group len items group) e =
    (Done (true, mk_read_group (zlen v + 4) (items ++ group_entry h h v) (Some (length items))), e).
Proof.
  intros (Hu & f & Hf & Hr) Hv Hl Hm. unfold read_group_cb. rewrite Hu.
  change (bt_uuid_cmp BT_UUID_GATT_PRIMARY BT_UUID_GATT_PRIMARY =? 0) with true. cbn [negb andb]. rewrite bind_gets.
  assert (Hn : negb (len =? 0) && (tx_mtu e - (2 + zlen items) <? len) = false).
  { apply andb_false_iff. destruct Hl as [(-> & _)| ->]; [by left|right]. apply Z.ltb_ge. lia. }
  rewrite Hn. unfold att_chan_read, rg_used. cbn [rg_items]. rewrite Hf, bind_assoc, bind_gets.
  assert (Hz : zlen (items ++ sys_put_le16 h ++ sys_put_le16 h) = zlen items + 4) by (rewrite zlen_app; done).
  rewrite Hz, (proj2 (Z.leb_gt _ _)), bind_assoc by lia.
  rewrite (bind_done _ _ _ _ _ (Hr _ _ _ _)), attr_read_all by lia. cbn [attr_read_group_cb].
  assert (Ho : (zlen v <? 0) = false) by (apply Z.ltb_ge; lia).
  destruct Hl as [[-> ->]| ->].
  - cbn [Z.eqb app zlen]. rewrite bind_ret, Ho. unfold rg_add, u8. cbn. rewrite Z.mod_small by lia. by rewrite <- ?app_assoc.
  - rewrite (proj2 (Z.eqb_neq _ _)), Z.eqb_refl by lia. cbn [negb]. rewrite bind_ret, Ho. unfold rg_add, group_entry. cbn. by rewrite <- !app_assoc.
Qed.

(** Without room the loop ends. *)
Lemma declares_stop a v h items group e : declares a v -> 0 < zlen v ->
  tx_mtu e < 2 + zlen items + (zlen v + 4) ->
  cb a h (mk_read_group (zlen v + 4) items group) e = (Done (false, mk_read_group (zlen v + 4) items group), e).
Proof.
  intros (Hu & f & Hf & Hr) Hv Hm. unfold read_group_cb. rewrite Hu.
  change (bt_uuid_cmp BT_UUID_GATT_PRIMARY BT_UUID_GATT_PRIMARY =? 0) with true. cbn [negb andb]. rewrite bind_gets.
  rewrite (proj2 (Z.eqb_neq _ _)), (proj2 (Z.ltb_lt _ _)) by lia. done.
Qed.

(** ** One service *)
Section loop.
Context (s : Z).
Local Abbreviation attrs l h n := (foreach_attrs l h s 65535 None None n cb).
Local Abbreviation svcs l h n := (foreach_services l h s 65535 None None n cb).

Lemma iter_on a h n d e b d' : s <= h <= 65535 -> 1 < n <= 65535 -> cb a h d e = (Done (b, d'), e) ->
  gatt_foreach_iter a h s 65535 None None n cb d e = (Done (b, n - 1, d'), e).
Proof.
  intros Hh Hn E. unfold gatt_foreach_iter. rewrite (proj2 (Z.ltb_ge 65535 h)), (proj2 (Z.ltb_ge h s)) by lia.
  rewrite (bind_done _ _ _ _ _ E). unfold u16. rewrite Z.mod_small, (proj2 (Z.eqb_neq _ _)) by lia. done.
Qed.

Lemma plain_attrs rest h n len pre t0 v e : Forall plain rest -> 0 < s <= h -> h + zlen rest <= 65535 -> zlen rest < n <= 65535 ->
  attrs rest h n (mk_read_group len (pre ++ group_entry t0 (h - 1) v) (Some (length pre))) e =
    (Done (true, h + zlen rest, n - zlen rest,
      mk_read_group len (pre ++ group_entry t0 (h + zlen rest - 1) v) (Some (length pre))), e).
Proof.
  intros Hr. revert h n. induction Hr as [|a rest Ha Hr IH]; intros h n Hh Hm Hn; cbn [foreach_attrs].
  - change (zlen []) with 0. by rewrite Z.add_0_r, Z.sub_0_r.
  - rewrite zlen_cons in *. assert (Hz := zlen_nonneg rest).
    rewrite (bind_done _ _ _ _ _ (iter_on a h n _ e _ _ ltac:(lia) ltac:(lia) (plain_step a h _ e Ha))).
    cbn [rg_len rg_items rg_group]. rewrite extend_entry by lia. unfold u16. rewrite Z.mod_small by lia.
    replace h with (h + 1 - 1) at 2 by lia. rewrite IH by lia.
    by replace (h + 1 + zlen rest) with (h + (1 + zlen rest)) by lia; replace (n - 1 - zlen rest) with (n - (1 + zlen rest)) by lia.
Qed.

(** A service whose entry fits. *)
Lemma service_attrs svc v h n len items group e : service svc v -> 0 < zlen v <= 251 ->
  len = 0 /\ items = [] \/ len = zlen v + 4 -> 2 + zlen items + (zlen v + 4) <= tx_mtu e ->
  0 < s <= h -> h + zlen svc <= 65535 -> zlen svc < n <= 65535 ->
  exists group', attrs svc h n (mk_read_group len items group) e =
    (Done (true, h + zlen svc, n - zlen svc,
      mk_read_group (zlen v + 4) (items ++ group_entry h (h + zlen svc - 1) v) group'), e).
Proof.
  intros (a & rest & -> & Ha & Hr) Hv Hl Hm Hh Ht Hn. exists (Some (length items)). cbn [foreach_attrs]. rewrite zlen_cons in *.
  assert (Hz := zlen_nonneg rest).
  rewrite (bind_done _ _ _ _ _ (iter_on a h n _ e _ _ ltac:(lia) ltac:(lia) (declares_step a v h len items group e Ha Hv Hl Hm))).
  unfold u16. rewrite Z.mod_small by lia.
  replace h with (h + 1 - 1) at 3 by lia. rewrite plain_attrs by (done || lia).
  by replace (h + 1 + zlen rest) with (h + (1 + zlen rest)) by lia; replace (n - 1 - zlen rest) with (n - (1 + zlen rest)) by lia.
Qed.

Lemma service_stop svc v h n items group e : service svc v -> 0 < zlen v ->
  tx_mtu e < 2 + zlen items + (zlen v + 4) -> 0 < s <= h -> h <= 65535 -> 1 < n <= 65535 ->
  attrs svc h n (mk_read_group (zlen v + 4) items group) e =
    (Done (false, h, n - 1, mk_read_group (zlen v + 4) items group), e).
Proof.
  intros (a & rest & -> & Ha & Hr) Hv Hm Hh Ht Hn. cbn [foreach_attrs].
  by rewrite (bind_done _ _ _ _ _ (iter_on a h n _ e _ _ ltac:(lia) ltac:(lia) (declares_stop a v h items group e Ha Hv Hm))).
Qed.

(** ** All services *)

(** How many entries of [w + 4] bytes a packet takes when [used] bytes are. *)
Definition fitting (mtu used w : Z) : nat := Z.to_nat ((mtu - used) / (w + 4)).

Lemma fitting_0 mtu used w : 0 < w -> mtu < used + (w + 4) -> fitting mtu used w = 0%nat.
Proof.
  intros Hw Hm. unfold fitting. destruct (Z.lt_ge_cases (mtu - used) 0).
  - assert ((mtu - used) / (w + 4) < 0) by (apply Z.div_lt_upper_bound; lia). lia.
  - rewrite Z.div_small; lia.
Qed.

Lemma fitting_S mtu used w : 0 < w -> used + (w + 4) <= mtu -> fitting mtu used w = Datatypes.S (fitting mtu (used + (w + 4)) w).
Proof.
  intros Hw Hm. unfold fitting. replace (mtu - used) with (mtu - (used + (w + 4)) + 1 * (w + 4)) by lia.
  rewrite Z.div_add by lia. assert (0 <= (mtu - (used + (w + 4))) / (w + 4)) by (apply Z.div_pos; lia). lia.
Qed.

Lemma services_groups l vs w h n len items group e : Forall2 service l vs -> Forall (fun v => zlen v = w) vs ->
  0 < w <= 251 -> len = 0 /\ items = [] /\ 6 + w <= tx_mtu e \/ len = w + 4 ->
  0 < s <= h -> h + zlen (concat l) <= 65535 -> zlen (concat l) < n <= 65535 ->
  exists group', svcs l h n (mk_read_group len items group) e =
    (Done (mk_read_group (match l with [] => len | _ => w + 4 end)
      (items ++ concat (take (fitting (tx_mtu e) (2 + zlen items) w) (group_entries h l vs))) group'), e).
Proof.
  intros Hl. revert h n len items group. induction Hl as [|svc v l vs Hs Hl IH]; intros h n len items group Hvs Hw Hlen Hh Ht Hn.
  - exists group. cbn. by rewrite take_nil, app_nil_r.
  - apply Forall_cons_1 in Hvs as [Hv Hvs]. cbn [concat foreach_services group_entries] in *. rewrite zlen_app in *.
    assert (Hz := zlen_nonneg (concat l)). fold (zlen svc).
    assert (Hz' : 1 <= zlen svc) by (destruct Hs as (a & rest & -> & _); rewrite zlen_cons; pose proof (zlen_nonneg rest); lia).
    rewrite (proj2 (Z.ltb_ge (h + zlen svc) s)) by lia.
    assert (Hfit : 2 + zlen items + (w + 4) <= tx_mtu e \/ len = w + 4 /\ tx_mtu e < 2 + zlen items + (w + 4)).
    { destruct Hlen as [(-> & -> & Hm)| ->]; [left; unfold zlen; cbn; lia|]. lia. }
    destruct Hfit as [Hfit|[-> Hfit]].
    + destruct (service_attrs svc v h n len items group e Hs) as [g' E];
        [lia|rewrite Hv; tauto|lia|lia|lia|lia|]. rewrite (bind_done _ _ _ _ _ E). rewrite Hv.
      destruct (IH (h + zlen svc) (n - zlen svc) (w + 4) (items ++ group_entry h (h + zlen svc - 1) v) g') as [g'' E'];
        [done|lia|by right|lia|lia|lia|]. exists g''. rewrite E'. f_equal. f_equal.
      rewrite (fitting_S _ (2 + zlen items)) by lia. cbn [take concat]. rewrite <- app_assoc.
      replace (2 + zlen (items ++ group_entry h (h + zlen svc - 1) v)) with (2 + zlen items + (w + 4)); [by destruct l|].
      unfold group_entry. rewrite !zlen_app, !zlen_le16. lia.
    + exists group. rewrite <- Hv in Hfit |- *. rewrite (bind_done _ _ _ _ _ (service_stop svc v h n items group e Hs ltac:(lia) Hfit ltac:(lia) ltac:(lia) ltac:(lia))).
      rewrite fitting_0 by lia. cbn [take concat]. by rewrite app_nil_r.
Qed.
End loop.

(** ** The request *)

(** Handles below the start are passed over. *)
Lemma attrs_below l h s n (d : read_group_data) e : 0 <= h -> h + zlen l <= s -> s < 65536 ->
  foreach_attrs l h s 65535 None None n cb d e = (Done (true, h + zlen l, n, d), e).
Proof.
  revert h. induction l as [|a l IH]; intros h H0 Hl Hs; cbn [foreach_attrs].
  - change (zlen []) with 0. by rewrite Z.add_0_r.
  - rewrite zlen_cons in *. assert (Hz := zlen_nonneg l).
    assert (E : gatt_foreach_iter a h s 65535 None None n cb d e = (Done (true, n, d), e)).
    { unfold gatt_foreach_iter. by rewrite (proj2 (Z.ltb_ge 65535 h)), (proj2 (Z.ltb_lt h s)) by lia. }
    rewrite (bind_done _ _ _ _ _ E). unfold u16. rewrite Z.mod_small, IH by lia. by rewrite Z.add_assoc.
Qed.

Lemma services_below before l h n (d : read_group_data) e : 0 <= h -> h + zlen (concat before) < 65536 ->
  foreach_services (before ++ l) h (h + zlen (concat before)) 65535 None None n cb d e =
  foreach_services l (h + zlen (concat before)) (h + zlen (concat before)) 65535 None None n cb d e.
Proof.
  revert h. induction before as [|svc before IH]; intros h H0 Hs; cbn [app concat foreach_services] in *.
  - change (zlen []) with 0. by rewrite Z.add_0_r.
  - rewrite zlen_app in *. fold (zlen svc). assert (Hz := zlen_nonneg svc). assert (Hz' := zlen_nonneg (concat before)).
    rewrite Z.add_assoc in *. specialize (IH (h + zlen svc) ltac:(lia) ltac:(lia)).
    destruct (_ <? _); [unfold u16; rewrite Z.mod_small by lia; exact IH|].
    rewrite (bind_done _ _ _ _ _ (attrs_below svc h (h + zlen svc + zlen (concat before)) n d e H0 ltac:(lia) ltac:(lia))). exact IH.
Qed.
End discovery.

Section answer.
Context {S : Type} (l2cap_alloc : att_env S -> bool) (l2cap_send : att_env S -> list Z -> Z) (MTU : Z)
  (before l : list (list (bt_gatt_attr S))) (tail : list Z).
Local Abbreviation services := (before ++ l).
Local Abbreviation recv :=
  (bt_att_recv l2cap_alloc l2cap_send MTU services tail (read_handlers l2cap_alloc l2cap_send services)).

(** The request for all primary services from a handle on. *)
Definition discover_pdu (start : Z) : list Z :=
  BT_ATT_OP_READ_GROUP_REQ :: sys_put_le16 start ++ sys_put_le16 0xffff ++ sys_put_le16 0x2800.

Lemma recv_group start e : 0 < start < 65536 -> attached e = true -> pending_rsp e = false ->
  recv (discover_pdu start) e =
  (err ← att_read_group_rsp l2cap_alloc l2cap_send services BT_UUID_GATT_PRIMARY start 0xffff;
   when (negb (err =? 0)) (send_err_rsp l2cap_alloc l2cap_send BT_ATT_OP_READ_GROUP_REQ 0 err)) (set_pending_rsp true e).
Proof.
  intros Hs Hat Hp. unfold bt_att_recv, discover_pdu. rewrite bind_gets, Hat. cbn [negb].
  change (List.find _ _) with (Some (mk_handler BT_ATT_OP_READ_GROUP_REQ 4 ATT_REQUEST (att_read_group_req l2cap_alloc l2cap_send services))).
  cbv beta iota. rewrite bind_gets, Hp. cbn [type is_request andb when expect_len func]. rewrite bind_modify.
  change (Z.of_nat (length (sys_put_le16 start ++ sys_put_le16 65535 ++ sys_put_le16 10240)) <? 4) with false. cbv iota.
  unfold att_read_group_req. change (u8 (zlen _ - 4)) with 2. cbn [Z.eqb negb andb Pos.eqb].
  rewrite put_get_le16 by lia.
  change (sys_get_le16 (drop 2 (sys_put_le16 start ++ sys_put_le16 65535 ++ sys_put_le16 10240))) with 65535.
  change (bt_uuid_create (drop 4 (sys_put_le16 start ++ sys_put_le16 65535 ++ sys_put_le16 10240)) 2) with (Some BT_UUID_GATT_PRIMARY).
  unfold range_is_valid. rewrite (proj2 (Z.eqb_neq start 0)), (proj2 (Z.ltb_ge 65535 start)) by lia. done.
Qed.

(** C34. Service discovery. From the handle where a service starts, the
    request for the primary services is answered by their start handles, end
    handles and UUIDs in the order of the table: by as many as fit into the
    packet, which is at least one, so that asking again from behind the last
    one reaches them all; behind the last service the answer is Attribute Not
    Found. The UUIDs are of one size here. *)
Theorem services_discovered vs w e :
  l2cap_fine l2cap_alloc l2cap_send -> attached e = true -> pending_rsp e = false -> 23 <= tx_mtu e < 65536 ->
  Forall2 service l vs -> Forall (fun v => zlen v = w) vs -> w = 2 \/ w = 16 ->
  zlen (concat services) < 65535 ->
  let start := 1 + zlen (concat before) in
  let taken := take (fitting (tx_mtu e) 2 w) (group_entries start l vs) in
  recv (discover_pdu start) e = (Done tt, answered
    (match l with
     | [] => [BT_ATT_OP_ERROR_RSP; BT_ATT_OP_READ_GROUP_REQ] ++ sys_put_le16 start ++ [BT_ATT_ERR_ATTRIBUTE_NOT_FOUND]
     | _ => [BT_ATT_OP_READ_GROUP_RSP; w + 4] ++ concat taken
     end) (set_pending_rsp true e)) /\
  (l <> [] -> taken <> []).
Proof.
  intros Hl Hat Hp Hm Hsv Hv Hw Hlen start taken. assert (Hb := zlen_nonneg (concat before)).
  rewrite concat_app, zlen_app in Hlen. assert (Hll := zlen_nonneg (concat l)). split.
  - rewrite recv_group by (done || lia). set (e1 := set_pending_rsp true e). unfold att_read_group_rsp.
    rewrite bind_assoc, (bind_done _ _ _ _ _ (create_pdu_run l2cap_alloc l2cap_send BT_ATT_OP_READ_GROUP_RSP 1 e1 Hl ltac:(cbn; lia))).
    unfold bt_gatt_foreach_attr, bt_gatt_foreach_attr_type, last_static_handle. cbn [Z.eqb]. fold (zlen (concat services)).
    unfold u16. rewrite Z.mod_small by (rewrite concat_app, zlen_app; lia). rewrite concat_app, zlen_app.
    destruct l as [|svc l'] eqn:El.
    + change (zlen (concat [])) with 0. rewrite (proj2 (Z.leb_gt _ _)) by lia. rewrite bind_assoc, bind_ret. cbn [rg_len Z.eqb].
      rewrite bind_assoc, (bind_done _ _ _ _ _ (send_err_run l2cap_alloc l2cap_send BT_ATT_OP_READ_GROUP_REQ start BT_ATT_ERR_ATTRIBUTE_NOT_FOUND e1 Hl ltac:(cbn; lia) ltac:(done))).
      done.
    + destruct (services_groups start (svc :: l') vs w start 65535 0 [] None e1) as [g' E]; try done; try lia.
      { left. cbn. split_and!; [done..|]. destruct Hw; subst; lia. }
      assert (Hne : start <= zlen (concat before) + zlen (concat (svc :: l'))).
      { destruct (Forall2_cons_inv_l _ _ _ _ Hsv) as (v & vs' & (a & rest & -> & _) & _). cbn [concat app]. rewrite zlen_cons.
        pose proof (zlen_nonneg (rest ++ concat l')). lia. }
      rewrite (proj2 (Z.leb_le _ _) Hne). rewrite <- (services_below before (svc :: l') 1 65535 _ e1) in E by lia. fold start in E.
      rewrite bind_assoc, (bind_done _ _ _ _ _ E). cbn [rg_len rg_items app].
      rewrite (proj2 (Z.eqb_neq (w + 4) 0)) by (destruct Hw; subst; lia).
      rewrite bind_assoc, (bind_done _ _ _ _ _ (send_rsp_run l2cap_alloc l2cap_send _ e1 Hl)). done.
  - intros Hne. unfold taken. rewrite fitting_S by (destruct Hw; subst; lia).
    destruct Hsv; [done|]. done.
Qed.
End answer.

(** ** Examples *)

Definition demo_services : list (list (bt_gatt_attr nat)) :=
  [[demo_declaration BT_UUID_GATT_PRIMARY [0x00; 0x18]; demo_attr]; [demo_declaration BT_UUID_GATT_PRIMARY [0x0e; 0x18]; demo_attr; demo_attr]].

Lemma demo_service v rest : Forall (fun a => a = demo_attr) rest -> service (demo_declaration BT_UUID_GATT_PRIMARY v :: rest) v.
Proof.
  intros Hr. eexists _, _. split; [done|]. split; [split; [done|by eexists]|].
  eapply Forall_impl; [|exact Hr]. intros a ->. done.
Qed.

Lemma services_discovered_witness :
  bt_att_recv (fun _ => true) (fun _ _ => 0) 65 ([] ++ demo_services) [] (read_handlers (fun _ => true) (fun _ _ => 0) ([] ++ demo_services))
    (discover_pdu 1) demo_env =
  (Done tt, answered [0x11; 6; 1; 0; 2; 0; 0x00; 0x18; 3; 0; 5; 0; 0x0e; 0x18] (set_pending_rsp true demo_env)).
Proof.
  apply (services_discovered (fun _ => true) (fun _ _ => 0) 65 [] demo_services [] [[0x00; 0x18]; [0x0e; 0x18]] 2 demo_env);
    try done; [|repeat constructor|by left].
  constructor; [|constructor; [|constructor]]; apply demo_service; repeat constructor.
Defined.

(** The size check of the response is not enough when the room left is
    exactly one short entry: behind services with 16-bit UUIDs a service with
    a 128-bit UUID is then read into that room and listed as if the first two
    bytes of its UUID were a 16-bit one. *)
Theorem discovery_truncates : exists (e : att_env nat) before v,
  let services := before ++ [[demo_declaration BT_UUID_GATT_PRIMARY v]] in
  let k := zlen (concat before) + 1 in
  23 <= tx_mtu e <= 65 /\ zlen v = 16 /\ uuid_ok (UUID_128 v) /\
  exists p, bt_att_recv (fun _ => true) (fun _ _ => 0) 65 services [] (read_handlers (fun _ => true) (fun _ _ => 0) services)
    (discover_pdu 1) e = (Done tt, answered (p ++ group_entry k k (take 2 v)) (set_pending_rsp true e)).
Proof.
  exists (set_mtu 26 demo_env), [[demo_declaration BT_UUID_GATT_PRIMARY [0x00; 0x18]]; [demo_declaration BT_UUID_GATT_PRIMARY [0x01; 0x18]];
    [demo_declaration BT_UUID_GATT_PRIMARY [0x0a; 0x18]]], [1; 2; 3; 4; 5; 6; 7; 8; 9; 10; 11; 12; 13; 14; 15; 16].
  cbn zeta. split; [cbn; lia|]. split; [done|]. split; [split; [done|repeat (apply Forall_cons; [unfold byte_ok; lia|]); apply Forall_nil]|].
  exists [0x11; 6; 1; 0; 1; 0; 0x00; 0x18; 2; 0; 2; 0; 0x01; 0x18; 3; 0; 3; 0; 0x0a; 0x18]. reflexivity.
Qed.
