(* ===== verification/Commands.v ===== *)
(** * The services behind the attribute protocol

    The attribute tables of the sender and of the receiver
    (subsys/bluetooth/services/lses.c, lres.c) and what the phone is told when
    it writes a command. *)
From S2P Require Import Prelude Platform Sx12xx CLib ByteOrder Uuid Att AttRead Lses LsesSweep Lres LresEval.
From stdpp Require Import prelude list numbers strings gmap.
From Stdlib Require Import ZArith Lia.
Open Scope Z_scope.

(** ** Attribute tables *)

Definition BT_GATT_CHRC_WRITE : Z := 0x08.
Definition BT_GATT_CHRC_NOTIFY : Z := 0x10.

Section tables.
Context {S : Type}.

Definition BT_GATT_PRIMARY_SERVICE (service : bt_uuid) : bt_gatt_attr S :=
  mk_attr BT_UUID_GATT_PRIMARY (Some (fun _ len offset => mret (bt_gatt_attr_read_service [] service len offset)))
    None 0 BT_GATT_PERM_READ.

(** A characteristic is its declaration and its value. The values of the
    services here have no read callback. *)
Definition BT_GATT_CHARACTERISTIC (u : bt_uuid) (props p : Z) (cb : option (cbuf -> Z -> M S Z)) : list (bt_gatt_attr S) :=
  [mk_attr BT_UUID_GATT_CHRC (Some (fun handle len offset => mret (bt_gatt_attr_read_chrc [] u props handle len offset)))
     None 0 BT_GATT_PERM_READ;
   mk_attr u None ((fun f buf len _ _ => on_srv (f buf len)) <$> cb) 0 p].

Definition BT_GATT_CCC : bt_gatt_attr S :=
  mk_attr BT_UUID_GATT_CCC (Some (fun _ len offset => gets (bt_gatt_attr_read_ccc len offset)))
    (Some bt_gatt_attr_write_ccc) 0 (Z.lor BT_GATT_PERM_READ BT_GATT_PERM_WRITE).
End tables.

Definition lses_svc : list (bt_gatt_attr lses) :=
  [BT_GATT_PRIMARY_SERVICE (UUID_16 0x180e)] ++
  BT_GATT_CHARACTERISTIC (UUID_16 0x2a3a) BT_GATT_CHRC_NOTIFY BT_GATT_PERM_NONE None ++
  [BT_GATT_CCC] ++
  BT_GATT_CHARACTERISTIC (UUID_16 0x2a3b) BT_GATT_CHRC_WRITE BT_GATT_PERM_WRITE (Some Lses.change_config_cb) ++
  BT_GATT_CHARACTERISTIC (UUID_16 0x2a3c) BT_GATT_CHRC_WRITE BT_GATT_PERM_WRITE (Some send_command_cb) ++
  BT_GATT_CHARACTERISTIC (UUID_16 0x2a3d) BT_GATT_CHRC_WRITE BT_GATT_PERM_WRITE (Some loop_command_cb) ++
  BT_GATT_CHARACTERISTIC (UUID_16 0x2a3e) BT_GATT_CHRC_WRITE BT_GATT_PERM_WRITE (Some prepare_sender_cb).

Definition lres_svc : list (bt_gatt_attr lres) :=
  [BT_GATT_PRIMARY_SERVICE (UUID_16 0x1811)] ++
  BT_GATT_CHARACTERISTIC (UUID_16 0x2a3f) BT_GATT_CHRC_NOTIFY BT_GATT_PERM_NONE None ++
  [BT_GATT_CCC] ++
  BT_GATT_CHARACTERISTIC (UUID_16 0x2a40) BT_GATT_CHRC_WRITE BT_GATT_PERM_WRITE (Some Lres.change_config_cb) ++
  BT_GATT_CHARACTERISTIC (UUID_16 0x2a41) BT_GATT_CHRC_WRITE BT_GATT_PERM_WRITE (Some experiment_settings_cb).

(** ** What the callbacks return *)

Definition returns {S} (v : Z) (m : M S Z) : Prop := forall s r s', m s = (Done r, s') -> r = v.

Lemma returns_ret {S} v : returns v (mret v : M S Z).
Proof. intros s r s' [= <- <-]. done. Qed.
Lemma returns_bind {S A} v (m : M S A) (k : A -> M S Z) : (forall a, returns v (k a)) -> returns v (mbind k m).
Proof.
  intros Hk s r s'. unfold mbind, M_bind. destruct (m s) as [[a|] s1]; [|done]. apply Hk.
Qed.
Lemma returns_if {S} v (b : bool) (m n : M S Z) : returns v m -> returns v n -> returns v (if b then m else n).
Proof. by destruct b. Qed.

Ltac returns :=
  repeat match goal with
  | |- returns _ (mbind _ _) => apply returns_bind; intros ?
  | |- returns _ (if _ then _ else _) => apply returns_if
  | |- returns _ (mret _) => apply returns_ret
  end.

Lemma sender_returns_zero buf len :
  returns 0 (Lses.change_config_cb buf len) /\ returns 0 (send_command_cb buf len) /\
  returns 0 (loop_command_cb buf len) /\ returns 0 (prepare_sender_cb buf len).
Proof. split_and!; [unfold Lses.change_config_cb|unfold send_command_cb|unfold loop_command_cb|unfold prepare_sender_cb]; returns. Qed.

Lemma receiver_returns_zero buf len :
  returns 0 (Lres.change_config_cb buf len) /\ returns 0 (experiment_settings_cb buf len).
Proof. split; [unfold Lres.change_config_cb|unfold experiment_settings_cb]; returns. Qed.

(** ** What the phone is told *)
Section told.
Context {S : Type} (l2cap_alloc : att_env S -> bool) (l2cap_send : att_env S -> list Z -> Z) (MTU : Z)
  (before after : list (list (bt_gatt_attr S))) (svc : list (bt_gatt_attr S)) (tail : list Z)
  (others : list (att_handler S)).
Context (Hl : l2cap_fine l2cap_alloc l2cap_send) (Ho : Forall (fun k => op k <> BT_ATT_OP_WRITE_REQ) others).

Local Abbreviation services := (before ++ svc :: after).

(** The handle of the [k]th attribute of the service. *)
Definition handle_of (k : nat) : Z := Z.of_nat (length (concat before)) + Z.of_nat k + 1.

Definition idle (e : att_env S) : Prop :=
  attached e = true /\ pending_rsp e = false /\ 23 <= tx_mtu e /\ cf e = None.

Lemma handle_lookup k a : svc !! k = Some a -> concat services !! Z.to_nat (handle_of k - 1) = Some a.
Proof.
  intros Hk. rewrite concat_app. cbn [concat]. unfold handle_of.
  rewrite lookup_app_r by lia. rewrite lookup_app_l.
  - rewrite <- Hk. f_equal. lia.
  - apply lookup_lt_Some in Hk. lia.
Qed.

Lemma command_refused k u f e value r s' :
  idle e -> Z.of_nat (length (concat services)) < 65535 ->
  svc !! k = Some (mk_attr u None (Some (fun buf len _ _ => on_srv (f buf len))) 0 BT_GATT_PERM_WRITE) ->
  (forall buf len, returns 0 (f buf len)) -> value <> [] ->
  f (value_of tail value) (Z.of_nat (length value)) (srv e) = (Done r, s') ->
  bt_att_recv l2cap_alloc l2cap_send MTU services tail others (write_pdu (handle_of k) value) e =
    (Done tt, answered (write_error (handle_of k) BT_ATT_ERR_UNLIKELY) (set_srv s' (set_pending_rsp true e))).
Proof.
  intros (Hat & Hp & Hm & Hcf) Ht Hk Hz Hv Hf. pose proof (handle_lookup k _ Hk) as Ha.
  assert (Hh : 0 < handle_of k < 65536).
  { apply lookup_lt_Some in Ha. unfold handle_of in *. lia. }
  assert (Hlen : 0 < Z.of_nat (length value)) by (destruct value; [done|cbn; lia]).
  rewrite (Hz _ _ _ _ _ Hf) in Hf.
  pose proof (write_rsp_run l2cap_alloc l2cap_send services tail (handle_of k) value (set_pending_rsp true e) _
    Hl Hm Hcf ltac:(lia) Ht Ha) as R. cbn zeta in R.
  change (bt_gatt_check_perm _ _ _ =? 0) with true in R. cbv iota in R.
  specialize (R _ 0 (set_srv s' (set_pending_rsp true e)) eq_refl).
  rewrite (recv_write l2cap_alloc l2cap_send MTU services tail others (handle_of k) value e 0
    (answered (write_error (handle_of k) BT_ATT_ERR_UNLIKELY) (set_srv s' (set_pending_rsp true e))) Ho Hat Hp ltac:(lia)); [done|].
  rewrite R; [|unfold on_srv; cbn [srv set_pending_rsp]; by rewrite Hf|done].
  unfold write_answer. by rewrite (proj2 (Z.eqb_neq 0 _)) by lia.
Qed.
End told.

(** Wherever the service stands in the table, a non-empty write to its [k]th
    attribute runs [f] once, on the bytes written, and tells the phone that
    the request failed with Unlikely Error. *)
Definition refused {S} (svc : list (bt_gatt_attr S)) (k : nat) (f : cbuf -> Z -> M S Z) : Prop :=
  forall l2cap_alloc l2cap_send MTU before after tail others e value r s',
  l2cap_fine l2cap_alloc l2cap_send -> Forall (fun h => op h <> BT_ATT_OP_WRITE_REQ) others -> idle e ->
  Z.of_nat (length (concat (before ++ svc :: after))) < 65535 -> value <> [] ->
  f (value_of tail value) (Z.of_nat (length value)) (srv e) = (Done r, s') ->
  bt_att_recv l2cap_alloc l2cap_send MTU (before ++ svc :: after) tail others (write_pdu (handle_of before k) value) e =
    (Done tt, answered (write_error (handle_of before k) BT_ATT_ERR_UNLIKELY) (set_srv s' (set_pending_rsp true e))).

Lemma refused_by_table {S} (svc : list (bt_gatt_attr S)) k u f :
  svc !! k = Some (mk_attr u None (Some (fun buf len _ _ => on_srv (f buf len))) 0 BT_GATT_PERM_WRITE) ->
  (forall buf len, returns 0 (f buf len)) -> refused svc k f.
Proof. intros Hk Hz al sd mtu be af tl ot e v r s' Hl Ho Hi Ht Hv Hf. by eapply command_refused. Qed.

(** Every command characteristic of the two services: the command the phone
    writes is carried out, and the phone is told that it failed, because the
    callbacks return 0 where the stack expects the number of bytes taken. *)
Theorem commands_refused :
  refused lses_svc 5 Lses.change_config_cb /\ refused lses_svc 7 send_command_cb /\
  refused lses_svc 9 loop_command_cb /\ refused lses_svc 11 prepare_sender_cb /\
  refused lres_svc 5 Lres.change_config_cb /\ refused lres_svc 7 experiment_settings_cb.
Proof.
  split_and!; (eapply refused_by_table; [reflexivity|]); intros buf len.
  - exact (proj1 (sender_returns_zero buf len)).
  - exact (proj1 (proj2 (sender_returns_zero buf len))).
  - exact (proj1 (proj2 (proj2 (sender_returns_zero buf len)))).
  - exact (proj2 (proj2 (proj2 (sender_returns_zero buf len)))).
  - exact (proj1 (receiver_returns_zero buf len)).
  - exact (proj2 (receiver_returns_zero buf len)).
Qed.

(** The phone stops a loop of the sender that is not running: nothing
    happens, and the phone is told that it failed. *)
Definition demo_phone : att_env lses :=
  mk_env (demo_lses (demo_plat 0 [])) (mk_conn 0 1 1 1 false) true false 23 23 None (mk_ccc [] 0) [] [] [].

Lemma commands_refused_witness :
  bt_att_recv (fun _ => true) (fun _ _ => 0) 65 ([] ++ lses_svc :: []) [0] [] (write_pdu 10 [36]) demo_phone =
  (Done tt, answered [1; 0x12; 10; 0; 0x0e] (set_srv (srv demo_phone) (set_pending_rsp true demo_phone))).
Proof.
  pose proof commands_refused as (_ & _ & H & _).
  apply (H (fun _ => true) (fun _ _ => 0) 65 [] [] [0] [] demo_phone [36] 0); done.
Defined.
