(* ===== verification/Notify.v ===== *)
(** * Notifications (subsys/bluetooth/host/gatt.c, att.c)

    How [bt_gatt_notify], which the services call with no connection, finds
    the client configuration of a characteristic and sends to the subscribed
    client: the search for the descriptor, the loop over its entries, the
    packet and the queue in front of L2CAP. The samples have one connection;
    its channel is attached as long as it is connected. *)
From S2P Require Import Prelude KSem Platform Sx12xx CLib ByteOrder Uuid Att AttRead Lses LsesSweep Lres LresEval Commands.
From stdpp Require Import prelude list numbers strings gmap.
From Stdlib Require Import ZArith Lia.
Open Scope Z_scope.

Definition BT_ATT_OP_NOTIFY : Z := 0x1b.
Definition BT_GATT_CCC_NOTIFY : Z := 1.
Definition ENOENT : Z := 2.
Definition ENOMEM : Z := 12.

(** ** Operations *)
Section operations.
Context {S : Type}.
Context (l2cap_alloc : att_env S -> bool) (l2cap_send : att_env S -> list Z -> Z).
(** The flag [BT_DEV_READY], the static services, and whether an attribute's
    write callback is [bt_gatt_attr_write_ccc]. *)
Context (dev_ready : att_env S -> bool) (services : list (list (bt_gatt_attr S))) (has_ccc : bt_gatt_attr S -> bool).

(** The connection has one channel. *)
Definition bt_att_create_pdu (op len : Z) : M (att_env S) (option (list Z)) :=
  a ← gets attached;
  if negb a then mret None
  else
    mtu ← gets tx_mtu;
    if mtu <? len + 1 then mret None else bt_att_chan_create_pdu l2cap_alloc op len.

(** The oldest packet of the queue is sent, or pushed back. *)
Definition att_send_process : M (att_env S) unit :=
  q ← gets att_queue;
  match q with
  | [] => mret tt
  | buf :: q' =>
      modify (set_att_queue q');;
      err ← chan_send l2cap_send buf;
      if err <? 0 then modify (fun e => set_att_queue (buf :: att_queue e) e) else mret tt
  end.

(** [bt_att_send] without a callback. *)
Definition bt_att_send (buf : list Z) : M (att_env S) Z :=
  a ← gets attached;
  if negb a then mret (- ENOTCONN)
  else
    modify (fun e => set_att_queue (att_queue e ++ [buf]) e);;
    att_send_process;;
    mret 0.

(** [process_queue] takes one packet of a queue, which [get] and [set] name. *)
Definition process_queue (get : att_env S -> list (list Z)) (set : list (list Z) -> att_env S -> att_env S) :
    M (att_env S) Z :=
  q ← gets get;
  match q with
  | buf :: q' =>
      modify (set q');;
      err ← chan_send l2cap_send buf;
      if negb (err =? 0) then modify (fun e => set (buf :: get e) e);; mret err else mret 0
  | [] => mret (- ENOENT)
  end.

(** A packet has left: [sent] is the callback of that packet. The device makes
    no requests of its own, so [reqs] is empty. *)
Definition bt_att_sent (sent : M (att_env S) unit) : M (att_env S) unit :=
  sent;;
  a ← gets attached;
  if negb a then mret tt
  else
    err ← process_queue tx_queue set_tx_queue;
    if err =? 0 then mret tt
    else process_queue att_queue set_att_queue;; mret tt.

Definition gatt_notify (handle : Z) (data : list Z) : M (att_env S) Z :=
  buf ← bt_att_create_pdu BT_ATT_OP_NOTIFY (2 + Z.of_nat (length data));
  match buf with
  | None => mret (- ENOMEM)
  | Some buf => bt_att_send (buf ++ sys_put_le16 handle ++ data)
  end.

(** [bt_conn_lookup_addr_le], and whether what it finds is connected. *)
Definition connected_peer (g : ccc_cfg) : M (att_env S) bool :=
  a ← gets attached;
  c ← gets conn;
  mret (a && bt_conn_is_peer_addr_le c (cfg_id g) (cfg_peer g)).

(** The loop of [notify_cb] over the entries; [false] is
    [BT_GATT_ITER_STOP], [err] is [data->err]. *)
Fixpoint notify_peers (handle : Z) (data : list Z) (cfgs : list ccc_cfg) (err : Z) : M (att_env S) (bool * Z) :=
  match cfgs with
  | [] => mret (true, err)
  | g :: cfgs' =>
      if negb (cfg_value g =? BT_GATT_CCC_NOTIFY) then notify_peers handle data cfgs' err
      else
        c ← connected_peer g;
        if negb c then notify_peers handle data cfgs' err
        else
          r ← gatt_notify handle data;
          if r <? 0 then mret (false, err) else notify_peers handle data cfgs' 0
  end.

(** [notify_cb] for the descriptor of a service, which has no [cfg_match]. *)
Definition notify_cb (value_handle : Z) (data : list Z) (attr : bt_gatt_attr S) (handle : Z) (err : Z) :
    M (att_env S) (bool * Z) :=
  if negb (has_ccc attr) then mret (true, err)
  else
    k ← gets ccc;
    notify_peers value_handle data (ccc_cfgs k) err.

(** The handle of attribute [k] of service [j], 0 if there is none. *)
Definition bt_gatt_attr_get_handle (j k : nat) : Z :=
  match services !! j with
  | Some svc => if (k <? length svc)%nat then u16 (1 + Z.of_nat (length (concat (take j services))) + Z.of_nat k) else 0
  | None => 0
  end.

(** [bt_gatt_notify_cb] with no connection, for attribute [k] of service [j];
    [properties] are those of the characteristic it declares. *)
Definition bt_gatt_notify_cb (j k : nat) (properties : Z) (data : list Z) : M (att_env S) Z :=
  r ← gets dev_ready;
  if negb r then mret (- EAGAIN)
  else
    let handle := bt_gatt_attr_get_handle j k in
    match svc ← services !! j; svc !! k with
    | None => mret (- ENOENT)
    | Some attr =>
        if handle =? 0 then mret (- ENOENT)
        else
          let chrc := bt_uuid_cmp (uuid attr) BT_UUID_GATT_CHRC =? 0 in
          if chrc && (Z.land properties BT_GATT_CHRC_NOTIFY =? 0) then mret (- EINVAL)
          else
            let handle := if chrc then bt_gatt_attr_value_handle handle else handle in
            bt_gatt_foreach_attr_type services handle 0xffff (Some BT_UUID_GATT_CCC) None 1
              (notify_cb handle data) (- ENOTCONN)
    end.

(** The notification characteristic of the services is attribute 1. *)
Definition bt_gatt_notify (j : nat) (data : list Z) : M (att_env S) Z :=
  bt_gatt_notify_cb j 1 BT_GATT_CHRC_NOTIFY data.

(** What happens on the connection: the service notifies, a request is
    answered, a packet has left. *)
Inductive event := Notified (data : list Z) | Answered (rsp : list Z) | Left.

Definition handle_event (j : nat) (v : event) : M (att_env S) (list Z) :=
  match v with
  | Notified d => r ← bt_gatt_notify j d; mret [r]
  | Answered p => bt_att_chan_send_rsp l2cap_send p;; mret []
  | Left => bt_att_sent (mret tt);; mret []
  end.

(** The results of the notifications. *)
Fixpoint handle_events (j : nat) (l : list event) : M (att_env S) (list Z) :=
  match l with
  | [] => mret []
  | v :: l => r ← handle_event j v; rs ← handle_events j l; mret (r ++ rs)
  end.
End operations.

(** ** The search for the descriptor *)
Section search.
Context {S D : Type} (func : bt_gatt_attr S -> Z -> D -> M (att_env S) (bool * D)) (u : bt_uuid) (start : Z).

(** The first attribute of the type from [start] on. *)
Fixpoint first_match (attrs : list (bt_gatt_attr S)) (handle : Z) : option (bt_gatt_attr S * Z) :=
  match attrs with
  | [] => None
  | a :: l => if (start <=? handle) && (bt_uuid_cmp u (uuid a) =? 0) then Some (a, handle) else first_match l (handle + 1)
  end.

Lemma attrs_first attrs handle d (e : att_env S) :
  0 <= handle -> handle + Z.of_nat (length attrs) <= 65535 ->
  foreach_attrs attrs handle start 0xffff (Some u) None 1 func d e =
  match first_match attrs handle with
  | Some (a, h) => (r ← func a h d; mret (false, h, 0, r.2)) e
  | None => (Done (true, handle + Z.of_nat (length attrs), 1, d), e)
  end.
Proof.
  revert handle. induction attrs as [|a l IH]; intros handle H0 Hl; cbn [foreach_attrs first_match length] in *.
  { by rewrite Z.add_0_r. }
  assert (Hu : u16 (handle + 1) = handle + 1) by (unfold u16; apply Z.mod_small; change (2 ^ 16) with 65536; lia).
  unfold gatt_foreach_iter. destruct (Z.ltb_spec 0xffff handle); [lia|].
  destruct (Z.ltb_spec handle start), (Z.leb_spec start handle); try lia; cbn [andb].
  - rewrite bind_ret, Hu, IH by lia. by replace (handle + Z.of_nat (Datatypes.S (length l))) with (handle + 1 + Z.of_nat (length l)) by lia.
  - destruct (bt_uuid_cmp u (uuid a) =? 0); cbn [negb].
    + change (u16 (1 - 1)) with 0. cbn [Z.eqb]. unfold mbind, M_bind. by destruct (func a handle d e) as [[r|] e'].
    + rewrite bind_ret, Hu, IH by lia. by replace (handle + Z.of_nat (Datatypes.S (length l))) with (handle + 1 + Z.of_nat (length l)) by lia.
Qed.

Lemma first_app l l' handle :
  first_match (l ++ l') handle =
  match first_match l handle with Some x => Some x | None => first_match l' (handle + Z.of_nat (length l)) end.
Proof.
  revert handle. induction l as [|a l IH]; intros handle; cbn [app first_match length].
  { by rewrite Z.add_0_r. }
  case_match; [done|]. rewrite IH. by replace (handle + Z.of_nat (Datatypes.S (length l))) with (handle + 1 + Z.of_nat (length l)) by lia.
Qed.

Lemma first_before l handle : handle + Z.of_nat (length l) <= start -> first_match l handle = None.
Proof.
  revert handle. induction l as [|a l IH]; intros handle H; cbn [first_match length] in *; [done|].
  rewrite (proj2 (Z.leb_gt start handle)) by lia. apply IH. lia.
Qed.

Lemma services_first svcs handle d (e : att_env S) :
  0 <= handle -> handle + Z.of_nat (length (concat svcs)) <= 65535 ->
  foreach_services svcs handle start 0xffff (Some u) None 1 func d e =
  match first_match (concat svcs) handle with Some (a, h) => (r ← func a h d; mret r.2) e | None => (Done d, e) end.
Proof.
  revert handle. induction svcs as [|svc svcs IH]; intros handle H0 Hl; [done|].
  cbn [foreach_services concat] in *. rewrite length_app in Hl. rewrite first_app.
  destruct (Z.ltb_spec (handle + Z.of_nat (length svc)) start).
  - rewrite first_before by lia. unfold u16. rewrite Z.mod_small by (change (2 ^ 16) with 65536; lia). apply IH; lia.
  - unfold mbind at 1, M_bind. rewrite attrs_first by lia. destruct (first_match svc handle) as [[a h]|].
    + unfold mbind, M_bind. by destruct (func a h d e) as [[r|] e'].
    + apply IH; lia.
Qed.
End search.

(** ** The packets of notifications *)

Definition nfy (p : list Z) : Prop := head p = Some BT_ATT_OP_NOTIFY.
#[global] Instance nfy_dec p : Decision (nfy p).
Proof. unfold nfy. apply _. Defined.

Definition nfy_pdu (handle : Z) (data : list Z) : list Z := BT_ATT_OP_NOTIFY :: sys_put_le16 handle ++ data.

Section order.
Context {S : Type}.
Implicit Types e : att_env S.

(** The queue of the connection holds notifications only, that of the channel none. *)
Definition orderly e : Prop := Forall nfy (att_queue e) /\ Forall (fun p => ~ nfy p) (tx_queue e).

(** The notifications that have been handed over and those that wait. *)
Definition notified e : list (list Z) := filter nfy (out e) ++ att_queue e.

(** Nothing else changes that notifications depend on. *)
Definition same e e' : Prop :=
  attached e' = attached e /\ conn e' = conn e /\ tx_mtu e' = tx_mtu e /\ ccc e' = ccc e.

(** The notifications [l] were added, in order. *)
Definition adds (l : list (list Z)) e e' : Prop :=
  same e e' /\ orderly e' /\ notified e' = notified e ++ l.

Lemma adds_nil e : orderly e -> adds [] e e.
Proof. intros H. unfold adds, same. by rewrite app_nil_r. Qed.
Lemma adds_trans l l' e e' e'' : adds l e e' -> adds l' e' e'' -> adds (l ++ l') e e''.
Proof.
  intros ((A & B & C & D) & _ & E) ((A' & B' & C' & D') & O & E'). split; [|split]; [|done|].
  - unfold same. split_and!; congruence.
  - by rewrite E', E, app_assoc.
Qed.

Lemma nfy_sent p l : nfy p -> filter nfy (l ++ [p]) = filter nfy l ++ [p].
Proof. intros H. by rewrite filter_app, filter_cons_True. Qed.
Lemma other_sent p l : ~ nfy p -> filter nfy (l ++ [p]) = filter nfy l.
Proof. intros H. by rewrite filter_app, filter_cons_False, app_nil_r. Qed.

Context (l2cap_alloc : att_env S -> bool) (l2cap_send : att_env S -> list Z -> Z).
Context (Hs : forall e p, l2cap_send e p <= 0).

(** A queued packet is handed over or stays where it was. *)
Lemma send_process_adds e : orderly e ->
  exists e', att_send_process l2cap_send e = (Done tt, e') /\ adds [] e e'.
Proof.
  intros O. unfold att_send_process. rewrite bind_gets. destruct (att_queue e) as [|b q] eqn:Eq.
  { exists e. split; [done|]. by apply adds_nil. }
  rewrite bind_modify. unfold chan_send, mbind, M_bind. cbn zeta.
  pose proof (Hs (set_att_queue q e) b) as Hle. destruct O as [O1 O2]. rewrite Eq in O1. inversion_clear O1 as [|? ? Hb Hq].
  destruct (Z.eqb_spec (l2cap_send (set_att_queue q e) b) 0) as [E|E].
  - rewrite E. eexists. split; [done|]. split; [done|]. split; [done|].
    unfold notified. cbn. by rewrite nfy_sent, Eq, <-app_assoc, app_nil_r.
  - rewrite (proj2 (Z.ltb_lt _ _)) by lia. eexists. split; [done|]. split; [done|]. split; [by split; [constructor|]|].
    unfold notified. cbn. by rewrite Eq, app_nil_r.
Qed.

Lemma att_send_adds p e : orderly e -> attached e = true -> nfy p ->
  exists e', bt_att_send l2cap_send p e = (Done 0, e') /\ adds [p] e e'.
Proof.
  intros O A N. unfold bt_att_send. rewrite bind_gets, A. cbn [negb]. rewrite bind_modify.
  assert (O' : orderly (set_att_queue (att_queue e ++ [p]) e)).
  { destruct O as [O1 O2]. split; [|done]. apply Forall_app. split; [done|]. by constructor. }
  destruct (send_process_adds _ O') as (e' & E & H). rewrite (bind_done _ _ _ _ _ E). exists e'. split; [done|].
  refine (adds_trans [p] [] _ _ _ _ H). split; [done|]. split; [done|]. unfold notified. cbn. by rewrite app_assoc.
Qed.

(** A queue is processed: a notification is handed over only from the queue of
    the connection. *)
Lemma process_channel_adds e : orderly e ->
  exists r e', process_queue l2cap_send tx_queue set_tx_queue e = (Done r, e') /\ adds [] e e'.
Proof.
  intros O. unfold process_queue. rewrite bind_gets. destruct (tx_queue e) as [|b q] eqn:Eq.
  { eexists _, e. split; [done|]. by apply adds_nil. }
  rewrite bind_modify. unfold chan_send, mbind, M_bind. cbn zeta.
  destruct O as [O1 O2]. rewrite Eq in O2. inversion_clear O2 as [|? ? Hb Hq].
  destruct (l2cap_send (set_tx_queue q e) b =? 0); eexists _, _; (split; [done|]); (split; [done|]).
  - split; [done|]. unfold notified. cbn. by rewrite other_sent, app_nil_r.
  - split; [by split; [|constructor]|]. unfold notified. cbn. by rewrite app_nil_r.
Qed.

Lemma process_connection_adds e : orderly e ->
  exists r e', process_queue l2cap_send att_queue set_att_queue e = (Done r, e') /\ adds [] e e'.
Proof.
  intros O. unfold process_queue. rewrite bind_gets. destruct (att_queue e) as [|b q] eqn:Eq.
  { eexists _, e. split; [done|]. by apply adds_nil. }
  rewrite bind_modify. unfold chan_send, mbind, M_bind. cbn zeta.
  destruct O as [O1 O2]. rewrite Eq in O1. inversion_clear O1 as [|? ? Hb Hq].
  destruct (l2cap_send (set_att_queue q e) b =? 0); eexists _, _; (split; [done|]); (split; [done|]).
  - split; [done|]. unfold notified. cbn. by rewrite nfy_sent, Eq, <-app_assoc, app_nil_r.
  - split; [by split; [constructor|]|]. unfold notified. cbn. by rewrite Eq, app_nil_r.
Qed.

Lemma sent_adds e : orderly e ->
  exists e', bt_att_sent l2cap_send (mret tt) e = (Done tt, e') /\ adds [] e e'.
Proof.
  intros O. unfold bt_att_sent. rewrite bind_ret, bind_gets. destruct (attached e); cbn [negb].
  2: { exists e. split; [done|]. by apply adds_nil. }
  destruct (process_channel_adds e O) as (r & e1 & E1 & H1). rewrite (bind_done _ _ _ _ _ E1).
  destruct (r =? 0); [by exists e1|].
  destruct (process_connection_adds e1 (proj1 (proj2 H1))) as (r' & e2 & E2 & H2). rewrite (bind_done _ _ _ _ _ E2).
  exists e2. split; [done|]. exact (adds_trans [] [] _ _ _ H1 H2).
Qed.

Lemma rsp_adds p e : orderly e -> ~ nfy p ->
  exists e', bt_att_chan_send_rsp l2cap_send p e = (Done tt, e') /\ adds [] e e'.
Proof.
  intros [O1 O2] N. unfold bt_att_chan_send_rsp, chan_send, mbind, M_bind. cbn zeta.
  destruct (l2cap_send e p =? 0); eexists; (split; [done|]); (split; [done|]).
  - split; [done|]. unfold notified. cbn. by rewrite other_sent, app_nil_r.
  - split; [|unfold notified; cbn; by rewrite app_nil_r]. split; [done|]. cbn. apply Forall_app. split; [done|]. by constructor.
Qed.

(** *** One notification *)
Context (Ha : forall e, l2cap_alloc e = true).

(** How often the client is subscribed: the entries that name it. *)
Definition subscriptions (c : bt_conn) (k : gatt_ccc) : nat :=
  length (filter (fun g => cfg_value g = BT_GATT_CCC_NOTIFY /\ bt_conn_is_peer_addr_le c (cfg_id g) (cfg_peer g) = true) (ccc_cfgs k)).

(** A notification has three bytes in front of the value. *)
Definition fits (mtu : Z) (data : list Z) : bool := Z.of_nat (length data) + 3 <=? mtu.

Lemma gatt_notify_adds h d e : orderly e -> attached e = true ->
  if fits (tx_mtu e) d
  then exists e', gatt_notify l2cap_alloc l2cap_send h d e = (Done 0, e') /\ adds [nfy_pdu h d] e e'
  else gatt_notify l2cap_alloc l2cap_send h d e = (Done (- ENOMEM), e).
Proof.
  intros O A. unfold fits, gatt_notify, bt_att_create_pdu.
  rewrite bind_assoc, bind_gets, A. cbn [negb]. rewrite bind_assoc, bind_gets.
  destruct (Z.leb_spec (Z.of_nat (length d) + 3) (tx_mtu e)).
  - rewrite (proj2 (Z.ltb_ge _ _)) by lia. unfold bt_att_chan_create_pdu, mbind, M_bind.
    rewrite (proj2 (Z.ltb_ge _ _)) by lia. rewrite Ha. by apply att_send_adds.
  - rewrite (proj2 (Z.ltb_lt _ _)) by lia. by rewrite bind_ret.
Qed.

Lemma peers_adds h d cfgs err e : orderly e -> attached e = true ->
  let n := length (filter (fun g => cfg_value g = BT_GATT_CCC_NOTIFY /\ bt_conn_is_peer_addr_le (conn e) (cfg_id g) (cfg_peer g) = true) cfgs) in
  exists go e', notify_peers l2cap_alloc l2cap_send h d cfgs err e =
    (Done (go, if (0 <? n)%nat && fits (tx_mtu e) d then 0 else err), e') /\
    adds (if fits (tx_mtu e) d then replicate n (nfy_pdu h d) else []) e e'.
Proof.
  revert err e. induction cfgs as [|g cfgs IH]; intros err e O A.
  { exists true, e. cbn. split; [done|]. rewrite Tauto.if_same. by apply adds_nil. }
  cbn [notify_peers]. destruct (Z.eqb_spec (cfg_value g) BT_GATT_CCC_NOTIFY) as [V|V]; cbn [negb].
  2: { rewrite filter_cons_False by tauto. by apply IH. }
  unfold connected_peer. rewrite bind_assoc, bind_gets, bind_assoc, bind_gets, bind_ret, A. cbn [andb].
  destruct (bt_conn_is_peer_addr_le _ _ _) eqn:P; cbn [negb].
  2: { rewrite filter_cons_False by (intros [_ ?]; congruence). by apply IH. }
  rewrite filter_cons_True by done. pose proof (gatt_notify_adds h d e O A) as H.
  destruct (fits (tx_mtu e) d) eqn:F.
  - destruct H as (e1 & E1 & H1). rewrite (bind_done _ _ _ _ _ E1). cbn [Z.ltb Z.compare].
    pose proof H1 as ((A1 & C1 & M1 & K1) & O1 & _).
    destruct (IH 0 e1 O1) as (go & e2 & E2 & H2); [congruence|]. rewrite C1, M1, F in *. exists go, e2.
    rewrite E2. rewrite Tauto.if_same. split; [done|]. exact (adds_trans [_] _ _ _ _ H1 H2).
  - rewrite (bind_done _ _ _ _ _ H). exists false, e. cbn. split; [done|]. by apply adds_nil.
Qed.
End order.

(** ** A service that notifies *)
Section service.
Context {S : Type}.
Context (l2cap_alloc : att_env S -> bool) (l2cap_send : att_env S -> list Z -> Z).
Context (dev_ready : att_env S -> bool) (has_ccc : bt_gatt_attr S -> bool).
Context (before after : list (list (bt_gatt_attr S))) (svc : list (bt_gatt_attr S)).
Implicit Types e : att_env S.

Local Abbreviation services := (before ++ svc :: after).
Local Abbreviation notify := (bt_gatt_notify l2cap_alloc l2cap_send dev_ready services has_ccc (length before)).

(** The declaration, the value and the client configuration follow the
    declaration of the service. *)
Definition notifying : Prop :=
  exists p c v k l, svc = p :: c :: v :: k :: l /\ uuid c = BT_UUID_GATT_CHRC /\
    bt_uuid_cmp BT_UUID_GATT_CCC (uuid v) <> 0 /\ uuid k = BT_UUID_GATT_CCC /\ has_ccc k = true.

(** The handle of the value. *)
Definition value_handle : Z := Z.of_nat (length (concat before)) + 3.

Context (Ha : forall e, l2cap_alloc e = true) (Hs : forall e p, l2cap_send e p <= 0) (Hr : forall e, dev_ready e = true).
Context (Hn : notifying) (Hl : Z.of_nat (length (concat services)) < 65535).

(** What a notification of [d] puts into the queue, and its result. *)
Definition packets (c : bt_conn) (mtu : Z) (k : gatt_ccc) (d : list Z) : list (list Z) :=
  if fits mtu d then replicate (subscriptions c k) (nfy_pdu value_handle d) else [].
Definition notify_result (c : bt_conn) (mtu : Z) (k : gatt_ccc) (d : list Z) : Z :=
  if (0 <? subscriptions c k)%nat && fits mtu d then 0 else - ENOTCONN.

Lemma search_finds : exists k, has_ccc k = true /\
  first_match BT_UUID_GATT_CCC value_handle (concat services) 1 = Some (k, value_handle + 1).
Proof.
  destruct Hn as (p & c & v & k & l & -> & _ & Hv & Hk & Hc). exists k. split; [done|].
  rewrite concat_app, first_app, first_before by (unfold value_handle; lia). cbn [concat app first_match].
  unfold value_handle. repeat (rewrite (proj2 (Z.leb_gt _ _)) by lia). cbn [andb].
  repeat (rewrite (proj2 (Z.leb_le _ _)) by lia). cbn [andb].
  rewrite (proj2 (Z.eqb_neq _ _) Hv), Hk. change (bt_uuid_cmp BT_UUID_GATT_CCC BT_UUID_GATT_CCC =? 0) with true.
  cbv iota. do 2 f_equal. lia.
Qed.

Lemma notify_adds d e : orderly e -> attached e = true ->
  exists e', notify d e = (Done (notify_result (conn e) (tx_mtu e) (ccc e) d), e') /\
    adds (packets (conn e) (tx_mtu e) (ccc e) d) e e'.
Proof.
  intros O A. destruct search_finds as (a & Hc & Hf).
  assert (Hlen : length (concat services) = (length (concat before) + length svc + length (concat after))%nat).
  { rewrite concat_app, length_app. cbn [concat]. rewrite length_app. lia. }
  destruct Hn as (p & c & v & k & l & Es & Hu & _).
  assert (H4 : (4 <= length svc)%nat) by (rewrite Es; cbn; lia).
  assert (Hh : bt_gatt_attr_get_handle services (length before) 1 = value_handle - 1).
  { unfold bt_gatt_attr_get_handle. rewrite list_lookup_middle by done.
    rewrite take_app_length, Es. cbn [length Nat.ltb Nat.leb]. unfold u16, value_handle.
    rewrite Z.mod_small; [lia|]. change (2 ^ 16) with 65536. lia. }
  unfold bt_gatt_notify, bt_gatt_notify_cb. rewrite bind_gets, Hr. cbn [negb]. rewrite Hh.
  rewrite list_lookup_middle by done. 
  assert (Hat : (Some svc ≫= fun svc => svc !! 1%nat) = Some c) by (rewrite Es; done). rewrite Hat.
  rewrite (proj2 (Z.eqb_neq _ _)) by (unfold value_handle; lia). rewrite Hu.
  change (bt_uuid_cmp BT_UUID_GATT_CHRC BT_UUID_GATT_CHRC =? 0) with true.
  change (Z.land BT_GATT_CHRC_NOTIFY BT_GATT_CHRC_NOTIFY =? 0) with false. cbn [andb].
  assert (Hv : bt_gatt_attr_value_handle (value_handle - 1) = value_handle).
  { unfold bt_gatt_attr_value_handle, u16. rewrite Z.mod_small; [lia|]. change (2 ^ 16) with 65536. unfold value_handle. lia. }
  rewrite Hv. unfold bt_gatt_foreach_attr_type, last_static_handle, u16.
  rewrite (Z.mod_small (Z.of_nat _)) by (change (2 ^ 16) with 65536; lia).
  rewrite (proj2 (Z.leb_le _ _)) by (rewrite Hlen; unfold value_handle; lia).
  change (if 1 =? 0 then 65535 else 1) with 1. rewrite services_first, Hf by lia.
  unfold notify_cb. rewrite Hc. cbn [negb]. rewrite bind_assoc, bind_gets.
  destruct (peers_adds l2cap_alloc l2cap_send Hs Ha value_handle d (ccc_cfgs (ccc e)) (- ENOTCONN) e O A) as (go & e' & E & H).
  rewrite (bind_done _ _ _ _ _ E). exists e'. done.
Qed.

(** *** Sequences *)

Local Abbreviation handled := (handle_events l2cap_alloc l2cap_send dev_ready services has_ccc (length before)).

Definition responding (v : event) : Prop := match v with Answered p => ~ nfy p | _ => True end.
Definition data_of (v : event) : list (list Z) := match v with Notified d => [d] | _ => [] end.

Lemma event_adds v e : orderly e -> attached e = true -> responding v ->
  exists e', handle_event l2cap_alloc l2cap_send dev_ready services has_ccc (length before) v e =
      (Done (map (notify_result (conn e) (tx_mtu e) (ccc e)) (data_of v)), e') /\
    adds (flat_map (packets (conn e) (tx_mtu e) (ccc e)) (data_of v)) e e'.
Proof.
  intros O A Hv. destruct v as [d|p|]; cbn [handle_event data_of].
  - destruct (notify_adds d e O A) as (e' & E & H). exists e'. rewrite (bind_done _ _ _ _ _ E).
    split; [done|]. cbn. by rewrite app_nil_r.
  - destruct (rsp_adds l2cap_send p e O Hv) as (e' & E & H). exists e'. by rewrite (bind_done _ _ _ _ _ E).
  - destruct (sent_adds l2cap_send e O) as (e' & E & H). exists e'. by rewrite (bind_done _ _ _ _ _ E).
Qed.

Lemma events_add l e : orderly e -> attached e = true -> Forall responding l ->
  exists e', handled l e = (Done (map (notify_result (conn e) (tx_mtu e) (ccc e)) (flat_map data_of l)), e') /\
    adds (flat_map (packets (conn e) (tx_mtu e) (ccc e)) (flat_map data_of l)) e e'.
Proof.
  revert e. induction l as [|v l IH]; intros e O A Hv.
  { exists e. split; [done|]. by apply adds_nil. }
  inversion_clear Hv as [|? ? Hv' Hl']. cbn [handle_events].
  destruct (event_adds v e O A Hv') as (e1 & E1 & H1). rewrite (bind_done _ _ _ _ _ E1).
  pose proof H1 as ((A1 & C1 & M1 & K1) & O1 & _).
  destruct (IH e1 O1 ltac:(congruence) Hl') as (e2 & E2 & H2). rewrite (bind_done _ _ _ _ _ E2).
  rewrite C1, M1, K1 in *. exists e2. cbn [flat_map]. rewrite map_app, flat_map_app. split; [done|].
  exact (adds_trans _ _ _ _ _ H1 H2).
Qed.
End service.

(** *** Emptying the queues *)
Section drain.
Context {S : Type} (l2cap_alloc : att_env S -> bool) (dev_ready : att_env S -> bool) (services : list (list (bt_gatt_attr S)))
  (has_ccc : bt_gatt_attr S -> bool) (j : nat).
Implicit Types e : att_env S.

Local Abbreviation accepting := (fun (_ : att_env S) (_ : list Z) => 0).
Local Abbreviation leave := (handle_events l2cap_alloc accepting dev_ready services has_ccc j).

Definition waiting e : nat := (length (tx_queue e) + length (att_queue e))%nat.

(** A packet that leaves makes room for a waiting one. *)
Lemma left_waits e : attached e = true -> exists e',
  bt_att_sent accepting (mret tt) e = (Done tt, e') /\ waiting e' = pred (waiting e) /\ attached e' = true.
Proof.
  intros A. unfold bt_att_sent. rewrite bind_ret, bind_gets, A. cbn [negb]. unfold process_queue.
  rewrite bind_assoc, bind_gets. unfold waiting. destruct (tx_queue e) as [|b q] eqn:Eq.
  - rewrite bind_ret. change (- ENOENT =? 0) with false. cbv iota. rewrite bind_assoc, bind_gets.
    destruct (att_queue e) as [|b q] eqn:Ea.
    + exists e. rewrite Eq, Ea. done.
    + eexists. split; [reflexivity|]. cbn. by rewrite Eq.
  - eexists. split; [reflexivity|]. cbn. done.
Qed.

Lemma drained n e : orderly e -> attached e = true -> (waiting e <= n)%nat ->
  exists e', leave (replicate n Left) e = (Done [], e') /\ att_queue e' = [] /\ adds [] e e'.
Proof.
  revert e. induction n as [|n IH]; intros e O A Hw; cbn [replicate handle_events].
  - exists e. split; [done|]. split; [|by apply adds_nil]. apply nil_length_inv. unfold waiting in Hw. lia.
  - destruct (left_waits e A) as (e1 & E1 & W1 & A1).
    destruct (sent_adds accepting e O) as (e1' & E1' & H1). rewrite E1 in E1'. injection E1' as <-.
    destruct (IH e1 (proj1 (proj2 H1)) A1 ltac:(lia)) as (e2 & E2 & Q2 & H2).
    exists e2. cbn [handle_event]. rewrite bind_assoc, (bind_done _ _ _ _ _ E1), bind_ret, (bind_done _ _ _ _ _ E2).
    split; [done|]. split; [done|]. exact (adds_trans [] [] _ _ _ H1 H2).
Qed.
End drain.

(** The services of the two devices notify through their attribute 1. *)
Lemma services_notify : notifying (fun _ => true) lses_svc /\ notifying (fun _ => true) lres_svc.
Proof.
  split; eexists _, _, _, _, _; (split; [reflexivity|]); (split; [reflexivity|]);
    (split; [vm_compute; discriminate|]); split; reflexivity.
Qed.

(** C9. Whatever order notifications of a service, responses to the client's
    requests and completed transmissions come in, and however often the link
    layer refuses a packet, every notification that is subscribed to and fits
    the packet size is sent or waits in the queue, in the order of the calls,
    once per subscription of the client and with the bytes of the call behind
    the handle of the value; [bt_gatt_notify] answers 0 for these and
    [-ENOTCONN] for the others, which are not sent at all. Once the link layer
    accepts packets, as many completed transmissions as packets wait hand all
    of them over. *)
Theorem notifications_in_order {S} l2cap_alloc l2cap_send dev_ready has_ccc
    (before after : list (list (bt_gatt_attr S))) svc l (e : att_env S) :
  (forall e, l2cap_alloc e = true) -> (forall e p, l2cap_send e p <= 0) -> (forall e, dev_ready e = true) ->
  notifying has_ccc svc -> Z.of_nat (length (concat (before ++ svc :: after))) < 65535 ->
  orderly e -> attached e = true -> Forall responding l ->
  exists e' e'', let sent := flat_map (packets before (conn e) (tx_mtu e) (ccc e)) (flat_map data_of l) in
    handle_events l2cap_alloc l2cap_send dev_ready (before ++ svc :: after) has_ccc (length before) l e =
      (Done (map (notify_result (conn e) (tx_mtu e) (ccc e)) (flat_map data_of l)), e') /\
    filter nfy (out e') ++ att_queue e' = filter nfy (out e) ++ att_queue e ++ sent /\
    handle_events l2cap_alloc (fun _ _ => 0) dev_ready (before ++ svc :: after) has_ccc (length before)
      (replicate (length (tx_queue e') + length (att_queue e')) Left) e' = (Done [], e'') /\
    filter nfy (out e'') = filter nfy (out e) ++ att_queue e ++ sent.
Proof.
  intros Ha Hs Hr Hn Hl O A Hv.
  destruct (events_add l2cap_alloc l2cap_send dev_ready has_ccc before after svc Ha Hs Hr Hn Hl l e O A Hv) as (e' & E & H).
  pose proof H as ((A' & _) & O' & N).
  destruct (drained l2cap_alloc dev_ready (before ++ svc :: after) has_ccc (length before) _ e' O' ltac:(congruence) (le_n _))
    as (e'' & E' & Q & _ & _ & N'). exists e', e''. cbv zeta.
  unfold notified in *. rewrite Q, !app_nil_r in N'. rewrite <-app_assoc in N. rewrite N'. done.
Qed.

(** The sender's service and one client with an entry of its own: two
    notifications, the second while the link layer refuses packets, and one
    that is too long. *)
Definition demo_client : att_env lses :=
  set_ccc (mk_ccc [mk_ccc_cfg 0 1 1] 1) demo_phone.
Definition busy_link (e : att_env lses) (p : list Z) : Z := if (length (out e) <? 1)%nat then 0 else - ENOMEM.

Lemma notifications_in_order_witness : exists e' e'' : att_env lses,
  handle_events (fun _ => true) busy_link (fun _ => true) ([] ++ lses_svc :: []) (fun _ => true) 0
    [Notified [1]; Notified [2]; Notified (replicate 21 0)] demo_client = (Done [0; 0; - ENOTCONN], e') /\
  att_queue e' = [[0x1b; 3; 0; 2]] /\
  filter nfy (out e'') = [[0x1b; 3; 0; 1]; [0x1b; 3; 0; 2]].
Proof.
  destruct (notifications_in_order (fun _ => true) busy_link (fun _ => true) (fun _ => true) [] [] lses_svc
    [Notified [1]; Notified [2]; Notified (replicate 21 0)] demo_client) as (e' & e'' & E & _ & _ & H).
  - intros _. reflexivity.
  - intros e p. unfold busy_link. case_match; vm_compute; discriminate.
  - intros _. reflexivity.
  - exact (proj1 services_notify).
  - vm_compute. reflexivity.
  - split; constructor.
  - reflexivity.
  - repeat constructor.
  - exists e', e''. split; [exact E|]. split; [|exact H].
    assert (X : e' = snd (handle_events (fun _ => true) busy_link (fun _ => true) ([] ++ lses_svc :: []) (fun _ => true) 0
      [Notified [1]; Notified [2]; Notified (replicate 21 0)] demo_client)) by exact (eq_sym (f_equal snd E)).
    rewrite X. vm_compute. reflexivity.
Defined.
