(* ===== verification/Link.v ===== *)
(** * The phone subscribes and is notified

    The attribute layer between a service and the phone: what [Central] does
    when the services are discovered (writing the client configuration) and
    what reaches it of the notifications the service sends afterwards. *)
From S2P Require Import Prelude KSem Platform Sx12xx CLib Java Database Phone ByteOrder Uuid Att AttRead Lses LsesSweep Lres LresEval Commands Notify.
From stdpp Require Import prelude list numbers strings gmap.
From Stdlib Require Import ZArith Lia.
Open Scope Z_scope.

(** [BluetoothGattDescriptor.ENABLE_NOTIFICATION_VALUE]. *)
Definition ENABLE_NOTIFICATION_VALUE : list Z := [1; 0].

(** What a client takes from a packet: the value of a notification of the
    characteristic whose value has handle [h]. *)
Definition value_received (h : Z) (p : list Z) : option (list Z) :=
  match p with
  | op :: b0 :: b1 :: v => if (op =? BT_ATT_OP_NOTIFY) && bool_decide ([b0; b1] = sys_put_le16 h) then Some v else None
  | _ => None
  end.

Lemma value_of_pdu h d : value_received h (nfy_pdu h d) = Some d.
Proof. unfold value_received, nfy_pdu, sys_put_le16. cbn. by rewrite bool_decide_true. Qed.

Section subscribing.
Context {S : Type} (l2cap_alloc : att_env S -> bool) (l2cap_send : att_env S -> list Z -> Z) (MTU : Z)
  (before after : list (list (bt_gatt_attr S))) (svc : list (bt_gatt_attr S)) (tail : list Z)
  (others : list (att_handler S)).
Implicit Types e : att_env S.

Local Abbreviation services := (before ++ svc :: after).

(** The descriptor is attribute 3. *)
Definition configurable : Prop := svc !! 3%nat = Some BT_GATT_CCC.

(** A client without an entry of its own, and a free entry. *)
Definition newcomer e : Prop :=
  find_ccc_cfg (Some (conn e)) (ccc e) = None /\ is_Some (find_ccc_cfg None (ccc e)).

Definition after_write e (k : gatt_ccc) : att_env S :=
  answered [BT_ATT_OP_WRITE_RSP] (set_ccc k (set_pending_rsp true e)).

Lemma subscriptions_insert c k i g : find_ccc_cfg (Some c) k = None -> (i < length (ccc_cfgs k))%nat ->
  cfg_value g = BT_GATT_CCC_NOTIFY -> bt_conn_is_peer_addr_le c (cfg_id g) (cfg_peer g) = true ->
  forall v, subscriptions c (mk_ccc (<[i := g]> (ccc_cfgs k)) v) = 1%nat.
Proof.
  unfold find_ccc_cfg. intros Hn Hi Hv Hp v. destruct (list_find _ _) as [[]|] eqn:E; [done|]. clear Hn.
  apply list_find_None in E. unfold subscriptions. cbn [ccc_cfgs].
  rewrite insert_take_drop by done. rewrite filter_app, filter_cons_True by done.
  assert (N : forall l, Forall (fun g => bt_conn_is_peer_addr_le c (cfg_id g) (cfg_peer g) <> true) l ->
    filter (fun g => cfg_value g = BT_GATT_CCC_NOTIFY /\ bt_conn_is_peer_addr_le c (cfg_id g) (cfg_peer g) = true) l = []).
  { induction 1; [done|]. by rewrite filter_cons_False by tauto. }
  rewrite !N; [done|by apply Forall_drop|by apply Forall_take].
Qed.

(** Writing the descriptor makes the client a subscriber, once. *)
Lemma subscribe_run e : l2cap_fine l2cap_alloc l2cap_send -> Forall (fun k => op k <> BT_ATT_OP_WRITE_REQ) others ->
  idle e -> Z.of_nat (length (concat services)) < 65535 -> configurable -> newcomer e ->
  exists k, bt_att_recv l2cap_alloc l2cap_send MTU services tail others
      (write_pdu (handle_of before 3) ENABLE_NOTIFICATION_VALUE) e = (Done tt, after_write e k) /\
    subscriptions (conn e) k = 1%nat.
Proof.
  intros Hl Ho (Hat & Hp & Hm & Hcf) Ht Hk [Hn [i Hf]]. pose proof (handle_lookup before after svc 3 _ Hk) as Ha.
  assert (Hh : 0 < handle_of before 3 < 65536) by (apply lookup_lt_Some in Ha; unfold handle_of in *; lia).
  pose proof (write_rsp_run l2cap_alloc l2cap_send services tail (handle_of before 3) ENABLE_NOTIFICATION_VALUE
    (set_pending_rsp true e) _ Hl Hm Hcf ltac:(lia) Ht Ha) as R. cbn zeta in R.
  change (bt_gatt_check_perm _ _ _ =? 0) with true in R. cbv iota in R.
  assert (Hw : bt_gatt_attr_write_ccc (value_of tail ENABLE_NOTIFICATION_VALUE) 2 0 0 (set_pending_rsp true e) =
    (Done 2, set_ccc (stored i (conn_id (conn e)) (dst (conn e)) 1 (ccc e)) (set_pending_rsp true e))).
  { rewrite ccc_write_run. unfold ccc_entry. cbn [conn ccc set_pending_rsp]. by rewrite Hn, Hf. }
  exists (stored i (conn_id (conn e)) (dst (conn e)) 1 (ccc e)). split.
  - rewrite (recv_write l2cap_alloc l2cap_send MTU services tail others (handle_of before 3) ENABLE_NOTIFICATION_VALUE e 0
      (after_write e (stored i (conn_id (conn e)) (dst (conn e)) 1 (ccc e))) Ho Hat Hp ltac:(lia)); [done|].
    exact (R _ 2 _ eq_refl Hw Hm).
  - unfold stored. apply subscriptions_insert; [done|by eapply find_ccc_bound|done|].
    unfold bt_conn_is_peer_addr_le. cbn. by rewrite !Z.eqb_refl.
Qed.
End subscribing.

(** Values that fit are sent once each, the others not at all. *)
Lemma packets_values {S} (before : list (list (bt_gatt_attr S))) c mtu k l : subscriptions c k = 1%nat ->
  omap (value_received (value_handle before)) (flat_map (packets before c mtu k) l) =
  List.filter (fits mtu) l.
Proof.
  intros Hk. induction l as [|d l IH]; [done|]. cbn [flat_map List.filter]. rewrite omap_app, IH. unfold packets.
  destruct (fits mtu d); [|done]. rewrite Hk. cbn [replicate]. cbn [omap list_omap]. by rewrite value_of_pdu.
Qed.

Lemma filter_fits mtu l : Forall (fun d => fits mtu d = true) l -> List.filter (fits mtu) l = l.
Proof. induction 1 as [|d l Hd _ IH]; [done|]. cbn [List.filter]. by rewrite Hd, IH. Qed.

(** C10. The phone connects, finds no configuration of its own
    and writes [ENABLE_NOTIFICATION_VALUE] to the service's descriptor: the
    write is answered by a write response. From then on every notification of
    up to 20 bytes, which is what fits the smallest packet, is taken by the
    service's stack, whatever responses are sent in between and however often
    the link layer refuses packets; and once it accepts them, the phone has
    got the values of these notifications, in order, each once, and nothing
    else under their handle. *)
Theorem phone_is_told {S} l2cap_alloc l2cap_send l2cap_later dev_ready has_ccc MTU
    (before after : list (list (bt_gatt_attr S))) svc tail others l (e : att_env S) :
  let services := before ++ svc :: after in
  l2cap_fine l2cap_alloc l2cap_send -> Forall (fun k => op k <> BT_ATT_OP_WRITE_REQ) others ->
  (forall e p, l2cap_later e p <= 0) -> (forall e, dev_ready e = true) ->
  Z.of_nat (length (concat services)) < 65535 -> configurable svc -> notifying has_ccc svc ->
  idle e -> newcomer e -> orderly e -> Forall responding l ->
  Forall (fun d => (length d <= 20)%nat) (flat_map data_of l) ->
  exists e1 e2 e3 sent,
    bt_att_recv l2cap_alloc l2cap_send MTU services tail others
      (write_pdu (handle_of before 3) ENABLE_NOTIFICATION_VALUE) e = (Done tt, e1) /\
    out e1 = out e ++ [[BT_ATT_OP_WRITE_RSP]] /\
    handle_events l2cap_alloc l2cap_later dev_ready services has_ccc (length before) l e1 =
      (Done (map (fun _ => 0) (flat_map data_of l)), e2) /\
    handle_events l2cap_alloc (fun _ _ => 0) dev_ready services has_ccc (length before)
      (replicate (length (tx_queue e2) + length (att_queue e2)) Left) e2 = (Done [], e3) /\
    filter nfy (out e3) = filter nfy (out e) ++ att_queue e ++ sent /\
    omap (value_received (value_handle before)) sent = flat_map data_of l.
Proof.
  intros services Hl Ho Hs Hr Ht Hk Hn Hi Hc O Hv H20. pose proof Hi as (A & _ & Hm & _).
  destruct (subscribe_run l2cap_alloc l2cap_send MTU before after svc tail others e) as (k & E1 & Sk); try done.
  set (e1 := after_write e k) in *.
  assert (Hfit : Forall (fun d => fits (tx_mtu e1) d = true) (flat_map data_of l)).
  { eapply Forall_impl; [exact H20|]. intros d Hd. unfold fits. apply Z.leb_le. change (tx_mtu e1) with (tx_mtu e). cbv beta in Hd. lia. }
  destruct (events_add l2cap_alloc l2cap_later dev_ready has_ccc before after svc (proj1 Hl) Hs Hr Hn Ht l e1 O A Hv) as (e2 & E2 & H2).
  pose proof H2 as ((A2 & _) & O2 & N2).
  destruct (drained l2cap_alloc dev_ready services has_ccc (length before) _ e2 O2 ltac:(by rewrite A2) (le_n _))
    as (e3 & E3 & Q & _ & _ & N3).
  eexists e1, e2, e3, _. split; [exact E1|]. split; [done|]. split; [|split; [exact E3|split]].
  - etrans; [exact E2|]. do 2 f_equal. apply map_ext_Forall. eapply Forall_impl; [exact Hfit|]. intros d Hd.
    unfold notify_result. change (ccc e1) with k. change (conn e1) with (conn e). by rewrite Sk, Hd.
  - unfold notified in *. rewrite Q, !app_nil_r in N3. rewrite N3, N2.
    change (out e1) with (out e ++ [[BT_ATT_OP_WRITE_RSP]]). rewrite other_sent by done. by rewrite <- app_assoc.
  - rewrite packets_values by done. by apply filter_fits.
Qed.

(** The receiver's service and a phone that has not been there before: a report
    of four bytes, a response and a message of twenty bytes, while the link
    layer refuses everything. *)
Definition demo_new : att_env lres :=
  mk_env (demo_lres (demo_plat 0 [])) (mk_conn 0 1 1 1 false) true false 23 23 None
    (mk_ccc [clear_ccc_cfg; clear_ccc_cfg] 0) [] [] [].

Lemma phone_is_told_witness : exists (e1 e2 e3 : att_env lres) sent,
  bt_att_recv (fun _ => true) (fun _ _ => 0) 65 ([] ++ lres_svc :: []) [0] []
    (write_pdu (handle_of ([] : list (list (bt_gatt_attr lres))) 3) ENABLE_NOTIFICATION_VALUE) demo_new = (Done tt, e1) /\
  handle_events (fun _ => true) (fun _ _ => - ENOMEM) (fun _ => true) ([] ++ lres_svc :: []) (fun _ => true) 0
    [Notified [255; 90; 7; 0]; Answered [0x13]; Notified (replicate 20 46)] e1 = (Done [0; 0], e2) /\
  filter nfy (out e3) = sent /\
  omap (value_received 3) sent = [[255; 90; 7; 0]; replicate 20 46].
Proof.
  destruct (phone_is_told (fun _ => true) (fun _ _ => 0) (fun _ _ => - ENOMEM) (fun _ => true) (fun _ => true) 65 [] [] lres_svc [0] []
    [Notified [255; 90; 7; 0]; Answered [0x13]; Notified (replicate 20 46)] demo_new)
    as (e1 & e2 & e3 & sent & E1 & _ & E2 & _ & H3 & H4).
  - split; intros; reflexivity.
  - constructor.
  - intros e p. vm_compute. discriminate.
  - intros _. reflexivity.
  - vm_compute. reflexivity.
  - reflexivity.
  - exact (proj2 services_notify).
  - split; [reflexivity|]. split; [reflexivity|]. split; [vm_compute; discriminate|reflexivity].
  - split; [reflexivity|]. eexists. reflexivity.
  - split; constructor.
  - repeat constructor. discriminate.
  - apply Forall_cons; split; [vm_compute; lia|]. apply Forall_cons; split; [vm_compute; lia|constructor].
  - exists e1, e2, e3, sent. split; [exact E1|]. split; [exact E2|]. split; [exact H3|exact H4].
Defined.
