(* ===== verification/Strtol.v ===== *)
(** * Numbers in text (lib/libc/minimal)

    The character classes of ctype.h and [strtol], [strtoul] and [atoi] of the
    minimal C library, for targets with a 32-bit [long]. A C string is the
    list of its characters; the terminating NUL is the end of the list, so
    [*s] is [chr s] and [s++] is [next s]. *)
From S2P Require Import Prelude.
From stdpp Require Import prelude list numbers.
From Stdlib Require Import ZArith Lia.
Open Scope Z_scope.

(** ** Characters (ctype.h) *)

Definition isupper (a : Z) : bool := u32 (u32 a - 65) <? 26.
Definition isalpha (c : Z) : bool := u32 (Z.lor (u32 c) 32 - 97) <? 26.
Definition isspace (c : Z) : bool := (c =? 32) || (u32 (u32 c - 9) <? 5).
Definition isdigit (a : Z) : bool := u32 (u32 a - 48) <? 10.

(** ** Conversion *)

Definition chr (s : list Z) : Z := default 0 (head s).
Definition next (s : list Z) : list Z := tail s.

Definition LONG_MAX : Z := 2 ^ 31 - 1.
Definition LONG_MIN : Z := - 2 ^ 31.
Definition ULONG_MAX : Z := 2 ^ 32 - 1.
(** [(long)] of an [unsigned long]. *)
Definition to_long (x : Z) : Z := (x + 2 ^ 31) mod 2 ^ 32 - 2 ^ 31.

Fixpoint skip_space (s : list Z) : list Z :=
  match s with
  | c :: s' => if isspace c then skip_space s' else s
  | [] => []
  end.

(** Sign, then the base the digits are in. *)
Definition take_sign (s : list Z) : bool * list Z :=
  if chr s =? 45 then (true, next s) else if chr s =? 43 then (false, next s) else (false, s).

Definition take_base (s : list Z) (base : Z) : Z * list Z :=
  let '(base, s) :=
    if ((base =? 0) || (base =? 16)) && (chr s =? 48) && ((chr (next s) =? 120) || (chr (next s) =? 88))
    then (16, next (next s)) else (base, s) in
  (if base =? 0 then if chr s =? 48 then 8 else 10 else base, s).

(** The digit a character stands for, in the largest base. *)
Definition digit_value (c : Z) : option Z :=
  if isdigit c then Some (c - 48)
  else if isalpha c then Some (c - (if isupper c then 65 - 10 else 97 - 10))
  else None.

(** The digits: answers [acc], [any] (0 none, 1 some, -1 too many) and what
    follows them. *)
Fixpoint take_digits (base cutoff cutlim acc any : Z) (s : list Z) : Z * Z * list Z :=
  match s with
  | [] => (acc, any, [])
  | c :: s' =>
      match digit_value c with
      | None => (acc, any, s)
      | Some d =>
          if base <=? d then (acc, any, s)
          else if (any <? 0) || (cutoff <? acc) || ((acc =? cutoff) && (cutlim <? d))
          then take_digits base cutoff cutlim acc (-1) s'
          else take_digits base cutoff cutlim (u32 (u32 (acc * base) + d)) 1 s'
      end
  end.

(** Value, [*endptr] and whether [errno] is set to [ERANGE]. *)
Definition strtol (nptr : list Z) (base : Z) : Z * list Z * bool :=
  let '(neg, s) := take_sign (skip_space nptr) in
  let '(base, s) := take_base s base in
  let cutoff := if neg then u32 (- LONG_MIN) else LONG_MAX in
  let cutlim := cutoff mod (u32 base) in
  let cutoff := cutoff / (u32 base) in
  let '(acc, any, s) := take_digits base cutoff cutlim 0 0 s in
  let acc := if any <? 0 then if neg then u32 LONG_MIN else LONG_MAX
             else if neg then u32 (- acc) else acc in
  (to_long acc, if any =? 0 then nptr else s, any <? 0).

Definition strtoul (nptr : list Z) (base : Z) : Z * list Z * bool :=
  let '(neg, s) := take_sign (skip_space nptr) in
  let '(base, s) := take_base s base in
  let cutoff := ULONG_MAX / (u32 base) in
  let cutlim := ULONG_MAX mod (u32 base) in
  let '(acc, any, s) := take_digits base cutoff cutlim 0 0 s in
  let acc := if any <? 0 then ULONG_MAX else if neg then u32 (- acc) else acc in
  (acc, if any =? 0 then nptr else s, any <? 0).

(** [int n] wraps around. *)
Fixpoint atoi_digits (n : Z) (s : list Z) : Z :=
  match s with
  | c :: s' => if isdigit c then atoi_digits (to_long (10 * n - (c - 48))) s' else n
  | [] => n
  end.

Definition atoi (s : list Z) : Z :=
  let '(neg, s) := take_sign (skip_space s) in
  let n := atoi_digits 0 s in
  if neg then n else to_long (- n).

(** ** Digits and their value *)

(** The characters of [ds] are digits of base [b]. *)
Definition digits_in (b : Z) (ds : list Z) : Prop :=
  Forall (fun c => 0 <= c < 256 /\ exists d, digit_value c = Some d /\ 0 <= d < b) ds.
(** [rest] does not go on with one. *)
Definition ends (b : Z) (rest : list Z) : Prop :=
  match rest with [] => True | c :: _ => forall d, digit_value c = Some d -> b <= d end.

Definition number (b v : Z) (ds : list Z) : Z := fold_left (fun v c => v * b + default 0 (digit_value c)) ds v.

Lemma number_mono b v ds : 2 <= b -> 0 <= v -> digits_in b ds -> v <= number b v ds.
Proof.
  intros Hb Hv Hd. revert v Hv. induction Hd as [|c ds [Hch [d [Hc Hr]]] Hd IH]; intros v Hv; [done|].
  cbn. rewrite Hc. cbn. etransitivity; [|apply IH; nia]. nia.
Qed.

(** The test for too many digits is exact. *)
Lemma cutoff_spec limit b acc d : 2 <= b -> 0 <= d < b -> 0 <= acc <= limit ->
  (limit / b <? acc) || ((acc =? limit / b) && (limit mod b <? d)) = (limit <? acc * b + d).
Proof.
  intros Hb Hd Ha. pose proof (Z.div_mod limit b ltac:(lia)) as E. pose proof (Z.mod_pos_bound limit b ltac:(lia)) as Hm.
  destruct (Z.ltb_spec (limit / b) acc), (Z.eqb_spec acc (limit / b)), (Z.ltb_spec (limit mod b) d),
    (Z.ltb_spec limit (acc * b + d)); cbn; try done; exfalso; nia.
Qed.

Lemma take_digits_over b cutoff cutlim acc ds rest : digits_in b ds -> ends b rest ->
  take_digits b cutoff cutlim acc (-1) (ds ++ rest) = (acc, -1, rest).
Proof.
  intros Hd He. induction Hd as [|c ds [Hch [d [Hc Hr]]] Hd IH].
  - destruct rest as [|c rest]; [done|]. cbn. cbn in He. destruct (digit_value c) as [d|]; [|done].
    by rewrite (proj2 (Z.leb_le b d)) by by apply He.
  - cbn. rewrite Hc. rewrite (proj2 (Z.leb_gt b d)) by lia. exact IH.
Qed.

Lemma take_digits_spec limit b acc any ds rest :
  2 <= b -> 0 <= limit < 2 ^ 32 -> 0 <= acc <= limit -> 0 <= any -> digits_in b ds -> ends b rest ->
  (ds <> [] \/ any = 1) ->
  exists a, take_digits b (limit / b) (limit mod b) acc any (ds ++ rest) =
    (a, if limit <? number b acc ds then -1 else 1, rest) /\ (number b acc ds <= limit -> a = number b acc ds).
Proof.
  intros Hb Hl Ha Hany Hd He Hne. revert acc any Ha Hany Hne. induction Hd as [|c ds [Hch [d [Hc Hr]]] Hd IH]; intros acc any Ha Hany Hne.
  - destruct Hne as [Hne| ->]; [done|]. exists acc. cbn [number fold_left app].
    rewrite (proj2 (Z.ltb_ge limit acc)) by lia. split; [|done]. destruct rest as [|c rest]; [done|]. cbn. cbn in He.
    destruct (digit_value c) as [d|]; [|done]. by rewrite (proj2 (Z.leb_le b d)) by by apply He.
  - change (number b acc (c :: ds)) with (number b (acc * b + default 0 (digit_value c)) ds).
    cbn [take_digits app]. rewrite Hc. change (default 0 (Some d)) with d.
    rewrite (proj2 (Z.leb_gt b d)) by lia. rewrite (proj2 (Z.ltb_ge any 0)) by lia. cbn [orb].
    rewrite (cutoff_spec limit b acc d Hb Hr Ha).
    destruct (Z.ltb_spec limit (acc * b + d)) as [Ho|Ho].
    + rewrite take_digits_over by done. pose proof (number_mono b (acc * b + d) ds Hb ltac:(nia) Hd).
      exists acc. rewrite (proj2 (Z.ltb_lt limit _)) by lia. split; [done|lia].
    + assert (0 <= acc * b) by nia. unfold u32. rewrite (Z.mod_small (acc * b)), (Z.mod_small (acc * b + d)) by lia.
      apply IH; [lia|lia|by right].
Qed.

(** ** The three conversions *)

(** Spaces, a sign and the digits of a number in base [b] as a program or a
    user writes them: 0x before hexadecimal digits, 0 before octal ones. *)
Inductive sign_text : bool -> list Z -> Prop :=
| no_sign : sign_text false []
| plus : sign_text false [43]
| minus : sign_text true [45].

Inductive base_text : Z -> list Z -> list Z -> list Z -> Prop :=
| decimal c ds rest : c <> 48 -> digits_in 10 (c :: ds) -> base_text 10 [] (c :: ds) rest
| octal ds rest : digits_in 8 ds -> chr (ds ++ rest) <> 120 -> chr (ds ++ rest) <> 88 -> base_text 8 [] (48 :: ds) rest
| hexadecimal x ds rest : x = 120 \/ x = 88 -> digits_in 16 ds -> ds <> [] -> base_text 16 [48; x] ds rest.

(** A digit is none of the characters that are skipped before it, and no
    decimal digit is an x. *)
Lemma digit_chars c d : 0 <= c < 256 -> digit_value c = Some d ->
  isspace c = false /\ c <> 45 /\ c <> 43 /\ (d < 16 -> c <> 120 /\ c <> 88).
Proof.
  intros Hc Hd.
  assert (H : forallb (fun c => match digit_value c with
    | Some d => negb (isspace c) && negb (c =? 45) && negb (c =? 43) &&
        ((16 <=? d) || (negb (c =? 120) && negb (c =? 88)))
    | None => true end) (seqZ 0 256) = true) by done.
  rewrite forallb_forall in H. specialize (H c). rewrite Hd in H.
  assert (Hin : In c (seqZ 0 256)) by (apply list_elem_of_In, elem_of_seqZ; lia).
  specialize (H Hin). apply andb_prop in H as [H H4]. apply andb_prop in H as [H H3]. apply andb_prop in H as [H1 H2].
  destruct (isspace c); [done|]. destruct (Z.eqb_spec c 45), (Z.eqb_spec c 43); try done. split_and!; [done..|].
  intros H16. rewrite (proj2 (Z.leb_gt 16 d)) in H4 by lia. cbn in H4.
  by destruct (Z.eqb_spec c 120), (Z.eqb_spec c 88).
Qed.

Lemma skip_spaces sp s : Forall (fun c => isspace c = true) sp -> isspace (chr s) = false -> skip_space (sp ++ s) = s.
Proof.
  intros Hs Hc. induction Hs as [|c sp Hc' Hs IH]; [|cbn; by rewrite Hc'].
  destruct s as [|c s]; [done|]. cbn in *. by rewrite Hc.
Qed.

Lemma skip_sign sp neg sg s : Forall (fun c => isspace c = true) sp -> sign_text neg sg ->
  isspace (chr s) = false -> chr s <> 45 -> chr s <> 43 ->
  take_sign (skip_space (sp ++ sg ++ s)) = (neg, s).
Proof.
  intros Hsp Hsg H1 H2 H3. rewrite skip_spaces by (done || by destruct Hsg).
  destruct Hsg; unfold take_sign; [|done|done]. cbn [app].
  by rewrite (proj2 (Z.eqb_neq _ _) H2), (proj2 (Z.eqb_neq _ _) H3).
Qed.

Lemma base_digits b pre ds rest : base_text b pre ds rest -> digits_in b ds /\ ds <> [] /\ 2 <= b <= 16.
Proof.
  destruct 1 as [c ds rest Hc Hd|ds rest Hd H1 H2|x ds rest Hx Hd Hne]; (split_and!; [|done|lia..]); try done.
  apply Forall_cons_2; [|done]. split; [lia|]. exists 0. split; [done|lia].
Qed.

Lemma base_found b pre ds rest : base_text b pre ds rest -> take_base (pre ++ ds ++ rest) 0 = (b, ds ++ rest).
Proof.
  destruct 1 as [c ds rest Hc Hd|ds rest Hd H1 H2|x ds rest Hx Hd Hne]; unfold take_base.
  - assert (E : (chr ([] ++ (c :: ds) ++ rest) =? 48) = false) by by apply Z.eqb_neq.
    rewrite E, andb_false_r. cbn [andb]. cbv iota beta. by rewrite E.
  - change (next ([] ++ (48 :: ds) ++ rest)) with (ds ++ rest).
    by rewrite (proj2 (Z.eqb_neq _ _) H1), (proj2 (Z.eqb_neq _ _) H2).
  - by destruct Hx as [-> | ->].
Qed.

(** What stands before the digits is skipped. *)
Lemma base_start b pre ds rest : base_text b pre ds rest ->
  isspace (chr (pre ++ ds ++ rest)) = false /\ chr (pre ++ ds ++ rest) <> 45 /\ chr (pre ++ ds ++ rest) <> 43.
Proof.
  destruct 1 as [c ds rest Hc Hd|ds rest Hd H1 H2|x ds rest Hx Hd Hne]; [|done|done].
  apply Forall_cons_1 in Hd as [[Hch [d [Hv _]]] _]. by destruct (digit_chars c d Hch Hv) as (? & ? & ? & _).
Qed.

Lemma result_eq {A} (x y : Z) (r : A) (a b : bool) : x = y -> a = b -> (x, r, a) = (y, r, b).
Proof. by intros -> ->. Qed.

(** In base 10 the digits are the characters [isdigit] accepts. *)
Lemma decimal_digit c d : 0 <= c < 256 -> digit_value c = Some d -> d < 10 -> isdigit c = true /\ d = c - 48 /\ 0 <= d.
Proof.
  intros Hc Hd Hl.
  assert (H : forallb (fun c => match digit_value c with
    | Some d => (10 <=? d) || (isdigit c && (d =? c - 48) && (0 <=? d)) | None => true end) (seqZ 0 256) = true) by done.
  rewrite forallb_forall in H. specialize (H c). rewrite Hd in H.
  assert (Hin : In c (seqZ 0 256)) by (apply list_elem_of_In, elem_of_seqZ; lia).
  specialize (H Hin). rewrite (proj2 (Z.leb_gt 10 d) Hl) in H. cbn [orb] in H.
  apply andb_prop in H as [H H3]. apply andb_prop in H as [H1 H2%Z.eqb_eq]. apply Z.leb_le in H3. done.
Qed.

Lemma isdigit_value c : isdigit c = true -> digit_value c = Some (c - 48).
Proof. unfold digit_value. by intros ->. Qed.

Lemma to_long_id x : LONG_MIN <= x <= LONG_MAX -> to_long x = x.
Proof. unfold to_long, LONG_MIN, LONG_MAX. intros H. rewrite Z.mod_small by lia. lia. Qed.

Lemma atoi_digits_value v ds rest : 0 <= v -> digits_in 10 ds ->
  (match rest with [] => True | c :: _ => isdigit c = false end) -> number 10 v ds <= - LONG_MIN ->
  atoi_digits (- v) (ds ++ rest) = - number 10 v ds.
Proof.
  intros Hv Hd He. revert v Hv. induction Hd as [|c ds [Hch [d [Hc Hr]]] Hd IH]; intros v Hv Hn.
  - destruct rest as [|c rest]; [done|]. cbn. by rewrite He.
  - change (number 10 v (c :: ds)) with (number 10 (v * 10 + default 0 (digit_value c)) ds) in *. rewrite Hc in *.
    change (default 0 (Some d)) with d in *. destruct (decimal_digit c d Hch Hc ltac:(lia)) as (Hi & -> & Hp).
    pose proof (number_mono 10 (v * 10 + (c - 48)) ds ltac:(lia) ltac:(lia) Hd) as Hm.
    cbn [atoi_digits app]. rewrite Hi, to_long_id by (unfold LONG_MAX, LONG_MIN in *; lia).
    replace (10 * - v - (c - 48)) with (- (v * 10 + (c - 48))) by lia. by apply IH; [lia|].
Qed.

(** A text that is read in base [b] when [base] is asked for. *)
Record reads_as (base b : Z) (pre ds rest : list Z) : Prop := {
  ra_digits : digits_in b ds /\ ds <> [] /\ 2 <= b <= 36;
  ra_start : isspace (chr (pre ++ ds ++ rest)) = false /\ chr (pre ++ ds ++ rest) <> 45 /\ chr (pre ++ ds ++ rest) <> 43;
  ra_found : take_base (pre ++ ds ++ rest) base = (b, ds ++ rest) }.

Lemma base_text_reads b pre ds rest : base_text b pre ds rest -> reads_as 0 b pre ds rest.
Proof.
  intros H. destruct (base_digits _ _ _ _ H) as (? & ? & ?). split; [split_and!; [done..|lia|lia]|by eapply base_start|by apply base_found].
Qed.

(** Digits that no prefix precedes, in the base that is asked for. *)
Lemma plain_reads b ds rest : 2 <= b <= 36 -> b <> 16 \/ chr (next (ds ++ rest)) <> 120 /\ chr (next (ds ++ rest)) <> 88 -> digits_in b ds -> ds <> [] ->
  reads_as b b [] ds rest.
Proof.
  intros Hb Hx Hd Hne. split; [done| |].
  - destruct Hd as [|c ds [Hch [d [Hv _]]] Hd]; [done|]. by destruct (digit_chars c d Hch Hv) as (? & ? & ? & _).
  - unfold take_base. cbn [app]. rewrite (proj2 (Z.eqb_neq b 0)) by lia. cbn [orb]. destruct (Z.eqb_spec b 16) as [->|Hn].
    + destruct Hx as [Hx|[Hx1 Hx2]]; [done|]. rewrite (proj2 (Z.eqb_neq _ _) Hx1), (proj2 (Z.eqb_neq _ _) Hx2), andb_false_r. done.
    + cbn [andb]. rewrite (proj2 (Z.eqb_neq b 0)) by lia. done.
Qed.

Section number.
Context (sp sg pre ds rest : list Z) (neg : bool) (base b : Z).
Context (Hsp : Forall (fun c => isspace c = true) sp) (Hsg : sign_text neg sg) (Hb : reads_as base b pre ds rest) (He : ends b rest).
Local Abbreviation v := (number b 0 ds).
Local Abbreviation text := (sp ++ sg ++ pre ++ ds ++ rest).

Lemma number_pos : 0 <= v.
Proof. destruct (ra_digits _ _ _ _ _ Hb) as (Hd & _ & H2). apply number_mono; [lia|lia|done]. Qed.

Lemma read_digits limit : 0 <= limit < 2 ^ 32 ->
  exists a, (let '(neg', s) := take_sign (skip_space text) in let '(b', s) := take_base s base in
     (neg', b', take_digits b' (limit / u32 b') (limit mod u32 b') 0 0 s)) =
    (neg, b, (a, if limit <? v then -1 else 1, rest)) /\ (v <= limit -> a = v).
Proof.
  intros Hl. destruct (ra_digits _ _ _ _ _ Hb) as (Hd & Hne & H2). destruct (ra_start _ _ _ _ _ Hb) as (S1 & S2 & S3).
  rewrite (skip_sign sp neg sg _ Hsp Hsg S1 S2 S3), (ra_found _ _ _ _ _ Hb).
  assert (Hu : u32 b = b) by (apply Z.mod_small; lia). rewrite Hu.
  destruct (take_digits_spec limit b 0 0 ds rest) as (a & E & Ha); try done; [lia..|by left|]. exists a. by rewrite E.
Qed.

Lemma strtol_value : let x := if neg then - v else v in
  strtol text base = (Z.max LONG_MIN (Z.min LONG_MAX x), rest, (x <? LONG_MIN) || (LONG_MAX <? x)).
Proof.
  set (limit := if neg then u32 (- LONG_MIN) else LONG_MAX).
  assert (Hl : 0 <= limit < 2 ^ 32) by (by subst limit; destruct neg).
  destruct (read_digits limit Hl) as (a & E & Ha). pose proof number_pos as Hp. cbv zeta. unfold strtol.
  destruct (take_sign (skip_space text)) as [neg' s]. destruct (take_base s base) as [b' s']. injection E as -> -> E. fold limit.
  rewrite E. change (u32 (- LONG_MIN)) with 2147483648 in limit. unfold LONG_MAX, LONG_MIN, to_long, u32 in *.
  change (2 ^ 31) with 2147483648 in *. change (2 ^ 32) with 4294967296 in *.
  destruct (Z.ltb_spec limit v) as [Ho|Ho]; [|rewrite (Ha Ho)]; cbn [Z.ltb Z.compare Z.eqb]; subst limit.
  - destruct neg; apply result_eq; [|destruct (Z.ltb_spec (- v) (-(2147483648)))| |destruct (Z.ltb_spec (2147483648 - 1) v)];
      rewrite ?orb_true_r; done || (Z.div_mod_to_equations; lia).
  - destruct neg; apply result_eq; [|destruct (Z.ltb_spec (- v) (-(2147483648))), (Z.ltb_spec (2147483648 - 1) (- v))| |
      destruct (Z.ltb_spec v (-(2147483648))), (Z.ltb_spec (2147483648 - 1) v)];
      done || (Z.div_mod_to_equations; lia).
Qed.

Lemma strtoul_value :
  strtoul text base = (if ULONG_MAX <? v then ULONG_MAX else if neg then u32 (- v) else v, rest, ULONG_MAX <? v).
Proof.
  destruct (read_digits ULONG_MAX ltac:(done)) as (a & E & Ha). unfold strtoul.
  destruct (take_sign (skip_space text)) as [neg' s]. destruct (take_base s base) as [b' s']. injection E as -> -> E. rewrite E.
  destruct (Z.ltb_spec ULONG_MAX v) as [Ho|Ho]; [done|]. by rewrite (Ha Ho).
Qed.

Lemma atoi_value : b = 10 -> pre = [] -> 0 <= chr rest < 256 -> let x := if neg then - v else v in
  LONG_MIN <= x <= LONG_MAX -> atoi text = x.
Proof.
  intros Hten Hpre Hch x Hx. subst x. destruct (ra_digits _ _ _ _ _ Hb) as (Hd & _). destruct (ra_start _ _ _ _ _ Hb) as (S1 & S2 & S3).
  unfold atoi. rewrite (skip_sign sp neg sg _ Hsp Hsg S1 S2 S3). pose proof number_pos as Hp.
  rewrite Hpre, Hten in *. cbn [app].
  change (atoi_digits 0) with (atoi_digits (- 0)). rewrite (atoi_digits_value 0 ds rest); [|done|done| |].
  - destruct neg; [lia|]. rewrite Z.opp_involutive. by apply to_long_id.
  - destruct rest as [|c r]; [done|]. destruct (isdigit c) eqn:Hc; [|done]. apply isdigit_value in Hc as Hv.
    specialize (He _ Hv). cbn in Hch. unfold isdigit, u32 in Hc. rewrite (Z.mod_small c), (Z.mod_small (c - 48)) in Hc by lia.
    apply Z.ltb_lt in Hc. lia.
  - destruct neg; unfold LONG_MAX, LONG_MIN in *; lia.
Qed.
End number.

(** ** The properties *)

(** [strtol] and [strtoul] with base 0 read the number a text starts with:
    after any white space and a sign, digits in base 10, or 16 after 0x, or 8
    after 0, up to the first character that is no digit of the base, which is
    where [*endptr] points. [strtol] cuts the value off at the ends of [long]
    and says so; [strtoul] cuts it off at its upper end and otherwise takes
    a minus modulo 2^32. [atoi] agrees on decimal numbers that fit. *)
Theorem strtol_correct sp sg pre ds rest neg b :
  Forall (fun c => isspace c = true) sp -> sign_text neg sg -> base_text b pre ds rest -> ends b rest ->
  let text := sp ++ sg ++ pre ++ ds ++ rest in
  let v := number b 0 ds in
  let x := if neg then - v else v in
  strtol text 0 = (Z.max LONG_MIN (Z.min LONG_MAX x), rest, (x <? LONG_MIN) || (LONG_MAX <? x)) /\
  strtoul text 0 = (if ULONG_MAX <? v then ULONG_MAX else if neg then u32 (- v) else v, rest, ULONG_MAX <? v) /\
  (b = 10 -> 0 <= chr rest < 256 -> LONG_MIN <= x <= LONG_MAX -> atoi text = x).
Proof.
  intros Hsp Hsg Hb He. pose proof (base_text_reads _ _ _ _ Hb) as Hr.
  split_and!; [by apply strtol_value|by apply strtoul_value|]. intros Hten. eapply atoi_value; try done. destruct Hb; done.
Qed.

(** "  -2147483649," *)
Lemma strtol_correct_witness :
  let text := [32; 9; 45; 50; 49; 52; 55; 52; 56; 51; 54; 52; 57; 44] in
  strtol text 0 = (LONG_MIN, [44], true) /\ strtoul text 0 = (2147483647, [44], false) /\
  (10 = 10 -> 0 <= 44 < 256 -> LONG_MIN <= -2147483649 <= LONG_MAX -> atoi text = -2147483649).
Proof.
  apply (strtol_correct [32; 9] [45] [] [50; 49; 52; 55; 52; 56; 51; 54; 52; 57] [44] true 10).
  - by repeat constructor.
  - constructor.
  - constructor; [done|]. repeat (apply Forall_cons_2; [split; [lia|eexists; split; [reflexivity|lia]]|]). apply Forall_nil_2.
  - done.
Defined.
