(* ===== verification/Shell.v ===== *)
(** * The LoRa shell (drivers/lora/shell.c)

    The commands [lora config], [lora send], [lora recv] and [lora test_cw].
    The shell hands a command its words; a word is the list of its characters.
    What a command prints is recorded line by line. *)
From S2P Require Import Prelude KSem Platform Sx12xx Strtol.
From stdpp Require Import prelude list numbers strings.
From Stdlib Require Import ZArith Lia Ascii String.
Import WaitQ Sem.
Open Scope Z_scope.

Definition ENODEV : Z := 19.
Definition INT8_MIN : Z := -128.
Definition INT8_MAX : Z := 127.
Definition UINT16_MAX : Z := 65535.
Definition INT_MAX : Z := 2 ^ 31 - 1.

(** The characters of a literal. *)
Fixpoint str (s : string) : list Z :=
  match s with
  | EmptyString => []
  | String a s' => Z.of_nat (nat_of_ascii a) :: str s'
  end.

(** ** State *)

Inductive line : Type :=
| NotInteger (arg : list Z)
| OutOfRange (name : string) (min max : Z)
| BadFrequency (arg : list Z)
| FrequencyRange (arg : list Z)
| NoDevice
| NoFrequency
| ConfigFailed
| Dump (frequency tx_power bw sf cr pre_len : Z)
| BadBandwidth (lval : Z)   (* a number printed as a string *)
| UnknownParameter (param : list Z)
| ExpectsArgument (param : list Z)
| SendFailed (ret : Z)
| RecvFailed (ret : Z)
| Hexdump (bytes : list Z)
| Signal (rssi snr : Z)
| CwFailed (ret : Z).

Record shell := mk_shell { modem_config : lora_modem_config; console : list line; pl : plat }.

Definition set_modem_config (c : lora_modem_config) (s : shell) : shell := mk_shell c (console s) (pl s).
Definition set_console (l : list line) (s : shell) : shell := mk_shell (modem_config s) l (pl s).
Definition set_pl (p : plat) (s : shell) : shell := mk_shell (modem_config s) (console s) p.

#[export] Instance shell_plat : PlatState shell.
Proof. refine {| plat_of := pl; set_plat := set_pl |}; [done|by intros []|done]. Defined.

Definition print (l : line) : M shell unit := modify (fun s => set_console (console s ++ [l]) s).
Definition configure (f : lora_modem_config -> lora_modem_config) : M shell unit :=
  modify (fun s => set_modem_config (f (modem_config s)) s).
Definition radio_op {A} (m : M plat A) : M shell A := liftp m.

Definition initial_config : lora_modem_config := mk_config 0 0 10 1 8 4 false.

Definition bw_table : list Z := [125; 250; 500].

(** ** Parsing *)

(** [inl] an error code, [inr] the value. *)
Definition parse_long (arg : list Z) : M shell (Z + Z) :=
  let '(lval, eptr, _) := strtol arg 0 in
  match eptr with
  | [] => mret (inr lval)
  | _ => print (NotInteger arg);; mret (inl (- EINVAL))
  end.

Definition parse_long_range (arg : list Z) (name : string) (min max : Z) : M shell (Z + Z) :=
  r ← parse_long arg;
  match r with
  | inl e => mret (inl e)
  | inr out =>
      if (out <? min) || (max <? out)
      then print (OutOfRange name min max);; mret (inl (- EINVAL))
      else mret (inr out)
  end.

Definition parse_freq (arg : list Z) : M shell (Z + Z) :=
  let '(val, eptr, _) := strtoul arg 0 in
  match eptr with
  | [] =>
      if val =? ULONG_MAX then print (FrequencyRange arg);; mret (inl (- EINVAL))
      else mret (inr (u32 val))
  | _ => print (BadFrequency arg);; mret (inl (- EINVAL))
  end.

(** ** Commands *)

Definition get_modem : M shell (option lora_chip) :=
  dev ← radio_op device_get_binding;
  match dev with
  | None => print NoDevice;; mret None
  | Some d => mret (Some d)
  end.

Definition get_configured_modem : M shell (option lora_chip) :=
  dev ← get_modem;
  match dev with
  | None => mret None
  | Some d =>
      c ← gets modem_config;
      if frequency c =? 0 then print NoFrequency;; mret None
      else
        ret ← radio_op (lora_config (Some d) c);
        if ret <? 0 then print ConfigFailed;; mret None else mret (Some d)
  end.

Definition lora_conf_dump : M shell Z :=
  c ← gets modem_config;
  print (Dump (frequency c) (tx_power c) (default 0 (bw_table !! Z.to_nat (bandwidth c))) (datarate c)
    (coding_rate c + 4) (preamble_len c));;
  mret 0.

(** The value is stored, or nothing is and [-EINVAL] is answered. *)
Definition store_long (arg : list Z) (name : string) (min max : Z)
    (f : Z -> lora_modem_config -> lora_modem_config) : M shell Z :=
  r ← parse_long_range arg name min max;
  match r with inl _ => mret (- EINVAL) | inr lval => configure (f lval);; mret 0 end.

Definition lora_conf_set (param value : list Z) : M shell Z :=
  if decide (param = str "freq") then
    r ← parse_freq value;
    match r with inl _ => mret (- EINVAL) | inr f => configure (with_frequency f);; mret 0 end
  else if decide (param = str "tx-power") then
    store_long value "tx-power" INT8_MIN INT8_MAX with_tx_power
  else if decide (param = str "bw") then
    r ← parse_long_range value "bw" 0 INT8_MAX;
    match r with
    | inl _ => mret (- EINVAL)
    | inr lval =>
        if lval =? 125 then configure (with_bandwidth 0);; mret 0
        else if lval =? 250 then configure (with_bandwidth 1);; mret 0
        else if lval =? 500 then configure (with_bandwidth 2);; mret 0
        else print (BadBandwidth lval);; mret (- EINVAL)
    end
  else if decide (param = str "sf") then store_long value "sf" 6 12 (fun v => with_datarate (6 + u32 v - 6))
  else if decide (param = str "cr") then store_long value "cr" 5 8 (fun v => with_coding_rate (1 + u32 v - 5))
  else if decide (param = str "pre-len") then store_long value "pre-len" 0 UINT16_MAX (fun v => with_preamble_len (u16 v))
  else print (UnknownParameter param);; mret (- EINVAL).

(** The words after [config], in pairs. *)
Fixpoint conf_pairs (args : list (list Z)) : M shell Z :=
  match args with
  | [] => mret 0
  | [param] => print (ExpectsArgument param);; mret (- EINVAL)
  | param :: value :: args' =>
      ret ← lora_conf_set param value;
      if negb (ret =? 0) then mret ret else conf_pairs args'
  end.

Definition cmd_lora_conf (args : list (list Z)) : M shell Z :=
  match args with [] => lora_conf_dump | _ => conf_pairs args end.

Definition cmd_lora_send (data : list Z) : M shell Z :=
  configure (with_tx true);;
  dev ← get_configured_modem;
  match dev with
  | None => mret (- ENODEV)
  | Some d =>
      ret ← radio_op (lora_send (Some d) data (Z.of_nat (List.length data)));
      if ret <? 0 then print (SendFailed ret);; mret ret else mret 0
  end.

(** The timeout is the optional second word; 0 is for ever. *)
Definition cmd_lora_recv (args : list (list Z)) : M shell Z :=
  configure (with_tx false);;
  dev ← get_configured_modem;
  match dev with
  | None => mret (- ENODEV)
  | Some d =>
      t ← match args with
          | [] => mret (inr 0)
          | arg :: _ => parse_long_range arg "timeout" 0 INT_MAX
          end;
      match t with
      | inl _ => mret (- EINVAL)
      | inr timeout =>
          r ← radio_op (lora_recv (Some d) 0xff (if timeout =? 0 then K_FOREVER else K_MSEC timeout));
          let '(ret, got) := r in
          if ret <? 0 then print (RecvFailed ret);; mret ret
          else
            (match got with
             | Some (bytes, rssi, snr) => print (Hexdump (take (Z.to_nat ret) bytes));; print (Signal rssi snr)
             | None => mret tt
             end);;
            mret 0
      end
  end.

(** The three arguments are parsed in order, up to the first error. *)
Definition cmd_lora_test_cw (a1 a2 a3 : list Z) : M shell Z :=
  dev ← get_modem;
  match dev with
  | None => mret (- ENODEV)
  | Some d =>
      freq ← parse_freq a1;
      match freq with
      | inl _ => mret (- EINVAL)
      | inr freq =>
          power ← parse_long_range a2 "power" INT8_MIN INT8_MAX;
          match power with
          | inl _ => mret (- EINVAL)
          | inr power =>
              duration ← parse_long_range a3 "duration" 0 UINT16_MAX;
              match duration with
              | inl _ => mret (- EINVAL)
              | inr duration =>
                  ret ← radio_op (lora_test_cw (Some d) (u32 freq) (s8 power) (u16 duration));
                  if ret <? 0 then print (CwFailed ret);; mret ret else mret 0
              end
          end
      end
  end.

(** ** Settings stay in their range *)

(** What the fields of [struct lora_modem_config] may hold: the values of its
    enumerations and the ranges of its integers. *)
Record config_ok (c : lora_modem_config) : Prop := {
  ok_frequency : 0 <= frequency c < 2 ^ 32;
  ok_bandwidth : 0 <= bandwidth c <= 2;
  ok_datarate : 6 <= datarate c <= 12;
  ok_coding_rate : 1 <= coding_rate c <= 4;
  ok_preamble_len : 0 <= preamble_len c <= UINT16_MAX;
  ok_tx_power : INT8_MIN <= tx_power c <= INT8_MAX }.

(** A step of the shell that returns, leaves the radio alone, keeps the
    settings in range and the bandwidth as it is unless it sets it to 125 kHz. *)
Record tidy {A} (Q : A -> Prop) (s : shell) (r : outcome A * shell) : Prop := {
  tidy_done : exists a, r.1 = Done a /\ Q a;
  tidy_pl : pl r.2 = pl s;
  tidy_config : config_ok (modem_config s) -> config_ok (modem_config r.2);
  tidy_bandwidth : bandwidth (modem_config r.2) = bandwidth (modem_config s) \/ bandwidth (modem_config r.2) = 0 }.

Lemma tidy_ret {A} (Q : A -> Prop) a s : Q a -> tidy Q s ((mret a : M shell A) s).
Proof. intros Ha. split; [by exists a|done|done|by left]. Qed.

Lemma tidy_print s l : tidy (fun _ => True) s (print l s).
Proof. split; [by exists tt|done|done|by left]. Qed.

Lemma tidy_configure f s :
  (config_ok (modem_config s) -> config_ok (f (modem_config s))) ->
  bandwidth (f (modem_config s)) = bandwidth (modem_config s) \/ bandwidth (f (modem_config s)) = 0 ->
  tidy (fun _ => True) s (configure f s).
Proof. intros Hc Hb. split; [by exists tt|done|exact Hc|exact Hb]. Qed.

Lemma tidy_bind {A B} (P : A -> Prop) (Q : B -> Prop) (m : M shell A) (k : A -> M shell B) s :
  tidy P s (m s) -> (forall a s1, P a -> tidy Q s1 (k a s1)) -> tidy Q s (mbind k m s).
Proof.
  intros [(a & Ea & Pa) Pl Pc Pb] Hk. unfold mbind, M_bind. destruct (m s) as [r s1]. cbn in *. subst r.
  destruct (Hk a s1 Pa) as [Hd Hl Hc Hb]. split; [done|by rewrite Hl|by intros; apply Hc, Pc|].
  destruct Hb as [->|Hb]; [done|by right].
Qed.

Ltac tidy :=
  repeat match goal with
  | |- tidy _ _ (mret _ _) => apply tidy_ret
  | |- tidy _ _ (print _ _) => apply tidy_print
  | |- tidy _ _ (mbind _ (print _) _) => eapply tidy_bind; [apply tidy_print|intros _ ? _]
  | |- tidy _ _ ((if ?b then _ else _) _) => destruct b eqn:?
  end.

Lemma parse_long_tidy arg s : tidy (fun _ => True) s (parse_long arg s).
Proof. unfold parse_long. destruct (strtol arg 0) as [[lval [|c eptr]] er]; tidy; done. Qed.

Lemma parse_range_tidy arg name min max s :
  tidy (fun r => match r with inr v => min <= v <= max | inl e => e = - EINVAL end) s (parse_long_range arg name min max s).
Proof.
  unfold parse_long_range. eapply (tidy_bind (fun r => match r with inr _ => True | inl e => e = - EINVAL end)).
  - unfold parse_long. destruct (strtol arg 0) as [[lval [|c eptr]] er]; tidy; done.
  - intros [e|out] s1 Hr; tidy; [done|done|]. apply orb_false_elim in Heqb as [H1%Z.ltb_ge H2%Z.ltb_ge]. lia.
Qed.

Lemma parse_freq_tidy arg s :
  tidy (fun r => match r with inr v => 0 <= v < 2 ^ 32 | inl e => e = - EINVAL end) s (parse_freq arg s).
Proof.
  unfold parse_freq. destruct (strtoul arg 0) as [[val [|c eptr]] er]; tidy; try done. by apply Z.mod_pos_bound.
Qed.

Definition zero_or_error (r : Z) : Prop := r = 0 \/ r = - EINVAL.

Lemma store_long_tidy arg name min max f s :
  (forall v c, min <= v <= max -> config_ok c -> config_ok (f v c)) -> (forall v c, bandwidth (f v c) = bandwidth c) ->
  tidy zero_or_error s (store_long arg name min max f s).
Proof.
  intros Hc Hb. unfold store_long. eapply tidy_bind; [apply parse_range_tidy|]. intros [e|v] s1 Hr; [tidy; by right|].
  eapply (tidy_bind (fun _ => True)); [|intros _ s2 _; tidy; by left].
  apply tidy_configure; [by apply Hc|left; apply Hb].
Qed.

Lemma conf_set_tidy param value s : tidy zero_or_error s (lora_conf_set param value s).
Proof.
  unfold lora_conf_set. repeat case_decide.
  - eapply tidy_bind; [apply parse_freq_tidy|]. intros [e|v] s1 Hr; [tidy; by right|].
    eapply (tidy_bind (fun _ => True)); [|intros _ s2 _; tidy; by left].
    apply tidy_configure; [intros []; by split|by left].
  - apply store_long_tidy; [|done]. intros v c Hv []. by split.
  - eapply tidy_bind; [apply parse_range_tidy|]. intros [e|v] s1 Hr; [tidy; by right|]. tidy; try by right.
    + eapply (tidy_bind (fun _ => True)); [|intros _ s2 _; tidy; by left].
      apply tidy_configure; [intros []; split; cbn; lia|by right].
    + apply Z.eqb_eq in Heqb0. unfold INT8_MAX in Hr. lia.
    + apply Z.eqb_eq in Heqb1. unfold INT8_MAX in Hr. lia.
  - apply store_long_tidy; [|done]. intros v c Hv []. split; cbn; try done. unfold u32. rewrite Z.mod_small by lia. lia.
  - apply store_long_tidy; [|done]. intros v c Hv []. split; cbn; try done. unfold u32. rewrite Z.mod_small by lia. lia.
  - apply store_long_tidy; [|done]. intros v c Hv []. split; cbn; try done. unfold u16, UINT16_MAX in *. rewrite Z.mod_small by lia. lia.
  - tidy. by right.
Qed.

Lemma conf_pairs_tidy n args s : (List.length args <= n)%nat -> tidy zero_or_error s (conf_pairs args s).
Proof.
  revert args s. induction n as [|n IH]; intros [|p [|v args]] s Hn; cbn in *; try lia; tidy; try by left.
  - by right.
  - eapply tidy_bind; [apply conf_set_tidy|]. intros r s1 Hr. tidy; [done|]. apply IH. lia.
Qed.

Lemma conf_tidy args s : tidy zero_or_error s (cmd_lora_conf args s).
Proof.
  destruct args as [|p args]; [|by eapply conf_pairs_tidy]. cbn [cmd_lora_conf]. unfold lora_conf_dump.
  rewrite bind_gets. tidy. by left.
Qed.

(** ** The properties *)

(** Whatever words follow [lora config], the command returns 0 or
    [-EINVAL], does not touch the radio, and leaves every setting a value of
    its field: the enumerations among their constants and the integers in
    their range. *)
Theorem shell_settings_in_range args s : config_ok (modem_config s) ->
  exists r s', cmd_lora_conf args s = (Done r, s') /\ (r = 0 \/ r = - EINVAL) /\ pl s' = pl s /\ config_ok (modem_config s').
Proof.
  intros Hc. destruct (conf_tidy args s) as [(r & E & Hr) Hp Hok _].
  destruct (cmd_lora_conf args s) as [o s']. cbn in *. subst o. by exists r, s'; auto.
Qed.

Definition demo_shell : shell := mk_shell initial_config [] (demo_plat 0 []).

Lemma shell_settings_in_range_witness :
  exists r s', cmd_lora_conf [str "sf"; str "12"; str "cr"] demo_shell = (Done r, s') /\ (r = 0 \/ r = - EINVAL) /\
    pl s' = pl demo_shell /\ config_ok (modem_config s').
Proof. apply shell_settings_in_range. by split. Defined.

(** The settings after a sequence of [lora config] commands. *)
Definition configured (cmds : list (list (list Z))) (s : shell) : shell :=
  fold_left (fun s args => (cmd_lora_conf args s).2) cmds s.

Lemma configured_bandwidth cmds s : bandwidth (modem_config s) = 0 -> bandwidth (modem_config (configured cmds s)) = 0.
Proof.
  revert s. induction cmds as [|args cmds IH]; intros s Hs; [done|]. apply IH.
  destruct (conf_tidy args s) as [_ _ _ [->| ->]]; done.
Qed.

(** From the initial settings the bandwidth is 125 kHz after any sequence
    of [lora config] commands, and setting it to 250 or 500 kHz is refused as
    out of the range 0 to 127. *)
Theorem shell_bandwidth_stuck cmds console p :
  let s := configured cmds (mk_shell initial_config console p) in
  default 0 (bw_table !! Z.to_nat (bandwidth (modem_config s))) = 125 /\
  Forall (fun value => cmd_lora_conf [str "bw"; str value] s =
    (Done (- EINVAL), set_console (Shell.console s ++ [OutOfRange "bw" 0 127]) s)) ["250"; "500"]%string.
Proof.
  intros s. split.
  - unfold s. by rewrite configured_bandwidth.
  - generalize s. clear s. intros s. repeat constructor.
Qed.
