(* ===== verification/Timeout.v ===== *)
(** * Kernel timeouts (kernel/timeout.c)

    The queue of timeouts, in which every entry holds the ticks after the one
    before it, the clock that the timer driver announces, and the functions
    that read it. 64-bit ticks are unbounded here; 32-bit results are not.

    The hardware clock is seen through [sys_clock_elapsed], the ticks since
    the last announcement, which is a field of the state that the driver
    advances, and [sys_clock_set_timeout], whose calls are recorded. The
    scheduler's [z_time_slice] at the start of an announcement does not touch
    the queue and is left out; the length of a slice is a field. *)
From S2P Require Import Prelude.
From stdpp Require Import prelude list numbers.
From Stdlib Require Import ZArith Lia Sorted.
Open Scope Z_scope.

Definition K_TICKS_FOREVER : Z := -1.
Definition Z_TICK_ABS (t : Z) : Z := K_TICKS_FOREVER - 1 - t.
(** Without sloppy idling. *)
Definition MAX_WAIT : Z := 2 ^ 31 - 1.

(** ** State *)

(** A timeout is known by the object it belongs to. *)
Record timeout := mk_timeout { to_id : Z; dticks : Z }.

(** [fired] records which timeout was called back at which tick. *)
Record clock := mk_clock {
  curr_tick : Z;
  timeout_list : list timeout;
  announce_remaining : Z;
  hw_elapsed : Z;
  slice_ticks : Z;
  programmed : list (Z * bool);
  fired : list (Z * Z) }.

Definition set_curr_tick (x : Z) (c : clock) : clock :=
  mk_clock x (timeout_list c) (announce_remaining c) (hw_elapsed c) (slice_ticks c) (programmed c) (fired c).
Definition set_timeout_list (x : list timeout) (c : clock) : clock :=
  mk_clock (curr_tick c) x (announce_remaining c) (hw_elapsed c) (slice_ticks c) (programmed c) (fired c).
Definition set_announce_remaining (x : Z) (c : clock) : clock :=
  mk_clock (curr_tick c) (timeout_list c) x (hw_elapsed c) (slice_ticks c) (programmed c) (fired c).
Definition set_programmed (x : list (Z * bool)) (c : clock) : clock :=
  mk_clock (curr_tick c) (timeout_list c) (announce_remaining c) (hw_elapsed c) (slice_ticks c) x (fired c).
Definition set_fired (x : list (Z * Z)) (c : clock) : clock :=
  mk_clock (curr_tick c) (timeout_list c) (announce_remaining c) (hw_elapsed c) (slice_ticks c) (programmed c) x.

Definition sys_clock_elapsed (c : clock) : Z := hw_elapsed c.
Definition sys_clock_set_timeout (ticks : Z) (idle : bool) (c : clock) : clock :=
  set_programmed (programmed c ++ [(ticks, idle)]) c.

(** ** The queue *)

Definition first (c : clock) : option timeout := head (timeout_list c).

Definition is_linked (id : Z) (c : clock) : bool := existsb (fun t => to_id t =? id) (timeout_list c).

(** The ticks of the one that is removed go to the next one. *)
Fixpoint remove_timeout (id : Z) (l : list timeout) : list timeout :=
  match l with
  | [] => []
  | t :: l' =>
      if to_id t =? id then
        match l' with
        | [] => []
        | n :: l'' => mk_timeout (to_id n) (dticks n + dticks t) :: l''
        end
      else t :: remove_timeout id l'
  end.

(** The loop of [z_add_timeout] that finds the place. *)
Fixpoint insert_timeout (id dt : Z) (l : list timeout) : list timeout :=
  match l with
  | [] => [mk_timeout id dt]
  | t :: l' =>
      if dt <? dticks t then mk_timeout id dt :: mk_timeout (to_id t) (dticks t - dt) :: l'
      else t :: insert_timeout id (dt - dticks t) l'
  end.

Definition elapsed (c : clock) : Z := if announce_remaining c =? 0 then sys_clock_elapsed c else 0.

Definition next_timeout (c : clock) : Z :=
  let ret := match first c with
    | None => MAX_WAIT
    | Some to => Z.max 0 (Z.min (dticks to - elapsed c) MAX_WAIT)
    end in
  if negb (slice_ticks c =? 0) && (slice_ticks c <? ret) then slice_ticks c else ret.

(** The ticks from now on that a timeout value stands for: values below
    [K_TICKS_FOREVER] are absolute times. *)
Definition timeout_ticks (t : Z) (c : clock) : Z :=
  let ticks := t + 1 in
  let ticks := if 0 <=? Z_TICK_ABS ticks then Z_TICK_ABS t - (curr_tick c + elapsed c) else ticks in
  Z.max 1 ticks.

Definition z_add_timeout (id t : Z) (c : clock) : clock :=
  if t =? K_TICKS_FOREVER then c
  else
    let dt := timeout_ticks t c + elapsed c in
    let c := set_timeout_list (insert_timeout id dt (timeout_list c)) c in
    match first c with
    | Some to =>
        if to_id to =? id then
          let next_time := next_timeout c in
          if (next_time =? 0) || negb (slice_ticks c =? next_time)
          then sys_clock_set_timeout next_time false c
          else c
        else c
    | None => c
    end.

Definition z_abort_timeout (id : Z) (c : clock) : Z * clock :=
  if is_linked id c then (0, set_timeout_list (remove_timeout id (timeout_list c)) c)
  else (-22, c).

(** *** What is left of a timeout *)

Fixpoint sum_until (id : Z) (l : list timeout) : Z :=
  match l with
  | [] => 0
  | t :: l' => dticks t + (if to_id t =? id then 0 else sum_until id l')
  end.

Definition timeout_rem (id : Z) (c : clock) : Z :=
  if negb (is_linked id c) then 0 else sum_until id (timeout_list c) - elapsed c.

Definition z_timeout_remaining (id : Z) (c : clock) : Z := timeout_rem id c.
Definition z_timeout_expires (id : Z) (c : clock) : Z := curr_tick c + timeout_rem id c.
Definition z_get_next_timeout_expiry (c : clock) : Z := next_timeout c.

Definition z_set_timeout_expiry (ticks : Z) (is_idle : bool) (c : clock) : clock :=
  let next_to := next_timeout c in
  let sooner := (next_to =? K_TICKS_FOREVER) || (ticks <=? next_to) in
  let imminent := next_to <=? 1 in
  if negb imminent && sooner then sys_clock_set_timeout (Z.min ticks next_to) is_idle c else c.

(** *** Reading the clock *)

Definition sys_clock_tick_get (c : clock) : Z := curr_tick c + sys_clock_elapsed c.
Definition sys_clock_tick_get_32 (c : clock) : Z := u32 (sys_clock_tick_get c).

Definition sys_clock_timeout_end_calc (t : Z) (c : clock) : Z :=
  if t =? K_TICKS_FOREVER then 2 ^ 64 - 1
  else if t =? 0 then sys_clock_tick_get c
  else if 0 <=? Z_TICK_ABS t then Z_TICK_ABS t
  else sys_clock_tick_get c + Z.max 1 t.

(** ** The announcement *)

(** The state the callbacks work on contains the clock. *)
Class HasClock (X : Type) := {
  clk : X -> clock;
  set_clk : clock -> X -> X;
  clk_set : forall c x, clk (set_clk c x) = c;
  set_clk_set : forall c d x, set_clk c (set_clk d x) = set_clk c x }.

Section announce.
Context {X : Type} `{HasClock X}.
(** The callback of a timeout. *)
Context (fn : Z -> M X unit).

Definition on_clock (f : clock -> clock) : M X unit := modify (fun x => set_clk (f (clk x)) x).

(** The first timeout leaves the queue, at its time. *)
Definition take_first (t : timeout) (c : clock) : clock :=
  let dt := dticks t in
  let c := set_curr_tick (curr_tick c + dt) c in
  let c := set_announce_remaining (announce_remaining c - dt) c in
  let c := set_timeout_list (mk_timeout (to_id t) 0 :: tail (timeout_list c)) c in
  let c := set_timeout_list (remove_timeout (to_id t) (timeout_list c)) c in
  set_fired (fired c ++ [(to_id t, curr_tick c)]) c.

Fixpoint announce_loop (fuel : nat) : M X unit :=
  c ← gets clk;
  match timeout_list c with
  | t :: _ =>
      if dticks t <=? announce_remaining c then
        match fuel with
        | O => stop_with OutOfFuel
        | S fuel =>
            on_clock (take_first t);;
            fn (to_id t);;
            announce_loop fuel
        end
      else mret tt
  | [] => mret tt
  end.

(** The end of the announcement moves the clock, not the deadlines. *)
Definition advance (c : clock) : clock :=
  let c := match timeout_list c with
    | t :: l => set_timeout_list (mk_timeout (to_id t) (dticks t - announce_remaining c) :: l) c
    | [] => c
    end in
  let c := set_curr_tick (curr_tick c + announce_remaining c) c in
  let c := set_announce_remaining 0 c in
  sys_clock_set_timeout (next_timeout c) false c.

Definition sys_clock_announce (fuel : nat) (ticks : Z) : M X unit :=
  on_clock (set_announce_remaining ticks);;
  announce_loop fuel;;
  on_clock advance.
End announce.

(** ** Abstract queue: deadlines in order *)

Fixpoint deadlines (base : Z) (l : list timeout) : list (Z * Z) :=
  match l with
  | [] => []
  | t :: l' => (to_id t, base + dticks t) :: deadlines (base + dticks t) l'
  end.

(** Behind everything that is due at the same time or earlier. *)
Fixpoint ainsert (id d : Z) (q : list (Z * Z)) : list (Z * Z) :=
  match q with
  | [] => [(id, d)]
  | p :: q' => if d <? p.2 then (id, d) :: q else p :: ainsert id d q'
  end.

Fixpoint aremove (id : Z) (q : list (Z * Z)) : list (Z * Z) :=
  match q with
  | [] => []
  | p :: q' => if p.1 =? id then q' else p :: aremove id q'
  end.

Fixpoint alookup (id : Z) (q : list (Z * Z)) : option Z :=
  match q with
  | [] => None
  | p :: q' => if p.1 =? id then Some p.2 else alookup id q'
  end.

Definition queue (c : clock) : list (Z * Z) := deadlines (curr_tick c) (timeout_list c).
Definition now (c : clock) : Z := curr_tick c + elapsed c.
Definition wf (c : clock) : Prop := Forall (fun t => 0 <= dticks t) (timeout_list c).
Definition due_later (p r : Z * Z) : Prop := p.2 <= r.2.

Lemma insert_deadlines base id dt l : deadlines base (insert_timeout id dt l) = ainsert id (base + dt) (deadlines base l).
Proof.
  revert base dt. induction l as [|t l IH]; intros base dt; cbn [insert_timeout deadlines ainsert snd]; [done|].
  destruct (Z.ltb_spec dt (dticks t)).
  - rewrite (proj2 (Z.ltb_lt _ _)) by lia. cbn [deadlines to_id dticks].
    by replace (base + dt + (dticks t - dt)) with (base + dticks t) by lia.
  - rewrite (proj2 (Z.ltb_ge _ _)) by lia. cbn [deadlines]. rewrite IH. by replace (base + dticks t + (dt - dticks t)) with (base + dt) by lia.
Qed.

Lemma remove_deadlines base id l : deadlines base (remove_timeout id l) = aremove id (deadlines base l).
Proof.
  revert base. induction l as [|t l IH]; intros base; cbn [remove_timeout deadlines aremove fst]; [done|].
  destruct (to_id t =? id); [|cbn [deadlines]; by rewrite IH].
  destruct l as [|n l]; [done|]. cbn [deadlines to_id dticks]. by replace (base + (dticks n + dticks t)) with (base + dticks t + dticks n) by lia.
Qed.

Lemma sum_until_deadline base id l d : alookup id (deadlines base l) = Some d -> base + sum_until id l = d.
Proof.
  revert base. induction l as [|t l IH]; intros base; cbn [deadlines alookup sum_until fst snd]; [done|].
  destruct (to_id t =? id); [intros [= <-]; lia|]. intros E%IH. lia.
Qed.

Lemma linked_lookup base id l : existsb (fun t => to_id t =? id) l = match alookup id (deadlines base l) with Some _ => true | None => false end.
Proof. revert base. induction l as [|t l IH]; intros base; cbn; [done|]. destruct (to_id t =? id); [done|]. apply IH. Qed.

Lemma deadlines_bound base l : Forall (fun t => 0 <= dticks t) l -> Forall (fun p => base <= p.2) (deadlines base l).
Proof.
  intros Hl. revert base. induction Hl as [|t l Ht Hl IH]; intros base; constructor; [cbn; lia|].
  eapply Forall_impl; [|apply IH]. cbn. lia.
Qed.

Lemma deadlines_sorted base l : Forall (fun t => 0 <= dticks t) l -> StronglySorted due_later (deadlines base l).
Proof.
  intros Hl. revert base. induction Hl as [|t l Ht Hl IH]; intros base; constructor; [apply IH|].
  eapply Forall_impl; [|by apply deadlines_bound]. done.
Qed.

Lemma insert_wf id dt l : 0 <= dt -> Forall (fun t => 0 <= dticks t) l -> Forall (fun t => 0 <= dticks t) (insert_timeout id dt l).
Proof.
  intros Hd Hl. revert dt Hd. induction Hl as [|t l Ht Hl IH]; intros dt Hd; cbn [insert_timeout]; [by repeat constructor|].
  destruct (Z.ltb_spec dt (dticks t)); repeat constructor; cbn; try done; [lia|]. apply IH. lia.
Qed.

Lemma remove_timeout_wf id l : Forall (fun t => 0 <= dticks t) l -> Forall (fun t => 0 <= dticks t) (remove_timeout id l).
Proof.
  induction 1 as [|t l Ht Hl IH]; cbn [remove_timeout]; [constructor|]. destruct (_ =? id); [|by constructor].
  destruct Hl; constructor; [cbn; lia|done].
Qed.

(** ** The queue operations *)

Lemma add_fields id t c : let c' := z_add_timeout id t c in
  curr_tick c' = curr_tick c /\ announce_remaining c' = announce_remaining c /\ fired c' = fired c /\ hw_elapsed c' = hw_elapsed c.
Proof. unfold z_add_timeout. repeat case_match; done. Qed.

Lemma add_list id t c : timeout_list (z_add_timeout id t c) =
  if t =? K_TICKS_FOREVER then timeout_list c else insert_timeout id (timeout_ticks t c + elapsed c) (timeout_list c).
Proof. unfold z_add_timeout. repeat case_match; done. Qed.

Lemma add_queue id t c : t <> K_TICKS_FOREVER ->
  queue (z_add_timeout id t c) = ainsert id (now c + timeout_ticks t c) (queue c).
Proof.
  intros Ht. unfold queue. destruct (add_fields id t c) as (-> & _). rewrite add_list, (proj2 (Z.eqb_neq _ _) Ht), insert_deadlines.
  unfold now. by replace (curr_tick c + (timeout_ticks t c + elapsed c)) with (curr_tick c + elapsed c + timeout_ticks t c) by lia.
Qed.

Lemma timeout_ticks_pos t c : 1 <= timeout_ticks t c.
Proof. unfold timeout_ticks. lia. Qed.

Lemma add_timeout_wf id t c : wf c -> 0 <= elapsed c -> wf (z_add_timeout id t c).
Proof.
  intros Hw He. unfold wf. rewrite add_list. destruct (_ =? _); [done|]. apply insert_wf; [|done].
  pose proof (timeout_ticks_pos t c). lia.
Qed.

(** C24. The queue of tick differences is a queue of deadlines in the order of
    time, first come first served among equal ones. Adding a timeout inserts
    the deadline [now + ticks] (at least one tick, one more than asked for a
    relative time, the given time for an absolute one) and moves no other
    deadline; aborting removes exactly the one deadline and reports whether
    there was one; the remaining time is the deadline minus now. Only
    [z_timeout_expires] is off: it reports the deadline too early by the
    ticks elapsed since the last announcement. *)
Theorem timeout_queue_refines c id : wf c -> 0 <= hw_elapsed c ->
  StronglySorted due_later (queue c) /\
  (forall t, t <> K_TICKS_FOREVER ->
     wf (z_add_timeout id t c) /\ now (z_add_timeout id t c) = now c /\
     queue (z_add_timeout id t c) = ainsert id (now c + timeout_ticks t c) (queue c) /\
     (0 <= t -> timeout_ticks t c = t + 1) /\
     (forall d, t = Z_TICK_ABS d -> now c < d -> 0 < d -> now c + timeout_ticks t c = d)) /\
  (let '(r, c') := z_abort_timeout id c in
     wf c' /\ now c' = now c /\ queue c' = aremove id (queue c) /\ (r = 0 <-> alookup id (queue c) <> None)) /\
  match alookup id (queue c) with
  | Some d => z_timeout_remaining id c = d - now c /\ z_timeout_expires id c = d - elapsed c
  | None => z_timeout_remaining id c = 0
  end.
Proof.
  intros Hw He. assert (Hel : 0 <= elapsed c) by (unfold elapsed, sys_clock_elapsed; by destruct (_ =? 0)). split_and!.
  - by apply deadlines_sorted.
  - intros t Ht. split_and!; [by apply add_timeout_wf| |by apply add_queue| |].
    + unfold now, elapsed, sys_clock_elapsed. by destruct (add_fields id t c) as (-> & -> & _ & ->).
    + intros Hp. unfold timeout_ticks, Z_TICK_ABS, K_TICKS_FOREVER. rewrite (proj2 (Z.leb_gt _ _)) by lia. lia.
    + intros d -> Hd Hd0. unfold timeout_ticks, Z_TICK_ABS, K_TICKS_FOREVER. rewrite (proj2 (Z.leb_le _ _)) by lia. unfold now in *. lia.
  - unfold z_abort_timeout, is_linked. rewrite (linked_lookup (curr_tick c)). fold (queue c).
    destruct (alookup id (queue c)) as [d|] eqn:Ed.
    + split_and!; [by apply remove_timeout_wf|done|apply remove_deadlines|done].
    + split_and!; [done|done| |done]. clear -Ed. induction (queue c) as [|p q IH]; [done|].
      cbn in *. destruct (p.1 =? id); [done|]. by rewrite <- IH.
  - unfold z_timeout_remaining, z_timeout_expires, timeout_rem, is_linked. rewrite (linked_lookup (curr_tick c)). fold (queue c).
    destruct (alookup id (queue c)) as [d|] eqn:Ed; [|done]. apply sum_until_deadline in Ed. cbn [negb]. unfold now. lia.
Qed.

Definition demo_clock : clock := mk_clock 1000 [mk_timeout 7 5; mk_timeout 8 0; mk_timeout 9 20] 0 3 0 [] [].

Lemma timeout_queue_refines_witness : queue (z_add_timeout 4 10 demo_clock) = [(7, 1005); (8, 1005); (4, 1014); (9, 1025)].
Proof.
  destruct (timeout_queue_refines demo_clock 4) as (_ & H & _); [repeat (apply Forall_cons; [cbn; lia|]); apply Forall_nil|done|].
  by destruct (H 10) as (_ & _ & -> & _).
Defined.

(** ** The announcement on deadlines *)

Section periods.
(** A timeout's callback adds it again after so many ticks, or not at all. *)
Context (period : Z -> option Z).
Context (Hperiod : forall i p, period i = Some p -> 0 < p).

(** The queue after the first deadline has fired. *)
Definition afire (p : Z * Z) (q : list (Z * Z)) : list (Z * Z) :=
  match period p.1 with Some n => ainsert p.1 (p.2 + n) q | None => q end.

(** Deadlines up to [target] fire in order. *)
Fixpoint arun (fuel : nat) (target : Z) (q : list (Z * Z)) : list (Z * Z) * list (Z * Z) :=
  match q with
  | [] => ([], [])
  | p :: q' =>
      if p.2 <=? target then
        match fuel with
        | O => (q, [])
        | S fuel =>
            let r := arun fuel target (afire p q') in (r.1, p :: r.2)
        end
      else (q, [])
  end.

(** Every callback takes one from this. *)
Definition work (target : Z) (q : list (Z * Z)) : nat :=
  sum_list_with (fun p => Z.to_nat (target - p.2 + 1)) q.

Lemma work_insert target id d q : work target (ainsert id d q) = (Z.to_nat (target - d + 1) + work target q)%nat.
Proof.
  unfold work. induction q as [|p q IH]; cbn [ainsert sum_list_with snd]; [done|]. destruct (d <? p.2); cbn [sum_list_with snd]; [done|]. rewrite IH. lia.
Qed.

Lemma work_step target p q : p.2 <= target ->
  (work target (afire p q) < work target (p :: q))%nat.
Proof.
  intros Hp. assert (E : work target (p :: q) = (Z.to_nat (target - p.2 + 1) + work target q)%nat) by done. rewrite E.
  unfold afire. destruct (period p.1) as [n|] eqn:En; [|lia]. specialize (Hperiod _ _ En). rewrite work_insert. lia.
Qed.

Lemma ainsert_Forall (P : Z * Z -> Prop) id d q : P (id, d) -> Forall P q -> Forall P (ainsert id d q).
Proof. intros HP. induction 1 as [|p q Hp Hq IH]; cbn [ainsert]; [by repeat constructor|]. destruct (d <? p.2); by repeat constructor. Qed.

Lemma ainsert_sorted id d q : StronglySorted due_later q -> StronglySorted due_later (ainsert id d q).
Proof.
  induction 1 as [|p q Hq IH Hp]; cbn [ainsert]; [by repeat constructor|]. destruct (Z.ltb_spec d p.2) as [Hd|Hd].
  - repeat constructor; [done|done|unfold due_later; cbn; lia|]. eapply Forall_impl; [|exact Hp]. unfold due_later. cbn. lia.
  - constructor; [apply IH|]. by apply ainsert_Forall.
Qed.

Lemma alookup_insert i id d q : alookup id q = None ->
  alookup i (ainsert id d q) = if i =? id then Some d else alookup i q.
Proof.
  induction q as [|p q IH]; cbn [ainsert alookup fst snd]; [intros _; by rewrite (Z.eqb_sym id i)|].
  destruct (Z.eqb_spec p.1 id) as [|Hne]; [done|]. intros Hn. destruct (d <? p.2); cbn [alookup fst snd].
  - rewrite (Z.eqb_sym id i). done.
  - rewrite (IH Hn). destruct (Z.eqb_spec p.1 i) as [<-|]; [|done]. by rewrite (proj2 (Z.eqb_neq p.1 id) Hne).
Qed.

Lemma ainsert_ids id d q : ainsert id d q ≡ₚ (id, d) :: q.
Proof. induction q as [|p q IH]; cbn [ainsert]; [done|]. destruct (d <? p.2); [done|]. rewrite IH. by apply Permutation_swap. Qed.

Lemma alookup_None i q : i ∉ q.*1 -> alookup i q = None.
Proof.
  induction q as [|p q IH]; cbn; [done|]. intros Hn. apply not_elem_of_cons in Hn as [Hp Hq].
  rewrite (proj2 (Z.eqb_neq p.1 i)) by done. by apply IH.
Qed.

Lemma alookup_elem i d q : alookup i q = Some d -> (i, d) ∈ q.
Proof.
  induction q as [|[j e] q IH]; cbn; [done|]. destruct (Z.eqb_spec j i) as [->|]; [intros [= <-]; left|]. intros E. right. by apply IH.
Qed.

(** When a timeout with deadline [d] fires up to [target]. *)
Definition firings (i d target : Z) : list Z :=
  match period i with
  | None => if d <=? target then [d] else []
  | Some p => (fun k => d + Z.of_nat k * p) <$> seq 0 (Z.to_nat ((target - d) / p + 1))
  end.

Lemma firings_later i d target : target < d -> firings i d target = [].
Proof.
  intros Hd. unfold firings. destruct (period i) as [p|] eqn:Ep; [|by rewrite (proj2 (Z.leb_gt _ _))].
  specialize (Hperiod _ _ Ep). assert ((target - d) / p < 0) by (apply Z.div_lt_upper_bound; lia).
  by replace (Z.to_nat ((target - d) / p + 1)) with 0%nat by lia.
Qed.

Lemma firings_first i d target : d <= target ->
  firings i d target = d :: match period i with Some p => firings i (d + p) target | None => [] end.
Proof.
  intros Hd. unfold firings. destruct (period i) as [p|] eqn:Ep; [|by rewrite (proj2 (Z.leb_le _ _))].
  specialize (Hperiod _ _ Ep). replace (target - d) with (target - (d + p) + 1 * p) by lia. rewrite Z.div_add by lia.
  assert (Hq : -1 <= (target - (d + p)) / p) by (apply Z.div_le_lower_bound; lia).
  replace (Z.to_nat ((target - (d + p)) / p + 1 + 1)) with (S (Z.to_nat ((target - (d + p)) / p + 1))) by lia.
  cbn [seq fmap list_fmap]. rewrite Z.mul_0_l, Z.add_0_r. f_equal. rewrite <- fmap_S_seq, <- list_fmap_compose.
  apply list_fmap_ext. intros k ? _. cbn. lia.
Qed.

Definition times (i : Z) (log : list (Z * Z)) : list Z := snd <$> filter (fun p => p.1 = i) log.

Definition due (i target : Z) (q : list (Z * Z)) : list Z :=
  match alookup i q with Some d => firings i d target | None => [] end.

Lemma none_due i target q : Forall (fun p => target < p.2) q -> due i target q = [].
Proof.
  intros Hq. unfold due. destruct (alookup i q) as [d|] eqn:E; [|done]. apply firings_later.
  apply alookup_elem, list_elem_of_In in E. by apply (proj1 (Forall_forall _ _) Hq) in E.
Qed.

Lemma afire_ids p q : NoDup (p :: q).*1 -> NoDup (afire p q).*1.
Proof.
  intros Hd. unfold afire. destruct (period p.1); [|rewrite fmap_cons in Hd; by apply NoDup_cons_1_2 in Hd].
  by rewrite (fmap_Permutation fst _ _ (ainsert_ids _ _ _)).
Qed.

Lemma afire_Forall (P : Z -> Prop) p q : (forall n, 0 < n -> P p.2 -> P (p.2 + n)) ->
  Forall (fun r => P r.2) (p :: q) -> Forall (fun r => P r.2) (afire p q).
Proof.
  intros HP Hq. apply Forall_cons_1 in Hq as [Hp Hq]. unfold afire. destruct (period p.1) as [n|] eqn:En; [|done].
  apply ainsert_Forall; [|done]. cbn. eauto.
Qed.

Lemma afire_due i target p q : NoDup (p :: q).*1 -> p.2 <= target ->
  due i target (p :: q) = if p.1 =? i then p.2 :: due i target (afire p q) else due i target (afire p q).
Proof.
  intros Hd Hp. rewrite fmap_cons in Hd. apply NoDup_cons_1_1, alookup_None in Hd as Hn. unfold due, afire. cbn [alookup].
  destruct (Z.eqb_spec p.1 i) as [<-|Hi].
  - rewrite firings_first by done. f_equal. destruct (period p.1) as [n|]; [|by rewrite Hn].
    by rewrite alookup_insert, Z.eqb_refl by done.
  - destruct (period p.1) as [n|]; [|done]. rewrite alookup_insert by done. by rewrite (proj2 (Z.eqb_neq i p.1)) by done.
Qed.

(** Every timeout fires exactly when it is due, in order, and what is left is
    due later. *)
Record fires (target : Z) (q : list (Z * Z)) (r : list (Z * Z) * list (Z * Z)) : Prop := {
  fi_left : Forall (fun p => target < p.2) r.1;
  fi_ids : NoDup r.1.*1;
  fi_times : forall i, times i r.2 = due i target q;
  fi_sorted : StronglySorted due_later r.2;
  fi_upto : Forall (fun p => p.2 <= target) r.2;
  fi_from : forall b, Forall (fun p => b <= p.2) q -> Forall (fun p => b <= p.2) r.2 }.

Lemma fires_none target q : Forall (fun p => target < p.2) q -> NoDup q.*1 -> fires target q (q, []).
Proof. intros Hq Hd. split; cbn; [done|done|intros i; by rewrite none_due|constructor|constructor|constructor]. Qed.

Lemma fires_step target p q r : StronglySorted due_later (p :: q) -> NoDup (p :: q).*1 -> p.2 <= target ->
  fires target (afire p q) r -> fires target (p :: q) (r.1, p :: r.2).
Proof.
  intros Hs Hd Hp [H1 H0 H2 H3 H4 H5]. apply StronglySorted_inv in Hs as [_ Hh].
  assert (Hge : Forall (fun r => p.2 <= r.2) (p :: q)) by by constructor.
  split; cbn [fst snd]; [done|done| | |by constructor|].
  - intros i. rewrite afire_due by done. unfold times. destruct (Z.eqb_spec p.1 i) as [E|E].
    + rewrite filter_cons_True by done. cbn. f_equal. apply H2.
    + rewrite filter_cons_False by done. apply H2.
  - constructor; [done|]. eapply Forall_impl; [|apply (H5 p.2)]; [done|]. apply (afire_Forall (fun d => p.2 <= d)); [lia|done].
  - intros b Hb. constructor; [by apply Forall_cons_1 in Hb as [? _]|]. apply H5. apply (afire_Forall (fun d => b <= d)); [lia|done].
Qed.

Lemma arun_fires fuel target q : StronglySorted due_later q -> NoDup q.*1 -> (work target q <= fuel)%nat ->
  fires target q (arun fuel target q).
Proof.
  revert q. induction fuel as [|fuel IH]; intros [|p q] Hs Hd Hf; cbn [arun]; try (by apply fires_none).
  all: destruct (Z.leb_spec p.2 target) as [Hp|Hp]; [|apply fires_none; [|done]; apply StronglySorted_inv in Hs as [Hs Hh];
    constructor; [done|]; eapply Forall_impl; [|exact Hh]; unfold due_later; cbn; lia].
  - exfalso. unfold work in Hf. cbn in Hf. lia.
  - apply fires_step; [done|done|done|]. apply IH.
    + unfold afire. apply StronglySorted_inv in Hs as [Hs Hh]. destruct (period p.1); [by apply ainsert_sorted|done].
    + by apply afire_ids.
    + pose proof (work_step target p q Hp). lia.
Qed.

(** ** The announcement *)

Context {X : Type} `{HasClock X} (fn : Z -> M X unit) (P : X -> Prop).

(** A callback that does nothing to the clock but to add its timeout again. *)
Definition re_adds : Prop := forall i x, P x -> wf (clk x) -> 0 <= elapsed (clk x) ->
  exists x', fn i x = (Done tt, x') /\ P x' /\ wf (clk x') /\
    curr_tick (clk x') = curr_tick (clk x) /\ announce_remaining (clk x') = announce_remaining (clk x) /\
    fired (clk x') = fired (clk x) /\ hw_elapsed (clk x') = hw_elapsed (clk x) /\
    queue (clk x') = match period i with Some n => ainsert i (now (clk x) + n) (queue (clk x)) | None => queue (clk x) end.
Context (Hfn : re_adds) (HP : forall c x, P x -> P (set_clk c x)).

Lemma take_first_run t l c : timeout_list c = t :: l -> wf c ->
  let c' := take_first t c in
  curr_tick c' = curr_tick c + dticks t /\ announce_remaining c' = announce_remaining c - dticks t /\
  queue c = (to_id t, curr_tick c') :: queue c' /\ fired c' = fired c ++ [(to_id t, curr_tick c')] /\
  hw_elapsed c' = hw_elapsed c /\ wf c'.
Proof.
  intros El Hw c'. unfold wf in Hw. rewrite El in Hw. apply Forall_cons_1 in Hw as [Ht Hl].
  assert (Ec : timeout_list c' = l).
  { unfold c', take_first. cbn. rewrite Z.eqb_refl, El. cbn. destruct l as [|n l]; [done|]. rewrite Z.add_0_r. by destruct n. }
  unfold queue, wf. rewrite Ec, El. done.
Qed.

Lemma loop_fires fuel target x : P x -> wf (clk x) -> hw_elapsed (clk x) = 0 -> 0 <= announce_remaining (clk x) ->
  target = curr_tick (clk x) + announce_remaining (clk x) -> (work target (queue (clk x)) <= fuel)%nat ->
  exists x', announce_loop fn fuel x = (Done tt, x') /\ P x' /\ wf (clk x') /\ hw_elapsed (clk x') = 0 /\
    0 <= announce_remaining (clk x') /\ target = curr_tick (clk x') + announce_remaining (clk x') /\
    queue (clk x') = (arun fuel target (queue (clk x))).1 /\
    fired (clk x') = fired (clk x) ++ (arun fuel target (queue (clk x))).2.
Proof.
  revert x. induction fuel as [|fuel IH]; intros x HPx Hw He Hr Ht Hf; cbn [announce_loop];
    (destruct (timeout_list (clk x)) as [|t l] eqn:El;
      [exists x; rewrite bind_gets; rewrite El; unfold queue; rewrite El; cbn; by rewrite app_nil_r|]);
    destruct (take_first_run t l _ El Hw) as (Tc & Ta & Tq & Tf & Te & Tw);
    destruct (Z.leb_spec (dticks t) (announce_remaining (clk x))) as [Hd|Hd].
  2,4: exists x; rewrite bind_gets, El, (proj2 (Z.leb_gt _ _)) by lia; rewrite Tq; cbn [arun snd];
    rewrite (proj2 (Z.leb_gt _ _)) by lia; cbn [fst snd]; by rewrite app_nil_r.
  - exfalso. rewrite Tq in Hf. unfold work in Hf. cbn in Hf. lia.
  - rewrite bind_gets, El, (proj2 (Z.leb_le _ _)) by lia. unfold on_clock. rewrite bind_modify.
    set (c1 := take_first t (clk x)) in *. set (x1 := set_clk c1 x).
    assert (Ex1 : clk x1 = c1) by apply clk_set.
    destruct (Hfn (to_id t) x1) as (x2 & Ef & HP2 & Hw2 & Hc2 & Ha2 & Hf2 & He2 & Hq2); [by apply HP|by rewrite Ex1| |].
    { rewrite Ex1. unfold elapsed, sys_clock_elapsed. rewrite Te, He. by destruct (_ =? 0). }
    rewrite (bind_done _ _ _ _ _ Ef). rewrite Ex1 in *.
    assert (Hq : queue (clk x2) = afire (to_id t, curr_tick c1) (queue c1)).
    { rewrite Hq2. unfold afire, now, elapsed, sys_clock_elapsed. cbn [fst snd]. rewrite Te, He.
      destruct (_ =? 0); by rewrite Z.add_0_r. }
    rewrite Tq in Hf. pose proof (work_step target (to_id t, curr_tick c1) (queue c1) ltac:(cbn; lia)) as Hstep.
    rewrite <- Hq in Hstep.
    destruct (IH x2) as (x' & E & HP' & Hw' & He' & Hr' & Ht' & Hq' & Hf'); [done|done|congruence|lia|lia|lia|].
    exists x'. rewrite Tq. cbn [arun snd]. rewrite (proj2 (Z.leb_le _ _)) by lia.
    rewrite <- Hq. cbn [fst snd].
    split_and!; try done. rewrite Hf', Hf2, Tf. by rewrite <- app_assoc.
Qed.

Lemma advance_run c : wf c -> Forall (fun p => curr_tick c + announce_remaining c < p.2) (queue c) ->
  let c' := advance c in
  wf c' /\ queue c' = queue c /\ curr_tick c' = curr_tick c + announce_remaining c /\ announce_remaining c' = 0 /\
  fired c' = fired c /\ hw_elapsed c' = hw_elapsed c.
Proof.
  unfold wf, queue, advance. destruct (timeout_list c) as [|t l] eqn:El; intros Hw Hq; cbn.
  - by rewrite El.
  - apply Forall_cons_1 in Hw as [Ht Hl]. apply Forall_cons_1 in Hq as [Hq _]. cbn in Hq. split_and!; try done.
    + constructor; [cbn; lia|done].
    + by replace (curr_tick c + announce_remaining c + (dticks t - announce_remaining c)) with (curr_tick c + dticks t) by lia.
Qed.

Lemma announce_run fuel ticks x : P x -> wf (clk x) -> hw_elapsed (clk x) = 0 -> 0 <= ticks -> NoDup (queue (clk x)).*1 ->
  let target := curr_tick (clk x) + ticks in
  (work target (queue (clk x)) <= fuel)%nat ->
  exists x' log, sys_clock_announce fn fuel ticks x = (Done tt, x') /\ P x' /\ wf (clk x') /\ hw_elapsed (clk x') = 0 /\
    curr_tick (clk x') = target /\ announce_remaining (clk x') = 0 /\
    fired (clk x') = fired (clk x) ++ log /\ fires target (queue (clk x)) (queue (clk x'), log).
Proof.
  intros HPx Hw He Ht Hd target Hf. unfold sys_clock_announce, on_clock. rewrite bind_modify.
  set (x1 := set_clk _ x). assert (E1 : clk x1 = set_announce_remaining ticks (clk x)) by apply clk_set.
  assert (Eq : queue (clk x1) = queue (clk x)) by by rewrite E1.
  destruct (loop_fires fuel target x1) as (x2 & E & HP2 & Hw2 & He2 & Hr2 & Ht2 & Hq2 & Hf2);
    [by apply HP|by rewrite E1|by rewrite E1|by rewrite E1|by rewrite E1|by rewrite Eq|].
  rewrite (bind_done _ _ _ _ _ E), Eq in *.
  pose proof (arun_fires fuel target (queue (clk x)) (deadlines_sorted _ _ Hw) Hd Hf) as Hfi.
  destruct (advance_run (clk x2) Hw2) as (Aw & Aq & Ac & Aa & Af & Ae).
  { rewrite <- Ht2, Hq2. apply Hfi. }
  exists (set_clk (advance (clk x2)) x2), (arun fuel target (queue (clk x))).2. rewrite clk_set. split_and!.
  - done.
  - by apply HP.
  - done.
  - by rewrite Ae.
  - by rewrite Ac.
  - done.
  - rewrite Af, Hf2, E1. done.
  - rewrite Aq, Hq2. by destruct (arun _ _ _).
Qed.

(** What the driver's announcement of [ticks] does when every callback
    either leaves the clock alone or adds its own timeout again after a fixed
    time: it ends, the clock has moved by exactly [ticks], every timeout has
    been called back exactly at each of its deadlines up to then (once, or
    periodically without drift), in the order of time, and only later
    deadlines are left. The number of callbacks is at most [work]. *)
Theorem announce_fires fuel ticks x :
  P x -> wf (clk x) -> hw_elapsed (clk x) = 0 -> 0 <= ticks -> NoDup (queue (clk x)).*1 ->
  let target := curr_tick (clk x) + ticks in
  (work target (queue (clk x)) <= fuel)%nat ->
  exists x' log, sys_clock_announce fn fuel ticks x = (Done tt, x') /\
    curr_tick (clk x') = target /\ fired (clk x') = fired (clk x) ++ log /\
    (forall i, times i log = match alookup i (queue (clk x)) with Some d => firings i d target | None => [] end) /\
    StronglySorted due_later log /\ Forall (fun p => curr_tick (clk x) <= p.2 <= target) log /\
    Forall (fun p => target < p.2) (queue (clk x')).
Proof.
  intros HPx Hw He Ht Hd target Hf.
  destruct (announce_run fuel ticks x HPx Hw He Ht Hd Hf) as (x' & log & E & _ & _ & _ & Hc & _ & Hl & [F1 F2 F3 F4 F5 F6]).
  exists x', log. split_and!; try done. cbn in *.
  apply Forall_and; [|done]. apply F6. by apply deadlines_bound.
Qed.
End periods.

#[export] Instance clock_clock : HasClock clock.
Proof. refine {| clk := fun c => c; set_clk := fun c _ => c |}; done. Defined.

(** Timeout 7 comes back every 4 ticks. *)
Definition demo_period (i : Z) : option Z := if i =? 7 then Some 4 else None.
Definition demo_fn (i : Z) : M clock unit :=
  if i =? 7 then modify (z_add_timeout 7 3) else mret tt.

Lemma demo_fn_re_adds : re_adds demo_period demo_fn (fun _ => True).
Proof.
  intros i c _ Hw He. unfold demo_fn, demo_period. destruct (Z.eqb_spec i 7) as [->|].
  - exists (z_add_timeout 7 3 c). split; [done|]. cbn [clk clock_clock] in *. destruct (add_fields 7 3 c) as (-> & -> & -> & ->).
    split_and!; try done; [by apply add_timeout_wf|]. by rewrite add_queue.
  - by exists c.
Qed.

Lemma announce_fires_witness : exists c' log,
  sys_clock_announce demo_fn 40 10 (mk_clock 1000 [mk_timeout 7 1; mk_timeout 8 5; mk_timeout 9 20] 0 0 0 [] []) = (Done tt, c') /\
  curr_tick c' = 1010 /\ fired c' = log /\ times 7 log = [1001; 1005; 1009] /\ times 8 log = [1006] /\ times 9 log = [].
Proof.
  destruct (announce_fires demo_period ltac:(intros i p; unfold demo_period; case_match; [intros [= <-]; lia|done]) demo_fn (fun _ => True)
    demo_fn_re_adds ltac:(done) 40 10 (mk_clock 1000 [mk_timeout 7 1; mk_timeout 8 5; mk_timeout 9 20] 0 0 0 [] []))
    as (c' & log & E & Hc & Hl & Ht & _).
  - done.
  - repeat (apply Forall_cons; [cbn; lia|]); apply Forall_nil.
  - done.
  - lia.
  - by apply (bool_decide_unpack _).
  - cbn. lia.
  - exists c', log. split_and!; try done; by rewrite Ht.
Defined.
