(* ===== verification/DList.v ===== *)
(** * Doubly linked lists (include/sys/dlist.h)

    The lists of the kernel with their pointers: a heap of nodes, each
    operation as the loads and stores it makes, and the theorem that a heap
    with any number of lists behaves as lists. The head of a list is a node
    too, whose two words are called head and tail. *)
From S2P Require Import Prelude.
From stdpp Require Import prelude list numbers gmap.
From Stdlib Require Import ZArith Lia.
Open Scope Z_scope.

(** ** The heap *)

Definition NULL : Z := 0.

(** The two words of every [struct _dnode], by its address. *)
Record heap := mk_heap { nexts : gmap Z Z; prevs : gmap Z Z }.

Definition load_next (a : Z) : M heap Z := fun h =>
  match nexts h !! a with Some x => (Done x, h) | None => (Stop NullDeref, h) end.
Definition load_prev (a : Z) : M heap Z := fun h =>
  match prevs h !! a with Some x => (Done x, h) | None => (Stop NullDeref, h) end.
Definition store_next (a x : Z) : M heap unit := fun h =>
  match nexts h !! a with
  | Some _ => (Done tt, mk_heap (<[a := x]> (nexts h)) (prevs h))
  | None => (Stop NullDeref, h)
  end.
Definition store_prev (a x : Z) : M heap unit := fun h =>
  match prevs h !! a with
  | Some _ => (Done tt, mk_heap (nexts h) (<[a := x]> (prevs h)))
  | None => (Stop NullDeref, h)
  end.

(** ** The operations *)

Definition sys_dlist_init (list : Z) : M heap unit :=
  store_next list list;;
  store_prev list list.

Definition sys_dnode_init (node : Z) : M heap unit :=
  store_next node NULL;;
  store_prev node NULL.

Definition sys_dnode_is_linked (node : Z) : M heap bool :=
  x ← load_next node;
  mret (negb (x =? NULL)).

Definition sys_dlist_is_head (list node : Z) : M heap bool :=
  x ← load_next list;
  mret (x =? node).

Definition sys_dlist_is_tail (list node : Z) : M heap bool :=
  x ← load_prev list;
  mret (x =? node).

Definition sys_dlist_is_empty (list : Z) : M heap bool :=
  x ← load_next list;
  mret (x =? list).

Definition sys_dlist_has_multiple_nodes (list : Z) : M heap bool :=
  x ← load_next list;
  y ← load_prev list;
  mret (negb (x =? y)).

Definition sys_dlist_peek_head (list : Z) : M heap Z :=
  e ← sys_dlist_is_empty list;
  if e : bool then mret NULL else load_next list.

Definition sys_dlist_peek_head_not_empty (list : Z) : M heap Z := load_next list.

Definition sys_dlist_peek_next_no_check (list node : Z) : M heap Z :=
  t ← load_prev list;
  if node =? t then mret NULL else load_next node.

Definition sys_dlist_peek_next (list node : Z) : M heap Z :=
  if negb (node =? NULL) then sys_dlist_peek_next_no_check list node else mret NULL.

Definition sys_dlist_peek_prev_no_check (list node : Z) : M heap Z :=
  t ← load_next list;
  if node =? t then mret NULL else load_prev node.

Definition sys_dlist_peek_prev (list node : Z) : M heap Z :=
  if negb (node =? NULL) then sys_dlist_peek_prev_no_check list node else mret NULL.

Definition sys_dlist_peek_tail (list : Z) : M heap Z :=
  e ← sys_dlist_is_empty list;
  if e : bool then mret NULL else load_prev list.

Definition sys_dlist_append (list node : Z) : M heap unit :=
  tail ← load_prev list;
  store_next node list;;
  store_prev node tail;;
  store_next tail node;;
  store_prev list node.

Definition sys_dlist_prepend (list node : Z) : M heap unit :=
  head ← load_next list;
  store_next node head;;
  store_prev node list;;
  store_prev head node;;
  store_next list node.

Definition sys_dlist_insert (successor node : Z) : M heap unit :=
  prev ← load_prev successor;
  store_prev node prev;;
  store_next node successor;;
  store_next prev node;;
  store_prev successor node.

(** The loop of [sys_dlist_insert_at]; [cond] with its data. *)
Fixpoint find_pos (fuel : nat) (list pos : Z) (cond : Z -> bool) : M heap Z :=
  match fuel with
  | O => stop_with OutOfFuel
  | S fuel =>
      if negb (pos =? NULL) && negb (cond pos) then
        pos ← sys_dlist_peek_next list pos;
        find_pos fuel list pos cond
      else mret pos
  end.

Definition sys_dlist_insert_at (fuel : nat) (list node : Z) (cond : Z -> bool) : M heap unit :=
  e ← sys_dlist_is_empty list;
  if e : bool then sys_dlist_append list node
  else
    pos ← sys_dlist_peek_head list;
    pos ← find_pos fuel list pos cond;
    if negb (pos =? NULL) then sys_dlist_insert pos node else sys_dlist_append list node.

Definition sys_dlist_remove (node : Z) : M heap unit :=
  prev ← load_prev node;
  next ← load_next node;
  store_next prev next;;
  store_prev next prev;;
  sys_dnode_init node.

Definition sys_dlist_get (list : Z) : M heap Z :=
  e ← sys_dlist_is_empty list;
  if e : bool then mret NULL
  else
    node ← load_next list;
    sys_dlist_remove node;;
    mret node.

(** ** Lists in the heap *)

(** Two neighbours point to each other. *)
Definition edge_ok (h : heap) (e : Z * Z) : Prop := nexts h !! e.1 = Some e.2 /\ prevs h !! e.2 = Some e.1.

(** The neighbours along [a], the nodes of [l], and [b]. *)
Definition edges (a : Z) (l : list Z) (b : Z) : list (Z * Z) := zip (a :: l) (l ++ [b]).
#[global] Arguments edges : simpl never.

Lemma edges_nil a b : edges a [] b = [(a, b)].
Proof. done. Qed.
Lemma edges_cons a x l b : edges a (x :: l) b = (a, x) :: edges x l b.
Proof. done. Qed.

Lemma edges_app a l x k b : edges a (l ++ x :: k) b = edges a l x ++ edges x k b.
Proof. revert a. induction l as [|y l IH]; intros a; [done|]. cbn [app]. by rewrite !edges_cons, IH. Qed.

Lemma edges_fst a l b : (edges a l b).*1 = a :: l.
Proof. revert a. induction l as [|y l IH]; intros a; [done|]. rewrite edges_cons. cbn. by rewrite IH. Qed.
Lemma edges_snd a l b : (edges a l b).*2 = l ++ [b].
Proof. revert a. induction l as [|y l IH]; intros a; [done|]. rewrite edges_cons. cbn. by rewrite IH. Qed.

Lemma last_shift (y a : Z) l : List.last (y :: l) a = List.last l y.
Proof. revert y a. induction l as [|z l IH]; intros y a; [done|]. change (List.last (z :: l) a = List.last (z :: l) y). by rewrite !IH. Qed.

(** Around a place in the middle. *)
Lemma edges_split a l k b : exists E1 E2,
  edges a (l ++ k) b = E1 ++ (List.last l a, List.hd b k) :: E2 /\
  (forall n, edges a (l ++ n :: k) b = E1 ++ (List.last l a, n) :: (n, List.hd b k) :: E2).
Proof.
  assert (Hl : exists E1, forall x, edges a l x = E1 ++ [(List.last l a, x)]).
  { revert a. induction l as [|y l IH]; intros a; [by exists []|]. destruct (IH y) as [E1 HE]. exists ((a, y) :: E1).
    intros x. by rewrite edges_cons, HE, last_shift. }
  assert (Hk : exists E2, forall n, edges n k b = (n, List.hd b k) :: E2).
  { destruct k as [|y k]; [by exists []|]. eexists. intros n. apply edges_cons. }
  destruct Hl as [E1 HE1], Hk as [E2 HE2]. exists E1, E2. split.
  - destruct k as [|y k]; [rewrite app_nil_r, HE1; specialize (HE2 a); rewrite edges_nil in HE2; by injection HE2 as <-|].
    rewrite edges_app, HE1, <- app_assoc. specialize (HE2 a). rewrite edges_cons in HE2. cbn. by injection HE2 as ->.
  - intros n. by rewrite edges_app, HE1, <- app_assoc, HE2.
Qed.

Definition link (h : heap) (p n s : Z) : heap :=
  mk_heap (<[p := n]> (<[n := s]> (nexts h))) (<[s := n]> (<[n := p]> (prevs h))).
Definition unlink (h : heap) (p n s : Z) : heap :=
  mk_heap (<[n := NULL]> (<[p := s]> (nexts h))) (<[n := NULL]> (<[s := p]> (prevs h))).

Lemma link_other h p n s e : edge_ok h e -> e.1 ∉ [p; n] -> e.2 ∉ [s; n] -> edge_ok (link h p n s) e.
Proof. rewrite !not_elem_of_cons. intros [H1 H2] (H3 & H4 & _) (H5 & H6 & _). unfold edge_ok, link. cbn. by simplify_map_eq. Qed.
Lemma unlink_other h p n s e : edge_ok h e -> e.1 ∉ [p; n] -> e.2 ∉ [s; n] -> edge_ok (unlink h p n s) e.
Proof. rewrite !not_elem_of_cons. intros [H1 H2] (H3 & H4 & _) (H5 & H6 & _). unfold edge_ok, unlink. cbn. by simplify_map_eq. Qed.

(** The edges before and after a place have other sources and targets. *)
Lemma others E1 E2 (p s : Z) : NoDup (E1 ++ (p, s) :: E2).*1 -> NoDup (E1 ++ (p, s) :: E2).*2 ->
  Forall (fun e => e.1 <> p /\ e.2 <> s) (E1 ++ E2).
Proof.
  rewrite !fmap_app, !fmap_cons, <- !Permutation_middle, !NoDup_cons, <- !fmap_app. cbn [fst snd]. intros [H1 _] [H2 _].
  apply Forall_forall. intros e He. split; intros <-; [apply H1|apply H2]; by apply list_elem_of_fmap_2.
Qed.

Lemma not_two (x a b : Z) : x <> a -> x <> b -> x ∉ [a; b].
Proof. intros H1 H2. rewrite !not_elem_of_cons. split_and!; try done. apply not_elem_of_nil. Qed.

Lemma relink h E1 p s E2 n :
  Forall (edge_ok h) (E1 ++ (p, s) :: E2) -> NoDup (E1 ++ (p, s) :: E2).*1 -> NoDup (E1 ++ (p, s) :: E2).*2 ->
  n ∉ (E1 ++ (p, s) :: E2).*1 -> n ∉ (E1 ++ (p, s) :: E2).*2 ->
  Forall (edge_ok (link h p n s)) (E1 ++ (p, n) :: (n, s) :: E2).
Proof.
  intros Hok H1 H2 Hn1 Hn2. pose proof (others _ _ _ _ H1 H2) as Ho.
  assert (Hp : p <> n) by (intros ->; apply Hn1; rewrite fmap_app, elem_of_app; right; left).
  assert (Hs : s <> n) by (intros ->; apply Hn2; rewrite fmap_app, elem_of_app; right; left).
  rewrite <- Permutation_middle in Hok. do 2 rewrite <- Permutation_middle. apply Forall_cons in Hok as [_ Hok].
  constructor; [|constructor]; [unfold edge_ok, link; cbn; by simplify_map_eq..|].
  apply Forall_forall. intros e He. rewrite Forall_forall in Hok, Ho. destruct (Ho e He). apply link_other; [by apply Hok|..].
  - assert (e.1 <> n); [|by apply not_two]. intros <-. apply Hn1. rewrite fmap_app, fmap_cons, <- Permutation_middle, <- fmap_app.
    apply elem_of_cons. right. by apply list_elem_of_fmap_2.
  - assert (e.2 <> n); [|by apply not_two]. intros <-. apply Hn2. rewrite fmap_app, fmap_cons, <- Permutation_middle, <- fmap_app.
    apply elem_of_cons. right. by apply list_elem_of_fmap_2.
Qed.

Lemma delink h E1 p s E2 n :
  let E := E1 ++ (p, n) :: (n, s) :: E2 in
  Forall (edge_ok h) E -> NoDup E.*1 -> NoDup E.*2 -> Forall (edge_ok (unlink h p n s)) (E1 ++ (p, s) :: E2).
Proof.
  intros E Hok H1 H2. subst E.
  assert (Hp : p <> n) by (rewrite fmap_app in H1; apply NoDup_app in H1 as (_ & _ & [H1 _]%NoDup_cons); intros ->; apply H1; left).
  assert (Hs : s <> n) by (rewrite fmap_app in H2; apply NoDup_app in H2 as (_ & _ & [H2 _]%NoDup_cons); intros ->; apply H2; left).
  pose proof (others _ _ _ _ H1 H2) as Ho1. change (?x :: ?y :: E2) with ([x] ++ y :: E2) in H1, H2. rewrite app_assoc in H1, H2.
  pose proof (others _ _ _ _ H1 H2) as Ho2. rewrite <- app_assoc in Ho2.
  do 2 rewrite <- Permutation_middle in Hok. rewrite <- Permutation_middle in Ho1. cbn [app] in Ho2. rewrite <- Permutation_middle in Ho2 |- *.
  apply Forall_cons in Hok as [_ Hok]. apply Forall_cons in Hok as [_ Hok]. apply Forall_cons in Ho1 as [_ Ho1]. apply Forall_cons in Ho2 as [_ Ho2].
  constructor; [unfold edge_ok, unlink; cbn; by simplify_map_eq|].
  apply Forall_forall. intros e He. rewrite Forall_forall in Hok, Ho1, Ho2. destruct (Ho1 e He), (Ho2 e He).
  apply unlink_other; [by apply Hok|by apply not_two..].
Qed.

(** ** Many lists *)

(** The lists by their heads, and the nodes in none of them. *)
Record lists := mk_lists { contents : gmap Z (list Z); unlinked : gset Z }.

Record represents (h : heap) (A : lists) : Prop := mk_represents {
  rep_null : nexts h !! NULL = None;
  rep_list a l : contents A !! a = Some l -> NoDup (a :: l) /\ Forall (edge_ok h) (edges a l a);
  rep_disjoint a b l k x : contents A !! a = Some l -> contents A !! b = Some k -> x ∈ a :: l -> x ∈ b :: k -> a = b;
  rep_unlinked n : n ∈ unlinked A -> nexts h !! n = Some NULL /\ prevs h !! n = Some NULL;
  rep_apart a l n : contents A !! a = Some l -> n ∈ a :: l -> n ∉ unlinked A }.

Lemma last_in (l : list Z) a : List.last l a ∈ a :: l.
Proof. revert a. induction l as [|y l IH]; intros a; [left|]. rewrite last_shift. right. apply IH. Qed.
Lemma hd_in (l : list Z) a : List.hd a l ∈ a :: l.
Proof. destruct l; [left|]. right. left. Qed.

Lemma edges_dup a l : NoDup (a :: l) -> NoDup (edges a l a).*1 /\ NoDup (edges a l a).*2.
Proof. rewrite edges_fst, edges_snd. intros H. split; [done|]. by rewrite <- Permutation_cons_append. Qed.

Lemma not_in_edges n a l : n ∉ a :: l -> (n ∉ (edges a l a).*1) /\ (n ∉ (edges a l a).*2).
Proof. rewrite edges_fst, edges_snd. intros H. split; [done|]. by rewrite <- Permutation_cons_append. Qed.

Lemma edge_fst_in a l e : e ∈ edges a l a -> e.1 ∈ a :: l.
Proof. intros H. rewrite <- (edges_fst a l a). by apply list_elem_of_fmap_2. Qed.
Lemma edge_snd_in a l e : e ∈ edges a l a -> e.2 ∈ a :: l.
Proof. intros H. rewrite Permutation_cons_append, <- (edges_snd a l a). by apply list_elem_of_fmap_2. Qed.

Section update.
Context (h : heap) (A : lists) (HR : represents h A).

(** Another list does not contain what is changed in the list of [a]. *)
Lemma other_list a l b k x : contents A !! a = Some l -> contents A !! b = Some k -> a <> b -> x ∈ a :: l -> x ∉ b :: k.
Proof. intros Ha Hb Hne Hx Hx'. apply Hne. by eapply rep_disjoint. Qed.

Lemma rep_link a l k n : contents A !! a = Some (l ++ k) -> n ∈ unlinked A ->
  represents (link h (List.last l a) n (List.hd a k)) (mk_lists (<[a := l ++ n :: k]> (contents A)) (unlinked A ∖ {[n]})).
Proof.
  intros Ha Hn. destruct (rep_list _ _ HR _ _ Ha) as [Hd Hok]. destruct (edges_dup _ _ Hd) as [D1 D2].
  destruct (rep_unlinked _ _ HR _ Hn) as [N1 N2].
  assert (Hfresh : forall b m, contents A !! b = Some m -> n ∉ b :: m) by (intros b m Hb Hin; by eapply rep_apart).
  assert (Hp : List.last l a ∈ a :: l ++ k).
  { pose proof (last_in l a) as H. apply elem_of_cons in H as [H|H]; [rewrite H; left|]. right. apply elem_of_app. by left. }
  assert (Hs : List.hd a k ∈ a :: l ++ k).
  { pose proof (hd_in k a) as H. apply elem_of_cons in H as [H|H]; [rewrite H; left|]. right. apply elem_of_app. by right. }
  destruct (not_in_edges _ _ _ (Hfresh _ _ Ha)) as [F1 F2]. split; cbn [contents unlinked].
  - cbn. rewrite !lookup_insert_ne; [apply HR|intros E; pose proof (rep_null _ _ HR); congruence|].
    intros E. destruct (rep_list _ _ HR _ _ Ha) as [_ Hx]. rewrite Forall_forall in Hx.
    rewrite <- (edges_fst a (l ++ k) a) in Hp. apply list_elem_of_fmap in Hp as (e & Ee & He). destruct (Hx e He) as [H1 _].
    rewrite <- Ee, E, (rep_null _ _ HR) in H1. done.
  - intros b m. destruct (decide (a = b)) as [<-|Hne].
    + rewrite lookup_insert_eq. intros [= <-]. destruct (edges_split a l k a) as (E1 & E2 & X1 & X2). split.
      * rewrite <- Permutation_middle. rewrite Permutation_swap. constructor; [by apply Hfresh|done].
      * rewrite X2. rewrite X1 in *. by apply relink.
    + rewrite lookup_insert_ne by done. intros Hb. destruct (rep_list _ _ HR _ _ Hb) as [Hd' Hok']. split; [done|].
      apply Forall_forall. intros e He. rewrite Forall_forall in Hok'. apply link_other; [by apply Hok'|apply not_two..].
      * intros E. apply (other_list a _ b m (List.last l a) Ha Hb Hne Hp). rewrite <- E. by apply edge_fst_in.
      * intros E. apply (Hfresh b m Hb). rewrite <- E. by apply edge_fst_in.
      * intros E. apply (other_list a _ b m (List.hd a k) Ha Hb Hne Hs). rewrite <- E. by apply edge_snd_in.
      * intros E. apply (Hfresh b m Hb). rewrite <- E. by apply edge_snd_in.
  - intros b c m m' x. rewrite !lookup_insert_Some. intros [[<- <-]|[Hb1 Hb2]] [[<- <-]|[Hc1 Hc2]] Hx Hx'; try done.
    + rewrite <- Permutation_middle, Permutation_swap in Hx. apply elem_of_cons in Hx as [->|Hx]; [by destruct (Hfresh c m')|by eapply rep_disjoint].
    + rewrite <- Permutation_middle, Permutation_swap in Hx'. apply elem_of_cons in Hx' as [->|Hx']; [by destruct (Hfresh b m)|by eapply rep_disjoint].
    + by eapply rep_disjoint.
  - intros x [Hx Hxn]%elem_of_difference. rewrite not_elem_of_singleton in Hxn. destruct (rep_unlinked _ _ HR x Hx) as [X1 X2].
    cbn. rewrite !lookup_insert_ne; try done; intros E; eapply (rep_apart _ _ HR a); try exact Ha; try exact Hx; by rewrite <- E.
  - intros b m x. rewrite lookup_insert_Some. intros [[<- <-]|[Hb1 Hb2]] Hx Hx'; apply elem_of_difference in Hx' as [Hu Hxn]; rewrite not_elem_of_singleton in Hxn.
    + rewrite <- Permutation_middle, Permutation_swap in Hx. apply elem_of_cons in Hx as [->|Hx]; [done|]. by eapply (rep_apart _ _ HR a).
    + by eapply (rep_apart _ _ HR b).
Qed.

Lemma rep_unlink a l n k : contents A !! a = Some (l ++ n :: k) ->
  represents (unlink h (List.last l a) n (List.hd a k)) (mk_lists (<[a := l ++ k]> (contents A)) ({[n]} ∪ unlinked A)).
Proof.
  intros Ha. destruct (rep_list _ _ HR _ _ Ha) as [Hd Hok]. destruct (edges_dup _ _ Hd) as [D1 D2].
  assert (Hn : n ∈ a :: l ++ n :: k) by (right; apply elem_of_app; right; left).
  assert (Hp : List.last l a ∈ a :: l ++ n :: k).
  { pose proof (last_in l a) as H. apply elem_of_cons in H as [H|H]; [rewrite H; left|]. right. apply elem_of_app. by left. }
  assert (Hs : List.hd a k ∈ a :: l ++ n :: k).
  { pose proof (hd_in k a) as H. apply elem_of_cons in H as [H|H]; [rewrite H; left|]. right. apply elem_of_app. right. by right. }
  assert (Hsub : forall x, x ∈ a :: l ++ k -> x ∈ a :: l ++ n :: k /\ x <> n).
  { intros x Hx. rewrite <- Permutation_middle, Permutation_swap in Hd |- *. apply NoDup_cons in Hd as [Hd _]. split; [by right|]. by intros ->. }
  assert (Hsrc : forall x, x ∈ a :: l ++ n :: k -> is_Some (nexts h !! x)).
  { intros x Hx. rewrite <- (edges_fst a (l ++ n :: k) a) in Hx. apply list_elem_of_fmap in Hx as (e & -> & He).
    rewrite Forall_forall in Hok. destruct (Hok e He) as [H1 _]. by eexists. }
  assert (Hnull : forall x, x ∈ a :: l ++ n :: k -> x <> NULL).
  { intros x Hx ->. destruct (Hsrc _ Hx) as [y Hy]. by rewrite (rep_null _ _ HR) in Hy. }
  split; cbn [contents unlinked].
  - cbn. rewrite !lookup_insert_ne; [apply HR|by apply Hnull..].
  - intros b m. destruct (decide (a = b)) as [<-|Hne].
    + rewrite lookup_insert_eq. intros [= <-]. destruct (edges_split a l k a) as (E1 & E2 & X1 & X2). split.
      * rewrite <- Permutation_middle, Permutation_swap in Hd. by apply NoDup_cons in Hd as [_ Hd].
      * rewrite X1. rewrite X2 in *. by apply delink.
    + rewrite lookup_insert_ne by done. intros Hb. destruct (rep_list _ _ HR _ _ Hb) as [Hd' Hok']. split; [done|].
      apply Forall_forall. intros e He. rewrite Forall_forall in Hok'.
      assert (Hx : forall x, x ∈ a :: l ++ n :: k -> e.1 <> x /\ e.2 <> x).
      { intros x Hx. split; intros <-; apply (other_list a _ b m _ Ha Hb Hne Hx); [by apply edge_fst_in|by apply edge_snd_in]. }
      apply unlink_other; [by apply Hok'|apply not_two..]; by apply Hx.
  - intros b c m m' x. rewrite !lookup_insert_Some. intros [[<- <-]|[Hb1 Hb2]] [[<- <-]|[Hc1 Hc2]] Hx Hx'; try done;
      try (apply Hsub in Hx as [Hx _]); try (apply Hsub in Hx' as [Hx' _]); by eapply rep_disjoint.
  - intros x Hx. destruct (decide (x = n)) as [->|Hxn]; [cbn; by rewrite !lookup_insert_eq|].
    assert (Hu : x ∈ unlinked A) by (apply elem_of_union in Hx as [Hx|Hx]; [by apply elem_of_singleton in Hx|done]). destruct (rep_unlinked _ _ HR x Hu) as [X1 X2].
    cbn. rewrite !lookup_insert_ne; try done; intros E; eapply (rep_apart _ _ HR a); try exact Ha; try exact Hu; by rewrite <- E.
  - intros b m x. rewrite lookup_insert_Some, elem_of_union, elem_of_singleton. intros [[<- <-]|[Hb1 Hb2]] Hx [->|Hu].
    + by destruct (Hsub n Hx).
    + apply Hsub in Hx as [Hx _]. by eapply (rep_apart _ _ HR a).
    + by apply (other_list a _ b m n Ha Hb2 Hb1 Hn).
    + by eapply (rep_apart _ _ HR b).
Qed.

(** *** What is read *)

Lemma read_head a l : contents A !! a = Some l -> nexts h !! a = Some (List.hd a l) /\ prevs h !! a = Some (List.last l a).
Proof.
  intros Ha. destruct (rep_list _ _ HR _ _ Ha) as [_ Hok]. split.
  - destruct (edges_split a [] l a) as (E1 & E2 & X & _). cbn [app List.last] in X. rewrite X, Forall_app, Forall_cons in Hok. apply Hok.
  - destruct (edges_split a l [] a) as (E1 & E2 & X & _). rewrite app_nil_r in X. cbn [List.hd] in X. rewrite X, Forall_app, Forall_cons in Hok. apply Hok.
Qed.

Lemma read_node a l x k : contents A !! a = Some (l ++ x :: k) ->
  nexts h !! x = Some (List.hd a k) /\ prevs h !! x = Some (List.last l a).
Proof.
  intros Ha. destruct (rep_list _ _ HR _ _ Ha) as [_ Hok]. destruct (edges_split a l k a) as (E1 & E2 & _ & X).
  rewrite X, Forall_app, !Forall_cons in Hok. destruct Hok as (_ & [_ H1] & [H2 _] & _). done.
Qed.

Lemma node_not_null a l x : contents A !! a = Some l -> x ∈ a :: l -> x <> NULL.
Proof.
  intros Ha Hx ->. destruct (rep_list _ _ HR _ _ Ha) as [_ Hok]. rewrite <- (edges_fst a l a) in Hx.
  apply list_elem_of_fmap in Hx as (e & E & He). rewrite Forall_forall in Hok. destruct (Hok e He) as [H1 _].
  by rewrite <- E, (rep_null _ _ HR) in H1.
Qed.

Lemma head_not_in a l : contents A !! a = Some l -> a ∉ l.
Proof. intros Ha. destruct (rep_list _ _ HR _ _ Ha) as [Hd _]. by apply NoDup_cons in Hd as [Hd _]. Qed.

End update.

(** ** Queries *)
Section queries.
Context (h : heap) (A : lists) (HR : represents h A).

Lemma load_next_run a x (h' : heap) : nexts h' !! a = Some x -> load_next a h' = (Done x, h').
Proof. unfold load_next. by intros ->. Qed.
Lemma load_prev_run a x (h' : heap) : prevs h' !! a = Some x -> load_prev a h' = (Done x, h').
Proof. unfold load_prev. by intros ->. Qed.

Lemma hd_self a l : contents A !! a = Some l -> (List.hd a l =? a) = bool_decide (l = []).
Proof.
  intros Ha. destruct l as [|x l]; cbn; [by rewrite Z.eqb_refl|]. apply Z.eqb_neq. intros ->.
  apply (head_not_in _ _ HR _ _ Ha). left.
Qed.

Lemma last_other (l : list Z) a b : l <> [] -> List.last l a = List.last l b.
Proof. destruct l; [done|]. by rewrite !last_shift. Qed.

Lemma is_empty_run a l : contents A !! a = Some l -> sys_dlist_is_empty a h = (Done (bool_decide (l = [])), h).
Proof.
  intros Ha. unfold sys_dlist_is_empty. rewrite (bind_done _ _ _ _ _ (load_next_run _ _ _ (proj1 (read_head _ _ HR _ _ Ha)))).
  by rewrite (hd_self _ _ Ha).
Qed.

Lemma peek_head_run a l : contents A !! a = Some l -> sys_dlist_peek_head a h = (Done (List.hd NULL l), h).
Proof.
  intros Ha. unfold sys_dlist_peek_head. rewrite (bind_done _ _ _ _ _ (is_empty_run _ _ Ha)).
  case_bool_decide as E; [by rewrite E|]. rewrite (load_next_run _ _ _ (proj1 (read_head _ _ HR _ _ Ha))). by destruct l.
Qed.

Lemma peek_tail_run a l : contents A !! a = Some l -> sys_dlist_peek_tail a h = (Done (List.last l NULL), h).
Proof.
  intros Ha. unfold sys_dlist_peek_tail. rewrite (bind_done _ _ _ _ _ (is_empty_run _ _ Ha)).
  case_bool_decide as E; [by rewrite E|]. rewrite (load_prev_run _ _ _ (proj2 (read_head _ _ HR _ _ Ha))). by rewrite (last_other l a NULL).
Qed.

Lemma has_multiple_run a l : contents A !! a = Some l ->
  sys_dlist_has_multiple_nodes a h = (Done (1 <? length l)%nat, h).
Proof.
  intros Ha. unfold sys_dlist_has_multiple_nodes. destruct (read_head _ _ HR _ _ Ha) as [R1 R2].
  rewrite (bind_done _ _ _ _ _ (load_next_run _ _ _ R1)), (bind_done _ _ _ _ _ (load_prev_run _ _ _ R2)). cbn. do 2 f_equal.
  destruct l as [|x [|y l]]; [cbn; by rewrite Z.eqb_refl..|]. rewrite !last_shift. cbn [List.hd length].
  destruct (rep_list _ _ HR _ _ Ha) as [[_ Hd]%NoDup_cons _]. apply NoDup_cons in Hd as [Hd _].
  rewrite (proj2 (Z.eqb_neq _ _)); [done|]. intros ->. apply Hd, last_in.
Qed.

Lemma last_app_cons (l k : list Z) x a : List.last (l ++ x :: k) a = List.last k x.
Proof. revert a. induction l as [|y l IH]; intros a; cbn [app]; rewrite last_shift; [done|apply IH]. Qed.

Lemma peek_next_run a l x k : contents A !! a = Some (l ++ x :: k) -> sys_dlist_peek_next a x h = (Done (List.hd NULL k), h).
Proof.
  intros Ha. unfold sys_dlist_peek_next. assert (Hx : x <> NULL).
  { eapply node_not_null; [done|done|]. right. apply elem_of_app. right. left. }
  rewrite (proj2 (Z.eqb_neq _ _) Hx). cbn [negb]. unfold sys_dlist_peek_next_no_check.
  rewrite (bind_done _ _ _ _ _ (load_prev_run _ _ _ (proj2 (read_head _ _ HR _ _ Ha)))), last_app_cons.
  destruct (rep_list _ _ HR _ _ Ha) as [[_ Hd]%NoDup_cons _]. apply NoDup_app in Hd as (_ & _ & [Hd _]%NoDup_cons).
  destruct k as [|y k]; [cbn [List.last]; by rewrite Z.eqb_refl|]. rewrite last_shift, (proj2 (Z.eqb_neq _ _)).
  - apply load_next_run. by apply (read_node _ _ HR a l x (y :: k)).
  - intros E. apply Hd. rewrite E. apply last_in.
Qed.

Lemma peek_prev_run a l x k : contents A !! a = Some (l ++ x :: k) -> sys_dlist_peek_prev a x h = (Done (List.last l NULL), h).
Proof.
  intros Ha. unfold sys_dlist_peek_prev. assert (Hx : x <> NULL).
  { eapply node_not_null; [done|done|]. right. apply elem_of_app. right. left. }
  rewrite (proj2 (Z.eqb_neq _ _) Hx). cbn [negb]. unfold sys_dlist_peek_prev_no_check.
  rewrite (bind_done _ _ _ _ _ (load_next_run _ _ _ (proj1 (read_head _ _ HR _ _ Ha)))).
  destruct (rep_list _ _ HR _ _ Ha) as [[_ Hd]%NoDup_cons _]. apply NoDup_app in Hd as (_ & Hd & _).
  destruct l as [|y l]; [cbn; by rewrite Z.eqb_refl|]. cbn [app List.hd]. rewrite (proj2 (Z.eqb_neq _ _)).
  - rewrite (load_prev_run _ _ _ (proj2 (read_node _ _ HR a (y :: l) x k Ha))). by rewrite !last_shift.
  - intros ->. apply (Hd y); left.
Qed.

Lemma is_linked_run n : sys_dnode_is_linked n h =
  match nexts h !! n with Some x => (Done (negb (x =? NULL)), h) | None => (Stop NullDeref, h) end.
Proof. unfold sys_dnode_is_linked, load_next, mbind, M_bind. by destruct (nexts h !! n). Qed.

Lemma linked_run a l n : contents A !! a = Some l -> n ∈ l -> sys_dnode_is_linked n h = (Done true, h).
Proof.
  intros Ha Hn. apply list_elem_of_split in Hn as (l1 & l2 & ->). rewrite is_linked_run, (proj1 (read_node _ _ HR _ _ _ _ Ha)).
  rewrite (proj2 (Z.eqb_neq _ _)); [done|]. eapply node_not_null; [done|exact Ha|].
  pose proof (hd_in l2 a) as H. apply elem_of_cons in H as [->|H]; [left|]. right. apply elem_of_app. right. by right.
Qed.

Lemma unlinked_run n : n ∈ unlinked A -> sys_dnode_is_linked n h = (Done false, h).
Proof. intros Hn. rewrite is_linked_run. by rewrite (proj1 (rep_unlinked _ _ HR _ Hn)). Qed.

End queries.

(** ** Updates *)
Section updates.
Context (h : heap) (A : lists) (HR : represents h A).

Lemma store_next_run a x (h' : heap) : is_Some (nexts h' !! a) ->
  store_next a x h' = (Done tt, mk_heap (<[a := x]> (nexts h')) (prevs h')).
Proof. unfold store_next. by intros [y ->]. Qed.
Lemma store_prev_run a x (h' : heap) : is_Some (prevs h' !! a) ->
  store_prev a x h' = (Done tt, mk_heap (nexts h') (<[a := x]> (prevs h'))).
Proof. unfold store_prev. by intros [y ->]. Qed.

(** A node of a list or an unlinked one has both words. *)
Lemma allocated x : (x ∈ unlinked A \/ exists a l, contents A !! a = Some l /\ x ∈ a :: l) ->
  is_Some (nexts h !! x) /\ is_Some (prevs h !! x).
Proof.
  intros [H|(a & l & Ha & [->|Hx]%elem_of_cons)].
  - destruct (rep_unlinked _ _ HR x H) as [-> ->]. by split; eexists.
  - destruct (read_head _ _ HR _ _ Ha) as [-> ->]. by split; eexists.
  - apply list_elem_of_split in Hx as (l1 & l2 & ->). destruct (read_node _ _ HR _ _ _ _ Ha) as [-> ->]. by split; eexists.
Qed.

Lemma insert_is_Some (m : gmap Z Z) i x j : is_Some (m !! j) -> is_Some (<[i := x]> m !! j).
Proof. rewrite lookup_insert_is_Some'. by right. Qed.

Ltac stores := repeat first
  [ rewrite store_next_run by (cbn; repeat apply insert_is_Some; done) | rewrite store_prev_run by (cbn; repeat apply insert_is_Some; done) ].

(** The places an update is about. *)
Context (a : Z) (l k : list Z).

Lemma place_allocated : contents A !! a = Some (l ++ k) ->
  (is_Some (nexts h !! List.last l a) /\ is_Some (prevs h !! List.last l a)) /\
  (is_Some (nexts h !! List.hd a k) /\ is_Some (prevs h !! List.hd a k)).
Proof.
  intros Ha. split; apply allocated; right; exists a, (l ++ k); (split; [done|]).
  - pose proof (last_in l a) as H. apply elem_of_cons in H as [->|H]; [left|]. right. apply elem_of_app. by left.
  - pose proof (hd_in k a) as H. apply elem_of_cons in H as [->|H]; [left|]. right. apply elem_of_app. by right.
Qed.

Lemma insert_run n : contents A !! a = Some (l ++ k) -> n ∈ unlinked A ->
  prevs h !! List.hd a k = Some (List.last l a) ->
  sys_dlist_insert (List.hd a k) n h = (Done tt, link h (List.last l a) n (List.hd a k)).
Proof.
  intros Ha Hn Hp. destruct (place_allocated Ha) as [[P1 P2] [S1 S2]]. destruct (allocated n (or_introl Hn)) as [N1 N2].
  unfold sys_dlist_insert. rewrite (bind_done _ _ _ _ _ (load_prev_run _ _ _ Hp)). unfold mbind, M_bind. stores. done.
Qed.

Lemma append_run n : contents A !! a = Some l -> n ∈ unlinked A ->
  sys_dlist_append a n h = (Done tt, link h (List.last l a) n a).
Proof.
  intros Ha Hn. destruct (allocated n (or_introl Hn)) as [N1 N2]. destruct (read_head _ _ HR _ _ Ha) as [R1 R2].
  destruct (allocated (List.last l a)) as [P1 P2]; [right; exists a, l; split; [done|apply last_in]|].
  destruct (allocated a) as [S1 S2]; [right; exists a, l; split; [done|left]|].
  unfold sys_dlist_append. rewrite (bind_done _ _ _ _ _ (load_prev_run _ _ _ R2)). unfold mbind, M_bind. stores. done.
Qed.

Lemma prepend_run n : contents A !! a = Some k -> n ∈ unlinked A ->
  sys_dlist_prepend a n h = (Done tt, link h a n (List.hd a k)).
Proof.
  intros Ha Hn. destruct (allocated n (or_introl Hn)) as [N1 N2]. destruct (read_head _ _ HR _ _ Ha) as [R1 R2].
  destruct (allocated (List.hd a k)) as [P1 P2]; [right; exists a, k; split; [done|apply hd_in]|].
  destruct (allocated a) as [S1 S2]; [right; exists a, k; split; [done|left]|].
  unfold sys_dlist_prepend. rewrite (bind_done _ _ _ _ _ (load_next_run _ _ _ R1)). unfold mbind, M_bind. stores. done.
Qed.

Lemma remove_run n : contents A !! a = Some (l ++ n :: k) ->
  sys_dlist_remove n h = (Done tt, unlink h (List.last l a) n (List.hd a k)).
Proof.
  intros Ha. destruct (read_node _ _ HR _ _ _ _ Ha) as [R1 R2].
  assert (Hin : forall x, x ∈ a :: l \/ x ∈ a :: k \/ x = n -> is_Some (nexts h !! x) /\ is_Some (prevs h !! x)).
  { intros x Hx. apply allocated. right. exists a, (l ++ n :: k). split; [done|].
    rewrite elem_of_cons, elem_of_app, elem_of_cons. rewrite !elem_of_cons in Hx. tauto. }
  destruct (Hin (List.last l a)) as [P1 P2]; [left; apply last_in|].
  destruct (Hin (List.hd a k)) as [S1 S2]; [right; left; apply hd_in|]. destruct (Hin n) as [N1 N2]; [by right; right|].
  unfold sys_dlist_remove. rewrite (bind_done _ _ _ _ _ (load_prev_run _ _ _ R2)), (bind_done _ _ _ _ _ (load_next_run _ _ _ R1)).
  unfold sys_dnode_init, mbind, M_bind. stores. done.
Qed.

End updates.

(** A list is shorter than the heap. *)
Lemma list_fits h A a l : represents h A -> contents A !! a = Some l -> (length l < size (nexts h))%nat.
Proof.
  intros HR Ha. destruct (rep_list _ _ HR _ _ Ha) as [Hd _].
  assert (E : size (list_to_set (a :: l) : gset Z) = S (length l)) by (by rewrite size_list_to_set).
  rewrite <- Nat.le_succ_l, <- E, <- size_dom. apply subseteq_size. intros x Hx%elem_of_list_to_set.
  apply elem_of_dom. apply (allocated h A HR). right. by exists a, l.
Qed.

(** ** The operations on lists *)

Inductive call :=
| Append (list node : Z)
| Prepend (list node : Z)
| Insert (successor node : Z)
| Insert_at (list node : Z) (cond : Z -> bool)
| Remove (node : Z)
| Get (list : Z).

(** What is run; the result of [sys_dlist_get], else 0. The heap's size is
    enough for the loop. *)
Definition exec (c : call) : M heap Z :=
  match c with
  | Append a n => sys_dlist_append a n;; mret 0
  | Prepend a n => sys_dlist_prepend a n;; mret 0
  | Insert s n => sys_dlist_insert s n;; mret 0
  | Insert_at a n cond => fuel ← gets (fun h => size (nexts h)); sys_dlist_insert_at fuel a n cond;; mret 0
  | Remove n => sys_dlist_remove n;; mret 0
  | Get a => sys_dlist_get a
  end.

Fixpoint insert_where (cond : Z -> bool) (n : Z) (l : list Z) : list Z :=
  match l with
  | [] => [n]
  | x :: l' => if cond x then n :: x :: l' else x :: insert_where cond n l'
  end.

Definition insert_before (s n : Z) (l : list Z) : list Z :=
  if bool_decide (s ∈ l) then insert_where (fun x => x =? s) n l else l.

(** Nodes that are inserted leave the unlinked ones, removed ones join them. *)
Definition added (a n : Z) (f : list Z -> list Z) (A : lists) : lists :=
  mk_lists (alter f a (contents A)) (unlinked A ∖ {[n]}).
Definition removed (n : Z) (A : lists) : lists :=
  mk_lists (filter (fun x => x <> n) <$> contents A) ({[n]} ∪ unlinked A).

Definition on_lists (c : call) (A : lists) : Z * lists :=
  match c with
  | Append a n => (0, added a n (fun l => l ++ [n]) A)
  | Prepend a n => (0, added a n (fun l => n :: l) A)
  | Insert s n => (0, mk_lists (insert_before s n <$> contents A) (unlinked A ∖ {[n]}))
  | Insert_at a n cond => (0, added a n (insert_where cond n) A)
  | Remove n => (0, removed n A)
  | Get a =>
      match contents A !! a with
      | Some (n :: _) => (n, removed n A)
      | _ => (NULL, A)
      end
  end.

(** Lists exist, nodes to insert are unlinked, and others are in a list. *)
Definition in_a_list (A : lists) (x : Z) : Prop := exists a l, contents A !! a = Some l /\ x ∈ l.
Definition legal (A : lists) (c : call) : Prop :=
  match c with
  | Append a n | Prepend a n | Insert_at a n _ => is_Some (contents A !! a) /\ n ∈ unlinked A
  | Insert s n => in_a_list A s /\ n ∈ unlinked A
  | Remove n => in_a_list A n
  | Get a => is_Some (contents A !! a)
  end.

Fixpoint legal_all (A : lists) (cs : list call) : Prop :=
  match cs with
  | [] => True
  | c :: cs' => legal A c /\ legal_all (on_lists c A).2 cs'
  end.

Fixpoint exec_all (cs : list call) : M heap (list Z) :=
  match cs with
  | [] => mret []
  | c :: cs' => r ← exec c; rs ← exec_all cs'; mret (r :: rs)
  end.

Fixpoint on_lists_all (cs : list call) (A : lists) : list Z * lists :=
  match cs with
  | [] => ([], A)
  | c :: cs' =>
      let '(r, A) := on_lists c A in
      let '(rs, A) := on_lists_all cs' A in (r :: rs, A)
  end.

(** *** Each call *)

(** The nodes before and from the first that satisfies the condition. *)
Fixpoint before (cond : Z -> bool) (l : list Z) : list Z :=
  match l with [] => [] | x :: l' => if cond x then [] else x :: before cond l' end.
Fixpoint from_pos (cond : Z -> bool) (l : list Z) : list Z :=
  match l with [] => [] | x :: l' => if cond x then x :: l' else from_pos cond l' end.

Lemma before_from cond l : before cond l ++ from_pos cond l = l.
Proof. induction l as [|x l IH]; [done|]. cbn. destruct (cond x); cbn; [done|]. by rewrite IH. Qed.
Lemma insert_where_at cond n l : insert_where cond n l = before cond l ++ n :: from_pos cond l.
Proof. induction l as [|x l IH]; [done|]. cbn. destruct (cond x); cbn; [done|]. by rewrite IH. Qed.

Section calls.
Context (h : heap) (A : lists) (HR : represents h A).

Lemma added_at a n f l : contents A !! a = Some l ->
  added a n f A = mk_lists (<[a := f l]> (contents A)) (unlinked A ∖ {[n]}).
Proof.
  intros Ha. unfold added. f_equal. apply map_eq. intros b. destruct (decide (a = b)) as [<-|Hne].
  - by rewrite lookup_alter_eq, lookup_insert_eq, Ha.
  - by rewrite lookup_alter_ne, lookup_insert_ne.
Qed.

Lemma filter_without (l : list Z) n : n ∉ l -> filter (fun x => x <> n) l = l.
Proof. intros H. apply filter_all. apply Forall_forall. intros x Hx ->. done. Qed.

Lemma removed_at a l n k : contents A !! a = Some (l ++ n :: k) ->
  removed n A = mk_lists (<[a := l ++ k]> (contents A)) ({[n]} ∪ unlinked A).
Proof.
  intros Ha. unfold removed. f_equal. apply map_eq. intros b. rewrite lookup_fmap. destruct (decide (a = b)) as [<-|Hne].
  - rewrite lookup_insert_eq, Ha. cbn [fmap option_fmap option_map]. f_equal.
    destruct (rep_list _ _ HR _ _ Ha) as [[_ Hd]%NoDup_cons _]. rewrite <- Permutation_middle in Hd. apply NoDup_cons in Hd as [Hd _].
    rewrite elem_of_app in Hd. rewrite filter_app, filter_cons_False by (by intros []). rewrite !filter_without by tauto. done.
  - rewrite lookup_insert_ne by done. destruct (contents A !! b) as [m|] eqn:Hb; [|done]. cbn. f_equal. apply filter_without.
    intros Hn. apply (other_list h A HR a _ b m n Ha Hb Hne); [right; apply elem_of_app; right; left|by right].
Qed.

Lemma inserted_at a l s k n : contents A !! a = Some (l ++ s :: k) ->
  insert_before s n <$> contents A = <[a := l ++ n :: s :: k]> (contents A).
Proof.
  intros Ha. apply map_eq. intros b. rewrite lookup_fmap. destruct (decide (a = b)) as [<-|Hne].
  - rewrite lookup_insert_eq, Ha. cbn [fmap option_fmap option_map]. f_equal. unfold insert_before.
    rewrite bool_decide_true by (apply elem_of_app; right; left).
    destruct (rep_list _ _ HR _ _ Ha) as [[_ Hd]%NoDup_cons _]. apply NoDup_app in Hd as (_ & Hd & _).
    assert (Hs : s ∉ l) by (intros Hs; apply (Hd s Hs); left). clear Hd Ha.
    induction l as [|x l IH]; cbn; [by rewrite Z.eqb_refl|]. apply not_elem_of_cons in Hs as [Hs1 Hs2].
    rewrite (proj2 (Z.eqb_neq _ _)) by done. by rewrite IH.
  - rewrite lookup_insert_ne by done. destruct (contents A !! b) as [m|] eqn:Hb; [|done]. cbn. f_equal. unfold insert_before.
    rewrite bool_decide_false; [done|]. intros Hs.
    apply (other_list h A HR a _ b m s Ha Hb Hne); [right; apply elem_of_app; right; left|by right].
Qed.

(** The loop finds the first node that satisfies the condition. *)
Lemma find_pos_run fuel a l0 l cond : contents A !! a = Some (l0 ++ l) -> (length l < fuel)%nat ->
  find_pos fuel a (List.hd NULL l) cond h = (Done (List.hd NULL (from_pos cond l)), h).
Proof.
  revert l0 l. induction fuel as [|fuel IH]; intros l0 l Ha Hf; [lia|]. cbn [find_pos].
  destruct l as [|x l]; [done|]. cbn [List.hd from_pos]. rewrite (proj2 (Z.eqb_neq _ _)).
  2: { eapply node_not_null; [done|exact Ha|]. right. apply elem_of_app. right. left. }
  cbn [negb andb]. destruct (cond x); [done|]. cbn [negb]. rewrite (bind_done _ _ _ _ _ (peek_next_run _ _ HR _ _ _ _ Ha)).
  apply (IH (l0 ++ [x])); [by rewrite <- app_assoc|cbn in Hf; lia].
Qed.

Lemma insert_at_run fuel a n cond l : contents A !! a = Some l -> n ∈ unlinked A -> (length l < fuel)%nat ->
  sys_dlist_insert_at fuel a n cond h = (Done tt, link h (List.last (before cond l) a) n (List.hd a (from_pos cond l))).
Proof.
  intros Ha Hn Hf. unfold sys_dlist_insert_at. rewrite (bind_done _ _ _ _ _ (is_empty_run _ _ HR _ _ Ha)).
  case_bool_decide as E; [subst l; by apply (append_run h A HR a [])|].
  rewrite (bind_done _ _ _ _ _ (peek_head_run _ _ HR _ _ Ha)), (bind_done _ _ _ _ _ (find_pos_run fuel a [] l cond Ha Hf)).
  pose proof (before_from cond l) as B. destruct (from_pos cond l) as [|x k] eqn:Ef.
  - rewrite app_nil_r in B. rewrite B. cbn [List.hd]. by apply (append_run h A HR).
  - rewrite <- B in Ha. cbn [List.hd]. rewrite (proj2 (Z.eqb_neq _ _)).
    2: { eapply node_not_null; [done|exact Ha|]. right. apply elem_of_app. right. left. }
    apply (insert_run h A HR a _ (x :: k)); [done|done|]. apply (read_node _ _ HR _ _ _ _ Ha).
Qed.

Lemma call_run c : legal A c -> exists h', exec c h = (Done (on_lists c A).1, h') /\ represents h' (on_lists c A).2.
Proof.
  destruct c as [a n|a n|s n|a n cond|n|a]; cbn [legal exec on_lists fst snd].
  - intros [[l Ha] Hn]. rewrite (bind_done _ _ _ _ _ (append_run h A HR a l n Ha Hn)). eexists. split; [done|].
    rewrite (added_at _ _ _ _ Ha). apply (rep_link h A HR a l []); [by rewrite app_nil_r|done].
  - intros [[l Ha] Hn]. rewrite (bind_done _ _ _ _ _ (prepend_run h A HR a l n Ha Hn)). eexists. split; [done|].
    rewrite (added_at _ _ _ _ Ha). by apply (rep_link h A HR a [] l).
  - intros [(a & l & Ha & (l1 & l2 & ->)%list_elem_of_split) Hn].
    rewrite (bind_done _ _ _ _ _ (insert_run h A HR a l1 (s :: l2) n Ha Hn (proj2 (read_node _ _ HR _ _ _ _ Ha)))).
    eexists. split; [done|]. rewrite (inserted_at a l1 s l2 n Ha). by apply (rep_link h A HR a l1 (s :: l2)).
  - intros [[l Ha] Hn]. rewrite bind_gets, (bind_done _ _ _ _ _ (insert_at_run _ a n cond l Ha Hn (list_fits _ _ _ _ HR Ha))).
    eexists. split; [done|]. rewrite (added_at _ _ _ _ Ha), insert_where_at. apply (rep_link h A HR); [by rewrite before_from|done].
  - intros (a & l & Ha & (l1 & l2 & ->)%list_elem_of_split). rewrite (bind_done _ _ _ _ _ (remove_run h A HR a l1 l2 n Ha)).
    eexists. split; [done|]. rewrite (removed_at a l1 n l2 Ha). by apply (rep_unlink h A HR).
  - intros [l Ha]. unfold sys_dlist_get. rewrite (bind_done _ _ _ _ _ (is_empty_run _ _ HR _ _ Ha)), Ha.
    destruct l as [|n l]; [by eexists|].
    rewrite bool_decide_false by done.
    rewrite (bind_done _ _ _ _ _ (load_next_run _ _ _ (proj1 (read_head _ _ HR _ _ Ha)))). cbn [List.hd].
    rewrite (bind_done _ _ _ _ _ (remove_run h A HR a [] l n Ha)). eexists. split; [done|].
    rewrite (removed_at a [] n l Ha). by apply (rep_unlink h A HR a []).
Qed.
End calls.

(** C25. A heap that holds any number of lists and
    unlinked nodes, and any sequence of operations that inserts only unlinked
    nodes into existing lists and removes or inserts in front of nodes that
    are in a list: every load and store is of an existing node, every
    operation returns, results and contents are those of the operations on
    lists, lists that are not concerned stay as they are, and the pointers
    lead along every list in both directions. *)
Theorem linked_lists_refine cs h A :
  represents h A -> legal_all A cs ->
  exists h', exec_all cs h = (Done (on_lists_all cs A).1, h') /\ represents h' (on_lists_all cs A).2 /\
  forall a l x k, contents (on_lists_all cs A).2 !! a = Some (l ++ x :: k) ->
    sys_dlist_peek_next a x h' = (Done (List.hd NULL k), h') /\ sys_dlist_peek_prev a x h' = (Done (List.last l NULL), h') /\
    sys_dnode_is_linked x h' = (Done true, h').
Proof.
  intros HR Hl. assert (H : exists h', exec_all cs h = (Done (on_lists_all cs A).1, h') /\ represents h' (on_lists_all cs A).2).
  - revert h A HR Hl. induction cs as [|c cs IH]; intros h A HR Hl; [by exists h|]. destruct Hl as [Hc Hl].
    destruct (call_run h A HR c Hc) as (h1 & E1 & R1). destruct (IH h1 _ R1 Hl) as (h2 & E2 & R2). exists h2.
    cbn [exec_all on_lists_all]. destruct (on_lists c A) as [r A1]. cbn [fst snd] in *. destruct (on_lists_all cs A1) as [rs A2].
    cbn [fst snd] in *. by rewrite (bind_done _ _ _ _ _ E1), (bind_done _ _ _ _ _ E2).
  - destruct H as (h' & E & R). exists h'. split; [done|]. split; [done|]. intros a l x k Ha. split_and!.
    + by eapply peek_next_run.
    + by eapply peek_prev_run.
    + eapply linked_run; [done|done|]. apply elem_of_app. right. left.
Qed.

(** Two empty lists, at 100 and 200, and the nodes 1, 2 and 3. *)
Definition demo_heap : heap :=
  mk_heap {[100 := 100; 200 := 200; 1 := NULL; 2 := NULL; 3 := NULL]} {[100 := 100; 200 := 200; 1 := NULL; 2 := NULL; 3 := NULL]}.
Definition demo_lists : lists := mk_lists {[100 := []; 200 := []]} {[1; 2; 3]}.

Lemma elem_of_demo n : n ∈ unlinked demo_lists -> n = 1 \/ n = 2 \/ n = 3.
Proof. cbn. rewrite !elem_of_union, !elem_of_singleton. tauto. Qed.

Lemma demo_represents : represents demo_heap demo_lists.
Proof.
  assert (Hc : forall a l, contents demo_lists !! a = Some l -> (a = 100 \/ a = 200) /\ l = []).
  { intros a l H. cbn in H. apply lookup_insert_Some in H as [[<- <-]|[_ H]]; [by split; [left|]|].
    apply lookup_singleton_Some in H as [<- <-]. by split; [right|]. }
  split.
  - done.
  - intros a l [[->| ->] ->]%Hc; (split; [repeat constructor; apply not_elem_of_nil|by repeat constructor]).
  - intros a b l k x [[->| ->] ->]%Hc [[->| ->] ->]%Hc; rewrite !list_elem_of_singleton; congruence.
  - intros n Hn. apply elem_of_demo in Hn. by destruct Hn as [->|[->| ->]].
  - intros a l n [[->| ->] ->]%Hc; rewrite list_elem_of_singleton; intros -> Hn%elem_of_demo; lia.
Qed.

Lemma linked_lists_refine_witness : exists h',
  exec_all [Append 100 1; Prepend 100 2; Insert 1 3; Get 100; Append 200 2; Remove 1] demo_heap = (Done [0; 0; 0; 2; 0; 0], h').
Proof.
  destruct (linked_lists_refine [Append 100 1; Prepend 100 2; Insert 1 3; Get 100; Append 200 2; Remove 1] demo_heap demo_lists) as (h' & E & _).
  - apply demo_represents.
  - cbn [legal_all legal on_lists snd]. split_and!; try (by eexists); try (by vm_compute).
    + exists 100, [2; 1]. by split; [vm_compute|right; left].
    + exists 100, [3; 1]. by split; [vm_compute|right; left].
  - exists h'. exact E.
Defined.
