(* ===== verification/LinkedQueues.v ===== *)
(** * The kernel's queues on linked lists

    [Timeout] and [KSem] treat the queue of timeouts and the wait queues as
    lists. Here the same functions of kernel/timeout.c and kernel/sched.c are
    written with the nodes they link, and shown to do what those models say.
    A node is the first field of a timeout and of a thread, so they have the
    same address. *)
From S2P Require Import Prelude DList KSem Timeout.
From stdpp Require Import prelude list numbers gmap.
From Stdlib Require Import ZArith Lia.
Open Scope Z_scope.

(** ** Timeouts (kernel/timeout.c) *)
Module Timeouts.

(** The nodes, the field [dticks] of every timeout, and what [clock] has
    besides the queue. *)
Record state := mk_state {
  nodes : heap;
  dticks_at : gmap Z Z;
  curr_tick : Z;
  announce_remaining : Z;
  hw_elapsed : Z;
  slice_ticks : Z;
  programmed : list (Z * bool);
  fired : list (Z * Z) }.

Definition set_nodes (x : heap) (s : state) : state :=
  mk_state x (dticks_at s) (curr_tick s) (announce_remaining s) (hw_elapsed s) (slice_ticks s) (programmed s) (fired s).
Definition set_dticks_at (x : gmap Z Z) (s : state) : state :=
  mk_state (nodes s) x (curr_tick s) (announce_remaining s) (hw_elapsed s) (slice_ticks s) (programmed s) (fired s).
Definition set_curr_tick (x : Z) (s : state) : state :=
  mk_state (nodes s) (dticks_at s) x (announce_remaining s) (hw_elapsed s) (slice_ticks s) (programmed s) (fired s).
Definition set_announce_remaining (x : Z) (s : state) : state :=
  mk_state (nodes s) (dticks_at s) (curr_tick s) x (hw_elapsed s) (slice_ticks s) (programmed s) (fired s).
Definition set_programmed (x : list (Z * bool)) (s : state) : state :=
  mk_state (nodes s) (dticks_at s) (curr_tick s) (announce_remaining s) (hw_elapsed s) (slice_ticks s) x (fired s).
Definition set_fired (x : list (Z * Z)) (s : state) : state :=
  mk_state (nodes s) (dticks_at s) (curr_tick s) (announce_remaining s) (hw_elapsed s) (slice_ticks s) (programmed s) x.

(** The address of the head of the queue. *)
Definition timeout_list : Z := 1.

Definition in_nodes {A} (m : M heap A) : M state A := fun s => let '(o, h) := m (nodes s) in (o, set_nodes h s).
Definition dticks (t : Z) : M state Z := fun s =>
  match dticks_at s !! t with Some x => (Done x, s) | None => (Stop NullDeref, s) end.
Definition set_dticks (t x : Z) : M state unit := fun s =>
  match dticks_at s !! t with
  | Some _ => (Done tt, set_dticks_at (<[t := x]> (dticks_at s)) s)
  | None => (Stop NullDeref, s)
  end.

Definition first : M state Z := in_nodes (sys_dlist_peek_head timeout_list).
Definition next (t : Z) : M state Z := in_nodes (sys_dlist_peek_next timeout_list t).

Definition remove_timeout (t : Z) : M state unit :=
  n ← next t;
  (if negb (n =? NULL) then
     n ← next t;
     dt ← dticks t;
     dn ← dticks n;
     set_dticks n (dn + dt)
   else mret tt);;
  in_nodes (sys_dlist_remove t).

Definition elapsed : M state Z := gets (fun s => if announce_remaining s =? 0 then hw_elapsed s else 0).

Definition next_timeout : M state Z :=
  to ← first;
  ticks_elapsed ← elapsed;
  ret ← (if to =? NULL then mret MAX_WAIT
         else d ← dticks to; mret (Z.max 0 (Z.min (d - ticks_elapsed) MAX_WAIT)));
  slice ← gets slice_ticks;
  mret (if negb (slice =? 0) && (slice <? ret) then slice else ret).

Definition sys_clock_set_timeout (ticks : Z) (idle : bool) : M state unit :=
  modify (fun s => set_programmed (programmed s ++ [(ticks, idle)]) s).

(** The loop of [z_add_timeout], with the value of [t] behind it. *)
Fixpoint add_loop (fuel : nat) (to t : Z) : M state Z :=
  match fuel with
  | O => stop_with OutOfFuel
  | S fuel =>
      if t =? NULL then mret NULL
      else
        dt ← dticks t;
        dto ← dticks to;
        if dto <? dt then
          set_dticks t (dt - dto);;
          in_nodes (sys_dlist_insert t to);;
          mret t
        else
          set_dticks to (dto - dt);;
          t ← next t;
          add_loop fuel to t
  end.

(** The number of nodes is enough for a walk along a list. *)
Definition walk : M state nat := gets (fun s => size (nexts (nodes s))).

Definition z_add_timeout (to timeout : Z) : M state unit :=
  if timeout =? K_TICKS_FOREVER then mret tt
  else
    let ticks := timeout + 1 in
    ticks ← (if 0 <=? Z_TICK_ABS ticks then
               e ← elapsed; c ← gets curr_tick; mret (Z_TICK_ABS timeout - (c + e))
             else mret ticks);
    let ticks := Z.max 1 ticks in
    e ← elapsed;
    set_dticks to (ticks + e);;
    t ← first;
    fuel ← walk;
    t ← add_loop fuel to t;
    (if t =? NULL then in_nodes (sys_dlist_append timeout_list to) else mret tt);;
    f ← first;
    if to =? f then
      next_time ← next_timeout;
      slice ← gets slice_ticks;
      if (next_time =? 0) || negb (slice =? next_time) then sys_clock_set_timeout next_time false else mret tt
    else mret tt.

Definition z_abort_timeout (to : Z) : M state Z :=
  linked ← in_nodes (sys_dnode_is_linked to);
  if linked : bool then remove_timeout to;; mret 0 else mret (-22).

(** The loop of [timeout_rem]. *)
Fixpoint rem_loop (fuel : nat) (timeout t ticks : Z) : M state Z :=
  match fuel with
  | O => stop_with OutOfFuel
  | S fuel =>
      if t =? NULL then mret ticks
      else
        d ← dticks t;
        if timeout =? t then mret (ticks + d)
        else t ← next t; rem_loop fuel timeout t (ticks + d)
  end.

Definition timeout_rem (timeout : Z) : M state Z :=
  linked ← in_nodes (sys_dnode_is_linked timeout);
  if negb linked then mret 0
  else
    t ← first;
    fuel ← walk;
    ticks ← rem_loop fuel timeout t 0;
    e ← elapsed;
    mret (ticks - e).

Section announce.
Context (fn : Z -> M state unit).

Fixpoint announce_loop (fuel : nat) : M state unit :=
  t ← first;
  if t =? NULL then mret tt
  else
    dt ← dticks t;
    left ← gets announce_remaining;
    if dt <=? left then
      match fuel with
      | O => stop_with OutOfFuel
      | S fuel =>
          modify (fun s => set_curr_tick (curr_tick s + dt) s);;
          modify (fun s => set_announce_remaining (announce_remaining s - dt) s);;
          set_dticks t 0;;
          remove_timeout t;;
          modify (fun s => set_fired (fired s ++ [(t, curr_tick s)]) s);;
          fn t;;
          announce_loop fuel
      end
    else mret tt.

Definition sys_clock_announce (fuel : nat) (ticks : Z) : M state unit :=
  modify (set_announce_remaining ticks);;
  announce_loop fuel;;
  t ← first;
  (if negb (t =? NULL) then
     d ← dticks t;
     left ← gets announce_remaining;
     set_dticks t (d - left)
   else mret tt);;
  modify (fun s => set_curr_tick (curr_tick s + announce_remaining s) s);;
  modify (set_announce_remaining 0);;
  n ← next_timeout;
  sys_clock_set_timeout n false.
End announce.
End Timeouts.

(** *** Simulation *)
Section timeouts.
Import Timeouts.

(** All timeouts there are; the other lists and unlinked nodes of the heap. *)
Context (T : gset Z) (F : gmap Z (list Z)) (G : gset Z) (HG : G ## T).

Definition ids (l : list timeout) : list Z := map to_id l.
#[local] Arguments ids : simpl never.
Definition lists_of (l : list timeout) : lists :=
  mk_lists (<[timeout_list := ids l]> F) ((T ∖ list_to_set (ids l)) ∪ G).

(** The pointers are those of the queue, and everything else is the same. *)
Record agrees (s : state) (c : clock) : Prop := mk_agrees {
  ag_lists : represents (nodes s) (lists_of (Timeout.timeout_list c));
  ag_known t : t ∈ ids (Timeout.timeout_list c) -> t ∈ T;
  ag_ticks t : t ∈ Timeout.timeout_list c -> dticks_at s !! to_id t = Some (Timeout.dticks t);
  ag_all t : t ∈ T -> is_Some (dticks_at s !! t);
  ag_curr : curr_tick s = Timeout.curr_tick c;
  ag_announce : announce_remaining s = Timeout.announce_remaining c;
  ag_elapsed : hw_elapsed s = Timeout.hw_elapsed c;
  ag_slice : slice_ticks s = Timeout.slice_ticks c;
  ag_programmed : programmed s = Timeout.programmed c;
  ag_fired : fired s = Timeout.fired c }.

Lemma lists_at l : contents (lists_of l) !! timeout_list = Some (ids l).
Proof. apply lookup_insert_eq. Qed.

Lemma ids_app l k : ids (l ++ k) = ids l ++ ids k.
Proof. apply map_app. Qed.

Lemma ids_cons t l : ids (t :: l) = to_id t :: ids l.
Proof. done. Qed.

Lemma ids_dup s c : agrees s c -> NoDup (ids (Timeout.timeout_list c)).
Proof. intros H. destruct (rep_list _ _ (ag_lists _ _ H) _ _ (lists_at _)) as [[_ Hd]%NoDup_cons _]. done. Qed.

Lemma id_in t l : t ∈ l -> to_id t ∈ ids l.
Proof. apply list_elem_of_fmap_2. Qed.

(** A timeout that is not queued. *)
Definition idle (t : Z) (c : clock) : Prop := t ∈ T /\ t ∉ ids (Timeout.timeout_list c).

Lemma idle_unlinked t c : idle t c -> t ∈ unlinked (lists_of (Timeout.timeout_list c)).
Proof. intros [H1 H2]. cbn. apply elem_of_union. left. apply elem_of_difference. split; [done|]. by rewrite elem_of_list_to_set. Qed.

(** *** Changes that keep the agreement *)

Lemma agrees_link s c l k to d : agrees s c -> Timeout.timeout_list c = l ++ k -> idle to c -> dticks_at s !! to = Some d ->
  agrees (set_nodes (link (nodes s) (List.last (ids l) timeout_list) to (List.hd timeout_list (ids k))) s)
    (set_timeout_list (l ++ mk_timeout to d :: k) c).
Proof.
  intros H Hl Hi Hd. pose proof (idle_unlinked _ _ Hi) as Hu. destruct Hi as [Hi1 Hi2].
  destruct H as [R K X A E1 E2 E3 E4 E5 E6]. rewrite Hl in *. split; try done; cbn.
  - pose proof (rep_link _ _ R timeout_list (ids l) (ids k) to) as N. rewrite lists_at, ids_app in N.
    specialize (N eq_refl Hu). cbn in N. unfold lists_of. rewrite insert_insert_eq in N. rewrite ids_app, ids_cons.
    match goal with |- represents _ (mk_lists _ ?u) => match type of N with represents _ (mk_lists _ ?v) => replace u with v; [done|] end end.
    rewrite ids_app in *. clear -HG Hi1 Hi2. unfold_leibniz. set_unfold. intros x. specialize (HG x). destruct (decide (x = to)) as [->|]; intuition congruence.
  - intros t. rewrite ids_app, ids_cons, elem_of_app, elem_of_cons. intros [Ht|[->|Ht]]; [|done|]; apply K; rewrite ids_app, elem_of_app; tauto.
  - intros t. rewrite elem_of_app, elem_of_cons. intros [Ht|[->|Ht]]; [|done|]; apply X, elem_of_app; tauto.
Qed.

Lemma agrees_unlink s c l t k : agrees s c -> Timeout.timeout_list c = l ++ t :: k ->
  agrees (set_nodes (unlink (nodes s) (List.last (ids l) timeout_list) (to_id t) (List.hd timeout_list (ids k))) s)
    (set_timeout_list (l ++ k) c).
Proof.
  intros H Hl. pose proof (ids_dup _ _ H) as D. destruct H as [R K X A E1 E2 E3 E4 E5 E6]. rewrite Hl in *. split; try done; cbn.
  - pose proof (rep_unlink _ _ R timeout_list (ids l) (to_id t) (ids k)) as N. rewrite lists_at, ids_app in N.
    specialize (N eq_refl). cbn in N. unfold lists_of. rewrite insert_insert_eq in N. rewrite ids_app.
    match goal with |- represents _ (mk_lists _ ?u) => match type of N with represents _ (mk_lists _ ?v) => replace u with v; [done|] end end.
    assert (Ht : to_id t ∈ T) by (apply K; rewrite ids_app; apply elem_of_app; right; left).
    rewrite ids_app, ids_cons in *. rewrite <- Permutation_middle in D. apply NoDup_cons in D as [D _]. rewrite elem_of_app in D.
    clear -HG Ht D. unfold_leibniz. set_unfold. intros x. specialize (HG x). destruct (decide (x = to_id t)) as [->|]; intuition congruence.
  - intros x. rewrite ids_app, elem_of_app. intros Hx. apply K. rewrite ids_app, ids_cons, elem_of_app, elem_of_cons. tauto.
  - intros x. rewrite elem_of_app. intros Hx. apply X. rewrite elem_of_app, elem_of_cons. tauto.
Qed.

Lemma agrees_ticks s c l t k d : agrees s c -> Timeout.timeout_list c = l ++ t :: k ->
  agrees (set_dticks_at (<[to_id t := d]> (dticks_at s)) s) (set_timeout_list (l ++ mk_timeout (to_id t) d :: k) c).
Proof.
  intros H Hl. pose proof (ids_dup _ _ H) as D. destruct H as [R K X A E1 E2 E3 E4 E5 E6]. rewrite Hl in *.
  assert (Ei : ids (l ++ mk_timeout (to_id t) d :: k) = ids (l ++ t :: k)) by (by rewrite !ids_app).
  split; try done; cbn.
  - unfold lists_of. by rewrite Ei.
  - intros x. rewrite Ei. apply K.
  - rewrite ids_app, ids_cons in D. rewrite <- Permutation_middle in D. apply NoDup_cons in D as [D _]. rewrite elem_of_app in D.
    intros x. rewrite elem_of_app, elem_of_cons. intros Hx. destruct (decide (to_id x = to_id t)) as [E|E].
    + destruct Hx as [Hx|[->|Hx]]; [|by rewrite lookup_insert_eq|]; apply id_in in Hx; rewrite E in Hx; tauto.
    + rewrite lookup_insert_ne by done. apply X. rewrite elem_of_app, elem_of_cons. destruct Hx as [Hx|[->|Hx]]; [by left|done|by right; right].
  - intros x Hx. apply lookup_insert_is_Some'. right. by apply A.
Qed.

Lemma agrees_idle s c to d : agrees s c -> idle to c -> agrees (set_dticks_at (<[to := d]> (dticks_at s)) s) c.
Proof.
  intros [R K X A E1 E2 E3 E4 E5 E6] [Hi1 Hi2]. split; try done; cbn.
  - intros t Ht. rewrite lookup_insert_ne; [by apply X|]. intros ->. by apply Hi2, id_in.
  - intros x Hx. apply lookup_insert_is_Some'. right. by apply A.
Qed.

(** *** What is read *)

Lemma in_nodes_run {A} (m : M heap A) s o h : m (nodes s) = (o, h) -> in_nodes m s = (o, set_nodes h s).
Proof. unfold in_nodes. by intros ->. Qed.
Lemma in_nodes_read {A} (m : M heap A) s o : m (nodes s) = (o, nodes s) -> in_nodes m s = (o, s).
Proof. intros H%in_nodes_run. rewrite H. by destruct s. Qed.

Lemma first_run s c : agrees s c -> first s = (Done (List.hd NULL (ids (Timeout.timeout_list c))), s).
Proof. intros H. apply in_nodes_read, (peek_head_run _ _ (ag_lists _ _ H)), lists_at. Qed.

Lemma next_run s c l t k : agrees s c -> Timeout.timeout_list c = l ++ t :: k -> next (to_id t) s = (Done (List.hd NULL (ids k)), s).
Proof.
  intros H Hl. apply in_nodes_read, (peek_next_run _ _ (ag_lists _ _ H) timeout_list (ids l)).
  by rewrite lists_at, Hl, ids_app, ids_cons.
Qed.

Lemma dticks_run s c t : agrees s c -> t ∈ Timeout.timeout_list c -> dticks (to_id t) s = (Done (Timeout.dticks t), s).
Proof. intros H Ht. unfold dticks. by rewrite (ag_ticks _ _ H t Ht). Qed.

Lemma set_dticks_run s c t x : agrees s c -> t ∈ T -> set_dticks t x s = (Done tt, set_dticks_at (<[t := x]> (dticks_at s)) s).
Proof. intros H Ht. unfold set_dticks. by destruct (ag_all _ _ H t Ht) as [y ->]. Qed.

Lemma queued_known s c t : agrees s c -> t ∈ Timeout.timeout_list c -> to_id t ∈ T /\ (to_id t =? NULL) = false.
Proof.
  intros H Ht%id_in. split; [by apply (ag_known _ _ H)|]. apply Z.eqb_neq.
  eapply node_not_null; [apply (ag_lists _ _ H)|apply lists_at|]. by right.
Qed.

Lemma elapsed_run s c : agrees s c -> elapsed s = (Done (Timeout.elapsed c), s).
Proof. intros H. unfold elapsed, gets, Timeout.elapsed, sys_clock_elapsed. by rewrite (ag_announce _ _ H), (ag_elapsed _ _ H). Qed.

Lemma next_timeout_run s c : agrees s c -> next_timeout s = (Done (Timeout.next_timeout c), s).
Proof.
  intros H. unfold next_timeout, Timeout.next_timeout, Timeout.first.
  rewrite (bind_done _ _ _ _ _ (first_run _ _ H)), (bind_done _ _ _ _ _ (elapsed_run _ _ H)).
  destruct (Timeout.timeout_list c) as [|t l] eqn:El; cbn [head].
  - change (List.hd NULL (ids [])) with NULL. change (NULL =? NULL) with true. cbv iota. by rewrite bind_ret, bind_gets, (ag_slice _ _ H).
  - assert (Ht : t ∈ Timeout.timeout_list c) by (rewrite El; left). rewrite ids_cons. cbn [List.hd].
    rewrite (proj2 (queued_known _ _ _ H Ht)), bind_assoc, (bind_done _ _ _ _ _ (dticks_run _ _ _ H Ht)).
    by rewrite bind_ret, bind_gets, (ag_slice _ _ H).
Qed.

(** *** Adding *)

Lemma queue_in c l t k : Timeout.timeout_list c = l ++ t :: k -> t ∈ Timeout.timeout_list c.
Proof. intros ->. apply elem_of_app. right. left. Qed.

Lemma set_list_twice x y c : set_timeout_list x (set_timeout_list y c) = set_timeout_list x c.
Proof. done. Qed.

(** The loop and the case behind it. *)
Lemma add_loop_run k : forall l fuel s c to dto, agrees s c -> Timeout.timeout_list c = l ++ k -> idle to c ->
  dticks_at s !! to = Some dto -> (length k < fuel)%nat ->
  exists s', (t ← add_loop fuel to (List.hd NULL (ids k));
    if t =? NULL then in_nodes (sys_dlist_append timeout_list to) else mret tt) s = (Done tt, s') /\
  agrees s' (set_timeout_list (l ++ insert_timeout to dto k) c).
Proof.
  induction k as [|t k IH]; intros l fuel s c to dto H Hl Hi Hd Hf; (destruct fuel as [|fuel]; [cbn in Hf; lia|]); cbn [add_loop].
  - change (List.hd NULL (ids [])) with NULL. change (NULL =? NULL) with true. cbv iota. rewrite bind_ret.
    change (NULL =? NULL) with true. cbv iota. rewrite app_nil_r in Hl. eexists. split.
    + apply in_nodes_run. apply (append_run _ _ (ag_lists _ _ H) timeout_list (ids l)); [|by apply idle_unlinked]. by rewrite lists_at, Hl.
    + apply (agrees_link s c l []); [done|by rewrite app_nil_r|done|done].
  - pose proof (queue_in _ _ _ _ Hl) as Ht. destruct (queued_known _ _ _ H Ht) as [Kt Nt]. rewrite ids_cons. cbn [List.hd].
    rewrite Nt, bind_assoc, (bind_done _ _ _ _ _ (dticks_run _ _ _ H Ht)), bind_assoc.
    assert (E : dticks to s = (Done dto, s)) by (unfold dticks; by rewrite Hd). rewrite (bind_done _ _ _ _ _ E). clear E.
    cbn [insert_timeout]. destruct (dto <? Timeout.dticks t) eqn:Elt.
    + rewrite bind_assoc, (bind_done _ _ _ _ _ (set_dticks_run _ _ _ _ H Kt)), bind_assoc.
      pose proof (agrees_ticks _ _ l t k (Timeout.dticks t - dto) H Hl) as H1.
      assert (Hi1 : idle to (set_timeout_list (l ++ mk_timeout (to_id t) (Timeout.dticks t - dto) :: k) c)).
      { destruct Hi as [I1 I2]. split; [done|]. cbn. rewrite Hl in I2. by rewrite ids_app, ids_cons in *. }
      assert (Hto : to <> to_id t) by (intros ->; destruct Hi as [_ Hi]; apply Hi; by apply id_in).
      eexists. split.
      * rewrite (bind_done _ _ _ _ _ (in_nodes_run _ _ _ _ (insert_run _ _ (ag_lists _ _ H1) timeout_list (ids l)
          (to_id t :: ids k) to ltac:(rewrite lists_at; cbn; by rewrite ids_app) (idle_unlinked _ _ Hi1)
          (proj2 (read_node _ _ (ag_lists _ _ H1) timeout_list (ids l) (to_id t) (ids k) ltac:(rewrite lists_at; cbn; by rewrite ids_app, ids_cons)))))).
        rewrite bind_ret, Nt. done.
      * pose proof (agrees_link _ _ l (mk_timeout (to_id t) (Timeout.dticks t - dto) :: k) to dto H1 eq_refl Hi1) as N.
        cbn in N. rewrite lookup_insert_ne in N by done. specialize (N Hd). by rewrite set_list_twice in N.
    + rewrite bind_assoc, (bind_done _ _ _ _ _ (set_dticks_run _ _ _ _ H (proj1 Hi))), bind_assoc.
      pose proof (agrees_idle _ _ to (dto - Timeout.dticks t) H Hi) as H1.
      rewrite (bind_done _ _ _ _ _ (next_run _ _ _ _ _ H1 Hl)).
      destruct (IH (l ++ [t]) fuel _ c to (dto - Timeout.dticks t) H1) as (s' & E & N); [by rewrite <- app_assoc|done|cbn; apply lookup_insert_eq|cbn in Hf; lia|].
      exists s'. split; [exact E|]. by rewrite <- app_assoc in N.
Qed.

(** [m] on pointers does what [f] does on the queue, where [P] holds. *)
Definition sim {A} (P : clock -> Prop) (m : M state A) (f : M clock A) : Prop := forall s c, agrees s c -> P c ->
  exists o s' c', m s = (o, s') /\ f c = (o, c') /\ agrees s' c'.
Definition always (c : clock) : Prop := True.

Lemma queue_fits s c : agrees s c -> (length (Timeout.timeout_list c) < size (nexts (nodes s)))%nat.
Proof. intros H. pose proof (list_fits _ _ _ _ (ag_lists _ _ H) (lists_at _)) as L. unfold ids in L. by rewrite length_map in L. Qed.

Lemma programmed_agrees s c x : agrees s c -> agrees (set_programmed (programmed s ++ [x]) s) (Timeout.set_programmed (Timeout.programmed c ++ [x]) c).
Proof. intros [R K X A E1 E2 E3 E4 E5 E6]. split; try done. cbn. by rewrite E5. Qed.

Lemma head_ids l : List.hd NULL (ids l) = match head l with Some t => to_id t | None => NULL end.
Proof. by destruct l. Qed.

(** The end of [z_add_timeout]: a new first timeout is told to the driver. *)
Lemma added_first s c to : agrees s c -> to ∈ T -> to ∈ ids (Timeout.timeout_list c) -> exists s',
  (f ← first;
   if to =? f then
     next_time ← next_timeout;
     slice ← gets slice_ticks;
     if (next_time =? 0) || negb (slice =? next_time) then sys_clock_set_timeout next_time false else mret tt
   else mret tt) s = (Done tt, s') /\
  agrees s' (match Timeout.first c with
    | Some t =>
        if to_id t =? to then
          let next_time := Timeout.next_timeout c in
          if (next_time =? 0) || negb (Timeout.slice_ticks c =? next_time)
          then Timeout.sys_clock_set_timeout next_time false c else c
        else c
    | None => c
    end).
Proof.
  intros H Hto Hin. rewrite (bind_done _ _ _ _ _ (first_run _ _ H)), head_ids. unfold Timeout.first.
  destruct (head (Timeout.timeout_list c)) as [t|] eqn:E.
  - rewrite (Z.eqb_sym to). destruct (to_id t =? to); [|by exists s].
    rewrite (bind_done _ _ _ _ _ (next_timeout_run _ _ H)), bind_gets, (ag_slice _ _ H). cbv zeta.
    destruct (_ || _); [|by exists s]. eexists. split; [done|]. by apply programmed_agrees.
  - destruct (Timeout.timeout_list c); [|done]. by apply not_elem_of_nil in Hin.
Qed.

Lemma inserted_id to dt l : to ∈ ids (insert_timeout to dt l).
Proof.
  revert dt. induction l as [|t l IH]; intros dt; cbn; [left|]. destruct (dt <? _); [left|]. rewrite ids_cons. right. apply IH.
Qed.

Lemma add_sim to timeout : sim (idle to) (z_add_timeout to timeout) (modify (Timeout.z_add_timeout to timeout)).
Proof.
  intros s c H Hi. unfold z_add_timeout, Timeout.z_add_timeout, modify. destruct (timeout =? K_TICKS_FOREVER); [by exists (Done tt), s, c|].
  cbv zeta. assert (E : (if 0 <=? Z_TICK_ABS (timeout + 1) then
       e ← elapsed; c ← gets curr_tick; mret (Z_TICK_ABS timeout - (c + e)) else mret (timeout + 1)) s =
    (Done (if 0 <=? Z_TICK_ABS (timeout + 1) then Z_TICK_ABS timeout - (Timeout.curr_tick c + Timeout.elapsed c) else timeout + 1), s)).
  { destruct (0 <=? _); [|done]. by rewrite (bind_done _ _ _ _ _ (elapsed_run _ _ H)), bind_gets, (ag_curr _ _ H). }
  rewrite (bind_done _ _ _ _ _ E), (bind_done _ _ _ _ _ (elapsed_run _ _ H)). clear E. fold (timeout_ticks timeout c).
  rewrite (bind_done _ _ _ _ _ (set_dticks_run _ _ _ _ H (proj1 Hi))).
  pose proof (agrees_idle _ _ to (timeout_ticks timeout c + Timeout.elapsed c) H Hi) as H1.
  rewrite (bind_done _ _ _ _ _ (first_run _ _ H1)). unfold walk. rewrite bind_gets.
  destruct (add_loop_run (Timeout.timeout_list c) [] (size (nexts (nodes s))) _ c to _ H1 eq_refl Hi (lookup_insert_eq _ _ _) (queue_fits _ _ H)) as (s' & E & N).
  cbn [app] in N. rewrite <- bind_assoc. cbn [nodes set_dticks_at] in *. rewrite (bind_done _ _ _ _ _ E).
  destruct (added_first _ _ to N (proj1 Hi)) as (s2 & E2 & N2); [apply inserted_id|]. exists (Done tt), s2. eexists. split; [exact E2|]. split; [reflexivity|exact N2].
Qed.

(** *** Removing *)

(** The rest of the queue behind a timeout that is removed. *)
Definition inherit (t : timeout) (k : list timeout) : list timeout :=
  match k with [] => [] | n :: k' => mk_timeout (to_id n) (Timeout.dticks n + Timeout.dticks t) :: k' end.

Lemma remove_at l t k : to_id t ∉ ids l -> Timeout.remove_timeout (to_id t) (l ++ t :: k) = l ++ inherit t k.
Proof.
  induction l as [|x l IH]; intros Hn; cbn [app Timeout.remove_timeout].
  - rewrite Z.eqb_refl. by destruct k.
  - rewrite ids_cons in Hn. apply not_elem_of_cons in Hn as [H1 H2]. rewrite (proj2 (Z.eqb_neq _ _)) by done. by rewrite IH.
Qed.

Lemma not_before s c l t k : agrees s c -> Timeout.timeout_list c = l ++ t :: k -> to_id t ∉ ids l.
Proof.
  intros H Hl. pose proof (ids_dup _ _ H) as D. rewrite Hl, ids_app, ids_cons in D. apply NoDup_app in D as (_ & D & _).
  intros Hin. apply (D _ Hin). left.
Qed.

Lemma remove_timeout_run s c l t k : agrees s c -> Timeout.timeout_list c = l ++ t :: k ->
  exists s', remove_timeout (to_id t) s = (Done tt, s') /\
  agrees s' (set_timeout_list (Timeout.remove_timeout (to_id t) (Timeout.timeout_list c)) c).
Proof.
  intros H Hl. pose proof (queue_in _ _ _ _ Hl) as Ht. pose proof (not_before _ _ _ _ _ H Hl) as Hb.
  unfold remove_timeout. rewrite (bind_done _ _ _ _ _ (next_run _ _ _ _ _ H Hl)), Hl, (remove_at _ _ _ Hb).
  assert (R : forall s1 c1, agrees s1 c1 -> Timeout.timeout_list c1 = l ++ t :: inherit t k -> exists s',
    in_nodes (sys_dlist_remove (to_id t)) s1 = (Done tt, s') /\ agrees s' (set_timeout_list (l ++ inherit t k) c1)).
  { intros s1 c1 H1 Hl1. eexists. split; [|by apply (agrees_unlink s1 c1 l t)].
    apply in_nodes_run, (remove_run _ _ (ag_lists _ _ H1)). by rewrite lists_at, Hl1, ids_app, ids_cons. }
  destruct k as [|n k].
  - change (List.hd NULL (ids [])) with NULL. change (negb (NULL =? NULL)) with false. cbv iota. rewrite bind_ret. by apply R.
  - rewrite ids_cons. cbn [List.hd]. assert (Hl' : Timeout.timeout_list c = (l ++ [t]) ++ n :: k) by (by rewrite <- app_assoc).
    pose proof (queue_in _ _ _ _ Hl') as Hn. destruct (queued_known _ _ _ H Hn) as [Kn Nn]. rewrite Nn. cbn [negb].
    rewrite bind_assoc, (bind_done _ _ _ _ _ (next_run _ _ _ _ _ H Hl)), bind_assoc, (bind_done _ _ _ _ _ (dticks_run _ _ _ H Ht)), bind_assoc.
    rewrite ids_cons. cbn [List.hd]. rewrite (bind_done _ _ _ _ _ (dticks_run _ _ _ H Hn)), (bind_done _ _ _ _ _ (set_dticks_run _ _ _ _ H Kn)).
    pose proof (agrees_ticks _ _ _ _ _ (Timeout.dticks n + Timeout.dticks t) H Hl') as H1.
    destruct (R _ _ H1) as (s' & E & N); [by rewrite <- app_assoc|]. exists s'. split; [exact E|exact N].
Qed.

Lemma is_linked_ids t c : is_linked t c = bool_decide (t ∈ ids (Timeout.timeout_list c)).
Proof.
  unfold is_linked. induction (Timeout.timeout_list c) as [|x l IH]; [done|]. cbn [existsb]. rewrite IH, ids_cons.
  destruct (Z.eqb_spec (to_id x) t) as [->|Hn]; cbn [orb].
  - by rewrite bool_decide_true by left.
  - apply bool_decide_ext. rewrite elem_of_cons. split; [by right|]. intros [->|?]; done.
Qed.

Lemma linked_agrees s c t : agrees s c -> t ∈ T -> in_nodes (sys_dnode_is_linked t) s = (Done (is_linked t c), s).
Proof.
  intros H Ht. rewrite is_linked_ids. apply in_nodes_read. case_bool_decide as E.
  - by eapply linked_run; [apply (ag_lists _ _ H)|apply lists_at|].
  - apply (unlinked_run _ _ (ag_lists _ _ H)). by apply idle_unlinked.
Qed.

Lemma in_queue t c : t ∈ ids (Timeout.timeout_list c) -> exists x l k, Timeout.timeout_list c = l ++ x :: k /\ to_id x = t.
Proof.
  intros H. apply list_elem_of_fmap in H as (x & -> & Hx). apply list_elem_of_split in Hx as (l & k & E). by exists x, l, k.
Qed.

Lemma abort_sim to : to ∈ T ->
  sim always (z_abort_timeout to) (fun c => let '(r, c') := Timeout.z_abort_timeout to c in (Done r, c')).
Proof.
  intros Hto s c H _. unfold z_abort_timeout, Timeout.z_abort_timeout. rewrite (bind_done _ _ _ _ _ (linked_agrees _ _ _ H Hto)).
  destruct (is_linked to c) eqn:E; [|by exists (Done (-22)), s, c]. rewrite is_linked_ids in E. apply bool_decide_eq_true in E.
  destruct (in_queue _ _ E) as (x & l & k & El & <-). destruct (remove_timeout_run _ _ _ _ _ H El) as (s' & E' & N).
  exists (Done 0), s'. eexists. by rewrite (bind_done _ _ _ _ _ E').
Qed.

(** *** The time left *)

Lemma rem_loop_run s c to k : forall l fuel ticks, agrees s c -> Timeout.timeout_list c = l ++ k -> (length k < fuel)%nat ->
  rem_loop fuel to (List.hd NULL (ids k)) ticks s = (Done (ticks + sum_until to k), s).
Proof.
  induction k as [|t k IH]; intros l fuel ticks H Hl Hf; (destruct fuel as [|fuel]; [cbn in Hf; lia|]); cbn [rem_loop].
  - change (List.hd NULL (ids [])) with NULL. change (NULL =? NULL) with true. cbn. by rewrite Z.add_0_r.
  - pose proof (queue_in _ _ _ _ Hl) as Ht. rewrite ids_cons. cbn [List.hd sum_until]. rewrite (proj2 (queued_known _ _ _ H Ht)).
    rewrite (bind_done _ _ _ _ _ (dticks_run _ _ _ H Ht)), Z.eqb_sym. destruct (to_id t =? to); [by rewrite Z.add_0_r|].
    rewrite (bind_done _ _ _ _ _ (next_run _ _ _ _ _ H Hl)), (IH (l ++ [t])); [|done|by rewrite <- app_assoc|cbn in Hf; lia].
    by rewrite <- Z.add_assoc.
Qed.

Lemma rem_sim to : to ∈ T -> sim always (timeout_rem to) (gets (Timeout.timeout_rem to)).
Proof.
  intros Hto s c H _. exists (Done (Timeout.timeout_rem to c)), s, c. split; [|done].
  unfold timeout_rem, Timeout.timeout_rem. rewrite (bind_done _ _ _ _ _ (linked_agrees _ _ _ H Hto)).
  destruct (is_linked to c); [|done]. cbn [negb]. rewrite (bind_done _ _ _ _ _ (first_run _ _ H)). unfold walk. rewrite bind_gets.
  rewrite (bind_done _ _ _ _ _ (rem_loop_run s c to _ [] _ 0 H eq_refl (queue_fits _ _ H))).
  by rewrite (bind_done _ _ _ _ _ (elapsed_run _ _ H)).
Qed.

(** *** Announcing *)
Section announcing.
Context (fn : Z -> M state unit) (fn' : Z -> M clock unit).
Context (Hfn : forall t, t ∈ T -> sim (idle t) (fn t) (fn' t)).

Lemma first_taken s c t k : agrees s c -> Timeout.timeout_list c = t :: k -> exists s',
  (forall rest : M state unit, (modify (fun s => set_curr_tick (curr_tick s + Timeout.dticks t) s);;
   modify (fun s => set_announce_remaining (announce_remaining s - Timeout.dticks t) s);;
   set_dticks (to_id t) 0;;
   remove_timeout (to_id t);;
   modify (fun s => set_fired (fired s ++ [(to_id t, curr_tick s)]) s);; rest) s = rest s') /\
  agrees s' (take_first t c) /\ idle (to_id t) (take_first t c).
Proof.
  intros H Hl. assert (Ht : t ∈ Timeout.timeout_list c) by (rewrite Hl; left). destruct (queued_known _ _ _ H Ht) as [Kt _].
  set (s1 := set_announce_remaining (announce_remaining s - Timeout.dticks t) (set_curr_tick (curr_tick s + Timeout.dticks t) s)). set (c1 := Timeout.set_announce_remaining (Timeout.announce_remaining c - Timeout.dticks t)
    (Timeout.set_curr_tick (Timeout.curr_tick c + Timeout.dticks t) c)).
  assert (H1 : agrees s1 c1). { destruct H as [R K X A E1 E2 E3 E4 E5 E6]. subst s1 c1. split; try done; cbn; by rewrite ?E1, ?E2. }
  pose proof (agrees_ticks s1 c1 [] t k 0 H1 Hl) as H2. cbn [app] in H2.
  destruct (remove_timeout_run _ _ [] (mk_timeout (to_id t) 0) k H2 eq_refl) as (s2 & E & N). cbn [to_id] in E, N.
  eexists. split.
  { intros rest. rewrite !bind_modify. fold s1. rewrite (bind_done _ _ _ _ _ (set_dticks_run _ _ _ _ H1 Kt)), (bind_done _ _ _ _ _ E). apply bind_modify. }
  assert (Ec : take_first t c = Timeout.set_fired (Timeout.fired c ++ [(to_id t, Timeout.curr_tick c + Timeout.dticks t)])
    (set_timeout_list (Timeout.remove_timeout (to_id t) (mk_timeout (to_id t) 0 :: k)) c1)).
  { unfold take_first. cbn [Timeout.timeout_list Timeout.set_announce_remaining Timeout.set_curr_tick tail]. by rewrite Hl. }
  rewrite Ec. split.
  - destruct N as [R K X A E1 E2 E3 E4 E5 E6]. split; try done. cbn. cbn in E1, E6. by rewrite E1, E6.
  - split; [done|]. cbn. rewrite Z.eqb_refl. pose proof (ids_dup _ _ H) as D. rewrite Hl, ids_cons in D. apply NoDup_cons in D as [D _].
    by destruct k.
Qed.

Lemma loop_sim fuel : sim always (announce_loop fn fuel) (Timeout.announce_loop fn' fuel).
Proof.
  induction fuel as [|fuel IH]; intros s c H _; cbn [announce_loop Timeout.announce_loop];
    rewrite (bind_done _ _ _ _ _ (first_run _ _ H)), bind_gets, head_ids; cbn [clk clock_clock];
    (destruct (Timeout.timeout_list c) as [|t k] eqn:El; cbn [head]; [by exists (Done tt), s, c|]);
    assert (Ht : t ∈ Timeout.timeout_list c) by (rewrite El; left);
    rewrite (proj2 (queued_known _ _ _ H Ht)), (bind_done _ _ _ _ _ (dticks_run _ _ _ H Ht)), bind_gets, (ag_announce _ _ H);
    (destruct (_ <=? _); [|by exists (Done tt), s, c]).
  - by exists (Stop OutOfFuel), s, c.
  - destruct (first_taken _ _ _ _ H El) as (s1 & E1 & N1 & I1). rewrite E1. unfold on_clock. rewrite bind_modify. cbn [clk set_clk clock_clock].
    destruct (Hfn (to_id t) (proj1 I1) s1 _ N1 I1) as (o & s2 & c2 & F1 & F2 & N2). destruct o as [[]|r].
    + rewrite (bind_done _ _ _ _ _ F1), (bind_done _ _ _ _ _ F2). by apply IH.
    + rewrite (bind_stop _ _ _ _ _ F1), (bind_stop _ _ _ _ _ F2). by exists (Stop r), s2, c2.
Qed.

Lemma announce_sim fuel ticks : sim always (sys_clock_announce fn fuel ticks) (Timeout.sys_clock_announce fn' fuel ticks).
Proof.
  intros s c H _. unfold sys_clock_announce, Timeout.sys_clock_announce, on_clock. rewrite !bind_modify. cbn [clk set_clk clock_clock].
  assert (H1 : agrees (set_announce_remaining ticks s) (Timeout.set_announce_remaining ticks c)).
  { destruct H as [R K X A E1 E2 E3 E4 E5 E6]. by split. }
  destruct (loop_sim fuel _ _ H1 I) as (o & s2 & c2 & E1 & E2 & H2). destruct o as [[]|r].
  2: { rewrite (bind_stop _ _ _ _ _ E1), (bind_stop _ _ _ _ _ E2). by exists (Stop r), s2, c2. }
  rewrite (bind_done _ _ _ _ _ E1), (bind_done _ _ _ _ _ E2), (bind_done _ _ _ _ _ (first_run _ _ H2)), head_ids.
  assert (R : exists s3, (if negb (match head (Timeout.timeout_list c2) with Some t => to_id t | None => NULL end =? NULL)
     then d ← dticks (match head (Timeout.timeout_list c2) with Some t => to_id t | None => NULL end); left ← gets announce_remaining;
       set_dticks (match head (Timeout.timeout_list c2) with Some t => to_id t | None => NULL end) (d - left)
     else mret tt) s2 = (Done tt, s3) /\
    agrees s3 (match Timeout.timeout_list c2 with
      | t :: l => set_timeout_list (mk_timeout (to_id t) (Timeout.dticks t - Timeout.announce_remaining c2) :: l) c2 | [] => c2 end)).
  { destruct (Timeout.timeout_list c2) as [|t k] eqn:El; cbn [head]; [by exists s2|].
    assert (Ht : t ∈ Timeout.timeout_list c2) by (rewrite El; left). destruct (queued_known _ _ _ H2 Ht) as [Kt Nt]. rewrite Nt. cbn [negb].
    rewrite (bind_done _ _ _ _ _ (dticks_run _ _ _ H2 Ht)), bind_gets, (ag_announce _ _ H2). eexists. split; [by apply (set_dticks_run _ _ _ _ H2)|].
    by apply (agrees_ticks s2 c2 [] t k). }
  destruct R as (s3 & E3 & H3). rewrite (bind_done _ _ _ _ _ E3), !bind_modify. unfold advance. cbv zeta.
  set (c3 := match Timeout.timeout_list c2 with [] => _ | _ => _ end) in *.
  assert (H4 : agrees (set_announce_remaining 0 (set_curr_tick (curr_tick s3 + announce_remaining s3) s3))
    (Timeout.set_announce_remaining 0 (Timeout.set_curr_tick (Timeout.curr_tick c3 + Timeout.announce_remaining c3) c3))).
  { destruct H3 as [R K X A X1 X2 X3 X4 X5 X6]. split; try done. cbn. by rewrite X1, X2. }
  rewrite (bind_done _ _ _ _ _ (next_timeout_run _ _ H4)). exists (Done tt). do 2 eexists. split; [done|]. split; [done|].
  by apply programmed_agrees.
Qed.
End announcing.
End timeouts.

(** C26. The functions of the queue of timeouts, with
    the nodes they link and unlink and the fields they change in place, do
    what [Timeout] says they do on lists: started on pointers that form the
    queue, whatever other lists are in the heap, adding an idle timeout,
    aborting one, asking for the time left and announcing ticks (with
    callbacks that themselves agree, for instance by adding timeouts again)
    never go through a bad pointer, return the same results, and end with
    pointers that form the queue of the model. *)
Theorem timeouts_on_pointers T F G fn fn' : G ## T ->
  (forall t, t ∈ T -> sim T F G (idle T t) (fn t) (fn' t)) ->
  (forall to t, sim T F G (idle T to) (Timeouts.z_add_timeout to t) (modify (z_add_timeout to t))) /\
  (forall to, to ∈ T ->
     sim T F G always (Timeouts.z_abort_timeout to) (fun c => let '(r, c') := z_abort_timeout to c in (Done r, c'))) /\
  (forall to, to ∈ T -> sim T F G always (Timeouts.timeout_rem to) (gets (timeout_rem to))) /\
  (forall fuel ticks, sim T F G always (Timeouts.sys_clock_announce fn fuel ticks) (sys_clock_announce fn' fuel ticks)).
Proof.
  intros HG Hfn. split_and!; intros.
  - by apply add_sim.
  - by apply abort_sim.
  - by apply rem_sim.
  - by apply announce_sim.
Qed.

(** An empty queue and two timeouts, of which the first comes back. *)
Definition demo_state : Timeouts.state :=
  Timeouts.mk_state (mk_heap {[1 := 1; 10 := NULL; 20 := NULL]} {[1 := 1; 10 := NULL; 20 := NULL]}) {[10 := 0; 20 := 0]} 0 0 0 0 [] [].
Definition demo_clock : clock := mk_clock 0 [] 0 0 0 [] [].
Definition demo_timeouts : gset Z := {[10; 20]}.

Lemma demo_timeout t : t ∈ demo_timeouts -> t = 10 \/ t = 20.
Proof. unfold demo_timeouts. rewrite elem_of_union, !elem_of_singleton. done. Qed.

Lemma demo_agrees : agrees demo_timeouts ∅ ∅ demo_state demo_clock.
Proof.
  split; try done.
  - assert (Hu : forall t, t ∈ unlinked (lists_of demo_timeouts ∅ ∅ []) -> t = 10 \/ t = 20).
    { intros t. cbn. rewrite elem_of_union, elem_of_difference. intros [[H _]|H]; [by apply demo_timeout|by apply elem_of_empty in H]. }
    assert (Hc : forall a l, contents (lists_of demo_timeouts ∅ ∅ []) !! a = Some l -> a = 1 /\ l = []).
    { intros a l H. cbn in H. apply lookup_insert_Some in H as [[<- <-]|[_ H]]; [done|]. by rewrite lookup_empty in H. }
    split.
    + done.
    + intros a l [-> ->]%Hc. split; [repeat constructor; apply not_elem_of_nil|by repeat constructor].
    + intros a b l k x [-> ->]%Hc [-> ->]%Hc. done.
    + intros n [->| ->]%Hu; done.
    + intros a l n [-> ->]%Hc. rewrite list_elem_of_singleton. intros -> Hn%Hu. lia.
  - intros t Ht. by apply not_elem_of_nil in Ht.
  - intros t Ht. by apply not_elem_of_nil in Ht.
  - intros t [->| ->]%demo_timeout; by eexists.
Qed.

Definition again (t : Z) : M Timeouts.state unit := if t =? 10 then Timeouts.z_add_timeout 10 3 else mret tt.
Definition again' (t : Z) : M clock unit := if t =? 10 then modify (z_add_timeout 10 3) else mret tt.

Lemma timeouts_on_pointers_witness : exists s1 s2,
  Timeouts.z_add_timeout 10 4 demo_state = (Done tt, s1) /\
  Timeouts.sys_clock_announce again 9 12 s1 = (Done tt, s2) /\ Timeouts.fired s2 = [(10, 5); (10, 9)].
Proof.
  destruct (timeouts_on_pointers demo_timeouts ∅ ∅ again again') as (H1 & _ & _ & H4).
  - apply disjoint_empty_l.
  - intros t _. unfold again, again'. destruct (Z.eqb_spec t 10) as [->|]; [apply add_sim, disjoint_empty_l|].
    intros s c H _. by exists (Done tt), s, c.
  - destruct (H1 10 4 demo_state demo_clock demo_agrees) as (o1 & s1 & c1 & A1 & B1 & R1).
    { split; [apply elem_of_union; left; by apply elem_of_singleton|apply not_elem_of_nil]. }
    destruct (H4 9%nat 12 s1 c1 R1 I) as (o2 & s2 & c2 & A2 & B2 & R2). injection B1 as <- <-.
    vm_compute in B2. injection B2 as <- <-. exists s1, s2. split; [exact A1|]. split; [exact A2|]. by rewrite (ag_fired _ _ _ _ _ R2).
Defined.

(** ** Wait queues (kernel/sched.c) *)
Module WaitQueues.
Section priq.
(** The priorities of the threads, which a queue only reads. *)
Context (prio_at : Z -> Z).

Definition z_sched_prio_cmp (thread_1 thread_2 : Z) : Z :=
  let b1 := prio_at thread_1 in
  let b2 := prio_at thread_2 in
  if negb (b1 =? b2) then b2 - b1 else 0.

(** The loop over the queue and what follows it. *)
Fixpoint add_loop (fuel : nat) (pq thread t : Z) : M heap unit :=
  match fuel with
  | O => stop_with OutOfFuel
  | S fuel =>
      if t =? NULL then sys_dlist_append pq thread
      else if 0 <? z_sched_prio_cmp thread t then sys_dlist_insert t thread
      else t ← sys_dlist_peek_next pq t; add_loop fuel pq thread t
  end.

Definition z_priq_dumb_add (pq thread : Z) : M heap unit :=
  t ← sys_dlist_peek_head pq;
  fuel ← gets (fun h => size (nexts h));
  add_loop fuel pq thread t.

Definition z_priq_dumb_remove (thread : Z) : M heap unit := sys_dlist_remove thread.

Definition z_priq_dumb_best (pq : Z) : M heap Z := sys_dlist_peek_head pq.

(** [z_unpend_first_thread], as far as the queue is concerned. *)
Definition unpend_first (pq : Z) : M heap Z :=
  thread ← z_priq_dumb_best pq;
  if negb (thread =? NULL) then z_priq_dumb_remove thread;; mret thread else mret thread.
End priq.
End WaitQueues.

Section wait_queues.
Import WaitQ.
Context (prio_at : Z -> Z) (h : heap) (A : lists) (HR : represents h A).

(** The address of a thread. *)
Definition addr (t : k_thread) : Z := Z.of_nat (tid t).
Definition addrs (q : list k_thread) : list Z := map addr q.

Lemma add_walk fuel pq thread l k : contents A !! pq = Some (l ++ k) -> thread ∈ unlinked A -> (length k < fuel)%nat ->
  let higher x := 0 <? WaitQueues.z_sched_prio_cmp prio_at thread x in
  exists h', WaitQueues.add_loop prio_at fuel pq thread (List.hd NULL k) h = (Done tt, h') /\
  represents h' (mk_lists (<[pq := l ++ insert_where higher thread k]> (contents A)) (unlinked A ∖ {[thread]})).
Proof.
  intros Hq Ht Hf higher. revert l k Hq Hf. induction fuel as [|fuel IH]; intros l k Hq Hf; [lia|].
  cbn [WaitQueues.add_loop]. destruct k as [|x k]; cbn [List.hd insert_where].
  - change (NULL =? NULL) with true. cbv iota. eexists. split; [apply (append_run h A HR pq l); [by rewrite app_nil_r in Hq|done]|].
    by apply (rep_link h A HR pq l []).
  - rewrite (proj2 (Z.eqb_neq _ _)). 2: { eapply node_not_null; [done|exact Hq|]. right. apply elem_of_app. right. left. }
    fold (higher x). destruct (higher x).
    + eexists. split; [|by apply (rep_link h A HR pq l (x :: k))].
      apply (insert_run h A HR pq l (x :: k)); [done|done|]. apply (read_node _ _ HR _ _ _ _ Hq).
    + rewrite (bind_done _ _ _ _ _ (peek_next_run _ _ HR _ _ _ _ Hq)).
      destruct (IH (l ++ [x]) k) as (h' & E & R); [by rewrite <- app_assoc|cbn in Hf; lia|].
      exists h'. split; [done|]. by rewrite <- app_assoc in R.
Qed.

Lemma insert_where_prio t q : (forall x, x = t \/ x ∈ q -> prio_at (addr x) = prio x) ->
  insert_where (fun x => 0 <? WaitQueues.z_sched_prio_cmp prio_at (addr t) x) (addr t) (addrs q) = addrs (z_priq_dumb_add q t).
Proof.
  intros Hp. induction q as [|x q IH]; [done|]. cbn. unfold WaitQueues.z_sched_prio_cmp at 1. cbv zeta.
  rewrite (Hp t (or_introl eq_refl)), (Hp x ltac:(right; left)). unfold WaitQ.z_sched_prio_cmp.
  destruct (prio t =? prio x); cbn [negb]; (destruct (0 <? _); cbn; [done|]); f_equal; apply IH;
    (intros y Hy; apply Hp; destruct Hy as [Hy|Hy]; [by left|right; by right]).
Qed.

(** A wait queue as a linked list: adding a
    thread links it in front of the first thread of lower priority, taking
    the first thread off unlinks it and returns it, both as the model of
    semaphores has it, and no other list in the heap changes. *)
Theorem wait_queues_on_pointers pq q t :
  wf q -> contents A !! pq = Some (addrs q) -> addr t ∈ unlinked A -> (forall x, x = t \/ x ∈ q -> prio_at (addr x) = prio x) ->
  (exists h', WaitQueues.z_priq_dumb_add prio_at pq (addr t) h = (Done tt, h') /\
     represents h' (mk_lists (<[pq := addrs (z_priq_dumb_add q t)]> (contents A)) (unlinked A ∖ {[addr t]}))) /\
  match z_unpend_first_thread q with
  | None => WaitQueues.unpend_first pq h = (Done NULL, h)
  | Some (x, q') => exists h', WaitQueues.unpend_first pq h = (Done (addr x), h') /\
      represents h' (mk_lists (<[pq := addrs q']> (contents A)) ({[addr x]} ∪ unlinked A))
  end.
Proof.
  intros Hw Hq Ht Hp. split.
  - unfold WaitQueues.z_priq_dumb_add. rewrite (bind_done _ _ _ _ _ (peek_head_run _ _ HR _ _ Hq)), bind_gets.
    destruct (add_walk (size (nexts h)) pq (addr t) [] (addrs q) Hq Ht (list_fits _ _ _ _ HR Hq)) as (h' & E & R).
    exists h'. split; [done|]. cbn [app] in R. by rewrite (insert_where_prio t q Hp) in R.
  - unfold WaitQueues.unpend_first, WaitQueues.z_priq_dumb_best, WaitQueues.z_priq_dumb_remove.
    rewrite (bind_done _ _ _ _ _ (peek_head_run _ _ HR _ _ Hq)). destruct q as [|x q]; [done|]. rewrite (unpend_head x q Hw).
    cbn [addrs map List.hd]. rewrite (proj2 (Z.eqb_neq _ _)).
    2: { eapply node_not_null; [done|exact Hq|]. right. left. }
    cbn [negb]. rewrite (bind_done _ _ _ _ _ (remove_run h A HR pq [] (addrs q) (addr x) Hq)). eexists. split; [done|].
    by apply (rep_unlink h A HR pq []).
Qed.
End wait_queues.

Lemma wait_queues_on_pointers_witness : exists h', WaitQueues.z_priq_dumb_add (fun _ => 5) 100 2 demo_heap = (Done tt, h').
Proof.
  destruct (wait_queues_on_pointers (fun _ => 5) demo_heap demo_lists demo_represents 100 [] (WaitQ.mk_thread 2 5)) as [(h' & E & _) _].
  - split; constructor.
  - done.
  - by vm_compute.
  - intros x [->|Hx]; [done|by apply not_elem_of_nil in Hx].
  - by exists h'.
Defined.
