(* ===== verification/TimeUnits.v ===== *)
(** * Conversion of time units (include/sys/time_units.h)

    [z_tmcvt], which every conversion between ticks, milliseconds and cycles
    is an instance of: three expressions, chosen by how the frequencies divide
    each other, with 32 or 64 bits, for one rounded fraction. *)
From S2P Require Import Prelude.
From stdpp Require Import prelude numbers.
From Stdlib Require Import ZArith Lia.
Open Scope Z_scope.

Definition u64 (x : Z) : Z := x mod 2 ^ 64.

Definition z_tmcvt (t from_hz to_hz : Z) (const_hz result32 round_up round_off : bool) : Z :=
  let mul_ratio := const_hz && (from_hz <? to_hz) && (to_hz mod from_hz =? 0) in
  let div_ratio := const_hz && (to_hz <? from_hz) && (from_hz mod to_hz =? 0) in
  if from_hz =? to_hz then (if result32 then u32 t else t)
  else
    let off :=
      if negb mul_ratio then
        let rdivisor := if div_ratio then from_hz / to_hz else from_hz in
        if round_up then u32 (rdivisor - 1) else if round_off then rdivisor / 2 else 0
      else 0 in
    if div_ratio then
      let t := u64 (t + off) in
      if result32 && (t <? 2 ^ 32) then u32 t / (from_hz / to_hz) else t / (from_hz / to_hz)
    else if mul_ratio then
      if result32 then u32 (u32 t * (to_hz / from_hz)) else u64 (t * (to_hz / from_hz))
    else
      if result32 then u32 (u64 (u64 (t * to_hz) + off) / from_hz) else u64 (u64 (t * to_hz) + off) / from_hz.

Definition Z_HZ_ms : Z := 1000.

(** The conversions between milliseconds and ticks; [hz] is the tick
    frequency, [Z_HZ_ticks]. *)
Definition k_ms_to_ticks_floor64 (hz t : Z) : Z := z_tmcvt t Z_HZ_ms hz true false false false.
Definition k_ms_to_ticks_ceil32 (hz t : Z) : Z := u32 (z_tmcvt t Z_HZ_ms hz true true true false).
Definition k_ms_to_ticks_ceil64 (hz t : Z) : Z := z_tmcvt t Z_HZ_ms hz true false true false.
Definition k_ticks_to_ms_floor32 (hz t : Z) : Z := u32 (z_tmcvt t hz Z_HZ_ms true true false false).
Definition k_ticks_to_ms_floor64 (hz t : Z) : Z := z_tmcvt t hz Z_HZ_ms true false false false.
Definition k_ticks_to_ms_ceil64 (hz t : Z) : Z := z_tmcvt t hz Z_HZ_ms true false true false.

(** ** All conversions

    The header enumerates, by a script given in it, one function for each pair
    of units, rounding and width: [k_ms_to_cyc_floor32] and so on. *)
Inductive unit_ := ms | us | ns | cyc | ticks.
Inductive round := floor | near | ceil.

(** The configuration: the frequencies of cycles and ticks, and whether that of
    the cycles is a constant. *)
Record clock_hz := mk_clock_hz { Z_HZ_cyc : Z; Z_HZ_ticks : Z; Z_CCYC : bool }.

Definition Z_HZ (f : clock_hz) (u : unit_) : Z :=
  match u with ms => Z_HZ_ms | us => 1000000 | ns => 1000000000 | cyc => Z_HZ_cyc f | ticks => Z_HZ_ticks f end.

Definition prefix (u : unit_) : bool := match u with ms | us | ns => true | _ => false end.
Definition is_cyc (u : unit_) : bool := match u with cyc => true | _ => false end.
Definition same_unit (u v : unit_) : bool :=
  match u, v with ms, ms | us, us | ns, ns | cyc, cyc | ticks, ticks => true | _, _ => false end.

(** The pairs there are functions for. *)
Definition convertible (u v : unit_) : bool := negb (same_unit u v) && negb (prefix u && prefix v).

(** [k_<from>_to_<to>_<round>32] and [..64]. *)
Definition convert32 (f : clock_hz) (from to : unit_) (r : round) (t : Z) : Z :=
  u32 (z_tmcvt t (Z_HZ f from) (Z_HZ f to) (if is_cyc from || is_cyc to then Z_CCYC f else true) true
    (match r with ceil => true | _ => false end) (match r with near => true | _ => false end)).
Definition convert64 (f : clock_hz) (from to : unit_) (r : round) (t : Z) : Z :=
  z_tmcvt t (Z_HZ f from) (Z_HZ f to) (if is_cyc from || is_cyc to then Z_CCYC f else true) false
    (match r with ceil => true | _ => false end) (match r with near => true | _ => false end).

(** ** The fraction it stands for *)

Definition rounding (round_up round_off : bool) (d : Z) : Z := if round_up then d - 1 else if round_off then d / 2 else 0.
(** [t * to_hz / from_hz], rounded up, to the nearest or down. *)
Definition converted (t from_hz to_hz : Z) (round_up round_off : bool) : Z :=
  (t * to_hz + rounding round_up round_off from_hz) / from_hz.

Lemma u64_id x : 0 <= x < 2 ^ 64 -> u64 x = x.
Proof. apply Z.mod_small. Qed.
Lemma u32_small x : 0 <= x < 2 ^ 32 -> u32 x = x.
Proof. apply Z.mod_small. Qed.

Lemma rounding_range up off d : 0 < d -> 0 <= rounding up off d < d.
Proof.
  intros Hd. unfold rounding. destruct up, off; try lia.
  split; [apply Z.div_pos; lia|apply Z.div_lt; lia].
Qed.

(** Whole ratios need no common denominator. *)
Lemma converted_div t k to_hz up off : 0 < k -> 0 < to_hz ->
  converted t (k * to_hz) to_hz up off = (t + rounding up off k) / k.
Proof.
  intros Hk Ht. unfold converted.
  assert (H : exists e, 0 <= e < to_hz /\ rounding up off (k * to_hz) = rounding up off k * to_hz + e).
  { unfold rounding. destruct up; [exists (to_hz - 1); lia|]. destruct off; [|exists 0; lia].
    exists (k * to_hz / 2 - k / 2 * to_hz). split; [|lia]. Z.to_euclidean_division_equations. nia. }
  destruct H as (e & He & ->). rewrite Z.add_assoc, <- Z.mul_add_distr_r, (Z.mul_comm k), <- Z.div_div by lia.
  rewrite Z.div_add_l by lia. by rewrite (Z.div_small e), Z.add_0_r by lia.
Qed.

Lemma converted_mul t m from_hz up off : 0 < from_hz -> converted t from_hz (m * from_hz) up off = t * m.
Proof.
  intros Hf. unfold converted. rewrite Z.mul_assoc, Z.div_add_l by lia.
  rewrite (Z.div_small (rounding _ _ _)); [lia|by apply rounding_range].
Qed.

Lemma exact_ratio a b : 0 < b < a -> (a mod b =? 0) = true -> a = a / b * b /\ 0 < a / b.
Proof. intros H E. apply Z.eqb_eq in E. split; Z.to_euclidean_division_equations; nia. Qed.

Lemma tmcvt_converted t from_hz to_hz const_hz (r32 : bool) up off :
  0 <= t -> 0 < from_hz < 2 ^ 32 -> 0 < to_hz < 2 ^ 32 -> t * to_hz + from_hz <= 2 ^ 64 ->
  let x := z_tmcvt t from_hz to_hz const_hz r32 up off in let y := converted t from_hz to_hz up off in
  if r32 then u32 x = u32 y else x = y.
Proof.
  intros Ht Hf Ho Hfit x y. subst x y. unfold z_tmcvt. destruct (Z.eqb_spec from_hz to_hz) as [<-|Hne].
  { assert (E : converted t from_hz from_hz up off = t).
    { rewrite <- (Z.mul_1_l from_hz) at 2. rewrite converted_mul by lia. lia. }
    rewrite E. destruct r32; [|done]. unfold u32. by rewrite Z.mod_mod. }
  pose proof (rounding_range up off from_hz) as Hr. unfold converted in *.
  destruct (const_hz && (to_hz <? from_hz) && (from_hz mod to_hz =? 0)) eqn:Ed.
  { apply andb_true_iff in Ed as [Ed Em]. apply andb_true_iff in Ed as [_ Hlt%Z.ltb_lt].
    destruct (exact_ratio from_hz to_hz) as [Ek Hk]; [lia|done|]. set (k := from_hz / to_hz) in *. clearbody k.
    rewrite (proj2 (Z.ltb_ge from_hz to_hz)) by lia. rewrite andb_false_r. cbn [negb andb].
    fold (converted t from_hz to_hz up off). rewrite Ek, (converted_div t k to_hz up off Hk (proj1 Ho)).
    assert (Hk32 : k < 2 ^ 32) by nia. pose proof (rounding_range up off k Hk) as Hrk.
    replace (if up then u32 (k - 1) else if off then k / 2 else 0) with (rounding up off k)
      by (unfold rounding; destruct up; [rewrite u32_small by lia|]; done).
    rewrite u64_id by nia. destruct r32; [|done]. cbn [andb].
    destruct (Z.ltb_spec (t + rounding up off k) (2 ^ 32)); [|done]. by rewrite (u32_small (t + _)) by lia. }
  destruct (const_hz && (from_hz <? to_hz) && (to_hz mod from_hz =? 0)) eqn:Em; cbn [negb].
  { apply andb_true_iff in Em as [Em Ez]. apply andb_true_iff in Em as [_ Hlt%Z.ltb_lt].
    destruct (exact_ratio to_hz from_hz) as [Ek Hk]; [lia|done|]. set (m := to_hz / from_hz) in *. clearbody m.
    fold (converted t from_hz to_hz up off). rewrite Ek, (converted_mul t m from_hz up off (proj1 Hf)), u64_id by nia. destruct r32; [|done].
    unfold u32. rewrite Z.mod_mod by lia. by rewrite Z.mul_mod_idemp_l by lia. }
  replace (if up then u32 (from_hz - 1) else if off then from_hz / 2 else 0) with (rounding up off from_hz)
    by (unfold rounding; destruct up; [rewrite u32_small by lia|]; done).
  rewrite (u64_id (t * to_hz)), u64_id by nia. destruct r32; [|done]. unfold u32. by rewrite Z.mod_mod by lia.
Qed.

(** For all frequencies and all times for which the fraction fits 64 bits,
    [z_tmcvt] is the exactly rounded fraction, whichever of its expressions is
    selected; the variants for 32-bit results agree with it in the 32 bits
    that are kept, even where the result does not fit them. *)
Theorem time_conversion_exact t from_hz to_hz const_hz up off :
  0 <= t -> 0 < from_hz < 2 ^ 32 -> 0 < to_hz < 2 ^ 32 -> t * to_hz + from_hz <= 2 ^ 64 ->
  z_tmcvt t from_hz to_hz const_hz false up off = converted t from_hz to_hz up off /\
  u32 (z_tmcvt t from_hz to_hz const_hz true up off) = u32 (converted t from_hz to_hz up off).
Proof.
  intros Ht Hf Ho Hfit. split.
  - exact (tmcvt_converted t from_hz to_hz const_hz false up off Ht Hf Ho Hfit).
  - exact (tmcvt_converted t from_hz to_hz const_hz true up off Ht Hf Ho Hfit).
Qed.

(** *** Rounding *)

Definition rounded (r : round) (num den : Z) : Z :=
  match r with floor => num / den | near => (num + den / 2) / den | ceil => - ((- num) / den) end.

Lemma converted_rounded t from_hz to_hz r : 0 < from_hz ->
  converted t from_hz to_hz (match r with ceil => true | _ => false end) (match r with near => true | _ => false end) =
  rounded r (t * to_hz) from_hz.
Proof.
  intros Hf. unfold converted, rounding. destruct r; cbn [rounded]; [by rewrite Z.add_0_r|done|].
  Z.to_euclidean_division_equations. nia.
Qed.

Lemma Z_HZ_range f u : 0 < Z_HZ_cyc f < 2 ^ 32 -> 0 < Z_HZ_ticks f < 2 ^ 32 -> 0 < Z_HZ f u < 2 ^ 32.
Proof. destruct u; cbn; unfold Z_HZ_ms; lia. Qed.

Lemma convert64_rounded f from to r t : 0 < Z_HZ_cyc f < 2 ^ 32 -> 0 < Z_HZ_ticks f < 2 ^ 32 ->
  0 <= t -> t * Z_HZ f to + Z_HZ f from <= 2 ^ 64 ->
  convert64 f from to r t = rounded r (t * Z_HZ f to) (Z_HZ f from).
Proof.
  intros Hc Hk Ht Hfit. pose proof (Z_HZ_range f from Hc Hk) as Hf. pose proof (Z_HZ_range f to Hc Hk) as Ho.
  unfold convert64. rewrite <- converted_rounded by lia. exact (tmcvt_converted t _ _ _ false _ _ Ht Hf Ho Hfit).
Qed.

(** Up to a finer unit and back down is the identity. *)
Lemma up_and_down t a b : 0 <= t -> 0 < a <= b -> rounded floor (rounded ceil (t * b) a * a) b = t.
Proof. intros Ht Hab. cbn [rounded]. Z.to_euclidean_division_equations. nia. Qed.

(** C29. Each of the functions the header enumerates, for all
    frequencies of ticks and cycles, constant or not: the 64-bit variant is
    the fraction, rounded as its name says, whenever the product fits 64 bits;
    the 32-bit variant is that modulo [2 ^ 32]. Converting to a unit that is
    not coarser, rounding up, and back, rounding down, gives the time again. *)
Theorem conversions_exact f from to r t :
  0 < Z_HZ_cyc f < 2 ^ 32 -> 0 < Z_HZ_ticks f < 2 ^ 32 -> convertible from to = true ->
  0 <= t -> t * Z_HZ f to + Z_HZ f from <= 2 ^ 64 ->
  convert64 f from to r t = rounded r (t * Z_HZ f to) (Z_HZ f from) /\
  convert32 f from to r t = u32 (rounded r (t * Z_HZ f to) (Z_HZ f from)) /\
  (Z_HZ f from <= Z_HZ f to -> t * Z_HZ f to + Z_HZ f from + Z_HZ f to <= 2 ^ 64 ->
   convert64 f to from floor (convert64 f from to ceil t) = t).
Proof.
  intros Hc Hk _ Ht Hfit. pose proof (Z_HZ_range f from Hc Hk) as Hf. pose proof (Z_HZ_range f to Hc Hk) as Ho.
  split; [by apply convert64_rounded|]. split.
  - unfold convert32. rewrite <- converted_rounded by lia. exact (tmcvt_converted t _ _ _ true _ _ Ht Hf Ho Hfit).
  - intros Hle Hfit'. rewrite (convert64_rounded f from to ceil) by done.
    assert (H : 0 <= rounded ceil (t * Z_HZ f to) (Z_HZ f from) /\
      rounded ceil (t * Z_HZ f to) (Z_HZ f from) * Z_HZ f from <= t * Z_HZ f to + Z_HZ f from).
    { cbn [rounded]. Z.to_euclidean_division_equations. nia. }
    rewrite convert64_rounded by (done || lia). apply up_and_down; lia.
Qed.

(** Milliseconds and ticks of a clock with 32768 ticks a second. *)
Lemma conversions_exact_witness :
  let f := mk_clock_hz 64000000 32768 true in
  convert64 f ms ticks ceil 12345 = rounded ceil (12345 * 32768) 1000 /\
  convert32 f ms ticks ceil 12345 = u32 (rounded ceil (12345 * 32768) 1000) /\
  (1000 <= 32768 -> 12345 * 32768 + 1000 + 32768 <= 2 ^ 64 ->
   convert64 f ticks ms floor (convert64 f ms ticks ceil 12345) = 12345).
Proof.
  intros f. apply (conversions_exact f ms ticks ceil 12345); [cbn; lia|cbn; lia|reflexivity|lia|vm_compute; discriminate].
Defined.
