(* ===== verification/Sched.v ===== *)
(** * The scheduler (kernel/sched.c)

    Threads, the ready queue, wait queues and thread timeouts on one
    processor, configured as the samples are: list-based queues, time slices,
    no deadlines, no meta-interrupt priorities, and a context switch that is
    not atomic (ARM). A switch is requested by pending an exception, the
    PendSV of the architecture; it happens when that exception runs, and
    interrupts may come first.

    The code runs with interrupts locked inside every function, so a function
    is one step; what a thread does after it is switched in again is the next
    call. Tracing and assertions are left out. *)
From S2P Require Import Prelude DList KSem Timeout TimeUnits.
From stdpp Require Import prelude list numbers gmap sorting.
From Stdlib Require Import ZArith Lia Sorted.
Open Scope Z_scope.

(** ** State *)

(** The wait queue of an object, or that of the threads that join a thread. *)
Definition wait_q : Type := Z + Z.
Definition join_queue (t : Z) : wait_q := inr t.

(** A list a thread's node can be in. *)
Inductive list_id := Runq | Waitq (q : wait_q).
#[export] Instance list_id_eq_dec : EqDecision list_id.
Proof. solve_decision. Defined.

(** The fields of [struct k_thread]; [qnode] is the list its node is linked in. *)
Record k_thread := mk_thread {
  thread_state : Z;
  prio : Z;
  sched_locked : Z;
  pended_on : option wait_q;
  swap_return_value : Z;
  qnode : option list_id }.

Definition set_thread_state (x : Z) (t : k_thread) : k_thread :=
  mk_thread x (prio t) (sched_locked t) (pended_on t) (swap_return_value t) (qnode t).
Definition set_prio (x : Z) (t : k_thread) : k_thread :=
  mk_thread (thread_state t) x (sched_locked t) (pended_on t) (swap_return_value t) (qnode t).
Definition set_sched_locked (x : Z) (t : k_thread) : k_thread :=
  mk_thread (thread_state t) (prio t) x (pended_on t) (swap_return_value t) (qnode t).
Definition set_pended_on (x : option wait_q) (t : k_thread) : k_thread :=
  mk_thread (thread_state t) (prio t) (sched_locked t) x (swap_return_value t) (qnode t).
Definition set_swap_return_value (x : Z) (t : k_thread) : k_thread :=
  mk_thread (thread_state t) (prio t) (sched_locked t) (pended_on t) x (qnode t).
Definition set_qnode (x : option list_id) (t : k_thread) : k_thread :=
  mk_thread (thread_state t) (prio t) (sched_locked t) (pended_on t) (swap_return_value t) x.

(** [_kernel], the static variables of the file, and the processor: [in_isr]
    while an interrupt is served, [pendsv] while a switch is requested. *)
Record kernel := mk_kernel {
  thr : Z -> k_thread;
  queues : list_id -> list Z;
  current : Z;
  cache : Z;
  kclk : clock;
  slice_time : Z;
  slice_max_prio : Z;
  pending_current : option Z;
  in_isr : bool;
  pendsv : bool }.

Definition set_thr (x : Z -> k_thread) (s : kernel) : kernel :=
  mk_kernel x (queues s) (current s) (cache s) (kclk s) (slice_time s) (slice_max_prio s) (pending_current s) (in_isr s) (pendsv s).
Definition set_queues (x : list_id -> list Z) (s : kernel) : kernel :=
  mk_kernel (thr s) x (current s) (cache s) (kclk s) (slice_time s) (slice_max_prio s) (pending_current s) (in_isr s) (pendsv s).
Definition set_current (x : Z) (s : kernel) : kernel :=
  mk_kernel (thr s) (queues s) x (cache s) (kclk s) (slice_time s) (slice_max_prio s) (pending_current s) (in_isr s) (pendsv s).
Definition set_cache (x : Z) (s : kernel) : kernel :=
  mk_kernel (thr s) (queues s) (current s) x (kclk s) (slice_time s) (slice_max_prio s) (pending_current s) (in_isr s) (pendsv s).
Definition set_kclk (x : clock) (s : kernel) : kernel :=
  mk_kernel (thr s) (queues s) (current s) (cache s) x (slice_time s) (slice_max_prio s) (pending_current s) (in_isr s) (pendsv s).
Definition set_slice (x y : Z) (s : kernel) : kernel :=
  mk_kernel (thr s) (queues s) (current s) (cache s) (kclk s) x y (pending_current s) (in_isr s) (pendsv s).
Definition set_pending_current (x : option Z) (s : kernel) : kernel :=
  mk_kernel (thr s) (queues s) (current s) (cache s) (kclk s) (slice_time s) (slice_max_prio s) x (in_isr s) (pendsv s).
Definition set_in_isr (x : bool) (s : kernel) : kernel :=
  mk_kernel (thr s) (queues s) (current s) (cache s) (kclk s) (slice_time s) (slice_max_prio s) (pending_current s) x (pendsv s).
Definition set_pendsv (x : bool) (s : kernel) : kernel :=
  mk_kernel (thr s) (queues s) (current s) (cache s) (kclk s) (slice_time s) (slice_max_prio s) (pending_current s) (in_isr s) x.

#[export] Instance kernel_has_clock : HasClock kernel.
Proof. refine {| clk := kclk; set_clk := set_kclk |}; done. Defined.

Definition upd {A} `{EqDecision A} {B} (f : A -> B) (x : A) (y : B) : A -> B := fun z => if decide (z = x) then y else f z.

Definition on_thread (t : Z) (f : k_thread -> k_thread) : M kernel unit := modify (fun s => set_thr (upd (thr s) t (f (thr s t))) s).
Definition on_clk (f : clock -> clock) : M kernel unit := modify (fun s => set_kclk (f (kclk s)) s).

(** ** Thread states (include/kernel_structs.h, kernel/include/ksched.h) *)

Definition THREAD_DUMMY : Z := 1.
Definition THREAD_PENDING : Z := 2.
Definition THREAD_PRESTART : Z := 4.
Definition THREAD_DEAD : Z := 8.
Definition THREAD_SUSPENDED : Z := 16.
Definition THREAD_ABORTING : Z := 32.
Definition THREAD_QUEUED : Z := 128.

Definition z_is_thread_state_set (t : k_thread) (state : Z) : bool := negb (Z.land (thread_state t) state =? 0).
Definition z_is_thread_suspended (t : k_thread) : bool := z_is_thread_state_set t THREAD_SUSPENDED.
Definition z_is_thread_pending (t : k_thread) : bool := z_is_thread_state_set t THREAD_PENDING.
Definition z_is_thread_queued (t : k_thread) : bool := z_is_thread_state_set t THREAD_QUEUED.
Definition z_has_thread_started (t : k_thread) : bool := negb (z_is_thread_state_set t THREAD_PRESTART).
Definition is_dead (t : k_thread) : bool := z_is_thread_state_set t THREAD_DEAD.
Definition z_is_thread_prevented_from_running (t : k_thread) : bool :=
  z_is_thread_state_set t
    (Z.lor (Z.lor (Z.lor (Z.lor THREAD_PENDING THREAD_PRESTART) THREAD_DEAD) THREAD_DUMMY) THREAD_SUSPENDED).

Definition z_set_thread_states (states : Z) (t : k_thread) : k_thread := set_thread_state (Z.lor (thread_state t) states) t.
Definition z_reset_thread_states (states : Z) (t : k_thread) : k_thread := set_thread_state (Z.land (thread_state t) (Z.lnot states)) t.
Definition z_mark_thread_as_suspended (t : Z) : M kernel unit := on_thread t (z_set_thread_states THREAD_SUSPENDED).
Definition z_mark_thread_as_not_suspended (t : Z) : M kernel unit := on_thread t (z_reset_thread_states THREAD_SUSPENDED).
Definition z_mark_thread_as_started (t : Z) : M kernel unit := on_thread t (z_reset_thread_states THREAD_PRESTART).
Definition z_mark_thread_as_pending (t : Z) : M kernel unit := on_thread t (z_set_thread_states THREAD_PENDING).
Definition z_mark_thread_as_not_pending (t : Z) : M kernel unit := on_thread t (z_reset_thread_states THREAD_PENDING).

Definition z_is_thread_timeout_active (t : Z) (s : kernel) : bool := is_linked t (kclk s).
Definition z_is_thread_ready (t : Z) (s : kernel) : bool :=
  negb (z_is_thread_prevented_from_running (thr s t) || z_is_thread_timeout_active t s).

(** Priority and lock count end to end, little-endian. *)
Definition preempt (t : k_thread) : Z := Z.lor (u8 (prio t)) (Z.shiftl (sched_locked t) 8).
Definition NON_PREEMPT_THRESHOLD : Z := 0x80.
Definition PREEMPT_THRESHOLD : Z := NON_PREEMPT_THRESHOLD - 1.

(** ** Queues *)

Definition is_preempt (t : k_thread) : bool := preempt t <=? PREEMPT_THRESHOLD.
Definition is_metairq (t : k_thread) : bool := false.

Definition z_sched_prio_cmp (thread_1 thread_2 : k_thread) : Z :=
  if negb (prio thread_1 =? prio thread_2) then prio thread_2 - prio thread_1 else 0.

(** Linking a node that is in a list would ruin that list; the model stops
    there, as at a null pointer. *)
Definition z_priq_dumb_add (l : list_id) (t : Z) : M kernel unit := fun s =>
  match qnode (thr s t) with
  | Some _ => (Stop NullDeref, s)
  | None =>
      (Done tt, set_thr (upd (thr s) t (set_qnode (Some l) (thr s t)))
        (set_queues (upd (queues s) l (insert_where (fun x => 0 <? z_sched_prio_cmp (thr s t) (thr s x)) t (queues s l))) s))
  end.

(** The node leaves the list it is in, whichever that is. *)
Definition z_priq_dumb_remove (t : Z) : M kernel unit := fun s =>
  match qnode (thr s t) with
  | None => (Stop NullDeref, s)
  | Some l =>
      (Done tt, set_thr (upd (thr s) t (set_qnode None (thr s t)))
        (set_queues (upd (queues s) l (filter (fun x => x <> t) (queues s l))) s))
  end.

Definition z_priq_dumb_best (l : list_id) : M kernel (option Z) := gets (fun s => head (queues s l)).

Definition queue_thread (t : Z) : M kernel unit :=
  on_thread t (z_set_thread_states THREAD_QUEUED);;
  z_priq_dumb_add Runq t.

Definition dequeue_thread (t : Z) : M kernel unit :=
  on_thread t (z_reset_thread_states THREAD_QUEUED);;
  z_priq_dumb_remove t.

(** [if (z_is_thread_queued(thread)) dequeue_thread(...)]. *)
Definition dequeue_if_queued (t : Z) : M kernel unit :=
  q ← gets (fun s => z_is_thread_queued (thr s t));
  when q (dequeue_thread t).

Section sched.
(** The idle thread, and the frequency of ticks. *)
Context (idle_thread hz : Z).

Definition z_is_idle_thread_object (t : Z) : bool := t =? idle_thread.

Definition should_preempt (t : Z) (preempt_ok : bool) (s : kernel) : bool :=
  preempt_ok
  || z_is_thread_prevented_from_running (thr s (current s))
  || z_is_thread_timeout_active t s
  || (is_preempt (thr s (current s)) || is_metairq (thr s t)).

Definition next_up : M kernel Z :=
  thread ← z_priq_dumb_best Runq;
  mret (default idle_thread thread).

(** *** Time slices *)

Definition set_slice_ticks (x : Z) (c : clock) : clock :=
  mk_clock (curr_tick c) (timeout_list c) (announce_remaining c) (hw_elapsed c) x (programmed c) (fired c).

Definition z_reset_time_slice : M kernel unit :=
  st ← gets slice_time;
  when (negb (st =? 0))
    (on_clk (fun c => set_slice_ticks (st + sys_clock_elapsed c) c);;
     on_clk (z_set_timeout_expiry st false)).

Definition k_sched_time_slice_set (slice p : Z) : M kernel unit :=
  on_clk (set_slice_ticks 0);;
  let st := k_ms_to_ticks_ceil32 hz slice in
  let st := if 0 <? slice then Z.max 2 st else st in
  modify (set_slice st p);;
  z_reset_time_slice.

Definition update_cache (preempt_ok : bool) : M kernel unit :=
  thread ← next_up;
  ok ← gets (should_preempt thread preempt_ok);
  if ok : bool then
    cur ← gets current;
    when (negb (thread =? cur)) z_reset_time_slice;;
    modify (set_cache thread)
  else modify (fun s => set_cache (current s) s).

Definition move_thread_to_end_of_prio_q (t : Z) : M kernel unit :=
  dequeue_if_queued t;;
  queue_thread t;;
  cur ← gets current;
  update_cache (t =? cur).

Definition sliceable (t : Z) (s : kernel) : bool :=
  is_preempt (thr s t)
  && negb (z_is_thread_prevented_from_running (thr s t))
  && negb (prio (thr s t) <? slice_max_prio s)
  && negb (z_is_idle_thread_object t).

Definition z_time_slice (ticks : Z) : M kernel unit :=
  p ← gets (fun s => bool_decide (pending_current s = Some (current s)));
  if p : bool then z_reset_time_slice
  else
    modify (set_pending_current None);;
    st ← gets slice_time;
    cur ← gets current;
    sl ← gets (sliceable cur);
    if negb (st =? 0) && sl then
      left ← gets (fun s => slice_ticks (kclk s));
      if left <=? ticks then
        move_thread_to_end_of_prio_q cur;;
        z_reset_time_slice
      else on_clk (set_slice_ticks (left - ticks))
    else on_clk (set_slice_ticks 0).

(** *** Readying *)

Definition ready_thread (t : Z) : M kernel unit :=
  q ← gets (fun s => z_is_thread_queued (thr s t));
  r ← gets (z_is_thread_ready t);
  when (negb q && r)
    (queue_thread t;;
     update_cache false).

Definition z_ready_thread (t : Z) : M kernel unit := ready_thread t.
Definition z_move_thread_to_end_of_prio_q (t : Z) : M kernel unit := move_thread_to_end_of_prio_q t.

(** *** Switching *)

(** [z_swap] with [arch_swap]: the value the thread finds when it is switched
    in again, and the request for the switch. *)
Definition z_swap : M kernel unit :=
  cur ← gets current;
  on_thread cur (set_swap_return_value (- EAGAIN));;
  modify (set_pendsv true).

(** The exception that switches. *)
Definition z_arm_pendsv : M kernel unit :=
  modify (fun s => set_pendsv false (set_current (cache s) s)).

(** The end of an interrupt. *)
Definition z_arm_exc_exit : M kernel unit :=
  modify (fun s => set_in_isr false (if current s =? cache s then s else set_pendsv true s)).

(** Interrupts are not locked by the caller. *)
Definition resched : M kernel bool := gets (fun s => negb (in_isr s)).
Definition need_swap : M kernel bool := gets (fun s => negb (cache s =? current s)).

Definition z_reschedule : M kernel unit :=
  r ← resched;
  n ← need_swap;
  when (r && n) z_swap.

Definition z_reschedule_irqlock : M kernel unit :=
  r ← resched;
  when r z_swap.
Definition z_reschedule_unlocked : M kernel unit := z_reschedule_irqlock.

(** *** Starting, suspending and resuming *)

Definition z_add_thread_timeout (t ticks : Z) : M kernel unit := on_clk (z_add_timeout t ticks).
Definition z_abort_thread_timeout (t : Z) : M kernel Z := fun s =>
  let '(r, c) := z_abort_timeout t (kclk s) in (Done r, set_kclk c s).

Definition z_sched_start (t : Z) : M kernel unit :=
  started ← gets (fun s => z_has_thread_started (thr s t));
  if started : bool then mret tt
  else
    z_mark_thread_as_started t;;
    ready_thread t;;
    z_reschedule.

Definition k_thread_suspend (t : Z) : M kernel unit :=
  z_abort_thread_timeout t;;
  dequeue_if_queued t;;
  z_mark_thread_as_suspended t;;
  cur ← gets current;
  update_cache (t =? cur);;
  when (t =? cur) z_reschedule_unlocked.

Definition k_thread_resume (t : Z) : M kernel unit :=
  susp ← gets (fun s => z_is_thread_suspended (thr s t));
  if negb susp then mret tt
  else
    z_mark_thread_as_not_suspended t;;
    ready_thread t;;
    z_reschedule.

(** *** Pending *)

Definition unready_thread (t : Z) : M kernel unit :=
  dequeue_if_queued t;;
  cur ← gets current;
  update_cache (t =? cur).

Definition add_to_waitq_locked (t : Z) (q : option wait_q) : M kernel unit :=
  unready_thread t;;
  z_mark_thread_as_pending t;;
  match q with
  | None => mret tt
  | Some q =>
      on_thread t (set_pended_on (Some q));;
      z_priq_dumb_add (Waitq q) t
  end.

Definition add_thread_timeout (t ticks : Z) : M kernel unit :=
  when (negb (ticks =? K_TICKS_FOREVER)) (z_add_thread_timeout t ticks).

Definition pend (t : Z) (q : option wait_q) (ticks : Z) : M kernel unit :=
  add_to_waitq_locked t q;;
  add_thread_timeout t ticks.

Definition z_pend_thread (t : Z) (q : option wait_q) (ticks : Z) : M kernel unit := pend t q ticks.

Definition z_pend_curr (q : option wait_q) (ticks : Z) : M kernel unit :=
  cur ← gets current;
  modify (set_pending_current (Some cur));;
  pend cur q ticks;;
  z_swap.

Definition unpend_thread_no_timeout (t : Z) : M kernel unit :=
  z_priq_dumb_remove t;;
  z_mark_thread_as_not_pending t;;
  on_thread t (set_pended_on None).

Definition z_unpend_thread_no_timeout (t : Z) : M kernel unit := unpend_thread_no_timeout t.

(** The timeout of a thread. *)
Definition z_thread_timeout (t : Z) : M kernel unit :=
  killed ← gets (fun s => is_dead (thr s t) || z_is_thread_state_set (thr s t) THREAD_ABORTING);
  if killed : bool then mret tt
  else
    p ← gets (fun s => bool_decide (is_Some (pended_on (thr s t))));
    when p (unpend_thread_no_timeout t);;
    z_mark_thread_as_started t;;
    z_mark_thread_as_not_suspended t;;
    ready_thread t.

Definition z_unpend1_no_timeout (q : wait_q) : M kernel (option Z) :=
  thread ← z_priq_dumb_best (Waitq q);
  match thread with
  | Some t => unpend_thread_no_timeout t;; mret (Some t)
  | None => mret None
  end.

Definition z_unpend_first_thread (q : wait_q) : M kernel (option Z) :=
  thread ← z_priq_dumb_best (Waitq q);
  match thread with
  | Some t => unpend_thread_no_timeout t;; z_abort_thread_timeout t;; mret (Some t)
  | None => mret None
  end.

Definition z_unpend_thread (t : Z) : M kernel unit :=
  z_unpend_thread_no_timeout t;;
  z_abort_thread_timeout t;;
  mret tt.

(** The loop of [z_unpend_all]. *)
Fixpoint z_unpend_all (fuel : nat) (q : wait_q) (need_sched : bool) : M kernel bool :=
  thread ← z_priq_dumb_best (Waitq q);
  match thread with
  | None => mret need_sched
  | Some t =>
      match fuel with
      | O => stop_with OutOfFuel
      | S fuel => z_unpend_thread t;; z_ready_thread t;; z_unpend_all fuel q true
      end
  end.

Definition z_sched_wake (q : wait_q) (swap_retval : Z) : M kernel bool :=
  thread ← z_priq_dumb_best (Waitq q);
  match thread with
  | None => mret false
  | Some t =>
      on_thread t (set_swap_return_value swap_retval);;
      unpend_thread_no_timeout t;;
      z_abort_thread_timeout t;;
      ready_thread t;;
      mret true
  end.

(** *** Priorities *)

Definition z_set_prio (t p : Z) : M kernel bool :=
  need_sched ← gets (z_is_thread_ready t);
  if need_sched : bool then
    dequeue_thread t;;
    on_thread t (set_prio p);;
    queue_thread t;;
    update_cache true;;
    mret true
  else
    on_thread t (set_prio p);;
    mret false.

Definition z_thread_priority_set (t p : Z) : M kernel unit :=
  need_sched ← z_set_prio t p;
  l ← gets (fun s => sched_locked (thr s (current s)));
  when (need_sched && (l =? 0)) z_reschedule_unlocked.

Definition k_thread_priority_get (t : Z) : M kernel Z := gets (fun s => prio (thr s t)).
Definition k_thread_priority_set (t p : Z) : M kernel unit := z_thread_priority_set t p.

Definition z_sched_lock : M kernel unit :=
  cur ← gets current;
  on_thread cur (fun t => set_sched_locked (u8 (sched_locked t - 1)) t).
Definition k_sched_lock : M kernel unit := z_sched_lock.

Definition k_sched_unlock : M kernel unit :=
  cur ← gets current;
  on_thread cur (fun t => set_sched_locked (u8 (sched_locked t + 1)) t);;
  update_cache false;;
  z_reschedule_unlocked.

(** *** Yielding and sleeping *)

Definition k_yield : M kernel unit :=
  cur ← gets current;
  if negb (z_is_idle_thread_object cur) then
    dequeue_thread cur;;
    queue_thread cur;;
    update_cache true;;
    z_swap
  else z_swap.

(** Up to the switch; the result is the tick at which to wake up. *)
Definition z_tick_sleep (ticks : Z) : M kernel (option Z) :=
  if ticks =? 0 then k_yield;; mret None
  else
    expected_wakeup_ticks ← gets (fun s => u32 (ticks + sys_clock_tick_get_32 (kclk s)));
    cur ← gets current;
    modify (set_pending_current (Some cur));;
    unready_thread cur;;
    z_add_thread_timeout cur ticks;;
    z_mark_thread_as_suspended cur;;
    z_swap;;
    mret (Some expected_wakeup_ticks).

(** Behind the switch: the ticks that were not slept. *)
Definition slept (expected_wakeup_ticks : option Z) (s : kernel) : Z :=
  match expected_wakeup_ticks with
  | None => 0
  | Some e => let ticks := e - sys_clock_tick_get_32 (kclk s) in if 0 <? ticks then ticks else 0
  end.

Definition k_sleep (ticks : Z) : M kernel (option Z) :=
  if ticks =? K_TICKS_FOREVER then
    cur ← gets current;
    k_thread_suspend cur;;
    mret None
  else z_tick_sleep ticks.

Definition k_wakeup (t : Z) : M kernel unit :=
  p ← gets (fun s => z_is_thread_pending (thr s t));
  if p : bool then mret tt
  else
    r ← z_abort_thread_timeout t;
    st ← gets (fun s => thread_state (thr s t));
    if (r <? 0) && negb (st =? THREAD_SUSPENDED) then mret tt
    else
      z_mark_thread_as_not_suspended t;;
      z_ready_thread t;;
      isr ← gets in_isr;
      when (negb isr) z_reschedule_unlocked.

Definition k_current_get : M kernel Z := gets current.
Definition k_is_preempt_thread : M kernel bool := gets (fun s => negb (in_isr s) && is_preempt (thr s (current s))).

(** *** Ending *)

(** The loop of [unpend_all]. *)
Fixpoint unpend_all (fuel : nat) (q : wait_q) : M kernel unit :=
  thread ← z_priq_dumb_best (Waitq q);
  match thread with
  | None => mret tt
  | Some t =>
      match fuel with
      | O => stop_with OutOfFuel
      | S fuel =>
          unpend_thread_no_timeout t;;
          z_abort_thread_timeout t;;
          on_thread t (set_swap_return_value 0);;
          ready_thread t;;
          unpend_all fuel q
      end
  end.

Definition end_thread (fuel : nat) (t : Z) : M kernel unit :=
  d ← gets (fun s => is_dead (thr s t));
  when (negb d)
    (on_thread t (z_set_thread_states THREAD_DEAD);;
     on_thread t (z_reset_thread_states THREAD_ABORTING);;
     dequeue_if_queued t;;
     p ← gets (fun s => bool_decide (is_Some (pended_on (thr s t))));
     when p (unpend_thread_no_timeout t);;
     z_abort_thread_timeout t;;
     unpend_all fuel (join_queue t);;
     update_cache true).

Definition z_thread_abort (fuel : nat) (t : Z) : M kernel unit :=
  d ← gets (fun s => is_dead (thr s t));
  if d : bool then mret tt
  else
    end_thread fuel t;;
    cur ← gets current;
    isr ← gets in_isr;
    when ((t =? cur) && negb isr) z_swap.

(** [k_thread_abort] of the architecture. *)
Definition k_thread_abort (fuel : nat) (t : Z) : M kernel unit :=
  cur ← gets current;
  isr ← gets in_isr;
  when ((cur =? t) && isr) (modify (set_pendsv true));;
  z_thread_abort fuel t.

Definition EDEADLK : Z := 33.

(** [None]: the caller waits. *)
Definition k_thread_join (t ticks : Z) : M kernel (option Z) :=
  d ← gets (fun s => is_dead (thr s t));
  if d : bool then mret (Some 0)
  else if ticks =? 0 then mret (Some (- EBUSY))
  else
    cur ← gets current;
    p ← gets (fun s => bool_decide (pended_on (thr s t) = Some (join_queue cur)));
    if (t =? cur) || p then mret (Some (- EDEADLK))
    else
      add_to_waitq_locked cur (Some (join_queue t));;
      add_thread_timeout cur ticks;;
      z_swap;;
      mret None.

(** *** Creating (kernel/thread.c) *)

Definition z_init_thread_base (priority initial_state : Z) (t : k_thread) : k_thread :=
  mk_thread initial_state priority 0 None (swap_return_value t) None.

(** As far as the scheduler is concerned. *)
Definition z_setup_new_thread (t p : Z) : M kernel unit :=
  modify (fun s => set_queues (upd (queues s) (Waitq (join_queue t)) []) s);;
  on_thread t (z_init_thread_base p THREAD_PRESTART).

Definition schedule_new_thread (t delay : Z) : M kernel unit :=
  if delay =? 0 then z_sched_start t else z_add_thread_timeout t delay.

Definition k_thread_create (t p delay : Z) : M kernel unit :=
  z_setup_new_thread t p;;
  when (negb (delay =? K_TICKS_FOREVER)) (schedule_new_thread t delay).

(** *** The timer interrupt *)

Definition timer_interrupt (fuel : nat) (ticks : Z) : M kernel unit :=
  z_time_slice ticks;;
  sys_clock_announce z_thread_timeout fuel ticks.
End sched.
