(* ===== verification/SchedInv.v ===== *)
(** * The scheduler's invariant

    What holds of threads, queues and timeouts whenever no function of the
    scheduler is running, that every call and interrupt keeps it, and that no
    call ever links or unlinks a node it must not. *)
From S2P Require Import Prelude DList KSem Timeout TimeUnits Sched.
From stdpp Require Import prelude list numbers gmap sorting.
From Stdlib Require Import ZArith Lia Sorted.
Open Scope Z_scope.

(** ** State bits *)

Definition common (m m' : Z) : bool := negb (Z.land m m' =? 0).

Lemma has_set m m' t : z_is_thread_state_set (z_set_thread_states m t) m' = z_is_thread_state_set t m' || common m m'.
Proof.
  unfold z_is_thread_state_set, common. cbn. rewrite Z.land_lor_distr_l.
  destruct (Z.eqb_spec (Z.land (thread_state t) m') 0) as [->|H1]; [by rewrite Z.lor_0_l|].
  rewrite (proj2 (Z.eqb_neq _ _)); [done|]. intros E. by apply Z.lor_eq_0_iff in E as [E _].
Qed.

Lemma has_reset m m' t : z_is_thread_state_set (z_reset_thread_states m t) m' = z_is_thread_state_set t (Z.land (Z.lnot m) m').
Proof. unfold z_is_thread_state_set. cbn. by rewrite Z.land_assoc. Qed.

Lemma has_zero t : z_is_thread_state_set t 0 = false.
Proof. unfold z_is_thread_state_set. by rewrite Z.land_0_r. Qed.

Lemma has_lor t m m' : z_is_thread_state_set t (Z.lor m m') = z_is_thread_state_set t m || z_is_thread_state_set t m'.
Proof.
  unfold z_is_thread_state_set. rewrite Z.land_lor_distr_r.
  destruct (Z.eqb_spec (Z.land (thread_state t) m) 0) as [->|H1]; [by rewrite Z.lor_0_l|].
  rewrite (proj2 (Z.eqb_neq _ _)); [done|]. intros E. by apply Z.lor_eq_0_iff in E as [E _].
Qed.

Lemma prevented_bits t : z_is_thread_prevented_from_running t =
  z_is_thread_state_set t THREAD_PENDING || z_is_thread_state_set t THREAD_PRESTART || z_is_thread_state_set t THREAD_DEAD
  || z_is_thread_state_set t THREAD_DUMMY || z_is_thread_state_set t THREAD_SUSPENDED.
Proof. unfold z_is_thread_prevented_from_running. by rewrite !has_lor. Qed.

Lemma has_qnode l t m : z_is_thread_state_set (set_qnode l t) m = z_is_thread_state_set t m.
Proof. done. Qed.
Lemma has_pended q t m : z_is_thread_state_set (set_pended_on q t) m = z_is_thread_state_set t m.
Proof. done. Qed.
Lemma has_prio p t m : z_is_thread_state_set (set_prio p t) m = z_is_thread_state_set t m.
Proof. done. Qed.
Lemma has_retval v t m : z_is_thread_state_set (set_swap_return_value v t) m = z_is_thread_state_set t m.
Proof. done. Qed.
Lemma has_locked v t m : z_is_thread_state_set (set_sched_locked v t) m = z_is_thread_state_set t m.
Proof. done. Qed.
Create Rewrite HintDb state_bits.
#[export] Hint Rewrite has_set has_reset has_qnode has_pended has_prio has_retval has_locked : state_bits.

(** Computes the bits of a state after the changes made to it. *)
Ltac bits :=
  unfold z_is_thread_queued, z_is_thread_pending, z_is_thread_suspended, z_has_thread_started, is_dead in *;
  rewrite ?prevented_bits in *; autorewrite with state_bits in *;
  repeat match goal with
  | |- context [common ?a ?b] => let v := eval vm_compute in (common a b) in change (common a b) with v
  | H : context [common ?a ?b] |- _ => let v := eval vm_compute in (common a b) in change (common a b) with v in H
  | |- context [Z.land (Z.lnot ?a) ?b] => let v := eval vm_compute in (Z.land (Z.lnot a) b) in change (Z.land (Z.lnot a) b) with v
  | H : context [Z.land (Z.lnot ?a) ?b] |- _ => let v := eval vm_compute in (Z.land (Z.lnot a) b) in change (Z.land (Z.lnot a) b) with v in H
  end;
  change THREAD_PENDING with 2 in *; change THREAD_PRESTART with 4 in *; change THREAD_DEAD with 8 in *;
  change THREAD_DUMMY with 1 in *; change THREAD_SUSPENDED with 16 in *; change THREAD_QUEUED with 128 in *;
  change THREAD_ABORTING with 32 in *; rewrite ?has_zero, ?orb_false_r, ?orb_true_r in *.

(** ** The invariant *)

Abbreviation prevented t := (z_is_thread_prevented_from_running t).
Abbreviation queued t := (z_is_thread_queued t).

Section invariant.
Context (idle_thread : Z).

Definition timeout_ids (c : clock) : list Z := map to_id (timeout_list c).

(** Threads, queues and timeouts; those in [x] are just being changed. *)
Record core (x : list Z) (th : Z -> k_thread) (qs : list_id -> list Z) (tl : list Z) : Prop := mk_core {
  c_dup l : NoDup (qs l);
  c_node t l : t ∈ qs l <-> qnode (th t) = Some l;
  c_sorted : StronglySorted (fun a b => prio (th a) <= prio (th b)) (qs Runq);
  c_queued t : queued (th t) = true <-> qnode (th t) = Some Runq;
  c_pend t q : pended_on (th t) = Some q <-> qnode (th t) = Some (Waitq q);
  c_pending t : z_is_thread_pending (th t) = true <-> is_Some (pended_on (th t));
  (** A thread is in the ready queue if and only if it can run. *)
  c_ready t : t ∉ x -> t <> idle_thread -> (queued (th t) = true <-> prevented (th t) = false /\ t ∉ tl);
  c_dead t : t ∉ x -> is_dead (th t) = true -> (t ∉ tl) /\ qnode (th t) = None /\ qs (Waitq (join_queue t)) = [];
  c_idle : prevented (th idle_thread) = false /\ queued (th idle_thread) = false /\ idle_thread ∉ tl;
  c_once : NoDup tl }.

Definition core_of (x : list Z) (s : kernel) : Prop := core x (thr s) (queues s) (timeout_ids (kclk s)).

(** The best ready thread. *)
Definition best (s : kernel) : Z := default idle_thread (head (queues s Runq)).

(** The thread to run next is the best one, or the current one if that can
    run and cannot be preempted. *)
Definition cache_ok (s : kernel) : Prop :=
  cache s = best s \/
  (cache s = current s /\ prevented (thr s (current s)) = false /\ is_preempt (thr s (current s)) = false).

(** What holds also while a function decides whether to switch. *)
Record base (s : kernel) : Prop := mk_base {
  b_core : core_of [] s;
  b_cache : cache_ok s;
  (** The current thread has no timeout, unless it is about to be switched out. *)
  b_awake : prevented (thr s (current s)) = false -> current s ∉ timeout_ids (kclk s);
  (** Only other processors abort a thread half-way. *)
  b_aborting t : z_is_thread_state_set (thr s t) THREAD_ABORTING = false }.

Record inv (s : kernel) : Prop := mk_inv {
  v_base : base s;
  (** A thread that executes can run. *)
  v_running : in_isr s = false -> pendsv s = false -> prevented (thr s (current s)) = false }.

Lemma upd_eq {A} `{EqDecision A} {B} (f : A -> B) x y : upd f x y x = y.
Proof. unfold upd. by rewrite decide_True. Qed.
Lemma upd_ne {A} `{EqDecision A} {B} (f : A -> B) x y z : z <> x -> upd f x y z = f z.
Proof. intros H. unfold upd. by rewrite decide_False. Qed.

Lemma sorted_prio (f g : Z -> k_thread) l : StronglySorted (fun a b => prio (f a) <= prio (f b)) l ->
  (forall a, a ∈ l -> prio (g a) = prio (f a)) -> StronglySorted (fun a b => prio (g a) <= prio (g b)) l.
Proof.
  induction 1 as [|a l Hs IH Hf]; intros E; [constructor|]. constructor; [apply IH; intros b Hb; apply E; by right|].
  apply Forall_forall. intros b Hb. rewrite Forall_forall in Hf. rewrite (E a) by left. rewrite (E b) by (by right). by apply Hf.
Qed.

(** Inserting before the first thread of lower priority. *)
Lemma insert_perm cond (n : Z) l : insert_where cond n l ≡ₚ n :: l.
Proof. rewrite insert_where_at. rewrite <- Permutation_middle. by rewrite before_from. Qed.

Lemma insert_sorted_prio (f : Z -> k_thread) n l : StronglySorted (fun a b => prio (f a) <= prio (f b)) l ->
  StronglySorted (fun a b => prio (f a) <= prio (f b)) (insert_where (fun x => prio (f n) <? prio (f x)) n l).
Proof.
  induction 1 as [|a l Hs IH Hf]; cbn; [repeat constructor|]. destruct (Z.ltb_spec (prio (f n)) (prio (f a))).
  - constructor; [by constructor|]. constructor; [lia|]. eapply Forall_impl; [exact Hf|]. cbn. lia.
  - constructor; [done|]. rewrite insert_perm. constructor; [lia|done].
Qed.

Lemma insert_where_ext c c' (n : Z) l : (forall a, a ∈ l -> c a = c' a) -> insert_where c n l = insert_where c' n l.
Proof.
  induction l as [|a l IH]; intros E; [done|]. cbn. rewrite (E a) by left. destruct (c' a); [done|]. f_equal. apply IH.
  intros b Hb. apply E. by right.
Qed.

Lemma cmp_prio a b : (0 <? z_sched_prio_cmp a b) = (prio a <? prio b).
Proof. unfold z_sched_prio_cmp. destruct (Z.eqb_spec (prio a) (prio b)); cbn; lia. Qed.

Lemma core_ext x th th' qs tl : (forall u, th' u = th u) -> core x th qs tl -> core x th' qs tl.
Proof.
  intros E [H1 H2 H3 H4 H5 H6 H7 H8 H9 H10]. split; try done; intros *; rewrite ?E; auto.
  eapply sorted_prio; [exact H3|]. intros a _. by rewrite E.
Qed.

Lemma core_queues x th qs qs' tl : (forall l, qs' l = qs l) -> core x th qs tl -> core x th qs' tl.
Proof. intros E [H1 H2 H3 H4 H5 H6 H7 H8 H9 H10]. split; try done; intros *; rewrite ?E; auto. Qed.

Lemma upd_upd {A} `{EqDecision A} {B} (f : A -> B) x y y' u : upd (upd f x y) x y' u = upd f x y' u.
Proof. unfold upd. by destruct (decide (u = x)). Qed.

(** *** Changing one thread *)
Section change.
Context (x : list Z) (th : Z -> k_thread) (qs : list_id -> list Z) (tl : list Z).

Lemma core_open t : core x th qs tl -> core (t :: x) th qs tl.
Proof.
  intros [H1 H2 H3 H4 H5 H6 H7 H8 H9 H10]. split; try done; intros u [_ Hu]%not_elem_of_cons; [by apply H7|by apply H8].
Qed.

Lemma core_close t : core (t :: x) th qs tl ->
  (t <> idle_thread -> queued (th t) = true <-> prevented (th t) = false /\ t ∉ tl) ->
  (is_dead (th t) = true -> (t ∉ tl) /\ qnode (th t) = None /\ qs (Waitq (join_queue t)) = []) -> core x th qs tl.
Proof.
  intros [H1 H2 H3 H4 H5 H6 H7 H8 H9 H10] Ht Hd. split; try done.
  - intros u Hu. destruct (decide (u = t)) as [->|]; [done|]. apply H7. by apply not_elem_of_cons.
  - intros u Hu. destruct (decide (u = t)) as [->|]; [done|]. apply H8. by apply not_elem_of_cons.
Qed.

(** A change of the thread that leaves its place in the queues alone. *)
Lemma core_flags t k : core (t :: x) th qs tl -> (t = idle_thread -> prevented k = false) ->
  qnode k = qnode (th t) -> pended_on k = pended_on (th t) -> (queued k = true -> prio k = prio (th t)) ->
  queued k = queued (th t) -> z_is_thread_pending k = z_is_thread_pending (th t) -> core (t :: x) (upd th t k) qs tl.
Proof.
  intros [H1 H2 H3 H4 H5 H6 H7 H8 H9 H10] Hi Eq Ep Er Es Et.
  assert (Hr : forall a, a ∈ qs Runq -> prio (upd th t k a) = prio (th a)).
  { intros a Ha. destruct (decide (a = t)) as [->|Hn]; [|by rewrite upd_ne]. rewrite upd_eq. apply Er. rewrite Es. apply H4. by apply H2. }
  split; try done.
  - intros u l. rewrite H2. destruct (decide (u = t)) as [->|]; [by rewrite upd_eq, Eq|by rewrite upd_ne].
  - by eapply sorted_prio.
  - intros u. destruct (decide (u = t)) as [->|]; [by rewrite upd_eq, Eq, Es|by rewrite upd_ne].
  - intros u q. destruct (decide (u = t)) as [->|]; [by rewrite upd_eq, Eq, Ep|by rewrite upd_ne].
  - intros u. destruct (decide (u = t)) as [->|]; [by rewrite upd_eq, Et, Ep|by rewrite upd_ne].
  - intros u Hu. rewrite upd_ne by (by apply not_elem_of_cons in Hu as []). by apply H7.
  - intros u Hu. rewrite upd_ne by (by apply not_elem_of_cons in Hu as []). by apply H8.
  - destruct (decide (idle_thread = t)) as [E|]; [|by rewrite upd_ne]. rewrite <- E in *. rewrite upd_eq, Es. tauto.
Qed.

Lemma core_unlink t l k : core (t :: x) th qs tl -> t <> idle_thread -> qnode (th t) = Some l ->
  qnode k = None -> queued k = false -> pended_on k = None -> z_is_thread_pending k = false ->
  core (t :: x) (upd th t k) (upd qs l (filter (fun a => a <> t) (qs l))) tl.
Proof.
  intros [H1 H2 H3 H4 H5 H6 H7 H8 H9 H10] Hi El Eq Es Ep Et.
  assert (Hother : forall u, u <> t -> upd th t k u = th u) by (intros; by apply upd_ne).
  split; try done.
  - intros l'. destruct (decide (l' = l)) as [->|]; [rewrite upd_eq; by apply NoDup_filter|by rewrite upd_ne].
  - intros u l'. destruct (decide (u = t)) as [->|Hu].
    + rewrite upd_eq, Eq. split; [|done]. destruct (decide (l' = l)) as [->|Hl].
      * rewrite upd_eq. intros [? _]%list_elem_of_filter. done.
      * rewrite upd_ne by done. intros ?%H2. congruence.
    + rewrite Hother by done. rewrite <- H2. destruct (decide (l' = l)) as [->|Hl]; [|by rewrite upd_ne].
      rewrite upd_eq, list_elem_of_filter. by split; [intros []|].
  - assert (Hs : upd qs l (filter (fun a => a <> t) (qs l)) Runq `sublist_of` qs Runq /\ t ∉ upd qs l (filter (fun a => a <> t) (qs l)) Runq).
    { destruct (decide (Runq = l)) as [<-|Hl].
      - rewrite upd_eq. split; [apply sublist_filter|]. intros [? _]%list_elem_of_filter. done.
      - rewrite upd_ne by done. split; [done|]. intros ?%H2. congruence. }
    destruct Hs as [Hs Hn]. eapply sublist_StronglySorted in H3; [|exact Hs]. eapply sorted_prio; [exact H3|].
    intros a Ha. rewrite Hother; [done|]. by intros ->.
  - intros u. destruct (decide (u = t)) as [->|]; [rewrite upd_eq, Eq, Es; done|by rewrite upd_ne].
  - intros u q. destruct (decide (u = t)) as [->|]; [rewrite upd_eq, Eq, Ep; done|by rewrite upd_ne].
  - intros u. destruct (decide (u = t)) as [->|]; [rewrite upd_eq, Et, Ep; split; [done|by intros []]|by rewrite upd_ne].
  - intros u Hu. rewrite upd_ne by (by apply not_elem_of_cons in Hu as []). by apply H7.
  - intros u Hu. rewrite upd_ne by (by apply not_elem_of_cons in Hu as []). intros Hd. destruct (H8 u Hu Hd) as (D0 & D1 & D2). do 2 (split; [done|]).
    destruct (decide (Waitq (join_queue u) = l)) as [<-|]; [by rewrite upd_eq, D2|by rewrite upd_ne].
  - by rewrite upd_ne.
Qed.

Lemma core_link t l k : core (t :: x) th qs tl -> t <> idle_thread -> qnode (th t) = None ->
  qnode k = Some l -> queued k = bool_decide (l = Runq) ->
  pended_on k = match l with Runq => None | Waitq q => Some q end -> z_is_thread_pending k = negb (bool_decide (l = Runq)) ->
  (forall u, l = Waitq (join_queue u) -> is_dead (th u) = false) ->
  core (t :: x) (upd th t k) (upd qs l (insert_where (fun a => 0 <? z_sched_prio_cmp k (th a)) t (qs l))) tl.
Proof.
  intros [H1 H2 H3 H4 H5 H6 H7 H8 H9 H10] Hi El Eq Es Ep Et Hj.
  assert (Hother : forall u, u <> t -> upd th t k u = th u) by (intros; by apply upd_ne).
  assert (Hno : forall l', t ∉ qs l') by (intros l' ?%H2; congruence).
  split; try done.
  - intros l'. destruct (decide (l' = l)) as [->|]; [|by rewrite upd_ne]. rewrite upd_eq, insert_perm. by constructor.
  - intros u l'. destruct (decide (u = t)) as [->|Hu].
    + rewrite upd_eq, Eq. destruct (decide (l' = l)) as [->|Hl].
      * rewrite upd_eq, insert_perm. split; [done|]. intros _. left.
      * rewrite upd_ne by done. split; [by intros ?%Hno|congruence].
    + rewrite Hother by done. rewrite <- H2. destruct (decide (l' = l)) as [->|Hl]; [|by rewrite upd_ne].
      rewrite upd_eq, insert_perm, elem_of_cons. split; [by intros [->|?]|by right].
  - destruct (decide (Runq = l)) as [<-|Hl].
    + rewrite upd_eq. rewrite (insert_where_ext _ (fun a => prio (upd th t k t) <? prio (upd th t k a))).
      2: { intros a Ha. rewrite upd_eq, cmp_prio, Hother; [done|]. intros ->. by apply Hno in Ha. }
      apply (insert_sorted_prio (upd th t k)). eapply sorted_prio; [exact H3|].
      intros a Ha. rewrite Hother; [done|]. intros ->. by apply Hno in Ha.
    + rewrite upd_ne by done. eapply sorted_prio; [exact H3|]. intros a Ha. rewrite Hother; [done|]. intros ->. by apply Hno in Ha.
  - intros u. destruct (decide (u = t)) as [->|]; [|by rewrite upd_ne]. rewrite upd_eq, Eq, Es, bool_decide_eq_true. split; [by intros ->|congruence].
  - intros u q. destruct (decide (u = t)) as [->|]; [|by rewrite upd_ne]. rewrite upd_eq, Eq, Ep. destruct l; split; congruence.
  - intros u. destruct (decide (u = t)) as [->|]; [|by rewrite upd_ne]. rewrite upd_eq, Et, Ep.
    destruct l; [rewrite bool_decide_true by done; split; [done|by intros []]|rewrite bool_decide_false by done; split; [by eexists|done]].
  - intros u Hu. rewrite upd_ne by (by apply not_elem_of_cons in Hu as []). by apply H7.
  - intros u Hu. rewrite upd_ne by (by apply not_elem_of_cons in Hu as []). intros Hd. destruct (H8 u Hu Hd) as (D0 & D1 & D2). do 2 (split; [done|]).
    destruct (decide (Waitq (join_queue u) = l)) as [<-|]; [|by rewrite upd_ne]. by rewrite (Hj u eq_refl) in Hd.
  - by rewrite upd_ne.
Qed.

(** A change of the timeout of the thread alone. *)
Lemma core_timeouts t tl' : core (t :: x) th qs tl -> t <> idle_thread -> (forall u, u <> t -> u ∈ tl' <-> u ∈ tl) -> NoDup tl' ->
  core (t :: x) th qs tl'.
Proof.
  intros [H1 H2 H3 H4 H5 H6 H7 H8 H9 H10] Hi Hs Hd. split; try done.
  - intros u Hu Hn. rewrite Hs by (by apply not_elem_of_cons in Hu as []). by apply H7.
  - intros u Hu. rewrite Hs by (by apply not_elem_of_cons in Hu as []). by apply H8.
  - rewrite Hs by done. done.
Qed.
End change.

(** ** The functions on queues and timeouts

    [t] is the thread that is being changed. *)

(** What stays the same. *)
Definition waiters (s s' : kernel) : Prop := forall q, queues s' (Waitq q) = queues s (Waitq q).
Definition frame (s s' : kernel) : Prop := current s' = current s /\ in_isr s' = in_isr s /\ pendsv s' = pendsv s.
Definition others (t : Z) (s s' : kernel) : Prop := forall u, u <> t -> thr s' u = thr s u.

Lemma insert_ids id dt l : map to_id (insert_timeout id dt l) ≡ₚ id :: map to_id l.
Proof.
  revert dt. induction l as [|a l IH]; intros dt; [done|]. cbn. destruct (_ <? _); [done|]. cbn. rewrite IH. apply Permutation_swap.
Qed.

Lemma remove_ids id l : NoDup (map to_id l) ->
  NoDup (map to_id (remove_timeout id l)) /\ forall u, u ∈ map to_id (remove_timeout id l) <-> u <> id /\ u ∈ map to_id l.
Proof.
  induction l as [|a l IH]; cbn; [split; [done|]; intros u; rewrite elem_of_nil; tauto|].
  intros [Ha Hl]%NoDup_cons. destruct (IH Hl) as [I1 I2]. destruct (Z.eqb_spec (to_id a) id) as [<-|Hn].
  - assert (E : map to_id (match l with [] => [] | n :: l'' => mk_timeout (to_id n) (dticks n + dticks a) :: l'' end) = map to_id l).
    { by destruct l. }
    rewrite E. split; [done|]. intros u. rewrite elem_of_cons. split; [|tauto]. intros Hu. split; [|by right]. by intros ->.
  - cbn. split; [constructor; [|done]; rewrite I2; tauto|]. intros u. rewrite !elem_of_cons, I2. split; [|tauto].
    intros [->|[? ?]]; [by split; [|left]|by split; [|right]].
Qed.

Lemma linked_ids t c : is_linked t c = true <-> t ∈ timeout_ids c.
Proof.
  unfold is_linked, timeout_ids. induction (timeout_list c) as [|a l IH]; cbn; [by rewrite elem_of_nil|].
  rewrite orb_true_iff, elem_of_cons, IH, Z.eqb_eq. split; (intros [?|?]; [left; congruence|by right]).
Qed.

Lemma linked_ids_false t c : is_linked t c = false <-> t ∉ timeout_ids c.
Proof. rewrite <- linked_ids. by destruct (is_linked t c). Qed.

Section ops.
Context (x : list Z) (t : Z) (Hi : t <> idle_thread).

Lemma abort_timeout_run s : core_of (t :: x) s -> exists r c', z_abort_thread_timeout t s = (Done r, set_kclk c' s) /\
  core_of (t :: x) (set_kclk c' s) /\ (t ∉ timeout_ids c') /\ (r < 0 <-> t ∉ timeout_ids (kclk s)) /\
  (forall u, u <> t -> u ∈ timeout_ids c' <-> u ∈ timeout_ids (kclk s)).
Proof.
  intros Hc. unfold z_abort_thread_timeout, z_abort_timeout. destruct (is_linked t (kclk s)) eqn:E.
  - apply linked_ids in E. destruct (remove_ids t (timeout_list (kclk s)) (c_once _ _ _ _ Hc)) as [R1 R2].
    eexists _, _. split; [done|]. split; [|split; [|split; [split; [lia|done]|]]].
    + eapply core_timeouts; [exact Hc|done| |exact R1]. intros u Hu. unfold timeout_ids. cbn. rewrite R2. tauto.
    + unfold timeout_ids. cbn. rewrite R2. tauto.
    + intros u Hu. unfold timeout_ids. cbn. rewrite R2. tauto.
  - apply linked_ids_false in E. eexists _, _. split; [done|]. destruct s. done.
Qed.

Lemma add_timeout_run s ticks : core_of (t :: x) s -> t ∉ timeout_ids (kclk s) -> exists c',
  add_thread_timeout t ticks s = (Done tt, set_kclk c' s) /\ core_of (t :: x) (set_kclk c' s) /\
  (forall u, u <> t -> u ∈ timeout_ids c' <-> u ∈ timeout_ids (kclk s)).
Proof.
  intros Hc Ht. unfold add_thread_timeout. destruct (Z.eqb_spec ticks K_TICKS_FOREVER) as [->|Hn].
  { exists (kclk s). by destruct s. }
  exists (z_add_timeout t ticks (kclk s)). split; [done|].
  assert (P : timeout_ids (z_add_timeout t ticks (kclk s)) ≡ₚ t :: timeout_ids (kclk s)).
  { unfold timeout_ids. rewrite add_list, (proj2 (Z.eqb_neq _ _) Hn). apply insert_ids. }
  assert (Hu : forall u, u <> t -> u ∈ timeout_ids (z_add_timeout t ticks (kclk s)) <-> u ∈ timeout_ids (kclk s)).
  { intros u Hu. rewrite P, elem_of_cons. split; [by intros [?|?]|by right]. }
  split; [|done]. eapply core_timeouts; [exact Hc|done|exact Hu|]. cbn. rewrite P. by constructor; [|apply (c_once _ _ _ _ Hc)].
Qed.

Lemma on_thread_run s f : core_of (t :: x) s -> (forall k, qnode (f k) = qnode k) -> (forall k, pended_on (f k) = pended_on k) ->
  (forall k, prio (f k) = prio k) -> queued (f (thr s t)) = queued (thr s t) ->
  z_is_thread_pending (f (thr s t)) = z_is_thread_pending (thr s t) ->
  core_of (t :: x) (set_thr (upd (thr s) t (f (thr s t))) s).
Proof. intros Hc F1 F2 F3 F4 F5. eapply core_flags; eauto. tauto. Qed.

Lemma dequeue_run s : core_of (t :: x) s -> queued (thr s t) = true -> exists s', dequeue_thread t s = (Done tt, s') /\
  core_of (t :: x) s' /\ frame s s' /\ others t s s' /\ waiters s s' /\ kclk s' = kclk s /\
  thr s' t = set_qnode None (z_reset_thread_states THREAD_QUEUED (thr s t)).
Proof.
  intros Hc Hq. assert (Hn : qnode (thr s t) = Some Runq) by (by apply (c_queued _ _ _ _ Hc)).
  assert (Hp : pended_on (thr s t) = None).
  { destruct (pended_on (thr s t)) as [q|] eqn:E; [|done]. apply (c_pend _ _ _ _ Hc) in E. congruence. }
  unfold dequeue_thread, on_thread. rewrite bind_modify. unfold z_priq_dumb_remove. cbn. rewrite upd_eq. cbn. rewrite Hn. cbn.
  eexists. split; [done|]. unfold frame, others. cbn. rewrite upd_eq. split; [|split; [done|split; [|done]]].
  2: { intros u Hu. by rewrite !upd_ne. }
  eapply core_ext; [intros u; apply upd_upd|]. eapply core_unlink; [exact Hc|done|done|done| |done|].
  - by bits.
  - bits. destruct (z_is_thread_state_set (thr s t) 2) eqn:E; [|done]. apply (c_pending _ _ _ _ Hc) in E. destruct E. congruence.
Qed.

(** A thread that was at most taken out of the ready queue. *)
Definition alike (k k' : k_thread) : Prop :=
  prio k' = prio k /\ sched_locked k' = sched_locked k /\ pended_on k' = pended_on k /\
  forall m, Z.land m THREAD_QUEUED = 0 -> z_is_thread_state_set k' m = z_is_thread_state_set k m.

Lemma alike_prevented k k' : alike k k' -> prevented k' = prevented k.
Proof. intros (_ & _ & _ & H). by apply H. Qed.
Lemma alike_dead k k' : alike k k' -> is_dead k' = is_dead k.
Proof. intros (_ & _ & _ & H). by apply H. Qed.
Lemma alike_preempt k k' : alike k k' -> is_preempt k' = is_preempt k.
Proof. intros (H1 & H2 & _ & _). unfold is_preempt, preempt. by rewrite H1, H2. Qed.

Lemma alike_reset k l : alike k (set_qnode l (z_reset_thread_states THREAD_QUEUED k)).
Proof.
  repeat split. intros m Hm. rewrite has_qnode, has_reset. f_equal.
  rewrite Z.land_comm, <- Z.ldiff_land. apply Z.bits_inj'. intros n Hn. rewrite Z.ldiff_spec.
  assert (Hb : Z.testbit (Z.land m THREAD_QUEUED) n = false) by (by rewrite Hm, Z.bits_0). rewrite Z.land_spec in Hb.
  by destruct (Z.testbit m n), (Z.testbit THREAD_QUEUED n).
Qed.

Lemma alike_set k l : alike k (set_qnode l (z_set_thread_states THREAD_QUEUED k)).
Proof. repeat split. intros m Hm. rewrite has_qnode, has_set. unfold common. rewrite Z.land_comm, Hm. by rewrite orb_false_r. Qed.

Lemma dequeue_if_run s : core_of (t :: x) s -> exists s', dequeue_if_queued t s = (Done tt, s') /\
  core_of (t :: x) s' /\ frame s s' /\ others t s s' /\ waiters s s' /\ kclk s' = kclk s /\ queued (thr s' t) = false /\ alike (thr s t) (thr s' t).
Proof.
  intros Hc. unfold dequeue_if_queued. rewrite bind_gets. destruct (queued (thr s t)) eqn:Hq; cbn [when].
  - destruct (dequeue_run s Hc Hq) as (s' & E & H1 & H2 & H3 & H4 & H5 & H6). exists s'. rewrite H6.
    do 6 (split; [done|]). split; [by bits|apply alike_reset].
  - by exists s.
Qed.

Lemma node_none s : core_of (t :: x) s -> queued (thr s t) = false -> pended_on (thr s t) = None -> qnode (thr s t) = None.
Proof.
  intros Hc Hq Hp. destruct (qnode (thr s t)) as [[|q]|] eqn:E; [| |done].
  - apply (c_queued _ _ _ _ Hc) in E. congruence.
  - apply (c_pend _ _ _ _ Hc) in E. congruence.
Qed.

Lemma not_pending s : core_of (t :: x) s -> pended_on (thr s t) = None -> z_is_thread_pending (thr s t) = false.
Proof.
  intros Hc Hp. destruct (z_is_thread_pending (thr s t)) eqn:E; [|done]. apply (c_pending _ _ _ _ Hc) in E as [? E]. congruence.
Qed.

Lemma queue_run s : core_of (t :: x) s -> queued (thr s t) = false -> pended_on (thr s t) = None -> exists s',
  queue_thread t s = (Done tt, s') /\ core_of (t :: x) s' /\ frame s s' /\ others t s s' /\ waiters s s' /\ kclk s' = kclk s /\
  queued (thr s' t) = true /\ alike (thr s t) (thr s' t).
Proof.
  intros Hc Hq Hp. pose proof (node_none s Hc Hq Hp) as Hn. pose proof (not_pending s Hc Hp) as Hg.
  unfold queue_thread, on_thread. rewrite bind_modify. unfold z_priq_dumb_add. cbn. rewrite upd_eq. cbn. rewrite Hn.
  eexists. split; [done|]. unfold frame, others. cbn. rewrite upd_eq. split; [|split; [done|split; [|split; [done|split; [done|split; [by bits|apply alike_set]]]]]].
  2: { intros u Hu. by rewrite !upd_ne. }
  eapply core_ext; [intros u; apply upd_upd|].
  rewrite (insert_where_ext _ (fun a => 0 <? z_sched_prio_cmp (set_qnode (Some Runq) (z_set_thread_states THREAD_QUEUED (thr s t))) (thr s a))).
  - eapply core_link; [exact Hc|done|done|done|by bits|done|by bits|done].
  - intros a Ha. rewrite upd_ne; [done|]. intros ->. apply (c_node _ _ _ _ Hc) in Ha. congruence.
Qed.

Lemma unpend_run s q : core_of (t :: x) s -> pended_on (thr s t) = Some q -> exists s',
  unpend_thread_no_timeout t s = (Done tt, s') /\ core_of (t :: x) s' /\ frame s s' /\ others t s s' /\ kclk s' = kclk s /\
  cache s' = cache s /\ queues s' = upd (queues s) (Waitq q) (filter (fun a => a <> t) (queues s (Waitq q))) /\
  thr s' t = set_pended_on None (z_reset_thread_states THREAD_PENDING (set_qnode None (thr s t))).
Proof.
  intros Hc Hp. assert (Hn : qnode (thr s t) = Some (Waitq q)) by (by apply (c_pend _ _ _ _ Hc)).
  assert (Hq : queued (thr s t) = false).
  { destruct (queued (thr s t)) eqn:E; [|done]. apply (c_queued _ _ _ _ Hc) in E. congruence. }
  unfold unpend_thread_no_timeout, z_mark_thread_as_not_pending, on_thread.
  erewrite bind_done by (unfold z_priq_dumb_remove; by rewrite Hn). rewrite bind_modify. cbn. eexists. split; [done|]. unfold frame, others. cbn.
  rewrite !upd_eq. split; [|split; [done|split; [|done]]].
  2: { intros u Hu. by rewrite !upd_ne. }
  eapply (core_ext _ (upd (thr s) t _)); [intros u; cbn; rewrite !upd_upd; reflexivity|].
  eapply core_unlink; [exact Hc|done|done|done|by bits|done|by bits].
Qed.

(** ** Choosing the next thread *)

(** A clock that differs in the time slice only. *)
Definition same_time (c c' : clock) : Prop :=
  timeout_list c' = timeout_list c /\ curr_tick c' = curr_tick c /\ announce_remaining c' = announce_remaining c /\
  hw_elapsed c' = hw_elapsed c.

Lemma same_ids c c' : same_time c c' -> timeout_ids c' = timeout_ids c.
Proof. intros (E & _). unfold timeout_ids. by rewrite E. Qed.

Lemma reset_slice_run s : exists c', z_reset_time_slice s = (Done tt, set_kclk c' s) /\ same_time (kclk s) c'.
Proof.
  unfold z_reset_time_slice. rewrite bind_gets. destruct (negb _); cbn [when].
  - unfold on_clk. rewrite bind_modify. cbn. eexists. split; [by destruct s|]. unfold z_set_timeout_expiry. by destruct (_ && _).
  - exists (kclk s). by destruct s.
Qed.

Lemma update_cache_run s b : exists c', update_cache idle_thread b s =
    (Done tt, set_cache (if should_preempt (best s) b s then best s else current s) (set_kclk c' s)) /\
  same_time (kclk s) c'.
Proof.
  unfold update_cache, next_up. rewrite bind_assoc. unfold z_priq_dumb_best. rewrite bind_gets, bind_ret, bind_gets. fold (best s).
  destruct (should_preempt (best s) b s); [|exists (kclk s); by destruct s]. rewrite bind_gets.
  destruct (negb _); cbn [when]; [|rewrite bind_ret; exists (kclk s); by destruct s].
  destruct (reset_slice_run s) as (c' & E & H). exists c'. by erewrite bind_done by exact E.
Qed.

Lemma preempt_cases s b : let n := if should_preempt (best s) b s then best s else current s in
  n = best s \/ (n = current s /\ prevented (thr s (current s)) = false /\ is_preempt (thr s (current s)) = false).
Proof.
  unfold should_preempt. destruct b; [by left|]. destruct (prevented _) eqn:E1; [by left|].
  destruct (z_is_thread_timeout_active _ _); [by left|]. destruct (is_preempt _) eqn:E2; [by left|]. by right.
Qed.

Lemma best_timeout y s : core_of y s -> (forall u, u ∈ y -> u ∉ timeout_ids (kclk s)) -> z_is_thread_timeout_active (best s) s = false.
Proof.
  intros Hc Hy. apply linked_ids_false. unfold best. destruct (queues s Runq) as [|u l] eqn:E; [apply (c_idle _ _ _ _ Hc)|cbn].
  destruct (decide (u ∈ y)) as [|Hu]; [by apply Hy|].
  assert (Hq : queued (thr s u) = true). { apply (c_queued _ _ _ _ Hc), (c_node _ _ _ _ Hc). rewrite E. left. }
  destruct (decide (u = idle_thread)) as [->|Hn]; [apply (c_idle _ _ _ _ Hc)|]. by apply (c_ready _ _ _ _ Hc) in Hq as [].
Qed.

(** What [ready_thread] does, apart from the invariant: the cache is still
    right, and still the current thread if that cannot be preempted. *)
Definition cached (s s' : kernel) : Prop := (cache_ok s -> cache_ok s') /\
  (prevented (thr s' (current s')) = false -> is_preempt (thr s' (current s')) = false -> cache s = current s -> cache s' = current s').

Lemma update_cached s s' b : current s' = current s -> thr s' = thr s -> queues s' = queues s ->
  cache s' = (if should_preempt (best s) b s then best s else current s) -> cache_ok s'.
Proof. intros E1 E2 E3 E4. unfold cache_ok. rewrite E4. unfold best. rewrite E3, E1, E2. apply preempt_cases. Qed.

Lemma not_ready s : z_is_thread_ready t s = true <-> prevented (thr s t) = false /\ (t ∉ timeout_ids (kclk s)).
Proof.
  unfold z_is_thread_ready, z_is_thread_timeout_active. rewrite <- linked_ids_false, negb_true_iff. apply orb_false_iff.
Qed.

Lemma ready_run s : core_of (t :: x) s -> (forall u, u ∈ x -> u ∉ timeout_ids (kclk s)) ->
  (queued (thr s t) = true -> prevented (thr s t) = false /\ t ∉ timeout_ids (kclk s)) ->
  exists s', ready_thread idle_thread t s = (Done tt, s') /\ core_of (t :: x) s' /\ frame s s' /\ others t s s' /\ waiters s s' /\
    same_time (kclk s) (kclk s') /\ alike (thr s t) (thr s' t) /\
    (queued (thr s' t) = true <-> prevented (thr s' t) = false /\ t ∉ timeout_ids (kclk s')) /\ cached s s'.
Proof.
  intros Hc Hx Hr. unfold ready_thread. rewrite !bind_gets. pose proof (not_ready s) as Hn.
  destruct (queued (thr s t)) eqn:Hq; cbn [negb andb when].
  { exists s. split; [done|]. do 6 (split; [done|]). rewrite Hq. split; [|done]. tauto. }
  destruct (z_is_thread_ready t s); cbn [when].
  2: { exists s. split; [done|]. do 6 (split; [done|]). rewrite Hq. split; [|done]. split; [done|]. intros ?%Hn. done. }
  destruct (proj1 Hn eq_refl) as [Hp Ht]. assert (Hg : pended_on (thr s t) = None).
  { destruct (pended_on (thr s t)) as [q|] eqn:E; [|done].
    assert (z_is_thread_pending (thr s t) = true) by (apply (c_pending _ _ _ _ Hc); by eexists). bits. by rewrite H in Hp. }
  destruct (queue_run s Hc Hq Hg) as (s1 & E1 & C1 & F1 & O1 & W1 & K1 & Q1 & A1).
  erewrite bind_done by exact E1. destruct (update_cache_run s1 false) as (c' & E2 & T2). rewrite E2. eexists. split; [done|].
  assert (Hids : timeout_ids c' = timeout_ids (kclk s)) by (rewrite <- K1; by apply same_ids).
  split. { unfold core_of. cbn. rewrite Hids, <- K1. apply C1. }
  do 3 (split; [done|]). split; [by rewrite <- K1|]. split; [done|]. cbn. rewrite Q1, (alike_prevented _ _ A1), Hp, Hids.
  split; [tauto|]. split; [intros _; by apply (update_cached s1 _ false)|]. cbn. intros N1 N2 _.
  unfold should_preempt. rewrite N1, N2, (best_timeout (t :: x) s1 C1); [done|].
  intros u. rewrite elem_of_cons, K1. intros [->|]; [done|by apply Hx].
Qed.

Definition closed (s : kernel) : Prop :=
  (queued (thr s t) = true <-> prevented (thr s t) = false /\ t ∉ timeout_ids (kclk s)) /\
  (is_dead (thr s t) = true -> (t ∉ timeout_ids (kclk s)) /\ qnode (thr s t) = None /\ queues s (Waitq (join_queue t)) = []).

Lemma base_step s s' : base s -> core_of [t] s' -> closed s' -> cache_ok s' -> current s' = current s -> others t s s' ->
  (forall u, u <> t -> u ∈ timeout_ids (kclk s') -> u ∈ timeout_ids (kclk s)) ->
  (t = current s -> prevented (thr s' t) = false -> t ∉ timeout_ids (kclk s')) ->
  z_is_thread_state_set (thr s' t) THREAD_ABORTING = false -> base s'.
Proof.
  intros Hb Hc [Hr Hd] Hk E Ho Ht Ha Hg. split; [exact (core_close [] _ _ _ t Hc (fun _ => Hr) Hd)|done| |].
  - rewrite E. destruct (decide (current s = t)) as [Et|Hn]; [rewrite Et; exact (Ha (eq_sym Et))|].
    rewrite Ho by done. intros Hp ?%Ht; [|done]. by apply (b_awake _ Hb).
  - intros u. destruct (decide (u = t)) as [->|]; [done|]. rewrite Ho by done. apply Hb.
Qed.

End ops.

(** A change of the thread that leaves it where it is. *)
Lemma flags_core t s f : base s -> (forall k, qnode (f k) = qnode k) -> (forall k, pended_on (f k) = pended_on k) ->
  (forall k, prio (f k) = prio k) -> (forall k, thread_state (f k) = thread_state k) ->
  let s' := set_thr (upd (thr s) t (f (thr s t))) s in
  core_of [] s' /\ (forall u m, z_is_thread_state_set (thr s' u) m = z_is_thread_state_set (thr s u) m).
Proof.
  intros [Hc _ _ _] F1 F2 F3 F4 s'. assert (Hs : forall k m, z_is_thread_state_set (f k) m = z_is_thread_state_set k m).
  { intros k m. unfold z_is_thread_state_set. by rewrite F4. }
  split.
  - apply (core_close [] _ _ _ t).
    + eapply core_flags; [by apply core_open| |by rewrite F1|by rewrite F2|by rewrite F3|apply Hs|apply Hs].
      intros ->. rewrite <- (proj1 (c_idle _ _ _ _ Hc)). apply Hs.
    + unfold s'. cbn. rewrite upd_eq. unfold z_is_thread_queued, z_is_thread_prevented_from_running. rewrite !Hs. intros Hn.
      by apply (c_ready _ _ _ _ Hc); [apply not_elem_of_nil|].
    + unfold s'. cbn. rewrite upd_eq. unfold is_dead. rewrite Hs, F1. apply (c_dead _ _ _ _ Hc). apply not_elem_of_nil.
  - intros u m. unfold s'. cbn. destruct (decide (u = t)) as [->|]; [rewrite upd_eq; apply Hs|by rewrite upd_ne].
Qed.

Lemma base_flags t s f : base s -> (forall k, qnode (f k) = qnode k) -> (forall k, pended_on (f k) = pended_on k) ->
  (forall k, prio (f k) = prio k) -> (forall k, thread_state (f k) = thread_state k) ->
  (cache s = current s -> t = current s -> is_preempt (thr s t) = false -> is_preempt (f (thr s t)) = false) ->
  base (set_thr (upd (thr s) t (f (thr s t))) s).
Proof.
  intros Hb F1 F2 F3 F4 F5. destruct (flags_core t s f Hb F1 F2 F3 F4) as [Hc Hs]. split; [done| | |].
  - destruct (b_cache _ Hb) as [H|(H1 & H2 & H3)]; [by left|right]. split; [done|]. split; [by rewrite <- H2; apply Hs|].
    cbn. destruct (decide (current s = t)) as [E|]; [|by rewrite upd_ne]. rewrite E, upd_eq. apply F5; congruence.
  - intros Hp. apply (b_awake _ Hb). rewrite <- Hp. symmetry. apply Hs.
  - intros u. rewrite Hs. apply Hb.
Qed.

Lemma best_runs s : base s -> prevented (thr s (best s)) = false.
Proof.
  intros [Hc _ _ _]. unfold best. destruct (queues s Runq) as [|u l] eqn:E; [apply (c_idle _ _ _ _ Hc)|cbn].
  assert (Hq : queued (thr s u) = true). { apply (c_queued _ _ _ _ Hc), (c_node _ _ _ _ Hc). rewrite E. left. }
  destruct (decide (u = idle_thread)) as [->|Hn]; [apply (c_idle _ _ _ _ Hc)|].
  apply (c_ready _ _ _ _ Hc) in Hq as []; [done|apply not_elem_of_nil|done].
Qed.

Lemma next_runs s : base s -> prevented (thr s (cache s)) = false.
Proof. intros Hb. destruct (b_cache _ Hb) as [->|(-> & H & _)]; [by apply best_runs|done]. Qed.

(** *** Switching *)

(** What a request to switch leaves alone. *)
Definition quiet (s s' : kernel) : Prop :=
  current s' = current s /\ in_isr s' = in_isr s /\ cache s' = cache s /\ queues s' = queues s /\ kclk s' = kclk s /\
  forall u, exists v, thr s' u = set_swap_return_value v (thr s u).

Lemma same_quiet_refl s : quiet s s.
Proof. repeat split. intros u. exists (swap_return_value (thr s u)). by destruct (thr s u). Qed.

Lemma swap_run s : base s -> exists s', z_swap s = (Done tt, s') /\ inv s' /\ pendsv s' = true /\ quiet s s'.
Proof.
  intros Hb. unfold z_swap, on_thread. rewrite bind_gets, bind_modify. cbn. eexists. split; [done|]. split; [|split; [done|]].
  - split; [|done]. pose proof (base_flags (current s) s (set_swap_return_value (- EAGAIN)) Hb) as H.
    destruct H as [H1 H2 H3 H4]; done.
  - repeat split. cbn. intros u. destruct (decide (u = current s)) as [->|].
    + rewrite upd_eq. by eexists.
    + rewrite upd_ne by done. exists (swap_return_value (thr s u)). by destruct (thr s u).
Qed.

Lemma reschedule_run s : base s -> exists s', z_reschedule s = (Done tt, s') /\ inv s' /\ quiet s s' /\
  (pendsv s' = pendsv s \/ in_isr s = false /\ cache s <> current s).
Proof.
  intros Hb. unfold z_reschedule, resched, need_swap. rewrite !bind_gets. destruct (in_isr s) eqn:Ei; cbn [negb andb when].
  { exists s. split; [done|]. split; [|split; [apply same_quiet_refl|by left]]. split; [done|congruence]. }
  destruct (Z.eqb_spec (cache s) (current s)) as [E|E]; cbn [negb when].
  - exists s. split; [done|]. split; [|split; [apply same_quiet_refl|by left]]. split; [done|]. intros _ _. rewrite <- E. by apply next_runs.
  - destruct (swap_run s Hb) as (s' & E' & H & _ & Hq). exists s'. do 3 (split; [done|]). by right.
Qed.

Lemma reschedule_irqlock_run s : base s -> exists s', z_reschedule_irqlock s = (Done tt, s') /\ inv s' /\ quiet s s' /\
  (in_isr s = true -> pendsv s' = pendsv s).
Proof.
  intros Hb. unfold z_reschedule_irqlock, resched. rewrite !bind_gets. destruct (in_isr s) eqn:Ei; cbn [negb when].
  { exists s. split; [done|]. split; [|split; [apply same_quiet_refl|done]]. split; [done|congruence]. }
  destruct (swap_run s Hb) as (s' & E' & H & _ & Hq). exists s'. done.
Qed.

(** *** Waking a thread up *)

(** The current thread runs on and cannot be preempted. *)
Definition held (s : kernel) : Prop :=
  cache s = current s /\ prevented (thr s (current s)) = false /\ is_preempt (thr s (current s)) = false.

(** A thread that did not run was changed, outside the ready queue. *)
Record touched (t : Z) (s s' : kernel) : Prop := {
  o_others : others t s s';
  o_frame : frame s s';
  o_cache : cache s' = cache s;
  o_runq : queues s' Runq = queues s Runq;
  o_timeouts u : u <> t -> u ∈ timeout_ids (kclk s') -> u ∈ timeout_ids (kclk s);
  o_asleep : t = current s -> prevented (thr s t) = true;
  o_aborting : z_is_thread_state_set (thr s' t) THREAD_ABORTING = z_is_thread_state_set (thr s t) THREAD_ABORTING }.

Lemma touched_cache t s s' : touched t s s' -> cache_ok s -> cache_ok s'.
Proof.
  intros [Ho [Ec _] Ek Eq _ Ha _] [H|(H1 & H2 & H3)]; unfold cache_ok, best in *; rewrite ?Ek, ?Eq, ?Ec; [by left|right].
  assert (current s <> t) by (intros <-; rewrite Ha in H2; done). by rewrite Ho.
Qed.

Lemma wake_run t s s1 : t <> idle_thread -> base s -> touched t s s1 -> core_of [t] s1 ->
  (queued (thr s1 t) = true -> prevented (thr s1 t) = false /\ t ∉ timeout_ids (kclk s1)) ->
  (is_dead (thr s1 t) = true -> (t ∉ timeout_ids (kclk s1)) /\ qnode (thr s1 t) = None /\ queues s1 (Waitq (join_queue t)) = []) ->
  (t = current s -> prevented (thr s1 t) = false -> t ∉ timeout_ids (kclk s1)) ->
  exists s2, ready_thread idle_thread t s1 = (Done tt, s2) /\ base s2 /\ frame s s2 /\ waiters s1 s2 /\ (held s -> held s2) /\
    same_time (kclk s1) (kclk s2) /\ others t s s2 /\ alike (thr s1 t) (thr s2 t).
Proof.
  intros Hi Hb T C1 Hq Hd Ha. pose proof T as [Ho [Ec [Ei Ep]] Ek Eq Et Hz Hg].
  destruct (ready_run [] t Hi s1 C1 ltac:(by intros u ?%elem_of_nil) Hq) as (s2 & E & C2 & [F1 [F2 F3]] & O2 & W2 & T2 & A2 & R2 & K2).
  assert (Hids : timeout_ids (kclk s2) = timeout_ids (kclk s1)) by (by apply same_ids).
  assert (O : others t s s2) by (intros u Hu; rewrite O2, Ho by done; done).
  assert (Hh : held s -> held s2).
  { intros (H1 & H2 & H3). assert (Hn : current s <> t) by (intros <-; rewrite Hz in H2; done).
    assert (Hs : thr s2 (current s2) = thr s (current s)) by (rewrite F1, Ec; by apply O).
    unfold held. rewrite Hs. split; [|done]. apply K2; rewrite ?Hs; congruence. }
  exists s2. split; [done|]. split; [|split; [by repeat split; congruence|done]].
  - apply (base_step t s s2 Hb C2); [split; [done|]| |congruence|done| | |].
    + rewrite (alike_dead _ _ A2), Hids, W2. intros D. destruct (Hd D) as (D1 & D2 & D3). split; [done|split; [|done]].
      apply (node_none [] t _ C2).
      * destruct (queued (thr s2 t)) eqn:Q; [|done]. apply proj1 in R2. destruct (R2 eq_refl) as [R _]. rewrite (alike_prevented _ _ A2) in R.
        bits. rewrite D in R. by rewrite ?orb_true_r in R.
      * destruct A2 as (_ & _ & -> & _). destruct (pended_on (thr s1 t)) eqn:P; [|done]. apply (c_pend _ _ _ _ C1) in P. congruence.
    + by apply K2, (touched_cache t s), Hb.
    + intros u Hu. rewrite Hids. by apply Et.
    + rewrite (alike_prevented _ _ A2), Hids. done.
    + destruct A2 as (_ & _ & _ & ->); [|done]. rewrite Hg. apply Hb.
Qed.
End invariant.
