(* ===== verification/SchedEvents.v ===== *)
(** * What the scheduler guarantees

    The calls and interrupts of kernel/sched.c as events, the invariant they
    keep in every order in which they can come, and what follows for the
    thread that runs. *)
From S2P Require Import Prelude DList KSem Timeout TimeUnits Sched SchedInv.
From stdpp Require Import prelude list numbers gmap sorting.
From Stdlib Require Import ZArith Lia Sorted.
Open Scope Z_scope.

Section events.
Context (idle_thread hz : Z).
#[local] Abbreviation core_of := (SchedInv.core_of idle_thread).
#[local] Abbreviation base := (SchedInv.base idle_thread).
#[local] Abbreviation inv := (SchedInv.inv idle_thread).
#[local] Abbreviation best := (SchedInv.best idle_thread).

(** Runs the calls whose results are known. *)
Ltac run_done := repeat (erewrite bind_done by eassumption).

(** The current thread stays, and goes on if it cannot be preempted and an
    interrupt is being served. *)
Definition kept (s s' : kernel) : Prop :=
  current s' = current s /\ in_isr s' = in_isr s /\ (in_isr s = true -> held s -> held s' /\ pendsv s' = pendsv s).

Lemma kept_refl s : kept s s.
Proof. by split. Qed.

Lemma kept_trans s1 s2 s3 : kept s1 s2 -> kept s2 s3 -> kept s1 s3.
Proof.
  intros (A1 & A2 & A3) (B1 & B2 & B3). split; [congruence|]. split; [congruence|]. intros Hi Hh.
  destruct (A3 Hi Hh) as [Hh' E]. destruct B3 as [? E']; [congruence|done|]. split; [done|congruence].
Qed.

Lemma quiet_held s s' : quiet s s' -> held s -> held s'.
Proof.
  intros (E1 & _ & E2 & _ & _ & Ht) (H1 & H2 & H3). unfold held. rewrite E1, E2. destruct (Ht (current s)) as [v ->]. done.
Qed.

Lemma quiet_kept s s' : quiet s s' -> (in_isr s = true -> pendsv s' = pendsv s) -> kept s s'.
Proof.
  intros Hq Hp. pose proof Hq as (E1 & E2 & _). split; [done|]. split; [done|]. intros Hi Hh. split; [by eapply quiet_held|by apply Hp].
Qed.

(** A switch is decided after the work. *)
Lemma reschedule_kept s1 : base s1 -> exists s2, z_reschedule s1 = (Done tt, s2) /\ inv s2 /\ kept s1 s2.
Proof.
  intros Hb. destruct (reschedule_run _ _ Hb) as (s2 & E & H & Hq & Hp). exists s2. do 2 (split; [done|]). apply quiet_kept; [done|].
  intros Hi. destruct Hp as [?|[? _]]; [done|congruence].
Qed.

Lemma reschedule_unlocked_kept s1 : base s1 -> exists s2, z_reschedule_unlocked s1 = (Done tt, s2) /\ inv s2 /\ kept s1 s2.
Proof.
  intros Hb. destruct (reschedule_irqlock_run _ _ Hb) as (s2 & E & H & Hq & Hp). exists s2. do 2 (split; [done|]). by apply quiet_kept.
Qed.

Lemma frame_kept s s' : frame s s' -> (held s -> held s') -> kept s s'.
Proof. intros (E1 & E2 & E3) Hh. split; [done|]. split; [done|]. intros _ H. split; [by apply Hh|done]. Qed.

(** The invariant, of one thread. *)
Lemma ready_iff s t : base s -> t <> idle_thread ->
  (z_is_thread_queued (thr s t) = true <-> z_is_thread_prevented_from_running (thr s t) = false /\ t ∉ timeout_ids (kclk s)).
Proof. intros [Hc _ _ _]. apply (c_ready _ _ _ _ _ Hc), not_elem_of_nil. Qed.

Lemma dead_facts s t : base s -> is_dead (thr s t) = true ->
  (t ∉ timeout_ids (kclk s)) /\ qnode (thr s t) = None /\ queues s (Waitq (join_queue t)) = [].
Proof. intros [Hc _ _ _]. apply (c_dead _ _ _ _ _ Hc), not_elem_of_nil. Qed.

Lemma waiting_facts s t q x : core_of x s -> t ∈ queues s (Waitq q) ->
  t <> idle_thread /\ pended_on (thr s t) = Some q /\ z_is_thread_prevented_from_running (thr s t) = true /\ z_is_thread_queued (thr s t) = false.
Proof.
  intros Hc Ht. apply (c_node _ _ _ _ _ Hc) in Ht. pose proof Ht as Hq. apply (c_pend _ _ _ _ _ Hc) in Ht.
  assert (Hp : z_is_thread_pending (thr s t) = true) by (apply (c_pending _ _ _ _ _ Hc); by eexists).
  assert (Hr : z_is_thread_prevented_from_running (thr s t) = true) by (bits; by rewrite Hp).
  split; [intros ->; destruct (c_idle _ _ _ _ _ Hc); congruence|]. do 2 (split; [done|]).
  destruct (z_is_thread_queued (thr s t)) eqn:E; [|done]. apply (c_queued _ _ _ _ _ Hc) in E. congruence.
Qed.

(** ** Starting, resuming and waking up *)

(** A thread whose [m] bit kept it from running loses it. *)
Lemma release_run t m s : m = THREAD_SUSPENDED \/ m = THREAD_PRESTART -> t <> idle_thread -> base s ->
  z_is_thread_state_set (thr s t) m = true -> (t = current s -> t ∉ timeout_ids (kclk s)) ->
  exists s', (on_thread t (z_reset_thread_states m);; ready_thread idle_thread t;; z_reschedule) s = (Done tt, s') /\ inv s' /\ kept s s'.
Proof.
  intros Hm Hi Hb Hs Ha. pose proof (b_core _ _ Hb) as Hc. pose proof (core_open _ _ _ _ _ t Hc) as Hc1.
  assert (Hp : z_is_thread_prevented_from_running (thr s t) = true).
  { bits. destruct Hm as [-> | ->]; bits; by rewrite Hs, ?orb_true_r. }
  set (s1 := set_thr (upd (thr s) t (z_reset_thread_states m (thr s t))) s).
  assert (C1 : core_of [t] s1).
  { apply (on_thread_run _ _ _ Hi s _ Hc1); [done|done|done|by destruct Hm as [-> | ->]; bits..]. }
  assert (Et : thr s1 t = z_reset_thread_states m (thr s t)) by (unfold s1; cbn; by rewrite upd_eq).
  assert (Hq : z_is_thread_queued (thr s t) = false).
  { destruct (z_is_thread_queued (thr s t)) eqn:E; [|done]. apply ready_iff in E as [E _]; [congruence|done..]. }
  destruct (wake_run idle_thread t s s1) as (s2 & E2 & B2 & F2 & _ & Hh & _); [done|done| |done| | | |].
  - split; [intros u Hu; by apply upd_ne|done..| |]; [done|]. rewrite Et. destruct Hm as [-> | ->]; by bits.
  - rewrite Et. intros Q. assert (Q' : z_is_thread_queued (thr s t) = true) by (by destruct Hm as [-> | ->]; bits). congruence.
  - rewrite Et. intros D. apply (dead_facts s t Hb). destruct Hm as [-> | ->]; by bits.
  - intros E _. by apply Ha.
  - unfold on_thread. rewrite bind_modify. fold s1. erewrite bind_done by exact E2.
    destruct (reschedule_kept s2 B2) as (s3 & E3 & I3 & K3). exists s3. do 2 (split; [done|]). by eapply kept_trans; [apply frame_kept|].
Qed.

Lemma start_event_run t s : t <> idle_thread -> inv s -> (t = current s -> t ∉ timeout_ids (kclk s)) ->
  exists s', z_sched_start idle_thread t s = (Done tt, s') /\ inv s' /\ kept s s'.
Proof.
  intros Hi Hv Ha. unfold z_sched_start. rewrite bind_gets. unfold z_has_thread_started.
  destruct (z_is_thread_state_set _ _) eqn:E; cbn [negb]; [|exists s; auto using kept_refl].
  apply release_run; auto. apply Hv.
Qed.

Lemma resume_run t s : t <> idle_thread -> inv s -> (t = current s -> t ∉ timeout_ids (kclk s)) ->
  exists s', k_thread_resume idle_thread t s = (Done tt, s') /\ inv s' /\ kept s s'.
Proof.
  intros Hi Hv Ha. unfold k_thread_resume. rewrite bind_gets. unfold z_is_thread_suspended.
  destruct (z_is_thread_state_set _ _) eqn:E; cbn [negb]; [|exists s; auto using kept_refl].
  apply release_run; auto. apply Hv.
Qed.

Lemma wakeup_run t s : t <> idle_thread -> inv s -> exists s', k_wakeup idle_thread t s = (Done tt, s') /\ inv s' /\ kept s s'.
Proof.
  intros Hi Hv. pose proof (v_base _ _ Hv) as Hb. pose proof (b_core _ _ Hb) as Hc. unfold k_wakeup. rewrite bind_gets.
  destruct (z_is_thread_pending (thr s t)) eqn:Hg; [exists s; auto using kept_refl|].
  destruct (abort_timeout_run _ _ t Hi s (core_open _ _ _ _ _ t Hc)) as (r & c' & E1 & C1 & T1 & R1 & O1).
  erewrite bind_done by exact E1. rewrite bind_gets. cbn [thr set_kclk].
  destruct ((r <? 0) && negb (thread_state (thr s t) =? THREAD_SUSPENDED)) eqn:Er.
  { apply andb_prop in Er as [Er _]. apply Z.ltb_lt, R1, linked_ids_false in Er.
    unfold z_abort_thread_timeout, z_abort_timeout in E1. rewrite Er in E1. injection E1 as <- <-. exists s. destruct s. auto using kept_refl. }
  set (s0 := set_kclk c' s) in *. set (s1 := set_thr (upd (thr s0) t (z_reset_thread_states THREAD_SUSPENDED (thr s0 t))) s0).
  assert (Et : thr s1 t = z_reset_thread_states THREAD_SUSPENDED (thr s t)) by (unfold s1; cbn; by rewrite upd_eq).
  assert (C2 : core_of [t] s1) by (apply (on_thread_run _ _ _ Hi s0 _ C1); [done|done|done|by bits..]).
  destruct (wake_run idle_thread t s s1) as (s2 & E2 & B2 & F2 & _ & Hh & _); [done|done| |done| | |done|].
  - split; [intros u Hu; by apply upd_ne|done..|intros u Hu Hin; by apply O1| |rewrite Et; by bits]. intros ->.
    destruct (z_is_thread_prevented_from_running (thr s (current s))) eqn:Hp; [done|]. exfalso.
    apply andb_false_iff in Er as [Er|Er].
    + apply Z.ltb_ge in Er. pose proof (b_awake _ _ Hb Hp) as Ha. apply R1 in Ha. lia.
    + apply negb_false_iff, Z.eqb_eq in Er. unfold z_is_thread_prevented_from_running, z_is_thread_state_set in Hp. by rewrite Er in Hp.
  - rewrite Et. intros Q. assert (Q' : z_is_thread_queued (thr s t) = true) by (by bits). apply ready_iff in Q' as [Q' _]; [|done..].
    split; [|done]. clear -Q'. bits. apply orb_false_iff in Q' as [-> _]. done.
  - rewrite Et. intros D. split; [done|]. apply (dead_facts s t Hb). by bits.
  - unfold z_mark_thread_as_not_suspended, on_thread. rewrite bind_modify. fold s1. unfold z_ready_thread. erewrite bind_done by exact E2.
    rewrite bind_gets. assert (K2 : kept s s2) by (by apply frame_kept).
    destruct (in_isr s2) eqn:Ei; cbn [negb when]; [exists s2; split; [done|split; [|done]]; by split; [|congruence]|].
    destruct (reschedule_unlocked_kept s2 B2) as (s3 & E3 & I3 & K3). exists s3. do 2 (split; [done|]). by eapply kept_trans.
Qed.

(** A thread leaves its wait queue, and its timeout with it. *)
Lemma unpend_abort_run x t q s : core_of (t :: x) s -> t <> idle_thread -> pended_on (thr s t) = Some q -> exists s0 r s1,
  unpend_thread_no_timeout t s = (Done tt, s0) /\ z_abort_thread_timeout t s0 = (Done r, s1) /\ core_of (t :: x) s1 /\
  frame s s1 /\ others t s s1 /\ cache s1 = cache s /\
  queues s1 = upd (queues s) (Waitq q) (filter (fun a => a <> t) (queues s (Waitq q))) /\
  (forall u, u <> t -> u ∈ timeout_ids (kclk s1) <-> u ∈ timeout_ids (kclk s)) /\ (t ∉ timeout_ids (kclk s1)) /\
  thr s1 t = set_pended_on None (z_reset_thread_states THREAD_PENDING (set_qnode None (thr s t))).
Proof.
  intros Hc Hi Hp. destruct (unpend_run _ _ t Hi s q Hc Hp) as (s1 & E1 & C1 & F1 & O1 & K1 & H1 & Q1 & T1).
  destruct (abort_timeout_run _ _ t Hi s1 C1) as (r & c' & E2 & C2 & N2 & _ & O2). exists s1, r, (set_kclk c' s1).
  do 7 (split; [done|]). split; [|done]. cbn. by rewrite <- K1.
Qed.

Lemma unpend_ready_run t q s : base s -> t ∈ queues s (Waitq q) -> exists s0 r s1 s2,
  unpend_thread_no_timeout t s = (Done tt, s0) /\ z_abort_thread_timeout t s0 = (Done r, s1) /\ ready_thread idle_thread t s1 = (Done tt, s2) /\
  base s2 /\ kept s s2 /\ pendsv s2 = pendsv s /\ queues s2 (Waitq q) = filter (fun a => a <> t) (queues s (Waitq q)).
Proof.
  intros Hb Ht. pose proof (b_core _ _ Hb) as Hc. destruct (waiting_facts s t q [] Hc Ht) as (Hi & Hp & Hr & Hq).
  destruct (unpend_abort_run [] t q s (core_open _ _ _ _ _ t Hc) Hi Hp) as (s0 & r & s1 & E0 & E1 & C1 & F1 & O1 & K1 & Q1 & I1 & N1 & T1).
  destruct (wake_run idle_thread t s s1) as (s2 & E2 & B2 & F2 & W2 & Hh & _); [done|done| |done| | |done|].
  - split; [done..|by rewrite Q1, upd_ne|intros u Hu; by apply I1|done|rewrite T1; by bits].
  - rewrite T1. intros Q. assert (z_is_thread_queued (thr s t) = true) by (by bits). congruence.
  - rewrite T1. intros D. assert (D' : is_dead (thr s t) = true) by (by bits). apply (dead_facts s t Hb) in D' as (_ & D' & _).
    apply (c_node _ _ _ _ _ Hc) in Ht. congruence.
  - exists s0, r, s1, s2. do 4 (split; [done|]). split; [by apply frame_kept|].
    split; [apply F2|]. by rewrite W2, Q1, upd_eq.
Qed.

Lemma sched_wake_run q v s : base s -> exists b s', z_sched_wake idle_thread q v s = (Done b, s') /\ base s' /\ kept s s'.
Proof.
  intros Hb. unfold z_sched_wake, z_priq_dumb_best. rewrite bind_gets.
  destruct (queues s (Waitq q)) as [|t l] eqn:E; cbn [head]; [exists false, s; auto using kept_refl|].
  unfold on_thread. rewrite bind_modify. set (s0 := set_thr (upd (thr s) t (set_swap_return_value v (thr s t))) s).
  assert (B0 : base s0) by (by apply (base_flags idle_thread t s (set_swap_return_value v) Hb)).
  assert (K0 : kept s s0).
  { apply frame_kept; [done|]. intros (H1 & H2 & H3). unfold held, s0. cbn.
    destruct (decide (current s = t)) as [<-|]; [rewrite upd_eq; done|by rewrite upd_ne]. }
  destruct (unpend_ready_run t q s0 B0) as (s1 & r & s2 & s3 & E1 & E2 & E3 & B3 & K3 & _). { cbn. rewrite E. left. }
  exists true, s3. run_done. split; [done|]. split; [done|]. by eapply kept_trans.
Qed.

Lemma filter_shorter (t : Z) l : t ∈ l -> (length (filter (fun a => a <> t) l) < length l)%nat.
Proof. intros Ht. apply (length_filter_lt _ _ t); [done|]. tauto. Qed.

Lemma unpend_all_run fuel q s b : base s -> (length (queues s (Waitq q)) <= fuel)%nat ->
  exists b' s', z_unpend_all idle_thread fuel q b s = (Done b', s') /\ base s' /\ kept s s'.
Proof.
  revert s b. induction fuel as [|fuel IH]; intros s b Hb Hl; cbn [z_unpend_all]; unfold z_priq_dumb_best; rewrite bind_gets;
    destruct (queues s (Waitq q)) as [|t l] eqn:E; cbn [head]; try (exists b, s; by auto using kept_refl); [cbn in Hl; lia|].
  assert (Ht : t ∈ queues s (Waitq q)) by (rewrite E; left).
  destruct (unpend_ready_run t q s Hb Ht) as (s0 & r & s1 & s2 & E0 & E1 & E2 & B2 & K2 & _ & Q2).
  destruct (IH s2 true B2) as (b' & s' & E' & B' & K').
  { rewrite Q2. apply filter_shorter in Ht. rewrite E in Ht |- *. lia. }
  exists b', s'. split; [|split; [done|by eapply kept_trans]]. unfold z_unpend_thread, z_unpend_thread_no_timeout, z_ready_thread.
  erewrite bind_done; [by run_done|]. by run_done.
Qed.

(** ** Suspending, waiting and sleeping *)

Lemma recache_run s b : exists s', update_cache idle_thread b s = (Done tt, s') /\ cache_ok idle_thread s' /\ frame s s' /\
  thr s' = thr s /\ queues s' = queues s /\ timeout_ids (kclk s') = timeout_ids (kclk s) /\
  (forall x, core_of x s -> core_of x s') /\ (b = true -> cache s' = best s') /\ same_time (kclk s) (kclk s').
Proof.
  destruct (update_cache_run idle_thread s b) as (c' & E & T). eexists. split; [exact E|].
  assert (Ht : timeout_ids c' = timeout_ids (kclk s)) by (by apply same_ids).
  split; [by apply (update_cached idle_thread s _ b)|]. do 3 (split; [done|]). split; [done|]. split.
  - intros x Hc. unfold SchedInv.core_of. cbn. by rewrite Ht.
  - split; [by intros ->|exact T].
Qed.

(** A thread that is out of the ready queue and cannot run. *)
Lemma base_parked t s s' : t <> idle_thread -> base s -> core_of [t] s' -> cache_ok idle_thread s' -> current s' = current s -> others t s s' ->
  (forall u, u <> t -> u ∈ timeout_ids (kclk s') -> u ∈ timeout_ids (kclk s)) ->
  z_is_thread_prevented_from_running (thr s' t) = true -> z_is_thread_queued (thr s' t) = false ->
  z_is_thread_state_set (thr s' t) THREAD_ABORTING = false ->
  (is_dead (thr s' t) = true -> (t ∉ timeout_ids (kclk s')) /\ pended_on (thr s' t) = None /\ queues s' (Waitq (join_queue t)) = []) ->
  base s'.
Proof.
  intros Hi Hb Hc Hk Ec Ho Ht Hp Hq Ha Hd. eapply base_step; try done; [|intros _; congruence]. split.
  - rewrite Hp, Hq. split; [done|by intros []].
  - intros D. destruct (Hd D) as (D1 & D2 & D3). split; [done|split; [|done]]. by apply (node_none idle_thread [] t).
Qed.

Lemma suspend_run t s : t <> idle_thread -> inv s -> exists s', k_thread_suspend idle_thread t s = (Done tt, s') /\ inv s'.
Proof.
  intros Hi Hv. pose proof (v_base _ _ Hv) as Hb. pose proof (core_open _ _ _ _ _ t (b_core _ _ Hb)) as Hc.
  destruct (abort_timeout_run _ _ t Hi s Hc) as (r & c' & E0 & C0 & T0 & _ & O0). set (s0 := set_kclk c' s) in *.
  destruct (dequeue_if_run _ _ t Hi s0 C0) as (s1 & E1 & C1 & F1 & O1 & W1 & K1 & Q1 & A1). change (thr s0 t) with (thr s t) in A1.
  set (s2 := set_thr (upd (thr s1) t (z_set_thread_states THREAD_SUSPENDED (thr s1 t))) s1).
  assert (C2 : core_of [t] s2) by (apply (on_thread_run _ _ _ Hi s1 _ C1); [done|done|done|by bits..]).
  assert (Et : thr s2 t = z_set_thread_states THREAD_SUSPENDED (thr s1 t)) by (unfold s2; cbn; by rewrite upd_eq).
  destruct (recache_run s2 (t =? current s)) as (s3 & E3 & K3 & (F3 & F3' & F3'') & H3 & Q3 & T3 & C3 & _).
  assert (O3 : others t s s3). { intros u Hu. rewrite H3. unfold s2. cbn. rewrite upd_ne by done. by apply O1. }
  assert (B3 : base s3).
  { apply (base_parked t s s3); try done; [by apply C3|rewrite F3; apply F1|..]; rewrite ?T3, ?H3, ?Q3, ?Et.
    - intros u Hu. unfold s2. cbn. rewrite K1. by apply O0.
    - by bits.
    - by bits.
    - bits. destruct A1 as (_ & _ & _ & ->); [|done]. apply Hb.
    - intros D. assert (D' : is_dead (thr s t) = true) by (rewrite <- (alike_dead _ _ A1); by bits).
      destruct (dead_facts s t Hb D') as (D1 & D2 & D3). unfold s2. cbn. rewrite K1, W1. split; [done|split; [|done]].
      destruct A1 as (_ & _ & -> & _). destruct (pended_on (thr s t)) eqn:P; [|done]. apply (c_pend _ _ _ _ _ Hc) in P. congruence. }
  unfold k_thread_suspend, z_mark_thread_as_suspended, on_thread. run_done. rewrite bind_modify. fold s2. rewrite bind_gets.
  replace (current s2) with (current s) by (symmetry; apply F1). run_done.
  destruct (Z.eqb_spec t (current s)) as [->|Hn]; cbn [when].
  - destruct (reschedule_unlocked_kept s3 B3) as (s4 & E4 & I4 & _). by exists s4.
  - exists s3. split; [done|]. split; [done|]. destruct F1 as (F1 & F1' & F1''). rewrite F3, F3', F3''. cbn. rewrite F1, F1', F1''. intros P1 P2.
    change (current s0) with (current s). rewrite O3 by done. by apply (v_running _ _ Hv).
Qed.

(** A thread that is in no queue goes into a wait queue. *)
Lemma enter_waitq_run t q s : core_of [t] s -> t <> idle_thread -> z_is_thread_queued (thr s t) = false -> pended_on (thr s t) = None ->
  (forall u, q = join_queue u -> is_dead (thr s u) = false) -> exists s',
  (z_mark_thread_as_pending t;; on_thread t (set_pended_on (Some q));; z_priq_dumb_add (Waitq q) t) s = (Done tt, s') /\
  core_of [t] s' /\ frame s s' /\ others t s s' /\ cache s' = cache s /\ queues s' Runq = queues s Runq /\ kclk s' = kclk s /\
  thr s' t = set_qnode (Some (Waitq q)) (set_pended_on (Some q) (z_set_thread_states THREAD_PENDING (thr s t))).
Proof.
  intros Hc Hi Hq Hp Hj. pose proof (node_none _ _ _ s Hc Hq Hp) as Hn.
  set (k := set_qnode (Some (Waitq q)) (set_pended_on (Some q) (z_set_thread_states THREAD_PENDING (thr s t)))).
  unfold z_mark_thread_as_pending, on_thread. rewrite bind_modify, bind_modify. unfold z_priq_dumb_add. cbn. rewrite !upd_eq. cbn. rewrite Hn.
  eexists. split; [done|]. unfold frame, others. cbn. split; [|split; [done|split; [intros u Hu; by rewrite !upd_ne|]]].
  2: { do 3 (split; [done|]). by rewrite upd_eq. }
  eapply (core_ext _ _ (upd (thr s) t k)); [intros u; cbn; by rewrite !upd_upd|]. cbn.
  rewrite (insert_where_ext _ (fun a => 0 <? z_sched_prio_cmp k (thr s a))).
  - apply core_link; [done|done|done|done|unfold k; by bits|done|unfold k; by bits|]. intros u [= E]. by apply Hj.
  - intros a Ha. rewrite !upd_ne; [done| |]; (intros ->; apply (c_node _ _ _ _ _ Hc) in Ha; congruence).
Qed.

(** The current thread waits. *)
Lemma pend_run q ticks s : base s -> let c := current s in c <> idle_thread -> z_is_thread_prevented_from_running (thr s c) = false ->
  (forall u, q = join_queue u -> is_dead (thr s u) = false) -> exists s1 s2,
  add_to_waitq_locked idle_thread c (Some q) s = (Done tt, s1) /\ add_thread_timeout c ticks s1 = (Done tt, s2) /\ base s2 /\ frame s s2.
Proof.
  intros Hb c Hi Hp Hj. pose proof (core_open _ _ _ _ _ c (b_core _ _ Hb)) as Hc.
  destruct (dequeue_if_run _ _ c Hi s Hc) as (s1 & E1 & C1 & (F1 & F1' & F1'') & O1 & W1 & K1 & Q1 & A1).
  destruct (recache_run s1 (c =? c)) as (s2 & E2 & K2 & (F2 & F2' & F2'') & H2 & Q2 & T2 & C2 & B2 & _).
  assert (Hg : pended_on (thr s c) = None).
  { destruct (pended_on (thr s c)) eqn:P; [|done]. assert (z_is_thread_pending (thr s c) = true) by (apply (c_pending _ _ _ _ _ Hc); by eexists).
    bits. by rewrite H in Hp. }
  destruct (enter_waitq_run c q s2 (C2 _ C1) Hi) as (s3 & E3 & C3 & (F3 & F3' & F3'') & O3 & K3 & Q3 & T3 & H3); rewrite ?H2.
  { done. }
  { by destruct A1 as (_ & _ & -> & _). }
  { intros u Eu. specialize (Hj u Eu). destruct (decide (u = c)) as [->|]; [by rewrite (alike_dead _ _ A1)|by rewrite O1]. }
  assert (Hids : timeout_ids (kclk s3) = timeout_ids (kclk s)) by (by rewrite T3, T2, K1).
  destruct (add_timeout_run _ _ c Hi s3 ticks C3) as (c' & E4 & C4 & O4). { rewrite Hids. by apply (b_awake _ _ Hb). }
  exists s3, (set_kclk c' s3). split; [|split; [done|split; [|by repeat split; cbn; congruence]]].
  - unfold add_to_waitq_locked, unready_thread. erewrite bind_done; [exact E3|]. run_done. rewrite bind_gets, F1. exact E2.
  - assert (Ho : others c s (set_kclk c' s3)) by (intros u Hu; cbn; rewrite O3, H2 by done; by apply O1).
    apply (base_parked c s); try done; cbn.
    + left. cbn. rewrite K3, B2 by (apply Z.eqb_refl). unfold SchedInv.best. cbn. by rewrite Q3.
    + congruence.
    + intros u Hu Hin. apply O4 in Hin; [|done]. by rewrite <- Hids.
    + rewrite H3. by bits.
    + rewrite H3, H2. by bits.
    + rewrite H3, H2. bits. destruct A1 as (_ & _ & _ & ->); [|done]. apply Hb.
    + rewrite H3, H2. intros D. assert (D' : is_dead (thr s c) = true) by (rewrite <- (alike_dead _ _ A1); by bits).
      exfalso. bits. by rewrite D', ?orb_true_r in Hp.
Qed.

Lemma pending_base v s : base s -> base (set_pending_current v s).
Proof. by intros [H1 H2 H3 H4]. Qed.

(** A thread that executes. *)
Definition runs (s : kernel) : Prop := current s <> idle_thread /\ in_isr s = false /\ pendsv s = false.

Lemma wait_run q ticks s : inv s -> runs s -> exists s', z_pend_curr idle_thread (Some (inl q)) ticks s = (Done tt, s') /\ inv s'.
Proof.
  intros Hv (Hi & Hr1 & Hr2). pose proof (v_base _ _ Hv) as Hb. set (s0 := set_pending_current (Some (current s)) s).
  destruct (pend_run (inl q) ticks s0) as (s1 & s2 & E1 & E2 & B2 & _); [by apply pending_base|done|by apply (v_running _ _ Hv)|done|].
  destruct (swap_run _ _ B2) as (s3 & E3 & I3 & _). exists s3. split; [|done].
  unfold z_pend_curr, pend. rewrite bind_gets, bind_modify. fold s0. erewrite bind_done; [exact E3|]. change (current s) with (current s0). by run_done.
Qed.

Lemma join_run t ticks s : inv s -> runs s -> exists r s', k_thread_join idle_thread t ticks s = (Done r, s') /\ inv s'.
Proof.
  intros Hv (Hi & Hr1 & Hr2). pose proof (v_base _ _ Hv) as Hb. unfold k_thread_join. rewrite bind_gets.
  destruct (is_dead (thr s t)) eqn:D; [by eexists _, s|]. destruct (ticks =? 0); [by eexists _, s|]. rewrite !bind_gets.
  destruct ((t =? current s) || _); [by eexists _, s|].
  destruct (pend_run (join_queue t) ticks s Hb) as (s1 & s2 & E1 & E2 & B2 & _); [done|by apply (v_running _ _ Hv)|by intros u [= <-]|].
  destruct (swap_run _ _ B2) as (s3 & E3 & I3 & _). exists None, s3. run_done. done.
Qed.

(** ** Yielding and priorities *)

(** A ready thread that was taken out of the ready queue goes into it again. *)
Lemma requeue_run t s s1 b : base s -> t <> idle_thread -> z_is_thread_queued (thr s t) = true -> core_of [t] s1 -> frame s s1 ->
  others t s s1 -> waiters s s1 -> kclk s1 = kclk s -> z_is_thread_queued (thr s1 t) = false -> pended_on (thr s1 t) = None ->
  (forall m, Z.land m THREAD_QUEUED = 0 -> z_is_thread_state_set (thr s1 t) m = z_is_thread_state_set (thr s t) m) ->
  exists s2 s3, queue_thread t s1 = (Done tt, s2) /\ update_cache idle_thread b s2 = (Done tt, s3) /\ base s3 /\ frame s s3 /\
    (b = true -> cache s3 = best s3) /\ others t s s3 /\ alike (thr s1 t) (thr s3 t) /\
    same_time (kclk s) (kclk s3).
Proof.
  intros Hb Hi Hq C1 (F1 & F1' & F1'') O1 W1 K1 Q1 G1 A1.
  destruct (proj1 (ready_iff s t Hb Hi) Hq) as [Hp Hn].
  destruct (queue_run _ _ t Hi s1 C1 Q1 G1) as (s2 & E2 & C2 & (F2 & F2' & F2'') & O2 & W2 & K2 & Q2 & A2).
  destruct (recache_run s2 b) as (s3 & E3 & K3 & (F3 & F3' & F3'') & H3 & Q3 & T3 & C3 & B3 & T3').
  assert (Hids : timeout_ids (kclk s3) = timeout_ids (kclk s)) by (by rewrite T3, K2, K1).
  assert (Ho : others t s s3) by (intros u Hu; rewrite H3, O2 by done; by apply O1).
  exists s2, s3. do 2 (split; [done|]). split; [|split; [by repeat split; congruence|split; [done|split; [done|split; [by rewrite H3|by rewrite <- K1, <- K2]]]]].
  apply (base_step _ t s s3 Hb (C3 _ C2)); rewrite ?H3, ?Hids; try done; [|congruence|].
  - split; rewrite H3, ?Q3, ?Hids, ?W2, ?W1.
    + rewrite Q2, (alike_prevented _ _ A2). split; [|done]. intros _. split; [|done]. rewrite <- Hp. by apply A1.
    + rewrite (alike_dead _ _ A2). unfold is_dead. rewrite A1 by done. intros D. exfalso. bits. by rewrite D, ?orb_true_r in Hp.
  - destruct A2 as (_ & _ & _ & ->); [|done]. rewrite A1 by done. apply Hb.
Qed.

Lemma ready_not_pended t s : core_of [t] s -> z_is_thread_queued (thr s t) = true -> pended_on (thr s t) = None.
Proof.
  intros Hc Hq. destruct (pended_on (thr s t)) eqn:P; [|done]. apply (c_pend _ _ _ _ _ Hc) in P. apply (c_queued _ _ _ _ _ Hc) in Hq. congruence.
Qed.

(** The current thread can run, so it is in the ready queue. *)
Lemma running_queued s : inv s -> runs s -> z_is_thread_queued (thr s (current s)) = true.
Proof.
  intros Hv (Hi & Hr1 & Hr2). pose proof (v_running _ _ Hv Hr1 Hr2) as Hp. apply ready_iff; [apply Hv|done|].
  split; [done|]. by apply (b_awake _ _ (v_base _ _ Hv)).
Qed.

Lemma yield_run s : inv s -> in_isr s = false -> pendsv s = false -> exists s', k_yield idle_thread s = (Done tt, s') /\ inv s'.
Proof.
  intros Hv Hr1 Hr2. pose proof (v_base _ _ Hv) as Hb. unfold k_yield, z_is_idle_thread_object. rewrite bind_gets.
  destruct (Z.eqb_spec (current s) idle_thread) as [E|Hi]; cbn [negb].
  { destruct (swap_run _ _ Hb) as (s' & E' & I' & _). by exists s'. }
  pose proof (running_queued s Hv (conj Hi (conj Hr1 Hr2))) as Hq. pose proof (core_open _ _ _ _ _ (current s) (b_core _ _ Hb)) as Hc.
  destruct (dequeue_run _ _ _ Hi s Hc Hq) as (s1 & E1 & C1 & F1 & O1 & W1 & K1 & T1).
  destruct (requeue_run (current s) s s1 true) as (s2 & s3 & E2 & E3 & B3 & _); try done; rewrite ?T1.
  - by bits.
  - by apply ready_not_pended.
  - apply alike_reset.
  - destruct (swap_run _ _ B3) as (s4 & E4 & I4 & _). exists s4. by run_done.
Qed.

Lemma set_prio_run t p s : base s -> t <> idle_thread -> exists b s', z_set_prio idle_thread t p s = (Done b, s') /\ base s' /\ frame s s' /\
  (b = false -> cache s' = cache s) /\ (forall u, z_is_thread_prevented_from_running (thr s' u) = z_is_thread_prevented_from_running (thr s u)).
Proof.
  intros Hb Hi. pose proof (core_open _ _ _ _ _ t (b_core _ _ Hb)) as Hc. unfold z_set_prio. rewrite bind_gets.
  pose proof (not_ready t s) as Hr. pose proof (ready_iff s t Hb Hi) as Hq. destruct (z_is_thread_ready t s).
  - assert (Q : z_is_thread_queued (thr s t) = true) by (by apply Hq, Hr).
    destruct (dequeue_run _ _ _ Hi s Hc Q) as (s1 & E1 & C1 & F1 & O1 & W1 & K1 & T1).
    set (s2 := set_thr (upd (thr s1) t (set_prio p (thr s1 t))) s1).
    assert (Et : thr s2 t = set_prio p (thr s1 t)) by (unfold s2; cbn; by rewrite upd_eq).
    assert (N1 : z_is_thread_queued (thr s1 t) = false) by (rewrite T1; by bits).
    destruct (requeue_run t s s2 true) as (s3 & s4 & E3 & E4 & B4 & F4 & _ & O4 & A4 & _); try done; rewrite ?Et.
    + eapply core_flags; [exact C1|done|done|done| |done|done]. unfold z_is_thread_queued in *. rewrite has_prio, N1. done.
    + intros u Hu. unfold s2. cbn. rewrite upd_ne by done. by apply O1.
    + exact N1.
    + rewrite T1. by apply ready_not_pended.
    + intros m Hm. rewrite has_prio, T1. by apply alike_reset.
    + exists true, s4. run_done. unfold on_thread. rewrite bind_modify. fold s2. run_done. do 3 (split; [done|]). split; [done|].
      intros u. destruct (decide (u = t)) as [->|]; [|by rewrite O4]. rewrite (alike_prevented _ _ A4), Et. bits. rewrite T1. by bits.
  - exists false. unfold on_thread. rewrite bind_modify. eexists. split; [done|].
    assert (Q : z_is_thread_queued (thr s t) = false).
    { destruct (z_is_thread_queued (thr s t)); [|done]. by destruct (proj2 Hr (proj1 Hq eq_refl)). }
    set (s1 := set_thr _ s). assert (Et : thr s1 t = set_prio p (thr s t)) by (unfold s1; cbn; by rewrite upd_eq).
    assert (Hs : forall u m, z_is_thread_state_set (thr s1 u) m = z_is_thread_state_set (thr s u) m).
    { intros u m. unfold s1. cbn. destruct (decide (u = t)) as [->|]; [rewrite upd_eq; apply has_prio|by rewrite upd_ne]. }
    split; [|split; [done|split; [done|intros u; apply Hs]]].
    assert (T : touched t s s1).
    { split; [intros u Hu; by apply upd_ne|done..| |by rewrite Hs]. intros E.
      destruct (z_is_thread_prevented_from_running (thr s t)) eqn:P; [done|]. pose proof (b_awake _ _ Hb) as Ha. rewrite <- E in Ha.
      pose proof (proj2 Hr (conj eq_refl (Ha P))). done. }
    apply (base_step _ t s s1 Hb); try apply T.
    + eapply core_flags; [exact Hc|done|done|done| |done|done]. unfold z_is_thread_queued in *. by rewrite has_prio, Q.
    + split; rewrite Et; [exact Hq|apply (dead_facts s t Hb)].
    + apply (touched_cache _ t s s1 T), Hb.
    + rewrite Et. intros -> P. by apply (b_awake _ _ Hb).
    + rewrite Hs. apply Hb.
Qed.

Lemma priority_run t p s : inv s -> t <> idle_thread -> exists s', k_thread_priority_set idle_thread t p s = (Done tt, s') /\ inv s'.
Proof.
  intros Hv Hi. destruct (set_prio_run t p s (v_base _ _ Hv) Hi) as (b & s1 & E1 & B1 & (F1 & F1' & F1'') & _ & P1).
  unfold k_thread_priority_set, z_thread_priority_set. run_done. rewrite bind_gets. destruct (b && _); cbn [when].
  - destruct (reschedule_unlocked_kept s1 B1) as (s2 & E2 & I2 & _). by exists s2.
  - exists s1. split; [done|]. split; [done|]. rewrite F1, F1', F1'', P1. apply Hv.
Qed.

(** Locking counts down from zero, so a thread that locks cannot be preempted. *)
Lemma locked_not_preempt t : 0 < sched_locked t -> is_preempt t = false.
Proof.
  intros Hl. unfold is_preempt, preempt. apply Z.leb_gt. set (x := Z.lor _ _).
  assert (H : Z.shiftr x 8 = sched_locked t).
  { unfold x. rewrite Z.shiftr_lor, Z.shiftr_shiftl_l by lia. change (8 - 8) with 0. rewrite Z.shiftl_0_r, Z.shiftr_div_pow2 by lia.
    rewrite Z.div_small by (apply u8_byte). done. }
  rewrite Z.shiftr_div_pow2 in H by lia. unfold PREEMPT_THRESHOLD, NON_PREEMPT_THRESHOLD.
  destruct (Z.lt_ge_cases 127 x); [done|]. assert (x / 2 ^ 8 < 1) by (apply Z.div_lt_upper_bound; lia). lia.
Qed.

Lemma lock_run s : inv s -> in_isr s = false -> pendsv s = false -> u8 (sched_locked (thr s (current s))) <> 1 ->
  exists s', k_sched_lock s = (Done tt, s') /\ inv s'.
Proof.
  intros Hv Hr1 Hr2 Hl. unfold k_sched_lock, z_sched_lock, on_thread. rewrite bind_gets. cbn. eexists. split; [done|].
  set (f := fun t => set_sched_locked (u8 (sched_locked t - 1)) t).
  split; [apply (base_flags idle_thread _ s f (v_base _ _ Hv)); try done|].
  - intros _ _ _. apply locked_not_preempt. unfold f. cbn. unfold u8 in *. set (l := sched_locked _) in *.
    pose proof (Z.mod_pos_bound (l - 1) (2 ^ 8) eq_refl). destruct (Z.eq_dec ((l - 1) mod 2 ^ 8) 0) as [E|]; [|lia]. exfalso. apply Hl.
    replace l with (l - 1 + 1) by lia. rewrite Z.add_mod, E by done. done.
  - intros _ _. cbn. rewrite upd_eq. apply (v_running _ _ Hv); done.
Qed.

Lemma unlock_run s : inv s -> in_isr s = false -> pendsv s = false -> exists s', k_sched_unlock idle_thread s = (Done tt, s') /\ inv s'.
Proof.
  intros Hv Hr1 Hr2. pose proof (v_base _ _ Hv) as Hb. unfold k_sched_unlock, on_thread. rewrite bind_gets, bind_modify.
  set (f := fun t => set_sched_locked (u8 (sched_locked t + 1)) t).
  destruct (flags_core idle_thread (current s) s f Hb) as [C1 H1]; try done.
  set (s1 := set_thr (upd (thr s) (current s) (f (thr s (current s)))) s) in *. change (set_thr _ s) with s1.
  destruct (recache_run s1 false) as (s2 & E2 & K2 & (F2 & F2' & F2'') & H2 & Q2 & T2 & C2 & _). run_done.
  destruct (reschedule_unlocked_kept s2) as (s3 & E3 & I3 & _); [|by exists s3].
  split; [by apply C2|done| |].
  - rewrite F2, H2, T2. intros Hp. apply (b_awake _ _ Hb). rewrite <- Hp. symmetry. apply H1.
  - intros u. rewrite H2, H1. apply Hb.
Qed.

(** ** Sleeping *)

(** A thread that sleeps: out of the ready queue, with its deadline. *)
Definition asleep (n : Z) (s s' : kernel) : Prop :=
  in_isr s' = in_isr s /\ z_is_thread_state_set (thr s' (current s)) THREAD_DUMMY = z_is_thread_state_set (thr s (current s)) THREAD_DUMMY /\
  (current s, now (kclk s) + (n + 1)) ∈ queue (kclk s') /\ curr_tick (kclk s') = curr_tick (kclk s) /\
  (wf (kclk s) -> 0 <= elapsed (kclk s) -> wf (kclk s')).

Lemma sleep_event_run ticks s : inv s -> runs s -> exists r s', k_sleep idle_thread ticks s = (Done r, s') /\ inv s' /\
  (0 < ticks -> asleep ticks s s').
Proof.
  intros Hv Hr. pose proof Hr as (Hi & Hr1 & Hr2). pose proof (v_base _ _ Hv) as Hb. unfold k_sleep.
  destruct (Z.eqb_spec ticks K_TICKS_FOREVER) as [->|Hf].
  { rewrite bind_gets. destruct (suspend_run (current s) s Hi Hv) as (s1 & E1 & I1). exists None, s1. run_done. split; [done|]. split; [done|]. unfold K_TICKS_FOREVER. lia. }
  unfold z_tick_sleep. destruct (Z.eqb_spec ticks 0).
  { destruct (yield_run s Hv Hr1 Hr2) as (s1 & E1 & I1). exists None, s1. run_done. split; [done|]. split; [done|]. lia. }
  rewrite !bind_gets, bind_modify. set (s0 := set_pending_current (Some (current s)) s). set (c := current s) in *.
  assert (B0 : base s0) by (by apply pending_base). pose proof (core_open _ _ _ _ _ c (b_core _ _ B0)) as Hc.
  pose proof (v_running _ _ Hv Hr1 Hr2) as Hp. fold c in Hp.
  destruct (dequeue_if_run _ _ c Hi s0 Hc) as (s1 & E1 & C1 & (F1 & F1' & F1'') & O1 & W1 & K1 & Q1 & A1). change (thr s0 c) with (thr s c) in A1.
  destruct (recache_run s1 (c =? c)) as (s2 & E2 & K2 & (F2 & F2' & F2'') & H2 & Q2 & T2 & C2 & B2 & S2).
  assert (Hids : timeout_ids (kclk s2) = timeout_ids (kclk s)) by (by rewrite T2, K1).
  destruct (add_timeout_run _ _ c Hi s2 ticks (C2 _ C1)) as (c' & E3 & C3 & O3). { rewrite Hids. by apply (b_awake _ _ Hb). }
  set (s3 := set_kclk c' s2) in *. set (s4 := set_thr (upd (thr s3) c (z_set_thread_states THREAD_SUSPENDED (thr s3 c))) s3).
  assert (C4 : core_of [c] s4) by (apply (on_thread_run _ _ _ Hi s3 _ C3); [done|done|done|by bits..]).
  assert (Et : thr s4 c = z_set_thread_states THREAD_SUSPENDED (thr s1 c)) by (unfold s4; cbn; by rewrite upd_eq, H2).
  assert (B4 : base s4).
  { apply (base_parked c s0 s4); try done; rewrite ?Et.
    - left. unfold SchedInv.best. cbn. rewrite B2 by (apply Z.eqb_refl). done.
    - cbn. by rewrite F2, F1.
    - intros u Hu. unfold s4. cbn. rewrite upd_ne, H2 by done. by apply O1.
    - intros u Hu Hin. apply O3 in Hin; [|done]. by rewrite Hids in Hin.
    - by bits.
    - by bits.
    - bits. destruct A1 as (_ & _ & _ & ->); [|done]. apply Hb.
    - intros D. assert (D' : is_dead (thr s c) = true) by (rewrite <- (alike_dead _ _ A1); by bits).
      exfalso. bits. by rewrite D', ?orb_true_r in Hp. }
  unfold add_thread_timeout in E3. rewrite (proj2 (Z.eqb_neq _ _) Hf) in E3. cbn [negb when] in E3.
  destruct (swap_run _ _ B4) as (s5 & E5 & I5 & _ & Q5). eexists _, s5. split; [|split; [done|]].
  - erewrite bind_done by (unfold unready_thread; run_done; rewrite bind_gets, F1; exact E2). run_done.
    unfold z_mark_thread_as_suspended, on_thread. rewrite bind_modify. fold s4. by run_done.
  - intros Hn. destruct Q5 as (_ & J5 & _ & _ & K5 & T5). unfold asleep. fold c. destruct (T5 c) as [v ->]. rewrite K5, Et.
    split; [rewrite J5; unfold s4; cbn; by rewrite F2', F1'|]. split; [bits; by apply A1|]. change (kclk s4) with c'.
    assert (Ec : c' = z_add_timeout c ticks (kclk s2)) by (by injection E3).
    destruct S2 as (S1 & S2 & S3 & S4). rewrite K1 in S1, S2, S3, S4. rewrite Ec. split; [|split].
    + rewrite add_queue, ainsert_ids by done. replace (now (kclk s2)) with (now (kclk s)) by (unfold now, elapsed, sys_clock_elapsed; by rewrite S2, S3, S4).
      unfold timeout_ticks. rewrite (proj2 (Z.leb_gt _ _)) by (unfold Z_TICK_ABS, K_TICKS_FOREVER; lia). rewrite Z.max_r by lia. left.
    + rewrite (proj1 (add_fields c ticks (kclk s2))). exact S2.
    + intros Hw He. apply add_timeout_wf; [unfold wf; by rewrite S1|]. unfold elapsed, sys_clock_elapsed in *. by rewrite S3, S4.
Qed.

(** ** Ending a thread *)

(** While the threads that join [t] are woken up. *)
Record ending (t : Z) (s : kernel) : Prop := mk_ending {
  e_core : core_of [t] s;
  e_timeout : t ∉ timeout_ids (kclk s);
  e_node : qnode (thr s t) = None;
  e_awake : z_is_thread_prevented_from_running (thr s (current s)) = false -> current s ∉ timeout_ids (kclk s);
  e_aborting u : z_is_thread_state_set (thr s u) THREAD_ABORTING = false }.

Lemma join_wake_run t u s : ending t s -> u ∈ queues s (Waitq (join_queue t)) -> exists s0 r s1 s2 s3,
  unpend_thread_no_timeout u s = (Done tt, s0) /\ z_abort_thread_timeout u s0 = (Done r, s1) /\
  on_thread u (set_swap_return_value 0) s1 = (Done tt, s2) /\ ready_thread idle_thread u s2 = (Done tt, s3) /\ ending t s3 /\ frame s s3 /\
  others u s s3 /\ u <> t /\ z_is_thread_prevented_from_running (thr s u) = true /\
  queues s3 (Waitq (join_queue t)) = filter (fun a => a <> u) (queues s (Waitq (join_queue t))).
Proof.
  intros [Hc Ht Hn Ha Hg] Hu. destruct (waiting_facts s u _ [t] Hc Hu) as (Hi & Hp & Hr & Hq).
  assert (Hut : u <> t). { intros ->. apply (c_node _ _ _ _ _ Hc) in Hu. congruence. }
  assert (Hx : u ∉ [t]) by (by rewrite list_elem_of_singleton).
  destruct (unpend_abort_run [t] u _ s (core_open _ _ _ _ _ u Hc) Hi Hp) as (s0 & r & s1 & E0 & E1 & C1 & F1 & O1 & K1 & Q1 & I1 & N1 & T1).
  set (s2 := set_thr (upd (thr s1) u (set_swap_return_value 0 (thr s1 u))) s1).
  assert (C2 : core_of [u; t] s2) by (by apply (on_thread_run _ _ _ Hi s1 (set_swap_return_value 0) C1)).
  assert (T2 : thr s2 u = set_swap_return_value 0 (thr s1 u)) by (unfold s2; cbn; by rewrite upd_eq).
  assert (O2 : others u s s2) by (intros v Hv; unfold s2; cbn; rewrite upd_ne by done; by apply O1).
  assert (Hq2 : z_is_thread_queued (thr s2 u) = false) by (rewrite T2, T1; by bits).
  destruct (ready_run _ _ _ Hi s2 C2) as (s3 & E3 & C3 & F3 & O3 & W3 & T3 & A3 & R3 & _).
  { intros v ->%list_elem_of_singleton. intros Hin. apply (I1 t) in Hin; done. }
  { congruence. }
  assert (Hids : forall v, v ∈ timeout_ids (kclk s3) -> v <> u /\ v ∈ timeout_ids (kclk s)).
  { intros v Hv. rewrite (same_ids _ _ T3) in Hv. destruct (decide (v = u)) as [->|]; [done|]. split; [done|]. by apply I1. }
  assert (Ho : others u s s3) by (intros v Hv; rewrite O3 by done; by apply O2).
  assert (Hd : is_dead (thr s3 u) = false).
  { rewrite (alike_dead _ _ A3), T2, T1. destruct (is_dead (thr s u)) eqn:D; [|by bits].
    apply (c_dead _ _ _ _ _ Hc u Hx) in D as (_ & D & _). apply (c_node _ _ _ _ _ Hc) in Hu. congruence. }
  assert (Hf : frame s s3). { destruct F1 as (? & ? & ?), F3 as (? & ? & ?). repeat split; cbn in *; congruence. }
  exists s0, r, s1, s2, s3. do 4 (split; [done|]). split; [split|].
  - eapply core_close; [exact C3|by intros _|congruence].
  - by intros [_ ?]%Hids.
  - by rewrite Ho.
  - destruct Hf as (-> & _). intros P [Hv Hin]%Hids. rewrite Ho in P by done. by apply Ha.
  - intros v. destruct (decide (v = u)) as [->|]; [|rewrite Ho by done; apply Hg]. destruct A3 as (_ & _ & _ & ->); [|done]. rewrite T2, T1. bits. apply Hg.
  - do 4 (split; [done|]). rewrite W3. unfold s2. cbn. by rewrite Q1, upd_eq.
Qed.

Lemma joiners_run fuel t s : ending t s -> (length (queues s (Waitq (join_queue t))) <= fuel)%nat ->
  exists s', unpend_all idle_thread fuel (join_queue t) s = (Done tt, s') /\ ending t s' /\ frame s s' /\
    (forall u, z_is_thread_prevented_from_running (thr s u) = false -> thr s' u = thr s u) /\ thr s' t = thr s t /\
    queues s' (Waitq (join_queue t)) = [].
Proof.
  revert s. induction fuel as [|fuel IH]; intros s He Hl; cbn [unpend_all]; unfold z_priq_dumb_best; rewrite bind_gets;
    destruct (queues s (Waitq (join_queue t))) as [|u l] eqn:E; cbn [head]; try (exists s; by rewrite E); [cbn in Hl; lia|].
  assert (Hu : u ∈ queues s (Waitq (join_queue t))) by (rewrite E; left).
  destruct (join_wake_run t u s He Hu) as (s0 & r & s1 & s2 & s3 & E0 & E1 & E2 & E3 & He3 & F3 & O3 & Hut & Hp & Q3).
  destruct (IH s3 He3) as (s' & E' & He' & F' & O' & T' & Q').
  { rewrite Q3. apply filter_shorter in Hu. rewrite E in Hu |- *. lia. }
  exists s'. split; [by run_done|]. split; [done|]. split. { destruct F3 as (? & ? & ?), F' as (? & ? & ?). repeat split; congruence. }
  split; [|split; [rewrite T'; by apply O3|done]]. intros v Hv. assert (v <> u) by congruence. rewrite O'; rewrite O3; done.
Qed.

(** A thread leaves whatever queue it is in. *)
Lemma leave_run t s : core_of [t] s -> t <> idle_thread -> z_is_thread_queued (thr s t) = false -> exists s',
  when (bool_decide (is_Some (pended_on (thr s t)))) (unpend_thread_no_timeout t) s = (Done tt, s') /\ core_of [t] s' /\ frame s s' /\
  others t s s' /\ cache s' = cache s /\ queues s' Runq = queues s Runq /\ kclk s' = kclk s /\ qnode (thr s' t) = None /\ (forall l, length (queues s' l) <= length (queues s l))%nat /\
  (forall m, Z.land m (Z.lor THREAD_PENDING THREAD_QUEUED) = 0 -> z_is_thread_state_set (thr s' t) m = z_is_thread_state_set (thr s t) m).
Proof.
  intros Hc Hi Hq. destruct (pended_on (thr s t)) as [q|] eqn:P.
  - rewrite bool_decide_true by (by eexists). destruct (unpend_run _ _ t Hi s q Hc P) as (s' & E & C & F & O & K & H & Q & T).
    exists s'. do 5 (split; [done|]). rewrite T, Q. split; [by rewrite upd_ne|]. do 2 (split; [done|]). split.
    + intros l. destruct (decide (l = Waitq q)) as [->|]; [rewrite upd_eq; apply length_filter|by rewrite upd_ne].
    + intros m Hm. rewrite has_pended, has_reset, has_qnode. f_equal. rewrite Z.land_comm, <- Z.ldiff_land. apply Z.bits_inj'. intros n Hn.
      rewrite Z.ldiff_spec. assert (Hb : Z.testbit (Z.land m (Z.lor THREAD_PENDING THREAD_QUEUED)) n = false) by (by rewrite Hm, Z.bits_0).
      rewrite Z.land_spec, Z.lor_spec in Hb. by destruct (Z.testbit m n), (Z.testbit THREAD_PENDING n).
  - rewrite bool_decide_false by (by intros []). exists s. do 7 (split; [done|]). split; [by apply (node_none idle_thread [] t)|done].
Qed.

Lemma end_thread_run fuel t s : base s -> t <> idle_thread -> is_dead (thr s t) = false ->
  (length (queues s (Waitq (join_queue t))) <= fuel)%nat -> exists s', end_thread idle_thread fuel t s = (Done tt, s') /\ base s' /\ frame s s' /\
    (forall u, u <> t -> z_is_thread_prevented_from_running (thr s u) = false -> thr s' u = thr s u).
Proof.
  intros Hb Hi Hd Hl. pose proof (core_open _ _ _ _ _ t (b_core _ _ Hb)) as Hc.
  set (s1 := set_thr (upd (thr s) t (z_set_thread_states THREAD_DEAD (thr s t))) s).
  assert (C1 : core_of [t] s1) by (apply (on_thread_run _ _ _ Hi s _ Hc); [done|done|done|by bits..]).
  set (s2 := set_thr (upd (thr s1) t (z_reset_thread_states THREAD_ABORTING (thr s1 t))) s1).
  assert (C2 : core_of [t] s2) by (apply (on_thread_run _ _ _ Hi s1 _ C1); [done|done|done|by bits..]).
  assert (T2 : thr s2 t = z_reset_thread_states THREAD_ABORTING (z_set_thread_states THREAD_DEAD (thr s t))) by (unfold s2, s1; cbn; by rewrite !upd_eq).
  assert (O2 : others t s s2) by (intros u Hu; unfold s2, s1; cbn; by rewrite !upd_ne).
  destruct (dequeue_if_run _ _ _ Hi s2 C2) as (s3 & E3 & C3 & F3 & O3 & W3 & K3 & Q3 & A3).
  destruct (leave_run t s3 C3 Hi Q3) as (s4 & E4 & C4 & F4 & O4 & _ & _ & K4 & N4 & L4 & H4).
  destruct (abort_timeout_run _ _ _ Hi s4 C4) as (r & c' & E5 & C5 & T5 & _ & O5). set (s5 := set_kclk c' s4) in *.
  assert (Ho : others t s s5) by (intros u Hu; unfold s5; cbn; rewrite O4, O3 by done; by apply O2).
  assert (Hbits : forall m, Z.land m (Z.lor THREAD_PENDING THREAD_QUEUED) = 0 -> Z.land m THREAD_QUEUED = 0 ->
    z_is_thread_state_set (thr s5 t) m = z_is_thread_state_set (thr s2 t) m).
  { intros m M1 M2. unfold s5. cbn. rewrite H4 by done. destruct A3 as (_ & _ & _ & A3). by apply A3. }
  assert (D5 : is_dead (thr s5 t) = true) by (unfold is_dead; rewrite Hbits by done; rewrite T2; by bits).
  assert (P5 : z_is_thread_prevented_from_running (thr s5 t) = true) by (bits; by rewrite D5, ?orb_true_r).
  assert (Fc : current s5 = current s) by (destruct F3 as (F3 & _), F4 as (F4 & _); unfold s5; cbn; by rewrite F4, F3).
  assert (He : ending t s5).
  { split; [done|done|done| |].
    - rewrite Fc. destruct (decide (current s = t)) as [->|Hn]; [congruence|]. rewrite Ho by done. intros P Hin.
      apply (O5 _ Hn) in Hin. rewrite K4, K3 in Hin. by apply (b_awake _ _ Hb).
    - intros u. destruct (decide (u = t)) as [->|Hn]; [|rewrite Ho by done; apply Hb]. rewrite Hbits by done. rewrite T2. by bits. }
  destruct (joiners_run fuel t s5 He) as (s6 & E6 & [C6 T6 N6 A6 G6] & F6 & O6 & Ht6 & Q6). { etrans; [apply L4|]. by rewrite W3. }
  destruct (recache_run s6 true) as (s7 & E7 & K7 & F7 & H7 & Q7 & T7 & C7 & _). exists s7. split; [|split; [|split]].
  - unfold end_thread. rewrite bind_gets, Hd. cbn [negb when]. unfold on_thread. rewrite !bind_modify. fold s1. fold s2. run_done. rewrite bind_gets. run_done. done.
  - split; [|done|by rewrite H7, T7, (proj1 F7)|by rewrite H7].
    apply (core_close _ [] _ _ _ t (C7 _ C6)); rewrite H7, ?T7, ?Q7, Ht6; [|by intros _].
    intros _. rewrite P5. split; [|by intros []]. intros Q. apply (c_queued _ _ _ _ _ C5) in Q. unfold s5 in Q. cbn in Q. congruence.
  - destruct F3 as (? & ? & ?), F4 as (? & ? & ?), F6 as (? & ? & ?), F7 as (? & ? & ?). repeat split; cbn in *; congruence.
  - intros u Hu P. rewrite H7, O6; [by apply Ho|]. by rewrite Ho.
Qed.

Lemma abort_event_run fuel t s : inv s -> t <> idle_thread -> (length (queues s (Waitq (join_queue t))) <= fuel)%nat ->
  exists s', k_thread_abort idle_thread fuel t s = (Done tt, s') /\ inv s'.
Proof.
  intros Hv Hi Hl. unfold k_thread_abort. rewrite !bind_gets.
  assert (H : exists s0, when ((current s =? t) && in_isr s) (modify (set_pendsv true)) s = (Done tt, s0) /\ inv s0 /\ thr s0 = thr s /\
    queues s0 = queues s).
  { destruct Hv as [[H1 H2 H3 H4] H5]. destruct (_ && _); cbn [when]; eexists; (split; [done|]); done. }
  destruct H as (s0 & E0 & Hv0 & T0 & Q0). run_done. unfold z_thread_abort. rewrite bind_gets, T0.
  destruct (is_dead (thr s t)) eqn:D; [by exists s0|].
  destruct (end_thread_run fuel t s0 (v_base _ _ Hv0) Hi) as (s1 & E1 & B1 & (F1 & F1' & F1'') & O1); [by rewrite T0|by rewrite Q0|].
  run_done. rewrite !bind_gets. destruct ((t =? current s1) && negb (in_isr s1)) eqn:Es; cbn [when].
  { destruct (swap_run _ _ B1) as (s2 & E2 & I2 & _). by exists s2. }
  exists s1. split; [done|]. split; [done|]. rewrite F1, F1', F1''. intros R1 R2.
  pose proof (v_running _ _ Hv0 R1 R2) as P. rewrite O1; [done| |done].
  intros E. rewrite F1, F1', R1, E, Z.eqb_refl in Es. done.
Qed.

(** ** Creating a thread *)

Lemma new_thread_run t p s : inv s -> t <> idle_thread -> t <> current s -> is_dead (thr s t) = true ->
  exists s', z_setup_new_thread t p s = (Done tt, s') /\ inv s' /\ kept s s' /\ (t ∉ timeout_ids (kclk s')) /\
    z_is_thread_state_set (thr s' t) THREAD_PRESTART = true /\ is_dead (thr s' t) = false /\ current s' = current s.
Proof.
  intros Hv Hi Hn D. pose proof (v_base _ _ Hv) as Hb. destruct (dead_facts s t Hb D) as (D1 & D2 & D3).
  pose proof (core_open _ _ _ _ _ t (b_core _ _ Hb)) as Hc. unfold z_setup_new_thread, on_thread. rewrite bind_modify. cbn.
  eexists. split; [done|]. set (s' := set_thr _ _).
  assert (Ht : thr s' t = z_init_thread_base p THREAD_PRESTART (thr s t)) by (unfold s'; cbn; by rewrite upd_eq).
  assert (Hg : pended_on (thr s t) = None).
  { destruct (pended_on (thr s t)) eqn:P; [|done]. apply (c_pend _ _ _ _ _ Hc) in P. congruence. }
  assert (Hq : z_is_thread_queued (thr s t) = false).
  { destruct (z_is_thread_queued (thr s t)) eqn:Q; [|done]. apply (c_queued _ _ _ _ _ Hc) in Q. congruence. }
  assert (C : core_of [t] s').
  { apply (core_queues _ _ _ (queues s)).
    - intros l. unfold s'. cbn. destruct (decide (l = Waitq (join_queue t))) as [->|]; [by rewrite upd_eq|by rewrite upd_ne].
    - eapply core_flags; [exact Hc|done|exact (eq_sym D2)|exact (eq_sym Hg)|done|exact (eq_sym Hq)|]. exact (eq_sym (not_pending _ _ _ s Hc Hg)). }
  assert (O : others t s s') by (intros u Hu; unfold s'; cbn; by rewrite upd_ne).
  assert (Hk : cache_ok idle_thread s').
  { unfold cache_ok, SchedInv.best. cbn. rewrite !upd_ne by done. apply Hb. }
  split; [split|split; [|split; [done|split; [by rewrite Ht|split; [by rewrite Ht|done]]]]].
  - apply (base_parked t s s'); try done; rewrite ?Ht; done.
  - intros R1 R2. cbn. rewrite upd_ne by done. by apply (v_running _ _ Hv).
  - apply frame_kept; [done|]. unfold held. cbn. by rewrite upd_ne.
Qed.

Lemma create_run t p delay s : inv s -> t <> idle_thread -> t <> current s -> is_dead (thr s t) = true ->
  exists s', k_thread_create idle_thread t p delay s = (Done tt, s') /\ inv s' /\ kept s s'.
Proof.
  intros Hv Hi Hn D. destruct (new_thread_run t p s Hv Hi Hn D) as (s1 & E1 & I1 & K1 & N1 & P1 & D1 & F1).
  unfold k_thread_create. run_done. destruct (Z.eqb_spec delay K_TICKS_FOREVER) as [->|Hf]; cbn [negb when]; [by exists s1|].
  unfold schedule_new_thread. destruct (delay =? 0).
  { destruct (start_event_run t s1 Hi I1) as (s2 & E2 & I2 & K2); [done|]. exists s2. do 2 (split; [done|]). by eapply kept_trans. }
  destruct I1 as [B1 R1]. destruct (add_timeout_run _ _ t Hi s1 delay (core_open _ _ _ _ _ t (b_core _ _ B1)) N1) as (c' & E2 & C2 & O2).
  unfold add_thread_timeout in E2. rewrite (proj2 (Z.eqb_neq _ _) Hf) in E2. cbn [negb when] in E2. exists (set_kclk c' s1). split; [done|].
  split; [split; [|exact R1]|by eapply kept_trans; [|apply frame_kept]]. apply (base_parked t s1); try done; cbn.
  - apply (touched_cache _ t s1); [|apply B1]. split; [done..| |intros E; congruence|done]. intros u Hu. by apply O2.
  - intros u Hu. by apply O2.
  - bits. by rewrite P1, ?orb_true_r.
  - destruct (z_is_thread_queued (thr s1 t)) eqn:Q; [|done]. apply ready_iff in Q as [Q _]; [|done..]. exfalso. bits. by rewrite P1, ?orb_true_r in Q.
  - apply B1.
  - congruence.
Qed.

(** ** Interrupts *)

Lemma clock_base c' s : timeout_ids c' = timeout_ids (kclk s) -> base s -> base (set_kclk c' s).
Proof.
  intros E [H1 H2 H3 H4]. split; [|done|cbn; by rewrite E|done]. unfold SchedInv.core_of in *. cbn. by rewrite E.
Qed.

Lemma slice_set_run slice p s : inv s -> exists s', k_sched_time_slice_set hz slice p s = (Done tt, s') /\ inv s' /\ kept s s'.
Proof.
  intros [Hb Hr]. unfold k_sched_time_slice_set, on_clk. rewrite !bind_modify. set (s1 := set_slice _ _ _).
  destruct (reset_slice_run s1) as (c' & E & T). exists (set_kclk c' s1). split; [done|].
  assert (B : base (set_kclk c' s)) by (apply clock_base; [exact (same_ids _ _ T)|done]).
  split; [|by apply frame_kept]. destruct B as [B1 B2 B3 B4]. by split.
Qed.

Lemma reset_slice_base s : base s -> exists s', z_reset_time_slice s = (Done tt, s') /\ base s' /\ kept s s' /\
  same_time (kclk s) (kclk s') /\ thr s' = thr s.
Proof.
  intros Hb. destruct (reset_slice_run s) as (c' & E & T). exists (set_kclk c' s). split; [done|].
  assert (timeout_ids c' = timeout_ids (kclk s)) by (by apply same_ids).
  split; [by apply clock_base|]. split; [by apply frame_kept|done].
Qed.

Lemma same_time_trans c1 c2 c3 : same_time c1 c2 -> same_time c2 c3 -> same_time c1 c3.
Proof. intros (? & ? & ? & ?) (? & ? & ? & ?). repeat split; congruence. Qed.

Lemma move_run s : base s -> let c := current s in c <> idle_thread -> z_is_thread_prevented_from_running (thr s c) = false ->
  is_preempt (thr s c) = true -> exists s', move_thread_to_end_of_prio_q idle_thread c s = (Done tt, s') /\ base s' /\ kept s s' /\
  same_time (kclk s) (kclk s') /\ others c s s'.
Proof.
  intros Hb c Hi Hp Hm. pose proof (core_open _ _ _ _ _ c (b_core _ _ Hb)) as Hc.
  assert (Q : z_is_thread_queued (thr s c) = true) by (apply ready_iff; [done..|]; split; [done|by apply (b_awake _ _ Hb)]).
  destruct (dequeue_if_run _ _ c Hi s Hc) as (s1 & E1 & C1 & F1 & O1 & W1 & K1 & Q1 & A1).
  destruct (requeue_run c s s1 (c =? c)) as (s2 & s3 & E2 & E3 & B3 & F3 & _ & O3 & _ & T3); try done.
  - destruct A1 as (_ & _ & -> & _). by apply ready_not_pended.
  - apply A1.
  - exists s3. unfold move_thread_to_end_of_prio_q. run_done. rewrite bind_gets.
    assert (Ec : current s2 = c). { destruct (recache_run s2 (c =? c)) as (s3' & E3' & _ & (F & _) & _). rewrite E3 in E3'. injection E3' as <-. by rewrite <- F, (proj1 F3). }
    rewrite Ec. split; [done|]. split; [done|]. split; [|done]. apply frame_kept; [done|]. intros (_ & _ & H). unfold c in Hm. congruence.
Qed.

Lemma time_slice_run ticks s : base s -> exists s', z_time_slice idle_thread ticks s = (Done tt, s') /\ base s' /\ kept s s' /\
  same_time (kclk s) (kclk s') /\ forall t, t ∈ timeout_ids (kclk s) -> thr s' t = thr s t.
Proof.
  intros Hb. unfold z_time_slice. rewrite bind_gets. destruct (bool_decide _).
  { destruct (reset_slice_base s Hb) as (s' & E & B & K & T & H). exists s'. do 4 (split; [done|]). by rewrite H. }
  rewrite bind_modify, !bind_gets. set (s0 := set_pending_current None s). assert (B0 : base s0) by (by apply pending_base).
  assert (K0 : kept s s0) by (by apply frame_kept).
  destruct (negb _ && _) eqn:Es.
  2: { eexists. split; [done|]. split; [by apply clock_base|]. split; [|done]. by apply frame_kept. }
  rewrite bind_gets. destruct (_ <=? ticks).
  2: { eexists. split; [done|]. split; [by apply clock_base|]. split; [|done]. by apply frame_kept. }
  apply andb_prop in Es as [_ Es]. unfold sliceable, z_is_idle_thread_object in Es. rewrite !andb_true_iff, !negb_true_iff in Es.
  destruct Es as [[[Es1 Es2] _] Es3]. apply Z.eqb_neq in Es3.
  destruct (move_run s0 B0 Es3 Es2 Es1) as (s1 & E1 & B1 & K1 & T1 & O1).
  destruct (reset_slice_base s1 B1) as (s2 & E2 & B2 & K2 & T2 & H2). exists s2. run_done. split; [done|]. split; [done|].
  split; [by do 2 (eapply kept_trans; [done|])|].
  split; [by eapply same_time_trans|]. intros t Ht. rewrite H2, O1; [done|]. intros ->. by apply (b_awake _ _ B0) in Es2.
Qed.

(** A thread after its timeout. *)
Definition woken (k k' : k_thread) : Prop :=
  pended_on k' = None /\ z_is_thread_suspended k' = false /\ z_has_thread_started k' = true /\ is_dead k' = false /\
  z_is_thread_state_set k' THREAD_DUMMY = z_is_thread_state_set k THREAD_DUMMY.

(** The timeout of a thread, which has just left the queue of timeouts. *)
Lemma timeout_fires_run t c' s : base s -> t ∈ timeout_ids (kclk s) -> t ∉ timeout_ids c' -> NoDup (timeout_ids c') ->
  (forall u, u <> t -> u ∈ timeout_ids c' <-> u ∈ timeout_ids (kclk s)) ->
  exists s', z_thread_timeout idle_thread t (set_kclk c' s) = (Done tt, s') /\ base s' /\ kept s s' /\ same_time c' (kclk s') /\
    others t s s' /\ woken (thr s t) (thr s' t).
Proof.
  intros Hb Ht Hn Hd Ho. pose proof (b_core _ _ Hb) as Hc.
  assert (Hi : t <> idle_thread). { intros ->. destruct (c_idle _ _ _ _ _ Hc) as (_ & _ & ?). done. }
  assert (Dd : is_dead (thr s t) = false). { destruct (is_dead (thr s t)) eqn:D; [|done]. by apply (dead_facts s t Hb) in D as []. }
  assert (Qd : z_is_thread_queued (thr s t) = false).
  { destruct (z_is_thread_queued (thr s t)) eqn:Q; [|done]. by apply (ready_iff s t Hb Hi) in Q as []. }
  set (s0 := set_kclk c' s).
  assert (C0 : core_of [t] s0) by (eapply core_timeouts; [by apply core_open|done|exact Ho|done]).
  destruct (leave_run t s0 C0 Hi Qd) as (s1 & E1 & C1 & F1 & O1 & K1 & R1 & T1 & N1 & _ & B1).
  set (s2 := set_thr (upd (thr s1) t (z_reset_thread_states THREAD_PRESTART (thr s1 t))) s1).
  assert (C2 : core_of [t] s2) by (apply (on_thread_run _ _ _ Hi s1 _ C1); [done|done|done|by bits..]).
  set (s3 := set_thr (upd (thr s2) t (z_reset_thread_states THREAD_SUSPENDED (thr s2 t))) s2).
  assert (C3 : core_of [t] s3) by (apply (on_thread_run _ _ _ Hi s2 _ C2); [done|done|done|by bits..]).
  assert (T3 : thr s3 t = z_reset_thread_states THREAD_SUSPENDED (z_reset_thread_states THREAD_PRESTART (thr s1 t))) by (unfold s3, s2; cbn; by rewrite !upd_eq).
  assert (O3 : others t s s3) by (intros u Hu; unfold s3, s2; cbn; rewrite !upd_ne by done; by apply O1).
  assert (Kd : is_dead (thr s0 t) || z_is_thread_state_set (thr s0 t) THREAD_ABORTING = false).
  { change (thr s0 t) with (thr s t). by rewrite Dd, (b_aborting _ _ Hb). }
  destruct (wake_run idle_thread t s s3) as (s4 & E4 & B4 & F4 & _ & Hh & T4 & O4 & A4); [done|done| |done| | | |].
  - split; [done|done|done|done| | |].
    + intros u Hu. unfold s3. cbn. rewrite T1. by apply Ho.
    + intros ->. destruct (z_is_thread_prevented_from_running _) eqn:P; [done|]. by apply (b_awake _ _ Hb) in P.
    + rewrite T3. bits. by apply B1.
  - rewrite T3. intros Q. exfalso. assert (Q' : z_is_thread_queued (thr s1 t) = true) by (by bits). apply (c_queued _ _ _ _ _ C1) in Q'. congruence.
  - rewrite T3. intros D. assert (D' : is_dead (thr s t) = true) by (unfold is_dead; change (thr s t) with (thr s0 t); rewrite <- B1 by done; by bits). congruence.
  - intros _ _. unfold s3. cbn. by rewrite T1.
  - exists s4. split; [|split; [done|split; [by apply frame_kept|split; [|split; [done|]]]]].
    + unfold z_thread_timeout. rewrite bind_gets. fold s0. rewrite Kd, bind_gets. run_done.
      unfold z_mark_thread_as_started, z_mark_thread_as_not_suspended, on_thread. by rewrite !bind_modify.
    + change c' with (kclk s0). rewrite <- T1. exact T4.
    + assert (Hg : pended_on (thr s1 t) = None).
      { destruct (pended_on (thr s1 t)) eqn:P; [|done]. apply (c_pend _ _ _ _ _ C1) in P. congruence. }
      destruct A4 as (_ & _ & Ap & A4). unfold woken, z_is_thread_suspended, z_has_thread_started, is_dead.
      rewrite Ap, !A4, T3 by done. split; [done|]. do 2 (split; [by bits|]). split; bits; [|by apply B1].
      rewrite B1 by done. exact Dd.
Qed.

Lemma take_first_ids to l c : timeout_list c = to :: l -> timeout_ids (take_first to c) = map to_id l.
Proof. intros E. unfold timeout_ids, take_first. cbn. rewrite E. cbn. rewrite Z.eqb_refl. by destruct l. Qed.

(** What an announcement that ends at tick [target] does to the threads with
    timeouts: those that are due are woken up, the others stay. *)
Definition wakes (target : Z) (s s' : kernel) : Prop := forall t d, (t, d) ∈ queue (kclk s) ->
  (d <= target -> (t ∉ timeout_ids (kclk s')) /\ woken (thr s t) (thr s' t)) /\
  (target < d -> (t, d) ∈ queue (kclk s') /\ thr s' t = thr s t).

(** And the threads without a timeout as well. *)
Definition on_time (target : Z) (s s' : kernel) : Prop :=
  (forall t, t ∉ timeout_ids (kclk s) -> (t ∉ timeout_ids (kclk s')) /\ thr s' t = thr s t) /\ wakes target s s'.

Lemma queue_ids c : (queue c).*1 = timeout_ids c.
Proof.
  unfold queue, timeout_ids. generalize (curr_tick c). induction (timeout_list c) as [|a l IH]; intros b; [done|]. cbn. f_equal. apply IH.
Qed.

Lemma on_time_none target s : Forall (fun p => target < p.2) (queue (kclk s)) -> on_time target s s.
Proof.
  intros Hf. split; [done|]. intros t d Hin. split; [|done]. rewrite Forall_forall in Hf. specialize (Hf _ Hin). cbn in Hf. lia.
Qed.

Lemma on_time_step target t d s s1 s2 c1 : (t, d) :: queue c1 = queue (kclk s) -> NoDup (timeout_ids (kclk s)) -> d <= target ->
  queue (kclk s1) = queue c1 -> others t s s1 -> woken (thr s t) (thr s1 t) -> on_time target s1 s2 -> on_time target s s2.
Proof.
  intros Eq Hd Hle Eq1 Ho Hw [H1 H2]. rewrite <- queue_ids, <- Eq in Hd. cbn in Hd. apply NoDup_cons in Hd as [Hn Hd].
  assert (Hids : timeout_ids (kclk s) = t :: timeout_ids (kclk s1)) by (rewrite <- !queue_ids, <- Eq, Eq1; done).
  rewrite <- Eq1, queue_ids in Hn. split.
  - intros u. rewrite Hids. intros [Hu Hu']%not_elem_of_cons. destruct (H1 u Hu') as [? ->]. split; [done|]. by apply Ho.
  - intros u e. rewrite <- Eq, elem_of_cons. intros [[= -> ->]|Hin].
    + split; [|lia]. intros _. destruct (H1 t Hn) as [? ->]. done.
    + rewrite <- Eq1 in Hin. destruct (H2 u e Hin) as [I1 I2].
      assert (Hne : u <> t). { intros ->. apply Hn. rewrite <- queue_ids. apply list_elem_of_fmap. by exists (t, e). }
      rewrite (Ho u Hne) in I1, I2. done.
Qed.

(** An announcement that is over at [target]. *)
Definition announced (target : Z) (s s' : kernel) : Prop :=
  wf (kclk s') /\ curr_tick (kclk s') + announce_remaining (kclk s') = target /\ on_time target s s' /\
  Forall (fun p => target < p.2) (queue (kclk s')).

Lemma announced_none s to l : wf (kclk s) -> timeout_list (kclk s) = to :: l -> announce_remaining (kclk s) < dticks to ->
  announced (curr_tick (kclk s) + announce_remaining (kclk s)) s s.
Proof.
  intros Hw E Hd. assert (Hf : Forall (fun p => curr_tick (kclk s) + announce_remaining (kclk s) < p.2) (queue (kclk s))).
  { pose proof Hw as Hw'. unfold wf in Hw'. unfold queue. rewrite E in *. apply Forall_cons in Hw' as [_ Hw']. constructor; [cbn; lia|].
    eapply Forall_impl; [apply (deadlines_bound _ _ Hw')|]. cbn. lia. }
  split; [done|]. split; [done|]. split; [by apply on_time_none|done].
Qed.

Lemma announce_loop_run fuel s : base s -> (length (timeout_list (kclk s)) <= fuel)%nat ->
  exists s', announce_loop (z_thread_timeout idle_thread) fuel s = (Done tt, s') /\ base s' /\ kept s s' /\
    (wf (kclk s) -> announced (curr_tick (kclk s) + announce_remaining (kclk s)) s s').
Proof.
  revert s. induction fuel as [|fuel IH]; intros s Hb Hl; cbn [announce_loop]; rewrite bind_gets;
    change (clk s) with (kclk s); destruct (timeout_list (kclk s)) as [|to l] eqn:E.
  1, 3: exists s; split; [done|split; [done|split; [apply kept_refl|]]]; intros Hw; split; [done|split; [done|]];
    (split; [apply on_time_none|]); unfold queue; rewrite E; constructor.
  { cbn in Hl. lia. }
  cbn in Hl. destruct (Z.leb_spec (dticks to) (announce_remaining (kclk s))) as [Hd|Hd].
  2: { exists s. split; [done|]. split; [done|]. split; [apply kept_refl|]. intros Hw. by eapply announced_none. }
  pose proof (c_once _ _ _ _ _ (b_core _ _ Hb)) as Hn. pose proof (take_first_ids to l (kclk s) E) as Ht.
  assert (Es : timeout_ids (kclk s) = to_id to :: map to_id l) by (unfold timeout_ids; by rewrite E).
  rewrite Es in Hn. apply NoDup_cons in Hn as [Hn Hn'].
  destruct (timeout_fires_run (to_id to) (take_first to (kclk s)) s Hb) as (s1 & E1 & B1 & K1 & T1 & O1 & W1); rewrite ?Ht, ?Es; try done.
  { left. }
  { intros u Hu. rewrite elem_of_cons. split; [by right|by intros [?|?]]. }
  unfold on_clock. rewrite bind_modify. cbn [clk set_clk kernel_has_clock]. run_done.
  pose proof T1 as (T1l & T1c & T1r & _). pose proof (same_ids _ _ T1) as T1i. rewrite Ht in T1i.
  destruct (IH s1 B1) as (s2 & E2 & B2 & K2 & A2). { apply (f_equal length) in T1i. unfold timeout_ids in T1i. rewrite !length_map in T1i. lia. }
  exists s2. do 2 (split; [done|]). split; [by eapply kept_trans|]. intros Hw.
  destruct (take_first_run to l (kclk s) E Hw) as (Tc & Ta & Tq & _ & _ & Tw).
  destruct A2 as (A2 & A3 & A4 & A5). { unfold wf. rewrite T1l. exact Tw. }
  replace (curr_tick (kclk s1) + announce_remaining (kclk s1)) with (curr_tick (kclk s) + announce_remaining (kclk s)) in * by (rewrite T1c, T1r, Tc, Ta; lia).
  split; [done|]. split; [done|]. split; [|done]. eapply on_time_step; [by symmetry|rewrite Es; by constructor|rewrite Tc; lia| |done|done|done].
  unfold queue. by rewrite T1l, T1c.
Qed.

Lemma timer_run fuel n s : inv s -> in_isr s = true -> (length (timeout_list (kclk s)) <= fuel)%nat ->
  exists s', timer_interrupt idle_thread fuel n s = (Done tt, s') /\ inv s' /\ kept s s' /\
    (wf (kclk s) -> wf (kclk s') /\ curr_tick (kclk s') = curr_tick (kclk s) + n /\ wakes (curr_tick (kclk s) + n) s s').
Proof.
  intros [Hb _] Hr Hl. destruct (time_slice_run n s Hb) as (s1 & E1 & B1 & K1 & T1 & O1). unfold timer_interrupt. run_done.
  unfold sys_clock_announce, on_clock. rewrite bind_modify. cbn [clk set_clk kernel_has_clock].
  set (s2 := set_kclk _ s1). assert (B2 : base s2) by (by apply clock_base). assert (K2 : kept s1 s2) by (by apply frame_kept).
  destruct (announce_loop_run fuel s2 B2) as (s3 & E3 & B3 & K3 & A3). { unfold s2. cbn. destruct T1 as (-> & _). done. }
  run_done. eexists. split; [done|]. assert (K : kept s s3) by (by do 2 (eapply kept_trans; [done|])). split; [split|split].
  - apply clock_base; [|done]. unfold advance, timeout_ids. cbn [clk kernel_has_clock]. destruct (timeout_list (kclk s3)) eqn:E; cbn; by rewrite ?E.
  - cbn. destruct K as (_ & K & _). congruence.
  - eapply kept_trans; [done|]. by apply frame_kept.
  - intros Hw. destruct T1 as (T1l & T1c & T1r & _). destruct A3 as (A3 & A4 & A5 & A6). { unfold s2, wf. cbn. by rewrite T1l. }
    unfold s2 in A4, A5, A6. cbn in A4, A5, A6. rewrite T1c in A4, A5, A6. rewrite <- A4 in A6.
    destruct (advance_run (kclk s3) A3 A6) as (V1 & V2 & V3 & _). cbn [clk set_clk kernel_has_clock kclk set_kclk].
    split; [exact V1|]. split; [rewrite V3; exact A4|]. destruct A5 as [_ A5]. intros t d Hin.
    assert (Hin2 : (t, d) ∈ queue (kclk s2)) by (unfold s2, queue; cbn; rewrite T1l, T1c; exact Hin).
    assert (Ht : t ∈ timeout_ids (kclk s)) by (rewrite <- queue_ids; apply list_elem_of_fmap; by exists (t, d)).
    destruct (A5 t d Hin2) as [I1 I2]. cbn [thr kclk set_kclk]. rewrite <- queue_ids, V2, queue_ids.
    rewrite <- (O1 t Ht). split; [exact I1|exact I2].
Qed.

(** ** Events *)

Inductive event :=
  | Create (t p delay : Z) | Start (t : Z) | Suspend (t : Z) | Resume (t : Z) | Set_priority (t p : Z) | Lock | Unlock
  | Yield | Sleep (ticks : Z) | Wakeup (t : Z) | Abort (t : Z) | Join (t ticks : Z)
  | Wait (q ticks : Z) | Wake (q v : Z) | Wake_all (q : Z) | Slice (slice p : Z)
  | Interrupt | Tick (ticks : Z) | Exit | Switch.

Definition perform (e : event) : M kernel unit :=
  match e with
  | Create t p delay => k_thread_create idle_thread t p delay
  | Start t => z_sched_start idle_thread t
  | Suspend t => k_thread_suspend idle_thread t
  | Resume t => k_thread_resume idle_thread t
  | Set_priority t p => k_thread_priority_set idle_thread t p
  | Lock => k_sched_lock
  | Unlock => k_sched_unlock idle_thread
  | Yield => k_yield idle_thread
  | Sleep n => k_sleep idle_thread n;; mret tt
  | Wakeup t => k_wakeup idle_thread t
  | Abort t => fuel ← gets (fun s => length (queues s (Waitq (join_queue t)))); k_thread_abort idle_thread fuel t
  | Join t n => k_thread_join idle_thread t n;; mret tt
  | Wait q n => z_pend_curr idle_thread (Some (inl q)) n
  | Wake q v => z_sched_wake idle_thread (inl q) v;; z_reschedule
  | Wake_all q =>
      fuel ← gets (fun s => length (queues s (Waitq (inl q))));
      z_unpend_all idle_thread fuel (inl q) false;; z_reschedule
  | Slice slice p => k_sched_time_slice_set hz slice p
  | Interrupt => modify (set_in_isr true)
  | Tick n => fuel ← gets (fun s => length (timeout_list (kclk s))); timer_interrupt idle_thread fuel n
  | Exit => z_arm_exc_exit
  | Switch => z_arm_pendsv
  end.

(** A thread executes; an interrupt may be served meanwhile. *)
Definition executing (s : kernel) : Prop := in_isr s = true \/ pendsv s = false.

(** When the events can happen. Nothing but the end of an interrupt and the
    switch itself changes the current thread, and no code runs between the
    request for a switch and the switch, except interrupts. The idle thread is
    left alone. A thread that went to sleep must not be resumed before it is
    switched out. *)
Definition allowed (s : kernel) (e : event) : Prop :=
  match e with
  | Create t _ _ => executing s /\ t <> idle_thread /\ t <> current s /\ is_dead (thr s t) = true
  | Start t | Resume t => executing s /\ t <> idle_thread /\ (t = current s -> t ∉ timeout_ids (kclk s))
  | Suspend t | Set_priority t _ | Wakeup t | Abort t => executing s /\ t <> idle_thread
  | Lock => in_isr s = false /\ pendsv s = false /\ u8 (sched_locked (thr s (current s))) <> 1
  | Unlock | Yield => in_isr s = false /\ pendsv s = false
  | Sleep _ | Wait _ _ | Join _ _ => runs s
  | Wake _ _ | Wake_all _ | Slice _ _ => executing s
  | Interrupt => in_isr s = false
  | Tick _ | Exit => in_isr s = true
  | Switch => in_isr s = false /\ pendsv s = true
  end.

(** Events that only make threads ready. *)
Definition calm (e : event) : Prop :=
  match e with
  | Create _ _ _ | Start _ | Resume _ | Wakeup _ | Wake _ _ | Wake_all _ | Slice _ _ | Tick _ => True
  | _ => False
  end.

Lemma wake_event_run q v s : inv s -> exists s', perform (Wake q v) s = (Done tt, s') /\ inv s' /\ kept s s'.
Proof.
  intros [Hb _]. destruct (sched_wake_run (inl q) v s Hb) as (b & s1 & E1 & B1 & K1). cbn [perform]. run_done.
  destruct (reschedule_kept s1 B1) as (s2 & E2 & I2 & K2). exists s2. do 2 (split; [done|]). by eapply kept_trans.
Qed.

Lemma wake_all_event_run q s : inv s -> exists s', perform (Wake_all q) s = (Done tt, s') /\ inv s' /\ kept s s'.
Proof.
  intros [Hb _]. cbn [perform]. rewrite bind_gets.
  destruct (unpend_all_run (length (queues s (Waitq (inl q)))) (inl q) s false Hb) as (b & s1 & E1 & B1 & K1); [done|]. run_done.
  destruct (reschedule_kept s1 B1) as (s2 & E2 & I2 & K2). exists s2. do 2 (split; [done|]). by eapply kept_trans.
Qed.

Lemma calm_run e s : inv s -> calm e -> allowed s e -> exists s', perform e s = (Done tt, s') /\ inv s' /\ kept s s'.
Proof.
  intros Hv He Ha. destruct e; try done; cbn in Ha.
  - destruct Ha as (_ & H1 & H2 & H3). by apply create_run.
  - destruct Ha as (_ & H1 & H2). by apply start_event_run.
  - destruct Ha as (_ & H1 & H2). by apply resume_run.
  - destruct Ha as (_ & H1). by apply wakeup_run.
  - by apply wake_event_run.
  - by apply wake_all_event_run.
  - by apply slice_set_run.
  - destruct (timer_run _ ticks s Hv Ha (le_n _)) as (s' & E & I & K & _). exists s'. cbn [perform]. by rewrite bind_gets.
Qed.

Lemma exit_run s : inv s -> exists s', z_arm_exc_exit s = (Done tt, s') /\ inv s'.
Proof.
  intros [Hb Hr]. eexists. split; [done|]. pose proof (next_runs _ s Hb) as Hp. destruct (Z.eqb_spec (current s) (cache s)) as [E|E].
  - destruct Hb as [H1 H2 H3 H4]. split; [done|]. cbn. intros _ _. by rewrite E.
  - destruct Hb as [H1 H2 H3 H4]. by split.
Qed.

Lemma switch_run s : inv s -> exists s', z_arm_pendsv s = (Done tt, s') /\ inv s'.
Proof.
  intros [Hb _]. eexists. split; [done|]. pose proof (next_runs _ s Hb) as Hp.
  assert (Ha : cache s ∉ timeout_ids (kclk s)).
  { destruct (b_cache _ _ Hb) as [E|(-> & H & _)]; [|by apply (b_awake _ _ Hb)].
    apply linked_ids_false. rewrite E. apply (best_timeout _ [] s (b_core _ _ Hb)). by intros u ?%elem_of_nil. }
  destruct Hb as [H1 H2 H3 H4]. split; [split; [done| |done|done]|done].
  destruct H2 as [H2|(H2 & H5 & H6)]; [by left|right]. cbn. by rewrite H2.
Qed.

Lemma step_run e s : inv s -> allowed s e -> exists s', perform e s = (Done tt, s') /\ inv s'.
Proof.
  intros Hv Ha. assert (Hc : calm e \/ ~ calm e) by (destruct e; cbn; tauto). destruct Hc as [Hc|Hc].
  { destruct (calm_run e s Hv Hc Ha) as (s' & E & I & _). by exists s'. }
  destruct e; try (by destruct Hc); cbn in Ha; cbn [perform].
  - apply suspend_run; tauto.
  - apply priority_run; tauto.
  - apply lock_run; tauto.
  - apply unlock_run; tauto.
  - apply yield_run; tauto.
  - destruct (sleep_event_run ticks s Hv Ha) as (r & s' & E & I & _). exists s'. by run_done.
  - rewrite bind_gets. apply abort_event_run; [done|tauto|done].
  - destruct (join_run t ticks s Hv Ha) as (r & s' & E & I). exists s'. by run_done.
  - by apply wait_run.
  - eexists. split; [done|]. destruct Hv as [[H1 H2 H3 H4] H5]. done.
  - by apply exit_run.
  - by apply switch_run.
Qed.

(** *** Sequences *)

Fixpoint perform_all (es : list event) : M kernel unit :=
  match es with
  | [] => mret tt
  | e :: es => perform e;; perform_all es
  end.

(** Every event is allowed when its turn comes. *)
Fixpoint admissible (es : list event) (s : kernel) : Prop :=
  match es with
  | [] => True
  | e :: es => allowed s e /\ admissible es (snd (perform e s))
  end.

Lemma sequence_run es s : inv s -> admissible es s -> exists s', perform_all es s = (Done tt, s') /\ inv s'.
Proof.
  revert s. induction es as [|e es IH]; intros s Hv Ha; cbn; [by exists s|]. destruct Ha as [Ha Hs].
  destruct (step_run e s Hv Ha) as (s1 & E1 & I1). rewrite E1 in Hs. destruct (IH s1 I1 Hs) as (s2 & E2 & I2). exists s2. by run_done.
Qed.

Lemma sequence_last es e s : inv s -> admissible (es ++ [e]) s -> exists s1 s', perform_all es s = (Done tt, s1) /\ inv s1 /\ allowed s1 e /\
  perform e s1 = (Done tt, s') /\ perform_all (es ++ [e]) s = (Done tt, s') /\ inv s'.
Proof.
  revert s. induction es as [|a es IH]; intros s Hv; cbn.
  - intros [Ha _]. destruct (step_run e s Hv Ha) as (s' & E & I). exists s, s'. run_done. done.
  - intros [Ha Hs]. destruct (step_run a s Hv Ha) as (s1 & E1 & I1). rewrite E1 in Hs. destruct (IH s1 I1 Hs) as (s2 & s' & E2 & H).
    exists s2, s'. run_done. done.
Qed.


(** ** Sleeping for a time *)

(** Thread [t] sleeps until tick [d]. *)
Record sleeping (t d : Z) (s : kernel) : Prop := mk_sleeping {
  sl_inv : inv s;
  sl_isr : in_isr s = false;
  sl_wf : wf (kclk s);
  sl_queue : (t, d) ∈ queue (kclk s);
  sl_dummy : z_is_thread_state_set (thr s t) THREAD_DUMMY = false }.

Definition tick_interrupt (n : Z) : list event := [Interrupt; Tick n; Exit].

Lemma tick_interrupt_run t d n s : sleeping t d s -> exists s', perform_all (tick_interrupt n) s = (Done tt, s') /\
  curr_tick (kclk s') = curr_tick (kclk s) + n /\
  (curr_tick (kclk s) + n < d -> sleeping t d s') /\ (d <= curr_tick (kclk s) + n -> z_is_thread_queued (thr s' t) = true).
Proof.
  intros [Hv Hi Hw Hq Hd]. set (s0 := set_in_isr true s). assert (V0 : inv s0) by (by destruct Hv as [[H1 H2 H3 H4] H5]).
  destruct (timer_run (length (timeout_list (kclk s0))) n s0 V0 eq_refl (le_n _)) as (s1 & E1 & V1 & K1 & T1).
  destruct (T1 Hw) as (W1 & C1 & A1). destruct (exit_run s1 V1) as (s2 & E2 & V2). exists s2.
  assert (Ht : thr s2 = thr s1 /\ kclk s2 = kclk s1 /\ in_isr s2 = false).
  { unfold z_arm_exc_exit, modify in E2. injection E2 as <-. by destruct (_ =? _). }
  destruct Ht as (Et & Ek & Ei). rewrite Et, Ek. destruct (A1 t d Hq) as [A1' A1'']. split; [|split; [done|split]].
  - cbn [tick_interrupt perform_all perform]. rewrite bind_modify, !bind_assoc, bind_gets. fold s0. by run_done.
  - intros Hlt. destruct (A1'' Hlt) as [Hq' Et']. split; [done|done|by rewrite Ek|by rewrite Ek|by rewrite Et, Et'].
  - intros Hle. destruct (A1' Hle) as (N & P1 & P2 & P3 & P4 & P5).
    assert (Hn : t <> idle_thread).
    { intros ->. destruct (c_idle _ _ _ _ _ (b_core _ _ (v_base _ _ Hv))) as (_ & _ & Hn). apply Hn. rewrite <- queue_ids. apply list_elem_of_fmap. by exists (idle_thread, d). }
    apply (ready_iff s1 t (v_base _ _ V1) Hn). split; [|done].
    pose proof (not_pending _ _ t s1 (core_open _ _ _ _ _ t (b_core _ _ (v_base _ _ V1))) P1) as P0.
    change (thr s0 t) with (thr s t) in P5. rewrite <- P5 in Hd.
    clear -P0 P2 P3 P4 Hd. bits. rewrite P0, P2, P4. apply negb_true_iff in P3. by rewrite P3, Hd.
Qed.

Definition total (ns : list Z) : Z := foldr Z.add 0 ns.

Lemma perform_all_app es es' s s1 : perform_all es s = (Done tt, s1) -> perform_all (es ++ es') s = perform_all es' s1.
Proof.
  revert s. induction es as [|e es IH]; intros s E; cbn in *; [by injection E as <-|]. apply bind_inv in E as ([] & s2 & E1 & E2).
  erewrite bind_done by exact E1. by apply IH.
Qed.

Lemma tick_interrupts_run t d ns s : sleeping t d s -> Forall (fun n => 0 <= n) ns -> curr_tick (kclk s) + total ns < d ->
  exists s', perform_all (concat (map tick_interrupt ns)) s = (Done tt, s') /\ sleeping t d s' /\
    curr_tick (kclk s') = curr_tick (kclk s) + total ns.
Proof.
  intros Hs Hn. revert s Hs. induction Hn as [|n ns Hn Hns IH]; intros s Hs Hd.
  { exists s. cbn. split; [done|]. split; [done|]. lia. }
  assert (0 <= total ns) by (unfold total; clear -Hns; induction Hns; cbn; [done|lia]). cbn [total foldr] in Hd. fold (total ns) in Hd.
  destruct (tick_interrupt_run t d n s Hs) as (s1 & E1 & C1 & S1 & _). destruct (IH s1 (S1 ltac:(lia))) as (s2 & E2 & S2 & C2); [lia|].
  exists s2. split; [|split; [done|cbn; fold (total ns); lia]]. cbn [map concat]. by rewrite (perform_all_app _ _ _ _ E1).
Qed.

Lemma switch_sleeping t d s : sleeping t d s -> sleeping t d (snd (perform Switch s)).
Proof.
  intros [Hv Hi Hw Hq Hd]. destruct (switch_run s Hv) as (s' & E & I). cbn [perform]. rewrite E. injection E as <-. by split.
Qed.

(** The state in which a thread has fallen asleep. *)
Lemma falls_asleep n s : inv s -> runs s -> wf (kclk s) -> 0 <= elapsed (kclk s) -> 0 < n ->
  exists s1, perform_all [Sleep n; Switch] s = (Done tt, s1) /\ sleeping (current s) (now (kclk s) + (n + 1)) s1 /\ curr_tick (kclk s1) = curr_tick (kclk s).
Proof.
  intros Hv Hr Hw He Hn. destruct (sleep_event_run n s Hv Hr) as (r & s0 & E0 & I0 & A0).
  destruct (A0 Hn) as (J0 & U0 & D0 & C0 & W0). pose proof Hr as (Hi & Hr1 & Hr2). pose proof (v_running _ _ Hv Hr1 Hr2) as Hpr.
  assert (S0 : sleeping (current s) (now (kclk s) + (n + 1)) s0).
  { split; [done|by rewrite J0|by apply W0|done|]. rewrite U0. clear -Hpr. bits. rewrite !orb_false_iff in Hpr. apply Hpr. }
  pose proof (switch_sleeping _ _ _ S0) as S1. exists (snd (perform Switch s0)). split; [cbn [perform_all perform]; rewrite bind_assoc; by run_done|]. done.
Qed.

(** C19. A thread that sleeps for [n] ticks is not ready before [n + 1] ticks
    have passed since the call, however the timer announces them, and it is
    ready at the first announcement that reaches this time. Here [ns] are
    the announcements that do not reach it, and [m] is the one that does. *)
Theorem sleep_on_time n ns m s : inv s -> runs s -> wf (kclk s) -> 0 <= elapsed (kclk s) -> 0 < n -> Forall (fun n => 0 <= n) ns ->
  let passed ns := curr_tick (kclk s) + total ns - now (kclk s) in
  passed ns < n + 1 -> exists s1, perform_all ([Sleep n; Switch] ++ concat (map tick_interrupt ns)) s = (Done tt, s1) /\ inv s1 /\
    z_is_thread_queued (thr s1 (current s)) = false /\
    (n + 1 <= passed (ns ++ [m]) -> exists s2, perform_all (tick_interrupt m) s1 = (Done tt, s2) /\
       z_is_thread_queued (thr s2 (current s)) = true).
Proof.
  intros Hv Hr Hw He Hn Hns passed Hp. destruct (falls_asleep n s Hv Hr Hw He Hn) as (s1 & E1 & S1 & C1). pose proof Hr as (Hi & Hr1 & Hr2).
  set (d := now (kclk s) + (n + 1)) in *.
  destruct (tick_interrupts_run _ _ ns s1 S1 Hns) as (s2 & E2 & S2 & C2). { rewrite C1. unfold d, passed in *. lia. }
  exists s2. split; [by rewrite (perform_all_app _ _ _ _ E1)|]. split; [apply S2|]. split.
  - destruct (z_is_thread_queued (thr s2 (current s))) eqn:Q; [|done]. apply ready_iff in Q as [_ Q]; [|apply S2|done]. destruct Q.
    rewrite <- queue_ids. apply list_elem_of_fmap. exists (current s, d). split; [done|apply S2].
  - intros Hm. destruct (tick_interrupt_run _ _ m s2 S2) as (s3 & E3 & _ & _ & Q3). exists s3. split; [done|]. apply Q3.
    unfold passed, total in Hm. rewrite foldr_app in Hm. cbn in Hm. rewrite C2, C1. unfold d, total.
    assert (Hf : forall a, foldr Z.add a ns = foldr Z.add 0 ns + a) by (intros a; clear; induction ns as [|x l IH]; cbn; [lia|rewrite IH; lia]).
    rewrite Hf in Hm. lia.
Qed.

(** ** Which thread runs *)

Lemma best_first s u : base s -> u <> idle_thread -> z_is_thread_prevented_from_running (thr s u) = false -> u ∉ timeout_ids (kclk s) ->
  best s <> idle_thread /\ prio (thr s (best s)) <= prio (thr s u).
Proof.
  intros Hb Hi Hp Ht. pose proof (b_core _ _ Hb) as Hc. assert (Hq : z_is_thread_queued (thr s u) = true) by (by apply ready_iff).
  apply (c_queued _ _ _ _ _ Hc), (c_node _ _ _ _ _ Hc) in Hq. pose proof (c_sorted _ _ _ _ _ Hc) as Hs. pose proof (c_idle _ _ _ _ _ Hc) as (_ & Hn & _).
  unfold SchedInv.best. destruct (queues s Runq) as [|b l] eqn:E; [by apply elem_of_nil in Hq|]. cbn. split.
  - intros ->. assert (H : z_is_thread_queued (thr s idle_thread) = true); [|congruence].
    apply (c_queued _ _ _ _ _ Hc), (c_node _ _ _ _ _ Hc). rewrite E. left.
  - apply elem_of_cons in Hq as [->|Hq]; [done|]. apply StronglySorted_inv in Hs as [_ Hs]. rewrite Forall_forall in Hs. by apply Hs.
Qed.

(** What runs after a switch, or after an interrupt that needs none. *)
Definition chosen (s : kernel) : Prop :=
  z_is_thread_prevented_from_running (thr s (current s)) = false /\
  (is_preempt (thr s (current s)) = true -> forall u, u <> idle_thread -> z_is_thread_prevented_from_running (thr s u) = false ->
     u ∉ timeout_ids (kclk s) -> current s <> idle_thread /\ prio (thr s (current s)) <= prio (thr s u)).

Lemma chosen_cache s : base s -> cache s = current s -> chosen s.
Proof.
  intros Hb E. split; [rewrite <- E; by apply (next_runs idle_thread)|]. intros Hm u Hi Hp Ht.
  destruct (b_cache _ _ Hb) as [H|(_ & _ & H)]; [|congruence]. rewrite <- E, H. by apply best_first.
Qed.


End events.

(** ** Examples *)

(** The main thread runs at some priority; the idle thread is thread 0. *)
Definition dead_thread : k_thread := mk_thread THREAD_DEAD 0 0 None 0 None.
Definition demo_kernel (p : Z) : kernel :=
  mk_kernel (upd (upd (fun _ => dead_thread) 0 (mk_thread 0 15 0 None 0 None)) 1 (mk_thread THREAD_QUEUED p 0 None 0 (Some Runq)))
    (upd (fun _ => []) Runq [1]) 1 1 (mk_clock 0 [] 0 0 0 [] []) 0 0 None false false.

Lemma demo_inv p : inv 0 (demo_kernel p).
Proof.
  assert (Ht : forall t, thr (demo_kernel p) t = mk_thread THREAD_QUEUED p 0 None 0 (Some Runq) /\ t = 1 \/
    (thr (demo_kernel p) t = mk_thread 0 15 0 None 0 None /\ t = 0) \/ (thr (demo_kernel p) t = dead_thread /\ t <> 0 /\ t <> 1)).
  { intros t. cbn. destruct (decide (t = 1)) as [->|]; [left; by rewrite upd_eq|]. right. rewrite upd_ne by done.
    destruct (decide (t = 0)) as [->|]; [left; by rewrite upd_eq|]. right. by rewrite upd_ne. }
  assert (Hq : forall l, l <> Runq -> queues (demo_kernel p) l = []) by (intros l Hl; cbn; by rewrite upd_ne).
  split; [split; [split| | |]|done].
  - intros l. destruct (decide (l = Runq)) as [->|Hl]; [repeat constructor; apply not_elem_of_nil|rewrite Hq by done; constructor].
  - intros t l. destruct (decide (l = Runq)) as [->|Hl]; [change (queues (demo_kernel p) Runq) with [1]; rewrite list_elem_of_singleton|rewrite Hq, elem_of_nil by done];
      destruct (Ht t) as [[-> ->]|[[-> ->]|(-> & ? & ?)]]; cbn; (split; intros H'; [try done|]; congruence).
  - repeat constructor.
  - intros t. destruct (Ht t) as [[-> ->]|[[-> ->]|(-> & ? & ?)]]; done.
  - intros t q. destruct (Ht t) as [[-> ->]|[[-> ->]|(-> & ? & ?)]]; done.
  - intros t. destruct (Ht t) as [[-> ->]|[[-> ->]|(-> & ? & ?)]]; cbn; (split; [done|by intros []]).
  - intros t _ Hn. destruct (Ht t) as [[-> ->]|[[-> ->]|(-> & ? & ?)]]; [|done|split; [done|by intros []]].
    split; [intros _; split; [done|apply not_elem_of_nil]|done].
  - intros t _. destruct (Ht t) as [[-> ->]|[[-> ->]|(-> & ? & ?)]]; [done|done|]. intros _. split; [apply not_elem_of_nil|]. split; [done|]. by apply Hq.
  - repeat split. apply not_elem_of_nil.
  - constructor.
  - by left.
  - intros _. apply not_elem_of_nil.
  - intros t. destruct (Ht t) as [[-> ->]|[[-> ->]|(-> & ? & ?)]]; done.
Qed.

(** Thread 2 is created and runs, sleeps for ten ticks, and runs again. *)
Definition demo_events : list event :=
  [Create 2 (-2) 0; Switch; Sleep 10; Switch; Interrupt; Tick 11].


(** Main creates a thread of lower and one of higher priority; the second runs. *)
Definition demo_creates : list event := [Create 3 5 0; Create 2 (-2) 0].



(** ** What goes wrong *)

(** The test for a timeout in [should_preempt] looks at the thread to run next
    and not at the current one. A cooperative thread that goes to sleep and is
    resumed by an interrupt before the switch runs on without being in the
    ready queue, once the interrupt makes any thread ready: its next call to
    [k_yield] unlinks a node that is in no list. *)
Theorem resumed_sleeper_crashes :
  fst (perform_all 0 100 [Create 2 (-2) 0; Switch; Sleep 10; Interrupt; Resume 2; Create 3 5 0; Exit; Switch; Yield] (demo_kernel 0)) = Stop NullDeref.
Proof. by vm_compute. Qed.

(** A cooperative thread that raises the priority of another one above its
    own is preempted at once. *)
Theorem priority_preempts_cooperative : let s := snd (perform_all 0 100 [Create 2 5 0; Set_priority 2 (-5)] (demo_kernel (-1))) in
  is_preempt (thr s 1) = false /\ pendsv s = true /\ cache s = 2.
Proof. by vm_compute. Qed.

(** Waking up a thread whose start is delayed cancels the start. *)
Theorem wakeup_cancels_start : let s := snd (perform_all 0 100 [Create 2 5 10; Wakeup 2; Interrupt; Tick 100] (demo_kernel 0)) in
  z_has_thread_started (thr s 2) = false /\ timeout_ids (kclk s) = [].
Proof. by vm_compute. Qed.

(** A thread that waits with a timeout and is suspended meanwhile waits for
    ever after it is resumed. *)
Theorem suspend_drops_timeout : let s := snd (perform_all 0 100
    [Create 2 (-5) 0; Switch; Wait 7 10; Switch; Suspend 2; Resume 2; Interrupt; Tick 100] (demo_kernel 0)) in
  pended_on (thr s 2) = Some (inl 7) /\ timeout_ids (kclk s) = [].
Proof. by vm_compute. Qed.

(** The priority of a waiting thread changes without its place in the queue:
    the thread that is woken first is not the one with the highest priority. *)
Theorem priority_leaves_waiters : let s := snd (perform_all 0 100
    [Create 2 (-5) 0; Switch; Wait 7 (-1); Switch; Create 3 (-4) 0; Switch; Wait 7 (-1); Switch; Set_priority 3 (-6)] (demo_kernel 0)) in
  queues s (Waitq (inl 7)) = [2; 3] /\ prio (thr s 3) < prio (thr s 2).
Proof. by vm_compute. Qed.

(** The main thread sleeps for ten ticks; the timer announces five, five and one. *)
Lemma sleep_on_time_witness : exists s1, perform_all 0 100 ([Sleep 10; Switch] ++ concat (map tick_interrupt [5; 5])) (demo_kernel 0) = (Done tt, s1) /\
  inv 0 s1 /\ z_is_thread_queued (thr s1 1) = false /\
  (10 + 1 <= 11 - 0 -> exists s2, perform_all 0 100 (tick_interrupt 1) s1 = (Done tt, s2) /\ z_is_thread_queued (thr s2 1) = true).
Proof.
  apply (sleep_on_time 0 100 10 [5; 5] 1 (demo_kernel 0)); [apply demo_inv|done|constructor|done|done|by repeat constructor|done].
Defined.
