(* ===== verification/Timer.v ===== *)
(** * Kernel timers (kernel/timer.c)

    One-shot and periodic timers on top of the queue of timeouts: their
    callback, starting, stopping and reading their status. A timer's own
    callbacks and the threads that are made ready are recorded. *)
From S2P Require Import Prelude KSem Timeout.
From stdpp Require Import prelude list numbers functions.
From Stdlib Require Import ZArith Lia Sorted.
Open Scope Z_scope.

(** ** State *)

Record k_timer := mk_timer {
  period : Z; status : Z; has_expiry_fn : bool; has_stop_fn : bool; timer_wait_q : list WaitQ.k_thread }.

Definition set_period (x : Z) (t : k_timer) : k_timer := mk_timer x (status t) (has_expiry_fn t) (has_stop_fn t) (timer_wait_q t).
Definition set_status (x : Z) (t : k_timer) : k_timer := mk_timer (period t) x (has_expiry_fn t) (has_stop_fn t) (timer_wait_q t).
Definition set_timer_wait_q (x : list WaitQ.k_thread) (t : k_timer) : k_timer := mk_timer (period t) (status t) (has_expiry_fn t) (has_stop_fn t) x.

Inductive timer_event : Type := Expiry_fn (timer : Z) | Stop_fn (timer : Z) | Ready (thread : nat).

(** The timers are known by the timeouts they contain. *)
Record system := mk_system { system_clock : clock; timers : Z -> k_timer; happened : list timer_event }.

#[export] Instance system_has_clock : HasClock system.
Proof. refine {| clk := system_clock; set_clk := fun c s => mk_system c (timers s) (happened s) |}; done. Defined.

Definition update_timer (i : Z) (f : k_timer -> k_timer) : M system unit :=
  modify (fun s => mk_system (system_clock s) (<[i := f (timers s i)]> (timers s)) (happened s)).
Definition happens (ev : timer_event) : M system unit :=
  modify (fun s => mk_system (system_clock s) (timers s) (happened s ++ [ev])).

(** The best waiting thread is made ready. *)
Definition wake_one (i : Z) : M system unit :=
  t ← gets (fun s => timers s i);
  match WaitQ.z_unpend_first_thread (timer_wait_q t) with
  | None => mret tt
  | Some (thread, rest) => update_timer i (set_timer_wait_q rest);; happens (Ready (WaitQ.tid thread))
  end.

(** ** Operations *)

Definition z_timer_expiration_handler (i : Z) : M system unit :=
  t ← gets (fun s => timers s i);
  when (negb (period t =? 0) && negb (period t =? K_TICKS_FOREVER)) (on_clock (z_add_timeout i (period t)));;
  update_timer i (fun t => set_status (u32 (status t + 1)) t);;
  when (has_expiry_fn t) (happens (Expiry_fn i));;
  wake_one i.

Definition k_timer_init (i : Z) (expiry_fn stop_fn : bool) : M system unit :=
  update_timer i (fun t => mk_timer (period t) 0 expiry_fn stop_fn []).

Definition k_timer_start (i duration period : Z) : M system unit :=
  if duration =? K_TICKS_FOREVER then mret tt
  else
    let period := if negb (period =? K_TICKS_FOREVER) && negb (period =? 0) && (Z_TICK_ABS period <? 0)
                  then Z.max (period - 1) 1 else period in
    let duration := if Z_TICK_ABS duration <? 0 then Z.max (duration - 1) 0 else duration in
    on_clock (fun c => (z_abort_timeout i c).2);;
    update_timer i (fun t => set_status 0 (set_period period t));;
    on_clock (z_add_timeout i duration).

Definition k_timer_stop (i : Z) : M system unit :=
  c ← gets clk;
  let '(ret, c') := z_abort_timeout i c in
  on_clock (fun _ => c');;
  if negb (ret =? 0) then mret tt
  else
    t ← gets (fun s => timers s i);
    when (has_stop_fn t) (happens (Stop_fn i));;
    wake_one i.

Definition k_timer_status_get (i : Z) : M system Z :=
  result ← gets (fun s => status (timers s i));
  update_timer i (set_status 0);;
  mret result.

(** [inl]: the thread waits, and reads the status with [k_timer_status_get]
    when it has been made ready. *)
Definition k_timer_status_sync (i : Z) (self : WaitQ.k_thread) : M system (unit + Z) :=
  s ← gets (fun s => s);
  let result := status (timers s i) in
  if (result =? 0) && is_linked i (clk s) then
    update_timer i (fun t => set_timer_wait_q (WaitQ.z_priq_dumb_add (timer_wait_q t) self) t);;
    mret (inl tt)
  else
    update_timer i (set_status 0);;
    mret (inr result).

Definition k_timer_remaining_ticks (i : Z) (s : system) : Z := z_timeout_remaining i (clk s).
Definition k_timer_expires_ticks (i : Z) (s : system) : Z := z_timeout_expires i (clk s).

(** ** Callbacks of timers *)

(** After how many ticks a timer with that period is due again. *)
Definition due_again (p : Z) : option Z := if (p =? 0) || (p =? K_TICKS_FOREVER) then None else Some (p + 1).

Definition periods_are (per : Z -> Z) (s : system) : Prop := forall i, period (timers s i) = per i.

Lemma update_period per i f s : (forall t, period (f t) = period t) -> periods_are per s ->
  periods_are per (mk_system (system_clock s) (<[i := f (timers s i)]> (timers s)) (happened s)).
Proof.
  intros Hf Hs j. cbn. destruct (decide (i = j)) as [->|]; [rewrite fn_lookup_insert|rewrite fn_lookup_insert_ne by done].
  - rewrite Hf. apply Hs.
  - apply Hs.
Qed.

(** Steps that leave the clock and the periods alone. *)
Definition quiet (per : Z -> Z) (m : M system unit) : Prop := forall s, periods_are per s ->
  exists s', m s = (Done tt, s') /\ periods_are per s' /\ clk s' = clk s.

Lemma quiet_update per i f : (forall t, period (f t) = period t) -> quiet per (update_timer i f).
Proof. intros Hf s Hs. eexists. split; [done|]. split; [by apply update_period|done]. Qed.
Lemma quiet_happens per ev : quiet per (happens ev).
Proof. intros s Hs. by eexists. Qed.
Lemma quiet_ret per : quiet per (mret tt).
Proof. intros s Hs. by eexists. Qed.
Lemma quiet_bind per m k : quiet per m -> (forall u, quiet per (k u)) -> quiet per (mbind k m).
Proof.
  intros Hm Hk s Hs. destruct (Hm s Hs) as (s1 & E1 & H1 & C1). destruct (Hk tt s1 H1) as (s2 & E2 & H2 & C2).
  exists s2. rewrite (bind_done _ _ _ _ _ E1). by rewrite <- C1.
Qed.
Lemma quiet_when per b m : quiet per m -> quiet per (when b m).
Proof. intros Hm. destruct b; [done|apply quiet_ret]. Qed.
Lemma quiet_gets {A} per (g : system -> A) k : (forall a, quiet per (k a)) -> quiet per (mbind k (gets g)).
Proof. intros Hk s Hs. rewrite bind_gets. by apply Hk. Qed.

Lemma quiet_wake per i : quiet per (wake_one i).
Proof.
  apply quiet_gets. intros t. destruct (WaitQ.z_unpend_first_thread _) as [[thread rest]|]; [|apply quiet_ret].
  apply quiet_bind; [by apply quiet_update|]. intros _. apply quiet_happens.
Qed.

Lemma handler_re_adds per : (forall i, K_TICKS_FOREVER <= per i) ->
  re_adds (fun i => due_again (per i)) z_timer_expiration_handler (periods_are per).
Proof.
  intros Hper i s Hs Hw He. unfold z_timer_expiration_handler. rewrite bind_gets, Hs.
  set (tail := fun _ : unit => update_timer i _;; _).
  assert (Hq : quiet per (tail tt)).
  { apply quiet_bind; [by apply quiet_update|]. intros _. apply quiet_bind; [apply quiet_when, quiet_happens|].
    intros _. apply quiet_wake. }
  unfold due_again. specialize (Hper i). destruct (Z.eqb_spec (per i) 0) as [E0|E0], (Z.eqb_spec (per i) K_TICKS_FOREVER) as [E1|E1];
    cbn [negb andb orb when].
  1-3: rewrite bind_ret; destruct (Hq s Hs) as (s' & E & Hs' & C); exists s'; by rewrite C.
  unfold on_clock. rewrite bind_modify. cbn [clk set_clk system_has_clock] in *. unfold K_TICKS_FOREVER in Hper, E1.
  set (c1 := z_add_timeout i (per i) (system_clock s)). set (s1 := mk_system c1 (timers s) (happened s)).
  destruct (Hq s1) as (s' & E & Hs' & C); [by intros j; apply Hs|]. exists s'. cbn [clk system_has_clock] in C. rewrite C.
  destruct (add_fields i (per i) (system_clock s)) as (F1 & F2 & F3 & F4).
  split_and!; try done; [by apply add_timeout_wf|].
  cbn [system_clock s1]. unfold c1. rewrite add_queue by done. unfold timeout_ticks, Z_TICK_ABS, K_TICKS_FOREVER.
  rewrite (proj2 (Z.leb_gt _ _)) by lia. by rewrite Z.max_r by lia.
Qed.

(** ** Starting a timer *)

Lemma aremove_not_in i q : NoDup q.*1 -> i ∉ (aremove i q).*1.
Proof.
  induction q as [|p q IH]; cbn [aremove]; [intros _; apply not_elem_of_nil|]. intros Hd. rewrite fmap_cons in Hd.
  destruct (Z.eqb_spec p.1 i) as [<-|Hne]; [by apply NoDup_cons_1_1 in Hd|].
  rewrite fmap_cons. apply not_elem_of_cons. split; [done|]. apply IH. by apply NoDup_cons_1_2 in Hd.
Qed.

Lemma aremove_sublist i q : aremove i q `sublist_of` q.
Proof. induction q as [|p q IH]; cbn [aremove]; [done|]. destruct (p.1 =? i); by constructor. Qed.

Lemma abort_queue i c : queue (z_abort_timeout i c).2 = aremove i (queue c).
Proof.
  unfold z_abort_timeout, is_linked. rewrite (linked_lookup (curr_tick c)). fold (queue c).
  destruct (alookup i (queue c)) as [d|] eqn:E; [apply remove_deadlines|]. cbn [snd].
  induction (queue c) as [|p q IH]; [done|]. cbn in *. destruct (p.1 =? i); [done|]. by rewrite <- IH.
Qed.

Lemma abort_fields i c : let c' := (z_abort_timeout i c).2 in
  curr_tick c' = curr_tick c /\ announce_remaining c' = announce_remaining c /\ fired c' = fired c /\ hw_elapsed c' = hw_elapsed c /\
  (wf c -> wf c').
Proof. unfold z_abort_timeout. destruct (is_linked i c); split_and!; try done. apply remove_timeout_wf. Qed.

(** The period that is kept, and how long the timer really takes. *)
Definition kept_period (p : Z) : Z := if (p =? 0) || (p =? K_TICKS_FOREVER) then p else Z.max (p - 1) 1.

Lemma start_run i d p s : 0 <= d -> K_TICKS_FOREVER <= p -> wf (clk s) -> 0 <= elapsed (clk s) ->
  exists s', k_timer_start i d p s = (Done tt, s') /\ wf (clk s') /\ curr_tick (clk s') = curr_tick (clk s) /\
    announce_remaining (clk s') = announce_remaining (clk s) /\ fired (clk s') = fired (clk s) /\
    queue (clk s') = ainsert i (now (clk s) + Z.max 1 d) (aremove i (queue (clk s))) /\
    timers s' = <[i := set_status 0 (set_period (kept_period p) (timers s i))]> (timers s).
Proof.
  intros Hd Hp Hw He. unfold k_timer_start. rewrite (proj2 (Z.eqb_neq d K_TICKS_FOREVER)) by (unfold K_TICKS_FOREVER; lia).
  set (p' := if negb (p =? K_TICKS_FOREVER) && negb (p =? 0) && (Z_TICK_ABS p <? 0) then Z.max (p - 1) 1 else p). set (d' := if Z_TICK_ABS d <? 0 then Z.max (d - 1) 0 else d).
  assert (Ed : d' = Z.max (d - 1) 0) by (unfold d', Z_TICK_ABS, K_TICKS_FOREVER; by rewrite (proj2 (Z.ltb_lt _ _)) by lia).
  assert (Ep : p' = kept_period p).
  { unfold p', kept_period, Z_TICK_ABS, K_TICKS_FOREVER in *. rewrite (orb_comm (p =? 0)).
    destruct (Z.eqb_spec p (-1)) as [->|]; [done|]. destruct (Z.eqb_spec p 0) as [->|]; [done|]. cbn [negb andb orb]. by rewrite (proj2 (Z.ltb_lt _ _)) by lia. }
  unfold on_clock, update_timer. rewrite !bind_modify. eexists. split; [done|]. cbn [clk set_clk system_has_clock system_clock timers].
  destruct (abort_fields i (system_clock s)) as (A1 & A2 & A3 & A4 & A5). set (c1 := (z_abort_timeout i (system_clock s)).2) in *.
  assert (E1 : elapsed c1 = elapsed (system_clock s)) by (unfold elapsed, sys_clock_elapsed; by rewrite A2, A4).
  destruct (add_fields i d' c1) as (F1 & F2 & F3 & F4). rewrite F1, F2, F3, A1, A2, A3. split_and!; try done.
  - apply add_timeout_wf; [by apply A5|by rewrite E1].
  - rewrite add_queue by (unfold K_TICKS_FOREVER; lia). unfold c1. rewrite abort_queue. fold c1. unfold now. rewrite A1, E1. f_equal. f_equal.
    rewrite Ed. unfold timeout_ticks, Z_TICK_ABS, K_TICKS_FOREVER. rewrite (proj2 (Z.leb_gt _ _)) by lia. lia.
  - by rewrite Ep.
Qed.

(** ** Timers in time *)

(** The driver announces the ticks that have passed; its own count starts
    again. *)
Definition sync_driver (s : system) : system :=
  mk_system (mk_clock (curr_tick (clk s)) (timeout_list (clk s)) (announce_remaining (clk s)) 0 (slice_ticks (clk s))
    (programmed (clk s)) (fired (clk s))) (timers s) (happened s).

Definition announce (fuel : nat) (ticks : Z) (s : system) : outcome unit * system :=
  sys_clock_announce z_timer_expiration_handler fuel ticks (sync_driver s).

Lemma started_period (per : Z -> Z) i t s : (forall j, period (timers s j) = per j) ->
  forall j, period ((<[i := t]> (timers s) : Z -> k_timer) j) = (<[i := period t]> per : Z -> Z) j.
Proof.
  intros H j. destruct (decide (i = j)) as [->|]; [by rewrite !fn_lookup_insert|by rewrite !fn_lookup_insert_ne].
Qed.

Lemma restarted_ids i d q : NoDup q.*1 -> NoDup (ainsert i d (aremove i q)).*1.
Proof.
  intros Hd. rewrite (fmap_Permutation fst _ _ (ainsert_ids _ _ _)). apply NoDup_cons_2; [by apply aremove_not_in|].
  eapply sublist_NoDup; [done|]. apply fmap_sublist, aremove_sublist.
Qed.

Lemma announce_timers per fuel ticks s : periods_are per s -> (forall j, K_TICKS_FOREVER <= per j) -> wf (clk s) -> 0 <= ticks ->
  NoDup (queue (clk s)).*1 -> (work (curr_tick (clk s) + ticks) (queue (clk s)) <= fuel)%nat ->
  exists s2 log, announce fuel ticks s = (Done tt, s2) /\ curr_tick (clk s2) = curr_tick (clk s) + ticks /\
    fired (clk s2) = fired (clk s) ++ log /\
    forall i, times i log = due (fun j => due_again (per j)) i (curr_tick (clk s) + ticks) (queue (clk s)).
Proof.
  intros Hs Hper Hw Ht Hd Hf.
  assert (Hpos : forall j q, due_again (per j) = Some q -> 0 < q).
  { intros j q. unfold due_again. destruct (_ || _) eqn:E; [done|]. intros [= <-]. specialize (Hper j).
    apply orb_false_iff in E as [?%Z.eqb_neq ?%Z.eqb_neq]. unfold K_TICKS_FOREVER in *. lia. }
  assert (HP : forall c (x : system), periods_are per x -> periods_are per (set_clk c x)) by (intros c x Hx j; exact (Hx j)).
  assert (Hs' : periods_are per (sync_driver s)) by exact Hs.
  destruct (announce_run _ Hpos z_timer_expiration_handler _ (handler_re_adds per Hper) HP fuel ticks (sync_driver s) Hs' Hw eq_refl Ht Hd Hf)
    as (s2 & log & E & _ & _ & _ & Hc & _ & Hfi & [_ _ Htimes _ _ _]).
  by exists s2, log.
Qed.

(** When a started timer fires. *)
Lemma started_fires i d p s ticks fuel :
  wf (clk s) -> announce_remaining (clk s) = 0 -> 0 <= hw_elapsed (clk s) -> NoDup (queue (clk s)).*1 ->
  (forall j, K_TICKS_FOREVER <= period (timers s j)) -> 0 <= d -> K_TICKS_FOREVER <= p -> 0 <= ticks ->
  let first := now (clk s) + Z.max 1 d in
  let target := curr_tick (clk s) + ticks in
  (work target (ainsert i first (aremove i (queue (clk s)))) <= fuel)%nat ->
  exists s1 s2 log, k_timer_start i d p s = (Done tt, s1) /\ announce fuel ticks s1 = (Done tt, s2) /\
    curr_tick (clk s2) = target /\ fired (clk s2) = fired (clk s) ++ log /\
    times i log = firings (fun _ => due_again (kept_period p)) i first target.
Proof.
  intros Hw Hr Hh Hd Hper Hd0 Hp Ht first target Hf.
  assert (He : 0 <= elapsed (clk s)) by (unfold elapsed, sys_clock_elapsed; by destruct (_ =? 0)).
  destruct (start_run i d p s Hd0 Hp Hw He) as (s1 & E1 & Hw1 & Hc1 & Hr1 & Hf1 & Hq1 & Ht1).
  set (per := (<[i := kept_period p]> (fun j => period (timers s j)) : Z -> Z)).
  assert (HP1 : periods_are per s1) by (intros j; rewrite Ht1; by rewrite (started_period (fun j => period (timers s j)))).
  assert (Hper1 : forall j, K_TICKS_FOREVER <= per j).
  { intros j. unfold per. destruct (decide (i = j)) as [->|]; [rewrite fn_lookup_insert|by rewrite fn_lookup_insert_ne].
    unfold kept_period, K_TICKS_FOREVER in *. destruct (_ || _); lia. }
  assert (Hids : NoDup (queue (clk s1)).*1) by (rewrite Hq1; by apply restarted_ids).
  destruct (announce_timers per fuel ticks s1 HP1 Hper1 Hw1 Ht Hids) as (s2 & log & E2 & Hc2 & Hf2 & Htimes); [by rewrite Hc1, Hq1|].
  exists s1, s2, log. split_and!; [done|done|by rewrite Hc2, Hc1|by rewrite Hf2, Hf1|].
  rewrite Htimes, Hc1, Hq1. unfold due. rewrite alookup_insert, Z.eqb_refl by (by apply alookup_None, aremove_not_in).
  unfold firings, per. by rewrite fn_lookup_insert.
Qed.

(** A stopped timer is out of the queue; nothing else changes in it. *)
Lemma stop_run per i s : periods_are per s ->
  exists s', k_timer_stop i s = (Done tt, s') /\ periods_are per s' /\ clk s' = (z_abort_timeout i (clk s)).2.
Proof.
  intros Hs. unfold k_timer_stop. rewrite bind_gets. destruct (z_abort_timeout i (clk s)) as [ret c'].
  unfold on_clock. rewrite bind_modify. destruct (negb (ret =? 0)); [by eexists|].
  assert (Hq : quiet per (t ← gets (fun s => timers s i); when (has_stop_fn t) (happens (Stop_fn i));; wake_one i)).
  { apply quiet_gets. intros t. apply quiet_bind; [apply quiet_when, quiet_happens|]. intros _. apply quiet_wake. }
  exact (Hq (set_clk c' s) Hs).
Qed.


Definition demo_system : system :=
  mk_system (mk_clock 500 [mk_timeout 3 4] 0 2 0 [] []) (fun _ => mk_timer 0 0 false false []) [].

