(* ===== verification/Hal.v ===== *)
(** * Timers and clock of the radio library (drivers/lora/hal_common.c)

    The functions through which the radio library reads the time and sets its
    one alarm, on the kernel's timers. The library's interrupt handler is
    counted. Delays and critical sections are in [HalKernel]. *)
From S2P Require Import Prelude KSem Timeout TimeUnits Timer.
From stdpp Require Import prelude list numbers functions.
From Stdlib Require Import ZArith Lia.
Open Scope Z_scope.

(** The static variables, above the kernel's timers. *)
Record hal := mk_hal { kernel : system; saved_time : Z; backup_reg : Z * Z; timer_work : bool; TimerIrqHandler_runs : nat }.

Definition set_kernel (x : system) (h : hal) : hal := mk_hal x (saved_time h) (backup_reg h) (timer_work h) (TimerIrqHandler_runs h).
Definition set_saved_time (x : Z) (h : hal) : hal := mk_hal (kernel h) x (backup_reg h) (timer_work h) (TimerIrqHandler_runs h).
Definition set_backup_reg (x : Z * Z) (h : hal) : hal := mk_hal (kernel h) (saved_time h) x (timer_work h) (TimerIrqHandler_runs h).
Definition set_timer_work (x : bool) (n : nat) (h : hal) : hal := mk_hal (kernel h) (saved_time h) (backup_reg h) x n.

Definition in_kernel {A} (m : M system A) : M hal A := fun h => let '(o, s) := m (kernel h) in (o, set_kernel s h).

Section hal.
(** The tick frequency and the timeout of [lora_timer]. *)
Context (hz lora_timer : Z).

Definition k_uptime_get_32 (s : system) : Z := u32 (k_ticks_to_ms_floor64 hz (sys_clock_tick_get (clk s))).

(** The work queue takes the work before it calls the handler. *)
Definition timer_work_handler : M hal unit := modify (fun h => set_timer_work false (S (TimerIrqHandler_runs h)) h).
Definition timer_callback : M hal unit := modify (fun h => set_timer_work true (TimerIrqHandler_runs h) h).

Definition RtcBkupWrite (data0 data1 : Z) : M hal unit := modify (set_backup_reg (data0, data1)).
Definition RtcBkupRead : M hal (Z * Z) := gets backup_reg.

(** Seconds, and what is stored through the pointer to 16 bits. *)
Definition RtcGetCalendarTime : M hal (Z * Z) :=
  now ← gets (fun h => k_uptime_get_32 (kernel h));
  mret (now / 1000, u16 now).

Definition RtcGetTimerValue : M hal Z := gets (fun h => k_uptime_get_32 (kernel h)).
Definition RtcGetTimerElapsedTime : M hal Z := gets (fun h => u32 (k_uptime_get_32 (kernel h) - saved_time h)).
Definition RtcGetMinimumTimeout : Z := 1.
Definition RtcStopAlarm : M hal unit := in_kernel (k_timer_stop lora_timer).
Definition RtcSetAlarm (timeout : Z) : M hal unit :=
  in_kernel (k_timer_start lora_timer (k_ms_to_ticks_ceil64 hz (Z.max timeout 0)) 0).
Definition RtcSetTimerContext : M hal Z :=
  modify (fun h => set_saved_time (k_uptime_get_32 (kernel h)) h);;
  gets saved_time.
Definition RtcGetTimerContext : M hal Z := gets saved_time.
Definition RtcMs2Tick (milliseconds : Z) : Z := milliseconds.
Definition RtcTick2Ms (tick : Z) : Z := tick.

(** ** The alarm against the library's clock *)

Context (Hhz : 0 < hz < 2 ^ 32).

Lemma uptime_ms t : 0 <= t -> t * 1000 + hz <= 2 ^ 64 -> k_ticks_to_ms_floor64 hz t = t * 1000 / hz.
Proof.
  intros Ht Hfit. pose proof (tmcvt_converted t hz Z_HZ_ms true false false false Ht Hhz) as H. cbn zeta iota in H.
  unfold k_ticks_to_ms_floor64. rewrite H by (unfold Z_HZ_ms; lia). unfold converted, rounding, Z_HZ_ms. by rewrite Z.add_0_r.
Qed.

Lemma alarm_ticks t : 0 <= t < 2 ^ 32 -> k_ms_to_ticks_ceil64 hz t = (t * hz + 999) / 1000.
Proof.
  intros Ht. pose proof (tmcvt_converted t Z_HZ_ms hz true false true false) as H. cbn zeta iota in H.
  unfold k_ms_to_ticks_ceil64. rewrite H by (unfold Z_HZ_ms; nia). done.
Qed.

(** Rounding up to ticks and the clock's rounding down to milliseconds. *)
Lemma alarm_delay t n : 0 <= t -> let d := Z.max 1 ((t * hz + 999) / 1000) in
  t <= (n + d) * 1000 / hz - n * 1000 / hz <= t + 1000 / hz + 1.
Proof.
  intros Ht d. assert (Hd : t * hz <= d * 1000 <= t * hz + 1000) by (subst d; Z.to_euclidean_division_equations; nia).
  clearbody d. rewrite Z.mul_add_distr_r. split.
  - pose proof (Z.div_le_mono (n * 1000 + t * hz) (n * 1000 + d * 1000) hz) as H. rewrite Z.div_add in H by lia. lia.
  - pose proof (Z.div_le_mono (n * 1000 + d * 1000) (n * 1000 + 1000 + t * hz) hz) as H. rewrite Z.div_add in H by lia.
    assert ((n * 1000 + 1000) / hz <= n * 1000 / hz + 1000 / hz + 1) by (Z.to_euclidean_division_equations; nia). lia.
Qed.

Lemma u32_diff a b : 0 <= a - b < 2 ^ 32 -> u32 (u32 a - u32 b) = a - b.
Proof. intros H. unfold u32. rewrite <- Zminus_mod. by apply Z.mod_small. Qed.

Lemma aremove_insert i d q : i ∉ q.*1 -> aremove i (ainsert i d q) = q.
Proof.
  induction q as [|p q IH]; cbn [ainsert aremove fst]; [by rewrite Z.eqb_refl|]. rewrite fmap_cons. intros [Hp Hq]%not_elem_of_cons.
  destruct (d <? p.2); cbn [aremove fst]; [by rewrite Z.eqb_refl|]. rewrite (proj2 (Z.eqb_neq p.1 i)) by done. by rewrite IH.
Qed.

(** The state a group of lemmas starts from, and the tick of the alarm. *)
Section alarm.
Context (timeout ticks : Z) (fuel : nat) (h : hal).
Let c := clk (kernel h).
Context (Hw : wf c) (Hr : announce_remaining c = 0) (Hc0 : 0 <= curr_tick c) (Hh : 0 <= hw_elapsed c) (Hd : NoDup (queue c).*1).
Context (Hper : forall j, K_TICKS_FOREVER <= period (timers (kernel h) j)) (Ht : 0 <= ticks).
Context (Hto : 0 <= timeout < 2 ^ 32 - 1000 / hz - 1).
Let d := (timeout * hz + 999) / 1000.
Let T := now c + Z.max 1 d.
Let target := curr_tick c + ticks.
Context (Hf : (work target (ainsert lora_timer T (aremove lora_timer (queue c))) <= fuel)%nat).

Lemma delay_nonneg : 0 <= d.
Proof. apply Z.div_pos; nia. Qed.

Lemma set_alarm_run h0 : kernel h0 = kernel h -> RtcSetAlarm timeout h0 = in_kernel (k_timer_start lora_timer d 0) h0.
Proof.
  intros _. unfold RtcSetAlarm. pose proof (Z.div_pos 1000 hz). by rewrite Z.max_l, alarm_ticks by lia.
Qed.

(** What the library's clock has measured when it reads [T]. *)
Lemma measured h3 : T * 1000 + hz <= 2 ^ 64 -> saved_time h3 = k_uptime_get_32 (kernel h) -> sys_clock_tick_get (clk (kernel h3)) = T ->
  exists ms, RtcGetTimerElapsedTime h3 = (Done ms, h3) /\ timeout <= ms <= timeout + 1000 / hz + 1.
Proof.
  clear Hf Ht Hper Hd Hw target. intros Hfit Hs Hclk. eexists. split; [reflexivity|]. rewrite Hs. unfold k_uptime_get_32. rewrite Hclk.
  assert (Hn : sys_clock_tick_get (clk (kernel h)) = now c) by (unfold now, elapsed, sys_clock_tick_get; fold c; by rewrite Hr).
  assert (Hn0 : 0 <= now c) by (rewrite <- Hn; unfold sys_clock_tick_get, sys_clock_elapsed; fold c; lia).
  rewrite Hn, !uptime_ms by (subst T; lia). pose proof (alarm_delay timeout (now c) (proj1 Hto)) as D. cbn zeta in D. fold d T in D.
  rewrite u32_diff; lia.
Qed.

Lemma alarm_fires : exists h1 k2 log, (RtcSetTimerContext;; RtcSetAlarm timeout) h = (Done tt, h1) /\
  announce fuel ticks (kernel h1) = (Done tt, k2) /\ fired (clk k2) = fired c ++ log /\
  times lora_timer log = (if T <=? target then [T] else []) /\ saved_time h1 = k_uptime_get_32 (kernel h).
Proof.
  destruct (started_fires lora_timer d 0 (kernel h) ticks fuel Hw Hr Hh Hd Hper delay_nonneg) as (s1 & s2 & log & E1 & E2 & Hcu & Hfi & Htimes);
    [unfold K_TICKS_FOREVER; lia|done|done|].
  unfold RtcSetTimerContext. rewrite bind_assoc, bind_modify, bind_gets, set_alarm_run by done.
  unfold in_kernel. cbn [kernel set_saved_time]. rewrite E1. by eexists _, s2, log.
Qed.

Lemma alarm_stopped : exists h1 k2 log, (RtcSetAlarm timeout;; RtcStopAlarm) h = (Done tt, h1) /\
  announce fuel ticks (kernel h1) = (Done tt, k2) /\ fired (clk k2) = fired c ++ log /\ times lora_timer log = [].
Proof.
  assert (He : 0 <= elapsed c) by (unfold elapsed, sys_clock_elapsed; by destruct (_ =? 0)).
  assert (H0 : K_TICKS_FOREVER <= 0) by (unfold K_TICKS_FOREVER; lia).
  destruct (start_run lora_timer d 0 (kernel h) delay_nonneg H0 Hw He) as (s1 & E1 & Hw1 & Hc1 & Hr1 & Hf1 & Hq1 & Ht1).
  set (per := (<[lora_timer := 0]> (fun j => period (timers (kernel h) j)) : Z -> Z)).
  assert (HP1 : periods_are per s1) by (intros j; rewrite Ht1; by rewrite (started_period (fun j => period (timers (kernel h) j)))).
  destruct (stop_run per lora_timer s1 HP1) as (s2 & E2 & HP2 & Hc2).
  destruct (abort_fields lora_timer (clk s1)) as (A1 & _ & A3 & _ & A5).
  assert (Hn : lora_timer ∉ (aremove lora_timer (queue c)).*1) by (by apply aremove_not_in).
  assert (Hq2 : queue (clk s2) = aremove lora_timer (queue c)) by (rewrite Hc2, abort_queue, Hq1; by apply aremove_insert).
  destruct (announce_timers per fuel ticks s2 HP2) as (s3 & log & E3 & _ & Hf3 & Htimes).
  - intros j. unfold per. destruct (decide (lora_timer = j)) as [->|]; [by rewrite fn_lookup_insert|by rewrite fn_lookup_insert_ne].
  - rewrite Hc2. by apply A5.
  - done.
  - rewrite Hq2. eapply sublist_NoDup; [exact Hd|]. apply fmap_sublist, aremove_sublist.
  - rewrite Hq2, Hc2, A1, Hc1. rewrite work_insert in Hf. fold c target. lia.
  - exists (set_kernel s2 (set_kernel s1 h)), s3, log. rewrite (bind_done _ _ _ tt (set_kernel s1 h)).
    + unfold RtcStopAlarm, in_kernel. cbn [kernel set_kernel]. rewrite E2. split; [done|]. split; [done|].
      rewrite Hf3, Hc2, A3, Hf1. split; [done|]. rewrite Htimes, Hq2. unfold due. by rewrite alookup_None.
    + rewrite set_alarm_run by done. unfold in_kernel. by rewrite E1.
Qed.
End alarm.

(** C28. The library notes the time and sets its alarm: while ticks are announced the
    alarm goes off exactly once, at a tick [T]; when the clock reads [T], the
    time the library has measured since is at least the time it asked for and
    at most a tick and a millisecond more, also when the 32-bit clock has
    wrapped around in between. An alarm that is stopped never goes off. *)
Theorem alarm_in_time timeout h ticks fuel :
  let c := clk (kernel h) in
  wf c -> announce_remaining c = 0 -> 0 <= curr_tick c -> 0 <= hw_elapsed c -> NoDup (queue c).*1 ->
  (forall j, K_TICKS_FOREVER <= period (timers (kernel h) j)) -> 0 <= ticks -> 0 <= timeout < 2 ^ 32 - 1000 / hz - 1 ->
  let T := now c + Z.max 1 ((timeout * hz + 999) / 1000) in
  let target := curr_tick c + ticks in
  T * 1000 + hz <= 2 ^ 64 ->
  (work target (ainsert lora_timer T (aremove lora_timer (queue c))) <= fuel)%nat ->
  (exists h1 k2 log, (RtcSetTimerContext;; RtcSetAlarm timeout) h = (Done tt, h1) /\
     announce fuel ticks (kernel h1) = (Done tt, k2) /\ fired (clk k2) = fired c ++ log /\
     times lora_timer log = (if T <=? target then [T] else []) /\
     forall h3, saved_time h3 = saved_time h1 -> sys_clock_tick_get (clk (kernel h3)) = T ->
       exists ms, RtcGetTimerElapsedTime h3 = (Done ms, h3) /\ timeout <= ms <= timeout + 1000 / hz + 1) /\
  (exists h1 k2 log, (RtcSetAlarm timeout;; RtcStopAlarm) h = (Done tt, h1) /\
     announce fuel ticks (kernel h1) = (Done tt, k2) /\ fired (clk k2) = fired c ++ log /\ times lora_timer log = []).
Proof.
  intros c Hw Hr Hc0 Hh Hd Hper Ht Hto T target Hfit Hf. split.
  - destruct (alarm_fires timeout ticks fuel h Hw Hr Hh Hd Hper Ht Hto Hf) as (h1 & k2 & log & E1 & E2 & E3 & E4 & E5).
    exists h1, k2, log. split_and!; [done..|]. intros h3 Hs. rewrite E5 in Hs. by apply measured.
  - by apply alarm_stopped.
Qed.

End hal.

(** ** Witness *)

Definition demo_hal : hal :=
  mk_hal (mk_system (mk_clock 429496000 [mk_timeout 3 4] 0 2 0 [] []) (fun _ => mk_timer 0 0 true false []) []) 0 (0, 0) false 0.

Lemma alarm_in_time_witness : exists h1 k2 log, (RtcSetTimerContext 100;; RtcSetAlarm 100 1 8000) demo_hal = (Done tt, h1) /\
  announce 4000 1000 (kernel h1) = (Done tt, k2) /\ fired (clk k2) = [] ++ log /\ times 1 log = [429496802].
Proof.
  destruct (alarm_in_time 100 1 ltac:(lia) 8000 demo_hal 1000 4000) as [(h1 & k2 & log & E1 & E2 & E3 & E4 & _) _].
  - repeat (apply Forall_cons; [cbn; lia|]); apply Forall_nil.
  - done.
  - cbn. lia.
  - cbn. lia.
  - by apply (bool_decide_unpack _).
  - intros j. cbn. unfold K_TICKS_FOREVER. lia.
  - lia.
  - change (1000 / 100) with 10. lia.
  - vm_compute. discriminate.
  - by apply Nat.leb_le.
  - by exists h1, k2, log.
Defined.
