(* ===== verification/HalKernel.v ===== *)
(** * Delays and critical sections of the radio library
    (drivers/lora/hal_common.c)

    The two services of the radio library that are calls of the kernel, on the
    scheduler and on the interrupt mask of the processor. *)
From S2P Require Import Prelude KSem Timeout TimeUnits Sched SchedInv SchedEvents.
From stdpp Require Import prelude list numbers.
From Stdlib Require Import ZArith Lia.
Open Scope Z_scope.

(** ** Delays *)

Definition DelayMsMcu (idle_thread hz ms : Z) : M kernel (option Z) := k_sleep idle_thread (k_ms_to_ticks_ceil64 hz (Z.max ms 0)).

Section delay.
Context (idle_thread hz : Z) (Hhz : 0 < hz < 2 ^ 32).

Definition delay_ticks (ms : Z) : Z := k_ms_to_ticks_ceil64 hz (Z.max ms 0).

Lemma delay_ticks_exact ms : 0 <= ms < 2 ^ 31 -> delay_ticks ms = (ms * hz + 999) / 1000.
Proof.
  intros Hm. unfold delay_ticks. rewrite Z.max_l by lia. pose proof (tmcvt_converted ms Z_HZ_ms hz true false true false) as H. cbn zeta iota in H.
  unfold k_ms_to_ticks_ceil64. rewrite H by (unfold Z_HZ_ms; nia). done.
Qed.

(** The caller of a delay is not ready again as long as at most [ms]
    milliseconds have passed since the call, however the timer announces
    them. *)
Theorem delay_not_short ms ns s : 0 < ms < 2 ^ 31 -> inv idle_thread s -> runs idle_thread s -> wf (kclk s) -> 0 <= elapsed (kclk s) ->
  Forall (fun n => 0 <= n) ns -> (curr_tick (kclk s) + SchedEvents.total ns - now (kclk s)) * 1000 <= ms * hz ->
  exists s1, (DelayMsMcu idle_thread hz ms;; perform idle_thread hz Switch;; perform_all idle_thread hz (concat (map tick_interrupt ns))) s = (Done tt, s1) /\
    z_is_thread_queued (thr s1 (current s)) = false.
Proof.
  intros Hm Hv Hr Hw He Hns Hp. pose proof (delay_ticks_exact ms ltac:(lia)) as Et. pose proof (Z.div_mod (ms * hz + 999) 1000 ltac:(lia)) as Hd.
  pose proof (Z.mod_pos_bound (ms * hz + 999) 1000 eq_refl) as Hb. rewrite <- Et in Hd. set (n := delay_ticks ms) in *. assert (Hn : 0 < n) by nia.
  destruct (falls_asleep idle_thread hz n s Hv Hr Hw He Hn) as (s1 & E1 & S1 & C1). pose proof Hr as (Hi & _).
  destruct (tick_interrupts_run idle_thread hz _ _ ns s1 S1 Hns) as (s2 & E2 & S2 & _); [lia|]. exists s2. split.
  - cbn [perform_all perform] in E1. rewrite bind_assoc in E1. apply bind_inv in E1 as (r & s0 & E0 & E1). rewrite bind_ret in E1.
    apply bind_inv in E1 as ([] & s0' & E1 & [= <-]). unfold DelayMsMcu. fold (delay_ticks ms). fold n. erewrite bind_done by exact E0.
    cbn [perform]. erewrite bind_done by exact E1. exact E2.
  - destruct (z_is_thread_queued (thr s2 (current s))) eqn:Q; [|done]. apply (ready_iff idle_thread) in Q as [_ Q]; [|apply S2|done]. destruct Q.
    rewrite <- queue_ids. apply list_elem_of_fmap. eexists (_, _). split; [|apply S2]. done.
Qed.
End delay.

(** ** Critical sections (include/arch/arm/aarch32/asm_inline_gcc.h) *)

Section irq.
(** The register that masks interrupts, and the priority it masks. *)
Context (EXC_IRQ_DEFAULT_PRIO : Z).
Record cpu := mk_cpu { BASEPRI : Z }.

Definition arch_irq_lock : M cpu Z :=
  key ← gets BASEPRI;
  modify (fun _ => mk_cpu EXC_IRQ_DEFAULT_PRIO) ;;
  mret key.
Definition arch_irq_unlock (key : Z) : M cpu unit := modify (fun _ => mk_cpu key).

(** The mask is stored through the pointer, and read from it. *)
Definition BoardCriticalSectionBegin : M cpu Z := arch_irq_lock.
Definition BoardCriticalSectionEnd (mask : Z) : M cpu unit := arch_irq_unlock mask.

(** Code that enters and leaves critical sections; [Work] looks at the mask. *)
Inductive code := Work | Then (c d : code) | Critical (c : code).

Fixpoint run (c : code) : M cpu (list Z) :=
  match c with
  | Work => b ← gets BASEPRI; mret [b]
  | Then c d => a ← run c; b ← run d; mret (a ++ b)
  | Critical c => mask ← BoardCriticalSectionBegin; seen ← run c; BoardCriticalSectionEnd mask ;; mret seen
  end.

Lemma run_masked c b : exists seen, run c (mk_cpu b) = (Done seen, mk_cpu b) /\ (b = EXC_IRQ_DEFAULT_PRIO -> Forall (eq EXC_IRQ_DEFAULT_PRIO) seen).
Proof.
  revert b. induction c as [|c IHc d IHd|c IH]; intros b.
  - exists [b]. split; [done|]. intros ->. by repeat constructor.
  - destruct (IHc b) as (s1 & E1 & F1). destruct (IHd b) as (s2 & E2 & F2). exists (s1 ++ s2). split; [|intros H; apply Forall_app; auto].
    cbn [run]. by rewrite (bind_done _ _ _ _ _ E1), (bind_done _ _ _ _ _ E2).
  - destruct (IH EXC_IRQ_DEFAULT_PRIO) as (seen & E & F). exists seen. split; [|auto].
    cbn [run]. rewrite (bind_done _ _ _ b (mk_cpu EXC_IRQ_DEFAULT_PRIO)) by reflexivity. by rewrite (bind_done _ _ _ _ _ E).
Qed.

(** Critical sections may be nested: within one the interrupts stay masked,
    and behind the outermost one the mask is what it was. *)
Theorem critical_sections_nest c b : exists seen, run (Critical c) (mk_cpu b) = (Done seen, mk_cpu b) /\ Forall (eq EXC_IRQ_DEFAULT_PRIO) seen.
Proof.
  destruct (run_masked c EXC_IRQ_DEFAULT_PRIO) as (seen & E & F). exists seen. split; [|auto].
  cbn [run]. rewrite (bind_done _ _ _ b (mk_cpu EXC_IRQ_DEFAULT_PRIO)) by reflexivity. by rewrite (bind_done _ _ _ _ _ E).
Qed.
End irq.
