(* ===== verification/RingBuffer.v ===== *)
(** * Ring buffers (lib/os/ring_buffer.c, include/sys/ring_buffer.h)

    Byte and item mode of the library's ring buffer, with its 32-bit indexes
    that run ahead of the memory and are rewound before they wrap. A cell is
    a byte in byte mode and a 32-bit word in item mode; a pointer into the
    memory is an index. *)
From S2P Require Import Prelude ByteOrder.
From stdpp Require Import prelude list numbers.
From Stdlib Require Import ZArith Lia.
Open Scope Z_scope.

Definition RING_BUFFER_MAX_SIZE : Z := 0x80000000.
Definition EMSGSIZE : Z := 122.
Definition EAGAIN : Z := 11.
Definition EINVAL : Z := 22.

(** ** State *)

Record ring_buf := mk_ring {
  head : Z; tail : Z; tmp_head : Z; tmp_tail : Z; dropped_put_count : Z; size : Z; mask : Z; cells : list Z }.

Definition set_head (x : Z) (b : ring_buf) : ring_buf :=
  mk_ring x (tail b) (tmp_head b) (tmp_tail b) (dropped_put_count b) (size b) (mask b) (cells b).
Definition set_tail (x : Z) (b : ring_buf) : ring_buf :=
  mk_ring (head b) x (tmp_head b) (tmp_tail b) (dropped_put_count b) (size b) (mask b) (cells b).
Definition set_tmp_head (x : Z) (b : ring_buf) : ring_buf :=
  mk_ring (head b) (tail b) x (tmp_tail b) (dropped_put_count b) (size b) (mask b) (cells b).
Definition set_tmp_tail (x : Z) (b : ring_buf) : ring_buf :=
  mk_ring (head b) (tail b) (tmp_head b) x (dropped_put_count b) (size b) (mask b) (cells b).
Definition set_dropped (x : Z) (b : ring_buf) : ring_buf :=
  mk_ring (head b) (tail b) (tmp_head b) (tmp_tail b) x (size b) (mask b) (cells b).
Definition set_cells (x : list Z) (b : ring_buf) : ring_buf :=
  mk_ring (head b) (tail b) (tmp_head b) (tmp_tail b) (dropped_put_count b) (size b) (mask b) x.

Definition is_power_of_two (x : Z) : bool := negb (x =? 0) && (Z.land x (x - 1) =? 0).

Definition ring_buf_init (n : Z) (memory : list Z) : ring_buf :=
  mk_ring 0 0 0 0 0 n (if is_power_of_two n then n - 1 else 0) memory.

Definition ring_buf_is_empty (b : ring_buf) : bool := head b =? tail b.
Definition ring_buf_reset (b : ring_buf) : ring_buf :=
  mk_ring 0 0 0 0 0 (size b) (mask b) (cells b).
Definition ring_buf_space_get (b : ring_buf) : Z := u32 (size b - u32 (tail b - head b)).
Definition ring_buf_capacity_get (b : ring_buf) : Z := size b.

(** ** Indexes *)

Definition mod_ (b : ring_buf) (val : Z) : Z :=
  if negb (mask b =? 0) then Z.land val (mask b) else val mod size b.

Definition rewind (b : ring_buf) : Z := u32 (size b * (RING_BUFFER_MAX_SIZE / size b)).

Definition item_indexes_rewind (b : ring_buf) : ring_buf :=
  if head b <? RING_BUFFER_MAX_SIZE then b
  else set_head (u32 (head b - rewind b)) (set_tail (u32 (tail b - rewind b)) b).

Definition byte_indexes_rewind (b : ring_buf) : ring_buf :=
  if head b <? RING_BUFFER_MAX_SIZE then b
  else
    let rew := rewind b in
    set_tmp_tail (u32 (tmp_tail b - rew)) (set_tmp_head (u32 (tmp_head b - rew))
      (set_head (u32 (head b - rew)) (set_tail (u32 (tail b - rew)) b))).

(** ** Bytes *)

(** [memcpy] into and out of the memory. *)
Definition write_cells (off : Z) (data : list Z) (l : list Z) : list Z :=
  take (Z.to_nat off) l ++ data ++ drop (Z.to_nat off + length data) l.
Definition read_cells (off n : Z) (l : list Z) : list Z := take (Z.to_nat n) (drop (Z.to_nat off) l).

(** Answers the claimed place and its length. *)
Definition ring_buf_put_claim (n : Z) (b : ring_buf) : Z * Z * ring_buf :=
  let tmp_trail_mod := mod_ b (tmp_tail b) in
  let space := u32 (u32 (head b + size b) - tmp_tail b) in
  let trail_size := u32 (size b - tmp_trail_mod) in
  let allocated := Z.min trail_size (Z.min n space) in
  (tmp_trail_mod, allocated, set_tmp_tail (u32 (tmp_tail b + allocated)) b).

Definition ring_buf_put_finish (n : Z) (b : ring_buf) : Z * ring_buf :=
  if u32 (head b + size b) <? u32 (tail b + n) then (- EINVAL, b)
  else
    let b := set_tail (u32 (tail b + n)) b in
    (0, set_tmp_tail (tail b) b).

(** The loop: answers the bytes copied. *)
Fixpoint put_loop (fuel : nat) (data : list Z) (n total : Z) (b : ring_buf) : option (Z * ring_buf) :=
  match fuel with
  | O => None
  | S fuel =>
      let '(dst, partial_size, b) := ring_buf_put_claim n b in
      let b := set_cells (write_cells dst (take (Z.to_nat partial_size) data) (cells b)) b in
      let total := u32 (total + partial_size) in
      let n := u32 (n - partial_size) in
      if negb (n =? 0) && negb (partial_size =? 0) then put_loop fuel (drop (Z.to_nat partial_size) data) n total b
      else Some (total, b)
  end.

(** The result of [ring_buf_put_finish] is only asserted. *)
Definition ring_buf_put (fuel : nat) (data : list Z) (n : Z) (b : ring_buf) : option (Z * ring_buf) :=
  match put_loop fuel data n 0 b with
  | Some (total, b) => Some (total, (ring_buf_put_finish total b).2)
  | None => None
  end.

Definition ring_buf_get_claim (n : Z) (b : ring_buf) : Z * Z * ring_buf :=
  let tmp_head_mod := mod_ b (tmp_head b) in
  let space := u32 (tail b - tmp_head b) in
  let trail_size := u32 (size b - tmp_head_mod) in
  let granted_size := Z.min trail_size (Z.min n space) in
  (tmp_head_mod, granted_size, set_tmp_head (u32 (tmp_head b + granted_size)) b).

Definition ring_buf_get_finish (n : Z) (b : ring_buf) : Z * ring_buf :=
  if tail b <? u32 (head b + n) then (- EINVAL, b)
  else
    let b := set_head (u32 (head b + n)) b in
    (0, byte_indexes_rewind (set_tmp_head (head b) b)).

(** Answers the bytes copied out and their number. *)
Fixpoint get_loop (fuel : nat) (out : list Z) (n total : Z) (b : ring_buf) : option (list Z * Z * ring_buf) :=
  match fuel with
  | O => None
  | S fuel =>
      let '(src, partial_size, b) := ring_buf_get_claim n b in
      let out := out ++ read_cells src partial_size (cells b) in
      let total := u32 (total + partial_size) in
      let n := u32 (n - partial_size) in
      if negb (n =? 0) && negb (partial_size =? 0) then get_loop fuel out n total b
      else Some (out, total, b)
  end.

Definition ring_buf_get (fuel : nat) (n : Z) (b : ring_buf) : option (list Z * Z * ring_buf) :=
  match get_loop fuel [] n 0 b with
  | Some (out, total, b) => Some (out, total, (ring_buf_get_finish total b).2)
  | None => None
  end.

(** ** Items *)

(** [struct ring_element] in its word: 16 bits of type, 8 of length, 8 of
    value. *)
Definition ring_element (type length value : Z) : Z := Z.lor (u16 type) (Z.lor (Z.shiftl (u8 length) 16) (Z.shiftl (u8 value) 24)).
Definition element_type (w : Z) : Z := Z.land w 0xffff.
Definition element_length (w : Z) : Z := Z.land (Z.shiftr w 16) 0xff.
Definition element_value (w : Z) : Z := Z.land (Z.shiftr w 24) 0xff.

Definition index_of (b : ring_buf) (i : Z) : Z :=
  if negb (mask b =? 0) then Z.land (u32 i) (mask b) else u32 i mod size b.

Definition put_cell (i w : Z) (b : ring_buf) : ring_buf := set_cells (<[Z.to_nat i := w]> (cells b)) b.
Definition get_cell (i : Z) (b : ring_buf) : Z := default 0 (cells b !! Z.to_nat i).

(** The words [i], [i + 1], ... of an item. *)
Fixpoint put_words (i : Z) (data : list Z) (b : ring_buf) : ring_buf :=
  match data with
  | [] => b
  | w :: data => put_words (i + 1) data (put_cell (index_of b (i + tail b + 1)) w b)
  end.
Fixpoint get_words (i : Z) (n : nat) (b : ring_buf) : list Z :=
  match n with
  | O => []
  | S n => get_cell (index_of b (i + head b + 1)) b :: get_words (i + 1) n b
  end.

Definition ring_buf_item_put (type value : Z) (data : list Z) (size32 : Z) (b : ring_buf) : Z * ring_buf :=
  if size32 + 1 <=? ring_buf_space_get b then
    let b := put_cell (mod_ b (tail b)) (ring_element type size32 value) b in
    let b := put_words 0 (take (Z.to_nat size32) data) b in
    (0, set_tail (u32 (tail b + size32 + 1)) b)
  else (- EMSGSIZE, set_dropped (u32 (dropped_put_count b + 1)) b).

(** [with_data]: the caller gave a place for the words. On success the type,
    the value and the words; the new [*size32] in any case. *)
Definition ring_buf_item_get (with_data : bool) (size32 : Z) (b : ring_buf) : Z * Z * option (Z * Z * list Z) * ring_buf :=
  if ring_buf_is_empty b then (- EAGAIN, size32, None, b)
  else
    let header := get_cell (mod_ b (head b)) b in
    let length := element_length header in
    if with_data && (size32 <? length) then (- EMSGSIZE, length, None, b)
    else
      let data := if with_data then get_words 0 (Z.to_nat length) b else [] in
      let b := set_head (u32 (head b + length + 1)) b in
      (0, length, Some (element_type header, element_value header, data), item_indexes_rewind b).

(** ** The queue a ring buffer stands for *)

(** The cell of a running index. *)
Definition at_ (n : Z) (l : list Z) (i : Z) : Z := default 0 (l !! Z.to_nat (i mod n)).
Definition span (n : Z) (l : list Z) (from len : Z) : list Z := at_ n l <$> seqZ from len.
Definition contents (b : ring_buf) : list Z := span (size b) (cells b) (head b) (tail b - head b).

Record wf (b : ring_buf) : Prop := {
  wf_size : 0 < size b < RING_BUFFER_MAX_SIZE;
  wf_cells : Z.of_nat (length (cells b)) = size b;
  wf_mask : mask b = 0 \/ exists k, 0 <= k /\ size b = 2 ^ k /\ mask b = size b - 1;
  wf_head : 0 <= head b < RING_BUFFER_MAX_SIZE;
  wf_tail : head b <= tail b <= head b + size b }.

Lemma mask_mod b v : wf b -> 0 <= v ->
  (if negb (mask b =? 0) then Z.land v (mask b) else v mod size b) = v mod size b.
Proof.
  intros Hw Hv. destruct (wf_mask b Hw) as [->|(k & Hk & Hs & ->)]; [done|].
  destruct (_ =? 0); [done|]. cbn [negb]. rewrite Hs. replace (2 ^ k - 1) with (Z.ones k) by (rewrite Z.ones_equiv; lia).
  by apply Z.land_ones.
Qed.

Lemma mod_range b v : wf b -> 0 <= v mod size b < size b.
Proof. intros Hw. apply Z.mod_pos_bound, (wf_size b Hw). Qed.

Lemma u32_id x : 0 <= x < 2 ^ 32 -> u32 x = x.
Proof. apply Z.mod_small. Qed.

Lemma span_app n l from a b : 0 <= a -> 0 <= b -> span n l from (a + b) = span n l from a ++ span n l (from + a) b.
Proof. intros Ha Hb. unfold span. rewrite seqZ_app by done. apply fmap_app. Qed.

Lemma span_ext n l l' from len : (forall i, from <= i < from + len -> at_ n l i = at_ n l' i) -> span n l from len = span n l' from len.
Proof. intros H. apply list_fmap_ext. intros k i Hi. apply H. apply lookup_seqZ in Hi. lia. Qed.

Lemma span_length n l from len : length (span n l from len) = Z.to_nat len.
Proof. unfold span. by rewrite length_fmap, length_seqZ. Qed.

Lemma span_shift n l from len k : 0 < n -> span n l (from - n * k) len = span n l from len.
Proof.
  intros Hn. unfold span. replace (from - n * k) with (- (n * k) + from) by lia.
  rewrite <- (fmap_add_seqZ (- (n * k)) from len), <- list_fmap_compose. apply list_fmap_ext. intros j i _. unfold compose, at_.
  replace (- (n * k) + i) with (i + (- k) * n) by lia. by rewrite Z.mod_add by lia.
Qed.

(** A span that fits into one piece of the memory. *)
Lemma mod_step n i j : 0 < n -> 0 <= j -> i mod n + j < n -> (i + j) mod n = i mod n + j.
Proof.
  intros Hn Hj Hf. assert (0 <= i mod n < n) by by apply Z.mod_pos_bound.
  rewrite Z.add_mod by lia. rewrite (Z.mod_small j n) by lia. by rewrite Z.mod_small by lia.
Qed.

Lemma at_wrap n l i j : 0 < n -> at_ n l i = at_ n l j \/ i mod n <> j mod n.
Proof. intros Hn. destruct (Z.eq_dec (i mod n) (j mod n)) as [E|E]; [left; unfold at_; by rewrite E|by right]. Qed.

Lemma read_span n l from len : 0 < n -> 0 <= len -> from mod n + len <= n -> Z.of_nat (length l) = n ->
  read_cells (from mod n) len l = span n l from len.
Proof.
  intros Hn Hl Hf Hc. assert (Hm : 0 <= from mod n < n) by by apply Z.mod_pos_bound.
  apply list_eq. intros i. unfold read_cells, span. rewrite list_lookup_fmap.
  destruct (Nat.lt_ge_cases i (Z.to_nat len)) as [Hi|Hi].
  - rewrite lookup_take_lt, lookup_drop, lookup_seqZ_lt by lia. cbn. unfold at_.
    rewrite mod_step by lia. replace (Z.to_nat (from mod n + Z.of_nat i)) with (Z.to_nat (from mod n) + i)%nat by lia.
    destruct (lookup_lt_is_Some_2 l (Z.to_nat (from mod n) + i)) as [x ->]; [lia|done].
  - by rewrite lookup_take_ge, lookup_seqZ_ge by lia.
Qed.

Lemma write_length off data l : 0 <= off -> off + Z.of_nat (length data) <= Z.of_nat (length l) -> length (write_cells off data l) = length l.
Proof. intros Ho Hl. unfold write_cells. rewrite !length_app, length_take, length_drop. lia. Qed.

Lemma write_lookup off data l (i : nat) : 0 <= off -> off + Z.of_nat (length data) <= Z.of_nat (length l) ->
  write_cells off data l !! i =
    if bool_decide (off <= Z.of_nat i < off + Z.of_nat (length data)) then data !! (i - Z.to_nat off)%nat else l !! i.
Proof.
  intros Ho Hl. unfold write_cells. assert (Ht : length (take (Z.to_nat off) l) = Z.to_nat off) by (rewrite length_take; lia).
  case_bool_decide as Hi.
  - rewrite lookup_app_r by lia. rewrite Ht, lookup_app_l by lia. done.
  - destruct (Z.lt_ge_cases (Z.of_nat i) off).
    + rewrite lookup_app_l by lia. by rewrite lookup_take_lt by lia.
    + rewrite lookup_app_r by lia. rewrite Ht, lookup_app_r by lia. rewrite lookup_drop. f_equal. lia.
Qed.

(** Less than a round apart, two indexes have different cells. *)
Lemma same_cell n from i len : 0 < n -> from + len - n <= i < from -> from mod n <= i mod n < from mod n + len -> False.
Proof.
  intros Hn Hi Hc. assert (Ei := Z.div_mod i n ltac:(lia)). assert (Ef := Z.div_mod from n ltac:(lia)).
  destruct (Z.le_gt_cases (from / n) (i / n)) as [Hq|Hq].
  - pose proof (Z.mul_le_mono_nonneg_l _ _ n ltac:(lia) Hq). lia.
  - pose proof (Z.mul_le_mono_nonneg_l (i / n + 1) (from / n) n ltac:(lia) ltac:(lia)). rewrite Z.mul_add_distr_l in *. lia.
Qed.

(** Writing in one piece at a running index. *)
Lemma write_span n l from data : 0 < n -> Z.of_nat (length l) = n -> from mod n + Z.of_nat (length data) <= n ->
  let l' := write_cells (from mod n) data l in
  length l' = length l /\ span n l' from (Z.of_nat (length data)) = data /\
  forall i, from + Z.of_nat (length data) - n <= i < from -> at_ n l' i = at_ n l i.
Proof.
  intros Hn Hl Hf l'. assert (Hm : 0 <= from mod n < n) by by apply Z.mod_pos_bound.
  assert (Hlen : length l' = length l) by (apply write_length; lia). split_and!; [done| |].
  - rewrite <- (read_span n l' from) by lia. unfold read_cells, l', write_cells.
    rewrite drop_app_length' by (rewrite length_take; lia). by rewrite take_app_length' by lia.
  - intros i Hi. unfold at_, l'. rewrite write_lookup by lia. rewrite bool_decide_eq_false_2; [done|].
    rewrite Z2Nat.id by (apply Z.mod_pos_bound; lia). intros Hc.
    exact (same_cell n from i (Z.of_nat (length data)) Hn Hi Hc).
Qed.

(** ** Byte mode *)

(** No claim is pending. *)
Definition settled (b : ring_buf) : Prop := tmp_head b = head b /\ tmp_tail b = tail b.

Lemma put_loop_run fuel data n total b : wf b -> head b <= tmp_tail b <= head b + size b ->
  0 <= n < 2 ^ 32 -> n <= Z.of_nat (length data) -> 0 <= total -> total + n < 2 ^ 32 -> (Z.to_nat n < fuel)%nat ->
  let m := Z.min n (head b + size b - tmp_tail b) in
  exists l, put_loop fuel data n total b = Some (total + m, set_cells l (set_tmp_tail (tmp_tail b + m) b)) /\
    length l = length (cells b) /\ span (size b) l (tmp_tail b) m = take (Z.to_nat m) data /\
    forall i, tmp_tail b + m - size b <= i < tmp_tail b -> at_ (size b) l i = at_ (size b) (cells b) i.
Proof.
  revert data n total b. induction fuel as [|fuel IH]; intros data n total b Hw Ht Hn Hd Htot Hb Hf m; [lia|].
  destruct (wf_size b Hw) as [Hs0 Hs1]. destruct (wf_head b Hw) as [Hh0 Hh1]. unfold RING_BUFFER_MAX_SIZE in *.
  assert (Hc := wf_cells b Hw). cbn [put_loop]. unfold ring_buf_put_claim, mod_.
  rewrite (mask_mod b (tmp_tail b) Hw) by lia. assert (Hm := mod_range b (tmp_tail b) Hw).
  set (T := tmp_tail b) in *. set (off := T mod size b) in *.
  rewrite (u32_id (head b + size b)) by lia. rewrite (u32_id (head b + size b - T)) by lia. rewrite (u32_id (size b - off)) by lia.
  set (p := Z.min (size b - off) (Z.min n (head b + size b - T))).
  assert (Hp : 0 <= p <= m) by lia. rewrite (u32_id (T + p)), (u32_id (total + p)), (u32_id (n - p)) by lia.
  set (b1 := set_cells _ _).
  destruct (write_span (size b) (cells b) T (take (Z.to_nat p) data)) as (W1 & W2 & W3);
    [lia|lia|rewrite length_take; fold off; lia|].
  rewrite length_take, Nat.min_l in W2, W3 by lia. rewrite Z2Nat.id in W2, W3 by lia. fold off in W1, W2, W3.
  destruct (negb (n - p =? 0) && negb (p =? 0)) eqn:E.
  - apply andb_true_iff in E as [E1%negb_true_iff%Z.eqb_neq E2%negb_true_iff%Z.eqb_neq].
    assert (Hw1 : wf b1) by (split; cbn; try apply Hw; lia).
    destruct (IH (drop (Z.to_nat p) data) (n - p) (total + p) b1 Hw1) as (l & El & L1 & L2 & L3);
      [cbn; lia|lia|rewrite length_drop; lia|lia|lia|lia|].
    cbn [head size tmp_tail cells b1 set_cells set_tmp_tail] in *.
    set (m' := Z.min (n - p) (head b + size b - (T + p))) in *. assert (Em : m = p + m') by lia.
    exists l. rewrite El, Em. split_and!.
    + f_equal. f_equal; [lia|]. unfold b1, set_cells, set_tmp_tail. cbn. f_equal. lia.
    + by rewrite L1.
    + rewrite span_app, L2 by lia. rewrite (span_ext _ _ (write_cells off (take (Z.to_nat p) data) (cells b))) by (intros; apply L3; lia).
      rewrite W2. replace (Z.to_nat (p + m')) with (Z.to_nat p + Z.to_nat m')%nat by lia. by rewrite <- take_take_drop.
    + intros i Hi. rewrite L3 by lia. apply W3. lia.
  - assert (Em : m = p).
    { apply andb_false_iff in E as [E%negb_false_iff%Z.eqb_eq|E%negb_false_iff%Z.eqb_eq]; lia. }
    exists (write_cells off (take (Z.to_nat p) data) (cells b)). rewrite Em. split_and!; try done.
Qed.

Lemma put_run fuel data n b : wf b -> settled b -> 0 <= n < 2 ^ 32 -> n <= Z.of_nat (length data) -> (Z.to_nat n < fuel)%nat ->
  let m := Z.min n (size b - Z.of_nat (length (contents b))) in
  exists b', ring_buf_put fuel data n b = Some (m, b') /\ wf b' /\ settled b' /\ size b' = size b /\
    contents b' = contents b ++ take (Z.to_nat m) data.
Proof.
  intros Hw [Hh Ht] Hn Hd Hf m. destruct (wf_size b Hw) as [Hs0 Hs1]. destruct (wf_head b Hw) as [Hh0 Hh1]. destruct (wf_tail b Hw) as [Ht0 Ht1].
  unfold RING_BUFFER_MAX_SIZE in *.
  assert (Em : m = Z.min n (size b - (tail b - head b))) by (unfold m, contents; by rewrite span_length, Z2Nat.id by lia). clearbody m.
  destruct (put_loop_run fuel data n 0 b Hw) as (l & E & L1 & L2 & L3); [lia..|].
  rewrite Ht in *. replace (Z.min n (head b + size b - tail b)) with m in * by lia.
  unfold ring_buf_put. rewrite E. unfold ring_buf_put_finish. cbn [head size tail set_cells set_tmp_tail].
  rewrite (u32_id (head b + size b)), (u32_id (tail b + (0 + m))), (proj2 (Z.ltb_ge _ _)) by lia.
  eexists. split; [by rewrite Z.add_0_l|]. cbn [snd].
  assert (Hw' : wf (set_tail (tail b + (0 + m)) (set_cells l (set_tmp_tail (tail b + m) b)))).
  { split; cbn; try apply Hw; unfold RING_BUFFER_MAX_SIZE; try lia. rewrite L1. apply Hw. }
  split_and!; [by destruct Hw'; split|split; [done|cbn; lia]|done|].
  unfold contents. cbn. replace (tail b + m - head b) with (tail b - head b + m) by lia.
  rewrite span_app by lia. replace (head b + (tail b - head b)) with (tail b) by lia. rewrite L2. f_equal.
  apply span_ext. intros i Hi. apply L3. lia.
Qed.

Lemma get_loop_run fuel out n total b : wf b -> head b <= tmp_head b <= tail b ->
  0 <= n < 2 ^ 32 -> 0 <= total -> total + n < 2 ^ 32 -> (Z.to_nat n < fuel)%nat ->
  let m := Z.min n (tail b - tmp_head b) in
  get_loop fuel out n total b =
    Some (out ++ span (size b) (cells b) (tmp_head b) m, total + m, set_tmp_head (tmp_head b + m) b).
Proof.
  revert out n total b. induction fuel as [|fuel IH]; intros out n total b Hw Ht Hn Htot Hb Hf m; [lia|].
  destruct (wf_size b Hw) as [Hs0 Hs1]. destruct (wf_head b Hw) as [Hh0 Hh1]. destruct (wf_tail b Hw) as [Ht0 Ht1]. unfold RING_BUFFER_MAX_SIZE in *.
  assert (Hc := wf_cells b Hw). cbn [get_loop]. unfold ring_buf_get_claim, mod_.
  rewrite (mask_mod b (tmp_head b) Hw) by lia. assert (Hm := mod_range b (tmp_head b) Hw).
  rewrite (u32_id (tail b - tmp_head b)), (u32_id (size b - tmp_head b mod size b)) by lia.
  set (p := Z.min (size b - tmp_head b mod size b) (Z.min n (tail b - tmp_head b))).
  assert (Hp : 0 <= p <= m) by lia. rewrite (u32_id (tmp_head b + p)), (u32_id (total + p)), (u32_id (n - p)) by lia.
  cbn [cells set_tmp_head]. rewrite (read_span (size b) (cells b) (tmp_head b) p) by lia.
  destruct (negb (n - p =? 0) && negb (p =? 0)) eqn:E.
  - apply andb_true_iff in E as [E1%negb_true_iff%Z.eqb_neq E2%negb_true_iff%Z.eqb_neq].
    rewrite IH; [|by destruct Hw; split|cbn; lia|lia|lia|lia|lia]. cbn [head size tmp_head tail cells set_tmp_head].
    set (m' := Z.min (n - p) (tail b - (tmp_head b + p))). assert (Em : m = p + m') by lia. rewrite Em, span_app, <- app_assoc by lia.
    by rewrite !Z.add_assoc.
  - assert (Em : m = p).
    { apply andb_false_iff in E as [E%negb_false_iff%Z.eqb_eq|E%negb_false_iff%Z.eqb_eq]; lia. }
    by rewrite Em.
Qed.

(** Rewinding changes the indexes by whole rounds. *)
Lemma rewind_run b : 0 < size b < RING_BUFFER_MAX_SIZE -> RING_BUFFER_MAX_SIZE <= head b ->
  exists k, rewind b = size b * k /\ size b <= rewind b <= RING_BUFFER_MAX_SIZE.
Proof.
  intros Hs Hh. exists (RING_BUFFER_MAX_SIZE / size b). unfold rewind, RING_BUFFER_MAX_SIZE in *.
  assert (Hd := Z.mul_div_le 2147483648 (size b) ltac:(lia)). assert (1 <= 2147483648 / size b) by (apply Z.div_le_lower_bound; lia).
  rewrite u32_id by nia. nia.
Qed.

Lemma byte_rewind_run b : 0 < size b < RING_BUFFER_MAX_SIZE -> 0 <= head b < RING_BUFFER_MAX_SIZE + size b ->
  head b <= tail b <= head b + size b -> settled b ->
  Z.of_nat (length (cells b)) = size b -> (mask b = 0 \/ exists k, 0 <= k /\ size b = 2 ^ k /\ mask b = size b - 1) ->
  let b' := byte_indexes_rewind b in
  wf b' /\ settled b' /\ size b' = size b /\ contents b' = contents b.
Proof.
  intros Hs Hh Ht [Sh St] Hc Hk b'. unfold b', byte_indexes_rewind. destruct (Z.ltb_spec (head b) RING_BUFFER_MAX_SIZE) as [Hlt|Hge].
  - split_and!; [split; try done; lia|done|done|done].
  - destruct (rewind_run b Hs Hge) as (k & Ek & Hr). rewrite Sh, St. unfold RING_BUFFER_MAX_SIZE in *.
    rewrite !u32_id by lia. split_and!; [split; cbn; unfold RING_BUFFER_MAX_SIZE; try done; lia|done|done|].
    unfold contents. cbn. rewrite Ek. replace (tail b - size b * k - (head b - size b * k)) with (tail b - head b) by lia.
    apply span_shift. lia.
Qed.

Lemma get_run fuel n b : wf b -> settled b -> 0 <= n < 2 ^ 32 -> (Z.to_nat n < fuel)%nat ->
  let m := Z.min n (Z.of_nat (length (contents b))) in
  exists b', ring_buf_get fuel n b = Some (take (Z.to_nat m) (contents b), m, b') /\ wf b' /\ settled b' /\ size b' = size b /\
    contents b' = drop (Z.to_nat m) (contents b).
Proof.
  intros Hw [Hh Ht] Hn Hf m. destruct (wf_size b Hw) as [Hs0 Hs1]. destruct (wf_head b Hw) as [Hh0 Hh1]. destruct (wf_tail b Hw) as [Ht0 Ht1].
  assert (Em : m = Z.min n (tail b - head b)) by (unfold m, contents; by rewrite span_length, Z2Nat.id by lia). clearbody m.
  unfold ring_buf_get. rewrite (get_loop_run fuel [] n 0 b Hw) by lia. rewrite Hh, <- Em. unfold ring_buf_get_finish. cbn [head size tail set_tmp_head].
  unfold RING_BUFFER_MAX_SIZE in *. rewrite Z.add_0_l, (u32_id (head b + m)), (proj2 (Z.ltb_ge _ _)) by lia. cbn [snd app].
  set (b1 := set_tmp_head _ _).
  destruct (byte_rewind_run b1) as (R1 & R2 & R3 & R4); [done|cbn; unfold RING_BUFFER_MAX_SIZE; lia|cbn; lia|by split|apply Hw|apply Hw|].
  assert (Es : contents b = span (size b) (cells b) (head b) m ++ contents b1).
  { unfold contents. cbn. replace (tail b - head b) with (m + (tail b - (head b + m))) by lia. by rewrite span_app by lia. }
  exists (byte_indexes_rewind b1). rewrite Es. split_and!; try done.
  - by rewrite take_app_length' by (by rewrite span_length).
  - rewrite R4. by rewrite drop_app_length' by (by rewrite span_length).
Qed.

(** What a ring buffer of bytes promises: a queue of at most [size] bytes. *)
Record byte_queue (b : ring_buf) (q : list Z) : Prop := {
  bq_wf : wf b; bq_settled : settled b; bq_contents : contents b = q }.

(** C30. The ring buffer in byte mode is a bounded first-in first-out queue,
    whatever its size and however often its indexes have been rewound:
    putting appends as many bytes as there is room for and says how many,
    getting takes the oldest bytes, at most as many as asked for, and the
    loops over the two pieces of the memory end. *)
Theorem ring_buffer_is_queue b q fuel : byte_queue b q ->
  Z.of_nat (length q) <= size b /\
  (forall data n, 0 <= n < 2 ^ 32 -> n <= Z.of_nat (length data) -> (Z.to_nat n < fuel)%nat ->
     let m := Z.min n (size b - Z.of_nat (length q)) in
     exists b', ring_buf_put fuel data n b = Some (m, b') /\ size b' = size b /\ byte_queue b' (q ++ take (Z.to_nat m) data)) /\
  (forall n, 0 <= n < 2 ^ 32 -> (Z.to_nat n < fuel)%nat ->
     let m := Z.min n (Z.of_nat (length q)) in
     exists b', ring_buf_get fuel n b = Some (take (Z.to_nat m) q, m, b') /\ size b' = size b /\ byte_queue b' (drop (Z.to_nat m) q)).
Proof.
  intros [Hw Hs <-]. split_and!.
  - unfold contents. rewrite span_length. pose proof (wf_tail b Hw). lia.
  - intros data n Hn Hd Hf. destruct (put_run fuel data n b Hw Hs Hn Hd Hf) as (b' & E & W & S & Z & C). by exists b'.
  - intros n Hn Hf. destruct (get_run fuel n b Hw Hs Hn Hf) as (b' & E & W & S & Z & C). by exists b'.
Qed.

(** A buffer of five bytes close to the rewind. *)
Definition demo_ring : ring_buf := mk_ring 2147483646 2147483649 2147483646 2147483649 0 5 0 [50; 51; 52; 53; 54].

Lemma ring_buffer_is_queue_witness :
  exists b', ring_buf_get 9 2 demo_ring = Some ([51; 52], 2, b') /\ size b' = 5 /\ byte_queue b' [53].
Proof.
  destruct (ring_buffer_is_queue demo_ring [51; 52; 53] 9) as (_ & _ & H).
  - split; [split; cbn; unfold RING_BUFFER_MAX_SIZE; try lia; by left|done|done].
  - apply (H 2); [lia|]. by apply Nat.ltb_lt.
Defined.

(** ** Item mode *)

Lemma at_insert n l j w i : 0 < n -> Z.of_nat (length l) = n ->
  at_ n (<[Z.to_nat (j mod n) := w]> l) i = if i mod n =? j mod n then w else at_ n l i.
Proof.
  intros Hn Hl. assert (Hj : 0 <= j mod n < n) by by apply Z.mod_pos_bound. assert (Hi : 0 <= i mod n < n) by by apply Z.mod_pos_bound.
  unfold at_. destruct (Z.eqb_spec (i mod n) (j mod n)) as [->|Hne].
  - by rewrite list_lookup_insert_eq by lia.
  - by rewrite list_lookup_insert_ne by lia.
Qed.

Lemma span_cons n l from len : 0 <= len -> span n l from (1 + len) = at_ n l from :: span n l (from + 1) len.
Proof. intros Hl. by rewrite span_app by lia. Qed.

Lemma index_of_run b i : wf b -> 0 <= i < 2 ^ 32 -> index_of b i = i mod size b.
Proof. intros Hw Hi. unfold index_of. rewrite u32_id by done. apply mask_mod; [done|lia]. Qed.

Lemma wf_set_cells l b : wf b -> length l = length (cells b) -> wf (set_cells l b).
Proof. intros [] Hl. split; cbn; try done. by rewrite Hl. Qed.

Lemma put_words_run data i b : wf b -> 0 <= i -> i + tail b + 1 + Z.of_nat (length data) < 2 ^ 32 -> Z.of_nat (length data) < size b ->
  let from := i + tail b + 1 in let len := Z.of_nat (length data) in
  exists l, put_words i data b = set_cells l b /\ length l = length (cells b) /\ span (size b) l from len = data /\
    forall k, from + len - size b <= k < from -> at_ (size b) l k = at_ (size b) (cells b) k.
Proof.
  revert i b. induction data as [|w data IH]; intros i b Hw Hi Hb Hl from len.
  - exists (cells b). split_and!; try done. by destruct b.
  - cbn [put_words length] in *. destruct (wf_size b Hw) as [Hs _]. assert (Ht := wf_tail b Hw). assert (Hh := wf_head b Hw). assert (Hc := wf_cells b Hw).
    rewrite index_of_run by (done || lia). fold from. unfold put_cell. set (l1 := <[_ := w]> (cells b)).
    assert (Hl1 : length l1 = length (cells b)) by apply length_insert.
    destruct (IH (i + 1) (set_cells l1 b)) as (l & E & L1 & L2 & L3); [by apply wf_set_cells|lia|cbn; lia|cbn; lia|].
    cbn [tail size cells set_cells] in *. replace (i + 1 + tail b + 1) with (from + 1) in * by lia.
    assert (Hlen : len = 1 + Z.of_nat (length data)) by (unfold len; cbn [length]; lia).
    exists l. split_and!; [done|by rewrite L1| |].
    + rewrite Hlen, span_cons, L2 by lia. f_equal. rewrite L3 by lia. unfold l1. by rewrite at_insert, Z.eqb_refl by done.
    + intros k Hk. rewrite L3 by lia. unfold l1. rewrite at_insert by done. destruct (Z.eqb_spec (k mod size b) (from mod size b)); [|done].
      exfalso. apply (same_cell (size b) from k 1); lia.
Qed.

Lemma get_words_run n i b : wf b -> 0 <= i -> i + head b + 1 + Z.of_nat n < 2 ^ 32 ->
  get_words i n b = span (size b) (cells b) (i + head b + 1) (Z.of_nat n).
Proof.
  revert i. induction n as [|n IH]; intros i Hw Hi Hb; [done|]. cbn [get_words]. assert (Hh := wf_head b Hw).
  rewrite index_of_run, IH by (done || lia). replace (Z.of_nat (S n)) with (1 + Z.of_nat n) by lia. rewrite span_cons by lia.
  by replace (i + head b + 1 + 1) with (i + 1 + head b + 1) by lia.
Qed.

(** An item: type, value and words. *)
Definition item : Type := Z * Z * list Z.
Definition item_ok (it : item) : Prop :=
  let '(t, v, ws) := it in 0 <= t < 2 ^ 16 /\ 0 <= v < 2 ^ 8 /\ Z.of_nat (length ws) < 2 ^ 8.
Definition encode (it : item) : list Z := let '(t, v, ws) := it in ring_element t (Z.of_nat (length ws)) v :: ws.

Lemma element_decode t len v : 0 <= t < 2 ^ 16 -> 0 <= len < 2 ^ 8 -> 0 <= v < 2 ^ 8 ->
  element_type (ring_element t len v) = t /\ element_length (ring_element t len v) = len /\ element_value (ring_element t len v) = v.
Proof.
  intros Ht Hl Hv. unfold ring_element, u16, u8. rewrite !Z.mod_small by lia.
  replace (Z.shiftl v 24) with (Z.shiftl (Z.shiftl v 8) 16) by (by rewrite Z.shiftl_shiftl by lia).
  rewrite <- Z.shiftl_lor, (Z.lor_comm len), (lor_low v len 8), (Z.lor_comm t), (lor_low (len + 2 ^ 8 * v) t 16) by lia.
  unfold element_type, element_length, element_value. change 0xffff with (Z.ones 16). change 0xff with (Z.ones 8).
  rewrite !Z.land_ones, !Z.shiftr_div_pow2 by lia. change (2 ^ 16) with 65536 in *. change (2 ^ 8) with 256 in *. change (2 ^ 24) with 16777216.
  split_and!; Z.div_mod_to_equations; lia.
Qed.

Record item_queue (b : ring_buf) (its : list item) : Prop := {
  iq_wf : wf b; iq_items : contents b = concat (encode <$> its); iq_ok : Forall item_ok its }.

Lemma item_put_run b its t v ws : item_queue b its -> item_ok (t, v, ws) ->
  let r := ring_buf_item_put t v ws (Z.of_nat (length ws)) b in
  if Z.of_nat (length ws) + 1 <=? size b - Z.of_nat (length (contents b))
  then r.1 = 0 /\ size r.2 = size b /\ item_queue r.2 (its ++ [(t, v, ws)])
  else r = (- EMSGSIZE, set_dropped (u32 (dropped_put_count b + 1)) b).
Proof.
  intros [Hw Hi Hok] Hit r. destruct (wf_size b Hw) as [Hs0 Hs1]. destruct (wf_head b Hw) as [Hh0 Hh1]. destruct (wf_tail b Hw) as [Ht0 Ht1].
  assert (Hc := wf_cells b Hw). assert (Hl : Z.of_nat (length (contents b)) = tail b - head b) by (unfold contents; rewrite span_length; lia).
  unfold RING_BUFFER_MAX_SIZE in *. unfold r, ring_buf_item_put, ring_buf_space_get.
  rewrite (u32_id (tail b - head b)), (u32_id (size b - (tail b - head b))), Hl by lia.
  destruct (Z.leb_spec (Z.of_nat (length ws) + 1) (size b - (tail b - head b))) as [Hfit|Hfull]; [|done].
  rewrite Nat2Z.id, take_ge by lia. unfold mod_. rewrite mask_mod by (done || lia). unfold put_cell. set (h := ring_element _ _ _).
  set (l1 := <[_ := h]> (cells b)). assert (Hl1 : length l1 = length (cells b)) by apply length_insert.
  destruct (put_words_run ws 0 (set_cells l1 b)) as (l & E & L1 & L2 & L3); [by apply wf_set_cells|lia|cbn; lia|cbn; lia|].
  rewrite E. cbn [fst snd tail size cells set_cells] in *. rewrite Z.add_0_l in *. rewrite u32_id by lia.
  split_and!; [done|done|]. split; [|unfold contents; cbn|apply Forall_app; split; [done|by constructor]].
  - split; cbn; unfold RING_BUFFER_MAX_SIZE; try lia. apply Hw.
  - replace (tail b + Z.of_nat (length ws) + 1 - head b) with (tail b - head b + (1 + Z.of_nat (length ws))) by lia.
    rewrite span_app, fmap_app, concat_app, span_cons by lia. replace (head b + (tail b - head b)) with (tail b) by lia.
    rewrite L2, L3 by lia. unfold l1. rewrite at_insert, Z.eqb_refl by done. cbn. rewrite app_nil_r, <- Hi. f_equal.
    apply span_ext. intros i Hr. rewrite L3 by lia. unfold l1. rewrite at_insert by done. destruct (Z.eqb_spec (i mod size b) (tail b mod size b)); [|done].
    exfalso. apply (same_cell (size b) (tail b) i 1); lia.
Qed.

Lemma item_rewind_run b its : 0 < size b < RING_BUFFER_MAX_SIZE -> 0 <= head b < RING_BUFFER_MAX_SIZE + size b ->
  head b <= tail b <= head b + size b -> Z.of_nat (length (cells b)) = size b ->
  (mask b = 0 \/ exists k, 0 <= k /\ size b = 2 ^ k /\ mask b = size b - 1) ->
  contents b = concat (encode <$> its) -> Forall item_ok its ->
  item_queue (item_indexes_rewind b) its /\ size (item_indexes_rewind b) = size b.
Proof.
  intros Hs Hh Ht Hc Hk Hi Hok. unfold item_indexes_rewind. destruct (Z.ltb_spec (head b) RING_BUFFER_MAX_SIZE) as [Hlt|Hge].
  - split; [|done]. split; [split; try done; lia|done|done].
  - destruct (rewind_run b Hs Hge) as (k & Ek & Hr). unfold RING_BUFFER_MAX_SIZE in *. cbn [tail set_tail head]. rewrite !u32_id by (cbn; lia).
    split; [|done]. split; [split; cbn; unfold RING_BUFFER_MAX_SIZE; try done; lia| |done].
    rewrite <- Hi. unfold contents. cbn. rewrite Ek. replace (tail b - size b * k - (head b - size b * k)) with (tail b - head b) by lia.
    apply span_shift. lia.
Qed.

Lemma item_get_run b t v ws its wd s32 : item_queue b ((t, v, ws) :: its) ->
  let len := Z.of_nat (length ws) in
  if wd && (s32 <? len) then ring_buf_item_get wd s32 b = (- EMSGSIZE, len, None, b)
  else exists b', ring_buf_item_get wd s32 b = (0, len, Some (t, v, if wd then ws else []), b') /\
       size b' = size b /\ item_queue b' its.
Proof.
  intros [Hw Hi Hok] n. destruct (wf_size b Hw) as [Hs0 Hs1]. destruct (wf_head b Hw) as [Hh0 Hh1]. destruct (wf_tail b Hw) as [Ht0 Ht1].
  assert (Hl : Z.of_nat (length (contents b)) = tail b - head b) by (unfold contents; rewrite span_length; lia).
  apply Forall_cons_1 in Hok as [(Bt & Bv & Bl) Hok]. cbn [fmap list_fmap concat encode] in Hi. fold n in Bl, Hi.
  assert (Hn : 1 + n <= tail b - head b).
  { rewrite Hi in Hl. rewrite !length_app in Hl. cbn [length] in Hl. lia. }
  assert (Hsp : contents b = at_ (size b) (cells b) (head b) :: span (size b) (cells b) (head b + 1) n ++
                  span (size b) (cells b) (head b + 1 + n) (tail b - (head b + n + 1))).
  { unfold contents. replace (tail b - head b) with (1 + (n + (tail b - (head b + n + 1)))) by lia.
    by rewrite span_cons, span_app by lia. }
  rewrite Hi in Hsp. cbn [app] in Hsp. injection Hsp as Eh Er.
  apply app_inj_1 in Er as [Ew Er]; [|rewrite span_length; lia].
  unfold ring_buf_item_get, ring_buf_is_empty, mod_, get_cell.
  rewrite (proj2 (Z.eqb_neq (head b) (tail b))), mask_mod by (done || lia).
  fold (at_ (size b) (cells b) (head b)). rewrite <- Eh.
  destruct (element_decode t n v Bt ltac:(lia) Bv) as (-> & -> & ->). cbn zeta. destruct (wd && (s32 <? n)); [done|].
  unfold RING_BUFFER_MAX_SIZE in *. rewrite (u32_id (head b + n + 1)), get_words_run by (done || lia).
  rewrite Z.add_0_l, Z2Nat.id, <- Ew by lia. eexists. split; [done|].
  apply and_comm. apply (item_rewind_run (set_head (head b + n + 1) b)); cbn; unfold RING_BUFFER_MAX_SIZE; try done; try lia; try apply Hw.
  unfold contents. cbn. rewrite Er. f_equal. lia.
Qed.

Lemma item_get_empty b wd s32 : item_queue b [] -> ring_buf_item_get wd s32 b = (- EAGAIN, s32, None, b).
Proof.
  intros [Hw Hi _]. pose proof (wf_tail b Hw). apply (f_equal length) in Hi. unfold contents in Hi. rewrite span_length in Hi. cbn in Hi.
  unfold ring_buf_item_get, ring_buf_is_empty. by rewrite (proj2 (Z.eqb_eq (head b) (tail b))) by lia.
Qed.

(** In item mode the ring buffer is a queue of items. An item that fits is
    put behind the others, one that does not is counted as dropped and
    nothing else changes; getting returns the oldest item exactly as it was
    put (its type, value and words), or tells how many words it has when the
    caller's place is too small and leaves it in the queue. *)
Theorem ring_items_roundtrip b its : item_queue b its ->
  (forall t v ws, item_ok (t, v, ws) ->
     let r := ring_buf_item_put t v ws (Z.of_nat (length ws)) b in
     if Z.of_nat (length ws) + 1 <=? size b - Z.of_nat (length (concat (encode <$> its)))
     then r.1 = 0 /\ size r.2 = size b /\ item_queue r.2 (its ++ [(t, v, ws)])
     else r = (- EMSGSIZE, set_dropped (u32 (dropped_put_count b + 1)) b)) /\
  (forall with_data size32,
     match its with
     | [] => ring_buf_item_get with_data size32 b = (- EAGAIN, size32, None, b)
     | (t, v, ws) :: its' =>
         let len := Z.of_nat (length ws) in
         if with_data && (size32 <? len) then ring_buf_item_get with_data size32 b = (- EMSGSIZE, len, None, b)
         else exists b', ring_buf_item_get with_data size32 b = (0, len, Some (t, v, if with_data then ws else []), b') /\
              size b' = size b /\ item_queue b' its'
     end).
Proof.
  intros Hq. split; [intros t v ws Hit; rewrite <- (iq_items b its Hq); by apply item_put_run|]. intros wd s32.
  destruct its as [|[[t v] ws] its]; [by apply item_get_empty|by apply item_get_run].
Qed.

Lemma ring_items_roundtrip_witness :
  exists b', ring_buf_item_get true 4 (ring_buf_item_put 0x1234 7 [10; 20] 2 (ring_buf_init 4 [0; 0; 0; 0])).2 =
    (0, 2, Some (0x1234, 7, [10; 20]), b') /\ size b' = 4 /\ item_queue b' [].
Proof.
  destruct (ring_items_roundtrip (ring_buf_init 4 [0; 0; 0; 0]) []) as [H _].
  { split; [|done|constructor]. split; cbn; unfold RING_BUFFER_MAX_SIZE; try lia; try done. right. by exists 2. }
  destruct (H 0x1234 7 [10; 20]) as (_ & _ & Hq); [cbn; lia|].
  by destruct (ring_items_roundtrip _ _ Hq) as [_ G]; specialize (G true 4).
Defined.
