(* ===== verification/Sx127x.v ===== *)
(** * The SX127x board code (drivers/lora/sx127x.c)

    Antenna switch, oscillator power, reset, interrupts, register access and
    transmit power of the SX1272/SX1276 driver. What the device tree says of
    the board and the constants of the radio library's register header are
    parameters; the chip is its registers. Every change of a pin is recorded,
    so that a property can speak of every moment. *)
From S2P Require Import Prelude KSem Platform Sx12xx.
From stdpp Require Import prelude list numbers.
From Stdlib Require Import ZArith Lia.
Import KSem.Sem.
Open Scope Z_scope.

(** ** The board and the register header *)

(** A pin of a DIO line: the port's device and the number. *)
Record sx127x_dio := mk_dio { dio_port : Z; dio_pin : Z }.

(** The device tree node: which pins there are, the amplifier output when no
    pin decides, and the delay of the oscillator. *)
Record board := mk_board {
  has_antenna_enable : bool; has_rfi_enable : bool; has_rfo_enable : bool; has_pa_boost_enable : bool; has_tcxo_power : bool;
  power_amplifier_output : Z; tcxo_power_startup_delay_ms : Z; sx127x_dios : list sx127x_dio }.

(** sx1272.h, sx1276.h: registers and masks; the SX1276 has a mask for the
    maximum power. *)
Record header := mk_header {
  REG_PACONFIG : Z; REG_PADAC : Z; REG_VERSION : Z; RFLR_OPMODE_TRANSMITTER : Z;
  RF_PADAC_20DBM_ON : Z; RF_PADAC_20DBM_OFF : Z; RF_PADAC_20DBM_MASK : Z;
  RF_PACONFIG_PASELECT_PABOOST : Z; RF_PACONFIG_OUTPUTPOWER_MASK : Z; has_MAX_POWER_MASK : bool }.

(** ** State *)

Record pins := mk_pins { antenna_enable : bool; rfi_enable : bool; rfo_enable : bool; pa_boost_enable : bool; tcxo_power : bool; reset : bool }.

(** [common] is the machine the rest of the driver runs on; [regs] the chip's
    registers; [spi_rets] what the next transfers return; [submitted] the
    pending work, [dio_handled] the lines whose handler of the radio library was
    called; [pin_trace] the pins after each change. *)
Record sx127x := mk_sx127x {
  common : plat; level : pins; dev_tx_power : Z; tcxo_power_enabled : bool; regs : Z -> Z; spi_rets : list Z;
  dio_dev : list (option Z); submitted : list nat; dio_handled : list nat; pin_trace : list pins }.

Definition set_common (x : plat) (s : sx127x) : sx127x :=
  mk_sx127x x (level s) (dev_tx_power s) (tcxo_power_enabled s) (regs s) (spi_rets s) (dio_dev s) (submitted s) (dio_handled s) (pin_trace s).
Definition set_level (x : pins) (s : sx127x) : sx127x :=
  mk_sx127x (common s) x (dev_tx_power s) (tcxo_power_enabled s) (regs s) (spi_rets s) (dio_dev s) (submitted s) (dio_handled s) (pin_trace s ++ [x]).
Definition set_dev_tx_power (x : Z) (s : sx127x) : sx127x :=
  mk_sx127x (common s) (level s) x (tcxo_power_enabled s) (regs s) (spi_rets s) (dio_dev s) (submitted s) (dio_handled s) (pin_trace s).
Definition set_tcxo_power_enabled (x : bool) (s : sx127x) : sx127x :=
  mk_sx127x (common s) (level s) (dev_tx_power s) x (regs s) (spi_rets s) (dio_dev s) (submitted s) (dio_handled s) (pin_trace s).
Definition set_spi (r : Z -> Z) (x : list Z) (s : sx127x) : sx127x :=
  mk_sx127x (common s) (level s) (dev_tx_power s) (tcxo_power_enabled s) r x (dio_dev s) (submitted s) (dio_handled s) (pin_trace s).
Definition set_dio_dev (x : list (option Z)) (s : sx127x) : sx127x :=
  mk_sx127x (common s) (level s) (dev_tx_power s) (tcxo_power_enabled s) (regs s) (spi_rets s) x (submitted s) (dio_handled s) (pin_trace s).
Definition set_work (x y : list nat) (s : sx127x) : sx127x :=
  mk_sx127x (common s) (level s) (dev_tx_power s) (tcxo_power_enabled s) (regs s) (spi_rets s) (dio_dev s) x y (pin_trace s).

#[export] Instance sx127x_plat : PlatState sx127x.
Proof. refine {| plat_of := common; set_plat := set_common |}; by intros; destruct s. Defined.

Definition gpio_pin_set (f : pins -> pins) : M sx127x unit := modify (fun s => set_level (f (level s)) s).
Definition sleep (ms : Z) : M sx127x unit := liftp (k_sleep (K_MSEC ms));; mret tt.

Definition with_antenna (b : bool) (p : pins) : pins := mk_pins b (rfi_enable p) (rfo_enable p) (pa_boost_enable p) (tcxo_power p) (reset p).
Definition with_rfi (b : bool) (p : pins) : pins := mk_pins (antenna_enable p) b (rfo_enable p) (pa_boost_enable p) (tcxo_power p) (reset p).
Definition with_rfo (b : bool) (p : pins) : pins := mk_pins (antenna_enable p) (rfi_enable p) b (pa_boost_enable p) (tcxo_power p) (reset p).
Definition with_pa_boost (b : bool) (p : pins) : pins := mk_pins (antenna_enable p) (rfi_enable p) (rfo_enable p) b (tcxo_power p) (reset p).
Definition with_tcxo (b : bool) (p : pins) : pins := mk_pins (antenna_enable p) (rfi_enable p) (rfo_enable p) (pa_boost_enable p) b (reset p).
Definition with_reset (b : bool) (p : pins) : pins := mk_pins (antenna_enable p) (rfi_enable p) (rfo_enable p) (pa_boost_enable p) (tcxo_power p) b.

Definition SX127X_PA_RFO : Z := 0.
Definition SX127X_PA_BOOST : Z := 1.

(** Arguments are [int8_t]. *)
Definition clamp_int8 (x min max : Z) : Z := if x <? min then min else if max <? x then max else x.

Definition SX127xCheckRfFrequency (frequency : Z) : bool := true.

Section driver.
Context (dt : board) (hdr : header).
(** [device_get_binding] for a GPIO port, and what the FIFO answers when so many
    bytes are read from it. *)
Context (bound : Z -> bool) (fifo : Z -> list Z).

Definition SX127X_PA_OUTPUT (power : Z) : Z :=
  if has_rfo_enable dt && has_pa_boost_enable dt then (if 14 <? power then SX127X_PA_BOOST else SX127X_PA_RFO)
  else if has_rfo_enable dt then SX127X_PA_RFO
  else if has_pa_boost_enable dt then SX127X_PA_BOOST
  else power_amplifier_output dt.

Definition SX127xGetBoardTcxoWakeupTime : Z := tcxo_power_startup_delay_ms dt.

(** ** Pins *)

Definition sx127x_antenna_enable (val : bool) : M sx127x unit := when (has_antenna_enable dt) (gpio_pin_set (with_antenna val)).
Definition sx127x_rfi_enable (val : bool) : M sx127x unit := when (has_rfi_enable dt) (gpio_pin_set (with_rfi val)).
Definition sx127x_rfo_enable (val : bool) : M sx127x unit := when (has_rfo_enable dt) (gpio_pin_set (with_rfo val)).
Definition sx127x_pa_boost_enable (val : bool) : M sx127x unit := when (has_pa_boost_enable dt) (gpio_pin_set (with_pa_boost val)).

Definition SX127xSetAntSwLowPower (low_power : bool) : M sx127x unit :=
  if low_power then
    sx127x_rfi_enable false;;
    sx127x_rfo_enable false;;
    sx127x_pa_boost_enable false;;
    sx127x_antenna_enable false
  else sx127x_antenna_enable true.

Definition SX127xSetBoardTcxo (state : Z) : M sx127x unit :=
  if negb (has_tcxo_power dt) then mret tt
  else
    let enable := negb (state =? 0) in
    on ← gets tcxo_power_enabled;
    if Bool.eqb enable on then mret tt
    else
      (if enable then
         gpio_pin_set (with_tcxo true);;
         when (0 <? tcxo_power_startup_delay_ms dt) (sleep (tcxo_power_startup_delay_ms dt))
       else gpio_pin_set (with_tcxo false));;
      modify (set_tcxo_power_enabled enable).

Definition SX127xSetAntSw (opMode : Z) : M sx127x unit :=
  if opMode =? RFLR_OPMODE_TRANSMITTER hdr then
    sx127x_rfi_enable false;;
    power ← gets dev_tx_power;
    if SX127X_PA_OUTPUT power =? SX127X_PA_BOOST then
      sx127x_rfo_enable false;;
      sx127x_pa_boost_enable true
    else
      sx127x_pa_boost_enable false;;
      sx127x_rfo_enable true
  else
    sx127x_rfo_enable false;;
    sx127x_pa_boost_enable false;;
    sx127x_rfi_enable true.

Definition SX127xReset : M sx127x unit :=
  SX127xSetBoardTcxo 1;;
  gpio_pin_set (with_reset true);;
  sleep 1;;
  gpio_pin_set (with_reset false);;
  sleep 6.

(** ** Interrupts *)

(** The handler of a line runs in the work queue. *)
Definition sx127x_dio_work_handle (dio : nat) : M sx127x unit := modify (fun s => set_work (submitted s) (dio_handled s ++ [dio]) s).

Definition find_lsb_set (x : Z) : Z := match List.find (fun i => Z.testbit x i) (seqZ 0 32) with Some i => i + 1 | None => 0 end.

(** [k_work_submit] of work that is pending does nothing. *)
Definition k_work_submit (i : nat) : M sx127x unit :=
  modify (fun s => if existsb (Nat.eqb i) (submitted s) then s else set_work (submitted s ++ [i]) (dio_handled s) s).

Fixpoint irq_lines (dev pin : Z) (dios : list sx127x_dio) (i : nat) : M sx127x unit :=
  match dios with
  | [] => mret tt
  | d :: dios =>
      s ← gets dio_dev;
      when (match s !! i with Some (Some dev') => dev =? dev' | _ => false end && (pin =? dio_pin d)) (k_work_submit i);;
      irq_lines dev pin dios (S i)
  end.

Definition sx127x_irq_callback (dev pins : Z) : M sx127x unit :=
  irq_lines dev (u32 (find_lsb_set pins - 1)) (sx127x_dios dt) 0.

(** The ports of the lines with a handler are bound, up to the first that
    cannot be. [add_ok] is whether adding the callback succeeds. *)
Fixpoint init_lines (handlers : list bool) (add_ok : nat -> bool) (dios : list sx127x_dio) (i : nat) : M sx127x unit :=
  match dios with
  | [] => mret tt
  | d :: dios =>
      if negb (default false (handlers !! i)) then init_lines handlers add_ok dios (S i)
      else
        modify (fun s => set_dio_dev (<[i := if bound (dio_port d) then Some (dio_port d) else None]> (dio_dev s)) s);;
        if negb (bound (dio_port d)) then mret tt
        else if negb (add_ok i) then mret tt
        else init_lines handlers add_ok dios (S i)
  end.

Definition SX127xIoIrqInit (handlers : list bool) (add_ok : nat -> bool) : M sx127x unit :=
  init_lines handlers add_ok (sx127x_dios dt) 0.

(** ** Registers *)

(** The chip's side of a transfer of the address byte and the data: the
    address counts up, except at 0, which is the message FIFO and no register. *)
Definition store (reg : Z) (data : list Z) (r : Z -> Z) : Z -> Z :=
  if reg =? 0 then r
  else fun a => match (if a <? reg then None else data !! Z.to_nat (a - reg)) with Some x => x | None => r a end.
Definition fetch (reg len : Z) (r : Z -> Z) : list Z := if reg =? 0 then fifo len else r <$> seqZ reg len.

(** Bit 7 of the address selects writing. A failed transfer has no effect. *)
Definition sx127x_transceive (reg : Z) (write : bool) (data : list Z) (len : Z) : M sx127x (Z * list Z) := fun s =>
  let ret := default 0 (head (spi_rets s)) in
  let rets := tail (spi_rets s) in
  if ret <? 0 then (Done (ret, data), set_spi (regs s) rets s)
  else if write then (Done (ret, data), set_spi (store (Z.land reg 0x7f) (take (Z.to_nat len) data) (regs s)) rets s)
  else (Done (ret, fetch reg len (regs s)), set_spi (regs s) rets s).

Definition sx127x_read (reg_addr : Z) (data : list Z) (len : Z) : M sx127x (Z * list Z) := sx127x_transceive reg_addr false data len.
Definition sx127x_write (reg_addr : Z) (data : list Z) (len : Z) : M sx127x (Z * list Z) :=
  sx127x_transceive (Z.lor reg_addr 128) true data len.

Definition SX127xWriteBuffer (addr : Z) (buffer : list Z) (size : Z) : M sx127x unit := _ ← sx127x_write (u8 addr) buffer size; mret tt.
Definition SX127xReadBuffer (addr : Z) (buffer : list Z) (size : Z) : M sx127x (list Z) := r ← sx127x_read (u8 addr) buffer size; mret r.2.

(** ** Transmit power *)

(** [~MASK] of the header's masks, as far as a byte is concerned. *)
Definition SX127X_PADAC_20DBM_MASK : Z := Z.lnot (RF_PADAC_20DBM_MASK hdr).
Definition SX127X_PACONFIG_OUTPUTPOWER_MASK : Z := Z.lnot (RF_PACONFIG_OUTPUTPOWER_MASK hdr).
Definition SX127X_PACONFIG_MAX_POWER_SHIFT : Z := 4.

(** The power that is set, PACONFIG and PADAC. *)
Definition power_settings (power pa_dac : Z) : Z * Z * Z :=
  let pa_dac := Z.land pa_dac (Z.lnot SX127X_PADAC_20DBM_MASK) in
  let masked x := Z.land x SX127X_PACONFIG_OUTPUTPOWER_MASK in
  if SX127X_PA_OUTPUT power =? SX127X_PA_BOOST then
    let power := clamp_int8 power 2 20 in
    if 17 <? power
    then (power, u8 (Z.lor (RF_PACONFIG_PASELECT_PABOOST hdr) (masked (power - 5))), u8 (Z.lor pa_dac (RF_PADAC_20DBM_ON hdr)))
    else (power, u8 (Z.lor (RF_PACONFIG_PASELECT_PABOOST hdr) (masked (power - 2))), u8 (Z.lor pa_dac (RF_PADAC_20DBM_OFF hdr)))
  else if has_MAX_POWER_MASK hdr then
    let power := clamp_int8 power (-4) 15 in
    if 0 <? power
    then (power, u8 (Z.lor (Z.shiftl 7 SX127X_PACONFIG_MAX_POWER_SHIFT) (masked power)), u8 (Z.lor pa_dac (RF_PADAC_20DBM_OFF hdr)))
    else (power, u8 (masked (power + 4)), u8 (Z.lor pa_dac (RF_PADAC_20DBM_OFF hdr)))
  else
    let power := clamp_int8 power (-1) 14 in
    (power, u8 (masked (power + 1)), u8 (Z.lor pa_dac (RF_PADAC_20DBM_OFF hdr))).

Definition SX127xSetRfTxPower (power : Z) : M sx127x unit :=
  r ← sx127x_read (REG_PADAC hdr) [0] 1;
  let '(ret, data) := r in
  if ret <? 0 then mret tt
  else
    let '(power, pa_config, pa_dac) := power_settings power (default 0 (head data)) in
    when (has_rfo_enable dt && has_pa_boost_enable dt) (modify (set_dev_tx_power (u8 power)));;
    r ← sx127x_write (REG_PACONFIG hdr) [pa_config] 1;
    if r.1 <? 0 then mret tt
    else _ ← sx127x_write (REG_PADAC hdr) [pa_dac] 1; mret tt.

(** ** Initialisation *)

Inductive pin := AntennaEnable | RfiEnable | RfoEnable | PaBoostEnable | TcxoPower | ResetPin.

Definition has_pin (p : pin) : bool :=
  match p with
  | AntennaEnable => has_antenna_enable dt | RfiEnable => has_rfi_enable dt | RfoEnable => has_rfo_enable dt
  | PaBoostEnable => has_pa_boost_enable dt | TcxoPower => has_tcxo_power dt | ResetPin => true
  end.
Definition with_pin (p : pin) (b : bool) : pins -> pins :=
  match p with
  | AntennaEnable => with_antenna b | RfiEnable => with_rfi b | RfoEnable => with_rfo b
  | PaBoostEnable => with_pa_boost b | TcxoPower => with_tcxo b | ResetPin => with_reset b
  end.

(** The controllers of the pins and the results of [gpio_pin_configure]; the
    SPI bus and the controller of its chip select, where there is one. *)
Context (controller : pin -> bool) (pin_rc : pin -> Z) (spi_bus : bool) (spi_cs : option bool).

Definition __sx12xx_configure_pin (p : pin) (active : bool) : M sx127x Z :=
  if negb (controller p) then mret (- EIO)
  else if negb (pin_rc p =? 0) then mret (pin_rc p)
  else gpio_pin_set (with_pin p active);; mret 0.

Definition sx12xx_configure_pin (p : pin) (active : bool) : M sx127x Z :=
  if has_pin p then __sx12xx_configure_pin p active else mret 0.

Definition sx127x_antenna_configure : M sx127x Z :=
  ret ← sx12xx_configure_pin AntennaEnable false;
  if negb (ret =? 0) then mret ret else
  ret ← sx12xx_configure_pin RfiEnable false;
  if negb (ret =? 0) then mret ret else
  ret ← sx12xx_configure_pin RfoEnable false;
  if negb (ret =? 0) then mret ret else
  ret ← sx12xx_configure_pin PaBoostEnable false;
  if negb (ret =? 0) then mret ret else
  mret 0.

Definition sx127x_lora_init : M sx127x Z :=
  if negb spi_bus then mret (- EINVAL) else
  if negb (default true spi_cs) then mret (- EIO) else
  ret ← sx12xx_configure_pin TcxoPower false;
  if negb (ret =? 0) then mret ret else
  ret ← sx12xx_configure_pin ResetPin true;
  if negb (ret =? 0) then mret ret else
  sleep 100;;
  gpio_pin_set (with_reset false);;
  sleep 100;;
  r ← sx127x_read (REG_VERSION hdr) [0] 1;
  if r.1 <? 0 then mret (- EIO) else
  ret ← sx127x_antenna_configure;
  if ret <? 0 then mret (- EIO) else
  ret ← liftp sx12xx_init;
  if ret <? 0 then mret ret else mret 0.

(** ** Calls of the radio library *)

Inductive call :=
| CSetAntSwLowPower (low_power : bool) | CSetBoardTcxo (state : Z) | CSetAntSw (opMode : Z) | CReset
| CIoIrqInit (handlers : list bool) (add_ok : nat -> bool) | CIrq (dev pins : Z) | CWork (dio : nat)
| CWriteBuffer (addr : Z) (buffer : list Z) (size : Z) | CReadBuffer (addr : Z) (buffer : list Z) (size : Z)
| CSetRfTxPower (power : Z).

Definition run_call (c : call) : M sx127x unit :=
  match c with
  | CSetAntSwLowPower b => SX127xSetAntSwLowPower b
  | CSetBoardTcxo x => SX127xSetBoardTcxo x
  | CSetAntSw m => SX127xSetAntSw m
  | CReset => SX127xReset
  | CIoIrqInit h a => SX127xIoIrqInit h a
  | CIrq d p => sx127x_irq_callback d p
  | CWork i => sx127x_dio_work_handle i
  | CWriteBuffer a b n => SX127xWriteBuffer a b n
  | CReadBuffer a b n => _ ← SX127xReadBuffer a b n; mret tt
  | CSetRfTxPower p => SX127xSetRfTxPower p
  end.

Fixpoint run_calls (cs : list call) : M sx127x unit :=
  match cs with [] => mret tt | c :: cs => run_call c;; run_calls cs end.

(** ** Antenna paths *)

(** At most one of the three paths is switched to the antenna. *)
Definition exclusive (p : pins) : Prop :=
  (rfi_enable p = false \/ rfo_enable p = false) /\ (rfi_enable p = false \/ pa_boost_enable p = false) /\
  (rfo_enable p = false \/ pa_boost_enable p = false).

(** A pin the board does not have is never active. *)
Definition absent_low (p : pins) : Prop :=
  (has_rfi_enable dt = false -> rfi_enable p = false) /\ (has_rfo_enable dt = false -> rfo_enable p = false) /\
  (has_pa_boost_enable dt = false -> pa_boost_enable p = false).

(** The paths that are active, as (receive, RFO, PA_BOOST). *)
Definition paths (p : pins) : bool * bool * bool := (rfi_enable p, rfo_enable p, pa_boost_enable p).

(** The path an operating mode needs, given the recorded power. *)
Definition wanted (opMode power : Z) : bool * bool * bool :=
  if opMode =? RFLR_OPMODE_TRANSMITTER hdr then
    if SX127X_PA_OUTPUT power =? SX127X_PA_BOOST then (false, false, has_pa_boost_enable dt) else (false, has_rfo_enable dt, false)
  else (has_rfi_enable dt, false, false).

(** A computation that returns and keeps the paths safe at every moment. *)
Definition path_safe {A} (m : M sx127x A) : Prop := forall s,
  exclusive (level s) -> absent_low (level s) ->
  exists a s' l, m s = (Done a, s') /\ pin_trace s' = pin_trace s ++ l /\ Forall exclusive l /\
    exclusive (level s') /\ absent_low (level s').

Lemma path_safe_bind {A B} (m : M sx127x A) (f : A -> M sx127x B) :
  path_safe m -> (forall a, path_safe (f a)) -> path_safe (mbind f m).
Proof.
  intros Hm Hf s He Ha. destruct (Hm s He Ha) as (a & s1 & l1 & E1 & T1 & F1 & He1 & Ha1).
  destruct (Hf a s1 He1 Ha1) as (b & s2 & l2 & E2 & T2 & F2 & He2 & Ha2).
  exists b, s2, (l1 ++ l2). rewrite (bind_done _ _ _ _ _ E1). split; [done|].
  rewrite T2, T1, app_assoc. split; [done|]. split; [|done]. by apply Forall_app.
Qed.

(** What leaves the pins alone. *)
Lemma path_safe_still {A} (m : M sx127x A) :
  (forall s, exists a s', m s = (Done a, s') /\ pin_trace s' = pin_trace s /\ level s' = level s) -> path_safe m.
Proof.
  intros H s He Ha. destruct (H s) as (a & s' & E & T & L). exists a, s', [].
  rewrite app_nil_r, L. split; [done|]. split; [done|]. split; [by apply Forall_nil|done].
Qed.

Lemma path_safe_ret {A} (a : A) : path_safe (mret a).
Proof. apply path_safe_still. intros s. by exists a, s. Qed.
Lemma path_safe_gets {A} (f : sx127x -> A) : path_safe (gets f).
Proof. apply path_safe_still. intros s. by exists (f s), s. Qed.
Lemma path_safe_modify (f : sx127x -> sx127x) :
  (forall s, pin_trace (f s) = pin_trace s /\ level (f s) = level s) -> path_safe (modify f).
Proof. intros H. apply path_safe_still. intros s. exists tt, (f s). by destruct (H s). Qed.
Lemma path_safe_sleep ms : path_safe (sleep ms).
Proof. apply path_safe_still. intros s. by eexists tt, _. Qed.

(** Pins other than the three paths. *)
Lemma path_safe_pin f : (forall p, paths (f p) = paths p) -> path_safe (gpio_pin_set f).
Proof.
  intros H s He Ha. exists tt, (set_level (f (level s)) s), [f (level s)].
  specialize (H (level s)). unfold paths in H. injection H as H1 H2 H3.
  assert (exclusive (f (level s))) by (unfold exclusive; by rewrite H1, H2, H3).
  split; [done|]. split; [done|]. split; [by apply Forall_cons|]. split; [done|].
  cbn. unfold absent_low. by rewrite H1, H2, H3.
Qed.

Lemma path_safe_when b m : (b = true -> path_safe m) -> path_safe (when b m).
Proof. destruct b; intros H; [by apply H|apply path_safe_ret]. Qed.

Lemma path_safe_transceive reg w data len : path_safe (sx127x_transceive reg w data len).
Proof. apply path_safe_still. intros s. unfold sx127x_transceive. destruct (_ <? 0), w; by eexists _, _. Qed.

Lemma path_safe_irq_lines dev pin dios i : path_safe (irq_lines dev pin dios i).
Proof.
  revert i. induction dios as [|d dios IH]; intros i; [apply path_safe_ret|]. cbn [irq_lines].
  apply path_safe_bind; [apply path_safe_gets|intros l]. apply path_safe_bind; [|intros _; apply IH].
  apply path_safe_when. intros _. apply path_safe_modify. intros s. by destruct (existsb _ _).
Qed.

Lemma path_safe_init_lines h ok dios i : path_safe (init_lines h ok dios i).
Proof.
  revert i. induction dios as [|d dios IH]; intros i; [apply path_safe_ret|]. cbn [init_lines].
  destruct (negb _); [apply IH|]. apply path_safe_bind; [by apply path_safe_modify|intros _].
  destruct (negb _); [apply path_safe_ret|]. destruct (negb _); [apply path_safe_ret|apply IH].
Qed.

Lemma path_safe_tcxo x : path_safe (SX127xSetBoardTcxo x).
Proof.
  unfold SX127xSetBoardTcxo. destruct (negb _); [apply path_safe_ret|].
  apply path_safe_bind; [apply path_safe_gets|intros on]. destruct (Bool.eqb _ _); [apply path_safe_ret|].
  apply path_safe_bind; [|intros _; by apply path_safe_modify].
  destruct (negb _); [|by apply path_safe_pin].
  apply path_safe_bind; [by apply path_safe_pin|intros _]. apply path_safe_when. intros _. apply path_safe_sleep.
Qed.

(** The path a pin switches is off. *)
Lemma path_safe_off : path_safe (sx127x_rfi_enable false) /\ path_safe (sx127x_rfo_enable false) /\ path_safe (sx127x_pa_boost_enable false).
Proof.
  split; [|split]; apply path_safe_when; intros _ s (H1 & H2 & H3) (A1 & A2 & A3);
    (eexists tt, _, [_]; split; [reflexivity|]; split; [reflexivity|]; split; [apply Forall_cons; [|by apply Forall_nil]|]);
    unfold exclusive, absent_low; cbn; tauto.
Qed.

Lemma path_safe_low b : path_safe (SX127xSetAntSwLowPower b).
Proof.
  destruct path_safe_off as (H1 & H2 & H3). destruct b; cbn.
  - repeat (apply path_safe_bind; [done|intros _]). apply path_safe_when. intros _. by apply path_safe_pin.
  - apply path_safe_when. intros _. by apply path_safe_pin.
Qed.

Lemma path_safe_reset : path_safe SX127xReset.
Proof.
  unfold SX127xReset. apply path_safe_bind; [apply path_safe_tcxo|intros _].
  apply path_safe_bind; [by apply path_safe_pin|intros _]. apply path_safe_bind; [apply path_safe_sleep|intros _].
  apply path_safe_bind; [by apply path_safe_pin|intros _]. apply path_safe_sleep.
Qed.

Lemma path_safe_power x : path_safe (SX127xSetRfTxPower x).
Proof.
  unfold SX127xSetRfTxPower. apply path_safe_bind; [apply path_safe_transceive|intros [r d]].
  destruct (r <? 0); [apply path_safe_ret|]. destruct (power_settings _ _) as [[p c] e].
  apply path_safe_bind; [apply path_safe_when; intros _; by apply path_safe_modify|intros _].
  apply path_safe_bind; [apply path_safe_transceive|intros [r2 d2]]. destruct (_ <? 0); [apply path_safe_ret|].
  apply path_safe_bind; [apply path_safe_transceive|intros _; apply path_safe_ret].
Qed.

(** Switching the antenna: safe at every moment, and the wanted path in the
    end. *)
Lemma ant_sw m s : exclusive (level s) -> absent_low (level s) ->
  exists s' l, SX127xSetAntSw m s = (Done tt, s') /\ pin_trace s' = pin_trace s ++ l /\ Forall exclusive l /\
    exclusive (level s') /\ absent_low (level s') /\ paths (level s') = wanted m (dev_tx_power s) /\
    regs s' = regs s /\ dev_tx_power s' = dev_tx_power s.
Proof.
  clear bound fifo controller pin_rc spi_bus spi_cs.
  intros (H1 & H2 & H3) (A1 & A2 & A3). unfold SX127xSetAntSw, wanted, exclusive, absent_low, paths.
  unfold sx127x_rfi_enable, sx127x_rfo_enable, sx127x_pa_boost_enable, gpio_pin_set, when.
  destruct (m =? _); [destruct (SX127X_PA_OUTPUT (dev_tx_power s) =? _) eqn:E|];
    destruct (has_rfi_enable dt), (has_rfo_enable dt), (has_pa_boost_enable dt); cbn; unfold mbind, M_bind; cbn; rewrite ?E; cbn;
    (eexists _, _; split; [reflexivity|]; cbn; split; [rewrite <- ?app_assoc; try reflexivity; symmetry; apply app_nil_r|]).
  all: try specialize (A1 eq_refl); try specialize (A2 eq_refl); try specialize (A3 eq_refl).
  all: split; [repeat (apply Forall_cons; [cbn; tauto|]); by apply Forall_nil|].
  all: split; [tauto|]; split; [tauto|]; split; [congruence|done].
Qed.

Lemma path_safe_call c : path_safe (run_call c).
Proof.
  destruct c; cbn [run_call].
  - apply path_safe_low.
  - apply path_safe_tcxo.
  - intros s He Ha. destruct (ant_sw opMode s He Ha) as (s' & l & E & T & F & He' & Ha' & _). by exists tt, s', l.
  - apply path_safe_reset.
  - apply path_safe_init_lines.
  - apply path_safe_irq_lines.
  - by apply path_safe_modify.
  - apply path_safe_bind; [apply path_safe_transceive|intros _; apply path_safe_ret].
  - apply path_safe_bind; [|intros _; apply path_safe_ret].
    apply path_safe_bind; [apply path_safe_transceive|intros ?; apply path_safe_ret].
  - apply path_safe_power.
Qed.

Lemma path_safe_calls cs : path_safe (run_calls cs).
Proof.
  induction cs as [|c cs IH]; [apply path_safe_ret|]. cbn [run_calls].
  apply path_safe_bind; [apply path_safe_call|intros _; apply IH].
Qed.

(** Configuring a pin as an inactive output. *)
Lemma configure_low p s : (forall q, pin_rc q <= 0) ->
  exists r s', sx12xx_configure_pin p false s = (Done r, s') /\ r <= 0 /\
    (r = 0 -> level s' = if has_pin p then with_pin p false (level s) else level s).
Proof.
  intros Hrc. unfold sx12xx_configure_pin, __sx12xx_configure_pin. specialize (Hrc p).
  destruct (has_pin p); [|by exists 0, s].
  destruct (negb (controller p)); [exists (- EIO), s; unfold EIO; split; [done|lia]|].
  destruct (Z.eqb_spec (pin_rc p) 0); cbn [negb]; [by eexists 0, _|by exists (pin_rc p), s].
Qed.

Lemma antenna_low s : (forall q, pin_rc q <= 0) -> absent_low (level s) ->
  exists r s', sx127x_antenna_configure s = (Done r, s') /\ r <= 0 /\
    (r = 0 -> paths (level s') = (false, false, false)).
Proof.
  intros Hrc (A1 & A2 & A3). unfold sx127x_antenna_configure.
  destruct (configure_low AntennaEnable s Hrc) as (r1 & s1 & E1 & N1 & L1). rewrite (bind_done _ _ _ _ _ E1).
  destruct (Z.eqb_spec r1 0); cbn [negb]; [|by eexists _, _]. specialize (L1 e).
  destruct (configure_low RfiEnable s1 Hrc) as (r2 & s2 & E2 & N2 & L2). rewrite (bind_done _ _ _ _ _ E2).
  destruct (Z.eqb_spec r2 0); cbn [negb]; [|by eexists _, _]. specialize (L2 e0).
  destruct (configure_low RfoEnable s2 Hrc) as (r3 & s3 & E3 & N3 & L3). rewrite (bind_done _ _ _ _ _ E3).
  destruct (Z.eqb_spec r3 0); cbn [negb]; [|by eexists _, _]. specialize (L3 e1).
  destruct (configure_low PaBoostEnable s3 Hrc) as (r4 & s4 & E4 & N4 & L4). rewrite (bind_done _ _ _ _ _ E4).
  destruct (Z.eqb_spec r4 0); cbn [negb]; [|by eexists _, _]. specialize (L4 e2).
  eexists _, _. split; [reflexivity|]. split; [done|]. intros _. rewrite L4, L3, L2, L1. unfold paths.
  cbn [has_pin with_pin].
  destruct (has_antenna_enable dt), (has_rfi_enable dt), (has_rfo_enable dt), (has_pa_boost_enable dt); cbn; repeat f_equal; auto.
Qed.

(** Configuring a pin that is not a path, and the rest of the initialisation
    before the antenna. *)
Lemma configure_other p b s : (forall q c, paths (with_pin p c q) = paths q) ->
  exists r s', sx12xx_configure_pin p b s = (Done r, s') /\ paths (level s') = paths (level s).
Proof.
  intros H. unfold sx12xx_configure_pin, __sx12xx_configure_pin.
  destruct (has_pin p); [|by exists 0, s]. destruct (negb (controller p)); [by eexists _, _|].
  destruct (negb _); [by eexists _, _|]. eexists _, _. split; [reflexivity|]. apply H.
Qed.

Lemma absent_low_paths p q : paths p = paths q -> absent_low q -> absent_low p.
Proof. unfold paths, absent_low. intros [= -> -> ->]. done. Qed.

(** A step of the initialisation that keeps the paths. *)
Lemma init_step {A} (m : M sx127x A) (f : A -> M sx127x Z) s :
  (exists a s', m s = (Done a, s') /\ paths (level s') = paths (level s)) ->
  (forall a s', paths (level s') = paths (level s) ->
     exists r s2, f a s' = (Done r, s2) /\ (r = 0 -> paths (level s2) = (false, false, false))) ->
  exists r s2, mbind f m s = (Done r, s2) /\ (r = 0 -> paths (level s2) = (false, false, false)).
Proof. intros (a & s1 & E & L) H. rewrite (bind_done _ _ _ _ _ E). by apply H. Qed.

Lemma lora_init_paths s : (forall q, pin_rc q <= 0) -> absent_low (level s) ->
  exists r s', sx127x_lora_init s = (Done r, s') /\ (r = 0 -> paths (level s') = (false, false, false)).
Proof.
  intros Hrc Ha. unfold sx127x_lora_init.
  destruct (negb spi_bus); [by eexists _, _|]. destruct (negb _); [by eexists _, _|].
  apply init_step; [by apply configure_other|intros r1 s1 L1].
  destruct (Z.eqb_spec r1 0) as [->|]; cbn [negb]; [|by eexists _, _].
  apply init_step; [by apply configure_other|intros r2 s2 L2].
  destruct (Z.eqb_spec r2 0) as [->|]; cbn [negb]; [|by eexists _, _].
  apply init_step; [by eexists tt, _|intros _ s3 L3]. apply init_step; [by eexists tt, _|intros _ s4 L4].
  apply init_step; [by eexists tt, _|intros _ s5 L5].
  apply init_step; [unfold sx127x_read, sx127x_transceive; destruct (_ <? 0); by eexists _, _|intros [r6 d6] s6 L6].
  cbn [fst]. destruct (r6 <? 0); [by eexists _, _|].
  destruct (antenna_low s6 Hrc) as (r7 & s7 & E7 & N7 & L7); [eapply absent_low_paths; [|exact Ha]; congruence|].
  rewrite (bind_done _ _ _ _ _ E7). destruct (Z.ltb_spec r7 0); [by eexists _, _|].
  eexists 0, _. split; [reflexivity|]. intros _. apply L7. lia.
Qed.

(** C31. The driver's initialisation always returns; when it succeeds no antenna
    path is active, and from then on no sequence of calls of the radio library,
    interrupts and work items, with whatever transfers failing, ever connects
    two of the receive, RFO and PA_BOOST paths to the antenna at the same
    moment; every call returns. After [SX127xSetAntSw] exactly the path the
    operating mode and the recorded power ask for is active. *)
Theorem antenna_paths_exclusive s : (forall q, pin_rc q <= 0) -> absent_low (level s) ->
  exists r s1, sx127x_lora_init s = (Done r, s1) /\
    (r = 0 -> paths (level s1) = (false, false, false) /\
     forall cs, exists s2 l, run_calls cs s1 = (Done tt, s2) /\ pin_trace s2 = pin_trace s1 ++ l /\ Forall exclusive l /\
       forall m, exists s3 l3, SX127xSetAntSw m s2 = (Done tt, s3) /\ pin_trace s3 = pin_trace s2 ++ l3 /\
         Forall exclusive l3 /\ paths (level s3) = wanted m (dev_tx_power s2)).
Proof.
  intros Hrc Ha. destruct (lora_init_paths s Hrc Ha) as (r & s1 & E & L). exists r, s1. split; [done|].
  intros Hr. specialize (L Hr). split; [done|]. intros cs. unfold paths in L. injection L as L1 L2 L3.
  destruct (path_safe_calls cs s1) as ([] & s2 & l & E2 & T & F & He & Ha2); [by split; [|split]; left|by repeat split|].
  exists s2, l. split; [done|]. split; [done|]. split; [done|]. intros m.
  destruct (ant_sw m s2 He Ha2) as (s3 & l3 & E3 & T3 & F3 & _ & _ & W & _). by exists s3, l3.
Qed.

(** ** Transmit power *)

(** The values of sx1272.h and sx1276.h. *)
Record header_ok : Prop := {
  ok_dac_mask : RF_PADAC_20DBM_MASK hdr = 0xF8; ok_dac_on : RF_PADAC_20DBM_ON hdr = 0x07; ok_dac_off : RF_PADAC_20DBM_OFF hdr = 0x04;
  ok_boost : RF_PACONFIG_PASELECT_PABOOST hdr = 0x80; ok_power_mask : RF_PACONFIG_OUTPUTPOWER_MASK hdr = 0xF0;
  ok_config : 0 < REG_PACONFIG hdr < 128; ok_dac : 0 < REG_PADAC hdr < 128; ok_distinct : REG_PACONFIG hdr <> REG_PADAC hdr }.

(** The power the chip puts out, in tenths of a dBm, as its data sheet computes
    it from PACONFIG and PADAC: 2 dBm or, with the 20 dBm setting, 5 dBm above
    the field on PA_BOOST; 15 dB below the maximum 10.8 + 0.6 [MaxPower] on
    the SX1276's RFO, 1 dBm below the field on the SX1272's. *)
Definition output_power (pa_config pa_dac : Z) : Z :=
  let field := Z.land pa_config 15 in
  if Z.testbit pa_config 7 then 10 * field + (if Z.land pa_dac 7 =? 7 then 50 else 20)
  else if has_MAX_POWER_MASK hdr then 108 + 6 * Z.land (Z.shiftr pa_config 4) 7 - (150 - 10 * field)
  else 10 * field - 10.

(** The power asked for, cut to what the amplifier can do. *)
Definition served (power : Z) : Z :=
  if SX127X_PA_OUTPUT power =? SX127X_PA_BOOST then Z.max 2 (Z.min power 20)
  else if has_MAX_POWER_MASK hdr then Z.max (-4) (Z.min power 15) else Z.max (-1) (Z.min power 14).

Lemma enumerate (P : Z -> bool) lo n x : forallb P (seqZ lo n) = true -> lo <= x < lo + n -> P x = true.
Proof. intros H Hx. eapply forallb_forall; [exact H|]. apply list_elem_of_In, elem_of_seqZ. lia. Qed.

Lemma dac_bits d x : 0 <= d < 256 -> x = 4 \/ x = 7 ->
  let d' := u8 (Z.lor (Z.land d (Z.lnot (Z.lnot 0xF8))) x) in
  Z.land d' 7 = x /\ Z.land d' 0xF8 = Z.land d 0xF8 /\ 0 <= d' < 256.
Proof.
  set (ok := fun x d => let d' := u8 (Z.lor (Z.land d (Z.lnot (Z.lnot 0xF8))) x) in (Z.land d' 7 =? x) && (Z.land d' 0xF8 =? Z.land d 0xF8)).
  intros Hd Hx d'. assert (E : ok x d = true).
  { destruct Hx as [->| ->]; [exact (enumerate (ok 4) 0 256 d eq_refl Hd)|exact (enumerate (ok 7) 0 256 d eq_refl Hd)]. }
  apply andb_true_iff in E as [E1 E2]. apply Z.eqb_eq in E1, E2. split; [done|]. split; [done|]. by apply Z.mod_pos_bound.
Qed.

Lemma clamp_int8_cut x lo hi : lo <= hi -> clamp_int8 x lo hi = Z.max lo (Z.min x hi).
Proof. intros H. unfold clamp_int8. destruct (Z.ltb_spec x lo), (Z.ltb_spec hi x); lia. Qed.

(** The settings for a power of each branch. *)
Lemma boost_config k p : (k = 5 /\ 18 <= p < 21 \/ k = 2 /\ 2 <= p < 18) ->
  let c := u8 (Z.lor 0x80 (Z.land (p - k) (Z.lnot 0xF0))) in Z.testbit c 7 = true /\ Z.land c 15 = p - k.
Proof.
  set (ok := fun k p => let c := u8 (Z.lor 0x80 (Z.land (p - k) (Z.lnot 0xF0))) in Z.testbit c 7 && (Z.land c 15 =? p - k)).
  intros H c. assert (E : ok k p = true).
  { destruct H as [[-> H]|[-> H]]; [exact (enumerate (ok 5) 18 3 p eq_refl H)|exact (enumerate (ok 2) 2 16 p eq_refl H)]. }
  apply andb_true_iff in E as [E1 E2]. by apply Z.eqb_eq in E2.
Qed.

Lemma rfo_config hi k p : (hi = 0x70 /\ k = 0 /\ 1 <= p < 16 \/ hi = 0 /\ k = 4 /\ -4 <= p < 1 \/ hi = 0 /\ k = 1 /\ -1 <= p < 15) ->
  let c := u8 (Z.lor hi (Z.land (p + k) (Z.lnot 0xF0))) in
  Z.testbit c 7 = false /\ Z.land c 15 = p + k /\ Z.land (Z.shiftr c 4) 7 = Z.shiftr hi 4.
Proof.
  set (ok := fun hi k p => let c := u8 (Z.lor hi (Z.land (p + k) (Z.lnot 0xF0))) in
    negb (Z.testbit c 7) && ((Z.land c 15 =? p + k) && (Z.land (Z.shiftr c 4) 7 =? Z.shiftr hi 4))).
  intros H c. assert (E : ok hi k p = true).
  { destruct H as [(-> & -> & H)|[(-> & -> & H)|(-> & -> & H)]];
      [exact (enumerate (ok 0x70 0) 1 15 p eq_refl H)|exact (enumerate (ok 0 4) (-4) 5 p eq_refl H)|exact (enumerate (ok 0 1) (-1) 16 p eq_refl H)]. }
  apply andb_true_iff in E as [E1 E2]. apply andb_true_iff in E2 as [E2 E3].
  apply Z.eqb_eq in E2, E3. apply negb_true_iff in E1. done.
Qed.

Lemma settings_correct power d : header_ok -> 0 <= d < 256 ->
  exists c e, power_settings power d = (served power, c, e) /\ 0 <= c < 256 /\ 0 <= e < 256 /\
    Z.testbit c 7 = (SX127X_PA_OUTPUT power =? SX127X_PA_BOOST) /\ Z.land e 0xF8 = Z.land d 0xF8 /\
    output_power c e = 10 * served power -
      (if negb (SX127X_PA_OUTPUT power =? SX127X_PA_BOOST) && has_MAX_POWER_MASK hdr && (power <=? 0) then 2 else 0).
Proof.
  intros [H1 H2 H3 H4 H5 _ _ _] Hd. unfold power_settings, served, output_power, SX127X_PADAC_20DBM_MASK, SX127X_PACONFIG_OUTPUTPOWER_MASK.
  rewrite H1, H2, H3, H4, H5. destruct (dac_bits d 4 Hd) as (D1 & D2 & D3); [by left|]. destruct (dac_bits d 7 Hd) as (D4 & D5 & D6); [by right|].
  assert (U : forall x, 0 <= u8 x < 256) by (intros; by apply Z.mod_pos_bound).
  destruct (_ =? SX127X_PA_BOOST); [|destruct (has_MAX_POWER_MASK hdr)]; rewrite clamp_int8_cut by lia.
  - set (p := Z.max 2 (Z.min power 20)). destruct (Z.ltb_spec 17 p).
    + destruct (boost_config 5 p) as [C1 C2]; [lia|]. eexists _, _. split; [done|].
      cbn zeta. rewrite C1, C2, D4. cbn [negb andb Z.eqb Pos.eqb]. repeat split; try done; try apply U; lia.
    + destruct (boost_config 2 p) as [C1 C2]; [lia|]. eexists _, _. split; [done|].
      cbn zeta. rewrite C1, C2, D1. cbn [negb andb Z.eqb Pos.eqb]. repeat split; try done; try apply U; lia.
  - set (p := Z.max (-4) (Z.min power 15)). destruct (Z.ltb_spec 0 p).
    + destruct (rfo_config 0x70 0 p) as (C1 & C2 & C3); [lia|]. rewrite Z.add_0_r in C1, C2, C3. eexists _, _. split; [done|].
      cbn zeta. change (Z.shiftl 7 SX127X_PACONFIG_MAX_POWER_SHIFT) with 0x70. rewrite C1, C2, C3. change (Z.shiftr 0x70 4) with 7.
      destruct (Z.leb_spec power 0); [lia|]. cbn [negb andb Z.eqb Pos.eqb]. repeat split; try done; try apply U; lia.
    + destruct (rfo_config 0 4 p) as (C1 & C2 & C3); [lia|]. rewrite Z.lor_0_l in C1, C2, C3. eexists _, _. split; [done|].
      cbn zeta. rewrite C1, C2, C3. change (Z.shiftr 0 4) with 0.
      destruct (Z.leb_spec power 0); [|lia]. cbn [negb andb Z.eqb Pos.eqb]. repeat split; try done; try apply U; lia.
  - set (p := Z.max (-1) (Z.min power 14)). destruct (rfo_config 0 1 p) as (C1 & C2 & C3); [lia|].
    rewrite Z.lor_0_l in C1, C2, C3. eexists _, _. split; [done|]. cbn zeta. rewrite C1, C2.
    rewrite ?andb_false_r. cbn [negb andb Z.eqb Pos.eqb]. repeat split; try done; try apply U; lia.
Qed.

Lemma store_one reg x r a : 0 < reg -> store reg [x] r a = if a =? reg then x else r a.
Proof.
  intros Hreg. unfold store. destruct (Z.eqb_spec reg 0); [lia|]. destruct (Z.ltb_spec a reg); [by destruct (Z.eqb_spec a reg); [lia|]|].
  destruct (Z.eqb_spec a reg) as [->|]; [by rewrite Z.sub_diag|].
  rewrite lookup_ge_None_2; [done|]. cbn [length]. lia.
Qed.

Lemma write_address r : 0 < r < 128 -> Z.land (Z.lor r 128) 0x7f = r.
Proof. intros H. apply Z.eqb_eq. apply (enumerate (fun r => Z.land (Z.lor r 128) 0x7f =? r) 1 127 r eq_refl). lia. Qed.

(** Transfers of one byte that succeed. *)
Lemma read_one reg x s r rest : 0 < reg -> spi_rets s = r :: rest -> 0 <= r ->
  sx127x_read reg [x] 1 s = (Done (r, [regs s reg]), set_spi (regs s) rest s).
Proof.
  intros Hreg Hs Hr. unfold sx127x_read, sx127x_transceive. rewrite Hs. cbn [default head from_option tail id].
  unfold id. destruct (Z.ltb_spec r 0); [lia|]. unfold fetch. destruct (Z.eqb_spec reg 0); [lia|]. rewrite seqZ_cons by lia. reflexivity.
Qed.

Lemma write_one reg x s r rest : 0 < reg < 128 -> spi_rets s = r :: rest -> 0 <= r ->
  sx127x_write reg [x] 1 s = (Done (r, [x]), set_spi (store reg [x] (regs s)) rest s).
Proof.
  intros Hreg Hs Hr. unfold sx127x_write, sx127x_transceive. rewrite Hs, (write_address _ Hreg). cbn [default head from_option tail id].
  unfold id. destruct (Z.ltb_spec r 0); [lia|]. reflexivity.
Qed.

Lemma set_power_run power s r1 r2 r3 rest c e p :
  header_ok -> spi_rets s = r1 :: r2 :: r3 :: rest -> 0 <= r1 -> 0 <= r2 -> 0 <= r3 ->
  power_settings power (regs s (REG_PADAC hdr)) = (p, c, e) ->
  exists s', SX127xSetRfTxPower power s = (Done tt, s') /\ level s' = level s /\ pin_trace s' = pin_trace s /\
    (forall a, regs s' a = if a =? REG_PADAC hdr then e else if a =? REG_PACONFIG hdr then c else regs s a) /\
    dev_tx_power s' = if has_rfo_enable dt && has_pa_boost_enable dt then u8 p else dev_tx_power s.
Proof.
  intros Hok Hs P1 P2 P3 Hp. unfold SX127xSetRfTxPower. rewrite (bind_done _ _ _ _ _ (read_one _ _ _ _ _ (proj1 (ok_dac Hok)) Hs P1)).
  destruct (Z.ltb_spec r1 0); [lia|]. cbn [head default from_option id]. rewrite Hp.
  set (s1 := set_spi _ _ _).
  set (s2 := if has_rfo_enable dt && has_pa_boost_enable dt then set_dev_tx_power (u8 p) s1 else s1).
  assert (E2 : when (has_rfo_enable dt && has_pa_boost_enable dt) (modify (set_dev_tx_power (u8 p))) s1 = (Done tt, s2))
    by (subst s2; by destruct (_ && _)).
  assert (H2 : spi_rets s2 = r2 :: r3 :: rest /\ regs s2 = regs s /\ level s2 = level s /\ pin_trace s2 = pin_trace s)
    by (subst s2; by destruct (_ && _)).
  destruct H2 as (S2 & R2 & L2 & T2). rewrite (bind_done _ _ _ _ _ E2), (bind_done _ _ _ _ _ (write_one _ _ _ _ _ (ok_config Hok) S2 P2)).
  cbn [fst]. destruct (Z.ltb_spec r2 0); [lia|].
  erewrite bind_done; [|apply (write_one _ _ _ r3 rest (ok_dac Hok)); done].
  eexists. split; [reflexivity|]. cbn. split; [done|]. split; [done|]. split; [|subst s2; by destruct (_ && _)].
  intros a. rewrite (store_one _ _ _ _ (proj1 (ok_dac Hok))), (store_one _ _ _ _ (proj1 (ok_config Hok))), R2. done.
Qed.

(** Setting the transmit power when the transfers succeed: the chip then puts
    out the power asked for, cut to 2 to 20 dBm on PA_BOOST and to -4 to 15
    dBm (SX1276) or -1 to 14 dBm (SX1272) on RFO, to within 0.2 dB; PACONFIG
    selects the amplifier the board has for this power, the other bits of
    PADAC and every other register keep their values, and no pin changes. *)
Theorem tx_power_registers power s r1 r2 r3 rest :
  header_ok -> 0 <= regs s (REG_PADAC hdr) < 256 -> spi_rets s = r1 :: r2 :: r3 :: rest -> 0 <= r1 -> 0 <= r2 -> 0 <= r3 ->
  exists s', SX127xSetRfTxPower power s = (Done tt, s') /\ level s' = level s /\
    (let c := regs s' (REG_PACONFIG hdr) in let e := regs s' (REG_PADAC hdr) in
     10 * served power - 2 <= output_power c e <= 10 * served power /\
     (0 < power -> output_power c e = 10 * served power) /\
     Z.testbit c 7 = (SX127X_PA_OUTPUT power =? SX127X_PA_BOOST) /\
     Z.land e 0xF8 = Z.land (regs s (REG_PADAC hdr)) 0xF8) /\
    (forall a, a <> REG_PADAC hdr -> a <> REG_PACONFIG hdr -> regs s' a = regs s a).
Proof.
  intros Hok Hd Hs P1 P2 P3. destruct (settings_correct power _ Hok Hd) as (c & e & Hp & _ & _ & B & K & O).
  destruct (set_power_run power s r1 r2 r3 rest c e _ Hok Hs P1 P2 P3 Hp) as (s' & E & L & _ & R & _).
  exists s'. split; [done|]. split; [done|]. split.
  - rewrite !R, !Z.eqb_refl. destruct (Z.eqb_spec (REG_PACONFIG hdr) (REG_PADAC hdr)) as [X|_]; [by destruct (ok_distinct Hok)|].
    cbn zeta. rewrite O. split; [destruct (_ && _); lia|]. split; [|done].
    intros Hpos. destruct (Z.leb_spec power 0); [lia|]. rewrite andb_false_r. lia.
  - intros a N1 N2. rewrite R. by rewrite (proj2 (Z.eqb_neq _ _) N1), (proj2 (Z.eqb_neq _ _) N2).
Qed.

(** On a board with both transmit paths, setting the power and switching to
    transmit connects the RFO path for 0 to 14 dBm and the PA_BOOST path above,
    as the amplifier selected in PACONFIG; for a negative power, which the
    driver keeps in an unsigned byte, it connects PA_BOOST although PACONFIG
    selects RFO, so that the amplifier in use is not the connected one. *)
Theorem antenna_against_amplifier power s r1 r2 r3 rest :
  header_ok -> has_rfo_enable dt = true -> has_pa_boost_enable dt = true -> -128 <= power < 128 ->
  exclusive (level s) -> absent_low (level s) ->
  0 <= regs s (REG_PADAC hdr) < 256 -> spi_rets s = r1 :: r2 :: r3 :: rest -> 0 <= r1 -> 0 <= r2 -> 0 <= r3 ->
  exists s', (SX127xSetRfTxPower power;; SX127xSetAntSw (RFLR_OPMODE_TRANSMITTER hdr)) s = (Done tt, s') /\
    Z.testbit (regs s' (REG_PACONFIG hdr)) 7 = (14 <? power) /\
    paths (level s') = (if 0 <=? power then (false, power <=? 14, 14 <? power) else (false, false, true)).
Proof.
  clear bound controller pin_rc spi_bus spi_cs.
  intros Hok Hrfo Hpa Hw He Ha Hd Hs P1 P2 P3. destruct (settings_correct power _ Hok Hd) as (c & e & Hp & _ & _ & B & _ & _).
  destruct (set_power_run power s r1 r2 r3 rest c e _ Hok Hs P1 P2 P3 Hp) as (s1 & E & L & _ & R & T).
  destruct (ant_sw (RFLR_OPMODE_TRANSMITTER hdr) s1) as (s2 & l & E2 & _ & _ & _ & _ & W & Rg & _); [by rewrite L|by rewrite L|].
  exists s2. rewrite (bind_done _ _ _ _ _ E). split; [done|]. rewrite W, Rg, R, Z.eqb_refl.
  destruct (Z.eqb_spec (REG_PACONFIG hdr) (REG_PADAC hdr)) as [X|_]; [by destruct (ok_distinct Hok)|].
  rewrite T, B. unfold wanted, SX127X_PA_OUTPUT, served. rewrite Z.eqb_refl, Hrfo, Hpa. cbn [andb].
  unfold SX127X_PA_OUTPUT. rewrite Hrfo, Hpa. cbn [andb].
  destruct (Z.ltb_spec 14 power), (Z.leb_spec 0 power), (Z.leb_spec power 14); try lia;
    (split; [done|]); try destruct (has_MAX_POWER_MASK hdr);
    match goal with |- context [14 <? u8 ?x] => destruct (Z.ltb_spec 14 (u8 x)) as [U|U]; [done || exfalso|done || exfalso] end.
  all: cbn [Z.eqb SX127X_PA_BOOST SX127X_PA_RFO Pos.eqb] in U; unfold u8 in U; change (2 ^ 8) with 256 in U; Z.to_euclidean_division_equations; lia.
Qed.

End driver.

(** ** Witnesses *)

(** An SX1276 with all pins; the constants of its header. *)
Definition demo_board : board := mk_board true true true true true 0 5 [mk_dio 1 4; mk_dio 1 5].
Definition demo_header : header := mk_header 0x09 0x4D 0x42 3 0x07 0x04 0xF8 0x80 0xF0 true.
Definition demo_plat : plat :=
  mk_plat 0 [] (mk_dev (mk_sem 0 1 []) false [] 0 0 0) (Some SX127X) 0%nat ∅ false (fun _ => 0) (fun _ => 0) (fun _ => 0) [].
Definition demo_sx127x : sx127x :=
  mk_sx127x demo_plat (mk_pins false false false false false false) 0 false (fun _ => 0x84) [0; 0; 0; 0] [None; None] [] [] [].

Lemma antenna_paths_exclusive_witness : exists r s1,
  sx127x_lora_init demo_board demo_header (fun _ => []) (fun _ => true) (fun _ => 0) true None demo_sx127x = (Done r, s1) /\ r = 0 /\
  exists s2 l, run_calls demo_board demo_header (fun _ => true) (fun _ => []) [CSetRfTxPower 17; CSetAntSw 3; CSetAntSw 5] s1 = (Done tt, s2) /\
    pin_trace s2 = pin_trace s1 ++ l /\ Forall exclusive l.
Proof.
  destruct (antenna_paths_exclusive demo_board demo_header (fun _ => true) (fun _ => []) (fun _ => true) (fun _ => 0) true None demo_sx127x)
    as (r & s1 & E & H); [intros; lia|by repeat split|].
  assert (Hr : r = 0) by (vm_compute in E; congruence).
  exists r, s1. split; [done|]. split; [done|]. destruct (H Hr) as [_ Hc].
  destruct (Hc [CSetRfTxPower 17; CSetAntSw 3; CSetAntSw 5]) as (s2 & l & E2 & T & F & _). by exists s2, l.
Defined.

Lemma demo_header_ok : header_ok demo_header.
Proof. by split. Qed.

Lemma tx_power_registers_witness : exists s', SX127xSetRfTxPower demo_board demo_header (fun _ => []) 20 demo_sx127x = (Done tt, s') /\
  output_power demo_header (regs s' 0x09) (regs s' 0x4D) = 200.
Proof.
  destruct (tx_power_registers demo_board demo_header (fun _ => []) 20 demo_sx127x 0 0 0 [0]) as (s' & E & _ & (_ & O & _) & _);
    [exact demo_header_ok|cbn; lia|done|lia|lia|lia|].
  exists s'. split; [done|]. by apply O.
Defined.

Lemma antenna_against_amplifier_witness : exists s',
  (SX127xSetRfTxPower demo_board demo_header (fun _ => []) (-3);; SX127xSetAntSw demo_board demo_header 3) demo_sx127x = (Done tt, s') /\
  Z.testbit (regs s' 0x09) 7 = false /\ paths (level s') = (false, false, true).
Proof.
  apply (antenna_against_amplifier demo_board demo_header (fun _ => []) (-3) demo_sx127x 0 0 0 [0]);
    [exact demo_header_ok|done|done|lia|by repeat split; left|done|cbn; lia|done|lia|lia|lia].
Defined.
