(* ===== verification/Sx126x.v ===== *)
(** * The SX126x board code (drivers/lora/sx126x.c)

    Commands over SPI with the chip's BUSY line, the sleep and wake-up
    protocol, the antenna switch, the DIO1 interrupt and the initialisation.

    The chip is what the board code relies on: BUSY is high while it sleeps and
    for some time after a frame or a reset; a sleeping chip ignores a frame and
    wakes up. How long it stays busy, what it answers, the opcodes of the radio
    library's header and the library's own functions are parameters. Every
    frame and every change of the switch is recorded. *)
From S2P Require Import Prelude KSem Platform Sx12xx.
From stdpp Require Import prelude list numbers.
From Stdlib Require Import ZArith Lia.
Import KSem.Sem.
Open Scope Z_scope.

(** [RadioOperatingModes_t], with the names of [mode_names]. *)
Inductive mode : Type := MODE_SLEEP | MODE_STDBY_RC | MODE_STDBY_XOSC | MODE_FS | MODE_TX | MODE_RX | MODE_RX_DC | MODE_CAD.

#[export] Instance mode_eq_dec : EqDecision mode.
Proof. solve_decision. Defined.

(** The device tree node. *)
Record node := mk_node {
  HAVE_GPIO_ANTENNA_ENABLE : bool; HAVE_GPIO_TX_ENABLE : bool; HAVE_GPIO_RX_ENABLE : bool; HAVE_GPIO_CS : bool;
  DIO2_TX_ENABLE : bool; TCXO_DIO3_VOLTAGE : option Z; TCXO_POWER_STARTUP_DELAY_MS : Z; GPIO_DIO1_PIN : Z; SX126X_DEVICE_ID : Z }.

(** Opcodes of the radio library's header, and what its functions send: opcode
    and data of each command. *)
Record library := mk_library {
  RADIO_SET_SLEEP : Z; RADIO_GET_STATUS : Z; RADIO_READ_REGISTER : Z; RADIO_WRITE_REGISTER : Z; RADIO_READ_BUFFER : Z; RADIO_WRITE_BUFFER : Z;
  RADIO_RAMP_40_US : Z;
  SetDio3AsTcxoCtrl_cmds : Z -> Z -> list (Z * list Z); Calibrate_cmds : Z -> list (Z * list Z);
  SetDio2AsRfSwitchCtrl_cmds : bool -> list (Z * list Z); SetTxParams_cmds : Z -> Z -> list (Z * list Z);
  has_IrqProcess : bool }.

(** The chip: how long it is busy after a frame, after waking up and after a
    reset, in milliseconds, and what it sends back during a frame. *)
Record chip_params := mk_chip { busy_after : list Z -> nat; wake_ms : nat; reset_ms : nat; reply : list Z -> nat -> list Z }.

(** ** State *)

Record switch := mk_switch { antenna : bool; tx_enable : bool; rx_enable : bool; chip_reset : bool }.

(** [struct sx126x_data], the chip's state and the records: of a frame, whether
    BUSY was high when it was sent; [irq_runs] counts the calls of the
    library's interrupt handler and of [Radio.IrqProcess]. *)
Record sx126x := mk_sx126x {
  machine : plat; sw : switch; cur_mode : mode; dio1_enabled : bool; radio_dio_irq : bool; dio1_irq_work : bool;
  asleep : bool; busy_ms : nat; bus_rets : list Z; frames : list (bool * list Z); irq_runs : nat * nat; switched : list switch }.

Definition set_machine (x : plat) (s : sx126x) : sx126x :=
  mk_sx126x x (sw s) (cur_mode s) (dio1_enabled s) (radio_dio_irq s) (dio1_irq_work s) (asleep s) (busy_ms s) (bus_rets s) (frames s) (irq_runs s) (switched s).
Definition set_sw (x : switch) (s : sx126x) : sx126x :=
  mk_sx126x (machine s) x (cur_mode s) (dio1_enabled s) (radio_dio_irq s) (dio1_irq_work s) (asleep s) (busy_ms s) (bus_rets s) (frames s) (irq_runs s) (switched s ++ [x]).
Definition set_mode (x : mode) (s : sx126x) : sx126x :=
  mk_sx126x (machine s) (sw s) x (dio1_enabled s) (radio_dio_irq s) (dio1_irq_work s) (asleep s) (busy_ms s) (bus_rets s) (frames s) (irq_runs s) (switched s).
Definition set_dio1_enabled (x : bool) (s : sx126x) : sx126x :=
  mk_sx126x (machine s) (sw s) (cur_mode s) x (radio_dio_irq s) (dio1_irq_work s) (asleep s) (busy_ms s) (bus_rets s) (frames s) (irq_runs s) (switched s).
Definition set_irq (x y : bool) (n : nat * nat) (s : sx126x) : sx126x :=
  mk_sx126x (machine s) (sw s) (cur_mode s) (dio1_enabled s) x y (asleep s) (busy_ms s) (bus_rets s) (frames s) n (switched s).
Definition set_chip (x : bool) (y : nat) (s : sx126x) : sx126x :=
  mk_sx126x (machine s) (sw s) (cur_mode s) (dio1_enabled s) (radio_dio_irq s) (dio1_irq_work s) x y (bus_rets s) (frames s) (irq_runs s) (switched s).
Definition set_bus (x : list Z) (y : list (bool * list Z)) (s : sx126x) : sx126x :=
  mk_sx126x (machine s) (sw s) (cur_mode s) (dio1_enabled s) (radio_dio_irq s) (dio1_irq_work s) (asleep s) (busy_ms s) x y (irq_runs s) (switched s).

#[export] Instance sx126x_plat : PlatState sx126x.
Proof. refine {| plat_of := machine; set_plat := set_machine |}; by intros; destruct s. Defined.

Definition with_ant (b : bool) (w : switch) : switch := mk_switch b (tx_enable w) (rx_enable w) (chip_reset w).
Definition with_tx_enable (b : bool) (w : switch) : switch := mk_switch (antenna w) b (rx_enable w) (chip_reset w).
Definition with_rx_enable (b : bool) (w : switch) : switch := mk_switch (antenna w) (tx_enable w) b (chip_reset w).
Definition with_chip_reset (b : bool) (w : switch) : switch := mk_switch (antenna w) (tx_enable w) (rx_enable w) b.

Definition pin_set (f : switch -> switch) : M sx126x unit := modify (fun s => set_sw (f (sw s)) s).

(** While the processor sleeps the chip gets on. *)
Definition nap (ms : Z) : M sx126x unit :=
  liftp (k_sleep (K_MSEC ms));;
  modify (fun s => set_chip (asleep s) (busy_ms s - Z.to_nat ms) s).

Definition busy (s : sx126x) : bool := asleep s || negb (busy_ms s =? 0)%nat.

Section driver.
Context (nd : node) (lib : library) (chip : chip_params).

(** [spi_write] and [spi_transceive] of one frame: the bytes sent; the result
    and, when it succeeds, [n] bytes that come back. *)
Definition spi_frame (tx : list Z) (n : nat) : M sx126x (Z * list Z) := fun s =>
  let ret := default 0 (head (bus_rets s)) in
  let s1 := set_bus (tail (bus_rets s)) (frames s ++ [(busy s, tx)]) s in
  if ret <? 0 then (Done (ret, []), s1)
  else
    let s2 :=
      if asleep s then set_chip false (wake_ms chip) s1
      else if (default 0 (head tx) =? RADIO_SET_SLEEP lib) then set_chip true 0 s1
      else set_chip false (busy_after chip tx) s1 in
    (Done (ret, reply chip tx n), s2).

(** ** Operations *)

Definition SX126xWaitOnBusy (fuel : nat) : M sx126x unit :=
  loop fuel (fun _ => b ← gets busy; if b : bool then nap 1;; mret (inl tt) else mret (inr tt)) tt.

Definition SX126xAntSwOn : M sx126x unit := when (HAVE_GPIO_ANTENNA_ENABLE nd) (pin_set (with_ant true)).
Definition SX126xAntSwOff : M sx126x unit := when (HAVE_GPIO_ANTENNA_ENABLE nd) (pin_set (with_ant false)).
Definition sx126x_set_tx_enable (value : bool) : M sx126x unit := when (HAVE_GPIO_TX_ENABLE nd) (pin_set (with_tx_enable value)).
Definition sx126x_set_rx_enable (value : bool) : M sx126x unit := when (HAVE_GPIO_RX_ENABLE nd) (pin_set (with_rx_enable value)).

Definition SX126xWakeup (fuel : nat) : M sx126x unit :=
  modify (set_dio1_enabled true);;
  r ← spi_frame [RADIO_GET_STATUS lib; 0] 0;
  if r.1 <? 0 then mret tt
  else
    SX126xWaitOnBusy fuel;;
    modify (set_mode MODE_STDBY_RC).

(** The library's test whether the chip has to be woken up. *)
Context (fuel : nat) (SX126xCheckDeviceReady : M sx126x unit).

(** A buffer that is not there sends zeros; [n] bytes are kept of the answer. *)
Definition sx126x_spi_transceive (req data : list Z) (n : nat) : M sx126x (Z * list Z) :=
  SX126xCheckDeviceReady;;
  r ← spi_frame (req ++ data) n;
  when (negb (default 0 (head req) =? RADIO_SET_SLEEP lib)) (SX126xWaitOnBusy fuel);;
  mret r.

Definition SX126xReadRegisters (address size : Z) : M sx126x (list Z) :=
  r ← sx126x_spi_transceive [RADIO_READ_REGISTER lib; Z.land (Z.shiftr address 8) 0xff; Z.land address 0xff; 0]
        (replicate (Z.to_nat size) 0) (Z.to_nat size);
  mret r.2.
Definition SX126xReadRegister (address : Z) : M sx126x (list Z) := SX126xReadRegisters address 1.

Definition SX126xWriteRegisters (address : Z) (buffer : list Z) : M sx126x unit :=
  _ ← sx126x_spi_transceive [RADIO_WRITE_REGISTER lib; Z.land (Z.shiftr address 8) 0xff; Z.land address 0xff] buffer 0; mret tt.
Definition SX126xWriteRegister (address value : Z) : M sx126x unit := SX126xWriteRegisters address [value].

(** The status is the second byte that comes back. *)
Definition SX126xReadCommand (opcode size : Z) : M sx126x (list Z) :=
  r ← sx126x_spi_transceive [opcode; 0] (replicate (Z.to_nat size) 0) (2 + Z.to_nat size);
  mret r.2.

Definition SX126xWriteCommand (opcode : Z) (buffer : list Z) : M sx126x unit :=
  _ ← sx126x_spi_transceive [opcode] buffer 0; mret tt.

Definition SX126xReadBuffer (offset size : Z) : M sx126x (list Z) :=
  r ← sx126x_spi_transceive [RADIO_READ_BUFFER lib; offset; 0] (replicate (Z.to_nat size) 0) (Z.to_nat size); mret r.2.
Definition SX126xWriteBuffer (offset : Z) (buffer : list Z) : M sx126x unit :=
  _ ← sx126x_spi_transceive [RADIO_WRITE_BUFFER lib; offset] buffer 0; mret tt.

Definition SX126xGetOperatingMode : M sx126x mode := gets cur_mode.

Definition SX126xSetOperatingMode (m : mode) : M sx126x unit :=
  modify (set_mode m);;
  match m with
  | MODE_TX =>
      sx126x_set_rx_enable false;;
      sx126x_set_tx_enable true
  | MODE_RX | MODE_RX_DC | MODE_CAD =>
      sx126x_set_tx_enable false;;
      sx126x_set_rx_enable true
  | _ =>
      when (bool_decide (m = MODE_SLEEP)) (modify (set_dio1_enabled false));;
      sx126x_set_rx_enable false;;
      sx126x_set_tx_enable false
  end.

Definition SX126xGetBoardTcxoWakeupTime : Z := TCXO_POWER_STARTUP_DELAY_MS nd.
Definition SX126xGetDeviceId : Z := SX126X_DEVICE_ID nd.

Definition SX126xIoIrqInit (dioIrq : bool) : M sx126x unit := modify (fun s => set_irq dioIrq (dio1_irq_work s) (irq_runs s) s).

(** The library's functions send their commands through this file. *)
Fixpoint send_commands (cmds : list (Z * list Z)) : M sx126x unit :=
  match cmds with [] => mret tt | (op, data) :: cmds => SX126xWriteCommand op data;; send_commands cmds end.

Definition SX126X_CALIBRATION_ALL : Z := 0x7f.

Definition SX126xIoTcxoInit : M sx126x unit :=
  match TCXO_DIO3_VOLTAGE nd with
  | Some voltage =>
      send_commands (SetDio3AsTcxoCtrl_cmds lib voltage (Z.shiftl (TCXO_POWER_STARTUP_DELAY_MS nd) 6));;
      send_commands (Calibrate_cmds lib SX126X_CALIBRATION_ALL)
  | None => mret tt
  end.

Definition SX126xIoRfSwitchInit : M sx126x unit := send_commands (SetDio2AsRfSwitchCtrl_cmds lib (DIO2_TX_ENABLE nd)).

(** Releasing the reset line starts the chip. *)
Definition SX126xReset : M sx126x unit :=
  pin_set (with_chip_reset true);;
  nap 20;;
  pin_set (with_chip_reset false);;
  modify (set_chip false (reset_ms chip));;
  nap 10;;
  modify (set_mode MODE_STDBY_RC).

Definition SX126xSetRfTxPower (power : Z) : M sx126x unit := send_commands (SetTxParams_cmds lib power (RADIO_RAMP_40_US lib)).

(** The work queue takes the work before it calls the handler. *)
Definition sx126x_dio1_irq_work_handler : M sx126x unit :=
  modify (fun s => set_irq (radio_dio_irq s) false (irq_runs s) s);;
  h ← gets radio_dio_irq;
  if negb h then mret tt
  else
    modify (fun s => set_irq true (dio1_irq_work s) (S (irq_runs s).1, (irq_runs s).2) s);;
    when (has_IrqProcess lib) (modify (fun s => set_irq true (dio1_irq_work s) ((irq_runs s).1, S (irq_runs s).2) s)).

Definition sx126x_dio1_irq_callback (pins : Z) : M sx126x unit :=
  when (negb (Z.land pins (Z.shiftl 1 (GPIO_DIO1_PIN nd)) =? 0)) (modify (fun s => set_irq (radio_dio_irq s) true (irq_runs s) s)).

(** ** Initialisation *)

Inductive line := LReset | LBusy | LDio1 | LAntenna | LRx | LTx.

(** The results of configuring the pins, of adding the callback, and whether
    the bus and the controller of its chip select are there. *)
Context (line_rc : line -> Z) (add_rc : Z) (spi_bus cs_gpio : bool).

Definition configure (l : line) (present : bool) (f : switch -> switch) : M sx126x Z :=
  if negb present then mret 0
  else if negb (line_rc l =? 0) then mret (line_rc l)
  else pin_set f;; mret 0.

Fixpoint configure_all (ls : list (line * bool * (switch -> switch))) : M sx126x bool :=
  match ls with
  | [] => mret false
  | (l, present, f) :: ls =>
      r ← configure l present f;
      if negb (r =? 0) then mret true else configure_all ls
  end.

Definition init_lines : list (line * bool * (switch -> switch)) :=
  [(LReset, true, with_chip_reset true); (LBusy, true, id); (LDio1, true, id);
   (LAntenna, HAVE_GPIO_ANTENNA_ENABLE nd, with_ant false); (LRx, HAVE_GPIO_RX_ENABLE nd, with_rx_enable false);
   (LTx, HAVE_GPIO_TX_ENABLE nd, with_tx_enable false)].

Definition sx126x_lora_init : M sx126x Z :=
  failed ← configure_all init_lines;
  if failed : bool then mret (- EIO) else
  if add_rc <? 0 then mret (- EIO) else
  if negb spi_bus then mret (- EINVAL) else
  if HAVE_GPIO_CS nd && negb cs_gpio then mret (- EIO) else
  ret ← liftp sx12xx_init;
  if ret <? 0 then mret ret else mret 0.

(** ** Use by the radio library *)

(** The calls the library makes. It goes to sleep by sending the command and
    setting the mode; another mode is set only when the chip is awake. *)
Inductive call :=
| CReadRegisters (address size : Z) | CWriteRegisters (address : Z) (buffer : list Z)
| CReadCommand (opcode size : Z) | CWriteCommand (opcode : Z) (buffer : list Z)
| CReadBuffer (offset size : Z) | CWriteBuffer (offset : Z) (buffer : list Z)
| CSleep (buffer : list Z) | CSetOperatingMode (m : mode) | CAntSw (on : bool)
| CIoIrqInit (h : bool) | CIoTcxoInit | CIoRfSwitchInit | CReset | CSetRfTxPower (power : Z)
| CIrq (pins : Z) | CWork.

Definition run_call (c : call) : M sx126x unit :=
  match c with
  | CReadRegisters a n => _ ← SX126xReadRegisters a n; mret tt
  | CWriteRegisters a b => SX126xWriteRegisters a b
  | CReadCommand op n => _ ← SX126xReadCommand op n; mret tt
  | CWriteCommand op b => SX126xWriteCommand op b
  | CReadBuffer o n => _ ← SX126xReadBuffer o n; mret tt
  | CWriteBuffer o b => SX126xWriteBuffer o b
  | CSleep b => SX126xWriteCommand (RADIO_SET_SLEEP lib) b;; SX126xSetOperatingMode MODE_SLEEP
  | CSetOperatingMode m => SX126xSetOperatingMode m
  | CAntSw on => if on then SX126xAntSwOn else SX126xAntSwOff
  | CIoIrqInit h => SX126xIoIrqInit h
  | CIoTcxoInit => SX126xIoTcxoInit
  | CIoRfSwitchInit => SX126xIoRfSwitchInit
  | CReset => SX126xReset
  | CSetRfTxPower p => SX126xSetRfTxPower p
  | CIrq pins => sx126x_dio1_irq_callback pins
  | CWork => sx126x_dio1_irq_work_handler
  end.

Definition allowed (c : call) (s : sx126x) : Prop :=
  match c with
  | CReadCommand op _ | CWriteCommand op _ => op <> RADIO_SET_SLEEP lib
  | CSetOperatingMode m => m = MODE_SLEEP \/ cur_mode s <> MODE_SLEEP
  | _ => True
  end.

(** One call of the library, and the states it can lead to. *)
Inductive steps (s : sx126x) : sx126x -> Prop :=
| steps_refl : steps s s
| steps_call c s1 s2 : steps s s1 -> allowed c s1 -> run_call c s1 = (Done tt, s2) -> steps s s2.

(** ** Discipline *)

(** What the board code relies on: the library wakes a sleeping chip before a
    command and otherwise does nothing or wakes it, no command but SET_SLEEP
    has its opcode, the chip is ready in time. *)
Record relies : Prop := {
  rl_ready : forall s, SX126xCheckDeviceReady s = (Done tt, s) \/ SX126xCheckDeviceReady s = (SX126xWakeup fuel;; SX126xAntSwOn) s;
  rl_sleep : forall s, cur_mode s = MODE_SLEEP -> SX126xCheckDeviceReady s = (SX126xWakeup fuel;; SX126xAntSwOn) s;
  rl_ops : Forall (fun op => op <> RADIO_SET_SLEEP lib)
    [RADIO_GET_STATUS lib; RADIO_READ_REGISTER lib; RADIO_WRITE_REGISTER lib; RADIO_READ_BUFFER lib; RADIO_WRITE_BUFFER lib];
  rl_tcxo : forall v t, Forall (fun cmd => cmd.1 <> RADIO_SET_SLEEP lib) (SetDio3AsTcxoCtrl_cmds lib v t);
  rl_calibrate : forall c, Forall (fun cmd => cmd.1 <> RADIO_SET_SLEEP lib) (Calibrate_cmds lib c);
  rl_dio2 : forall e, Forall (fun cmd => cmd.1 <> RADIO_SET_SLEEP lib) (SetDio2AsRfSwitchCtrl_cmds lib e);
  rl_params : forall p r, Forall (fun cmd => cmd.1 <> RADIO_SET_SLEEP lib) (SetTxParams_cmds lib p r);
  rl_wake : (wake_ms chip < fuel)%nat; rl_busy : forall f, (busy_after chip f < fuel)%nat; rl_reset : (reset_ms chip <= 10)%nat }.

(** The switch never connects both ports. *)
Definition exclusive (w : switch) : Prop := tx_enable w = false \/ rx_enable w = false.
Definition absent_low (w : switch) : Prop :=
  (HAVE_GPIO_TX_ENABLE nd = false -> tx_enable w = false) /\ (HAVE_GPIO_RX_ENABLE nd = false -> rx_enable w = false).

(** A frame is sent when BUSY is low, except the one that wakes the chip. *)
Definition polite (f : bool * list Z) : Prop := f.1 = false \/ f.2 = [RADIO_GET_STATUS lib; 0].

Definition fine (s : sx126x) : Prop := exclusive (sw s) /\ absent_low (sw s) /\ Forall (fun r => 0 <= r) (bus_rets s).
Definition idle (s : sx126x) : Prop := fine s /\ asleep s = false /\ busy_ms s = 0%nat.
Definition ok (s : sx126x) : Prop := fine s /\ (busy s = false \/ cur_mode s = MODE_SLEEP).

(** A computation that returns, keeping the discipline. *)
Definition safe {A} (P : sx126x -> Prop) (m : M sx126x A) (Q : A -> sx126x -> Prop) : Prop := forall s, P s ->
  exists a s' l f, m s = (Done a, s') /\ switched s' = switched s ++ l /\ Forall exclusive l /\
    frames s' = frames s ++ f /\ Forall polite f /\ Q a s'.

Lemma safe_bind {A B} P R Q (m : M sx126x A) (k : A -> M sx126x B) :
  safe P m R -> (forall a, safe (R a) (k a) Q) -> safe P (mbind k m) Q.
Proof.
  intros Hm Hk s HP. destruct (Hm s HP) as (a & s1 & l1 & f1 & E1 & W1 & X1 & F1 & P1 & HR).
  destruct (Hk a s1 HR) as (b & s2 & l2 & f2 & E2 & W2 & X2 & F2 & P2 & HQ).
  exists b, s2, (l1 ++ l2), (f1 ++ f2). rewrite (bind_done _ _ _ _ _ E1), W2, W1, F2, F1, !app_assoc.
  split; [done|]. split; [done|]. split; [by apply Forall_app|]. split; [done|]. split; [by apply Forall_app|done].
Qed.

Lemma safe_pre {A} P P' Q (m : M sx126x A) : (forall s, P' s -> P s) -> safe P m Q -> safe P' m Q.
Proof. intros H Hm s HP. apply Hm. auto. Qed.
Lemma safe_post {A} P (Q Q' : A -> sx126x -> Prop) (m : M sx126x A) : (forall a s, Q a s -> Q' a s) -> safe P m Q -> safe P m Q'.
Proof. intros H Hm s HP. destruct (Hm s HP) as (a & s' & l & f & E & W & X & F & Y & HQ). exists a, s', l, f. auto 10. Qed.

(** What neither switches nor sends. *)
Lemma safe_still {A} P Q (m : M sx126x A) :
  (forall s, P s -> exists a s', m s = (Done a, s') /\ switched s' = switched s /\ frames s' = frames s /\ Q a s') -> safe P m Q.
Proof.
  intros H s HP. destruct (H s HP) as (a & s' & E & W & F & HQ). exists a, s', [], []. rewrite !app_nil_r.
  split; [done|]. split; [done|]. split; [by apply Forall_nil|]. split; [done|]. split; [by apply Forall_nil|done].
Qed.

Lemma safe_ret {A} P (a : A) : safe P (mret a) (fun _ => P).
Proof. apply safe_still. intros s HP. by exists a, s. Qed.
Lemma safe_gets {A} P (g : sx126x -> A) : safe P (gets g) (fun _ => P).
Proof. apply safe_still. intros s HP. by exists (g s), s. Qed.
Lemma safe_modify P Q (g : sx126x -> sx126x) :
  (forall s, P s -> switched (g s) = switched s /\ frames (g s) = frames s /\ Q (g s)) -> safe P (modify g) (fun _ => Q).
Proof. intros H. apply safe_still. intros s HP. exists tt, (g s). by destruct (H s HP) as (? & ? & ?). Qed.
Lemma safe_when P b m : (b = true -> safe P m (fun _ => P)) -> safe P (when b m) (fun _ => P).
Proof. destruct b; intros H; [by apply H|apply safe_ret]. Qed.

(** Changing the switch. *)
Lemma safe_pin P Q g : (forall s, P s -> exclusive (g (sw s)) /\ Q (set_sw (g (sw s)) s)) -> safe P (pin_set g) (fun _ => Q).
Proof.
  intros H s HP. destruct (H s HP) as [HE HQ]. exists tt, (set_sw (g (sw s)) s), [g (sw s)], [].
  rewrite app_nil_r. split; [done|]. split; [done|]. split; [by apply Forall_cons|]. split; [done|]. split; [by apply Forall_nil|done].
Qed.

Lemma safe_nap P Q ms :
  (forall s p, P s -> Q (set_chip (asleep s) (busy_ms s - Z.to_nat ms) (set_machine p s))) -> safe P (nap ms) (fun _ => Q).
Proof.
  intros H. apply safe_still. intros s HP. eexists tt, _. split; [reflexivity|]. split; [done|]. split; [done|].
  exact (H s (elapse (Z.max ms 0) (emit (EvSleep (Z.max ms 0)) (machine s))) HP).
Qed.

(** The wait ends once the chip is ready. *)
Lemma safe_wait n : safe (fun s => fine s /\ asleep s = false /\ (busy_ms s < n)%nat) (SX126xWaitOnBusy n) (fun _ => idle).
Proof.
  induction n as [|n IH]; [intros s (_ & _ & H); lia|].
  intros s (Hf & Ha & Hb). unfold SX126xWaitOnBusy. cbn [loop].
  destruct (busy_ms s) as [|k] eqn:E.
  - rewrite bind_assoc, bind_gets. unfold busy. rewrite Ha, E. cbn. exists tt, s, [], []. rewrite !app_nil_r.
    split; [done|]. split; [done|]. split; [by apply Forall_nil|]. split; [done|]. split; [by apply Forall_nil|done].
  - rewrite bind_assoc, bind_gets. unfold busy. rewrite Ha, E. cbn [orb negb Nat.eqb].
    assert (H : safe (fun x => x = s)
      (nap 1;; SX126xWaitOnBusy n) (fun _ => idle)).
    { eapply (safe_bind _ (fun _ => _)); [|intros _; exact IH]. apply safe_nap. intros s' p Es. subst s'. cbn. rewrite Ha, E. cbn.
      split; [exact Hf|]. split; [done|]. lia. }
    destruct (H s eq_refl) as (a & s' & l & f & Er & Q). exists a, s', l, f. rewrite bind_assoc. split; [|exact Q].
    rewrite <- Er. done.
Qed.

Lemma bus_tail s : fine s -> Forall (fun r => 0 <= r) (tail (bus_rets s)) /\ 0 <= default 0 (head (bus_rets s)).
Proof. intros (_ & _ & H). destruct (bus_rets s) as [|r l]; cbn; [done|]. by inversion H. Qed.

(** One frame: what the chip makes of it. *)
Definition after_frame (tx : list Z) (s0 s : sx126x) : Prop :=
  (if asleep s0 then asleep s = false /\ busy_ms s = wake_ms chip
   else if default 0 (head tx) =? RADIO_SET_SLEEP lib then asleep s = true /\ busy_ms s = 0%nat
   else asleep s = false /\ busy_ms s = busy_after chip tx) /\ cur_mode s = cur_mode s0.

Lemma safe_frame (P : sx126x -> Prop) tx n :
  (forall s, P s -> fine s /\ polite (busy s, tx)) ->
  safe P (spi_frame tx n) (fun r s => 0 <= r.1 /\ fine s /\ exists s0, P s0 /\ after_frame tx s0 s).
Proof.
  intros H s HP. destruct (H s HP) as [Hf Hp]. destruct (bus_tail s Hf) as [Ht Hh]. destruct Hf as (F1 & F2 & F3).
  unfold spi_frame. destruct (Z.ltb_spec (default 0 (head (bus_rets s))) 0); [lia|].
  eexists _, _, [], [(busy s, tx)]. split; [reflexivity|]. rewrite app_nil_r. unfold after_frame.
  assert (Forall polite [(busy s, tx)]) by (apply Forall_cons; [done|by apply Forall_nil]).
  destruct (asleep s) eqn:Ea; [|destruct (_ =? RADIO_SET_SLEEP lib) eqn:Eo]; cbn.
  all: split; [done|]; split; [by apply Forall_nil|]; split; [done|]; split; [done|].
  all: split; [done|]; split; [done|]; exists s; rewrite Ea; rewrite ?Eo; done.
Qed.

Section discipline.
Context (Hr : relies).

Lemma op_get_status : (RADIO_GET_STATUS lib =? RADIO_SET_SLEEP lib) = false.
Proof. apply Z.eqb_neq. pose proof (rl_ops Hr) as H. by inversion H. Qed.

(** Waking up works whatever state the chip is in. *)
Lemma safe_wakeup : safe fine (SX126xWakeup fuel) (fun _ => idle).
Proof.
  unfold SX126xWakeup. eapply safe_bind; [apply (safe_modify _ fine); done|intros ?; cbv beta].
  eapply safe_bind; [apply safe_frame; intros s Hf; split; [done|by right]|intros [r d]; cbv beta; cbn [fst]].
  destruct (Z.ltb_spec r 0); [intros s [? _]; lia|].
  eapply (safe_bind _ (fun _ => idle)); [|intros ?; by apply safe_modify].
  eapply safe_pre; [|apply safe_wait]. intros s (_ & Hf & s0 & _ & A & _). split; [done|].
  cbn [default head from_option id] in A. rewrite op_get_status in A. destruct (asleep s0), A as [-> ->].
  - split; [done|apply (rl_wake Hr)].
  - split; [done|apply (rl_busy Hr)].
Qed.

Lemma safe_antenna b P : (forall s, P s -> P (set_sw (with_ant b (sw s)) s)) -> (forall s, P s -> exclusive (sw s)) ->
  safe P (when (HAVE_GPIO_ANTENNA_ENABLE nd) (pin_set (with_ant b))) (fun _ => P).
Proof. intros H1 H2. apply safe_when. intros _. apply safe_pin. intros s HP. split; [exact (H2 s HP)|exact (H1 s HP)]. Qed.

(** After the library's test the chip is ready for a frame. *)
Lemma safe_check : safe ok SX126xCheckDeviceReady (fun _ => idle).
Proof.
  assert (W : safe fine (SX126xWakeup fuel;; SX126xAntSwOn) (fun _ => idle)).
  { eapply safe_bind; [apply safe_wakeup|intros ?; apply safe_antenna; [done|by intros s [[? _] _]]]. }
  intros s [Hf Hc]. destruct (decide (cur_mode s = MODE_SLEEP)) as [Em|Em]; [rewrite (rl_sleep Hr s Em); by apply W|].
  destruct Hc as [Hb|]; [|done]. destruct (rl_ready Hr s) as [E|E]; rewrite E; [|by apply W].
  apply safe_ret. apply orb_false_iff in Hb as [Ha Hb]. apply negb_false_iff, Nat.eqb_eq in Hb. done.
Qed.

(** A transfer other than SET_SLEEP leaves the chip ready. *)
Lemma safe_transceive req data n : req <> [] -> default 0 (head req) <> RADIO_SET_SLEEP lib ->
  safe ok (sx126x_spi_transceive req data n) (fun _ => idle).
Proof.
  intros Hn Hop. unfold sx126x_spi_transceive. eapply safe_bind; [apply safe_check|intros ?; cbv beta].
  eapply safe_bind; [apply safe_frame; intros s (Hf & Ha & Hb); split; [done|left; cbn; unfold busy; by rewrite Ha, Hb]|].
  intros r; cbv beta. rewrite (proj2 (Z.eqb_neq _ _) Hop). cbn [negb when].
  eapply (safe_bind _ (fun _ => idle)); [|intros ?; apply safe_ret]. eapply safe_pre; [|apply safe_wait].
  intros s (_ & Hf & s0 & (_ & Ha & _) & A & _). rewrite Ha in A. destruct req as [|op req]; [done|].
  cbn [app default head from_option id] in A, Hop. rewrite (proj2 (Z.eqb_neq _ _) Hop) in A. destruct A as [-> ->].
  split; [done|]. split; [done|apply (rl_busy Hr)].
Qed.

Lemma idle_ok s : idle s -> ok s.
Proof. intros (Hf & Ha & Hb). split; [done|]. left. unfold busy. by rewrite Ha, Hb. Qed.

Lemma safe_write req data : req <> [] -> default 0 (head req) <> RADIO_SET_SLEEP lib ->
  safe ok (_ ← sx126x_spi_transceive req data 0; mret tt) (fun _ => ok).
Proof.
  intros H1 H2. eapply safe_bind; [by apply safe_transceive|intros ?; cbv beta].
  eapply safe_post; [|apply safe_ret]. intros ? s. apply idle_ok.
Qed.
Lemma safe_read req data n : req <> [] -> default 0 (head req) <> RADIO_SET_SLEEP lib ->
  safe ok (_ ← (r ← sx126x_spi_transceive req data n; mret r.2); mret tt) (fun _ => ok).
Proof.
  intros H1 H2. eapply safe_bind; [|intros ?; apply safe_ret].
  eapply safe_bind; [by apply safe_transceive|intros ?; cbv beta].
  eapply safe_post; [|apply safe_ret]. intros ? s. apply idle_ok.
Qed.

Lemma safe_commands cmds : Forall (fun cmd => cmd.1 <> RADIO_SET_SLEEP lib) cmds -> safe ok (send_commands cmds) (fun _ => ok).
Proof.
  induction 1 as [|[op data] cmds Hop _ IH]; [apply safe_ret|]. cbn [send_commands].
  eapply safe_bind; [by apply safe_write|intros ?; exact IH].
Qed.

(** One port off, then the other one on. *)
Lemma safe_rx b : safe (fun s => ok s /\ (b = false \/ tx_enable (sw s) = false)) (sx126x_set_rx_enable b)
  (fun _ s => ok s /\ (b = true \/ rx_enable (sw s) = false)).
Proof.
  unfold sx126x_set_rx_enable. destruct (HAVE_GPIO_RX_ENABLE nd) eqn:E; cbn [when].
  - apply safe_pin. intros s [[(Hx & (A1 & A2) & Hb) Hm] Ht].
    assert (exclusive (with_rx_enable b (sw s))) by (unfold exclusive in *; cbn; destruct Ht; auto).
    split; [done|]. split; [|destruct b; auto]. split; [split; [done|split; [split; [exact A1|congruence]|done]]|done].
  - eapply safe_post; [|apply safe_ret]. intros ? s [Ho _]. split; [done|]. destruct Ho as [(_ & (_ & A2) & _) _]. auto.
Qed.
Lemma safe_tx b : safe (fun s => ok s /\ (b = false \/ rx_enable (sw s) = false)) (sx126x_set_tx_enable b)
  (fun _ s => ok s /\ (b = true \/ tx_enable (sw s) = false)).
Proof.
  unfold sx126x_set_tx_enable. destruct (HAVE_GPIO_TX_ENABLE nd) eqn:E; cbn [when].
  - apply safe_pin. intros s [[(Hx & (A1 & A2) & Hb) Hm] Ht].
    assert (exclusive (with_tx_enable b (sw s))) by (unfold exclusive in *; cbn; destruct Ht; auto).
    split; [done|]. split; [|destruct b; auto]. split; [split; [done|split; [split; [congruence|exact A2]|done]]|done].
  - eapply safe_post; [|apply safe_ret]. intros ? s [Ho _]. split; [done|]. destruct Ho as [(_ & (A1 & _) & _) _]. auto.
Qed.

Lemma safe_mode m : safe (fun s => fine s /\ (busy s = false \/ m = MODE_SLEEP)) (SX126xSetOperatingMode m) (fun _ => ok).
Proof.
  unfold SX126xSetOperatingMode. eapply (safe_bind _ (fun _ => ok)); [apply safe_modify; intros s [Hf Hm]; done|intros ?].
  assert (Off : safe ok (when (bool_decide (m = MODE_SLEEP)) (modify (set_dio1_enabled false));; sx126x_set_rx_enable false;; sx126x_set_tx_enable false) (fun _ => ok)).
  { eapply safe_bind; [apply safe_when; intros ?; by apply (safe_modify _ ok)|intros ?].
    eapply safe_bind; [eapply safe_pre; [|apply (safe_rx false)]; intros s Ho; exact (conj Ho (or_introl eq_refl))|intros ?; cbv beta].
    eapply safe_post; [|eapply safe_pre; [|apply safe_tx]]; [by intros ? ? [? _]|intros s [? _]; auto]. }
  assert (On : safe ok (sx126x_set_tx_enable false;; sx126x_set_rx_enable true) (fun _ => ok)).
  { eapply safe_bind; [eapply safe_pre; [|apply (safe_tx false)]; intros s Ho; exact (conj Ho (or_introl eq_refl))|intros ?; cbv beta].
    eapply safe_post; [|eapply safe_pre; [|apply safe_rx]]; [by intros ? ? [? _]|intros s [? [|]]; auto; done]. }
  destruct m; try exact Off; try exact On.
  eapply safe_bind; [eapply safe_pre; [|apply (safe_rx false)]; intros s Ho; exact (conj Ho (or_introl eq_refl))|intros ?; cbv beta].
  eapply safe_post; [|eapply safe_pre; [|apply safe_tx]]; [by intros ? ? [? _]|intros s [? [|]]; auto; done].
Qed.

(** Going to sleep. *)
Lemma safe_sleep data : safe ok (SX126xWriteCommand (RADIO_SET_SLEEP lib) data;; SX126xSetOperatingMode MODE_SLEEP) (fun _ => ok).
Proof.
  eapply (safe_bind _ (fun _ => fine)); [|intros ?; eapply safe_pre; [|apply safe_mode]; intros s Hf; split; [done|by right]].
  eapply (safe_bind _ (fun _ => fine)); [|intros ?; apply safe_ret].
  unfold sx126x_spi_transceive. eapply safe_bind; [apply safe_check|intros ?; cbv beta].
  eapply safe_bind; [apply safe_frame; intros s (Hf & Ha & Hb); split; [done|left; cbn; unfold busy; by rewrite Ha, Hb]|].
  intros r; cbv beta. cbn [head default from_option id]. rewrite Z.eqb_refl. cbn [negb when].
  eapply (safe_bind _ (fun _ => fine)); [eapply safe_pre; [|apply safe_ret]; by intros s (_ & Hf & _)|intros ?; apply safe_ret].
Qed.

Lemma safe_reset : safe ok SX126xReset (fun _ => ok).
Proof.
  unfold SX126xReset.
  eapply (safe_bind _ (fun _ => fine)); [apply safe_pin; intros s [(? & ? & ?) _]; done|intros ?].
  eapply (safe_bind _ (fun _ => fine)); [by apply safe_nap|intros ?].
  eapply (safe_bind _ (fun _ => fine)); [apply safe_pin; intros s (? & ? & ?); done|intros ?].
  eapply (safe_bind _ (fun _ s => fine s /\ asleep s = false /\ (busy_ms s <= 10)%nat));
    [apply safe_modify; intros s Hf; pose proof (rl_reset Hr); done|intros ?].
  eapply (safe_bind _ (fun _ => idle)); [apply safe_nap; intros s p (Hf & Ha & Hb); split; [done|]; split; [done|cbn; lia]|intros ?].
  apply safe_modify. intros s H. split; [done|]. split; [done|]. by apply idle_ok.
Qed.

Lemma safe_call c s : allowed c s -> ok s -> exists s' l f, run_call c s = (Done tt, s') /\ switched s' = switched s ++ l /\
  Forall exclusive l /\ frames s' = frames s ++ f /\ Forall polite f /\ ok s'.
Proof.
  intros Ha Ho. cut (safe (fun x => x = s) (run_call c) (fun _ => ok)).
  { intros H. destruct (H s eq_refl) as ([] & s' & l & f & Q). by exists s', l, f. }
  pose proof (rl_ops Hr) as Hops. repeat (inversion Hops as [|? ? ? Hops']; subst; clear Hops; rename Hops' into Hops).
  assert (L : forall m, safe ok m (fun _ => ok) -> safe (fun x => x = s) m (fun _ : unit => ok)).
  { intros m Hm. eapply safe_pre; [|exact Hm]. by intros x ->. }
  destruct c; cbn [run_call allowed] in *; unfold SX126xReadRegisters, SX126xReadCommand, SX126xReadBuffer.
  all: try (by apply L, safe_read). all: try (by apply L, safe_write).
  - by apply L, safe_sleep.
  - eapply safe_pre; [|apply safe_mode]. intros x ->. destruct Ho as [Hf Hb]. split; [done|]. destruct Ha, Hb; auto; done.
  - apply L. destruct on; (apply safe_antenna; [done|by intros x [[? _] _]]).
  - by apply L, (safe_modify _ ok).
  - apply L. unfold SX126xIoTcxoInit. destruct (TCXO_DIO3_VOLTAGE nd) as [v|]; [|apply safe_ret].
    eapply safe_bind; [apply safe_commands, (rl_tcxo Hr)|intros ?; apply safe_commands, (rl_calibrate Hr)].
  - apply L, safe_commands, (rl_dio2 Hr).
  - by apply L, safe_reset.
  - apply L, safe_commands, (rl_params Hr).
  - apply L, safe_when. intros ?. by apply (safe_modify _ ok).
  - apply L. eapply safe_bind; [by apply (safe_modify _ ok)|intros ?]. eapply safe_bind; [apply safe_gets|intros h; cbv beta].
    destruct (negb h); [apply safe_ret|]. eapply safe_bind; [by apply (safe_modify _ ok)|intros ?].
    apply safe_when. intros ?. by apply (safe_modify _ ok).
Qed.

Lemma steps_safe s s' : ok s -> steps s s' -> ok s' /\ exists l f, switched s' = switched s ++ l /\ Forall exclusive l /\
  frames s' = frames s ++ f /\ Forall polite f.
Proof.
  intros Ho. induction 1 as [|c s1 s2 H [Ho1 (l & f & W & X & F & Y)] Ha E].
  - split; [done|]. exists [], []. rewrite !app_nil_r. split; [done|]. split; [by apply Forall_nil|]. split; [done|by apply Forall_nil].
  - destruct (safe_call c s1 Ha Ho1) as (s' & l2 & f2 & E2 & W2 & X2 & F2 & Y2 & Ho2). rewrite E in E2. injection E2 as <-.
    split; [done|]. exists (l ++ l2), (f ++ f2). rewrite W2, W, F2, F, !app_assoc. split; [done|].
    split; [by apply Forall_app|]. split; [done|by apply Forall_app].
Qed.

(** ** Initialisation *)

(** When every pin can be configured, the present ones have their levels. *)
Lemma configure_run ls s : exists b s', configure_all ls s = (Done b, s') /\ cur_mode s' = cur_mode s /\ bus_rets s' = bus_rets s /\
  (b = false -> sw s' = fold_left (fun w '(_, p, g) => if p : bool then g w else w) ls (sw s)).
Proof.
  revert s. induction ls as [|[[l p] g] ls IH]; intros s; [by eexists _, _|]. cbn [configure_all].
  unfold configure. destruct p; cbn [negb].
  - destruct (Z.eqb_spec (line_rc l) 0) as [|N]; cbn [negb]; [apply (IH (set_sw (g (sw s)) s))|].
    rewrite bind_ret. destruct (Z.eqb_spec (line_rc l) 0); [done|]. by exists true, s.
  - apply IH.
Qed.

Lemma lora_init_ok s : cur_mode s = MODE_SLEEP -> absent_low (sw s) -> Forall (fun r => 0 <= r) (bus_rets s) ->
  exists r s', sx126x_lora_init s = (Done r, s') /\ (r = 0 -> ok s').
Proof.
  intros Hm [A1 A2] Hb. unfold sx126x_lora_init. destruct (configure_run init_lines s) as (b & s1 & E & M1 & B1 & W).
  rewrite (bind_done _ _ _ _ _ E). destruct b; [by eexists _, _|]. specialize (W eq_refl). cbn in W.
  destruct (add_rc <? 0); [by eexists _, _|]. destruct (negb spi_bus); [by eexists _, _|]. destruct (_ && _); [by eexists _, _|].
  eexists 0, _. split; [reflexivity|]. intros _. split; [|right; cbn; congruence].
  unfold fine, exclusive, absent_low. cbn. rewrite W, B1.
  destruct (HAVE_GPIO_ANTENNA_ENABLE nd), (HAVE_GPIO_RX_ENABLE nd), (HAVE_GPIO_TX_ENABLE nd); cbn; auto.
Qed.


End discipline.
End driver.

(** ** Witness *)

Definition demo_node : node := mk_node true true true true true (Some 2) 5 3 1.
Definition demo_library : library := mk_library 0x84 0xC0 0x1D 0x0D 0x1E 0x0E 2
  (fun v t => [(0x97, [v; t])]) (fun c => [(0x89, [c])]) (fun e => [(0x9D, [if e then 1 else 0])]) (fun p r => [(0x8E, [p; r])]) true.
Definition demo_chip : chip_params := mk_chip (fun _ => 2%nat) 3 4 (fun _ n => replicate n 0).
Definition demo_check : M sx126x unit :=
  m ← gets cur_mode;
  if bool_decide (m = MODE_SLEEP) then SX126xWakeup demo_library demo_chip 20;; SX126xAntSwOn demo_node else mret tt.
Definition demo_sx126x : sx126x :=
  mk_sx126x (mk_plat 0 [] (mk_dev (mk_sem 0 1 []) false [] 0 0 0) (Some SX126X) 0%nat ∅ false (fun _ => 0) (fun _ => 0) (fun _ => 0) [])
    (mk_switch false false false false) MODE_SLEEP false false false true 0 [] [] (0, 0)%nat [].

Lemma demo_relies : relies demo_node demo_library demo_chip 20 demo_check.
Proof.
  split; try (intros; cbn; lia); try (intros; repeat (apply Forall_cons; [done|]); by apply Forall_nil).
  - intros s. unfold demo_check. rewrite bind_gets. destruct (bool_decide _); [by right|by left].
  - intros s Hs. unfold demo_check. rewrite bind_gets, Hs. done.
Qed.

