(* ===== verification/Printf.v ===== *)
(** * Formatted output (lib/os/cbprintf_complete.c)

    Conversion specifications, the conversions of integers, characters,
    strings, pointers and floating point numbers, and the loop of
    [cbvprintf], configured as the samples are: full integer range, floating
    point without the hexadecimal form. The target has 32-bit words, unsigned
    characters and wraps around on overflow.

    A C string is the list of its characters up to the terminating NUL, as in
    Strtol.v. A pointer into the format that has gone past the NUL is [None].
    Arguments are the values on the variable argument list; taking one as
    another type than it has stops the model. *)
From S2P Require Import Prelude Strtol.
From stdpp Require Import prelude list numbers.
From Stdlib Require Import ZArith Lia Ascii.
Open Scope Z_scope.

(** ** Characters and machine integers *)

Definition ch (a : ascii) : Z := Z.of_N (N_of_ascii a).
Coercion ch : ascii >-> Z.
Definition s32 (x : Z) : Z := (x + 2 ^ 31) mod 2 ^ 32 - 2 ^ 31.
Definition u64 (x : Z) : Z := x mod 2 ^ 64.
Definition s64 (x : Z) : Z := (x + 2 ^ 63) mod 2 ^ 64 - 2 ^ 63.

(** ** Conversion specifications *)

Inductive length_mod_enum :=
  | LENGTH_NONE | LENGTH_HH | LENGTH_H | LENGTH_L | LENGTH_LL | LENGTH_J | LENGTH_Z | LENGTH_T | LENGTH_UPPER_L.
#[export] Instance length_mod_eq_dec : EqDecision length_mod_enum.
Proof. solve_decision. Defined.

Inductive specifier_cat_enum := SPECIFIER_INVALID | SPECIFIER_SINT | SPECIFIER_UINT | SPECIFIER_PTR | SPECIFIER_FP.
#[export] Instance specifier_cat_eq_dec : EqDecision specifier_cat_enum.
Proof. solve_decision. Defined.

(** The one-bit fields of [struct conversion]. *)
Inductive bitfield :=
  | invalid | unsupported | flag_dash | flag_plus | flag_space | flag_hash | flag_zero | width_present | width_star
  | prec_present | prec_star | specifier_a | altform_0 | altform_0c | pad_postdp | pad_fp.
#[export] Instance bitfield_eq_dec : EqDecision bitfield.
Proof. solve_decision. Defined.

(** The width and, once the conversion has begun, [pad0_value] share their
    place, and so do the precision and [pad0_pre_exp]. *)
Record conversion := mk_conversion {
  bit : bitfield -> bool;
  length_mod : length_mod_enum;
  specifier_cat : specifier_cat_enum;
  specifier : Z;
  width_value : Z;
  prec_value : Z }.

Definition pad0_value (c : conversion) : Z := width_value c.
Definition pad0_pre_exp (c : conversion) : Z := prec_value c.

Definition set (f : bitfield) (b : bool) (c : conversion) : conversion :=
  mk_conversion (fun g => if decide (g = f) then b else bit c g) (length_mod c) (specifier_cat c) (specifier c) (width_value c) (prec_value c).
(** [conv->f |= b]. *)
Definition or_set (f : bitfield) (b : bool) (c : conversion) : conversion := set f (bit c f || b) c.
Definition set_length_mod (x : length_mod_enum) (c : conversion) : conversion :=
  mk_conversion (bit c) x (specifier_cat c) (specifier c) (width_value c) (prec_value c).
Definition set_specifier_cat (x : specifier_cat_enum) (c : conversion) : conversion :=
  mk_conversion (bit c) (length_mod c) x (specifier c) (width_value c) (prec_value c).
Definition set_specifier (x : Z) (c : conversion) : conversion :=
  mk_conversion (bit c) (length_mod c) (specifier_cat c) x (width_value c) (prec_value c).
Definition set_width_value (x : Z) (c : conversion) : conversion :=
  mk_conversion (bit c) (length_mod c) (specifier_cat c) (specifier c) x (prec_value c).
Definition set_prec_value (x : Z) (c : conversion) : conversion :=
  mk_conversion (bit c) (length_mod c) (specifier_cat c) (specifier c) (width_value c) x.
Definition set_pad0_value : Z -> conversion -> conversion := set_width_value.
Definition set_pad0_pre_exp : Z -> conversion -> conversion := set_prec_value.

Definition empty_conversion : conversion := mk_conversion (fun _ => false) LENGTH_NONE SPECIFIER_INVALID 0 0 0.

(** *** Taking a specification apart *)

Fixpoint extract_decimal (val : Z) (sp : list Z) : Z * list Z :=
  match sp with
  | c :: sp' => if isdigit c then extract_decimal (u32 (10 * val + c - "0"%char)) sp' else (val, sp)
  | [] => (val, [])
  end.

Definition flag_of (c : Z) : option bitfield :=
  if c =? "-"%char then Some flag_dash else if c =? "+"%char then Some flag_plus else if c =? " "%char then Some flag_space
  else if c =? "#"%char then Some flag_hash else if c =? "0"%char then Some flag_zero else None.

Fixpoint flags_loop (conv : conversion) (sp : list Z) : conversion * list Z :=
  match sp with
  | c :: sp' => match flag_of c with Some f => flags_loop (set f true conv) sp' | None => (conv, sp) end
  | [] => (conv, [])
  end.

Definition extract_flags (conv : conversion) (sp : list Z) : conversion * list Z :=
  let '(conv, sp) := flags_loop conv sp in
  (if bit conv flag_zero && bit conv flag_dash then set flag_zero false conv else conv, sp).

(** A number that does not fit an [int] is not supported. *)
Definition too_large (n : Z) : bool := (s32 n <? 0) || negb (n =? u32 (s32 n)).

Definition extract_width (conv : conversion) (sp : list Z) : conversion * list Z :=
  let conv := set width_present true conv in
  if chr sp =? "*"%char then (set width_star true conv, next sp)
  else
    let '(width, sp') := extract_decimal 0 sp in
    if negb (length sp' =? length sp)%nat
    then (or_set unsupported (too_large width) (set_width_value (s32 width) (set width_present true conv)), sp')
    else (conv, sp').

Definition extract_prec (conv : conversion) (sp : list Z) : conversion * list Z :=
  let conv := set prec_present (chr sp =? "."%char) conv in
  if negb (bit conv prec_present) then (conv, sp)
  else
    let sp := next sp in
    if chr sp =? "*"%char then (set prec_star true conv, next sp)
    else
      let '(prec, sp) := extract_decimal 0 sp in
      (or_set unsupported (too_large prec) (set_prec_value (s32 prec) conv), sp).

Definition extract_length (conv : conversion) (sp : list Z) : conversion * list Z :=
  let c := chr sp in
  if c =? "h"%char then
    if chr (next sp) =? "h"%char then (set_length_mod LENGTH_HH conv, next (next sp)) else (set_length_mod LENGTH_H conv, next sp)
  else if c =? "l"%char then
    if chr (next sp) =? "l"%char then (set_length_mod LENGTH_LL conv, next (next sp)) else (set_length_mod LENGTH_L conv, next sp)
  else if c =? "j"%char then (set_length_mod LENGTH_J conv, next sp)
  else if c =? "z"%char then (set_length_mod LENGTH_Z conv, next sp)
  else if c =? "t"%char then (set_length_mod LENGTH_T conv, next sp)
  else if c =? "L"%char then (set unsupported true (set_length_mod LENGTH_UPPER_L conv), next sp)
  else (set_length_mod LENGTH_NONE conv, sp).

(** [SINT_CONV_CASES], [UINT_CONV_CASES] and [FP_CONV_CASES]. *)
Definition one_of (l : list ascii) (c : Z) : bool := existsb (fun a => c =? ch a) l.
Definition sint_case : Z -> bool := one_of ["d"; "i"]%char.
Definition uint_case : Z -> bool := one_of ["o"; "c"; "u"; "x"; "X"]%char.
Definition fp_case : Z -> bool := one_of ["a"; "A"; "e"; "E"; "f"; "F"; "g"; "G"]%char.

Definition is_length (l : length_mod_enum) (conv : conversion) : bool := bool_decide (length_mod conv = l).

(** Both kinds of integer. *)
Definition int_conv (conv : conversion) : conversion :=
  let conv := if is_length LENGTH_UPPER_L conv then set invalid true conv else conv in
  or_set unsupported ((specifier conv =? "c"%char) && negb (is_length LENGTH_NONE conv)) conv.

Definition fp_conv (conv : conversion) : conversion :=
  let conv := set_specifier_cat SPECIFIER_FP conv in
  let conv := set specifier_a ((specifier conv =? "a"%char) || (specifier conv =? "A"%char)) conv in
  if bit conv specifier_a then or_set unsupported true conv
  else if is_length LENGTH_L conv then set_length_mod LENGTH_NONE conv
  else if negb (is_length LENGTH_NONE conv) && negb (is_length LENGTH_UPPER_L conv) then set invalid true conv
  else conv.

Definition extract_specifier (conv : conversion) (sp : list Z) : conversion * option (list Z) :=
  let conv := set_specifier (chr sp) conv in
  let sp := match sp with _ :: sp' => Some sp' | [] => None end in
  let c := specifier conv in
  let conv :=
    if sint_case c then int_conv (set_specifier_cat SPECIFIER_SINT conv)
    else if uint_case c then int_conv (set_specifier_cat SPECIFIER_UINT conv)
    else if fp_case c then fp_conv conv
    else if c =? "n"%char then or_set unsupported (is_length LENGTH_UPPER_L conv) (set_specifier_cat SPECIFIER_PTR conv)
    else if (c =? "s"%char) || (c =? "p"%char) then or_set unsupported (negb (is_length LENGTH_NONE conv)) (set_specifier_cat SPECIFIER_PTR conv)
    else set invalid true conv in
  (conv, sp).

(** [sp] is behind the percent sign. *)
Definition extract_conversion (sp : list Z) : conversion * option (list Z) :=
  if chr sp =? "%"%char then (set_specifier (chr sp) empty_conversion, Some (next sp))
  else
    let '(conv, sp) := extract_flags empty_conversion sp in
    let '(conv, sp) := extract_width conv sp in
    let '(conv, sp) := extract_prec conv sp in
    let '(conv, sp) := extract_length conv sp in
    extract_specifier conv sp.

(** ** Conversions *)

(** *** Division *)

Definition ldiv5 (v : Z) : Z :=
  let v_lo := u32 v in
  let v_hi := u32 (Z.shiftr v 32) in
  let m := 0x33333333 in
  let result := Z.lor (Z.shiftl m 32) m in
  let result := u64 (result + v_lo * m) in
  let result := Z.shiftr result 32 in
  let result := u64 (result + v_lo * m) in
  let result := u64 (result + v_hi * m) in
  let result := Z.shiftr result 32 in
  u64 (result + v_hi * m).

Definition ldiv10 (v : Z) : Z := ldiv5 (Z.shiftr v 1).

Definition conversion_radix (specifier : Z) : Z :=
  if specifier =? "o"%char then 8
  else if one_of ["p"; "x"; "X"]%char specifier then 16
  else 10.

(** *** Integers *)

Definition CONVERTED_BUFLEN : Z := 25.

Definition digit_char (upcase : bool) (lsv : Z) : Z :=
  if lsv <=? 9 then "0"%char + lsv else if upcase then "A"%char + lsv - 10 else "a"%char + lsv - 10.

(** The loop that fills the buffer from its end; [room] is the space left. *)
Fixpoint encode_loop (room : nat) (radix : Z) (upcase : bool) (value : Z) (acc : list Z) : list Z :=
  match room with
  | O => acc
  | S room =>
      let acc := digit_char upcase (value mod radix) :: acc in
      let value := value / radix in
      if negb (value =? 0) then encode_loop room radix upcase value acc else acc
  end.

(** The text in the buffer, and the conversion with its alternate form. *)
Definition encode_uint (value : Z) (conv : conversion) (room : Z) : list Z * conversion :=
  let radix := conversion_radix (specifier conv) in
  let text := encode_loop (Z.to_nat room) radix (isupper (specifier conv)) value [] in
  let conv :=
    if bit conv flag_hash then
      if radix =? 8 then set altform_0 true conv else if radix =? 16 then set altform_0c true conv else conv
    else conv in
  (text, conv).

(** *** Floating point numbers

    A [double] is its 64 bits. Loops that go round until a number is in range
    have fuel; [None] is the end of the fuel. *)

Definition FRACTION_BITS : Z := 52.
Definition EXPONENT_BITS : Z := 11.
Definition SIGN_MASK : Z := 2 ^ 63.
Definition BIT_63 : Z := 2 ^ 63.
Definition BIT64_MASK (n : Z) : Z := 2 ^ n - 1.

Definition get_digit (fr : Z) (digit_count : Z) : Z * Z * Z :=
  if 0 <? digit_count then
    let fr := u64 (fr * 10) in
    (Z.land (Z.shiftr fr 60) 0xF + "0"%char, Z.land fr (2 ^ 60 - 1), digit_count - 1)
  else (ch "0"%char, fr, digit_count).

(** [while (((fract <<= 1) & BIT_63) == 0) expo--;] *)
Fixpoint normalize (fuel : nat) (fract expo : Z) : option (Z * Z) :=
  match fuel with
  | O => None
  | S fuel =>
      let fract := u64 (Z.shiftl fract 1) in
      if Z.land fract BIT_63 =? 0 then normalize fuel fract (expo - 1) else Some (fract, expo)
  end.

(** The inner loops of the two that follow. *)
Fixpoint make_room (fuel : nat) (fract expo : Z) : option (Z * Z) :=
  match fuel with
  | O => None
  | S fuel =>
      let fract := Z.shiftr fract 1 in
      let expo := expo + 1 in
      if (2 ^ 32 - 1) / 5 <=? u32 (Z.shiftr fract 32) then make_room fuel fract expo else Some (fract, expo)
  end.

Fixpoint full_scale (fuel : nat) (fract expo : Z) : option (Z * Z) :=
  match fuel with
  | O => None
  | S fuel =>
      let fract := u64 (Z.shiftl fract 1) in
      let expo := expo - 1 in
      if Z.land fract BIT_63 =? 0 then full_scale fuel fract expo else Some (fract, expo)
  end.

(** [value = fract * 2^expo * 10^decexp]; the exponent is brought up, or down. *)
Fixpoint scale_up (fuel : nat) (fract expo decexp : Z) : option (Z * Z * Z) :=
  if expo <? -2 then
    match fuel with
    | O => None
    | S fuel =>
        '(fract, expo) ← make_room 64 fract expo;
        scale_up fuel (u64 (fract * 5)) (expo + 1) (decexp - 1)
    end
  else Some (fract, expo, decexp).

Fixpoint scale_down (fuel : nat) (fract expo decexp : Z) : option (Z * Z * Z) :=
  if 0 <? expo then
    match fuel with
    | O => None
    | S fuel =>
        let fract := ldiv5 (u64 (fract + 2)) in
        '(fract, expo) ← full_scale 64 fract (expo - 1);
        scale_down fuel fract expo (decexp + 1)
    end
  else Some (fract, expo, decexp).

(** The fraction, with its point between bits 59 and 60, and the decimal
    exponent. *)
Definition scale (expo fract : Z) (is_subnormal : bool) : option (Z * Z) :=
  let fract := u64 (Z.shiftl fract EXPONENT_BITS) in
  let fract := Z.land fract (2 ^ 64 - 1 - SIGN_MASK) in
  '(fract, expo) ←
    (if negb (Z.lor expo fract =? 0) then
       '(fract, expo) ← (if is_subnormal then normalize 64 fract expo else Some (fract, expo));
       Some (Z.lor fract BIT_63, expo - (1023 - 1))
     else Some (fract, expo));
  '(fract, expo, decexp) ← scale_up 1100 fract expo 0;
  '(fract, expo, decexp) ← scale_down 1100 fract expo decexp;
  Some (Z.shiftr fract (4 - expo), decexp).

(** The representation: [c] is the specifier, then the precision and whether
    zeros at the end are removed. *)
Definition choose (c : Z) (precision decexp : Z) (hash : bool) : Z * Z * bool :=
  if (c =? "g"%char) || (c =? "G"%char) then
    let '(c, precision) :=
      if (decexp <? -4 + 1) || (precision <? decexp)
      then (c + ("e"%char - "g"%char), if 0 <? precision then precision - 1 else precision)
      else (ch "f"%char, s32 (precision - decexp)) in
    (c, precision, negb hash && (0 <? precision))
  else (c, precision, false).

(** Rounding to the last digit that is printed; [while (decimals--)] counts
    down through all 32 bits. *)
Definition round_off (c precision fract decexp : Z) : Z * Z :=
  let decimals :=
    if c =? "f"%char then let d := s32 (precision + decexp) in if d <? 0 then 0 else d
    else s32 (precision + 1) in
  let decimals := if 16 <? decimals then 16 else decimals in
  let round := Nat.iter (Z.to_nat (u32 decimals)) ldiv10 (2 ^ 59) in
  let fract := u64 (fract + round) in
  if 2 ^ 60 <=? fract then (ldiv10 fract, decexp + 1) else (fract, decexp).

(** [while (n > 0 && digit_count > 0)] digits are taken from the fraction. *)
Fixpoint emit_digits (digit_count : nat) (n fract : Z) : list Z * Z * Z * nat :=
  match digit_count with
  | O => ([], n, fract, O)
  | S count =>
      if 0 <? n then
        let '(d, fract, _) := get_digit fract (Z.of_nat digit_count) in
        let '(l, n, fract, count) := emit_digits count (n - 1) fract in
        (d :: l, n, fract, count)
      else ([], n, fract, digit_count)
  end.

(** [while ( *--buf == '0')], from the end of the text backwards. *)
Fixpoint drop_zeros (l : list Z) : list Z :=
  match l with
  | c :: l' => if c =? "0"%char then drop_zeros l' else l
  | [] => []
  end.
Definition prune (text : list Z) : list Z :=
  match drop_zeros (rev text) with
  | c :: l => if c =? "."%char then rev l else rev (c :: l)
  | [] => []
  end.

Definition exponent_text (c decexp : Z) : list Z :=
  let '(s, decexp) := if decexp <? 0 then (ch "-"%char, - decexp) else (ch "+"%char, decexp) in
  let '(h, decexp) := if 100 <=? decexp then ([decexp / 100 + "0"%char], decexp mod 100) else ([], decexp) in
  [c; s] ++ h ++ [decexp / 10 + "0"%char; decexp mod 10 + "0"%char].

(** The digits before the point, and the point. *)
Definition before_point (c precision fract decexp : Z) (conv : conversion) : list Z * conversion * Z * Z * Z * nat :=
  let point := if bit conv flag_hash || (0 <? precision) then [ch "."%char] else [] in
  if c =? "f"%char then
    if 0 <? decexp then
      let '(l, rest, fract, count) := emit_digits 16 decexp fract in
      (l ++ point, set_pad0_value rest conv, precision, fract, 0, count)
    else
      let l := ch "0"%char :: point in
      if (decexp <? 0) && (0 <? precision) then
        let pad := Z.min (- decexp) precision in
        (l, set pad_postdp (0 <? pad) (set_pad0_value pad conv), precision - pad, fract, decexp, 16%nat)
      else (l, conv, precision, fract, decexp, 16%nat)
  else
    let '(d, fract, count) := get_digit fract 16 in
    (d :: point, conv, precision, fract, if negb (d =? "0"%char) then decexp - 1 else decexp, Z.to_nat count).

Definition special_text (upper nan : bool) : list Z :=
  match upper, nan with
  | true, false => map ch ["I"; "N"; "F"]%char
  | false, false => map ch ["i"; "n"; "f"]%char
  | true, true => map ch ["N"; "A"; "N"]%char
  | false, true => map ch ["n"; "a"; "n"]%char
  end.

(** The finite numbers. *)
Definition encode_finite (c expo fract : Z) (is_subnormal : bool) (precision : Z) (conv : conversion) : option (list Z * conversion) :=
  let c := if c =? "F"%char then ch "f"%char else c in
  '(fract, decexp) ← scale expo fract is_subnormal;
  let '(c, precision, prune_zero) := choose c precision decexp (bit conv flag_hash) in
  let '(fract, decexp) := round_off c precision fract decexp in
  let '(text, conv, precision, fract, decexp, digit_count) := before_point c precision fract decexp conv in
  let '(l, precision, _, _) := emit_digits digit_count precision fract in
  let text := text ++ l in
  let conv := set_pad0_pre_exp precision conv in
  let '(text, conv) := if prune_zero then (prune text, set_pad0_pre_exp 0 conv) else (text, conv) in
  let text := if (c =? "e"%char) || (c =? "E"%char) then text ++ exponent_text c decexp else text in
  Some (text, set pad_fp ((0 <? pad0_value conv) || (0 <? pad0_pre_exp conv)) conv).

(** The text, the conversion and the sign. *)
Definition encode_float (value : Z) (conv : conversion) (precision sign : Z) : option (list Z * conversion * Z) :=
  let sign :=
    if negb (Z.land value SIGN_MASK =? 0) then ch "-"%char
    else if bit conv flag_plus then ch "+"%char else if bit conv flag_space then ch " "%char else sign in
  let c := specifier conv in
  let expo := Z.land (Z.shiftr value FRACTION_BITS) (2 ^ EXPONENT_BITS - 1) in
  let fract := Z.land value (BIT64_MASK FRACTION_BITS) in
  if expo =? 2 ^ EXPONENT_BITS - 1 then
    Some (special_text (isupper c) (negb (fract =? 0)), set flag_zero false conv, sign)
  else
    '(text, conv) ← encode_finite c expo fract ((expo =? 0) && negb (fract =? 0)) precision conv;
    Some (text, conv, sign).

(** ** Output *)

(** A word is any 32-bit value; a pointer is an address, with the string that
    is found there. *)
Inductive arg := Word (x : Z) | Dword (x : Z) | Double (x : Z) | Pointer (a : Z) (s : list Z).

(** The value of an argument. *)
Inductive argument_value := Int (x : Z) | Dbl (x : Z) | Ptr (a : Z) (s : list Z) | No_value.

Section output.
Context {X : Type}.
(** The callback for a character, and the store into an object of so many
    bytes at an address. *)
Context (out : Z -> M X Z) (store : Z -> Z -> Z -> M X unit).

(** Computations that may return from the function with a result code. *)
#[local] Abbreviation P A := (M X (Z + A)).
Definition pret {A} (a : A) : P A := mret (inr a).
Definition pbind {A B} (m : P A) (f : A -> P B) : P B :=
  r ← m;
  match r with
  | inl rc => mret (inl rc)
  | inr a => f a
  end.
Definition lift {A} (m : M X A) : P A := a ← m; pret a.

(** [OUTC], which counts. *)
Definition OUTC (c : Z) (count : Z) : P Z :=
  rc ← out c;
  if rc <? 0 then mret (inl rc) else pret (u32 (count + 1)).

(** [outs] and [OUTS]. *)
Fixpoint OUTS (l : list Z) (count : Z) : P Z :=
  match l with
  | [] => pret count
  | c :: l => pbind (OUTC c count) (OUTS l)
  end.

(** [while (n-- > 0) OUTC(c)] *)
Definition OUTN (n : Z) (c : Z) (count : Z) : P Z := OUTS (replicate (Z.to_nat n) c) count.

Definition va_arg {A} (f : arg -> option A) (ap : list arg) : P (A * list arg) :=
  match ap with
  | a :: ap => match f a with Some x => pret (x, ap) | None => stop_with NullDeref end
  | [] => stop_with NullDeref
  end.
Definition va_int : arg -> option Z := fun a => match a with Word x => Some (s32 x) | _ => None end.
Definition va_unsigned : arg -> option Z := fun a => match a with Word x => Some (u32 x) | _ => None end.
Definition va_long_long : arg -> option Z := fun a => match a with Dword x => Some (s64 x) | _ => None end.
Definition va_unsigned_long_long : arg -> option Z := fun a => match a with Dword x => Some (u64 x) | _ => None end.
Definition va_double : arg -> option Z := fun a => match a with Double x => Some x | _ => None end.
Definition va_pointer : arg -> option (Z * list Z) := fun a => match a with Pointer a s => Some (a, s) | _ => None end.

Definition get_sint (l : length_mod_enum) (ap : list arg) : P (Z * list arg) :=
  pbind (match l with LENGTH_LL | LENGTH_J => va_arg va_long_long ap | _ => va_arg va_int ap end) (fun '(x, ap) =>
  pret (match l with LENGTH_HH => u8 x | LENGTH_H => s16 x | _ => x end, ap)).

Definition get_uint (l : length_mod_enum) (ap : list arg) : P (Z * list arg) :=
  pbind (match l with LENGTH_LL | LENGTH_J => va_arg va_unsigned_long_long ap | _ => va_arg va_unsigned ap end) (fun '(x, ap) =>
  pret (match l with LENGTH_HH => u8 x | LENGTH_H => u16 x | _ => x end, ap)).

(** The value to be converted. *)
Definition get_value (conv : conversion) (ap : list arg) : P (argument_value * list arg) :=
  match specifier_cat conv with
  | SPECIFIER_SINT => pbind (get_sint (length_mod conv) ap) (fun '(x, ap) => pret (Int x, ap))
  | SPECIFIER_UINT => pbind (get_uint (length_mod conv) ap) (fun '(x, ap) => pret (Int x, ap))
  | SPECIFIER_FP => pbind (va_arg va_double ap) (fun '(x, ap) => pret (Dbl x, ap))
  | SPECIFIER_PTR => pbind (va_arg va_pointer ap) (fun '((a, s), ap) => pret (Ptr a s, ap))
  | SPECIFIER_INVALID => pret (No_value, ap)
  end.

Definition get_width (conv : conversion) (ap : list arg) : P (Z * conversion * list arg) :=
  if bit conv width_star then
    pbind (va_arg va_int ap) (fun '(w, ap) =>
    pret (if w <? 0 then (s32 (- w), set flag_dash true conv, ap) else (w, conv, ap)))
  else pret (if bit conv width_present then width_value conv else -1, conv, ap).

Definition get_prec (conv : conversion) (ap : list arg) : P (Z * conversion * list arg) :=
  if bit conv prec_star then
    pbind (va_arg va_int ap) (fun '(p, ap) =>
    pret (if p <? 0 then (-1, set prec_present false conv, ap) else (p, conv, ap)))
  else pret (if bit conv prec_present then prec_value conv else -1, conv, ap).

Definition store_count (conv : conversion) (dp count : Z) : M X unit :=
  match length_mod conv with
  | LENGTH_NONE | LENGTH_L | LENGTH_Z | LENGTH_T => store 4 dp (s32 count)
  | LENGTH_HH => store 1 dp (s8 count)
  | LENGTH_H => store 2 dp (s16 count)
  | LENGTH_LL | LENGTH_J => store 8 dp (s32 count)
  | LENGTH_UPPER_L => mret tt
  end.

(** [prec_int_pad0] *)
Definition prec_int_pad0 (precision : Z) (text : list Z) (conv : conversion) : conversion :=
  if 0 <=? precision then
    let conv := set flag_zero false conv in
    if Z.of_nat (length text) <? precision then set_pad0_value (precision - Z.of_nat (length text)) conv else conv
  else conv.

(** What the switch on the specifier leaves: the converted text, if there is
    any, the conversion and the sign. *)
Definition convert (conv : conversion) (value : argument_value) (precision count : Z) : P (option (list Z) * conversion * Z * Z) :=
  let c := specifier conv in
  if c =? "%"%char then pbind (OUTC "%"%char count) (fun count => pret (None, conv, 0, count))
  else
    match value with
    | Ptr a s =>
        if c =? "s"%char then
          if a =? 0 then stop_with NullDeref
          else pret (Some (if 0 <=? precision then take (Z.to_nat precision) s else s), conv, 0, count)
        else if c =? "p"%char then
          if negb (a =? 0) then
            let '(text, conv) := encode_uint a conv CONVERTED_BUFLEN in
            let conv := set_specifier "x"%char (set altform_0c true conv) in
            pret (Some text, prec_int_pad0 precision text conv, 0, count)
          else pret (Some (map ch ["("; "n"; "i"; "l"; ")"]%char), conv, 0, count)
        else if c =? "n"%char then pbind (lift (store_count conv a count)) (fun _ => pret (None, conv, 0, count))
        else pret (None, conv, 0, count)
    | Int x =>
        if c =? "c"%char then pret (Some [u8 x], conv, 0, count)
        else if sint_case c then
          let sign := if bit conv flag_plus then ch "+"%char else if bit conv flag_space then ch " "%char else 0 in
          let '(sign, x) := if x <? 0 then (ch "-"%char, u64 (- x)) else (sign, x) in
          let '(text, conv) := encode_uint x conv CONVERTED_BUFLEN in
          pret (Some text, prec_int_pad0 precision text conv, sign, count)
        else
          let '(text, conv) := encode_uint x conv CONVERTED_BUFLEN in
          pret (Some text, prec_int_pad0 precision text conv, 0, count)
    | Dbl x =>
        match encode_float x conv precision 0 with
        | Some (text, conv, sign) => pret (Some text, conv, sign, count)
        | None => stop_with OutOfFuel
        end
    | No_value => pret (None, conv, 0, count)
    end.

(** The digits at the start of a text, and the rest. *)
Fixpoint leading_digits (l : list Z) : list Z * list Z :=
  match l with
  | c :: l' => if isdigit c then let '(d, r) := leading_digits l' in (c :: d, r) else ([], l)
  | [] => ([], [])
  end.

(** The converted text, with its zeros. *)
Definition emit_text (conv : conversion) (text : list Z) (count : Z) : P Z :=
  if bit conv pad_fp then
    let '(ints, cp) := leading_digits text in
    pbind (OUTS ints count) (fun count =>
    let pad_len := pad0_value conv in
    pbind (if negb (bit conv pad_postdp) then OUTN pad_len "0"%char count else pret count) (fun count =>
    let pad_len := if negb (bit conv pad_postdp) then -1 else pad_len in
    let '(point, cp) := if chr cp =? "."%char then (true, next cp) else (false, cp) in
    pbind (if point then pbind (OUTC "."%char count) (OUTN pad_len "0"%char) else pret count) (fun count =>
    let '(fracs, cp) := leading_digits cp in
    pbind (OUTS fracs count) (fun count =>
    pbind (OUTN (pad0_pre_exp conv) "0"%char count) (fun count => OUTS cp count)))))
  else
    pbind (if bit conv altform_0c || bit conv altform_0 then OUTC "0"%char count else pret count) (fun count =>
    pbind (if bit conv altform_0c then OUTC (specifier conv) count else pret count) (fun count =>
    pbind (OUTN (pad0_value conv) "0"%char count) (fun count => OUTS text count))).

(** Everything but the padding. *)
Definition nj_len (conv : conversion) (sign : Z) (text : list Z) : Z :=
  u32 (Z.of_nat (length text) + (if negb (sign =? 0) then 1 else 0)
    + (if bit conv altform_0c then 2 else if bit conv altform_0 then 1 else 0)
    + pad0_value conv + (if bit conv pad_fp then pad0_pre_exp conv else 0)).

Definition emit (conv : conversion) (width sign : Z) (text : list Z) (count : Z) : P Z :=
  pbind (if 0 <? width then
      let width := s32 (width - s32 (nj_len conv sign text)) in
      if negb (bit conv flag_dash) then
        pbind (if bit conv flag_zero && negb (sign =? 0) then OUTC sign count else pret count) (fun count =>
        let sign := if bit conv flag_zero then 0 else sign in
        pbind (OUTN width (if bit conv flag_zero then "0"%char else " "%char) count) (fun count =>
        pret (-1, sign, count)))
      else pret (width, sign, count)
    else pret (width, sign, count)) (fun '(width, sign, count) =>
  pbind (if negb (sign =? 0) then OUTC sign count else pret count) (fun count =>
  pbind (emit_text conv text count) (fun count => OUTN width " "%char count))).

(** One specification; [sp] is behind the percent sign. *)
Definition print_conversion (sp : list Z) (ap : list arg) (count : Z) : P (option (list Z) * list arg * Z) :=
  let '(conv, fp) := extract_conversion sp in
  pbind (get_width conv ap) (fun '(width, conv, ap) =>
  pbind (get_prec conv ap) (fun '(precision, conv, ap) =>
  let conv := set_pad0_pre_exp 0 (set_pad0_value 0 conv) in
  let precision := if bool_decide (specifier_cat conv = SPECIFIER_FP) && negb (bit conv prec_present)
    then (if bit conv specifier_a then 13 else 6) else precision in
  pbind (get_value conv ap) (fun '(value, ap) =>
  if bit conv invalid || bit conv unsupported then
    let spec := match fp with
      | Some fp => take (length sp - length fp) sp
      | None => sp ++ [0]
      end in
    pbind (OUTS (ch "%"%char :: spec) count) (fun count => pret (fp, ap, count))
  else
    pbind (convert conv value precision count) (fun '(text, conv, sign, count) =>
    match text with
    | None => pret (fp, ap, count)
    | Some text => pbind (emit conv width sign text count) (fun count => pret (fp, ap, count))
    end)))).

(** The loop; a pointer behind the NUL must not be followed. *)
Fixpoint cbvprintf_loop (fuel : nat) (fp : option (list Z)) (ap : list arg) (count : Z) : P Z :=
  match fp with
  | None => stop_with NullDeref
  | Some [] => pret count
  | Some (c :: fp) =>
      match fuel with
      | O => stop_with OutOfFuel
      | S fuel =>
          if negb (c =? "%"%char) then pbind (OUTC c count) (fun count => cbvprintf_loop fuel (Some fp) ap count)
          else pbind (print_conversion fp ap count) (fun '(fp, ap, count) => cbvprintf_loop fuel fp ap count)
      end
  end.

Definition cbvprintf (fp : list Z) (ap : list arg) : M X Z :=
  r ← cbvprintf_loop (length fp) (Some fp) ap 0;
  mret (s32 (match r with inl rc => rc | inr count => count end)).
End output.
