(* ===== verification/PrintfText.v ===== *)
(** * What formatted output prints

    [says]: what a piece of [cbvprintf] passes to the callback, whatever the
    callback is. From it the layout of a converted integer, and that its text
    is read back by [strtol] and [strtoul]. *)
From S2P Require Import Prelude Strtol Printf.
From stdpp Require Import prelude list numbers.
From Stdlib Require Import ZArith Lia Ascii.
Open Scope Z_scope.

(** ** Characters passed to the callback *)

Section says.
Context {X : Type} (out : Z -> M X Z) (store : Z -> Z -> Z -> M X unit).

(** The callback is called for one character after the other until it fails. *)
Fixpoint play (l : list Z) : M X (option Z) :=
  match l with
  | [] => mret None
  | c :: l => rc ← out c; if rc <? 0 then mret (Some rc) else play l
  end.

(** [m] outputs [l] and then has the result [a]. *)
Definition says {A} (m : M X (Z + A)) (l : list Z) (a : A) : Prop := forall s,
  m s = mbind (fun r => mret (match r with Some rc => inl rc | None => inr a end)) (play l) s.

Lemma says_ret {A} (a : A) : says (pret a) [] a.
Proof. by intros s. Qed.

Lemma play_app l k s : play (l ++ k) s = mbind (fun r => match r with Some rc => mret (Some rc) | None => play k end) (play l) s.
Proof.
  revert s. induction l as [|c l IH]; intros s; cbn; [by rewrite bind_ret|].
  unfold mbind, M_bind in *. destruct (out c s) as [[rc|] s']; [|done]. destruct (rc <? 0); [done|]. apply IH.
Qed.

Lemma says_bind {A B} (m : M X (Z + A)) (f : A -> M X (Z + B)) l k a b : says m l a -> says (f a) k b -> says (pbind m f) (l ++ k) b.
Proof.
  intros Hm Hf s. specialize (Hm s). unfold pbind, mbind, M_bind in *. rewrite Hm, play_app. unfold mbind, M_bind.
  destruct (play l s) as [[[rc|]|] s']; try done. cbn. rewrite Hf. done.
Qed.

Lemma says_map {A B} (m : M X (Z + A)) (g : A -> B) l a : says m l a -> says (pbind m (fun a => pret (g a))) l (g a).
Proof. intros Hm. rewrite <- (app_nil_r l). eapply says_bind; [exact Hm|apply says_ret]. Qed.

Lemma says_outc c count : says (OUTC out c count) [c] (u32 (count + 1)).
Proof.
  intros s. unfold OUTC, says. cbn. unfold mbind, M_bind. destruct (out c s) as [[rc|] s']; [|done]. by destruct (rc <? 0).
Qed.

Lemma u32_add a b : u32 (u32 a + b) = u32 (a + b).
Proof. unfold u32. apply Zplus_mod_idemp_l. Qed.
Lemma u32_idem a : u32 (u32 a) = u32 a.
Proof. unfold u32. apply Zmod_mod. Qed.

Lemma count_app count (l k : list Z) :
  u32 (count + Z.of_nat (length (l ++ k))) = u32 (u32 (count + Z.of_nat (length l)) + Z.of_nat (length k)).
Proof. rewrite u32_add, length_app. f_equal. lia. Qed.

Lemma says_outs l count : count = u32 count -> says (OUTS out l count) l (u32 (count + Z.of_nat (length l))).
Proof.
  revert count. induction l as [|c l IH]; intros count Hc; cbn [OUTS length].
  - rewrite Z.add_0_r, <- Hc. apply says_ret.
  - change (c :: l) with ([c] ++ l). eapply says_bind; [apply says_outc|].
    replace (u32 (count + Z.of_nat (S (length l)))) with (u32 (u32 (count + 1) + Z.of_nat (length l))); [|rewrite u32_add; f_equal; lia].
    apply IH. by rewrite u32_idem.
Qed.
End says.

(** ** Digits *)

Lemma digit_char_value up d : 0 <= d < 16 -> 0 <= digit_char up d < 256 /\ digit_value (digit_char up d) = Some d.
Proof.
  intros Hd. assert (H : forallb (fun d => (0 <=? digit_char up d) && (digit_char up d <? 256) &&
    bool_decide (digit_value (digit_char up d) = Some d)) (seqZ 0 16) = true) by (by destruct up).
  rewrite forallb_forall in H. specialize (H d ltac:(apply list_elem_of_In, elem_of_seqZ; lia)).
  apply andb_prop in H as [H H3%bool_decide_eq_true]. apply andb_prop in H as [H1%Z.leb_le H2%Z.ltb_lt]. done.
Qed.

Lemma number_app b v ds ds' : number b v (ds ++ ds') = number b (number b v ds) ds'.
Proof. apply fold_left_app. Qed.

Lemma encode_loop_acc room b up v acc : encode_loop room b up v acc = encode_loop room b up v [] ++ acc.
Proof.
  revert v acc. induction room as [|room IH]; intros v acc; [done|]. cbn [encode_loop]. destruct (negb _); [|done].
  rewrite IH, (IH _ [_]). by rewrite <- app_assoc.
Qed.

(** The digits of a number that fits the buffer. *)
Lemma encode_digits room b up v : 2 <= b <= 16 -> (0 < room)%nat -> 0 <= v < b ^ Z.of_nat room ->
  let ds := encode_loop room b up v [] in digits_in b ds /\ ds <> [] /\ number b 0 ds = v /\ (length ds <= room)%nat.
Proof.
  intros Hb. revert v. induction room as [|room IH]; intros v Hr Hv; [lia|]. cbn [encode_loop].
  pose proof (Z.mod_pos_bound v b ltac:(lia)) as Hm. pose proof (Z.div_mod v b ltac:(lia)) as Hd.
  destruct (digit_char_value up (v mod b) ltac:(lia)) as [Hc Hval].
  assert (H1 : digits_in b [digit_char up (v mod b)]) by (repeat constructor; [lia..|]; exists (v mod b); split; [done|lia]).
  destruct (Z.eqb_spec (v / b) 0) as [E|E]; cbn [negb].
  - split; [done|]. split; [done|]. split; [|cbn; lia]. cbn. rewrite Hval. cbn. lia.
  - assert (Hq : 0 <= v / b < b ^ Z.of_nat room).
    { split; [apply Z.div_pos; lia|]. apply Z.div_lt_upper_bound; [lia|]. rewrite <- Z.pow_succ_r by lia. rewrite <- Nat2Z.inj_succ. apply Hv. }
    destruct room as [|room]; [cbn in Hq; lia|]. destruct (IH (v / b) ltac:(lia) Hq) as (D & N & V & L).
    rewrite encode_loop_acc. split; [by apply Forall_app|]. split; [by destruct (encode_loop _ _ _ _ _)|].
    rewrite number_app, V, length_app. split; [|cbn [length]; lia]. cbn. rewrite Hval. cbn. lia.
Qed.

Lemma number_zeros b n ds : number b 0 (replicate n (ch "0"%char) ++ ds) = number b 0 ds.
Proof. induction n as [|n IH]; [done|]. exact IH. Qed.

Lemma digits_zeros b n ds : 2 <= b -> digits_in b ds -> digits_in b (replicate n (ch "0"%char) ++ ds).
Proof.
  intros Hb Hd. induction n as [|n IH]; [done|]. constructor; [|done]. split; [done|]. exists 0. split; [done|lia].
Qed.

(** ** The layout *)

Definition prefix (conv : conversion) : list Z :=
  if bit conv altform_0c then [ch "0"%char; specifier conv] else if bit conv altform_0 then [ch "0"%char] else [].
Definition zeros (n : Z) : list Z := replicate (Z.to_nat n) (ch "0"%char).
Definition spaces (n : Z) : list Z := replicate (Z.to_nat n) (ch " "%char).
Definition sign_chars (sign : Z) : list Z := if sign =? 0 then [] else [sign].
Definition body (conv : conversion) (text : list Z) : list Z := prefix conv ++ zeros (pad0_value conv) ++ text.

(** A sign, the text with its prefix and zeros, and spaces or zeros to fill
    the width. *)
Definition layout (conv : conversion) (width sign : Z) (text : list Z) : list Z :=
  let pad := width - Z.of_nat (length (sign_chars sign ++ body conv text)) in
  if bit conv flag_dash then sign_chars sign ++ body conv text ++ spaces pad
  else if bit conv flag_zero then sign_chars sign ++ zeros pad ++ body conv text
  else spaces pad ++ sign_chars sign ++ body conv text.

Lemma layout_length conv width sign text :
  Z.of_nat (length (layout conv width sign text)) = Z.max width (Z.of_nat (length (sign_chars sign ++ body conv text))).
Proof.
  unfold layout. set (n := length (sign_chars sign ++ body conv text)). assert (Hn : n = (length (sign_chars sign) + length (body conv text))%nat) by apply length_app.
  unfold spaces, zeros. destruct (bit conv flag_dash), (bit conv flag_zero); rewrite !length_app, length_replicate; lia.
Qed.

Section emit.
Context {X : Type} (out : Z -> M X Z) (store : Z -> Z -> Z -> M X unit).

(** [m] prints [l], of which it counts the characters. *)
Definition prints (m : Z -> M X (Z + Z)) (l : list Z) : Prop :=
  forall count, count = u32 count -> says out (m count) l (u32 (count + Z.of_nat (length l))).

Lemma prints_nothing : prints pret [].
Proof. intros count Hc. rewrite Z.add_0_r, <- Hc. apply says_ret. Qed.

Lemma prints_bind m f l k : prints m l -> prints f k -> prints (fun count => pbind (m count) f) (l ++ k).
Proof.
  intros Hm Hf count Hc. eapply says_bind; [by apply Hm|]. rewrite count_app. apply Hf. by rewrite u32_idem.
Qed.

Lemma prints_outc c : prints (OUTC out c) [c].
Proof. intros count Hc. apply says_outc. Qed.

Lemma prints_outs l : prints (OUTS out l) l.
Proof. intros count Hc. by apply says_outs. Qed.

Lemma prints_if (b : bool) m l : prints m l -> prints (fun count => if b then m count else pret count) (if b then l else []).
Proof. destruct b; [done|]. intros _. apply prints_nothing. Qed.

Lemma prints_text conv text : bit conv pad_fp = false -> prints (emit_text out conv text) (body conv text).
Proof.
  intros Hf count Hc. unfold emit_text. rewrite Hf.
  replace (body conv text) with ((if bit conv altform_0c || bit conv altform_0 then [ch "0"%char] else []) ++
    (if bit conv altform_0c then [specifier conv] else []) ++ zeros (pad0_value conv) ++ text).
  - apply (prints_bind (fun count => if bit conv altform_0c || bit conv altform_0 then OUTC out "0"%char count else pret count)); [by apply prints_if, prints_outc| |done].
    apply (prints_bind (fun count => if bit conv altform_0c then OUTC out (specifier conv) count else pret count)); [by apply prints_if, prints_outc|].
    apply (prints_bind (OUTN out (pad0_value conv) "0"%char)); apply prints_outs.
  - unfold body, prefix. by destruct (bit conv altform_0c), (bit conv altform_0).
Qed.

Lemma s32_id x : - 2 ^ 31 <= x < 2 ^ 31 -> s32 x = x.
Proof. intros H. unfold s32. rewrite Z.mod_small; lia. Qed.

Lemma body_length conv text : 0 <= pad0_value conv -> Z.of_nat (length (body conv text)) =
  (if bit conv altform_0c then 2 else if bit conv altform_0 then 1 else 0) + pad0_value conv + Z.of_nat (length text).
Proof.
  intros Hp. unfold body, prefix, zeros. rewrite !length_app, length_replicate. destruct (bit conv altform_0c), (bit conv altform_0); cbn [length]; lia.
Qed.

Lemma nj_length conv sign text : bit conv pad_fp = false -> 0 <= pad0_value conv ->
  Z.of_nat (length (sign_chars sign ++ body conv text)) < 2 ^ 31 -> s32 (nj_len conv sign text) = Z.of_nat (length (sign_chars sign ++ body conv text)).
Proof.
  intros Hf Hp Hl. rewrite <- (s32_id (Z.of_nat _)) by lia. f_equal. unfold nj_len, u32. rewrite Hf.
  rewrite length_app, Nat2Z.inj_add, body_length in * by done. unfold sign_chars in *.
  rewrite Z.mod_small; destruct (sign =? 0), (bit conv altform_0c), (bit conv altform_0); cbn [length negb] in *; lia.
Qed.

(** What follows the padding on the left. *)
Lemma prints_tail conv width sign text : bit conv pad_fp = false ->
  prints (fun count => pbind (if negb (sign =? 0) then OUTC out sign count else pret count) (fun count =>
    pbind (emit_text out conv text count) (OUTN out width " "%char))) (sign_chars sign ++ body conv text ++ spaces width).
Proof.
  intros Hf. apply (prints_bind (fun count => if negb (sign =? 0) then OUTC out sign count else pret count)).
  - unfold sign_chars. destruct (sign =? 0); [apply prints_nothing|apply prints_outc].
  - apply (prints_bind (emit_text out conv text)); [by apply prints_text|apply prints_outs].
Qed.

Lemma spaces_none n : n <= 0 -> spaces n = [].
Proof. intros Hn. unfold spaces. by rewrite Z2Nat.nonpos. Qed.
Lemma zeros_none n : n <= 0 -> zeros n = [].
Proof. intros Hn. unfold zeros. by rewrite Z2Nat.nonpos. Qed.

(** The padding on the left. *)
Lemma says_left (zero : bool) sign pad count : count = u32 count ->
  let l := if zero then sign_chars sign ++ zeros pad else spaces pad in
  says out (pbind (if zero && negb (sign =? 0) then OUTC out sign count else pret count) (fun count =>
    pbind (OUTN out pad (if zero then "0"%char else " "%char) count) (fun count => pret (-1, if zero then 0 else sign, count))))
  l (-1, if zero then 0 else sign, u32 (count + Z.of_nat (length l))).
Proof.
  intros Hc l. set (sg := if zero then sign_chars sign else []). set (c := if zero then ch "0"%char else ch " "%char).
  assert (El : l = sg ++ replicate (Z.to_nat pad) c ++ []) by (unfold l, sg, c, zeros, spaces; rewrite app_nil_r; by destruct zero).
  rewrite El at 1. eapply (says_bind out _ _ sg _ (u32 (count + Z.of_nat (length sg)))).
  - assert (H : prints (fun count => if zero && negb (sign =? 0) then OUTC out sign count else pret count) sg).
    { unfold sg, sign_chars. destruct zero, (sign =? 0); try apply prints_nothing. apply prints_outc. }
    by apply H.
  - eapply says_bind; [exact (prints_outs (replicate (Z.to_nat pad) c) _ (eq_sym (u32_idem _)))|]. rewrite u32_add.
    replace (count + Z.of_nat (length l)) with (count + Z.of_nat (length sg) + Z.of_nat (length (replicate (Z.to_nat pad) c))); [apply says_ret|].
    rewrite El, !length_app. cbn [length]. lia.
Qed.

Lemma prints_layout conv width sign text : bit conv pad_fp = false -> 0 <= pad0_value conv ->
  Z.of_nat (length (sign_chars sign ++ body conv text)) < 2 ^ 31 -> width < 2 ^ 31 ->
  prints (emit out conv width sign text) (layout conv width sign text).
Proof.
  intros Hf Hp Hl Hw count Hc. pose proof (nj_length conv sign text Hf Hp Hl) as Hn. unfold emit. rewrite Hn. unfold layout.
  set (pad := width - Z.of_nat (length (sign_chars sign ++ body conv text))).
  assert (Hs : 0 < width -> s32 pad = pad) by (intros; apply s32_id; unfold pad; lia).
  assert (Ht : forall w sg, says out (pbind (if negb (sg =? 0) then OUTC out sg count else pret count) (fun count =>
    pbind (emit_text out conv text count) (OUTN out w " "%char))) (sign_chars sg ++ body conv text ++ spaces w) _)
    by (intros; by apply (prints_tail conv w sg text Hf)).
  destruct (Z.ltb_spec 0 width) as [Hw'|Hw'].
  2: { assert (Hpad : pad <= 0) by (unfold pad; lia). specialize (Ht width sign). rewrite spaces_none in Ht by lia.
    rewrite spaces_none, zeros_none, !app_nil_r in * by lia. cbn [app]. replace (if bit conv flag_dash then _ else _) with (sign_chars sign ++ body conv text)
      by (by destruct (bit conv flag_dash), (bit conv flag_zero)).
    change (?l ++ ?k) with ([] ++ l ++ k). eapply says_bind; [apply says_ret|exact Ht]. }
  rewrite Hs by done. destruct (bit conv flag_dash); cbn [negb].
  { change (sign_chars sign ++ body conv text ++ spaces pad) with ([] ++ sign_chars sign ++ body conv text ++ spaces pad). eapply says_bind; [apply says_ret|apply Ht]. }
  set (l := if bit conv flag_zero then sign_chars sign ++ zeros pad else spaces pad).
  replace (if bit conv flag_zero then _ else _) with (l ++ sign_chars (if bit conv flag_zero then 0 else sign) ++ body conv text ++ spaces (-1)).
  - eapply says_bind; [by apply (says_left (bit conv flag_zero) sign pad count)|]. cbv beta iota.
    rewrite count_app. exact (prints_tail conv (-1) _ text Hf _ (eq_sym (u32_idem _))).
  - unfold l. change (spaces (-1)) with (@nil Z). rewrite app_nil_r. by destruct (bit conv flag_zero); rewrite <- ?app_assoc.
Qed.
End emit.

(** ** Specifications *)

(** What holds of a conversion before its value is known. *)
Record fresh (c : conversion) : Prop := {
  f_pad_fp : bit c pad_fp = false;
  f_altform_0 : bit c altform_0 = false;
  f_altform_0c : bit c altform_0c = false;
  f_width : bit c unsupported = false -> 0 <= width_value c < 2 ^ 31;
  f_prec : bit c unsupported = false -> 0 <= prec_value c < 2 ^ 31 }.

Lemma fresh_empty : fresh empty_conversion.
Proof. by split. Qed.

(** The fields that taking a specification apart may set. *)
Definition settable (f : bitfield) : Prop := f <> pad_fp /\ f <> altform_0 /\ f <> altform_0c /\ f <> unsupported.

Lemma fresh_set f b c : settable f -> fresh c -> fresh (set f b c).
Proof.
  intros (N1 & N2 & N3 & N4) [H1 H2 H3 H4 H5]. unfold set. split; cbn; rewrite ?decide_False by congruence; done.
Qed.

Lemma fresh_or_unsupported b c : fresh c -> fresh (or_set unsupported b c).
Proof. intros [H1 H2 H3 H4 H5]. split; cbn; try done; intros [? ?]%orb_false_iff; auto. Qed.

Lemma fresh_length l c : fresh c -> fresh (set_length_mod l c).
Proof. by intros [H1 H2 H3 H4 H5]. Qed.
Lemma fresh_cat x c : fresh c -> fresh (set_specifier_cat x c).
Proof. by intros [H1 H2 H3 H4 H5]. Qed.
Lemma fresh_specifier x c : fresh c -> fresh (set_specifier x c).
Proof. by intros [H1 H2 H3 H4 H5]. Qed.

Lemma fits n : too_large n = false -> 0 <= s32 n < 2 ^ 31.
Proof.
  intros [H _]%orb_false_iff. apply Z.ltb_ge in H. split; [done|]. unfold s32 in *. pose proof (Z.mod_pos_bound (n + 2 ^ 31) (2 ^ 32) eq_refl). lia.
Qed.

Lemma fresh_width n c : fresh c -> fresh (or_set unsupported (too_large n) (set_width_value (s32 n) c)).
Proof. intros [H1 H2 H3 H4 H5]. split; cbn; try done; intros [? ?%fits]%orb_false_iff; auto. Qed.
Lemma fresh_prec n c : fresh c -> fresh (or_set unsupported (too_large n) (set_prec_value (s32 n) c)).
Proof. intros [H1 H2 H3 H4 H5]. split; cbn; try done; intros [? ?%fits]%orb_false_iff; auto. Qed.

Create HintDb conv.
#[export] Hint Resolve fresh_empty fresh_or_unsupported fresh_length fresh_cat fresh_specifier fresh_width fresh_prec : conv.
#[export] Hint Extern 1 (fresh (set _ _ _)) => (apply fresh_set; [by repeat split|]) : conv.

Lemma flag_settable c f : flag_of c = Some f -> settable f.
Proof. unfold flag_of. repeat case_match; intros [= <-]; by repeat split. Qed.

Lemma fresh_flags c sp : fresh c -> fresh (extract_flags c sp).1.
Proof.
  intros Hf. unfold extract_flags. assert (H : fresh (flags_loop c sp).1).
  { revert c Hf. induction sp as [|x sp IH]; intros c Hf; [done|]. cbn. destruct (flag_of x) eqn:E; [|done]. apply IH, fresh_set; [by eapply flag_settable|done]. }
  destruct (flags_loop c sp) as [c' sp']. cbn in *. destruct (_ && _); eauto with conv.
Qed.

Lemma fresh_extract_width c sp : fresh c -> fresh (extract_width c sp).1.
Proof.
  intros Hf. unfold extract_width. destruct (_ =? _); cbn [fst]; [eauto with conv|]. destruct (extract_decimal 0 sp) as [n sp'].
  destruct (negb _); cbn [fst]; eauto with conv.
Qed.

Lemma fresh_extract_prec c sp : fresh c -> fresh (extract_prec c sp).1.
Proof.
  intros Hf. unfold extract_prec. destruct (negb _); cbn [fst]; [eauto with conv|]. destruct (_ =? _); cbn [fst]; [eauto with conv|].
  destruct (extract_decimal 0 (next sp)) as [n sp']. cbn [fst]. eauto with conv.
Qed.

Lemma fresh_extract_length c sp : fresh c -> fresh (extract_length c sp).1.
Proof.
  intros Hf. unfold extract_length. repeat case_match; cbn [fst]; eauto with conv.
  split; cbn; try apply Hf; done.
Qed.

Lemma fresh_int c : fresh c -> fresh (int_conv c).
Proof. intros Hf. unfold int_conv. destruct (is_length _ _); eauto with conv. Qed.
Lemma fresh_fp c : fresh c -> fresh (fp_conv c).
Proof. intros Hf. unfold fp_conv. repeat case_match; eauto with conv. Qed.
#[export] Hint Resolve fresh_int fresh_fp : conv.

(** The category of a specifier. *)
Definition category (c : Z) : specifier_cat_enum :=
  if sint_case c then SPECIFIER_SINT else if uint_case c then SPECIFIER_UINT else if fp_case c then SPECIFIER_FP
  else if one_of ["n"; "s"; "p"]%char c then SPECIFIER_PTR else SPECIFIER_INVALID.

Lemma extract_specifier_facts c sp : fresh c -> specifier_cat c = SPECIFIER_INVALID ->
  let c' := (extract_specifier c sp).1 in fresh c' /\ specifier c' = chr sp /\ specifier_cat c' = category (chr sp).
Proof.
  intros Hf Hc. unfold extract_specifier. cbn [fst specifier set_specifier]. unfold category.
  assert (Hi : forall k, specifier (int_conv k) = specifier k /\ specifier_cat (int_conv k) = specifier_cat k).
  { intros k. unfold int_conv. by destruct (is_length LENGTH_UPPER_L k). }
  assert (Hp : forall k, specifier (fp_conv k) = specifier k /\ specifier_cat (fp_conv k) = SPECIFIER_FP).
  { intros k. unfold fp_conv. repeat case_match; done. }
  destruct (sint_case (chr sp)); [split; [eauto 6 with conv|]; by destruct (Hi (set_specifier_cat SPECIFIER_SINT (set_specifier (chr sp) c)))|].
  destruct (uint_case (chr sp)); [split; [eauto 6 with conv|]; by destruct (Hi (set_specifier_cat SPECIFIER_UINT (set_specifier (chr sp) c)))|].
  destruct (fp_case (chr sp)); [split; [eauto 6 with conv|]; by destruct (Hp (set_specifier (chr sp) c))|].
  unfold one_of. cbn [existsb]. rewrite orb_false_r.
  destruct (chr sp =? "n"%char); [split; [eauto 6 with conv|done]|]. cbn [orb].
  destruct ((chr sp =? "s"%char) || (chr sp =? "p"%char)); split; eauto 6 with conv.
Qed.

Lemma extract_cat c sp : specifier_cat (extract_flags c sp).1 = specifier_cat c /\ specifier_cat (extract_width c sp).1 = specifier_cat c /\
  specifier_cat (extract_prec c sp).1 = specifier_cat c /\ specifier_cat (extract_length c sp).1 = specifier_cat c.
Proof.
  split; [|split; [|split]].
  - unfold extract_flags. assert (H : specifier_cat (flags_loop c sp).1 = specifier_cat c).
    { revert c. induction sp as [|x sp IH]; intros c; [done|]. cbn. destruct (flag_of x); [by rewrite IH|done]. }
    destruct (flags_loop c sp) as [c' sp']. cbn in *. by destruct (_ && _).
  - unfold extract_width. destruct (_ =? _); [done|]. destruct (extract_decimal 0 sp). by destruct (negb _).
  - unfold extract_prec. destruct (negb _); [done|]. destruct (_ =? _); [done|]. by destruct (extract_decimal 0 (next sp)).
  - unfold extract_length. repeat case_match; done.
Qed.

Lemma extract_facts sp : chr sp <> "%"%char -> let c := (extract_conversion sp).1 in fresh c /\ specifier_cat c = category (specifier c).
Proof.
  intros Hn. unfold extract_conversion. rewrite (proj2 (Z.eqb_neq _ _) Hn).
  pose proof (fresh_flags _ sp fresh_empty) as F1. pose proof (proj1 (extract_cat empty_conversion sp)) as C1.
  destruct (extract_flags empty_conversion sp) as [c1 sp1]. cbn in F1, C1.
  pose proof (fresh_extract_width _ sp1 F1) as F2. pose proof (proj1 (proj2 (extract_cat c1 sp1))) as C2.
  destruct (extract_width c1 sp1) as [c2 sp2]. cbn [fst] in F2, C2.
  pose proof (fresh_extract_prec _ sp2 F2) as F3. pose proof (proj1 (proj2 (proj2 (extract_cat c2 sp2)))) as C3.
  destruct (extract_prec c2 sp2) as [c3 sp3]. cbn [fst] in F3, C3.
  pose proof (fresh_extract_length _ sp3 F3) as F4. pose proof (proj2 (proj2 (proj2 (extract_cat c3 sp3)))) as C4.
  destruct (extract_length c3 sp3) as [c4 sp4]. cbn [fst] in F4, C4.
  destruct (extract_specifier_facts c4 sp4 F4) as (F5 & S5 & C5); [congruence|]. split; [done|]. by rewrite C5, S5.
Qed.

(** Taking a specification apart goes forward in the format. *)
Lemma next_length (l : list Z) : (length (next l) <= length l)%nat.
Proof. destruct l; cbn; lia. Qed.

Lemma decimal_length v sp : (length (extract_decimal v sp).2 <= length sp)%nat.
Proof. revert v. induction sp as [|c sp IH]; intros v; [done|]. cbn [extract_decimal]. destruct (isdigit c); cbn; [|done]. specialize (IH (u32 (10 * v + c - ch "0"%char))). lia. Qed.

Lemma parts_length c sp : (length (extract_flags c sp).2 <= length sp /\ length (extract_width c sp).2 <= length sp /\
  length (extract_prec c sp).2 <= length sp /\ length (extract_length c sp).2 <= length sp)%nat.
Proof.
  pose proof (next_length sp) as N1. pose proof (next_length (next sp)) as N2. split; [|split; [|split]].
  - unfold extract_flags. assert (H : (length (flags_loop c sp).2 <= length sp)%nat).
    { clear. revert c. induction sp as [|x sp IH]; intros c; [done|]. cbn [flags_loop]. destruct (flag_of x) as [f|]; [|done]. specialize (IH (set f true c)). cbn [length]. lia. }
    destruct (flags_loop c sp) as [c' sp']. exact H.
  - unfold extract_width. destruct (chr sp =? _); [exact N1|]. pose proof (decimal_length 0 sp) as D. destruct (extract_decimal 0 sp). by destruct (negb _).
  - unfold extract_prec. destruct (negb _); [done|]. destruct (_ =? _); [cbn [snd]; lia|]. pose proof (decimal_length 0 (next sp)) as D.
    destruct (extract_decimal 0 (next sp)). cbn [snd] in *. lia.
  - unfold extract_length. repeat case_match; cbn [snd]; lia.
Qed.

Lemma extract_shorter sp c rest : extract_conversion sp = (c, Some rest) -> (length rest < length sp)%nat.
Proof.
  unfold extract_conversion. destruct (Z.eqb_spec (chr sp) "%"%char) as [E|_].
  { intros [= _ <-]. destruct sp; [done|]. cbn. lia. }
  pose proof (parts_length empty_conversion sp) as (L1 & _). destruct (extract_flags empty_conversion sp) as [c1 sp1].
  pose proof (parts_length c1 sp1) as (_ & L2 & _). destruct (extract_width c1 sp1) as [c2 sp2].
  pose proof (parts_length c2 sp2) as (_ & _ & L3 & _). destruct (extract_prec c2 sp2) as [c3 sp3].
  pose proof (parts_length c3 sp3) as (_ & _ & _ & L4). destruct (extract_length c3 sp3) as [c4 sp4]. cbn [snd] in *.
  unfold extract_specifier. destruct sp4 as [|x sp4]; intros [= _ <-]. cbn in *. lia.
Qed.

(** ** Integers *)

(** A conversion of an integer without stars, and the format behind it. *)
Record int_format (sp : list Z) (c : conversion) (rest : list Z) : Prop := {
  i_extract : extract_conversion sp = (c, Some rest);
  i_valid : bit c invalid = false /\ bit c unsupported = false;
  i_stars : bit c width_star = false /\ bit c prec_star = false;
  i_int : sint_case (specifier c) = true \/ one_of ["o"; "u"; "x"; "X"]%char (specifier c) = true;
  i_length : length_mod c = LENGTH_NONE \/ length_mod c = LENGTH_L;
  i_small : width_value c < 2 ^ 30 /\ prec_value c < 2 ^ 30 }.

Definition radix (c : conversion) : Z := conversion_radix (specifier c).

(** The conversion once its value is known. *)
Definition final (c : conversion) (text : list Z) : conversion :=
  let precision := if bit c prec_present then prec_value c else -1 in
  let c := set_pad0_pre_exp 0 (set_pad0_value 0 c) in
  prec_int_pad0 precision text
    (if bit c flag_hash then if radix c =? 8 then set altform_0 true c else if radix c =? 16 then set altform_0c true c else c else c).

(** The argument as a signed or an unsigned number, its digits and its sign. *)
Definition digits (c : conversion) (x : Z) : list Z := encode_loop 25 (radix c) (isupper (specifier c)) x [].
Definition is_signed (c : conversion) : bool := sint_case (specifier c).
Definition magnitude (c : conversion) (v : Z) : Z := if is_signed c then Z.abs (s32 v) else u32 v.
Definition sign_of (c : conversion) (v : Z) : Z :=
  if is_signed c then
    if s32 v <? 0 then ch "-"%char else if bit c flag_plus then ch "+"%char else if bit c flag_space then ch " "%char else 0
  else 0.

Definition int_text (c : conversion) (v : Z) : list Z :=
  let text := digits c (magnitude c v) in
  layout (final c text) (if bit c width_present then width_value c else -1) (sign_of c v) text.

Lemma int_category c : sint_case c = true \/ one_of ["o"; "u"; "x"; "X"]%char c = true ->
  category c = (if sint_case c then SPECIFIER_SINT else SPECIFIER_UINT) /\ c <> "%"%char /\ c <> "c"%char.
Proof.
  unfold category. destruct (sint_case c) eqn:E.
  - intros _. split; [done|]. split; (intros ->; by vm_compute in E).
  - intros [?|H]; [done|]. assert (Hu : uint_case c = true).
    { unfold uint_case, one_of in *. cbn [existsb] in *. destruct (c =? "o"%char), (c =? "u"%char), (c =? "x"%char), (c =? "X"%char); rewrite ?orb_true_r in *; done. }
    rewrite Hu. split; [done|]. split; (intros ->; by vm_compute in H).
Qed.

Lemma final_facts c text : fresh c -> bit c unsupported = false -> (length text <= 25)%nat -> prec_value c < 2 ^ 30 ->
  let f := final c text in bit f pad_fp = false /\ 0 <= pad0_value f < 2 ^ 30 /\ specifier f = specifier c /\
  (forall g, g <> flag_zero -> g <> altform_0 -> g <> altform_0c -> bit f g = bit c g).
Proof.
  intros [H1 H2 H3 H4 H5] Hu Hl Hp. specialize (H5 Hu). unfold final, prec_int_pad0. set (p := if bit c prec_present then prec_value c else -1).
  set (c0 := set_pad0_pre_exp 0 (set_pad0_value 0 c)).
  set (k := if bit c0 flag_hash then _ else _).
  assert (Hk : pad0_value k = 0 /\ specifier k = specifier c /\ (forall g, g <> altform_0 -> g <> altform_0c -> bit k g = bit c g)).
  { unfold k. destruct (bit c0 flag_hash); [destruct (_ =? 8); [|destruct (_ =? 16)]|]; (split; [done|split; [done|]]); intros g G1 G2; cbn;
      rewrite ?decide_False by done; done. }
  destruct Hk as (K1 & K2 & K3). assert (Hpad : p < 2 ^ 30) by (unfold p; destruct (bit c prec_present); lia).
  destruct (Z.leb_spec 0 p) as [Hp0|Hp0].
  - destruct (Z.ltb_spec (Z.of_nat (length text)) p) as [Hlt|Hge]; cbn; rewrite ?decide_False by done.
    + split; [by rewrite K3|]. split; [lia|]. split; [done|]. intros g G1 G2 G3. rewrite decide_False by done. by apply K3.
    + split; [by rewrite K3|]. split; [unfold pad0_value in K1; lia|]. split; [done|]. intros g G1 G2 G3. rewrite decide_False by done. by apply K3.
  - split; [by rewrite K3|]. split; [lia|]. split; [done|]. intros g G1 G2 G3. by apply K3.
Qed.

Section print.
Context {X : Type} (out : Z -> M X Z) (store : Z -> Z -> Z -> M X unit).

Lemma pbind_ret {A B} (a : A) (f : A -> M X (Z + B)) : pbind (pret a) f = f a.
Proof. reflexivity. Qed.

(** Printing comes down to the text and the layout. *)
(** The value of the argument. *)
Lemma get_int c v ap : length_mod c = LENGTH_NONE \/ length_mod c = LENGTH_L ->
  specifier_cat c = (if is_signed c then SPECIFIER_SINT else SPECIFIER_UINT) ->
  get_value c (Word v :: ap) = pret (X := X) (Int (if is_signed c then s32 v else u32 v), ap).
Proof.
  intros Hl Hc. unfold get_value. rewrite Hc. destruct (is_signed c); [unfold get_sint|unfold get_uint]; destruct Hl as [-> | ->]; reflexivity.
Qed.

Lemma s32_range v : - 2 ^ 31 <= s32 v < 2 ^ 31.
Proof. unfold s32. pose proof (Z.mod_pos_bound (v + 2 ^ 31) (2 ^ 32) eq_refl). lia. Qed.

Lemma convert_int c v precision count : let c0 := set_pad0_pre_exp 0 (set_pad0_value 0 c) in
  specifier c <> "%"%char -> specifier c <> "c"%char -> precision = (if bit c prec_present then prec_value c else -1) ->
  convert out store c0 (Int (if is_signed c then s32 v else u32 v)) precision count =
  pret (Some (digits c (magnitude c v)), final c (digits c (magnitude c v)), sign_of c v, count).
Proof.
  intros c0 Np Nc ->. unfold convert. change (specifier c0) with (specifier c).
  rewrite (proj2 (Z.eqb_neq _ _) Np), (proj2 (Z.eqb_neq _ _) Nc). unfold magnitude, sign_of, is_signed. destruct (sint_case (specifier c)); [|reflexivity].
  pose proof (s32_range v) as Hr. change (bit c0 flag_plus) with (bit c flag_plus). change (bit c0 flag_space) with (bit c flag_space).
  destruct (Z.ltb_spec (s32 v) 0).
  - replace (u64 (- s32 v)) with (Z.abs (s32 v)) by (unfold u64; rewrite Z.mod_small; lia). reflexivity.
  - rewrite (Z.abs_eq (s32 v)) by done. reflexivity.
Qed.

(** Printing comes down to the text and the layout. *)
Lemma int_run sp c rest v ap count : int_format sp c rest ->
  let text := digits c (magnitude c v) in
  print_conversion out store sp (Word v :: ap) count =
  pbind (emit out (final c text) (if bit c width_present then width_value c else -1) (sign_of c v) text count) (fun count => pret (Some rest, ap, count)).
Proof.
  intros [He [V1 V2] [S1 S2] Hi Hl [W1 W2]] text. destruct (int_category _ Hi) as (Ec & Np & Nc).
  assert (Hn : chr sp <> "%"%char).
  { intros E. unfold extract_conversion in He. rewrite E, Z.eqb_refl in He. injection He as <- _. done. }
  pose proof (extract_facts sp Hn) as [Hf Hcat]. rewrite He in Hf, Hcat. cbn [fst] in Hf, Hcat.
  unfold print_conversion. rewrite He. unfold get_width, get_prec. rewrite S1, pbind_ret. cbv beta iota. rewrite S2, pbind_ret. cbv beta iota.
  set (c0 := set_pad0_pre_exp 0 (set_pad0_value 0 c)).
  assert (Efp : bool_decide (specifier_cat c0 = SPECIFIER_FP) = false).
  { apply bool_decide_eq_false. unfold c0. cbn. rewrite Hcat, Ec. by destruct (sint_case _). }
  rewrite Efp. cbn [andb]. rewrite (get_int c0 v ap), pbind_ret; [|done|unfold c0; cbn; by rewrite Hcat, Ec]. cbv beta iota.
  change (bit c0 invalid) with (bit c invalid). change (bit c0 unsupported) with (bit c unsupported). rewrite V1, V2. cbn [orb].
  change (is_signed c0) with (is_signed c). unfold c0. rewrite (convert_int c v _ count Np Nc eq_refl), pbind_ret. reflexivity.
Qed.

Lemma radix_range c : 8 <= radix c <= 16.
Proof. unfold radix, conversion_radix. destruct (_ =? _); [lia|]. destruct (one_of _ _); lia. Qed.

Lemma digits_facts c v : let ds := digits c (magnitude c v) in
  digits_in (radix c) ds /\ ds <> [] /\ number (radix c) 0 ds = magnitude c v /\ (length ds <= 25)%nat.
Proof.
  pose proof (radix_range c) as Hr. apply encode_digits; [lia|lia|].
  assert (Hm : 0 <= magnitude c v < 8 ^ 25).
  { unfold magnitude. pose proof (s32_range v). pose proof (Z.mod_pos_bound v (2 ^ 32) eq_refl). unfold u32. destruct (is_signed c); lia. }
  split; [lia|]. pose proof (Z.pow_le_mono_l 8 (radix c) 25). lia.
Qed.

Lemma format_fresh sp c rest : int_format sp c rest -> fresh c.
Proof.
  intros [He _ _ Hi _ _]. destruct (int_category _ Hi) as (_ & Np & _). assert (Hn : chr sp <> "%"%char).
  { intros E. unfold extract_conversion in He. rewrite E, Z.eqb_refl in He. injection He as <- _. done. }
  pose proof (extract_facts sp Hn) as [Hf _]. by rewrite He in Hf.
Qed.

(** The text of one conversion. *)
Lemma int_size sp c rest v : int_format sp c rest -> Z.of_nat (length (int_text c v)) < 2 ^ 31 - 2 ^ 29.
Proof.
  intros Hf. pose proof (format_fresh sp c rest Hf) as Hfr. pose proof (i_valid _ _ _ Hf) as [_ V]. pose proof (i_small _ _ _ Hf) as [W P].
  destruct (digits_facts c v) as (_ & _ & _ & L). unfold int_text. set (text := digits c (magnitude c v)) in *.
  destruct (final_facts c text Hfr V L P) as (F1 & F2 & _). rewrite layout_length.
  rewrite length_app, Nat2Z.inj_add, body_length by lia. unfold sign_chars.
  destruct (bit c width_present), (_ =? 0), (bit (final c text) altform_0c), (bit (final c text) altform_0); cbn [length]; lia.
Qed.

Lemma int_says sp c rest v ap count : int_format sp c rest -> count = u32 count ->
  says out (print_conversion out store sp (Word v :: ap) count) (int_text c v) (Some rest, ap, u32 (count + Z.of_nat (length (int_text c v)))).
Proof.
  intros Hf Hc. pose proof (format_fresh sp c rest Hf) as Hfr. pose proof (i_valid _ _ _ Hf) as [_ V]. pose proof (i_small _ _ _ Hf) as [W P].
  pose proof (int_size sp c rest v Hf) as Hl. rewrite (int_run sp c rest v ap count Hf).
  destruct (digits_facts c v) as (_ & _ & _ & L). unfold int_text in *. set (text := digits c (magnitude c v)) in *.
  destruct (final_facts c text Hfr V L P) as (F1 & F2 & _). rewrite layout_length in Hl.
  apply (says_map out _ (fun count => (Some rest, ap, count))). apply prints_layout; [done|lia|lia|destruct (bit c width_present); lia|done].
Qed.

(** A string without width and precision. *)
Lemma string_extract rest : extract_conversion (ch "s"%char :: rest) = ((extract_conversion [ch "s"%char]).1, Some rest).
Proof.
  assert (E : extract_width empty_conversion (ch "s"%char :: rest) = (set width_present true empty_conversion, ch "s"%char :: rest)).
  { unfold extract_width. change (extract_decimal 0 (ch "s"%char :: rest)) with (0, ch "s"%char :: rest). cbv beta iota zeta. rewrite Nat.eqb_refl. reflexivity. }
  unfold extract_conversion at 1. change (extract_flags empty_conversion (ch "s"%char :: rest)) with (empty_conversion, ch "s"%char :: rest).
  change (chr (ch "s"%char :: rest) =? "%"%char) with false. cbv beta iota. rewrite E. reflexivity.
Qed.

Lemma string_says rest a str ap count : a <> 0 -> Z.of_nat (length str) < 2 ^ 31 -> count = u32 count ->
  says out (print_conversion out store (ch "s"%char :: rest) (Pointer a str :: ap) count) str (Some rest, ap, u32 (count + Z.of_nat (length str))).
Proof.
  intros Ha Hl Hc. set (c := (extract_conversion [ch "s"%char]).1).
  assert (Hr : print_conversion out store (ch "s"%char :: rest) (Pointer a str :: ap) count =
    pbind (emit out (set_pad0_pre_exp 0 (set_pad0_value 0 c)) 0 0 str count) (fun count => pret (Some rest, ap, count))).
  { unfold print_conversion. rewrite string_extract.
    destruct a; [done|reflexivity|reflexivity]. }
  rewrite Hr. apply (says_map out _ (fun count => (Some rest, ap, count))).
  set (k := set_pad0_pre_exp 0 (set_pad0_value 0 c)).
  assert (El : layout k 0 0 str = str).
  { change (layout k 0 0 str) with (spaces (- Z.of_nat (length str)) ++ str). by rewrite spaces_none by lia. }
  pose proof (prints_layout out k 0 0 str eq_refl ltac:(done) ltac:(done) ltac:(done) count Hc) as Hp. by rewrite El in Hp.
Qed.

(** Formats of integers, strings and other characters, with their arguments
    and their text. *)
Inductive formats : list Z -> list arg -> list Z -> Prop :=
| formats_end : formats [] [] []
| formats_char (c : Z) fmt ap text : c <> "%"%char -> formats fmt ap text -> formats (c :: fmt) ap (c :: text)
| formats_string rest a str ap text : a <> 0 -> Z.of_nat (length str) < 2 ^ 31 -> formats rest ap text ->
    formats (ch "%"%char :: ch "s"%char :: rest) (Pointer a str :: ap) (str ++ text)
| formats_int sp c rest v ap text : int_format sp c rest -> formats rest ap text -> formats (ch "%"%char :: sp) (Word v :: ap) (int_text c v ++ text).

Lemma formats_says fmt ap text fuel count : formats fmt ap text -> (length fmt <= fuel)%nat -> count = u32 count ->
  says out (cbvprintf_loop out store fuel (Some fmt) ap count) text (u32 (count + Z.of_nat (length text))).
Proof.
  intros H. revert fuel count. induction H as [|c fmt ap text Hc H IH|rest a str ap text Ha Hl H IH|sp c rest v ap text Hf H IH];
    intros fuel count Hfuel Hn.
  - rewrite Z.add_0_r, <- Hn. destruct fuel; apply says_ret.
  - destruct fuel as [|fuel]; [cbn in Hfuel; lia|]. cbn [cbvprintf_loop]. rewrite (proj2 (Z.eqb_neq c _)) by done. cbn [negb].
    change (c :: text) with ([c] ++ text). eapply says_bind; [apply says_outc|]. rewrite count_app. apply IH; [cbn in Hfuel; lia|by rewrite u32_idem].
  - destruct fuel as [|fuel]; [cbn in Hfuel; lia|]. cbn [cbvprintf_loop]. change (ch "%"%char =? ch "%"%char) with true. cbn [negb].
    eapply says_bind; [by apply string_says|]. rewrite count_app. apply IH; [cbn in Hfuel; lia|by rewrite u32_idem].
  - destruct fuel as [|fuel]; [cbn in Hfuel; lia|]. cbn [cbvprintf_loop]. change (ch "%"%char =? ch "%"%char) with true. cbn [negb].
    eapply says_bind; [by apply (int_says sp c rest v ap)|]. rewrite count_app. pose proof (extract_shorter sp c rest (i_extract _ _ _ Hf)).
    apply IH; [cbn in Hfuel; lia|by rewrite u32_idem].
Qed.

(** The whole format, for every callback: the text goes to it character by
    character, and the result is the length or the callback's error. *)
Lemma formats_printed fmt ap text s : formats fmt ap text -> cbvprintf out store fmt ap s =
  mbind (fun r => mret (match r with Some rc => s32 rc | None => s32 (u32 (Z.of_nat (length text))) end)) (play out text) s.
Proof.
  intros H. unfold cbvprintf. unfold mbind at 1, M_bind at 1. rewrite (formats_says fmt ap text (length fmt) 0 H (Nat.le_refl _) eq_refl s).
  unfold mbind, M_bind. by destruct (play out text s) as [[[rc|]|] s'].
Qed.

Lemma int_printed sp c v s : int_format sp c [] -> cbvprintf out store (ch "%"%char :: sp) [Word v] s =
  mbind (fun r => mret (match r with Some rc => s32 rc | None => Z.of_nat (length (int_text c v)) end)) (play out (int_text c v)) s.
Proof.
  intros Hf. pose proof (int_size sp c [] v Hf) as Hl. rewrite (formats_printed _ _ (int_text c v)).
  - unfold u32. rewrite Z.mod_small, s32_id by lia. done.
  - rewrite <- (app_nil_r (int_text c v)). by apply (formats_int sp c []); [|constructor].
Qed.
End print.

(** ** Reading the text back *)

Definition is_space : Z -> Prop := fun c => isspace c = true.

Lemma spaces_are_spaces n : Forall is_space (spaces n).
Proof. apply Forall_replicate. done. Qed.

Lemma ends_spaces b n : ends b (spaces n).
Proof. unfold spaces. destruct (Z.to_nat n); [done|]. cbn. done. Qed.

(** A text as the functions that read numbers take it apart. *)
Lemma layout_shape conv width sign text neg : bit conv altform_0c = false \/ bit conv flag_zero = false ->
  (sign = 0 \/ sign = " "%char \/ sign = "+"%char) /\ neg = false \/ sign = "-"%char /\ neg = true ->
  exists sp sg n rest, layout conv width sign text = sp ++ sg ++ (if bit conv altform_0c then [ch "0"%char; specifier conv] else []) ++
      (replicate n (ch "0"%char) ++ text) ++ spaces rest /\ Forall is_space sp /\ sign_text neg sg.
Proof.
  intros Hz Hs.
  assert (Hsg : exists sp sg, sign_chars sign = sp ++ sg /\ Forall is_space sp /\ sign_text neg sg).
  { destruct Hs as [[[->|[->| ->]] ->]|[-> ->]]; [exists [], []|exists [ch " "%char], []|exists [], [ch "+"%char]|exists [], [ch "-"%char]];
      (split; [done|split; [by repeat constructor|constructor]]). }
  destruct Hsg as (sp & sg & Es & Hsp & Hsg).
  assert (Hb : exists n, body conv text = (if bit conv altform_0c then [ch "0"%char; specifier conv] else []) ++ replicate n (ch "0"%char) ++ text).
  { unfold body, prefix, zeros. destruct (bit conv altform_0c); [by eexists|]. destruct (bit conv altform_0); [|by eexists].
    exists (S (Z.to_nat (pad0_value conv))). done. }
  destruct Hb as (n & Hb). unfold layout. set (pad := width - _). rewrite Es, Hb. destruct (bit conv flag_dash); [|destruct (bit conv flag_zero) eqn:Ez].
  - exists sp, sg, n, pad. split; [|done]. by rewrite <- !app_assoc.
  - destruct Hz as [Hz|Hz]; [|done]. rewrite Hz. exists sp, sg, (Z.to_nat pad + n)%nat, 0. split; [|done]. cbn [app spaces].
    rewrite replicate_add, <- !app_assoc. unfold zeros, spaces. cbn. by rewrite app_nil_r.
  - exists (spaces pad ++ sp), sg, n, 0. split; [|split; [|done]].
    + unfold spaces at 3. cbn [Z.to_nat replicate]. rewrite app_nil_r, <- !app_assoc. done.
    + apply Forall_app. split; [apply spaces_are_spaces|done].
Qed.

Lemma prefixed_reads x ds rest : x = 120 \/ x = 88 -> digits_in 16 ds -> ds <> [] -> reads_as 16 16 [ch "0"%char; x] ds rest.
Proof. intros Hx Hd Hn. split; [split; [done|split; [done|lia]]|done|]. by destruct Hx as [-> | ->]. Qed.

(** The second character is no x: it is a digit, a space or the end. *)
Lemma second_char ds n : digits_in 16 ds -> chr (next (ds ++ spaces n)) <> 120 /\ chr (next (ds ++ spaces n)) <> 88.
Proof.
  intros Hd. assert (Hs : chr (spaces n) <> 120 /\ chr (spaces n) <> 88) by (unfold spaces; destruct (Z.to_nat n); done).
  destruct Hd as [|c ds _ Hd]; [unfold spaces; destruct (Z.to_nat n) as [|[|m]]; by split|]. cbn [next app tail].
  destruct Hd as [|c' ds [Hc [d [Hv Hr]]] _]; [done|]. destruct (digit_chars c' d Hc Hv) as (_ & _ & _ & H). apply H. lia.
Qed.

Lemma final_altform c text : fresh c -> bit (final c text) altform_0c = bit c flag_hash && (radix c =? 16).
Proof.
  intros [_ H2 H3 _ _]. assert (Hp : forall p k, bit (prec_int_pad0 p text k) altform_0c = bit k altform_0c).
  { intros p k. unfold prec_int_pad0. destruct (0 <=? p); [|done]. by destruct (_ <? p). }
  unfold final. rewrite Hp. change (bit (set_pad0_pre_exp 0 (set_pad0_value 0 c)) flag_hash) with (bit c flag_hash).
  change (radix (set_pad0_pre_exp 0 (set_pad0_value 0 c))) with (radix c). destruct (bit c flag_hash); [|done]. cbn [andb].
  destruct (Z.eqb_spec (radix c) 8) as [->|]; [done|]. by destruct (radix c =? 16).
Qed.

Lemma sign_cases c v : let neg := is_signed c && (s32 v <? 0) in
  (sign_of c v = 0 \/ sign_of c v = " "%char \/ sign_of c v = "+"%char) /\ neg = false \/ sign_of c v = "-"%char /\ neg = true.
Proof.
  unfold sign_of. destruct (is_signed c); [|by left; split; [left|]]. cbn [andb]. destruct (s32 v <? 0); [by right|].
  left. split; [|done]. destruct (bit c flag_plus); [by right; right|]. destruct (bit c flag_space); [by right; left|by left].
Qed.

Lemma int_text_reads sp c rest v : int_format sp c rest ->
  bit c flag_hash = false \/ bit (final c (digits c (magnitude c v))) flag_zero = false \/ radix c <> 16 ->
  exists sps sg pre ds rest, int_text c v = sps ++ sg ++ pre ++ ds ++ spaces rest /\ Forall is_space sps /\
    sign_text (is_signed c && (s32 v <? 0)) sg /\ reads_as (radix c) (radix c) pre ds (spaces rest) /\ number (radix c) 0 ds = magnitude c v.
Proof.
  intros Hf Hz. pose proof (format_fresh sp c rest Hf) as Hfr. destruct (digits_facts c v) as (D & N & V & L).
  set (text := digits c (magnitude c v)) in *. pose proof (final_altform c text Hfr) as Ea. pose proof (radix_range c) as Hr.
  destruct (final_facts c text Hfr (proj2 (i_valid _ _ _ Hf)) L (proj2 (i_small _ _ _ Hf))) as (_ & _ & Es & _).
  unfold int_text. fold text. set (w := if bit c width_present then width_value c else -1).
  assert (Hz' : bit (final c text) altform_0c = false \/ bit (final c text) flag_zero = false).
  { rewrite Ea. destruct (bit c flag_hash); [|by left]. cbn [andb]. destruct (Z.eqb_spec (radix c) 16); [|by left]. right. destruct Hz as [?|[?|?]]; done. }
  destruct (layout_shape (final c text) w (sign_of c v) text _ Hz' (sign_cases c v)) as (sps & sg & n & r & E & Hsp & Hsg).
  exists sps, sg, (if bit (final c text) altform_0c then [ch "0"%char; specifier (final c text)] else []), (replicate n (ch "0"%char) ++ text), r.
  split; [exact E|]. split; [done|]. split; [done|]. rewrite number_zeros. split; [|done].
  assert (Hd : digits_in (radix c) (replicate n (ch "0"%char) ++ text)) by (apply digits_zeros; [lia|done]).
  assert (Hne : replicate n (ch "0"%char) ++ text <> []) by (intros [_ ?]%app_nil; done).
  rewrite Es, Ea. destruct (bit c flag_hash && (radix c =? 16)) eqn:Eb.
  - apply andb_prop in Eb as [_ E16%Z.eqb_eq]. rewrite E16 in *. apply prefixed_reads; [|done|done].
    destruct (i_int _ _ _ Hf) as [Hi|Hi]; unfold radix, conversion_radix in E16.
    + unfold sint_case, one_of in Hi. cbn in Hi. apply orb_prop in Hi as [Hi|Hi]; [|rewrite orb_false_r in Hi]; apply Z.eqb_eq in Hi; rewrite Hi in E16; done.
    + unfold one_of in Hi. cbn in Hi. rewrite !orb_true_iff, !Z.eqb_eq in Hi. destruct Hi as [Hi|[Hi|[Hi|[Hi|Hi]]]]; [rewrite Hi in E16; done|rewrite Hi in E16; done|by left|by right|done].
  - apply plain_reads; [lia| |done|done]. destruct (Z.eq_dec (radix c) 16) as [E16|]; [right|by left]. rewrite E16 in Hd. by apply second_char.
Qed.


(** A callback that keeps the characters. *)
Definition keep (c : Z) : M (list Z) Z := fun l => (Done c, l ++ [c]).
Definition no_store (size dp x : Z) : M (list Z) unit := mret tt.
Definition sprint (fmt : list Z) (ap : list arg) : outcome Z * list Z := cbvprintf keep no_store fmt ap [].
Definition chars (l : list ascii) : list Z := map ch l.

Definition demo_spec : list Z := chars ["+"; "0"; "6"; "d"]%char.
Definition demo_conv : conversion := (extract_conversion demo_spec).1.

Lemma demo_format : int_format demo_spec demo_conv [].
Proof. split; [reflexivity|by vm_compute|by vm_compute|by left; vm_compute|by left; vm_compute|by vm_compute]. Qed.


(** ** What goes wrong *)

(** With # and 0 the zeros stand before the prefix, and the number is read as
    zero: %#08x of 31 is 00000x1f. *)
Theorem padded_prefix_unreadable :
  sprint (chars ["%"; "#"; "0"; "8"; "x"]%char) [Word 31] = (Done 8, chars ["0"; "0"; "0"; "0"; "0"; "x"; "1"; "f"]%char) /\
  strtoul (chars ["0"; "0"; "0"; "0"; "0"; "x"; "1"; "f"]%char) 16 = (0, chars ["x"; "1"; "f"]%char, false).
Proof. by vm_compute. Qed.

(** The cast of %hhd is to [char], which has no sign on ARM: -22 is 234. *)
Theorem signed_char_unsigned : sprint (chars ["%"; "h"; "h"; "d"]%char) [Word (-22)] = (Done 3, chars ["2"; "3"; "4"]%char).
Proof. by vm_compute. Qed.

(** After a percent sign at the end of the format the pointer is behind the
    NUL, which is printed as well, and reading goes on there. *)
Theorem lone_percent_overruns : sprint (chars ["a"; "%"]%char) [] = (Stop NullDeref, [97; 37; 0]).
Proof. by vm_compute. Qed.
