(* ===== verification/PrintfFloat.v ===== *)
(** * Floating point numbers in formatted output

    The division by five without a division is exact; the loops that scale
    a number end for every [double]; and its text fits the buffer. *)
From S2P Require Import Prelude Strtol Printf.
From stdpp Require Import prelude list numbers.
From Stdlib Require Import ZArith Lia Ascii.
Open Scope Z_scope.

(** ** Division *)

Definition u64_ok (v : Z) : Prop := 0 <= v < 2 ^ 64.

Lemma ldiv5_spec v : u64_ok v -> ldiv5 v = v / 5.
Proof.
  intros Hv. unfold u64_ok in Hv. unfold ldiv5. set (m := 0x33333333). change (Z.lor (Z.shiftl m 32) m) with 0x3333333333333333.
  rewrite !Z.shiftr_div_pow2 by lia. unfold u32, u64. rewrite (Z.mod_small (v / 2 ^ 32)) by (split; [apply Z.div_pos; lia|apply Z.div_lt_upper_bound; lia]).
  set (lo := v mod 2 ^ 32). set (hi := v / 2 ^ 32). assert (E : v = hi * 2 ^ 32 + lo) by (unfold hi, lo; rewrite (Z.div_mod v (2 ^ 32)) at 1; lia).
  assert (Hlo : 0 <= lo < 2 ^ 32) by (apply Z.mod_pos_bound; lia). assert (Hhi : 0 <= hi < 2 ^ 32) by (unfold hi; split; [apply Z.div_pos; lia|apply Z.div_lt_upper_bound; lia]).
  clearbody lo hi. subst v. unfold m.
  rewrite (Z.mod_small (0x3333333333333333 + lo * 0x33333333)) by lia.
  set (b := (0x3333333333333333 + lo * 0x33333333) / 2 ^ 32). assert (Hb : 0x3333333333333333 + lo * 0x33333333 - 2 ^ 32 < 2 ^ 32 * b <= 0x3333333333333333 + lo * 0x33333333).
  { unfold b. pose proof (Z.div_mod (0x3333333333333333 + lo * 0x33333333) (2 ^ 32) ltac:(lia)). pose proof (Z.mod_pos_bound (0x3333333333333333 + lo * 0x33333333) (2 ^ 32) ltac:(lia)). lia. }
  clearbody b. rewrite (Z.mod_small (b + lo * 0x33333333)), (Z.mod_small (b + lo * 0x33333333 + hi * 0x33333333)) by lia.
  set (d := (b + lo * 0x33333333 + hi * 0x33333333) / 2 ^ 32).
  assert (Hd : b + lo * 0x33333333 + hi * 0x33333333 - 2 ^ 32 < 2 ^ 32 * d <= b + lo * 0x33333333 + hi * 0x33333333).
  { unfold d. pose proof (Z.div_mod (b + lo * 0x33333333 + hi * 0x33333333) (2 ^ 32) ltac:(lia)). pose proof (Z.mod_pos_bound (b + lo * 0x33333333 + hi * 0x33333333) (2 ^ 32) ltac:(lia)). lia. }
  clearbody d. rewrite Z.mod_small by lia. apply (Z.div_unique_pos (hi * 2 ^ 32 + lo) 5 (d + hi * 0x33333333) (hi * 2 ^ 32 + lo - 5 * (d + hi * 0x33333333))); lia.
Qed.

Lemma ldiv10_spec v : u64_ok v -> ldiv10 v = v / 10.
Proof.
  unfold u64_ok. intros Hv. unfold ldiv10. rewrite Z.shiftr_div_pow2 by lia. rewrite ldiv5_spec.
  - rewrite Z.div_div by lia. done.
  - unfold u64_ok. split; [apply Z.div_pos; lia|apply Z.div_lt_upper_bound; lia].
Qed.

(** ** Scaling *)

Lemma bit_63 x : u64_ok x -> (Z.land x BIT_63 =? 0) = (x <? 2 ^ 63).
Proof.
  unfold u64_ok. intros Hx. unfold BIT_63. destruct (Z.ltb_spec x (2 ^ 63)).
  - apply Z.eqb_eq, Z.bits_inj'. intros n Hn. rewrite Z.land_spec, Z.bits_0, Z.pow2_bits_eqb by lia.
    destruct (Z.eqb_spec 63 n) as [<-|]; [|apply andb_false_r]. rewrite andb_true_r. apply Z.testbit_false; [lia|]. rewrite Z.div_small by lia. done.
  - apply Z.eqb_neq. intros E. assert (Hb : Z.testbit (Z.land x (2 ^ 63)) 63 = false) by (by rewrite E, Z.bits_0).
    rewrite Z.land_spec, Z.pow2_bits_true, andb_true_r in Hb by lia. apply Z.testbit_false in Hb; [|lia].
    rewrite <- (Z.mod_small (x / 2 ^ 63) 2) in Hb.
    + pose proof (Z.div_le_mono (2 ^ 63) x (2 ^ 63) ltac:(lia) ltac:(lia)). rewrite Z.mod_mod in Hb by lia. rewrite Z.mod_small in Hb; [rewrite Z.div_same in *; lia|].
      split; [apply Z.div_pos; lia|apply Z.div_lt_upper_bound; lia].
    + split; [apply Z.div_pos; lia|apply Z.div_lt_upper_bound; lia].
Qed.

(** A shift to the left until bit 63 is set; it is at least one place. *)
Lemma shift_up x : 0 < x < 2 ^ 63 -> u64 (Z.shiftl x 1) = 2 * x.
Proof. intros Hx. unfold u64. rewrite Z.shiftl_mul_pow2 by lia. rewrite Z.mod_small; lia. Qed.

Lemma normalize_run fuel fract expo : 0 < fract < 2 ^ 63 -> 2 ^ 63 <= fract * 2 ^ Z.of_nat fuel ->
  exists k, 1 <= k <= Z.of_nat fuel /\ normalize fuel fract expo = Some (fract * 2 ^ k, expo - k + 1) /\ 2 ^ 63 <= fract * 2 ^ k < 2 ^ 64.
Proof.
  revert fract expo. induction fuel as [|fuel IH]; intros fract expo Hf Hl; [cbn in Hl; lia|]. cbn [normalize]. rewrite shift_up by done.
  rewrite bit_63 by (unfold u64_ok; lia). rewrite Nat2Z.inj_succ, Z.pow_succ_r in Hl by lia.
  destruct (Z.ltb_spec (2 * fract) (2 ^ 63)) as [Hlt|Hge].
  - destruct (IH (2 * fract) (expo - 1)) as (k & Hk & E & Hr); [lia|lia|]. exists (k + 1). rewrite E.
    rewrite Z.pow_add_r by lia. split; [lia|]. split; [f_equal; f_equal; lia|lia].
  - exists 1. split; [lia|]. split; [f_equal; f_equal; lia|lia].
Qed.

Lemma full_scale_run fuel fract expo : 0 < fract < 2 ^ 63 -> 2 ^ 63 <= fract * 2 ^ Z.of_nat fuel ->
  exists k, 1 <= k <= Z.of_nat fuel /\ full_scale fuel fract expo = Some (fract * 2 ^ k, expo - k) /\ 2 ^ 63 <= fract * 2 ^ k < 2 ^ 64.
Proof.
  revert fract expo. induction fuel as [|fuel IH]; intros fract expo Hf Hl; [cbn in Hl; lia|]. cbn [full_scale]. rewrite shift_up by done.
  rewrite bit_63 by (unfold u64_ok; lia). rewrite Nat2Z.inj_succ, Z.pow_succ_r in Hl by lia.
  destruct (Z.ltb_spec (2 * fract) (2 ^ 63)) as [Hlt|Hge].
  - destruct (IH (2 * fract) (expo - 1)) as (k & Hk & E & Hr); [lia|lia|]. exists (k + 1). rewrite E.
    rewrite Z.pow_add_r by lia. split; [lia|]. split; [f_equal; f_equal; lia|lia].
  - exists 1. split; [lia|]. split; [f_equal; f_equal; lia|lia].
Qed.

(** Fractions that the loops work on. *)
Definition scaled (fract : Z) : Prop := 2 ^ 61 <= fract <= 2 ^ 64 - 3.

Lemma room_test x : 0 <= x < 2 ^ 64 -> ((2 ^ 32 - 1) / 5 <=? u32 (Z.shiftr x 32)) = (858993459 * 2 ^ 32 <=? x).
Proof.
  intros Hx. change ((2 ^ 32 - 1) / 5) with 858993459. rewrite Z.shiftr_div_pow2 by lia. unfold u32.
  assert (Hd : 0 <= x / 2 ^ 32 < 2 ^ 32) by (split; [apply Z.div_pos; lia|apply Z.div_lt_upper_bound; lia]). rewrite Z.mod_small by lia.
  pose proof (Z.div_mod x (2 ^ 32) ltac:(lia)). pose proof (Z.mod_pos_bound x (2 ^ 32) ltac:(lia)).
  destruct (Z.leb_spec 858993459 (x / 2 ^ 32)), (Z.leb_spec (858993459 * 2 ^ 32) x); done || lia.
Qed.

Lemma make_room_run n fract expo : scaled fract ->
  exists f e, make_room (S (S (S n))) fract expo = Some (f, e) /\ 2 ^ 60 <= f < 858993459 * 2 ^ 32 /\ expo + 1 <= e <= expo + 3.
Proof.
  unfold scaled. intros Hf. cbn [make_room]. assert (Hs : forall x, Z.shiftr x 1 = x / 2) by (intros; by rewrite Z.shiftr_div_pow2). rewrite !Hs.
  assert (H2 : forall x, 2 * (x / 2) <= x < 2 * (x / 2) + 2) by (intros x; pose proof (Z.div_mod x 2 ltac:(lia)); pose proof (Z.mod_pos_bound x 2 ltac:(lia)); lia).
  pose proof (H2 fract). pose proof (H2 (fract / 2)). pose proof (H2 (fract / 2 / 2)). rewrite !room_test by lia.
  destruct (Z.leb_spec (858993459 * 2 ^ 32) (fract / 2)); [|eexists _, _; split; [done|lia]].
  destruct (Z.leb_spec (858993459 * 2 ^ 32) (fract / 2 / 2)); [|eexists _, _; split; [done|lia]].
  rewrite (proj2 (Z.leb_gt _ (fract / 2 / 2 / 2))) by lia. eexists _, _. split; [done|lia].
Qed.

Lemma scale_up_run fuel fract expo decexp : scaled fract -> expo <= 1024 -> - 2 - 2 * Z.of_nat fuel <= expo ->
  exists f e d, scale_up fuel fract expo decexp = Some (f, e, d) /\ scaled f /\ -2 <= e <= 1024.
Proof.
  revert fract expo decexp. induction fuel as [|fuel IH]; intros fract expo decexp Hf He Hl; cbn [scale_up];
    (destruct (Z.ltb_spec expo (-2)) as [Hlt|Hge]; [|by eexists _, _, _]); [lia|].
  destruct (make_room_run 61 fract expo Hf) as (f & e & -> & Hr & He'). cbn [mbind option_bind].
  assert (E : u64 (f * 5) = f * 5) by (unfold u64; rewrite Z.mod_small; lia). rewrite E. apply IH; [unfold scaled; lia|lia|lia].
Qed.

Lemma scale_down_run fuel fract expo decexp : scaled fract -> -2 <= expo <= 1024 -> expo <= 3 * Z.of_nat fuel ->
  exists f e d, scale_down fuel fract expo decexp = Some (f, e, d) /\ 0 <= f < 2 ^ 64 /\ e <= 0 /\ -5 <= e.
Proof.
  assert (Hgen : forall expo, -5 <= expo <= 1024 -> expo <= 3 * Z.of_nat fuel -> scaled fract ->
    exists f e d, scale_down fuel fract expo decexp = Some (f, e, d) /\ 0 <= f < 2 ^ 64 /\ e <= 0 /\ -5 <= e); [|intros; apply Hgen; [lia|lia|done]].
  revert fract decexp. induction fuel as [|fuel IH]; intros fract decexp e0 He Hl Hf; cbn [scale_down];
    (destruct (Z.ltb_spec 0 e0) as [Hlt|Hge]; [|eexists _, _, _; split; [done|unfold scaled in Hf; lia]]); [lia|].
  unfold scaled in Hf. assert (E : u64 (fract + 2) = fract + 2) by (unfold u64; rewrite Z.mod_small; lia). rewrite E, ldiv5_spec by (unfold u64_ok; lia).
  set (g := (fract + 2) / 5). assert (Hg : fract + 2 - 5 < 5 * g <= fract + 2).
  { unfold g. pose proof (Z.div_mod (fract + 2) 5 ltac:(lia)). pose proof (Z.mod_pos_bound (fract + 2) 5 ltac:(lia)). lia. }
  destruct (full_scale_run 64 g (e0 - 1)) as (k & Hk & -> & Hr); [lia|lia|]. cbn [mbind option_bind].
  assert (Hk2 : 2 <= k <= 5).
  { split.
    - destruct (Z.eq_dec k 1) as [->|]; [lia|lia].
    - destruct (Z.le_gt_cases k 5); [done|]. assert (2 ^ 6 <= 2 ^ k) by (apply Z.pow_le_mono_r; lia). nia. }
  assert (Hm : exists q, g * 2 ^ k = 4 * q) by (exists (g * 2 ^ (k - 2)); replace k with (k - 2 + 2) at 1 by lia; rewrite Z.pow_add_r by lia; lia).
  destruct Hm as (q & Hm). apply IH; [lia|lia|unfold scaled; lia].
Qed.

Lemma clear_sign x : 0 <= x < 2 ^ 63 -> Z.land x (2 ^ 64 - 1 - SIGN_MASK) = x.
Proof.
  intros Hx. change (2 ^ 64 - 1 - SIGN_MASK) with (Z.ones 63). rewrite Z.land_ones by lia. apply Z.mod_small. lia.
Qed.

Lemma set_top x : 0 <= x < 2 ^ 63 -> Z.lor x BIT_63 = x + 2 ^ 63.
Proof.
  intros Hx. unfold BIT_63. rewrite <- Z.lxor_lor, <- Z.add_nocarry_lxor; [done| |]; apply Z.bits_inj'; intros n Hn; rewrite Z.land_spec, Z.bits_0, Z.pow2_bits_eqb by lia;
    (destruct (Z.eqb_spec 63 n) as [<-|]; [|apply andb_false_r]); rewrite andb_true_r; (apply Z.testbit_false; [lia|]); rewrite Z.div_small by lia; done.
Qed.

Lemma keep_top x : 2 ^ 63 <= x < 2 ^ 64 -> Z.lor x BIT_63 = x.
Proof.
  intros Hx. replace x with (x - 2 ^ 63 + 2 ^ 63) at 1 by lia. rewrite <- (set_top (x - 2 ^ 63)) by lia. rewrite <- Z.lor_assoc, Z.lor_diag.
  rewrite set_top by lia. lia.
Qed.

(** The number before the loops. *)
Lemma scale_start expo fract : 0 <= expo <= 2046 -> 0 <= fract < 2 ^ 52 -> ~ (expo = 0 /\ fract = 0) ->
  exists f e, ('(fract, expo) ← (if (expo =? 0) && negb (fract * 2 ^ 11 =? 0) then normalize 64 (fract * 2 ^ 11) expo else Some (fract * 2 ^ 11, expo));
    Some (Z.lor fract BIT_63, expo - (1023 - 1))) = Some (f, e) /\ scaled f /\ -1073 <= e <= 1024.
Proof.
  intros He Hf Hn. destruct (Z.eqb_spec expo 0) as [->|Ne]; cbn [andb].
  - rewrite (proj2 (Z.eqb_neq (fract * 2 ^ 11) 0)) by lia. cbn [negb].
    destruct (normalize_run 64 (fract * 2 ^ 11) 0) as (k & Hk & -> & Hr); [lia|lia|]. cbn [mbind option_bind].
    rewrite keep_top by lia. eexists _, _. split; [done|].
    assert (k <= 52). { destruct (Z.le_gt_cases k 52); [done|]. assert (2 ^ 53 <= 2 ^ k) by (apply Z.pow_le_mono_r; lia). nia. }
    assert (Hm : exists q, fract * 2 ^ 11 * 2 ^ k = 4 * q) by (exists (fract * 2 ^ 9 * 2 ^ k); lia). destruct Hm as (q & Hm). unfold scaled. lia.
  - cbn [mbind option_bind]. rewrite set_top by lia. eexists _, _. split; [done|]. unfold scaled. lia.
Qed.

Lemma scale_run expo fract : 0 <= expo <= 2046 -> 0 <= fract < 2 ^ 52 ->
  exists f d, scale expo fract ((expo =? 0) && negb (fract =? 0)) = Some (f, d) /\ 0 <= f < 2 ^ 60.
Proof.
  intros He Hf. unfold scale. rewrite Z.shiftl_mul_pow2 by (unfold EXPONENT_BITS; lia). change EXPONENT_BITS with 11.
  assert (Hs : 0 <= fract * 2 ^ 11 < 2 ^ 63) by lia. unfold u64. rewrite Z.mod_small, clear_sign by lia.
  destruct (decide (expo = 0 /\ fract = 0)) as [[-> ->]|Hn]; [eexists _, _; split; [reflexivity|vm_compute; split; congruence]|].
  assert (Hlor : Z.lor expo (fract * 2 ^ 11) <> 0) by (intros [? ?]%Z.lor_eq_0_iff; apply Hn; lia). rewrite (proj2 (Z.eqb_neq _ _) Hlor). cbn [negb].
  assert (Hb : negb (fract =? 0) = negb (fract * 2 ^ 11 =? 0)) by (destruct (Z.eqb_spec fract 0), (Z.eqb_spec (fract * 2 ^ 11) 0); done || lia). rewrite Hb.
  destruct (scale_start expo fract He Hf Hn) as (f & e & -> & Hsc & Hr). cbn [mbind option_bind].
  destruct (scale_up_run 1100 f e 0 Hsc) as (f1 & e1 & d1 & -> & Hsc1 & Hr1); [lia|lia|]. cbn [mbind option_bind].
  destruct (scale_down_run 1100 f1 e1 d1 Hsc1 Hr1) as (f2 & e2 & d2 & -> & Hf2 & He2 & He2'); [lia|]. cbn [mbind option_bind].
  eexists _, _. split; [done|]. rewrite Z.shiftr_div_pow2 by lia. assert (2 ^ 4 <= 2 ^ (4 - e2)) by (apply Z.pow_le_mono_r; lia).
  split; [apply Z.div_pos; lia|]. apply Z.div_lt_upper_bound; nia.
Qed.

(** ** Digits *)

Definition fraction (f : Z) : Prop := 0 <= f < 2 ^ 60.

Lemma get_digit_run fr n : fraction fr -> 0 < n -> exists d f, get_digit fr n = (d, f, n - 1) /\ isdigit d = true /\ fraction f.
Proof.
  unfold fraction. intros Hf Hn. unfold get_digit. rewrite (proj2 (Z.ltb_lt 0 n)) by lia.
  assert (E : u64 (fr * 10) = fr * 10) by (unfold u64; rewrite Z.mod_small; lia). rewrite E.
  change (2 ^ 60 - 1) with (Z.ones 60). rewrite Z.land_ones, Z.shiftr_div_pow2 by lia.
  assert (Hd : 0 <= fr * 10 / 2 ^ 60 < 10) by (split; [apply Z.div_pos; lia|apply Z.div_lt_upper_bound; lia]).
  change 0xF with (Z.ones 4). rewrite Z.land_ones by lia.
  eexists _, _. split; [done|]. split; [|apply Z.mod_pos_bound; lia]. change (ch "0"%char) with 48.
  set (d := fr * 10 / 2 ^ 60) in *. change (2 ^ 4) with 16. rewrite (Z.mod_small d 16) by lia.
  unfold isdigit, u32. rewrite (Z.mod_small (d + 48)), Z.mod_small by lia. lia.
Qed.

Definition all_digits : list Z -> Prop := Forall (fun c => isdigit c = true).

Lemma emit_digits_run count n fr : fraction fr -> exists l n' f k, emit_digits count n fr = (l, n', f, k) /\
  (length l + k = count)%nat /\ all_digits l /\ fraction f /\ (0 <= n -> 0 <= n') /\ (n <= 0 -> l = []).
Proof.
  revert n fr. induction count as [|count IH]; intros n fr Hf; cbn [emit_digits].
  { eexists _, _, _, _. split; [done|]. split; [done|]. split; [constructor|]. auto. }
  destruct (Z.ltb_spec 0 n) as [Hn|Hn].
  2: { eexists _, _, _, _. split; [done|]. split; [done|]. split; [constructor|]. auto. }
  destruct (get_digit_run fr (Z.of_nat (S count)) Hf ltac:(lia)) as (d & f & -> & Hd & Hf').
  destruct (IH (n - 1) f Hf') as (l & n' & f2 & k & -> & Hl & Ha & Hf2 & Hn' & _). eexists _, _, _, _. split; [done|]. split; [cbn [length]; lia|].
  split; [by constructor|]. split; [done|]. split; [lia|lia].
Qed.

Lemma round_iter n : fraction (Nat.iter n ldiv10 (2 ^ 59)) /\ Nat.iter n ldiv10 (2 ^ 59) <= 2 ^ 59.
Proof.
  induction n as [|n [[I1 I2] I3]]; [done|]. change (Nat.iter (S n) ldiv10 (2 ^ 59)) with (ldiv10 (Nat.iter n ldiv10 (2 ^ 59))).
  rewrite ldiv10_spec by (unfold u64_ok; lia). set (r := Nat.iter n ldiv10 (2 ^ 59)) in *.
  assert (0 <= r / 10 <= r). { split; [apply Z.div_pos; lia|]. apply Z.div_le_upper_bound; lia. } unfold fraction. lia.
Qed.

Lemma round_off_run c p f d : fraction f -> exists f' d', round_off c p f d = (f', d') /\ fraction f'.
Proof.
  intros Hf. unfold round_off. set (n := Z.to_nat _). destruct (round_iter n) as [[R1 R2] R3]. set (r := Nat.iter n ldiv10 (2 ^ 59)) in *.
  unfold fraction in *. assert (E : u64 (f + r) = f + r) by (unfold u64; rewrite Z.mod_small; lia). rewrite E.
  destruct (Z.leb_spec (2 ^ 60) (f + r)); eexists _, _; (split; [done|]); [|lia]. rewrite ldiv10_spec by (unfold u64_ok; lia).
  split; [apply Z.div_pos; lia|apply Z.div_lt_upper_bound; lia].
Qed.

(** What stands before the point, and the point. *)
Lemma before_point_run c p f d conv : fraction f -> exists l conv' p' f' d' k, before_point c p f d conv = (l, conv', p', f', d', k) /\
  fraction f' /\ (length l + k <= 18)%nat.
Proof.
  intros Hf. unfold before_point. set (point := if bit conv flag_hash || (0 <? p) then _ else _).
  assert (Hp : (length point <= 1)%nat) by (unfold point; destruct (_ || _); cbn; lia).
  destruct (c =? "f"%char); [destruct (Z.ltb_spec 0 d) as [Hd|Hd]|].
  - destruct (emit_digits_run 16 d f Hf) as (l & n' & f2 & k & E & Hl & Ha & Hf2 & _). rewrite E. eexists _, _, _, _, _, _. split; [done|]. split; [done|].
    rewrite length_app. lia.
  - destruct ((d <? 0) && (0 <? p)); eexists _, _, _, _, _, _; (split; [done|]); (split; [done|]); cbn [length]; lia.
  - destruct (get_digit_run f 16 Hf ltac:(lia)) as (x & f2 & -> & _ & Hf2). eexists _, _, _, _, _, _. split; [done|]. split; [done|]. cbn [length]. lia.
Qed.

Lemma drop_zeros_length l : (length (drop_zeros l) <= length l)%nat.
Proof. induction l as [|c l IH]; [done|]. cbn. destruct (_ =? _); cbn; lia. Qed.

Lemma prune_length l : (length (prune l) <= length l)%nat.
Proof.
  unfold prune. pose proof (drop_zeros_length (rev l)) as H. rewrite length_rev in H. destruct (drop_zeros (rev l)) as [|c k]; [cbn; lia|].
  destruct (c =? "."%char); rewrite length_rev; cbn in *; lia.
Qed.

Lemma exponent_length c d : (length (exponent_text c d) <= 5)%nat.
Proof. unfold exponent_text. destruct (d <? 0); [destruct (100 <=? - d)|destruct (100 <=? d)]; cbn; lia. Qed.

Lemma encode_finite_run c expo fract p conv : 0 <= expo <= 2046 -> 0 <= fract < 2 ^ 52 ->
  exists text conv', encode_finite c expo fract ((expo =? 0) && negb (fract =? 0)) p conv = Some (text, conv') /\ (length text <= 23)%nat.
Proof.
  intros He Hf. unfold encode_finite. destruct (scale_run expo fract He Hf) as (f & d & -> & Hfr). cbn [mbind option_bind].
  destruct (choose _ p d (bit conv flag_hash)) as [[c1 p1] pr]. destruct (round_off_run c1 p1 f d Hfr) as (f1 & d1 & -> & Hfr1).
  destruct (before_point_run c1 p1 f1 d1 conv Hfr1) as (l1 & conv1 & p2 & f2 & d2 & k & -> & Hfr2 & Hl1).
  destruct (emit_digits_run k p2 f2 Hfr2) as (l2 & p3 & f3 & k2 & -> & Hl2 & _).
  assert (Hl : (length (l1 ++ l2) <= 18)%nat) by (rewrite length_app; lia). pose proof (prune_length (l1 ++ l2)) as Hp. pose proof (exponent_length c1 d2) as Hx.
  destruct pr, ((c1 =? "e"%char) || (c1 =? "E"%char)); eexists _, _; (split; [reflexivity|]); rewrite ?length_app in *; lia.
Qed.

Lemma encode_float_run value conv precision sign : 0 <= value < 2 ^ 64 ->
  exists text conv' sign', encode_float value conv precision sign = Some (text, conv', sign') /\ Z.of_nat (length text) + 1 <= CONVERTED_BUFLEN.
Proof.
  intros Hv. unfold encode_float.
  change (2 ^ EXPONENT_BITS - 1) with (Z.ones 11). change (BIT64_MASK FRACTION_BITS) with (Z.ones 52).
  rewrite !Z.land_ones, Z.shiftr_div_pow2 by (unfold FRACTION_BITS; lia). change (Z.ones 11) with 2047.
  set (expo := (value / 2 ^ FRACTION_BITS) mod 2 ^ 11). set (fract := value mod 2 ^ 52).
  assert (He : 0 <= expo < 2 ^ 11) by (apply Z.mod_pos_bound; lia). assert (Hf : 0 <= fract < 2 ^ 52) by (apply Z.mod_pos_bound; lia).
  destruct (Z.eqb_spec expo 2047).
  - eexists _, _, _. split; [done|]. unfold special_text. destruct (isupper _), (negb _); vm_compute; congruence.
  - destruct (encode_finite_run (specifier conv) expo fract precision conv) as (text & conv' & -> & Hl); [lia|lia|].
    cbn [mbind option_bind]. eexists _, _, _. split; [done|]. unfold CONVERTED_BUFLEN. lia.
Qed.

(** C40. For every 64 bits of a [double], every specification and every
    precision, the conversion to text ends: no loop of [encode_float] runs
    for ever or out of its fuel. The text and the NUL behind it fit the
    buffer of [CONVERTED_BUFLEN] bytes. The division by five that it does
    with multiplications is exact for all 64-bit numbers. *)
Theorem float_conversion_safe value conv precision sign : 0 <= value < 2 ^ 64 ->
  (exists text conv' sign', encode_float value conv precision sign = Some (text, conv', sign') /\ Z.of_nat (length text) + 1 <= CONVERTED_BUFLEN) /\
  ldiv5 value = value / 5 /\ ldiv10 value = value / 10.
Proof.
  intros Hv. split; [by apply encode_float_run|]. split; [by apply ldiv5_spec|by apply ldiv10_spec].
Qed.

(** The largest finite number. *)
Lemma float_conversion_safe_witness :
  (exists text conv' sign', encode_float 0x7fefffffffffffff empty_conversion 6 0 = Some (text, conv', sign') /\ Z.of_nat (length text) + 1 <= CONVERTED_BUFLEN) /\
  ldiv5 0x7fefffffffffffff = 0x7fefffffffffffff / 5 /\ ldiv10 0x7fefffffffffffff = 0x7fefffffffffffff / 10.
Proof. apply (float_conversion_safe 0x7fefffffffffffff empty_conversion 6 0). lia. Defined.
