(* ===== verification/Printk.v ===== *)
(** * Output to the console and into strings (lib/os/printk.c)

    [printk] and [snprintk] over [cbvprintf]. What a format and its arguments
    print is one list of events, whatever the callback: the [transcript]. The
    theorems say what becomes of it on the console and in a buffer that may be
    too small for it. *)
From S2P Require Import Prelude Strtol Printf PrintfText PrintfFloat.
From stdpp Require Import prelude list numbers strings.
From Stdlib Require Import ZArith Lia Ascii.
Open Scope Z_scope.

(** ** The operations *)

(** A C string and one that ends a line. *)
Definition c_str (s : string) : list Z := chars (String.list_ascii_of_string s).
Definition line (s : string) : list Z := c_str s ++ [10].

Section vprintk.
Context {X : Type} (_char_out : Z -> M X Z) (store : Z -> Z -> Z -> M X unit).

(** The count of [struct out_context] is not read. *)
Definition char_out (c : Z) : M X Z := _char_out c.

Definition vprintk (fmt : list Z) (ap : list arg) : M X unit := cbvprintf char_out store fmt ap ;; mret tt.
End vprintk.

(** The buffer, or [None] for a null pointer. *)
Record str_context := { str : option (list Z); max : Z; count : Z }.

(** [str[i] = c] *)
Definition put (i c : Z) : M str_context unit :=
  b ← gets str;
  match b with
  | Some b => if bool_decide (0 <= i < Z.of_nat (length b)) then modify (fun x => {| str := Some (<[Z.to_nat i := c]> b); max := max x; count := count x |})
      else stop_with NullDeref
  | None => stop_with NullDeref
  end.
Definition next_count : M str_context unit := modify (fun x => {| str := str x; max := max x; count := s32 (count x + 1) |}).

Definition str_out (c : Z) : M str_context Z :=
  x ← gets id;
  if bool_decide (str x = None) || (max x <=? count x) then next_count ;; mret c
  else
    (if count x =? max x - 1 then put (count x) 0 else put (count x) c) ;;
    next_count ;;
    mret c.

Section vsnprintk.
Context (store : Z -> Z -> Z -> M str_context unit).

(** The result, and the buffer afterwards. *)
Definition vsnprintk (b : option (list Z)) (size : Z) (fmt : list Z) (ap : list arg) : outcome Z * option (list Z) :=
  let '(r, x) := (cbvprintf str_out store fmt ap ;;
    x ← gets id;
    when (count x <? max x) (put (count x) 0) ;;
    gets count) {| str := b; max := s32 size; count := 0 |} in
  (r, str x).

Definition snprintk (b : option (list Z)) (size : Z) (fmt : list Z) (ap : list arg) : outcome Z * option (list Z) := vsnprintk b size fmt ap.
End vsnprintk.

(** ** Transcripts *)

Inductive event := Char (c : Z) | Store (size a v : Z).

Definition log_out (c : Z) : M (list event) Z := modify (fun l => l ++ [Char c]) ;; mret 0.
Definition log_store (size a v : Z) : M (list event) unit := modify (fun l => l ++ [Store size a v]).

(** What is printed and stored, and the number of characters. *)
Definition transcript (fmt : list Z) (ap : list arg) : outcome Z * list event := cbvprintf log_out log_store fmt ap [].

Section replay.
Context {X : Type} (out : Z -> M X Z) (store : Z -> Z -> Z -> M X unit).

(** The events, and then the end [k], unless the callback fails. *)
Fixpoint replay {A} (l : list event) (k : M X (Z + A)) : M X (Z + A) :=
  match l with
  | [] => k
  | Char c :: l => rc ← out c; if rc <? 0 then mret (inl rc) else replay l k
  | Store size a v :: l => store size a v ;; replay l k
  end.

Definition finish {A} (r : outcome A) : M X (Z + A) := match r with Done a => mret (inr a) | Stop e => stop_with e end.

(** The logged run and the run with [out] and [store] do the same. *)
Definition follows {A} (m : M (list event) (Z + A)) (m' : M X (Z + A)) : Prop := exists l r,
  (forall log, m log = (match r with Done a => Done (inr a) | Stop e => Stop e end, log ++ l)) /\ forall s, m' s = replay l (finish r) s.

Lemma replay_app {A} l k (e : M X (Z + A)) s : replay (l ++ k) e s = replay l (replay k e) s.
Proof.
  revert s. induction l as [|[c|size a v] l IH]; intros s; cbn; [done| |]; unfold mbind, M_bind in *.
  - destruct (out c s) as [[rc|] s']; [|done]. destruct (rc <? 0); [done|]. apply IH.
  - destruct (store size a v s) as [[u|] s']; [|done]. apply IH.
Qed.

Lemma replay_bind {A B} l (e : M X (Z + A)) (f : A -> M X (Z + B)) s : pbind (replay l e) f s = replay l (pbind e f) s.
Proof.
  revert s. induction l as [|[c|size a v] l IH]; intros s; cbn; [done| |]; unfold pbind, mbind, M_bind in *.
  - destruct (out c s) as [[rc|] s']; [|done]. destruct (rc <? 0); [done|]. apply IH.
  - destruct (store size a v s) as [[u|] s']; [|done]. apply IH.
Qed.

Lemma replay_ext {A} l (e e' : M X (Z + A)) s : (forall s, e s = e' s) -> replay l e s = replay l e' s.
Proof.
  intros H. revert s. induction l as [|[c|size a v] l IH]; intros s; cbn; [done| |]; unfold mbind, M_bind in *.
  - destruct (out c s) as [[rc|] s']; [|done]. by destruct (rc <? 0).
  - by destruct (store size a v s) as [[u|] s'].
Qed.

Lemma follows_ret {A} (a : A) : follows (pret a) (pret a).
Proof. exists [], (Done a). split; [|done]. intros log. by rewrite app_nil_r. Qed.

Lemma follows_stop {A} e : follows (A := A) (stop_with e) (stop_with e).
Proof. exists [], (Stop e). split; [|done]. intros log. by rewrite app_nil_r. Qed.

Lemma follows_bind {A B} m m' (f : A -> M (list event) (Z + B)) f' : follows m m' -> (forall a, follows (f a) (f' a)) -> follows (pbind m f) (pbind m' f').
Proof.
  intros (l & r & Hm & Hm') Hf. destruct r as [a|e].
  - destruct (Hf a) as (k & r & Ha & Ha'). exists (l ++ k), r. split.
    + intros log. unfold pbind, mbind, M_bind. rewrite Hm, Ha. by rewrite app_assoc.
    + intros s. transitivity (pbind (replay l (finish (Done a))) f' s); [unfold pbind, mbind, M_bind; by rewrite Hm'|].
      rewrite replay_bind, replay_app. apply replay_ext. exact Ha'.
  - exists l, (Stop e). split.
    + intros log. unfold pbind, mbind, M_bind. by rewrite Hm.
    + intros s. transitivity (pbind (replay l (finish (Stop e))) f' s); [unfold pbind, mbind, M_bind; by rewrite Hm'|].
      rewrite replay_bind. by apply replay_ext.
Qed.

Lemma follows_outc c n : follows (OUTC log_out c n) (OUTC out c n).
Proof. exists [Char c], (Done (u32 (n + 1))). by split. Qed.

Lemma follows_store {size a v} : follows (lift (log_store size a v)) (lift (store size a v)).
Proof. exists [Store size a v], (Done tt). split; [done|]. intros s. cbn. unfold lift, mbind, M_bind. by destruct (store size a v s) as [[[]|] s']. Qed.

Create HintDb follows.
#[local] Hint Resolve follows_ret follows_stop follows_outc follows_store : follows.
#[local] Ltac follow :=
  repeat first
    [ solve [eauto with follows]
    | apply follows_bind; [|intros]
    | match goal with
      | |- follows (match ?x with _ => _ end) _ => destruct x
      | |- follows (let '_ := ?x in _) _ => destruct x
      end ].

Lemma follows_outs l n : follows (OUTS log_out l n) (OUTS out l n).
Proof. revert n. induction l as [|c l IH]; intros n; cbn [OUTS]; follow. Qed.
Lemma follows_outn k c n : follows (OUTN log_out k c n) (OUTN out k c n).
Proof. apply follows_outs. Qed.
#[local] Hint Resolve follows_outs follows_outn : follows.

Lemma follows_va {A} (f : arg -> option A) ap : follows (va_arg f ap) (va_arg f ap).
Proof. unfold va_arg. follow. Qed.
#[local] Hint Resolve follows_va : follows.

Lemma follows_value c ap : follows (get_value c ap) (get_value c ap).
Proof. unfold get_value, get_sint, get_uint. follow. Qed.
Lemma follows_width c ap : follows (get_width c ap) (get_width c ap).
Proof. unfold get_width. follow. Qed.
Lemma follows_prec c ap : follows (get_prec c ap) (get_prec c ap).
Proof. unfold get_prec. follow. Qed.

Lemma follows_count c dp n : follows (lift (store_count log_store c dp n)) (lift (store_count store c dp n)).
Proof. unfold store_count. destruct (length_mod c); try apply follows_store. apply (follows_ret tt). Qed.
#[local] Hint Resolve follows_value follows_width follows_prec follows_count : follows.

Lemma follows_convert c v p n : follows (convert log_out log_store c v p n) (convert out store c v p n).
Proof. unfold convert. follow. Qed.

Lemma follows_text c text n : follows (emit_text log_out c text n) (emit_text out c text n).
Proof. unfold emit_text. follow. Qed.
#[local] Hint Resolve follows_convert follows_text : follows.

Lemma follows_emit c w sg text n : follows (emit log_out c w sg text n) (emit out c w sg text n).
Proof. unfold emit. follow. Qed.
#[local] Hint Resolve follows_emit : follows.

Lemma follows_conversion sp ap n : follows (print_conversion log_out log_store sp ap n) (print_conversion out store sp ap n).
Proof. unfold print_conversion. follow. Qed.
#[local] Hint Resolve follows_conversion : follows.

Lemma follows_loop fuel fp ap n : follows (cbvprintf_loop log_out log_store fuel fp ap n) (cbvprintf_loop out store fuel fp ap n).
Proof. revert fp ap n. induction fuel as [|fuel IH]; intros fp ap n; cbn [cbvprintf_loop]; follow. Qed.

Lemma replay_sim {A B C} l (e : M X (Z + A)) (e' : M X (Z + B)) (g : Z + A -> M X C) (g' : Z + B -> M X C) :
  (forall rc s, g (inl rc) s = g' (inl rc) s) -> (forall s, mbind g e s = mbind g' e' s) -> forall s, mbind g (replay l e) s = mbind g' (replay l e') s.
Proof.
  intros Hg He. induction l as [|[c|size a v] l IH]; intros s; cbn; [done| |]; unfold mbind, M_bind in *.
  - destruct (out c s) as [[rc|] s']; [|done]. destruct (rc <? 0); [apply Hg|apply IH].
  - destruct (store size a v s) as [[u|] s']; [|done]. apply IH.
Qed.

(** The callbacks see the transcript. *)
Lemma cbvprintf_replay fmt ap : let '(r, l) := transcript fmt ap in
  forall s, cbvprintf out store fmt ap s = mbind (fun x => mret (match x with inl rc => s32 rc | inr n => n end)) (replay l (finish r)) s.
Proof.
  destruct (follows_loop (length fmt) (Some fmt) ap 0) as (l & r & Hl & Hr).
  assert (E : transcript fmt ap = (match r with Done n => Done (s32 n) | Stop e => Stop e end, l)).
  { unfold transcript, cbvprintf, mbind, M_bind. rewrite Hl. by destruct r. }
  rewrite E. intros s. transitivity (mbind (fun r => mret (s32 (match r with inl rc => rc | inr count => count end))) (replay l (finish r)) s).
  - unfold cbvprintf, mbind, M_bind. by rewrite Hr.
  - apply replay_sim; [done|]. by destruct r.
Qed.
End replay.

(** ** Termination *)

Section safe.
#[local] Abbreviation P A := (M (list event) (Z + A)).

(** [m] does not run out of fuel, and its result satisfies [Q]. *)
Definition safe {A} (m : P A) (Q : A -> Prop) : Prop :=
  forall log, match fst (m log) with Done (inl _) => True | Done (inr a) => Q a | Stop e => e <> OutOfFuel end.

Lemma safe_pret {A} (a : A) (Q : A -> Prop) : Q a -> safe (pret a) Q.
Proof. by intros H log. Qed.
Lemma safe_stop {A} e (Q : A -> Prop) : e <> OutOfFuel -> safe (stop_with e) Q.
Proof. by intros H log. Qed.
Lemma safe_pbind {A B} (m : P A) (f : A -> P B) Q R : safe m Q -> (forall a, Q a -> safe (f a) R) -> safe (pbind m f) R.
Proof.
  intros Hm Hf log. specialize (Hm log). unfold pbind, mbind, M_bind. destruct (m log) as [[[rc|a]|e] log']; [done| |done]. by apply Hf.
Qed.
Lemma safe_weaken {A} (m : P A) (Q R : A -> Prop) : safe m Q -> (forall a, Q a -> R a) -> safe m R.
Proof. intros Hm H log. specialize (Hm log). destruct (fst (m log)) as [[rc|a]|e]; auto. Qed.

#[local] Abbreviation anything := (fun _ => True).

Lemma safe_outc c n : safe (OUTC log_out c n) anything.
Proof. by intros log. Qed.
Lemma safe_outs l n : safe (OUTS log_out l n) anything.
Proof. revert n. induction l as [|c l IH]; intros n; cbn [OUTS]; [by apply safe_pret|]. eapply safe_pbind; [apply safe_outc|auto]. Qed.

(** The arguments have the width of their type. *)
Definition arg_ok (a : arg) : Prop := match a with Double x => 0 <= x < 2 ^ 64 | _ => True end.
Definition rest_ok {A} (Q : A -> Prop) (r : A * list arg) : Prop := Q (fst r) /\ Forall arg_ok (snd r).

Lemma safe_va {A} (f : arg -> option A) (Q : A -> Prop) ap : Forall arg_ok ap -> (forall a x, arg_ok a -> f a = Some x -> Q x) ->
  safe (va_arg f ap) (rest_ok Q).
Proof.
  intros Hap Hf. unfold va_arg. destruct Hap as [|a ap Ha Hap]; [by apply safe_stop|]. destruct (f a) as [x|] eqn:E; [|by apply safe_stop].
  apply safe_pret. split; [by eapply Hf|done].
Qed.

Definition value_ok (v : argument_value) : Prop := match v with Dbl x => 0 <= x < 2 ^ 64 | _ => True end.

Lemma safe_value c ap : Forall arg_ok ap -> safe (get_value c ap) (rest_ok value_ok).
Proof.
  intros Hap. assert (Hi : forall m (h : Z -> Z), safe m (rest_ok (A := Z) anything) ->
    safe (pbind (pbind m (fun '(x, ap) => pret (h x, ap))) (fun '(x, ap) => pret (Int x, ap))) (rest_ok value_ok)).
  { intros m h Hm. apply (safe_pbind _ _ (rest_ok anything)); [apply (safe_pbind _ _ _ _ Hm)|]; intros [x ap'] [_ H]; by apply safe_pret. }
  unfold get_value. destruct (specifier_cat c).
  - by apply safe_pret.
  - apply (Hi _ (fun x => match length_mod c with LENGTH_HH => u8 x | LENGTH_H => s16 x | _ => x end)). destruct (length_mod c); by apply safe_va.
  - apply (Hi _ (fun x => match length_mod c with LENGTH_HH => u8 x | LENGTH_H => u16 x | _ => x end)). destruct (length_mod c); by apply safe_va.
  - eapply safe_pbind; [by apply (safe_va va_pointer anything)|]. intros [[a s] ap'] [_ H]. by apply safe_pret.
  - eapply safe_pbind; [apply (safe_va va_double (fun x => 0 <= x < 2 ^ 64)); [done|intros [x|x|x|a s] y Ha Hy; try done; injection Hy as <-; exact Ha]|]. intros [x ap'] [Hx H]. by apply safe_pret.
Qed.

Lemma safe_count c dp n : safe (lift (store_count log_store c dp n)) anything.
Proof. unfold store_count. by destruct (length_mod c). Qed.

(** Steps after which nothing has to be known. *)
#[local] Ltac calm :=
  repeat first
    [ by apply safe_pret
    | by apply safe_stop
    | apply safe_outc
    | apply safe_outs
    | apply safe_count
    | apply (safe_pbind _ _ anything); [|intros ? _]
    | match goal with
      | |- safe (match ?x with _ => _ end) _ => destruct x
      | |- safe (let '_ := ?x in _) _ => destruct x
      end ].

Lemma safe_width c ap : Forall arg_ok ap -> safe (get_width c ap) (fun r => Forall arg_ok r.2).
Proof.
  intros Hap. unfold get_width. destruct (bit c width_star); [|by apply safe_pret].
  eapply safe_pbind; [by apply (safe_va va_int anything)|]. intros [x ap'] [_ H]. apply safe_pret. by destruct (x <? 0).
Qed.
Lemma safe_prec c ap : Forall arg_ok ap -> safe (get_prec c ap) (fun r => Forall arg_ok r.2).
Proof.
  intros Hap. unfold get_prec. destruct (bit c prec_star); [|by apply safe_pret].
  eapply safe_pbind; [by apply (safe_va va_int anything)|]. intros [x ap'] [_ H]. apply safe_pret. by destruct (x <? 0).
Qed.

Lemma safe_convert c v p n : value_ok v -> safe (convert log_out log_store c v p n) anything.
Proof.
  intros Hv. unfold convert. destruct (_ =? _); [calm|]. destruct v as [x|x|a str|]; [calm| |calm|calm].
  - destruct (encode_float_run x c p 0 Hv) as (text & conv & sign & -> & _). by apply safe_pret.
Qed.

Lemma safe_text c text n : safe (emit_text log_out c text n) anything.
Proof. unfold emit_text, OUTN. calm. Qed.

Lemma safe_emit c w sg text n : safe (emit log_out c w sg text n) anything.
Proof. unfold emit, OUTN. calm. apply safe_text. Qed.

Lemma safe_conversion sp ap n : Forall arg_ok ap -> safe (print_conversion log_out log_store sp ap n)
  (fun r => Forall arg_ok r.1.2 /\ match r.1.1 with Some rest => (length rest < length sp)%nat | None => True end).
Proof.
  intros Hap. unfold print_conversion. destruct (extract_conversion sp) as [c fp] eqn:E.
  assert (Hfp : match fp with Some rest => (length rest < length sp)%nat | None => True end) by (destruct fp; [by apply extract_shorter in E|done]). clear E.
  eapply safe_pbind; [by apply safe_width|]. intros [[w c1] ap1] H1. eapply safe_pbind; [by apply safe_prec|]. intros [[p c2] ap2] H2.
  eapply safe_pbind; [by apply safe_value|]. intros [v ap3] [Hv H3]. destruct (_ || _); [eapply safe_pbind; [apply safe_outs|]; intros; by apply safe_pret|].
  eapply safe_pbind; [by apply safe_convert|]. intros [[[[text|] c3] sg] n'] _; [|by apply safe_pret].
  eapply safe_pbind; [apply safe_emit|]. intros; by apply safe_pret.
Qed.

Lemma safe_loop fuel fp ap n : Forall arg_ok ap -> match fp with Some fp => (length fp <= fuel)%nat | None => True end ->
  safe (cbvprintf_loop log_out log_store fuel fp ap n) anything.
Proof.
  revert fp ap n. induction fuel as [|fuel IH]; intros fp ap n Hap Hfp.
  { destruct fp as [[|c fp]|]; [by apply safe_pret|cbn in Hfp; lia|by apply safe_stop]. }
  destruct fp as [[|c fp]|]; cbn [cbvprintf_loop]; [by apply safe_pret| |by apply safe_stop]. cbn [length] in Hfp. destruct (negb _).
  - eapply safe_pbind; [apply safe_outc|]. intros. apply IH; [done|lia].
  - eapply safe_pbind; [by apply safe_conversion|]. intros [[fp' ap'] n'] [Ha Hr]. apply IH; [done|]. cbn in Hr. destruct fp'; [lia|done].
Qed.
End safe.

(** C39. Formatting ends for every format and every arguments: [cbvprintf]
    returns, or stops where it takes an argument that is not there, follows a
    null pointer or leaves the format. With any other callback it does the
    same, unless the callback itself does not return. *)
Theorem formatting_ends fmt ap : Forall arg_ok ap -> fst (transcript fmt ap) <> Stop OutOfFuel.
Proof.
  intros Hap H. pose proof (safe_loop (length fmt) (Some fmt) ap 0 Hap (Nat.le_refl _) []) as Hs.
  unfold transcript, cbvprintf, mbind, M_bind in H. destruct (cbvprintf_loop _ _ _ _ _ _ _) as [[r|e] l]; [done|]. cbn in *. congruence.
Qed.

(** ** The console *)

(** [printk] passes to the console's routine what the
    format and its arguments print, character by character and in order, until
    the routine fails. If the format reads an argument that is not there or
    follows a null pointer, that happens after the same characters. *)
Theorem console_output {X} (out : Z -> M X Z) (store : Z -> Z -> Z -> M X unit) fmt ap text r s :
  transcript fmt ap = (r, Char <$> text) -> vprintk out store fmt ap s =
  (x ← play out text; match x, r with None, Stop e => stop_with e | _, _ => mret tt end) s.
Proof.
  intros Ht. pose proof (cbvprintf_replay (char_out out) store fmt ap) as H. rewrite Ht in H.
  unfold vprintk. unfold mbind at 1, M_bind at 1. rewrite H. clear. unfold char_out. revert s.
  induction text as [|c text IH]; intros s; cbn; [by destruct r|]. unfold mbind, M_bind in *.
  destruct (out c s) as [[rc|] s']; [|done]. destruct (rc <? 0); [done|]. apply IH.
Qed.

(** ** Strings *)

(** What is in the buffer of [size] bytes after the characters [text]. *)
Definition filled (size : nat) (text : list Z) : list Z :=
  if decide (length text < size)%nat then text else if size is S n then take n text ++ [0] else [].
Definition written (b : list Z) (size : nat) (text : list Z) : list Z :=
  let l := filled size text in l ++ drop (length l) b.

Lemma written_put b size text c : (length text < size <= length b)%nat ->
  <[length text := c]> (written b size text) = (text ++ [c]) ++ drop (length text + 1) b.
Proof.
  intros H. unfold written, filled. rewrite decide_True by lia. rewrite insert_app_r_alt, Nat.sub_diag by lia.
  destruct (drop (length text) b) as [|x k] eqn:E; [apply (f_equal length) in E; rewrite length_drop in E; cbn in E; lia|].
  replace (drop (length text + 1) b) with k; [by rewrite <- app_assoc|].
  by rewrite <- drop_drop, E.
Qed.

Lemma str_out_run b size text c : (size <= length b)%nat -> Z.of_nat size < 2 ^ 31 -> Z.of_nat (length text) < 2 ^ 31 - 1 ->
  str_out c {| str := Some (written b size text); max := Z.of_nat size; count := Z.of_nat (length text) |} =
  (Done c, {| str := Some (written b size (text ++ [c])); max := Z.of_nat size; count := Z.of_nat (length (text ++ [c])) |}).
Proof.
  intros Hb Hs Hl. unfold str_out. rewrite bind_gets. cbn [id str max count]. rewrite (bool_decide_eq_false_2 (Some _ = None)) by done. cbn [orb].
  assert (Hn : s32 (Z.of_nat (length text) + 1) = Z.of_nat (length (text ++ [c]))).
  { rewrite length_app. cbn [length]. rewrite s32_id by lia. lia. }
  destruct (Z.leb_spec (Z.of_nat size) (Z.of_nat (length text))) as [Hle|Hlt].
  - unfold next_count. rewrite bind_modify. cbn [str max count]. rewrite Hn. do 3 f_equal.
    unfold written, filled. rewrite !decide_False by (rewrite ?length_app; cbn; lia). destruct size as [|n]; [done|]. by rewrite take_app_le by lia.
  - set (d := if Z.of_nat (length text) =? Z.of_nat size - 1 then 0 else c).
    replace (if _ =? _ then put _ 0 else put _ c) with (put (Z.of_nat (length text)) d) by (unfold d; by destruct (_ =? _)).
    assert (Hw : length (written b size text) = length b).
    { unfold written, filled. rewrite decide_True, length_app, length_drop by lia. lia. }
    rewrite (bind_done _ _ _ tt {| str := Some (<[length text := d]> (written b size text)); max := Z.of_nat size; count := Z.of_nat (length text) |}).
    2: { unfold put. rewrite bind_gets. cbn [str]. rewrite bool_decide_eq_true_2 by (rewrite Hw; lia). unfold modify. cbn [max count]. by rewrite Nat2Z.id. }
    unfold next_count. rewrite bind_modify. cbn [str max count]. rewrite Hn, written_put by lia. do 3 f_equal.
    unfold written, filled, d. destruct (Z.eqb_spec (Z.of_nat (length text)) (Z.of_nat size - 1)).
    + rewrite decide_False by (rewrite length_app; cbn; lia). destruct size as [|n]; [lia|]. rewrite take_app_le, take_ge by lia.
      rewrite length_app. done.
    + rewrite decide_True by (rewrite length_app; cbn; lia). rewrite length_app. done.
Qed.

Section snprintk.
Context (store : Z -> Z -> Z -> M str_context unit).

Lemma replay_string b size pre text (r : outcome Z) : (size <= length b)%nat -> Z.of_nat size < 2 ^ 31 ->
  Z.of_nat (length (pre ++ text)) < 2 ^ 31 -> Forall (fun c => 0 <= c) text ->
  replay str_out store (Char <$> text) (finish r) {| str := Some (written b size pre); max := Z.of_nat size; count := Z.of_nat (length pre) |} =
  finish r {| str := Some (written b size (pre ++ text)); max := Z.of_nat size; count := Z.of_nat (length (pre ++ text)) |}.
Proof.
  intros Hb Hs. revert pre. induction text as [|c text IH]; intros pre Hl Hc; [by rewrite app_nil_r|].
  cbn [fmap list_fmap replay]. apply Forall_cons_1 in Hc as [H0 Hc]. rewrite length_app in Hl. cbn [length] in Hl.
  rewrite (bind_done _ _ _ _ _ (str_out_run b size pre c Hb Hs ltac:(lia))). rewrite (proj2 (Z.ltb_ge c 0)) by done.
  replace (pre ++ c :: text) with ((pre ++ [c]) ++ text) by (by rewrite <- app_assoc).
  apply IH; [rewrite !length_app; cbn [length]; lia|done].
Qed.

Lemma snprintk_run b size fmt ap text n : transcript fmt ap = (Done n, Char <$> text) -> Forall (fun c => 0 <= c) text ->
  0 <= size <= Z.of_nat (length b) -> size < 2 ^ 31 -> Z.of_nat (length text) < 2 ^ 31 ->
  let kept := take (Z.to_nat (size - 1)) text in
  snprintk store (Some b) size fmt ap =
  (Done (Z.of_nat (length text)), Some (if size =? 0 then b else kept ++ [0] ++ drop (length kept + 1) b)).
Proof.
  intros Ht Hc [H0 Hb] Hs Hl kept. set (sz := Z.to_nat size). assert (Es : size = Z.of_nat sz) by lia.
  pose proof (cbvprintf_replay str_out store fmt ap) as H. rewrite Ht in H. unfold snprintk, vsnprintk. rewrite Es, s32_id by lia.
  unfold mbind at 1, M_bind at 1. rewrite H. unfold mbind at 1, M_bind at 1.
  pose proof (replay_string b sz [] text (Done n) ltac:(lia) ltac:(lia) Hl Hc) as Hr. cbn [app] in Hr.
  assert (E0 : written b sz [] = b) by (unfold written, filled; by destruct sz). rewrite E0 in Hr. change (Z.of_nat (length [])) with 0 in Hr. rewrite Hr.
  cbn [finish]. unfold mret, M_ret. rewrite bind_gets. cbn [id count max].
  destruct (Z.ltb_spec (Z.of_nat (length text)) (Z.of_nat sz)) as [Hlt|Hge]; cbn [when].
  - assert (Ek : kept = text) by (apply take_ge; lia). rewrite Ek, (proj2 (Z.eqb_neq (Z.of_nat sz) 0)) by lia.
    unfold put. rewrite bind_assoc, bind_gets. cbn [str].
    rewrite bool_decide_eq_true_2, bind_modify by (unfold written, filled; rewrite decide_True, length_app, length_drop by lia; lia).
    cbn [str max count gets]. unfold gets. cbn [str max count]. rewrite Nat2Z.id, written_put by lia. by rewrite <- app_assoc.
  - unfold mret, M_ret, mbind, M_bind, gets. cbn [str max count]. do 2 f_equal. unfold written, filled. rewrite decide_False by lia.
    unfold kept. destruct sz as [|m]; [done|]. rewrite (proj2 (Z.eqb_neq (Z.of_nat (S m)) 0)) by lia. replace (Z.to_nat (size - 1)) with m by lia.
    rewrite length_app. by rewrite <- app_assoc.
Qed.

(** C38. What [snprintk] leaves in the buffer: as much of the text as
    fits before a NUL at the end, and behind the NUL what was there before. It
    never writes outside [size] bytes. Its result is the length of the whole
    text, so the caller can tell that it was cut. *)
Theorem string_output b size fmt ap text n : transcript fmt ap = (Done n, Char <$> text) -> Forall (fun c => 0 <= c) text ->
  0 <= size <= Z.of_nat (length b) -> size < 2 ^ 31 -> Z.of_nat (length text) < 2 ^ 31 ->
  let kept := take (Z.to_nat (size - 1)) text in
  snprintk store (Some b) size fmt ap =
  (Done (Z.of_nat (length text)), Some (if size =? 0 then b else kept ++ [0] ++ drop (length kept + 1) b)).
Proof. exact (snprintk_run b size fmt ap text n). Qed.
End snprintk.

(** The witness of the guarantees of a string: a number in a buffer that is
    too small for it. *)
Lemma string_output_witness : snprintk (fun _ _ _ => mret tt) (Some [1; 1; 1; 1; 1]) 4 (chars ["%"; "d"]%char) [Word 1234] =
  (Done 4, Some (chars ["1"; "2"; "3"]%char ++ [0; 1])).
Proof.
  apply (string_output (fun _ _ _ => mret tt) [1; 1; 1; 1; 1] 4 (chars ["%"; "d"]%char) [Word 1234] (chars ["1"; "2"; "3"; "4"]%char) 4).
  - by vm_compute.
  - by repeat constructor.
  - by vm_compute.
  - done.
  - done.
Defined.

Lemma formatting_ends_witness : fst (transcript (chars ["%"; "g"]%char) [Double 0x3ff8000000000000]) <> Stop OutOfFuel.
Proof. apply (formatting_ends (chars ["%"; "g"]%char) [Double 0x3ff8000000000000]). constructor; [|constructor]. cbn. lia. Defined.

(** A console that fails after one character. *)
Definition weak_console (c : Z) : M nat Z := fun n => (Done (if (n =? 1)%nat then -1 else c), S n).
Lemma console_output_witness : vprintk weak_console (fun _ _ _ => mret tt) (chars ["%"; "u"]%char) [Word 77] 0%nat =
  (x ← play weak_console (chars ["7"; "7"]%char); match x, @Done Z 2 with None, Stop e => stop_with e | _, _ => mret tt end) 0%nat.
Proof. apply (console_output weak_console (fun _ _ _ => mret tt) (chars ["%"; "u"]%char) [Word 77] (chars ["7"; "7"]%char) (Done 2) 0%nat). by vm_compute. Defined.

(** The callback is careful about a null pointer, but the NUL at the end is
    written all the same. *)
Theorem null_buffer_written : snprintk (fun _ _ _ => mret tt) None 4 (chars ["a"]%char) [] = (Stop NullDeref, None).
Proof. by vm_compute. Qed.

(** The transcript of the formats whose text is known. *)
Lemma play_log text log : play log_out text log = (Done None, log ++ (Char <$> text)).
Proof.
  revert log. induction text as [|c text IH]; intros log; cbn [play]; [by rewrite app_nil_r|].
  rewrite (bind_done _ _ _ 0 (log ++ [Char c])) by reflexivity. change (0 <? 0) with false. cbv iota. rewrite IH. by rewrite <- app_assoc.
Qed.

Lemma formats_transcript fmt ap text : formats fmt ap text -> transcript fmt ap = (Done (s32 (u32 (Z.of_nat (length text)))), Char <$> text).
Proof. intros H. unfold transcript. rewrite (formats_printed log_out log_store fmt ap text [] H). unfold mbind, M_bind. by rewrite play_log. Qed.
