(* ===== verification/UuidText.v ===== *)
(** * UUIDs as text (subsys/bluetooth/host/uuid.c)

    [bt_uuid_to_str] over [snprintk]; the text can be read back. The app names
    the services and characteristics by such texts (res/values/strings.xml). *)
From S2P Require Import Prelude ByteOrder Uuid Strtol Printf PrintfText Printk.
From stdpp Require Import prelude list numbers.
From Stdlib Require Import ZArith Lia Ascii.
Open Scope Z_scope.

(** ** The operation *)

Definition BT_UUID_STR_LEN : Z := 37.

Definition fmt_16 : list Z := chars ["%"; "0"; "4"; "x"]%char.
Definition fmt_32 : list Z := chars ["%"; "0"; "8"; "x"]%char.
Definition fmt_128 : list Z :=
  fmt_32 ++ chars ["-"]%char ++ fmt_16 ++ chars ["-"]%char ++ fmt_16 ++ chars ["-"]%char ++ fmt_16 ++ chars ["-"]%char ++ fmt_32 ++ fmt_16.

Section to_str.
Context (store : Z -> Z -> Z -> M str_context unit).

(** The CPU is little-endian: [memcpy] into an integer reads it as
    [sys_get_le16] and [sys_get_le32] do. *)
Definition bt_uuid_to_str (uuid : bt_uuid) (str : list Z) (len : Z) : outcome Z * option (list Z) :=
  match uuid with
  | UUID_16 val => snprintk store (Some str) len fmt_16 [Word val]
  | UUID_32 val => snprintk store (Some str) len fmt_32 [Word val]
  | UUID_128 val =>
      let tmp0 := sys_get_le16 val in
      let tmp1 := sys_get_le32 (drop 2 val) in
      let tmp2 := sys_get_le16 (drop 6 val) in
      let tmp3 := sys_get_le16 (drop 8 val) in
      let tmp4 := sys_get_le16 (drop 10 val) in
      let tmp5 := sys_get_le32 (drop 12 val) in
      snprintk store (Some str) len fmt_128 [Word tmp5; Word tmp4; Word tmp3; Word tmp2; Word tmp1; Word tmp0]
  end.
End to_str.

(** ** Hexadecimal numbers of a fixed width *)

Fixpoint hex_digits (up : bool) (w : nat) (v : Z) : list Z :=
  match w with O => [] | S w => hex_digits up w (v / 16) ++ [digit_char up (v mod 16)] end.
Abbreviation hex := (hex_digits false).

Lemma hex_zero up w : hex_digits up w 0 = replicate w (ch "0"%char).
Proof. induction w as [|w IH]; [done|]. cbn [hex_digits]. change (0 / 16) with 0. rewrite IH. symmetry. rewrite replicate_S_end. by destruct up. Qed.

Lemma hex_length up w v : length (hex_digits up w v) = w.
Proof. revert v. induction w as [|w IH]; intros v; [done|]. cbn [hex_digits]. rewrite length_app, IH. cbn. lia. Qed.

Lemma hex_value up w v a : 0 <= v < 16 ^ Z.of_nat w -> number 16 a (hex_digits up w v) = a * 16 ^ Z.of_nat w + v.
Proof.
  revert v. induction w as [|w IH]; intros v Hv; [cbn in *; lia|]. cbn [hex_digits]. rewrite Nat2Z.inj_succ, Z.pow_succ_r in * by lia.
  rewrite number_app, IH by (split; [apply Z.div_pos; lia|apply Z.div_lt_upper_bound; lia]).
  pose proof (Z.mod_pos_bound v 16 eq_refl) as Hm. pose proof (Z.div_mod v 16 ltac:(lia)) as Hd. cbn. destruct (digit_char_value up (v mod 16) Hm) as [_ ->]. cbn. lia.
Qed.

Lemma encode_hex room up w v : (0 < w <= room)%nat -> 0 <= v < 16 ^ Z.of_nat w -> let ds := encode_loop room 16 up v [] in
  replicate (w - length ds) (ch "0"%char) ++ ds = hex_digits up w v /\ (length ds <= w)%nat.
Proof.
  revert room v. induction w as [|w IH]; intros room v Hw Hv; [lia|]. destruct room as [|room]; [lia|]. cbn [encode_loop hex_digits].
  rewrite Nat2Z.inj_succ, Z.pow_succ_r in Hv by lia. destruct (Z.eqb_spec (v / 16) 0) as [E|E]; cbn [negb].
  - rewrite E, hex_zero. cbn [length]. split; [|lia]. by replace (S w - 1)%nat with w by lia.
  - assert (Hq : 0 <= v / 16 < 16 ^ Z.of_nat w) by (split; [apply Z.div_pos; lia|apply Z.div_lt_upper_bound; lia]).
    destruct w as [|w]; [cbn in Hq; lia|]. rewrite encode_loop_acc. destruct (IH room (v / 16) ltac:(lia) Hq) as [I1 I2].
    set (ds := encode_loop room 16 up (v / 16) []) in *. rewrite length_app. cbn [length]. split; [|lia].
    rewrite app_assoc. f_equal. rewrite <- I1. do 2 f_equal. lia.
Qed.

(** %04x and %08x. *)
Definition conv_16 : conversion := (extract_conversion (tail fmt_16)).1.
Definition conv_32 : conversion := (extract_conversion (tail fmt_32)).1.

Lemma text_16 v : 0 <= v < 2 ^ 16 -> int_text conv_16 v = hex 4 v.
Proof.
  intros Hv. destruct (encode_hex 25 false 4 v ltac:(lia) ltac:(cbn; lia)) as [<- Hl]. change (int_text conv_16 v) with
    (zeros (4 - Z.of_nat (length (encode_loop 25 16 false (u32 v) []))) ++ encode_loop 25 16 false (u32 v) []).
  unfold u32. rewrite Z.mod_small by lia. unfold zeros. do 2 f_equal. lia.
Qed.
Lemma text_32 v : 0 <= v < 2 ^ 32 -> int_text conv_32 v = hex 8 v.
Proof.
  intros Hv. destruct (encode_hex 25 false 8 v ltac:(lia) ltac:(cbn; lia)) as [<- Hl]. change (int_text conv_32 v) with
    (zeros (8 - Z.of_nat (length (encode_loop 25 16 false (u32 v) []))) ++ encode_loop 25 16 false (u32 v) []).
  unfold u32. rewrite Z.mod_small by lia. unfold zeros. do 2 f_equal. lia.
Qed.

Ltac int_spec := split; [reflexivity|by vm_compute|by vm_compute|by right; vm_compute|by left; vm_compute|by vm_compute].

Lemma formats_16 v : 0 <= v < 2 ^ 16 -> formats fmt_16 [Word v] (hex 4 v).
Proof.
  intros Hv. rewrite <- text_16, <- (app_nil_r (int_text _ _)) by done. apply (formats_int (tail fmt_16) conv_16 []); [int_spec|constructor].
Qed.
Lemma formats_32 v : 0 <= v < 2 ^ 32 -> formats fmt_32 [Word v] (hex 8 v).
Proof.
  intros Hv. rewrite <- text_32, <- (app_nil_r (int_text _ _)) by done. apply (formats_int (tail fmt_32) conv_32 []); [int_spec|constructor].
Qed.

Definition dash : Z := ch "-"%char.
Definition text_128 (t5 t4 t3 t2 t1 t0 : Z) : list Z :=
  hex 8 t5 ++ dash :: hex 4 t4 ++ dash :: hex 4 t3 ++ dash :: hex 4 t2 ++ dash :: hex 8 t1 ++ hex 4 t0.

Lemma formats_128 t5 t4 t3 t2 t1 t0 : 0 <= t5 < 2 ^ 32 -> 0 <= t4 < 2 ^ 16 -> 0 <= t3 < 2 ^ 16 -> 0 <= t2 < 2 ^ 16 -> 0 <= t1 < 2 ^ 32 -> 0 <= t0 < 2 ^ 16 ->
  formats fmt_128 [Word t5; Word t4; Word t3; Word t2; Word t1; Word t0] (text_128 t5 t4 t3 t2 t1 t0).
Proof.
  intros H5 H4 H3 H2 H1 H0. unfold text_128. rewrite <- !text_16, <- !text_32, <- (app_nil_r (int_text conv_16 t0)) by done.
  eapply (formats_int _ conv_32); [int_spec|]. apply formats_char; [done|]. eapply (formats_int _ conv_16); [int_spec|]. apply formats_char; [done|].
  eapply (formats_int _ conv_16); [int_spec|]. apply formats_char; [done|]. eapply (formats_int _ conv_16); [int_spec|]. apply formats_char; [done|].
  eapply (formats_int _ conv_32); [int_spec|]. eapply (formats_int _ conv_16); [int_spec|]. constructor.
Qed.

(** ** Reading the text *)

Definition not_dash (c : Z) : bool := negb (c =? dash).
Definition read_uuid (text : list Z) : option bt_uuid :=
  match length text with
  | 4%nat => Some (UUID_16 (number 16 0 text))
  | 8%nat => Some (UUID_32 (number 16 0 text))
  | 36%nat => Some (UUID_128 (le_bytes 16 (number 16 0 (List.filter not_dash text))))
  | _ => None
  end.

Lemma hex_chars up w v : Forall (fun c => 0 <= c) (hex_digits up w v) /\ List.filter not_dash (hex_digits up w v) = hex_digits up w v.
Proof.
  revert v. induction w as [|w IH]; intros v; [by split|]. cbn [hex_digits]. destruct (IH (v / 16)) as [I1 I2].
  pose proof (Z.mod_pos_bound v 16 eq_refl) as Hm. destruct (digit_char_value up (v mod 16) Hm) as [Hc Hd].
  split; [apply Forall_app; split; [done|]; constructor; [lia|constructor]|]. rewrite filter_app, I2. f_equal. cbn.
  unfold not_dash. destruct (Z.eqb_spec (digit_char up (v mod 16)) dash) as [E|]; [|done]. by rewrite E in Hd.
Qed.

Lemma text_128_chars t5 t4 t3 t2 t1 t0 : let text := text_128 t5 t4 t3 t2 t1 t0 in length text = 36%nat /\ Forall (fun c => 0 <= c) text /\
  List.filter not_dash text = hex 8 t5 ++ hex 4 t4 ++ hex 4 t3 ++ hex 4 t2 ++ hex 8 t1 ++ hex 4 t0.
Proof.
  unfold text_128. split; [repeat (rewrite ?length_app, ?hex_length; cbn [length]); lia|].
  assert (Hd : 0 <= dash) by (by vm_compute). split.
  - repeat match goal with
    | |- Forall _ (hex_digits _ _ _) => apply (proj1 (hex_chars _ _ _))
    | |- Forall _ (dash :: _) => constructor; [done|]
    | |- Forall _ (_ ++ _) => apply Forall_app; split
    end.
  - repeat (rewrite ?filter_app, ?(proj2 (hex_chars _ _ _)); f_equal; try (change (dash :: ?l) with ([dash] ++ l)); cbn [List.filter not_dash dash app]).
Qed.

(** The six numbers are the bytes. *)
Lemma uuid_numbers val : length val = 16%nat -> Forall byte_ok val ->
  let t0 := sys_get_le16 val in let t1 := sys_get_le32 (drop 2 val) in let t2 := sys_get_le16 (drop 6 val) in
  let t3 := sys_get_le16 (drop 8 val) in let t4 := sys_get_le16 (drop 10 val) in let t5 := sys_get_le32 (drop 12 val) in
  (0 <= t5 < 2 ^ 32 /\ 0 <= t4 < 2 ^ 16 /\ 0 <= t3 < 2 ^ 16 /\ 0 <= t2 < 2 ^ 16 /\ 0 <= t1 < 2 ^ 32 /\ 0 <= t0 < 2 ^ 16) /\
  ((((t5 * 2 ^ 16 + t4) * 2 ^ 16 + t3) * 2 ^ 16 + t2) * 2 ^ 32 + t1) * 2 ^ 16 + t0 = le_value val.
Proof.
  intros Hl Hb. do 16 (destruct val as [|? val]; [done|]). destruct val; [|done]. cbn [drop].
  repeat (apply Forall_cons_1 in Hb as [? Hb]). unfold sys_get_le32. cbn [drop]. rewrite !get_le16 by done. cbn [le_value]. unfold byte_ok in *.
  rewrite !lor_low by lia. lia.
Qed.

Section roundtrip.
Context (store : Z -> Z -> Z -> M str_context unit).

(** A text that fits. *)
Lemma snprintk_fits b len fmt ap text : formats fmt ap text -> Forall (fun c => 0 <= c) text ->
  Z.of_nat (length text) < len <= Z.of_nat (length b) -> len < 2 ^ 31 ->
  snprintk store (Some b) len fmt ap = (Done (Z.of_nat (length text)), Some (text ++ [0] ++ drop (length text + 1) b)).
Proof.
  intros Hf Hc Hl Hm. rewrite (snprintk_run store b len fmt ap text _ (formats_transcript _ _ _ Hf) Hc) by lia.
  rewrite (proj2 (Z.eqb_neq len 0)) by lia. by rewrite take_ge by lia.
Qed.

(** In a buffer of [BT_UUID_STR_LEN] bytes every UUID has room for its text,
    of 4, 8 or 36 characters, with a NUL behind it, and the UUID is read back
    from the text. So different UUIDs of one size have different texts. *)
Theorem uuid_text_roundtrip u b len : uuid_ok u -> BT_UUID_STR_LEN <= len <= Z.of_nat (length b) -> len < 2 ^ 31 ->
  exists text, bt_uuid_to_str store u b len = (Done (Z.of_nat (length text)), Some (text ++ [0] ++ drop (length text + 1) b)) /\
    read_uuid text = Some u.
Proof.
  unfold BT_UUID_STR_LEN. intros Hu Hl Hm. destruct u as [v|v|val]; cbn [uuid_ok bt_uuid_to_str] in *.
  - exists (hex 4 v). split; [|unfold read_uuid; by rewrite hex_length, hex_value by (cbn; lia)].
    apply snprintk_fits; [by apply formats_16|apply hex_chars|rewrite hex_length; lia|done].
  - exists (hex 8 v). split; [|unfold read_uuid; by rewrite hex_length, hex_value by (cbn; lia)].
    apply snprintk_fits; [by apply formats_32|apply hex_chars|rewrite hex_length; lia|done].
  - destruct Hu as [Hlen Hb]. destruct (uuid_numbers val Hlen Hb) as [(H5 & H4 & H3 & H2 & H1 & H0) Hv].
    eexists. destruct (text_128_chars (sys_get_le32 (drop 12 val)) (sys_get_le16 (drop 10 val)) (sys_get_le16 (drop 8 val)) (sys_get_le16 (drop 6 val))
      (sys_get_le32 (drop 2 val)) (sys_get_le16 val)) as (T1 & T2 & T3). split.
    + apply snprintk_fits; [by apply formats_128|exact T2|rewrite T1; lia|done].
    + unfold read_uuid. assert (P4 : 16 ^ Z.of_nat 4 = 2 ^ 16) by done. assert (P8 : 16 ^ Z.of_nat 8 = 2 ^ 32) by done.
      rewrite T1, T3, !number_app, !hex_value by (rewrite ?P4, ?P8; lia). rewrite P4, P8, Z.mul_0_l, Z.add_0_l, Hv.
      do 2 f_equal. rewrite <- Hlen. by apply le_value_bytes.
Qed.
End roundtrip.

(** The base UUID. *)
Lemma uuid_text_roundtrip_witness : exists text,
  bt_uuid_to_str (fun _ _ _ => mret tt) (UUID_128 uuid128_base) (replicate 40 7) 37 =
    (Done (Z.of_nat (length text)), Some (text ++ [0] ++ drop (length text + 1) (replicate 40 7))) /\ read_uuid text = Some (UUID_128 uuid128_base).
Proof.
  apply (uuid_text_roundtrip (fun _ _ _ => mret tt) (UUID_128 uuid128_base) (replicate 40 7) 37).
  - split; [done|]. repeat constructor; done.
  - rewrite length_replicate. unfold BT_UUID_STR_LEN. lia.
  - lia.
Defined.
