(* ===== verification/Hex.v ===== *)
(** * Numbers as digits (lib/os/hex.c, lib/os/dec.c)

    Bytes to hexadecimal digits and back, and a byte in decimal. The arrays
    that are written are states; writing outside of one stops the run. *)
From S2P Require Import Prelude.
From stdpp Require Import prelude list numbers.
From Stdlib Require Import ZArith Lia.
Open Scope Z_scope.

(** ** The operations *)

(** [buf[i] = x], for an array of bytes. *)
Definition put_byte (i : Z) (x : Z) : M (list Z) unit :=
  b ← gets id;
  if bool_decide (0 <= i < Z.of_nat (length b)) then modify (<[Z.to_nat i := x]>) else stop_with NullDeref.

(** The digit, if [c] is one. *)
Definition char2hex (c : Z) : option Z :=
  if (48 <=? c) && (c <=? 57) then Some (c - 48)
  else if (97 <=? c) && (c <=? 102) then Some (c - 97 + 10)
  else if (65 <=? c) && (c <=? 70) then Some (c - 65 + 10)
  else None.

Definition hex2char (x : Z) : option Z :=
  if x <=? 9 then Some (x + 48) else if x <=? 15 then Some (x - 10 + 97) else None.

(** The loop of [bin2hex]; [i] counts the bytes done. *)
Fixpoint bin2hex_loop (buf : list Z) (i : Z) : M (list Z) bool :=
  match buf with
  | [] => mret true
  | b :: buf =>
      match hex2char (Z.shiftr b 4) with
      | None => mret false
      | Some c =>
          put_byte (2 * i) c ;;
          match hex2char (Z.land b 0xf) with
          | None => mret false
          | Some c => put_byte (2 * i + 1) c ;; bin2hex_loop buf (i + 1)
          end
      end
  end.

Definition bin2hex (buf : list Z) (hexlen : Z) : M (list Z) Z :=
  let buflen := Z.of_nat (length buf) in
  if hexlen + 1 <? buflen * 2 then mret 0
  else
    ok ← bin2hex_loop buf 0;
    if ok : bool then put_byte (2 * buflen) 0 ;; mret (2 * buflen) else mret 0.

(** The loop of [hex2bin]; [off] is where [buf] points to. *)
Fixpoint hex2bin_loop (hex : list Z) (off i : Z) : M (list Z) bool :=
  match hex with
  | h :: l :: hex =>
      match char2hex h with
      | None => mret false
      | Some dec =>
          put_byte (off + i) (u8 (Z.shiftl dec 4)) ;;
          match char2hex l with
          | None => mret false
          | Some dec' => put_byte (off + i) (u8 (u8 (Z.shiftl dec 4) + dec')) ;; hex2bin_loop hex off (i + 1)
          end
      end
  | _ => mret true
  end.

Definition hex2bin (hex : list Z) (buflen : Z) : M (list Z) Z :=
  let hexlen := Z.of_nat (length hex) in
  if buflen <? hexlen / 2 + hexlen mod 2 then mret 0
  else
    r ← (match hex with
      | h :: hex' =>
          if negb (hexlen mod 2 =? 0) then
            match char2hex h with
            | None => mret None
            | Some dec => put_byte 0 dec ;; mret (Some (hex', 1))
            end
          else mret (Some (hex, 0))
      | [] => mret (Some ([], 0))
      end);
    match r with
    | None => mret 0
    | Some (hex, off) => ok ← hex2bin_loop hex off 0; mret (if ok : bool then hexlen / 2 + hexlen mod 2 else 0)
    end.

(** [while (buflen > 0 && divisor > 0)]; the divisors are 100, 10 and 1. *)
Fixpoint u8_to_dec_loop (divisors : list Z) (at_ buflen value num_digits : Z) : M (list Z) (Z * Z * Z) :=
  match divisors with
  | divisor :: divisors =>
      if 0 <? buflen then
        let digit := value / divisor in
        if negb (digit =? 0) || (divisor =? 1) || negb (num_digits =? 0) then
          put_byte at_ (digit + 48) ;;
          u8_to_dec_loop divisors (at_ + 1) (buflen - 1) (value - digit * divisor) (num_digits + 1)
        else u8_to_dec_loop divisors at_ buflen (value - digit * divisor) num_digits
      else mret (at_, buflen, num_digits)
  | [] => mret (at_, buflen, num_digits)
  end.

Definition u8_to_dec (buflen value : Z) : M (list Z) Z :=
  '(at_, buflen, num_digits) ← u8_to_dec_loop [100; 10; 1] 0 buflen value 0;
  when (negb (buflen =? 0)) (put_byte at_ 0) ;;
  mret num_digits.

(** ** Writing an array *)

Lemma put_here pre x y post i : i = Z.of_nat (length pre) -> put_byte i x (pre ++ y :: post) = (Done tt, pre ++ x :: post).
Proof.
  intros ->. unfold put_byte. rewrite bind_gets. cbn [id]. rewrite bool_decide_eq_true_2 by (rewrite length_app; cbn; lia).
  unfold modify. rewrite Nat2Z.id. by rewrite insert_app_r_alt, Nat.sub_diag by lia.
Qed.

Lemma put_outside b i x : ~ 0 <= i < Z.of_nat (length b) -> put_byte i x b = (Stop NullDeref, b).
Proof. intros H. unfold put_byte. rewrite bind_gets. cbn [id]. by rewrite bool_decide_eq_false_2. Qed.

(** ** Hexadecimal digits *)

Definition nibble (x : Z) : Z := if x <=? 9 then x + 48 else x - 10 + 97.
Definition hex_byte (b : Z) : list Z := [nibble (b / 16); nibble (b mod 16)].
Definition hex_text (l : list Z) : list Z := concat (hex_byte <$> l).

Lemma hex2char_nibble x : 0 <= x < 16 -> hex2char x = Some (nibble x).
Proof. intros Hx. unfold hex2char, nibble. destruct (x <=? 9); [done|]. by rewrite (proj2 (Z.leb_le x 15)) by lia. Qed.

Lemma char2hex_nibble x : 0 <= x < 16 -> char2hex (nibble x) = Some x.
Proof.
  intros Hx. unfold char2hex, nibble. destruct (Z.leb_spec x 9).
  - rewrite (proj2 (Z.leb_le 48 _)), (proj2 (Z.leb_le _ 57)) by lia. cbn. f_equal. lia.
  - rewrite (proj2 (Z.leb_gt _ 57)) by lia. rewrite andb_false_r. rewrite (proj2 (Z.leb_le 97 _)), (proj2 (Z.leb_le _ 102)) by lia. cbn. f_equal. lia.
Qed.

Lemma byte_halves b : byte_ok b -> Z.shiftr b 4 = b / 16 /\ Z.land b 0xf = b mod 16 /\ 0 <= b / 16 < 16 /\ 0 <= b mod 16 < 16.
Proof.
  unfold byte_ok. intros Hb. split; [by rewrite Z.shiftr_div_pow2|]. split; [change 0xf with (Z.ones 4); by rewrite Z.land_ones|].
  split; [split; [apply Z.div_pos; lia|apply Z.div_lt_upper_bound; lia]|by apply Z.mod_pos_bound].
Qed.

Lemma hex_text_length l : length (hex_text l) = (2 * length l)%nat.
Proof. induction l as [|b l IH]; [done|]. change (hex_text (b :: l)) with (hex_byte b ++ hex_text l). rewrite length_app, IH. cbn. lia. Qed.

Lemma bin2hex_loop_run buf pre rest i : Forall byte_ok buf -> 2 * i = Z.of_nat (length pre) -> (2 * length buf <= length rest)%nat ->
  bin2hex_loop buf i (pre ++ rest) = (Done true, pre ++ hex_text buf ++ drop (2 * length buf) rest).
Proof.
  intros Hb. revert pre rest i. induction Hb as [|b buf Hb Hbs IH]; intros pre rest i Hi Hl; [done|].
  destruct rest as [|y [|z rest]]; [cbn in Hl; lia..|]. cbn [bin2hex_loop]. destruct (byte_halves b Hb) as (-> & -> & H1 & H2).
  rewrite !hex2char_nibble by done. rewrite (bind_done _ _ _ _ _ (put_here pre _ y (z :: rest) _ Hi)).
  assert (E : pre ++ nibble (b / 16) :: z :: rest = (pre ++ [nibble (b / 16)]) ++ z :: rest) by (by rewrite <- app_assoc). rewrite E.
  rewrite (bind_done _ _ _ _ _ (put_here (pre ++ [nibble (b / 16)]) _ z rest (2 * i + 1) ltac:(rewrite length_app; cbn; lia))).
  assert (E2 : (pre ++ [nibble (b / 16)]) ++ nibble (b mod 16) :: rest = (pre ++ hex_byte b) ++ rest) by (by rewrite <- !app_assoc). rewrite E2.
  rewrite IH by (rewrite ?length_app; cbn in *; lia). change (hex_text (b :: buf)) with (hex_byte b ++ hex_text buf).
  rewrite <- !app_assoc. do 4 f_equal. cbn [length]. by replace (2 * S (length buf))%nat with (S (S (2 * length buf))) by lia.
Qed.

Lemma hex2bin_loop_run buf pre rest off i : Forall byte_ok buf -> off + i = Z.of_nat (length pre) -> (length buf <= length rest)%nat ->
  hex2bin_loop (hex_text buf) off i (pre ++ rest) = (Done true, pre ++ buf ++ drop (length buf) rest).
Proof.
  intros Hb. revert pre rest i. induction Hb as [|b buf Hb Hbs IH]; intros pre rest i Hi Hl; [done|].
  destruct rest as [|y rest]; [cbn in Hl; lia|]. change (hex_text (b :: buf)) with (nibble (b / 16) :: nibble (b mod 16) :: hex_text buf).
  cbn [hex2bin_loop]. destruct (byte_halves b Hb) as (_ & _ & H1 & H2). rewrite !char2hex_nibble by done.
  rewrite (bind_done _ _ _ _ _ (put_here pre _ y rest _ Hi)).
  assert (E : u8 (u8 (Z.shiftl (b / 16) 4) + b mod 16) = b).
  { pose proof (Z.div_mod b 16 ltac:(lia)) as Hd. unfold byte_ok in Hb. rewrite Z.shiftl_mul_pow2 by lia. unfold u8.
    rewrite (Z.mod_small (b / 16 * 2 ^ 4)) by lia. rewrite Z.mod_small by lia. lia. }
  rewrite E, (bind_done _ _ _ _ _ (put_here pre b _ rest _ Hi)).
  assert (E2 : pre ++ b :: rest = (pre ++ [b]) ++ rest) by (by rewrite <- app_assoc). rewrite E2.
  rewrite IH by (rewrite ?length_app; cbn in *; lia). by rewrite <- !app_assoc.
Qed.

(** Bytes become two digits each, with a NUL behind them and the rest of the
    array as it was, and [hex2bin] makes the same bytes of the digits. The
    arrays have the room that the callers say. *)
Theorem hex_roundtrip buf hex out hexlen buflen : Forall byte_ok buf ->
  2 * Z.of_nat (length buf) < hexlen <= Z.of_nat (length hex) -> Z.of_nat (length buf) <= buflen <= Z.of_nat (length out) ->
  exists text, bin2hex buf hexlen hex = (Done (Z.of_nat (length text)), text ++ 0 :: drop (length text + 1) hex) /\
    Z.of_nat (length text) = 2 * Z.of_nat (length buf) /\
    hex2bin text buflen out = (Done (Z.of_nat (length buf)), buf ++ drop (length buf) out).
Proof.
  intros Hb Hh Ho. exists (hex_text buf). pose proof (hex_text_length buf) as Hl. split; [|split; [lia|]].
  - unfold bin2hex. rewrite (proj2 (Z.ltb_ge (hexlen + 1) _)) by lia.
    rewrite (bind_done _ _ _ _ _ (bin2hex_loop_run buf [] hex 0 Hb eq_refl ltac:(lia))). cbn [app].
    destruct (drop (2 * length buf) hex) as [|y rest] eqn:E; [apply (f_equal length) in E; rewrite length_drop in E; cbn in E; lia|].
    rewrite (bind_done _ _ _ _ _ (put_here (hex_text buf) 0 y rest (2 * Z.of_nat (length buf)) ltac:(lia))). unfold mret, M_ret. rewrite Hl. do 2 f_equal; [lia|].
    rewrite <- drop_drop, E. done.
  - unfold hex2bin. rewrite Hl. replace (Z.of_nat (2 * length buf)) with (Z.of_nat (length buf) * 2) by lia.
    rewrite Z.div_mul, Z.mod_mul, Z.add_0_r by lia. rewrite (proj2 (Z.ltb_ge buflen _)) by lia.
    assert (E : forall k : option (list Z * Z) -> M (list Z) Z, forall s, mbind k (match hex_text buf with
      | h :: hex' => if negb (0 =? 0) then match char2hex h with None => mret None | Some dec => put_byte 0 dec ;; mret (Some (hex', 1)) end
          else mret (Some (hex_text buf, 0))
      | [] => mret (Some ([], 0))
      end) s = k (Some (hex_text buf, 0)) s) by (intros k s; by destruct (hex_text buf)).
    rewrite E. rewrite (bind_done _ _ _ _ _ (hex2bin_loop_run buf [] out 0 0 Hb eq_refl ltac:(lia))). done.
Qed.

Lemma hex_roundtrip_witness : exists text, bin2hex [0; 0xa5; 0xff] 7 (replicate 8 1) = (Done (Z.of_nat (length text)), text ++ 0 :: drop (length text + 1) (replicate 8 1)) /\
  Z.of_nat (length text) = 2 * 3 /\ hex2bin text 3 [9; 9; 9; 9] = (Done 3, [0; 0xa5; 0xff] ++ [9]).
Proof.
  apply (hex_roundtrip [0; 0xa5; 0xff] (replicate 8 1) [9; 9; 9; 9] 7 3).
  - by repeat constructor.
  - by vm_compute.
  - by vm_compute.
Defined.

(** The test of the size is not the one that is meant: for one byte, which
    takes three characters, an array of one is accepted and overrun. *)
Theorem bin2hex_overruns : bin2hex [0xab] 1 [0] = (Stop NullDeref, [97]).
Proof. by vm_compute. Qed.

(** Digits of both cases are read, and an odd number of them. *)
Example hex2bin_odd : hex2bin [65; 98; 67] 2 [0; 0] = (Done 2, [0xa; 0xbc]).
Proof. by vm_compute. Qed.

(** A decimal text that does not fit is cut, without an error. *)
Theorem u8_to_dec_cut : u8_to_dec 2 123 [0; 0] = (Done 2, [49; 50]).
Proof. by vm_compute. Qed.

(** The decimal text of every byte, in an array with room for it and the NUL. *)
Definition decimal_ok (v : Z) : bool :=
  match u8_to_dec 4 v [7; 7; 7; 7] with
  | (Done n, b) =>
      let ds := take (Z.to_nat n) b in
      bool_decide (foldl (fun a c => 10 * a + (c - 48)) 0 ds = v /\ Forall (fun c => 48 <= c <= 57) ds /\ b = ds ++ 0 :: replicate (3 - length ds) 7)
        && ((n =? 1) || (10 <=? v)) && ((n <=? 2) || (100 <=? v)) && (1 <=? n)
  | _ => false
  end.

Lemma u8_to_dec_all v : 0 <= v < 256 -> decimal_ok v = true.
Proof.
  intros Hv. assert (H : forallb decimal_ok (seqZ 0 256) = true) by (by vm_compute). rewrite forallb_forall in H. apply H, list_elem_of_In, elem_of_seqZ. lia.
Qed.
