(* ===== verification/Addr.v ===== *)
(** * Bluetooth addresses (include/bluetooth/addr.h, subsys/bluetooth/host/addr.c)

    Addresses, their kinds, and their text in both directions. *)
From S2P Require Import Prelude ByteOrder Uuid Strtol Printf PrintfText Printk UuidText Hex.
From stdpp Require Import prelude list numbers strings.
From Stdlib Require Import ZArith Lia Ascii.
Open Scope Z_scope.

(** ** The operations *)

Definition BT_ADDR_LE_PUBLIC : Z := 0x00.
Definition BT_ADDR_LE_RANDOM : Z := 0x01.
Definition BT_ADDR_LE_PUBLIC_ID : Z := 0x02.
Definition BT_ADDR_LE_RANDOM_ID : Z := 0x03.

(** [val], least significant byte first. *)
Definition bt_addr_t : Type := list Z.
Record bt_addr_le_t := mk_addr_le { type : Z; a : bt_addr_t }.

Definition bt_addr_cmp (a b : bt_addr_t) : Z := memcmp a b.
Definition bt_addr_le_cmp (a b : bt_addr_le_t) : Z := memcmp (type a :: Addr.a a) (type b :: Addr.a b).

Definition BT_ADDR_IS_RPA (a : bt_addr_t) : bool := Z.land (at_ a 5) 0xc0 =? 0x40.
Definition BT_ADDR_IS_NRPA (a : bt_addr_t) : bool := Z.land (at_ a 5) 0xc0 =? 0x00.
Definition BT_ADDR_IS_STATIC (a : bt_addr_t) : bool := Z.land (at_ a 5) 0xc0 =? 0xc0.

Definition BT_ADDR_SET_RPA (a : bt_addr_t) : bt_addr_t := <[5%nat := Z.lor (Z.land (at_ a 5) 0x3f) 0x40]> a.
Definition BT_ADDR_SET_NRPA (a : bt_addr_t) : bt_addr_t := <[5%nat := Z.land (at_ a 5) 0x3f]> a.
Definition BT_ADDR_SET_STATIC (a : bt_addr_t) : bt_addr_t := <[5%nat := Z.lor (at_ a 5) 0xc0]> a.

Definition bt_addr_le_is_rpa (addr : bt_addr_le_t) : bool :=
  if negb (type addr =? BT_ADDR_LE_RANDOM) then false else BT_ADDR_IS_RPA (a addr).
Definition bt_addr_le_is_identity (addr : bt_addr_le_t) : bool :=
  if type addr =? BT_ADDR_LE_PUBLIC then true else BT_ADDR_IS_STATIC (a addr).

(** [bt_rand] is a parameter: its result and the bytes it wrote. *)
Definition create_random_addr (bt_rand : Z * bt_addr_t) : Z * bt_addr_le_t := (fst bt_rand, mk_addr_le BT_ADDR_LE_RANDOM (snd bt_rand)).

Definition bt_addr_le_create_nrpa (bt_rand : Z * bt_addr_t) : Z * bt_addr_le_t :=
  let '(err, addr) := create_random_addr bt_rand in
  if negb (err =? 0) then (err, addr) else (0, mk_addr_le (type addr) (BT_ADDR_SET_NRPA (a addr))).
Definition bt_addr_le_create_static (bt_rand : Z * bt_addr_t) : Z * bt_addr_le_t :=
  let '(err, addr) := create_random_addr bt_rand in
  if negb (err =? 0) then (err, addr) else (0, mk_addr_le (type addr) (BT_ADDR_SET_STATIC (a addr))).

Definition BT_ADDR_STR_LEN : Z := 18.
Definition BT_ADDR_LE_STR_LEN : Z := 30.

(** The bytes from the last to the first, as arguments. *)
Definition addr_args (a : bt_addr_t) : list arg := (fun i => Word (at_ a i)) <$> [5; 4; 3; 2; 1; 0]%nat.

Section to_str.
Context (store : Z -> Z -> Z -> M str_context unit).

Definition bt_addr_to_str (addr : bt_addr_t) (str : list Z) (len : Z) : outcome Z * option (list Z) :=
  snprintk store (Some str) len (c_str "%02X:%02X:%02X:%02X:%02X:%02X") (addr_args addr).

(** A string in an array: what is before the NUL. *)
Fixpoint c_text (b : list Z) : list Z :=
  match b with c :: b => if c =? 0 then [] else c :: c_text b | [] => [] end.

(** The name of the type; the array of 10 bytes is not initialised. *)
Definition type_name (t : Z) (type_ : list Z) : list Z :=
  if t =? BT_ADDR_LE_PUBLIC then c_str "public"
  else if t =? BT_ADDR_LE_RANDOM then c_str "random"
  else if t =? BT_ADDR_LE_PUBLIC_ID then c_str "public-id"
  else if t =? BT_ADDR_LE_RANDOM_ID then c_str "random-id"
  else c_text (default [] (snprintk store (Some type_) 10 (c_str "0x%02x") [Word t]).2).

Definition bt_addr_le_to_str (addr : bt_addr_le_t) (type_ str : list Z) (len : Z) : outcome Z * option (list Z) :=
  snprintk store (Some str) len (c_str "%02X:%02X:%02X:%02X:%02X:%02X (%s)")
    (addr_args (a addr) ++ [Pointer 1 (type_name (type addr) type_)]).
End to_str.

(** The loop of [bt_addr_from_str]; [true] is success. *)
Fixpoint from_str_loop (str : list Z) (i j : Z) : M bt_addr_t bool :=
  match str with
  | [] => mret true
  | c :: str =>
      if (j mod 3 =? 0) && negb (c =? ":"%char) then mret false
      else if c =? ":"%char then from_str_loop str (i - 1) (j + 1)
      else
        x ← gets (fun b => at_ b (Z.to_nat i));
        put_byte i (u8 (Z.shiftl x 4)) ;;
        match char2hex c with
        | None => mret false
        | Some tmp => put_byte i (Z.lor (u8 (Z.shiftl x 4)) tmp) ;; from_str_loop str i (j + 1)
        end
  end.

Definition bt_addr_from_str (str : list Z) : M bt_addr_t Z :=
  if negb (Z.of_nat (length str) =? 17) then mret (- EINVAL)
  else ok ← from_str_loop str 5 1; mret (if ok : bool then 0 else - EINVAL).

Definition name_is (s : string) (type : list Z) : bool := bool_decide (type = c_str s) || bool_decide (type = c_str "(" ++ c_str s ++ c_str ")").

Definition bt_addr_le_from_str (str type_ : list Z) : M bt_addr_le_t Z := fun addr =>
  let '(r, b) := bt_addr_from_str str (a addr) in
  let addr := mk_addr_le (type addr) b in
  match r with
  | Stop e => (Stop e, addr)
  | Done err =>
      if err <? 0 then (Done err, addr)
      else if name_is "public" type_ then (Done 0, mk_addr_le BT_ADDR_LE_PUBLIC b)
      else if name_is "random" type_ then (Done 0, mk_addr_le BT_ADDR_LE_RANDOM b)
      else if name_is "public-id" type_ then (Done 0, mk_addr_le BT_ADDR_LE_PUBLIC_ID b)
      else if name_is "random-id" type_ then (Done 0, mk_addr_le BT_ADDR_LE_RANDOM_ID b)
      else (Done (- EINVAL), addr)
  end.

(** ** The text of an address *)

Definition conv_8 : conversion := (extract_conversion (c_str "02X")).1.
Definition hex2 : Z -> list Z := hex_digits true 2.

Lemma text_8 v : byte_ok v -> int_text conv_8 v = hex2 v.
Proof.
  unfold byte_ok. intros Hv. unfold hex2. destruct (encode_hex 25 true 2 v ltac:(lia) ltac:(cbn; lia)) as [<- Hl]. change (int_text conv_8 v) with
    (zeros (2 - Z.of_nat (length (encode_loop 25 16 true (u32 v) []))) ++ encode_loop 25 16 true (u32 v) []).
  unfold u32. rewrite Z.mod_small by lia. unfold zeros. do 2 f_equal. lia.
Qed.

Definition colon : Z := ch ":"%char.

(** The bytes in the order of the text. *)
Fixpoint colons (l : list Z) : list Z :=
  match l with [] => [] | [b] => hex2 b | b :: l => hex2 b ++ colon :: colons l end.

(** %02X, before the rest of a format. *)
Definition spec_8 (rest : list Z) : list Z := [ch "0"%char; ch "2"%char; ch "X"%char] ++ rest.
Definition fmt_8 (rest : list Z) : list Z := ch "%"%char :: spec_8 rest.

Lemma spec_8_format rest : int_format (spec_8 rest) conv_8 rest.
Proof.
  split; [|by vm_compute|by vm_compute|by right; vm_compute|by left; vm_compute|by vm_compute].
  unfold extract_conversion. change (chr (spec_8 rest) =? "%"%char) with false. cbv beta iota.
  change (extract_flags empty_conversion (spec_8 rest)) with (set flag_zero true empty_conversion, ch "2"%char :: ch "X"%char :: rest). cbv beta iota.
  unfold extract_width. change (chr (ch "2"%char :: ch "X"%char :: rest) =? "*"%char) with false.
  change (extract_decimal 0 (ch "2"%char :: ch "X"%char :: rest)) with (2, ch "X"%char :: rest). cbv beta iota zeta.
  rewrite (proj2 (Nat.eqb_neq (length (ch "X"%char :: rest)) (length (ch "2"%char :: ch "X"%char :: rest)))) by (cbn; lia). reflexivity.
Qed.

(** The formats of both functions begin with six bytes; [rest] follows. *)
Definition addr_fmt (rest : list Z) : list Z :=
  fmt_8 (colon :: fmt_8 (colon :: fmt_8 (colon :: fmt_8 (colon :: fmt_8 (colon :: fmt_8 rest))))).

Lemma formats_byte b rest ap text : byte_ok b -> formats rest ap text -> formats (fmt_8 rest) (Word b :: ap) (hex2 b ++ text).
Proof. intros Hb Ht. rewrite <- text_8 by done. eapply formats_int; [apply spec_8_format|done]. Qed.

Lemma formats_addr b5 b4 b3 b2 b1 b0 rest ap text : Forall byte_ok [b5; b4; b3; b2; b1; b0] -> formats rest ap text ->
  formats (addr_fmt rest) (Word b5 :: Word b4 :: Word b3 :: Word b2 :: Word b1 :: Word b0 :: ap) (colons [b5; b4; b3; b2; b1; b0] ++ text).
Proof.
  intros Hb Ht. repeat (apply Forall_cons_1 in Hb as [? Hb]). cbn [colons]. repeat (rewrite <- app_assoc; cbn [app]).
  do 5 (apply formats_byte; [done|]; apply formats_char; [done|]). by apply formats_byte.
Qed.

(** ** Reading it *)

Lemma digit_char_hex x : 0 <= x < 16 -> char2hex (digit_char true x) = Some x /\ (digit_char true x =? ":"%char) = false.
Proof.
  intros Hx. assert (H : forallb (fun x => bool_decide (char2hex (digit_char true x) = Some x) && negb (digit_char true x =? ":"%char)) (seqZ 0 16) = true) by (by vm_compute).
  rewrite forallb_forall in H. specialize (H x ltac:(apply list_elem_of_In, elem_of_seqZ; lia)). apply andb_prop in H as [H1%bool_decide_eq_true H2%negb_true_iff]. done.
Qed.

Lemma shift_nibble x : u8 (Z.shiftl x 4) = Z.shiftl (x mod 16) 4.
Proof. rewrite !Z.shiftl_mul_pow2 by lia. unfold u8. change (2 ^ 8) with (16 * 2 ^ 4). by rewrite Z.mul_mod_distr_r by lia. Qed.

Lemma shift_in x h : 0 <= h < 16 -> Z.lor (u8 (Z.shiftl x 4)) h = h + 16 * (x mod 16).
Proof. intros Hh. rewrite shift_nibble. by apply (lor_low _ _ 4). Qed.

(** Two digits replace a byte, whatever it was. *)
Lemma from_str_byte b rest pre y post i j : byte_ok b -> i = Z.of_nat (length pre) -> j mod 3 = 1 ->
  from_str_loop (hex2 b ++ rest) i j (pre ++ y :: post) = from_str_loop rest i (j + 2) (pre ++ b :: post).
Proof.
  intros Hb Hi Hj. destruct (byte_halves b Hb) as (_ & _ & H1 & H2). destruct (digit_char_hex _ H1) as [D1 C1]. destruct (digit_char_hex _ H2) as [D2 C2].
  unfold hex2. cbn [hex_digits app]. rewrite (Z.mod_small (b / 16)) by lia. cbn [from_str_loop]. rewrite C1, C2, D1, D2. rewrite Hj. change (1 =? 0) with false. cbn [andb].
  assert (J2 : (j + 1) mod 3 = 2) by (rewrite Z.add_mod, Hj by lia; done). rewrite J2. change (2 =? 0) with false. cbn [andb].
  assert (R : forall x, at_ (pre ++ x :: post) (Z.to_nat i) = x).
  { intros x. unfold at_. rewrite Hi, Nat2Z.id, list_lookup_middle by done. done. }
  rewrite !bind_gets, R. rewrite (bind_done _ _ _ _ _ (put_here pre _ y post i Hi)). rewrite (bind_done _ _ _ _ _ (put_here pre _ _ post i Hi)).
  rewrite !bind_gets, R. rewrite (bind_done _ _ _ _ _ (put_here pre _ _ post i Hi)). rewrite (bind_done _ _ _ _ _ (put_here pre _ _ post i Hi)).
  replace (j + 1 + 1) with (j + 2) by lia. do 3 f_equal. rewrite !shift_in by done. rewrite (Z.mul_comm 16 (y mod 16)), Z.mod_add, (Z.mod_small (b / 16)) by lia.
  pose proof (Z.div_mod b 16 ltac:(lia)). lia.
Qed.

Lemma from_str_run l old post j : Forall byte_ok l -> length old = length l -> j mod 3 = 1 ->
  from_str_loop (colons l) (Z.of_nat (length l) - 1) j (old ++ post) = (Done true, rev l ++ post).
Proof.
  intros Hl. revert old post j. induction Hl as [|b l Hb Hl IH]; intros old post j Hlen Hj; [by destruct old|].
  destruct old as [|y old _] using rev_ind; [done|]. rewrite length_app in Hlen. cbn [length] in Hlen.
  rewrite <- app_assoc. cbn [app rev length]. assert (Hi : Z.of_nat (S (length l)) - 1 = Z.of_nat (length old)) by lia.
  destruct l as [|b' l].
  - cbn [colons]. rewrite <- (app_nil_r (hex2 b)), (from_str_byte b [] old y post) by done. cbn [from_str_loop]. destruct old; [done|cbn in Hlen; lia].
  - change (colons (b :: b' :: l)) with (hex2 b ++ colon :: colons (b' :: l)). rewrite (from_str_byte b _ old y post) by done. cbn [from_str_loop].
    change (colon =? ":"%char) with true. cbn [negb]. rewrite andb_false_r.
    replace (Z.of_nat (S (length (b' :: l))) - 1 - 1) with (Z.of_nat (length (b' :: l)) - 1) by lia.
    rewrite IH; [by rewrite <- !app_assoc|cbn [length] in *; lia|]. replace (j + 2 + 1) with (j + 1 * 3) by lia. by rewrite Z.mod_add.
Qed.

Definition addr_ok (addr : bt_addr_t) : Prop := length addr = 6%nat /\ Forall byte_ok addr.

Lemma colons_chars l : Forall (fun c => 0 <= c) (colons l).
Proof.
  induction l as [|b [|b' l] IH]; [constructor|apply (proj1 (hex_chars _ _ _))|].
  change (colons (b :: b' :: l)) with (hex2 b ++ colon :: colons (b' :: l)). apply Forall_app. split; [apply (proj1 (hex_chars _ _ _))|]. by constructor.
Qed.

Lemma colons_length l : length (colons l) = (3 * length l - 1)%nat.
Proof.
  induction l as [|b [|b' l] IH]; [done|apply hex_length|]. change (colons (b :: b' :: l)) with (hex2 b ++ colon :: colons (b' :: l)).
  rewrite length_app. cbn [length] in *. rewrite IH. unfold hex2. rewrite hex_length. lia.
Qed.

(** The text of an address, before what follows it in the format. *)
Lemma formats_address addr rest ap text : addr_ok addr -> formats rest ap text -> formats (addr_fmt rest) (addr_args addr ++ ap) (colons (rev addr) ++ text).
Proof.
  intros [Hl Hb] Ht. do 6 (destruct addr as [|? addr]; [done|]). destruct addr; [|done]. apply formats_addr; [|done].
  change (Forall byte_ok (rev [z; z0; z1; z2; z3; z4])). by apply Forall_rev.
Qed.

Lemma from_str_text addr old : addr_ok addr -> length old = 6%nat -> bt_addr_from_str (colons (rev addr)) old = (Done 0, addr).
Proof.
  intros [Hl Hb] Ho. unfold bt_addr_from_str. rewrite colons_length, length_rev, Hl. cbn [negb Z.eqb].
  change (Z.of_nat (3 * 6 - 1) =? 17) with true. cbn [negb]. pose proof (from_str_run (rev addr) old [] 1 ltac:(by apply Forall_rev)) as H.
  rewrite length_rev, Hl, !app_nil_r, rev_involutive in H. by rewrite (bind_done _ _ _ _ _ (H Ho eq_refl)).
Qed.

Section roundtrip.
Context (store : Z -> Z -> Z -> M str_context unit).

(** C36. In a string of [BT_ADDR_STR_LEN] bytes an address is 17 characters and a NUL,
    and [bt_addr_from_str] reads the address back, whatever was in the
    structure before. The text of an LE address fits
    [BT_ADDR_LE_STR_LEN] bytes; it is the same 17 characters, a space and the
    type in parentheses, and [bt_addr_le_from_str] reads these two words. *)
Theorem address_roundtrip addr t str str_le type_ old : addr_ok addr -> 0 <= t <= 3 -> length old = 6%nat ->
  Z.of_nat (length str) = BT_ADDR_STR_LEN -> Z.of_nat (length str_le) = BT_ADDR_LE_STR_LEN ->
  exists word kind, bt_addr_to_str store addr str BT_ADDR_STR_LEN = (Done 17, Some (word ++ [0])) /\
    bt_addr_from_str word old = (Done 0, addr) /\
    (exists rest, bt_addr_le_to_str store (mk_addr_le t addr) type_ str_le BT_ADDR_LE_STR_LEN =
      (Done (Z.of_nat (length (word ++ 32 :: kind))), Some ((word ++ 32 :: kind) ++ 0 :: rest))) /\
    forall t', bt_addr_le_from_str word kind (mk_addr_le t' old) = (Done 0, mk_addr_le t addr).
Proof.
  unfold BT_ADDR_STR_LEN, BT_ADDR_LE_STR_LEN. intros Ha Ht Ho Hs Hle. set (word := colons (rev addr)).
  assert (Hw : length word = 17%nat) by (unfold word; rewrite colons_length, length_rev; by destruct Ha as [-> _]).
  pose proof (from_str_text addr old Ha Ho) as Hr. fold word in Hr. exists word.
  assert (Hk : exists name, type_name store t type_ = c_str name /\ (length (c_str name) <= 9)%nat /\ Forall (fun c => 0 <= c) (c_str name) /\
    forall t', bt_addr_le_from_str word (c_str "(" ++ c_str name ++ c_str ")") (mk_addr_le t' old) = (Done 0, mk_addr_le t addr)).
  { unfold bt_addr_le_from_str. cbn [a type]. rewrite Hr. destruct (decide (t = 0)) as [->|]; [exists "public"|]. 2: destruct (decide (t = 1)) as [->|]; [exists "random"|].
    3: destruct (decide (t = 2)) as [->|]; [exists "public-id"|]. 4: assert (t = 3) as -> by lia; exists "random-id".
    all: split; [reflexivity|]; split; [vm_compute; lia|]; split; [by repeat constructor|]; intros t'; by vm_compute. }
  destruct Hk as (name & En & Hn & Hc & Hf). exists (c_str "(" ++ c_str name ++ c_str ")"). split; [|split; [exact Hr|split; [|exact Hf]]].
  - unfold bt_addr_to_str. change (c_str "%02X:%02X:%02X:%02X:%02X:%02X") with (addr_fmt []). rewrite <- (app_nil_r (addr_args addr)).
    rewrite (snprintk_fits store str 18 _ _ _ (formats_address addr [] [] [] Ha formats_end)); rewrite ?app_nil_r; fold word; [|apply colons_chars|rewrite Hw; lia|lia].
    rewrite Hw. by rewrite (drop_ge str) by lia.
  - unfold bt_addr_le_to_str. cbn [a type]. rewrite En. change (c_str "%02X:%02X:%02X:%02X:%02X:%02X (%s)") with (addr_fmt (c_str " (%s)")).
    assert (Fs : formats (c_str " (%s)") [Pointer 1 (c_str name)] (32 :: c_str "(" ++ c_str name ++ c_str ")")).
    { apply (formats_char 32); [done|]. apply (formats_char 40); [done|]. apply formats_string; [done|lia|]. apply (formats_char 41); [done|constructor]. }
    assert (Lk : length (word ++ 32 :: c_str "(" ++ c_str name ++ c_str ")") = (20 + length (c_str name))%nat).
    { rewrite length_app. cbn [length]. rewrite !length_app, Hw. change (length (c_str "(")) with 1%nat. change (length (c_str ")")) with 1%nat. lia. }
    eexists. rewrite (snprintk_fits store str_le 30 _ _ _ (formats_address addr _ _ _ Ha Fs)); fold word; [done| |rewrite Lk; lia|lia].
    apply Forall_app. split; [apply colons_chars|]. constructor; [done|]. apply Forall_app. split; [by repeat constructor|]. apply Forall_app. split; [done|by repeat constructor].
Qed.
End roundtrip.

Definition demo_addr : bt_addr_t := [0x01; 0x23; 0x45; 0x67; 0x89; 0xab].

Lemma address_roundtrip_witness : exists word kind,
  bt_addr_to_str (fun _ _ _ => mret tt) demo_addr (replicate 18 7) BT_ADDR_STR_LEN = (Done 17, Some (word ++ [0])) /\
  bt_addr_from_str word [1; 2; 3; 4; 5; 6] = (Done 0, demo_addr) /\
  (exists rest, bt_addr_le_to_str (fun _ _ _ => mret tt) (mk_addr_le 3 demo_addr) [] (replicate 30 7) BT_ADDR_LE_STR_LEN =
    (Done (Z.of_nat (length (word ++ 32 :: kind))), Some ((word ++ 32 :: kind) ++ 0 :: rest))) /\
  forall t', bt_addr_le_from_str word kind (mk_addr_le t' [1; 2; 3; 4; 5; 6]) = (Done 0, mk_addr_le 3 demo_addr).
Proof.
  apply (address_roundtrip (fun _ _ _ => mret tt) demo_addr 3 (replicate 18 7) (replicate 30 7) [] [1; 2; 3; 4; 5; 6]).
  - split; [done|]. by repeat constructor.
  - lia.
  - done.
  - done.
  - done.
Defined.

(** Colons are accepted at any place. Seventeen of them are an address, and
    the structure keeps what it had. *)
Theorem colons_accepted old : length old = 6%nat -> bt_addr_from_str (replicate 17 colon) old = (Done 0, old).
Proof. intros Ho. do 6 (destruct old as [|? old]; [done|]). destruct old; [|done]. by vm_compute. Qed.

(** After six colons too many a digit is written before the structure. *)
Theorem colons_write_outside old : length old = 6%nat -> bt_addr_from_str (c_str "::::::00:00:00:00") old = (Stop NullDeref, old).
Proof. intros Ho. do 6 (destruct old as [|? old]; [done|]). destruct old; [|done]. by vm_compute. Qed.

(** Random addresses are of the kind that was asked for. *)
Lemma top_bits_set x : byte_ok x -> Z.land (Z.land x 0x3f) 0xc0 = 0 /\ Z.land (Z.lor x 0xc0) 0xc0 = 0xc0.
Proof.
  intros Hx. split; [rewrite <- Z.land_assoc; apply Z.land_0_r|]. rewrite Z.land_lor_distr_l. change (Z.land 0xc0 0xc0) with 0xc0.
  apply Z.bits_inj. intros n. rewrite Z.lor_spec, Z.land_spec. by destruct (Z.testbit x n), (Z.testbit 0xc0 n).
Qed.

Lemma random_kinds err r : addr_ok r -> err = 0 ->
  (let '(e, addr) := bt_addr_le_create_nrpa (err, r) in e = 0 /\ BT_ADDR_IS_NRPA (a addr) = true /\ bt_addr_le_is_rpa addr = false /\ bt_addr_le_is_identity addr = false) /\
  (let '(e, addr) := bt_addr_le_create_static (err, r) in e = 0 /\ BT_ADDR_IS_STATIC (a addr) = true /\ bt_addr_le_is_rpa addr = false /\ bt_addr_le_is_identity addr = true).
Proof.
  intros [Hl Hb] ->. do 6 (destruct r as [|? r]; [done|]). destruct r; [|done]. assert (Hx : byte_ok z4) by (by do 5 apply Forall_cons_1 in Hb as [_ Hb]; apply Forall_cons_1 in Hb as [? _]).
  destruct (top_bits_set z4 Hx) as [T1 T2]. unfold bt_addr_le_create_nrpa, bt_addr_le_create_static, bt_addr_le_is_rpa, bt_addr_le_is_identity,
    BT_ADDR_IS_NRPA, BT_ADDR_IS_RPA, BT_ADDR_IS_STATIC, BT_ADDR_SET_NRPA, BT_ADDR_SET_STATIC. cbn [create_random_addr fst snd negb Z.eqb type a].
  change (at_ (<[5%nat := ?x]> [z; z0; z1; z2; z3; z4]) 5) with x. change (at_ [z; z0; z1; z2; z3; z4] 5) with z4. by rewrite T1, T2.
Qed.
