(* ===== verification/Board.v ===== *)
(** * The applications of the two boards (samples/lora_eval_send/src/main.c,
    samples/lora_eval_rcv/src/main.c)

    Both start the Bluetooth stack, advertise the service of the board and
    register callbacks; they differ in the UUID. The stack is a parameter. *)
From S2P Require Import Prelude ByteOrder Uuid Strtol Printf PrintfText Printk Addr.
From stdpp Require Import prelude list numbers strings.
From Stdlib Require Import ZArith Lia Ascii.
Open Scope Z_scope.

(** ** The operations *)

Record bt_data := BT_DATA { type : Z; data : list Z }.

Definition BT_DATA_FLAGS : Z := 0x01.
Definition BT_DATA_UUID16_ALL : Z := 0x03.
Definition BT_LE_AD_GENERAL : Z := 0x02.
Definition BT_LE_AD_NO_BREDR : Z := 0x04.

Definition BT_UUID_16_ENCODE (w16 : Z) : list Z := [Z.land (Z.shiftr w16 0) 0xFF; Z.land (Z.shiftr w16 8) 0xFF].

Definition BT_UUID_LSES_VAL : Z := 0x180e.
Definition BT_UUID_LRES_VAL : Z := 0x1811.

(** The board with the service [val]. *)
Definition ad (val : Z) : list bt_data :=
  [BT_DATA BT_DATA_FLAGS [Z.lor BT_LE_AD_GENERAL BT_LE_AD_NO_BREDR];
   BT_DATA BT_DATA_UUID16_ALL (BT_UUID_16_ENCODE val)].

Section main.
Context {X : Type} (val : Z).
(** The stack: [bt_enable] and [bt_le_adv_start] with their result, and the
    registration of the callbacks on connections and on pairing. *)
Context (bt_enable : M X Z) (bt_le_adv_start : list bt_data -> M X Z) (bt_conn_cb_register bt_conn_auth_cb_register : M X unit).
Context (set_connected : bool -> M X unit) (printk : list Z -> list arg -> M X unit).

Definition connected (err : Z) : M X unit :=
  if negb (err =? 0) then printk (line "Connection failed (err 0x%02x)") [Word err]
  else set_connected true ;; printk (line "Connected") [].

Definition disconnected (reason : Z) : M X unit :=
  set_connected false ;; printk (line "Disconnected (reason 0x%02x)") [Word reason].

Definition bt_ready : M X unit :=
  printk (line "Bluetooth initialized") [] ;;
  err ← bt_le_adv_start (ad val);
  if negb (err =? 0) then printk (line "Advertising failed to start (err %d)") [Word err]
  else printk (line "Advertising successfully started") [].

(** The peer, and the arrays on the stack, which are not initialised. *)
Definition auth_cancel (dst : bt_addr_le_t) (type_ addr : list Z) : M X unit :=
  let '(r, addr) := bt_addr_le_to_str (fun _ _ _ => mret tt) dst type_ addr BT_ADDR_LE_STR_LEN in
  match r with
  | Done _ => printk (line "Pairing cancelled: %s") [Pointer 1 (c_text (default [] addr))]
  | Stop e => stop_with e
  end.

Definition main : M X unit :=
  err ← bt_enable;
  if negb (err =? 0) then printk (line "Bluetooth init failed (err %d)") [Word err]
  else
    bt_ready ;;
    bt_conn_cb_register ;;
    bt_conn_auth_cb_register.
End main.

(** ** Starting *)

(** What is recorded of the stack: whether the callbacks are registered, what
    is advertised, and the flag of the service. A phone may connect as soon as
    the board advertises. *)
Record stack := mk_stack { registered : bool; advertised : option (list bt_data); flag : bool }.

Definition quiet (fmt : list Z) (ap : list arg) : M stack unit := mret tt.
Definition set_flag (b : bool) : M stack unit := modify (fun s => mk_stack (registered s) (advertised s) b).
Definition phone_connects : M stack unit :=
  r ← gets registered; when r (connected set_flag quiet 0).
Definition start_advertising (connects : bool) (ad : list bt_data) : M stack Z :=
  modify (fun s => mk_stack (registered s) (Some ad) (flag s)) ;;
  when connects phone_connects ;;
  mret 0.
Definition register : M stack unit := modify (fun s => mk_stack true (advertised s) (flag s)).

(** The board advertises its service, and a phone that connects later sets the
    flag the service's threads wait for. *)
Theorem later_connection_seen val : (main val (mret 0) (start_advertising false) register (mret tt) quiet ;; phone_connects) (mk_stack false None false) =
  (Done tt, mk_stack true (Some (ad val)) true).
Proof. reflexivity. Qed.

(** The callbacks are registered after the advertising has begun: a phone that
    connects in between is not noticed. *)
Theorem early_connection_missed val : main val (mret 0) (start_advertising true) register (mret tt) quiet (mk_stack false None false) =
  (Done tt, mk_stack true (Some (ad val)) false).
Proof. reflexivity. Qed.
