(* ===== verification/Scanning.v ===== *)
(** * Finding and keeping the device (Scanner.java, BLEHandler.java, Central.java)

    The app scans for the service of a board, connects to the first device
    that advertises it, scans again when the connection is lost and stops for
    good when the screen closes it. [Central] objects are replaced while
    Android may still hold the old ones, so they live in a heap. *)
From S2P Require Import Prelude ByteOrder Uuid Strtol Printf PrintfText Printk UuidText Addr Board Java Phone.
From stdpp Require Import prelude list numbers strings.
From Stdlib Require Import ZArith Lia.
Open Scope Z_scope.

(** ** Names (res/values/strings.xml) *)

Definition Sender_Service_UUID : string := "0000180e-0000-1000-8000-00805f9b34fb".
Definition Receiver_Service_UUID : string := "00001811-0000-1000-8000-00805f9b34fb".
Definition Notification_Sender_Characteristic_UUID : string := "00002a3a-0000-1000-8000-00805f9b34fb".
Definition Config_Change_Sender_Characteristic_UUID : string := "00002a3b-0000-1000-8000-00805f9b34fb".
Definition Send_Command_Characteristic_UUID : string := "00002a3c-0000-1000-8000-00805f9b34fb".
Definition Loop_Command_Characteristic_UUID : string := "00002a3d-0000-1000-8000-00805f9b34fb".
Definition Prepare_Sender_Characteristic_UUID : string := "00002a3e-0000-1000-8000-00805f9b34fb".
Definition Notification_Receiver_Characteristic_UUID : string := "00002a3f-0000-1000-8000-00805f9b34fb".
Definition Config_Change_Receive_Characteristic_UUID : string := "00002a40-0000-1000-8000-00805f9b34fb".
Definition Experiment_Settings_To_Receiver_Characteristic_UUID : string := "00002a41-0000-1000-8000-00805f9b34fb".
Definition Descriptor_UUID : string := "00002902-0000-1000-8000-00805f9b34fb".

(** Java's [UUID] is always the 16 bytes; [UUID.fromString] of a text of 36
    characters. *)
Definition UUID : Type := list Z.
Definition fromString (s : string) : option UUID := match read_uuid (c_str s) with Some (UUID_128 v) => Some v | _ => None end.

(** The constructors of [Scanner] and [Central]. *)
Definition serviceUUID (d : device) : option UUID :=
  fromString (if decide (d = SENDER) then Sender_Service_UUID else Receiver_Service_UUID).

Definition characteristic_UUID (d : device) (c : characteristic) : option UUID :=
  match c with
  | NotificationChar => fromString (if decide (d = SENDER) then Notification_Sender_Characteristic_UUID else Notification_Receiver_Characteristic_UUID)
  | ChangeConfigChar => fromString (if decide (d = SENDER) then Config_Change_Sender_Characteristic_UUID else Config_Change_Receive_Characteristic_UUID)
  | SendCommandChar => fromString (if decide (d = SENDER) then Send_Command_Characteristic_UUID else Experiment_Settings_To_Receiver_Characteristic_UUID)
  | LoopCommandChar => if decide (d = SENDER) then fromString Loop_Command_Characteristic_UUID else None
  | PrepareSenderChar => if decide (d = SENDER) then fromString Prepare_Sender_Characteristic_UUID else None
  | DescriptorChar => fromString Descriptor_UUID
  end.

(** ** State *)

(** A [Central]; [BluetoothGatt] objects are numbers. *)
Record Central := mk_central { bluetoothGatt : option nat; reopenConnection : bool }.

(** A [BluetoothGatt] object: the device, and whether it was closed. *)
Record gatt := mk_gatt { peer : bt_addr_t; open_ : bool; client : nat }.

Record scanner := mk_scanner {
  enabled : bool;                  (** the adapter is on *)
  scanning : bool;                 (** [scanCallback] is registered *)
  bluetoothLeScanner : bool;       (** not null *)
  central : option nat;
  centrals : list Central;
  gatts : list gatt;
  broadcasts : list broadcast }.

Definition set_adapter (x : bool) (s : scanner) : scanner := mk_scanner x (scanning s) (bluetoothLeScanner s) (central s) (centrals s) (gatts s) (broadcasts s).
Definition set_scanning (x : bool) (s : scanner) : scanner := mk_scanner (enabled s) x (bluetoothLeScanner s) (central s) (centrals s) (gatts s) (broadcasts s).
Definition set_le (x : bool) (s : scanner) : scanner := mk_scanner (enabled s) (scanning s) x (central s) (centrals s) (gatts s) (broadcasts s).
Definition set_central (x : option nat) (s : scanner) : scanner := mk_scanner (enabled s) (scanning s) (bluetoothLeScanner s) x (centrals s) (gatts s) (broadcasts s).
Definition set_centrals (x : list Central) (s : scanner) : scanner := mk_scanner (enabled s) (scanning s) (bluetoothLeScanner s) (central s) x (gatts s) (broadcasts s).
Definition set_gatts (x : list gatt) (s : scanner) : scanner := mk_scanner (enabled s) (scanning s) (bluetoothLeScanner s) (central s) (centrals s) x (broadcasts s).
Definition add_broadcast (b : broadcast) (s : scanner) : scanner := mk_scanner (enabled s) (scanning s) (bluetoothLeScanner s) (central s) (centrals s) (gatts s) (broadcasts s ++ [b]).

(** ** Central *)

(** [connectGatt] returns a new object. *)
Definition connect (k : nat) (dev : bt_addr_t) : J scanner unit :=
  g ← field (fun s => length (gatts s));
  assign (fun s => set_gatts (gatts s ++ [mk_gatt dev true k]) s) ;;
  c ← field centrals;
  c ← orelse NullPointer (c !! k);
  assign (fun s => set_centrals (<[k := mk_central (Some g) (reopenConnection c)]> (centrals s)) s).

Definition close_gatt (g : nat) : J scanner unit :=
  assign (fun s => set_gatts (alter (fun x => mk_gatt (peer x) false (client x)) g (gatts s)) s).

Definition central_closeConnection (k : nat) : J scanner unit :=
  c ← field centrals;
  c ← orelse NullPointer (c !! k);
  match bluetoothGatt c with
  | Some g =>
      assign (fun s => set_centrals (<[k := mk_central (bluetoothGatt c) false]> (centrals s)) s) ;;
      close_gatt g
  | None => mret tt
  end.

(** ** Scanner *)

(** [getBluetoothLeScanner] returns null while the adapter is off. A scan that
    is running already only reports a failure, which is logged. *)
Definition startScanning : J scanner unit :=
  on ← field enabled;
  assign (set_le on) ;;
  k ← field (fun s => length (centrals s));
  assign (fun s => set_centrals (centrals s ++ [mk_central None true]) s) ;;
  assign (set_central (Some k)) ;;
  le ← field bluetoothLeScanner;
  if le : bool then assign (set_scanning true) else throw NullPointer.

Definition stopScanning : J scanner unit :=
  le ← field bluetoothLeScanner;
  if le : bool then assign (set_scanning false) ;; assign (set_le false) else mret tt.

Definition scanner_closeConnection : J scanner unit :=
  c ← field central;
  match c with
  | Some k => central_closeConnection k ;; assign (set_central None)
  | None => mret tt
  end.

(** [uuids] is what [getServiceUuids] returns. *)
Definition onScanResult (d : device) (uuids : option (list UUID)) (dev : bt_addr_t) : J scanner unit :=
  match uuids with
  | None => mret tt
  | Some [] => throw IndexOutOfBounds
  | Some (resultUUID :: _) =>
      if bool_decide (Some resultUUID = serviceUUID d) then
        c ← field central;
        k ← orelse NullPointer c;
        connect k dev ;;
        stopScanning
      else mret tt
  end.

(** ** BLEHandler *)

(** The constructor; [enable] only asks for the adapter to be switched on. *)
Definition BLEHandler (isEnabled : bool) : scanner := mk_scanner isEnabled false false None [] [] [].
Definition ble_connect : J scanner unit := startScanning.
Definition ble_closeConnection : J scanner unit := scanner_closeConnection ;; stopScanning.

(** [onConnectionStateChange] of the [Central] behind the object [g]. *)
Definition run_action (g : nat) (a : gatt_action) : J scanner unit :=
  match a with
  | CloseGatt => close_gatt g
  | StartScanning => startScanning
  | Broadcast b => assign (add_broadcast b)
  | DiscoverServices | ReadDescriptor | EnableNotification | WriteDescriptor | PostDelayed _ _ => mret tt
  end.

Fixpoint run_actions (g : nat) (l : list gatt_action) : J scanner unit :=
  match l with [] => mret tt | a :: l => run_action g a ;; run_actions g l end.

Definition state_changed (g : nat) (newState : conn_state) : J scanner unit :=
  gs ← field gatts;
  x ← orelse NullPointer (gs !! g);
  cs ← field centrals;
  c ← orelse NullPointer (cs !! client x);
  run_actions g (onConnectionStateChange (reopenConnection c) newState).

(** ** Names and attributes *)

(** The texts of the app name the attributes of the boards: what is printed
    for the 128-bit form of the board's UUID. *)
Lemma names_agree d c :
  serviceUUID d = Some (uuid_to_uuid128 (UUID_16 (service_uuid d))) /\
  characteristic_UUID d c = (fun v => uuid_to_uuid128 (UUID_16 v)) <$> characteristic_uuid d c.
Proof. by destruct d, c; vm_compute. Qed.

(** ** Runs *)

(** What Android reports to the app, and the screen that closes the
    connection. *)
Inductive event :=
| ScanResult (uuids : option (list UUID)) (dev : bt_addr_t)
| StateChange (g : nat) (newState : conn_state)
| Close.

(** Results come while a scan is running, with a list that is not empty, and
    changes for objects that are not closed. *)
Definition possible (s : scanner) (e : event) : Prop :=
  match e with
  | ScanResult uuids _ => scanning s = true /\ uuids <> Some []
  | StateChange g _ => exists x, gatts s !! g = Some x /\ open_ x = true
  | Close => True
  end.

Definition perform (d : device) (e : event) : J scanner unit :=
  match e with
  | ScanResult uuids dev => onScanResult d uuids dev
  | StateChange g st => state_changed g st
  | Close => ble_closeConnection
  end.

Inductive reaches (d : device) : scanner -> Prop :=
| reaches_start s : ble_connect (BLEHandler true) = (Ok tt, s) -> reaches d s
| reaches_step s e s' : reaches d s -> possible s e -> perform d e s = (Ok tt, s') -> reaches d s'.

(** The objects that are open. *)
Definition all_closed (l : list gatt) : Prop := Forall (fun x => open_ x = false) l.
Definition only_open (g : nat) (l : list gatt) : Prop := forall i x, l !! i = Some x -> open_ x = bool_decide (i = g).

(** Scanning, connected or closed. *)
Inductive phase (s : scanner) : Prop :=
| Scans k : central s = Some k -> centrals s !! k = Some (mk_central None true) -> scanning s = true -> bluetoothLeScanner s = true ->
    all_closed (gatts s) -> phase s
| Connected k g dev : central s = Some k -> centrals s !! k = Some (mk_central (Some g) true) -> scanning s = false -> bluetoothLeScanner s = false ->
    gatts s !! g = Some (mk_gatt dev true k) -> only_open g (gatts s) -> phase s
| Closed : central s = None -> scanning s = false -> bluetoothLeScanner s = false -> all_closed (gatts s) -> phase s.

(** ** Invariant *)

Definition fine (s : scanner) : Prop := enabled s = true /\ phase s.

Lemma closed_all l g : all_closed (alter (fun x => mk_gatt (peer x) false (client x)) g l) <-> forall i x, l !! i = Some x -> i <> g -> open_ x = false.
Proof.
  unfold all_closed. rewrite Forall_lookup. split.
  - intros H i x Hi Hn. apply (H i). by rewrite list_lookup_alter_ne.
  - intros H i x. destruct (decide (i = g)) as [->|Hn].
    + rewrite list_lookup_alter_eq. intros (y & _ & ->)%fmap_Some. done.
    + rewrite list_lookup_alter_ne by done. intros Hi. by apply (H i).
Qed.

Lemma only_open_closed g l : only_open g l -> all_closed (alter (fun x => mk_gatt (peer x) false (client x)) g l).
Proof. intros H. apply closed_all. intros i x Hi Hn. rewrite (H i x Hi). by apply bool_decide_eq_false_2. Qed.

Lemma all_closed_only l x : all_closed l -> open_ x = true -> only_open (length l) (l ++ [x]).
Proof.
  intros H Hx i y Hi. apply lookup_app_Some in Hi as [Hi|[Hl Hi]].
  - rewrite (Forall_lookup_1 _ _ _ _ H Hi). symmetry. apply bool_decide_eq_false_2. intros ->. by rewrite lookup_ge_None_2 in Hi.
  - destruct (i - length l)%nat as [|n] eqn:E; [|done]. injection Hi as <-. rewrite Hx. symmetry. apply bool_decide_eq_true_2. lia.
Qed.

(** A new scan, from any state without an open object. *)
Lemma scan_start_run s : enabled s = true -> all_closed (gatts s) ->
  exists s', startScanning s = (Ok tt, s') /\ fine s' /\ scanning s' = true /\ gatts s' = gatts s.
Proof.
  intros He Hc. eexists. split; [unfold startScanning, mbind, J_bind, field, assign; cbn; by rewrite He|]. split; [|done]. split; [done|].
  apply (Scans _ (length (centrals s))); try done. cbn. by rewrite list_lookup_middle.
Qed.

Lemma close_run s : fine s -> exists s', ble_closeConnection s = (Ok tt, s') /\ fine s' /\ central s' = None /\ scanning s' = false /\ all_closed (gatts s').
Proof.
  intros [He Hp]. destruct s as [en sc le ce cs gs bs]. cbn in *.
  destruct Hp as [k H1 H2 H3 H4 H5|k g dev H1 H2 H3 H4 H5 H6|H1 H2 H3 H4]; cbn in *; subst.
  - eexists. split; [unfold ble_closeConnection, scanner_closeConnection, central_closeConnection, stopScanning, mbind, J_bind, field, assign, orelse; cbn; rewrite H2; reflexivity|].
    split; [split; [done|by apply Closed]|done].
  - eexists. split; [unfold ble_closeConnection, scanner_closeConnection, central_closeConnection, stopScanning, close_gatt, mbind, J_bind, field, assign, orelse; cbn; rewrite H2; reflexivity|].
    split; [split; [done|apply Closed; try done; by apply only_open_closed]|]. split; [done|]. split; [done|by apply only_open_closed].
  - eexists. split; [reflexivity|]. split; [split; [done|by apply Closed]|done].
Qed.

(** The first service of the list is the one of the board. *)
Definition advertises (d : device) (uuids : option (list UUID)) : bool :=
  match uuids with Some (u :: _) => bool_decide (Some u = serviceUUID d) | _ => false end.

Lemma result_run d s uuids dev : fine s -> scanning s = true -> uuids <> Some [] -> exists s', onScanResult d uuids dev s = (Ok tt, s') /\ fine s' /\
  (if advertises d uuids then scanning s' = false /\ exists k, gatts s' = gatts s ++ [mk_gatt dev true k] else s' = s).
Proof.
  intros [He Hp] Hs Hu. destruct uuids as [[|u l]|]; [done| |by eexists]. cbn [onScanResult advertises].
  destruct (bool_decide (Some u = serviceUUID d)); [|by eexists]. destruct s as [en sc le ce cs gs bs]. cbn in *.
  destruct Hp as [k H1 H2 H3 H4 H5|k g dv H1 H2 H3 H4 H5 H6|H1 H2 H3 H4]; cbn in *; subst; try done.
  eexists. split; [unfold connect, stopScanning, mbind, J_bind, field, assign, orelse; cbn; rewrite H2; reflexivity|].
  split; [|split; [done|by eexists]]. split; [done|]. apply (Connected _ k (length gs) dev); try done; cbn.
  - by rewrite list_lookup_insert_eq by (by apply lookup_lt_Some in H2).
  - by rewrite list_lookup_middle.
  - by apply all_closed_only.
Qed.

#[export] Instance conn_state_eq_dec : EqDecision conn_state.
Proof. solve_decision. Defined.

Lemma change_run s g st : fine s -> (exists x, gatts s !! g = Some x /\ open_ x = true) -> exists s', state_changed g st s = (Ok tt, s') /\ fine s' /\
  scanning s' = bool_decide (st = STATE_DISCONNECTED) /\ (st <> STATE_DISCONNECTED -> gatts s' = gatts s).
Proof.
  intros [He Hp] (x & Hx & Ho). destruct Hp as [k H1 H2 H3 H4 H5|k g' dev H1 H2 H3 H4 H5 H6|H1 H2 H3 H4].
  - by rewrite (Forall_lookup_1 _ _ _ _ H5 Hx) in Ho.
  - assert (g = g') as -> by (rewrite (H6 _ _ Hx) in Ho; by apply bool_decide_eq_true in Ho). rewrite H5 in Hx. injection Hx as <-.
    assert (Es : state_changed g' st s = run_actions g' (onConnectionStateChange true st) s).
    { unfold state_changed, mbind, J_bind, field, orelse. cbn. rewrite H5. cbn. by rewrite H2. }
    rewrite Es. destruct st; cbn [onConnectionStateChange app run_actions run_action].
    + eexists. split; [reflexivity|]. split; [split; [done|by eapply (Connected _ k g' dev)]|]. by split.
    + set (s1 := set_gatts (alter (fun x => mk_gatt (peer x) false (client x)) g' (gatts s)) (add_broadcast (ConnState false) s)).
      destruct (scan_start_run s1) as (s' & E & F & Sc & G); [done|by apply only_open_closed|]. exists s'. split; [|done].
      rewrite (jbind_ok _ _ _ tt (add_broadcast (ConnState false) s)) by done. rewrite (jbind_ok _ _ _ tt s1) by done. by rewrite (jbind_ok _ _ _ _ _ E).
    + eexists. split; [reflexivity|]. split; [split; [done|by eapply (Connected _ k g' dev)]|]. by split.
  - by rewrite (Forall_lookup_1 _ _ _ _ H4 Hx) in Ho.
Qed.

Lemma reaches_fine d s : reaches d s -> fine s.
Proof.
  induction 1 as [s Hs|s e s' _ IH Hp Hs].
  - destruct (scan_start_run (BLEHandler true)) as (s' & E & F & _); [done|constructor|]. unfold ble_connect in Hs. rewrite E in Hs. by injection Hs as <-.
  - destruct e as [uuids dev|g st|]; cbn in *.
    + destruct Hp as [Hp Hu]. destruct (result_run d s uuids dev IH Hp Hu) as (s1 & E & F & _). rewrite E in Hs. by injection Hs as <-.
    + destruct (change_run s g st IH Hp) as (s1 & E & F & _). rewrite E in Hs. by injection Hs as <-.
    + destruct (close_run s IH) as (s1 & E & F & _). rewrite E in Hs. by injection Hs as <-.
Qed.

Lemma never_throws d s e : fine s -> possible s e -> exists s', perform d e s = (Ok tt, s') /\ fine s'.
Proof.
  intros Hf Hp. destruct e as [uuids dev|g st|]; cbn in *.
  - destruct Hp as [Hp Hu]. destruct (result_run d s uuids dev Hf Hp Hu) as (s1 & E & F & _). by exists s1.
  - destruct (change_run s g st Hf Hp) as (s1 & E & F & _). by exists s1.
  - destruct (close_run s Hf) as (s1 & E & F & _). by exists s1.
Qed.

Lemma one_open s i j x y : fine s -> gatts s !! i = Some x -> gatts s !! j = Some y -> open_ x = true -> open_ y = true -> i = j.
Proof.
  intros [_ Hp] Hi Hj Hx Hy. destruct Hp as [k _ _ _ _ H|k g dev _ _ _ _ _ H|_ _ _ H].
  - by rewrite (Forall_lookup_1 _ _ _ _ H Hi) in Hx.
  - rewrite (H _ _ Hi) in Hx. rewrite (H _ _ Hj) in Hy. apply bool_decide_eq_true in Hx, Hy. congruence.
  - by rewrite (Forall_lookup_1 _ _ _ _ H Hi) in Hx.
Qed.

(** ** The boards *)

Definition service_val (d : device) : Z := match d with SENDER => BT_UUID_LSES_VAL | RECEIVER => BT_UUID_LRES_VAL end.

(** Advertising data that are no lists of services. *)
Definition no_services (x : bt_data) : Prop := ~ 0x02 <= Board.type x <= 0x07.

Section boards.
(** Android's reading of advertising data. *)
Context (getServiceUuids : list bt_data -> option (list UUID)).
(** A complete list of one 16-bit service is read as its 128-bit form. *)
Hypothesis uuid16_listed : forall pre lo hi post, Forall no_services (pre ++ post) ->
  getServiceUuids (pre ++ BT_DATA BT_DATA_UUID16_ALL [lo; hi] :: post) = Some [uuid_to_uuid128 (UUID_16 (lo + 256 * hi))].

Lemma board_listed b name : Forall no_services name -> getServiceUuids (ad (service_val b) ++ name) = Some [uuid_to_uuid128 (UUID_16 (service_val b))].
Proof.
  intros Hn. change (ad (service_val b) ++ name) with
    ([BT_DATA BT_DATA_FLAGS [6]] ++ BT_DATA BT_DATA_UUID16_ALL (BT_UUID_16_ENCODE (service_val b)) :: name). unfold BT_UUID_16_ENCODE.
  rewrite uuid16_listed by (apply Forall_app; split; [constructor; [intros []; done|constructor]|done]). by destruct b.
Qed.

Lemma board_advertises d b : advertises d (Some [uuid_to_uuid128 (UUID_16 (service_val b))]) = bool_decide (d = b).
Proof. by destruct d, b; vm_compute. Qed.

End boards.

(** A reading of advertising data with this property. *)
Definition read_services (l : list bt_data) : option (list UUID) :=
  match List.filter (fun x => Board.type x =? BT_DATA_UUID16_ALL) l with
  | [BT_DATA _ [lo; hi]] => Some [uuid_to_uuid128 (UUID_16 (lo + 256 * hi))]
  | _ => None
  end.

Lemma read_services_ok pre lo hi post : Forall no_services (pre ++ post) ->
  read_services (pre ++ BT_DATA BT_DATA_UUID16_ALL [lo; hi] :: post) = Some [uuid_to_uuid128 (UUID_16 (lo + 256 * hi))].
Proof.
  intros H. apply Forall_app in H as [H1 H2]. assert (Hf : forall l, Forall no_services l -> List.filter (fun x => Board.type x =? BT_DATA_UUID16_ALL) l = []).
  { induction 1 as [|x l Hx Hl IH]; [done|]. cbn. destruct (Z.eqb_spec (Board.type x) BT_DATA_UUID16_ALL) as [E|]; [|done]. destruct Hx. rewrite E. by vm_compute. }
  unfold read_services. rewrite List.filter_app, (Hf pre H1). cbn [List.filter app Board.type]. rewrite (Hf post H2). done.
Qed.

Definition scanning_now : scanner := mk_scanner true true true (Some 0%nat) [mk_central None true] [] [].


(** ** Bluetooth off *)

(** [enable] returns before the adapter is on, and the scan is started at
    once, on a null pointer. *)
Theorem bluetooth_off_crashes : fst (ble_connect (BLEHandler false)) = Throw NullPointer.
Proof. reflexivity. Qed.

(** If the adapter is switched off while the app is connected, the loss of the
    connection starts a scan in the same way. *)
Theorem bluetooth_lost_crashes d s g dev s1 : reaches d s -> onScanResult d (Some [uuid_to_uuid128 (UUID_16 (service_val d))]) dev s = (Ok tt, s1) ->
  scanning s = true -> g = length (gatts s) -> fst (state_changed g STATE_DISCONNECTED (set_adapter false s1)) = Throw NullPointer.
Proof.
  intros Hr E Hs ->. pose proof (reaches_fine d s Hr) as Hf.
  destruct (result_run d s (Some [uuid_to_uuid128 (UUID_16 (service_val d))]) dev Hf Hs) as (s' & E' & Hf' & H); [done|]. rewrite E in E'. injection E' as <-.
  rewrite board_advertises, bool_decide_eq_true_2 in H by done. destruct H as (Hsc & k & Hg). destruct Hf' as [_ Hp].
  assert (Hl : gatts s1 !! length (gatts s) = Some (mk_gatt dev true k)) by (rewrite Hg; by rewrite list_lookup_middle).
  destruct Hp as [k' _ _ H1 _ _|k' g dv H1 H2 _ _ H3 H4|_ _ _ H4]; [congruence| |by pose proof (Forall_lookup_1 _ _ _ _ H4 Hl)].
  pose proof (H4 _ _ Hl) as Hg'. symmetry in Hg'. apply bool_decide_eq_true in Hg'. subst g. rewrite H3 in Hl. injection Hl as -> ->.
  unfold state_changed, mbind, J_bind, field, orelse. cbn. rewrite H3. cbn. rewrite H2. done.
Qed.
