(* ===== verification/Sensors.v ===== *)
(** * Location and orientation in the app (LocationHandler.java,
    AccelerometerHandler.java)

    What the callbacks of the sensors show on a screen. Android's locations
    and its computations on them are parameters. *)
From S2P Require Import Prelude Java Phone PhoneScreens.
From stdpp Require Import prelude list numbers strings.
From Stdlib Require Import ZArith Lia.
Open Scope Z_scope.

(** ** LocationHandler *)

Section location.
(** Android's [Location]: the coordinates as text, whether the latitude or the
    longitude is the number -1, and the distance between two. *)
Context {Location : Type} (latitude longitude altitude : Location -> text).
Context (latitude_missing longitude_missing : Location -> bool) (distanceTo : Location -> Location -> text).

(** The views a screen passes may be null; [texts] is what they were set to. *)
Record LocationHandler := mk_handler {
  currentLocation : option Location;
  taggedLocation : option Location;
  distTextView : bool;
  distToSenderTextView : bool;
  senderLocation : option Location;
  texts : list act }.

Definition set_location (x : option Location) (h : LocationHandler) : LocationHandler :=
  mk_handler x (taggedLocation h) (distTextView h) (distToSenderTextView h) (senderLocation h) (texts h).
Definition set_tag (x : option Location) (h : LocationHandler) : LocationHandler :=
  mk_handler (currentLocation h) x (distTextView h) (distToSenderTextView h) (senderLocation h) (texts h).
Definition show (a : act) : J LocationHandler unit := assign (fun h =>
  mk_handler (currentLocation h) (taggedLocation h) (distTextView h) (distToSenderTextView h) (senderLocation h) (texts h ++ [a])).

(** What the screens ask for with [getLatitude], [getLongitude] and [getAltitude]. *)
Definition known (h : LocationHandler) : location := (fun l => (latitude l, longitude l, altitude l)) <$> currentLocation h.

Definition handleDistToSenderView : J LocationHandler unit :=
  s ← field senderLocation;
  s ← orelse NullPointer s;
  if negb (latitude_missing s) && negb (longitude_missing s) then
    c ← field currentLocation;
    match c with
    | Some c => show (SetText "distToSenderTextView" (txt "distance: " ++ distanceTo c s))
    | None => show (SetText "distToSenderTextView" (txt "no gps data available here yet"))
    end
  else show (SetText "distToSenderTextView" (txt "no sender location available yet")).

Definition show_coordinates (lat lon alt : text) : J LocationHandler unit :=
  show (SetText "latTextView" (txt "latitude: " ++ lat));;
  show (SetText "longTextView" (txt "longitude: " ++ lon));;
  show (SetText "altTextView" (txt "altitude: " ++ alt ++ txt " m")).

Definition onLocationChanged (location : Location) : J LocationHandler unit :=
  assign (set_location (Some location));;
  d ← field distToSenderTextView;
  (if d : bool then handleDistToSenderView else mret tt);;
  l ← field known;
  show_coordinates (getLatitude l) (getLongitude l) (getAltitude l);;
  t ← field taggedLocation;
  match t with
  | Some t =>
      v ← field distTextView;
      if v : bool then show (SetText "distTextView" (txt "distance: " ++ distanceTo location t)) else mret tt
  | None => mret tt
  end.

(** [setupGPS]; the permission and the last known location are Android's. *)
Definition setupGPS (permitted : bool) (firstLocation : option Location) : J LocationHandler unit :=
  if negb permitted then mret tt
  else
    assign (set_location firstLocation);;
    d ← field distToSenderTextView;
    (if d : bool then handleDistToSenderView else mret tt);;
    match firstLocation with
    | Some l => show_coordinates (latitude l) (longitude l) (altitude l)
    | None => mret tt
    end.

(** The constructor. *)
Definition newLocationHandler (dist distToSender : bool) (sender : option Location) (permitted : bool)
    (firstLocation : option Location) : result unit * LocationHandler :=
  setupGPS permitted firstLocation (mk_handler None None dist distToSender sender []).

Definition tagLocation : J LocationHandler unit :=
  c ← field currentLocation;
  match c with
  | Some c =>
      assign (set_tag (Some c));;
      v ← field distTextView;
      if v : bool then show (SetText "distTextView" (txt "distance: 0")) else mret tt
  | None => show (Toast (txt "No location available for tagging"))
  end.

(** ** What a screen shows *)

Inductive happens := Update (l : Location) | Tag.

Definition react (e : happens) : J LocationHandler unit := match e with Update l => onLocationChanged l | Tag => tagLocation end.
Fixpoint reacts (l : list happens) : J LocationHandler unit := match l with [] => mret tt | e :: l => react e;; reacts l end.

(** The last location reported, and the one that was current at the last tag. *)
Definition last_two (now tag : option Location) (l : list happens) : option Location * option Location :=
  fold_left (fun '(now, tag) e => match e with Update l => (Some l, tag) | Tag => (now, if now is Some _ then now else tag) end) l (now, tag).

(** The view for the sender is there only with the sender's location. *)
Definition usable (h : LocationHandler) : Prop := distToSenderTextView h = true -> is_Some (senderLocation h).
Definition same_screen (h h' : LocationHandler) : Prop :=
  distTextView h' = distTextView h /\ distToSenderTextView h' = distToSenderTextView h /\ senderLocation h' = senderLocation h.

Lemma sender_view_run h : is_Some (senderLocation h) -> exists a, handleDistToSenderView h =
  (Ok tt, mk_handler (currentLocation h) (taggedLocation h) (distTextView h) (distToSenderTextView h) (senderLocation h) (texts h ++ [a])).
Proof.
  destruct h as [c t v w s k]. cbn. intros [x ->]. unfold handleDistToSenderView, mbind, J_bind, field. cbn.
  destruct (negb _ && negb _); [destruct c|]; by eexists.
Qed.

Lemma react_run e h : usable h -> exists h', react e h = (Ok tt, h') /\ same_screen h h' /\
  (currentLocation h', taggedLocation h') = last_two (currentLocation h) (taggedLocation h) [e].
Proof.
  destruct h as [c t v w x k]. unfold usable. cbn. intros Hu. destruct e as [l|]; cbn [react].
  - assert (E : exists k', (if w then handleDistToSenderView else mret tt) (mk_handler (Some l) t v w x k) =
      (Ok tt, mk_handler (Some l) t v w x k')).
    { destruct w; [|by eexists]. destruct (sender_view_run (mk_handler (Some l) t v true x k) (Hu eq_refl)) as [a ->]. by eexists. }
    destruct E as [k' E]. unfold onLocationChanged. rewrite jbind_assign, jbind_field. cbn [set_location distToSenderTextView taggedLocation distTextView senderLocation texts].
    rewrite (jbind_ok _ _ _ _ _ E). unfold show_coordinates, show, mbind, J_bind, field, assign. cbn.
    destruct t as [t|]; [destruct v|]; by eexists.
  - unfold tagLocation, show, mbind, J_bind, field, assign. cbn. destruct c as [c|]; cbn; [destruct v|]; by eexists.
Qed.

(** Whatever is reported and tagged, nothing is thrown; the screens read the
    last location reported, and the distance is measured from the last one
    that was tagged when a location was known. *)
Theorem locations_followed l h : usable h -> exists h', reacts l h = (Ok tt, h') /\ same_screen h h' /\
  (currentLocation h', taggedLocation h') = last_two (currentLocation h) (taggedLocation h) l.
Proof.
  revert h. induction l as [|e l IH]; intros h Hu; [by exists h|]. destruct (react_run e h Hu) as (h1 & E & (S1 & S2 & S3) & C).
  destruct (IH h1) as (h2 & E2 & (T1 & T2 & T3) & C2). { unfold usable. rewrite S2, S3. exact Hu. }
  exists h2. split; [cbn [reacts]; by rewrite (jbind_ok _ _ _ _ _ E)|]. split; [split; [congruence|split; congruence]|].
  rewrite C2. unfold last_two in *. cbn [fold_left] in *. rewrite <- C. done.
Qed.

(** The constructor leaves a handler the callbacks can use, with what Android
    knew before, provided the view for the sender comes with its location. *)
Theorem handler_ready dist distToSender sender permitted first :
  (distToSender = true -> is_Some sender) -> exists h, newLocationHandler dist distToSender sender permitted first = (Ok tt, h) /\
  usable h /\ currentLocation h = (if permitted then first else None) /\ taggedLocation h = None.
Proof.
  intros Hu. unfold newLocationHandler, setupGPS. destruct permitted; [|by eexists]. cbn [negb]. rewrite jbind_assign, jbind_field.
  cbn [set_location distToSenderTextView taggedLocation distTextView senderLocation texts].
  assert (E : exists k, (if distToSender then handleDistToSenderView else mret tt) (mk_handler first None dist distToSender sender []) =
    (Ok tt, mk_handler first None dist distToSender sender k)).
  { destruct distToSender; [|by eexists]. destruct (sender_view_run (mk_handler first None dist true sender []) (Hu eq_refl)) as [a ->]. by eexists. }
  destruct E as [k E]. rewrite (jbind_ok _ _ _ _ _ E). destruct first; by eexists.
Qed.
End location.

(** ** AccelerometerHandler *)

Section accelerometer.
(** [i], and the texts shown. *)
Record Accelerometer := mk_accelerometer { i : Z; shown : list text }.

(** The numbers as [DecimalFormat] writes them. *)
Definition orientation (v : text * text * text) : text :=
  let '(x, y, z) := v in txt "x: " ++ x ++ txt ", y: " ++ y ++ txt ", z: " ++ z.

Definition onSensorChanged (values : text * text * text) (a : Accelerometer) : Accelerometer :=
  let a := if i a =? 14 then mk_accelerometer 0 (shown a ++ [orientation values]) else a in
  mk_accelerometer (jint (i a + 1)) (shown a).

(** The values that are shown: every 14th, from the 15th on. *)
Fixpoint every14 {A} (k : nat) (l : list A) : list A :=
  match l with
  | [] => []
  | v :: l => match k with O => v :: every14 13 l | S k => every14 k l end
  end.

Theorem every_14th_shown l a : 0 <= i a <= 14 -> shown (fold_left (fun a v => onSensorChanged v a) l a) = shown a ++ (orientation <$> every14 (Z.to_nat (14 - i a)) l).
Proof.
  revert a. induction l as [|v l IH]; intros a Ha; [by rewrite app_nil_r|]. cbn [fold_left every14]. unfold onSensorChanged at 2.
  destruct (Z.eqb_spec (i a) 14) as [E|N].
  - rewrite E. cbn [i shown]. rewrite jint_id by lia. rewrite IH by (cbn [i]; lia). cbn [i shown]. rewrite <- app_assoc. done.
  - rewrite jint_id by lia. rewrite IH by (cbn [i]; lia). cbn [i shown].
    replace (Z.to_nat (14 - i a)) with (S (Z.to_nat (14 - (i a + 1)))) by lia. done.
Qed.
End accelerometer.
